(* ===== verification/_CoqProject ===== *)
-Q . S2P
Prelude.v
Text.v
Errors.v
Types.v
AuditLog.v
World.v
Validation.v
Logic.v
Repos.v
Bans.v
Tokens.v
Auth.v
Concrete.v
BanProofs.v
TokenSpec.v
TokenProofs.v
TokenTheorems.v
AuthProofs.v
Tasks.v
TaskProofs.v
TaskTheorems.v
ForwardTextures.v
Sessions.v
SessionProofs.v
ProfileTextures.v
PropertyProofs.v
AuthConfig.v
Accounts.v
WebSessions.v
AccountFlows.v
AccountSpec.v
AccountOps.v
AccountProofs.v
AccountConcrete.v
AccountTheorems.v
AccountSignIn.v
AccountRegistration.v
SessionPages.v
Invitations.v
Tracks.v
InvitationProofs.v
YggdrasilConfig.v
ConfigProofs.v
ObjectStorage.v
TextureRepo.v
TextureProcessing.v
TextureService.v
TextureWardrobe.v
TextureLibrary.v
TextureInvariant.v
BlobProofs.v
TextureTheorems.v
LibraryProofs.v
WardrobeProofs.v
Profiles.v
ProfileProofs.v
ProfileTheorems.v
ForwardServers.v
ForwardServerProofs.v
ExternalAuth.v
UserProfiles.v
Passkeys.v
ExternalResolution.v
ExternalLogin.v
MinecraftBinding.v
ExternalProviders.v
AdminUsers.v
ExternalProofs.v
ExternalTheorems.v
BindingProofs.v
AdminProofs.v
PasskeyProofs.v
RuntimeTasks.v
RuntimeTaskProofs.v
Captcha.v
ApiGuards.v
AuthRoutes.v
AdminRoutes.v
SiteRoutes.v
ApiProofs.v
