(* ===== verification/Prelude.v ===== *)
(** * AsterYggdrasil: a verification development

    AsterYggdrasil is a Minecraft authentication and skin server: it speaks
    the Yggdrasil protocol to launchers and game servers, manages bans,
    profiles and textures, forwards session checks to upstream servers and
    runs background tasks.  This library models the parts of the Rust program
    that decide who is let in and what they are given, and proves what those
    parts guarantee.  All paths below are under [src/src/].

    ** How the program is modelled

    A handler is a state-passing program [M E A] (World.v) over a [World]: the
    database tables, the cache, the audit log and a tick counter.  Every
    awaited statement takes one tick; the class [Env] says, tick by tick, what
    the clock reads, whether the statement fails, and what random sources
    return, so a theorem covers every clock, every failure and every draw.
    Outcomes ([outcome], below) are a value, an error or a panic.  Tables are
    lists of rows with a key sequence; statements are filters, updates,
    insertions with their unique indexes, and deletions.  The reader and the
    writer connection are one database.  Instants are nanoseconds in [Z];
    integers are [Z] with the conversions and wrap-around the code writes;
    strings are the bytes of their UTF-8 encoding (Text.v).  Log lines of
    [tracing] and metrics are left out.

    Code that is not in the repository is a class with the laws that document
    it, and every theorem holds for all its instances: [CacheBackend] with
    [CacheLaws] (entries may vanish, are never invented, expire, and are gone
    once deleted), [TxnManager] with [TxnLaws] (a transaction commits its body
    or leaves the tables as they were), [FileSystem] under the local object
    storage, [ImageCodec] (PNG), [ForgeCrypto] with [Sha256Laws],
    [ForgeNumbers], [ForgeCounts], [TextureNumbers], [Chrono],
    [ChronoSeconds], [BanExterns], [TaskExterns], [TextureExterns] (JSON,
    base64, URLs, RSA), [SessionExterns], [ProfileExterns] and
    [HttpTransport] (HTTP), [SkinExterns], [OfficialTextures],
    [PreviewPolicy], [TextSearch] (SQL LIKE), [Unicode], [AccountExterns] and
    [SetupExterns] (passwords, mail, configuration rows), [Jwt],
    [ForgeConfig], [ForgeEmail], [ForgeApi], [YggdrasilExterns],
    [ForgeExternalAuth] (the provider library), [ProviderInputs],
    [ExternalRandom], [LinuxDoJson], [BindingExterns], [AvatarImages],
    [Webauthn] (the library of the passkey ceremonies), [RuntimeTaskTypes] and
    [RuntimeTaskExterns] (names, keys and JSON of the task library),
    [CaptchaLibrary], [CsrfLibrary] with [CsrfLaws], [Validator],
    [ForgePages] and [ForgeTagCursor] (the request library).
    [ObjectStorage] and [BackgroundTaskSpec] are traits of the code; the laws
    of the first are shown of the local implementation.  Concrete.v, AccountConcrete.v and the ends of
    the proof files give instances that satisfy these laws, on which the
    theorems are applied.  [RuntimeConfig] and [ConfigStore] are the
    configuration snapshot a handler reads.

    ** The files

    - Prelude, Text: lists of rows, stable sorting, options; Rust strings.
    - Errors ([errors.rs], [api/error_code.rs], [task_service/retry.rs],
      [yggdrasil_service/error.rs]): error codes, their wire names and the
      conversions between error types.  AuditLog ([types/audit.rs],
      [config/audit.rs]): the recorded-action mask.  Types ([types/],
      [entities/], the policy record of [config/yggdrasil.rs]): enumerations
      and rows.
    - World, Logic: the tables, the cache, the object storage; programs,
      transactions and proof rules.  Tracks: two classes of programs, those
      that move the tables along a preorder and those that keep an invariant
      of the whole world.
    - Validation ([api/dto/validation.rs]): the profile validators.
    - Repos ([db/repository/user_repo.rs], [minecraft_profile_repo.rs]).
    - Bans, BanProofs ([types/user.rs], [user_ban_repo.rs],
      [services/ban_service.rs]): bans, their events and [is_user_banned].
    - Tokens, TokenSpec, TokenProofs, TokenTheorems
      ([yggdrasil_token_repo.rs], [yggdrasil_service/token.rs], [cache.rs]):
      access tokens.
    - Auth, AuthProofs ([yggdrasil_service/auth.rs], [login.rs],
      [audit_service/]): authenticate, refresh, validate, invalidate, signout.
    - Tasks, TaskProofs, TaskTheorems
      ([db/repository/background_task_repo/], [services/task_service/]): the
      task queue.
    - ForwardTextures, Sessions, SessionProofs
      ([yggdrasil_service/session.rs], [yggdrasil_signature.rs],
      [yggdrasil_session_forward_server_repo.rs]): join and hasJoined.
      ForwardServers, ForwardServerProofs
      ([yggdrasil_session_forward_service.rs]): the administration of the
      upstream servers.
    - ProfileTextures, PropertyProofs
      ([minecraft_profile_texture_repo.rs], [properties.rs],
      [texture_service/default_skin.rs]): bindings, texture URLs, properties.
    - AuthConfig, YggdrasilConfig, ConfigProofs ([config/auth_runtime.rs],
      [local_email_policy.rs], [config/yggdrasil.rs] and parts of
      [site_url.rs], [branding.rs], [avatar.rs]): typed policies over the
      key-value snapshot.
    - Accounts, WebSessions, AccountFlows ([services/auth_service.rs] and its
      modules, [profile_service/info.rs], [auth_session_repo.rs],
      [contact_verification_token_repo.rs], the writes of [user_repo.rs]):
      accounts and what a response shows of one; login, token pairs, refresh
      rotation, logout and the lists of sessions; registration, activation,
      e-mail changes, password changes and resets.
    - AccountSpec, AccountOps, AccountProofs, and the theorems of accounts:
      AccountTheorems, AccountSignIn (with [AllOrNothing], the
      class of programs that change no table when they fail),
      AccountRegistration, SessionPages.
    - Invitations, InvitationProofs ([services/user_invitation_service.rs],
      [user_invitation_repo.rs]): invitations and their acceptance.
    - ObjectStorage ([object_storage/]), TextureRepo (the texture
      repositories of [db/repository/]), TextureProcessing (the modules of [texture_service/]),
      TextureService, TextureWardrobe, TextureLibrary
      ([services/texture_service.rs], [config/texture_library.rs]): uploads,
      the wardrobe, what is bound to a profile, the reviewed public library
      and its reports, and the blobs behind them.
    - TextureInvariant, BlobProofs, TextureTheorems, LibraryProofs,
      WardrobeProofs: their theorems.
    - Profiles ([yggdrasil_service.rs],
      [yggdrasil_service/profile.rs], [mojang.rs], [metadata.rs],
      [minecraft_services.rs]): profiles are created, renamed, deleted and
      looked up; what the game client asks.  ProfileProofs,
      ProfileTheorems: their theorems.
    - ExternalAuth ([types/external_auth.rs], [external_auth_*_repo.rs]),
      ExternalResolution, ExternalLogin, MinecraftBinding and
      ExternalProviders ([services/external_auth_service/],
      [external_auth/]): accounts from a provider's claims, the login and its
      callback, addresses proved by mail, links by password, Minecraft
      accounts bound through Microsoft, and the administration of providers.
      ExternalProofs, ExternalTheorems, BindingProofs: their theorems.
    - UserProfiles ([services/profile_service/], [user_profile_repo.rs]):
      display names and uploaded avatars.  AdminUsers, AdminProofs
      ([services/admin_user_service.rs], [user_operator_scope_repo.rs], the
      administrator's statements of [user_repo.rs]): accounts are listed,
      created, edited, signed out and deleted by administrators.  AdminProofs
      also follows the invitations through the deletion of users.
    - Passkeys, PasskeyProofs ([services/passkey_service.rs],
      [passkey_repo.rs]): registrations and sign-ins with passkeys, whose
      challenges wait in the cache.
    - RuntimeTasks, RuntimeTaskProofs ([task_service/create.rs],
      [runtime.rs], [presentation.rs], [types.rs], [spec/], the listing and
      the retry of [admin.rs], [tasks/runtime.rs]): tasks are created, the
      runs of the periodic jobs become rows of the task table, and an
      administrator is shown them.
    - Captcha ([services/captcha_service.rs]): challenges and the answers to
      them, with its theorem.
    - ApiGuards ([api/request_auth.rs], [api/middleware/],
      [api/dto/validation.rs], [api/cache.rs] and the cookies of
      [api/routes/auth/cookies.rs]): what of a request decides who may do
      what.  AuthRoutes ([api/routes/auth.rs]), AdminRoutes
      ([admin/mod.rs], [admin/users.rs], [admin/user_bans.rs]) and SiteRoutes
      ([profiles.rs], [wardrobe.rs], [texture_library.rs]): the handlers,
      from the request to the services above.  ApiProofs: their theorems.

    Components meet at interfaces.  A handler asks [Bans.is_user_banned] about
    bans and [Tokens.token_for_operation] about tokens, and the session
    handlers ask the class [Sessions.ProfileProperties] for a profile's
    properties; its laws are all SessionProofs.v uses, and
    [PropertyProofs.implementation_laws] shows that the code keeps them.  The
    texture services see storage through [ObjectStorage] and its laws alone.
    The account services read their policies through [ConfigStore] and
    [ForgeConfig], whose laws are the ranges of its readers.  The external
    sign-in creates accounts and profiles by the operations of Accounts and
    Profiles, and its theorems use theirs.

    ** What is proved

    - Tokens.  TokenSpec.v is an abstract machine (a token is issued, live
      tokens are revoked, dead ones deleted) with the table's invariant and
      the coherence of the cache; each operation refines it.  A check accepts
      only a token of the table that was not revoked, expired or bound to
      another client; a refresh is atomic; issuing keeps a user within the
      token limit; revoking, signing out and cleaning up are exact, and from a
      coherent cache a revoked token is never accepted again by operations
      that follow, as long as none of them is a mass revocation that fails.
      Interleavings and failures that break this are theorems too (a check
      that overlaps a revocation, a failing mass revocation, a lifetime that
      overflows a date).
    - Authentication.  Who gets a token, for which profile, and that a banned,
      disabled or unverified user does not.
    - Bans.  Every history of requests is a history of an abstract ban
      machine, each request is atomic, revocation is final, no duplicate is
      created, and [is_user_banned] is the stated predicate of the table.
    - Tasks.  Each row moves along a state machine; a worker that lost its
      lease can never write again; a lane stays within its limit; claims,
      worker writes, the administrator's retry and cleanup are exact.
    - Sessions.  hasJoined answers only for a recent join of that server by a
      user who is not banned, or for an upstream's valid answer; upstreams are
      tried by priority, drawn by weight; forwarded texture URLs lead back to
      the originals.  The upstream servers stay well formed under every
      history of their administration.
    - Accounts and web sessions.  AccountSpec.v states the invariant of the
      account tables (unique keys and indexes, links that are consumed once,
      sessions that are rotated or revoked and never come back) and the
      preorder of its histories; every handler keeps both.  A refresh token
      works once, a password change or reset ends the other sessions, a link
      is consumed by at most one success and its effect is all or nothing,
      access is granted only for the current session version of an account
      that may log in, issued tokens are accepted as far as the duty to change
      the password lets them, and paging through the
      sessions ends with every one of them listed once.
    - Invitations.  An invitation ends once and is only touched again when its
      inviter or the account it made is deleted; an acceptance is atomic,
      creates the one verified account it promises, and cannot be repeated.
    - Configuration.  Whatever the snapshot holds, the policies read from it
      are in range; the Yggdrasil policy lists the hosts of its own URLs, and
      the stored skin domains are in a normal form that reads back.
    - Profile properties.  The binding table is a map that each operation
      changes at one slot; the properties encode exactly the bound textures;
      invalidating the cache is complete for a profile and touches no other.
    - Textures.  Every history of requests, whatever fails in it, keeps each
      texture's blob stored; the library publishes only what a review
      approved; the orphan cleanup deletes exactly what nothing refers to, and
      the consistency check is silent exactly when the invariant holds; the
      optimistic replacement ends.  Where a stale replacement loses a blob and
      reports hide tags of a shared texture, concrete runs show it.
    - Profiles.  Every history keeps UUIDs and names unique and names valid;
      a rename and a deletion do exactly what they say to profile, tokens,
      bindings and cache; every name tried for a foreign user is valid.
    - External sign-in.  A callback signs in only the account of the claims a
      live flow's enabled provider returned (known, linked by address, or
      new); a state is good for one callback over every history; confirming
      an address and linking by password are all or nothing; an account keeps
      the links it may not drop; made-up user names are valid.  A Minecraft
      account is bound to the user the flow was started for, all or nothing;
      an administrator's form hides a provider's secret and keeps it.  A
      reserved name that is never provisioned, and a device code that binds
      through a disabled provider, are theorems too.
    - Administration of users.  No history of requests takes the super
      administrator's role or status away; the temporary passwords satisfy
      the policy; a user with an official profile cannot be deleted.
    - Passkeys.  A sign-in is that of the owner of the stored passkey the
      library verified, for a challenge that was waiting; a challenge signs in
      once, whatever requests follow; a registration adds one passkey to the
      account that asked for it or changes nothing; no history of others
      touches a user's passkeys.
    - Captcha.  A challenge is good for one success, and for a bounded number
      of guesses whatever requests come in between.
    - HTTP.  A write authorised by a cookie needs the token of the CSRF
      check, or changes nothing; a handler of the administrator API runs only
      for an administrator or an operator who holds the scope of its path.
      The site API of profiles asks for no CSRF token: a concrete run deletes
      a profile with the access cookie alone.
    - Runtime records.  What recording a run of a periodic job leaves, in
      every case; a scheduled run leaves one record however often it is
      recorded; no record is ever claimed by a worker or retried, over every
      history; the storage job is silent, succeeds or fails as the stored
      blobs are.

    ** Bounds

    Loops run on the structure of their data, but for these.  The two loops of
    the weighted order ([Sessions.weighted_draws], [weighted_groups]) take the
    number of servers as fuel; each round removes at least one server, and
    [SessionProofs.weighted_forward_order_correct] shows that the result is a
    permutation of all of them, so the fuel never runs out.  The replacement
    loop ([TextureWardrobe.replacement_loop]) takes the four rounds of the
    limit in the code, and [WardrobeProofs.replacement_loop_ends]
    shows that more fuel never changes its result.  The attempts at a user
    name for an external account are the code's five.

    ** What is not modelled, and why

    Audit entries are modelled without their JSON details, and the queue of
    the audit manager is the append-only log.  A JWT is a value with its claims
    ([WebSessions.Jwt]); its leeway is the library's.  Temporary files are the
    bytes they hold.  The timers, leases and panic handling of the periodic
    jobs and the executor loop of tasks belong to the task library.
    The tables of configuration definitions and the service that edits them
    are forms over the key-value snapshot the modelled policies read; mail
    templates, audit presentation and the overview of the administrator
    format what other components store.  Of the HTTP API, the routes of the
    Yggdrasil protocol, of the external sign-in and of the other
    administration are left out (they decode a request and call a modelled
    service), with multipart uploads, rate limits and CORS, which the web
    framework runs.  Rendering, migrations, metrics and the frontend are input
    and output and calls into libraries. *)

From Stdlib Require Import ZArith List Bool Lia Permutation Sorted Ascii.
From stdpp Require Import base decidable list strings.

Set Default Goal Selector "!".

(** ** Outcomes

    Rust's [Result<A, E>] with the third way a handler can end: a panic,
    which unwinds through every [?]. *)
Inductive outcome (E A : Type) : Type :=
| Ok (a : A)
| Err (e : E)
| Panic (message : string).
Arguments Ok {E A} _.
Arguments Err {E A} _.
Arguments Panic {E A} _.

(** [Result::and_then] *)
Definition and_then {E A B} (r : outcome E A) (k : A -> outcome E B) : outcome E B :=
  match r with Ok a => k a | Err e => Err e | Panic m => Panic m end.

(** [collect::<Result<Vec<_>>>()] *)
Fixpoint collect {E A B} (f : A -> outcome E B) (l : list A) : outcome E (list B) :=
  match l with
  | nil => Ok nil
  | cons a l => and_then (f a) (fun b => and_then (collect f l) (fun bs => Ok (cons b bs)))
  end.

Definition is_ok {E A} (r : outcome E A) : bool :=
  match r with Ok _ => true | _ => false end.

(** ** Rows of a table

    A table is the list of its rows in insertion order; the three shapes of
    statement the repositories issue are a selection, a bulk update and a
    bulk delete, each with the filter of the query builder as a predicate. *)
Section Rows.
Context {A : Type}.
Implicit Types (p : A -> bool) (f : A -> A) (l : list A).

Definition rows_where p l : list A := List.filter p l.
Definition update_where p f l : list A :=
  List.map (fun r => if p r then f r else r) l.
Definition delete_where p l : list A := List.filter (fun r => negb (p r)) l.
Definition count_where p l : nat := length (rows_where p l).

Lemma in_rows_where p l x : In x (rows_where p l) <-> In x l /\ p x = true.
Proof. apply List.filter_In. Qed.

Lemma in_delete_where p l x : In x (delete_where p l) <-> In x l /\ p x = false.
Proof.
  unfold delete_where. rewrite List.filter_In. by rewrite negb_true_iff.
Qed.

Lemma in_update_where p f l y :
  In y (update_where p f l) <->
  exists x, In x l /\ y = if p x then f x else x.
Proof.
  unfold update_where. rewrite in_map_iff. split; intros (x & Hx & Hin); eauto.
Qed.

Lemma length_update_where p f l : length (update_where p f l) = length l.
Proof. apply length_map. Qed.

Lemma update_where_id p f l :
  (forall x, In x l -> p x = false) -> update_where p f l = l.
Proof.
  intros H. unfold update_where. rewrite <- (map_id l) at 2.
  apply map_ext_in. intros x Hx. by rewrite H.
Qed.

(** A field the update does not touch keeps its column of values. *)
Lemma update_where_map {B} (g : A -> B) p f l :
  (forall x, g (f x) = g x) ->
  List.map g (update_where p f l) = List.map g l.
Proof.
  intros H. unfold update_where. rewrite map_map. apply map_ext.
  intros x. destruct (p x); auto.
Qed.

Lemma rows_where_app p l1 l2 :
  rows_where p (l1 ++ l2) = rows_where p l1 ++ rows_where p l2.
Proof. apply List.filter_app. Qed.

Lemma rows_where_none p l :
  (forall x, In x l -> p x = false) -> rows_where p l = [].
Proof.
  intros H. unfold rows_where. induction l as [|a l IH]; [done|].
  cbn. rewrite H by (left; done). apply IH. intros x Hx. apply H. by right.
Qed.

Lemma rows_where_ext p q l :
  (forall x, In x l -> p x = q x) -> rows_where p l = rows_where q l.
Proof. intros H. by apply List.filter_ext_in. Qed.

Lemma rows_where_and p q l :
  rows_where p (rows_where q l) = rows_where (fun x => p x && q x) l.
Proof.
  unfold rows_where. induction l as [|a l IH]; [done|].
  cbn. destruct (q a); cbn; [destruct (p a); cbn; by rewrite IH|].
  by rewrite andb_false_r.
Qed.

Lemma length_delete_where p l : (length (delete_where p l) + count_where p l = length l)%nat.
Proof.
  unfold delete_where, count_where, rows_where. induction l as [|a l IH]; [done|].
  cbn. destruct (p a); cbn; lia.
Qed.

(** Something was counted. *)
Lemma count_where_pos p l : (0 < count_where p l)%nat -> exists x, In x l /\ p x = true.
Proof.
  unfold count_where. destruct (rows_where p l) as [|x r] eqn:E; cbn; [lia|]. intros _.
  exists x. apply in_rows_where. rewrite E. by left.
Qed.

Lemma delete_where_ext p q l :
  (forall x, In x l -> p x = q x) -> delete_where p l = delete_where q l.
Proof. intros H. apply List.filter_ext_in. intros x Hx. by rewrite H. Qed.

Lemma delete_where_nothing l : delete_where (fun _ => false) l = l.
Proof. unfold delete_where. induction l as [|a l IH]; [done|]. cbn in *. by f_equal. Qed.

Lemma delete_where_again p q l :
  delete_where p (delete_where q l) = delete_where (fun x => q x || p x) l.
Proof.
  unfold delete_where. induction l as [|a l IH]; cbn; [done|].
  destruct (q a); cbn; [done|]. destruct (p a); cbn; by rewrite IH.
Qed.

(** Selecting after a bulk update that only touches rows of the selection. *)
Lemma rows_where_update_where q p f l :
  rows_where q (update_where p f l) =
  List.map (fun r => if p r then f r else r)
           (rows_where (fun r => q (if p r then f r else r)) l).
Proof.
  unfold rows_where, update_where.
  induction l as [|a l IH]; [done|].
  cbn. destruct (q (if p a then f a else a)); cbn; by rewrite IH.
Qed.

Lemma NoDup_map_rows_where {B} (g : A -> B) p l :
  List.NoDup (List.map g l) -> List.NoDup (List.map g (rows_where p l)).
Proof.
  unfold rows_where. induction l as [|a l IH]; [done|].
  cbn. rewrite List.NoDup_cons_iff. intros [Hn Hd].
  destruct (p a); cbn; [|by apply IH].
  apply List.NoDup_cons; [|by apply IH].
  rewrite in_map_iff. intros (x & Hx & Hin). apply Hn.
  apply List.filter_In in Hin. apply in_map_iff. exists x. tauto.
Qed.

(** [.one(db)]: the first row the filter accepts. *)
Definition find_row p l : option A := List.find p l.

Lemma find_row_some p l x : find_row p l = Some x -> In x l /\ p x = true.
Proof. apply List.find_some. Qed.

Lemma find_row_none p l :
  find_row p l = None <-> forall x, In x l -> p x = false.
Proof.
  split; [apply List.find_none|].
  intros H. unfold find_row. destruct (List.find p l) as [x|] eqn:E; [|done].
  apply List.find_some in E as [Hin Hp]. specialize (H x Hin). congruence.
Qed.

Lemma find_row_ext p q l :
  (forall x, In x l -> p x = q x) -> find_row p l = find_row q l.
Proof.
  unfold find_row. induction l as [|a l IH]; [done|]. intros H. cbn.
  rewrite (H a) by (left; done).
  destruct (q a); [done|]. apply IH. intros x Hx. apply H. by right.
Qed.

Lemma find_row_app p l1 l2 :
  find_row p (l1 ++ l2) = match find_row p l1 with Some a => Some a | None => find_row p l2 end.
Proof. unfold find_row. induction l1 as [|a l IH]; [done|]. cbn. by destruct (p a). Qed.

Lemma find_row_update_where (g : A -> Z) id f l r :
  (forall x, g (f x) = g x) -> find_row (fun x => g x =? id)%Z l = Some r ->
  find_row (fun x => g x =? id)%Z (update_where (fun x => g x =? id)%Z f l) = Some (f r).
Proof.
  intros Hf. unfold find_row, update_where. induction l as [|x l IH]; [done|]. cbn.
  destruct (g x =? id)%Z eqn:E; [|by rewrite E]. intros [= ->]. by rewrite Hf, E.
Qed.

(** Rows a lookup does not see. *)
Lemma find_row_update_other p q f l :
  (forall x, q x = true -> p (f x) = false /\ p x = false) ->
  find_row p (update_where q f l) = find_row p l.
Proof.
  intros H. unfold find_row, update_where. induction l as [|x l IH]; [done|]. cbn.
  destruct (q x) eqn:E; [destruct (H x E) as [-> ->]; apply IH|]. by destruct (p x).
Qed.

Lemma find_row_delete_where p q l :
  (forall x, q x = true -> p x = false) ->
  find_row p (delete_where q l) = find_row p l.
Proof.
  intros H. unfold find_row, delete_where. induction l as [|x l IH]; [done|]. cbn.
  destruct (q x) eqn:E; cbn; [by rewrite (H x E), IH|]. by destruct (p x).
Qed.

(** On a column without duplicates a lookup by value is exact. *)
Lemma find_row_unique {B} (g : A -> B) p l x :
  List.NoDup (List.map g l) -> In x l ->
  (forall y, p y = true <-> g y = g x) -> find_row p l = Some x.
Proof.
  intros Hnd Hin Hp. unfold find_row.
  induction l as [|a l IH]; [done|]. cbn in *.
  apply List.NoDup_cons_iff in Hnd as [Hn Hd].
  destruct (p a) eqn:Ea.
  - apply Hp in Ea. destruct Hin as [->|Hin]; [done|].
    exfalso. apply Hn. rewrite Ea. by apply in_map.
  - destruct Hin as [->|Hin]; [|auto].
    assert (p x = true) by (by apply Hp). congruence.
Qed.
End Rows.

(** ** Stable sorting

    [order_by_asc]/[order_by_desc] and [sort_by_key]: a stable insertion
    sort for the boolean order [leb]. *)
Section Sorting.
Context {A : Type} (leb : A -> A -> bool).

Fixpoint sort_insert (x : A) (l : list A) : list A :=
  match l with
  | [] => [x]
  | y :: ys => if leb x y then x :: y :: ys else y :: sort_insert x ys
  end.

Fixpoint sort_by (l : list A) : list A :=
  match l with
  | [] => []
  | x :: xs => sort_insert x (sort_by xs)
  end.

Lemma sort_insert_perm x l : Permutation (sort_insert x l) (x :: l).
Proof.
  induction l as [|y l IH]; cbn; [done|].
  destruct (leb x y); [done|]. rewrite IH. apply perm_swap.
Qed.

Lemma sort_by_perm l : Permutation (sort_by l) l.
Proof.
  induction l as [|x l IH]; cbn; [done|]. by rewrite sort_insert_perm, IH.
Qed.

Lemma length_sort_by l : length (sort_by l) = length l.
Proof. apply Permutation_length, sort_by_perm. Qed.

Lemma in_sort_by l x : In x (sort_by l) <-> In x l.
Proof.
  split; apply Permutation_in; [|symmetry]; apply sort_by_perm.
Qed.

Context (leb_total : forall x y, leb x y = true \/ leb y x = true).
Context (leb_trans : forall x y z, leb x y = true -> leb y z = true -> leb x z = true).

#[local] Abbreviation ordered := (StronglySorted (fun x y => leb x y = true)).

Lemma sort_insert_sorted x l : ordered l -> ordered (sort_insert x l).
Proof.
  induction 1 as [|y l Hs IH Hy]; cbn.
  - repeat constructor.
  - destruct (leb x y) eqn:E.
    + constructor; [by constructor|]. constructor; [done|].
      eapply List.Forall_impl; [|exact Hy]. cbn. eauto.
    + constructor; [done|].
      assert (leb y x = true) by (destruct (leb_total x y); congruence).
      apply List.Forall_forall. intros z Hz.
      apply (Permutation_in z (sort_insert_perm x l)) in Hz as [<-|Hz]; [done|].
      by eapply List.Forall_forall in Hy.
Qed.

Lemma sort_by_sorted l : ordered (sort_by l).
Proof.
  induction l as [|x l IH]; cbn; [constructor|]. by apply sort_insert_sorted.
Qed.
End Sorting.

(** A prefix of an ordered list precedes what is left of it. *)
Lemma StronglySorted_app {A} (R : A -> A -> Prop) (l1 l2 : list A) x y :
  StronglySorted R (l1 ++ l2) -> In x l1 -> In y l2 -> R x y.
Proof.
  induction l1 as [|a l1 IH]; cbn; [done|].
  inversion 1 as [|? ? Hs Hf]; subst. intros [->|Hx] Hy; [|auto].
  rewrite List.Forall_forall in Hf. apply Hf, in_or_app. by right.
Qed.

Lemma in_firstn_or_skipn {A} (n : nat) (l : list A) x :
  In x l <-> In x (firstn n l) \/ In x (skipn n l).
Proof. rewrite <- (firstn_skipn n l) at 1. apply in_app_iff. Qed.

(** [fold] with early exit: a [for] loop whose body can fail is in World.v;
    these are the pure list facts the loops need. *)
Lemma NoDup_app_disjoint {A} (l1 l2 : list A) x :
  List.NoDup (l1 ++ l2) -> In x l1 -> ~ In x l2.
Proof.
  induction l1 as [|a l1 IH]; cbn; [done|].
  rewrite List.NoDup_cons_iff, in_app_iff. intros [Hn Hd] [->|Hx]; [tauto|auto].
Qed.

Lemma NoDup_map_inj_in {A B} (g : A -> B) (l : list A) x y :
  List.NoDup (List.map g l) -> In x l -> In y l -> g x = g y -> x = y.
Proof.
  induction l as [|a l IH]; cbn; [done|].
  rewrite List.NoDup_cons_iff. intros [Hn Hd] [->|Hx] [->|Hy] E; auto.
  - exfalso. apply Hn. rewrite E. by apply in_map.
  - exfalso. apply Hn. rewrite <- E. by apply in_map.
Qed.

(** ** Options *)

Definition is_some {A} (o : option A) : bool :=
  match o with Some _ => true | None => false end.
Definition is_none {A} (o : option A) : bool := negb (is_some o).

(** [Option::is_none_or] and [Option::is_some_and]. *)
Definition is_none_or {A} (o : option A) (p : A -> bool) : bool :=
  match o with Some x => p x | None => true end.
Definition is_some_and {A} (o : option A) (p : A -> bool) : bool :=
  match o with Some x => p x | None => false end.

Lemma is_some_true {A} (o : option A) : is_some o = true <-> exists x, o = Some x.
Proof. destruct o; cbn; split; eauto; [done|]. by intros [? [=]]. Qed.

(** ** Decidable equality as a boolean *)

Definition eqb {A} `{EqDecision A} (x y : A) : bool := bool_decide (x = y).

Arguments eqb : simpl never.

Lemma eqb_true {A} `{EqDecision A} (x y : A) : eqb x y = true <-> x = y.
Proof. apply bool_decide_eq_true. Qed.
Lemma eqb_false {A} `{EqDecision A} (x y : A) : eqb x y = false <-> x <> y.
Proof. apply bool_decide_eq_false. Qed.
Lemma eqb_refl {A} `{EqDecision A} (x : A) : eqb x x = true.
Proof. by apply eqb_true. Qed.

Definition mem {A} `{EqDecision A} (x : A) (l : list A) : bool :=
  existsb (eqb x) l.

Lemma mem_true {A} `{EqDecision A} (x : A) l : mem x l = true <-> In x l.
Proof.
  unfold mem. rewrite existsb_exists. split.
  - intros (y & Hy & E). rewrite eqb_true in E. by subst.
  - intros H. exists x. split; [done|apply eqb_refl].
Qed.

Lemma mem_false {A} `{EqDecision A} (x : A) l : mem x l = false <-> ~ In x l.
Proof. rewrite <- (mem_true x l). destruct (mem x l); split; try done. Qed.

(** [Vec::dedup]: drop a value equal to its predecessor. *)
Fixpoint dedup {A} `{EqDecision A} (l : list A) : list A :=
  match l with
  | a :: ((b :: _) as l') => if eqb a b then dedup l' else a :: dedup l'
  | _ => l
  end.

Lemma dedup_cons {A} `{EqDecision A} (a b : A) l :
  dedup (a :: b :: l) = if eqb a b then dedup (b :: l) else a :: dedup (b :: l).
Proof. reflexivity. Qed.

Lemma in_dedup {A} `{EqDecision A} (l : list A) x : In x (dedup l) <-> In x l.
Proof.
  induction l as [|a [|b l] IH]; [done|done|].
  rewrite dedup_cons. destruct (eqb a b) eqn:E.
  - rewrite eqb_true in E. subst. rewrite IH. cbn. tauto.
  - cbn [In]. rewrite IH. cbn [In]. tauto.
Qed.

(** [Iterator::skip]. *)
Definition skip {A} (n : Z) (l : list A) : list A :=
  skipn (Z.to_nat (Z.min n (Z.of_nat (length l)))) l.

Lemma length_skip {A} n (l : list A) :
  (0 <= n)%Z -> Z.of_nat (length (skip n l)) = Z.max 0 (Z.of_nat (length l) - n).
Proof. intros Hn. unfold skip. rewrite length_skipn. lia. Qed.

Lemma in_skip {A} n (l : list A) x : In x (skip n l) -> In x l.
Proof. intros H. apply (in_firstn_or_skipn (Z.to_nat (Z.min n (Z.of_nat (length l))))). by right. Qed.

Create Rewrite HintDb rows.
#[export] Hint Rewrite @in_rows_where @in_delete_where @in_update_where
  @length_update_where @in_sort_by @eqb_true @eqb_false @mem_true @mem_false
  @andb_true_iff @orb_true_iff @negb_true_iff @andb_false_iff
  Z.ltb_lt Z.leb_le Z.ltb_ge Z.leb_gt Z.eqb_eq : rows.

(** Turn the boolean guards of the code into propositions. *)
Ltac reflect_guards := autorewrite with rows in *.

Lemma NoDup_app_singleton {A} (l : list A) x :
  List.NoDup l -> ~ In x l -> List.NoDup (l ++ [x]).
Proof.
  intros Hl Hx. apply NoDup_ListNoDup, NoDup_app. split; [by apply NoDup_ListNoDup|].
  split; [|apply NoDup_singleton]. intros y Hy%list_elem_of_In ->%list_elem_of_singleton. done.
Qed.
