(* ===== verification/Text.v ===== *)
(** * Rust strings

    A [String] is the byte string of its UTF-8 encoding.  This file holds what
    the services use of [str]: emptiness, [trim] (Unicode white space, byte by
    byte), [to_ascii_lowercase], [starts_with], [ends_with], [strip_prefix],
    [trim_end_matches], [contains] and [split], with the laws the components
    need. *)

From Stdlib Require Import ZArith List Bool Lia Ascii.
From stdpp Require Import base decidable list strings.
From S2P Require Import Prelude.

Local Open Scope nat_scope.

Definition is_empty (s : string) : bool :=
  match s with EmptyString => true | _ => false end.

Lemma is_empty_true s : is_empty s = true <-> s = EmptyString.
Proof. destruct s; cbn; split; congruence. Qed.

Fixpoint rev_bytes (l acc : list ascii) : list ascii :=
  match l with [] => acc | a :: l => rev_bytes l (a :: acc) end.

Definition bytes (s : string) : list ascii := String.list_ascii_of_string s.
Definition of_bytes (l : list ascii) : string := String.string_of_list_ascii l.

Lemma of_bytes_bytes s : of_bytes (bytes s) = s.
Proof. apply String.string_of_list_ascii_of_string. Qed.
Lemma length_bytes s : length (bytes s) = String.length s.
Proof. unfold bytes. induction s as [|a s IH]; cbn; [done|]. by rewrite IH. Qed.
Lemma bytes_of_bytes l : bytes (of_bytes l) = l.
Proof. apply String.list_ascii_of_string_of_list_ascii. Qed.

(** ** White space

    [char::is_whitespace]: U+0009..U+000D, U+0020, U+0085, U+00A0, U+1680,
    U+2000..U+200A, U+2028, U+2029, U+202F, U+205F and U+3000. *)

Definition is_ws1 (a : nat) : bool := ((9 <=? a) && (a <=? 13)) || (a =? 32).
Definition is_ws2 (a b : nat) : bool := (a =? 194) && ((b =? 133) || (b =? 160)).
Definition is_ws3 (a b c : nat) : bool :=
  ((a =? 225) && (b =? 154) && (c =? 128))
  || ((a =? 226) && (b =? 128)
      && (((128 <=? c) && (c <=? 138)) || (c =? 168) || (c =? 169) || (c =? 175)))
  || ((a =? 226) && (b =? 129) && (c =? 159))
  || ((a =? 227) && (b =? 128) && (c =? 128)).

Definition code (a : ascii) : nat := nat_of_ascii a.

Fixpoint trim_start_bytes (l : list ascii) : list ascii :=
  match l with
  | a :: l1 =>
      if is_ws1 (code a) then trim_start_bytes l1 else
      match l1 with
      | b :: l2 =>
          if is_ws2 (code a) (code b) then trim_start_bytes l2 else
          match l2 with
          | c :: l3 =>
              if is_ws3 (code a) (code b) (code c) then trim_start_bytes l3 else l
          | [] => l
          end
      | [] => l
      end
  | [] => []
  end.

(** The same scan on the reversed bytes: the last byte comes first. *)
Fixpoint trim_end_rev (l : list ascii) : list ascii :=
  match l with
  | a :: l1 =>
      if is_ws1 (code a) then trim_end_rev l1 else
      match l1 with
      | b :: l2 =>
          if is_ws2 (code b) (code a) then trim_end_rev l2 else
          match l2 with
          | c :: l3 =>
              if is_ws3 (code c) (code b) (code a) then trim_end_rev l3 else l
          | [] => l
          end
      | [] => l
      end
  | [] => []
  end.

Definition trim (s : string) : string :=
  of_bytes (List.rev (trim_end_rev (List.rev (trim_start_bytes (bytes s))))).

Example trim_ascii : trim "  griefing	 " = "griefing".
Proof. reflexivity. Qed.
Example trim_ideographic :
  trim (of_bytes (List.map ascii_of_nat [227;128;128;65;194;160])) = "A".
Proof. reflexivity. Qed.

(** Both scans stop: what they return has no white space left to strip. *)
Lemma trim_start_bytes_idem l :
  trim_start_bytes (trim_start_bytes l) = trim_start_bytes l.
Proof.
  remember (length l) as n eqn:Hn.
  revert l Hn. induction n as [n IH] using (well_founded_induction lt_wf).
  intros l ->.
  assert (go : forall l', (length l' < length l)%nat ->
    trim_start_bytes (trim_start_bytes l') = trim_start_bytes l').
  { intros l' H. by apply (IH (length l')). }
  clear IH. destruct l as [|a l1]; [done|]. cbn [trim_start_bytes].
  destruct (is_ws1 (code a)) eqn:Ea; [apply go; cbn; lia|].
  destruct l1 as [|b l2]; [cbn; by rewrite Ea|].
  destruct (is_ws2 (code a) (code b)) eqn:Eb; [apply go; cbn; lia|].
  destruct l2 as [|c l3]; [cbn; by rewrite Ea, Eb|].
  destruct (is_ws3 (code a) (code b) (code c)) eqn:Ec; [apply go; cbn; lia|].
  cbn. by rewrite Ea, Eb, Ec.
Qed.

(** ** ASCII case and affixes *)

Definition ascii_to_lower (a : ascii) : ascii :=
  if (65 <=? code a) && (code a <=? 90) then ascii_of_nat (code a + 32) else a.

Fixpoint to_ascii_lowercase (s : string) : string :=
  match s with
  | EmptyString => EmptyString
  | String a s => String (ascii_to_lower a) (to_ascii_lowercase s)
  end.

Lemma ascii_to_lower_idem a : ascii_to_lower (ascii_to_lower a) = ascii_to_lower a.
Proof. by destruct a as [[] [] [] [] [] [] [] []]. Qed.

Lemma to_ascii_lowercase_idem s :
  to_ascii_lowercase (to_ascii_lowercase s) = to_ascii_lowercase s.
Proof. induction s as [|a s IH]; cbn; [done|]. by rewrite ascii_to_lower_idem, IH. Qed.

Fixpoint strip_prefix (p s : string) : option string :=
  match p, s with
  | EmptyString, _ => Some s
  | String a p, String b s => if eqb a b then strip_prefix p s else None
  | String _ _, EmptyString => None
  end.

Definition starts_with (p s : string) : bool := is_some (strip_prefix p s).

Definition ends_with (suffix s : string) : bool :=
  starts_with (of_bytes (List.rev (bytes suffix))) (of_bytes (List.rev (bytes s))).

Lemma app_string_cons a p s : String a p +:+ s = String a (p +:+ s).
Proof. reflexivity. Qed.

Lemma strip_prefix_app p s : strip_prefix p (p +:+ s) = Some s.
Proof.
  induction p as [|a p IH]; [done|].
  rewrite app_string_cons. cbn [strip_prefix]. by rewrite eqb_refl.
Qed.

Lemma strip_prefix_some p s r : strip_prefix p s = Some r -> s = p +:+ r.
Proof.
  revert s. induction p as [|a p IH]; cbn; intros s.
  - by intros [= ->].
  - destruct s as [|b s]; [done|]. destruct (eqb a b) eqn:E; [|done].
    rewrite eqb_true in E. subst. intros H. by rewrite (IH _ H), app_string_cons.
Qed.

Lemma starts_with_iff p s : starts_with p s = true <-> exists r, s = p +:+ r.
Proof.
  unfold starts_with. rewrite is_some_true. split.
  - intros [r H]. exists r. by apply strip_prefix_some.
  - intros [r ->]. exists r. apply strip_prefix_app.
Qed.

Lemma app_string_assoc p s t : (p +:+ s) +:+ t = p +:+ (s +:+ t).
Proof. induction p as [|a p IH]; [done|]. by rewrite !app_string_cons, IH. Qed.

Lemma app_string_nil_r s : s +:+ EmptyString = s.
Proof. induction s as [|a s IH]; [done|]. by rewrite app_string_cons, IH. Qed.

Lemma app_string_inj p s t : p +:+ s = p +:+ t -> s = t.
Proof.
  induction p as [|a p IH]; [done|]. rewrite !app_string_cons. by intros [= H%IH].
Qed.

(** [is_ascii_hexdigit]. *)
Definition is_ascii_hexdigit (a : ascii) : bool :=
  let n := code a in
  ((48 <=? n) && (n <=? 57)) || ((65 <=? n) && (n <=? 70)) || ((97 <=? n) && (n <=? 102)).

(** [is_ascii_alphanumeric]. *)
Definition is_ascii_alphanumeric (a : ascii) : bool :=
  let n := code a in
  ((48 <=? n) && (n <=? 57)) || ((65 <=? n) && (n <=? 90)) || ((97 <=? n) && (n <=? 122)).

(** [str::len] counts bytes. *)
Definition str_len (s : string) : nat := String.length s.

(** [trim_start_matches('/')] and [trim_end_matches('/')]. *)
Fixpoint drop_leading (a : ascii) (l : list ascii) : list ascii :=
  match l with
  | b :: l' => if eqb a b then drop_leading a l' else l
  | [] => []
  end.
Definition trim_start_matches (a : ascii) (s : string) : string :=
  of_bytes (drop_leading a (bytes s)).
Definition trim_end_matches (a : ascii) (s : string) : string :=
  of_bytes (List.rev (drop_leading a (List.rev (bytes s)))).

(** ** Truncation

    [str::is_char_boundary]: an index past the end is no boundary, the end is,
    and any other index is unless its byte continues a character
    ([10xxxxxx]). *)
Definition is_continuation (a : ascii) : bool :=
  (128 <=? code a)%nat && (code a <? 192)%nat.

Definition is_char_boundary (s : string) (i : nat) : bool :=
  if (i =? 0)%nat then true
  else match bytes s !! i with
       | Some a => negb (is_continuation a)
       | None => (i =? String.length s)%nat
       end.

(** [while !value.is_char_boundary(end) { end -= 1 }] *)
Fixpoint boundary_below (s : string) (i : nat) : nat :=
  match i with
  | O => O
  | S j => if is_char_boundary s i then i else boundary_below s j
  end.

Definition byte_prefix (n : nat) (s : string) : string := of_bytes (firstn n (bytes s)).

Lemma boundary_below_spec s i :
  (boundary_below s i <= i)%nat /\ is_char_boundary s (boundary_below s i) = true /\
  forall j, (boundary_below s i < j <= i)%nat -> is_char_boundary s j = false.
Proof.
  induction i as [|i (Hle & Hb & Hj)]; cbn [boundary_below]; [split; [done|split; [done|lia]]|].
  destruct (is_char_boundary s (S i)) eqn:E.
  - split; [done|]. split; [done|]. lia.
  - split; [lia|]. split; [done|]. intros j Hlt.
    destruct (decide (j = S i)) as [->|]; [done|]. apply Hj. lia.
Qed.

Lemma length_byte_prefix n s : (n <= String.length s)%nat -> String.length (byte_prefix n s) = n.
Proof.
  intros H. unfold byte_prefix.
  rewrite <- (length_bytes (of_bytes _)), bytes_of_bytes, length_firstn, length_bytes. lia.
Qed.

Lemma of_bytes_app l l' : of_bytes (l ++ l') = of_bytes l +:+ of_bytes l'.
Proof.
  unfold of_bytes. induction l as [|a l IH]; [done|].
  cbn [String.string_of_list_ascii app]. rewrite IH. symmetry. apply app_string_cons.
Qed.

Lemma byte_prefix_app n s :
  s = byte_prefix n s +:+ of_bytes (skipn n (bytes s)).
Proof. unfold byte_prefix. by rewrite <- of_bytes_app, firstn_skipn, of_bytes_bytes. Qed.

(** ** Characters

    [chars().take(n)]: a byte that does not continue a character starts one. *)
Fixpoint take_chars (n : nat) (l : list ascii) : list ascii :=
  match l with
  | [] => []
  | a :: l' =>
      if is_continuation a then a :: take_chars n l'
      else match n with O => [] | S m => a :: take_chars m l' end
  end.

Lemma take_chars_prefix n l : exists l', l = take_chars n l ++ l'.
Proof.
  revert n. induction l as [|a l IH]; intros n; cbn; [by exists []|].
  destruct (is_continuation a); [|destruct n as [|m]; [by eexists|]].
  - destruct (IH n) as [l' Hl]. exists l'. cbn. by rewrite <- Hl.
  - destruct (IH m) as [l' Hl]. exists l'. cbn. by rewrite <- Hl.
Qed.

(** ** Searching and splitting

    [str::contains] of a string and of a character, the same for white space,
    and [split(char)]. *)
Fixpoint contains_str (p s : string) : bool :=
  starts_with p s || match s with String _ s => contains_str p s | EmptyString => false end.

Definition contains_char (a : ascii) (s : string) : bool := existsb (eqb a) (bytes s).

Definition starts_with_whitespace (l : list ascii) : bool :=
  match l with
  | a :: l1 =>
      is_ws1 (code a) ||
      match l1 with
      | b :: l2 =>
          is_ws2 (code a) (code b)
          || match l2 with c :: _ => is_ws3 (code a) (code b) (code c) | [] => false end
      | [] => false
      end
  | [] => false
  end.

Fixpoint has_whitespace (l : list ascii) : bool :=
  match l with [] => false | _ :: l' => starts_with_whitespace l || has_whitespace l' end.

Fixpoint split_bytes (a : ascii) (l current : list ascii) : list string :=
  match l with
  | [] => [of_bytes (List.rev current)]
  | b :: l =>
      if eqb a b then of_bytes (List.rev current) :: split_bytes a l []
      else split_bytes a l (b :: current)
  end.
Definition split_char (a : ascii) (s : string) : list string := split_bytes a (bytes s) [].

(** [l.join(sep)] *)
Fixpoint join_with (sep : string) (l : list string) : string :=
  match l with
  | [] => EmptyString
  | [s] => s
  | s :: l => (s ++ sep ++ join_with sep l)%string
  end.

Example split_labels : split_char "." "a.bc." = ["a"; "bc"; ""].
Proof. reflexivity. Qed.

(** Nothing is trimmed from a string without white space. *)
Lemma trim_start_no_whitespace l : has_whitespace l = false -> trim_start_bytes l = l.
Proof.
  destruct l as [|a l]; [done|]. cbn -[starts_with_whitespace trim_start_bytes].
  intros [H _]%orb_false_iff. cbn in *. apply orb_false_iff in H as [-> H].
  destruct l as [|b l]; [done|]. apply orb_false_iff in H as [-> H].
  destruct l as [|c l]; [done|]. by rewrite H.
Qed.

Lemma has_whitespace_app l1 l2 :
  has_whitespace (l1 ++ l2) = false -> has_whitespace l2 = false.
Proof.
  induction l1 as [|a l1 IH]; [done|]. cbn. intros [_ H]%orb_false_iff. auto.
Qed.

Lemma trim_end_no_whitespace l : has_whitespace (List.rev l) = false -> trim_end_rev l = l.
Proof.
  intros H. destruct l as [|a l]; [done|]. cbn [List.rev] in H.
  assert (Ha : is_ws1 (code a) = false).
  { apply has_whitespace_app in H. cbn in H. by destruct (is_ws1 (code a)). }
  cbn [trim_end_rev]. rewrite Ha. destruct l as [|b l]; [done|]. cbn [List.rev] in H.
  rewrite <- List.app_assoc in H.
  assert (Hb : is_ws2 (code b) (code a) = false).
  { apply has_whitespace_app in H. cbn in H. by destruct (is_ws1 (code b)), (is_ws2 (code b) (code a)). }
  rewrite Hb. destruct l as [|c l]; [done|]. cbn [List.rev] in H.
  rewrite <- List.app_assoc in H. apply has_whitespace_app in H. cbn in H.
  apply orb_false_iff in H as [H _]. apply orb_false_iff in H as [_ H].
  apply orb_false_iff in H as [_ H]. by rewrite H.
Qed.

Lemma trim_no_whitespace s : has_whitespace (bytes s) = false -> trim s = s.
Proof.
  intros H. unfold trim. rewrite trim_start_no_whitespace by done.
  rewrite trim_end_no_whitespace by (by rewrite List.rev_involutive).
  by rewrite List.rev_involutive, of_bytes_bytes.
Qed.
