(* ===== verification/Errors.v ===== *)
(** * Errors

    The error values of the backend and how they are reported: the stable
    public codes ([src/api/error_code.rs]), the product error
    ([src/errors.rs]), the retry class of a failed background task
    ([task_service/retry.rs]) and the error of the Yggdrasil protocol
    ([yggdrasil_service/error.rs]). *)

From Stdlib Require Import ZArith List Bool Lia.
From stdpp Require Import base decidable list strings.
From S2P Require Import Prelude Text.

Local Open Scope Z_scope.

(** ** Public error codes *)

Module AsterErrorCode.

Inductive t : Type :=
| Success
| BadRequest
| ValidationFailed
| RequestMalformed
| RequestPayloadTooLarge
| NotFound
| InternalServerError
| DatabaseError
| CacheError
| StorageError
| ConfigError
| RuntimeUnavailable
| EndpointNotFound
| EndpointMethodNotAllowed
| RateLimited
| AuthSetupRequired
| AuthSetupAlreadyCompleted
| AuthRegistrationDisabled
| AuthLocalLoginDisabled
| AuthPasswordPolicyFailed
| AuthUsernameExists
| AuthEmailExists
| AuthEmailBlocked
| AuthEmailNotAllowlisted
| AuthUserDisabled
| AuthPendingActivation
| AuthPasswordChangeRequired
| AuthPasskeyLoginDisabled
| AuthCaptchaRequired
| AuthCaptchaInvalid
| AuthCaptchaExpired
| ContactVerificationInvalid
| ContactVerificationExpired
| AuthInvitationInvalid
| AuthInvitationExpired
| AuthInvitationAccepted
| AuthInvitationRevoked
| MailNotConfigured
| MailDeliveryFailed
| AuthCredentialsFailed
| AuthTokenExpired
| AuthTokenInvalid
| AuthSessionNotFound
| AuthSessionRevocationFailed
| AuthCsrfMissing
| AuthCsrfInvalid
| AuthAdminRequired
| Forbidden
| ExternalAuthError
| ExternalAuthProviderNotFound
| ExternalAuthProviderDisabled
| ExternalAuthProviderLoginDisabled
| ExternalAuthProviderUnlinkDisabled
| ExternalAuthProviderMisconfigured
| ExternalAuthStateInvalid
| ExternalAuthStateExpired
| ExternalAuthCallbackFailed
| ExternalAuthIdentityConflict
| ExternalAuthCallbackRedirectUriRequired
| MailTemplateInvalid
| MailOutboxNotFound
| ConfigNotFound
| ConfigReadOnly
| ConfigValidationFailed
| ConfigActionNotFound
| ConfigActionInvalid
| ConfigActionFailed
| AuditLogInvalidFilter
| TaskNotFound
| TaskInvalidState
| TaskRetryNotAllowed
| TaskCleanupFailed
| TaskLeaseConflict
| MinecraftProfileNotFound
| MinecraftProfileUuidInvalid
| MinecraftProfileUuidTaken
| MinecraftProfileNameInvalid
| MinecraftProfileNameTaken
| MinecraftProfileNameReservedByMojang
| MinecraftProfileMojangLookupFailed
| MinecraftProfileLimitExceeded
| MinecraftProfileDeleteForbidden
| MinecraftProfileRenameLimitExceeded
| MinecraftProfileOfficialNameReadonly
| UserBanNotFound
| UserBanAlreadyActive
| UserBanNotActive
| UserBanDurationInvalid
| UserBanReasonInvalid
| UserBanForbidden
| MinecraftTextureNotFound
| MinecraftTextureInvalidType
| MinecraftTextureUploadDisabled
| MinecraftTextureInvalidPng
| MinecraftTextureInvalidDimensions
| MinecraftTextureInvalidModel
| MinecraftTextureUnsupportedMime
| MinecraftTextureTooLarge
| MinecraftObjectStorageFailed
| MinecraftTextureBindConflict
| WardrobeTextureNotFound
| WardrobeTextureTypeMismatch
| WardrobeTextureDeleteConflict
| WardrobeTextureEditConflict
| WardrobeTextureNameInvalid
| WardrobeTextureNameTaken
| TextureLibraryTagNotFound
| TextureLibraryTagNameInvalid
| TextureLibraryTagColorInvalid
| TextureLibraryTagNameTaken
| TextureLibraryTextureNotFound
| TextureLibraryDisabled
| TextureLibraryTextureNotPublic
| TextureLibraryTextureNotPending
| TextureLibraryTextureNotPublished
| TextureLibraryReviewNoteInvalid
| TextureReportTextureNotReportable
| TextureReportSelfReportNotAllowed
| TextureReportPendingExists
| TextureReportMessageInvalid
| TextureReportNotFound
| TextureReportNotPending
| PasskeyNameInvalid
| PasskeyNameTooLong
| PasskeyNotDiscoverable
| AvatarNotFound
| AvatarFileRequired
| AvatarUploadReadFailed
| AvatarEmptyImage
| AvatarSourceInvalid
| AvatarSizeInvalid
| AvatarRenderFailed
| AvatarOutputInvalid
| ConfigPublicSiteUrlRequired
| ConfigPublicSiteUrlInvalid
| FrontendConfigUnavailable.

Definition as_str (c : t) : string :=
  match c with
  | Success => "success"
  | BadRequest => "bad_request"
  | ValidationFailed => "validation.failed"
  | RequestMalformed => "request.malformed"
  | RequestPayloadTooLarge => "request.payload_too_large"
  | NotFound => "not_found"
  | InternalServerError => "internal_server_error"
  | DatabaseError => "database.error"
  | CacheError => "cache.error"
  | StorageError => "storage.error"
  | ConfigError => "config.error"
  | RuntimeUnavailable => "runtime.unavailable"
  | EndpointNotFound => "endpoint.not_found"
  | EndpointMethodNotAllowed => "endpoint.method_not_allowed"
  | RateLimited => "rate_limited"
  | AuthSetupRequired => "auth.setup_required"
  | AuthSetupAlreadyCompleted => "auth.setup_already_completed"
  | AuthRegistrationDisabled => "auth.registration_disabled"
  | AuthLocalLoginDisabled => "auth.local_login_disabled"
  | AuthPasswordPolicyFailed => "auth.password_policy_failed"
  | AuthUsernameExists => "auth.username_exists"
  | AuthEmailExists => "auth.email_exists"
  | AuthEmailBlocked => "auth.email_blocked"
  | AuthEmailNotAllowlisted => "auth.email_not_allowlisted"
  | AuthUserDisabled => "auth.user_disabled"
  | AuthPendingActivation => "auth.pending_activation"
  | AuthPasswordChangeRequired => "auth.password_change_required"
  | AuthPasskeyLoginDisabled => "auth.passkey_login_disabled"
  | AuthCaptchaRequired => "auth.captcha_required"
  | AuthCaptchaInvalid => "auth.captcha_invalid"
  | AuthCaptchaExpired => "auth.captcha_expired"
  | ContactVerificationInvalid => "auth.contact_verification_invalid"
  | ContactVerificationExpired => "auth.contact_verification_expired"
  | AuthInvitationInvalid => "auth.invitation_invalid"
  | AuthInvitationExpired => "auth.invitation_expired"
  | AuthInvitationAccepted => "auth.invitation_accepted"
  | AuthInvitationRevoked => "auth.invitation_revoked"
  | MailNotConfigured => "mail.not_configured"
  | MailDeliveryFailed => "mail.delivery_failed"
  | AuthCredentialsFailed => "auth.credentials_failed"
  | AuthTokenExpired => "auth.token_expired"
  | AuthTokenInvalid => "auth.token_invalid"
  | AuthSessionNotFound => "auth.session_not_found"
  | AuthSessionRevocationFailed => "auth.session_revocation_failed"
  | AuthCsrfMissing => "auth.csrf_missing"
  | AuthCsrfInvalid => "auth.csrf_invalid"
  | AuthAdminRequired => "auth.admin_required"
  | Forbidden => "forbidden"
  | ExternalAuthError => "external_auth.error"
  | ExternalAuthProviderNotFound => "external_auth.provider_not_found"
  | ExternalAuthProviderDisabled => "external_auth.provider_disabled"
  | ExternalAuthProviderLoginDisabled => "external_auth.provider_login_disabled"
  | ExternalAuthProviderUnlinkDisabled => "external_auth.provider_unlink_disabled"
  | ExternalAuthProviderMisconfigured => "external_auth.provider_misconfigured"
  | ExternalAuthStateInvalid => "external_auth.state_invalid"
  | ExternalAuthStateExpired => "external_auth.state_expired"
  | ExternalAuthCallbackFailed => "external_auth.callback_failed"
  | ExternalAuthIdentityConflict => "external_auth.identity_conflict"
  | ExternalAuthCallbackRedirectUriRequired => "external_auth.callback_redirect_uri_required"
  | MailTemplateInvalid => "mail.template_invalid"
  | MailOutboxNotFound => "mail.outbox_not_found"
  | ConfigNotFound => "config.not_found"
  | ConfigReadOnly => "config.read_only"
  | ConfigValidationFailed => "config.validation_failed"
  | ConfigActionNotFound => "config.action_not_found"
  | ConfigActionInvalid => "config.action_invalid"
  | ConfigActionFailed => "config.action_failed"
  | AuditLogInvalidFilter => "audit_log.invalid_filter"
  | TaskNotFound => "task.not_found"
  | TaskInvalidState => "task.invalid_state"
  | TaskRetryNotAllowed => "task.retry_not_allowed"
  | TaskCleanupFailed => "task.cleanup_failed"
  | TaskLeaseConflict => "task.lease_conflict"
  | MinecraftProfileNotFound => "minecraft_profile.not_found"
  | MinecraftProfileUuidInvalid => "minecraft_profile.uuid_invalid"
  | MinecraftProfileUuidTaken => "minecraft_profile.uuid_taken"
  | MinecraftProfileNameInvalid => "minecraft_profile.name_invalid"
  | MinecraftProfileNameTaken => "minecraft_profile.name_taken"
  | MinecraftProfileNameReservedByMojang => "minecraft_profile.name_reserved_by_mojang"
  | MinecraftProfileMojangLookupFailed => "minecraft_profile.mojang_lookup_failed"
  | MinecraftProfileLimitExceeded => "minecraft_profile.limit_exceeded"
  | MinecraftProfileDeleteForbidden => "minecraft_profile.delete_forbidden"
  | MinecraftProfileRenameLimitExceeded => "minecraft_profile.rename_limit_exceeded"
  | MinecraftProfileOfficialNameReadonly => "minecraft_profile.official_name_readonly"
  | UserBanNotFound => "user_ban.not_found"
  | UserBanAlreadyActive => "user_ban.already_active"
  | UserBanNotActive => "user_ban.not_active"
  | UserBanDurationInvalid => "user_ban.duration_invalid"
  | UserBanReasonInvalid => "user_ban.reason_invalid"
  | UserBanForbidden => "user_ban.forbidden"
  | MinecraftTextureNotFound => "minecraft_texture.not_found"
  | MinecraftTextureInvalidType => "minecraft_texture.invalid_type"
  | MinecraftTextureUploadDisabled => "minecraft_texture.upload_disabled"
  | MinecraftTextureInvalidPng => "minecraft_texture.invalid_png"
  | MinecraftTextureInvalidDimensions => "minecraft_texture.invalid_dimensions"
  | MinecraftTextureInvalidModel => "minecraft_texture.invalid_model"
  | MinecraftTextureUnsupportedMime => "minecraft_texture.unsupported_mime"
  | MinecraftTextureTooLarge => "minecraft_texture.too_large"
  | MinecraftObjectStorageFailed => "minecraft_texture.storage_failed"
  | MinecraftTextureBindConflict => "minecraft_texture.bind_conflict"
  | WardrobeTextureNotFound => "wardrobe.texture_not_found"
  | WardrobeTextureTypeMismatch => "wardrobe.texture_type_mismatch"
  | WardrobeTextureDeleteConflict => "wardrobe.texture_delete_conflict"
  | WardrobeTextureEditConflict => "wardrobe.texture_edit_conflict"
  | WardrobeTextureNameInvalid => "wardrobe.texture_name_invalid"
  | WardrobeTextureNameTaken => "wardrobe.texture_name_taken"
  | TextureLibraryTagNotFound => "texture_library.tag_not_found"
  | TextureLibraryTagNameInvalid => "texture_library.tag_name_invalid"
  | TextureLibraryTagColorInvalid => "texture_library.tag_color_invalid"
  | TextureLibraryTagNameTaken => "texture_library.tag_name_taken"
  | TextureLibraryTextureNotFound => "texture_library.texture_not_found"
  | TextureLibraryDisabled => "texture_library.disabled"
  | TextureLibraryTextureNotPublic => "texture_library.texture_not_public"
  | TextureLibraryTextureNotPending => "texture_library.texture_not_pending"
  | TextureLibraryTextureNotPublished => "texture_library.texture_not_published"
  | TextureLibraryReviewNoteInvalid => "texture_library.review_note_invalid"
  | TextureReportTextureNotReportable => "texture_report.texture_not_reportable"
  | TextureReportSelfReportNotAllowed => "texture_report.self_report_not_allowed"
  | TextureReportPendingExists => "texture_report.pending_exists"
  | TextureReportMessageInvalid => "texture_report.message_invalid"
  | TextureReportNotFound => "texture_report.not_found"
  | TextureReportNotPending => "texture_report.not_pending"
  | PasskeyNameInvalid => "passkey.name_invalid"
  | PasskeyNameTooLong => "passkey.name_too_long"
  | PasskeyNotDiscoverable => "passkey.not_discoverable"
  | AvatarNotFound => "avatar.not_found"
  | AvatarFileRequired => "avatar.file_required"
  | AvatarUploadReadFailed => "avatar.upload_read_failed"
  | AvatarEmptyImage => "avatar.empty_image"
  | AvatarSourceInvalid => "avatar.source_invalid"
  | AvatarSizeInvalid => "avatar.size_invalid"
  | AvatarRenderFailed => "avatar.render_failed"
  | AvatarOutputInvalid => "avatar.output_invalid"
  | ConfigPublicSiteUrlRequired => "config.public_site_url_required"
  | ConfigPublicSiteUrlInvalid => "config.public_site_url_invalid"
  | FrontendConfigUnavailable => "frontend_config.unavailable"
  end.

(** [AsterErrorCode::ALL], in the order of the declaration. *)
Definition ALL : list t :=
  [Success; BadRequest; ValidationFailed; RequestMalformed;
   RequestPayloadTooLarge; NotFound; InternalServerError; DatabaseError;
   CacheError; StorageError; ConfigError; RuntimeUnavailable;
   EndpointNotFound; EndpointMethodNotAllowed; RateLimited;
   AuthSetupRequired; AuthSetupAlreadyCompleted; AuthRegistrationDisabled;
   AuthLocalLoginDisabled; AuthPasswordPolicyFailed; AuthUsernameExists;
   AuthEmailExists; AuthEmailBlocked; AuthEmailNotAllowlisted;
   AuthUserDisabled; AuthPendingActivation; AuthPasswordChangeRequired;
   AuthPasskeyLoginDisabled; AuthCaptchaRequired; AuthCaptchaInvalid;
   AuthCaptchaExpired; ContactVerificationInvalid;
   ContactVerificationExpired; AuthInvitationInvalid; AuthInvitationExpired;
   AuthInvitationAccepted; AuthInvitationRevoked; MailNotConfigured;
   MailDeliveryFailed; AuthCredentialsFailed; AuthTokenExpired;
   AuthTokenInvalid; AuthSessionNotFound; AuthSessionRevocationFailed;
   AuthCsrfMissing; AuthCsrfInvalid; AuthAdminRequired; Forbidden;
   ExternalAuthError; ExternalAuthProviderNotFound;
   ExternalAuthProviderDisabled; ExternalAuthProviderLoginDisabled;
   ExternalAuthProviderUnlinkDisabled; ExternalAuthProviderMisconfigured;
   ExternalAuthStateInvalid; ExternalAuthStateExpired;
   ExternalAuthCallbackFailed; ExternalAuthIdentityConflict;
   ExternalAuthCallbackRedirectUriRequired; MailTemplateInvalid;
   MailOutboxNotFound; ConfigNotFound; ConfigReadOnly;
   ConfigValidationFailed; ConfigActionNotFound; ConfigActionInvalid;
   ConfigActionFailed; AuditLogInvalidFilter; TaskNotFound; TaskInvalidState;
   TaskRetryNotAllowed; TaskCleanupFailed; TaskLeaseConflict;
   MinecraftProfileNotFound; MinecraftProfileUuidInvalid;
   MinecraftProfileUuidTaken; MinecraftProfileNameInvalid;
   MinecraftProfileNameTaken; MinecraftProfileNameReservedByMojang;
   MinecraftProfileMojangLookupFailed; MinecraftProfileLimitExceeded;
   MinecraftProfileDeleteForbidden; MinecraftProfileRenameLimitExceeded;
   MinecraftProfileOfficialNameReadonly; UserBanNotFound;
   UserBanAlreadyActive; UserBanNotActive; UserBanDurationInvalid;
   UserBanReasonInvalid; UserBanForbidden; MinecraftTextureNotFound;
   MinecraftTextureInvalidType; MinecraftTextureUploadDisabled;
   MinecraftTextureInvalidPng; MinecraftTextureInvalidDimensions;
   MinecraftTextureInvalidModel; MinecraftTextureUnsupportedMime;
   MinecraftTextureTooLarge; MinecraftObjectStorageFailed;
   MinecraftTextureBindConflict; WardrobeTextureNotFound;
   WardrobeTextureTypeMismatch; WardrobeTextureDeleteConflict;
   WardrobeTextureEditConflict; WardrobeTextureNameInvalid;
   WardrobeTextureNameTaken; TextureLibraryTagNotFound;
   TextureLibraryTagNameInvalid; TextureLibraryTagColorInvalid;
   TextureLibraryTagNameTaken; TextureLibraryTextureNotFound;
   TextureLibraryDisabled; TextureLibraryTextureNotPublic;
   TextureLibraryTextureNotPending; TextureLibraryTextureNotPublished;
   TextureLibraryReviewNoteInvalid; TextureReportTextureNotReportable;
   TextureReportSelfReportNotAllowed; TextureReportPendingExists;
   TextureReportMessageInvalid; TextureReportNotFound;
   TextureReportNotPending; PasskeyNameInvalid; PasskeyNameTooLong;
   PasskeyNotDiscoverable; AvatarNotFound; AvatarFileRequired;
   AvatarUploadReadFailed; AvatarEmptyImage; AvatarSourceInvalid;
   AvatarSizeInvalid; AvatarRenderFailed; AvatarOutputInvalid;
   ConfigPublicSiteUrlRequired; ConfigPublicSiteUrlInvalid;
   FrontendConfigUnavailable].

(** [AsterErrorCode::parse]: the first arm whose literal is the value. *)
Definition parse (value : string) : option t :=
  List.find (fun c => eqb (as_str c) value) ALL.

Lemma error_codes_NoDup : NoDup (as_str <$> ALL).
Proof. apply (bool_decide_unpack _). vm_compute. exact I. Qed.

Lemma error_codes_complete c : In c ALL.
Proof. destruct c; cbn; tauto. Qed.

(** [as_str] is injective, so a wire value names one code. *)
Lemma error_code_as_str_inj c d : as_str c = as_str d -> c = d.
Proof.
  intros E. apply (NoDup_map_inj_in as_str ALL); auto using error_codes_complete.
  apply NoDup_ListNoDup, error_codes_NoDup.
Qed.

Lemma parse_Some value c : parse value = Some c <-> as_str c = value.
Proof.
  unfold parse. split.
  - intros [_ H]%List.find_some. by rewrite eqb_true in H.
  - intros <-. destruct (List.find _ ALL) as [d|] eqn:E.
    + apply List.find_some in E as [_ E]. rewrite eqb_true in E.
      by apply error_code_as_str_inj in E as ->.
    + eapply List.find_none in E; [|apply (error_codes_complete c)].
      by rewrite eqb_refl in E.
Qed.

End AsterErrorCode.

(** ** The product error *)

(** HTTP status codes, and [StatusCode::is_server_error]. *)
Definition BAD_REQUEST : Z := 400.
Definition UNAUTHORIZED : Z := 401.
Definition FORBIDDEN : Z := 403.
Definition NOT_FOUND : Z := 404.
Definition NO_CONTENT : Z := 204.
Definition GONE : Z := 410.
Definition TOO_MANY_REQUESTS : Z := 429.
Definition INTERNAL_SERVER_ERROR : Z := 500.
Definition SERVICE_UNAVAILABLE : Z := 503.
Definition is_server_error (status : Z) : bool := (500 <=? status) && (status <? 600).
Definition is_success (status : Z) : bool := (200 <=? status) && (status <? 300).

Module AsterError.

Inductive t : Type :=
| Public (internal_code : string) (status : Z) (code : AsterErrorCode.t)
         (message : string) (retryable : option bool)
| DatabaseConnection (message : string)
| DatabaseOperation (message : string)
| ConfigError (message : string)
| ValidationError (message : string)
| AuthInvalidCredentials (message : string)
| AuthTokenInvalid (message : string)
| AuthTokenExpired (message : string)
| AuthForbidden (message : string)
| RecordNotFound (message : string)
| ExternalAuthError (message : string)
| MailNotConfigured (message : string)
| MailDeliveryFailed (message : string)
| InternalError (message : string).

Definition public_error (status : Z) (code : AsterErrorCode.t) (message : string) : t :=
  Public "E100" status code message None.

Definition validation_error_code := public_error BAD_REQUEST.
Definition record_not_found_code := public_error NOT_FOUND.
Definition auth_forbidden_code := public_error FORBIDDEN.

Definition auth_pending_activation : string -> t :=
  auth_forbidden_code AsterErrorCode.AuthPendingActivation.
Definition contact_verification_invalid : string -> t :=
  validation_error_code AsterErrorCode.ContactVerificationInvalid.
Definition contact_verification_expired : string -> t :=
  public_error GONE AsterErrorCode.ContactVerificationExpired.
Definition rate_limited : string -> t :=
  public_error TOO_MANY_REQUESTS AsterErrorCode.RateLimited.

Definition runtime_unavailable_retryable (message : string) : t :=
  Public "E100" SERVICE_UNAVAILABLE AsterErrorCode.RuntimeUnavailable message (Some true).

(** The internal code of the log line. *)
Definition code (e : t) : string :=
  match e with
  | Public internal_code _ _ _ _ => internal_code
  | DatabaseConnection _ => "E001"
  | DatabaseOperation _ => "E002"
  | ConfigError _ => "E003"
  | InternalError _ => "E004"
  | ValidationError _ => "E005"
  | RecordNotFound _ => "E006"
  | AuthInvalidCredentials _ => "E010"
  | AuthTokenExpired _ => "E011"
  | AuthTokenInvalid _ => "E012"
  | AuthForbidden _ => "E013"
  | ExternalAuthError _ => "E020"
  | MailNotConfigured _ => "E030"
  | MailDeliveryFailed _ => "E031"
  end.

Definition api_error_code (e : t) : AsterErrorCode.t :=
  match e with
  | Public _ _ code _ _ => code
  | DatabaseConnection _ | DatabaseOperation _ => AsterErrorCode.DatabaseError
  | ConfigError _ => AsterErrorCode.ConfigError
  | ValidationError _ => AsterErrorCode.BadRequest
  | AuthInvalidCredentials _ => AsterErrorCode.AuthCredentialsFailed
  | AuthTokenInvalid _ => AsterErrorCode.AuthTokenInvalid
  | AuthTokenExpired _ => AsterErrorCode.AuthTokenExpired
  | AuthForbidden _ => AsterErrorCode.Forbidden
  | RecordNotFound _ => AsterErrorCode.NotFound
  | ExternalAuthError _ => AsterErrorCode.ExternalAuthError
  | MailNotConfigured _ => AsterErrorCode.MailNotConfigured
  | MailDeliveryFailed _ => AsterErrorCode.MailDeliveryFailed
  | InternalError _ => AsterErrorCode.InternalServerError
  end.

Definition retryable (e : t) : option bool :=
  match e with
  | Public _ _ _ _ retryable => retryable
  | DatabaseConnection _ | DatabaseOperation _ => Some true
  | MailDeliveryFailed _ => Some true
  | MailNotConfigured _ => Some false
  | _ => None
  end.

Definition message (e : t) : string :=
  match e with
  | Public _ _ _ message _ => message
  | DatabaseConnection m | DatabaseOperation m | ConfigError m | ValidationError m
  | AuthInvalidCredentials m | AuthTokenInvalid m | AuthTokenExpired m
  | AuthForbidden m | RecordNotFound m | ExternalAuthError m | MailNotConfigured m
  | MailDeliveryFailed m | InternalError m => m
  end.

Definition status_code (e : t) : Z :=
  match e with
  | Public _ status _ _ _ => status
  | ValidationError _ => BAD_REQUEST
  | AuthInvalidCredentials _ | AuthTokenInvalid _ | AuthTokenExpired _ => UNAUTHORIZED
  | AuthForbidden _ => FORBIDDEN
  | RecordNotFound _ => NOT_FOUND
  | ExternalAuthError _ => BAD_REQUEST
  | MailNotConfigured _ | MailDeliveryFailed _ => SERVICE_UNAVAILABLE
  | DatabaseConnection _ | DatabaseOperation _ | ConfigError _ | InternalError _ =>
      INTERNAL_SERVER_ERROR
  end.

End AsterError.

(** ** Retry classes of background tasks *)

(** The classes of [aster_forge_tasks::TaskRetryClass]. *)
Inductive TaskRetryClass : Type := Auto | Manual | Never.

#[export] Instance TaskRetryClass_eq_dec : EqDecision TaskRetryClass.
Proof. solve_decision. Defined.

Definition default_retry_class (error : AsterError.t) : TaskRetryClass :=
  match error with
  | AsterError.Public _ status _ _ retryable =>
      match retryable with
      | Some true => Auto
      | Some false => Never
      | None => if is_server_error status then Manual else Never
      end
  | AsterError.DatabaseConnection _ | AsterError.MailDeliveryFailed _ => Auto
  | AsterError.DatabaseOperation _ | AsterError.ConfigError _
  | AsterError.ExternalAuthError _ | AsterError.InternalError _ => Manual
  | AsterError.ValidationError _ | AsterError.AuthInvalidCredentials _
  | AsterError.AuthTokenInvalid _ | AsterError.AuthTokenExpired _
  | AsterError.AuthForbidden _ | AsterError.RecordNotFound _
  | AsterError.MailNotConfigured _ => Never
  end.

(** ** The error of the Yggdrasil protocol *)

Module Yggdrasil.

Inductive YggdrasilErrorKind : Type :=
| InvalidToken
| InvalidCredentials
| AccessTokenAlreadyHasProfile
| ForbiddenProfile
| BadRequest
| UnsupportedAgent
| TooManyProfilesRequested
| ProfileNotFound
| Internal.

#[export] Instance YggdrasilErrorKind_eq_dec : EqDecision YggdrasilErrorKind.
Proof. solve_decision. Defined.

Record YggdrasilError : Type := mkError {
  kind : YggdrasilErrorKind;
  detail : option string
}.

Definition new (k : YggdrasilErrorKind) : YggdrasilError := mkError k None.
Definition with_detail (k : YggdrasilErrorKind) (d : string) : YggdrasilError :=
  mkError k (Some d).

Definition status_code (e : YggdrasilError) : Z :=
  match kind e with
  | InvalidToken | InvalidCredentials | ForbiddenProfile => FORBIDDEN
  | AccessTokenAlreadyHasProfile | BadRequest | UnsupportedAgent
  | TooManyProfilesRequested => BAD_REQUEST
  | ProfileNotFound => NO_CONTENT
  | Internal => INTERNAL_SERVER_ERROR
  end.

Definition protocol_error_name (e : YggdrasilError) : string :=
  match kind e with
  | AccessTokenAlreadyHasProfile | BadRequest | UnsupportedAgent
  | TooManyProfilesRequested => "IllegalArgumentException"
  | InvalidToken | InvalidCredentials | ForbiddenProfile => "ForbiddenOperationException"
  | ProfileNotFound => "NotFound"
  | Internal => "InternalServerError"
  end.

Definition protocol_message (e : YggdrasilError) : string :=
  match kind e with
  | InvalidToken => "Invalid token."
  | InvalidCredentials => "Invalid credentials. Invalid username or password."
  | AccessTokenAlreadyHasProfile => "Access token already has a profile assigned."
  | ForbiddenProfile => "Profile does not belong to this user."
  | BadRequest => default "Invalid request." (detail e)
  | UnsupportedAgent => "Unsupported Yggdrasil agent."
  | TooManyProfilesRequested => "Too many profile names requested."
  | ProfileNotFound => "Profile not found."
  | Internal => default "Internal server error." (detail e)
  end.

(** [impl From<AsterError> for YggdrasilError]. *)
Definition from_aster (value : AsterError.t) : YggdrasilError :=
  with_detail Internal (AsterError.message value).

End Yggdrasil.

(** The wire names of the API error codes are a bijection: parsing a text
    gives a code exactly when it is that code's name, the list of all codes
    is complete, and the names are pairwise different. *)
Theorem error_code_wire_roundtrip :
  (forall value c, AsterErrorCode.parse value = Some c <-> AsterErrorCode.as_str c = value) /\
  (forall c, In c AsterErrorCode.ALL) /\
  (forall c d, AsterErrorCode.as_str c = AsterErrorCode.as_str d -> c = d).
Proof.
  split; [apply AsterErrorCode.parse_Some|].
  split; [apply AsterErrorCode.error_codes_complete|apply AsterErrorCode.error_code_as_str_inj].
Qed.

(** How a failed background task may be retried. A retry without an
    operator happens only for errors the API marks retryable. Among the errors answered with a
    status below 500 only those marked retryable and the external
    authentication errors are retried at all. Among those answered with 500 or
    more only the ones marked not retryable are never retried. *)
Theorem retry_class_sound e :
  (default_retry_class e = Auto ->
   AsterError.retryable e = Some true) /\
  (is_server_error (AsterError.status_code e) = false -> default_retry_class e <> Never ->
   AsterError.retryable e = Some true \/ exists m, e = AsterError.ExternalAuthError m) /\
  (is_server_error (AsterError.status_code e) = true -> default_retry_class e = Never ->
   AsterError.retryable e = Some false).
Proof.
  destruct e as [c st co m r| | | | | | | | | | | | | ]; cbn; repeat split; intros; try congruence;
    eauto;
    destruct r as [[]|]; cbn in *; try congruence; auto;
    destruct (is_server_error st); congruence.
Qed.

Lemma retry_class_sound_witness :
  AsterError.retryable (AsterError.DatabaseConnection "lost") = Some true.
Proof. apply (retry_class_sound (AsterError.DatabaseConnection "lost")). reflexivity. Defined.
