(* ===== verification/Types.v ===== *)
(** * Enumerations and rows

    The closed enumerations of [src/types/] and the rows ([Model] structs) of
    [src/entities/] the modelled components read and write, field for field.
    Instants ([DateTime<Utc>]) are nanoseconds since the Unix epoch in [Z];
    [i64]/[i32] columns are [Z]. *)

From Stdlib Require Import ZArith List Bool Lia.
From stdpp Require Import base decidable list strings.
From S2P Require Import Prelude Text.

Local Open Scope Z_scope.

Definition DateTimeUtc : Type := Z.

(** ** src/types/user.rs *)

Inductive UserRole : Type := Admin | Operator | User.
Inductive UserStatus : Type := UserActive | Disabled.
Inductive UserBanScope : Type :=
| YggdrasilAccess
| YggdrasilJoin
| MinecraftProfileManage
| TextureUpload
| TextureLibraryInteract.
Inductive UserBanStatus : Type := BanActive | BanRevoked | BanExpired.
Inductive UserBanEventType : Type := EvCreated | EvUpdated | EvRevoked.

#[export] Instance UserRole_eq_dec : EqDecision UserRole.
Proof. solve_decision. Defined.
#[export] Instance UserStatus_eq_dec : EqDecision UserStatus.
Proof. solve_decision. Defined.
#[export] Instance UserBanScope_eq_dec : EqDecision UserBanScope.
Proof. solve_decision. Defined.
#[export] Instance UserBanStatus_eq_dec : EqDecision UserBanStatus.
Proof. solve_decision. Defined.
#[export] Instance UserBanEventType_eq_dec : EqDecision UserBanEventType.
Proof. solve_decision. Defined.

Definition is_admin (r : UserRole) : bool := match r with Admin => true | _ => false end.
Definition is_active_user (s : UserStatus) : bool :=
  match s with UserActive => true | Disabled => false end.
Definition is_active_ban (s : UserBanStatus) : bool :=
  match s with BanActive => true | _ => false end.

Definition scope_as_str (s : UserBanScope) : string :=
  match s with
  | YggdrasilAccess => "yggdrasil_access"
  | YggdrasilJoin => "yggdrasil_join"
  | MinecraftProfileManage => "minecraft_profile_manage"
  | TextureUpload => "texture_upload"
  | TextureLibraryInteract => "texture_library_interact"
  end.

(** The derived [Ord]: the position of the variant in the declaration. *)
Definition scope_rank (s : UserBanScope) : Z :=
  match s with
  | YggdrasilAccess => 0
  | YggdrasilJoin => 1
  | MinecraftProfileManage => 2
  | TextureUpload => 3
  | TextureLibraryInteract => 4
  end.

Definition scope_leb (a b : UserBanScope) : bool := scope_rank a <=? scope_rank b.

Lemma scope_rank_inj a b : scope_rank a = scope_rank b -> a = b.
Proof. by destruct a, b. Qed.

(** ** src/types/yggdrasil.rs *)

Inductive YggdrasilSessionForwardProviderKind : Type := ProviderLocal | ProviderRemote.
Inductive YggdrasilSessionForwardEndpointKind : Type := AuthlibInjector | MojangSession.
Inductive MinecraftProfileSource : Type := SourceLocal | Microsoft.
Inductive MinecraftTextureModel : Type := ModelDefault | Slim.
Inductive MinecraftTextureType : Type := Skin | Cape.
Inductive MinecraftTextureSource : Type := TextureLocal | TextureMojang.
Inductive MinecraftTextureVisibility : Type := VisPrivate | VisPublic.
Inductive MinecraftTextureLibraryStatus : Type :=
| LibPrivate | PendingReview | Published | LibRejected.
Inductive MinecraftTextureReportReason : Type :=
| Inappropriate | Offensive | Copyright | Misleading | BrokenTexture | Spam | OtherReason.
Inductive MinecraftTextureReportStatus : Type := ReportPending | ReportAccepted | ReportRejected.
Inductive TextureTagSearchMethod : Type := AllTags | AnyTag.

#[export] Instance ProviderKind_eq_dec : EqDecision YggdrasilSessionForwardProviderKind.
Proof. solve_decision. Defined.
#[export] Instance EndpointKind_eq_dec : EqDecision YggdrasilSessionForwardEndpointKind.
Proof. solve_decision. Defined.
#[export] Instance ProfileSource_eq_dec : EqDecision MinecraftProfileSource.
Proof. solve_decision. Defined.
#[export] Instance TextureModel_eq_dec : EqDecision MinecraftTextureModel.
Proof. solve_decision. Defined.
#[export] Instance TextureType_eq_dec : EqDecision MinecraftTextureType.
Proof. solve_decision. Defined.
#[export] Instance TextureSource_eq_dec : EqDecision MinecraftTextureSource.
Proof. solve_decision. Defined.
#[export] Instance TextureVisibility_eq_dec : EqDecision MinecraftTextureVisibility.
Proof. solve_decision. Defined.
#[export] Instance LibraryStatus_eq_dec : EqDecision MinecraftTextureLibraryStatus.
Proof. solve_decision. Defined.
#[export] Instance ReportReason_eq_dec : EqDecision MinecraftTextureReportReason.
Proof. solve_decision. Defined.
#[export] Instance ReportStatus_eq_dec : EqDecision MinecraftTextureReportStatus.
Proof. solve_decision. Defined.

Definition as_metadata_value (m : MinecraftTextureModel) : option string :=
  match m with ModelDefault => None | Slim => Some "slim"%string end.

Definition texture_type_as_str (t : MinecraftTextureType) : string :=
  match t with Skin => "skin" | Cape => "cape" end.
Definition textures_property_key (t : MinecraftTextureType) : string :=
  match t with Skin => "SKIN" | Cape => "CAPE" end.
Definition parse_path (value : string) : option MinecraftTextureType :=
  if eqb value "skin"%string then Some Skin
  else if eqb value "cape"%string then Some Cape else None.

Definition visibility_as_str (v : MinecraftTextureVisibility) : string :=
  match v with VisPrivate => "private" | VisPublic => "public" end.
Definition parse_form_value (value : string) : option MinecraftTextureVisibility :=
  let v := trim value in
  if eqb v ""%string || eqb v "private"%string then Some VisPrivate
  else if eqb v "public"%string then Some VisPublic else None.

(** ** src/types/task.rs *)

Inductive BackgroundTaskKind : Type := SystemRuntime.
Inductive BackgroundTaskStatus : Type :=
| Pending | Processing | Retry | Succeeded | Failed | Canceled.

#[export] Instance TaskKind_eq_dec : EqDecision BackgroundTaskKind.
Proof. solve_decision. Defined.
#[export] Instance TaskStatus_eq_dec : EqDecision BackgroundTaskStatus.
Proof. solve_decision. Defined.

Definition is_terminal (s : BackgroundTaskStatus) : bool :=
  match s with Succeeded | Failed | Canceled => true | _ => false end.

(** ** src/types/auth.rs, src/types/user.rs *)

Inductive TokenType : Type := AccessToken | RefreshToken.
Inductive VerificationChannel : Type := EmailChannel.
Inductive VerificationPurpose : Type := RegisterActivation | ContactChange | PasswordReset.
Inductive UserInvitationStatus : Type :=
| InvitePending | InviteAccepted | InviteExpired | InviteRevoked.
Inductive AvatarSource : Type := AvatarNone | AvatarGravatar | AvatarUpload.
Inductive OperatorScope : Type :=
| ScopeOverview | ScopeUsers | ScopeProfiles | ScopeTextureLibrary
| ScopeAudit | ScopeTasks | ScopeSettings | ScopeExternalAuth.

#[export] Instance TokenType_eq_dec : EqDecision TokenType.
Proof. solve_decision. Defined.
#[export] Instance VerificationChannel_eq_dec : EqDecision VerificationChannel.
Proof. solve_decision. Defined.
#[export] Instance VerificationPurpose_eq_dec : EqDecision VerificationPurpose.
Proof. solve_decision. Defined.
#[export] Instance UserInvitationStatus_eq_dec : EqDecision UserInvitationStatus.
Proof. solve_decision. Defined.
#[export] Instance OperatorScope_eq_dec : EqDecision OperatorScope.
Proof. solve_decision. Defined.

Definition token_type_as_str (t : TokenType) : string :=
  match t with AccessToken => "access" | RefreshToken => "refresh" end.
Definition is_pending (s : UserInvitationStatus) : bool :=
  match s with InvitePending => true | _ => false end.

(** The stored value of a scope, the order of [order_by_asc(Scope)]. *)
Definition operator_scope_value (s : OperatorScope) : string :=
  match s with
  | ScopeOverview => "overview"
  | ScopeUsers => "users"
  | ScopeProfiles => "profiles"
  | ScopeTextureLibrary => "texture_library"
  | ScopeAudit => "audit"
  | ScopeTasks => "tasks"
  | ScopeSettings => "settings"
  | ScopeExternalAuth => "external_auth"
  end.

(** ** Rows *)

(** src/entities/user.rs *)
Record user : Type := mkUser {
  user_pk : Z;
  public_uuid : string;
  username : string;
  email : option string;
  password_hash : string;
  role : UserRole;
  user_status : UserStatus;
  must_change_password : bool;
  session_version : Z;
  email_verified_at : option DateTimeUtc;
  pending_email : option string;
  user_created_at : DateTimeUtc;
  user_updated_at : DateTimeUtc
}.

(** src/entities/minecraft_profile.rs *)
Record minecraft_profile : Type := mkProfile {
  profile_pk : Z;
  profile_user_id : Z;
  uuid : string;
  profile_name : string;
  normalized_name : string;
  source : MinecraftProfileSource;
  texture_model : MinecraftTextureModel;
  uploadable_textures : string;
  rename_count : Z;
  profile_created_at : DateTimeUtc;
  profile_updated_at : DateTimeUtc
}.

(** src/entities/minecraft_texture.rs *)
Record minecraft_texture : Type := mkTexture {
  tex_pk : Z;
  tex_user_id : Z;
  tex_type : MinecraftTextureType;
  tex_source : MinecraftTextureSource;
  tex_hash : string;
  storage_key : string;
  mime_type : string;
  file_size : Z;
  tex_width : Z;
  tex_height : Z;
  tex_model : MinecraftTextureModel;
  visibility : MinecraftTextureVisibility;
  is_wardrobe_item : bool;
  tex_display_name : option string;
  library_status : MinecraftTextureLibraryStatus;
  library_submitted_at : option DateTimeUtc;
  library_reviewed_at : option DateTimeUtc;
  library_reviewer_user_id : option Z;
  library_review_note : option string;
  tex_created_at : DateTimeUtc;
  tex_updated_at : DateTimeUtc
}.

(** src/entities/minecraft_profile_texture.rs *)
Record minecraft_profile_texture : Type := mkBinding {
  binding_pk : Z;
  binding_profile_id : Z;
  binding_texture_id : Z;
  binding_texture_type : MinecraftTextureType;
  binding_created_at : DateTimeUtc;
  binding_updated_at : DateTimeUtc
}.

(** src/entities/minecraft_texture_tag.rs *)
Record minecraft_texture_tag : Type := mkTag {
  tag_pk : Z;
  tag_name : string;
  tag_normalized_name : string;
  tag_color : string;
  tag_sort_order : Z;
  tag_created_at : DateTimeUtc;
  tag_updated_at : DateTimeUtc
}.

(** src/entities/minecraft_texture_tag_binding.rs *)
Record minecraft_texture_tag_binding : Type := mkTagBinding {
  tag_binding_pk : Z;
  tag_binding_texture_id : Z;
  tag_binding_tag_id : Z;
  tag_binding_created_at : DateTimeUtc
}.

(** src/entities/minecraft_texture_report.rs *)
Record minecraft_texture_report : Type := mkReport {
  report_pk : Z;
  report_texture_id : Z;
  reporter_user_id : Z;
  report_reason : MinecraftTextureReportReason;
  report_message : option string;
  report_status : MinecraftTextureReportStatus;
  report_admin_note : option string;
  handled_by_user_id : option Z;
  handled_at : option DateTimeUtc;
  report_created_at : DateTimeUtc;
  report_updated_at : DateTimeUtc
}.

(** src/entities/minecraft_profile_texture_preference.rs *)
Record minecraft_profile_texture_preference : Type := mkPreference {
  preference_pk : Z;
  preference_profile_id : Z;
  preference_texture_type : MinecraftTextureType;
  preference_texture_id : Z;
  preference_created_at : DateTimeUtc;
  preference_updated_at : DateTimeUtc
}.

(** src/entities/yggdrasil_token.rs *)
Record yggdrasil_token : Type := mkToken {
  token_pk : Z;
  token_user_id : Z;
  access_token_hash : string;
  client_token : string;
  selected_profile_id : option Z;
  issued_at : DateTimeUtc;
  expires_at : DateTimeUtc;
  revoked_at : option DateTimeUtc;
  temporarily_invalidated_at : option DateTimeUtc;
  token_user_agent : option string;
  token_ip_address : option string
}.

(** src/entities/user_ban.rs; [scopes] is the newtype [UserBanScopes(String)],
    the JSON text stored in the column. *)
Record user_ban : Type := mkBan {
  ban_pk : Z;
  ban_user_id : Z;
  ban_scopes_raw : string;
  ban_status : UserBanStatus;
  ban_reason : string;
  ban_public_reason : option string;
  ban_admin_note : option string;
  created_by_user_id : option Z;
  ban_starts_at : DateTimeUtc;
  ban_expires_at : option DateTimeUtc;
  ban_revoked_at : option DateTimeUtc;
  revoked_by_user_id : option Z;
  revoke_note : option string;
  ban_created_at : DateTimeUtc;
  ban_updated_at : DateTimeUtc
}.

(** src/entities/user_ban_event.rs *)
Record user_ban_event : Type := mkBanEvent {
  event_pk : Z;
  event_ban_id : Z;
  actor_user_id : option Z;
  event_type : UserBanEventType;
  previous_status : option UserBanStatus;
  next_status : option UserBanStatus;
  previous_scopes : option string;
  next_scopes : option string;
  previous_expires_at : option DateTimeUtc;
  next_expires_at : option DateTimeUtc;
  event_note : option string;
  event_created_at : DateTimeUtc
}.

(** src/entities/yggdrasil_session_forward_server.rs *)
Record forward_server : Type := mkServer {
  server_pk : Z;
  display_name : string;
  provider_kind : YggdrasilSessionForwardProviderKind;
  endpoint_kind : YggdrasilSessionForwardEndpointKind;
  base_url : option string;
  builtin : bool;
  enabled : bool;
  priority : Z;
  weight : Z;
  timeout_ms : Z;
  texture_forward_enabled : bool;
  last_checked_at : option DateTimeUtc;
  last_success_at : option DateTimeUtc;
  last_failure_at : option DateTimeUtc;
  last_failure_message : option string;
  server_created_at : DateTimeUtc;
  server_updated_at : DateTimeUtc
}.

(** src/entities/background_task.rs; the [Stored*] newtypes are their text. *)
Record background_task : Type := mkTask {
  task_pk : Z;
  task_kind : BackgroundTaskKind;
  task_status : BackgroundTaskStatus;
  creator_user_id : option Z;
  task_display_name : string;
  dedupe_key : option string;
  payload_json : string;
  result_json : option string;
  runtime_json : option string;
  steps_json : option string;
  progress_current : Z;
  progress_total : Z;
  status_text : option string;
  attempt_count : Z;
  max_attempts : Z;
  next_run_at : DateTimeUtc;
  processing_token : Z;
  processing_started_at : option DateTimeUtc;
  last_heartbeat_at : option DateTimeUtc;
  lease_expires_at : option DateTimeUtc;
  started_at : option DateTimeUtc;
  finished_at : option DateTimeUtc;
  last_error : option string;
  failure_can_retry : option bool;
  task_expires_at : DateTimeUtc;
  task_created_at : DateTimeUtc;
  task_updated_at : DateTimeUtc
}.

(** src/entities/auth_session.rs; the key is not generated. *)
Record auth_session : Type := mkSession {
  session_id : string;
  session_user_id : Z;
  current_refresh_jti : string;
  previous_refresh_jti : option string;
  refresh_expires_at : DateTimeUtc;
  session_user_agent : option string;
  session_ip_address : option string;
  session_created_at : DateTimeUtc;
  session_last_seen_at : DateTimeUtc;
  session_revoked_at : option DateTimeUtc
}.

(** src/entities/contact_verification_token.rs *)
Record contact_verification_token : Type := mkVerification {
  verification_pk : Z;
  verification_user_id : Z;
  verification_channel : VerificationChannel;
  verification_purpose : VerificationPurpose;
  verification_target : string;
  verification_token_hash : string;
  verification_expires_at : DateTimeUtc;
  consumed_at : option DateTimeUtc;
  verification_created_at : DateTimeUtc
}.

(** src/entities/user_invitation.rs *)
Record user_invitation : Type := mkInvitation {
  invitation_pk : Z;
  invitation_email : string;
  invitation_token_hash : string;
  invitation_status : UserInvitationStatus;
  invited_by : Z;
  accepted_user_id : option Z;
  invitation_expires_at : DateTimeUtc;
  invitation_created_at : DateTimeUtc;
  invitation_updated_at : DateTimeUtc;
  invitation_accepted_at : option DateTimeUtc;
  invitation_revoked_at : option DateTimeUtc
}.

(** src/entities/user_profile.rs; the key is the user's. *)
Record user_profile : Type := mkUserProfile {
  up_user_id : Z;
  up_display_name : option string;
  avatar_source : AvatarSource;
  avatar_key : option string;
  avatar_version : Z;
  up_created_at : DateTimeUtc;
  up_updated_at : DateTimeUtc
}.

(** src/entities/user_operator_scope.rs *)
Record user_operator_scope : Type := mkOperatorScope {
  os_pk : Z;
  os_user_id : Z;
  os_scope : OperatorScope;
  os_created_at : DateTimeUtc
}.

(** src/entities/external_auth_identity.rs *)
Record external_auth_identity : Type := mkIdentity {
  identity_pk : Z;
  identity_user_id : Z;
  identity_provider_id : Z;
  identity_namespace : string;
  identity_subject : string;
  email_snapshot : option string;
  display_name_snapshot : option string;
  identity_metadata : option string;
  identity_created_at : DateTimeUtc;
  identity_updated_at : DateTimeUtc;
  last_login_at : option DateTimeUtc
}.

(** src/entities/passkey.rs *)
Record passkey : Type := mkPasskey {
  passkey_pk : Z;
  passkey_user_id : Z;
  credential_id : string;
  user_handle : string;
  credential : string;
  passkey_name : string;
  transports : option string;
  backup_eligible : bool;
  backed_up : bool;
  sign_count : Z;
  passkey_created_at : DateTimeUtc;
  passkey_updated_at : DateTimeUtc;
  passkey_last_used_at : option DateTimeUtc
}.

(** ** External authentication ([types/external_auth.rs] and its entities) *)

Module ExternalAuthProviderKind.
Inductive t : Type := Oidc | GenericOAuth2 | GitHub | Google | Microsoft | Qq | LinuxDo.
#[global] Instance eq_dec : EqDecision t.
Proof. solve_decision. Defined.

Definition ALL : list t := [Oidc; GenericOAuth2; GitHub; Google; Microsoft; Qq; LinuxDo].

Definition as_str (k : t) : string :=
  match k with
  | Oidc => "oidc"
  | GenericOAuth2 => "generic_oauth2"
  | GitHub => "github"
  | Google => "google"
  | Microsoft => "microsoft"
  | Qq => "qq"
  | LinuxDo => "linuxdo"
  end.

Definition parse (value : string) : option t :=
  if eqb value "oidc" then Some Oidc
  else if eqb value "oauth2" || eqb value "generic_oauth2" then Some GenericOAuth2
  else if eqb value "github" then Some GitHub
  else if eqb value "google" then Some Google
  else if eqb value "microsoft" then Some Microsoft
  else if eqb value "qq" then Some Qq
  else if eqb value "linuxdo" then Some LinuxDo
  else None.
End ExternalAuthProviderKind.

Module ExternalAuthProtocol.
Inductive t : Type := Oidc | OAuth2.
#[global] Instance eq_dec : EqDecision t.
Proof. solve_decision. Defined.

Definition as_str (p : t) : string :=
  match p with Oidc => "oidc" | OAuth2 => "oauth2" end.
End ExternalAuthProtocol.

Definition default_protocol (k : ExternalAuthProviderKind.t) : ExternalAuthProtocol.t :=
  match k with
  | ExternalAuthProviderKind.Oidc => ExternalAuthProtocol.Oidc
  | ExternalAuthProviderKind.GenericOAuth2 | ExternalAuthProviderKind.GitHub
  | ExternalAuthProviderKind.Qq | ExternalAuthProviderKind.LinuxDo => ExternalAuthProtocol.OAuth2
  | ExternalAuthProviderKind.Google | ExternalAuthProviderKind.Microsoft =>
      ExternalAuthProtocol.Oidc
  end.

(** src/entities/external_auth_provider.rs; the options are JSON text. *)
Record external_auth_provider : Type := mkProvider {
  provider_pk : Z;
  provider_key : string;
  provider_display_name : string;
  provider_icon_url : option string;
  provider_auth_kind : ExternalAuthProviderKind.t;
  provider_protocol : ExternalAuthProtocol.t;
  provider_options : string;
  issuer_url : option string;
  authorization_url : option string;
  token_url : option string;
  userinfo_url : option string;
  client_id : string;
  client_secret : option string;
  scopes : string;
  provider_enabled : bool;
  auto_provision_enabled : bool;
  auto_link_verified_email_enabled : bool;
  require_email_verified : bool;
  subject_claim : option string;
  username_claim : option string;
  display_name_claim : option string;
  email_claim : option string;
  email_verified_claim : option string;
  groups_claim : option string;
  avatar_url_claim : option string;
  allowed_domains : option string;
  provider_created_at : DateTimeUtc;
  provider_updated_at : DateTimeUtc
}.

(** src/entities/external_auth_login_flow.rs *)
Record external_auth_login_flow : Type := mkLoginFlow {
  login_flow_pk : Z;
  login_flow_provider_id : Z;
  login_state_hash : string;
  login_nonce : option string;
  login_pkce_verifier : option string;
  login_redirect_uri : string;
  login_return_path : option string;
  login_flow_created_at : DateTimeUtc;
  login_flow_expires_at : DateTimeUtc;
  login_flow_consumed_at : option DateTimeUtc
}.

(** src/entities/external_auth_binding_flow.rs *)
Record external_auth_binding_flow : Type := mkBindingFlow {
  binding_flow_pk : Z;
  binding_flow_user_id : Z;
  binding_flow_provider_id : Z;
  binding_state_hash : string;
  binding_nonce : option string;
  binding_pkce_verifier : option string;
  binding_redirect_uri : string;
  binding_return_path : option string;
  binding_flow_created_at : DateTimeUtc;
  binding_flow_expires_at : DateTimeUtc;
  binding_flow_consumed_at : option DateTimeUtc
}.

(** src/entities/external_auth_email_verification_flow.rs *)
Record external_auth_email_verification_flow : Type := mkEmailFlow {
  email_flow_pk : Z;
  email_flow_provider_id : Z;
  email_flow_namespace : string;
  email_flow_subject : string;
  target_email : option string;
  email_flow_display_name : option string;
  preferred_username_snapshot : option string;
  email_flow_return_path : option string;
  flow_token_hash : string;
  email_flow_verification_hash : option string;
  email_requested_at : option DateTimeUtc;
  email_flow_created_at : DateTimeUtc;
  email_flow_expires_at : DateTimeUtc;
  email_flow_consumed_at : option DateTimeUtc
}.

(** ** Mail ([services/mail_template.rs]) *)

Inductive MailTemplatePayload : Type :=
| MailRegisterActivation (username token site_name : string)
| MailContactChangeConfirmation (username token site_name : string)
| MailPasswordReset (username token site_name : string)
| MailPasswordResetNotice (username site_name : string)
| MailContactChangeNotice (username previous_email new_email site_name : string)
| MailExternalAuthEmailVerification (email token provider_name site_name expires_in : string)
| MailLoginEmailCode (username code site_name expires_in lang : string)
| MailUserInvitation (email invitation_url site_name expires_in : string).

(** A row of [aster_forge_db]'s mail outbox, as the services ask for it. *)
Record MailOutboxCreate : Type := mkMail {
  to_address : string;
  to_name : option string;
  mail_payload : MailTemplatePayload;
  next_attempt_at : DateTimeUtc;
  mail_now : DateTimeUtc
}.

(** ** The Yggdrasil policy

    The snapshot of the runtime configuration the protocol handlers read
    ([config/yggdrasil.rs], [RuntimeYggdrasilPolicy]).  Handlers take it as
    an argument. *)

Record RuntimeYggdrasilPolicy : Type := mkPolicy {
  server_name : string;
  allow_profile_name_login : bool;
  allow_skin_upload : bool;
  allow_cape_upload : bool;
  allow_microsoft_profile_texture_override : bool;
  enable_profile_key : bool;
  enable_mojang_anti_features : bool;
  token_ttl_days : Z;
  max_active_tokens : Z;
  max_texture_upload_bytes : Z;
  max_texture_pixels : Z;
  max_profiles_per_user : Z;
  max_profile_renames : Z;
  mojang_name_check_enabled : bool;
  mojang_name_check_timeout_secs : Z;
  mojang_profile_api_base_url : string;
  skin_domains : list string;
  public_base_urls : list string;
  texture_public_base_url : option string;
  signature_public_key : string;
  signature_private_key : string
}.

Definition uploadable_textures_value (p : RuntimeYggdrasilPolicy) : string :=
  String.concat ","
    ((if allow_skin_upload p then ["skin"%string] else []) ++
     (if allow_cape_upload p then ["cape"%string] else [])).

(** The integer settings are read as positive [u64]s
    ([forge_read_positive_u64]). *)
Definition U64_MAX : Z := 18446744073709551615.
Definition policy_ok (p : RuntimeYggdrasilPolicy) : Prop :=
  (0 < token_ttl_days p <= U64_MAX)%Z /\ (0 < max_active_tokens p <= U64_MAX)%Z.
