(* ===== verification/AuditLog.v ===== *)
(** * The audit log

    What may be recorded ([src/types/audit.rs]), and the filter in front of it
    ([src/config/audit.rs]): the recorded actions are precomputed into an array
    of 64-bit words, one bit per action, so the hot path is a mask test. *)

From Stdlib Require Import ZArith List Bool Lia.
From stdpp Require Import base decidable list strings.
From S2P Require Import Prelude Text.

Local Open Scope Z_scope.

Module AuditAction.

Inductive t : Type :=
| SystemSetup
| ServerStart
| ServerShutdown
| ConfigUpdate
| ConfigDelete
| ConfigActionExecute
| UserRegister
| UserLogin
| UserLogout
| UserRefreshToken
| UserRevokeSession
| UserRevokeOtherSessions
| UserChangePassword
| UserConfirmRegistration
| UserRequestEmailChange
| UserResendEmailChange
| UserConfirmEmailChange
| UserRequestPasswordReset
| UserConfirmPasswordReset
| UserUpdateProfile
| UserPasskeyRegister
| UserPasskeyRename
| UserPasskeyDelete
| UserPasskeyLogin
| AdminCreateUser
| AdminUpdateUser
| AdminDisableUser
| AdminDeleteUser
| AdminCreateInvitation
| AdminRevokeInvitation
| AdminRevokeUserSessions
| AdminCreateUserBan
| AdminUpdateUserBan
| AdminRevokeUserBan
| AdminDeleteConfig
| AdminCleanupTasks
| TaskRetry
| AdminCreateExternalAuthProvider
| AdminUpdateExternalAuthProvider
| AdminDeleteExternalAuthProvider
| AdminTestExternalAuthProvider
| AdminCreateYggdrasilSessionForwardServer
| AdminUpdateYggdrasilSessionForwardServer
| AdminDeleteYggdrasilSessionForwardServer
| MailSend
| MailDeliveryFailed
| ExternalAuthProviderCreate
| ExternalAuthProviderUpdate
| ExternalAuthProviderDelete
| UserExternalAuthLogin
| UserExternalAuthLink
| UserExternalAuthUnlink
| MinecraftProfileCreate
| MinecraftProfileRename
| MinecraftProfileDelete
| MinecraftTextureUpload
| MinecraftTextureBind
| MinecraftTextureDelete
| MinecraftTextureLibrarySubmit
| MinecraftTextureLibraryWithdraw
| MinecraftTextureLibraryApprove
| MinecraftTextureLibraryReject
| MinecraftTextureLibraryUnpublish
| MinecraftTextureReportCreate
| MinecraftTextureReportAccept
| MinecraftTextureReportReject
| YggdrasilAuthenticate
| YggdrasilRefreshToken
| YggdrasilInvalidateToken
| YggdrasilSignout
| YggdrasilJoinServer
| YggdrasilSessionForwardCheck
| MinecraftTextureEdit.

Definition as_str (a : t) : string :=
  match a with
  | SystemSetup => "system_setup"
  | ServerStart => "server_start"
  | ServerShutdown => "server_shutdown"
  | ConfigUpdate => "config_update"
  | ConfigDelete => "config_delete"
  | ConfigActionExecute => "config_action_execute"
  | UserRegister => "user_register"
  | UserLogin => "user_login"
  | UserLogout => "user_logout"
  | UserRefreshToken => "user_refresh_token"
  | UserRevokeSession => "user_revoke_session"
  | UserRevokeOtherSessions => "user_revoke_other_sessions"
  | UserChangePassword => "user_change_password"
  | UserConfirmRegistration => "user_confirm_registration"
  | UserRequestEmailChange => "user_request_email_change"
  | UserResendEmailChange => "user_resend_email_change"
  | UserConfirmEmailChange => "user_confirm_email_change"
  | UserRequestPasswordReset => "user_request_password_reset"
  | UserConfirmPasswordReset => "user_confirm_password_reset"
  | UserUpdateProfile => "user_update_profile"
  | UserPasskeyRegister => "user_passkey_register"
  | UserPasskeyRename => "user_passkey_rename"
  | UserPasskeyDelete => "user_passkey_delete"
  | UserPasskeyLogin => "user_passkey_login"
  | AdminCreateUser => "admin_create_user"
  | AdminUpdateUser => "admin_update_user"
  | AdminDisableUser => "admin_disable_user"
  | AdminDeleteUser => "admin_delete_user"
  | AdminCreateInvitation => "admin_create_invitation"
  | AdminRevokeInvitation => "admin_revoke_invitation"
  | AdminRevokeUserSessions => "admin_revoke_user_sessions"
  | AdminCreateUserBan => "admin_create_user_ban"
  | AdminUpdateUserBan => "admin_update_user_ban"
  | AdminRevokeUserBan => "admin_revoke_user_ban"
  | AdminDeleteConfig => "admin_delete_config"
  | AdminCleanupTasks => "admin_cleanup_tasks"
  | TaskRetry => "task_retry"
  | AdminCreateExternalAuthProvider => "admin_create_external_auth_provider"
  | AdminUpdateExternalAuthProvider => "admin_update_external_auth_provider"
  | AdminDeleteExternalAuthProvider => "admin_delete_external_auth_provider"
  | AdminTestExternalAuthProvider => "admin_test_external_auth_provider"
  | AdminCreateYggdrasilSessionForwardServer => "admin_create_yggdrasil_session_forward_server"
  | AdminUpdateYggdrasilSessionForwardServer => "admin_update_yggdrasil_session_forward_server"
  | AdminDeleteYggdrasilSessionForwardServer => "admin_delete_yggdrasil_session_forward_server"
  | MailSend => "mail_send"
  | MailDeliveryFailed => "mail_delivery_failed"
  | ExternalAuthProviderCreate => "external_auth_provider_create"
  | ExternalAuthProviderUpdate => "external_auth_provider_update"
  | ExternalAuthProviderDelete => "external_auth_provider_delete"
  | UserExternalAuthLogin => "user_external_auth_login"
  | UserExternalAuthLink => "user_external_auth_link"
  | UserExternalAuthUnlink => "user_external_auth_unlink"
  | MinecraftProfileCreate => "minecraft_profile_create"
  | MinecraftProfileRename => "minecraft_profile_rename"
  | MinecraftProfileDelete => "minecraft_profile_delete"
  | MinecraftTextureUpload => "minecraft_texture_upload"
  | MinecraftTextureBind => "minecraft_texture_bind"
  | MinecraftTextureDelete => "minecraft_texture_delete"
  | MinecraftTextureLibrarySubmit => "minecraft_texture_library_submit"
  | MinecraftTextureLibraryWithdraw => "minecraft_texture_library_withdraw"
  | MinecraftTextureLibraryApprove => "minecraft_texture_library_approve"
  | MinecraftTextureLibraryReject => "minecraft_texture_library_reject"
  | MinecraftTextureLibraryUnpublish => "minecraft_texture_library_unpublish"
  | MinecraftTextureReportCreate => "minecraft_texture_report_create"
  | MinecraftTextureReportAccept => "minecraft_texture_report_accept"
  | MinecraftTextureReportReject => "minecraft_texture_report_reject"
  | YggdrasilAuthenticate => "yggdrasil_authenticate"
  | YggdrasilRefreshToken => "yggdrasil_refresh_token"
  | YggdrasilInvalidateToken => "yggdrasil_invalidate_token"
  | YggdrasilSignout => "yggdrasil_signout"
  | YggdrasilJoinServer => "yggdrasil_join_server"
  | YggdrasilSessionForwardCheck => "yggdrasil_session_forward_check"
  | MinecraftTextureEdit => "minecraft_texture_edit"
  end.

(** [AuditAction::ALL] and [AuditAction::COUNT]. *)
Definition ALL : list t :=
  [SystemSetup; ServerStart; ServerShutdown; ConfigUpdate; ConfigDelete;
   ConfigActionExecute; UserRegister; UserLogin; UserLogout;
   UserRefreshToken; UserRevokeSession; UserRevokeOtherSessions;
   UserChangePassword; UserConfirmRegistration; UserRequestEmailChange;
   UserResendEmailChange; UserConfirmEmailChange; UserRequestPasswordReset;
   UserConfirmPasswordReset; UserUpdateProfile; UserPasskeyRegister;
   UserPasskeyRename; UserPasskeyDelete; UserPasskeyLogin; AdminCreateUser;
   AdminUpdateUser; AdminDisableUser; AdminDeleteUser; AdminCreateInvitation;
   AdminRevokeInvitation; AdminRevokeUserSessions; AdminCreateUserBan;
   AdminUpdateUserBan; AdminRevokeUserBan; AdminDeleteConfig;
   AdminCleanupTasks; TaskRetry; AdminCreateExternalAuthProvider;
   AdminUpdateExternalAuthProvider; AdminDeleteExternalAuthProvider;
   AdminTestExternalAuthProvider; AdminCreateYggdrasilSessionForwardServer;
   AdminUpdateYggdrasilSessionForwardServer;
   AdminDeleteYggdrasilSessionForwardServer; MailSend; MailDeliveryFailed;
   ExternalAuthProviderCreate; ExternalAuthProviderUpdate;
   ExternalAuthProviderDelete; UserExternalAuthLogin; UserExternalAuthLink;
   UserExternalAuthUnlink; MinecraftProfileCreate; MinecraftProfileRename;
   MinecraftProfileDelete; MinecraftTextureUpload; MinecraftTextureBind;
   MinecraftTextureDelete; MinecraftTextureLibrarySubmit;
   MinecraftTextureLibraryWithdraw; MinecraftTextureLibraryApprove;
   MinecraftTextureLibraryReject; MinecraftTextureLibraryUnpublish;
   MinecraftTextureReportCreate; MinecraftTextureReportAccept;
   MinecraftTextureReportReject; YggdrasilAuthenticate;
   YggdrasilRefreshToken; YggdrasilInvalidateToken; YggdrasilSignout;
   YggdrasilJoinServer; YggdrasilSessionForwardCheck; MinecraftTextureEdit].
Definition COUNT : Z := Z.of_nat (length ALL).

(** [from_str_name]: the first arm whose literal is the value. *)
Definition from_str_name (value : string) : option t :=
  List.find (fun a => eqb (as_str a) value) ALL.

(** [index]: the position in [ALL]; two actions are compared by discriminant,
    which for these field-less variants is comparing their names. *)
Fixpoint position (l : list t) (a : t) : Z :=
  match l with
  | [] => 0
  | b :: l => if eqb (as_str b) (as_str a) then 0 else 1 + position l a
  end.
Definition index (a : t) : Z := position ALL a.

Definition group (a : t) : string :=
  match a with
  | SystemSetup | ServerStart | ServerShutdown => "system"
  | ConfigUpdate | ConfigDelete | ConfigActionExecute | AdminDeleteConfig |
  AdminCreateYggdrasilSessionForwardServer |
  AdminUpdateYggdrasilSessionForwardServer |
  AdminDeleteYggdrasilSessionForwardServer => "config"
  | AdminCleanupTasks | TaskRetry => "task"
  | UserRegister | UserLogin | UserLogout | UserRefreshToken |
  UserRevokeSession | UserRevokeOtherSessions | UserChangePassword |
  UserConfirmRegistration | UserRequestEmailChange | UserResendEmailChange |
  UserConfirmEmailChange | UserRequestPasswordReset |
  UserConfirmPasswordReset | UserUpdateProfile | UserPasskeyRegister |
  UserPasskeyRename | UserPasskeyDelete | UserPasskeyLogin |
  MinecraftProfileCreate | MinecraftProfileRename | MinecraftProfileDelete |
  MinecraftTextureUpload | MinecraftTextureEdit | MinecraftTextureBind |
  MinecraftTextureDelete | MinecraftTextureLibrarySubmit |
  MinecraftTextureLibraryWithdraw | MinecraftTextureReportCreate => "user"
  | YggdrasilAuthenticate | YggdrasilRefreshToken | YggdrasilInvalidateToken |
  YggdrasilSignout | YggdrasilJoinServer | YggdrasilSessionForwardCheck => "yggdrasil"
  | AdminCreateUser | AdminUpdateUser | AdminDisableUser | AdminDeleteUser |
  AdminCreateInvitation | AdminRevokeInvitation | AdminRevokeUserSessions |
  AdminCreateUserBan | AdminUpdateUserBan | AdminRevokeUserBan => "admin"
  | MinecraftTextureLibraryApprove | MinecraftTextureLibraryReject |
  MinecraftTextureLibraryUnpublish | MinecraftTextureReportAccept |
  MinecraftTextureReportReject => "admin"
  | MailSend | MailDeliveryFailed => "mail"
  | AdminCreateExternalAuthProvider | AdminUpdateExternalAuthProvider |
  AdminDeleteExternalAuthProvider | AdminTestExternalAuthProvider |
  ExternalAuthProviderCreate | ExternalAuthProviderUpdate |
  ExternalAuthProviderDelete | UserExternalAuthLogin | UserExternalAuthLink |
  UserExternalAuthUnlink => "external_auth"
  end.

Lemma ALL_complete a : In a ALL.
Proof. destruct a; cbn; tauto. Qed.

Lemma as_str_NoDup : NoDup (as_str <$> ALL).
Proof. apply (bool_decide_unpack _). vm_compute. exact I. Qed.

Lemma as_str_inj a b : as_str a = as_str b -> a = b.
Proof.
  intros E. apply (NoDup_map_inj_in as_str ALL); auto using ALL_complete.
  apply NoDup_ListNoDup, as_str_NoDup.
Qed.

Lemma from_str_name_Some value a : from_str_name value = Some a <-> as_str a = value.
Proof.
  unfold from_str_name. split.
  - intros [_ H]%List.find_some. by rewrite eqb_true in H.
  - intros <-. destruct (List.find _ ALL) as [b|] eqn:E.
    + apply List.find_some in E as [_ E]. rewrite eqb_true in E.
      by apply as_str_inj in E as ->.
    + eapply List.find_none in E; [|apply (ALL_complete a)].
      by rewrite eqb_refl in E.
Qed.

Lemma position_bounds l a : In a l -> 0 <= position l a < Z.of_nat (length l).
Proof.
  induction l as [|b l IH]; [done|]. cbn [position length].
  destruct (eqb (as_str b) (as_str a)) eqn:E; [lia|].
  intros [->|H]; [by rewrite eqb_refl in E|]. specialize (IH H). lia.
Qed.

Lemma position_inj l a b : In a l -> In b l -> position l a = position l b -> a = b.
Proof.
  induction l as [|c l IH]; [done|]. cbn [position]. intros Ha Hb.
  destruct (eqb (as_str c) (as_str a)) eqn:Ea, (eqb (as_str c) (as_str b)) eqn:Eb;
    rewrite ?eqb_true, ?eqb_false in *.
  - intros _. apply as_str_inj. congruence.
  - destruct Hb as [->|Hb]; [done|]. pose proof (position_bounds l b Hb). lia.
  - destruct Ha as [->|Ha]; [done|]. pose proof (position_bounds l a Ha). lia.
  - destruct Ha as [->|Ha]; [done|]. destruct Hb as [->|Hb]; [done|].
    intros E. apply IH; auto; lia.
Qed.

Lemma index_bounds a : 0 <= index a < COUNT.
Proof. apply position_bounds, ALL_complete. Qed.

Lemma index_inj a b : index a = index b -> a = b.
Proof. apply position_inj; apply ALL_complete. Qed.

End AuditAction.

Inductive AuditEntityType : Type :=
| System | SystemConfig | UserEntity | Invitation | AuthSession | Passkey
| ExternalAuthProvider | ExternalAuthIdentity | ApiToken | Mail | Task | UserBan
| MinecraftProfile | MinecraftTexture | YggdrasilToken | YggdrasilSession.

#[export] Instance AuditEntityType_eq_dec : EqDecision AuditEntityType.
Proof. solve_decision. Defined.

Definition entity_type_as_str (e : AuditEntityType) : string :=
  match e with
  | System => "system"
  | SystemConfig => "system_config"
  | UserEntity => "user"
  | Invitation => "invitation"
  | AuthSession => "auth_session"
  | Passkey => "passkey"
  | ExternalAuthProvider => "external_auth_provider"
  | ExternalAuthIdentity => "external_auth_identity"
  | ApiToken => "api_token"
  | Mail => "mail"
  | Task => "task"
  | UserBan => "user_ban"
  | MinecraftProfile => "minecraft_profile"
  | MinecraftTexture => "minecraft_texture"
  | YggdrasilToken => "yggdrasil_token"
  | YggdrasilSession => "yggdrasil_session"
  end.

Definition entity_type_from_str_name (value : string) : option AuditEntityType :=
  if eqb value "system"%string then Some System
  else if eqb value "system_config"%string then Some SystemConfig
  else if eqb value "user"%string then Some UserEntity
  else if eqb value "invitation"%string then Some Invitation
  else if eqb value "auth_session"%string then Some AuthSession
  else if eqb value "passkey"%string then Some Passkey
  else if eqb value "external_auth_provider"%string then Some ExternalAuthProvider
  else if eqb value "external_auth_identity"%string then Some ExternalAuthIdentity
  else if eqb value "api_token"%string then Some ApiToken
  else if eqb value "mail"%string then Some Mail
  else if eqb value "task"%string then Some Task
  else if eqb value "user_ban"%string then Some UserBan
  else if eqb value "minecraft_profile"%string then Some MinecraftProfile
  else if eqb value "minecraft_texture"%string then Some MinecraftTexture
  else if eqb value "yggdrasil_token"%string then Some YggdrasilToken
  else if eqb value "yggdrasil_session"%string then Some YggdrasilSession
  else None.

Lemma entity_type_from_str_name_Some value e :
  entity_type_from_str_name value = Some e <-> entity_type_as_str e = value.
Proof.
  split.
  - unfold entity_type_from_str_name.
    repeat match goal with
           | |- context [if eqb value ?n then _ else _] =>
               destruct (eqb value n) eqn:Heq;
                 [rewrite eqb_true in Heq; subst value; by intros [= <-]|clear Heq]
           end. done.
  - intros <-. by destruct e.
Qed.

(** ** The recorded-action mask *)

Definition U64_BITS : Z := 64.

(** [AuditAction::COUNT.div_ceil(u64::BITS)] *)
Definition AUDIT_ACTION_MASK_WORDS : Z :=
  (AuditAction.COUNT + U64_BITS - 1) / U64_BITS.

Abbreviation Mask := (list Z).

Definition empty_action_mask : Mask := repeat 0 (Z.to_nat AUDIT_ACTION_MASK_WORDS).

Definition word_of (action : AuditAction.t) : nat :=
  Z.to_nat (AuditAction.index action / U64_BITS).
Definition bit_of (action : AuditAction.t) : Z := AuditAction.index action mod U64_BITS.

(** [mask[word] |= 1_u64 << bit]; [word] is always in range ([word_of_lt]). *)
Definition set_mask_bit (mask : Mask) (action : AuditAction.t) : Mask :=
  alter (fun w => Z.lor w (Z.shiftl 1 (bit_of action))) (word_of action) mask.

Definition mask_contains (mask : Mask) (action : AuditAction.t) : bool :=
  negb (Z.land (default 0 (mask !! word_of action)) (Z.shiftl 1 (bit_of action)) =? 0).

Definition all_actions_mask : Mask :=
  List.fold_left set_mask_bit AuditAction.ALL empty_action_mask.

Record AuditLogRuntimeSettings : Type := mkSettings {
  audit_enabled : bool;
  action_mask : Mask
}.

Definition DEFAULT_AUDIT_LOG_ENABLED : bool := true.
Definition AUDIT_LOG_RECORDED_ACTIONS_KEY : string := "audit_log_recorded_actions".

Definition should_record (s : AuditLogRuntimeSettings) (action : AuditAction.t) : bool :=
  audit_enabled s && mask_contains (action_mask s) action.

(** The parsers of the two stored values belong to [aster_forge_utils] and
    [aster_forge_config]: a boolean-like text, and a JSON set of names. *)
Class SettingParsers : Type := {
  parse_bool_like : string -> option bool;
  parse_string_enum_set_selection :
    string -> string -> string -> (string -> option AuditAction.t) ->
    outcome string (list AuditAction.t)
}.

Section Settings.
Context `{SettingParsers}.

Definition parse_recorded_actions_config_value (value : string)
  : outcome string (list AuditAction.t) :=
  parse_string_enum_set_selection value AUDIT_LOG_RECORDED_ACTIONS_KEY "audit action"
    AuditAction.from_str_name.

Definition parse_action_mask_for_runtime (value : string) : Mask :=
  match parse_recorded_actions_config_value value with
  | Ok actions => List.fold_left set_mask_bit actions empty_action_mask
  | _ => all_actions_mask
  end.

Definition from_raw_values (enabled_raw actions_raw : option string)
  : AuditLogRuntimeSettings :=
  mkSettings
    (default DEFAULT_AUDIT_LOG_ENABLED (enabled_raw ≫= parse_bool_like))
    (default all_actions_mask (parse_action_mask_for_runtime <$> actions_raw)).
End Settings.

(** ** The mask is the set of actions *)

(** Every word stays a 64-bit word and the array keeps its length. *)
Definition mask_ok (m : Mask) : Prop :=
  length m = Z.to_nat AUDIT_ACTION_MASK_WORDS /\
  Forall (fun w => 0 <= w < 2 ^ 64) m.

Lemma word_of_lt a : (word_of a < Z.to_nat AUDIT_ACTION_MASK_WORDS)%nat.
Proof.
  unfold word_of. pose proof (AuditAction.index_bounds a) as Hb.
  change AuditAction.COUNT with 73 in Hb.
  change AUDIT_ACTION_MASK_WORDS with 2. unfold U64_BITS.
  pose proof (Z.div_lt_upper_bound (AuditAction.index a) 64 2).
  pose proof (Z.div_pos (AuditAction.index a) 64). lia.
Qed.

Lemma bit_of_bounds a : 0 <= bit_of a < 64.
Proof. apply Z.mod_pos_bound. reflexivity. Qed.

Lemma word_bit_inj a b : word_of a = word_of b -> bit_of a = bit_of b -> a = b.
Proof.
  intros Hw Hb. apply AuditAction.index_inj.
  unfold word_of, bit_of, U64_BITS in *.
  pose proof (AuditAction.index_bounds a). pose proof (AuditAction.index_bounds b).
  pose proof (Z.div_pos (AuditAction.index a) 64).
  pose proof (Z.div_pos (AuditAction.index b) 64).
  rewrite (Z.div_mod (AuditAction.index a) 64), (Z.div_mod (AuditAction.index b) 64) by lia.
  lia.
Qed.

(** The mask test reads one bit. *)
Lemma mask_contains_testbit m a :
  mask_contains m a = Z.testbit (default 0 (m !! word_of a)) (bit_of a).
Proof.
  unfold mask_contains. pose proof (bit_of_bounds a) as Hb.
  generalize (default 0 (m !! word_of a)) as w. intros w.
  rewrite Z.shiftl_1_l. apply eq_true_iff_eq. rewrite negb_true_iff, Z.eqb_neq. split.
  - intros H. apply not_false_iff_true. intros Hf. apply H.
    apply Z.bits_inj'. intros n Hn. rewrite Z.land_spec, Z.bits_0.
    rewrite Z.pow2_bits_eqb by lia. destruct (Z.eqb_spec (bit_of a) n) as [<-|];
      [by rewrite Hf|by rewrite andb_false_r].
  - intros Ht H0. assert (Z.testbit (Z.land w (2 ^ bit_of a)) (bit_of a) = true) as Hx.
    { rewrite Z.land_spec, Ht, Z.pow2_bits_true by lia. done. }
    rewrite H0, Z.bits_0 in Hx. done.
Qed.

Lemma set_mask_bit_ok m a : mask_ok m -> mask_ok (set_mask_bit m a).
Proof.
  intros [Hl Hw]. unfold mask_ok, set_mask_bit. split; [by rewrite length_alter|].
  apply Forall_alter; [done|]. intros w _ [H0 H64].
  pose proof (bit_of_bounds a). rewrite Z.shiftl_1_l.
  assert (0 <= 2 ^ bit_of a < 2 ^ 64) by
    (split; [apply Z.pow_nonneg; lia | apply Z.pow_lt_mono_r; lia]).
  assert (Hn : 0 <= Z.lor w (2 ^ bit_of a)) by (apply Z.lor_nonneg; lia).
  split; [done|].
  destruct (Z.eq_dec (Z.lor w (2 ^ bit_of a)) 0) as [->|Hnz]; [done|].
  apply Z.log2_lt_pow2; [lia|]. rewrite Z.log2_lor by lia.
  apply Z.max_lub_lt; [|rewrite Z.log2_pow2 by lia; lia].
  destruct (Z.eq_dec w 0) as [->|]; [done|]. apply Z.log2_lt_pow2; lia.
Qed.

Lemma mask_contains_set m a b :
  length m = Z.to_nat AUDIT_ACTION_MASK_WORDS ->
  mask_contains (set_mask_bit m a) b = true <-> a = b \/ mask_contains m b = true.
Proof.
  intros Hl. rewrite !mask_contains_testbit. unfold set_mask_bit.
  pose proof (bit_of_bounds a). pose proof (bit_of_bounds b).
  destruct (decide (word_of a = word_of b)) as [Hw|Hw].
  - rewrite <- Hw, list_lookup_alter_eq.
    destruct (m !! word_of a) as [w|] eqn:E; cycle 1.
    { apply lookup_ge_None in E. pose proof (word_of_lt a). lia. }
    cbn. rewrite Z.lor_spec, Z.shiftl_1_l, Z.pow2_bits_eqb by lia.
    rewrite orb_true_iff, Z.eqb_eq. split.
    + intros [?|Hb]; [by right|]. left. by apply word_bit_inj.
    + intros [->|?]; [by right|by left].
  - rewrite list_lookup_alter_ne by done. split; [by right|].
    intros [->|?]; done.
Qed.

Lemma fold_mask actions m :
  mask_ok m ->
  mask_ok (List.fold_left set_mask_bit actions m) /\
  forall b, mask_contains (List.fold_left set_mask_bit actions m) b = true <->
            In b actions \/ mask_contains m b = true.
Proof.
  revert m. induction actions as [|a actions IH]; intros m Hm; cbn [List.fold_left].
  - split; [done|]. intros b. cbn. tauto.
  - destruct (IH (set_mask_bit m a) (set_mask_bit_ok m a Hm)) as [Hok Hc].
    split; [done|]. intros b. rewrite Hc, mask_contains_set by apply Hm. cbn. tauto.
Qed.

Lemma empty_action_mask_ok : mask_ok empty_action_mask.
Proof.
  split; [done|]. apply Forall_forall. intros w Hw.
  apply list_elem_of_In, repeat_spec in Hw as ->. lia.
Qed.

Lemma mask_contains_empty b : mask_contains empty_action_mask b = false.
Proof.
  rewrite mask_contains_testbit. unfold empty_action_mask.
  destruct (repeat 0 _ !! word_of b) as [w|] eqn:E; cbn; [|apply Z.bits_0].
  apply list_elem_of_lookup_2, list_elem_of_In, repeat_spec in E as ->. apply Z.bits_0.
Qed.

(** ** The properties *)
Section Properties.
Context `{SettingParsers}.

(** The precompiled mask is the configured set. Whatever the two stored
    settings are, an action is recorded exactly if auditing is enabled
    (absent or unreadable text means enabled) and the action is in the
    configured list (an absent or invalid list means every action); every
    word of the mask fits in 64 bits. *)
Theorem audit_settings_record_configured enabled_raw actions_raw a :
  let s := from_raw_values enabled_raw actions_raw in
  mask_ok (action_mask s) /\
  (should_record s a = true <->
   (enabled_raw ≫= parse_bool_like) <> Some false /\
   match parse_recorded_actions_config_value <$> actions_raw with
   | Some (Ok actions) => In a actions
   | _ => True
   end).
Proof.
  assert (Hall : mask_ok all_actions_mask /\ mask_contains all_actions_mask a = true).
  { destruct (fold_mask AuditAction.ALL empty_action_mask empty_action_mask_ok) as [Hok Hin].
    split; [done|]. apply Hin. left. apply AuditAction.ALL_complete. }
  destruct Hall as [Hall Ha]. cbn. unfold should_record. cbn. rewrite andb_true_iff.
  assert (He : default DEFAULT_AUDIT_LOG_ENABLED (enabled_raw ≫= parse_bool_like) = true <->
               (enabled_raw ≫= parse_bool_like) <> Some false).
  { destruct (enabled_raw ≫= parse_bool_like) as [[]|]; cbn; split; try congruence; done. }
  rewrite He. destruct actions_raw as [raw|]; cbn; [|tauto].
  unfold parse_action_mask_for_runtime.
  destruct (parse_recorded_actions_config_value raw) as [actions|e|m]; [|tauto|tauto].
  destruct (fold_mask actions empty_action_mask empty_action_mask_ok) as [Hok Hin].
  rewrite Hin, mask_contains_empty. split; [done|]. intuition congruence.
Qed.
End Properties.

(** The stored names of audit actions and entity types decode to exactly
    the value they encode and nothing else does; the list the mask indexes
    holds every action once, so an action's index determines it. *)
Theorem audit_names_roundtrip :
  (forall v a, AuditAction.from_str_name v = Some a <-> AuditAction.as_str a = v) /\
  (forall v e, entity_type_from_str_name v = Some e <-> entity_type_as_str e = v) /\
  (forall a, 0 <= AuditAction.index a < AuditAction.COUNT /\
             AuditAction.ALL !! Z.to_nat (AuditAction.index a) = Some a).
Proof.
  split; [apply AuditAction.from_str_name_Some|].
  split; [apply entity_type_from_str_name_Some|].
  intros a. split; [apply AuditAction.index_bounds|]. by destruct a; vm_compute.
Qed.
