(* ===== verification/World.v ===== *)
(** * The runtime state and its effects

    [AppState] as the handlers use it: the database tables, the cache, the
    object storage, the audit log and the environment (clock, random source, database failures).
    A handler is a state-passing program [M E A] over the [World]; every
    [await]ed statement consumes one tick of [step], and the environment
    decides by tick what the clock reads and whether the statement fails.
    Code that is not part of the repository (the cache backend, the
    transaction helpers, hashing) is a class with the laws the handlers rely
    on; every theorem holds for all its instances. *)

From Stdlib Require Import ZArith List Bool Lia.
From stdpp Require Import base decidable list strings gmap.
From S2P Require Import Prelude Text Errors Types AuditLog.

Local Open Scope Z_scope.

Definition NANOS_PER_SEC : Z := 1000000000.
Definition seconds (n : Z) : Z := n * NANOS_PER_SEC.

(** ** The environment *)

Class Env : Type := {
  clock : nat -> DateTimeUtc;             (* Utc::now() at this tick *)
  db_fault : nat -> option string;        (* the statement of this tick fails *)
  short_token : nat -> string;            (* aster_forge_utils::id::new_short_token *)
  random_draw : nat -> Z -> Z;            (* rand: random_range(0..n) *)
  record_not_updated : string;            (* sea_orm: DbErr::RecordNotUpdated *)
  unique_violation : string;              (* the driver's constraint messages *)
  foreign_key_violation : string
}.

(** The clock never runs backwards. *)
Definition clock_monotone `{Env} : Prop :=
  forall i j, (i <= j)%nat -> clock i <= clock j.

(** aster_forge_crypto *)
Class ForgeCrypto : Type := {
  sha256_hex : string -> string;
  verify_password : string -> string -> outcome string bool
}.

(** ** Values of the Yggdrasil protocol ([src/api/dto/yggdrasil.rs]) *)

Record YggdrasilProfileProperty : Type := mkProperty {
  property_name : string;
  property_value : string;
  property_signature : option string
}.

Record YggdrasilProfile : Type := mkYggProfile {
  ygg_id : string;
  ygg_name : string;
  ygg_source : option MinecraftProfileSource;
  ygg_properties : option (list YggdrasilProfileProperty)
}.

(** [YggdrasilJoinSession] of [yggdrasil_service/cache.rs]. *)
Record YggdrasilJoinSession : Type := mkJoin {
  join_profile_id : Z;
  join_profile_uuid : string;
  join_profile_name : string;
  join_server_id : string;
  join_ip_address : option string
}.

(** The challenges of passkey ceremonies ([passkey_service.rs]); the states
    of the WebAuthn library are their JSON. *)
Record PasskeyRegistrationChallenge : Type := mkRegistrationChallenge {
  rc_user_id : Z;
  rc_user_handle : string;
  rc_default_name : string;
  rc_state : string
}.

Record PasskeyAuthenticationChallenge : Type := mkAuthenticationChallenge {
  ac_identifier : option string;
  ac_state : string
}.

(** [CaptchaChallengeState] of [captcha_service.rs]. *)
Record CaptchaChallengeState : Type := mkCaptchaState {
  cc_answer_hash : string;
  cc_attempts : Z;
  cc_max_attempts : Z;
  cc_expires_at : DateTimeUtc
}.

(** ** The cache backend

    A cached value is the serialised form of one of these types; reading it
    back as another type yields nothing. *)
Inductive CacheValue : Type :=
| CvToken (t : yggdrasil_token)
| CvJoin (s : YggdrasilJoinSession)
| CvServers (l : list forward_server)
| CvProfile (p : YggdrasilProfile)
| CvProperties (l : list YggdrasilProfileProperty)
| CvBlob (storage_key : string)
| CvRegistration (c : PasskeyRegistrationChallenge)
| CvAuthentication (c : PasskeyAuthenticationChallenge)
| CvCaptcha (c : CaptchaChallengeState).

Class CacheBackend : Type := {
  cache_state : Type;
  cache_get : cache_state -> DateTimeUtc -> string -> option CacheValue;
  cache_set : cache_state -> DateTimeUtc -> string -> CacheValue -> Z -> cache_state;
  cache_delete : cache_state -> string -> cache_state;
  cache_delete_many : cache_state -> list string -> cache_state;
  cache_invalidate_prefix : cache_state -> string -> cache_state
}.

(** A cache may lose entries at any time but never invents one, never serves
    one past its time to live and never serves a deleted one. *)
Class CacheLaws (CB : CacheBackend) : Prop := {
  get_set c t k v ttl t' k' x :
    cache_get (cache_set c t k v ttl) t' k' = Some x ->
    (k' = k /\ x = v /\ t' <= t + seconds ttl) \/ cache_get c t' k' = Some x;
  get_delete c k t k' x :
    cache_get (cache_delete c k) t k' = Some x ->
    k' <> k /\ cache_get c t k' = Some x;
  get_delete_many c ks t k' x :
    cache_get (cache_delete_many c ks) t k' = Some x ->
    ~ In k' ks /\ cache_get c t k' = Some x;
  get_invalidate_prefix c p t k' x :
    cache_get (cache_invalidate_prefix c p) t k' = Some x ->
    starts_with p k' = false /\ cache_get c t k' = Some x
}.

(** ** The database *)

Record Table (A : Type) : Type := mkTable { rows : list A; next_pk : Z }.
Arguments mkTable {A} _ _.
Arguments rows {A} _.
Arguments next_pk {A} _.

(** The tables of web accounts.  The mail outbox is the list of rows handed
    to [aster_forge_db::create_mail_outbox_row]. *)
Record AccountTables : Type := mkAccounts {
  auth_sessions : Table auth_session;
  verification_tokens : Table contact_verification_token;
  invitations : Table user_invitation;
  user_profiles : Table user_profile;
  operator_scopes : Table user_operator_scope;
  external_identities : Table external_auth_identity;
  mail_outbox : list MailOutboxCreate
}.

(** The texture library, beside the textures themselves. *)
Record LibraryTables : Type := mkLibrary {
  texture_tags : Table minecraft_texture_tag;
  tag_bindings : Table minecraft_texture_tag_binding;
  texture_reports : Table minecraft_texture_report;
  texture_preferences : Table minecraft_profile_texture_preference
}.

(** External authentication; the identities are with the accounts. *)
Record ExternalTables : Type := mkExternal {
  external_providers : Table external_auth_provider;
  login_flows : Table external_auth_login_flow;
  binding_flows : Table external_auth_binding_flow;
  email_flows : Table external_auth_email_verification_flow
}.

Record Db : Type := mkDb {
  users : Table user;
  profiles : Table minecraft_profile;
  tokens : Table yggdrasil_token;
  bans : Table user_ban;
  ban_events : Table user_ban_event;
  servers : Table forward_server;
  tasks : Table background_task;
  textures : Table minecraft_texture;
  profile_textures : Table minecraft_profile_texture;
  accounts : AccountTables;
  library : LibraryTables;
  external : ExternalTables;
  passkeys : Table passkey
}.

Definition set_tokens (t : Table yggdrasil_token) (d : Db) : Db :=
  mkDb (users d) (profiles d) t (bans d) (ban_events d) (servers d) (tasks d)
    (textures d) (profile_textures d) (accounts d) (library d) (external d) (passkeys d).
Definition set_bans (t : Table user_ban) (d : Db) : Db :=
  mkDb (users d) (profiles d) (tokens d) t (ban_events d) (servers d) (tasks d)
    (textures d) (profile_textures d) (accounts d) (library d) (external d) (passkeys d).
Definition set_ban_events (t : Table user_ban_event) (d : Db) : Db :=
  mkDb (users d) (profiles d) (tokens d) (bans d) t (servers d) (tasks d)
    (textures d) (profile_textures d) (accounts d) (library d) (external d) (passkeys d).
Definition set_servers (t : Table forward_server) (d : Db) : Db :=
  mkDb (users d) (profiles d) (tokens d) (bans d) (ban_events d) t (tasks d)
    (textures d) (profile_textures d) (accounts d) (library d) (external d) (passkeys d).
Definition set_tasks (t : Table background_task) (d : Db) : Db :=
  mkDb (users d) (profiles d) (tokens d) (bans d) (ban_events d) (servers d) t
    (textures d) (profile_textures d) (accounts d) (library d) (external d) (passkeys d).
Definition set_profile_textures (t : Table minecraft_profile_texture) (d : Db) : Db :=
  mkDb (users d) (profiles d) (tokens d) (bans d) (ban_events d) (servers d) (tasks d)
    (textures d) t (accounts d) (library d) (external d) (passkeys d).

Definition set_textures (t : Table minecraft_texture) (d : Db) : Db :=
  mkDb (users d) (profiles d) (tokens d) (bans d) (ban_events d) (servers d) (tasks d)
    t (profile_textures d) (accounts d) (library d) (external d) (passkeys d).
Definition set_library (l : LibraryTables) (d : Db) : Db :=
  mkDb (users d) (profiles d) (tokens d) (bans d) (ban_events d) (servers d) (tasks d)
    (textures d) (profile_textures d) (accounts d) l (external d) (passkeys d).
Definition set_texture_tags (t : Table minecraft_texture_tag) (d : Db) : Db :=
  let l := library d in
  set_library (mkLibrary t (tag_bindings l) (texture_reports l) (texture_preferences l)) d.
Definition set_tag_bindings (t : Table minecraft_texture_tag_binding) (d : Db) : Db :=
  let l := library d in
  set_library (mkLibrary (texture_tags l) t (texture_reports l) (texture_preferences l)) d.
Definition set_texture_reports (t : Table minecraft_texture_report) (d : Db) : Db :=
  let l := library d in
  set_library (mkLibrary (texture_tags l) (tag_bindings l) t (texture_preferences l)) d.
Definition set_texture_preferences (t : Table minecraft_profile_texture_preference) (d : Db)
  : Db :=
  let l := library d in
  set_library (mkLibrary (texture_tags l) (tag_bindings l) (texture_reports l) t) d.

Definition set_users (t : Table user) (d : Db) : Db :=
  mkDb t (profiles d) (tokens d) (bans d) (ban_events d) (servers d) (tasks d)
    (textures d) (profile_textures d) (accounts d) (library d) (external d) (passkeys d).
Definition set_accounts (a : AccountTables) (d : Db) : Db :=
  mkDb (users d) (profiles d) (tokens d) (bans d) (ban_events d) (servers d) (tasks d)
    (textures d) (profile_textures d) a (library d) (external d) (passkeys d).
Definition set_auth_sessions (t : Table auth_session) (d : Db) : Db :=
  let a := accounts d in
  set_accounts (mkAccounts t (verification_tokens a) (invitations a) (user_profiles a)
    (operator_scopes a) (external_identities a) (mail_outbox a)) d.
Definition set_verification_tokens (t : Table contact_verification_token) (d : Db) : Db :=
  let a := accounts d in
  set_accounts (mkAccounts (auth_sessions a) t (invitations a) (user_profiles a)
    (operator_scopes a) (external_identities a) (mail_outbox a)) d.
Definition set_user_profiles (t : Table user_profile) (d : Db) : Db :=
  let a := accounts d in
  set_accounts (mkAccounts (auth_sessions a) (verification_tokens a) (invitations a) t
    (operator_scopes a) (external_identities a) (mail_outbox a)) d.
Definition set_operator_scopes (t : Table user_operator_scope) (d : Db) : Db :=
  let a := accounts d in
  set_accounts (mkAccounts (auth_sessions a) (verification_tokens a) (invitations a)
    (user_profiles a) t (external_identities a) (mail_outbox a)) d.
Definition set_invitations (t : Table user_invitation) (d : Db) : Db :=
  let a := accounts d in
  set_accounts (mkAccounts (auth_sessions a) (verification_tokens a) t (user_profiles a)
    (operator_scopes a) (external_identities a) (mail_outbox a)) d.
Definition set_mail_outbox (l : list MailOutboxCreate) (d : Db) : Db :=
  let a := accounts d in
  set_accounts (mkAccounts (auth_sessions a) (verification_tokens a) (invitations a)
    (user_profiles a) (operator_scopes a) (external_identities a) l) d.

Definition set_external_identities (t : Table external_auth_identity) (d : Db) : Db :=
  let a := accounts d in
  set_accounts (mkAccounts (auth_sessions a) (verification_tokens a) (invitations a)
    (user_profiles a) (operator_scopes a) t (mail_outbox a)) d.

Definition set_external (x : ExternalTables) (d : Db) : Db :=
  mkDb (users d) (profiles d) (tokens d) (bans d) (ban_events d) (servers d) (tasks d)
    (textures d) (profile_textures d) (accounts d) (library d) x (passkeys d).
Definition set_passkeys (t : Table passkey) (d : Db) : Db :=
  mkDb (users d) (profiles d) (tokens d) (bans d) (ban_events d) (servers d) (tasks d)
    (textures d) (profile_textures d) (accounts d) (library d) (external d) t.
Definition set_external_providers (t : Table external_auth_provider) (d : Db) : Db :=
  let x := external d in
  set_external (mkExternal t (login_flows x) (binding_flows x) (email_flows x)) d.
Definition set_login_flows (t : Table external_auth_login_flow) (d : Db) : Db :=
  let x := external d in
  set_external (mkExternal (external_providers x) t (binding_flows x) (email_flows x)) d.
Definition set_binding_flows (t : Table external_auth_binding_flow) (d : Db) : Db :=
  let x := external d in
  set_external (mkExternal (external_providers x) (login_flows x) t (email_flows x)) d.
Definition set_email_flows (t : Table external_auth_email_verification_flow) (d : Db) : Db :=
  let x := external d in
  set_external (mkExternal (external_providers x) (login_flows x) (binding_flows x) t) d.

Definition with_rows {A} (l : list A) (t : Table A) : Table A := mkTable l (next_pk t).

(** [ActiveModel::insert]: the key is the next of the sequence; [conflict]
    is the table's unique indexes. *)
Definition insert_row {A} (conflict : A -> A -> bool) (mk : Z -> A) (t : Table A)
  : option (A * Table A) :=
  let r := mk (next_pk t) in
  if existsb (conflict r) (rows t) then None
  else Some (r, mkTable (rows t ++ [r]) (next_pk t + 1)).

(** [ActiveModel::update]: writes the changed columns of the row with the
    model's key and reads the row back; no such row is an error. *)
Definition update_row {A} (pk : A -> Z) (id : Z) (f : A -> A) (t : Table A)
  : option (A * Table A) :=
  match find_row (fun r => pk r =? id) (rows t) with
  | Some r => Some (f r, with_rows (update_where (fun r => pk r =? id) f (rows t)) t)
  | None => None
  end.

(** Audit entries in the order they were handed to the audit manager. *)
Record AuditContext : Type := mkCtx {
  ctx_user_id : Z;
  ctx_ip_address : option string;
  ctx_user_agent : option string
}.
Record AuditEntry : Type := mkEntry {
  entry_ctx : AuditContext;
  entry_action : AuditAction.t;
  entry_entity_type : AuditEntityType;
  entry_entity_id : option Z;
  entry_entity_name : option string
}.

Section Programs.
Context `{EN : Env} `{CB : CacheBackend}.

Record World : Type := mkWorld {
  db : Db;
  cache : cache_state;
  audit_log : list AuditEntry;
  step : nat;
  objects : gmap string string            (* the object storage, by key *)
}.

Definition tick (w : World) : World :=
  mkWorld (db w) (cache w) (audit_log w) (S (step w)) (objects w).
Definition set_db (d : Db) (w : World) : World :=
  mkWorld d (cache w) (audit_log w) (step w) (objects w).
Definition set_cache (c : cache_state) (w : World) : World :=
  mkWorld (db w) c (audit_log w) (step w) (objects w).
Definition set_objects (o : gmap string string) (w : World) : World :=
  mkWorld (db w) (cache w) (audit_log w) (step w) o.
Definition add_audit (e : AuditEntry) (w : World) : World :=
  mkWorld (db w) (cache w) (audit_log w ++ [e]) (step w) (objects w).

(** ** Programs *)

Definition M (E A : Type) : Type := World -> outcome E A * World.

Definition ret {E A} (a : A) : M E A := fun w => (Ok a, w).
Definition throw {E A} (e : E) : M E A := fun w => (Err e, w).
Definition panic {E A} (m : string) : M E A := fun w => (Panic m, w).

Definition bind {E A B} (c : M E A) (k : A -> M E B) : M E B :=
  fun w =>
    let (r, w') := c w in
    match r with
    | Ok a => k a w'
    | Err e => (Err e, w')
    | Panic m => (Panic m, w')
    end.

(** [.map_err(f)?] *)
Definition map_err {E F A} (f : E -> F) (c : M E A) : M F A :=
  fun w =>
    let (r, w') := c w in
    (match r with Ok a => Ok a | Err e => Err (f e) | Panic m => Panic m end, w').

(** [.await] without [?]: the result as a value. *)
Definition catch {E F A} (c : M E A) : M F (A + E) :=
  fun w =>
    let (r, w') := c w in
    (match r with Ok a => Ok (inl a) | Err e => Ok (inr e) | Panic m => Panic m end, w').

Definition lift {E A} (o : outcome E A) : M E A := fun w => (o, w).

Definition when_ok {E} (guard : bool) (e : E) : M E unit :=
  if guard then throw e else ret tt.

Definition utc_now {E} : M E DateTimeUtc := fun w => (Ok (clock (step w)), tick w).
Definition new_short_token {E} : M E string :=
  fun w => (Ok (short_token (step w)), tick w).
Definition random_range {E} (n : Z) : M E Z :=
  fun w => (Ok (random_draw (step w) n), tick w).

(** One SQL statement. *)
Definition db_exec {A} (f : Db -> outcome AsterError.t (A * Db)) : M AsterError.t A :=
  fun w =>
    match db_fault (step w) with
    | Some message => (Err (AsterError.DatabaseOperation message), tick w)
    | None =>
        match f (db w) with
        | Ok (a, d) => (Ok a, set_db d (tick w))
        | Err e => (Err e, tick w)
        | Panic m => (Panic m, tick w)
        end
    end.
Definition db_query {A} (f : Db -> A) : M AsterError.t A :=
  db_exec (fun d => Ok (f d, d)).

Definition db_insert {A} (get : Db -> Table A) (set : Table A -> Db -> Db)
  (conflict : A -> A -> bool) (mk : Z -> A) : M AsterError.t A :=
  db_exec (fun d =>
    match insert_row conflict mk (get d) with
    | Some (r, t) => Ok (r, set t d)
    | None => Err (AsterError.DatabaseOperation unique_violation)
    end).

Definition db_update {A} (get : Db -> Table A) (set : Table A -> Db -> Db)
  (pk : A -> Z) (id : Z) (f : A -> A) : M AsterError.t A :=
  db_exec (fun d =>
    match update_row pk id f (get d) with
    | Some (r, t) => Ok (r, set t d)
    | None => Err (AsterError.DatabaseOperation record_not_updated)
    end).

(** [update_many ... filter ... exec]: the rows affected. *)
Definition db_update_many {A} (get : Db -> Table A) (set : Table A -> Db -> Db)
  (p : A -> bool) (f : A -> A) : M AsterError.t Z :=
  db_exec (fun d =>
    Ok (Z.of_nat (count_where p (rows (get d))),
        set (with_rows (update_where p f (rows (get d))) (get d)) d)).

Definition db_delete_many {A} (get : Db -> Table A) (set : Table A -> Db -> Db)
  (p : A -> bool) : M AsterError.t Z :=
  db_exec (fun d =>
    Ok (Z.of_nat (count_where p (rows (get d))),
        set (with_rows (delete_where p (rows (get d))) (get d)) d)).

Definition cache_read {E} (k : string) : M E (option CacheValue) :=
  fun w => (Ok (cache_get (cache w) (clock (step w)) k), tick w).
Definition cache_write {E} (k : string) (v : CacheValue) (ttl : Z) : M E unit :=
  fun w => (Ok tt, tick (set_cache (cache_set (cache w) (clock (step w)) k v ttl) w)).
(** [CacheExt::take]: the value, and it is gone. *)
Definition cache_take {E} (k : string) : M E (option CacheValue) :=
  fun w => (Ok (cache_get (cache w) (clock (step w)) k), tick (set_cache (cache_delete (cache w) k) w)).
Definition cache_update {E} (f : cache_state -> cache_state) : M E unit :=
  fun w => (Ok tt, tick (set_cache (f (cache w)) w)).

(** [for x in xs { body(x)?; }] *)
Fixpoint for_each {E A} (xs : list A) (body : A -> M E unit) : M E unit :=
  match xs with
  | [] => ret tt
  | x :: xs => bind (body x) (fun _ => for_each xs body)
  end.

(** ** Weakest preconditions

    [wp c Q w]: running [c] from [w] ends in an outcome and a world that
    satisfy [Q].  Handlers are verified by walking through them with the
    rules below. *)
Definition wp {E A} (c : M E A) (Q : outcome E A -> World -> Prop) (w : World) : Prop :=
  Q (fst (c w)) (snd (c w)).

Lemma wp_run {E A} (c : M E A) Q w r w' : wp c Q w -> c w = (r, w') -> Q r w'.
Proof. unfold wp. intros H Hrun. by rewrite Hrun in H. Qed.

Lemma wp_intro {E A} (c : M E A) (Q : outcome E A -> World -> Prop) w :
  (forall r w', c w = (r, w') -> Q r w') -> wp c Q w.
Proof. intros H. apply H. apply surjective_pairing. Qed.

Lemma wp_mono {E A} (c : M E A) (Q Q' : outcome E A -> World -> Prop) w :
  wp c Q w -> (forall r w', Q r w' -> Q' r w') -> wp c Q' w.
Proof. unfold wp. auto. Qed.

Lemma wp_ret {E A} (a : A) (Q : outcome E A -> World -> Prop) w :
  Q (Ok a) w -> wp (ret a) Q w.
Proof. done. Qed.

Lemma wp_throw {E A} (e : E) (Q : outcome E A -> World -> Prop) w :
  Q (Err e) w -> wp (throw e) Q w.
Proof. done. Qed.

Lemma wp_panic {E A} m (Q : outcome E A -> World -> Prop) w :
  Q (Panic m) w -> wp (panic m) Q w.
Proof. done. Qed.

(** What is left to show after a step with outcome [r]. *)
Definition wp_next {E A B} (k : A -> M E B) (Q : outcome E B -> World -> Prop)
  (r : outcome E A) (w : World) : Prop :=
  match r with
  | Ok a => wp (k a) Q w
  | Err e => Q (Err e) w
  | Panic m => Q (Panic m) w
  end.

Lemma wp_bind {E A B} (c : M E A) (k : A -> M E B) Q w :
  wp c (wp_next k Q) w -> wp (bind c k) Q w.
Proof. unfold wp, bind. destruct (c w) as [[a|e|m] w']; cbn; done. Qed.

Lemma wp_map_err {E F A} (f : E -> F) (c : M E A) Q w :
  wp c (fun r w' =>
          Q (match r with Ok a => Ok a | Err e => Err (f e) | Panic m => Panic m end) w') w ->
  wp (map_err f c) Q w.
Proof. unfold wp, map_err. by destruct (c w) as [[a|e|m] w']. Qed.

Lemma wp_catch {E F A} (c : M E A) (Q : outcome F (A + E) -> World -> Prop) w :
  wp c (fun r w' =>
          Q (match r with Ok a => Ok (inl a) | Err e => Ok (inr e) | Panic m => Panic m end) w') w ->
  wp (catch c) Q w.
Proof. unfold wp, catch. by destruct (c w) as [[a|e|m] w']. Qed.

Lemma wp_lift {E A} (o : outcome E A) Q w : Q o w -> wp (lift o) Q w.
Proof. done. Qed.

Lemma wp_utc_now {E} (Q : outcome E DateTimeUtc -> World -> Prop) w :
  Q (Ok (clock (step w))) (tick w) -> wp utc_now Q w.
Proof. done. Qed.

Lemma wp_new_short_token {E} (Q : outcome E string -> World -> Prop) w :
  Q (Ok (short_token (step w))) (tick w) -> wp new_short_token Q w.
Proof. done. Qed.

Lemma wp_db_exec {A} (f : Db -> outcome AsterError.t (A * Db)) Q w :
  (forall m, db_fault (step w) = Some m ->
             Q (Err (AsterError.DatabaseOperation m)) (tick w)) ->
  (db_fault (step w) = None ->
   match f (db w) with
   | Ok (a, d) => Q (Ok a) (set_db d (tick w))
   | Err e => Q (Err e) (tick w)
   | Panic m => Q (Panic m) (tick w)
   end) ->
  wp (db_exec f) Q w.
Proof.
  intros Hf Hok. unfold wp, db_exec. destruct (db_fault (step w)) as [m|] eqn:E.
  - by apply Hf.
  - specialize (Hok eq_refl). by destruct (f (db w)) as [[a d]|e|m].
Qed.

Lemma wp_db_query {A} (f : Db -> A) Q w :
  (forall m, db_fault (step w) = Some m ->
             Q (Err (AsterError.DatabaseOperation m)) (tick w)) ->
  (db_fault (step w) = None -> Q (Ok (f (db w))) (tick w)) ->
  wp (db_query f) Q w.
Proof.
  intros Hf Hok. apply wp_db_exec; [done|]. intros H. specialize (Hok H).
  by destruct w.
Qed.

Lemma wp_cache_read {E} k (Q : outcome E (option CacheValue) -> World -> Prop) w :
  Q (Ok (cache_get (cache w) (clock (step w)) k)) (tick w) -> wp (cache_read k) Q w.
Proof. done. Qed.

Lemma wp_cache_write {E} k v ttl (Q : outcome E unit -> World -> Prop) w :
  Q (Ok tt) (tick (set_cache (cache_set (cache w) (clock (step w)) k v ttl) w)) ->
  wp (cache_write k v ttl) Q w.
Proof. done. Qed.

Lemma wp_cache_update {E} f (Q : outcome E unit -> World -> Prop) w :
  Q (Ok tt) (tick (set_cache (f (cache w)) w)) -> wp (cache_update f) Q w.
Proof. done. Qed.

(** The loop rule: an invariant every iteration keeps, and an exit
    condition for the early return. *)
Lemma wp_for_each {E A} (xs : list A) (body : A -> M E unit)
  (I : list A -> list A -> World -> Prop) (Q : outcome E unit -> World -> Prop) w :
  I [] xs w ->
  (forall done x todo w, xs = done ++ x :: todo -> I done (x :: todo) w ->
     wp (body x) (fun r w' =>
       match r with
       | Ok _ => I (done ++ [x]) todo w'
       | Err e => Q (Err e) w'
       | Panic m => Q (Panic m) w'
       end) w) ->
  (forall w, I xs [] w -> Q (Ok tt) w) ->
  wp (for_each xs body) Q w.
Proof.
  intros H0 Hstep Hend.
  assert (go : forall todo done w, xs = done ++ todo -> I done todo w ->
               wp (for_each todo body) Q w).
  { induction todo as [|x todo IH]; intros dn w1 -> HI; cbn.
    - apply wp_ret, Hend. by rewrite app_nil_r.
    - apply wp_bind. eapply wp_mono; [by apply (Hstep dn)|].
      intros [[]|e|m] w2 H2; cbn; [|done|done].
      apply (IH (dn ++ [x])); [by rewrite <- app_assoc|done]. }
  by apply (go xs []).
Qed.

(** [same w w']: nothing but the tick counter moved. *)
Definition same (w w' : World) : Prop :=
  db w' = db w /\ cache w' = cache w /\
  (audit_log w' = audit_log w /\ objects w' = objects w) /\
  (step w <= step w')%nat.

Lemma same_refl w : same w w.
Proof. repeat split; auto. Qed.
Lemma same_tick w : same w (tick w).
Proof. repeat split; cbn; auto. Qed.
Lemma same_trans w1 w2 w3 : same w1 w2 -> same w2 w3 -> same w1 w3.
Proof.
  intros (?&?&[??]&?) (?&?&[??]&?). repeat split; try congruence. lia.
Qed.

Definition no_faults : Prop := forall n, db_fault n = None.
End Programs.

Arguments World {CB}.
Arguments mkWorld {CB} _ _ _ _ _.
Arguments M {CB} E A.

Declare Scope aster_scope.
Delimit Scope aster_scope with aster.
Notation "'let*' x ':=' c 'in' k" := (bind c (fun x => k))
  (at level 10, x pattern, c at level 200, k at level 200,
   format "'[v' 'let*'  x  ':='  c  'in' '/' k ']'") : aster_scope.
Notation "'do*' c 'in' k" := (bind c (fun _ => k))
  (at level 10, c at level 200, k at level 200,
   format "'[v' 'do*'  c  'in' '/' k ']'") : aster_scope.
