(* ===== verification/Validation.v ===== *)
(** * Request validation

    The validators of [api/dto/validation.rs] that apply to a Yggdrasil
    profile, and the derived validation of [YggdrasilProfile]
    ([api/dto/yggdrasil.rs]), which hasJoined runs on the answers of upstream
    servers.  An outcome of the derived [validate] is the list of failed
    fields with their messages; printing it belongs to the validator crate. *)

From Stdlib Require Import ZArith List Bool Ascii.
From stdpp Require Import base decidable list strings pretty.
From S2P Require Import Prelude Text Errors Types AuditLog World.

Local Open Scope string_scope.

Definition validate_non_blank (value : string) : outcome string unit :=
  if is_empty (trim value) then Err "value cannot be empty" else Ok tt.

Definition validate_optional_non_blank (value : string) : outcome string unit :=
  validate_non_blank value.

Definition validate_unsigned_uuid (value : string) : outcome string unit :=
  if (str_len value =? 32)%nat && forallb is_ascii_hexdigit (bytes value) then Ok tt
  else Err "uuid must be a 32-character unsigned hexadecimal UUID".

Definition validate_profile_name (name : string) : outcome AsterError.t unit :=
  let valid_len := ((3 <=? str_len name) && (str_len name <=? 16))%nat in
  let valid_chars :=
    forallb (fun byte => is_ascii_alphanumeric byte || eqb byte "_"%char) (bytes name) in
  if negb valid_len || negb valid_chars
  then Err (AsterError.ValidationError
              "profile name must be 3-16 ASCII letters, numbers, or underscores")
  else Ok tt.

Definition validate_minecraft_profile_name (value : string) : outcome string unit :=
  match validate_profile_name value with
  | Ok u => Ok u
  | Err error => Err (AsterError.message error)
  | Panic m => Panic m
  end.

(** A failed field with its message. *)
Definition field_error (field : string) (r : outcome string unit) : list (string * string) :=
  match r with Err message => [(field, message)] | _ => [] end.

Definition validate_property (p : YggdrasilProfileProperty) : list (string * string) :=
  field_error "name" (validate_non_blank (property_name p))
  ++ field_error "value" (validate_non_blank (property_value p))
  ++ match property_signature p with
     | Some signature => field_error "signature" (validate_optional_non_blank signature)
     | None => []
     end.

(** [#[validate(nested)]] on the list of properties. *)
Fixpoint validate_properties (index : nat) (l : list YggdrasilProfileProperty)
  : list (string * string) :=
  match l with
  | [] => []
  | p :: rest =>
      List.map (fun e => ("properties[" +:+ pretty index +:+ "]." +:+ fst e, snd e))
        (validate_property p)
      ++ validate_properties (S index) rest
  end.

Definition validate_profile (p : YggdrasilProfile) : list (string * string) :=
  field_error "id" (validate_unsigned_uuid (ygg_id p))
  ++ field_error "name" (validate_minecraft_profile_name (ygg_name p))
  ++ match ygg_properties p with
     | Some properties => validate_properties 0 properties
     | None => []
     end.

(** What an answer that passes looks like. *)
Definition well_formed_profile (p : YggdrasilProfile) : Prop :=
  str_len (ygg_id p) = 32%nat /\ forallb is_ascii_hexdigit (bytes (ygg_id p)) = true /\
  (3 <= str_len (ygg_name p) <= 16)%nat /\
  forallb (fun a => is_ascii_alphanumeric a || eqb a "_"%char) (bytes (ygg_name p)) = true /\
  forall l q, ygg_properties p = Some l -> In q l ->
    is_empty (trim (property_name q)) = false /\ is_empty (trim (property_value q)) = false /\
    forall s, property_signature q = Some s -> is_empty (trim s) = false.

Lemma field_error_nil field r : field_error field r = [] -> forall e, r <> Err e.
Proof. destruct r; cbn; congruence. Qed.

Lemma non_blank_ok v : (forall e, validate_non_blank v <> Err e) <-> is_empty (trim v) = false.
Proof.
  unfold validate_non_blank. destruct (is_empty _); split; try done. intros H. by destruct (H _ eq_refl).
Qed.

Lemma validate_properties_ok index l :
  validate_properties index l = [] -> forall q, In q l -> validate_property q = [].
Proof.
  revert index. induction l as [|p l IH]; cbn; [done|]. intros index [H1 H2]%app_eq_nil q [->|Hq].
  - by apply List.map_eq_nil in H1.
  - by eapply IH.
Qed.

Lemma validate_profile_ok p : validate_profile p = [] -> well_formed_profile p.
Proof.
  intros [Hid [Hname Hprops]%app_eq_nil]%app_eq_nil.
  pose proof (field_error_nil _ _ Hid) as H1. pose proof (field_error_nil _ _ Hname) as H2.
  unfold validate_unsigned_uuid in H1. unfold validate_minecraft_profile_name, validate_profile_name in H2.
  destruct (_ && _) eqn:E1 in H1; [|by destruct (H1 _ eq_refl)].
  destruct (_ || _) eqn:E2 in H2; [by destruct (H2 _ eq_refl)|].
  rewrite andb_true_iff, Nat.eqb_eq in E1. destruct E1 as [E1 E1'].
  rewrite orb_false_iff, !negb_false_iff, andb_true_iff, !Nat.leb_le in E2. destruct E2 as [E2 E2'].
  repeat (split; [done|]). intros l q Hl Hq. rewrite Hl in Hprops.
  pose proof (validate_properties_ok _ _ Hprops _ Hq) as H3. unfold validate_property in H3.
  apply app_eq_nil in H3 as [H3 [H4 H5]%app_eq_nil].
  split; [by apply non_blank_ok, (field_error_nil "name")|].
  split; [by apply non_blank_ok, (field_error_nil "value")|].
  intros s Hs. rewrite Hs in H5. by apply non_blank_ok, (field_error_nil "signature").
Qed.
