(* ===== verification/Logic.v ===== *)
(** * Reasoning about handlers, and database transactions

    The transaction contract first, then the proof rules the components
    share: read-only programs and the tactics that step through a handler.

    *** Transactions

    [src/db/transaction.rs] forwards to [aster_forge_db::transaction]; this
    file is the contract the services rely on, as a class with laws, and the
    proof rules its clients use.  A committed transaction keeps the
    statements of its body; one that fails at any point, or whose body
    fails, panics or is dropped, leaves the tables as they were when it
    began.  The cache and the audit log are not part of the transaction. *)

From Stdlib Require Import ZArith List Bool Lia.
From stdpp Require Import base decidable list strings.
From S2P Require Import Prelude Text Errors Types AuditLog World.

Section Transactions.
Context `{EN : Env} `{CB : CacheBackend}.

(** [w'] is [w1] with the tables of [w]: a rollback to [w]. *)
Definition rolled_back (w w1 w' : World) : Prop := same (set_db (db w) w1) w'.

Lemma rolled_back_db w w1 w' : rolled_back w w1 w' -> db w' = db w.
Proof. by intros (? & _). Qed.
Lemma rolled_back_cache w w1 w' : rolled_back w w1 w' -> cache w' = cache w1.
Proof. by intros (_ & ? & _). Qed.
Lemma rolled_back_audit w w1 w' : rolled_back w w1 w' -> audit_log w' = audit_log w1.
Proof. by intros (_ & _ & [? _] & _). Qed.

(** The ways [with_transaction] can end. *)
Inductive txn_outcome {A} (body : M AsterError.t A) (w : World)
  : outcome AsterError.t A -> World -> Prop :=
| txn_not_begun e w' :
    same w w' -> txn_outcome body w (Err e) w'
| txn_committed a w0 w1 w' :
    same w w0 -> body w0 = (Ok a, w1) -> same w1 w' ->
    txn_outcome body w (Ok a) w'
| txn_commit_failed a e w0 w1 w' :
    same w w0 -> body w0 = (Ok a, w1) -> rolled_back w w1 w' ->
    txn_outcome body w (Err e) w'
| txn_body_failed e w0 w1 w' :
    same w w0 -> body w0 = (Err e, w1) -> rolled_back w w1 w' ->
    txn_outcome body w (Err e) w'
| txn_unwound m w0 w1 w' :
    same w w0 -> body w0 = (Panic m, w1) -> rolled_back w w1 w' ->
    txn_outcome body w (Panic m) w'.

Class TxnManager : Type := {
  Txn : Type;
  txn_start : Txn -> Db;              (* the tables the transaction began with *)
  begin : M AsterError.t Txn;
  commit : Txn -> M AsterError.t unit;
  rollback : Txn -> M AsterError.t unit;
  drop_txn : Txn -> World -> World;   (* dropped unfinished, while unwinding *)
  with_transaction : forall {A}, M AsterError.t A -> M AsterError.t A
}.

Class TxnLaws (T : TxnManager) : Prop := {
  begin_spec w r w' :
    begin w = (r, w') ->
    same w w' /\
    match r with Ok t => txn_start t = db w | Err _ => True | Panic _ => False end;
  commit_spec t w r w' :
    commit t w = (r, w') ->
    match r with
    | Ok _ => same w w'
    | Err _ => same (set_db (txn_start t) w) w'
    | Panic _ => False
    end;
  rollback_spec t w r w' :
    rollback t w = (r, w') ->
    same (set_db (txn_start t) w) w' /\
    match r with Panic _ => False | _ => True end;
  drop_spec t w : same (set_db (txn_start t) w) (drop_txn t w);
  with_transaction_spec A (body : M AsterError.t A) w r w' :
    with_transaction body w = (r, w') -> txn_outcome body w r w';
  (* With no database failure the helpers themselves do not fail. *)
  begin_live w : no_faults -> exists t w', begin w = (Ok t, w');
  commit_live t w : no_faults -> exists w', commit t w = (Ok tt, w');
  with_transaction_live A (body : M AsterError.t A) w :
    no_faults ->
    exists w0, same w w0 /\
      match body w0 with
      | (Ok a, w1) => exists w', with_transaction body w = (Ok a, w') /\ same w1 w'
      | (Err e, _) => fst (with_transaction body w) = Err e
      | (Panic m, _) => fst (with_transaction body w) = Panic m
      end
}.

Context `{TM : TxnManager} `{TL : !TxnLaws TM}.

(** Verify the body from any world that only ticked; on success the caller
    may see its effects or a failed commit, otherwise a rollback. *)
Lemma wp_with_transaction {A} (body : M AsterError.t A) Q w :
  (forall e w', same w w' -> Q (Err e) w') ->
  (forall w0, same w w0 ->
    wp body (fun r w1 =>
      match r with
      | Ok a => (forall w', same w1 w' -> Q (Ok a) w') /\
                (forall e w', rolled_back w w1 w' -> Q (Err e) w')
      | Err e => forall w', rolled_back w w1 w' -> Q (Err e) w'
      | Panic m => forall w', rolled_back w w1 w' -> Q (Panic m) w'
      end) w0) ->
  wp (with_transaction body) Q w.
Proof.
  intros Hbegin Hbody. apply wp_intro. intros r w' Hr.
  apply with_transaction_spec in Hr.
  destruct Hr as [|a w0 w1 w' H0 Hb Hw|a e w0 w1 w' H0 Hb Hw
                 |e w0 w1 w' H0 Hb Hw|m w0 w1 w' H0 Hb Hw];
    [by apply Hbegin|..]; specialize (Hbody w0 H0);
    eapply wp_run in Hbody; try exact Hb; cbn in Hbody.
  - by apply Hbody.
  - by eapply Hbody.
  - by apply Hbody.
  - by apply Hbody.
Qed.

Lemma with_transaction_ok {A} (body : M AsterError.t A) w a w' :
  with_transaction body w = (Ok a, w') ->
  exists w0 w1, same w w0 /\ body w0 = (Ok a, w1) /\ same w1 w'.
Proof. intros H%with_transaction_spec. inversion H; subst; eauto. Qed.

Lemma wp_begin Q w :
  (forall e w', same w w' -> Q (Err e) w') ->
  (forall t w', same w w' -> txn_start t = db w -> Q (Ok t) w') ->
  wp begin Q w.
Proof.
  intros Hf Hok. apply wp_intro. intros r w' Hr.
  apply begin_spec in Hr as [Hs Hr]. destruct r; [by apply Hok|by apply Hf|done].
Qed.

Lemma wp_commit t Q w :
  (forall w', same w w' -> Q (Ok tt) w') ->
  (forall e w', same (set_db (txn_start t) w) w' -> Q (Err e) w') ->
  wp (commit t) Q w.
Proof.
  intros Hok Hf. apply wp_intro. intros r w' Hr.
  apply commit_spec in Hr. destruct r as [[]| |]; [by apply Hok|by apply Hf|done].
Qed.

Lemma wp_rollback t Q w :
  (forall r w', same (set_db (txn_start t) w) w' ->
     match r with Panic _ => False | _ => True end -> Q r w') ->
  wp (rollback t) Q w.
Proof.
  intros H. apply wp_intro. intros r w' Hr.
  apply rollback_spec in Hr as [Hs Hr]. by apply H.
Qed.
End Transactions.

Arguments TxnManager {CB}.
Arguments TxnLaws {EN CB} T.

(** ** A snapshot implementation

    Statements act on the tables directly and a rollback restores the
    snapshot taken at [begin]; it shows the laws can be met. *)
Section Snapshot.
Context `{EN : Env} `{CB : CacheBackend}.

Definition snapshot_begin : M AsterError.t Db := db_query (fun d => d).
Definition snapshot_commit (d : Db) : M AsterError.t unit :=
  fun w =>
    match db_fault (step w) with
    | Some m => (Err (AsterError.DatabaseOperation m), tick (set_db d w))
    | None => (Ok tt, tick w)
    end.
Definition snapshot_rollback (d : Db) : M AsterError.t unit :=
  fun w => (Ok tt, tick (set_db d w)).
Definition snapshot_with {A} (body : M AsterError.t A) : M AsterError.t A :=
  fun w =>
    match body w with
    | (Ok a, w1) =>
        match snapshot_commit (db w) w1 with
        | (Ok _, w2) => (Ok a, w2)
        | (Err e, w2) => (Err e, w2)
        | (Panic m, w2) => (Panic m, w2)
        end
    | (Err e, w1) => (Err e, set_db (db w) w1)
    | (Panic m, w1) => (Panic m, set_db (db w) w1)
    end.

Definition snapshot_manager : TxnManager := {|
  Txn := Db;
  txn_start := fun d => d;
  begin := snapshot_begin;
  commit := snapshot_commit;
  rollback := snapshot_rollback;
  drop_txn := set_db;
  with_transaction := @snapshot_with
|}.

Lemma snapshot_laws : TxnLaws snapshot_manager.
Proof.
  split; cbn.
  - intros w r w'. unfold snapshot_begin, db_query, db_exec.
    destruct (db_fault (step w)); intros [= <- <-]; split; auto using same_tick.
  - intros t w r w'. unfold snapshot_commit.
    destruct (db_fault (step w)); intros [= <- <-]; apply same_tick.
  - intros t w r w' [= <- <-]. split; [apply same_tick|done].
  - intros t w. apply same_refl.
  - intros A body w r w'. unfold snapshot_with.
    destruct (body w) as [[a|e|m] w1] eqn:E; unfold snapshot_commit.
    + destruct (db_fault (step w1)); intros [= <- <-].
      * eapply txn_commit_failed; [apply same_refl|exact E|apply same_tick].
      * eapply txn_committed; [apply same_refl|exact E|apply same_tick].
    + intros [= <- <-].
      eapply txn_body_failed; [apply same_refl|exact E|apply same_refl].
    + intros [= <- <-].
      eapply txn_unwound; [apply same_refl|exact E|apply same_refl].
  - intros w Hnf. unfold snapshot_begin, db_query, db_exec. rewrite Hnf. eauto.
  - intros t w Hnf. unfold snapshot_commit. rewrite Hnf. eauto.
  - intros A body w Hnf. exists w. split; [apply same_refl|].
    unfold snapshot_with. destruct (body w) as [[a|e|m] w1]; [|done..].
    unfold snapshot_commit. rewrite Hnf. eexists. split; [done|apply same_tick].
Qed.
End Snapshot.

(** ** Reasoning about handlers

    The proof rules shared by the components: programs that only read
    ([Reads], inferred by instance search), and the tactic [wp_walk] that
    steps through a handler. *)

Local Open Scope Z_scope.

(** ** Read-only programs

    They may fail, but they leave the tables, the cache and the audit log
    alone. *)
Class Reads `{CB : CacheBackend} {E A} (c : M E A) : Prop :=
  reads : forall w, same w (snd (c w)).

Section Reads.
Context `{EN : Env} `{CB : CacheBackend}.

#[global] Instance reads_ret {E A} (a : A) : Reads (ret a : M E A).
Proof. intros w. apply same_refl. Qed.
#[global] Instance reads_throw {E A} (e : E) : Reads (throw e : M E A).
Proof. intros w. apply same_refl. Qed.
#[global] Instance reads_lift {E A} (o : outcome E A) : Reads (lift o).
Proof. intros w. apply same_refl. Qed.
#[global] Instance reads_utc_now {E} : Reads (utc_now : M E DateTimeUtc).
Proof. intros w. apply same_tick. Qed.
#[global] Instance reads_new_short_token {E} : Reads (new_short_token : M E string).
Proof. intros w. apply same_tick. Qed.
#[global] Instance reads_random_range {E} n : Reads (random_range n : M E Z).
Proof. intros w. apply same_tick. Qed.
#[global] Instance reads_cache_read {E} k : Reads (cache_read k : M E (option CacheValue)).
Proof. intros w. apply same_tick. Qed.
#[global] Instance reads_db_query {A} (f : Db -> A) : Reads (db_query f).
Proof.
  intros w. unfold db_query, db_exec. destruct (db_fault (step w)); repeat split; cbn; auto.
Qed.
#[global] Instance reads_bind {E A B} (c : M E A) (k : A -> M E B) :
  Reads c -> (forall a, Reads (k a)) -> Reads (bind c k).
Proof.
  intros Hc Hk w. unfold bind. specialize (Hc w). destruct (c w) as [[a|e|m] w']; cbn in *.
  - eapply same_trans; [done|apply Hk].
  - done.
  - done.
Qed.
#[global] Instance reads_map_err {E F A} (f : E -> F) (c : M E A) :
  Reads c -> Reads (map_err f c).
Proof.
  intros Hc w. unfold map_err. specialize (Hc w). by destruct (c w) as [[a|e|m] w'].
Qed.
#[global] Instance reads_catch {E F A} (c : M E A) :
  Reads c -> Reads (catch c : M F (A + E)).
Proof.
  intros Hc w. unfold catch. specialize (Hc w). by destruct (c w) as [[a|e|m] w'].
Qed.
#[global] Instance reads_when_ok {E} b (e : E) : Reads (when_ok b e).
Proof. intros w. unfold when_ok. destruct b; apply same_refl. Qed.
#[global] Instance reads_for_each {E A} (xs : list A) (body : A -> M E unit) :
  (forall x, Reads (body x)) -> Reads (for_each xs body).
Proof.
  intros Hb. induction xs as [|x xs IH]; cbn; [apply reads_ret|].
  by apply reads_bind.
Qed.

Lemma wp_reads {E A} (c : M E A) `{Hc : !Reads c} (Q : outcome E A -> World -> Prop) w :
  (forall r w', c w = (r, w') -> same w w' -> Q r w') -> wp c Q w.
Proof.
  intros H. apply wp_intro. intros r w' Hr. apply H; [done|].
  specialize (Hc w). by rewrite Hr in Hc.
Qed.

Lemma reads_run {E A} (c : M E A) `{Hc : !Reads c} w r w' : c w = (r, w') -> same w w'.
Proof. intros H. specialize (Hc w). by rewrite H in Hc. Qed.

(** A fault-free query. *)
Lemma db_query_ok {A} (f : Db -> A) w r w' :
  db_query f w = (Ok r, w') -> r = f (db w) /\ w' = tick w /\ db_fault (step w) = None.
Proof.
  unfold db_query, db_exec. destruct (db_fault (step w)) eqn:E; [done|].
  intros [= <- <-]. by destruct w.
Qed.

Lemma update_many_ok {A} get set (p : A -> bool) f w n w' :
  db_update_many get set p f w = (Ok n, w') ->
  n = Z.of_nat (count_where p (rows (get (db w)))) /\
  w' = set_db (set (with_rows (update_where p f (rows (get (db w)))) (get (db w))) (db w)) (tick w).
Proof.
  unfold db_update_many, db_exec. destruct (db_fault (step w)); [done|]. by intros [= <- <-].
Qed.

Lemma db_query_no_panic {A} (f : Db -> A) w m w' : db_query f w <> (Panic m, w').
Proof. unfold db_query, db_exec. by destruct (db_fault (step w)). Qed.

(** Inverting a successful sequence. *)
Lemma bind_ok {E A B} (c : M E A) (k : A -> M E B) w b w' :
  bind c k w = (Ok b, w') <->
  exists a w1, c w = (Ok a, w1) /\ k a w1 = (Ok b, w').
Proof.
  unfold bind. destruct (c w) as [[a|e|m] w1] eqn:Hcw; split.
  - eauto.
  - by intros (? & ? & [= <- <-] & ?).
  - done.
  - by intros (? & ? & ? & ?).
  - done.
  - by intros (? & ? & ? & ?).
Qed.

Lemma map_err_ok {E F A} (f : E -> F) (c : M E A) w a w' :
  map_err f c w = (Ok a, w') <-> c w = (Ok a, w').
Proof.
  unfold map_err. destruct (c w) as [[x|e|m] w1]; split; congruence.
Qed.

Lemma lift_ok {E A} (o : outcome E A) w a w' :
  lift o w = (Ok a, w') <-> o = Ok a /\ w' = w.
Proof. unfold lift. split; [by intros [= -> ->]|by intros [-> ->]]. Qed.

Lemma when_ok_ok {E} b (e : E) w u w' :
  when_ok b e w = (Ok u, w') <-> b = false /\ w' = w.
Proof.
  unfold when_ok. destruct b, u; cbn; unfold throw, ret; split.
  - done.
  - by intros [? _].
  - by intros [= ->].
  - by intros [_ ->].
Qed.

(** Every iteration of a successful read-only loop succeeded. *)
Lemma for_each_reads_ok {E A} (xs : list A) (body : A -> M E unit)
  `{Hb : !forall x, Reads (body x)} w u w' :
  for_each xs body w = (Ok u, w') ->
  forall x, In x xs -> exists w1 w2, same w w1 /\ body x w1 = (Ok tt, w2) /\ same w2 w'.
Proof.
  revert w. induction xs as [|y ys IH]; intros w; cbn; [done|].
  rewrite bind_ok. intros ([] & w1 & H1 & H2).
  assert (S1 : same w w1) by (specialize (Hb y w); by rewrite H1 in Hb).
  assert (S2 : same w1 w').
  { pose proof (reads_for_each ys body Hb w1) as S2. by rewrite H2 in S2. }
  intros x [<-|Hx].
  - exists w, w1. split; [apply same_refl|done].
  - destruct (IH w1 H2 x Hx) as (wa & wb & Ha & Hbo & Hc).
    exists wa, wb. split; [by eapply same_trans|done].
Qed.

Lemma wp_when_ok {E} b (e : E) Q w :
  (b = true -> Q (Err e) w) -> (b = false -> Q (Ok tt) w) -> wp (when_ok b e) Q w.
Proof. unfold when_ok. destruct b; intros H1 H2; [by apply H1|by apply H2]. Qed.

Lemma wp_db_update_many {A} get set (p : A -> bool) f Q w :
  (forall m, Q (Err (AsterError.DatabaseOperation m)) (tick w)) ->
  (db_fault (step w) = None ->
   Q (Ok (Z.of_nat (count_where p (rows (get (db w))))))
     (set_db (set (with_rows (update_where p f (rows (get (db w)))) (get (db w))) (db w)) (tick w))) ->
  wp (db_update_many get set p f) Q w.
Proof. intros Hf Hok. by apply wp_db_exec. Qed.

Lemma wp_db_delete_many {A} get set (p : A -> bool) Q w :
  (forall m, Q (Err (AsterError.DatabaseOperation m)) (tick w)) ->
  (db_fault (step w) = None ->
   Q (Ok (Z.of_nat (count_where p (rows (get (db w))))))
     (set_db (set (with_rows (delete_where p (rows (get (db w)))) (get (db w))) (db w)) (tick w))) ->
  wp (db_delete_many get set p) Q w.
Proof. intros Hf Hok. by apply wp_db_exec. Qed.

(** One write: it fails without effect, or performs its effect. *)
Lemma wp_db_insert {A} get set conflict (mk : Z -> A) Q w :
  (forall m, Q (Err (AsterError.DatabaseOperation m)) (tick w)) ->
  (db_fault (step w) = None ->
   let r := mk (next_pk (get (db w))) in
   existsb (conflict r) (rows (get (db w))) = false ->
   Q (Ok r) (set_db (set (mkTable (rows (get (db w)) ++ [r]) (next_pk (get (db w)) + 1))
                         (db w)) (tick w))) ->
  wp (db_insert get set conflict mk) Q w.
Proof.
  intros Hf Hok. apply wp_db_exec; [auto|]. intros Hn. unfold insert_row.
  destruct (existsb _ _) eqn:He; [apply Hf|by apply Hok].
Qed.

Lemma wp_db_update {A} get set (pk : A -> Z) id f Q w :
  (forall m, Q (Err (AsterError.DatabaseOperation m)) (tick w)) ->
  (forall r, db_fault (step w) = None ->
   In r (rows (get (db w))) -> pk r = id ->
   Q (Ok (f r))
     (set_db (set (with_rows (update_where (fun r => pk r =? id) f (rows (get (db w))))
                             (get (db w))) (db w)) (tick w))) ->
  wp (db_update get set pk id f) Q w.
Proof.
  intros Hf Hok. apply wp_db_exec; [auto|]. intros Hn. unfold update_row.
  destruct (find_row _ _) as [r|] eqn:He; [|apply Hf].
  apply find_row_some in He as [Hin Hpk]. apply Hok; [done|done|lia].
Qed.

(** A successful write performed its effect. *)
Lemma db_insert_ok {A} get set conflict (mk : Z -> A) w r w' :
  db_insert get set conflict mk w = (Ok r, w') ->
  r = mk (next_pk (get (db w))) /\
  existsb (conflict r) (rows (get (db w))) = false /\
  w' = set_db (set (mkTable (rows (get (db w)) ++ [r]) (next_pk (get (db w)) + 1)) (db w))
              (tick w).
Proof.
  unfold db_insert, db_exec, insert_row. destruct (db_fault (step w)); [done|].
  destruct (existsb _ _) eqn:He; [done|]. intros [= <- <-]. auto.
Qed.

Lemma db_update_ok {A} get set (pk : A -> Z) id f w r' w' :
  db_update get set pk id f w = (Ok r', w') ->
  exists r, In r (rows (get (db w))) /\ pk r = id /\ r' = f r /\
    w' = set_db (set (with_rows (update_where (fun r => pk r =? id) f (rows (get (db w))))
                             (get (db w))) (db w)) (tick w).
Proof.
  unfold db_update, db_exec, update_row. destruct (db_fault (step w)); [done|].
  destruct (find_row _ _) as [r|] eqn:He; [|done]. intros [= <- <-].
  apply find_row_some in He as [Hin Hpk]. exists r. repeat split; [done|lia].
Qed.

(** No cache entry of this key. *)
Definition uncached (w : World) (key : string) : Prop :=
  forall now v, cache_get (cache w) now key <> Some v.

(** A read goes on, or ends with nothing moved. *)
Lemma wp_reading {E A B} (c : M E A) `{Hc : !Reads c} (k : A -> M E B)
  (Q : outcome E B -> World -> Prop) w :
  (forall a w', c w = (Ok a, w') -> same w w' -> wp (k a) Q w') ->
  (forall e w', same w w' -> Q (Err e) w') -> (forall m w', same w w' -> Q (Panic m) w') ->
  wp (bind c k) Q w.
Proof.
  intros Hok He Hp. apply wp_bind, wp_reads; [done|]. intros [a|e|m] w' Hr Hs; cbn; auto.
Qed.

Lemma same_db w w' : same w w' -> db w' = db w.
Proof. by intros []. Qed.
Lemma same_cache w w' : same w w' -> cache w' = cache w.
Proof. by intros (_ & ? & _). Qed.
Lemma same_step w w' : same w w' -> (step w <= step w')%nat.
Proof. by intros (_ & _ & _ & ?). Qed.
End Reads.

Create HintDb world.
#[export] Hint Resolve same_refl same_tick : world.
#[export] Hint Extern 2 (same _ _) => eapply same_trans; [eassumption|] : world.

(** Branches of a read-only program. *)
#[export] Hint Extern 1 (Reads (if ?b then _ else _)) => destruct b : typeclass_instances.
#[export] Hint Extern 1 (Reads (match ?x with _ => _ end)) => destruct x : typeclass_instances.
#[export] Hint Extern 1 (Reads (let _ := _ in _)) => cbv zeta : typeclass_instances.

(** One step of a handler. *)
Ltac wp_step :=
  match goal with
  | |- wp (bind _ _) _ _ => apply wp_bind
  | |- wp_next _ _ _ _ => progress cbn [wp_next]
  | |- wp (ret _) _ _ => apply wp_ret
  | |- wp (throw _) _ _ => apply wp_throw
  | |- wp (panic _) _ _ => apply wp_panic
  | |- wp (lift _) _ _ => apply wp_lift
  | |- wp (map_err _ _) _ _ => apply wp_map_err
  | |- wp (catch _) _ _ => apply wp_catch
  | |- wp utc_now _ _ => apply wp_utc_now
  | |- wp new_short_token _ _ => apply wp_new_short_token
  | |- wp (cache_read _) _ _ => apply wp_cache_read
  | |- wp (cache_write _ _ _) _ _ => apply wp_cache_write
  | |- wp (cache_update _) _ _ => apply wp_cache_update
  | |- wp (if ?b then _ else _) _ _ => destruct b eqn:?
  | |- wp (match ?x with _ => _ end) _ _ => destruct x eqn:?
  | |- wp (let _ := _ in _) _ _ => cbv zeta
  end.

(** Take the next statement as a read-only block. *)
Tactic Notation "wp_read" "as" ident(r) ident(w') ident(Hrun) ident(Hsame) :=
  apply wp_bind; apply wp_reads; [typeclasses eauto|]; intros r w' Hrun Hsame;
  cbn [wp_next].

(** Read on, knowing that nothing moved since the start; a failure ends there. *)
Tactic Notation "wp_read_on" ident(a) ident(w1) ident(Hr) "from" hyp(S0) "as" ident(S1) :=
  apply wp_reading; [typeclasses eauto|intros a w1 Hr S1|intros ? w1 S1|intros ? w1 S1];
  apply (same_trans _ _ _ S0) in S1;
  [|first [by apply same_db in S1|by rewrite (same_db _ _ S1)]..].

(** Split a successful run into its statements. *)
Ltac inv_ok H :=
  match type of H with
  | bind _ _ _ = (Ok _, _) =>
      let a := fresh "a" in let w := fresh "w" in
      let H1 := fresh "Hr" in let H2 := fresh "Hr" in
      apply bind_ok in H as (a & w & H1 & H2); inv_ok H1; inv_ok H2
  | map_err _ _ _ = (Ok _, _) => apply map_err_ok in H; inv_ok H
  | lift _ _ = (Ok _, _) =>
      let H2 := fresh "Hw" in apply lift_ok in H as [H H2]; subst
  | ret _ _ = (Ok _, _) => injection H as ?; subst
  | utc_now _ = (Ok _, _) => injection H as ?; subst
  | when_ok _ _ _ = (Ok _, _) =>
      let H2 := fresh "Hw" in apply when_ok_ok in H as [H H2]; subst
  | db_query _ _ = (Ok _, _) =>
      let H1 := fresh "Hw" in let H2 := fresh "Hfault" in
      apply db_query_ok in H as (H & H1 & H2); subst
  | _ => idtac
  end.
