(* ===== verification/Repos.v ===== *)
(** * Users and Minecraft profiles

    The lookups of [db/repository/user_repo.rs] the protocol handlers use and
    the operations of [db/repository/minecraft_profile_repo.rs] that change a
    profile, with the schema's unique indexes and foreign keys. *)

From Stdlib Require Import ZArith List Bool Lia.
From stdpp Require Import base decidable list strings pretty.
From S2P Require Import Prelude Text Errors Types AuditLog World.

Local Open Scope Z_scope.
Local Open Scope aster_scope.

(** [i32] addition wraps in a release build. *)
Definition wrap_i32 (n : Z) : Z := (n + 2 ^ 31) mod 2 ^ 32 - 2 ^ 31.

Definition set_profiles (t : Table minecraft_profile) (d : Db) : Db :=
  mkDb (users d) t (tokens d) (bans d) (ban_events d) (servers d) (tasks d)
    (textures d) (profile_textures d) (accounts d) (library d) (external d) (passkeys d).

(** The record reads back as an error when the row is missing. *)
Definition ok_or {A} (e : AsterError.t) (o : option A) : outcome AsterError.t A :=
  match o with Some a => Ok a | None => Err e end.

Module UserRepo.
Section Ops.
Context `{EN : Env} `{CB : CacheBackend}.

Definition find_by_id (id : Z) : M AsterError.t user :=
  let* row := db_query (fun d => find_row (fun u => user_pk u =? id) (rows (users d))) in
  lift (ok_or (AsterError.RecordNotFound ("user #" +:+ pretty id)) row).

Definition find_by_identifier (identifier : string) : M AsterError.t (option user) :=
  db_query (fun d =>
    find_row (fun u => eqb (username u) identifier || eqb (email u) (Some identifier))
             (rows (users d))).
End Ops.
End UserRepo.

Module ProfileRepo.
Section Ops.
Context `{EN : Env} `{CB : CacheBackend}.

Definition normalize_profile_name (name : string) : string := to_ascii_lowercase name.

(** The unique indexes of [minecraft_profiles]: the UUID and the
    normalized name. *)
Definition profile_conflict (p q : minecraft_profile) : bool :=
  eqb (uuid p) (uuid q) || eqb (normalized_name p) (normalized_name q).

Definition create_with_source (user_id : Z) (uuid name : string)
  (source : MinecraftProfileSource) (texture_model : MinecraftTextureModel)
  (uploadable_textures : string) : M AsterError.t minecraft_profile :=
  let* now := utc_now in
  db_insert profiles set_profiles profile_conflict (fun id =>
    mkProfile id user_id uuid name (normalize_profile_name name) source texture_model
              uploadable_textures 0 now now).

Definition create (user_id : Z) (uuid name : string) (texture_model : MinecraftTextureModel)
  (uploadable_textures : string) : M AsterError.t minecraft_profile :=
  create_with_source user_id uuid name SourceLocal texture_model uploadable_textures.

Definition count_by_user (user_id : Z) : M AsterError.t Z :=
  db_query (fun d =>
    Z.of_nat (count_where (fun p => profile_user_id p =? user_id) (rows (profiles d)))).

Definition find_by_id (id : Z) : M AsterError.t minecraft_profile :=
  let* row := db_query (fun d =>
    find_row (fun p => profile_pk p =? id) (rows (profiles d))) in
  lift (ok_or (AsterError.RecordNotFound ("minecraft profile #" +:+ pretty id)) row).

Definition find_by_uuid (u : string) : M AsterError.t (option minecraft_profile) :=
  db_query (fun d => find_row (fun p => eqb (uuid p) u) (rows (profiles d))).

Definition find_by_uuid_for_user (u : string) (user_id : Z)
  : M AsterError.t (option minecraft_profile) :=
  db_query (fun d =>
    find_row (fun p => eqb (uuid p) u && (profile_user_id p =? user_id)) (rows (profiles d))).

Definition find_by_name (name : string) : M AsterError.t (option minecraft_profile) :=
  db_query (fun d =>
    find_row (fun p => eqb (normalized_name p) (normalize_profile_name name))
             (rows (profiles d))).

Definition profile_id_leb (p q : minecraft_profile) : bool := profile_pk p <=? profile_pk q.

Definition list_by_user (user_id : Z) : M AsterError.t (list minecraft_profile) :=
  db_query (fun d =>
    sort_by profile_id_leb
      (rows_where (fun p => profile_user_id p =? user_id) (rows (profiles d)))).

Definition list_by_names (names : list string) : M AsterError.t (list minecraft_profile) :=
  match names with
  | [] => ret []
  | _ =>
      let normalized_names := List.map normalize_profile_name names in
      db_query (fun d =>
        sort_by profile_id_leb
          (rows_where (fun p => mem (normalized_name p) normalized_names)
                      (rows (profiles d))))
  end.

(** [active.rename_count + 1]: an [i32], which wraps in the release builds that
    are deployed (a debug build panics at the bound). *)
Definition update_name_by_id (id : Z) (name : string)
  : M AsterError.t (option minecraft_profile) :=
  let* existing := db_query (fun d =>
    find_row (fun p => profile_pk p =? id) (rows (profiles d))) in
  match existing with
  | None => ret None
  | Some e =>
      let* now := utc_now in
      let* updated :=
        db_exec (fun d =>
          if existsb (fun q => negb (profile_pk q =? profile_pk e)
                               && eqb (normalized_name q) (normalize_profile_name name))
                     (rows (profiles d))
          then Err (AsterError.DatabaseOperation unique_violation)
          else match update_row profile_pk (profile_pk e)
                       (fun p => mkProfile (profile_pk p) (profile_user_id p) (uuid p) name
                                   (normalize_profile_name name) (source p)
                                   (texture_model p) (uploadable_textures p)
                                   (wrap_i32 (rename_count e + 1))
                                   (profile_created_at p) now)
                       (profiles d) with
               | Some (r, t) => Ok (r, set_profiles t d)
               | None => Err (AsterError.DatabaseOperation record_not_updated)
               end) in
      ret (Some updated)
  end.

Definition touched (now : DateTimeUtc) (p : minecraft_profile) : minecraft_profile :=
  mkProfile (profile_pk p) (profile_user_id p) (uuid p) (profile_name p) (normalized_name p)
    (source p) (texture_model p) (uploadable_textures p) (rename_count p)
    (profile_created_at p) now.

Definition touch_by_id (id : Z) : M AsterError.t (option minecraft_profile) :=
  let* existing := db_query (fun d =>
    find_row (fun p => profile_pk p =? id) (rows (profiles d))) in
  match existing with
  | None => ret None
  | Some e =>
      let* now := utc_now in
      let* updated := db_update profiles set_profiles profile_pk (profile_pk e) (touched now) in
      ret (Some updated)
  end.
End Ops.
End ProfileRepo.
