(* ===== verification/Bans.v ===== *)
(** * User bans

    The stored scope set of a ban, then the repository and the service.

    *** Scopes

    The stored scope set of a user ban ([UserBanScopes] in
    [src/types/user.rs]): a sorted, duplicate-free, non-empty set of
    capabilities kept as JSON text in one column. *)

From Stdlib Require Import ZArith List Bool Lia Permutation Sorted.
From stdpp Require Import base decidable list strings pretty.
From S2P Require Import Prelude Text Errors Types AuditLog World Logic Repos.

Local Open Scope Z_scope.
Local Open Scope aster_scope.

(** [serde_json] on [Vec<UserBanScope>] and [aster_forge_utils::text]. *)
Class BanExterns : Type := {
  scopes_to_json : list UserBanScope -> option string;
  scopes_from_json : string -> option (list UserBanScope);
  char_count : string -> Z
}.

(** Serialising the scopes never fails and parsing reads back what was
    written. *)
Class BanExternLaws (B : BanExterns) : Prop := {
  scopes_to_json_total l : exists s, scopes_to_json l = Some s;
  scopes_json_roundtrip l s : scopes_to_json l = Some s -> scopes_from_json s = Some l
}.

(** ** The stored scope set *)
Module UserBanScopes.

Inductive UserBanScopesError : Type := Empty | Invalid.

Definition normalize_user_ban_scopes (scopes : list UserBanScope)
  : outcome UserBanScopesError (list UserBanScope) :=
  match dedup (sort_by scope_leb scopes) with
  | [] => Err Empty
  | scopes => Ok scopes
  end.

Section Stored.
Context `{BanExterns}.

Definition new (scopes : list UserBanScope) : outcome UserBanScopesError string :=
  match normalize_user_ban_scopes scopes with
  | Ok scopes =>
      match scopes_to_json scopes with Some raw => Ok raw | None => Err Invalid end
  | Err e => Err e
  | Panic m => Panic m
  end.

Definition as_vec (raw : string) : outcome UserBanScopesError (list UserBanScope) :=
  match scopes_from_json raw with
  | Some scopes => normalize_user_ban_scopes scopes
  | None => Err Invalid
  end.

Definition contains (raw : string) (scope : UserBanScope) : bool :=
  match as_vec raw with Ok scopes => mem scope scopes | _ => false end.
End Stored.

(** *** The normal form: strictly increasing *)

Definition scope_lt (a b : UserBanScope) : Prop := scope_rank a < scope_rank b.

Lemma dedup_sorted l :
  StronglySorted (fun a b => scope_leb a b = true) l ->
  StronglySorted scope_lt (dedup l).
Proof.
  induction 1 as [|a l Hs IH Ha]; [constructor|].
  destruct l as [|b l]; [repeat constructor|].
  rewrite dedup_cons. destruct (eqb a b) eqn:E; [done|].
  rewrite eqb_false in E. constructor; [done|].
  apply List.Forall_forall. intros x Hx. rewrite in_dedup in Hx.
  inversion Ha as [|? ? Hab _]; subst.
  assert (Hbx : scope_leb b x = true).
  { destruct Hx as [->|Hx]; [unfold scope_leb; lia|].
    inversion Hs as [|? ? _ Hb]; subst. rewrite List.Forall_forall in Hb. auto. }
  unfold scope_lt, scope_leb in *.
  assert (scope_rank a <> scope_rank b) by (intros ?%scope_rank_inj; done). lia.
Qed.

Lemma scope_leb_total a b : scope_leb a b = true \/ scope_leb b a = true.
Proof. unfold scope_leb. lia. Qed.
Lemma scope_leb_trans a b c :
  scope_leb a b = true -> scope_leb b c = true -> scope_leb a c = true.
Proof. unfold scope_leb. lia. Qed.

Lemma normalize_ok scopes l :
  normalize_user_ban_scopes scopes = Ok l ->
  l <> [] /\ StronglySorted scope_lt l /\ forall x, In x l <-> In x scopes.
Proof.
  unfold normalize_user_ban_scopes.
  pose proof (dedup_sorted _ (sort_by_sorted _ scope_leb_total scope_leb_trans scopes)) as Hs.
  pose proof (in_dedup (sort_by scope_leb scopes)) as Hin.
  destruct (dedup _) as [|a l'] eqn:E; [done|]. intros [= <-].
  split; [done|]. split; [done|]. intros x. rewrite Hin. apply in_sort_by.
Qed.

Lemma normalize_err scopes e :
  normalize_user_ban_scopes scopes = Err e -> e = Empty /\ scopes = [].
Proof.
  unfold normalize_user_ban_scopes.
  destruct (dedup _) as [|a l'] eqn:E; [|done]. intros [= <-]. split; [done|].
  destruct scopes as [|s scopes]; [done|exfalso].
  assert (In s []) as []. rewrite <- E. apply in_dedup, in_sort_by. by left.
Qed.

Lemma normalize_no_panic scopes m : normalize_user_ban_scopes scopes <> Panic m.
Proof. unfold normalize_user_ban_scopes. by destruct (dedup _). Qed.

(** A strictly increasing list is its own normal form. *)
Lemma sort_by_id l :
  StronglySorted scope_lt l -> sort_by scope_leb l = l.
Proof.
  induction 1 as [|a l Hs IH Ha]; [done|]. cbn. rewrite IH.
  destruct l as [|b l]; [done|]. cbn.
  inversion Ha as [|? ? Hab _]; subst. unfold scope_lt, scope_leb in *.
  by rewrite (proj2 (Z.leb_le _ _)) by lia.
Qed.

Lemma dedup_id l : StronglySorted scope_lt l -> dedup l = l.
Proof.
  induction 1 as [|a l Hs IH Ha]; [done|]. destruct l as [|b l]; [done|].
  rewrite dedup_cons, IH. inversion Ha as [|? ? Hab _]; subst.
  destruct (eqb a b) eqn:E; [|done]. rewrite eqb_true in E. subst.
  unfold scope_lt in Hab. lia.
Qed.

Lemma normalize_idem scopes l :
  normalize_user_ban_scopes scopes = Ok l -> normalize_user_ban_scopes l = Ok l.
Proof.
  intros (Hne & Hs & _)%normalize_ok. unfold normalize_user_ban_scopes.
  rewrite sort_by_id, dedup_id by done. by destruct l.
Qed.

Section StoredLaws.
Context `{BL : BanExternLaws}.

(** What [new] stores, [as_vec] reads back in normal form. *)
Lemma new_as_vec scopes raw :
  new scopes = Ok raw ->
  exists l, normalize_user_ban_scopes scopes = Ok l /\ as_vec raw = Ok l.
Proof.
  unfold new, as_vec. destruct (normalize_user_ban_scopes scopes) as [l| |] eqn:E; [|done|done].
  destruct (scopes_to_json l) as [s|] eqn:Ej; [|done]. intros [= <-].
  exists l. split; [done|]. erewrite scopes_json_roundtrip by done. by eapply normalize_idem.
Qed.

Lemma new_contains scopes raw s :
  new scopes = Ok raw -> contains raw s = true <-> In s scopes.
Proof.
  intros (l & Hn & Hv)%new_as_vec. unfold contains. rewrite Hv, mem_true.
  apply normalize_ok in Hn as (_ & _ & H). apply H.
Qed.

Lemma new_ok scopes : scopes <> [] -> exists raw, new scopes = Ok raw.
Proof.
  intros Hne. unfold new.
  destruct (normalize_user_ban_scopes scopes) as [l|e|m] eqn:E.
  - destruct (scopes_to_json_total l) as [s ->]. eauto.
  - apply normalize_err in E as [_ ->]. done.
  - by apply normalize_no_panic in E.
Qed.
End StoredLaws.
End UserBanScopes.

(** ** Bans and their events

    [db/repository/user_ban_repo.rs] and [services/ban_service.rs]: bans of a
    user from capabilities, their life cycle (create, update, revoke) with
    the append-only event log, and the question every protocol handler asks,
    [is_user_banned]. *)

(** ** The repository *)
Module BanRepo.

Record CreateUserBan : Type := mkCreate {
  cb_user_id : Z;
  cb_scopes : string;
  cb_reason : string;
  cb_public_reason : option string;
  cb_admin_note : option string;
  cb_created_by_user_id : option Z;
  cb_starts_at : DateTimeUtc;
  cb_expires_at : option DateTimeUtc
}.

Record UpdateUserBan : Type := mkUpdate {
  ub_scopes : option string;
  ub_reason : option string;
  ub_public_reason : option (option string);
  ub_admin_note : option (option string);
  ub_starts_at : option DateTimeUtc;
  ub_expires_at : option (option DateTimeUtc)
}.

Record CreateUserBanEvent : Type := mkCreateEvent {
  ce_ban_id : Z;
  ce_actor_user_id : option Z;
  ce_event_type : UserBanEventType;
  ce_previous_status : option UserBanStatus;
  ce_next_status : option UserBanStatus;
  ce_previous_scopes : option string;
  ce_next_scopes : option string;
  ce_previous_expires_at : option DateTimeUtc;
  ce_next_expires_at : option DateTimeUtc;
  ce_note : option string
}.

(** [effective_condition]: active, started and not yet expired. *)
Definition effective_condition (now : DateTimeUtc) (b : user_ban) : bool :=
  eqb (ban_status b) BanActive && (ban_starts_at b <=? now)
  && is_none_or (ban_expires_at b) (fun e => now <? e).

(** [order_by_desc(CreatedAt)] *)
Definition newest_first (a b : user_ban) : bool := ban_created_at b <=? ban_created_at a.

Definition no_conflict {A} (_ _ : A) : bool := false.

Section Ops.
Context `{EN : Env} `{CB : CacheBackend} `{BE : BanExterns}.

Definition create (input : CreateUserBan) : M AsterError.t user_ban :=
  let* now := utc_now in
  db_insert bans set_bans no_conflict (fun id =>
    mkBan id (cb_user_id input) (cb_scopes input) BanActive (cb_reason input)
          (cb_public_reason input) (cb_admin_note input) (cb_created_by_user_id input)
          (cb_starts_at input) (cb_expires_at input) None None None now now).

Definition find_by_id (id : Z) : M AsterError.t (option user_ban) :=
  db_query (fun d => find_row (fun b => ban_pk b =? id) (rows (bans d))).

Definition effective_for_user (user_id : Z) (now : DateTimeUtc) (d : Db) : list user_ban :=
  sort_by newest_first
    (rows_where (fun b => (ban_user_id b =? user_id) && effective_condition now b)
                (rows (bans d))).

Definition find_effective_for_scope (user_id : Z) (scope : UserBanScope)
  (now : DateTimeUtc) : M AsterError.t (option user_ban) :=
  let* bans := db_query (effective_for_user user_id now) in
  ret (find_row (fun b => UserBanScopes.contains (ban_scopes_raw b) scope) bans).

Definition list_effective_for_user (user_id : Z) (now : DateTimeUtc)
  : M AsterError.t (list user_ban) :=
  db_query (effective_for_user user_id now).

(** The columns of [UpdateUserBan] that are present, and [updated_at]. *)
Definition apply_update (input : UpdateUserBan) (now : DateTimeUtc) (b : user_ban)
  : user_ban :=
  mkBan (ban_pk b) (ban_user_id b)
        (default (ban_scopes_raw b) (ub_scopes input))
        (ban_status b)
        (default (ban_reason b) (ub_reason input))
        (default (ban_public_reason b) (ub_public_reason input))
        (default (ban_admin_note b) (ub_admin_note input))
        (created_by_user_id b)
        (default (ban_starts_at b) (ub_starts_at input))
        (default (ban_expires_at b) (ub_expires_at input))
        (ban_revoked_at b) (revoked_by_user_id b) (revoke_note b)
        (ban_created_at b) now.

Definition update (ban : user_ban) (input : UpdateUserBan) : M AsterError.t user_ban :=
  let* now := utc_now in
  db_update bans set_bans ban_pk (ban_pk ban) (apply_update input now).

Definition apply_revoke (revoked_by : option Z) (note : option string)
  (revoked_at now : DateTimeUtc) (b : user_ban) : user_ban :=
  mkBan (ban_pk b) (ban_user_id b) (ban_scopes_raw b) BanRevoked (ban_reason b)
        (ban_public_reason b) (ban_admin_note b) (created_by_user_id b)
        (ban_starts_at b) (ban_expires_at b) (Some revoked_at) revoked_by note
        (ban_created_at b) now.

Definition revoke (ban : user_ban) (revoked_by_user_id : option Z)
  (revoke_note : option string) (revoked_at : DateTimeUtc) : M AsterError.t user_ban :=
  let* now := utc_now in
  db_update bans set_bans ban_pk (ban_pk ban)
    (apply_revoke revoked_by_user_id revoke_note revoked_at now).

Definition create_event (input : CreateUserBanEvent) : M AsterError.t user_ban_event :=
  let* now := utc_now in
  db_insert ban_events set_ban_events no_conflict (fun id =>
    mkBanEvent id (ce_ban_id input) (ce_actor_user_id input) (ce_event_type input)
               (ce_previous_status input) (ce_next_status input)
               (ce_previous_scopes input) (ce_next_scopes input)
               (ce_previous_expires_at input) (ce_next_expires_at input)
               (ce_note input) now).

(** Newest first, then highest id first. *)
Definition event_order (a b : user_ban_event) : bool :=
  (event_created_at b <? event_created_at a)
  || ((event_created_at b =? event_created_at a) && (event_pk b <=? event_pk a)).

Definition list_events (ban_id : Z) : M AsterError.t (list user_ban_event) :=
  db_query (fun d =>
    sort_by event_order (rows_where (fun e => event_ban_id e =? ban_id) (rows (ban_events d)))).
End Ops.
End BanRepo.

(** ** The service *)

Definition REASON_MAX_CHARS : Z := 128.
Definition NOTE_MAX_CHARS : Z := 1000.

(** [aster_forge_api::NullablePatch] *)
Inductive NullablePatch (A : Type) : Type := Absent | Null | Value (a : A).
Arguments Absent {A}.
Arguments Null {A}.
Arguments Value {A} _.

Record CreateUserBanInput : Type := mkCreateInput {
  target_user_id : Z;
  in_scopes : list UserBanScope;
  in_reason : string;
  in_public_reason : option string;
  in_admin_note : option string;
  in_starts_at : option DateTimeUtc;
  in_expires_at : option DateTimeUtc
}.

Record UpdateUserBanInput : Type := mkUpdateInput {
  up_scopes : option (list UserBanScope);
  up_reason : option string;
  up_public_reason : option (NullablePatch string);
  up_admin_note : option (NullablePatch string);
  up_starts_at : option DateTimeUtc;
  up_expires_at : option (NullablePatch DateTimeUtc)
}.

(** [UserBanInfo]: the row with its decoded scopes and its state now. *)
Record UserBanInfo : Type := mkBanInfo {
  info_row : user_ban;
  info_scopes : list UserBanScope;
  info_effective_status : UserBanStatus;
  info_effective : bool
}.

Definition is_effective (ban : user_ban) (now : DateTimeUtc) : bool :=
  is_active_ban (ban_status ban) && is_none (ban_revoked_at ban)
  && (ban_starts_at ban <=? now)
  && is_none_or (ban_expires_at ban) (fun e => now <? e).

Definition validate_time_range (starts_at : DateTimeUtc) (expires_at : option DateTimeUtc)
  : outcome AsterError.t unit :=
  match expires_at with
  | Some expires_at =>
      if expires_at <=? starts_at
      then Err (AsterError.validation_error_code AsterErrorCode.UserBanDurationInvalid
                  "ban expires_at must be later than starts_at")
      else Ok tt
  | None => Ok tt
  end.

Definition scope_error (error : UserBanScopes.UserBanScopesError) : AsterError.t :=
  match error with
  | UserBanScopes.Empty =>
      AsterError.validation_error_code AsterErrorCode.UserBanReasonInvalid
        "ban scopes must not be empty"
  | UserBanScopes.Invalid =>
      AsterError.validation_error_code AsterErrorCode.UserBanReasonInvalid
        "ban scopes are invalid"
  end.

(** [.map_err(scope_error)] *)
Definition map_scope_error {A} (o : outcome UserBanScopes.UserBanScopesError A)
  : outcome AsterError.t A :=
  match o with Ok a => Ok a | Err e => Err (scope_error e) | Panic m => Panic m end.

Section Service.
Context `{EN : Env} `{CB : CacheBackend} `{BE : BanExterns} `{TM : TxnManager}.

Definition normalize_required_text (value : string) (max_chars : Z)
  (code : AsterErrorCode.t) (label : string) : outcome AsterError.t string :=
  let value := trim value in
  if is_empty value || (max_chars <? char_count value)
  then Err (AsterError.validation_error_code code
              (label +:+ " must be 1-" +:+ pretty max_chars +:+ " characters"))
  else Ok value.

Definition normalize_optional_text (value : option string) (max_chars : Z)
  (code : AsterErrorCode.t) (label : string) : outcome AsterError.t (option string) :=
  match value with
  | Some value =>
      let value := trim value in
      if is_empty value then Ok None
      else if max_chars <? char_count value
      then Err (AsterError.validation_error_code code
                  (label +:+ " must not exceed " +:+ pretty max_chars +:+ " characters"))
      else Ok (Some value)
  | None => Ok None
  end.

Definition normalize_nullable_text_patch (value : option (NullablePatch string))
  (max_chars : Z) (code : AsterErrorCode.t) (label : string)
  : outcome AsterError.t (option (option string)) :=
  match value with
  | Some Null => Ok (Some None)
  | Some (Value value) =>
      match normalize_optional_text (Some value) max_chars code label with
      | Ok v => Ok (Some v)
      | Err e => Err e
      | Panic m => Panic m
      end
  | Some Absent | None => Ok None
  end.

Definition normalize_scopes (scopes : list UserBanScope)
  : outcome AsterError.t (list UserBanScope) :=
  map_scope_error
    match UserBanScopes.new scopes with
    | Ok raw => UserBanScopes.as_vec raw
    | Err e => Err e
    | Panic m => Panic m
    end.

Definition ban_scopes (ban : user_ban) : outcome AsterError.t (list UserBanScope) :=
  map_scope_error (UserBanScopes.as_vec (ban_scopes_raw ban)).

Definition ban_info_at (ban : user_ban) (now : DateTimeUtc) : UserBanInfo :=
  let effective := is_effective ban now in
  mkBanInfo ban
    (match ban_scopes ban with Ok l => l | _ => [] end)
    (if eqb (ban_status ban) BanActive && negb effective then BanExpired
     else ban_status ban)
    effective.

Definition ban_info (ban : user_ban) : M AsterError.t UserBanInfo :=
  let* now := utc_now in
  ret (ban_info_at ban now).

Definition active_user_ban_for_scope (user_id : Z) (scope : UserBanScope)
  : M AsterError.t (option user_ban) :=
  let* now := utc_now in
  BanRepo.find_effective_for_scope user_id scope now.

Definition is_user_banned (user_id : Z) (scope : UserBanScope) : M AsterError.t bool :=
  let* ban := active_user_ban_for_scope user_id scope in
  ret (is_some ban).

Definition ensure_user_not_banned (user_id : Z) (scope : UserBanScope)
  : M AsterError.t unit :=
  let* ban := active_user_ban_for_scope user_id scope in
  match ban with
  | Some _ =>
      throw (AsterError.auth_forbidden_code AsterErrorCode.UserBanForbidden
               ("user is banned from " +:+ scope_as_str scope))
  | None => ret tt
  end.

Definition active_user_bans (user_id : Z) : M AsterError.t (list UserBanInfo) :=
  let* now := utc_now in
  let* bans := BanRepo.list_effective_for_user user_id now in
  ret (List.map (fun ban => ban_info_at ban now) bans).

(** [user_ban(state, ban_id)] *)
Definition load_user_ban (ban_id : Z) : M AsterError.t user_ban :=
  if ban_id <=? 0
  then throw (AsterError.record_not_found_code AsterErrorCode.UserBanNotFound
                "invalid user ban id")
  else
    let* ban := BanRepo.find_by_id ban_id in
    lift (ok_or (AsterError.record_not_found_code AsterErrorCode.UserBanNotFound
                   ("user ban '" +:+ pretty ban_id +:+ "'")) ban).

Definition get_user_ban (ban_id : Z) : M AsterError.t UserBanInfo :=
  let* ban := load_user_ban ban_id in
  ban_info ban.

Definition reject_duplicate_effective_scopes (user_id : Z) (scopes : list UserBanScope)
  (excluding_ban_id : option Z) : M AsterError.t unit :=
  for_each scopes (fun scope =>
    let* now := utc_now in
    let* ban := BanRepo.find_effective_for_scope user_id scope now in
    when_ok (is_some_and ban (fun ban => negb (eqb (Some (ban_pk ban)) excluding_ban_id)))
      (AsterError.validation_error_code AsterErrorCode.UserBanAlreadyActive
         "an active user ban already exists for one of these scopes")).

(** The transaction of [create_user_ban]: the row and its first event. *)
Definition create_ban_txn (actor : Z) (input : CreateUserBanInput)
  (scopes : list UserBanScope) (reason : string) (public_reason admin_note : option string)
  (starts_at : DateTimeUtc) : M AsterError.t user_ban :=
  let* raw := lift (map_scope_error (UserBanScopes.new scopes)) in
  let* ban := BanRepo.create
    (BanRepo.mkCreate (target_user_id input) raw reason public_reason admin_note
                      (Some actor) starts_at (in_expires_at input)) in
  let* _ := BanRepo.create_event
    (BanRepo.mkCreateEvent (ban_pk ban) (Some actor) EvCreated None (Some (ban_status ban))
       None (Some (ban_scopes_raw ban)) None (ban_expires_at ban) (Some (ban_reason ban))) in
  ret ban.

Definition create_user_ban (actor_user_id : Z) (input : CreateUserBanInput)
  : M AsterError.t UserBanInfo :=
  let* _ := UserRepo.find_by_id (target_user_id input) in
  let* starts_at := match in_starts_at input with Some t => ret t | None => utc_now end in
  do* lift (validate_time_range starts_at (in_expires_at input)) in
  let* reason := lift (normalize_required_text (in_reason input) REASON_MAX_CHARS
                         AsterErrorCode.UserBanReasonInvalid "ban reason") in
  let* public_reason := lift (normalize_optional_text (in_public_reason input) NOTE_MAX_CHARS
                         AsterErrorCode.UserBanReasonInvalid "public ban reason") in
  let* admin_note := lift (normalize_optional_text (in_admin_note input) NOTE_MAX_CHARS
                         AsterErrorCode.UserBanReasonInvalid "ban admin note") in
  let* scopes := lift (normalize_scopes (in_scopes input)) in
  do* reject_duplicate_effective_scopes (target_user_id input) scopes None in
  let* ban := with_transaction
    (create_ban_txn actor_user_id input scopes reason public_reason admin_note starts_at) in
  ban_info ban.

Definition update_ban_txn (actor : Z) (ban : user_ban) (input : BanRepo.UpdateUserBan)
  (previous : list UserBanScope) : M AsterError.t user_ban :=
  let* updated := BanRepo.update ban input in
  let* raw := lift (map_scope_error (UserBanScopes.new previous)) in
  let* _ := BanRepo.create_event
    (BanRepo.mkCreateEvent (ban_pk updated) (Some actor) EvUpdated (Some (ban_status ban))
       (Some (ban_status updated)) (Some raw) (Some (ban_scopes_raw updated))
       (ban_expires_at ban) (ban_expires_at updated) (ban_admin_note updated)) in
  ret updated.

Definition not_active (message : string) : AsterError.t :=
  AsterError.validation_error_code AsterErrorCode.UserBanNotActive message.

Definition update_user_ban (actor_user_id ban_id : Z) (input : UpdateUserBanInput)
  : M AsterError.t UserBanInfo :=
  let* ban := load_user_ban ban_id in
  let* now := utc_now in
  do* when_ok (negb (is_effective ban now))
        (not_active "only active user bans can be updated") in
  let* previous_scopes := lift (ban_scopes ban) in
  let* next_scopes := lift match up_scopes input with
                           | Some scopes => normalize_scopes scopes
                           | None => Ok previous_scopes
                           end in
  let next_starts_at := default (ban_starts_at ban) (up_starts_at input) in
  let next_expires_at :=
    match up_expires_at input with
    | Some Null => None
    | Some (Value value) => Some value
    | Some Absent | None => ban_expires_at ban
    end in
  do* lift (validate_time_range next_starts_at next_expires_at) in
  do* (if eqb next_scopes previous_scopes then ret tt
       else reject_duplicate_effective_scopes (ban_user_id ban) next_scopes
              (Some (ban_pk ban))) in
  let* reason := lift match up_reason input with
                      | Some value =>
                          match normalize_required_text value REASON_MAX_CHARS
                                  AsterErrorCode.UserBanReasonInvalid "ban reason" with
                          | Ok r => Ok (Some r) | Err e => Err e | Panic m => Panic m
                          end
                      | None => Ok None
                      end in
  let* public_reason := lift (normalize_nullable_text_patch (up_public_reason input)
                          NOTE_MAX_CHARS AsterErrorCode.UserBanReasonInvalid
                          "public ban reason") in
  let* admin_note := lift (normalize_nullable_text_patch (up_admin_note input)
                          NOTE_MAX_CHARS AsterErrorCode.UserBanReasonInvalid
                          "ban admin note") in
  let* next_scopes_value := lift (map_scope_error (UserBanScopes.new next_scopes)) in
  let* updated := with_transaction
    (update_ban_txn actor_user_id ban
       (BanRepo.mkUpdate
          (if eqb next_scopes previous_scopes then None else Some next_scopes_value)
          reason public_reason admin_note (up_starts_at input)
          (if eqb next_expires_at (ban_expires_at ban) then None else Some next_expires_at))
       previous_scopes) in
  ban_info updated.

Definition revoke_ban_txn (actor : Z) (ban : user_ban) (previous : list UserBanScope)
  (note : option string) (revoked_at : DateTimeUtc) : M AsterError.t user_ban :=
  let* updated := BanRepo.revoke ban (Some actor) note revoked_at in
  let* raw := lift (map_scope_error (UserBanScopes.new previous)) in
  let* _ := BanRepo.create_event
    (BanRepo.mkCreateEvent (ban_pk updated) (Some actor) EvRevoked (Some (ban_status ban))
       (Some (ban_status updated)) (Some raw) (Some (ban_scopes_raw updated))
       (ban_expires_at ban) (ban_expires_at updated) note) in
  ret updated.

Definition revoke_user_ban (actor_user_id ban_id : Z) (revoke_note : option string)
  : M AsterError.t UserBanInfo :=
  let* ban := load_user_ban ban_id in
  let* now := utc_now in
  do* when_ok (negb (is_effective ban now))
        (not_active "only active user bans can be revoked") in
  let* note := lift (normalize_optional_text revoke_note NOTE_MAX_CHARS
                       AsterErrorCode.UserBanReasonInvalid "ban revoke note") in
  let* previous_scopes := lift (ban_scopes ban) in
  let* revoked_at := utc_now in
  let* updated := with_transaction
    (revoke_ban_txn actor_user_id ban previous_scopes note revoked_at) in
  ban_info updated.

Definition list_user_ban_events (ban_id : Z) : M AsterError.t (list user_ban_event) :=
  let* _ := load_user_ban ban_id in
  BanRepo.list_events ban_id.
End Service.
