(* ===== verification/Tokens.v ===== *)
(** * Yggdrasil access tokens

    [db/repository/yggdrasil_token_repo.rs] and
    [services/yggdrasil_service/token.rs], with the token entries of
    [services/yggdrasil_service/cache.rs]: issuing, refreshing, checking,
    revoking and cleaning up the access tokens of the game protocol. *)

From Stdlib Require Import ZArith List Bool Lia.
From stdpp Require Import base decidable list strings pretty.
From S2P Require Import Prelude Text Errors Types AuditLog World Logic Repos Bans.

Local Open Scope Z_scope.
Local Open Scope aster_scope.

(** [aster_forge_utils::numbers]; the error is a [UtilsError]'s text. *)
Class ForgeNumbers : Type := {
  u64_to_i64 : Z -> string -> outcome string Z;
  u64_to_usize : Z -> string -> outcome string Z
}.

Definition I64_MAX : Z := 9223372036854775807.

(** The conversions keep the value, or fail when it does not fit. *)
Class ForgeNumberLaws (F : ForgeNumbers) : Prop := {
  u64_to_i64_spec n name :
    if n <=? I64_MAX then u64_to_i64 n name = Ok n
    else exists e, u64_to_i64 n name = Err e;
  u64_to_usize_spec n name :
    match u64_to_usize n name with Ok m => m = n | Err _ => True | Panic _ => False end
}.

(** [chrono]: [t + Duration::days(n)]; [None] is the documented panic when
    the duration or the sum is out of range. *)
Class Chrono : Type := { datetime_add_days : DateTimeUtc -> Z -> option DateTimeUtc }.

Class ChronoLaws (C : Chrono) : Prop := {
  add_days_some t n t' : datetime_add_days t n = Some t' -> t' = t + seconds (n * 86400);
  add_days_panics t n : I64_MAX < n * 86400 * 1000 -> datetime_add_days t n = None
}.

(** What the handlers read from actix's [HttpRequest]: the User-Agent header
    if it is text, the peer's address, and the client address the connection
    information resolves ([realip_remote_addr]). *)
Record HttpRequest : Type := mkRequest {
  req_user_agent : option string;
  req_peer_ip : option string;
  req_realip : option string
}.

(** ** The repository *)
Module TokenRepo.

Record CreateYggdrasilToken : Type := mkCreate {
  ct_user_id : Z;
  ct_access_token_hash : string;
  ct_client_token : string;
  ct_selected_profile_id : option Z;
  ct_issued_at : DateTimeUtc;
  ct_expires_at : DateTimeUtc;
  ct_user_agent : option string;
  ct_ip_address : option string
}.

(** The unique index on [access_token_hash]. *)
Definition token_conflict (t u : yggdrasil_token) : bool :=
  eqb (access_token_hash t) (access_token_hash u).

Definition not_revoked (t : yggdrasil_token) : bool := is_none (revoked_at t).

Definition set_revoked (now : DateTimeUtc) (t : yggdrasil_token) : yggdrasil_token :=
  mkToken (token_pk t) (token_user_id t) (access_token_hash t) (client_token t)
          (selected_profile_id t) (issued_at t) (expires_at t) (Some now)
          (temporarily_invalidated_at t) (token_user_agent t) (token_ip_address t).

Definition set_temporarily_invalidated (now : DateTimeUtc) (t : yggdrasil_token)
  : yggdrasil_token :=
  mkToken (token_pk t) (token_user_id t) (access_token_hash t) (client_token t)
          (selected_profile_id t) (issued_at t) (expires_at t) (revoked_at t)
          (Some now) (token_user_agent t) (token_ip_address t).

(** [order_by_desc(IssuedAt)] *)
Definition newest_issued_first (t u : yggdrasil_token) : bool := issued_at u <=? issued_at t.

Section Ops.
Context `{EN : Env} `{CB : CacheBackend} `{FN : ForgeNumbers}.

Definition create (input : CreateYggdrasilToken) : M AsterError.t yggdrasil_token :=
  db_insert tokens set_tokens token_conflict (fun id =>
    mkToken id (ct_user_id input) (ct_access_token_hash input) (ct_client_token input)
            (ct_selected_profile_id input) (ct_issued_at input) (ct_expires_at input)
            None None (ct_user_agent input) (ct_ip_address input)).

Definition find_by_access_hash (hash : string) : M AsterError.t (option yggdrasil_token) :=
  db_query (fun d => find_row (fun t => eqb (access_token_hash t) hash) (rows (tokens d))).

Definition list_active_hashes_for_user (user_id : Z) : M AsterError.t (list string) :=
  db_query (fun d =>
    List.map access_token_hash
      (rows_where (fun t => (token_user_id t =? user_id) && not_revoked t) (rows (tokens d)))).

Definition list_active_hashes_for_selected_profile (profile_id : Z)
  : M AsterError.t (list string) :=
  db_query (fun d =>
    List.map access_token_hash
      (rows_where (fun t => eqb (selected_profile_id t) (Some profile_id) && not_revoked t)
                  (rows (tokens d)))).

Definition count_active : M AsterError.t Z :=
  let* now := utc_now in
  db_query (fun d =>
    Z.of_nat (count_where
      (fun t => not_revoked t && is_none (temporarily_invalidated_at t) && (now <? expires_at t))
      (rows (tokens d)))).

Definition revoke_by_access_hash (hash : string) : M AsterError.t bool :=
  let* token := find_by_access_hash hash in
  match token with
  | None => ret false
  | Some token =>
      if is_some (revoked_at token) then ret false
      else
        let* now := utc_now in
        let* _ := db_update tokens set_tokens token_pk (token_pk token) (set_revoked now) in
        ret true
  end.

Definition list_recent_revoked_hashes_for_user (user_id : Z) (since : DateTimeUtc)
  : M AsterError.t (list string) :=
  db_query (fun d =>
    List.map access_token_hash
      (rows_where (fun t => (token_user_id t =? user_id)
                            && is_some_and (revoked_at t) (fun r => since <=? r))
                  (rows (tokens d)))).

Definition revoke_all_for_user_returning_hashes (user_id : Z)
  : M AsterError.t (Z * list string) :=
  let* before_hashes := list_active_hashes_for_user user_id in
  let* now := utc_now in
  let revoked_since := now - seconds 10 in
  let* already_revoked := list_recent_revoked_hashes_for_user user_id revoked_since in
  let* revoked_at := utc_now in
  let* affected := db_update_many tokens set_tokens
    (fun t => (token_user_id t =? user_id) && not_revoked t) (set_revoked revoked_at) in
  let* recently_revoked := list_recent_revoked_hashes_for_user user_id revoked_since in
  let hashes := before_hashes ++
    List.filter (fun h => negb (mem h already_revoked)) recently_revoked in
  ret (affected, dedup (sort_by String.leb hashes)).

Definition revoke_all_for_user (user_id : Z) : M AsterError.t Z :=
  let* r := revoke_all_for_user_returning_hashes user_id in
  ret (fst r).

Definition revoke_all_for_selected_profile (profile_id : Z) : M AsterError.t Z :=
  let* now := utc_now in
  db_update_many tokens set_tokens
    (fun t => eqb (selected_profile_id t) (Some profile_id) && not_revoked t)
    (set_revoked now).

Definition temporarily_invalidate_all_for_selected_profile (profile_id : Z)
  : M AsterError.t Z :=
  let* now := utc_now in
  db_update_many tokens set_tokens
    (fun t => eqb (selected_profile_id t) (Some profile_id) && not_revoked t
              && is_none (temporarily_invalidated_at t))
    (set_temporarily_invalidated now).

Definition delete_expired (now : DateTimeUtc) : M AsterError.t Z :=
  db_delete_many tokens set_tokens (fun t => expires_at t <? now).

Definition delete_expired_or_revoked (now : DateTimeUtc) : M AsterError.t Z :=
  db_delete_many tokens set_tokens (fun t => (expires_at t <? now) || is_some (revoked_at t)).

(** The tokens of a user that are not revoked, newest first. *)
Definition active_newest_first (user_id : Z) (d : Db) : list yggdrasil_token :=
  sort_by newest_issued_first
    (rows_where (fun t => (token_user_id t =? user_id) && not_revoked t) (rows (tokens d))).

Definition prune_oldest_for_user (user_id keep_count : Z) : M AsterError.t (list string) :=
  let* keep_count := map_err AsterError.InternalError
                       (lift (u64_to_usize keep_count "yggdrasil token keep count")) in
  let* toks := db_query (active_newest_first user_id) in
  let pruned := skip keep_count toks in
  do* for_each pruned (fun token =>
        let* now := utc_now in
        let* _ := db_update tokens set_tokens token_pk (token_pk token) (set_revoked now) in
        ret tt) in
  ret (List.map access_token_hash pruned).
End Ops.
End TokenRepo.

(** ** The token cache *)
Module TokenCache.

Definition TOKEN_TTL_SECS : Z := 60.
Definition TOKEN_PREFIX : string := "yggdrasil:token:".

Definition token_key (access_token_hash : string) : string := TOKEN_PREFIX +:+ access_token_hash.

Section Ops.
Context `{EN : Env} `{CB : CacheBackend}.

Definition get_token {E} (hash : string) : M E (option yggdrasil_token) :=
  let* v := cache_read (token_key hash) in
  ret (match v with Some (CvToken t) => Some t | _ => None end).

Definition set_token {E} (hash : string) (token : yggdrasil_token) : M E unit :=
  cache_write (token_key hash) (CvToken token) TOKEN_TTL_SECS.

Definition invalidate_token {E} (hash : string) : M E unit :=
  cache_update (fun c => cache_delete c (token_key hash)).

Definition invalidate_tokens {E} (hashes : list string) : M E unit :=
  cache_update (fun c => cache_delete_many c (List.map token_key hashes)).

Definition invalidate_all_tokens {E} : M E unit :=
  cache_update (fun c => cache_invalidate_prefix c TOKEN_PREFIX).
End Ops.
End TokenCache.

(** ** The service *)

Record IssuedToken : Type := mkIssued {
  issued_token_id : Z;
  issued_access_token : string
}.

Section Service.
Context `{EN : Env} `{CB : CacheBackend} `{BE : BanExterns} `{TM : TxnManager}.
Context `{FC : ForgeCrypto} `{FN : ForgeNumbers} `{CH : Chrono}.

Abbreviation YM := (M Yggdrasil.YggdrasilError).

(** [.map_err(YggdrasilError::from)] *)
Definition ygg {A} (c : M AsterError.t A) : YM A := map_err Yggdrasil.from_aster c.

Definition invalid_token : Yggdrasil.YggdrasilError := Yggdrasil.new Yggdrasil.InvalidToken.

Definition add_days (t : DateTimeUtc) (n : Z) : M AsterError.t DateTimeUtc :=
  match datetime_add_days t n with
  | Some t' => ret t'
  | None => panic "`DateTime + TimeDelta` overflowed"
  end.

Definition issue_token_in_connection (user_id : Z) (client_token : string)
  (selected_profile_id : option Z) (policy : RuntimeYggdrasilPolicy)
  (user_agent ip_address : option string) : M AsterError.t (IssuedToken * list string) :=
  let* now := utc_now in
  let* token_ttl_days := map_err AsterError.InternalError
    (lift (u64_to_i64 (token_ttl_days policy) "yggdrasil token ttl days")) in
  let* access_token := new_short_token in
  let* expires_at := add_days now token_ttl_days in
  let* token := TokenRepo.create
    (TokenRepo.mkCreate user_id (sha256_hex access_token) client_token selected_profile_id
       now expires_at user_agent ip_address) in
  let* pruned_hashes := TokenRepo.prune_oldest_for_user user_id (max_active_tokens policy) in
  ret (mkIssued (token_pk token) access_token, pruned_hashes).

Definition issue_token (user_id : Z) (client_token : string)
  (selected_profile_id : option Z) (policy : RuntimeYggdrasilPolicy) (req : HttpRequest)
  : YM IssuedToken :=
  let* r := ygg (with_transaction
    (issue_token_in_connection user_id client_token selected_profile_id policy
       (req_user_agent req) (req_peer_ip req))) in
  do* TokenCache.invalidate_tokens (snd r) in
  ret (fst r).

(** The [async] block of [refresh_token] inside the open transaction. *)
Definition refresh_in_txn (old_hash : string) (user_id : Z) (client_token : string)
  (selected_profile_id : option Z) (policy : RuntimeYggdrasilPolicy)
  (user_agent ip_address : option string) : YM (IssuedToken * list string) :=
  let* revoked := ygg (TokenRepo.revoke_by_access_hash old_hash) in
  if negb revoked then throw invalid_token
  else ygg (issue_token_in_connection user_id client_token selected_profile_id policy
              user_agent ip_address).

(** A panic unwinds past the open transaction, which is dropped. *)
Definition run_open {A} (txn : Txn) (body : YM A) : YM (A + Yggdrasil.YggdrasilError) :=
  fun w =>
    match body w with
    | (Ok a, w') => (Ok (inl a), w')
    | (Err e, w') => (Ok (inr e), w')
    | (Panic m, w') => (Panic m, drop_txn txn w')
    end.

Definition refresh_token (old_access_token : string) (user_id : Z) (client_token : string)
  (selected_profile_id : option Z) (policy : RuntimeYggdrasilPolicy) (req : HttpRequest)
  : YM IssuedToken :=
  let old_hash := sha256_hex old_access_token in
  let* txn := ygg begin in
  let* result := run_open txn
    (refresh_in_txn old_hash user_id client_token selected_profile_id policy
       (req_user_agent req) (req_peer_ip req)) in
  match result with
  | inl (issued, pruned_hashes) =>
      do* ygg (commit txn) in
      do* TokenCache.invalidate_tokens (pruned_hashes ++ [old_hash]) in
      ret issued
  | inr error =>
      let* _ := catch (rollback txn) in
      throw error
  end.

Definition cleanup_expired_or_revoked_tokens : M AsterError.t Z :=
  let* now := utc_now in
  let* removed := TokenRepo.delete_expired_or_revoked now in
  do* TokenCache.invalidate_all_tokens in
  ret removed.

(** The first half of [token_for_operation]: the cache, else the table. *)
Definition lookup_token (hash : string) : YM yggdrasil_token :=
  let* cached := TokenCache.get_token hash in
  match cached with
  | Some token => ret token
  | None =>
      let* found := ygg (TokenRepo.find_by_access_hash hash) in
      match found with
      | Some token => ret token
      | None => throw invalid_token
      end
  end.

(** The second half: what makes a found token acceptable. *)
Definition check_token (hash : string) (token : yggdrasil_token)
  (client : option string) (allow_temporarily_invalid : bool) : YM yggdrasil_token :=
  let* now := utc_now in
  do* when_ok (is_some (revoked_at token) || (expires_at token <=? now)) invalid_token in
  do* TokenCache.set_token hash token in
  do* when_ok (is_some (temporarily_invalidated_at token) && negb allow_temporarily_invalid)
        invalid_token in
  do* when_ok (is_some_and client (fun c => negb (eqb (client_token token) c)))
        invalid_token in
  let* banned := ygg (is_user_banned (token_user_id token) YggdrasilAccess) in
  do* when_ok banned invalid_token in
  ret token.

Definition token_for_operation (access_token : string) (client : option string)
  (allow_temporarily_invalid : bool) : YM yggdrasil_token :=
  let hash := sha256_hex access_token in
  let* token := lookup_token hash in
  check_token hash token client allow_temporarily_invalid.

Definition active_token (access_token : string) (client : option string)
  : YM yggdrasil_token :=
  token_for_operation access_token client false.

Definition active_token_for_protocol (access_token : string) : YM yggdrasil_token :=
  active_token access_token None.

Definition refreshable_token (access_token : string) (client : option string)
  : YM yggdrasil_token :=
  token_for_operation access_token client true.

Definition selected_profile_for_token (token : option yggdrasil_token)
  : YM (option minecraft_profile) :=
  match token ≫= selected_profile_id with
  | None => ret None
  | Some profile_id =>
      let* profile := ygg (ProfileRepo.find_by_id profile_id) in
      ret (Some profile)
  end.

Definition revoke_by_access_token (access_token : string) : YM unit :=
  let hash := sha256_hex access_token in
  let* _ := ygg (TokenRepo.revoke_by_access_hash hash) in
  TokenCache.invalidate_token hash.

Definition revoke_all_for_user (user_id : Z) : YM unit :=
  let* r := ygg (TokenRepo.revoke_all_for_user_returning_hashes user_id) in
  TokenCache.invalidate_tokens (snd r).

Definition invalidate_token_cache_for_user (user_id : Z) : M AsterError.t (list string) :=
  let* hashes := TokenRepo.list_active_hashes_for_user user_id in
  do* TokenCache.invalidate_tokens hashes in
  ret hashes.

Definition invalidate_token_cache_for_selected_profile (profile_id : Z)
  : M AsterError.t (list string) :=
  let* hashes := TokenRepo.list_active_hashes_for_selected_profile profile_id in
  do* TokenCache.invalidate_tokens hashes in
  ret hashes.
End Service.
