(* ===== verification/Auth.v ===== *)
(** * The authentication handlers of the game protocol

    [services/yggdrasil_service/auth.rs] and [login.rs]: authenticate,
    refresh, validate, invalidate and signout, with the request and response
    types of [api/dto/yggdrasil.rs] and the entry points of
    [services/audit_service] they use.  The handlers receive requests that
    the HTTP layer has deserialised; its validation is not relied on. *)

From Stdlib Require Import ZArith List Bool Lia.
From stdpp Require Import base decidable list strings pretty.
From S2P Require Import Prelude Text Errors Types AuditLog World Logic Repos Bans Tokens.

Local Open Scope Z_scope.
Local Open Scope aster_scope.

(** The snapshot of the runtime configuration the handlers read. *)
Class RuntimeConfig : Type := {
  audit_settings : AuditLogRuntimeSettings;
  policy : RuntimeYggdrasilPolicy
}.

(** ** Audit entry points ([audit_service/context.rs], [manager.rs]) *)
Module AuditService.

Definition MAX_AUDIT_IP_ADDRESS_LEN : nat := 45.
Definition MAX_AUDIT_USER_AGENT_LEN : nat := 512.

Definition bounded_audit_value (value : string) (max_len : nat) : string :=
  if (String.length value <=? max_len)%nat then value
  else byte_prefix (boundary_below value max_len) value.

(** [AuditContext::from_request] *)
Definition from_request (req : HttpRequest) (user_id : Z) : AuditContext :=
  mkCtx user_id
    ((fun v => bounded_audit_value v MAX_AUDIT_IP_ADDRESS_LEN) <$> req_realip req)
    ((fun v => bounded_audit_value v MAX_AUDIT_USER_AGENT_LEN) <$> req_user_agent req).

(** The details, a JSON value, are not modelled; the entry goes to the log
    manager, which queues it. *)
Definition log_with_details `{CB : CacheBackend} `{RC : RuntimeConfig} {E}
  (ctx : AuditContext) (action : AuditAction.t) (entity_type : AuditEntityType)
  (entity_id : option Z) (entity_name : option string) : M E unit :=
  fun w =>
    if should_record audit_settings action
    then (Ok tt, tick (add_audit (mkEntry ctx action entity_type entity_id entity_name) w))
    else (Ok tt, w).
End AuditService.

(** ** Requests and responses *)

Record YggdrasilAgentReq : Type := mkAgent { agent_name : string; agent_version : Z }.

Record YggdrasilAuthenticateReq : Type := mkAuthenticateReq {
  ar_username : string;
  ar_password : string;
  ar_client_token : option string;
  ar_request_user : bool;
  ar_agent : option YggdrasilAgentReq
}.

Record YggdrasilUser : Type := mkYggUser {
  yu_id : string;
  yu_properties : list YggdrasilProfileProperty
}.

Record YggdrasilAuthenticateResp : Type := mkAuthenticateResp {
  as_access_token : string;
  as_client_token : string;
  as_available_profiles : list YggdrasilProfile;
  as_selected_profile : option YggdrasilProfile;
  as_user : option YggdrasilUser
}.

Record YggdrasilRefreshReq : Type := mkRefreshReq {
  rr_access_token : string;
  rr_client_token : option string;
  rr_request_user : bool;
  rr_selected_profile : option YggdrasilProfile
}.

Record YggdrasilRefreshResp : Type := mkRefreshResp {
  rs_access_token : string;
  rs_client_token : string;
  rs_selected_profile : option YggdrasilProfile;
  rs_user : option YggdrasilUser
}.

Record YggdrasilTokenReq : Type := mkTokenReq {
  tr_access_token : string;
  tr_client_token : option string
}.

(** ** Login *)

Record LoginTarget : Type := mkLoginTarget {
  login_user : user;
  forced_profile : option minecraft_profile
}.

Definition profile_summary (p : minecraft_profile) : YggdrasilProfile :=
  mkYggProfile (uuid p) (profile_name p) None None.

Definition user_info (u : user) : YggdrasilUser := mkYggUser (public_uuid u) [].

Definition is_email_verified (u : user) : bool := is_some (email_verified_at u).

Definition is_email_activation_satisfied (u : user) : bool :=
  is_none_or (email u) (fun email => is_empty (trim email)) || is_email_verified u.

Definition ygg_error (k : Yggdrasil.YggdrasilErrorKind) : Yggdrasil.YggdrasilError :=
  Yggdrasil.new k.

Section Handlers.
Context `{EN : Env} `{CB : CacheBackend} `{BE : BanExterns} `{TM : TxnManager}.
Context `{FC : ForgeCrypto} `{FN : ForgeNumbers} `{CH : Chrono} `{RC : RuntimeConfig}.

Abbreviation YM := (M Yggdrasil.YggdrasilError).

Definition resolve_login_target (identifier : string) (policy : RuntimeYggdrasilPolicy)
  : YM LoginTarget :=
  let* user := ygg (UserRepo.find_by_identifier identifier) in
  match user with
  | Some user => ret (mkLoginTarget user None)
  | None =>
      do* when_ok (negb (allow_profile_name_login policy))
            (ygg_error Yggdrasil.InvalidCredentials) in
      let* profile := ygg (ProfileRepo.find_by_name identifier) in
      match profile with
      | None => throw (ygg_error Yggdrasil.InvalidCredentials)
      | Some profile =>
          let* user := ygg (UserRepo.find_by_id (profile_user_id profile)) in
          ret (mkLoginTarget user (Some profile))
      end
  end.

(** [verify_password(..).map_err(AsterError::from).map_err(YggdrasilError::from)?] *)
Definition check_password (password hash : string) : YM bool :=
  ygg (map_err AsterError.InternalError (lift (verify_password password hash))).

(** The guards of [authenticate], up to the authenticated login target. *)
Definition authenticate_login (body : YggdrasilAuthenticateReq) : YM LoginTarget :=
  do* when_ok (is_empty (trim (ar_username body)) || is_empty (ar_password body))
        (ygg_error Yggdrasil.InvalidCredentials) in
  do* when_ok (is_some_and (ar_agent body) (fun agent =>
                 negb (eqb (agent_name agent) "Minecraft"%string) || negb (agent_version agent =? 1)))
        (ygg_error Yggdrasil.UnsupportedAgent) in
  let* login_target := resolve_login_target (ar_username body) policy in
  let user := login_user login_target in
  do* when_ok (negb (is_active_user (user_status user)))
        (ygg_error Yggdrasil.InvalidCredentials) in
  do* when_ok (negb (is_email_activation_satisfied user))
        (ygg_error Yggdrasil.InvalidCredentials) in
  let* verified := check_password (ar_password body) (password_hash user) in
  do* when_ok (negb verified) (ygg_error Yggdrasil.InvalidCredentials) in
  let* banned := ygg (is_user_banned (user_pk user) YggdrasilAccess) in
  do* when_ok banned (ygg_error Yggdrasil.InvalidCredentials) in
  ret login_target.

(** The profile a new token is bound to. *)
Definition select_profile_id (forced : option minecraft_profile)
  (profiles : list minecraft_profile) : option Z :=
  match forced with
  | Some profile => Some (profile_pk profile)
  | None => match profiles with [p] => Some (profile_pk p) | _ => None end
  end.

Definition authenticate (body : YggdrasilAuthenticateReq) (req : HttpRequest)
  : YM YggdrasilAuthenticateResp :=
  let* login_target := authenticate_login body in
  let user := login_user login_target in
  let* profiles := ygg (ProfileRepo.list_by_user (user_pk user)) in
  let selected_profile_id := select_profile_id (forced_profile login_target) profiles in
  let* client_token :=
    match ar_client_token body with
    | Some token => if is_empty (trim token) then new_short_token else ret token
    | None => new_short_token
    end in
  let* issued := issue_token (user_pk user) client_token selected_profile_id policy req in
  let selected_profile :=
    selected_profile_id ≫= (fun id => find_row (fun p => profile_pk p =? id) profiles) in
  do* AuditService.log_with_details (AuditService.from_request req (user_pk user))
        AuditAction.YggdrasilAuthenticate YggdrasilToken (Some (issued_token_id issued))
        (profile_name <$> selected_profile) in
  ret (mkAuthenticateResp (issued_access_token issued) client_token
         (List.map profile_summary profiles) (profile_summary <$> selected_profile)
         (if ar_request_user body then Some (user_info user) else None)).

(** The profile a refreshed token is bound to. *)
Definition refresh_profile_id (existing : yggdrasil_token) (user : user)
  (requested : option YggdrasilProfile) : YM (option Z) :=
  match requested with
  | Some selected =>
      do* when_ok (is_some (selected_profile_id existing))
            (ygg_error Yggdrasil.AccessTokenAlreadyHasProfile) in
      let* profile := ygg (ProfileRepo.find_by_uuid (ygg_id selected)) in
      match profile with
      | None => throw (ygg_error Yggdrasil.ForbiddenProfile)
      | Some profile =>
          do* when_ok (negb (profile_user_id profile =? user_pk user))
                (ygg_error Yggdrasil.ForbiddenProfile) in
          ret (Some (profile_pk profile))
      end
  | None => ret (selected_profile_id existing)
  end.

Definition refresh (body : YggdrasilRefreshReq) (req : HttpRequest)
  : YM YggdrasilRefreshResp :=
  let* existing := refreshable_token (rr_access_token body) (rr_client_token body) in
  let* user := ygg (UserRepo.find_by_id (token_user_id existing)) in
  do* when_ok (negb (is_active_user (user_status user))) invalid_token in
  let* selected_profile_id := refresh_profile_id existing user (rr_selected_profile body) in
  let* issued := refresh_token (rr_access_token body) (user_pk user) (client_token existing)
                   selected_profile_id policy req in
  let* selected_profile :=
    match selected_profile_id with
    | Some id => let* p := ygg (ProfileRepo.find_by_id id) in ret (Some p)
    | None => ret None
    end in
  do* AuditService.log_with_details (AuditService.from_request req (user_pk user))
        AuditAction.YggdrasilRefreshToken YggdrasilToken (Some (issued_token_id issued))
        (profile_name <$> selected_profile) in
  ret (mkRefreshResp (issued_access_token issued) (client_token existing)
         (profile_summary <$> selected_profile)
         (if rr_request_user body then Some (user_info user) else None)).

Definition validate (body : YggdrasilTokenReq) : YM unit :=
  let* _ := active_token (tr_access_token body) (tr_client_token body) in
  ret tt.

(** [.ok()]: an error becomes [None]. *)
Definition ok {A} (c : YM A) : YM (option A) :=
  let* r := catch c in
  ret (match r with inl a => Some a | inr _ => None end).

Definition invalidate (body : YggdrasilTokenReq) : YM unit :=
  let* token := ok (active_token (tr_access_token body) None) in
  let* profile := selected_profile_for_token token in
  do* revoke_by_access_token (tr_access_token body) in
  match token with
  | Some token =>
      AuditService.log_with_details (mkCtx (token_user_id token) None None)
        AuditAction.YggdrasilInvalidateToken YggdrasilToken (Some (token_pk token))
        (profile_name <$> profile)
  | None => ret tt
  end.

Definition signout (username password : string) : YM unit :=
  let* login_target := resolve_login_target username policy in
  let user := login_user login_target in
  do* when_ok (negb (is_active_user (user_status user)))
        (ygg_error Yggdrasil.InvalidCredentials) in
  let* verified := check_password password (password_hash user) in
  do* when_ok (negb verified) (ygg_error Yggdrasil.InvalidCredentials) in
  do* revoke_all_for_user (user_pk user) in
  AuditService.log_with_details (mkCtx (user_pk user) None None)
    AuditAction.YggdrasilSignout UserEntity (Some (user_pk user)) (Some (Types.username user)).
End Handlers.
