(* ===== verification/Concrete.v ===== *)
(** * Concrete instances

    An environment, a cache with expiry, a snapshot transaction manager and
    stand-ins for the hashing and JSON libraries that satisfy the laws of
    the classes, so that the theorems can be applied to concrete inputs. *)

From Stdlib Require Import ZArith List Bool Lia Ascii.
From stdpp Require Import base decidable list strings pretty.
From S2P Require Import Prelude Text Errors Types AuditLog World Logic Repos Bans Tokens Auth.

Local Open Scope Z_scope.

(** A clock that advances one nanosecond per statement, a working database. *)
#[export] Instance env0 : Env := {|
  clock := fun n => seconds 1000 + Z.of_nat n;
  db_fault := fun _ => None;
  short_token := fun n => ("t" +:+ pretty n)%string;
  random_draw := fun n m => Z.of_nat n mod Z.max 1 m;
  record_not_updated := "RecordNotUpdated";
  unique_violation := "UNIQUE constraint failed";
  foreign_key_violation := "FOREIGN KEY constraint failed"
|}.

Lemma env0_no_faults : no_faults.
Proof. done. Qed.
Lemma env0_monotone : clock_monotone.
Proof. intros i j Hij. cbn. lia. Qed.

#[export] Instance crypto0 : ForgeCrypto := {|
  sha256_hex := fun s => ("#" +:+ s)%string;
  verify_password := fun password hash => Ok (eqb password hash)
|}.

(** ** A cache as an association list with expiry times *)

Definition mem_entry : Type := string * CacheValue * DateTimeUtc.

Definition mem_get (c : list mem_entry) (now : DateTimeUtc) (k : string) : option CacheValue :=
  match List.find (fun e => eqb k (fst (fst e)) && (now <=? snd e)) c with
  | Some e => Some (snd (fst e))
  | None => None
  end.

Definition mem_keep (p : string -> bool) (c : list mem_entry) : list mem_entry :=
  List.filter (fun e => p (fst (fst e))) c.

#[export] Instance cache0 : CacheBackend := {|
  cache_state := list mem_entry;
  cache_get := mem_get;
  cache_set := fun c now k v ttl => (k, v, now + seconds ttl) :: mem_keep (fun k' => negb (eqb k k')) c;
  cache_delete := fun c k => mem_keep (fun k' => negb (eqb k k')) c;
  cache_delete_many := fun c ks => mem_keep (fun k' => negb (mem k' ks)) c;
  cache_invalidate_prefix := fun c p => mem_keep (fun k' => negb (starts_with p k')) c
|}.

Lemma mem_get_keep p c t k x :
  mem_get (mem_keep p c) t k = Some x -> p k = true /\ mem_get c t k = Some x.
Proof.
  unfold mem_get, mem_keep. induction c as [|[[k0 v0] t0] c IH]; cbn; [done|].
  destruct (p k0) eqn:Hp; cbn; destruct (eqb k k0 && (t <=? t0)) eqn:Hk; cbn; try done.
  - intros [= <-]. apply andb_true_iff in Hk as [Hk _]. rewrite eqb_true in Hk. by subst.
  - intros H%IH. destruct H as [Hpk _]. apply andb_true_iff in Hk as [Hk _].
    rewrite eqb_true in Hk. subst. congruence.
Qed.

#[export] Instance cache0_laws : CacheLaws cache0.
Proof.
  split; cbn.
  - intros c t k v ttl t' k' x. unfold mem_get at 1. cbn.
    destruct (eqb k' k) eqn:Hk; cbn.
    + rewrite eqb_true in Hk. subst. destruct (Z.leb_spec t' (t + seconds ttl)); cbn.
      * intros [= <-]. by left.
      * intros H2. right. by apply (mem_get_keep _ _ _ _ _ H2).
    + intros H2. right. by apply (mem_get_keep _ _ _ _ _ H2).
  - intros c k t k' x [Hk H]%mem_get_keep. split; [|done].
    intros ->. by rewrite eqb_refl in Hk.
  - intros c ks t k' x [Hk H]%mem_get_keep. split; [|done].
    by rewrite negb_true_iff, mem_false in Hk.
  - intros c p t k' x [Hk H]%mem_get_keep. split; [|done]. by rewrite negb_true_iff in Hk.
Qed.

#[export] Instance txn0 : TxnManager := snapshot_manager.
#[export] Instance txn0_laws : TxnLaws txn0 := snapshot_laws.

(** ** Scopes as a string of digits *)

Definition scope_digit (s : UserBanScope) : ascii :=
  ascii_of_nat (48 + Z.to_nat (scope_rank s)).
Definition digit_scope (a : ascii) : option UserBanScope :=
  List.find (fun s => bool_decide (scope_digit s = a))
    [YggdrasilAccess; YggdrasilJoin; MinecraftProfileManage; TextureUpload; TextureLibraryInteract].

#[export] Instance ban_externs0 : BanExterns := {|
  scopes_to_json := fun l => Some (of_bytes (List.map scope_digit l));
  scopes_from_json := fun s => mapM digit_scope (bytes s);
  char_count := fun s => Z.of_nat (String.length s)
|}.

#[export] Instance ban_externs0_laws : BanExternLaws ban_externs0.
Proof.
  split; cbn.
  - eauto.
  - intros l s [= <-]. rewrite bytes_of_bytes.
    induction l as [|a l IH]; [done|]. cbn. rewrite IH. by destruct a.
Qed.

(** ** Number conversions and dates *)

#[export] Instance numbers0 : ForgeNumbers := {|
  u64_to_i64 := fun n name => if n <=? I64_MAX then Ok n else Err (name +:+ " is too large")%string;
  u64_to_usize := fun n _ => Ok n
|}.

#[export] Instance numbers0_laws : ForgeNumberLaws numbers0.
Proof. split; cbn; intros n name; [destruct (n <=? I64_MAX); eauto|done]. Qed.

(** The range of a [TimeDelta] and of a [DateTime], in seconds. *)
#[export] Instance chrono0 : Chrono := {|
  datetime_add_days := fun t n =>
    if (n * 86400 * 1000 <=? I64_MAX) && (t + seconds (n * 86400) <=? seconds 8210266876799)
    then Some (t + seconds (n * 86400)) else None
|}.

#[export] Instance chrono0_laws : ChronoLaws chrono0.
Proof.
  split; cbn; intros t n; [intros t'; destruct (_ && _); congruence|].
  intros H. by rewrite (proj2 (Z.leb_gt _ _) H).
Qed.

(** An empty database. *)
Definition no_accounts : AccountTables :=
  mkAccounts (mkTable [] 1) (mkTable [] 1) (mkTable [] 1) (mkTable [] 1) (mkTable [] 1)
    (mkTable [] 1) [].
Definition no_library : LibraryTables :=
  mkLibrary (mkTable [] 1) (mkTable [] 1) (mkTable [] 1) (mkTable [] 1).
Definition no_external : ExternalTables :=
  mkExternal (mkTable [] 1) (mkTable [] 1) (mkTable [] 1) (mkTable [] 1).
Definition empty_db : Db :=
  mkDb (mkTable [] 1) (mkTable [] 1) (mkTable [] 1) (mkTable [] 1) (mkTable [] 1)
       (mkTable [] 1) (mkTable [] 1) (mkTable [] 1) (mkTable [] 1) no_accounts no_library
       no_external (mkTable [] 1).

Definition alice : user :=
  mkUser 1 "7f000001000000000000000000000001" "alice" (Some "alice@example.org"%string) "secret"
         User UserActive false 1 (Some 0) None 0 0.

Definition alex : minecraft_profile :=
  mkProfile 1 1 "0123456789abcdef0123456789abcdef" "Alex" "alex" SourceLocal ModelDefault
            "skin,cape" 0 0 0.

Definition db0 : Db :=
  mkDb (mkTable [alice] 2) (mkTable [alex] 2) (mkTable [] 1) (mkTable [] 1) (mkTable [] 1)
       (mkTable [] 1) (mkTable [] 1) (mkTable [] 1) (mkTable [] 1) no_accounts no_library
       no_external (mkTable [] 1).
Definition world0 : World := mkWorld db0 ([] : list mem_entry) [] 0%nat ∅.

Definition policy0 : RuntimeYggdrasilPolicy :=
  mkPolicy "AsterYggdrasil" true true true true true true 15 2 4194304 16777216 1 1 true 3
           "https://api.mojang.com" [".minecraft.net"%string; ".mojang.com"%string] [] None "" "".
Definition request0 : HttpRequest := mkRequest (Some "launcher"%string) (Some "192.0.2.1"%string) (Some "192.0.2.1"%string).

#[export] Instance config0 : RuntimeConfig := {|
  audit_settings := mkSettings true all_actions_mask;
  Auth.policy := policy0
|}.
