(* ===== verification/BanProofs.v ===== *)
(** * Bans: the life cycle of a ban

    An abstract machine of the ban tables ([ban_commit]: a ban is created,
    updated while active, or revoked, each with its event), the refinement
    of the three handlers to it, and what holds of every state it reaches. *)

From Stdlib Require Import ZArith List Bool Lia Permutation Sorted.
From stdpp Require Import base decidable list strings relations.
From S2P Require Import Prelude Text Errors Types AuditLog World Logic Repos Bans Concrete.

Local Open Scope Z_scope.

(** ** Specification *)
Section Spec.
Context `{BE : BanExterns}.

(** A stored ban: its scopes decode, it expires after it starts, and its
    status records whether it was revoked. *)
Definition ban_ok (b : user_ban) : Prop :=
  (exists l, UserBanScopes.as_vec (ban_scopes_raw b) = Ok l) /\
  (forall e, ban_expires_at b = Some e -> ban_starts_at b < e) /\
  ((ban_status b = BanActive /\ ban_revoked_at b = None) \/
   (ban_status b = BanRevoked /\ ban_revoked_at b <> None)).

Definition bans_wf (d : Db) : Prop :=
  List.NoDup (List.map ban_pk (rows (bans d))) /\
  forall b, In b (rows (bans d)) -> ban_pk b < next_pk (bans d) /\ ban_ok b.

Definition append_event (e : user_ban_event) (d : Db) : Db :=
  set_ban_events (mkTable (rows (ban_events d) ++ [e]) (next_pk (ban_events d) + 1)) d.

(** [e] is the event of the change of [b] (if it existed) into [b']. *)
Definition event_for (ty : UserBanEventType) (actor : Z) (b : option user_ban)
  (b' : user_ban) (e : user_ban_event) : Prop :=
  event_ban_id e = ban_pk b' /\ event_type e = ty /\ actor_user_id e = Some actor /\
  previous_status e = ban_status <$> b /\ next_status e = Some (ban_status b') /\
  next_scopes e = Some (ban_scopes_raw b') /\
  previous_expires_at e = b ≫= ban_expires_at /\ next_expires_at e = ban_expires_at b'.

(** One committed change of the ban tables. *)
Inductive ban_commit (actor : Z) (d : Db)
  : UserBanEventType -> user_ban -> Db -> Prop :=
| commit_created b e :
    ban_pk b = next_pk (bans d) -> ban_status b = BanActive -> ban_ok b ->
    event_for EvCreated actor None b e ->
    ban_commit actor d EvCreated b
      (append_event e
         (set_bans (mkTable (rows (bans d) ++ [b]) (next_pk (bans d) + 1)) d))
| commit_changed ty b f e now :
    In b (rows (bans d)) -> is_effective b now = true ->
    (forall x, ban_pk (f x) = ban_pk x) -> ban_user_id (f b) = ban_user_id b ->
    ban_ok (f b) ->
    (ty = EvUpdated /\ ban_status (f b) = BanActive) \/
    (ty = EvRevoked /\ ban_status (f b) = BanRevoked) ->
    event_for ty actor (Some b) (f b) e ->
    ban_commit actor d ty (f b)
      (append_event e
         (set_bans (with_rows (update_where (fun x => ban_pk x =? ban_pk b) f
                                            (rows (bans d))) (bans d)) d)).

(** Every step of the machine, whoever acts. *)
Definition ban_step (d d' : Db) : Prop := exists actor ty b, ban_commit actor d ty b d'.
Definition ban_reachable : relation Db := rtc ban_step.

(** *** The invariant is inductive *)

Lemma unique_pk_update d b f :
  bans_wf d -> In b (rows (bans d)) ->
  update_where (fun x => ban_pk x =? ban_pk b) f (rows (bans d)) =
  update_where (fun x => ban_pk x =? ban_pk b) (fun _ => f b) (rows (bans d)).
Proof.
  intros [Hnd _] Hin. unfold update_where. apply map_ext_in. intros x Hx.
  destruct (Z.eqb_spec (ban_pk x) (ban_pk b)) as [Hpk|]; [|done].
  by rewrite (NoDup_map_inj_in ban_pk (rows (bans d)) x b).
Qed.

Lemma ban_commit_wf actor d ty b d' :
  bans_wf d -> ban_commit actor d ty b d' -> bans_wf d'.
Proof.
  intros [Hnd Hok] Hc. destruct Hc as [b e Hpk Hst Hb He|ty b f e now Hin Heff Hpk Hu Hb Hty He].
  - split; cbn.
    + rewrite List.map_app. cbn. apply NoDup_ListNoDup, NoDup_app. split; [by apply NoDup_ListNoDup|].
      split; [|apply NoDup_singleton]. intros x Hx%list_elem_of_In Hx2%list_elem_of_singleton.
      apply in_map_iff in Hx as (y & Hy & Hyin). apply Hok in Hyin as [? _]. lia.
    + intros x. rewrite in_app_iff. intros [Hx|[<-|[]]].
      * apply Hok in Hx as [? ?]. split; [lia|done].
      * split; [lia|done].
  - split; cbn.
    + by rewrite update_where_map.
    + rewrite unique_pk_update by done. intros x (y & Hy & ->)%in_update_where.
      destruct (ban_pk y =? ban_pk b); [|by apply Hok].
      rewrite Hpk. split; [by apply Hok|done].
Qed.

Lemma ban_reachable_wf d d' : bans_wf d -> ban_reachable d d' -> bans_wf d'.
Proof.
  intros Hd Hr. induction Hr as [|d1 d2 d3 (actor & ty & b & Hc) _ IH]; [done|].
  apply IH. by eapply ban_commit_wf.
Qed.

(** Events are only appended. *)
Lemma ban_commit_events actor d ty b d' :
  ban_commit actor d ty b d' ->
  exists e, rows (ban_events d') = rows (ban_events d) ++ [e] /\
            event_ban_id e = ban_pk b /\ event_type e = ty /\
            actor_user_id e = Some actor /\ next_status e = Some (ban_status b).
Proof.
  intros [b0 e Hpk Hst Hb (?&?&?&?&?&?)|ty0 b0 f e now Hin Heff Hpk Hu Hb Hty (?&?&?&?&?&?)];
    exists e; cbn; auto.
Qed.

(** A row that is not active is never touched again. *)
Lemma ban_commit_frozen actor d ty b d' x :
  bans_wf d -> ban_commit actor d ty b d' ->
  In x (rows (bans d)) -> ban_status x <> BanActive -> In x (rows (bans d')).
Proof.
  intros Hwf Hc Hx Hst. destruct Hc as [b e|ty b f e now Hin Heff]; cbn.
  - apply in_app_iff. by left.
  - apply in_update_where. exists x. split; [done|].
    destruct (Z.eqb_spec (ban_pk x) (ban_pk b)) as [Hpk|]; [|done].
    rewrite (NoDup_map_inj_in ban_pk (rows (bans d)) x b) in Hst by (done || apply Hwf).
    unfold is_effective in Heff. destruct (ban_status b); done.
Qed.

(** On stored rows the repository's SQL condition and the service's
    predicate agree. *)
Lemma effective_agree b now :
  ban_ok b -> BanRepo.effective_condition now b = is_effective b now.
Proof.
  intros (_ & _ & Hst). unfold BanRepo.effective_condition, is_effective, is_none.
  destruct Hst as [[-> ->]|[-> _]]; [by rewrite eqb_refl|done].
Qed.
End Spec.

(** ** The handlers refine the machine *)
Section Refinement.
Context `{EN : Env} `{CB : CacheBackend} `{BL : BanExternLaws}.
Context {TM : TxnManager} `{TL : !TxnLaws TM}.

(** What a handler may have done when it returns: a success is one commit of
    the machine, reported as [UserBanInfo]; any other outcome changed no
    table. The cache and the audit log are not its business. *)
Definition committed (actor : Z) (ty : UserBanEventType) (w : World)
  (r : outcome AsterError.t UserBanInfo) (w' : World) : Prop :=
  cache w' = cache w /\ audit_log w' = audit_log w /\
  match r with
  | Ok info => ban_commit actor (db w) ty (info_row info) (db w')
  | _ => db w' = db w
  end.

Lemma committed_same actor ty w w1 r w' :
  same w w1 -> committed actor ty w1 r w' -> committed actor ty w r w'.
Proof.
  intros (Hdb & Hc & [Ha _] & _) (Hc' & Ha' & Hr). unfold committed.
  rewrite <- Hc, <- Ha, <- Hdb. auto.
Qed.

(** A read-only statement in front of the commit may fail on its own. *)
Lemma committed_read {A} (c : M AsterError.t A) `{!Reads c}
  (k : A -> M AsterError.t UserBanInfo) actor ty w :
  (forall a w1, c w = (Ok a, w1) -> same w w1 -> wp (k a) (committed actor ty w1) w1) ->
  wp (bind c k) (committed actor ty w) w.
Proof.
  intros Hk. apply wp_bind, wp_reads; [done|]. intros r w1 Hr Hs.
  destruct r as [a|e|m]; cbn.
  - eapply wp_mono; [by apply Hk|]. intros r' w'. by apply committed_same.
  - destruct Hs as (? & ? & [? _] & _). split; [done|]. split; done.
  - destruct Hs as (? & ? & [? _] & _). split; [done|]. split; done.
Qed.

(** A transaction whose body, if it succeeds, is one commit. *)
Lemma committed_txn (body : M AsterError.t user_ban) actor ty w :
  (forall w0, same w w0 ->
     wp body (fun r w1 =>
       cache w1 = cache w0 /\ audit_log w1 = audit_log w0 /\
       match r with Ok b => ban_commit actor (db w0) ty b (db w1) | _ => True end) w0) ->
  wp (bind (with_transaction body) ban_info) (committed actor ty w) w.
Proof.
  intros Hbody. apply wp_bind, wp_with_transaction.
  - intros e w' (? & ? & [? _] & _). split; [done|]. split; done.
  - intros w0 H0. eapply wp_mono; [by apply Hbody|].
    pose proof H0 as (Hdb0 & Hc0 & [Ha0 _] & _).
    intros [b|e|m] w1 (Hc & Ha & Hr).
    + split.
      * intros w' (Hdb & Hc' & [Ha' _] & _). cbn [wp_next]. unfold ban_info. repeat wp_step.
        unfold committed. cbn. rewrite Hc', Ha', Hdb, <- Hdb0.
        split; [congruence|]. split; [congruence|done].
      * intros e w' (Hdb & Hc' & [Ha' _] & _). cbn in *. split; [congruence|]. split; congruence.
    + intros w' (Hdb & Hc' & [Ha' _] & _). cbn in *. split; [congruence|]. split; congruence.
    + intros w' (Hdb & Hc' & [Ha' _] & _). cbn in *. split; [congruence|]. split; congruence.
Qed.

Lemma normalize_scopes_ok scopes l :
  normalize_scopes scopes = Ok l ->
  scopes <> [] /\ StronglySorted UserBanScopes.scope_lt l /\ forall s, In s l <-> In s scopes.
Proof.
  unfold normalize_scopes. destruct (UserBanScopes.new scopes) as [raw|e|m] eqn:Hn; [|done|done].
  apply UserBanScopes.new_as_vec in Hn as (l' & Hn & Hv). rewrite Hv. intros [= <-].
  pose proof (UserBanScopes.normalize_ok _ _ Hn) as (Hne & Hs & Hin).
  split; [|done]. intros ->. destruct l' as [|a l']; [done|].
  destruct (proj1 (Hin a)); by left.
Qed.

Lemma map_scope_error_ok {A} (o : outcome _ A) a :
  map_scope_error o = Ok a -> o = Ok a.
Proof. destruct o; cbn; congruence. Qed.

Lemma new_decodes scopes raw :
  UserBanScopes.new scopes = Ok raw -> exists l, UserBanScopes.as_vec raw = Ok l.
Proof. intros (l & _ & H)%UserBanScopes.new_as_vec. eauto. Qed.

Lemma validate_time_range_ok s e u :
  validate_time_range s e = Ok u -> forall t, e = Some t -> s < t.
Proof.
  unfold validate_time_range. destruct e as [t0|]; [|by intros _ t].
  destruct (Z.leb_spec t0 s); [done|]. by intros _ t [= <-].
Qed.

#[export] Instance reads_load_user_ban id : Reads (load_user_ban id).
Proof. unfold load_user_ban. apply _. Qed.

Lemma load_user_ban_ok id w b w' :
  load_user_ban id w = (Ok b, w') -> In b (rows (bans (db w))) /\ ban_pk b = id /\ same w w'.
Proof.
  unfold load_user_ban. destruct (id <=? 0); [done|]. unfold BanRepo.find_by_id.
  intros H. inv_ok H. destruct (find_row _ _) as [b'|] eqn:Hf; [|done].
  apply find_row_some in Hf as [Hin Hpk]. injection Hr0 as <-.
  split; [done|]. split; [lia|apply same_tick].
Qed.

Lemma create_ban_refines actor input w :
  wp (create_user_ban actor input) (committed actor EvCreated w) w.
Proof.
  unfold create_user_ban.
  apply committed_read; [apply _|]. intros u w1 _ _.
  apply committed_read; [apply _|]. intros starts_at w2 _ _.
  apply committed_read; [apply _|]. intros [] w3 [Hrange _]%lift_ok _.
  do 4 (apply committed_read; [apply _|]; intros ? ? [? ->]%lift_ok _).
  apply committed_read; [apply _|]. intros [] w5 _ _.
  apply committed_txn. intros w0 _. unfold create_ban_txn.
  apply wp_bind, wp_lift.
  destruct (map_scope_error _) as [raw|e|m] eqn:Hraw; cbn [wp_next]; [|done|done].
  apply map_scope_error_ok in Hraw.
  unfold BanRepo.create. repeat wp_step.
  apply wp_db_insert; [done|]. intros Hf1 r _. cbn [wp_next]. repeat wp_step.
  unfold BanRepo.create_event. repeat wp_step.
  apply wp_db_insert; [done|]. intros Hf2 ev _. cbn [wp_next]. repeat wp_step.
  split; [done|]. split; [done|].
  refine (commit_created actor (db w0) r ev _ _ _ _); [done|done| |done].
  split; [by eapply new_decodes|]. split; [|by left].
  cbn. intros t Ht. by eapply validate_time_range_ok.
Qed.
(** A change of an active ban inside its transaction: the row written by
    [f], read back, and the event. *)
Lemma changed_commit actor ty b f w0 ev now :
  In b (rows (bans (db w0))) -> is_effective b now = true ->
  (forall x, ban_pk (f x) = ban_pk x) -> ban_user_id (f b) = ban_user_id b ->
  ban_ok (f b) ->
  (ty = EvUpdated /\ ban_status (f b) = BanActive) \/
  (ty = EvRevoked /\ ban_status (f b) = BanRevoked) ->
  event_for ty actor (Some b) (f b) ev ->
  ban_commit actor (db w0) ty (f b)
    (append_event ev
       (set_bans (with_rows (update_where (fun x => ban_pk x =? ban_pk b) f
                                          (rows (bans (db w0)))) (bans (db w0))) (db w0))).
Proof. intros. by apply commit_changed with (now := now). Qed.

Lemma is_effective_active b now : is_effective b now = true -> ban_status b = BanActive.
Proof. unfold is_effective. by destruct (ban_status b). Qed.

Lemma update_ban_refines actor ban_id input w :
  bans_wf (db w) -> wp (update_user_ban actor ban_id input) (committed actor EvUpdated w) w.
Proof.
  intros Hwf. unfold update_user_ban.
  apply committed_read; [apply _|]. intros b w1 (Hin & Hpk & Hs1)%load_user_ban_ok _.
  apply committed_read; [apply _|]. intros now w2 _ Hs2.
  apply committed_read; [apply _|]. intros [] w3 [Heff ->]%when_ok_ok _.
  rewrite negb_false_iff in Heff.
  apply committed_read; [apply _|]. intros prev w4 [Hprev ->]%lift_ok _.
  apply committed_read; [apply _|]. intros next w4 [Hnext ->]%lift_ok _.
  apply committed_read; [apply _|]. intros [] w4 [Hrange ->]%lift_ok _.
  apply committed_read; [apply _|]. intros [] w5 _ Hs5.
  do 4 (apply committed_read; [apply _|]; intros ? ? [? ->]%lift_ok _).
  apply committed_txn. intros w0 Hs0. unfold update_ban_txn, BanRepo.update.
  assert (Hdb : db w0 = db w).
  { destruct Hs1 as (<- & _), Hs2 as (<- & _), Hs5 as (<- & _), Hs0 as (<- & _). done. }
  repeat wp_step. apply wp_db_update; [done|]. intros r Hf1 Hr Hrpk. cbn [wp_next].
  assert (r = b) as ->.
  { apply (NoDup_map_inj_in ban_pk (rows (bans (db w)))); [apply Hwf| |done|done].
    cbn in Hr. by rewrite Hdb in Hr. }
  apply wp_bind, wp_lift.
  destruct (map_scope_error (UserBanScopes.new prev)) as [raw|e|m]; cbn [wp_next]; [|done|done].
  unfold BanRepo.create_event. repeat wp_step.
  apply wp_db_insert; [done|]. intros Hf2 ev _. cbn [wp_next]. repeat wp_step.
  split; [done|]. split; [done|].
  destruct (Hwf) as [_ Hok]. destruct (Hok b Hin) as [_ (Hdec & _ & Hst)].
  pose proof (is_effective_active _ _ Heff) as Hact.
  eapply (changed_commit actor EvUpdated b _ w0 ev now); try done.
  - split.
    { cbn. destruct (eqb next prev); cbn; [done|].
      match goal with Hn : map_scope_error (UserBanScopes.new next) = Ok _ |- _ =>
        apply map_scope_error_ok in Hn; by eapply new_decodes end. }
    split; [|cbn; destruct Hst as [[? ?]|[? ?]]; [by left|congruence]].
    intros e He. eapply validate_time_range_ok in Hrange; [exact Hrange|]. revert He. cbn.
    destruct (eqb _ (ban_expires_at b)) eqn:Heq; cbn; [|done].
    rewrite eqb_true in Heq. by rewrite Heq.
  - left. by split.
Qed.

Lemma revoke_ban_refines actor ban_id note w :
  bans_wf (db w) -> wp (revoke_user_ban actor ban_id note) (committed actor EvRevoked w) w.
Proof.
  intros Hwf. unfold revoke_user_ban.
  apply committed_read; [apply _|]. intros b w1 (Hin & Hpk & Hs1)%load_user_ban_ok _.
  apply committed_read; [apply _|]. intros now w2 _ Hs2.
  apply committed_read; [apply _|]. intros [] w3 [Heff ->]%when_ok_ok _.
  rewrite negb_false_iff in Heff.
  apply committed_read; [apply _|]. intros n w3 [_ ->]%lift_ok _.
  apply committed_read; [apply _|]. intros prev w4 [Hprev ->]%lift_ok _.
  apply committed_read; [apply _|]. intros revoked_at w5 _ Hs5.
  apply committed_txn. intros w0 Hs0. unfold revoke_ban_txn, BanRepo.revoke.
  assert (Hdb : db w0 = db w).
  { destruct Hs1 as (<- & _), Hs2 as (<- & _), Hs5 as (<- & _), Hs0 as (<- & _). done. }
  repeat wp_step. apply wp_db_update; [done|]. intros r Hf1 Hr Hrpk. cbn [wp_next].
  assert (r = b) as ->.
  { apply (NoDup_map_inj_in ban_pk (rows (bans (db w)))); [apply Hwf| |done|done].
    cbn in Hr. by rewrite Hdb in Hr. }
  apply wp_bind, wp_lift.
  destruct (map_scope_error (UserBanScopes.new prev)) as [raw|e|m]; cbn [wp_next]; [|done|done].
  unfold BanRepo.create_event. repeat wp_step.
  apply wp_db_insert; [done|]. intros Hf2 ev _. cbn [wp_next]. repeat wp_step.
  split; [done|]. split; [done|].
  destruct (Hwf) as [_ Hok]. destruct (Hok b Hin) as [_ (Hdec & Hexp & _)].
  eapply (changed_commit actor EvRevoked b _ w0 ev now); try done.
  - split; [done|]. split; [done|]. by right.
  - by right.
Qed.
End Refinement.

(** ** Histories of operations *)
Section Histories.
Context `{EN : Env} `{CB : CacheBackend} `{BL : BanExternLaws}.
Context {TM : TxnManager} `{TL : !TxnLaws TM}.

Inductive BanOp : Type :=
| OpCreate (input : CreateUserBanInput)
| OpUpdate (ban_id : Z) (input : UpdateUserBanInput)
| OpRevoke (ban_id : Z) (note : option string).

Definition op_type (op : BanOp) : UserBanEventType :=
  match op with OpCreate _ => EvCreated | OpUpdate _ _ => EvUpdated | OpRevoke _ _ => EvRevoked end.

Definition run_ban_op (actor : Z) (op : BanOp) : M AsterError.t UserBanInfo :=
  match op with
  | OpCreate input => create_user_ban actor input
  | OpUpdate id input => update_user_ban actor id input
  | OpRevoke id note => revoke_user_ban actor id note
  end.

(** The world after a sequence of requests, whatever each one answered. *)
Fixpoint run_ban_ops (ops : list (Z * BanOp)) (w : World) : World :=
  match ops with
  | [] => w
  | (actor, op) :: ops => run_ban_ops ops (snd (run_ban_op actor op w))
  end.

Lemma run_ban_op_committed actor op w :
  bans_wf (db w) -> wp (run_ban_op actor op) (committed actor (op_type op) w) w.
Proof.
  intros Hwf. destruct op; cbn.
  - apply create_ban_refines.
  - by apply update_ban_refines.
  - by apply revoke_ban_refines.
Qed.

Lemma run_ban_op_reachable actor op w :
  bans_wf (db w) -> ban_reachable (db w) (db (snd (run_ban_op actor op w))).
Proof.
  intros Hwf. pose proof (run_ban_op_committed actor op w Hwf) as (_ & _ & H).
  destruct (run_ban_op actor op w) as [[info|e|m] w']; cbn in *.
  - apply rtc_once. by exists actor, (op_type op), (info_row info).
  - by rewrite H.
  - by rewrite H.
Qed.

Lemma run_ban_ops_reachable ops w :
  bans_wf (db w) -> ban_reachable (db w) (db (run_ban_ops ops w)).
Proof.
  revert w. induction ops as [|[actor op] ops IH]; intros w Hwf; cbn; [apply rtc_refl|].
  pose proof (run_ban_op_reachable actor op w Hwf) as Hr.
  etransitivity; [exact Hr|]. apply IH. by eapply ban_reachable_wf.
Qed.

(** The event log only grows; rows that are not active are kept as they are. *)
Lemma ban_reachable_log d d' :
  ban_reachable d d' -> exists l, rows (ban_events d') = rows (ban_events d) ++ l.
Proof.
  induction 1 as [d|d1 d2 d3 (actor & ty & b & Hc) _ [l IH]].
  - exists []. by rewrite app_nil_r.
  - apply ban_commit_events in Hc as (e & He & _). exists (e :: l).
    by rewrite IH, He, <- app_assoc.
Qed.

Lemma ban_reachable_frozen d d' x :
  ban_reachable d d' -> bans_wf d -> In x (rows (bans d)) -> ban_status x <> BanActive ->
  In x (rows (bans d')).
Proof.
  induction 1 as [d|d1 d2 d3 (actor & ty & b & Hc) _ IH]; [done|]. intros Hwf Hx Hst.
  apply IH; [by eapply ban_commit_wf|by eapply ban_commit_frozen|done].
Qed.

(** *** The question the protocol handlers ask *)
Lemma is_user_banned_ok user_id scope w r w' :
  is_user_banned user_id scope w = (Ok r, w') ->
  same w w' /\
  r = is_some (find_row (fun b => UserBanScopes.contains (ban_scopes_raw b) scope)
                 (BanRepo.effective_for_user user_id (clock (step w)) (db w))).
Proof.
  unfold is_user_banned, active_user_ban_for_scope, BanRepo.find_effective_for_scope.
  intros H. inv_ok H. split; [|done]. repeat split; cbn; lia.
Qed.

Lemma banned_iff user_id scope now d :
  (forall b, In b (rows (bans d)) -> ban_ok b) ->
  is_some (find_row (fun b => UserBanScopes.contains (ban_scopes_raw b) scope)
                    (BanRepo.effective_for_user user_id now d)) = true <->
  exists b, In b (rows (bans d)) /\ ban_user_id b = user_id /\ is_effective b now = true /\
            UserBanScopes.contains (ban_scopes_raw b) scope = true.
Proof.
  intros Hok. rewrite is_some_true. unfold BanRepo.effective_for_user. split.
  - intros (b & Hb). apply find_row_some in Hb as [Hin Hc].
    rewrite in_sort_by, in_rows_where in Hin. destruct Hin as [Hin [Hu He]%andb_true_iff].
    exists b. rewrite <- effective_agree by auto. repeat split; auto. lia.
  - intros (b & Hin & Hu & He & Hc).
    destruct (find_row _ _) as [b'|] eqn:Hf; [eauto|exfalso].
    rewrite find_row_none in Hf. rewrite (Hf b) in Hc; [done|].
    rewrite in_sort_by, in_rows_where. split; [done|].
    rewrite effective_agree, He by auto. lia.
Qed.

#[export] Instance reads_find_effective u s now : Reads (BanRepo.find_effective_for_scope u s now).
Proof. unfold BanRepo.find_effective_for_scope. apply _. Qed.

#[export] Instance reads_is_user_banned u s : Reads (is_user_banned u s).
Proof. unfold is_user_banned, active_user_ban_for_scope. apply _. Qed.

#[export] Instance reads_reject_duplicates u l x : Reads (reject_duplicate_effective_scopes u l x).
Proof. unfold reject_duplicate_effective_scopes. apply _. Qed.

Lemma reject_duplicates_ok user_id scopes w u w' :
  reject_duplicate_effective_scopes user_id scopes None w = (Ok u, w') ->
  forall s, In s scopes -> exists n, (step w <= n <= step w')%nat /\
    find_row (fun b => UserBanScopes.contains (ban_scopes_raw b) s)
             (BanRepo.effective_for_user user_id (clock n) (db w)) = None.
Proof.
  intros H s Hs.
  eapply for_each_reads_ok in H as (w1 & w2 & S1 & H & S2); [|apply _|exact Hs].
  apply bind_ok in H as (now & wa & Hnow & H). inv_ok Hnow.
  apply bind_ok in H as (ban & wb & Hf & [Hn ->]%when_ok_ok).
  unfold BanRepo.find_effective_for_scope in Hf. inv_ok Hf.
  exists (step w1). apply same_step in S1 as L1. apply same_step in S2 as L2. cbn in L2.
  split; [lia|]. apply same_db in S1 as D1. cbn in Hn. rewrite D1 in Hn.
  by destruct (find_row _ _).
Qed.

Lemma create_ban_txn_ok actor input l reason public note starts_at w ban w' :
  create_ban_txn actor input l reason public note starts_at w = (Ok ban, w') ->
  exists raw, UserBanScopes.new l = Ok raw /\
    (ban_user_id ban = target_user_id input /\ ban_scopes_raw ban = raw /\
     ban_expires_at ban = in_expires_at input /\ ban_starts_at ban = starts_at) /\
    (step w <= step w')%nat.
Proof.
  unfold create_ban_txn. intros H.
  apply bind_ok in H as (raw & wc & [Hraw ->]%lift_ok & H).
  apply bind_ok in H as (ban' & wd & Hcr & H).
  apply bind_ok in H as (ev & we & Hev & H). inv_ok H.
  unfold BanRepo.create in Hcr. apply bind_ok in Hcr as (now & wf & Hnow & Hcr).
  apply db_insert_ok in Hcr as (-> & _ & ->). inv_ok Hnow.
  unfold BanRepo.create_event in Hev. apply bind_ok in Hev as (now & wf & Hnow & Hev).
  apply db_insert_ok in Hev as (-> & _ & ->). inv_ok Hnow.
  exists raw. split; [by apply map_scope_error_ok|]. cbn. split; [done|lia].
Qed.

(** What a successful creation stored and checked. *)
Lemma create_user_ban_ok actor input w info w' :
  create_user_ban actor input w = (Ok info, w') ->
  exists l raw,
    normalize_scopes (in_scopes input) = Ok l /\ UserBanScopes.new l = Ok raw /\
    ban_user_id (info_row info) = target_user_id input /\
    ban_scopes_raw (info_row info) = raw /\
    ban_expires_at (info_row info) = in_expires_at input /\
    (match in_starts_at input with
     | Some t => ban_starts_at (info_row info) = t
     | None => exists n, (step w <= n <= step w')%nat /\ ban_starts_at (info_row info) = clock n
     end) /\
    (forall s, In s l -> exists n, (step w <= n <= step w')%nat /\
       find_row (fun b => UserBanScopes.contains (ban_scopes_raw b) s)
                (BanRepo.effective_for_user (target_user_id input) (clock n) (db w)) = None).
Proof.
  unfold create_user_ban. intros H. 
  apply bind_ok in H as (u & w1 & H0 & H).
  assert (S1 : same w w1) by (unfold UserRepo.find_by_id in H0; inv_ok H0; apply same_tick).
  apply bind_ok in H as (starts_at & w2 & Hstart & H).
  assert (S2 : same w1 w2 /\ match in_starts_at input with
     | Some t => starts_at = t | None => starts_at = clock (step w1) end).
  { destruct (in_starts_at input); inv_ok Hstart; split; auto using same_refl, same_tick. }
  destruct S2 as [S2 Hst].
  apply bind_ok in H as (u2 & w3 & [_ ->]%lift_ok & H).
  apply bind_ok in H as (reason & w4 & [_ ->]%lift_ok & H).
  apply bind_ok in H as (public & w5 & [_ ->]%lift_ok & H).
  apply bind_ok in H as (note & w6 & [_ ->]%lift_ok & H).
  apply bind_ok in H as (l & w7 & [Hl ->]%lift_ok & H).
  apply bind_ok in H as (u3 & w8 & Hrej & H).
  pose proof (reads_run _ _ _ _ Hrej) as S3.
  apply bind_ok in H as (ban & w9 & Htx & H).
  apply with_transaction_ok in Htx as (wa & wb & Sa & Hbody & Sb).
  unfold ban_info in H. inv_ok H. cbn [info_row ban_info_at].
  apply create_ban_txn_ok in Hbody as (raw & Hraw & (Hu & Hr & He & Hs) & Lbody).
  apply same_step in S1 as L1. apply same_step in S2 as L2. apply same_step in S3 as L3.
  apply same_step in Sa as La. apply same_step in Sb as Lb. cbn in Lb |- *.
  exists l, raw. split; [done|]. split; [done|].
  split; [done|]. split; [done|]. split; [done|]. rewrite Hs. split.
  - destruct (in_starts_at input); [done|]. exists (step w1). split; [lia|done].
  - intros s Hin. destruct (reject_duplicates_ok _ _ _ _ _ Hrej s Hin) as (n & Hn & Hf).
    exists n. split; [lia|]. by rewrite <- (same_db _ _ S1), <- (same_db _ _ S2).
Qed.
End Histories.

(** ** The properties *)
Section Properties.
Context `{EN : Env} `{CB : CacheBackend} `{BL : BanExternLaws}.
Context {TM : TxnManager} `{TL : !TxnLaws TM}.

(** An administrator's request on bans (create, update or revoke) is
    all or nothing. If it answers with a ban, the ban tables made exactly
    one step of the life-cycle machine: the row and its event of the right
    kind, by the right actor, with the statuses before and after. If it
    fails or panics at any point, no table has changed. The cache and the
    audit log are untouched. *)
Theorem ban_request_atomic actor op w r w' :
  bans_wf (db w) -> run_ban_op actor op w = (r, w') ->
  committed actor (op_type op) w r w'.
Proof. intros Hwf Hrun. by eapply wp_run; [apply run_ban_op_committed|]. Qed.

(** after any sequence of ban requests by any actors, with any failures
    in between, the ban tables are reachable in the life-cycle machine, are
    well formed (unique keys, decodable non-empty scopes, expiry after
    start, status consistent with the revocation time), and the event log
    still starts with every event it had. *)
Theorem ban_history_sound ops w :
  bans_wf (db w) ->
  ban_reachable (db w) (db (run_ban_ops ops w)) /\ bans_wf (db (run_ban_ops ops w)) /\
  exists l, rows (ban_events (db (run_ban_ops ops w))) = rows (ban_events (db w)) ++ l.
Proof.
  intros Hwf. pose proof (run_ban_ops_reachable ops w Hwf) as Hr.
  split; [done|]. split; [by eapply ban_reachable_wf|by eapply ban_reachable_log].
Qed.

(** Revocation is final. Whatever requests follow, a revoked ban keeps
    its row unchanged and is not in effect at any later (or earlier) time. *)
Theorem revoked_ban_is_final ops w b :
  bans_wf (db w) -> In b (rows (bans (db w))) -> ban_status b = BanRevoked ->
  In b (rows (bans (db (run_ban_ops ops w)))) /\ forall now, is_effective b now = false.
Proof.
  intros Hwf Hin Hst. split.
  - eapply ban_reachable_frozen; [by apply run_ban_ops_reachable|done|done|congruence].
  - intros now. unfold is_effective. by rewrite Hst.
Qed.

(** C29: the check the protocol handlers make answers exactly whether the user
    has a stored ban that is in effect by the service's own predicate at the
    time of the check and whose scopes contain the one asked for, and it
    changes nothing. *)
Theorem is_user_banned_correct user_id scope w r w' :
  bans_wf (db w) -> is_user_banned user_id scope w = (Ok r, w') ->
  same w w' /\
  (r = true <->
   exists b, In b (rows (bans (db w))) /\ ban_user_id b = user_id /\
             is_effective b (clock (step w)) = true /\
             UserBanScopes.contains (ban_scopes_raw b) scope = true).
Proof.
  intros [_ Hok] [Hs ->]%is_user_banned_ok. split; [done|]. apply banned_iff.
  intros b Hb. by apply Hok.
Qed.

(** A ban takes effect when it is created. After a successful creation,
    while the ban tables stay as they are and the clock is within the ban's
    time range, a working database answers "banned" for every requested
    scope of the target user. *)
Theorem created_ban_takes_effect actor input w info w' w2 scope :
  bans_wf (db w) -> create_user_ban actor input w = (Ok info, w') ->
  bans (db w2) = bans (db w') -> db_fault (S (step w2)) = None ->
  ban_starts_at (info_row info) <= clock (step w2) ->
  (forall e, in_expires_at input = Some e -> clock (step w2) < e) ->
  In scope (in_scopes input) ->
  fst (is_user_banned (target_user_id input) scope w2) = Ok true.
Proof.
  intros Hwf Hrun Hb Hnf Hstart Hexp Hscope.
  pose proof (create_ban_refines actor input w) as Hc. eapply wp_run in Hc; [|exact Hrun].
  destruct Hc as (_ & _ & Hc). pose proof (ban_commit_wf _ _ _ _ _ Hwf Hc) as [_ Hok].
  apply create_user_ban_ok in Hrun as (l & raw & Hl & Hraw & Hu & Hr & He & _).
  unfold is_user_banned, active_user_ban_for_scope, BanRepo.find_effective_for_scope,
    bind, utc_now, db_query, db_exec. cbn. rewrite Hnf. cbn. f_equal.
  rewrite <- Hb in Hok. apply banned_iff; [intros b0 Hb0; by apply Hok|].
  exists (info_row info). rewrite Hb. split; [|split; [done|split]].
  - inversion Hc; subst; cbn in *; [rewrite in_app_iff; cbn; auto|].
    match goal with H : _ \/ _ |- _ => destruct H as [[? _]|[? _]]; discriminate end.
  - assert (Hst : ban_status (info_row info) = BanActive /\ ban_revoked_at (info_row info) = None).
    { inversion Hc as [? ? ? Hact (_ & _ & [?|[? _]])|? ? ? ? ? ? ? ? ? ? [[? _]|[? _]]];
        subst; try discriminate; [done|congruence]. }
    destruct Hst as [Hst Hrv]. unfold is_effective. rewrite Hst, Hrv, He. cbn.
    destruct (in_expires_at input) as [e|]; cbn; [specialize (Hexp e eq_refl)|]; lia.
  - rewrite Hr. apply (UserBanScopes.new_contains _ _ _ Hraw).
    by apply (normalize_scopes_ok _ _ Hl).
Qed.

(** A creation is refused while a ban for one of its scopes is in effect:
    if it succeeds, then for every requested scope there was a moment during
    the request at which no stored ban of the user in effect contained it. *)
Theorem create_ban_no_overlap actor input w info w' scope :
  bans_wf (db w) -> create_user_ban actor input w = (Ok info, w') ->
  In scope (in_scopes input) ->
  exists n, (step w <= n <= step w')%nat /\
    forall b, In b (rows (bans (db w))) -> ban_user_id b = target_user_id input ->
      UserBanScopes.contains (ban_scopes_raw b) scope = true ->
      is_effective b (clock n) = false.
Proof.
  intros [_ Hok] Hrun Hscope.
  apply create_user_ban_ok in Hrun as (l & raw & Hl & _ & _ & _ & _ & _ & Hno).
  destruct (Hno scope) as (n & Hn & Hf); [by apply (normalize_scopes_ok _ _ Hl)|].
  exists n. split; [done|]. intros b Hin Hu Hcn.
  destruct (is_effective b (clock n)) eqn:He; [|done].
  assert (is_some (find_row (fun b => UserBanScopes.contains (ban_scopes_raw b) scope)
            (BanRepo.effective_for_user (target_user_id input) (clock n) (db w))) = true) as Hs.
  { apply banned_iff; [intros b0 Hb0; by apply Hok|]. by exists b. }
  by rewrite Hf in Hs.
Qed.

(** what is stored for a ban's scopes reads back as the set that was
    requested, sorted and without duplicates, whatever the order and
    multiplicity of the request; only an empty request is refused. *)
Theorem ban_scopes_roundtrip scopes :
  match UserBanScopes.new scopes with
  | Ok raw =>
      exists l, UserBanScopes.as_vec raw = Ok l /\
                StronglySorted UserBanScopes.scope_lt l /\
                (forall s, In s l <-> In s scopes) /\
                (forall s, UserBanScopes.contains raw s = true <-> In s scopes)
  | Err _ => scopes = []
  | Panic _ => False
  end.
Proof.
  destruct (UserBanScopes.new scopes) as [raw|e|m] eqn:Hn.
  - pose proof (UserBanScopes.new_as_vec _ _ Hn) as (l & Hl & Hv).
    apply UserBanScopes.normalize_ok in Hl as (_ & Hs & Hin).
    exists l. split; [done|]. split; [done|]. split; [done|].
    intros s. by apply UserBanScopes.new_contains.
  - destruct scopes as [|s scopes]; [done|].
    destruct (UserBanScopes.new_ok (s :: scopes)) as (raw & Hr); [done|congruence].
  - destruct scopes as [|s scopes]; [done|].
    destruct (UserBanScopes.new_ok (s :: scopes)) as (raw & Hr); [done|congruence].
Qed.
End Properties.

(** ** Instances of the properties *)

Definition ban_input : CreateUserBanInput :=
  mkCreateInput 1 [TextureUpload; YggdrasilAccess; TextureUpload] " griefing " None None None
                (Some (seconds 2000)).
Definition banned_world : World := snd (create_user_ban 9 ban_input world0).
Definition revoked_world : World := snd (run_ban_op 9 (OpRevoke 1 None) banned_world).

Lemma world0_bans_wf : bans_wf (db world0).
Proof. split; [constructor|done]. Qed.

Definition ok_or_default {E A} (d : A) (r : outcome E A) : A :=
  match r with Ok a => a | _ => d end.
Definition no_info : UserBanInfo :=
  mkBanInfo (mkBan 0 0 "" BanActive "" None None None 0 None None None None 0 0) [] BanActive false.
Definition banned_info : UserBanInfo :=
  ok_or_default no_info (fst (create_user_ban 9 ban_input world0)).

Lemma banned_run : create_user_ban 9 ban_input world0 = (Ok banned_info, banned_world).
Proof. vm_compute. reflexivity. Qed.

Lemma banned_world_wf : bans_wf (db banned_world).
Proof.
  destruct (ban_commit_wf 9 (db world0) EvCreated (info_row banned_info) (db banned_world)) as [? ?];
    [apply world0_bans_wf| |by split].
  pose proof (create_ban_refines 9 ban_input world0) as H.
  eapply wp_run in H; [|exact banned_run]. apply H.
Qed.

Lemma ban_request_atomic_witness :
  committed 9 EvRevoked banned_world (fst (run_ban_op 9 (OpRevoke 1 None) banned_world))
    revoked_world.
Proof.
  apply (ban_request_atomic 9 (OpRevoke 1 None) banned_world); [apply banned_world_wf|].
  apply surjective_pairing.
Defined.

Lemma ban_history_sound_witness :
  bans_wf (db (run_ban_ops [(9, OpCreate ban_input); (9, OpRevoke 1 None)] world0)).
Proof.
  apply (ban_history_sound [(9, OpCreate ban_input); (9, OpRevoke 1 None)] world0).
  apply world0_bans_wf.
Defined.

Definition revoked_row : user_ban := List.hd (info_row no_info) (rows (bans (db revoked_world))).

Lemma revoked_world_wf : bans_wf (db revoked_world).
Proof.
  exact (ban_reachable_wf _ _ banned_world_wf
           (run_ban_op_reachable 9 (OpRevoke 1 None) banned_world banned_world_wf)).
Qed.

Lemma revoked_ban_is_final_witness :
  ban_status revoked_row = BanRevoked /\
  In revoked_row (rows (bans (db (run_ban_ops [(9, OpCreate ban_input)] revoked_world)))).
Proof.
  split; [vm_compute; reflexivity|].
  apply (revoked_ban_is_final [(9, OpCreate ban_input)] revoked_world revoked_row);
    [apply revoked_world_wf|vm_compute; by left|vm_compute; reflexivity].
Defined.

Lemma is_user_banned_correct_witness :
  exists b, In b (rows (bans (db banned_world))) /\ ban_user_id b = 1 /\
    is_effective b (clock (step banned_world)) = true /\
    UserBanScopes.contains (ban_scopes_raw b) TextureUpload = true.
Proof.
  apply (is_user_banned_correct 1 TextureUpload banned_world true
           (snd (is_user_banned 1 TextureUpload banned_world)) banned_world_wf);
    [vm_compute; reflexivity|done].
Defined.

Lemma created_ban_takes_effect_witness :
  fst (is_user_banned 1 YggdrasilAccess banned_world) = Ok true.
Proof.
  apply (created_ban_takes_effect 9 ban_input world0 banned_info banned_world banned_world
           YggdrasilAccess world0_bans_wf banned_run); try done.
  - intros e [= <-]. vm_compute. reflexivity.
  - cbn. auto.
Defined.

Lemma create_ban_no_overlap_witness :
  exists n, (step world0 <= n <= step banned_world)%nat /\
    forall b, In b (rows (bans (db world0))) -> ban_user_id b = 1 ->
      UserBanScopes.contains (ban_scopes_raw b) TextureUpload = true ->
      is_effective b (clock n) = false.
Proof.
  apply (create_ban_no_overlap 9 ban_input world0 banned_info banned_world TextureUpload
           world0_bans_wf banned_run).
  cbn. auto.
Defined.

Lemma ban_scopes_roundtrip_witness :
  exists raw, UserBanScopes.new [TextureUpload; YggdrasilAccess; TextureUpload] = Ok raw /\
    exists l, UserBanScopes.as_vec raw = Ok l /\ StronglySorted UserBanScopes.scope_lt l.
Proof.
  pose proof (ban_scopes_roundtrip [TextureUpload; YggdrasilAccess; TextureUpload]) as H.
  destruct (UserBanScopes.new _) as [raw|e|m].
  - exists raw. split; [done|]. destruct H as (l & Hl & Hs & _). by exists l.
  - done.
  - done.
Defined.
