(* ===== verification/TokenSpec.v ===== *)
(** * Tokens: the abstract machine, and the statements that implement it

    What may happen to the token table ([token_step]: a token is issued,
    live tokens are revoked, dead tokens are deleted), the table's
    invariant, and the coherence of the token cache with it. *)

From Stdlib Require Import ZArith List Bool Lia Permutation Sorted.
From stdpp Require Import base decidable list strings relations.
From S2P Require Import Prelude Text Errors Types AuditLog World Logic Repos Bans Tokens.

Local Open Scope Z_scope.
Import TokenRepo TokenCache.

Section Spec.
Context `{CB : CacheBackend}.

(** Keys and hashes identify a row. *)
Definition tokens_wf (d : Db) : Prop :=
  List.NoDup (List.map token_pk (rows (tokens d))) /\
  List.NoDup (List.map access_token_hash (rows (tokens d))) /\
  forall t, In t (rows (tokens d)) -> token_pk t < next_pk (tokens d).

Definition add_token (t : yggdrasil_token) (d : Db) : Db :=
  set_tokens (mkTable (rows (tokens d) ++ [t]) (next_pk (tokens d) + 1)) d.

Definition revoke_where (p : yggdrasil_token -> bool) (now : DateTimeUtc) (d : Db) : Db :=
  set_tokens (with_rows (update_where p (set_revoked now) (rows (tokens d))) (tokens d)) d.

Definition drop_where (p : yggdrasil_token -> bool) (d : Db) : Db :=
  set_tokens (with_rows (delete_where p (rows (tokens d))) (tokens d)) d.

(** A token is dead at [now]: it can never be accepted again. *)
Definition dead_at (now : DateTimeUtc) (t : yggdrasil_token) : bool :=
  (expires_at t <? now) || is_some (revoked_at t).

(** [S h]: the hashes the step may issue. *)
Inductive token_step (fresh : string -> Prop) (d : Db) : Db -> Prop :=
| step_issue t :
    token_pk t = next_pk (tokens d) -> revoked_at t = None ->
    temporarily_invalidated_at t = None ->
    existsb (token_conflict t) (rows (tokens d)) = false ->
    fresh (access_token_hash t) ->
    token_step fresh d (add_token t d)
| step_revoke p now :
    (forall t, In t (rows (tokens d)) -> p t = true -> revoked_at t = None) ->
    token_step fresh d (revoke_where p now d)
| step_delete p now :
    (forall t, p t = true -> dead_at now t = true) ->
    token_step fresh d (drop_where p d).

Definition token_reach (fresh : string -> Prop) : relation Db := rtc (token_step fresh).

(** *** The invariant *)

Lemma conflict_false t l :
  existsb (token_conflict t) l = false ->
  forall u, In u l -> access_token_hash t <> access_token_hash u.
Proof.
  intros H u Hu E. assert (existsb (token_conflict t) l = true); [|congruence].
  apply existsb_exists. exists u. split; [done|]. apply eqb_true, E.
Qed.

Lemma token_step_wf fresh d d' : tokens_wf d -> token_step fresh d d' -> tokens_wf d'.
Proof.
  intros (Hpk & Hh & Hlt) [t Ht _ _ Hc _|p now _|p now _]; repeat split; cbn.
  - rewrite List.map_app. apply NoDup_app_singleton; [done|].
    intros (u & Hu & Hin)%in_map_iff. apply Hlt in Hin. lia.
  - rewrite List.map_app. apply NoDup_app_singleton; [done|].
    intros (u & Hu & Hin)%in_map_iff. by apply (conflict_false _ _ Hc u).
  - intros u [Hu|[<-|[]]]%in_app_iff; [apply Hlt in Hu|]; lia.
  - by rewrite update_where_map.
  - by rewrite update_where_map.
  - intros u (v & Hv & ->)%in_update_where. apply Hlt in Hv. by destruct (p v).
  - by apply NoDup_map_rows_where.
  - by apply NoDup_map_rows_where.
  - intros u [Hu _]%in_delete_where. by apply Hlt.
Qed.

Lemma token_reach_wf fresh d d' : token_reach fresh d d' -> tokens_wf d -> tokens_wf d'.
Proof. induction 1; eauto using token_step_wf. Qed.

(** *** Revocation is final *)

(** Every row with hash [h] is revoked (there may be none). *)
Definition hash_revoked (h : string) (d : Db) : Prop :=
  forall t, In t (rows (tokens d)) -> access_token_hash t = h -> is_some (revoked_at t) = true.

Lemma token_step_revoked fresh h d d' :
  ~ fresh h -> token_step fresh d d' -> hash_revoked h d -> hash_revoked h d'.
Proof.
  intros Hf [t Ht _ _ _ Hfr|p now Hp|p now Hp] Hr u; cbn.
  - rewrite in_app_iff. intros [Hu|[<-|[]]] Hh; [by apply Hr|congruence].
  - intros (v & Hv & ->)%in_update_where. destruct (p v); cbn; [done|by apply Hr].
  - intros [Hu _]%in_delete_where. by apply Hr.
Qed.

Lemma token_reach_revoked fresh h d d' :
  ~ fresh h -> token_reach fresh d d' -> hash_revoked h d -> hash_revoked h d'.
Proof. intros Hf. induction 1; eauto using token_step_revoked. Qed.

(** *** The cache *)

(** A cached token is a row of the table, under its own key. *)
Definition token_cache_ok (w : World) : Prop :=
  forall now k t, cache_get (cache w) now k = Some (CvToken t) ->
    k = token_key (access_token_hash t) /\ In t (rows (tokens (db w))).

(** Rows whose hash is not listed are kept as they are. *)
Definition unchanged_except (hs : list string) (d d' : Db) : Prop :=
  forall t, In t (rows (tokens d)) -> ~ In (access_token_hash t) hs -> In t (rows (tokens d')).

Lemma token_key_inj h h' : token_key h = token_key h' -> h = h'.
Proof. apply app_string_inj. Qed.

Lemma in_token_keys h hs : In (token_key h) (List.map token_key hs) <-> In h hs.
Proof.
  rewrite in_map_iff. split; [|by eauto]. by intros (x & <-%token_key_inj & ?).
Qed.

Context `{CL : !CacheLaws CB}.

Lemma cache_ok_invalidate hs w w' :
  token_cache_ok w -> unchanged_except hs (db w) (db w') ->
  cache w' = cache_delete_many (cache w) (List.map token_key hs) -> token_cache_ok w'.
Proof.
  intros Hok Hun Hc now k t Hg. rewrite Hc in Hg.
  apply get_delete_many in Hg as [Hn Hg]. destruct (Hok now k t Hg) as [-> Hin].
  split; [done|]. apply Hun; [done|]. by rewrite in_token_keys in Hn.
Qed.

Lemma cache_ok_invalidate_one h w w' :
  token_cache_ok w -> unchanged_except [h] (db w) (db w') ->
  cache w' = cache_delete (cache w) (token_key h) -> token_cache_ok w'.
Proof.
  intros Hok Hun Hc now k t Hg. rewrite Hc in Hg.
  apply get_delete in Hg as [Hn Hg]. destruct (Hok now k t Hg) as [-> Hin].
  split; [done|]. apply Hun; [done|]. intros [->|[]]. done.
Qed.

Lemma cache_ok_set h t w w' :
  token_cache_ok w -> db w' = db w -> In t (rows (tokens (db w))) -> access_token_hash t = h ->
  (exists now, cache w' = cache_set (cache w) now (token_key h) (CvToken t) TOKEN_TTL_SECS) ->
  token_cache_ok w'.
Proof.
  intros Hok Hdb Hin <- (now0 & Hc) now k u Hg. rewrite Hc in Hg. rewrite Hdb.
  apply get_set in Hg as [(-> & [= ->] & _)|Hg]; [done|by apply (Hok now)].
Qed.

Lemma cache_prefix_empty w w' now k t :
  token_cache_ok w -> cache w' = cache_invalidate_prefix (cache w) TOKEN_PREFIX ->
  cache_get (cache w') now k <> Some (CvToken t).
Proof.
  intros Hok Hc Hg. rewrite Hc in Hg.
  apply get_invalidate_prefix in Hg as [Hn Hg]. destruct (Hok now k t Hg) as [-> _].
  assert (starts_with TOKEN_PREFIX (token_key (access_token_hash t)) = true); [|congruence].
  apply starts_with_iff. by exists (access_token_hash t).
Qed.

Lemma cache_ok_prefix w w' :
  token_cache_ok w -> cache w' = cache_invalidate_prefix (cache w) TOKEN_PREFIX ->
  token_cache_ok w'.
Proof. intros Hok Hc now k t Hg. exfalso. by eapply cache_prefix_empty. Qed.

Lemma cache_ok_same w w' : token_cache_ok w -> same w w' -> token_cache_ok w'.
Proof. intros Hok (Hd & Hc & _) now k t. rewrite Hd, Hc. apply Hok. Qed.

Lemma unchanged_refl hs d : unchanged_except hs d d.
Proof. by intros t Ht _. Qed.

Lemma unchanged_trans hs hs' d d' d'' :
  unchanged_except hs d d' -> unchanged_except hs' d' d'' ->
  unchanged_except (hs ++ hs') d d''.
Proof. intros H H' t Ht Hn. rewrite in_app_iff in Hn. apply H'; [apply H|]; tauto. Qed.

Lemma unchanged_mono hs hs' d d' :
  unchanged_except hs d d' -> (forall h, In h hs -> In h hs') -> unchanged_except hs' d d'.
Proof. intros H Hi t Ht Hn. apply H; [done|]. auto. Qed.

Lemma unchanged_add t d : unchanged_except [] d (add_token t d).
Proof. intros u Hu _. cbn. apply in_app_iff. by left. Qed.

Lemma unchanged_revoke p now hs d :
  (forall t, In t (rows (tokens d)) -> p t = true -> In (access_token_hash t) hs) ->
  unchanged_except hs d (revoke_where p now d).
Proof.
  intros Hp t Ht Hn. cbn. apply in_update_where. exists t. split; [done|].
  destruct (p t) eqn:E; [|done]. exfalso. by apply Hn, Hp.
Qed.
End Spec.

(** ** Tokens: what the repository statements do

    Each statement of the token repository as steps of the abstract machine. *)


Section Ops.
Context `{EN : Env} `{CB : CacheBackend} `{FC : ForgeCrypto} `{FL : ForgeNumberLaws}.

(** The hashes of the access tokens that can still be drawn from tick [k] on. *)
Definition fresh_from (k : nat) (h : string) : Prop :=
  exists n, (k <= n)%nat /\ h = sha256_hex (short_token n).

(** A program changed the tokens with hashes [hs] only, along the machine,
    issuing hashes in [P] only. *)
Definition token_effect (P : string -> Prop) (hs : list string) (w w' : World) : Prop :=
  audit_log w' = audit_log w /\ (step w <= step w')%nat /\
  token_reach P (db w) (db w') /\ unchanged_except hs (db w) (db w').

Definition nothing (h : string) : Prop := False.

Lemma token_step_mono (P Q : string -> Prop) d d' :
  (forall h, P h -> Q h) -> token_step P d d' -> token_step Q d d'.
Proof.
  intros H [t|p now|p now]; [apply step_issue|apply step_revoke|eapply step_delete]; eauto.
Qed.

Lemma token_reach_mono (P Q : string -> Prop) d d' :
  (forall h, P h -> Q h) -> token_reach P d d' -> token_reach Q d d'.
Proof.
  intros H. induction 1; [apply rtc_refl|]. eapply rtc_l; [by eapply token_step_mono|done].
Qed.

Lemma token_effect_refl P w w' : same w w' -> token_effect P [] w w'.
Proof.
  intros (Hd & _ & [Ha _] & Hs). split; [done|]. split; [done|]. rewrite Hd.
  split; [apply rtc_refl|apply unchanged_refl].
Qed.

Lemma token_effect_trans P hs hs' w w1 w2 :
  token_effect P hs w w1 -> token_effect P hs' w1 w2 -> token_effect P (hs ++ hs') w w2.
Proof.
  intros (Ha & Hs & Hr & Hu) (Ha' & Hs' & Hr' & Hu').
  split; [congruence|]. split; [lia|].
  split; [by etransitivity|by eapply unchanged_trans].
Qed.

Lemma token_effect_mono (P Q : string -> Prop) hs hs' w w' :
  token_effect P hs w w' -> (forall h, P h -> Q h) -> (forall h, In h hs -> In h hs') ->
  token_effect Q hs' w w'.
Proof.
  intros (Ha & Hs & Hr & Hu) HP H. repeat split; auto; [by eapply token_reach_mono|].
  by eapply unchanged_mono.
Qed.

(** The same effect seen from worlds with the same tables and audit log. *)
Lemma token_effect_frame P hs w0 w1 w2 w3 :
  same w0 w1 -> token_effect P hs w1 w2 ->
  db w3 = db w2 -> audit_log w3 = audit_log w2 -> (step w2 <= step w3)%nat ->
  token_effect P hs w0 w3.
Proof.
  intros (Hd & _ & [Ha _] & Hs) (Ha' & Hs' & Hr & Hu) Hd3 Ha3 Hs3.
  split; [congruence|]. split; [lia|]. rewrite Hd3, <- Hd. done.
Qed.

(** Rows with the same key are the same row. *)
Lemma same_pk d t u :
  tokens_wf d -> In t (rows (tokens d)) -> In u (rows (tokens d)) ->
  token_pk t = token_pk u -> t = u.
Proof. intros (H & _ & _). by apply NoDup_map_inj_in. Qed.

Lemma same_hash d t u :
  tokens_wf d -> In t (rows (tokens d)) -> In u (rows (tokens d)) ->
  access_token_hash t = access_token_hash u -> t = u.
Proof. intros (_ & H & _). by apply NoDup_map_inj_in. Qed.

(** Revoking one live row by its key is a step. *)
Lemma revoke_one_step P d t now :
  tokens_wf d -> In t (rows (tokens d)) -> revoked_at t = None ->
  token_step P d (revoke_where (fun r => token_pk r =? token_pk t) now d).
Proof.
  intros Hwf Hin Hr. apply step_revoke. intros u Hu Hpk.
  rewrite (same_pk d u t) by (done || lia). done.
Qed.

Lemma revoke_one_unchanged d t now :
  tokens_wf d -> In t (rows (tokens d)) ->
  unchanged_except [access_token_hash t] d (revoke_where (fun r => token_pk r =? token_pk t) now d).
Proof.
  intros Hwf Hin. apply unchanged_revoke. intros u Hu Hpk.
  rewrite (same_pk d u t) by (done || lia). by left.
Qed.

(** After revoking [t], the live rows are the other live rows. *)
Lemma revoke_one_live d t now u :
  tokens_wf d -> In t (rows (tokens d)) ->
  In u (rows (tokens (revoke_where (fun r => token_pk r =? token_pk t) now d))) ->
  revoked_at u = None -> In u (rows (tokens d)) /\ u <> t.
Proof.
  intros Hwf Hin (v & Hv & ->)%in_update_where Hr.
  destruct (Z.eqb_spec (token_pk v) (token_pk t)) as [E|E]; [done|].
  split; [done|]. by intros ->.
Qed.

(** *** Pruning *)

Definition active_of (user_id : Z) (d : Db) : list yggdrasil_token :=
  rows_where (fun t => (token_user_id t =? user_id) && not_revoked t) (rows (tokens d)).

Lemma in_active_of u d t :
  In t (active_of u d) <->
  In t (rows (tokens d)) /\ token_user_id t = u /\ revoked_at t = None.
Proof.
  unfold active_of, not_revoked, is_none. rewrite in_rows_where, andb_true_iff, negb_true_iff.
  destruct (revoked_at t); cbn; intuition (congruence || lia).
Qed.

Lemma in_active_newest u d t : In t (active_newest_first u d) <-> In t (active_of u d).
Proof. apply in_sort_by. Qed.

Lemma NoDup_active_newest u d : tokens_wf d -> List.NoDup (active_newest_first u d).
Proof.
  intros (Hpk & _ & _). apply (NoDup_map_inv token_pk).
  eapply Permutation_NoDup; [symmetry; apply Permutation_map, sort_by_perm|].
  by apply NoDup_map_rows_where.
Qed.

(** The row [t] is in the table, revoked or not. *)
Definition held (t : yggdrasil_token) (d : Db) : Prop :=
  exists v, In v (rows (tokens d)) /\ (v = t \/ exists now, v = set_revoked now t).

Lemma held_revoke_where p now t d : held t d -> held t (revoke_where p now d).
Proof.
  intros (v & Hin & Hv). exists (if p v then set_revoked now v else v). split.
  - cbn. apply in_update_where. by exists v.
  - destruct (p v); [right; exists now|done]. by destruct Hv as [->|[? ->]].
Qed.

Lemma in_held t d : In t (rows (tokens d)) -> held t d.
Proof. intros H. exists t. auto. Qed.

(** The state of the pruning loop: the rows in [done] are revoked, nothing
    else has changed. *)
Definition pruning (w : World) (done todo : list yggdrasil_token) (w1 : World) : Prop :=
  cache w1 = cache w /\ audit_log w1 = audit_log w /\ (step w <= step w1)%nat /\
  token_reach nothing (db w) (db w1) /\
  (forall t, In t (rows (tokens (db w))) -> ~ In t done -> In t (rows (tokens (db w1)))) /\
  (forall t, In t (rows (tokens (db w1))) -> revoked_at t = None ->
             In t (rows (tokens (db w))) /\ ~ In t done) /\
  (forall t, held t (db w) -> held t (db w1)).

Lemma pruning_step w dn x todo w1 :
  tokens_wf (db w) -> List.NoDup (dn ++ x :: todo) ->
  In x (rows (tokens (db w))) -> revoked_at x = None ->
  pruning w dn (x :: todo) w1 ->
  wp (let* now := utc_now in
      let* _ := db_update tokens set_tokens token_pk (token_pk x) (set_revoked now) in
      ret tt)%aster
     (fun r w2 =>
        match r with
        | Ok _ => pruning w (dn ++ [x]) todo w2
        | Err _ => cache w2 = cache w /\ audit_log w2 = audit_log w /\ (step w <= step w2)%nat
        | Panic _ => False
        end) w1.
Proof.
  intros Hwf Hnd Hx Hxr (Hc & Ha & Hs & Hr & Hk & Hl & Hh).
  pose proof (token_reach_wf _ _ _ Hr Hwf) as Hwf1.
  assert (Hx1 : In x (rows (tokens (db w1)))).
  { apply Hk; [done|]. intros Hd. eapply NoDup_app_disjoint in Hnd; [|exact Hd]. apply Hnd. by left. }
  repeat wp_step. apply wp_db_update.
  - intros m. cbn. auto.
  - intros r _ _ _. cbn [wp_next]. repeat wp_step.
    set (now := clock (step w1)).
    change (pruning w (dn ++ [x]) todo
      (set_db (revoke_where (fun r0 => token_pk r0 =? token_pk x) now (db w1)) (tick (tick w1)))).
    split; [done|]. split; [done|]. split; [cbn; lia|]. split; [|split; [|split]].
    + eapply rtc_r; [exact Hr|]. by apply revoke_one_step.
    + intros t Ht Hn. rewrite in_app_iff in Hn. cbn [db set_db].
      apply in_update_where. exists t. split; [apply Hk; tauto|].
      destruct (Z.eqb_spec (token_pk t) (token_pk x)) as [E|]; [|done].
      exfalso. apply Hn. right. left. by apply (same_pk (db w)).
    + intros t Ht Htr. cbn [db set_db] in Ht.
      destruct (revoke_one_live _ _ _ _ Hwf1 Hx1 Ht Htr) as [Ht1 Hne].
      destruct (Hl t Ht1 Htr) as [? ?]. split; [done|]. rewrite in_app_iff. cbn. intuition.
    + intros t Ht. by apply held_revoke_where, Hh.
Qed.

(** [prune_oldest_for_user] leaves the user at most [keep] live tokens: the
    most recently issued ones. *)
Definition pruned (u keep : Z) (w w' : World) (hs : list string) : Prop :=
  hs = List.map access_token_hash (skip keep (active_newest_first u (db w))) /\
  token_effect nothing hs w w' /\
  (forall t, In t (rows (tokens (db w'))) -> revoked_at t = None ->
     In t (rows (tokens (db w))) /\ ~ In t (skip keep (active_newest_first u (db w)))) /\
  (forall t, held t (db w) -> held t (db w')).

Lemma NoDup_skip {A} n (l : list A) : List.NoDup l -> List.NoDup (skip n l).
Proof.
  intros H. unfold skip. rewrite <- (firstn_skipn (Z.to_nat (Z.min n (Z.of_nat (length l)))) l) in H.
  by apply List.NoDup_app_remove_l in H.
Qed.

Lemma prune_spec u keep w :
  tokens_wf (db w) ->
  wp (prune_oldest_for_user u keep)
     (fun r w' => cache w' = cache w /\ audit_log w' = audit_log w /\ (step w <= step w')%nat /\
        match r with Ok hs => pruned u keep w w' hs | Panic _ => False | Err _ => True end) w.
Proof.
  intros Hwf. unfold prune_oldest_for_user. apply wp_bind, wp_map_err, wp_lift.
  pose proof (u64_to_usize_spec keep "yggdrasil token keep count") as Hk.
  destruct (u64_to_usize _ _) as [k|e|m]; cbn [wp_next]; [subst k|done|done].
  apply wp_bind, wp_db_query; [intros m _; cbn; auto|]. intros _. cbn [wp_next].
  set (pr := skip keep (active_newest_first u (db w))).
  assert (Hpr : forall t, In t pr -> In t (rows (tokens (db w))) /\ revoked_at t = None).
  { intros t Ht%in_skip%in_active_newest%in_active_of. tauto. }
  assert (Hnd : List.NoDup pr) by (by apply NoDup_skip, NoDup_active_newest).
  apply wp_bind. apply wp_for_each with (I := pruning w).
  - split; [done|]. split; [done|]. split; [cbn; lia|]. split; [apply rtc_refl|]. cbn. tauto.
  - intros dn x todo w1 Heq HI. rewrite Heq in Hnd.
    destruct (Hpr x) as [Hx Hxr]; [rewrite Heq; apply in_app_iff; right; by left|].
    eapply wp_mono; [by apply (pruning_step w dn x todo)|].
    intros [[]|e|m] w2; cbn; [done|tauto|done].
  - intros w1 (Hc & Ha & Hs & Hr & Hk & Hl & Hh). cbn [wp_next]. repeat wp_step.
    split; [done|]. split; [done|]. split; [done|]. split; [done|]. split; [|done].
    split; [done|]. split; [done|]. split; [done|].
    intros t Ht Hn. apply Hk; [done|]. intros Hd. by apply Hn, in_map.
Qed.

(** *** What pruning leaves *)

Lemma pruned_bound u keep w w' hs :
  tokens_wf (db w) -> 0 <= keep -> pruned u keep w w' hs ->
  Z.of_nat (length (active_of u (db w'))) <= keep.
Proof.
  intros Hwf Hk (_ & (_ & _ & Hr & _) & Hl & _). pose proof (token_reach_wf _ _ _ Hr Hwf) as Hwf'.
  set (k := Z.to_nat (Z.min keep (Z.of_nat (length (active_newest_first u (db w)))))).
  assert (Hle : (length (active_of u (db w')) <=
                 length (firstn k (active_newest_first u (db w))))%nat).
  { apply List.NoDup_incl_length.
    - apply (NoDup_map_inv token_pk). by apply NoDup_map_rows_where, Hwf'.
    - intros t (Ht & Hu & Htr)%in_active_of. destruct (Hl t Ht Htr) as [Hin Hn].
      assert (Ha : In t (active_newest_first u (db w))) by (by apply in_active_newest, in_active_of).
      apply (in_firstn_or_skipn k) in Ha as [Ha|Ha]; [done|]. by exfalso. }
  pose proof (firstn_le_length k (active_newest_first u (db w))). unfold k in *. lia.
Qed.

Lemma in_skip_tail {A} n (x : A) l y : 1 <= n -> In y (skip n (x :: l)) -> In y l.
Proof.
  intros Hn. unfold skip. cbn [length].
  destruct (Z.to_nat _) as [|k] eqn:E; [lia|]. cbn.
  intros H. apply (in_firstn_or_skipn k). by right.
Qed.

Lemma pruned_keeps_newest u keep w w' hs t :
  tokens_wf (db w) -> 1 <= keep -> pruned u keep w w' hs -> In t (active_of u (db w)) ->
  (forall v, In v (active_of u (db w)) -> v <> t -> issued_at v < issued_at t) ->
  In t (rows (tokens (db w'))).
Proof.
  intros Hwf Hk (Hhs & (_ & _ & _ & Hun) & _) Ht Hnew.
  pose proof (proj1 (in_active_of _ _ _) Ht) as (Hrow & _ & _).
  apply Hun; [done|]. rewrite Hhs. intros (v & Hh & Hv)%in_map_iff.
  assert (v = t) as ->.
  { apply (same_hash (db w)); [done| |done|done]. by apply in_skip, in_active_newest, in_active_of in Hv as [? _]. }
  pose proof (NoDup_active_newest u (db w) Hwf) as Hnd.
  pose proof (sort_by_sorted newest_issued_first) as Hsort.
  specialize (Hsort ltac:(intros; unfold newest_issued_first; lia)
                    ltac:(intros ? ? ?; unfold newest_issued_first; lia) (active_of u (db w))).
  unfold active_of in Hsort. fold (active_newest_first u (db w)) in Hsort.
  apply in_active_newest in Ht.
  destruct (active_newest_first u (db w)) as [|x l] eqn:E; [done|].
  apply in_skip_tail in Hv; [|done]. inversion Hsort as [|? ? _ Hx]; subst.
  rewrite List.Forall_forall in Hx. apply Hx in Hv as Hle. unfold newest_issued_first in Hle.
  apply List.NoDup_cons_iff in Hnd as [Hnx _].
  assert (x <> t) by (by intros ->).
  assert (issued_at x < issued_at t); [|lia].
  apply Hnew; [|done]. apply in_active_newest. rewrite E. by left.
Qed.
End Ops.

(** ** Issuing *)
Section Issue.
Context `{EN : Env} `{CB : CacheBackend} `{FC : ForgeCrypto} `{FL : ForgeNumberLaws} `{CH : Chrono}.

(** The row [t] that answers a request for a token. *)
Definition answers (u : Z) (client : string) (sel : option Z) (policy : RuntimeYggdrasilPolicy)
  (issued : IssuedToken) (t : yggdrasil_token) : Prop :=
  token_pk t = issued_token_id issued /\
  access_token_hash t = sha256_hex (issued_access_token issued) /\
  token_user_id t = u /\ client_token t = client /\ selected_profile_id t = sel /\
  revoked_at t = None /\ temporarily_invalidated_at t = None /\
  datetime_add_days (issued_at t) (token_ttl_days policy) = Some (expires_at t).

(** A token was issued: one new row, which is in the table; at most
    [max_active_tokens] live ones are left, and the new one is among them if
    it is the newest. *)
Definition issued_in (u : Z) (client : string) (sel : option Z)
  (policy : RuntimeYggdrasilPolicy) (w w' : World) (issued : IssuedToken) (hs : list string)
  : Prop :=
  exists t, answers u client sel policy issued t /\
    (exists n, (step w <= n <= step w')%nat /\ issued_at t = clock n) /\
    fresh_from (step w) (access_token_hash t) /\
    ~ In (access_token_hash t) (List.map access_token_hash (rows (tokens (db w)))) /\
    token_effect (eq (access_token_hash t)) hs w w' /\
    (0 <= max_active_tokens policy ->
     Z.of_nat (length (active_of u (db w'))) <= max_active_tokens policy) /\
    (1 <= max_active_tokens policy ->
     (forall v, In v (active_of u (db w)) -> issued_at v < issued_at t) ->
     In t (rows (tokens (db w')))) /\
    held t (db w').

Lemma issue_conn_spec u client sel policy ua ip w :
  tokens_wf (db w) ->
  wp (issue_token_in_connection u client sel policy ua ip)
     (fun r w' => cache w' = cache w /\ audit_log w' = audit_log w /\ (step w <= step w')%nat /\
        match r with
        | Ok (issued, hs) => issued_in u client sel policy w w' issued hs
        | _ => True
        end) w.
Proof.
  intros Hwf. unfold issue_token_in_connection. repeat wp_step.
  pose proof (u64_to_i64_spec (token_ttl_days policy) "yggdrasil token ttl days") as Httl.
  destruct (token_ttl_days policy <=? I64_MAX) eqn:Hle; [rewrite Httl|destruct Httl as [e ->]];
    cbn [wp_next]; [|cbn; auto].
  repeat wp_step. unfold add_days.
  destruct (datetime_add_days _ _) as [exp|] eqn:Hexp; repeat wp_step; [|cbn; repeat split; lia].
  unfold create. apply wp_db_insert; [intros m; cbn; repeat split; lia|].
  intros _ t Hconf. cbn [wp_next]. set (w1 := set_db _ _).
  assert (Hstep : token_step (eq (access_token_hash t)) (db w) (db w1)).
  { by apply (step_issue _ (db w) t). }
  pose proof (token_step_wf _ _ _ Hwf Hstep) as Hwf1.
  assert (Heff : token_effect (eq (access_token_hash t)) [] w w1).
  { split; [done|]. split; [cbn; lia|]. split; [by apply rtc_once|]. apply (unchanged_add t). }
  apply wp_bind. eapply wp_mono; [by apply (prune_spec u (max_active_tokens policy) w1)|].
  intros r w2 (Hc & Ha & Hs & Hp).
  assert (Hsw : (step w <= step w2)%nat) by (transitivity (step w1); [cbn; lia|done]).
  destruct r as [hs|e|m]; cbn [wp_next]; [|by repeat split|done].
  repeat wp_step. split; [done|]. split; [done|]. split; [done|].
  exists t. split; [by repeat split|]. split; [by exists (step w)|].
  split; [exists (S (step w)); split; [lia|done]|].
  split; [|split; [|split; [|split]]].
  - intros (v & Hv & Hin)%in_map_iff. by apply (conflict_false _ _ Hconf v).
  - destruct Hp as (_ & Hp & _). apply (token_effect_trans _ [] hs w w1 w2 Heff).
    by eapply token_effect_mono.
  - intros Hk. by eapply pruned_bound.
  - intros Hk Hnew. eapply pruned_keeps_newest; [exact Hwf1|exact Hk|exact Hp| |].
    + apply in_active_of. cbn. split; [apply in_app_iff; right; by left|done].
    + intros v (Hv & Hu & Hr)%in_active_of Hne. cbn in Hv.
      apply in_app_iff in Hv as [Hv|[Hv|[]]]; [|by subst v]. apply Hnew. by apply in_active_of.
  - apply Hp, in_held. cbn. apply in_app_iff. right. by left.
Qed.
End Issue.
