(* ===== verification/TokenProofs.v ===== *)
(** * Tokens: the service

    The handlers of [yggdrasil_service/token.rs] against the machine of
    TokenSpec.v: what each outcome means for the token table and for the
    cache. *)

From Stdlib Require Import ZArith List Bool Lia Permutation Sorted.
From stdpp Require Import base decidable list strings relations.
From S2P Require Import Prelude Text Errors Types AuditLog World Logic Repos Bans Tokens BanProofs TokenSpec.

Local Open Scope Z_scope.
Import TokenRepo TokenCache.

Section Service.
Context `{EN : Env} `{CB : CacheBackend} `{CL : !CacheLaws CB} `{BE : BanExterns}.
Context {TM : TxnManager} `{TL : !TxnLaws TM}.
Context `{FC : ForgeCrypto} `{FL : ForgeNumberLaws} `{CH : Chrono}.

(** *** Moving facts between worlds with the same tables *)

Lemma issued_in_frame u client sel policy w0 w1 w2 w3 issued hs :
  same w0 w1 -> issued_in u client sel policy w1 w2 issued hs ->
  db w3 = db w2 -> audit_log w3 = audit_log w2 -> (step w2 <= step w3)%nat ->
  issued_in u client sel policy w0 w3 issued hs.
Proof.
  intros Hs (t & Ha & (n & Hn & Ht) & (m & Hm & Hf) & Hnew & He & Hb & Hk & Hheld) Hd Hau Hst.
  pose proof Hs as (Hd0 & _ & _ & Hst0). exists t. split; [done|].
  split; [exists n; split; [lia|done]|]. split; [exists m; split; [lia|done]|].
  rewrite <- Hd0, Hd. split; [done|]. split; [by eapply token_effect_frame|]. by split_and!.
Qed.

(** What a handler that issues a token has done. *)
Definition issue_post (u : Z) (client : string) (sel : option Z)
  (policy : RuntimeYggdrasilPolicy) (w : World)
  (r : outcome Yggdrasil.YggdrasilError IssuedToken) (w' : World) : Prop :=
  match r with
  | Ok issued => exists hs, issued_in u client sel policy w w' issued hs /\
      cache w' = cache_delete_many (cache w) (List.map token_key hs)
  | _ => db w' = db w /\ cache w' = cache w
  end /\ audit_log w' = audit_log w /\ (step w <= step w')%nat.

Lemma wp_invalidate_tokens {E} hs (Q : outcome E unit -> World -> Prop) w :
  (forall w', db w' = db w -> audit_log w' = audit_log w -> step w' = S (step w) ->
     cache w' = cache_delete_many (cache w) (List.map token_key hs) -> Q (Ok tt) w') ->
  wp (invalidate_tokens hs) Q w.
Proof. intros H. unfold invalidate_tokens. apply wp_cache_update. by apply H. Qed.

Lemma issue_token_spec u client sel policy req w :
  tokens_wf (db w) ->
  wp (issue_token u client sel policy req) (issue_post u client sel policy w) w.
Proof.
  intros Hwf. unfold issue_token. apply wp_bind, wp_map_err, wp_with_transaction.
  - intros e w' (Hd & Hc & [Ha _] & Hs). done.
  - intros w0 H0. pose proof H0 as (Hd0 & Hc0 & [Ha0 _] & Hs0).
    eapply wp_mono; [apply issue_conn_spec; by rewrite Hd0|].
    intros [[issued hs]|e|m] w1 (Hc & Ha & Hs & Hr).
    + split.
      * intros w2 (Hd2 & Hc2 & [Ha2 _] & Hs2). cbn [wp_next snd fst].
        apply wp_bind, wp_invalidate_tokens. intros w3 Hd3 Ha3 Hs3 Hc3.
        cbn [wp_next]. apply wp_ret. split; [|split; [congruence|lia]].
        exists hs. split; [|congruence].
        eapply issued_in_frame; [exact H0|exact Hr|congruence|congruence|lia].
      * intros e w2 (Hd2 & Hc2 & [Ha2 _] & Hs2). cbn in *.
        split; [split; congruence|]. split; [congruence|lia].
    + intros w2 (Hd2 & Hc2 & [Ha2 _] & Hs2). cbn in *.
      split; [split; congruence|]. split; [congruence|lia].
    + intros w2 (Hd2 & Hc2 & [Ha2 _] & Hs2). cbn in *.
      split; [split; congruence|]. split; [congruence|lia].
Qed.

(** *** Revoking by hash *)

Lemma find_hash_spec d h :
  match find_row (fun t => eqb (access_token_hash t) h) (rows (tokens d)) with
  | Some t => In t (rows (tokens d)) /\ access_token_hash t = h
  | None => forall t, In t (rows (tokens d)) -> access_token_hash t <> h
  end.
Proof.
  destruct (find_row _ _) as [t|] eqn:E.
  - apply find_row_some in E as [Hin Hh]. by rewrite eqb_true in Hh.
  - rewrite find_row_none in E. intros t Hin Hh. specialize (E t Hin).
    by rewrite eqb_false in E.
Qed.

Definition revoked_now (h : string) (d d' : Db) : Prop :=
  exists t now, In t (rows (tokens d)) /\ access_token_hash t = h /\ revoked_at t = None /\
    d' = revoke_where (fun r => token_pk r =? token_pk t) now d.

Lemma revoke_by_hash_spec h w :
  tokens_wf (db w) ->
  wp (revoke_by_access_hash h)
     (fun r w' => cache w' = cache w /\ audit_log w' = audit_log w /\ (step w <= step w')%nat /\
        match r with
        | Ok true => revoked_now h (db w) (db w')
        | Ok false => db w' = db w /\ hash_revoked h (db w)
        | Err _ => db w' = db w
        | Panic _ => False
        end) w.
Proof.
  intros Hwf. unfold revoke_by_access_hash, find_by_access_hash. apply wp_bind, wp_db_query.
  { intros m _. cbn. repeat split; auto. }
  intros _. cbn [wp_next]. pose proof (find_hash_spec (db w) h) as Hf.
  destruct (find_row _ _) as [t|]; repeat wp_step.
  - destruct Hf as [Hin Hh]. cbn. repeat split; auto.
    intros v Hv Hvh. by rewrite (same_hash (db w) v t) by congruence.
  - destruct Hf as [Hin Hh]. apply wp_db_update; [intros m; cbn; repeat split; auto|].
    intros r _ _ _. cbn [wp_next]. repeat wp_step. cbn. repeat split; auto.
    exists t, (clock (S (step w))). split; [done|]. split; [done|].
    split; [by destruct (revoked_at t)|done].
  - cbn. repeat split; auto. intros v Hv Hh. by apply Hf in Hv.
Qed.

Lemma revoked_now_facts P h d d' :
  tokens_wf d -> revoked_now h d d' ->
  token_reach P d d' /\ unchanged_except [h] d d' /\ hash_revoked h d' /\
  In h (List.map access_token_hash (rows (tokens d'))).
Proof.
  intros Hwf (t & now & Hin & <- & Hr & ->).
  split; [by apply rtc_once, revoke_one_step|]. split; [by apply revoke_one_unchanged|].
  split.
  - intros u (v & Hv & ->)%in_update_where. cbn beta.
    destruct (Z.eqb_spec (token_pk v) (token_pk t)) as [E|E]; [done|].
    intros Hh. exfalso. apply E. by rewrite (same_hash d v t).
  - cbn. rewrite update_where_map by done. by apply in_map.
Qed.

(** *** Refreshing *)

Lemma wp_run_open {A} txn (body : M Yggdrasil.YggdrasilError A)
  (Q : outcome Yggdrasil.YggdrasilError (A + Yggdrasil.YggdrasilError) -> World -> Prop) w :
  wp body (fun r w' => match r with
                       | Ok a => Q (Ok (inl a)) w'
                       | Err e => Q (Ok (inr e)) w'
                       | Panic m => Q (Panic m) (drop_txn txn w')
                       end) w ->
  wp (run_open txn body) Q w.
Proof. unfold wp, run_open. by destruct (body w) as [[a|e|m] w']. Qed.

Definition refresh_post (old_hash : string) (u : Z) (client : string) (sel : option Z)
  (policy : RuntimeYggdrasilPolicy) (w : World)
  (r : outcome Yggdrasil.YggdrasilError IssuedToken) (w' : World) : Prop :=
  match r with
  | Ok issued => exists w1 hs,
      revoked_now old_hash (db w) (db w1) /\ audit_log w1 = audit_log w /\
      (step w <= step w1)%nat /\ issued_in u client sel policy w1 w' issued hs /\
      cache w' = cache_delete_many (cache w) (List.map token_key (hs ++ [old_hash]))
  | _ => db w' = db w /\ cache w' = cache w
  end /\ audit_log w' = audit_log w /\ (step w <= step w')%nat.

Lemma refresh_in_txn_spec old_hash u client sel policy ua ip w :
  tokens_wf (db w) ->
  wp (refresh_in_txn old_hash u client sel policy ua ip)
     (fun r w' => cache w' = cache w /\ audit_log w' = audit_log w /\ (step w <= step w')%nat /\
        match r with
        | Ok (issued, hs) => exists w1, revoked_now old_hash (db w) (db w1) /\
            audit_log w1 = audit_log w /\ (step w <= step w1)%nat /\
            issued_in u client sel policy w1 w' issued hs
        | _ => True
        end) w.
Proof.
  intros Hwf. unfold refresh_in_txn. apply wp_bind, wp_map_err.
  eapply wp_mono; [by apply revoke_by_hash_spec|].
  intros [[]|e|m] w1 (Hc & Ha & Hs & Hr); cbn [wp_next negb]; [|by apply wp_throw|by repeat split|done].
  destruct (revoked_now_facts nothing _ _ _ Hwf Hr) as (Hreach & _).
  apply wp_map_err. eapply wp_mono; [apply issue_conn_spec; by eapply token_reach_wf|].
  intros r w2 (Hc2 & Ha2 & Hs2 & Hr2).
  assert (Hsw : (step w <= step w2)%nat) by lia.
  destruct r as [[issued hs]|e|m]; split; try congruence; split; try congruence; split; auto.
  by exists w1.
Qed.

Lemma refresh_token_spec old u client sel policy req w :
  tokens_wf (db w) ->
  wp (refresh_token old u client sel policy req)
     (refresh_post (sha256_hex old) u client sel policy w) w.
Proof.
  intros Hwf. unfold refresh_token. apply wp_bind, wp_map_err, wp_begin.
  { intros e w' (Hd & Hc & [Ha _] & Hs). done. }
  intros txn w0 (Hd0 & Hc0 & [Ha0 _] & Hs0) Htx. cbn [wp_next].
  apply wp_bind, wp_run_open.
  eapply wp_mono; [apply refresh_in_txn_spec; by rewrite Hd0|].
  intros r w1 (Hc & Ha & Hs & Hr). destruct r as [[issued hs]|e|m]; cbn [wp_next].
  - destruct Hr as (wr & Hrev & Har & Hsr & Hiss).
    apply wp_bind, wp_map_err, wp_commit.
    + intros w2 (Hd2 & Hc2 & [Ha2 _] & Hs2). cbn [wp_next].
      apply wp_bind, wp_invalidate_tokens. intros w3 Hd3 Ha3 Hs3 Hc3.
      cbn [wp_next]. apply wp_ret. split; [|split; [congruence|lia]].
      exists wr, hs. rewrite <- Hd0. split; [done|]. split; [congruence|]. split; [lia|].
      split; [|congruence].
      eapply issued_in_frame; [apply same_refl|exact Hiss|congruence|congruence|lia].
    + intros e w2 (Hd2 & Hc2 & [Ha2 _] & Hs2). cbn in *.
      split; [split; congruence|]. split; [congruence|lia].
  - apply wp_bind, wp_catch, wp_rollback. intros r w2 (Hd2 & Hc2 & [Ha2 _] & Hs2) Hnp.
    cbn in Hd2, Hc2, Ha2, Hs2.
    destruct r as [[]|e'|m]; cbn [wp_next]; [| |done]; apply wp_throw;
      (split; [split; congruence|]; split; [congruence|lia]).
  - destruct (drop_spec txn w1) as (Hd2 & Hc2 & [Ha2 _] & Hs2). cbn in *.
    split; [split; congruence|]. split; [congruence|lia].
Qed.

(** *** Checking *)

(** The user has no stored ban in effect at [now] that contains [scope]. *)
Definition not_banned (u : Z) (scope : UserBanScope) (now : DateTimeUtc) (d : Db) : Prop :=
  forall b, In b (rows (bans d)) -> ban_user_id b = u -> is_effective b now = true ->
    UserBanScopes.contains (ban_scopes_raw b) scope = false.

(** [t] was found good for the operation at some moments of the request. *)
Definition accepted (access : string) (client : option string) (allow : bool)
  (w w' : World) (t : yggdrasil_token) : Prop :=
  In t (rows (tokens (db w))) /\ access_token_hash t = sha256_hex access /\
  revoked_at t = None /\
  (temporarily_invalidated_at t = None \/ allow = true) /\
  (forall c, client = Some c -> client_token t = c) /\
  exists n m, (step w <= n <= m)%nat /\ (m <= step w')%nat /\
    clock n < expires_at t /\ not_banned (token_user_id t) YggdrasilAccess (clock m) (db w).

Lemma not_banned_iff u scope now d :
  (forall b, In b (rows (bans d)) -> ban_ok b) ->
  is_some (find_row (fun b => UserBanScopes.contains (ban_scopes_raw b) scope)
                    (BanRepo.effective_for_user u now d)) = false <-> not_banned u scope now d.
Proof.
  intros Hok. rewrite <- not_true_iff_false, banned_iff by done. split.
  - intros H b Hb Hu He. destruct (UserBanScopes.contains _ _) eqn:E; [|done].
    exfalso. apply H. by exists b.
  - intros H (b & Hb & Hu & He & Hc). by rewrite (H b) in Hc.
Qed.

Lemma lookup_token_spec h w :
  token_cache_ok w ->
  wp (lookup_token h)
     (fun r w' => same w w' /\
        match r with
        | Ok t => In t (rows (tokens (db w))) /\ access_token_hash t = h
        | _ => True
        end) w.
Proof.
  intros Hok. unfold lookup_token, get_token.
  apply wp_bind, wp_bind, wp_cache_read. cbn [wp_next]. apply wp_ret. cbn [wp_next].
  set (Q := fun _ _ => _).
  assert (Hmiss : wp (let* found := ygg (find_by_access_hash h) in
                      match found with Some token => ret token | None => throw invalid_token end)%aster
                     Q (tick w)).
  { apply wp_bind, wp_map_err, wp_db_query.
    - intros m _. split; [repeat split; cbn; auto|done].
    - intros _. cbn [wp_next db tick]. pose proof (find_hash_spec (db w) h) as Hf.
      destruct (find_row _ _) as [t|]; [apply wp_ret|apply wp_throw];
        (split; [repeat split; cbn; auto|done]). }
  destruct (cache_get (cache w) (clock (step w)) (token_key h)) as [[t|j|l|p|l|k|c|c|c]|] eqn:Hg; try done.
  apply wp_ret. split; [apply same_tick|].
  destruct (Hok _ _ _ Hg) as [Hk Hin]. split; [done|]. symmetry. by apply token_key_inj.
Qed.

Definition check_post (access : string) (client : option string) (allow : bool) (w : World)
  (r : outcome Yggdrasil.YggdrasilError yggdrasil_token) (w' : World) : Prop :=
  db w' = db w /\ audit_log w' = audit_log w /\ (step w <= step w')%nat /\ token_cache_ok w' /\
  match r with Ok t => accepted access client allow w w' t | _ => True end.

Lemma token_check_spec access client allow w :
  bans_wf (db w) -> token_cache_ok w ->
  wp (token_for_operation access client allow) (check_post access client allow w) w.
Proof.
  intros [_ Hbans] Hok. unfold token_for_operation. apply wp_bind.
  eapply wp_mono; [by apply lookup_token_spec|].
  intros r w1 [Hs1 Hr]. pose proof Hs1 as (Hd1 & Hc1 & [Ha1 _] & Hst1).
  destruct r as [t|e|m]; cbn [wp_next];
    [|by split; [|split; [|split; [|split; [eapply cache_ok_same|]]]]
     |by split; [|split; [|split; [|split; [eapply cache_ok_same|]]]]].
  destruct Hr as [Hin Hh]. unfold check_token, set_token. apply wp_bind, wp_utc_now.
  cbn [wp_next]. apply wp_bind, wp_when_ok; intros Hlive; cbn [wp_next].
  { split; [done|]. split; [done|]. split; [cbn; lia|].
    split; [|done]. eapply cache_ok_same; [exact Hok|]. eapply same_trans; [exact Hs1|apply same_tick]. }
  apply wp_bind, wp_cache_write. cbn [wp_next].
  set (w2 := tick (set_cache _ _)).
  assert (Hok2 : token_cache_ok w2).
  { apply (cache_ok_set (sha256_hex access) t w1); try done; [by eapply cache_ok_same|by rewrite Hd1|].
    by eexists. }
  assert (Hrest : forall w3, same w2 w3 ->
            db w3 = db w /\ audit_log w3 = audit_log w /\ (step w <= step w3)%nat /\ token_cache_ok w3).
  { intros w3 H3. pose proof H3 as (Hd3 & _ & [Ha3 _] & Hs3). cbn in *.
    split; [congruence|]. split; [congruence|]. split; [lia|]. by eapply cache_ok_same. }
  destruct (Hrest w2 (same_refl _)) as (Hd2 & Ha2 & Hs2 & _).
  apply wp_bind, wp_when_ok; intros Htemp; cbn [wp_next]; [by split|].
  apply wp_bind, wp_when_ok; intros Hcl; cbn [wp_next]; [by split|].
  apply wp_bind, wp_map_err, wp_reads; [apply _|]. intros r w3 Hrun H3.
  destruct (Hrest w3 H3) as (Hd3 & Ha3 & Hs3 & Hok3).
  destruct r as [banned|e|m]; cbn [wp_next]; [|by split|by split].
  apply is_user_banned_ok in Hrun as [_ ->].
  apply wp_bind, wp_when_ok; intros Hban; cbn [wp_next]; [by split|]. apply wp_ret.
  split; [done|]. split; [done|]. split; [done|]. split; [done|].
  apply not_banned_iff in Hban; [|intros b Hb; apply Hbans; cbn in Hb; by rewrite Hd1 in Hb].
  apply orb_false_iff in Hlive as [Hrv Hexp].
  split; [done|]. split; [done|]. split; [by destruct (revoked_at t)|].
  split; [destruct (temporarily_invalidated_at t), allow; cbn in *; auto|].
  split; [intros c ->; cbn in Hcl; by rewrite negb_false_iff, eqb_true in Hcl|].
  exists (step w1), (step w2). pose proof H3 as (_ & _ & _ & Hst3). cbn in *.
  repeat split; try lia. by rewrite Hd1 in Hban.
Qed.

(** *** Revoking and cleaning up *)

Lemma revoke_token_spec access w :
  tokens_wf (db w) ->
  wp (revoke_by_access_token access)
     (fun r w' => audit_log w' = audit_log w /\ (step w <= step w')%nat /\
        match r with
        | Ok _ => (revoked_now (sha256_hex access) (db w) (db w') \/
                   db w' = db w /\ hash_revoked (sha256_hex access) (db w)) /\
                  cache w' = cache_delete (cache w) (token_key (sha256_hex access))
        | _ => db w' = db w /\ cache w' = cache w
        end) w.
Proof.
  intros Hwf. unfold revoke_by_access_token. apply wp_bind, wp_map_err.
  eapply wp_mono; [by apply revoke_by_hash_spec|].
  intros r w1 (Hc & Ha & Hs & Hr).
  destruct r as [b|e|m]; cbn [wp_next]; [|by repeat split|done].
  unfold invalidate_token. apply wp_cache_update. cbn. split; [done|]. split; [lia|].
  rewrite Hc. split; [|done]. destruct b; auto.
Qed.

(** The live tokens of one user. *)
Definition live_of (u : Z) (t : yggdrasil_token) : bool :=
  (token_user_id t =? u) && not_revoked t.

Lemma live_of_live u t : live_of u t = true -> revoked_at t = None.
Proof.
  unfold live_of, not_revoked, is_none. rewrite andb_true_iff. intros [_ H].
  by destruct (revoked_at t).
Qed.

Lemma revoke_all_spec u w :
  wp (Tokens.revoke_all_for_user u)
     (fun r w' => audit_log w' = audit_log w /\ (step w <= step w')%nat /\
        match r with
        | Ok _ => exists now hs, db w' = revoke_where (live_of u) now (db w) /\
            (forall t, In t (rows (tokens (db w))) -> live_of u t = true ->
                       In (access_token_hash t) hs) /\
            cache w' = cache_delete_many (cache w) (List.map token_key hs)
        | _ => (db w' = db w \/ exists now, db w' = revoke_where (live_of u) now (db w)) /\
               cache w' = cache w
        end) w.
Proof.
  unfold Tokens.revoke_all_for_user, revoke_all_for_user_returning_hashes.
  apply wp_bind, wp_map_err, wp_bind, wp_db_query.
  { intros m _. cbn. repeat split; auto. }
  intros _. cbn [wp_next]. apply wp_bind, wp_utc_now. cbn [wp_next].
  apply wp_bind, wp_db_query; [intros m _; cbn; repeat split; auto; lia|].
  intros _. cbn [wp_next]. apply wp_bind, wp_utc_now. cbn [wp_next].
  set (now := clock _). apply wp_bind, wp_db_update_many.
  { intros m. cbn. repeat split; auto; lia. }
  intros _. cbn [wp_next]. apply wp_bind, wp_db_query.
  { intros m _. split; [done|]. split; [cbn; lia|]. split; [right; by exists now|done]. }
  intros _. cbn [wp_next]. apply wp_ret. cbn [wp_next snd].
  unfold invalidate_tokens. apply wp_cache_update. split; [done|]. split; [cbn; lia|].
  exists now. eexists. split; [done|]. split; [|done].
  intros t Ht Hl. apply in_dedup, in_sort_by, in_app_iff. left.
  apply in_map. by apply in_rows_where.
Qed.

Lemma cleanup_spec w :
  wp cleanup_expired_or_revoked_tokens
     (fun r w' => audit_log w' = audit_log w /\ (step w <= step w')%nat /\
        match r with
        | Ok n => n = Z.of_nat (count_where (dead_at (clock (step w))) (rows (tokens (db w)))) /\
            db w' = drop_where (dead_at (clock (step w))) (db w) /\
            cache w' = cache_invalidate_prefix (cache w) TOKEN_PREFIX
        | _ => db w' = db w /\ cache w' = cache w
        end) w.
Proof.
  unfold cleanup_expired_or_revoked_tokens. apply wp_bind, wp_utc_now. cbn [wp_next].
  apply wp_bind. unfold delete_expired_or_revoked. apply wp_db_delete_many.
  { intros m. cbn. repeat split; auto; lia. }
  intros _. cbn [wp_next]. apply wp_bind. unfold invalidate_all_tokens. apply wp_cache_update.
  cbn [wp_next]. apply wp_ret. cbn. repeat split; lia.
Qed.
End Service.
