(* ===== verification/TokenTheorems.v ===== *)
(** * Tokens: the properties

    Histories of token operations, and what the handlers guarantee: tokens
    are checked soundly and completely, issued within the configured limit,
    refreshed atomically, and never accepted again once revoked.  Two
    theorems show where the implementation falls short of that: a failing
    revocation of all tokens and an interleaving of a check with a
    revocation leave a revoked token usable through the cache. *)

From Stdlib Require Import ZArith List Bool Lia Permutation Sorted.
From stdpp Require Import base decidable list strings relations pretty.
From S2P Require Import Prelude Text Errors Types AuditLog World Logic Repos Bans Tokens Concrete BanProofs TokenSpec TokenProofs.

Local Open Scope Z_scope.
Local Open Scope aster_scope.
Import TokenRepo TokenCache.

Section Histories.
Context `{EN : Env} `{CB : CacheBackend} `{CL : !CacheLaws CB} `{BE : BanExterns}.
Context {TM : TxnManager} `{TL : !TxnLaws TM}.
Context `{FC : ForgeCrypto} `{FL : ForgeNumberLaws} `{CH : Chrono}.

Inductive TokenOp : Type :=
| OpIssue (u : Z) (client : string) (sel : option Z) (policy : RuntimeYggdrasilPolicy)
          (req : HttpRequest)
| OpRefresh (old : string) (u : Z) (client : string) (sel : option Z)
            (policy : RuntimeYggdrasilPolicy) (req : HttpRequest)
| OpCheck (access : string) (client : option string) (allow : bool)
| OpRevokeToken (access : string)
| OpRevokeAll (u : Z)
| OpCleanup.

Definition run_token_op (op : TokenOp) : M Yggdrasil.YggdrasilError unit :=
  match op with
  | OpIssue u client sel policy req =>
      do* issue_token u client sel policy req in ret tt
  | OpRefresh old u client sel policy req =>
      do* refresh_token old u client sel policy req in ret tt
  | OpCheck access client allow => do* token_for_operation access client allow in ret tt
  | OpRevokeToken access => revoke_by_access_token access
  | OpRevokeAll u => Tokens.revoke_all_for_user u
  | OpCleanup => do* ygg cleanup_expired_or_revoked_tokens in ret tt
  end.

(** The one operation whose failure can leave the cache behind the table. *)
Definition is_revoke_all (op : TokenOp) : bool :=
  match op with OpRevokeAll _ => true | _ => false end.

(** One request, whatever it answers (but see [is_revoke_all]). *)
Definition token_request (w w' : World) : Prop :=
  exists op r, run_token_op op w = (r, w') /\ (is_revoke_all op = true -> is_ok r = true).

Definition token_history : relation World := rtc token_request.

(** What every request keeps. *)
Definition token_inv (w : World) : Prop :=
  tokens_wf (db w) /\ bans_wf (db w) /\ token_cache_ok w.

(** The effect of a request on the tables. *)
Definition token_change (w w' : World) : Prop :=
  token_reach (fresh_from (step w)) (db w) (db w') /\ (step w <= step w')%nat /\
  token_cache_ok w'.

Lemma token_reach_bans P d d' : token_reach P d d' -> bans d' = bans d.
Proof. induction 1 as [|d d1 d2 [] _ IH]; [done|..]; by rewrite IH. Qed.

Lemma token_change_inv w w' : token_inv w -> token_change w w' -> token_inv w'.
Proof.
  intros (Hwf & Hb & Hok) (Hr & _ & Hok'). split; [by eapply token_reach_wf|].
  split; [|done]. unfold bans_wf. by rewrite (token_reach_bans _ _ _ Hr).
Qed.

Lemma issued_in_change u client sel policy w w' issued hs :
  token_cache_ok w -> issued_in u client sel policy w w' issued hs ->
  cache w' = cache_delete_many (cache w) (List.map token_key hs) -> token_change w w'.
Proof.
  intros Hok (t & _ & _ & Hf & _ & (_ & Hs & Hr & Hu) & _) Hc.
  split; [|split; [done|by eapply cache_ok_invalidate]].
  eapply token_reach_mono; [|exact Hr]. by intros h <-.
Qed.

Lemma token_change_nothing w w' :
  token_cache_ok w -> db w' = db w -> cache w' = cache w -> (step w <= step w')%nat ->
  token_change w w'.
Proof.
  intros Hok Hd Hc Hs. split; [rewrite Hd; apply rtc_refl|]. split; [done|].
  intros now k t. rewrite Hd, Hc. apply Hok.
Qed.

Lemma issue_change u client sel policy w r w' :
  token_inv w -> issue_post u client sel policy w r w' -> token_change w w'.
Proof.
  intros (Hwf & Hb & Hok) (Hp & Ha & Hs).
  destruct r as [issued|e|m]; [|(destruct_and?; by apply token_change_nothing)..].
  destruct Hp as (hs & Hi & Hc). by eapply issued_in_change.
Qed.

(** The token issued by a refresh is another one: the old row is still there. *)
Lemma refreshed_old_revoked old u client sel policy w w1 w' issued hs :
  tokens_wf (db w) -> revoked_now old (db w) (db w1) ->
  issued_in u client sel policy w1 w' issued hs -> hash_revoked old (db w').
Proof.
  intros Hwf Hrev (t & _ & _ & _ & Hnew & (_ & _ & Hr & _) & _).
  destruct (revoked_now_facts nothing _ _ _ Hwf Hrev) as (_ & _ & Hold & Hin).
  eapply token_reach_revoked; [|exact Hr|done]. intros <-. by apply Hnew.
Qed.

Lemma refresh_change old u client sel policy w r w' :
  token_inv w -> refresh_post old u client sel policy w r w' -> token_change w w'.
Proof.
  intros (Hwf & Hb & Hok) (Hp & Ha & Hs).
  destruct r as [issued|e|m]; [|(destruct_and?; by apply token_change_nothing)..].
  destruct Hp as (w1 & hs & Hrev & _ & Hs1 & Hi & Hc).
  destruct (revoked_now_facts (fresh_from (step w)) _ _ _ Hwf Hrev) as (Hr1 & Hu1 & _).
  destruct Hi as (t & _ & _ & (n & Hn & Hfr) & _ & (_ & Hs2 & Hr & Hu) & _).
  split; [|split; [done|]].
  - etransitivity; [exact Hr1|]. eapply token_reach_mono; [|exact Hr].
    intros h <-. exists n. split; [lia|done].
  - eapply cache_ok_invalidate; [exact Hok| |exact Hc].
    eapply unchanged_mono; [by eapply unchanged_trans|]. intros h. rewrite !in_app_iff. tauto.
Qed.

Lemma revoke_token_change access w w' :
  token_inv w ->
  (revoked_now (sha256_hex access) (db w) (db w') \/
   db w' = db w /\ hash_revoked (sha256_hex access) (db w)) ->
  cache w' = cache_delete (cache w) (token_key (sha256_hex access)) ->
  (step w <= step w')%nat -> token_change w w'.
Proof.
  intros (Hwf & Hb & Hok) Hr Hc Hs.
  assert (Hx : token_reach (fresh_from (step w)) (db w) (db w') /\
               unchanged_except [sha256_hex access] (db w) (db w')).
  { destruct Hr as [Hr|[-> _]]; [|by split; [apply rtc_refl|apply unchanged_refl]].
    by destruct (revoked_now_facts (fresh_from (step w)) _ _ _ Hwf Hr) as (? & ? & _). }
  destruct Hx as [Hreach Hu]. split; [done|]. split; [done|]. by eapply cache_ok_invalidate_one.
Qed.

Lemma revoke_all_reach P u now d : token_reach P d (revoke_where (live_of u) now d).
Proof. apply rtc_once, step_revoke. intros t _. apply live_of_live. Qed.

Lemma drop_dead_reach P now d : token_reach P d (drop_where (dead_at now) d).
Proof. apply rtc_once. by apply step_delete with (now := now). Qed.

(** Dropping the result of a program keeps its effect. *)
Lemma wp_discard {A} (c : M Yggdrasil.YggdrasilError A) (P : World -> Prop) w :
  wp c (fun _ w' => P w') w -> wp (do* c in ret tt) (fun _ w' => P w') w.
Proof.
  intros H. apply wp_bind. eapply wp_mono; [exact H|]. by intros [a|e|m] w'.
Qed.

Lemma run_token_op_change op w r w' :
  token_inv w -> run_token_op op w = (r, w') -> (is_revoke_all op = true -> is_ok r = true) ->
  token_change w w'.
Proof.
  intros Hinv Hrun Hclean. pose proof Hinv as (Hwf & Hb & Hok).
  assert (Hwp : wp (run_token_op op) (fun r w' =>
            (is_revoke_all op = true -> is_ok r = true) -> token_change w w') w);
    [|by eapply wp_run in Hwp; [apply Hwp|]].
  destruct op as [u client sel policy req|old u client sel policy req|access client allow
                 |access|u|]; cbn [run_token_op is_revoke_all].
  - eapply wp_mono; [apply wp_discard with (P := token_change w)|by intros].
    eapply wp_mono; [by apply issue_token_spec|]. intros r' w''. by apply issue_change.
  - eapply wp_mono; [apply wp_discard with (P := token_change w)|by intros].
    eapply wp_mono; [by apply refresh_token_spec|]. intros r' w''. by apply refresh_change.
  - eapply wp_mono; [apply wp_discard with (P := token_change w)|by intros].
    eapply wp_mono; [by apply token_check_spec|]. intros r' w'' (Hd & _ & Hs & Hok' & _).
    split; [rewrite Hd; apply rtc_refl|by split].
  - eapply wp_mono; [by apply revoke_token_spec|]. intros r' w'' (_ & Hs & Hr) _.
    destruct r'; [|(destruct_and?; by apply token_change_nothing)..].
    destruct Hr. by eapply (revoke_token_change access w).
  - eapply wp_mono; [apply revoke_all_spec|]. intros r' w'' (_ & Hs & Hr) Hc.
    destruct r'; [|by specialize (Hc eq_refl)..].
    destruct Hr as (now & hs & Hd & Hhs & Hcache). split; [rewrite Hd; apply revoke_all_reach|].
    split; [done|]. eapply cache_ok_invalidate; [exact Hok| |exact Hcache].
    rewrite Hd. by apply unchanged_revoke.
  - eapply wp_mono; [apply wp_discard with (P := token_change w)|by intros].
    apply wp_map_err. eapply wp_mono; [apply cleanup_spec|]. intros r' w'' (_ & Hs & Hr).
    destruct r'; [|(destruct_and?; by apply token_change_nothing)..]. destruct Hr as (_ & Hd & Hc).
    split; [rewrite Hd; apply drop_dead_reach|]. split; [done|]. by eapply cache_ok_prefix.
Qed.

Lemma token_change_refl w : token_cache_ok w -> token_change w w.
Proof. intros. split; [apply rtc_refl|by split]. Qed.

Lemma token_change_trans w w1 w2 : token_change w w1 -> token_change w1 w2 -> token_change w w2.
Proof.
  intros (Hr & Hs & _) (Hr' & Hs' & Hok). split; [|split; [lia|done]].
  etransitivity; [exact Hr|]. eapply token_reach_mono; [|exact Hr'].
  intros h (n & Hn & ->). exists n. split; [lia|done].
Qed.

Lemma token_history_change w w' : token_history w w' -> token_inv w -> token_change w w'.
Proof.
  induction 1 as [w|w w1 w2 (op & r & Hrun & Hc) _ IH]; intros Hinv.
  - by apply token_change_refl, Hinv.
  - pose proof (run_token_op_change _ _ _ _ Hinv Hrun Hc) as H1.
    eapply token_change_trans; [exact H1|]. apply IH. by eapply token_change_inv.
Qed.
End Histories.

(** ** Completeness of the check *)
Section Complete.
Context `{EN : Env} `{CB : CacheBackend} `{CL : !CacheLaws CB} `{BE : BanExterns}.
Context `{FC : ForgeCrypto}.
Context (NF : no_faults).

Lemma lookup_complete h t w :
  tokens_wf (db w) -> token_cache_ok w -> In t (rows (tokens (db w))) ->
  access_token_hash t = h ->
  wp (lookup_token h) (fun r w' => r = Ok t /\ same w w' /\ (step w' <= step w + 2)%nat) w.
Proof.
  intros Hwf Hok Hin Hh. eapply wp_mono with (Q := fun r w' => is_ok r = true /\
    (step w' <= step w + 2)%nat /\ same w w' /\ match r with
        | Ok t => In t (rows (tokens (db w))) /\ access_token_hash t = h | _ => True end).
  - pose proof (lookup_token_spec h w Hok) as Hs. unfold wp in *.
    unfold lookup_token, get_token, ygg, map_err, find_by_access_hash, db_query, db_exec, bind,
      cache_read, ret, throw in *. cbn in *.
    pose proof (find_hash_spec (db w) h) as Hf.
    destruct (match cache_get (cache w) (clock (step w)) (token_key h) with
              | Some (CvToken t) => Some t | _ => None end); cbn in *; [by split; [|split; [lia|]]|].
    rewrite NF in *. cbn in *.
    destruct (find_row _ _); cbn in *; [by split; [|split; [lia|]]|].
    by apply Hf in Hin.
  - intros [t'|e|m] w' (Hr & Hst & Hs & Ht); [|done..]. split; [|by split].
    destruct Ht as [Hin' Hh']. by rewrite (same_hash (db w) t' t) by congruence.
Qed.

Lemma banned_complete u scope w :
  bans_wf (db w) -> not_banned u scope (clock (step w)) (db w) ->
  fst (is_user_banned u scope w) = Ok false.
Proof.
  intros [_ Hok] Hn. apply not_banned_iff in Hn; [|intros b Hb; by apply Hok].
  unfold is_user_banned, active_user_ban_for_scope, BanRepo.find_effective_for_scope,
    bind, utc_now, db_query, db_exec, ret. cbn. rewrite NF. cbn. by rewrite Hn.
Qed.

Lemma check_complete access client allow t w :
  bans_wf (db w) ->
  revoked_at t = None -> (temporarily_invalidated_at t = None \/ allow = true) ->
  (forall c, client = Some c -> client_token t = c) ->
  clock (step w) < expires_at t ->
  not_banned (token_user_id t) YggdrasilAccess (clock (S (S (step w)))) (db w) ->
  fst (check_token (sha256_hex access) t client allow w) = Ok t.
Proof.
  intros Hb Hr Ht Hc Hexp Hban. unfold check_token, set_token.
  assert (Hcl : is_some_and client (fun c => negb (eqb (client_token t) c)) = false).
  { destruct client as [c|]; cbn; [|done]. rewrite (Hc c eq_refl). by rewrite eqb_refl. }
  assert (Htm : is_some (temporarily_invalidated_at t) && negb allow = false).
  { destruct Ht as [->| ->]; [done|]. by rewrite andb_false_r. }
  unfold bind, utc_now, cache_write, when_ok. rewrite Hr, Htm, Hcl. cbn [is_some orb].
  rewrite (proj2 (Z.leb_gt _ _)) by done. cbn [ret throw].
  unfold ygg, map_err. set (w2 := tick _).
  pose proof (banned_complete (token_user_id t) YggdrasilAccess w2 Hb Hban) as Hf.
  destruct (is_user_banned _ _ w2) as [r w3]. cbn in Hf. by subst r.
Qed.
End Complete.

(** What revoking all of a user's tokens leaves. *)
Lemma revoke_all_none_active u now d : active_of u (revoke_where (live_of u) now d) = [].
Proof.
  apply rows_where_none. intros t (v & Hv & ->)%in_update_where.
  destruct (live_of u v) eqn:E; [|done].
  unfold not_revoked, is_none. cbn. apply andb_false_r.
Qed.

Lemma revoke_all_hash_revoked u now d t :
  tokens_wf d -> In t (rows (tokens d)) -> token_user_id t = u ->
  hash_revoked (access_token_hash t) (revoke_where (live_of u) now d).
Proof.
  intros Hwf Ht Hu v (x & Hx & ->)%in_update_where.
  destruct (live_of u x) eqn:E; [done|]. intros Hh.
  rewrite (same_hash d x t) in E |- * by done.
  unfold live_of, not_revoked, is_none in E. rewrite Hu, Z.eqb_refl in E. cbn in E.
  by destruct (revoked_at t).
Qed.

(** A token whose rows are all revoked is refused. *)
Section Refusal.
Context `{EN : Env} `{CB : CacheBackend} `{CL : !CacheLaws CB} `{BE : BanExterns} `{FC : ForgeCrypto}.

Lemma hash_revoked_refused access client allow w :
  token_inv w -> hash_revoked (sha256_hex access) (db w) ->
  is_ok (fst (token_for_operation access client allow w)) = false.
Proof.
  intros (Hwf & Hb & Hok) Hrev.
  pose proof (token_check_spec access client allow w Hb Hok) as Hp. unfold wp, check_post in Hp.
  destruct (fst (token_for_operation access client allow w)) as [t|e|m]; [|done..].
  destruct Hp as (_ & _ & _ & _ & Hin & Hth & Hlive & _).
  specialize (Hrev t Hin Hth). by rewrite Hlive in Hrev.
Qed.
End Refusal.

(** ** The properties *)
Section Properties.
Context `{EN : Env} `{CB : CacheBackend} `{CL : !CacheLaws CB} `{BE : BanExterns}.
Context {TM : TxnManager} `{TL : !TxnLaws TM}.
Context `{FC : ForgeCrypto} `{FL : ForgeNumberLaws} `{CH : Chrono}.

(** C1: the check every protocol handler makes on an access token is sound.
    If it returns a token, then that is the stored row with the hash of the
    presented token, it is not revoked, it had not expired when the clock was
    read, it is not temporarily invalid (unless the operation allows that),
    the client token matches if one was presented, and its user had no ban
    from Yggdrasil access in effect - also when the row came from the cache.
    Whatever the answer, the tables and the audit log are untouched and the
    cache stays coherent. *)
Theorem token_check_sound access client allow w r w' :
  token_inv w -> token_for_operation access client allow w = (r, w') ->
  check_post access client allow w r w'.
Proof.
  intros (_ & Hb & Hok) Hrun. by eapply wp_run; [apply token_check_spec|].
Qed.

(** The check is complete: with a working database, a stored token that is
    not revoked, not expired, not temporarily invalid (or allowed to be),
    whose client token matches and whose user is not banned at the moments
    the check reads the clock, is accepted. *)
Theorem live_token_accepted access client allow w t :
  no_faults -> token_inv w -> In t (rows (tokens (db w))) ->
  access_token_hash t = sha256_hex access -> revoked_at t = None ->
  (temporarily_invalidated_at t = None \/ allow = true) ->
  (forall c, client = Some c -> client_token t = c) ->
  (forall n, (step w <= n <= step w + 4)%nat ->
     clock n < expires_at t /\ not_banned (token_user_id t) YggdrasilAccess (clock n) (db w)) ->
  fst (token_for_operation access client allow w) = Ok t.
Proof.
  intros NF (Hwf & Hb & Hok) Hin Hh Hr Ht Hc Hn.
  pose proof (lookup_complete NF (sha256_hex access) t w Hwf Hok Hin Hh) as Hl.
  unfold token_for_operation, bind. unfold wp in Hl.
  destruct (lookup_token _ w) as [r w1]. cbn in Hl. destruct Hl as (-> & Hs & Hst).
  pose proof Hs as (Hd & _ & _ & Hs1).
  apply check_complete; try done.
  - unfold bans_wf. by rewrite Hd.
  - apply Hn. lia.
  - rewrite Hd. apply Hn. lia.
Qed.


(** C3: refreshing a token is atomic, as the protocol requires. On success the
    old token was live and is now revoked (every row with its hash is), the
    table holds a row for the returned token whose hash was not in use before,
    with the requested user, client token and profile; that row is live if the
    user's other tokens were issued earlier (otherwise the limit on tokens may
    have revoked it), the limit holds and the cache is coherent - so the old
    token is no longer accepted. On any failure, tables and cache are as
    before: the old token stays valid. *)
Theorem refresh_token_atomic old u client sel policy req w r w' :
  token_inv w -> 1 <= max_active_tokens policy ->
  refresh_token old u client sel policy req w = (r, w') ->
  token_cache_ok w' /\
  match r with
  | Ok issued =>
      (exists t_old, In t_old (rows (tokens (db w))) /\
         access_token_hash t_old = sha256_hex old /\ revoked_at t_old = None) /\
      hash_revoked (sha256_hex old) (db w') /\
      (exists t, answers u client sel policy issued t /\
         ~ In (access_token_hash t) (List.map access_token_hash (rows (tokens (db w)))) /\
         held t (db w') /\
         ((forall v, In v (active_of u (db w)) -> issued_at v < issued_at t) ->
          In t (rows (tokens (db w'))))) /\
      Z.of_nat (length (active_of u (db w'))) <= max_active_tokens policy
  | _ => db w' = db w /\ cache w' = cache w
  end.
Proof.
  intros Hinv Hmax Hrun. pose proof Hinv as (Hwf & _ & _).
  pose proof (refresh_token_spec old u client sel policy req w Hwf) as Hp.
  eapply wp_run in Hp; [|exact Hrun].
  destruct (refresh_change _ _ _ _ _ _ _ _ Hinv Hp) as (_ & _ & Hok). split; [done|].
  destruct Hp as [Hp _]. destruct r as [issued|e|m]; [|done..].
  destruct Hp as (w1 & hs & Hrev & _ & _ & Hi & _).
  pose proof (refreshed_old_revoked _ _ _ _ _ _ _ _ _ _ Hwf Hrev Hi) as Hold.
  destruct (revoked_now_facts nothing _ _ _ Hwf Hrev) as (_ & _ & _ & Hin).
  destruct Hi as (t & Ha & _ & _ & Hn & _ & Hb & Hk & Hheld).
  destruct Hrev as (t0 & now & H0 & Hh & Hr0 & Hd1). rewrite Hd1 in Hn, Hk.
  split; [by exists t0|]. split; [done|]. split; [|apply Hb; lia].
  exists t. split; [done|]. split; [by cbn in Hn; rewrite update_where_map in Hn|].
  split; [done|]. intros Hnew. apply Hk; [lia|].
  intros v (Hv & Hu & Hr)%in_active_of. apply Hnew, in_active_of. split; [|done].
  cbn in Hv. apply in_update_where in Hv as (v0 & Hv0 & ->). by destruct (_ =? _).
Qed.

(** every history of token requests (issue, refresh, check, revoke,
    revoke all, cleanup, in any order, by anyone, with any failures except a
    failed revoke-all) keeps the invariants: keys and hashes stay unique, the
    cache holds only rows of the table under their own keys, and the table
    moved by steps of the abstract machine: issue, revoke live rows, delete
    dead rows. *)
Theorem token_history_sound w w' :
  token_inv w -> token_history w w' ->
  token_inv w' /\ token_reach (fresh_from (step w)) (db w) (db w').
Proof.
  intros Hinv Hh. pose proof (token_history_change _ _ Hh Hinv) as Hc.
  split; [by eapply token_change_inv|by destruct Hc].
Qed.

(** C30: a revoked token is never accepted again, as long as the cache is
    coherent with the table. If the cache holds only rows of the table
    ([token_inv]) and every row with the hash of a token is revoked, then after
    any history of token requests in which every request to revoke all of a
    user's tokens succeeded (the others may fail; a failed revoke-all can leave
    the cache behind the table, see [failed_revoke_all_leaves_cache]) -
    provided the random source does not draw a token with that hash - the check
    refuses the token, with or without a client token, also where temporarily
    invalid tokens are allowed. *)
Theorem revoked_token_never_accepted access client allow w w' :
  token_inv w -> hash_revoked (sha256_hex access) (db w) ->
  (forall n, (step w <= n)%nat -> sha256_hex (short_token n) <> sha256_hex access) ->
  token_history w w' ->
  is_ok (fst (token_for_operation access client allow w')) = false.
Proof.
  intros Hinv Hrev Hfresh Hh. pose proof (token_history_change _ _ Hh Hinv) as Hc.
  apply hash_revoked_refused; [by eapply token_change_inv|]. destruct Hc as (Hr & _ & _).
  eapply token_reach_revoked; [|exact Hr|done]. intros (n & Hn & E). by eapply Hfresh.
Qed.

(** A successful revocation of all of a user's tokens (sign-out) leaves the
    user no token that is not revoked, revokes nobody else's, keeps every
    token that was already revoked as it was, and removes the revoked ones
    from the cache. *)
Theorem revoke_all_complete u w w' :
  token_inv w -> Tokens.revoke_all_for_user u w = (Ok tt, w') ->
  token_cache_ok w' /\ active_of u (db w') = [] /\
  (forall t, In t (rows (tokens (db w))) -> live_of u t = false -> In t (rows (tokens (db w')))) /\
  (forall t, In t (rows (tokens (db w))) -> live_of u t = true ->
     hash_revoked (access_token_hash t) (db w')).
Proof.
  intros Hinv Hrun. pose proof Hinv as (Hwf & Hb & Hok).
  destruct (run_token_op_change (OpRevokeAll u) w (Ok tt) w' Hinv Hrun) as (_ & _ & Hok'); [done|].
  split; [done|]. pose proof (revoke_all_spec u w) as Hp. eapply wp_run in Hp; [|exact Hrun].
  destruct Hp as (_ & _ & now & hs & Hd & _ & _). rewrite Hd.
  split; [apply revoke_all_none_active|]. split.
  - intros t Ht Hl. cbn. apply in_update_where. exists t. by rewrite Hl.
  - intros t Ht Hl. apply revoke_all_hash_revoked; [done|done|].
    unfold live_of in Hl. apply andb_true_iff in Hl as [Hl _]. lia.
Qed.

(** The periodic cleanup deletes exactly the tokens that were expired or
    revoked when it read the clock, reports how many, keeps the order and
    content of the others, and empties the token cache; if it fails, nothing
    has changed. *)
Theorem cleanup_exact w r w' :
  token_inv w -> cleanup_expired_or_revoked_tokens w = (r, w') ->
  token_cache_ok w' /\
  match r with
  | Ok n =>
      rows (tokens (db w')) =
        rows_where (fun t => (clock (step w) <=? expires_at t) && not_revoked t)
                   (rows (tokens (db w))) /\
      n = Z.of_nat (length (rows (tokens (db w))) - length (rows (tokens (db w')))) /\
      (forall now k t, cache_get (cache w') now k <> Some (CvToken t))
  | _ => db w' = db w /\ cache w' = cache w
  end.
Proof.
  intros (Hwf & Hb & Hok) Hrun. pose proof (cleanup_spec w) as Hp.
  eapply wp_run in Hp; [|exact Hrun]. destruct Hp as (_ & Hs & Hr).
  destruct r as [n|e|m];
    [|split; [destruct Hr; by apply (token_change_nothing w w')|done]..].
  destruct Hr as (-> & Hd & Hc). split; [by eapply cache_ok_prefix|]. rewrite Hd. cbn.
  pose proof (length_delete_where (dead_at (clock (step w))) (rows (tokens (db w)))).
  split; [|split; [lia|intros; by eapply cache_prefix_empty]].
  apply rows_where_ext. intros t _. unfold dead_at, not_revoked, is_none.
  rewrite negb_orb. f_equal. by rewrite <- Z.leb_antisym.
Qed.

(** A configured token lifetime that does not fit the time library's range
    makes every issuance panic: the setting accepts any positive 64-bit
    number of days. (The tables and the cache are not changed.) *)
Theorem huge_token_ttl_panics (CHL : ChronoLaws CH) u client sel policy req w :
  no_faults -> tokens_wf (db w) -> token_ttl_days policy <= I64_MAX ->
  I64_MAX < token_ttl_days policy * 86400 * 1000 ->
  exists m w', issue_token u client sel policy req w = (Panic m, w') /\
               db w' = db w /\ cache w' = cache w.
Proof.
  intros NF Hwf Hle Hbig.
  pose proof (issue_token_spec u client sel policy req w Hwf) as Hp.
  destruct (issue_token u client sel policy req w) as [r w'] eqn:Hrun.
  eapply wp_run in Hp; [|exact Hrun]. destruct Hp as [Hp _].
  assert (Hpanic : forall w0, exists m w1,
    issue_token_in_connection u client sel policy (req_user_agent req) (req_peer_ip req) w0
      = (Panic m, w1)).
  { intros w0. unfold issue_token_in_connection, bind, utc_now, map_err, lift, new_short_token.
    pose proof (u64_to_i64_spec (token_ttl_days policy) "yggdrasil token ttl days") as Ht.
    rewrite (proj2 (Z.leb_le _ _)) in Ht by done. rewrite Ht. unfold add_days.
    rewrite add_days_panics by done. cbn. eauto. }
  pose proof (with_transaction_live _ (issue_token_in_connection u client sel policy
    (req_user_agent req) (req_peer_ip req)) w NF) as (w0 & _ & Hlive).
  destruct (Hpanic w0) as (m & w1 & Hm). rewrite Hm in Hlive. cbn in Hlive.
  unfold issue_token, bind, ygg, map_err in Hrun.
  destruct (with_transaction _ w) as [r0 w2]. cbn in Hlive. subst r0.
  injection Hrun as <- <-. by exists m, w2.
Qed.
End Properties.

(** ** Where a revoked token survives *)

(** One live token of alice, not yet cached. *)
Definition alice_issued : outcome Yggdrasil.YggdrasilError IssuedToken * World :=
  issue_token 1 "client" (Some 1) policy0 request0 world0.
Definition alice_access : string :=
  match fst alice_issued with Ok i => issued_access_token i | _ => "" end.
Definition alice_world : World := snd alice_issued.

Definition alice_hash : string := sha256_hex alice_access.
Definition no_token : yggdrasil_token := mkToken 0 0 "" "" None 0 0 None None None None.

(** The steps of the interleaving. *)
Definition race_read := lookup_token alice_hash alice_world.
Definition race_row : yggdrasil_token := match fst race_read with Ok t => t | _ => no_token end.
Definition race_revoke := revoke_by_access_token alice_access (snd race_read).
Definition race_resume := check_token alice_hash race_row None false (snd race_revoke).
Definition race_after := token_for_operation alice_access None false (snd race_resume).

(** An interleaving that leaves a revoked token usable. A check reads the
    token from the table; a revocation of the same token then runs to
    completion, cache invalidation included; the check resumes, writes the
    row it had read into the cache and accepts. From then on the check
    accepts the revoked token from the cache, and each use renews the
    cache entry. *)
Theorem stale_check_resurrects_token :
  exists t w1 w2 w3 w4,
    lookup_token alice_hash alice_world = (Ok t, w1) /\
    revoke_by_access_token alice_access w1 = (Ok tt, w2) /\
    check_token alice_hash t None false w2 = (Ok t, w3) /\
    token_for_operation alice_access None false w3 = (Ok t, w4) /\
    List.map (fun r => (access_token_hash r, is_some (revoked_at r))) (rows (tokens (db w3)))
      = [(alice_hash, true)].
Proof.
  exists race_row, (snd race_read), (snd race_revoke), (snd race_resume), (snd race_after).
  do 4 (split; [vm_compute; reflexivity|]). vm_compute. reflexivity.
Qed.

(** The same environment with one database failure, at tick [k]. *)
Definition env_with_fault (k : nat) : Env :=
  {| clock := @clock env0;
     db_fault := fun n => if Nat.eqb n k then Some "connection lost"%string else None;
     short_token := @short_token env0;
     random_draw := @random_draw env0;
     record_not_updated := @record_not_updated env0;
     unique_violation := @unique_violation env0;
     foreign_key_violation := @foreign_key_violation env0 |}.

(** Alice's token after it was checked once, and hence cached. *)
Definition alice_cached : World :=
  snd (token_for_operation alice_access None false alice_world).
Definition fault_env : Env := env_with_fault (step alice_cached + 5).
Definition fault_revoke := Tokens.revoke_all_for_user (EN := fault_env) 1 alice_cached.
Definition fault_error : Yggdrasil.YggdrasilError :=
  match fst fault_revoke with Err e => e | _ => invalid_token end.
Definition fault_after :=
  token_for_operation (EN := fault_env) alice_access None false
    (snd fault_revoke).

(** Revoking all of a user's tokens is not atomic: when the last of its
    statements fails, the tokens are already revoked in the table but the
    request fails before it invalidates the cache, and the revoked token is
    still accepted afterwards. *)
Theorem failed_revoke_all_leaves_cache :
  exists e w1 t w2,
    Tokens.revoke_all_for_user (EN := fault_env) 1 alice_cached = (Err e, w1) /\
    List.map (fun r => (token_user_id r, is_some (revoked_at r))) (rows (tokens (db w1)))
      = [(1, true)] /\
    token_for_operation (EN := fault_env) alice_access None false w1
      = (Ok t, w2).
Proof.
  exists fault_error, (snd fault_revoke),
    (match fst fault_after with Ok t => t | _ => no_token end), (snd fault_after).
  do 2 (split; [vm_compute; reflexivity|]). vm_compute. reflexivity.
Qed.

(** ** Instances of the properties *)

Lemma world0_token_inv : token_inv world0.
Proof.
  split; [split; [apply List.NoDup_nil|split; [apply List.NoDup_nil|done]]|].
  split; [apply world0_bans_wf|]. by intros now k t.
Qed.

Definition issue_op : TokenOp := OpIssue 1 "client" (Some 1) policy0 request0.

Lemma issue_run : run_token_op issue_op world0 = (Ok tt, alice_world).
Proof. vm_compute. reflexivity. Qed.

Lemma alice_world_inv : token_inv alice_world.
Proof.
  eapply token_change_inv; [exact world0_token_inv|].
  by apply (run_token_op_change issue_op world0 (Ok tt) alice_world world0_token_inv issue_run).
Qed.

Definition alice_token : yggdrasil_token := List.hd no_token (rows (tokens (db alice_world))).
Definition alice_revoked : World := snd (revoke_by_access_token alice_access alice_world).

Lemma alice_revoked_run :
  run_token_op (OpRevokeToken alice_access) alice_world = (Ok tt, alice_revoked).
Proof. vm_compute. reflexivity. Qed.

Lemma alice_revoked_inv : token_inv alice_revoked.
Proof.
  eapply token_change_inv; [exact alice_world_inv|].
  by apply (run_token_op_change (OpRevokeToken alice_access) alice_world (Ok tt) alice_revoked
              alice_world_inv alice_revoked_run).
Qed.

Lemma token_check_sound_witness :
  In alice_token (rows (tokens (db alice_world))) /\ revoked_at alice_token = None.
Proof.
  destruct (token_check_sound alice_access (Some "client"%string) false alice_world (Ok alice_token)
              (snd (token_for_operation alice_access (Some "client"%string) false alice_world))
              alice_world_inv) as (_ & _ & _ & _ & Hin & _ & Hr & _);
    [vm_compute; reflexivity|by split].
Defined.

Lemma live_token_accepted_witness :
  fst (token_for_operation alice_access None false alice_world) = Ok alice_token.
Proof.
  apply (live_token_accepted alice_access None false alice_world alice_token env0_no_faults
           alice_world_inv).
  - vm_compute. by left.
  - vm_compute. reflexivity.
  - vm_compute. reflexivity.
  - left. vm_compute. reflexivity.
  - done.
  - intros n Hn. split; [|by intros b []].
    change (step alice_world) with 6%nat in Hn. replace (expires_at alice_token) with 1297000000000000 by (vm_compute; reflexivity).
    cbn [clock env0]. unfold seconds, NANOS_PER_SEC. lia.
Defined.


Lemma refresh_token_atomic_witness :
  hash_revoked alice_hash
    (db (snd (refresh_token alice_access 1 "client" (Some 1) policy0 request0 alice_world))).
Proof.
  destruct (refresh_token_atomic alice_access 1 "client" (Some 1) policy0 request0 alice_world
              (fst (refresh_token alice_access 1 "client" (Some 1) policy0 request0 alice_world))
              (snd (refresh_token alice_access 1 "client" (Some 1) policy0 request0 alice_world))
              alice_world_inv) as [_ H]; [done|apply surjective_pairing|].
  destruct (fst (refresh_token _ _ _ _ _ _ _)) as [i|e|m] eqn:E; [|vm_compute in E; discriminate..].
  apply H.
Defined.

Lemma alice_history : token_history alice_world alice_revoked.
Proof. apply rtc_once. by exists (OpRevokeToken alice_access), (Ok tt). Qed.

Lemma token_history_sound_witness : token_inv alice_revoked.
Proof. apply (token_history_sound alice_world alice_revoked alice_world_inv alice_history). Defined.

Lemma revoked_token_never_accepted_witness :
  is_ok (fst (token_for_operation alice_access None true alice_revoked)) = false.
Proof.
  apply (revoked_token_never_accepted alice_access None true alice_revoked alice_revoked
           alice_revoked_inv); [| |apply rtc_refl].
  - vm_compute. intros t [<-|[]] _. reflexivity.
  - intros n Hn. change (sha256_hex alice_access) with ("#" +:+ ("t" +:+ pretty 1%nat))%string.
    cbn. intros [= E]. change (@pretty nat _ n = @pretty nat _ 1%nat) in E.
    apply (inj (@pretty nat _)) in E. rewrite E in Hn. vm_compute in Hn. lia.
Defined.

Lemma revoke_all_complete_witness :
  active_of 1 (db (snd (Tokens.revoke_all_for_user 1 alice_world))) = [].
Proof.
  apply (revoke_all_complete 1 alice_world (snd (Tokens.revoke_all_for_user 1 alice_world))
           alice_world_inv).
  vm_compute. reflexivity.
Defined.

Lemma cleanup_exact_witness :
  rows (tokens (db (snd (cleanup_expired_or_revoked_tokens alice_revoked)))) = [].
Proof.
  destruct (cleanup_exact alice_revoked (Ok 1) (snd (cleanup_expired_or_revoked_tokens alice_revoked))
              alice_revoked_inv) as (_ & H & _); [vm_compute; reflexivity|].
  rewrite H. vm_compute. reflexivity.
Defined.

Definition huge_policy : RuntimeYggdrasilPolicy :=
  mkPolicy "AsterYggdrasil" true true true true true true 1000000000000 2 4194304 16777216 1 1 true 3
           "https://api.mojang.com" [] [] None "" "".

Lemma huge_token_ttl_panics_witness :
  exists m w', issue_token 1 "client" None huge_policy request0 world0 = (Panic m, w') /\
    db w' = db world0 /\ cache w' = cache world0.
Proof.
  apply (huge_token_ttl_panics chrono0_laws 1 "client" None huge_policy request0 world0).
  - exact env0_no_faults.
  - apply world0_token_inv.
  - vm_compute. discriminate.
  - vm_compute. reflexivity.
Defined.
