(* ===== verification/AuthProofs.v ===== *)
(** * The authentication handlers: proofs

    Who gets a token, what it is bound to, and what the other handlers do to
    tokens; built on the theorems' lemmas of TokenProofs.v. *)

From Stdlib Require Import ZArith List Bool Lia Permutation Sorted.
From stdpp Require Import base decidable list strings relations pretty.
From S2P Require Import Prelude Text Errors Types AuditLog World Logic Repos Bans Tokens Auth Concrete BanProofs TokenSpec TokenProofs TokenTheorems.

Local Open Scope Z_scope.
Local Open Scope aster_scope.

Section Login.
Context `{EN : Env} `{CB : CacheBackend} `{BE : BanExterns} `{FC : ForgeCrypto} `{RC : RuntimeConfig}.

#[export] Instance reads_find_by_identifier i : Reads (UserRepo.find_by_identifier i).
Proof. unfold UserRepo.find_by_identifier. apply _. Qed.
#[export] Instance reads_user_by_id i : Reads (UserRepo.find_by_id i).
Proof. unfold UserRepo.find_by_id. apply _. Qed.
#[export] Instance reads_profile_by_name i : Reads (ProfileRepo.find_by_name i).
Proof. unfold ProfileRepo.find_by_name. apply _. Qed.
#[export] Instance reads_profile_by_id i : Reads (ProfileRepo.find_by_id i).
Proof. unfold ProfileRepo.find_by_id. apply _. Qed.
#[export] Instance reads_profile_by_uuid i : Reads (ProfileRepo.find_by_uuid i).
Proof. unfold ProfileRepo.find_by_uuid. apply _. Qed.
#[export] Instance reads_list_by_user i : Reads (ProfileRepo.list_by_user i).
Proof. unfold ProfileRepo.list_by_user. apply _. Qed.
#[export] Instance reads_ygg {A} (c : M AsterError.t A) : Reads c -> Reads (ygg c).
Proof. unfold ygg. apply _. Qed.
#[export] Instance reads_resolve i p : Reads (resolve_login_target i p).
Proof. unfold resolve_login_target. apply _. Qed.
#[export] Instance reads_check_password p h : Reads (check_password p h).
Proof. unfold check_password. apply _. Qed.
#[export] Instance reads_authenticate_login b : Reads (authenticate_login b).
Proof. unfold authenticate_login. apply _. Qed.
#[export] Instance reads_refresh_profile_id e u r : Reads (refresh_profile_id e u r).
Proof. unfold refresh_profile_id. apply _. Qed.
#[export] Instance reads_selected_profile t : Reads (selected_profile_for_token t).
Proof. unfold selected_profile_for_token. apply _. Qed.

(** *** Inverting lookups *)

Lemma user_by_id_ok i w u w' :
  UserRepo.find_by_id i w = (Ok u, w') -> In u (rows (users (db w))) /\ user_pk u = i /\ same w w'.
Proof.
  intros H. pose proof (reads_run _ _ _ _ H) as Hs. unfold UserRepo.find_by_id in H. inv_ok H.
  destruct (find_row _ _) as [v|] eqn:Hf; [|done]. injection Hr0 as <-.
  apply find_row_some in Hf as [Hin Hpk]. split; [done|]. split; [lia|done].
Qed.

Lemma profile_by_id_ok i w p w' :
  ProfileRepo.find_by_id i w = (Ok p, w') ->
  In p (rows (profiles (db w))) /\ profile_pk p = i /\ same w w'.
Proof.
  intros H. pose proof (reads_run _ _ _ _ H) as Hs. unfold ProfileRepo.find_by_id in H. inv_ok H.
  destruct (find_row _ _) as [v|] eqn:Hf; [|done]. injection Hr0 as <-.
  apply find_row_some in Hf as [Hin Hpk]. split; [done|]. split; [lia|done].
Qed.

(** [target] is what the identifier resolves to. *)
Definition login_resolves (identifier : string) (policy : RuntimeYggdrasilPolicy) (d : Db)
  (target : LoginTarget) : Prop :=
  In (login_user target) (rows (users d)) /\
  match forced_profile target with
  | None => username (login_user target) = identifier \/ email (login_user target) = Some identifier
  | Some p => allow_profile_name_login policy = true /\ In p (rows (profiles d)) /\
              normalized_name p = to_ascii_lowercase identifier /\
              profile_user_id p = user_pk (login_user target)
  end.

Lemma resolve_ok identifier pol w target w' :
  resolve_login_target identifier pol w = (Ok target, w') ->
  login_resolves identifier pol (db w) target.
Proof.
  unfold resolve_login_target, ygg, UserRepo.find_by_identifier. intros H.
  apply bind_ok in H as (u & w1 & H1 & H). inv_ok H1.
  destruct (find_row _ (rows (users (db w)))) as [u|] eqn:Hu.
  - inv_ok H. apply find_row_some in Hu as [Hin Hid]. split; [done|]. cbn.
    rewrite orb_true_iff, !eqb_true in Hid. done.
  - apply bind_ok in H as ([] & w2 & [Hg ->]%when_ok_ok & H).
    apply bind_ok in H as (p & w3 & Hp & H). unfold ProfileRepo.find_by_name in Hp. inv_ok Hp.
    cbn [db tick] in H. destruct (find_row _ (rows (profiles (db w)))) as [p|] eqn:Hp; [|done].
    apply bind_ok in H as (u & w4 & Hf & H). rewrite map_err_ok in Hf.
    apply user_by_id_ok in Hf as (Hin & Hpk & Hs). inv_ok H. cbn in Hin.
    apply find_row_some in Hp as [Hpin Hn]. rewrite eqb_true in Hn.
    split; [done|]. cbn. rewrite negb_false_iff in Hg. auto.
Qed.

(** The person behind the request has proved who they are and may play. *)
Definition logged_in (body : YggdrasilAuthenticateReq) (w w' : World) (target : LoginTarget)
  : Prop :=
  let u := login_user target in
  login_resolves (ar_username body) policy (db w) target /\
  is_empty (trim (ar_username body)) = false /\ is_empty (ar_password body) = false /\
  (forall agent, ar_agent body = Some agent ->
     agent_name agent = "Minecraft"%string /\ agent_version agent = 1) /\
  user_status u = UserActive /\ is_email_activation_satisfied u = true /\
  verify_password (ar_password body) (password_hash u) = Ok true /\
  exists n, (step w <= n <= step w')%nat /\
    not_banned (user_pk u) YggdrasilAccess (clock n) (db w).

Lemma check_password_ok p h w b w' :
  check_password p h w = (Ok b, w') -> verify_password p h = Ok b /\ w' = w.
Proof.
  unfold check_password, ygg. rewrite !map_err_ok, lift_ok. done.
Qed.

Lemma not_banned_run u scope w w' :
  bans_wf (db w) -> is_user_banned u scope w = (Ok false, w') ->
  not_banned u scope (clock (step w)) (db w).
Proof.
  intros [_ Hok] [_ Hr]%is_user_banned_ok. apply not_banned_iff; [|done].
  intros b Hb. by apply Hok.
Qed.

Lemma authenticate_login_ok body w target w' :
  bans_wf (db w) -> authenticate_login body w = (Ok target, w') ->
  logged_in body w w' target /\ same w w'.
Proof.
  intros Hb H. pose proof (reads_run _ _ _ _ H) as Hsame. split; [|done].
  unfold authenticate_login in H.
  apply bind_ok in H as ([] & ? & [Hcred ->]%when_ok_ok & H).
  apply bind_ok in H as ([] & ? & [Hagent ->]%when_ok_ok & H).
  apply bind_ok in H as (t & w1 & Hres & H).
  pose proof (reads_run _ _ _ _ Hres) as Hs1. apply resolve_ok in Hres.
  apply bind_ok in H as ([] & ? & [Hact ->]%when_ok_ok & H).
  apply bind_ok in H as ([] & ? & [Hmail ->]%when_ok_ok & H).
  apply bind_ok in H as (v & ? & [Hpw ->]%check_password_ok & H).
  apply bind_ok in H as ([] & ? & [Hv ->]%when_ok_ok & H).
  apply bind_ok in H as (banned & w2 & Hban & H).
  apply bind_ok in H as ([] & ? & [-> ->]%when_ok_ok & H). inv_ok H.
  unfold ygg in Hban. rewrite map_err_ok in Hban.
  pose proof (reads_run _ _ _ _ Hban) as Hs2.
  apply not_banned_run in Hban; [|unfold bans_wf; by rewrite (same_db _ _ Hs1)].
  rewrite (same_db _ _ Hs1) in Hban. rewrite negb_false_iff in Hact, Hmail, Hv. subst v.
  apply orb_false_iff in Hcred as [Hu Hp].
  split; [done|]. split; [done|]. split; [done|]. split.
  { intros agent Ha. rewrite Ha in Hagent. cbn in Hagent.
    apply orb_false_iff in Hagent as [Hn Hver]. rewrite negb_false_iff, eqb_true in Hn.
    rewrite negb_false_iff in Hver. split; [done|lia]. }
  split; [by destruct (user_status _)|]. split; [done|]. split; [done|].
  exists (step w1). split; [|done].
  apply same_step in Hs1. apply same_step in Hs2. lia.
Qed.
End Login.

Section Handlers.
Context `{EN : Env} `{CB : CacheBackend} `{CL : !CacheLaws CB} `{BE : BanExterns}.
Context {TM : TxnManager} `{TL : !TxnLaws TM}.
Context `{FC : ForgeCrypto} `{FL : ForgeNumberLaws} `{CH : Chrono} `{RC : RuntimeConfig}.

(** *** Authenticate *)

Lemma wp_log {E} ctx action ty id name (Q : outcome E unit -> World -> Prop) w :
  (forall w', db w' = db w -> cache w' = cache w -> (step w <= step w')%nat ->
     audit_log w' = audit_log w ++
       (if should_record audit_settings action then [mkEntry ctx action ty id name] else []) ->
     Q (Ok tt) w') ->
  wp (AuditService.log_with_details ctx action ty id name) Q w.
Proof.
  intros H. unfold AuditService.log_with_details, wp.
  destruct (should_record _ _); cbn; apply H; cbn; auto. by rewrite app_nil_r.
Qed.

(** The profile a token is bound to belongs to its user. *)
Definition own_profile (d : Db) (u : user) (sel : option Z) : Prop :=
  forall id, sel = Some id -> exists p, In p (rows (profiles d)) /\ profile_pk p = id /\
    profile_user_id p = user_pk u.

Definition authenticated (body : YggdrasilAuthenticateReq) (req : HttpRequest) (w w' : World)
  (resp : YggdrasilAuthenticateResp) : Prop :=
  exists target sel t issued,
    (exists w1, logged_in body w w1 target) /\
    own_profile (db w) (login_user target) sel /\
    (forall c, ar_client_token body = Some c -> is_empty (trim c) = false ->
       as_client_token resp = c) /\
    as_access_token resp = issued_access_token issued /\
    answers (user_pk (login_user target)) (as_client_token resp) sel policy issued t /\
    ~ In (access_token_hash t) (List.map access_token_hash (rows (tokens (db w)))) /\
    held t (db w') /\
    ((forall v, In v (active_of (user_pk (login_user target)) (db w)) -> issued_at v < issued_at t) ->
     In t (rows (tokens (db w')))) /\
    Z.of_nat (length (active_of (user_pk (login_user target)) (db w'))) <= max_active_tokens policy /\
    exists name, audit_log w' = audit_log w ++
      (if should_record audit_settings AuditAction.YggdrasilAuthenticate
       then [mkEntry (AuditService.from_request req (user_pk (login_user target)))
               AuditAction.YggdrasilAuthenticate YggdrasilToken (Some (token_pk t)) name]
       else []).

Lemma list_by_user_ok u w l w' :
  ygg (ProfileRepo.list_by_user u) w = (Ok l, w') ->
  forall p, In p l <-> In p (rows (profiles (db w))) /\ profile_user_id p = u.
Proof.
  unfold ygg. rewrite map_err_ok. unfold ProfileRepo.list_by_user. intros H. inv_ok H.
  intros p. rewrite in_sort_by, in_rows_where, Z.eqb_eq. done.
Qed.

Lemma select_profile_own d u target profiles :
  login_resolves u policy d target ->
  (forall p, In p profiles <-> In p (rows (World.profiles d)) /\
             profile_user_id p = user_pk (login_user target)) ->
  own_profile d (login_user target) (select_profile_id (forced_profile target) profiles).
Proof.
  intros [_ Hf] Hl id. unfold select_profile_id. destruct (forced_profile target) as [p|].
  - intros [= <-]. exists p. tauto.
  - destruct profiles as [|p [|? ?]]; [done| |done]. intros [= <-].
    exists p. destruct (proj1 (Hl p)) as [? ?]; [by left|auto].
Qed.

Lemma token_change_frame w w1 w2 :
  token_change w w1 -> db w2 = db w1 -> cache w2 = cache w1 -> (step w1 <= step w2)%nat ->
  token_change w w2.
Proof.
  intros (Hr & Hs & Hok) Hd Hc Hst. split; [by rewrite Hd|]. split; [lia|].
  intros now k t. rewrite Hd, Hc. apply Hok.
Qed.

Lemma authenticate_spec body req w :
  token_inv w -> 1 <= max_active_tokens policy ->
  wp (authenticate body req)
     (fun r w' => token_change w w' /\
        match r with
        | Ok resp => authenticated body req w w' resp
        | _ => db w' = db w /\ cache w' = cache w /\ audit_log w' = audit_log w
        end) w.
Proof.
  intros Hinv Hmax. pose proof Hinv as (Hwf & Hb & Hok). unfold authenticate.
  assert (Hkept : forall w', db w' = db w -> cache w' = cache w -> audit_log w' = audit_log w ->
                    (step w <= step w')%nat -> token_change w w' /\ db w' = db w /\
                    cache w' = cache w /\ audit_log w' = audit_log w).
  { intros w' Hd Hc Ha Hs. split; [by apply token_change_nothing|done]. }
  assert (Hnone : forall w', same w w' -> token_change w w' /\ db w' = db w /\
                    cache w' = cache w /\ audit_log w' = audit_log w).
  { intros w' (Hd & Hc & [Ha _] & Hs). by apply Hkept. }
  apply wp_bind, wp_reads; [apply _|]. intros r w1 Hlog Hs1.
  destruct r as [target|e|m]; cbn [wp_next]; [|by apply Hnone..].
  apply authenticate_login_ok in Hlog as [Hlog _]; [|done].
  apply wp_bind, wp_reads; [apply _|]. intros r w2 Hpr Hs2.
  pose proof (same_trans _ _ _ Hs1 Hs2) as Hs02.
  destruct r as [profiles|e|m]; cbn [wp_next]; [|by apply Hnone..].
  pose proof (list_by_user_ok _ _ _ _ Hpr) as Hl. rewrite (same_db _ _ Hs1) in Hl.
  set (sel := select_profile_id _ _).
  apply wp_bind, wp_reads; [destruct (ar_client_token body); apply _|]. intros r w3 Hct Hs3.
  pose proof (same_trans _ _ _ Hs02 Hs3) as Hs03.
  destruct r as [client|e|m]; cbn [wp_next]; [|by apply Hnone..].
  pose proof Hs03 as (Hd3 & Hc3 & [Ha3 _] & Hst3).
  apply wp_bind. eapply wp_mono; [apply issue_token_spec; by rewrite Hd3|].
  intros r w4 Hpost. pose proof Hpost as (Hp & Ha4 & Hst4).
  destruct r as [issued|e|m]; cbn [wp_next];
    [|destruct Hp; apply Hkept; (congruence || lia)..].
  destruct Hp as (hs & Hiss & Hc4).
  assert (Hiss0 : issued_in (user_pk (login_user target)) client sel policy w w4 issued hs)
    by (eapply issued_in_frame; [exact Hs03|exact Hiss|done|done|lia]).
  apply wp_bind, wp_log. intros w5 Hd5 Hc5 Hst5 Ha5. cbn [wp_next]. apply wp_ret.
  split.
  - eapply token_change_frame; [|exact Hd5|exact Hc5|exact Hst5].
    eapply issued_in_change; [exact Hok|exact Hiss0|by rewrite Hc4, Hc3].
  - destruct Hiss0 as (t & Ha & _ & _ & Hnew & _ & Hbound & Hk & Hheld).
    exists target, sel, t, issued. split; [by exists w1|].
    split; [apply (select_profile_own _ (ar_username body)); [apply Hlog|done]|]. cbn.
    split; [|split; [done|split; [done|split; [done|rewrite Hd5; split; [done|split; [by apply Hk|split; [apply Hbound; lia|]]]]]]].
    + intros c Hc Hne. rewrite Hc, Hne in Hct. by inv_ok Hct.
    + destruct Ha as (-> & _). eexists. rewrite Ha5, Ha4, Ha3. done.
Qed.

(** *** Refresh *)

(** What the profile of a refreshed token may be: the one it already had, or
    - for a token without one - a profile of the same user. *)
Definition refreshed_profile (d : Db) (existing : yggdrasil_token) (u : user)
  (requested : option YggdrasilProfile) (sel : option Z) : Prop :=
  match requested with
  | None => sel = selected_profile_id existing
  | Some req => selected_profile_id existing = None /\
      exists p, In p (rows (profiles d)) /\ uuid p = ygg_id req /\
                profile_user_id p = user_pk u /\ sel = Some (profile_pk p)
  end.

Lemma refresh_profile_ok existing u requested w sel w' :
  refresh_profile_id existing u requested w = (Ok sel, w') ->
  refreshed_profile (db w) existing u requested sel.
Proof.
  unfold refresh_profile_id, ygg, ProfileRepo.find_by_uuid. destruct requested as [req|]; intros H.
  - apply bind_ok in H as ([] & ? & [Hg ->]%when_ok_ok & H).
    apply bind_ok in H as (p & w1 & Hp & H). inv_ok Hp.
    destruct (find_row _ _) as [p|] eqn:Hf; [|done].
    apply bind_ok in H as ([] & ? & [Hu ->]%when_ok_ok & H). inv_ok H.
    apply find_row_some in Hf as [Hin Hid]. rewrite eqb_true in Hid.
    rewrite negb_false_iff, Z.eqb_eq in Hu.
    split; [by destruct (selected_profile_id existing)|]. by exists p.
  - by inv_ok H.
Qed.

Definition refreshed (body : YggdrasilRefreshReq) (w w' : World) (resp : YggdrasilRefreshResp)
  : Prop :=
  exists existing u sel t issued,
    (exists w1, accepted (rr_access_token body) (rr_client_token body) true w w1 existing) /\
    In u (rows (users (db w))) /\ user_pk u = token_user_id existing /\
    user_status u = UserActive /\
    refreshed_profile (db w) existing u (rr_selected_profile body) sel /\
    hash_revoked (sha256_hex (rr_access_token body)) (db w') /\
    rs_access_token resp = issued_access_token issued /\
    rs_client_token resp = client_token existing /\
    answers (user_pk u) (client_token existing) sel policy issued t /\
    access_token_hash t <> sha256_hex (rr_access_token body).

Lemma token_change_check w w' :
  db w' = db w -> (step w <= step w')%nat -> token_cache_ok w' -> token_change w w'.
Proof. intros Hd Hs Hok. split; [rewrite Hd; apply rtc_refl|by split]. Qed.

(** The handler up to the exchange of the tokens: on failure the tables are
    as before; on success the exchange has been made. *)
Lemma refresh_spec body req w :
  token_inv w -> 1 <= max_active_tokens policy ->
  wp (refresh body req)
     (fun r w' => token_change w w' /\
        match r with
        | Ok resp => refreshed body w w' resp
        | _ => db w' = db w \/ hash_revoked (sha256_hex (rr_access_token body)) (db w')
        end) w.
Proof.
  intros Hinv Hmax. pose proof Hinv as (Hwf & Hb & Hok). unfold refresh, refreshable_token.
  apply wp_bind. eapply wp_mono; [by apply token_check_spec|].
  intros r w1 (Hd1 & Ha1 & Hst1 & Hok1 & Hacc).
  assert (Hnone : forall w', same w1 w' -> token_change w w' /\
            (db w' = db w \/ hash_revoked (sha256_hex (rr_access_token body)) (db w'))).
  { intros w' Hs. pose proof Hs as (Hd & _ & _ & Hst). split; [|left; congruence].
    apply token_change_check; [congruence|lia|by eapply cache_ok_same]. }
  destruct r as [existing|e|m]; cbn [wp_next]; [|by apply Hnone, same_refl..].
  apply wp_bind, wp_reads; [apply _|]. intros r w2 Hu Hs2.
  destruct r as [u|e|m]; cbn [wp_next]; [|by apply Hnone..].
  unfold ygg in Hu. rewrite map_err_ok in Hu. apply user_by_id_ok in Hu as (Huin & Hupk & _).
  apply wp_bind, wp_when_ok; intros Hact; cbn [wp_next]; [by apply Hnone|].
  apply wp_bind, wp_reads; [apply _|]. intros r w3 Hsel Hs3.
  pose proof (same_trans _ _ _ Hs2 Hs3) as Hs13.
  destruct r as [sel|e|m]; cbn [wp_next]; [|by apply Hnone..].
  apply refresh_profile_ok in Hsel. rewrite (same_db _ _ Hs2) in Hsel.
  pose proof Hs13 as (Hd3 & Hc3 & [Ha3 _] & Hst3).
  assert (Hinv3 : token_inv w3).
  { split; [by rewrite Hd3, Hd1|]. split; [unfold bans_wf; by rewrite Hd3, Hd1|by eapply cache_ok_same]. }
  apply wp_bind. eapply wp_mono; [apply refresh_token_spec, Hinv3|].
  intros r w4 Hpost. pose proof (refresh_change _ _ _ _ _ _ _ _ Hinv3 Hpost) as Hch4.
  assert (Hch : token_change w w4).
  { eapply token_change_trans; [|exact Hch4].
    apply token_change_check; [congruence|lia|apply Hinv3]. }
  destruct Hpost as (Hp & _ & Hst4).
  destruct r as [issued|e|m]; cbn [wp_next]; [|(split; [exact Hch|left; destruct Hp; congruence])..].
  destruct Hp as (wr & hs & Hrev & _ & _ & Hiss & _).
  pose proof (refreshed_old_revoked _ _ _ _ _ _ _ _ _ _ (proj1 Hinv3) Hrev Hiss) as Hold.
  destruct (revoked_now_facts nothing _ _ _ (proj1 Hinv3) Hrev) as (_ & _ & _ & Hin).
  destruct Hiss as (t & Ha & _ & _ & Hnew & _).
  apply wp_bind, wp_reads; [destruct sel; apply _|]. intros r w5 _ Hs5.
  pose proof Hs5 as (Hd5 & Hc5 & [Ha5 _] & Hst5).
  assert (Hch5 : token_change w w5) by (by eapply token_change_frame).
  destruct r as [prof|e|m]; cbn [wp_next]; [|(split; [exact Hch5|right; by rewrite Hd5])..].
  apply wp_bind, wp_log. intros w6 Hd6 Hc6 Hst6 _. cbn [wp_next]. apply wp_ret.
  split; [by eapply token_change_frame|].
  exists existing, u, sel, t, issued. rewrite Hd1 in Huin, Hsel. rewrite Hd6, Hd5.
  split; [by exists w1|]. rewrite negb_false_iff in Hact.
  split; [done|]. split; [done|]. split; [by destruct (user_status u)|].
  do 5 (split; [done|]).
  intros E. apply Hnew. by rewrite E.
Qed.

(** *** Validate, invalidate, sign out *)

Lemma ok_of_check body (Q : outcome Yggdrasil.YggdrasilError (option yggdrasil_token) -> World -> Prop) w :
  token_inv w ->
  (forall r w', db w' = db w -> audit_log w' = audit_log w -> (step w <= step w')%nat ->
     token_cache_ok w' -> match r with Err _ => False | _ => True end -> Q r w') ->
  wp (ok (active_token (tr_access_token body) None)) Q w.
Proof.
  intros (Hwf & Hb & Hok) H. unfold ok, active_token. apply wp_bind, wp_catch.
  eapply wp_mono; [by apply token_check_spec|].
  intros [t|e|m] w1 (Hd & Ha & Hs & Hok1 & _); cbn [wp_next]; try apply wp_ret; by apply H.
Qed.

Lemma invalidate_spec body w :
  token_inv w ->
  wp (invalidate body)
     (fun r w' => token_change w w' /\
        match r with
        | Ok _ => hash_revoked (sha256_hex (tr_access_token body)) (db w')
        | _ => db w' = db w
        end) w.
Proof.
  intros Hinv. pose proof Hinv as (Hwf & Hb & Hok). unfold invalidate.
  apply wp_bind, ok_of_check; [done|]. intros r w1 Hd1 Ha1 Hst1 Hok1 Hne.
  destruct r as [token|e|m]; cbn [wp_next]; [|done|split; [by apply token_change_check|done]].
  apply wp_bind, wp_reads; [apply _|]. intros r w2 _ (Hd2 & Hc2 & [Ha2 _] & Hst2).
  assert (Hok2 : token_cache_ok w2) by (intros now k t; rewrite Hd2, Hc2; apply Hok1).
  assert (Hd20 : db w2 = db w) by congruence.
  destruct r as [prof|e|m]; cbn [wp_next]; [|split; [apply token_change_check; (done || lia)|done]..].
  assert (Hinv2 : token_inv w2) by (split; [by rewrite Hd20|split; [unfold bans_wf; by rewrite Hd20|done]]).
  apply wp_bind. eapply wp_mono; [apply revoke_token_spec, Hinv2|].
  intros r w3 (Ha3 & Hst3 & Hr).
  destruct r as [[]|e|m]; cbn [wp_next];
    [|destruct Hr as [Hd3 Hc3]; split;
       [apply token_change_check; [congruence|lia|intros now k t; rewrite Hd3, Hc3; apply Hok2]|congruence]..].
  destruct Hr as [Hr Hc3].
  assert (Hch : token_change w w3).
  { eapply token_change_trans; [apply (token_change_check w w2); (done || lia)|].
    by apply (revoke_token_change (tr_access_token body) w2 w3). }
  assert (Hrev : hash_revoked (sha256_hex (tr_access_token body)) (db w3)).
  { destruct Hr as [Hr|[Hd3 Hr]]; [|by rewrite Hd3].
    by destruct (revoked_now_facts nothing _ _ _ (proj1 Hinv2) Hr) as (_ & _ & ? & _). }
  destruct token as [token|].
  - apply wp_log. intros w4 Hd4 Hc4 Hst4 _. split; [by eapply token_change_frame|by rewrite Hd4].
  - by apply wp_ret.
Qed.

(** Who signs out, with the right password. *)
Definition signed_out (username password : string) (w : World) (target : LoginTarget) : Prop :=
  login_resolves username policy (db w) target /\
  user_status (login_user target) = UserActive /\
  verify_password password (password_hash (login_user target)) = Ok true.

Lemma signout_spec username password w :
  wp (signout username password)
     (fun r w' =>
        match r with
        | Ok _ => exists target now hs, signed_out username password w target /\
            db w' = revoke_where (live_of (user_pk (login_user target))) now (db w) /\
            (forall t, In t (rows (tokens (db w))) ->
               live_of (user_pk (login_user target)) t = true -> In (access_token_hash t) hs) /\
            cache w' = cache_delete_many (cache w) (List.map TokenCache.token_key hs) /\
            (step w <= step w')%nat
        | _ => db w' = db w \/ exists target now, signed_out username password w target /\
            db w' = revoke_where (live_of (user_pk (login_user target))) now (db w)
        end) w.
Proof.
  unfold signout. apply wp_bind, wp_reads; [apply _|]. intros r w1 Hres Hs1.
  pose proof Hs1 as (Hd1 & Hc1 & [Ha1 _] & Hst1).
  destruct r as [target|e|m]; cbn [wp_next]; [|by left..]. apply resolve_ok in Hres.
  apply wp_bind, wp_when_ok; intros Hact; cbn [wp_next]; [by left|].
  apply wp_bind, wp_reads; [apply _|]. intros r w2 Hpw Hs2.
  pose proof (same_trans _ _ _ Hs1 Hs2) as (Hd2 & Hc2 & [Ha2 _] & Hst2).
  destruct r as [v|e|m]; cbn [wp_next]; [|by left..].
  apply check_password_ok in Hpw as [Hpw _].
  apply wp_bind, wp_when_ok; intros Hv; cbn [wp_next]; [by left|].
  rewrite negb_false_iff in Hv. subst v.
  assert (Hso : signed_out username password w target).
  { split; [done|]. split; [by destruct (user_status _)|done]. }
  apply wp_bind. eapply wp_mono; [apply revoke_all_spec|].
  intros r w3 (Ha3 & Hst3 & Hr). destruct r as [[]|e|m]; cbn [wp_next].
  - destruct Hr as (now & hs & Hd3 & Hhs & Hc3). rewrite Hd2 in Hd3, Hhs.
    apply wp_log. intros w4 Hd4 Hc4 Hst4 _. exists target, now, hs.
    split; [done|]. split; [congruence|]. split; [done|]. split; [congruence|lia].
  - destruct Hr as [[Hd3|(now & Hd3)] _]; [left; congruence|].
    right. exists target, now. rewrite Hd2 in Hd3. done.
  - destruct Hr as [[Hd3|(now & Hd3)] _]; [left; congruence|].
    right. exists target, now. rewrite Hd2 in Hd3. done.
Qed.
End Handlers.

(** ** The properties *)
Section Properties.
Context `{EN : Env} `{CB : CacheBackend} `{CL : !CacheLaws CB} `{BE : BanExterns}.
Context {TM : TxnManager} `{TL : !TxnLaws TM}.
Context `{FC : ForgeCrypto} `{FL : ForgeNumberLaws} `{CH : Chrono} `{RC : RuntimeConfig}.

(** C11: who gets an access token. If authentication succeeds, then the
    identifier resolved to a stored user (by name or email, or - where the
    policy allows it - by the name of one of the user's profiles), the user
    is active, their email activation is satisfied, the password verified
    against the stored hash, and no ban from Yggdrasil access was in effect;
    the table holds a row for the answered token, whose hash was not in use
    before, for that user and client and bound to a profile only if the user
    owns it; the row is live if the user's other tokens were issued earlier
    (otherwise the limit on tokens may have revoked it), and the audit log got
    its entry if the settings record it. If it fails, tables, cache and audit
    log are as before. *)
Theorem authenticate_sound body req w r w' :
  token_inv w -> 1 <= max_active_tokens policy -> authenticate body req w = (r, w') ->
  token_inv w' /\
  match r with
  | Ok resp => authenticated body req w w' resp
  | _ => db w' = db w /\ cache w' = cache w /\ audit_log w' = audit_log w
  end.
Proof.
  intros Hinv Hmax Hrun. pose proof (authenticate_spec body req w Hinv Hmax) as H.
  eapply wp_run in H; [|exact Hrun]. destruct H as [Hc H].
  split; [by eapply token_change_inv|done].
Qed.

(** refreshing exchanges a token for another of the same user and client.
    If it succeeds, the old token was acceptable (possibly temporarily
    invalid) and is now revoked, its user is active, the new token carries
    the old client token and is bound to the profile the old one had, or -
    only if it had none - to a profile of the same user. If it fails, either
    no table has changed or the exchange itself was already committed. *)
Theorem refresh_sound body req w r w' :
  token_inv w -> 1 <= max_active_tokens policy -> refresh body req w = (r, w') ->
  token_inv w' /\
  match r with
  | Ok resp => refreshed body w w' resp
  | _ => db w' = db w \/ hash_revoked (sha256_hex (rr_access_token body)) (db w')
  end.
Proof.
  intros Hinv Hmax Hrun. pose proof (refresh_spec body req w Hinv Hmax) as H.
  eapply wp_run in H; [|exact Hrun]. destruct H as [Hc H].
  split; [by eapply token_change_inv|done].
Qed.

(** After a successful invalidation the token is refused, whatever client
    token is presented and also where temporarily invalid tokens are
    allowed; a failed one has changed no table. *)
Theorem invalidate_effective body w r w' :
  token_inv w -> invalidate body w = (r, w') ->
  token_inv w' /\
  match r with
  | Ok _ => forall client allow,
      is_ok (fst (token_for_operation (tr_access_token body) client allow w')) = false
  | _ => db w' = db w
  end.
Proof.
  intros Hinv Hrun. pose proof (invalidate_spec body w Hinv) as H.
  eapply wp_run in H; [|exact Hrun]. destruct H as [Hc H].
  assert (Hinv' : token_inv w') by (by eapply token_change_inv). split; [done|].
  destruct r; [|done..]. intros client allow. by apply hash_revoked_refused.
Qed.

(** A successful sign-out had the right password of an active user, and
    from then on refuses every access token whose row belonged to that user. *)
Theorem signout_effective username password w w' :
  token_inv w -> signout username password w = (Ok tt, w') ->
  exists target, signed_out username password w target /\
    active_of (user_pk (login_user target)) (db w') = [] /\
    forall t access client allow, In t (rows (tokens (db w))) ->
      token_user_id t = user_pk (login_user target) -> sha256_hex access = access_token_hash t ->
      is_ok (fst (token_for_operation access client allow w')) = false.
Proof.
  intros Hinv Hrun. pose proof (signout_spec username password w) as H.
  eapply wp_run in H; [|exact Hrun].
  destruct H as (target & now & hs & Hso & Hd & Hhs & Hc & Hst).
  pose proof Hinv as (Hwf & Hb & Hok).
  assert (Hch : token_change w w').
  { split; [rewrite Hd; apply revoke_all_reach|]. split; [done|].
    eapply cache_ok_invalidate; [exact Hok| |exact Hc]. rewrite Hd. by apply unchanged_revoke. }
  exists target. split; [done|]. rewrite Hd. split; [apply revoke_all_none_active|].
  intros t access client allow Hin Hu Hh. apply hash_revoked_refused; [by eapply token_change_inv|].
  rewrite Hd, Hh. by apply revoke_all_hash_revoked.
Qed.
End Properties.

(** ** Instances of the properties *)

Definition login_body : YggdrasilAuthenticateReq :=
  mkAuthenticateReq "alice" "secret" None true (Some (mkAgent "Minecraft" 1)).
Definition login_run := authenticate login_body request0 world0.
Definition login_resp : YggdrasilAuthenticateResp :=
  match fst login_run with Ok r => r | _ => mkAuthenticateResp "" "" [] None None end.
Definition login_world : World := snd login_run.

Lemma login_run_ok : authenticate login_body request0 world0 = (Ok login_resp, login_world).
Proof. vm_compute. reflexivity. Qed.

Lemma authenticate_sound_witness :
  authenticated login_body request0 world0 login_world login_resp.
Proof.
  apply (authenticate_sound login_body request0 world0 (Ok login_resp) login_world
           world0_token_inv); [vm_compute; discriminate|exact login_run_ok].
Defined.

Definition refresh_body : YggdrasilRefreshReq := mkRefreshReq alice_access (Some "client"%string) false None.
Definition refresh_run := refresh refresh_body request0 alice_world.
Definition refresh_resp : YggdrasilRefreshResp :=
  match fst refresh_run with Ok r => r | _ => mkRefreshResp "" "" None None end.
Definition refresh_world : World := snd refresh_run.

Lemma refresh_sound_witness : refreshed refresh_body alice_world refresh_world refresh_resp.
Proof.
  apply (refresh_sound refresh_body request0 alice_world (Ok refresh_resp) refresh_world
           alice_world_inv); [vm_compute; discriminate|vm_compute; reflexivity].
Defined.

Definition invalidate_body : YggdrasilTokenReq := mkTokenReq alice_access None.

Lemma invalidate_effective_witness :
  is_ok (fst (token_for_operation alice_access None false
                (snd (invalidate invalidate_body alice_world)))) = false.
Proof.
  destruct (invalidate_effective invalidate_body alice_world (Ok tt)
              (snd (invalidate invalidate_body alice_world)) alice_world_inv) as [_ H];
    [vm_compute; reflexivity|exact (H None false)].
Defined.

Lemma signout_effective_witness :
  is_ok (fst (token_for_operation alice_access None false
                (snd (signout "alice" "secret" alice_world)))) = false.
Proof.
  destruct (signout_effective "alice" "secret" alice_world (snd (signout "alice" "secret" alice_world))
              alice_world_inv) as (target & [[Hin Hid] _] & _ & H); [vm_compute; reflexivity|].
  apply (H alice_token alice_access None false).
  - vm_compute. by left.
  - cbn in Hin. destruct Hin as [<-|[]]. vm_compute. reflexivity.
  - vm_compute. reflexivity.
Defined.

(** ** A refresh that fails after its commit *)

(** The last statement of a refresh of a token bound to a profile is the
    lookup of that profile. *)
Definition late_fault : Env := env_with_fault 23.
Definition late_run := refresh (EN := late_fault) refresh_body request0 alice_world.
Definition late_error : Yggdrasil.YggdrasilError :=
  match fst late_run with Err e => e | _ => invalid_token end.

(** the handler does not keep the protocol's promise that a failed refresh
    leaves the original token valid: when the profile cannot be read after
    the exchange was committed, the client gets an error, its old token is
    revoked and refused, and the new one was never told to it. *)
Theorem failed_refresh_loses_token :
  exists e w', refresh (EN := late_fault) refresh_body request0 alice_world = (Err e, w') /\
    List.map (fun r => (access_token_hash r, is_some (revoked_at r))) (rows (tokens (db w')))
      = [(alice_hash, true); (sha256_hex (short_token 18), false)] /\
    is_ok (fst (token_for_operation (EN := late_fault) alice_access None true w')) = false.
Proof.
  exists late_error, (snd late_run).
  do 2 (split; [vm_compute; reflexivity|]). vm_compute. reflexivity.
Qed.
