(* ===== verification/Tasks.v ===== *)
(** * Background tasks

    The columns of a task row, then the repository and the service.

    *** Columns

    The column assignments ([.col_expr(Column, value)]) of the update
    statements in [db/repository/background_task_repo/], one setter per
    column the repository writes, and the chaining notation of the query
    builder. *)

From Stdlib Require Import ZArith List Bool Lia Ascii.
From stdpp Require Import base strings decidable list pretty.
From S2P Require Import Prelude Text Errors Types AuditLog World Logic Repos.

Local Open Scope Z_scope.

Definition set_status (v : BackgroundTaskStatus) (t : background_task) : background_task :=
  mkTask (task_pk t) (task_kind t) v (creator_user_id t) (task_display_name t)
         (dedupe_key t) (payload_json t) (result_json t) (runtime_json t) (steps_json t)
         (progress_current t) (progress_total t) (status_text t) (attempt_count t)
         (max_attempts t) (next_run_at t) (processing_token t) (processing_started_at t)
         (last_heartbeat_at t) (lease_expires_at t) (started_at t) (finished_at t)
         (last_error t) (failure_can_retry t) (task_expires_at t) (task_created_at t)
         (task_updated_at t).
Definition set_display_name (v : string) (t : background_task) : background_task :=
  mkTask (task_pk t) (task_kind t) (task_status t) (creator_user_id t) v (dedupe_key t)
         (payload_json t) (result_json t) (runtime_json t) (steps_json t)
         (progress_current t) (progress_total t) (status_text t) (attempt_count t)
         (max_attempts t) (next_run_at t) (processing_token t) (processing_started_at t)
         (last_heartbeat_at t) (lease_expires_at t) (started_at t) (finished_at t)
         (last_error t) (failure_can_retry t) (task_expires_at t) (task_created_at t)
         (task_updated_at t).
Definition set_result_json (v : option string) (t : background_task) : background_task :=
  mkTask (task_pk t) (task_kind t) (task_status t) (creator_user_id t) (task_display_name t)
         (dedupe_key t) (payload_json t) v (runtime_json t) (steps_json t)
         (progress_current t) (progress_total t) (status_text t) (attempt_count t)
         (max_attempts t) (next_run_at t) (processing_token t) (processing_started_at t)
         (last_heartbeat_at t) (lease_expires_at t) (started_at t) (finished_at t)
         (last_error t) (failure_can_retry t) (task_expires_at t) (task_created_at t)
         (task_updated_at t).
Definition set_runtime_json (v : option string) (t : background_task) : background_task :=
  mkTask (task_pk t) (task_kind t) (task_status t) (creator_user_id t) (task_display_name t)
         (dedupe_key t) (payload_json t) (result_json t) v (steps_json t)
         (progress_current t) (progress_total t) (status_text t) (attempt_count t)
         (max_attempts t) (next_run_at t) (processing_token t) (processing_started_at t)
         (last_heartbeat_at t) (lease_expires_at t) (started_at t) (finished_at t)
         (last_error t) (failure_can_retry t) (task_expires_at t) (task_created_at t)
         (task_updated_at t).
Definition set_steps_json (v : option string) (t : background_task) : background_task :=
  mkTask (task_pk t) (task_kind t) (task_status t) (creator_user_id t) (task_display_name t)
         (dedupe_key t) (payload_json t) (result_json t) (runtime_json t) v
         (progress_current t) (progress_total t) (status_text t) (attempt_count t)
         (max_attempts t) (next_run_at t) (processing_token t) (processing_started_at t)
         (last_heartbeat_at t) (lease_expires_at t) (started_at t) (finished_at t)
         (last_error t) (failure_can_retry t) (task_expires_at t) (task_created_at t)
         (task_updated_at t).
Definition set_progress_current (v : Z) (t : background_task) : background_task :=
  mkTask (task_pk t) (task_kind t) (task_status t) (creator_user_id t) (task_display_name t)
         (dedupe_key t) (payload_json t) (result_json t) (runtime_json t) (steps_json t) v
         (progress_total t) (status_text t) (attempt_count t) (max_attempts t)
         (next_run_at t) (processing_token t) (processing_started_at t)
         (last_heartbeat_at t) (lease_expires_at t) (started_at t) (finished_at t)
         (last_error t) (failure_can_retry t) (task_expires_at t) (task_created_at t)
         (task_updated_at t).
Definition set_progress_total (v : Z) (t : background_task) : background_task :=
  mkTask (task_pk t) (task_kind t) (task_status t) (creator_user_id t) (task_display_name t)
         (dedupe_key t) (payload_json t) (result_json t) (runtime_json t) (steps_json t)
         (progress_current t) v (status_text t) (attempt_count t) (max_attempts t)
         (next_run_at t) (processing_token t) (processing_started_at t)
         (last_heartbeat_at t) (lease_expires_at t) (started_at t) (finished_at t)
         (last_error t) (failure_can_retry t) (task_expires_at t) (task_created_at t)
         (task_updated_at t).
Definition set_status_text (v : option string) (t : background_task) : background_task :=
  mkTask (task_pk t) (task_kind t) (task_status t) (creator_user_id t) (task_display_name t)
         (dedupe_key t) (payload_json t) (result_json t) (runtime_json t) (steps_json t)
         (progress_current t) (progress_total t) v (attempt_count t) (max_attempts t)
         (next_run_at t) (processing_token t) (processing_started_at t)
         (last_heartbeat_at t) (lease_expires_at t) (started_at t) (finished_at t)
         (last_error t) (failure_can_retry t) (task_expires_at t) (task_created_at t)
         (task_updated_at t).
Definition set_attempt_count (v : Z) (t : background_task) : background_task :=
  mkTask (task_pk t) (task_kind t) (task_status t) (creator_user_id t) (task_display_name t)
         (dedupe_key t) (payload_json t) (result_json t) (runtime_json t) (steps_json t)
         (progress_current t) (progress_total t) (status_text t) v (max_attempts t)
         (next_run_at t) (processing_token t) (processing_started_at t)
         (last_heartbeat_at t) (lease_expires_at t) (started_at t) (finished_at t)
         (last_error t) (failure_can_retry t) (task_expires_at t) (task_created_at t)
         (task_updated_at t).
Definition set_max_attempts (v : Z) (t : background_task) : background_task :=
  mkTask (task_pk t) (task_kind t) (task_status t) (creator_user_id t) (task_display_name t)
         (dedupe_key t) (payload_json t) (result_json t) (runtime_json t) (steps_json t)
         (progress_current t) (progress_total t) (status_text t) (attempt_count t) v
         (next_run_at t) (processing_token t) (processing_started_at t)
         (last_heartbeat_at t) (lease_expires_at t) (started_at t) (finished_at t)
         (last_error t) (failure_can_retry t) (task_expires_at t) (task_created_at t)
         (task_updated_at t).
Definition set_next_run_at (v : DateTimeUtc) (t : background_task) : background_task :=
  mkTask (task_pk t) (task_kind t) (task_status t) (creator_user_id t) (task_display_name t)
         (dedupe_key t) (payload_json t) (result_json t) (runtime_json t) (steps_json t)
         (progress_current t) (progress_total t) (status_text t) (attempt_count t)
         (max_attempts t) v (processing_token t) (processing_started_at t)
         (last_heartbeat_at t) (lease_expires_at t) (started_at t) (finished_at t)
         (last_error t) (failure_can_retry t) (task_expires_at t) (task_created_at t)
         (task_updated_at t).
Definition set_processing_token (v : Z) (t : background_task) : background_task :=
  mkTask (task_pk t) (task_kind t) (task_status t) (creator_user_id t) (task_display_name t)
         (dedupe_key t) (payload_json t) (result_json t) (runtime_json t) (steps_json t)
         (progress_current t) (progress_total t) (status_text t) (attempt_count t)
         (max_attempts t) (next_run_at t) v (processing_started_at t) (last_heartbeat_at t)
         (lease_expires_at t) (started_at t) (finished_at t) (last_error t)
         (failure_can_retry t) (task_expires_at t) (task_created_at t) (task_updated_at t).
Definition set_processing_started_at (v : option DateTimeUtc) (t : background_task) : background_task :=
  mkTask (task_pk t) (task_kind t) (task_status t) (creator_user_id t) (task_display_name t)
         (dedupe_key t) (payload_json t) (result_json t) (runtime_json t) (steps_json t)
         (progress_current t) (progress_total t) (status_text t) (attempt_count t)
         (max_attempts t) (next_run_at t) (processing_token t) v (last_heartbeat_at t)
         (lease_expires_at t) (started_at t) (finished_at t) (last_error t)
         (failure_can_retry t) (task_expires_at t) (task_created_at t) (task_updated_at t).
Definition set_last_heartbeat_at (v : option DateTimeUtc) (t : background_task) : background_task :=
  mkTask (task_pk t) (task_kind t) (task_status t) (creator_user_id t) (task_display_name t)
         (dedupe_key t) (payload_json t) (result_json t) (runtime_json t) (steps_json t)
         (progress_current t) (progress_total t) (status_text t) (attempt_count t)
         (max_attempts t) (next_run_at t) (processing_token t) (processing_started_at t) v
         (lease_expires_at t) (started_at t) (finished_at t) (last_error t)
         (failure_can_retry t) (task_expires_at t) (task_created_at t) (task_updated_at t).
Definition set_lease_expires_at (v : option DateTimeUtc) (t : background_task) : background_task :=
  mkTask (task_pk t) (task_kind t) (task_status t) (creator_user_id t) (task_display_name t)
         (dedupe_key t) (payload_json t) (result_json t) (runtime_json t) (steps_json t)
         (progress_current t) (progress_total t) (status_text t) (attempt_count t)
         (max_attempts t) (next_run_at t) (processing_token t) (processing_started_at t)
         (last_heartbeat_at t) v (started_at t) (finished_at t) (last_error t)
         (failure_can_retry t) (task_expires_at t) (task_created_at t) (task_updated_at t).
Definition set_started_at (v : option DateTimeUtc) (t : background_task) : background_task :=
  mkTask (task_pk t) (task_kind t) (task_status t) (creator_user_id t) (task_display_name t)
         (dedupe_key t) (payload_json t) (result_json t) (runtime_json t) (steps_json t)
         (progress_current t) (progress_total t) (status_text t) (attempt_count t)
         (max_attempts t) (next_run_at t) (processing_token t) (processing_started_at t)
         (last_heartbeat_at t) (lease_expires_at t) v (finished_at t) (last_error t)
         (failure_can_retry t) (task_expires_at t) (task_created_at t) (task_updated_at t).
Definition set_finished_at (v : option DateTimeUtc) (t : background_task) : background_task :=
  mkTask (task_pk t) (task_kind t) (task_status t) (creator_user_id t) (task_display_name t)
         (dedupe_key t) (payload_json t) (result_json t) (runtime_json t) (steps_json t)
         (progress_current t) (progress_total t) (status_text t) (attempt_count t)
         (max_attempts t) (next_run_at t) (processing_token t) (processing_started_at t)
         (last_heartbeat_at t) (lease_expires_at t) (started_at t) v (last_error t)
         (failure_can_retry t) (task_expires_at t) (task_created_at t) (task_updated_at t).
Definition set_last_error (v : option string) (t : background_task) : background_task :=
  mkTask (task_pk t) (task_kind t) (task_status t) (creator_user_id t) (task_display_name t)
         (dedupe_key t) (payload_json t) (result_json t) (runtime_json t) (steps_json t)
         (progress_current t) (progress_total t) (status_text t) (attempt_count t)
         (max_attempts t) (next_run_at t) (processing_token t) (processing_started_at t)
         (last_heartbeat_at t) (lease_expires_at t) (started_at t) (finished_at t) v
         (failure_can_retry t) (task_expires_at t) (task_created_at t) (task_updated_at t).
Definition set_failure_can_retry (v : option bool) (t : background_task) : background_task :=
  mkTask (task_pk t) (task_kind t) (task_status t) (creator_user_id t) (task_display_name t)
         (dedupe_key t) (payload_json t) (result_json t) (runtime_json t) (steps_json t)
         (progress_current t) (progress_total t) (status_text t) (attempt_count t)
         (max_attempts t) (next_run_at t) (processing_token t) (processing_started_at t)
         (last_heartbeat_at t) (lease_expires_at t) (started_at t) (finished_at t)
         (last_error t) v (task_expires_at t) (task_created_at t) (task_updated_at t).
Definition set_expires_at (v : DateTimeUtc) (t : background_task) : background_task :=
  mkTask (task_pk t) (task_kind t) (task_status t) (creator_user_id t) (task_display_name t)
         (dedupe_key t) (payload_json t) (result_json t) (runtime_json t) (steps_json t)
         (progress_current t) (progress_total t) (status_text t) (attempt_count t)
         (max_attempts t) (next_run_at t) (processing_token t) (processing_started_at t)
         (last_heartbeat_at t) (lease_expires_at t) (started_at t) (finished_at t)
         (last_error t) (failure_can_retry t) v (task_created_at t) (task_updated_at t).
Definition set_updated_at (v : DateTimeUtc) (t : background_task) : background_task :=
  mkTask (task_pk t) (task_kind t) (task_status t) (creator_user_id t) (task_display_name t)
         (dedupe_key t) (payload_json t) (result_json t) (runtime_json t) (steps_json t)
         (progress_current t) (progress_total t) (status_text t) (attempt_count t)
         (max_attempts t) (next_run_at t) (processing_token t) (processing_started_at t)
         (last_heartbeat_at t) (lease_expires_at t) (started_at t) (finished_at t)
         (last_error t) (failure_can_retry t) (task_expires_at t) (task_created_at t) v.

Declare Scope column_scope.
Delimit Scope column_scope with column.
Notation "t |> f" := (f t) (at level 40, left associativity, only parsing) : column_scope.

(** Clearing the lease: the three columns every leaving of [Processing]
    resets. *)
Definition clear_lease (t : background_task) : background_task :=
  set_lease_expires_at None (set_last_heartbeat_at None (set_processing_started_at None t)).

(** ** The queue

    The persisted task queue: [db/repository/background_task_repo/] and the
    parts of [services/task_service/] that change a task row: claiming a
    batch under a lane limit ([dispatch/claim.rs]), the writes a worker
    makes with its lease ([dispatch/execute.rs], [mod.rs]) and the
    administrator's retry and cleanup ([admin.rs]).  A worker holds a
    [processing_token]; every one of its writes carries it. *)

Local Open Scope aster_scope.
Local Open Scope column_scope.

(** [aster_forge_utils::numbers::i64_to_u64]; the error is a [UtilsError]'s text. *)
Class ForgeCounts : Type := { i64_to_u64 : Z -> string -> outcome string Z }.

(** A number that is not negative converts to itself. *)
Class ForgeCountLaws (F : ForgeCounts) : Prop := {
  i64_to_u64_nonneg n name : 0 <= n -> i64_to_u64 n name = Ok n
}.

Module TaskRepo.

(** ** common.rs *)

Record AdminTaskFilters : Type := mkAdminFilters {
  af_kind : option BackgroundTaskKind;
  af_status : option BackgroundTaskStatus
}.

Record TerminalTaskCleanupFilters : Type := mkCleanup {
  finished_before : DateTimeUtc;
  cf_kind : option BackgroundTaskKind;
  cf_status : option BackgroundTaskStatus
}.

Definition apply_admin_filters (filters : AdminTaskFilters) (t : background_task) : bool :=
  is_none_or (af_kind filters) (fun k => eqb (task_kind t) k) &&
  is_none_or (af_status filters) (fun s => eqb (task_status t) s).

(** A comparison with a NULL column is not true. *)
Definition terminal_cleanup_condition (filters : TerminalTaskCleanupFilters)
  (t : background_task) : bool :=
  match cf_status filters with
  | Some status => eqb (task_status t) status
  | None => mem (task_status t) [Succeeded; Failed; Canceled]
  end
  && is_none_or (cf_kind filters) (fun k => eqb (task_kind t) k)
  && (is_some_and (finished_at t) (fun f => f <=? finished_before filters)
      || (is_none (finished_at t) && (task_updated_at t <=? finished_before filters))).

Definition active_processing_by_kinds_condition (now : DateTimeUtc)
  (kinds : list BackgroundTaskKind) (t : background_task) : bool :=
  eqb (task_status t) Processing
  && is_some (lease_expires_at t)
  && is_some_and (lease_expires_at t) (fun l => now <? l)
  && mem (task_kind t) kinds.

Definition processing_stale_condition (now : DateTimeUtc) (t : background_task) : bool :=
  eqb (task_status t) Processing
  && is_some (lease_expires_at t)
  && is_some_and (lease_expires_at t) (fun l => l <=? now).

Definition claimable_condition (now stale_before : DateTimeUtc) (t : background_task) : bool :=
  (mem (task_status t) [Pending; Retry] && (next_run_at t <=? now))
  || processing_stale_condition now t.

(** The unique index on [dedupe_key]; NULL keys do not conflict. *)
Definition task_conflict (t u : background_task) : bool :=
  is_some_and (dedupe_key t) (fun k => eqb (dedupe_key u) (Some k)).

(** [order_by_asc(CreatedAt).order_by_asc(Id)] *)
Definition oldest_first (t u : background_task) : bool :=
  (task_created_at t <? task_created_at u)
  || ((task_created_at t =? task_created_at u) && (task_pk t <=? task_pk u)).

Definition newest_updated_first (t u : background_task) : bool :=
  task_updated_at u <=? task_updated_at t.

(** [.limit(n)] *)
Definition take {A} (n : Z) (l : list A) : list A := firstn (Z.to_nat n) l.

Definition is_task (id : Z) (t : background_task) : bool := task_pk t =? id.

(** The row of a worker: its id, still processing, under its token. *)
Definition held_by (id processing_token : Z) (t : background_task) : bool :=
  is_task id t && eqb (task_status t) Processing
  && (Types.processing_token t =? processing_token).

Record SystemRuntimeSuccessRefresh : Type := mkRefresh {
  rf_id : Z;
  rf_result_json : string;
  rf_status_text : option string;
  rf_next_run_at : DateTimeUtc;
  rf_started_at : DateTimeUtc;
  rf_finished_at : DateTimeUtc;
  rf_expires_at : DateTimeUtc
}.

Record TaskProgressUpdate : Type := mkProgress {
  pu_id : Z;
  pu_processing_token : Z;
  pu_now : DateTimeUtc;
  pu_lease_expires_at : DateTimeUtc;
  pu_current : Z;
  pu_total : Z;
  pu_status_text : option string;
  pu_steps_json : option string
}.

Record TaskSuccessUpdate : Type := mkSuccess {
  su_id : Z;
  su_processing_token : Z;
  su_result_json : option string;
  su_steps_json : option string;
  su_current : Z;
  su_total : Z;
  su_status_text : option string;
  su_finished_at : DateTimeUtc;
  su_expires_at : DateTimeUtc
}.

Record TaskFailureUpdate : Type := mkFailure {
  fu_id : Z;
  fu_processing_token : Z;
  fu_attempt_count : Z;
  fu_last_error : string;
  fu_finished_at : DateTimeUtc;
  fu_expires_at : DateTimeUtc;
  fu_steps_json : option string;
  fu_failure_can_retry : bool
}.

(** [if let Some(steps_json) = ... { statement.col_expr(StepsJson, ..) }] *)
Definition set_steps_if (steps : option string) (t : background_task) : background_task :=
  match steps with Some s => set_steps_json (Some s) t | None => t end.

(** What each statement writes. *)
Definition claimed_row (now : DateTimeUtc) (next_processing_token : Z)
  (lease_expires_at : DateTimeUtc) (t : background_task) : background_task :=
  t |> set_status Processing
    |> set_processing_started_at (Some now)
    |> set_last_heartbeat_at (Some now)
    |> set_processing_token next_processing_token
    |> set_lease_expires_at (Some lease_expires_at)
    |> set_started_at (Some (default now (started_at t)))
    |> set_updated_at now.

Definition refreshed_row (r : SystemRuntimeSuccessRefresh) (t : background_task)
  : background_task :=
  t |> set_status Succeeded
    |> set_result_json (Some (rf_result_json r))
    |> set_progress_current 1
    |> set_progress_total 1
    |> set_status_text (rf_status_text r)
    |> set_next_run_at (rf_next_run_at r)
    |> clear_lease
    |> set_started_at (Some (rf_started_at r))
    |> set_finished_at (Some (rf_finished_at r))
    |> set_last_error None
    |> set_failure_can_retry None
    |> set_expires_at (rf_expires_at r)
    |> set_updated_at (rf_finished_at r).

Definition progressed_row (u : TaskProgressUpdate) (t : background_task) : background_task :=
  t |> set_progress_current (pu_current u)
    |> set_progress_total (pu_total u)
    |> set_status_text (pu_status_text u)
    |> set_last_heartbeat_at (Some (pu_now u))
    |> set_lease_expires_at (Some (pu_lease_expires_at u))
    |> set_updated_at (pu_now u)
    |> set_steps_if (pu_steps_json u).

Definition succeeded_row (u : TaskSuccessUpdate) (t : background_task) : background_task :=
  t |> set_status Succeeded
    |> set_result_json (su_result_json u)
    |> set_progress_current (su_current u)
    |> set_progress_total (su_total u)
    |> set_status_text (su_status_text u)
    |> clear_lease
    |> set_finished_at (Some (su_finished_at u))
    |> set_expires_at (su_expires_at u)
    |> set_updated_at (su_finished_at u)
    |> set_steps_if (su_steps_json u).

Definition retried_row (attempt_count : Z) (next_run_at : DateTimeUtc) (last_error : string)
  (now : DateTimeUtc) (steps_json : option string) (t : background_task) : background_task :=
  t |> set_status Retry
    |> set_attempt_count attempt_count
    |> set_next_run_at next_run_at
    |> clear_lease
    |> set_status_text None
    |> set_last_error (Some last_error)
    |> set_updated_at now
    |> set_steps_if steps_json.

Definition released_row (now : DateTimeUtc) (status : BackgroundTaskStatus)
  (t : background_task) : background_task :=
  t |> set_status status
    |> set_next_run_at now
    |> clear_lease
    |> set_status_text None
    |> set_updated_at now.

Definition failed_row (u : TaskFailureUpdate) (t : background_task) : background_task :=
  t |> set_status Failed
    |> set_attempt_count (fu_attempt_count u)
    |> clear_lease
    |> set_status_text None
    |> set_last_error (Some (fu_last_error u))
    |> set_failure_can_retry (Some (fu_failure_can_retry u))
    |> set_finished_at (Some (fu_finished_at u))
    |> set_expires_at (fu_expires_at u)
    |> set_updated_at (fu_finished_at u)
    |> set_steps_if (fu_steps_json u).

Definition reset_row (now : DateTimeUtc) (max_attempts : Z) (steps_json : option string)
  (t : background_task) : background_task :=
  t |> set_status Pending
    |> set_attempt_count 0
    |> set_progress_current 0
    |> set_max_attempts max_attempts
    |> set_next_run_at now
    |> clear_lease
    |> set_started_at None
    |> set_finished_at None
    |> set_status_text None
    |> set_last_error None
    |> set_result_json None
    |> set_failure_can_retry None
    |> set_updated_at now
    |> set_steps_if steps_json.

Section Ops.
Context `{EN : Env} `{CB : CacheBackend} `{FN : ForgeCounts}.

(** ** dispatch.rs *)

Definition claimable_rows (now stale_before : DateTimeUtc) (limit : Z)
  (p : background_task -> bool) (d : Db) : list background_task :=
  take limit (sort_by oldest_first
    (rows_where (fun t => claimable_condition now stale_before t && p t) (rows (tasks d)))).

Definition list_claimable (now stale_before : DateTimeUtc) (limit : Z)
  : M AsterError.t (list background_task) :=
  db_query (claimable_rows now stale_before limit (fun _ => true)).

Definition list_claimable_by_kinds (now stale_before : DateTimeUtc)
  (kinds : list BackgroundTaskKind) (limit : Z) : M AsterError.t (list background_task) :=
  if eqb kinds [] || (limit =? 0) then ret []
  else db_query (claimable_rows now stale_before limit (fun t => mem (task_kind t) kinds)).

(** [Ok(result.rows_affected == 1)] *)
Definition one_row (p : background_task -> bool) (f : background_task -> background_task)
  : M AsterError.t bool :=
  let* rows_affected := db_update_many tasks set_tasks p f in
  ret (rows_affected =? 1).

Definition try_claim (id expected_processing_token : Z) (now stale_before : DateTimeUtc)
  (next_processing_token : Z) (lease_expires_at : DateTimeUtc) : M AsterError.t bool :=
  one_row
    (fun t => is_task id t && (processing_token t =? expected_processing_token)
              && claimable_condition now stale_before t)
    (claimed_row now next_processing_token lease_expires_at).

Definition touch_heartbeat (id processing_token : Z) (now lease_expires_at : DateTimeUtc)
  : M AsterError.t bool :=
  one_row (held_by id processing_token)
    (fun t => t |> set_last_heartbeat_at (Some now)
                |> set_lease_expires_at (Some lease_expires_at)).

(** ** mutation.rs *)

Definition create (model : Z -> background_task) : M AsterError.t background_task :=
  db_insert tasks set_tasks task_conflict model.

Definition refresh_system_runtime_success (refresh : SystemRuntimeSuccessRefresh)
  : M AsterError.t bool :=
  one_row
    (fun t => is_task (rf_id refresh) t && eqb (task_kind t) SystemRuntime
              && eqb (task_status t) Succeeded)
    (refreshed_row refresh).

Definition mark_progress (update : TaskProgressUpdate) : M AsterError.t bool :=
  one_row (held_by (pu_id update) (pu_processing_token update)) (progressed_row update).

Definition set_runtime_json (id processing_token : Z) (runtime_json : option string)
  (now : DateTimeUtc) : M AsterError.t bool :=
  one_row (held_by id processing_token)
    (fun t => t |> set_runtime_json runtime_json |> set_updated_at now).

Definition set_display_name (id processing_token : Z) (display_name : string)
  (now : DateTimeUtc) : M AsterError.t bool :=
  one_row (held_by id processing_token)
    (fun t => t |> set_display_name display_name |> set_updated_at now).

Definition mark_succeeded (success : TaskSuccessUpdate) : M AsterError.t bool :=
  one_row (held_by (su_id success) (su_processing_token success)) (succeeded_row success).

Definition mark_retry (id processing_token attempt_count : Z) (next_run_at : DateTimeUtc)
  (last_error : string) (steps_json : option string) : M AsterError.t bool :=
  let* now := utc_now in
  one_row (held_by id processing_token)
    (retried_row attempt_count next_run_at last_error now steps_json).

Definition release_processing (id processing_token : Z) (now : DateTimeUtc)
  (status : BackgroundTaskStatus) : M AsterError.t bool :=
  if negb (mem status [Pending; Retry])
  then throw (AsterError.InternalError
                "released background task status must be pending or retry")
  else one_row (held_by id processing_token) (released_row now status).

Definition mark_failed (update : TaskFailureUpdate) : M AsterError.t bool :=
  one_row (held_by (fu_id update) (fu_processing_token update)) (failed_row update).

Definition reset_for_manual_retry (id : Z) (now : DateTimeUtc) (max_attempts : Z)
  (steps_json : option string) : M AsterError.t bool :=
  one_row (fun t => is_task id t && eqb (task_status t) Failed)
    (reset_row now max_attempts steps_json).

(** ** cleanup.rs *)

Definition soonest_expiry_first (t u : background_task) : bool :=
  task_expires_at t <=? task_expires_at u.

Definition list_expired_terminal (now : DateTimeUtc) (limit : Z)
  : M AsterError.t (list background_task) :=
  db_query (fun d =>
    take limit (sort_by soonest_expiry_first
      (rows_where (fun t => (task_expires_at t <=? now)
                            && mem (task_status t) [Succeeded; Failed; Canceled])
                  (rows (tasks d))))).

Definition delete_many (ids : list Z) : M AsterError.t Z :=
  match ids with
  | [] => ret 0
  | _ => db_delete_many tasks set_tasks (fun t => mem (task_pk t) ids)
  end.

Definition delete_terminal_by_filters (filters : TerminalTaskCleanupFilters)
  : M AsterError.t Z :=
  db_delete_many tasks set_tasks (terminal_cleanup_condition filters).

(** ** query.rs *)

Definition find_by_id (id : Z) : M AsterError.t background_task :=
  let* row := db_query (fun d => find_row (is_task id) (rows (tasks d))) in
  lift (ok_or (AsterError.RecordNotFound ("task #" +:+ pretty id)) row).

Definition list_recent (limit : Z) : M AsterError.t (list background_task) :=
  db_query (fun d => take limit (sort_by newest_updated_first (rows (tasks d)))).

Definition find_latest_system_runtime_by_payload (payload : string)
  : M AsterError.t (option background_task) :=
  db_query (fun d =>
    List.hd_error (sort_by newest_updated_first
      (rows_where (fun t => eqb (task_kind t) SystemRuntime && eqb (payload_json t) payload)
                  (rows (tasks d))))).

Definition find_by_dedupe_key (key : string) : M AsterError.t (option background_task) :=
  db_query (fun d => find_row (fun t => eqb (dedupe_key t) (Some key)) (rows (tasks d))).

Definition count_processing : M AsterError.t Z :=
  db_query (fun d =>
    Z.of_nat (count_where (fun t => eqb (task_status t) Processing) (rows (tasks d)))).

Definition count_pending_or_retry : M AsterError.t Z :=
  db_query (fun d =>
    Z.of_nat (count_where (fun t => mem (task_status t) [Pending; Retry]) (rows (tasks d)))).

Definition count_active (now : DateTimeUtc) (kinds : list BackgroundTaskKind) (d : Db) : Z :=
  Z.of_nat (count_where (active_processing_by_kinds_condition now kinds) (rows (tasks d))).

Definition count_active_processing_by_kinds (now : DateTimeUtc)
  (kinds : list BackgroundTaskKind) : M AsterError.t Z :=
  if eqb kinds [] then ret 0
  else
    let* count := db_query (count_active now kinds) in
    map_err AsterError.InternalError
      (lift (i64_to_u64 count "active processing task count")).

Definition newest_created_first (t u : background_task) : bool :=
  task_created_at u <=? task_created_at t.

Definition find_latest_by_kind_and_display_name (kind : BackgroundTaskKind)
  (display_name : string) : M AsterError.t (option background_task) :=
  db_query (fun d =>
    List.hd_error (sort_by newest_created_first
      (rows_where (fun t => eqb (task_kind t) kind && eqb (task_display_name t) display_name)
                  (rows (tasks d))))).
End Ops.
End TaskRepo.

(** ** The task service *)

Definition DEFAULT_TASK_RETENTION_HOURS : Z := 24.
Definition TASK_PROCESSING_STALE_SECS : Z := 60.
Definition TASK_LAST_ERROR_MAX_LEN : nat := 1024.
Definition TASK_STATUS_TEXT_MAX_LEN : nat := 255.

Inductive TaskLane : Type := Fallback.

#[export] Instance TaskLane_eq_dec : EqDecision TaskLane.
Proof. solve_decision. Defined.

(** aster_forge_tasks: the values exchanged with the dispatcher. *)
Record TaskLease : Type := mkLease { lease_task_id : Z; lease_token : Z }.
Record TaskLaneConfig : Type := mkLaneConfig {
  lane : TaskLane;
  lane_kinds : list BackgroundTaskKind;
  lane_limit : Z;
  fast_continue : bool;
  lane_lock_key : string
}.
Record TaskClaimCandidate : Type := mkCandidate {
  cand_index : Z;
  cand_task_id : Z;
  expected_processing_token : Z;
  next_processing_token : Z
}.
Record ClaimedTask : Type := mkClaimed {
  claimed_index : Z;
  claimed_task_id : Z;
  claimed_token : Z
}.

Definition truncate_status_text (value : string) : string :=
  of_bytes (take_chars TASK_STATUS_TEXT_MAX_LEN (bytes value)).
Definition truncate_error (error : string) : string :=
  of_bytes (take_chars TASK_LAST_ERROR_MAX_LEN (bytes error)).

(** [str::parse::<i64>]: an optional sign and at least one digit, in range. *)
Fixpoint digits_value (l : list ascii) (acc : Z) : option Z :=
  match l with
  | [] => Some acc
  | a :: l' =>
      if (48 <=? code a)%nat && (code a <=? 57)%nat
      then digits_value l' (acc * 10 + Z.of_nat (code a - 48)%nat)
      else None
  end.

Definition parse_digits (l : list ascii) : option Z :=
  match l with [] => None | _ => digits_value l 0 end.

Definition parse_i64 (s : string) : option Z :=
  let value :=
    match bytes s with
    | a :: l => if eqb a "-"%char then Z.opp <$> parse_digits l
                else if eqb a "+"%char then parse_digits l
                else parse_digits (a :: l)
    | [] => None
    end in
  match value with
  | Some v => if (- 2 ^ 63 <=? v) && (v <? 2 ^ 63) then Some v else None
  | None => None
  end.

(** The task library, the configuration store's row lock, the task files on
    disk and the configured retention. *)
Class TaskExterns `{CB : CacheBackend} : Type := {
  available_lane_capacity : Z -> Z -> Z;
  lease_end : DateTimeUtc -> Z -> DateTimeUtc;      (* task_lease_expires_at *)
  lease_lost_text : TaskLease -> string;            (* TaskCoreError::LeaseLost *)
  TaskStepSpec : Type;
  TaskStepInfo : Type;
  initial_task_steps_from_specs : list TaskStepSpec -> list TaskStepInfo;
  steps_to_json : list TaskStepInfo -> outcome string string;
  truncate_utf8_to_max_bytes : string -> Z -> string;
  datetime_add_hours : DateTimeUtc -> Z -> option DateTimeUtc;
  retention_hours_config : option string;
  store_lock_by_key : string -> M AsterError.t unit;
  remove_task_temp_dir : Z -> M AsterError.t unit
}.

(** A lane has room for at most the tasks its limit leaves; the row lock and
    the removal of files leave the tables alone. *)
Class TaskExternLaws `{EN : Env} `{CB : CacheBackend} (T : TaskExterns) : Prop := {
  capacity_bounded limit active :
    0 <= available_lane_capacity limit active <= Z.max 0 (limit - active);
  lock_reads key w : same w (snd (store_lock_by_key key w));
  temp_dir_reads id w : same w (snd (remove_task_temp_dir id w))
}.

Section Service.
Context `{EN : Env} `{CB : CacheBackend} {TM : TxnManager} `{FN : ForgeCounts}.
Context `{TE : !TaskExterns}.

(** ** dispatch/claim.rs *)

(** [for candidate in candidates { ... }], with its [break] and [continue]. *)
Fixpoint claim_loop (candidates : list TaskClaimCandidate) (available : Z)
  (stale_before claimed_at lease_expires_at : DateTimeUtc) (claimed : list ClaimedTask)
  : M AsterError.t (list ClaimedTask) :=
  match candidates with
  | [] => ret claimed
  | candidate :: rest =>
      if available <=? Z.of_nat (length claimed) then ret claimed
      else
        let* did_claim := TaskRepo.try_claim (cand_task_id candidate)
          (expected_processing_token candidate) claimed_at stale_before
          (next_processing_token candidate) lease_expires_at in
        claim_loop rest available stale_before claimed_at lease_expires_at
          (if did_claim
           then claimed ++ [mkClaimed (cand_index candidate) (cand_task_id candidate)
                              (next_processing_token candidate)]
           else claimed)
  end.

(** The body of the transaction. *)
Definition claim_in_txn (lane_config : TaskLaneConfig) (candidates : list TaskClaimCandidate)
  (stale_before claimed_at lease_expires_at : DateTimeUtc)
  : M AsterError.t (list ClaimedTask) :=
  do* store_lock_by_key (lane_lock_key lane_config) in
  let* active := TaskRepo.count_active_processing_by_kinds claimed_at (lane_kinds lane_config) in
  let available := available_lane_capacity (lane_limit lane_config) active in
  if available =? 0 then ret []
  else claim_loop candidates available stale_before claimed_at lease_expires_at [].

Definition claim_candidates_for_lane (lane_config : TaskLaneConfig)
  (candidates : list TaskClaimCandidate) (stale_before claimed_at lease_expires_at : DateTimeUtc)
  : M AsterError.t (list ClaimedTask) :=
  match candidates with
  | [] => ret []
  | _ => with_transaction
           (claim_in_txn lane_config candidates stale_before claimed_at lease_expires_at)
  end.

(** ** lease.rs *)

Definition task_lease_expires_at (now : DateTimeUtc) : DateTimeUtc :=
  lease_end now TASK_PROCESSING_STALE_SECS.

Definition task_lease_lost (lease : TaskLease) : AsterError.t :=
  AsterError.InternalError (lease_lost_text lease).

Definition is_task_lease_lost (error : AsterError.t) : bool :=
  starts_with "background task lease lost" (AsterError.message error).
Definition is_task_lease_renewal_timed_out (error : AsterError.t) : bool :=
  starts_with "background task lease renewal timed out" (AsterError.message error).
Definition is_task_worker_shutdown_requested (error : AsterError.t) : bool :=
  starts_with "background task worker shutdown requested" (AsterError.message error).

(** ** mod.rs and steps.rs *)

Definition load_task_retention_hours : Z :=
  match retention_hours_config with
  | None => DEFAULT_TASK_RETENTION_HOURS
  | Some raw =>
      match parse_i64 raw with
      | Some hours => if 0 <? hours then hours else DEFAULT_TASK_RETENTION_HOURS
      | None => DEFAULT_TASK_RETENTION_HOURS
      end
  end.

Definition task_expiration_from {E} (now : DateTimeUtc) : M E DateTimeUtc :=
  match datetime_add_hours now load_task_retention_hours with
  | Some t => ret t
  | None => panic "`DateTime + TimeDelta` overflowed"
  end.

Definition serialize_task_steps (steps : list TaskStepInfo) : outcome AsterError.t string :=
  match steps_to_json steps with
  | Ok json => Ok json
  | Err error => Err (AsterError.InternalError ("serialize task steps: " +:+ error))
  | Panic m => Panic m
  end.

(** [if ...await? { Ok(()) } else { Err(lease_guard.mark_lost()) }] *)
Definition or_lease_lost (lease : TaskLease) (write : M AsterError.t bool)
  : M AsterError.t unit :=
  let* updated := write in
  if updated then ret tt else throw (task_lease_lost lease).

Definition update_task_progress_db (lease : TaskLease) (current total : Z)
  (status_text : option string) (steps : list TaskStepInfo) : M AsterError.t unit :=
  let status_text := truncate_status_text <$> status_text in
  let* steps_json := lift (serialize_task_steps steps) in
  let* now := utc_now in
  or_lease_lost lease (TaskRepo.mark_progress
    (TaskRepo.mkProgress (lease_task_id lease) (lease_token lease) now
       (task_lease_expires_at now) current total status_text (Some steps_json))).

Definition set_task_runtime_json (lease : TaskLease) (runtime_json : option string)
  : M AsterError.t unit :=
  let* now := utc_now in
  or_lease_lost lease
    (TaskRepo.set_runtime_json (lease_task_id lease) (lease_token lease) runtime_json now).

Definition set_task_display_name (lease : TaskLease) (display_name : string)
  : M AsterError.t unit :=
  let* now := utc_now in
  let display_name := truncate_utf8_to_max_bytes display_name 512 in
  or_lease_lost lease
    (TaskRepo.set_display_name (lease_task_id lease) (lease_token lease) display_name now).

Definition mark_task_succeeded (lease : TaskLease) (result_json : option string)
  (current total : Z) (status_text : option string) (steps : list TaskStepInfo)
  : M AsterError.t unit :=
  let* now := utc_now in
  let status_text := truncate_status_text <$> status_text in
  let* steps_json := lift (serialize_task_steps steps) in
  let* expires_at := task_expiration_from now in
  or_lease_lost lease (TaskRepo.mark_succeeded
    (TaskRepo.mkSuccess (lease_task_id lease) (lease_token lease) result_json
       (Some steps_json) current total status_text now expires_at)).

(** ** dispatch/execute.rs *)

Definition touch_task_heartbeat (lease : TaskLease) (now lease_expires_at : DateTimeUtc)
  : M AsterError.t bool :=
  TaskRepo.touch_heartbeat (lease_task_id lease) (lease_token lease) now lease_expires_at.

Definition storage_error (error : AsterError.t) : string :=
  truncate_error (AsterError.message error).

Definition mark_task_failed (task : background_task) (lease : TaskLease)
  (attempt_count : Z) (storage_error : string) (finished_at : DateTimeUtc)
  (failed_steps_json : option string) (failure_can_retry : bool) : M AsterError.t bool :=
  let* expires_at := task_expiration_from finished_at in
  TaskRepo.mark_failed
    (TaskRepo.mkFailure (task_pk task) (lease_token lease) attempt_count storage_error
       finished_at expires_at failed_steps_json failure_can_retry).

Definition mark_task_retry (task : background_task) (lease : TaskLease)
  (attempt_count : Z) (retry_at : DateTimeUtc) (storage_error : string)
  (failed_steps_json : option string) : M AsterError.t bool :=
  TaskRepo.mark_retry (task_pk task) (lease_token lease) attempt_count retry_at
    storage_error failed_steps_json.

Definition release_task_for_shutdown (task : background_task) (lease : TaskLease)
  : M AsterError.t bool :=
  let* now := utc_now in
  TaskRepo.release_processing (task_pk task) (lease_token lease) now Retry.

(** ** admin.rs *)

Definition task_can_retry (task : background_task) : bool :=
  eqb (task_status task) Failed && default true (failure_can_retry task).

Definition validate_admin_task_cleanup_status (status : option BackgroundTaskStatus)
  : outcome AsterError.t unit :=
  if is_some_and status (fun value => negb (is_terminal value))
  then Err (AsterError.ValidationError "only completed task statuses can be cleaned up")
  else Ok tt.

Record AdminTaskCleanupFilters : Type := mkAdminCleanup {
  ac_finished_before : DateTimeUtc;
  ac_kind : option BackgroundTaskKind;
  ac_status : option BackgroundTaskStatus
}.

Definition cleanup_tasks_for_admin (filters : AdminTaskCleanupFilters) : M AsterError.t Z :=
  let* _ := lift (validate_admin_task_cleanup_status (ac_status filters)) in
  TaskRepo.delete_terminal_by_filters
    (TaskRepo.mkCleanup (ac_finished_before filters) (ac_kind filters) (ac_status filters)).

(** [registry]: the one kind has no steps and a single attempt. *)
Definition initial_task_steps (kind : BackgroundTaskKind) : list TaskStepInfo :=
  match kind with SystemRuntime => initial_task_steps_from_specs [] end.
Definition max_attempts (kind : BackgroundTaskKind) : Z :=
  match kind with SystemRuntime => 1 end.

Definition retry_task_record (task : background_task) : M AsterError.t unit :=
  do* when_ok (negb (eqb (task_status task) Failed))
        (AsterError.ValidationError "only failed tasks can be retried") in
  do* when_ok (negb (task_can_retry task))
        (AsterError.ValidationError "this task failure cannot be retried") in
  do* remove_task_temp_dir (task_pk task) in
  let* steps_json := lift (serialize_task_steps (initial_task_steps (task_kind task))) in
  let max_attempts := max_attempts (task_kind task) in
  let* now := utc_now in
  let* reset := TaskRepo.reset_for_manual_retry (task_pk task) now max_attempts
                  (Some steps_json) in
  when_ok (negb reset)
    (AsterError.InternalError
       ("failed to reset task #" +:+ pretty (task_pk task) +:+ " for retry")).
End Service.
