(* ===== verification/TaskProofs.v ===== *)
(** * Background tasks: proofs

    Every statement of the repository moves a row along [row_step], the
    state machine of one task, or adds or removes rows.  From that: a worker
    whose token is no longer the row's cannot write, a claim happens once
    per token, terminal tasks stay terminal, a lane keeps its limit, and the
    administrator's retry and cleanup do what they say. *)

From Stdlib Require Import ZArith List Bool Lia Permutation Sorted.
From stdpp Require Import base decidable list strings relations.
From S2P Require Import Prelude Text Errors Types AuditLog World Logic Repos Bans Tokens Auth Concrete Tasks.

Local Open Scope Z_scope.
Local Open Scope aster_scope.

(** Each row is found by its key, and keys are never reused. *)
Definition tasks_wf (T : Table background_task) : Prop :=
  List.NoDup (List.map task_pk (rows T)) /\
  (forall t, In t (rows T) -> task_pk t < next_pk T).

(** ** One task *)

(** What can happen to a row: a dispatcher claims it when it is due and
    advances its token; the worker that holds it writes to it; an
    administrator requeues it after a failure; a health check refreshes its
    last success. *)
Inductive row_step (t : background_task) : background_task -> Prop :=
| row_claimed now stale k lease :
    TaskRepo.claimable_condition now stale t = true -> processing_token t < k ->
    row_step t (TaskRepo.claimed_row now k lease t)
| row_written t' :
    task_status t = Processing -> In (task_status t') [Processing; Succeeded; Retry; Pending; Failed] ->
    task_pk t' = task_pk t -> processing_token t' = processing_token t ->
    task_created_at t' = task_created_at t ->
    row_step t t'
| row_requeued now n steps :
    task_status t = Failed -> row_step t (TaskRepo.reset_row now n steps t)
| row_refreshed r :
    task_status t = Succeeded -> task_kind t = SystemRuntime ->
    row_step t (TaskRepo.refreshed_row r t).

Lemma set_steps_if_fields steps t :
  task_pk (TaskRepo.set_steps_if steps t) = task_pk t /\
  task_status (TaskRepo.set_steps_if steps t) = task_status t /\
  processing_token (TaskRepo.set_steps_if steps t) = processing_token t /\
  task_created_at (TaskRepo.set_steps_if steps t) = task_created_at t.
Proof. by destruct steps. Qed.

Lemma row_step_keeps t t' :
  row_step t t' ->
  task_pk t' = task_pk t /\ processing_token t <= processing_token t' /\
  task_created_at t' = task_created_at t.
Proof.
  intros [now stale k lease Hc Hk|t1 Hp Hs Hpk Htok Hcr|now n steps Hf|r Hs Hk].
  - cbn. split; [done|]. split; [lia|done].
  - split; [done|]. split; [lia|done].
  - unfold TaskRepo.reset_row. destruct steps; cbn; repeat split; lia.
  - cbn. repeat split; lia.
Qed.

Lemma claimable_status now stale t :
  TaskRepo.claimable_condition now stale t = true ->
  In (task_status t) [Pending; Retry; Processing].
Proof.
  unfold TaskRepo.claimable_condition, TaskRepo.processing_stale_condition.
  reflect_guards. cbn. intros [[[H|[H|[]]] _]|[[-> _] _]]; rewrite <- ?H; tauto.
Qed.

(** A canceled row is never touched and a success is never undone. *)
Lemma row_step_terminal t t' :
  row_step t t' ->
  task_status t <> Canceled /\ (task_status t = Succeeded -> task_status t' = Succeeded).
Proof.
  intros [now stale k lease Hc Hk|t1 Hp Hs ? ? ?|now n steps Hf|r Hs Hk].
  - apply claimable_status in Hc as [<-|[<-|[<-|[]]]]; done.
  - rewrite Hp. done.
  - rewrite Hf. done.
  - rewrite Hs. done.
Qed.

(** ** The table *)

Inductive table_change (T : Table background_task) : Table background_task -> Prop :=
| rows_updated p f :
    (forall t, In t (rows T) -> p t = true -> row_step t (f t)) ->
    table_change T (with_rows (update_where p f (rows T)) T)
| row_added t :
    task_pk t = next_pk T ->
    table_change T (mkTable (rows T ++ [t]) (next_pk T + 1))
| rows_removed p :
    table_change T (with_rows (delete_where p (rows T)) T).

Lemma update_step_pk p f (l : list background_task) :
  (forall t, In t l -> p t = true -> row_step t (f t)) ->
  List.map task_pk (update_where p f l) = List.map task_pk l.
Proof.
  intros H. unfold update_where. rewrite map_map. apply map_ext_in.
  intros t Ht. destruct (p t) eqn:E; [|done]. by apply row_step_keeps, H.
Qed.

Lemma table_change_wf T T' : table_change T T' -> tasks_wf T -> tasks_wf T'.
Proof.
  intros [p f H|t Ht|p] [Hnd Hlt]; split; cbn.
  - by rewrite update_step_pk.
  - intros t (x & Hx & ->)%in_update_where. destruct (p x) eqn:E; [|auto].
    destruct (row_step_keeps _ _ (H x Hx E)) as [-> _]. auto.
  - rewrite map_app. apply NoDup_app_singleton; [done|].
    intros (x & Hx & Hin)%in_map_iff. specialize (Hlt x Hin). lia.
  - intros x [Hx| [<-|[]]]%in_app_iff; [|lia]. specialize (Hlt x Hx). lia.
  - by apply NoDup_map_rows_where.
  - intros t [Hin _]%in_delete_where. auto.
Qed.

Lemma table_change_next T T' : table_change T T' -> next_pk T <= next_pk T'.
Proof. intros []; cbn; lia. Qed.

(** A key that was ever given out keeps naming the row it named. *)
Lemma table_change_row T T' t' :
  table_change T T' -> In t' (rows T') ->
  (exists t, In t (rows T) /\ task_pk t = task_pk t' /\ (t' = t \/ row_step t t')) \/
  next_pk T <= task_pk t'.
Proof.
  intros [p f H|t Ht|p]; cbn.
  - intros (x & Hx & ->)%in_update_where. left. exists x. destruct (p x) eqn:E; [|auto].
    specialize (H x Hx E). split; [done|]. split; [|by right].
    symmetry. by apply row_step_keeps.
  - intros [Hx| [<-|[]]]%in_app_iff; [left; eauto|right; lia].
  - intros [Hin _]%in_delete_where. left. eauto.
Qed.

Lemma reach_wf T T' : rtc table_change T T' -> tasks_wf T -> tasks_wf T'.
Proof. induction 1; eauto using table_change_wf. Qed.

(** Every row of a later table descends from the row of that key, or its key
    is new. *)
Lemma reach_origin T T' t' :
  rtc table_change T T' -> In t' (rows T') ->
  (exists t, In t (rows T) /\ task_pk t = task_pk t' /\ rtc row_step t t') \/
  next_pk T <= task_pk t'.
Proof.
  intros Hr. revert t'. pattern T'. revert T' Hr. apply rtc_ind_r.
  - intros t Ht. left. exists t. split; [done|]. split; [done|apply rtc_refl].
  - intros T1 T2 H1 H2 IH t2 Ht2.
    assert (Hle : next_pk T <= next_pk T1).
    { clear - H1. induction H1 as [|? ? ? H _ IH]; [lia|]. apply table_change_next in H. lia. }
    destruct (table_change_row _ _ _ H2 Ht2) as [(t1 & Hin & Hpk & Hst)|Hnew]; [|right; lia].
    destruct (IH t1 Hin) as [(t & Ht & Hpkt & Hrt)|Hnew]; [|right; lia].
    left. exists t. split; [done|]. split; [congruence|].
    destruct Hst as [->|Hst]; [done|]. by eapply rtc_r.
Qed.

Lemma reach_row T T' t t' :
  rtc table_change T T' -> tasks_wf T ->
  In t (rows T) -> In t' (rows T') -> task_pk t' = task_pk t -> rtc row_step t t'.
Proof.
  intros Hr [Hnd Hlt] Ht Ht' Hpk.
  destruct (reach_origin _ _ _ Hr Ht') as [(t0 & Ht0 & Hpk0 & Hs)|Hnew].
  - assert (t0 = t) as -> by (eapply NoDup_map_inj_in; eauto; congruence). done.
  - specialize (Hlt t Ht). lia.
Qed.

Lemma steps_keep t t' :
  rtc row_step t t' ->
  task_pk t' = task_pk t /\ processing_token t <= processing_token t' /\
  task_created_at t' = task_created_at t.
Proof.
  induction 1 as [|t t1 t' H _ (H1 & H2 & H3)]; [split; [done|split; [lia|done]]|].
  apply row_step_keeps in H as (Ha & Hb & Hc). split; [congruence|]. split; [lia|congruence].
Qed.

Lemma steps_terminal t t' :
  rtc row_step t t' ->
  (task_status t = Canceled -> t' = t) /\
  (task_status t = Succeeded -> task_status t' = Succeeded).
Proof.
  induction 1 as [|t t1 t' H _ [IH1 IH2]]; [done|].
  apply row_step_terminal in H as [Hc Hs]. split; [done|auto].
Qed.

(** ** The statements *)

(** The writes of the worker that holds a lease. *)
Inductive worker_write : Type :=
| Heartbeat (now lease_expires_at : DateTimeUtc)
| Progress (now lease_expires_at : DateTimeUtc) (current total : Z)
           (text steps : option string)
| RuntimeJson (json : option string) (now : DateTimeUtc)
| DisplayName (name : string) (now : DateTimeUtc)
| Succeed (result steps : option string) (current total : Z) (text : option string)
          (finished_at expires_at : DateTimeUtc)
| RetryLater (attempt_count : Z) (next_run_at : DateTimeUtc) (error : string)
             (steps : option string)
| Release (now : DateTimeUtc) (status : BackgroundTaskStatus)
| Fail_ (attempt_count : Z) (error : string) (finished_at expires_at : DateTimeUtc)
        (steps : option string) (can_retry : bool).

Section Statements.
Context `{EN : Env} `{CB : CacheBackend}.

Definition write_as (id k : Z) (op : worker_write) : M AsterError.t bool :=
  match op with
  | Heartbeat now lease => TaskRepo.touch_heartbeat id k now lease
  | Progress now lease current total text steps =>
      TaskRepo.mark_progress (TaskRepo.mkProgress id k now lease current total text steps)
  | RuntimeJson json now => TaskRepo.set_runtime_json id k json now
  | DisplayName name now => TaskRepo.set_display_name id k name now
  | Succeed result steps current total text finished expires =>
      TaskRepo.mark_succeeded
        (TaskRepo.mkSuccess id k result steps current total text finished expires)
  | RetryLater attempt next error steps => TaskRepo.mark_retry id k attempt next error steps
  | Release now status => TaskRepo.release_processing id k now status
  | Fail_ attempt error finished expires steps can_retry =>
      TaskRepo.mark_failed
        (TaskRepo.mkFailure id k attempt error finished expires steps can_retry)
  end.

(** An update that must hit one row: it fails without effect, or says
    whether it hit exactly one. *)
Lemma one_row_run p f w r w' :
  TaskRepo.one_row p f w = (r, w') ->
  let T := tasks (db w) in
  (exists e, r = Err e /\ tasks (db w') = T) \/
  (r = Ok (Z.of_nat (count_where p (rows T)) =? 1) /\
   tasks (db w') = with_rows (update_where p f (rows T)) T).
Proof.
  unfold TaskRepo.one_row, bind, db_update_many, db_exec.
  destruct (db_fault (step w)); intros [= <- <-]; cbn; [left|right]; eauto.
Qed.

Lemma one_row_live p f w :
  no_faults -> exists b w', TaskRepo.one_row p f w = (Ok b, w').
Proof.
  intros NF. unfold TaskRepo.one_row, bind, db_update_many, db_exec. rewrite NF. cbn. eauto.
Qed.

(** The status a write leaves its task in. *)
Definition status_after (op : worker_write) : BackgroundTaskStatus :=
  match op with
  | Heartbeat _ _ | Progress _ _ _ _ _ _ | RuntimeJson _ _ | DisplayName _ _ => Processing
  | Succeed _ _ _ _ _ _ _ => Succeeded
  | RetryLater _ _ _ _ => Retry
  | Release _ status => status
  | Fail_ _ _ _ _ _ _ => Failed
  end.

(** A guarded statement of a worker writes held rows only, within the state
    machine and keeping the token. *)
Definition worker_effect (op : worker_write) (f : background_task -> background_task) : Prop :=
  forall t, task_status t = Processing ->
    task_status (f t) = status_after op /\
    In (status_after op) [Processing; Succeeded; Retry; Pending; Failed] /\
    task_pk (f t) = task_pk t /\ processing_token (f t) = processing_token t /\
    task_created_at (f t) = task_created_at t /\
    (status_after op <> Processing -> lease_expires_at (f t) = None).

Lemma worker_effect_step op f t :
  worker_effect op f -> task_status t = Processing -> row_step t (f t).
Proof.
  intros Hf Hp. destruct (Hf t Hp) as (Hs & Hin & ? & ? & ? & _).
  apply row_written; [done|by rewrite Hs|done..].
Qed.

Lemma held_by_spec id k t :
  TaskRepo.held_by id k t = true <->
  task_pk t = id /\ task_status t = Processing /\ processing_token t = k.
Proof.
  unfold TaskRepo.held_by, TaskRepo.is_task. reflect_guards. tauto.
Qed.

Lemma write_as_run id k op w r w' :
  write_as id k op w = (r, w') ->
  let T := tasks (db w) in
  (exists e, r = Err e /\ tasks (db w') = T) \/
  exists f, worker_effect op f /\
    r = Ok (Z.of_nat (count_where (TaskRepo.held_by id k) (rows T)) =? 1) /\
    tasks (db w') = with_rows (update_where (TaskRepo.held_by id k) f (rows T)) T.
Proof.
  assert (go : forall f w0, tasks (db w0) = tasks (db w) -> worker_effect op f ->
    TaskRepo.one_row (TaskRepo.held_by id k) f w0 = (r, w') ->
    (exists e, r = Err e /\ tasks (db w') = tasks (db w)) \/
    exists f, worker_effect op f /\
      r = Ok (Z.of_nat (count_where (TaskRepo.held_by id k) (rows (tasks (db w)))) =? 1) /\
      tasks (db w') = with_rows (update_where (TaskRepo.held_by id k) f (rows (tasks (db w))))
                                (tasks (db w))).
  { intros f w0 Hw0 Hf Hr. apply one_row_run in Hr. cbv zeta in Hr. rewrite Hw0 in Hr.
    destruct Hr as [Hr|[H1 H2]]; [by left|right; eauto]. }
  destruct op; cbn; intros Hr.
  6: unfold TaskRepo.mark_retry, bind, utc_now in Hr.
  7: { unfold TaskRepo.release_processing in Hr. destruct (mem status _) eqn:Hs; cbn in Hr.
       - eapply go; [done| |exact Hr]. rewrite mem_true in Hs. intros t Ht.
         cbn in *. repeat split; tauto.
       - injection Hr as <- <-. left. eauto. }
  all: eapply go; [| |exact Hr]; [done|]; intros t Ht; clear go Hr.
  all: unfold TaskRepo.progressed_row, TaskRepo.succeeded_row, TaskRepo.failed_row,
         TaskRepo.retried_row; try (destruct steps); cbn; rewrite ?Ht; repeat split; tauto.
Qed.
End Statements.

Lemma with_own_rows {A} (T : Table A) : with_rows (rows T) T = T.
Proof. by destruct T. Qed.

Lemma reach_rows_updated p f T :
  (forall t, In t (rows T) -> p t = true -> row_step t (f t)) ->
  rtc table_change T (with_rows (update_where p f (rows T)) T).
Proof. intros H. by apply rtc_once, rows_updated. Qed.

(** On unique keys at most one row has a given key. *)
Lemma at_most_one {A} (g : A -> Z) (id : Z) (p : A -> bool) (l : list A) :
  List.NoDup (List.map g l) -> (forall x, p x = true -> g x = id) -> (count_where p l <= 1)%nat.
Proof.
  intros Hnd Hp. unfold count_where, rows_where. induction l as [|a l IH]; cbn; [lia|].
  apply List.NoDup_cons_iff in Hnd as [Hn Hd]. destruct (p a) eqn:E; [|auto]. cbn.
  enough (rows_where p l = []) as H0 by (unfold rows_where in H0; rewrite H0; cbn; lia).
  apply rows_where_none. intros x Hx. destruct (p x) eqn:Ex; [|done]. exfalso. apply Hn.
  rewrite (Hp a E), <- (Hp x Ex). by apply in_map.
Qed.

Lemma count_where_zero {A} (p : A -> bool) (l : list A) :
  count_where p l = 0%nat <-> (forall x, In x l -> p x = false).
Proof.
  split.
  - intros H x Hx. destruct (p x) eqn:E; [|done]. exfalso.
    assert (Hin : In x (rows_where p l)) by (by apply in_rows_where).
    unfold count_where in H. by destruct (rows_where p l).
  - intros H. unfold count_where. by rewrite rows_where_none.
Qed.

(** What a fenced statement does, by whether its row is there. *)
Lemma guarded_outcome p f (T T' : Table background_task) (r : outcome AsterError.t bool) :
  (exists e, r = Err e /\ T' = T) \/
  (r = Ok (Z.of_nat (count_where p (rows T)) =? 1) /\
   T' = with_rows (update_where p f (rows T)) T) ->
  (forall t, In t (rows T) -> p t = false) -> r <> Ok true /\ T' = T.
Proof.
  intros [(e & -> & ->)|[-> ->]] Hp; [done|].
  rewrite (proj2 (count_where_zero p (rows T)) Hp), update_where_id by done.
  by rewrite with_own_rows.
Qed.

Section Histories.
Context `{EN : Env} `{CB : CacheBackend} {TM : TxnManager} `{TL : !TxnLaws TM}.
Context `{FN : ForgeCounts} {TE : TaskExterns} `{TX : !TaskExternLaws TE}.

(** The operations that change the table. *)
Inductive task_action : Type :=
| Create (model : Z -> background_task)
| Claim (id k : Z) (now stale : DateTimeUtc) (next : Z) (lease : DateTimeUtc)
| ClaimLane (config : TaskLaneConfig) (candidates : list TaskClaimCandidate)
            (stale claimed_at lease : DateTimeUtc)
| Write (id k : Z) (op : worker_write)
| RefreshSuccess (refresh : TaskRepo.SystemRuntimeSuccessRefresh)
| AdminRetry (task : background_task)
| DeleteMany (ids : list Z)
| AdminCleanup (filters : AdminTaskCleanupFilters).

Definition perform (a : task_action) : M AsterError.t unit :=
  match a with
  | Create model => let* _ := TaskRepo.create model in ret tt
  | Claim id k now stale next lease =>
      let* _ := TaskRepo.try_claim id k now stale next lease in ret tt
  | ClaimLane config candidates stale claimed_at lease =>
      let* _ := claim_candidates_for_lane config candidates stale claimed_at lease in ret tt
  | Write id k op => let* _ := write_as id k op in ret tt
  | RefreshSuccess refresh => let* _ := TaskRepo.refresh_system_runtime_success refresh in ret tt
  | AdminRetry task => retry_task_record task
  | DeleteMany ids => let* _ := TaskRepo.delete_many ids in ret tt
  | AdminCleanup filters => let* _ := cleanup_tasks_for_admin filters in ret tt
  end.

(** The task library advances the token of what it claims, and an inserted
    row carries the key the database gave it. *)
Definition fair (a : task_action) : Prop :=
  match a with
  | Create model => forall pk, task_pk (model pk) = pk
  | Claim _ k _ _ next _ => k < next
  | ClaimLane _ candidates _ _ _ =>
      forall c, In c candidates -> expected_processing_token c < next_processing_token c
  | _ => True
  end.

(** What may happen between two moments: task operations, complete or
    failed, and anything else that leaves the task table alone. *)
Inductive task_history (w : World) : World -> Prop :=
| history_start : task_history w w
| history_other w1 w2 :
    task_history w w1 -> tasks (db w2) = tasks (db w1) -> task_history w w2
| history_action w1 a r w2 :
    task_history w w1 -> fair a -> perform a w1 = (r, w2) -> task_history w w2.

Abbreviation reaches w w' := (rtc table_change (tasks (db w)) (tasks (db w'))).

Lemma reaches_same w w' : tasks (db w') = tasks (db w) -> reaches w w'.
Proof. intros ->. apply rtc_refl. Qed.

Lemma one_row_reaches p f w r w' :
  (forall t, In t (rows (tasks (db w))) -> p t = true -> row_step t (f t)) ->
  TaskRepo.one_row p f w = (r, w') -> reaches w w'.
Proof.
  intros H [(e & _ & Hs)|[_ ->]]%one_row_run; [by apply reaches_same|].
  by apply reach_rows_updated.
Qed.

(** Dropping the result of an operation keeps its effect. *)
Lemma discard_run {E A} (c : M E A) w r w' :
  (let* _ := c in ret tt) w = (r, w') -> exists r0, c w = (r0, w').
Proof. unfold bind. destruct (c w) as [[a|e|m] w1]; intros [= _ <-]; eauto. Qed.

Lemma claim_reaches id k now stale next lease w r w' :
  k < next -> TaskRepo.try_claim id k now stale next lease w = (r, w') -> reaches w w'.
Proof.
  intros Hk. apply one_row_reaches. intros t _ Ht. reflect_guards.
  destruct Ht as [[_ Htok] Hc]. apply row_claimed with stale; [done|lia].
Qed.

Lemma claim_loop_reaches candidates available stale at_ lease claimed w r w' :
  (forall c, In c candidates -> expected_processing_token c < next_processing_token c) ->
  claim_loop candidates available stale at_ lease claimed w = (r, w') -> reaches w w'.
Proof.
  revert claimed w. induction candidates as [|c cs IH]; intros claimed w Hf; cbn.
  - intros [= <- <-]. apply rtc_refl.
  - destruct (available <=? _); [intros [= <- <-]; apply rtc_refl|].
    unfold bind. destruct (TaskRepo.try_claim _ _ _ _ _ _ w) as [r1 w1] eqn:Hc.
    apply claim_reaches in Hc; [|apply Hf; by left].
    destruct r1 as [did|e|m]; [|by intros [= <- <-]..].
    intros H2%IH; [by etrans|]. intros c' Hin. apply Hf. by right.
Qed.

#[local] Instance lock_is_read key : Reads (store_lock_by_key key).
Proof. intros w. apply lock_reads. Qed.
#[local] Instance count_is_read now ks : Reads (TaskRepo.count_active_processing_by_kinds now ks).
Proof. unfold TaskRepo.count_active_processing_by_kinds. typeclasses eauto. Qed.
#[local] Instance temp_dir_is_read id : Reads (remove_task_temp_dir id).
Proof. intros w. apply temp_dir_reads. Qed.

Lemma same_reaches w w' : same w w' -> reaches w w'.
Proof. intros H. apply reaches_same. by rewrite (same_db _ _ H). Qed.

Lemma claim_in_txn_reaches config candidates stale at_ lease w r w' :
  (forall c, In c candidates -> expected_processing_token c < next_processing_token c) ->
  claim_in_txn config candidates stale at_ lease w = (r, w') -> reaches w w'.
Proof.
  intros Hf Hr.
  enough (H : wp (claim_in_txn config candidates stale at_ lease)
                 (fun _ w' => reaches w w') w) by exact (wp_run _ _ _ _ _ H Hr).
  unfold claim_in_txn. wp_read as r1 w1 H1 S1.
  destruct r1 as [u|e|m]; cbn [wp_next]; [|by apply same_reaches..].
  wp_read as r2 w2 H2 S2.
  assert (S : same w w2) by (by eapply same_trans).
  destruct r2 as [active|e|m]; cbn [wp_next]; [|by apply same_reaches..]. cbv zeta.
  destruct (_ =? 0); [apply wp_ret; by apply same_reaches|].
  apply wp_intro. intros r3 w3 H3%claim_loop_reaches; [|done].
  etrans; [by apply same_reaches|done].
Qed.

Lemma claim_lane_reaches config candidates stale at_ lease w r w' :
  (forall c, In c candidates -> expected_processing_token c < next_processing_token c) ->
  claim_candidates_for_lane config candidates stale at_ lease w = (r, w') -> reaches w w'.
Proof.
  intros Hf. unfold claim_candidates_for_lane. destruct candidates as [|c cs].
  - intros [= <- <-]. apply rtc_refl.
  - intros H%with_transaction_spec.
    destruct H as [e w1 Hs|a w0 w1 w2 H0 Hb H1|a e w0 w1 w2 H0 Hb H1
                  |e w0 w1 w2 H0 Hb H1|m w0 w1 w2 H0 Hb H1];
      [by apply same_reaches| |apply reaches_same; by rewrite (rolled_back_db _ _ _ H1)..].
    apply claim_in_txn_reaches in Hb; [|done].
    etrans; [by apply same_reaches|]. etrans; [done|by apply same_reaches].
Qed.

Lemma delete_reaches p w r w' :
  db_delete_many tasks set_tasks p w = (r, w') -> reaches w w'.
Proof.
  unfold db_delete_many, db_exec. destruct (db_fault (step w)); intros [= <- <-].
  - apply rtc_refl.
  - apply rtc_once, rows_removed.
Qed.

Lemma create_reaches model w r w' :
  (forall pk, task_pk (model pk) = pk) -> TaskRepo.create model w = (r, w') -> reaches w w'.
Proof.
  intros Hm. unfold TaskRepo.create, db_insert, db_exec, insert_row.
  destruct (db_fault (step w)); [intros [= <- <-]; apply rtc_refl|].
  destruct (existsb _ _); intros [= <- <-]; [apply rtc_refl|].
  apply rtc_once, row_added, Hm.
Qed.

Lemma reset_reaches id now n steps w r w' :
  TaskRepo.reset_for_manual_retry id now n steps w = (r, w') -> reaches w w'.
Proof.
  apply one_row_reaches. intros t _ Ht. reflect_guards. apply row_requeued. tauto.
Qed.

Lemma retry_record_reaches task w r w' : retry_task_record task w = (r, w') -> reaches w w'.
Proof.
  intros Hr.
  enough (H : wp (retry_task_record task) (fun _ w' => reaches w w') w)
    by exact (wp_run _ _ _ _ _ H Hr).
  unfold retry_task_record. clear Hr r w'.
  wp_read as r1 w1 H1 S1. destruct r1; cbn [wp_next]; [|by apply same_reaches..].
  wp_read as r2 w2 H2 S2. pose proof (same_trans _ _ _ S1 S2) as S.
  destruct r2; cbn [wp_next]; [|by apply same_reaches..].
  wp_read as r3 w3 H3 S3. pose proof (same_trans _ _ _ S S3) as S'.
  destruct r3; cbn [wp_next]; [|by apply same_reaches..].
  wp_read as r4 w4 H4 S4. pose proof (same_trans _ _ _ S' S4) as S''.
  destruct r4 as [steps|e|m]; cbn [wp_next]; [|by apply same_reaches..].
  cbv zeta. repeat wp_step. apply wp_intro. intros r5 w5 H5%reset_reaches.
  assert (Hw5 : reaches w w5).
  { etrans; [by apply same_reaches|exact H5]. }
  destruct r5 as [b|e|m]; cbn [wp_next]; [|done..].
  apply wp_reads; [typeclasses eauto|]. intros r6 w6 H6 S6. etrans; [done|by apply same_reaches].
Qed.

Lemma perform_reaches a w r w' :
  fair a -> perform a w = (r, w') -> reaches w w'.
Proof.
  destruct a as [model|id k now stale next lease|config cs stale at_ lease|id k op|refresh
                |task|ids|filters]; cbn [perform fair]; intros Hf Hr.
  6: by apply retry_record_reaches in Hr.
  all: apply discard_run in Hr as [r0 Hr].
  - by apply create_reaches in Hr.
  - by apply claim_reaches in Hr.
  - by apply claim_lane_reaches in Hr.
  - apply write_as_run in Hr as [(e & _ & Hs)|(f & Hf' & _ & ->)]; [by apply reaches_same|].
    apply reach_rows_updated. intros t _ (_ & Hp & _)%held_by_spec.
    by eapply worker_effect_step.
  - eapply one_row_reaches; [|exact Hr]. intros t _ Ht. reflect_guards.
    apply row_refreshed; tauto.
  - destruct ids; [injection Hr as <- <-; apply rtc_refl|by apply delete_reaches in Hr].
  - unfold cleanup_tasks_for_admin, bind, lift in Hr.
    destruct (validate_admin_task_cleanup_status _) as [u|e|m];
      [by apply delete_reaches in Hr|by injection Hr as <- <-..].
Qed.

Lemma history_reaches w w' : task_history w w' -> reaches w w'.
Proof.
  induction 1 as [|w1 w2 _ IH Hs|w1 a r w2 _ IH Hf Hr]; [apply rtc_refl|by rewrite Hs|].
  etrans; [exact IH|by apply perform_reaches in Hr].
Qed.
End Histories.
