(* ===== verification/TaskTheorems.v ===== *)
(** * Background tasks: theorems

    The dispatcher's guarantees: a lost lease fences its worker for good,
    terminal tasks stay terminal, a lane keeps its limit, listings are the
    oldest due tasks, and the administrator's operations are exact. *)

From Stdlib Require Import ZArith List Bool Lia Permutation Sorted.
From stdpp Require Import base decidable list strings relations.
From S2P Require Import Prelude Text Errors Types AuditLog World Logic Repos Bans Tokens Auth Concrete Tasks TaskProofs.

Local Open Scope Z_scope.
Local Open Scope aster_scope.

(** ** A concrete queue *)

#[export] Instance counts0 : ForgeCounts := {| i64_to_u64 := fun n _ => Ok n |}.
#[export] Instance counts0_laws : ForgeCountLaws counts0.
Proof. by split. Qed.

#[export] Instance task_externs0 : TaskExterns := {|
  available_lane_capacity := fun limit active => Z.max 0 (limit - active);
  lease_end := fun now secs => now + seconds secs;
  lease_lost_text := fun _ => "background task lease lost";
  TaskStepSpec := unit;
  TaskStepInfo := unit;
  initial_task_steps_from_specs := fun l => l;
  steps_to_json := fun _ => Ok "[]"%string;
  truncate_utf8_to_max_bytes := fun s n => byte_prefix (Z.to_nat n) s;
  datetime_add_hours := fun t n =>
    if n * 3600 * 1000 <=? I64_MAX then Some (t + seconds (n * 3600)) else None;
  retention_hours_config := Some "48"%string;
  store_lock_by_key := fun _ => ret tt;
  remove_task_temp_dir := fun _ => ret tt
|}.
#[export] Instance task_externs0_laws : TaskExternLaws task_externs0.
Proof. split; cbn; [lia|intros; apply same_refl..]. Qed.

Example retention0 : load_task_retention_hours = 48.
Proof. reflexivity. Qed.

(** A task due at 1000 s, one in the hands of a worker until 1060 s, one
    that failed and may be retried. *)
Definition pending_task (id : Z) : background_task :=
  mkTask id SystemRuntime Pending None "task" None "{}" None None None 0 1 None 0 3
         (seconds 1000) 0 None None None None None None None
         (seconds 90000) (seconds 900) (seconds 900).
Definition running_task : background_task :=
  TaskRepo.claimed_row (seconds 1000) 7 (seconds 1060) (pending_task 2).
Definition failed_task : background_task :=
  TaskRepo.failed_row
    (TaskRepo.mkFailure 3 0 1 "boom" (seconds 990) (seconds 90000) None true) (pending_task 3).
Definition queue0 : Db :=
  set_tasks (mkTable [pending_task 1; running_task; failed_task] 4) empty_db.
Definition queue_world : World := mkWorld queue0 ([] : list mem_entry) [] 0%nat ∅.

Definition status_of_task (id : Z) (w : World) : option BackgroundTaskStatus :=
  task_status <$> find_row (TaskRepo.is_task id) (rows (tasks (db w))).

Lemma queue_wf : tasks_wf (tasks (db queue_world)).
Proof.
  split; cbn; [repeat constructor; cbn; intuition lia|].
  intros t [<-|[<-|[<-|[]]]]; cbn; lia.
Qed.

(** ** Leases *)

Section Leases.
Context `{EN : Env} `{CB : CacheBackend} {TM : TxnManager} `{TL : !TxnLaws TM}.
Context `{FN : ForgeCounts} {TE : TaskExterns} `{TX : !TaskExternLaws TE}.

(** A row whose token has moved past [k0] is out of reach of [k0]. *)
Lemma fenced_by_token id k0 w p f :
  (forall t, p t = true -> task_pk t = id /\ processing_token t = k0) ->
  (forall t, In t (rows (tasks (db w))) -> task_pk t = id -> k0 < processing_token t) ->
  forall r w', TaskRepo.one_row p f w = (r, w') ->
  r <> Ok true /\ tasks (db w') = tasks (db w).
Proof.
  intros Hp Hk r w' Hr. eapply guarded_outcome; [by eapply one_row_run|].
  intros t Ht. destruct (p t) eqn:E; [|done]. destruct (Hp t E) as [Hid Htok].
  specialize (Hk t Ht Hid). lia.
Qed.

Lemma one_row_hit {A} (p : A -> bool) l :
  true = (Z.of_nat (count_where p l) =? 1) -> (0 < count_where p l)%nat.
Proof. lia. Qed.

Lemma claimed_token id k now stale next lease w w1 t :
  tasks_wf (tasks (db w)) -> k < next ->
  TaskRepo.try_claim id k now stale next lease w = (Ok true, w1) ->
  In t (rows (tasks (db w1))) -> task_pk t = id -> processing_token t = next.
Proof.
  intros [Hnd _] Hk Hc Ht Hid.
  apply one_row_run in Hc as [(e & ? & _)|[Hb Hw1]]; [done|]. injection Hb as Hb.
  rewrite Hw1 in Ht. cbn in Ht. apply in_update_where in Ht as (x & Hx & ->).
  assert (Hpos := one_row_hit _ _ Hb). apply count_where_pos in Hpos as (y & Hy & Ey).
  assert (Hyid : task_pk y = id).
  { unfold TaskRepo.is_task in Ey. reflect_guards. tauto. }
  assert (Hxid : task_pk x = id).
  { destruct (_ && _) in Hid; cbn in Hid; done. }
  assert (x = y) as -> by (eapply NoDup_map_inj_in; eauto; congruence).
  by rewrite Ey.
Qed.

(** C22: a worker that lost its lease is shut out for good. Once a task was
    claimed away from processing token [k], then whatever task operations run
    afterwards (claims, lane dispatches, writes of workers, administrator
    retries and cleanups, failed statements), a write made with token [k] or
    an older one never reports success and changes no task, and no dispatcher
    that still expects such a token can claim the task. In particular two
    dispatchers that read the same row cannot both claim it. *)
Theorem stale_worker_fenced id k now stale next lease w w1 w2 :
  tasks_wf (tasks (db w)) -> k < next ->
  TaskRepo.try_claim id k now stale next lease w = (Ok true, w1) ->
  task_history w1 w2 ->
  forall k0, k0 <= k ->
  (forall op r w3, write_as id k0 op w2 = (r, w3) ->
     r <> Ok true /\ tasks (db w3) = tasks (db w2)) /\
  (forall now' stale' next' lease' r w3,
     TaskRepo.try_claim id k0 now' stale' next' lease' w2 = (r, w3) ->
     r <> Ok true /\ tasks (db w3) = tasks (db w2)).
Proof.
  intros Hwf Hk Hc Hh k0 Hk0.
  assert (Hwf1 : tasks_wf (tasks (db w1))).
  { eapply reach_wf; [by eapply claim_reaches|done]. }
  apply history_reaches in Hh.
  (* every later row with this key descends from the claimed one *)
  assert (Htok : forall t, In t (rows (tasks (db w2))) -> task_pk t = id ->
                 k0 < processing_token t).
  { intros t2 Ht2 Hid.
    assert (Hlt : exists t1, In t1 (rows (tasks (db w1))) /\ task_pk t1 = id).
    { apply one_row_run in Hc as [(e & ? & _)|[Hb Hw1]]; [done|]. injection Hb as Hb.
      assert (Hpos := one_row_hit _ _ Hb). apply count_where_pos in Hpos as (y & Hy & Ey).
      rewrite Hw1. eexists. split; [apply in_update_where; eauto|].
      rewrite Ey. unfold TaskRepo.is_task in Ey. reflect_guards. cbn. tauto. }
    destruct Hlt as (t1 & Ht1 & Hid1).
    pose proof (claimed_token _ _ _ _ _ _ _ _ _ Hwf Hk Hc Ht1 Hid1) as Hn.
    assert (Hs : rtc row_step t1 t2) by (eapply reach_row; eauto; congruence).
    apply steps_keep in Hs as (_ & Hle & _). lia. }
  split.
  - intros op r w3 Hw. apply write_as_run in Hw.
    assert (Hp : forall t, In t (rows (tasks (db w2))) -> TaskRepo.held_by id k0 t = false).
    { intros t Ht. destruct (TaskRepo.held_by id k0 t) eqn:E; [|done].
      apply held_by_spec in E as (Hid & _ & He). specialize (Htok t Ht Hid). lia. }
    destruct Hw as [Hw|(f & _ & Hw)];
      [eapply (guarded_outcome _ (fun t => t))|eapply guarded_outcome]; eauto.
  - intros now' stale' next' lease' r w3. apply fenced_by_token with id k0; [|done].
    unfold TaskRepo.is_task. intros t Ht. reflect_guards. tauto.
Qed.
End Leases.

Lemma stale_worker_fenced_witness :
  exists w1 w2,
    TaskRepo.try_claim 2 7 (seconds 1061) 0 8 (seconds 1121) queue_world = (Ok true, w1) /\
    TaskRepo.mark_succeeded (TaskRepo.mkSuccess 2 8 None None 1 1 None 0 0) w1 = (Ok true, w2) /\
    fst (write_as 2 7 (Succeed None None 1 1 None 0 0) w2) <> Ok true.
Proof.
  set (w1 := snd (TaskRepo.try_claim 2 7 (seconds 1061) 0 8 (seconds 1121) queue_world)).
  set (w2 := snd (TaskRepo.mark_succeeded (TaskRepo.mkSuccess 2 8 None None 1 1 None 0 0) w1)).
  assert (Hc : TaskRepo.try_claim 2 7 (seconds 1061) 0 8 (seconds 1121) queue_world
               = (Ok true, w1)) by (vm_compute; reflexivity).
  exists w1, w2. split; [exact Hc|]. split; [vm_compute; reflexivity|].
  assert (Hh : task_history w1 w2).
  { apply (history_action w1 w1 (Write 2 8 (Succeed None None 1 1 None 0 0)) (Ok tt));
      [apply history_start|done|vm_compute; reflexivity]. }
  eapply (proj1 (stale_worker_fenced 2 7 (seconds 1061) 0 8 (seconds 1121) queue_world w1 w2
             queue_wf ltac:(lia) Hc Hh 7 ltac:(lia))).
  apply surjective_pairing.
Defined.

(** ** The life of a task *)

Section Lifecycle.
Context `{EN : Env} `{CB : CacheBackend} {TM : TxnManager} `{TL : !TxnLaws TM}.
Context `{FN : ForgeCounts} {TE : TaskExterns} `{TX : !TaskExternLaws TE}.

Lemma steps_from_failed t t' :
  rtc row_step t t' -> task_status t = Failed ->
  t' = t \/ exists now n steps, rtc row_step (TaskRepo.reset_row now n steps t) t'.
Proof.
  intros [|t0 t1 t2 H H2] Hf; [by left|right].
  destruct H as [now stale k lease Hc Hk|t3 Hp ? ? ? ?|now n steps _|r Hs ?];
    [|congruence|eauto|congruence].
  apply claimable_status in Hc. rewrite Hf in Hc. by destruct Hc as [|[|[|[]]]].
Qed.

(** C38: the life of a task over any history of operations. A canceled task
    never changes again, a succeeded one stays succeeded, a failed one stays
    exactly as it failed until an administrator's retry resets it, and the
    processing token and creation time of a task never go back. Keys stay
    unique and are never given to another task: a row that was not there
    before has a new key. *)
Theorem task_lifecycle w w' :
  tasks_wf (tasks (db w)) -> task_history w w' ->
  tasks_wf (tasks (db w')) /\
  (forall t', In t' (rows (tasks (db w'))) ->
     (exists t, In t (rows (tasks (db w))) /\ task_pk t = task_pk t') \/
     next_pk (tasks (db w)) <= task_pk t') /\
  forall t t',
    In t (rows (tasks (db w))) -> In t' (rows (tasks (db w'))) -> task_pk t' = task_pk t ->
    processing_token t <= processing_token t' /\
    task_created_at t' = task_created_at t /\
    (task_status t = Canceled -> t' = t) /\
    (task_status t = Succeeded -> task_status t' = Succeeded) /\
    (task_status t = Failed ->
       t' = t \/ exists now n steps, rtc row_step (TaskRepo.reset_row now n steps t) t').
Proof.
  intros Hwf Hh%history_reaches. split; [by eapply reach_wf|]. split.
  - intros t' Ht'. destruct (reach_origin _ _ _ Hh Ht') as [(t & ? & ? & _)|?]; eauto.
  - intros t t' Ht Ht' Hpk.
    assert (Hs : rtc row_step t t') by (eapply reach_row; eauto).
    pose proof (steps_keep _ _ Hs) as (_ & Htok & Hcr).
    pose proof (steps_terminal _ _ Hs) as [Hcan Hsuc].
    repeat split; auto. by apply steps_from_failed.
Qed.
End Lifecycle.

Lemma task_lifecycle_witness :
  exists w',
    task_history queue_world w' /\
    perform (Write 3 0 (Succeed None None 1 1 None 0 0)) queue_world = (Ok tt, w') /\
    tasks_wf (tasks (db w')).
Proof.
  set (a := Write 3 0 (Succeed None None 1 1 None 0 0)).
  set (w' := snd (perform a queue_world)). exists w'.
  assert (Hr : perform a queue_world = (Ok tt, w')) by (vm_compute; reflexivity).
  assert (Hh : task_history queue_world w').
  { exact (history_action queue_world queue_world a (Ok tt) w' (history_start _) I Hr). }
  split; [exact Hh|]. split; [exact Hr|].
  apply (task_lifecycle queue_world _ queue_wf Hh).
Defined.

(** ** Claiming *)

(** When a task may be claimed. *)
Definition due (now : DateTimeUtc) (t : background_task) : Prop :=
  ((task_status t = Pending \/ task_status t = Retry) /\ next_run_at t <= now) \/
  (task_status t = Processing /\ exists l, lease_expires_at t = Some l /\ l <= now).

Lemma claimable_iff now stale t : TaskRepo.claimable_condition now stale t = true <-> due now t.
Proof.
  unfold TaskRepo.claimable_condition, TaskRepo.processing_stale_condition, due.
  reflect_guards. cbn [In]. destruct (lease_expires_at t) as [l|]; cbn; reflect_guards.
  - split.
    + intros [[[<-|[<-|[]]] H]|[[H _] H']]; eauto.
    + intros [[[->| ->] H]|(H & l' & [= <-] & H')]; tauto.
  - split.
    + intros [[[<-|[<-|[]]] H]|[[H [=]] H']]; eauto.
    + intros [[[->| ->] H]|(H & l' & [=] & H')]; tauto.
Qed.

Section Claiming.
Context `{EN : Env} `{CB : CacheBackend}.

(** claiming a task. Without a database failure the statement answers;
    the answer is yes exactly when the row exists, still carries the expected
    token and is due (waiting with its run time reached, or processing under a
    lease that ran out). Then that row, and no other, is handed over: it is
    processing under the new token and lease, with its first start time kept.
    Otherwise the table is unchanged. *)
Theorem try_claim_correct id k now stale next lease w :
  tasks_wf (tasks (db w)) ->
  (no_faults -> exists b w', TaskRepo.try_claim id k now stale next lease w = (Ok b, w')) /\
  forall b w', TaskRepo.try_claim id k now stale next lease w = (Ok b, w') ->
    (b = true <->
     exists t, In t (rows (tasks (db w))) /\ task_pk t = id /\ processing_token t = k /\ due now t) /\
    (b = false -> tasks (db w') = tasks (db w)) /\
    (b = true -> exists t t',
       In t (rows (tasks (db w))) /\ task_pk t = id /\ processing_token t = k /\ due now t /\
       In t' (rows (tasks (db w'))) /\ task_pk t' = id /\
       task_status t' = Processing /\ processing_token t' = next /\
       lease_expires_at t' = Some lease /\ started_at t' = Some (default now (started_at t)) /\
       forall u, task_pk u <> id ->
         (In u (rows (tasks (db w'))) <-> In u (rows (tasks (db w))))).
Proof.
  intros [Hnd Hlt]. split; [intros NF; by apply one_row_live|].
  intros b w' Hr. apply one_row_run in Hr as [(e & ? & _)|[Hb Hw]]; [done|].
  set (p := fun t => _) in Hb, Hw.
  assert (Hp : forall t, p t = true <-> task_pk t = id /\ processing_token t = k /\ due now t).
  { intros t. unfold p, TaskRepo.is_task. rewrite <- (claimable_iff now stale).
    reflect_guards. tauto. }
  assert (Hle : (count_where p (rows (tasks (db w))) <= 1)%nat).
  { apply at_most_one with task_pk id; [done|]. intros x Hx. by apply Hp. }
  injection Hb as ->. split; [|split].
  - split.
    + intros E. assert (Hpos : (0 < count_where p (rows (tasks (db w))))%nat) by lia.
      apply count_where_pos in Hpos as (t & Ht & Ept). apply Hp in Ept. eauto.
    + intros (t & Ht & Hpt). apply Hp in Hpt.
      destruct (count_where p (rows (tasks (db w)))) as [|[|n]] eqn:E; [|done|lia].
      rewrite (proj1 (count_where_zero _ _) E t Ht) in Hpt. done.
  - intros E. rewrite Hw, update_where_id; [apply with_own_rows|].
    apply count_where_zero. lia.
  - intros E. assert (Hpos : (0 < count_where p (rows (tasks (db w))))%nat) by lia.
    apply count_where_pos in Hpos as (t & Ht & Ept). pose proof (proj1 (Hp t) Ept) as (? & ? & ?).
    exists t, (TaskRepo.claimed_row now next lease t). rewrite Hw. cbn.
    repeat (split; [done|]). split; [apply in_update_where; exists t; by rewrite Ept|].
    repeat (split; [done|]). intros u Hu. rewrite in_update_where. split.
    + intros (x & Hx & ->). destruct (p x) eqn:Ex; [|done]. apply Hp in Ex. cbn in Hu. tauto.
    + intros Hin. exists u. split; [done|]. destruct (p u) eqn:Eu; [|done].
      apply Hp in Eu. tauto.
Qed.
End Claiming.

Lemma try_claim_correct_witness :
  exists w', TaskRepo.try_claim 1 0 (seconds 1000) 0 1 (seconds 1060) queue_world = (Ok true, w') /\
    exists t, In t (rows (tasks (db queue_world))) /\ task_pk t = 1 /\ processing_token t = 0 /\
              due (seconds 1000) t.
Proof.
  exists (snd (TaskRepo.try_claim 1 0 (seconds 1000) 0 1 (seconds 1060) queue_world)).
  assert (Hr : TaskRepo.try_claim 1 0 (seconds 1000) 0 1 (seconds 1060) queue_world =
    (Ok true, snd (TaskRepo.try_claim 1 0 (seconds 1000) 0 1 (seconds 1060) queue_world)))
    by (vm_compute; reflexivity).
  split; [exact Hr|].
  apply (proj2 (try_claim_correct 1 0 (seconds 1000) 0 1 (seconds 1060) queue_world queue_wf)
           true _ Hr). reflexivity.
Defined.

(** ** The limit of a lane *)

(** An update adds to a count at most the rows it hits. *)
Lemma count_where_update {A} (q p : A -> bool) (f : A -> A) (l : list A) :
  (count_where q (update_where p f l) <= count_where q l + count_where p l)%nat.
Proof.
  unfold count_where, rows_where, update_where. induction l as [|a l IH]; cbn; [lia|].
  destruct (p a) eqn:Ep; cbn.
  - destruct (q (f a)), (q a); cbn; lia.
  - destruct (q a); cbn; lia.
Qed.

Section Lanes.
Context `{EN : Env} `{CB : CacheBackend} {TM : TxnManager} `{TL : !TxnLaws TM}.
Context `{FL : ForgeCountLaws} {TE : TaskExterns} `{TX : !TaskExternLaws TE}.

Abbreviation active now ks w := (TaskRepo.count_active now ks (db w)).

Lemma try_claim_active now ks id k at_ stale next lease w b w' :
  tasks_wf (tasks (db w)) ->
  TaskRepo.try_claim id k at_ stale next lease w = (Ok b, w') ->
  tasks_wf (tasks (db w')) /\
  active now ks w' <= active now ks w + (if b then 1 else 0).
Proof.
  intros Hwf Hr. apply one_row_run in Hr as [(e & ? & _)|[Hb Hw]]; [done|].
  injection Hb as ->. unfold TaskRepo.count_active. rewrite Hw.
  set (p := fun t => _).
  assert (Hle : (count_where p (rows (tasks (db w))) <= 1)%nat).
  { apply at_most_one with task_pk id; [apply Hwf|]. unfold p, TaskRepo.is_task. intros x Hx.
    reflect_guards. tauto. }
  split.
  - destruct Hwf as [Hnd Hlt].
    assert (Hpk : List.map task_pk (update_where p (TaskRepo.claimed_row at_ next lease)
                    (rows (tasks (db w)))) = List.map task_pk (rows (tasks (db w))))
      by by apply update_where_map.
    split; cbn; [by rewrite Hpk|]. intros t Ht.
    assert (Hin : In (task_pk t) (List.map task_pk (rows (tasks (db w))))).
    { rewrite <- Hpk. by apply in_map. }
    apply in_map_iff in Hin as (x & <- & Hx). auto.
  - pose proof (count_where_update (TaskRepo.active_processing_by_kinds_condition now ks) p
      (TaskRepo.claimed_row at_ next lease) (rows (tasks (db w)))).
    destruct (Z.of_nat (count_where p (rows (tasks (db w)))) =? 1) eqn:E; cbn [rows with_rows]; lia.
Qed.

(** The loop claims no more than what is available, and each claim adds at
    most one active task. *)
Lemma claim_loop_bounded now ks cs available stale at_ lease claimed w r w' :
  tasks_wf (tasks (db w)) -> Z.of_nat (length claimed) <= available ->
  claim_loop cs available stale at_ lease claimed w = (Ok r, w') ->
  Z.of_nat (length r) <= available /\
  active now ks w' <= active now ks w + Z.of_nat (length r) - Z.of_nat (length claimed).
Proof.
  revert claimed w. induction cs as [|c cs IH]; intros claimed w Hwf Hlen; cbn.
  - intros [= <- <-]. split; lia.
  - destruct (available <=? _) eqn:Hav; [intros [= <- <-]; split; lia|].
    rewrite bind_ok. intros (b & w1 & Hc & Hl).
    apply try_claim_active with (now := now) (ks := ks) in Hc as [Hwf1 Hact]; [|done].
    destruct b.
    + apply IH in Hl as [H1 H2]; [|done|rewrite length_app; cbn; lia].
      rewrite length_app in H2. cbn [length] in H2. split; lia.
    + apply IH in Hl as [H1 H2]; [|done..]. split; lia.
Qed.

#[local] Instance lock_read key : Reads (store_lock_by_key key).
Proof. intros w. apply lock_reads. Qed.

(** What the lane counts as in use; a lane without kinds counts nothing. *)
Lemma count_read now ks w n w' :
  TaskRepo.count_active_processing_by_kinds now ks w = (Ok n, w') ->
  same w w' /\ n = active now ks w.
Proof.
  unfold TaskRepo.count_active_processing_by_kinds. destruct (eqb ks []) eqn:Ek.
  - rewrite eqb_true in Ek. subst. intros [= <- <-]. split; [apply same_refl|].
    unfold TaskRepo.count_active. rewrite (proj2 (count_where_zero _ _)); [done|].
    intros x _. unfold TaskRepo.active_processing_by_kinds_condition. cbn.
    by rewrite andb_false_r.
  - rewrite bind_ok. intros (c & w1 & Hq & Hcv).
    apply db_query_ok in Hq as (-> & -> & _). rewrite map_err_ok, lift_ok in Hcv.
    destruct Hcv as [Hcv ->]. rewrite i64_to_u64_nonneg in Hcv
      by (unfold TaskRepo.count_active; lia).
    injection Hcv as <-. split; [apply same_tick|done].
Qed.

Lemma claim_in_txn_bounded config cs stale at_ lease w claimed w' :
  tasks_wf (tasks (db w)) ->
  claim_in_txn config cs stale at_ lease w = (Ok claimed, w') ->
  Z.of_nat (length claimed)
    <= Z.max 0 (lane_limit config - active at_ (lane_kinds config) w) /\
  active at_ (lane_kinds config) w'
    <= active at_ (lane_kinds config) w + Z.of_nat (length claimed).
Proof.
  intros Hwf. unfold claim_in_txn. cbv zeta. rewrite bind_ok. intros (u & wa & Hlock & Hb).
  apply reads_run in Hlock; [|typeclasses eauto].
  rewrite bind_ok in Hb. destruct Hb as (n & wb & [Sb ->]%count_read & Hb).
  pose proof (same_trans _ _ _ Hlock Sb) as S.
  rewrite (same_db _ _ Hlock) in Hb.
  pose proof (capacity_bounded (lane_limit config) (active at_ (lane_kinds config) w)) as Hcap.
  destruct (_ =? 0).
  - injection Hb as <- <-. rewrite (same_db _ _ S). cbn. lia.
  - assert (Hwfb : tasks_wf (tasks (db wb))) by by rewrite (same_db _ _ S).
    apply claim_loop_bounded with (now := at_) (ks := lane_kinds config) in Hb as [Hlen Hact];
      [|done|cbn; lia].
    rewrite (same_db _ _ S) in Hact. cbn [length] in Hact. lia.
Qed.

(** the concurrency limit of a lane. Whatever the candidates and however
    the claim ends, the number of active tasks of the lane (processing, with a
    lease that is still running) afterwards is at most the lane's limit or, if
    the limit was already exceeded, what it was before; and a claim that
    succeeds hands out at most as many tasks as the limit left room for. *)
Theorem lane_limit_kept config candidates stale at_ lease w r w' :
  tasks_wf (tasks (db w)) ->
  claim_candidates_for_lane config candidates stale at_ lease w = (r, w') ->
  active at_ (lane_kinds config) w'
    <= Z.max (lane_limit config) (active at_ (lane_kinds config) w) /\
  forall claimed, r = Ok claimed ->
    Z.of_nat (length claimed)
      <= Z.max 0 (lane_limit config - active at_ (lane_kinds config) w).
Proof.
  intros Hwf. unfold claim_candidates_for_lane. destruct candidates as [|c cs].
  { intros [= <- <-]. split; [lia|]. intros l [= <-]. cbn. lia. }
  intros H%with_transaction_spec.
  destruct H as [e w1 Hs|a w0 w1 w2 H0 Hb H1|a e w0 w1 w2 H0 Hb H1
                |e w0 w1 w2 H0 Hb H1|m w0 w1 w2 H0 Hb H1];
    try (rewrite (rolled_back_db _ _ _ H1); split; [lia|done]).
  { rewrite (same_db _ _ Hs). split; [lia|done]. }
  apply claim_in_txn_bounded in Hb as [Hlen Hact]; [|by rewrite (same_db _ _ H0)].
  rewrite (same_db _ _ H0) in Hlen, Hact. rewrite (same_db _ _ H1).
  split; [lia|]. by intros l [= <-].
Qed.
End Lanes.

Definition lane0 : TaskLaneConfig := mkLaneConfig Fallback [SystemRuntime] 2 false "key".

Lemma lane_limit_kept_witness :
  exists claimed w',
    claim_candidates_for_lane lane0 [mkCandidate 0 1 0 1; mkCandidate 1 3 0 1] 0
      (seconds 1001) (seconds 1061) queue_world = (Ok claimed, w') /\
    length claimed = 1%nat /\
    TaskRepo.count_active (seconds 1001) [SystemRuntime] (db w') <= 2.
Proof.
  set (c := claim_candidates_for_lane lane0 [mkCandidate 0 1 0 1; mkCandidate 1 3 0 1] 0
              (seconds 1001) (seconds 1061)).
  set (w' := snd (c queue_world)). exists [mkClaimed 0 1 1], w'.
  assert (Hr : c queue_world = (Ok [mkClaimed 0 1 1], w')) by (vm_compute; reflexivity).
  split; [exact Hr|]. split; [reflexivity|].
  apply (lane_limit_kept lane0 _ _ _ _ queue_world _ w' queue_wf Hr).
Defined.

(** ** Listings and the administrator's operations *)

Lemma oldest_first_total t u : TaskRepo.oldest_first t u = true \/ TaskRepo.oldest_first u t = true.
Proof. unfold TaskRepo.oldest_first. lia. Qed.
Lemma oldest_first_trans t u v :
  TaskRepo.oldest_first t u = true -> TaskRepo.oldest_first u v = true ->
  TaskRepo.oldest_first t v = true.
Proof. unfold TaskRepo.oldest_first. lia. Qed.

(** The rows a valid cleanup selects. *)
Lemma cleanup_condition_iff filters :
  is_some_and (ac_status filters) (fun s => negb (is_terminal s)) = false ->
  forall t,
  TaskRepo.terminal_cleanup_condition
    (TaskRepo.mkCleanup (ac_finished_before filters) (ac_kind filters) (ac_status filters)) t = true <->
  is_terminal (task_status t) = true /\
  (forall s, ac_status filters = Some s -> task_status t = s) /\
  (forall k, ac_kind filters = Some k -> task_kind t = k) /\
  default (task_updated_at t) (finished_at t) <= ac_finished_before filters.
Proof.
  intros Hs t. unfold TaskRepo.terminal_cleanup_condition. cbn.
  assert (Hst : match ac_status filters with
                | Some s => eqb (task_status t) s
                | None => mem (task_status t) [Succeeded; Failed; Canceled]
                end = true <->
                is_terminal (task_status t) = true /\
                (forall s, ac_status filters = Some s -> task_status t = s)).
  { destruct (ac_status filters) as [s|]; cbn in Hs.
    - rewrite negb_false_iff in Hs. rewrite eqb_true. split; [intros ->; split; congruence|].
      intros [_ H]. by apply H.
    - split; [|by destruct (task_status t); intros [? _]].
      by destruct (task_status t). }
  assert (Hk : is_none_or (ac_kind filters) (fun k => eqb (task_kind t) k) = true <->
               (forall k, ac_kind filters = Some k -> task_kind t = k)).
  { destruct (ac_kind filters) as [k|]; cbn; [|done]. rewrite eqb_true.
    split; [by intros H ? [= <-]|by intros H; apply H]. }
  rewrite !andb_true_iff, Hst, Hk.
  destruct (finished_at t); cbn; rewrite ?orb_false_r, ?Z.leb_le; tauto.
Qed.

Lemma StronglySorted_firstn {A} (R : A -> A -> Prop) n (l : list A) :
  StronglySorted R l -> StronglySorted R (firstn n l).
Proof.
  intros H. revert n. induction H as [|a l Hs IH Hf]; intros [|n]; cbn; try constructor; auto.
  rewrite List.Forall_forall in *. intros x Hx. apply Hf. rewrite <- (firstn_skipn n l).
  apply in_or_app. by left.
Qed.

Section Admin.
Context `{EN : Env} `{CB : CacheBackend} {TM : TxnManager} `{TL : !TxnLaws TM}.
Context `{FN : ForgeCounts} {TE : TaskExterns} `{TX : !TaskExternLaws TE}.

(** What a dispatcher is offered. The listing holds at most [limit]
    tasks, all of them due and of the requested kinds, oldest first (by
    creation time, then by id); a due task of these kinds that is not offered
    is younger than every offered one, and none is left out while there is
    room. *)
Theorem list_claimable_by_kinds_correct now stale ks limit w l w' :
  0 <= limit ->
  TaskRepo.list_claimable_by_kinds now stale ks limit w = (Ok l, w') ->
  tasks (db w') = tasks (db w) /\
  Z.of_nat (length l) <= limit /\
  StronglySorted (fun t u => TaskRepo.oldest_first t u = true) l /\
  (forall t, In t l -> In t (rows (tasks (db w))) /\ due now t /\ In (task_kind t) ks) /\
  (forall u, In u (rows (tasks (db w))) -> due now u -> In (task_kind u) ks ->
     In u l \/
     (Z.of_nat (length l) = limit /\ forall t, In t l -> TaskRepo.oldest_first t u = true)).
Proof.
  intros Hlim. unfold TaskRepo.list_claimable_by_kinds.
  destruct (eqb ks [] || (limit =? 0)) eqn:Hz.
  - intros [= <- <-]. split; [done|]. split; [done|]. split; [constructor|]. split; [done|].
    intros u _ _ Hk. right. reflect_guards. destruct Hz as [->| ->]; done.
  - intros (-> & -> & _)%db_query_ok. split; [done|].
    unfold TaskRepo.claimable_rows, TaskRepo.take.
    set (p := fun t => _). set (T := rows (tasks (db w))).
    assert (Hp : forall t, In t (sort_by TaskRepo.oldest_first (rows_where p T)) <->
                           In t T /\ due now t /\ In (task_kind t) ks).
    { intros t. rewrite in_sort_by, in_rows_where. unfold p. rewrite andb_true_iff, mem_true.
      by rewrite claimable_iff. }
    pose proof (sort_by_sorted TaskRepo.oldest_first oldest_first_total oldest_first_trans
                  (rows_where p T)) as Hsorted.
    set (s := sort_by TaskRepo.oldest_first (rows_where p T)) in *.
    split; [rewrite length_firstn; lia|]. split.
    { by apply StronglySorted_firstn. }
    split.
    { intros t Ht. apply Hp, (in_firstn_or_skipn (Z.to_nat limit)). by left. }
    intros u Hu Hd Hk. assert (Hin : In u s) by by apply Hp.
    apply (in_firstn_or_skipn (Z.to_nat limit)) in Hin as [Hin|Hin]; [by left|right].
    split.
    + rewrite length_firstn.
      assert (0 < length (skipn (Z.to_nat limit) s))%nat
        by (destruct (skipn _ s); [done|cbn; lia]).
      rewrite length_skipn in H. lia.
    + intros t Ht. rewrite <- (firstn_skipn (Z.to_nat limit) s) in Hsorted.
      exact (StronglySorted_app (fun t u => TaskRepo.oldest_first t u = true) _ _ _ _
               Hsorted Ht Hin).
Qed.

(** The administrator's cleanup. Asked for a status that is not terminal
    it refuses and deletes nothing; otherwise a successful cleanup deletes
    exactly the terminal tasks of the requested kind and status that finished
    (or, without a finish time, were last updated) at or before the given
    moment, and reports how many; no task that is pending, processing or
    waiting for a retry is ever deleted. *)
Theorem admin_cleanup_exact filters w r w' :
  cleanup_tasks_for_admin filters w = (r, w') ->
  (is_some_and (ac_status filters) (fun s => negb (is_terminal s)) = true ->
     (exists m, r = Err (AsterError.ValidationError m)) /\ w' = w) /\
  (forall t, In t (rows (tasks (db w))) -> is_terminal (task_status t) = false ->
     In t (rows (tasks (db w')))) /\
  (forall n, r = Ok n ->
     Z.of_nat (length (rows (tasks (db w')))) + n = Z.of_nat (length (rows (tasks (db w)))) /\
     forall t, In t (rows (tasks (db w'))) <->
       In t (rows (tasks (db w))) /\
       ~ (is_terminal (task_status t) = true /\
          (forall s, ac_status filters = Some s -> task_status t = s) /\
          (forall k, ac_kind filters = Some k -> task_kind t = k) /\
          default (task_updated_at t) (finished_at t) <= ac_finished_before filters)).
Proof.
  unfold cleanup_tasks_for_admin, bind, lift, validate_admin_task_cleanup_status.
  destruct (is_some_and _ _) eqn:Hs.
  { intros [= <- <-]. split; [eauto|]. split; [done|]. intros n [=]. }
  set (f := TaskRepo.mkCleanup _ _ _).
  pose proof (cleanup_condition_iff filters Hs) as Hc. fold f in Hc.
  intros Hr. split; [done|].
  unfold TaskRepo.delete_terminal_by_filters, db_delete_many, db_exec in Hr.
  destruct (db_fault (step w)); injection Hr as <- <-.
  { split; [done|]. intros n [=]. }
  cbn. split.
  - intros t Ht Hterm. apply in_delete_where. split; [done|].
    destruct (TaskRepo.terminal_cleanup_condition f t) eqn:E; [|done].
    apply Hc in E as [E _]. congruence.
  - intros n [= <-]. split.
    + pose proof (length_delete_where (TaskRepo.terminal_cleanup_condition f)
                    (rows (tasks (db w)))). lia.
    + intros t. rewrite in_delete_where, <- Hc.
      destruct (TaskRepo.terminal_cleanup_condition f t); intuition congruence.
Qed.
End Admin.

Lemma list_claimable_by_kinds_correct_witness :
  exists l w', TaskRepo.list_claimable_by_kinds (seconds 1060) 0 [SystemRuntime] 1 queue_world
                 = (Ok l, w') /\ Z.of_nat (length l) <= 1.
Proof.
  set (c := TaskRepo.list_claimable_by_kinds (seconds 1060) 0 [SystemRuntime] 1).
  set (w' := snd (c queue_world)). exists [pending_task 1], w'.
  assert (Hr : c queue_world = (Ok [pending_task 1], w')) by (vm_compute; reflexivity).
  split; [exact Hr|].
  apply (list_claimable_by_kinds_correct (seconds 1060) 0 [SystemRuntime] 1 queue_world _ w'
           ltac:(lia) Hr).
Defined.

Lemma admin_cleanup_exact_witness :
  exists w', cleanup_tasks_for_admin (mkAdminCleanup (seconds 1000) None None) queue_world
               = (Ok 1, w') /\ In (pending_task 1) (rows (tasks (db w'))).
Proof.
  set (c := cleanup_tasks_for_admin (mkAdminCleanup (seconds 1000) None None)).
  set (w' := snd (c queue_world)). exists w'.
  assert (Hr : c queue_world = (Ok 1, w')) by (vm_compute; reflexivity).
  split; [exact Hr|].
  apply (admin_cleanup_exact _ queue_world _ w' Hr); [left; reflexivity|reflexivity].
Defined.

Section Retry.
Context `{EN : Env} `{CB : CacheBackend}.
Context {TE : TaskExterns} `{TX : !TaskExternLaws TE}.

#[local] Instance temp_dir_read id : Reads (remove_task_temp_dir id).
Proof. intros w. apply temp_dir_reads. Qed.

Definition failed_with_id (id : Z) (t : background_task) : bool :=
  TaskRepo.is_task id t && eqb (task_status t) Failed.

Lemma failed_with_id_iff id t :
  failed_with_id id t = true <-> task_pk t = id /\ task_status t = Failed.
Proof. unfold failed_with_id, TaskRepo.is_task. reflect_guards. tauto. Qed.

(** What a run of the retry did to the table. *)
Lemma retry_record_wp task w :
  List.NoDup (List.map task_pk (rows (tasks (db w)))) ->
  wp (retry_task_record task) (fun r w' =>
    (r <> Ok tt /\ tasks (db w') = tasks (db w)) \/
    (r = Ok tt /\ task_status task = Failed /\ failure_can_retry task <> Some false /\
     exists i steps, (step w <= i)%nat /\
       count_where (failed_with_id (task_pk task)) (rows (tasks (db w))) = 1%nat /\
       tasks (db w') = with_rows (update_where (failed_with_id (task_pk task))
         (TaskRepo.reset_row (clock i) (max_attempts (task_kind task)) (Some steps))
         (rows (tasks (db w)))) (tasks (db w)))) w.
Proof.
  intros Hnd. unfold retry_task_record. cbv zeta.
  wp_read as r1 w1 H1 S1. destruct r1 as [u|e|m]; cbn [wp_next];
    [|left; split; [done|by rewrite (same_db _ _ S1)]..].
  apply when_ok_ok in H1 as [Hf ->]. rewrite negb_false_iff, eqb_true in Hf.
  wp_read as r2 w2 H2 S2. destruct r2 as [u2|e|m]; cbn [wp_next];
    [|left; split; [done|by rewrite (same_db _ _ S2)]..].
  apply when_ok_ok in H2 as [Hc ->]. unfold task_can_retry in Hc.
  rewrite negb_false_iff, andb_true_iff in Hc. destruct Hc as [_ Hc].
  wp_read as r3 w3 H3 S3. destruct r3 as [u3|e|m]; cbn [wp_next];
    [|left; split; [done|by rewrite (same_db _ _ S3)]..].
  wp_read as r4 w4 H4 S4. pose proof (same_trans _ _ _ S3 S4) as S.
  destruct r4 as [steps|e|m]; cbn [wp_next];
    [|left; split; [done|by rewrite (same_db _ _ S)]..].
  repeat wp_step. apply wp_intro. intros r5 w5 H5.
  apply one_row_run in H5. cbv zeta in H5. cbn [tick db] in H5. rewrite (same_db _ _ S) in H5.
  destruct H5 as [(e & -> & Hw5)|[-> Hw5]]; cbn [wp_next]; [by left|].
  unfold when_ok. destruct (Z.of_nat _ =? 1) eqn:E; cbn [negb].
  - apply wp_ret. right. repeat (split; [done|]). split; [by intros E2; rewrite E2 in Hc|].
    exists (step w4), steps. split; [by apply same_step in S|].
    apply Z.eqb_eq in E. unfold failed_with_id. split; [lia|exact Hw5].
  - apply wp_throw. left. split; [done|]. rewrite Hw5.
    rewrite update_where_id; [apply with_own_rows|]. apply count_where_zero.
    assert (Hle : (count_where (failed_with_id (task_pk task)) (rows (tasks (db w))) <= 1)%nat).
    { apply at_most_one with task_pk (task_pk task); [done|].
      intros x Hx. by apply failed_with_id_iff. }
    apply Z.eqb_neq in E. unfold failed_with_id in Hle. lia.
Qed.

(** The administrator's retry. It succeeds only for a task read as failed
    and marked retryable (an unmarked failure counts as retryable) whose row
    is still failed when it is reset. The row is then pending, due at once,
    with its attempts, progress, result, error and lease cleared and its
    token kept, so a worker from before the failure stays shut out; the other
    rows are unchanged. When it is refused or fails, no task changed. *)
Theorem admin_retry_correct task w r w' :
  tasks_wf (tasks (db w)) ->
  retry_task_record task w = (r, w') ->
  (r <> Ok tt -> tasks (db w') = tasks (db w)) /\
  (r = Ok tt ->
     task_status task = Failed /\ failure_can_retry task <> Some false /\
     (exists t now steps,
        In t (rows (tasks (db w))) /\ task_pk t = task_pk task /\ task_status t = Failed /\
        (exists i, (step w <= i)%nat /\ now = clock i) /\
        In (TaskRepo.reset_row now (max_attempts (task_kind task)) (Some steps) t)
           (rows (tasks (db w'))) /\
        forall later stale, now <= later ->
          TaskRepo.claimable_condition later stale
            (TaskRepo.reset_row now (max_attempts (task_kind task)) (Some steps) t) = true) /\
     forall u, task_pk u <> task_pk task ->
       (In u (rows (tasks (db w'))) <-> In u (rows (tasks (db w))))).
Proof.
  intros [Hnd _] Hr. pose proof (wp_run _ _ _ _ _ (retry_record_wp task w Hnd) Hr) as H.
  destruct H as [[Hne Hs]|(-> & Hf & Hc & i & steps & Hi & Hcnt & Hw)].
  { split; [done|]. intros ->. by destruct Hne. }
  split; [done|]. intros _. split; [done|]. split; [done|]. rewrite Hw. cbn [rows with_rows].
  destruct (count_where_pos _ _ ltac:(rewrite Hcnt; apply Nat.lt_0_1)) as (t & Ht & Ep).
  split.
  - exists t, (clock i), steps. destruct (proj1 (failed_with_id_iff _ _) Ep).
    repeat (split; [done|]). split; [eauto|]. split.
    + apply in_update_where. exists t. by rewrite Ep.
    + intros later stale Hle. apply claimable_iff. left. cbn. auto.
  - intros u Hu. rewrite in_update_where. split.
    + intros (x & Hx & ->). destruct (failed_with_id _ x) eqn:Ex; [|done].
      apply failed_with_id_iff in Ex as [Ex _]. by destruct Hu.
    + intros Hin. exists u. split; [done|]. destruct (failed_with_id _ u) eqn:Ex; [|done].
      by apply failed_with_id_iff in Ex as [Ex _].
Qed.
End Retry.

Lemma admin_retry_correct_witness :
  exists w', retry_task_record failed_task queue_world = (Ok tt, w') /\
    status_of_task 3 w' = Some Pending /\ failure_can_retry failed_task <> Some false.
Proof.
  set (w' := snd (retry_task_record failed_task queue_world)). exists w'.
  assert (Hr : retry_task_record failed_task queue_world = (Ok tt, w'))
    by (vm_compute; reflexivity).
  split; [exact Hr|]. split; [vm_compute; reflexivity|].
  apply (admin_retry_correct failed_task queue_world (Ok tt) w' queue_wf Hr). reflexivity.
Defined.

(** ** The writes of a worker *)

Section Writes.
Context `{EN : Env} `{CB : CacheBackend}.

Lemma write_as_live id k op w :
  no_faults -> (forall now s, op = Release now s -> s = Pending \/ s = Retry) ->
  exists b w', write_as id k op w = (Ok b, w').
Proof.
  intros NF Hop. destruct op; cbn; try by apply one_row_live.
  unfold TaskRepo.release_processing. destruct (Hop _ _ eq_refl) as [-> | ->]; cbn;
      by apply one_row_live.
Qed.

(** A worker's write. It succeeds exactly for the worker that holds the
    task: the row is processing under the worker's own token. Then that row
    takes the status the write stands for, keeps its token, and gives up its
    lease if it leaves processing; no other row changes. A write that does not
    succeed changes no task, and a write of the holder is never refused while
    the database works (a release asks for pending or retry). *)
Theorem worker_write_exact id k op w r w' :
  tasks_wf (tasks (db w)) ->
  write_as id k op w = (r, w') ->
  (r <> Ok true -> tasks (db w') = tasks (db w)) /\
  (r = Ok true -> exists t t',
     In t (rows (tasks (db w))) /\ task_pk t = id /\ task_status t = Processing /\
     processing_token t = k /\
     In t' (rows (tasks (db w'))) /\ task_pk t' = id /\ task_status t' = status_after op /\
     processing_token t' = k /\
     (status_after op <> Processing -> lease_expires_at t' = None) /\
     forall u, task_pk u <> id ->
       (In u (rows (tasks (db w'))) <-> In u (rows (tasks (db w))))) /\
  (no_faults -> (forall now s, op = Release now s -> s = Pending \/ s = Retry) ->
   (exists t, In t (rows (tasks (db w))) /\ task_pk t = id /\ task_status t = Processing /\
              processing_token t = k) -> r = Ok true).
Proof.
  intros [Hnd _] Hr. pose proof (write_as_run _ _ _ _ _ _ Hr) as Hrun.
  assert (Hle : (count_where (TaskRepo.held_by id k) (rows (tasks (db w))) <= 1)%nat).
  { apply at_most_one with task_pk id; [done|]. intros x Hx.
    by apply held_by_spec in Hx as [Hx _]. }
  destruct Hrun as [(e & -> & Hs)|(f & Hf & -> & Hw)].
  { split; [done|]. split; [done|]. intros NF Hop _.
    destruct (write_as_live id k op w NF Hop) as (b & w2 & H2). congruence. }
  rewrite Hw. cbn [rows with_rows]. split; [|split].
  - intros Hb. rewrite update_where_id; [apply with_own_rows|]. apply count_where_zero.
    destruct (Z.eqb_spec (Z.of_nat (count_where (TaskRepo.held_by id k) (rows (tasks (db w))))) 1);
      [done|lia].
  - intros [= Hb]. symmetry in Hb. apply one_row_hit, count_where_pos in Hb as (t & Ht & Eh).
    pose proof (proj1 (held_by_spec _ _ _) Eh) as (Hid & Hp & Hk).
    destruct (Hf t Hp) as (Hs & _ & Hpk & Htok & _ & Hl).
    exists t, (f t). repeat (split; [done|]).
    split; [apply in_update_where; exists t; by rewrite Eh|].
    split; [congruence|]. split; [done|]. split; [congruence|]. split; [done|].
    intros u Hu. rewrite in_update_where. split.
    + intros (x & Hx & ->). destruct (TaskRepo.held_by id k x) eqn:Ex; [|done].
      apply held_by_spec in Ex as (Hxid & Hxp & _). destruct (Hf x Hxp) as (_ & _ & Hxpk & _).
      congruence.
    + intros Hin. exists u. split; [done|]. destruct (TaskRepo.held_by id k u) eqn:Eu; [|done].
      apply held_by_spec in Eu. tauto.
  - intros _ _ (t & Ht & Hheld). f_equal. apply Z.eqb_eq.
    destruct (count_where (TaskRepo.held_by id k) (rows (tasks (db w)))) as [|[|n]] eqn:E;
      [|done|lia].
    rewrite <- held_by_spec in Hheld. by rewrite (proj1 (count_where_zero _ _) E t Ht) in Hheld.
Qed.
End Writes.

Lemma worker_write_exact_witness :
  exists w', write_as 2 7 (Release (seconds 1001) Retry) queue_world = (Ok true, w') /\
    exists t, In t (rows (tasks (db w'))) /\ task_pk t = 2 /\ task_status t = Retry.
Proof.
  set (c := write_as 2 7 (Release (seconds 1001) Retry)).
  set (w' := snd (c queue_world)). exists w'.
  assert (Hr : c queue_world = (Ok true, w')) by (vm_compute; reflexivity).
  split; [exact Hr|].
  destruct (proj1 (proj2 (worker_write_exact 2 7 (Release (seconds 1001) Retry) queue_world
    (Ok true) w' queue_wf Hr)) eq_refl) as (t & t' & _ & _ & _ & _ & Hin & Hid & Hs & _).
  exists t'. split; [exact Hin|]. split; [exact Hid|exact Hs].
Defined.
