(* ===== verification/ForwardTextures.v ===== *)
(** * Forwarded textures

    The part of [services/yggdrasil_service/session.rs] that rewrites the
    texture URLs of a profile an upstream session server returned into proxy
    URLs of this server, each with a signed ticket, signs the rewritten
    property ([services/yggdrasil_signature.rs]) and resolves a proxied
    request back to the upstream URL.  JSON, base64, URL parsing, JWT and RSA
    are libraries: the class [TextureExterns]. *)

From Stdlib Require Import ZArith List Bool Lia Ascii.
From stdpp Require Import base decidable list strings pretty.
From S2P Require Import Prelude Text Errors Types AuditLog World Repos Bans Tokens.

Local Open Scope Z_scope.
Set Warnings "-register-all".

(** [serde_json::Value]; an object is its entries in order. *)
Inductive Value : Type :=
| VNull
| VBool (b : bool)
| VNumber (n : string)
| VString (s : string)
| VArray (l : list Value)
| VObject (fields : list (string * Value)).

Definition get_field (k : string) (v : Value) : option Value :=
  match v with
  | VObject fields => snd <$> List.find (fun f => eqb (fst f) k) fields
  | _ => None
  end.

(** Assigning through [get_mut(k)]: the field is there. *)
Fixpoint replace_field (k : string) (v : Value) (fields : list (string * Value))
  : list (string * Value) :=
  match fields with
  | [] => []
  | f :: rest => if eqb (fst f) k then (k, v) :: rest else f :: replace_field k v rest
  end.
Definition put_field (k : string) (v : Value) (o : Value) : Value :=
  match o with VObject fields => VObject (replace_field k v fields) | _ => o end.

Record ForwardedTextureTicket : Type := mkTicket {
  ticket_s : Z;
  ticket_h : string;
  ticket_u : string
}.

Class TextureExterns : Type := {
  Url : Type;
  url_parse : string -> outcome string Url;
  url_scheme : Url -> string;
  url_to_string : Url -> string;
  url_path_segments : Url -> option (list string);
  base64_decode : string -> outcome string string;
  base64_encode : string -> string;
  json_from_slice : string -> outcome string Value;
  json_to_vec : Value -> outcome string string;
  encode_ticket : ForwardedTextureTicket -> outcome string string;   (* jsonwebtoken::encode *)
  decode_ticket : string -> outcome string ForwardedTextureTicket;   (* jsonwebtoken::decode *)
  PrivateKey : Type;
  private_key_from_pem : string -> outcome string PrivateKey;        (* PKCS#8, else PKCS#1 *)
  sign_sha1 : PrivateKey -> string -> string
}.

(** A ticket decodes to what was signed, serialised JSON and base64 read
    back, and a parsed URL prints as itself parsed again. *)
Class TextureExternLaws (T : TextureExterns) : Prop := {
  ticket_roundtrip t s : encode_ticket t = Ok s -> decode_ticket s = Ok t;
  base64_roundtrip s : base64_decode (base64_encode s) = Ok s;
  json_roundtrip v s : json_to_vec v = Ok s -> json_from_slice s = Ok v
}.

Section Textures.
Context `{FC : ForgeCrypto} `{TX : TextureExterns}.

(** ** services/yggdrasil_signature.rs *)

Definition parse_private_key_pem (pem : string) : outcome AsterError.t PrivateKey :=
  match private_key_from_pem pem with
  | Ok key => Ok key
  | Err error =>
      Err (AsterError.ConfigError ("invalid yggdrasil signature private key PEM: " +:+ error))
  | Panic m => Panic m
  end.

Definition configured_private_key (policy : RuntimeYggdrasilPolicy)
  : outcome AsterError.t (option PrivateKey) :=
  let pem := trim (signature_private_key policy) in
  if is_empty pem then Ok None
  else match parse_private_key_pem pem with
       | Ok key => Ok (Some key)
       | Err e => Err e
       | Panic m => Panic m
       end.

Definition sign_texture_property (policy : RuntimeYggdrasilPolicy) (value : string)
  : outcome AsterError.t (option string) :=
  match configured_private_key policy with
  | Ok None => Ok None
  | Ok (Some private_key) => Ok (Some (base64_encode (sign_sha1 private_key value)))
  | Err e => Err e
  | Panic m => Panic m
  end.

(** ** session.rs *)

Definition is_forwarded_texture_hash (value : string) : bool :=
  mem (str_len value) [32; 40; 64]%nat && forallb is_ascii_hexdigit (bytes value).

Definition forwarded_texture_hash (url : string) : string :=
  match url_parse url with
  | Ok u =>
      match url_path_segments u ≫=
              (fun segments => List.find is_forwarded_texture_hash (List.rev segments)) with
      | Some segment => segment
      | None => sha256_hex url
      end
  | _ => sha256_hex url
  end.

Definition forwarded_url (public_base_url : string) (upstream_id : Z)
  (texture_hash ticket : string) : string :=
  trim_end_matches "/"%char public_base_url
    +:+ "/sessionserver/session/minecraft/forwardedTextures/" +:+ pretty upstream_id
    +:+ "/" +:+ texture_hash +:+ "/" +:+ ticket.

(** The [for] loop over the textures: the rewritten entries and their number. *)
Fixpoint rewrite_textures (public_base_url : string) (upstream_id : Z)
  (textures : list (string * Value)) : outcome string (Z * list (string * Value)) :=
  match textures with
  | [] => Ok (0, [])
  | (texture_type, texture) :: rest =>
      match get_field "url" texture with
      | Some (VString original_url) =>
          let texture_hash := forwarded_texture_hash original_url in
          match encode_ticket (mkTicket upstream_id texture_hash original_url) with
          | Ok ticket =>
              let url := forwarded_url public_base_url upstream_id texture_hash ticket in
              match rewrite_textures public_base_url upstream_id rest with
              | Ok (n, rest') =>
                  Ok (n + 1, (texture_type, put_field "url" (VString url) texture) :: rest')
              | r => r
              end
          | Err error => Err ("failed to sign forwarded texture ticket: " +:+ error)%string
          | Panic m => Panic m
          end
      | _ =>
          match rewrite_textures public_base_url upstream_id rest with
          | Ok (n, rest') => Ok (n, (texture_type, texture) :: rest')
          | r => r
          end
      end
  end.

(** The first property of that name is replaced. *)
Fixpoint replace_property (p : YggdrasilProfileProperty) (l : list YggdrasilProfileProperty)
  : list YggdrasilProfileProperty :=
  match l with
  | [] => []
  | q :: rest => if eqb (property_name q) (property_name p) then p :: rest
                 else q :: replace_property p rest
  end.

Definition context {A} (c : string) (o : outcome string A) : outcome string A :=
  match o with Err e => Err (c +:+ e)%string | r => r end.

(** Encode and sign the rewritten payload. *)
Definition resign_textures (policy : RuntimeYggdrasilPolicy) (payload : Value)
  : outcome string YggdrasilProfileProperty :=
  and_then (context "failed to serialize rewritten textures property: " (json_to_vec payload))
    (fun json =>
  let encoded := base64_encode json in
  match sign_texture_property policy encoded with
  | Ok (Some signature) => Ok (mkProperty "textures" encoded (Some signature))
  | Ok None =>
      Err "forwarded texture URL rewrite requires a configured Yggdrasil signature private key"%string
  | Err e => Err (AsterError.message e)
  | Panic m => Panic m
  end).

(** The number of rewritten URLs and the profile afterwards; the profile is
    modified only in the last step. *)
Definition rewrite_forwarded_texture_urls (policy : RuntimeYggdrasilPolicy) (upstream_id : Z)
  (profile : YggdrasilProfile) : outcome string (Z * YggdrasilProfile) :=
  match ygg_properties profile with
  | None => Ok (0, profile)
  | Some properties =>
  match List.find (fun p => eqb (property_name p) "textures"%string) properties with
  | None => Ok (0, profile)
  | Some textures_property =>
  and_then (context "textures property is not valid base64: "
              (base64_decode (property_value textures_property))) (fun decoded =>
  and_then (context "textures property is not valid JSON: " (json_from_slice decoded))
    (fun payload =>
  match get_field "textures" payload with
  | Some (VObject textures) =>
      match public_base_urls policy with
      | [] => Err "public base URL is required for forwarded texture proxy URLs"%string
      | public_base_url :: _ =>
          and_then (rewrite_textures public_base_url upstream_id textures) (fun r =>
          let (rewritten_count, textures') := r in
          if rewritten_count =? 0 then Ok (0, profile)
          else
            and_then (resign_textures policy (put_field "textures" (VObject textures') payload))
              (fun p =>
            Ok (rewritten_count,
                mkYggProfile (ygg_id profile) (ygg_name profile) (ygg_source profile)
                  (Some (replace_property p properties)))))
      end
  | _ => Ok (0, profile)
  end))
  end
  end.

Definition skin_domain_matches_host (domain host : string) : bool :=
  is_some_and (strip_prefix "." domain) (fun suffix => ends_with suffix host)
  || eqb domain host.

(** The upstream URL of a proxied texture request. *)
Definition forwarded_texture_url (upstream_id : Z) (texture_hash ticket : string)
  : option string :=
  if negb (is_forwarded_texture_hash texture_hash) then None
  else
    match decode_ticket ticket with
    | Ok ticket =>
        if negb (ticket_s ticket =? upstream_id) || negb (eqb (ticket_h ticket) texture_hash)
        then None
        else match url_parse (ticket_u ticket) with
             | Ok url => if mem (url_scheme url) ["http"%string; "https"%string]
                         then Some (url_to_string url) else None
             | _ => None
             end
    | _ => None
    end.
End Textures.

(** [sha256_hex] prints 32 bytes as hexadecimal digits. *)
Class Sha256Hex (F : ForgeCrypto) : Prop := {
  sha256_hex_digits s : is_forwarded_texture_hash (sha256_hex s) = true
}.

Section Rewriting.
Context `{FC : ForgeCrypto} `{SH : !Sha256Hex FC} `{TX : TextureExterns} `{TL : !TextureExternLaws TX}.

Lemma forwarded_texture_hash_valid url :
  is_forwarded_texture_hash (forwarded_texture_hash url) = true.
Proof.
  unfold forwarded_texture_hash. destruct (url_parse url) as [u|e|m]; [|apply sha256_hex_digits..].
  destruct (url_path_segments u ≫= _) as [segment|] eqn:E; [|apply sha256_hex_digits].
  destruct (url_path_segments u) as [segments|]; [|done]. cbn in E.
  by apply List.find_some in E as [_ E].
Qed.

(** The upstream URL a ticket stands for, if it is one a proxy may fetch. *)
Definition proxied_url (original_url : string) : option string :=
  match url_parse original_url with
  | Ok url => if mem (url_scheme url) ["http"%string; "https"%string]
              then Some (url_to_string url) else None
  | _ => None
  end.

Lemma ticket_resolves upstream_id url ticket :
  encode_ticket (mkTicket upstream_id (forwarded_texture_hash url) url) = Ok ticket ->
  forwarded_texture_url upstream_id (forwarded_texture_hash url) ticket = proxied_url url.
Proof.
  intros H. unfold forwarded_texture_url. rewrite forwarded_texture_hash_valid. cbn.
  rewrite (ticket_roundtrip _ _ H). cbn. by rewrite Z.eqb_refl, eqb_refl.
Qed.

(** One texture before and after: a URL is replaced by a proxy URL under the
    public base whose hash and ticket lead back to it; anything else stays. *)
Definition texture_rewritten (public_base_url : string) (upstream_id : Z)
  (before after : string * Value) : Prop :=
  fst after = fst before /\
  match get_field "url" (snd before) with
  | Some (VString url) => exists hash ticket,
      snd after = put_field "url"
        (VString (forwarded_url public_base_url upstream_id hash ticket)) (snd before) /\
      forwarded_texture_url upstream_id hash ticket = proxied_url url
  | _ => snd after = snd before
  end.

Lemma rewrite_textures_ok base upstream_id textures n textures' :
  rewrite_textures base upstream_id textures = Ok (n, textures') ->
  0 <= n /\ List.Forall2 (texture_rewritten base upstream_id) textures textures'.
Proof.
  revert n textures'. induction textures as [|[k v] rest IH]; intros n textures'; cbn.
  - intros [= <- <-]. split; [lia|constructor].
  - destruct (get_field "url" v) as [[| | |url| |]|] eqn:Ef.
    all: try (destruct (rewrite_textures base upstream_id rest) as [[m0 l0]|e|x]; [|done..];
              intros [= <- <-]; destruct (IH _ _ eq_refl) as [Hm Hl]; split; [done|];
              constructor; [|done]; split; [done|]; cbn; by rewrite Ef).
    destruct (encode_ticket _) as [ticket|e|x] eqn:Et; [|done..].
    destruct (rewrite_textures base upstream_id rest) as [[m l]|e|x]; [|done..].
    intros [= <- <-]. destruct (IH _ _ eq_refl) as [Hm Hl]. split; [lia|].
    constructor; [|done]. split; [done|]. cbn. rewrite Ef.
    eexists _, ticket. split; [reflexivity|by apply ticket_resolves].
Qed.

Lemma resign_textures_ok policy payload p :
  resign_textures policy payload = Ok p ->
  property_name p = "textures"%string /\ (exists sig, property_signature p = Some sig) /\
  exists json, base64_decode (property_value p) = Ok json /\ json_from_slice json = Ok payload.
Proof.
  unfold resign_textures, and_then, context.
  destruct (json_to_vec payload) as [json|e|m] eqn:Ej; [|done..].
  destruct (sign_texture_property policy _) as [[sig|]|e|m]; [|done..]. intros [= <-]. cbn.
  split; [done|]. split; [eauto|]. exists json. split; [apply base64_roundtrip|].
  by apply json_roundtrip.
Qed.

Lemma rewrite_keeps_identity policy upstream_id profile n profile' :
  rewrite_forwarded_texture_urls policy upstream_id profile = Ok (n, profile') ->
  ygg_id profile' = ygg_id profile /\ ygg_name profile' = ygg_name profile /\
  ygg_source profile' = ygg_source profile.
Proof.
  unfold rewrite_forwarded_texture_urls, and_then. intros Hr.
  repeat (match type of Hr with
          | context [match ?x with _ => _ end] => destruct x; try done
          end; try by injection Hr as <- <-).
Qed.

(** Forwarding textures. When the rewrite succeeds, the profile keeps its
    identity, and if no URL was rewritten it is returned as it came. Otherwise
    only its textures property changed: the new one is signed, and its value
    decodes to the original payload with each texture URL replaced by a proxy
    URL of this server under the first public base URL; the hash and the
    ticket in that URL are accepted by the texture endpoint for this upstream
    and lead back to the original URL (or to nothing if it is not an http or
    https URL). A rewrite without a configured signing key fails. *)
Theorem forwarded_textures_resolve policy upstream_id profile n profile' :
  rewrite_forwarded_texture_urls policy upstream_id profile = Ok (n, profile') ->
  ygg_id profile' = ygg_id profile /\ ygg_name profile' = ygg_name profile /\
  ygg_source profile' = ygg_source profile /\ 0 <= n /\
  (n = 0 -> profile' = profile) /\
  (0 < n -> exists base properties old new json payload textures textures',
     List.hd_error (public_base_urls policy) = Some base /\
     ygg_properties profile = Some properties /\
     List.find (fun p => eqb (property_name p) "textures"%string) properties = Some old /\
     ygg_properties profile' = Some (replace_property new properties) /\
     property_name new = "textures"%string /\
     (exists sig, property_signature new = Some sig) /\
     (exists old_json, base64_decode (property_value old) = Ok old_json /\
                       json_from_slice old_json = Ok payload) /\
     get_field "textures" payload = Some (VObject textures) /\
     base64_decode (property_value new) = Ok json /\
     json_from_slice json = Ok (put_field "textures" (VObject textures') payload) /\
     List.Forall2 (texture_rewritten base upstream_id) textures textures') /\
  (0 < n -> is_empty (trim (signature_private_key policy)) = false).
Proof.
  intros Hr. destruct (rewrite_keeps_identity _ _ _ _ _ Hr) as (Hid & Hname & Hsource).
  repeat (split; [done|]). clear Hid Hname Hsource. unfold rewrite_forwarded_texture_urls in Hr.
  assert (Hunchanged : forall A : Prop, Ok (0, profile) = @Ok string _ (n, profile') ->
    0 <= n /\ (n = 0 -> profile' = profile) /\ (0 < n -> A) /\ (0 < n -> is_empty (trim (signature_private_key policy)) = false)).
  { intros A [= <- <-]. repeat split; lia. }
  destruct (ygg_properties profile) as [properties|] eqn:Ep; [|by apply Hunchanged].
  destruct (List.find _ properties) as [old|] eqn:Eo; [|by apply Hunchanged].
  unfold and_then at 1, context at 1 in Hr.
  destruct (base64_decode _) as [old_json|e|m] eqn:Eb; [|done..].
  unfold and_then at 1, context in Hr.
  destruct (json_from_slice old_json) as [payload|e|m] eqn:Ej; [|done..].
  destruct (get_field "textures" payload) as [[| | | | |textures]|] eqn:Et;
    try by apply Hunchanged.
  destruct (public_base_urls policy) as [|base bases] eqn:Eu; [done|].
  unfold and_then at 1 in Hr.
  destruct (rewrite_textures base upstream_id textures) as [[k textures']|e|m] eqn:Ew; [|done..].
  apply rewrite_textures_ok in Ew as [Hk Hw].
  destruct (k =? 0) eqn:Ek; [by apply Hunchanged|]. unfold and_then in Hr.
  destruct (resign_textures _ _) as [new|e|m] eqn:Es; [|done..]. injection Hr as <- <-.
  pose proof (resign_textures_ok _ _ _ Es) as (Hname & Hsig & json & Hb & Hj).
  split; [done|]. split; [lia|]. split.
  - intros _. exists base, properties, old, new, json, payload, textures, textures'.
    repeat (split; [done|]). split; [eauto|]. done.
  - intros _. unfold resign_textures, and_then, context, sign_texture_property,
      configured_private_key in Es.
    destruct (json_to_vec _); [|done..]. by destruct (is_empty _).
Qed.
End Rewriting.

(** ".minecraft.net" also matches a host that merely ends in these letters:
    the dot is dropped before the comparison. *)
Example skin_domain_suffix : skin_domain_matches_host ".minecraft.net" "evilminecraft.net" = true.
Proof. reflexivity. Qed.

(** ** A concrete instance *)

Definition zero_hash : string :=
  "0000000000000000000000000000000000000000000000000000000000000000".
Definition crypto_hex : ForgeCrypto := {|
  sha256_hex := fun _ => zero_hash;
  verify_password := fun password hash => Ok (eqb password hash)
|}.
Lemma crypto_hex_laws : Sha256Hex crypto_hex.
Proof. split. intros s. reflexivity. Qed.

(** JSON payloads with one skin, tickets of upstream 7. *)
Definition skin_payload (url : string) : Value :=
  VObject [("textures", VObject [("SKIN", VObject [("url", VString url)])])]%string.
Definition texture_externs0 : TextureExterns := {|
  Url := string;
  url_parse := fun s => Ok s;
  url_scheme := fun _ => "https"%string;
  url_to_string := fun s => s;
  url_path_segments := fun _ => None;
  base64_decode := fun s => Ok s;
  base64_encode := fun s => s;
  json_from_slice := fun s => Ok (skin_payload s);
  json_to_vec := fun v =>
    match v with
    | VObject [(textures, VObject [(skin, VObject [(url, VString s)])])] =>
        if eqb textures "textures"%string && eqb skin "SKIN"%string && eqb url "url"%string
        then Ok s else Err "unsupported"%string
    | _ => Err "unsupported"%string
    end;
  encode_ticket := fun t =>
    if (ticket_s t =? 7) && eqb (ticket_h t) zero_hash then Ok (ticket_u t)
    else Err "unsupported"%string;
  decode_ticket := fun s => Ok (mkTicket 7 zero_hash s);
  PrivateKey := string;
  private_key_from_pem := fun s => Ok s;
  sign_sha1 := fun k s => (k +:+ s)%string
|}.
Lemma texture_externs0_laws : TextureExternLaws texture_externs0.
Proof.
  split; cbn.
  - intros [s h u] r. cbn. destruct (_ && _) eqn:E; [|done].
    rewrite andb_true_iff, Z.eqb_eq, eqb_true in E. destruct E as [-> ->]. by intros [= ->].
  - done.
  - intros v s H.
    destruct v as [| | | | |[|[k [| | | | |[|[k2 [| | | | |[|[k3 [| | |u| |]] [|]]]] [|]]]] [|]]]; try done.
    destruct (_ && _) eqn:E; [|done].
    rewrite !andb_true_iff, !eqb_true in E. destruct E as [[-> ->] ->]. by injection H as <-.
Qed.

Definition policy1 : RuntimeYggdrasilPolicy :=
  mkPolicy "AsterYggdrasil" true true true true true true 15 2 4194304 16777216 1 1 true 3
           "https://api.mojang.com" [] ["https://ygg.example.org/"%string] None "" "key".
Definition remote_profile : YggdrasilProfile :=
  mkYggProfile "0123456789abcdef0123456789abcdef" "Alex" None
    (Some [mkProperty "textures" "https://t.example.com/skin" None]).
Definition forwarded_profile : YggdrasilProfile :=
  match rewrite_forwarded_texture_urls (FC := crypto_hex) (TX := texture_externs0)
          policy1 7 remote_profile with
  | Ok (_, p) => p
  | _ => remote_profile
  end.

Lemma forwarded_textures_resolve_witness :
  rewrite_forwarded_texture_urls (FC := crypto_hex) (TX := texture_externs0)
    policy1 7 remote_profile = Ok (1, forwarded_profile) /\
  ygg_id forwarded_profile = ygg_id remote_profile.
Proof.
  assert (H : rewrite_forwarded_texture_urls (FC := crypto_hex) (TX := texture_externs0)
                policy1 7 remote_profile = Ok (1, forwarded_profile))
    by (vm_compute; reflexivity).
  split; [exact H|].
  apply (forwarded_textures_resolve (SH := crypto_hex_laws) (TL := texture_externs0_laws)
           _ _ _ _ _ H).
Defined.
