(* ===== verification/Sessions.v ===== *)
(** * Sessions: joining a game server

    [services/yggdrasil_service/session.rs] with the join and forward-server
    entries of [services/yggdrasil_service/cache.rs] and
    [db/repository/yggdrasil_session_forward_server_repo.rs]: a client joins
    a server with its access token, and the server asks whether that player
    has joined, here or at an upstream session server. *)

From Stdlib Require Import ZArith List Bool Lia Ascii.
From stdpp Require Import base decidable list strings pretty.
From S2P Require Import Prelude Text Errors Types AuditLog World Validation Logic Repos Bans Tokens Auth ForwardTextures.

Local Open Scope Z_scope.
Local Open Scope aster_scope.

(** ** Forward servers *)
Module ServerRepo.

Definition is_server (id : Z) (s : forward_server) : bool := server_pk s =? id.

(** [order_by_asc(Priority).order_by_asc(Id)] *)
Definition call_order (s t : forward_server) : bool :=
  (priority s <? priority t) || ((priority s =? priority t) && (server_pk s <=? server_pk t)).

Definition truncate_failure_message (message : string) : string :=
  let trimmed := trim message in
  if (str_len trimmed <=? 512)%nat then trimmed
  else of_bytes (take_chars 512 (bytes trimmed)).

Definition succeeded (checked_at : DateTimeUtc) (s : forward_server) : forward_server :=
  mkServer (server_pk s) (display_name s) (provider_kind s) (endpoint_kind s) (base_url s)
    (builtin s) (enabled s) (priority s) (weight s) (timeout_ms s) (texture_forward_enabled s)
    (Some checked_at) (Some checked_at) (last_failure_at s) None
    (server_created_at s) checked_at.

Definition failed (checked_at : DateTimeUtc) (message : string) (s : forward_server)
  : forward_server :=
  mkServer (server_pk s) (display_name s) (provider_kind s) (endpoint_kind s) (base_url s)
    (builtin s) (enabled s) (priority s) (weight s) (timeout_ms s) (texture_forward_enabled s)
    (Some checked_at) (last_success_at s) (Some checked_at)
    (Some (truncate_failure_message message)) (server_created_at s) checked_at.

Section Ops.
Context `{EN : Env} `{CB : CacheBackend}.

Definition list_enabled_ordered : M AsterError.t (list forward_server) :=
  db_query (fun d =>
    sort_by call_order (rows_where (fun s => enabled s && (0 <? weight s)) (rows (servers d)))).

Definition find_by_id (id : Z) : M AsterError.t forward_server :=
  let* row := db_query (fun d => find_row (is_server id) (rows (servers d))) in
  lift (ok_or (AsterError.RecordNotFound
                 ("Yggdrasil session forward server #" +:+ pretty id)) row).

Definition find_by_base_url (url : string) : M AsterError.t (option forward_server) :=
  db_query (fun d => find_row (fun s => eqb (base_url s) (Some url)) (rows (servers d))).

Definition server_id_leb (s t : forward_server) : bool := server_pk s <=? server_pk t.

Definition find_local : M AsterError.t (option forward_server) :=
  db_query (fun d =>
    List.hd_error (sort_by server_id_leb
      (rows_where (fun s => eqb (provider_kind s) ProviderLocal) (rows (servers d))))).

Definition delete (id : Z) : M AsterError.t unit :=
  let* rows_affected := db_delete_many servers set_servers (is_server id) in
  when_ok (rows_affected =? 0)
    (AsterError.RecordNotFound ("Yggdrasil session forward server #" +:+ pretty id)).

Definition mark_success (id : Z) (checked_at : DateTimeUtc) : M AsterError.t bool :=
  let* rows_affected := db_update_many servers set_servers (is_server id) (succeeded checked_at) in
  ret (rows_affected =? 1).

Definition mark_failure (id : Z) (checked_at : DateTimeUtc) (message : string)
  : M AsterError.t bool :=
  let* rows_affected :=
    db_update_many servers set_servers (is_server id) (failed checked_at message) in
  ret (rows_affected =? 1).
End Ops.
End ServerRepo.

(** ** Cache entries *)
Module SessionCache.

Definition JOIN_SESSION_TTL_SECS : Z := 30.
Definition JOIN_SESSION_PREFIX : string := "yggdrasil:join:".
Definition SESSION_FORWARD_SERVER_TTL_SECS : Z := 60.
Definition SESSION_FORWARD_SERVER_KEY : string := "yggdrasil:session-forward:enabled:v1".

Section Ops.
Context `{EN : Env} `{CB : CacheBackend} `{FC : ForgeCrypto}.

Definition join_session_key (server_id : string) : string :=
  JOIN_SESSION_PREFIX +:+ sha256_hex server_id.

Definition set_join_session {E} (server_id : string) (session : YggdrasilJoinSession)
  : M E unit :=
  cache_write (join_session_key server_id) (CvJoin session) JOIN_SESSION_TTL_SECS.

Definition get_join_session {E} (server_id : string) : M E (option YggdrasilJoinSession) :=
  let* v := cache_read (join_session_key server_id) in
  ret (match v with Some (CvJoin s) => Some s | _ => None end).

Definition get_enabled_session_forward_servers {E} : M E (option (list forward_server)) :=
  let* v := cache_read SESSION_FORWARD_SERVER_KEY in
  ret (match v with Some (CvServers l) => Some l | _ => None end).

Definition set_enabled_session_forward_servers {E} (servers : list forward_server) : M E unit :=
  cache_write SESSION_FORWARD_SERVER_KEY (CvServers servers) SESSION_FORWARD_SERVER_TTL_SECS.

Definition invalidate_session_forward_servers {E} : M E unit :=
  cache_update (fun c => cache_delete c SESSION_FORWARD_SERVER_KEY).
End Ops.
End SessionCache.

(** ** Interfaces *)

(** The profile component: the signed properties of a profile. *)
Class ProfileProperties `{CB : CacheBackend} : Type := {
  profile_with_properties :
    minecraft_profile -> bool -> M Yggdrasil.YggdrasilError YggdrasilProfile
}.

Definition PROFILE_PROPERTIES_PREFIX : string := "yggdrasil:profile-properties:".

(** What it promises: the answer carries the profile's UUID and name; the
    tables and the audit log stay as they are, and the only cache entries it
    adds are lists of properties under its own prefix. *)
Class ProfilePropertiesLaws `{EN : Env} `{CB : CacheBackend} (PP : ProfileProperties) : Prop := {
  properties_frame p signed w :
    let w' := snd (profile_with_properties p signed w) in
    db w' = db w /\ audit_log w' = audit_log w /\ (step w <= step w')%nat /\
    forall t k x, cache_get (cache w') t k = Some x ->
      cache_get (cache w) t k = Some x \/
      (starts_with PROFILE_PROPERTIES_PREFIX k = true /\ exists l, x = CvProperties l);
  properties_identity p signed w r w' :
    profile_with_properties p signed w = (Ok r, w') ->
    ygg_id r = uuid p /\ ygg_name r = profile_name p
}.

(** The HTTP client: a request either fails or gets an answer, whose body
    may be a valid profile; and the middleware that resolves the client
    address behind trusted proxies. *)
Record HttpResponse : Type := mkResponse {
  resp_status : Z;
  resp_status_text : string;
  resp_profile : outcome string YggdrasilProfile
}.

Class SessionExterns `{TX : TextureExterns} : Type := {
  url_path : Url -> string;
  url_set_path : Url -> string -> Url;
  url_append_pair : Url -> string -> string -> Url;
  http_get : nat -> Url -> Z -> outcome string HttpResponse;
  validation_errors_display : list (string * string) -> string;
  real_ip_from_headers : HttpRequest -> string -> string
}.

(** ** The service *)

Record YggdrasilJoinReq : Type := mkJoinReq {
  jr_access_token : string;
  jr_selected_profile : string;
  jr_server_id : string
}.

(** [AuditRequestInfo] *)
Record AuditRequestInfo : Type := mkRequestInfo {
  info_ip_address : option string;
  info_user_agent : option string
}.

Definition DEFAULT_FORWARD_TIMEOUT_MS : Z := 1500.
Definition MIN_FORWARD_TIMEOUT_MS : Z := 100.
Definition MAX_FORWARD_TIMEOUT_MS : Z := 10000.

(** [u64::try_from(timeout_ms)] fails on a negative number. *)
Definition normalize_forward_timeout_ms (timeout_ms : Z) : Z :=
  if timeout_ms <? 0 then DEFAULT_FORWARD_TIMEOUT_MS
  else Z.min (Z.max timeout_ms MIN_FORWARD_TIMEOUT_MS) MAX_FORWARD_TIMEOUT_MS.

Definition session_forward_has_joined_path (kind : YggdrasilSessionForwardEndpointKind)
  : string :=
  match kind with
  | AuthlibInjector => "/sessionserver/session/minecraft/hasJoined"
  | MojangSession => "/session/minecraft/hasJoined"
  end.

Definition requires_bound_microsoft_profile (upstream : forward_server) : bool :=
  eqb (provider_kind upstream) ProviderRemote && eqb (endpoint_kind upstream) MojangSession.

(** The weighted draw: [ticket -= max(weight, 1)] until it is negative; the
    index stays 0 if it never is. *)
Definition draw_weight (s : forward_server) : Z := Z.max (weight s) 1.

Fixpoint draw_index (servers : list forward_server) (ticket : Z) (index : nat) : nat :=
  match servers with
  | [] => O
  | server :: rest =>
      let ticket := ticket - draw_weight server in
      if ticket <? 0 then index else draw_index rest ticket (S index)
  end.

Definition total_weight (servers : list forward_server) : Z :=
  List.fold_right (fun s n => draw_weight s + n) 0 servers.

(** The servers up to the next priority ([while servers[end].priority == priority]). *)
Fixpoint span_priority (p : Z) (l : list forward_server)
  : list forward_server * list forward_server :=
  match l with
  | [] => ([], [])
  | s :: rest =>
      if priority s =? p then let (a, b) := span_priority p rest in (s :: a, b)
      else ([], l)
  end.

Section Service.
Context `{EN : Env} `{CB : CacheBackend} `{BE : BanExterns} `{FC : ForgeCrypto}.
Context `{RC : RuntimeConfig} `{TX : TextureExterns} `{SX : !SessionExterns} {PP : ProfileProperties}.

Abbreviation YM := (M Yggdrasil.YggdrasilError).

Definition real_join_client_ip (req : HttpRequest) : option string :=
  (fun peer => real_ip_from_headers req peer) <$> req_peer_ip req.

Definition join (body : YggdrasilJoinReq) (req : HttpRequest) : YM unit :=
  let* token := active_token (jr_access_token body) None in
  match selected_profile_id token with
  | None => throw invalid_token
  | Some selected_profile_id =>
      let* banned := ygg (is_user_banned (token_user_id token) YggdrasilJoin) in
      do* when_ok banned invalid_token in
      let* profile := ygg (ProfileRepo.find_by_id selected_profile_id) in
      do* when_ok (negb (eqb (uuid profile) (jr_selected_profile body))) invalid_token in
      let session := mkJoin (profile_pk profile) (uuid profile) (profile_name profile)
                       (jr_server_id body) (real_join_client_ip req) in
      do* SessionCache.set_join_session (jr_server_id body) session in
      AuditService.log_with_details (AuditService.from_request req (token_user_id token))
        AuditAction.YggdrasilJoinServer YggdrasilSession (Some (profile_pk profile))
        (Some (profile_name profile))
  end.

Definition enabled_session_forward_servers : YM (list forward_server) :=
  let* cached := SessionCache.get_enabled_session_forward_servers in
  match cached with
  | Some servers => ret servers
  | None =>
      let* servers := ygg ServerRepo.list_enabled_ordered in
      do* SessionCache.set_enabled_session_forward_servers servers in
      ret servers
  end.

Definition local_has_joined (username server_id : string) (ip : option string)
  : YM (option YggdrasilProfile) :=
  let* session := SessionCache.get_join_session server_id in
  match session with
  | None => ret None
  | Some session =>
      if negb (eqb (join_server_id session) server_id)
         || negb (eqb (join_profile_name session) username)
      then ret None
      else if is_some_and ip (fun ip => negb (eqb (join_ip_address session) (Some ip)))
      then ret None
      else
        let* profile := ygg (ProfileRepo.find_by_id (join_profile_id session)) in
        let* banned := ygg (is_user_banned (profile_user_id profile) YggdrasilJoin) in
        if banned then ret None
        else
          let* p := profile_with_properties profile true in
          ret (Some p)
  end.

(** [loop] over a group of equal priority: draw, remove, repeat; the fuel is
    the number of servers. *)
Fixpoint weighted_draws (fuel : nat) (servers : list forward_server)
  : YM (list forward_server) :=
  match fuel, servers with
  | O, _ | _, [] => ret []
  | S fuel, _ =>
      let* ticket := random_range (total_weight servers) in
      let selected_index := draw_index servers ticket 0 in
      match servers !! selected_index with
      | None => panic "removal index is out of range"
      | Some selected =>
          let* rest := weighted_draws fuel
                         (firstn selected_index servers ++ skipn (S selected_index) servers) in
          ret (selected :: rest)
      end
  end.

Definition weighted_group_order (servers : list forward_server) : YM (list forward_server) :=
  weighted_draws (length servers) servers.

(** The outer loop, on the servers sorted by priority and id. *)
Fixpoint weighted_groups (fuel : nat) (servers : list forward_server)
  : YM (list forward_server) :=
  match fuel, servers with
  | O, _ | _, [] => ret []
  | S fuel, server :: rest =>
      let (group, remaining) := span_priority (priority server) rest in
      let* ordered := weighted_group_order (server :: group) in
      let* others := weighted_groups fuel remaining in
      ret (ordered ++ others)
  end.

Definition weighted_forward_order (servers : list forward_server)
  : YM (list forward_server) :=
  weighted_groups (length servers) (sort_by ServerRepo.call_order servers).

Definition forwarded_mojang_profile_is_bound (profile : YggdrasilProfile) : YM bool :=
  let* bound_profile := ygg (ProfileRepo.find_by_uuid (ygg_id profile)) in
  ret (is_some_and bound_profile (fun p => eqb (source p) Microsoft)).

(** The request of [query_forward_server]. *)
Definition forward_request_url (upstream : forward_server) (url : Url)
  (username server_id : string) (ip : option string) : Url :=
  let path := trim_end_matches "/"%char (url_path url)
                +:+ session_forward_has_joined_path (endpoint_kind upstream) in
  let url := url_append_pair (url_append_pair (url_set_path url path) "username" username)
               "serverId" server_id in
  match ip with Some ip => url_append_pair url "ip" ip | None => url end.

(** What the response means. *)
Definition forward_response (r : HttpResponse) : outcome string (option YggdrasilProfile) :=
  if (resp_status r =? 204) || (resp_status r =? 404) then Ok None
  else if negb ((200 <=? resp_status r) && (resp_status r <? 300))
  then Err ("upstream returned HTTP " +:+ resp_status_text r)
  else
    and_then (context "invalid profile JSON: " (resp_profile r)) (fun profile =>
    match validate_profile profile with
    | [] => Ok (Some profile)
    | errors => Err ("invalid profile body: " +:+ validation_errors_display errors)
    end).

Definition query_forward_server (upstream : forward_server) (username server_id : string)
  (ip : option string) : M string (option YggdrasilProfile) :=
  match base_url upstream with
  | None => throw "remote upstream base URL is missing"%string
  | Some base_url =>
      let* url := lift (context "invalid upstream base URL: " (url_parse base_url)) in
      let* response := (fun w =>
        (context "request failed: "
           (http_get (step w) (forward_request_url upstream url username server_id ip)
              (normalize_forward_timeout_ms (timeout_ms upstream))), tick w)) in
      lift (forward_response response)
  end.

Definition log_forward_check (request_info : AuditRequestInfo) (upstream : forward_server)
  : YM unit :=
  AuditService.log_with_details
    (mkCtx 0 (info_ip_address request_info) (info_user_agent request_info))
    AuditAction.YggdrasilSessionForwardCheck YggdrasilSession (Some (server_pk upstream))
    (Some (display_name upstream)).

(** One upstream asked: here, or over HTTP. *)
Definition ask_upstream (upstream : forward_server) (username server_id : string)
  (ip : option string) : YM (option YggdrasilProfile + string) :=
  match provider_kind upstream with
  | ProviderLocal =>
      catch (map_err Yggdrasil.protocol_message (local_has_joined username server_id ip))
  | ProviderRemote => catch (query_forward_server upstream username server_id ip)
  end.

(** [if let Err(error) = mark(...).await { warn }], then the audit entry. *)
Definition record_check (request_info : AuditRequestInfo) (upstream : forward_server)
  (mark : M AsterError.t bool) : YM unit :=
  let* _ := catch mark in
  log_forward_check request_info upstream.

Definition forward_textures (upstream : forward_server) (profile : YggdrasilProfile)
  : YM YggdrasilProfile :=
  if texture_forward_enabled upstream then
    match rewrite_forwarded_texture_urls policy (server_pk upstream) profile with
    | Ok (_, profile) => ret profile
    | Err _ => ret profile
    | Panic m => panic m
    end
  else ret profile.

Fixpoint ask_upstreams (upstreams : list forward_server) (username server_id : string)
  (ip : option string) (request_info : AuditRequestInfo) : YM (option YggdrasilProfile) :=
  match upstreams with
  | [] => ret None
  | upstream :: rest =>
      let* checked_at := utc_now in
      let* result := ask_upstream upstream username server_id ip in
      match result with
      | inl (Some profile) =>
          let* bound := if requires_bound_microsoft_profile upstream
                        then forwarded_mojang_profile_is_bound profile else ret true in
          if negb bound then
            do* record_check request_info upstream
                  (ServerRepo.mark_success (server_pk upstream) checked_at) in
            ask_upstreams rest username server_id ip request_info
          else
            let* profile := forward_textures upstream profile in
            do* record_check request_info upstream
                  (ServerRepo.mark_success (server_pk upstream) checked_at) in
            ret (Some profile)
      | inl None =>
          do* record_check request_info upstream
                (ServerRepo.mark_success (server_pk upstream) checked_at) in
          ask_upstreams rest username server_id ip request_info
      | inr error =>
          do* record_check request_info upstream
                (ServerRepo.mark_failure (server_pk upstream) checked_at error) in
          ask_upstreams rest username server_id ip request_info
      end
  end.

Definition orchestrated_has_joined (servers : list forward_server)
  (username server_id : string) (ip : option string) (request_info : AuditRequestInfo)
  : YM (option YggdrasilProfile) :=
  let* upstreams := weighted_forward_order servers in
  ask_upstreams upstreams username server_id ip request_info.

Definition has_joined (username server_id : string) (ip : option string)
  (request_info : AuditRequestInfo) : YM (option YggdrasilProfile) :=
  let* servers := enabled_session_forward_servers in
  match servers with
  | [] => local_has_joined username server_id ip
  | _ => orchestrated_has_joined servers username server_id ip request_info
  end.
End Service.
