(* ===== verification/SessionProofs.v ===== *)
(** * Sessions: proofs

    What a join records and when hasJoined answers: only within thirty
    seconds of a successful join to the same server under the same name, and
    for a user who is not banned; upstreams are asked in weighted priority
    order and only enabled ones can answer. *)

From Stdlib Require Import ZArith List Bool Lia Permutation Sorted Ascii.
From stdpp Require Import base decidable list strings pretty.
From S2P Require Import Prelude Text Errors Types AuditLog World Validation Logic Repos Bans Tokens Auth Concrete BanProofs TokenSpec TokenProofs TokenTheorems AuthProofs ForwardTextures Sessions.

Local Open Scope Z_scope.
Local Open Scope aster_scope.

Lemma wp_and `{CB : CacheBackend} {E A} (c : M E A) (Q R : outcome E A -> World -> Prop) w :
  wp c Q w -> wp c R w -> wp c (fun r w' => Q r w' /\ R r w') w.
Proof. unfold wp. auto. Qed.

(** ** The order of the upstreams *)

Lemma draw_index_bound l ticket i :
  draw_index l ticket i = 0%nat \/ (i <= draw_index l ticket i < i + length l)%nat.
Proof.
  revert ticket i. induction l as [|s l IH]; intros ticket i; cbn; [by left|].
  destruct (_ <? 0); [right; lia|].
  destruct (IH (ticket - draw_weight s) (S i)) as [->|]; [by left|right; lia].
Qed.

Lemma draw_index_lt s l ticket : (draw_index (s :: l) ticket 0 < length (s :: l))%nat.
Proof. destruct (draw_index_bound (s :: l) ticket 0) as [->|]; cbn in *; lia. Qed.

Lemma total_weight_cons s l : total_weight (s :: l) = draw_weight s + total_weight l.
Proof. done. Qed.
Lemma total_weight_nonneg l : 0 <= total_weight l.
Proof.
  induction l as [|s l IH]; [done|]. rewrite total_weight_cons. unfold draw_weight. lia.
Qed.

(** A server is drawn for exactly as many tickets as its weight: the tickets
    of the servers are consecutive intervals. *)
Lemma draw_index_interval l1 s l2 ticket i :
  0 <= ticket ->
  total_weight l1 <= ticket < total_weight l1 + draw_weight s ->
  draw_index (l1 ++ s :: l2) ticket i = (i + length l1)%nat.
Proof.
  revert ticket i. induction l1 as [|a l1 IH]; intros ticket i H0 H; cbn [app draw_index length].
  - cbn in H. rewrite (proj2 (Z.ltb_lt _ _)) by lia. lia.
  - rewrite total_weight_cons in H. pose proof (total_weight_nonneg l1).
    rewrite (proj2 (Z.ltb_ge _ _)) by lia. rewrite IH by lia. lia.
Qed.

Lemma remove_nth_perm {A} (l : list A) i x :
  l !! i = Some x -> Permutation (x :: firstn i l ++ skipn (S i) l) l.
Proof.
  intros H. rewrite <- (take_drop_middle l i x H) at 3. apply Permutation_middle.
Qed.

Lemma remove_nth_length {A} (l : list A) i x :
  l !! i = Some x -> length l = S (length (firstn i l ++ skipn (S i) l)).
Proof. intros H%remove_nth_perm%Permutation_length. cbn in H. lia. Qed.

(** The servers of equal priority at the front, and the rest. *)
Lemma span_priority_app p l :
  let (a, b) := span_priority p l in
  l = a ++ b /\ (forall s, In s a -> priority s = p).
Proof.
  induction l as [|s l IH]; cbn; [done|].
  destruct (priority s =? p) eqn:E; [|done].
  destruct (span_priority p l) as [a b]. destruct IH as [-> Ha]. split; [done|].
  intros x [<-|Hx]; [lia|auto].
Qed.

Abbreviation by_priority := (StronglySorted (fun s t => priority s <= priority t)).

Lemma by_priority_app l1 l2 p :
  (forall s, In s l1 -> priority s = p) -> (forall s, In s l2 -> p <= priority s) ->
  by_priority l2 -> by_priority (l1 ++ l2).
Proof.
  intros H1 H2 Hs. induction l1 as [|s l1 IH]; cbn; [done|]. constructor.
  - apply IH. intros x Hx. apply H1. by right.
  - apply List.Forall_forall. intros x [Hx|Hx]%in_app_iff; rewrite (H1 s) by (by left).
    + rewrite (H1 x) by (by right). lia.
    + auto.
Qed.

Section Order.
Context `{EN : Env} `{CB : CacheBackend}.

Lemma weighted_draws_spec fuel servers (w : World) :
  (length servers <= fuel)%nat ->
  exists l w', weighted_draws fuel servers w = (Ok l, w') /\ same w w' /\ Permutation l servers.
Proof.
  revert servers w. induction fuel as [|fuel IH]; intros [|s servers] w Hlen; cbn in Hlen; try lia.
  1,2: (exists [], w; split; [done|split; [apply same_refl|done]]).
  cbn [weighted_draws]. unfold bind at 1, random_range.
  set (ticket := random_draw _ _). set (l := s :: servers) in *.
  destruct (lookup_lt_is_Some_2 l (draw_index l ticket 0)) as [x Hx];
    [apply draw_index_lt|].
  rewrite Hx. pose proof (remove_nth_length _ _ _ Hx) as Hl.
  destruct (IH (firstn (draw_index l ticket 0) l ++ skipn (S (draw_index l ticket 0)) l) (tick w))
    as (r & w' & Hr & Hs & Hp); [unfold l in *; cbn in *; lia|].
  unfold bind. rewrite Hr. exists (x :: r), w'. split; [done|].
  split; [eapply same_trans; [apply same_tick|done]|].
  rewrite Hp. by apply remove_nth_perm.
Qed.

Lemma weighted_groups_spec fuel servers (w : World) :
  (length servers <= fuel)%nat -> by_priority servers ->
  exists l w', weighted_groups fuel servers w = (Ok l, w') /\ same w w' /\
    Permutation l servers /\ by_priority l.
Proof.
  revert servers w. induction fuel as [|fuel IH]; intros [|s servers] w Hlen Hs; cbn in Hlen;
    try lia.
  1,2: (exists [], w; split; [done|split; [apply same_refl|split; [done|constructor]]]).
  inversion Hs as [|? ? Hs' Hf]; subst. rewrite List.Forall_forall in Hf.
  cbn [weighted_groups]. pose proof (span_priority_app (priority s) servers) as Hspan.
  destruct (span_priority (priority s) servers) as [group remaining].
  destruct Hspan as [-> Hgroup]. rewrite length_app in Hlen.
  destruct (weighted_draws_spec (length (s :: group)) (s :: group) w) as (l1 & w1 & H1 & S1 & P1);
    [done|].
  assert (Hrem : by_priority remaining).
  { clear -Hs'. induction group as [|a g IHg]; [done|]. inversion Hs'; auto. }
  destruct (IH remaining w1) as (l2 & w2 & H2 & S2 & P2 & B2); [lia|done|].
  unfold bind, weighted_group_order. rewrite H1, H2. exists (l1 ++ l2), w2. split; [done|].
  split; [by eapply same_trans|]. split; [by rewrite P1, P2|].
  apply by_priority_app with (priority s); [| |done].
  - intros x Hx. apply (Permutation_in _ P1) in Hx as [<-|Hx]; auto.
  - intros x Hx. apply (Permutation_in _ P2) in Hx. apply Hf, in_or_app. by right.
Qed.

Lemma call_order_by_priority l : by_priority (sort_by ServerRepo.call_order l).
Proof.
  assert (H : StronglySorted (fun s t => ServerRepo.call_order s t = true)
                             (sort_by ServerRepo.call_order l)).
  { apply sort_by_sorted; unfold ServerRepo.call_order; intros; lia. }
  induction H as [|s r _ IH Hf]; constructor; [done|].
  eapply List.Forall_impl; [|exact Hf]. unfold ServerRepo.call_order. cbn. lia.
Qed.

(** the order in which upstreams are asked. It is always produced (the
    draws end and never index out of range), it contains every given server
    exactly once, and smaller priorities come first. Among servers of equal
    priority the next one is drawn by weight: with the tickets from 0 to the
    total weight, each server is drawn for as many tickets as its weight,
    counted as 1 if it is smaller. *)
Theorem weighted_forward_order_correct servers (w : World) :
  (exists l w', weighted_forward_order servers w = (Ok l, w') /\ same w w' /\
     Permutation l servers /\ by_priority l) /\
  (forall before s after ticket,
     servers = before ++ s :: after ->
     total_weight before <= ticket < total_weight before + draw_weight s ->
     0 <= ticket < total_weight servers /\
     draw_index servers ticket 0 = length before).
Proof.
  split.
  - destruct (weighted_groups_spec (length servers) (sort_by ServerRepo.call_order servers) w)
      as (l & w' & Hr & Hs & Hp & Hb).
    + by rewrite length_sort_by.
    + apply call_order_by_priority.
    + exists l, w'. split; [done|]. split; [done|]. split; [|done].
      by rewrite Hp, sort_by_perm.
  - intros before s after ticket -> Ht. pose proof (total_weight_nonneg before).
    split; [|rewrite draw_index_interval by lia; lia].
    assert (Happ : total_weight (before ++ s :: after) =
                   total_weight before + draw_weight s + total_weight after).
    { clear. induction before as [|a l IH]; cbn [app]; rewrite !total_weight_cons;
        [cbn; lia|rewrite IH; lia]. }
    pose proof (total_weight_nonneg after). lia.
Qed.
End Order.

(** ** Joining *)

Definition is_join_key (k : string) : bool := starts_with SessionCache.JOIN_SESSION_PREFIX k.

Lemma join_key_is `{ForgeCrypto} sid : is_join_key (SessionCache.join_session_key sid) = true.
Proof. apply starts_with_iff. by eexists. Qed.

(** Different prefixes. *)
Lemma token_key_not_join h : is_join_key (TokenCache.token_key h) = false.
Proof. reflexivity. Qed.

Section Joins.
Context `{EN : Env} `{CB : CacheBackend} `{CL : !CacheLaws CB} `{BE : BanExterns}.
Context `{FC : ForgeCrypto} `{RC : RuntimeConfig} `{TX : TextureExterns} `{SX : !SessionExterns}.

(** Time went on and no join entry appeared in the cache. *)
Definition join_quiet (w w' : World) : Prop :=
  (step w <= step w')%nat /\
  forall t k x, is_join_key k = true ->
    cache_get (cache w') t k = Some x -> cache_get (cache w) t k = Some x.

Lemma quiet_same w w' : same w w' -> join_quiet w w'.
Proof. intros (_ & Hc & _ & Hs). split; [done|]. intros t k x _. by rewrite Hc. Qed.
Lemma quiet_trans w1 w2 w3 : join_quiet w1 w2 -> join_quiet w2 w3 -> join_quiet w1 w3.
Proof. intros [S1 H1] [S2 H2]. split; [lia|eauto]. Qed.

Lemma quiet_set w c w' :
  cache w' = c -> (step w <= step w')%nat ->
  (forall t k x, is_join_key k = true -> cache_get c t k = Some x -> cache_get (cache w) t k = Some x) ->
  join_quiet w w'.
Proof. intros <- Hs H. by split. Qed.

(** Looking at a token puts at most that token in the cache. *)
Lemma token_check_quiet access client allow w :
  wp (token_for_operation access client allow) (fun _ w' => join_quiet w w') w.
Proof.
  unfold token_for_operation. apply wp_bind.
  assert (Hread : Reads (lookup_token (sha256_hex access))).
  { unfold lookup_token, TokenCache.get_token, ygg, TokenRepo.find_by_access_hash.
    typeclasses eauto. }
  apply wp_reads; [done|]. intros r w1 _ S1.
  destruct r as [t|e|m]; cbn [wp_next]; [|by apply quiet_same..].
  unfold check_token, TokenCache.set_token. apply wp_bind, wp_utc_now. cbn [wp_next].
  apply wp_bind, wp_when_ok; intros _; cbn [wp_next].
  { apply quiet_same. eapply same_trans; [exact S1|apply same_tick]. }
  apply wp_bind, wp_cache_write. cbn [wp_next]. set (w2 := tick (set_cache _ _)).
  assert (H2 : join_quiet w w2).
  { eapply quiet_trans; [by apply quiet_same|]. apply (quiet_set _ (cache w2)); [done|cbn; lia|].
    intros u k x Hk Hg. cbn in Hg. apply get_set in Hg as [(-> & _)|Hg]; [|done].
    by rewrite token_key_not_join in Hk. }
  apply wp_bind, wp_when_ok; intros _; cbn [wp_next]; [done|].
  apply wp_bind, wp_when_ok; intros _; cbn [wp_next]; [done|].
  apply wp_reads; [typeclasses eauto|]. intros r w3 _ S3.
  eapply quiet_trans; [exact H2|by apply quiet_same].
Qed.

Definition recorded_session (body : YggdrasilJoinReq) (req : HttpRequest)
  (profile : minecraft_profile) : YggdrasilJoinSession :=
  mkJoin (profile_pk profile) (uuid profile) (profile_name profile) (jr_server_id body)
         (real_join_client_ip req).

(** What a successful join means: an accepted token bound to the requested
    profile, a user who was not banned from joining, and one cache entry
    that lives thirty seconds. *)
Definition joined (body : YggdrasilJoinReq) (req : HttpRequest) (w w' : World)
  (token : yggdrasil_token) (profile : minecraft_profile) (i : nat) : Prop :=
  accepted (jr_access_token body) None false w w' token /\
  selected_profile_id token = Some (profile_pk profile) /\
  In profile (rows (profiles (db w))) /\ uuid profile = jr_selected_profile body /\
  (exists m, (step w <= m <= step w')%nat /\
     not_banned (token_user_id token) YggdrasilJoin (clock m) (db w)) /\
  (step w <= i <= step w')%nat /\
  forall t k x, is_join_key k = true -> cache_get (cache w') t k = Some x ->
    (k = SessionCache.join_session_key (jr_server_id body) /\
     x = CvJoin (recorded_session body req profile) /\ t <= clock i + seconds 30) \/
    cache_get (cache w) t k = Some x.

Lemma accepted_later access client allow w w1 w2 t :
  accepted access client allow w w1 t -> (step w1 <= step w2)%nat ->
  accepted access client allow w w2 t.
Proof.
  intros (? & ? & ? & ? & ? & n & m & ? & ? & ? & ?) Hs.
  repeat (split; [done|]). exists n, m. repeat split; auto; lia.
Qed.

Lemma join_spec body req w :
  token_inv w ->
  wp (join body req) (fun r w' =>
    db w' = db w /\ (step w <= step w')%nat /\ token_inv w' /\
    match r with
    | Ok _ => exists token profile i, joined body req w w' token profile i
    | _ => join_quiet w w'
    end) w.
Proof.
  intros (Hwf & Hb & Hok). unfold join, active_token. apply wp_bind.
  eapply wp_mono; [apply wp_and; [by apply token_check_spec|apply token_check_quiet]|].
  intros r w1 [(Hd1 & Ha1 & Hs1 & Hok1 & Hacc) Hq1].
  assert (Hinv1 : token_inv w1).
  { split; [by rewrite Hd1|]. split; [|done]. unfold bans_wf. by rewrite Hd1. }
  assert (Hquiet : forall w2, same w1 w2 ->
    db w2 = db w /\ (step w <= step w2)%nat /\ token_inv w2 /\ join_quiet w w2).
  { intros w2 S. pose proof S as (Hd & Hc & _ & Hs). split; [congruence|]. split; [lia|].
    split; [|eapply quiet_trans; [done|by apply quiet_same]].
    destruct Hinv1 as (? & ? & ?). split; [by rewrite Hd|].
    split; [unfold bans_wf; by rewrite Hd|by eapply cache_ok_same]. }
  destruct r as [token|e|m]; cbn [wp_next];
    [|destruct (Hquiet w1 (same_refl _)) as (? & ? & ? & ?); done..].
  destruct (selected_profile_id token) as [pid|] eqn:Hsel;
    [|apply wp_throw; destruct (Hquiet w1 (same_refl _)) as (? & ? & ? & ?); done].
  wp_read as r2 w2 H2 S2.
  destruct r2 as [banned|e|m]; cbn [wp_next];
    [|destruct (Hquiet w2 S2) as (? & ? & ? & ?); done..].
  unfold ygg in H2. apply map_err_ok, is_user_banned_ok in H2 as [_ Hban].
  apply wp_bind, wp_when_ok; intros Hnb; cbn [wp_next];
    [destruct (Hquiet w2 S2) as (? & ? & ? & ?); done|].
  wp_read as r3 w3 H3 S3. pose proof (same_trans _ _ _ S2 S3) as S.
  destruct (Hquiet w3 S) as (Hd3 & Hs3 & Hinv3 & Hq3).
  destruct r3 as [profile|e|m]; cbn [wp_next]; [|done..].
  unfold ygg in H3. apply map_err_ok, profile_by_id_ok in H3 as (Hin & Hpk & _).
  apply wp_bind, wp_when_ok; intros Hu; cbn [wp_next]; [done|]. cbv zeta.
  unfold SessionCache.set_join_session. apply wp_bind, wp_cache_write. cbn [wp_next].
  apply wp_log. intros w4 Hd4 Hc4 Hs4 _. cbn [db cache step set_cache tick] in Hd4, Hc4, Hs4.
  subst banned. apply not_banned_iff in Hnb.
  2: { intros b. rewrite Hd1. apply Hb. }
  rewrite negb_false_iff, eqb_true in Hu.
  split; [congruence|]. split; [lia|]. split.
  { destruct Hinv3 as (? & ? & Hok3). split; [by rewrite Hd4|].
    split; [unfold bans_wf; by rewrite Hd4|]. intros now k t Hg. rewrite Hc4 in Hg. rewrite Hd4.
    apply get_set in Hg as [(_ & ? & _)|Hg]; [done|by apply Hok3 in Hg]. }
  exists token, profile, (step w3).
  split; [eapply accepted_later; [exact Hacc|]; destruct S as (_ & _ & _ & ?); lia|].
  split; [by rewrite Hsel, Hpk|].
  split; [rewrite <- Hd1, <- (same_db _ _ S2); exact Hin|]. split; [done|].
  split; [exists (step w1); destruct S as (_ & _ & _ & ?); split; [lia|by rewrite <- Hd1]|].
  split; [lia|]. intros t k x Hk Hg. rewrite Hc4 in Hg.
  apply get_set in Hg as [(-> & -> & Ht)|Hg]; [by left|right].
  destruct Hq3 as [_ Hq3]. by apply Hq3.
Qed.

(** ** Asking whether a player has joined *)

Context {PP : ProfileProperties} `{PL : !ProfilePropertiesLaws PP}.

Record join_event : Type := mkJoinEvent {
  je_body : YggdrasilJoinReq;
  je_req : HttpRequest;
  je_before : World;
  je_after : World
}.

(** The successful joins up to a moment. Between them anything may run that
    adds no join entry and keeps the invariant. *)
Inductive session_history : list join_event -> World -> Prop :=
| sessions_start w :
    token_inv w ->
    (forall t k x, is_join_key k = true -> cache_get (cache w) t k <> Some x) ->
    session_history [] w
| sessions_join evs w body req w' :
    session_history evs w -> join body req w = (Ok tt, w') ->
    session_history (evs ++ [mkJoinEvent body req w w']) w'
| sessions_other evs w w' :
    session_history evs w -> token_inv w' -> join_quiet w w' -> session_history evs w'.

(** Every entry goes back to a join at most thirty seconds old. *)
Definition from_join (evs : list join_event) (t : DateTimeUtc) (k : string) (x : CacheValue)
  : Prop :=
  exists ev token profile i, In ev evs /\
    joined (je_body ev) (je_req ev) (je_before ev) (je_after ev) token profile i /\
    k = SessionCache.join_session_key (jr_server_id (je_body ev)) /\
    x = CvJoin (recorded_session (je_body ev) (je_req ev) profile) /\
    t <= clock i + seconds 30.

Lemma session_history_inv evs w :
  session_history evs w ->
  token_inv w /\
  (forall ev, In ev evs -> (step (je_after ev) <= step w)%nat) /\
  forall t k x, is_join_key k = true -> cache_get (cache w) t k = Some x -> from_join evs t k x.
Proof.
  induction 1 as [w Hinv Hno|evs w body req w' _ (Hinv & Hst & IH) Hj|evs w w' _ (Hinv & Hst & IH) Hinv' [Hs Hq]].
  - split; [done|]. split; [done|]. intros t k x Hk Hg. by destruct (Hno t k x Hk).
  - pose proof (wp_run _ _ _ _ _ (join_spec body req w Hinv) Hj) as (_ & Hs & Hinv' & token & p & i & J).
    split; [done|]. split.
    + intros ev [He| [<-|[]]]%in_app_iff; [specialize (Hst ev He); lia|done].
    + intros t k x Hk Hg. pose proof J as (_ & _ & _ & _ & _ & _ & Hc).
      destruct (Hc t k x Hk Hg) as [(-> & -> & Ht)|Hg'].
      * exists (mkJoinEvent body req w w'), token, p, i.
        split; [apply in_or_app; right; by left|]. repeat (split; [done|]). done.
      * destruct (IH t k x Hk Hg') as (ev & tk & q & j & Hin & Hrest).
        exists ev, tk, q, j. split; [apply in_or_app; by left|done].
  - split; [done|]. split; [intros ev He; specialize (Hst ev He); lia|]. auto.
Qed.

Definition has_joined_answer (username server_id : string) (ip : option string)
  (evs : list join_event) (w w' : World) (p : YggdrasilProfile) : Prop :=
  exists ev token profile current i n m,
    In ev evs /\
    joined (je_body ev) (je_req ev) (je_before ev) (je_after ev) token profile i /\
    jr_server_id (je_body ev) = server_id /\ profile_name profile = username /\
    (forall a, ip = Some a -> real_join_client_ip (je_req ev) = Some a) /\
    (step w <= n <= m)%nat /\ (m <= step w')%nat /\ clock n <= clock i + seconds 30 /\
    In current (rows (profiles (db w))) /\ profile_pk current = profile_pk profile /\
    ygg_id p = uuid current /\ ygg_name p = profile_name current /\
    not_banned (profile_user_id current) YggdrasilJoin (clock m) (db w).

(** An upstream without its status: the instants and the message of its last
    checks, and the instant of its last write. *)
Definition settings (s : forward_server) : forward_server :=
  mkServer (server_pk s) (display_name s) (provider_kind s) (endpoint_kind s) (base_url s)
    (builtin s) (enabled s) (priority s) (weight s) (timeout_ms s) (texture_forward_enabled s)
    None None None None (server_created_at s) 0.

(** The tables but for the status of upstreams. *)
Definition same_but_status (d d' : Db) : Prop :=
  exists T, d' = set_servers T d /\ next_pk T = next_pk (servers d) /\
    List.map settings (rows T) = List.map settings (rows (servers d)).

Definition forward_check (e : AuditEntry) : Prop :=
  entry_action e = AuditAction.YggdrasilSessionForwardCheck.

(** What looking up a session may do: store the list of upstreams and
    profile properties in the cache, and note on an upstream and in the audit
    log how it went. *)
Definition session_frame (w w' : World) : Prop :=
  (step w <= step w')%nat /\ same_but_status (db w) (db w') /\
  (exists es, audit_log w' = audit_log w ++ es /\ Forall forward_check es) /\
  forall t k x, cache_get (cache w') t k = Some x ->
    cache_get (cache w) t k = Some x \/
    (k = SessionCache.SESSION_FORWARD_SERVER_KEY /\ exists l, x = CvServers l) \/
    (starts_with PROFILE_PROPERTIES_PREFIX k = true /\ exists l, x = CvProperties l).

Lemma set_servers_own d : d = set_servers (servers d) d.
Proof. by destruct d. Qed.

Lemma same_status d d' : d' = d -> same_but_status d d'.
Proof. intros ->. exists (servers d). split; [apply set_servers_own|done]. Qed.

Lemma no_checks w w' : audit_log w' = audit_log w ->
  exists es, audit_log w' = audit_log w ++ es /\ Forall forward_check es.
Proof. intros ->. exists []. by rewrite app_nil_r. Qed.

Lemma frame_same w w' : same w w' -> session_frame w w'.
Proof.
  intros (Hd & Hc & [Ha _] & Hs). split; [done|]. split; [by apply same_status|].
  split; [by apply no_checks|]. intros t k x. rewrite Hc. by left.
Qed.

Lemma frame_trans w1 w2 w3 : session_frame w1 w2 -> session_frame w2 w3 -> session_frame w1 w3.
Proof.
  intros (S1 & (T1 & D1 & N1 & M1) & (es1 & A1 & E1) & C1)
    (S2 & (T2 & D2 & N2 & M2) & (es2 & A2 & E2) & C2). split; [lia|].
  rewrite D1 in N2, M2. cbn in N2, M2.
  split; [exists T2; split_and!; [rewrite D2, D1; by destruct (db w1)|congruence..]|].
  split; [exists (es1 ++ es2); rewrite A2, A1, <- app_assoc; split; [done|by apply Forall_app]|].
  intros t k x [H|H]%C2; [by apply C1|by right].
Qed.





Lemma properties_session_frame p signed w r w' :
  profile_with_properties p signed w = (r, w') -> session_frame w w'.
Proof.
  intros H. pose proof (properties_frame p signed w) as Hf. rewrite H in Hf.
  destruct Hf as (Hd & Ha & Hs & Hc). cbn in *. split; [done|].
  split; [by apply same_status|]. split; [by apply no_checks|].
  intros t k x [Hg|Hg]%Hc; [by left|by do 2 right].
Qed.

Lemma local_has_joined_spec username server_id ip evs w :
  session_history evs w ->
  wp (local_has_joined username server_id ip) (fun r w' =>
    session_frame w w' /\
    forall p, r = Ok (Some p) -> has_joined_answer username server_id ip evs w w' p) w.
Proof.
  intros Hh. apply session_history_inv in Hh as ((_ & Hb & _) & _ & Hent).
  set (Q := fun _ _ => _).
  assert (Hnone : forall r w1, same w w1 -> (forall p, r <> Ok (Some p)) -> Q r w1).
  { intros r w1 S Hr. split; [by apply frame_same|]. intros p ->. by destruct (Hr p). }
  unfold local_has_joined, SessionCache.get_join_session.
  apply wp_bind, wp_bind, wp_cache_read. cbn [wp_next]. apply wp_ret. cbn [wp_next].
  destruct (cache_get _ _ _) as [[t|session|l|q|l|k|c|c|c]|] eqn:Hg;
    try (apply wp_ret, Hnone; [apply same_tick|done]).
  destruct (_ || _) eqn:Hm; [apply wp_ret, Hnone; [apply same_tick|done]|].
  destruct (is_some_and ip _) eqn:Hip; [apply wp_ret, Hnone; [apply same_tick|done]|].
  wp_read as r2 w2 H2 S2. pose proof (same_trans _ _ _ (same_tick w) S2) as S2'.
  destruct r2 as [profile|e|m]; cbn [wp_next]; [|by apply Hnone..].
  unfold ygg in H2. apply map_err_ok, profile_by_id_ok in H2 as (Hin & Hpk & _).
  wp_read as r3 w3 H3 S3. pose proof (same_trans _ _ _ S2' S3) as S3'.
  destruct r3 as [banned|e|m]; cbn [wp_next]; [|by apply Hnone..].
  unfold ygg in H3. apply map_err_ok, is_user_banned_ok in H3 as [_ ->].
  destruct (is_some _) eqn:Hban; [by apply wp_ret, Hnone|].
  apply not_banned_iff in Hban.
  2: { intros b. rewrite (same_db _ _ S2'). apply Hb. }
  apply wp_bind, wp_intro. intros r4 w4 H4.
  assert (F4 : session_frame w w4).
  { eapply frame_trans; [by apply frame_same|by eapply properties_session_frame]. }
  destruct r4 as [p|e|m]; cbn [wp_next]; [apply wp_ret|by split..]. split; [done|].
  intros p' [= <-].
  pose proof (properties_session_frame _ _ _ _ _ H4) as (Hs4 & _).
  apply properties_identity in H4 as [Hid Hname].
  destruct (Hent _ _ _ (join_key_is server_id) Hg) as
    (ev & token & pr & i & Hev & Hj & Hk & Hx & Ht).
  injection Hx as ->. cbn in Hm, Hip, Hpk.
  rewrite orb_false_iff, !negb_false_iff, !eqb_true in Hm. destruct Hm as [Hsid Hun].
  exists ev, token, pr, profile, i, (step w), (step w2).
  repeat (split; [done|]). split.
  { intros a ->. cbn in Hip. by rewrite negb_false_iff, eqb_true in Hip. }
  destruct S2' as (Hd2 & _ & _ & Hs2), S3 as (_ & _ & _ & Hs3).
  split; [lia|]. split; [lia|]. repeat (split; [done|]). by rewrite <- Hd2.
Qed.

(** ** Asking the upstreams *)















End Joins.

Section Theorems.
Context `{EN : Env} `{CB : CacheBackend} `{CL : !CacheLaws CB} `{BE : BanExterns}.
Context `{FC : ForgeCrypto} `{RC : RuntimeConfig} `{TX : TextureExterns} `{SX : !SessionExterns}.
Context {PP : ProfileProperties} `{PL : !ProfilePropertiesLaws PP}.

(** Joining a server. Whatever the outcome, the tables are untouched and
    the token cache stays coherent. A join that succeeds was made with an
    accepted access token that is bound to exactly the profile the request
    names, by a user who was not banned from joining, and it adds one cache
    entry: that profile under that server id with the client's address, gone
    after thirty seconds. A join that fails adds none. *)
Theorem join_sound body req w r w' :
  token_inv w -> join body req w = (r, w') ->
  db w' = db w /\ token_inv w' /\
  (r = Ok tt -> exists token profile i, joined body req w w' token profile i) /\
  (r <> Ok tt -> join_quiet w w').
Proof.
  intros Hinv Hr. pose proof (wp_run _ _ _ _ _ (join_spec body req w Hinv) Hr) as (Hd & _ & Hi & H).
  split; [done|]. split; [done|]. destruct r as [[]|e|m]; by split.
Qed.

(** The answer of a local session server, over any history of joins and
    other activity. If it names a player, then within the last thirty seconds
    a client successfully joined this very server id, with an accepted token
    bound to the profile of that name, from the client address the server
    asks about (if it asks about one), and the profile's user is not banned
    from joining at the moment of the question. The answer carries the
    profile's current UUID and name. *)
Theorem has_joined_only_after_join evs username server_id ip w p w' :
  session_history evs w ->
  local_has_joined username server_id ip w = (Ok (Some p), w') ->
  has_joined_answer username server_id ip evs w w' p.
Proof.
  intros Hh Hr.
  pose proof (wp_run _ _ _ _ _ (local_has_joined_spec username server_id ip evs w Hh) Hr) as [_ H].
  by apply H.
Qed.



End Theorems.

(** ** Concrete runs *)

Definition properties0 : ProfileProperties := {|
  profile_with_properties := fun p _ => ret (mkYggProfile (uuid p) (profile_name p) None (Some []))
|}.
Lemma properties0_laws : ProfilePropertiesLaws properties0.
Proof.
  split; cbn.
  - intros p signed w. repeat split; auto.
  - intros p signed w r w' [= <- <-]. done.
Qed.

Definition session_externs0 : SessionExterns (TX := texture_externs0) :=
  @Build_SessionExterns texture_externs0
    (fun u : string => u) (fun (_ : string) p => p) (fun (u : string) _ _ => u)
    (fun _ _ _ => Ok (mkResponse 200 "200 OK" (Ok remote_profile)))
    (fun _ => EmptyString) (fun _ peer => peer).

#[local] Existing Instance texture_externs0.
#[local] Existing Instance session_externs0.
#[local] Existing Instance properties0.

Definition join_body : YggdrasilJoinReq :=
  mkJoinReq alice_access "0123456789abcdef0123456789abcdef" "server-1".
Definition joined_world : World := snd (join join_body request0 alice_world).

Lemma joined_run : join join_body request0 alice_world = (Ok tt, joined_world).
Proof. vm_compute. reflexivity. Qed.

Lemma join_sound_witness :
  exists token profile i, joined join_body request0 alice_world joined_world token profile i.
Proof. apply (join_sound _ _ _ _ _ alice_world_inv joined_run). reflexivity. Defined.

Lemma alice_sessions : session_history [mkJoinEvent join_body request0 alice_world joined_world] joined_world.
Proof.
  apply (sessions_join [] alice_world join_body request0 joined_world); [|exact joined_run].
  apply sessions_start; [exact alice_world_inv|].
  intros t k x _. assert (Hc : cache alice_world = []) by (vm_compute; reflexivity).
  rewrite Hc. done.
Qed.

Definition alice_answer := local_has_joined "Alex" "server-1" None joined_world.
Definition alice_profile : YggdrasilProfile := mkYggProfile (uuid alex) "Alex" None (Some []).

Lemma has_joined_only_after_join_witness :
  has_joined_answer "Alex" "server-1" None
    [mkJoinEvent join_body request0 alice_world joined_world] joined_world (snd alice_answer)
    alice_profile.
Proof.
  assert (H : alice_answer = (Ok (Some alice_profile), snd alice_answer))
    by (vm_compute; reflexivity).
  apply (has_joined_only_after_join (PP := properties0) (PL := properties0_laws)
           _ "Alex" "server-1" None joined_world _ _ alice_sessions H).
Defined.



