(* ===== verification/ProfileTextures.v ===== *)
(** * The textures of a profile

    [db/repository/minecraft_profile_texture_repo.rs], the texture URLs of
    [services/yggdrasil_signature.rs], the default skins of
    [services/texture_service/default_skin.rs], the profile entries of
    [services/yggdrasil_service/cache.rs] and the profile properties of
    [services/yggdrasil_service/properties.rs], which implement the interface
    [ProfileProperties] of Sessions.v. *)

From Stdlib Require Import ZArith List Bool Lia Ascii.
From stdpp Require Import base decidable list strings pretty.
From S2P Require Import Prelude Text Errors Types AuditLog World Logic Repos Bans Tokens Auth ForwardTextures Sessions.

Local Open Scope Z_scope.
Local Open Scope aster_scope.

(** ** The bindings of profiles to textures *)
Module ProfileTextureRepo.

Record ProfileTexture : Type := mkProfileTexture {
  binding : minecraft_profile_texture;
  texture : minecraft_texture
}.

Record UpsertMinecraftProfileTexture : Type := mkUpsert {
  up_profile_id : Z;
  up_texture_id : Z;
  up_texture_type : MinecraftTextureType
}.

Definition is_texture (id : Z) (t : minecraft_texture) : bool := tex_pk t =? id.
Definition is_binding (id : Z) (b : minecraft_profile_texture) : bool := binding_pk b =? id.

(** [filter(ProfileId.eq(..)).filter(TextureType.eq(..))] *)
Definition binds (profile_id : Z) (ty : MinecraftTextureType) (b : minecraft_profile_texture)
  : bool :=
  (binding_profile_id b =? profile_id) && eqb (binding_texture_type b) ty.

(** The unique index of [minecraft_profile_textures] and its foreign keys. *)
Definition binding_conflict (a b : minecraft_profile_texture) : bool :=
  binds (binding_profile_id b) (binding_texture_type b) a.
Definition profile_exists (id : Z) (d : Db) : bool :=
  existsb (fun p => profile_pk p =? id) (rows (profiles d)).
Definition texture_exists (id : Z) (d : Db) : bool :=
  existsb (is_texture id) (rows (textures d)).

Definition texture_missing (id : Z) : AsterError.t :=
  AsterError.RecordNotFound ("texture '" +:+ pretty id +:+ "'").

(** [join(InnerJoin, MinecraftTexture).select_also(MinecraftTexture)]: each
    binding with the textures its key refers to. *)
Definition joined_rows (l : list minecraft_profile_texture) (d : Db)
  : list (minecraft_profile_texture * option minecraft_texture) :=
  List.flat_map (fun b =>
    List.map (fun t => (b, Some t)) (rows_where (is_texture (binding_texture_id b)) (rows (textures d))))
    l.

(** [rows.into_iter().map(..).collect()] *)
Fixpoint collect_rows (l : list (minecraft_profile_texture * option minecraft_texture))
  : outcome AsterError.t (list ProfileTexture) :=
  match l with
  | [] => Ok []
  | (b, None) :: _ => Err (texture_missing (binding_texture_id b))
  | (b, Some t) :: rest =>
      match collect_rows rest with
      | Ok l => Ok (mkProfileTexture b t :: l)
      | r => r
      end
  end.

Definition texture_type_leb (a b : minecraft_profile_texture) : bool :=
  String.leb (texture_type_as_str (binding_texture_type a))
             (texture_type_as_str (binding_texture_type b)).
Definition binding_id_leb (a b : minecraft_profile_texture) : bool :=
  binding_pk a <=? binding_pk b.

(** [active.texture_id = Set(..); active.updated_at = Set(now)] *)
Definition rebound (texture_id : Z) (now : DateTimeUtc) (b : minecraft_profile_texture)
  : minecraft_profile_texture :=
  mkBinding (binding_pk b) (binding_profile_id b) texture_id (binding_texture_type b)
    (binding_created_at b) now.

Section Ops.
Context `{EN : Env} `{CB : CacheBackend}.

Definition select (query : Db -> list (minecraft_profile_texture * option minecraft_texture))
  : M AsterError.t (list ProfileTexture) :=
  let* rows := db_query query in
  lift (collect_rows rows).

Definition list_by_profile (profile_id : Z) : M AsterError.t (list ProfileTexture) :=
  select (fun d =>
    joined_rows (sort_by texture_type_leb
      (rows_where (fun b => binding_profile_id b =? profile_id) (rows (profile_textures d)))) d).

Definition list_all : M AsterError.t (list ProfileTexture) :=
  select (fun d => joined_rows (sort_by binding_id_leb (rows (profile_textures d))) d).

Definition list_by_hash (hash : string) : M AsterError.t (list ProfileTexture) :=
  select (fun d =>
    List.filter (fun r => is_some_and (snd r) (fun t => eqb (tex_hash t) hash))
      (joined_rows (sort_by binding_id_leb (rows (profile_textures d))) d)).

Definition count_by_texture_id (texture_id : Z) : M AsterError.t Z :=
  db_query (fun d =>
    Z.of_nat (count_where (fun b => binding_texture_id b =? texture_id)
                (rows (profile_textures d)))).

Definition list_by_texture_id (texture_id : Z) : M AsterError.t (list ProfileTexture) :=
  select (fun d =>
    joined_rows (sort_by binding_id_leb
      (rows_where (fun b => binding_texture_id b =? texture_id) (rows (profile_textures d)))) d).

(** [delete_by_id(..).exec(db)]: the number of rows is not looked at. *)
Definition delete_by_id (id : Z) : M AsterError.t unit :=
  let* _ := db_delete_many profile_textures set_profile_textures (is_binding id) in
  ret tt.

Definition delete_by_texture_id (texture_id : Z) : M AsterError.t (list ProfileTexture) :=
  let* bindings := list_by_texture_id texture_id in
  do* for_each bindings (fun b => delete_by_id (binding_pk (binding b))) in
  ret bindings.

Definition find_binding_by_profile_and_type (profile_id : Z) (ty : MinecraftTextureType)
  : M AsterError.t (option minecraft_profile_texture) :=
  db_query (fun d => find_row (binds profile_id ty) (rows (profile_textures d))).

(** [MinecraftTexture::find_by_id(binding.texture_id).one(db)] *)
Definition with_texture (b : minecraft_profile_texture) : M AsterError.t ProfileTexture :=
  let* row := db_query (fun d =>
    find_row (is_texture (binding_texture_id b)) (rows (textures d))) in
  let* t := lift (ok_or (texture_missing (binding_texture_id b)) row) in
  ret (mkProfileTexture b t).

Definition find_by_profile_and_type (profile_id : Z) (ty : MinecraftTextureType)
  : M AsterError.t (option ProfileTexture) :=
  let* found := find_binding_by_profile_and_type profile_id ty in
  match found with
  | None => ret None
  | Some b => let* t := with_texture b in ret (Some t)
  end.

(** A statement the foreign keys can reject. *)
Definition referencing {A} (references_ok : Db -> bool)
  (f : Db -> outcome AsterError.t (A * Db)) : M AsterError.t A :=
  db_exec (fun d =>
    if references_ok d then f d
    else Err (AsterError.DatabaseOperation foreign_key_violation)).

Definition upsert_for_profile (input : UpsertMinecraftProfileTexture)
  : M AsterError.t ProfileTexture :=
  let* now := utc_now in
  let* existing :=
    find_binding_by_profile_and_type (up_profile_id input) (up_texture_type input) in
  let* b :=
    match existing with
    | Some e =>
        referencing (texture_exists (up_texture_id input)) (fun d =>
          match update_row binding_pk (binding_pk e) (rebound (up_texture_id input) now)
                  (profile_textures d) with
          | Some (b, t) => Ok (b, set_profile_textures t d)
          | None => Err (AsterError.DatabaseOperation record_not_updated)
          end)
    | None =>
        referencing (fun d => profile_exists (up_profile_id input) d
                              && texture_exists (up_texture_id input) d) (fun d =>
          match insert_row binding_conflict (fun id =>
                  mkBinding id (up_profile_id input) (up_texture_id input)
                    (up_texture_type input) now now) (profile_textures d) with
          | Some (b, t) => Ok (b, set_profile_textures t d)
          | None => Err (AsterError.DatabaseOperation unique_violation)
          end)
    end in
  with_texture b.

Definition delete_for_profile (profile_id : Z) (ty : MinecraftTextureType)
  : M AsterError.t (option ProfileTexture) :=
  let* found := find_by_profile_and_type profile_id ty in
  match found with
  | None => ret None
  | Some existing =>
      do* delete_by_id (binding_pk (binding existing)) in
      ret (Some existing)
  end.
End Ops.
End ProfileTextureRepo.

(** ** Texture URLs ([yggdrasil_signature.rs]) *)
Module TextureUrls.

Definition DEFAULT_YGGDRASIL_API_ROOT : string := "/api/yggdrasil".

Definition texture_object_public_url (policy : RuntimeYggdrasilPolicy) (storage_key : string)
  : option string :=
  (fun base_url => base_url +:+ "/" +:+ trim_start_matches "/"%char storage_key)
    <$> texture_public_base_url policy.

Definition texture_public_url (policy : RuntimeYggdrasilPolicy) (texture_hash : string)
  : option string :=
  (fun base_url => base_url +:+ "/textures/" +:+ texture_hash)
    <$> List.hd_error (public_base_urls policy).

Definition texture_path (texture_hash : string) : string :=
  DEFAULT_YGGDRASIL_API_ROOT +:+ "/textures/" +:+ texture_hash.

Definition texture_base_url (policy : RuntimeYggdrasilPolicy) (texture_hash : string) : string :=
  match texture_public_url policy texture_hash with
  | Some url => url
  | None => texture_path texture_hash
  end.

Definition texture_object_url (policy : RuntimeYggdrasilPolicy)
  (texture_hash storage_key : string) : string :=
  match texture_object_public_url policy storage_key with
  | Some url => url
  | None => texture_base_url policy texture_hash
  end.

Definition required_texture_object_public_url (policy : RuntimeYggdrasilPolicy)
  (texture_hash storage_key : string) : outcome AsterError.t string :=
  match texture_object_public_url policy storage_key with
  | Some url => Ok url
  | None =>
      ok_or (AsterError.ConfigError "public_site_url, yggdrasil_public_base_url, or yggdrasil_texture_public_base_url must be configured before serving Yggdrasil texture properties")
        (texture_public_url policy texture_hash)
  end.

Definition required_texture_public_url (policy : RuntimeYggdrasilPolicy) (texture_hash : string)
  : outcome AsterError.t string :=
  ok_or (AsterError.ConfigError "public_site_url or yggdrasil_public_base_url must be configured before serving Yggdrasil texture properties")
    (texture_public_url policy texture_hash).
End TextureUrls.

(** [uuid::Uuid::parse_str(..).as_u128()] and the two embedded images. *)
Class SkinExterns : Type := {
  uuid_parse_str : string -> option Z;
  STEVE_BYTES : string;
  ALEX_BYTES : string
}.

(** ** default_skin.rs *)
Module DefaultSkins.

Definition STEVE_HASH : string :=
  "082fdbe1403d09fcf030464bf754439ee79e9287bb15efbe2f54d02f60108133".
Definition ALEX_HASH : string :=
  "394b483392052fb28d6271c736ba0df0394223c93b6348f1f1d135fdb7412daa".

Record DefaultSkin : Type := mkDefaultSkin {
  skin_hash : string;
  skin_bytes : string;
  skin_model : MinecraftTextureModel;
  skin_width : Z;
  skin_height : Z;
  skin_file_size : Z
}.

Section Skins.
Context `{SE : SkinExterns}.

Definition steve : DefaultSkin :=
  mkDefaultSkin STEVE_HASH STEVE_BYTES ModelDefault 64 64 (Z.of_nat (str_len STEVE_BYTES)).
Definition alex : DefaultSkin :=
  mkDefaultSkin ALEX_HASH ALEX_BYTES Slim 64 64 (Z.of_nat (str_len ALEX_BYTES)).

Definition default_skin_model (uuid : string) : MinecraftTextureModel :=
  match uuid_parse_str uuid with
  | None => ModelDefault
  | Some uuid => if Z.land uuid 1 =? 1 then Slim else ModelDefault
  end.

Definition for_profile_uuid (uuid : string) : DefaultSkin :=
  if eqb (default_skin_model uuid) Slim then alex else steve.

Definition by_hash (hash : string) : option DefaultSkin :=
  if eqb hash STEVE_HASH then Some steve
  else if eqb hash ALEX_HASH then Some alex else None.
End Skins.
End DefaultSkins.

(** ** Cache entries of profiles ([cache.rs]) *)
Module ProfileCache.

Definition PROFILE_NAME_SUMMARY_TTL_SECS : Z := 300.
Definition PROFILE_NAME_SUMMARY_PREFIX : string := "yggdrasil:profile-name-summary:".
Definition PROFILE_PROPERTIES_TTL_SECS : Z := 300.

(** [timestamp_millis]: floor division for an instant before the epoch too. *)
Definition timestamp_millis (t : DateTimeUtc) : Z := t / 1000000.

Section Ops.
Context `{EN : Env} `{CB : CacheBackend} `{FC : ForgeCrypto} `{TX : TextureExterns}.

Definition profile_name_summary_key (name : string) : string :=
  PROFILE_NAME_SUMMARY_PREFIX +:+ to_ascii_lowercase name.

Definition get_profile_name_summary {E} (name : string) : M E (option YggdrasilProfile) :=
  let* v := cache_read (profile_name_summary_key name) in
  ret (match v with Some (CvProfile p) => Some p | _ => None end).

Definition set_profile_name_summary {E} (profile : YggdrasilProfile) : M E unit :=
  cache_write (profile_name_summary_key (ygg_name profile)) (CvProfile profile)
    PROFILE_NAME_SUMMARY_TTL_SECS.

Definition invalidate_profile_name_summary {E} (name : string) : M E unit :=
  cache_update (fun c => cache_delete c (profile_name_summary_key name)).

Definition profile_properties_prefix (profile_id : Z) : string :=
  PROFILE_PROPERTIES_PREFIX +:+ pretty profile_id +:+ ":".

(** The [Fingerprint] that is serialised. *)
Definition fingerprint (policy : RuntimeYggdrasilPolicy) : Value :=
  VObject
    [("allow_microsoft_profile_texture_override",
      VBool (allow_microsoft_profile_texture_override policy));
     ("public_base_urls", VArray (List.map VString (public_base_urls policy)));
     ("texture_public_base_url",
      match texture_public_base_url policy with Some url => VString url | None => VNull end);
     ("signature_public_key_hash", VString (sha256_hex (signature_public_key policy)));
     ("signature_private_key_hash", VString (sha256_hex (signature_private_key policy)))]%string.

Definition yggdrasil_policy_fingerprint (policy : RuntimeYggdrasilPolicy) : string :=
  sha256_hex (match json_to_vec (fingerprint policy) with Ok payload => payload | _ => "" end).

Definition show_bool (b : bool) : string := if b then "true" else "false".

Definition profile_properties_key (policy : RuntimeYggdrasilPolicy)
  (profile : minecraft_profile) (signed : bool) : string :=
  profile_properties_prefix (profile_pk profile)
    +:+ pretty (timestamp_millis (profile_updated_at profile)) +:+ ":" +:+ show_bool signed
    +:+ ":" +:+ sha256_hex (uploadable_textures profile)
    +:+ ":" +:+ yggdrasil_policy_fingerprint policy.

Definition get_profile_properties {E} (policy : RuntimeYggdrasilPolicy)
  (profile : minecraft_profile) (signed : bool) : M E (option (list YggdrasilProfileProperty)) :=
  let* v := cache_read (profile_properties_key policy profile signed) in
  ret (match v with Some (CvProperties l) => Some l | _ => None end).

Definition set_profile_properties {E} (policy : RuntimeYggdrasilPolicy)
  (profile : minecraft_profile) (signed : bool) (properties : list YggdrasilProfileProperty)
  : M E unit :=
  cache_write (profile_properties_key policy profile signed) (CvProperties properties)
    PROFILE_PROPERTIES_TTL_SECS.

Definition invalidate_profile_properties {E} (profile_id : Z) : M E unit :=
  cache_update (fun c => cache_invalidate_prefix c (profile_properties_prefix profile_id)).
End Ops.
End ProfileCache.

(** ** properties.rs *)
Module Properties.
Import ProfileTextureRepo.

Record TexturePropertyMetadata : Type := mkMetadata { metadata_model : string }.
Record TexturePropertyItem : Type := mkItem {
  item_url : string;
  item_metadata : option TexturePropertyMetadata
}.
Record TexturesProperty : Type := mkTextures {
  tp_timestamp : Z;
  tp_profile_id : string;
  tp_profile_name : string;
  tp_textures : list (string * TexturePropertyItem)   (* a BTreeMap, in key order *)
}.

(** [#[derive(Serialize)]] *)
Definition item_value (i : TexturePropertyItem) : Value :=
  VObject (("url"%string, VString (item_url i)) ::
    match item_metadata i with
    | Some m => [("metadata"%string, VObject [("model"%string, VString (metadata_model m))])]
    | None => []
    end).
Definition textures_value (t : TexturesProperty) : Value :=
  VObject
    [("timestamp", VNumber (pretty (tp_timestamp t)));
     ("profileId", VString (tp_profile_id t));
     ("profileName", VString (tp_profile_name t));
     ("textures", VObject (List.map (fun e => (fst e, item_value (snd e))) (tp_textures t)))]%string.

(** [BTreeMap::insert] *)
Fixpoint btree_insert {A} (k : string) (v : A) (l : list (string * A)) : list (string * A) :=
  match l with
  | [] => [(k, v)]
  | (k', v') :: rest =>
      match String.compare k k' with
      | Lt => (k, v) :: l
      | Eq => (k, v) :: rest
      | Gt => (k', v') :: btree_insert k v rest
      end
  end.
Definition contains_key {A} (k : string) (l : list (string * A)) : bool :=
  existsb (fun e => eqb (fst e) k) l.

Definition metadata_of (m : MinecraftTextureModel) : option TexturePropertyMetadata :=
  mkMetadata <$> as_metadata_value m.

Section Values.
Context `{SE : SkinExterns}.

(** The [for] loop over the bound textures. *)
Fixpoint bound_entries (policy : RuntimeYggdrasilPolicy) (l : list ProfileTexture)
  (entries : list (string * TexturePropertyItem))
  : outcome AsterError.t (list (string * TexturePropertyItem)) :=
  match l with
  | [] => Ok entries
  | t :: rest =>
      let metadata :=
        if eqb (binding_texture_type (binding t)) Skin then metadata_of (tex_model (texture t))
        else None in
      and_then (TextureUrls.required_texture_object_public_url policy
                  (tex_hash (texture t)) (storage_key (texture t))) (fun url =>
      bound_entries policy rest
        (btree_insert (textures_property_key (binding_texture_type (binding t)))
           (mkItem url metadata) entries))
  end.

(** The default skin, unless a skin is bound. *)
Definition with_default_skin (policy : RuntimeYggdrasilPolicy) (profile : minecraft_profile)
  (entries : list (string * TexturePropertyItem))
  : outcome AsterError.t (list (string * TexturePropertyItem)) :=
  if contains_key (textures_property_key Skin) entries then Ok entries
  else
    let skin := DefaultSkins.for_profile_uuid (uuid profile) in
    and_then (TextureUrls.required_texture_public_url policy (DefaultSkins.skin_hash skin))
      (fun url =>
    Ok (btree_insert (textures_property_key Skin)
          (mkItem url (metadata_of (DefaultSkins.skin_model skin))) entries)).

Context `{EN : Env} `{CB : CacheBackend} `{FC : ForgeCrypto} `{TX : TextureExterns}.

Definition texture_property_value (policy : RuntimeYggdrasilPolicy)
  (profile : minecraft_profile) (l : list ProfileTexture) : M AsterError.t string :=
  let* entries := lift (bound_entries policy l []) in
  let* entries := lift (with_default_skin policy profile entries) in
  let* now := utc_now in
  let payload := mkTextures (ProfileCache.timestamp_millis now) (uuid profile)
                   (profile_name profile) entries in
  lift (match json_to_vec (textures_value payload) with
        | Ok payload => Ok (base64_encode payload)
        | Err error =>
            Err (AsterError.InternalError ("failed to serialize textures property: " +:+ error))
        | Panic m => Panic m
        end).

Definition uploadable_textures_property_value (policy : RuntimeYggdrasilPolicy)
  (profile : minecraft_profile) : option string :=
  if eqb (source profile) Microsoft
     && negb (allow_microsoft_profile_texture_override policy) then None
  else
    let value := trim (uploadable_textures profile) in
    if is_empty value then None else Some value.

Context `{RC : RuntimeConfig}.

(** [if signed { sign_texture_property(..)? } else { None }] *)
Definition property_signature_of (signed : bool) (value : string)
  : outcome AsterError.t (option string) :=
  if signed then sign_texture_property policy value else Ok None.

(** The answer both branches return. *)
Definition profile_answer (profile : minecraft_profile)
  (properties : list YggdrasilProfileProperty) : YggdrasilProfile :=
  mkYggProfile (uuid profile) (profile_name profile) None (Some properties).

(** After a cache miss: the properties are built, cached and returned. *)
Definition build_profile_properties (profile : minecraft_profile) (signed : bool)
  : M Yggdrasil.YggdrasilError YggdrasilProfile :=
  let* l := ygg (list_by_profile (profile_pk profile)) in
  let* value := ygg (texture_property_value policy profile l) in
  let* signature := ygg (lift (property_signature_of signed value)) in
  let* properties :=
    match uploadable_textures_property_value policy profile with
    | Some uploadable =>
        let* signature' := ygg (lift (property_signature_of signed uploadable)) in
        ret [mkProperty "textures" value signature;
             mkProperty "uploadableTextures" uploadable signature']
    | None => ret [mkProperty "textures" value signature]
    end in
  do* ProfileCache.set_profile_properties policy profile signed properties in
  ret (profile_answer profile properties).

Definition profile_with_properties (profile : minecraft_profile) (signed : bool)
  : M Yggdrasil.YggdrasilError YggdrasilProfile :=
  let* cached := ProfileCache.get_profile_properties policy profile signed in
  match cached with
  | Some properties => ret (profile_answer profile properties)
  | None => build_profile_properties profile signed
  end.

Definition invalidate_profile_properties_cache {E} (profile_id : Z) : M E unit :=
  ProfileCache.invalidate_profile_properties profile_id.

(** The interface of Sessions.v. *)
Definition implementation : ProfileProperties :=
  {| Sessions.profile_with_properties := profile_with_properties |}.
End Values.
End Properties.
