(* ===== verification/PropertyProofs.v ===== *)
(** * The bindings and the properties of a profile: proofs

    The binding table as a map from (profile, texture type) to a texture,
    which the repository's operations change one slot at a time; then
    what the textures property says about the bound textures, when cached
    properties go away, and the proof that the properties component
    implements the interface the session handlers rely on. *)

From Stdlib Require Import ZArith List Bool Lia Permutation Ascii.
From stdpp Require Import base decidable list strings pretty.
From S2P Require Import Prelude Text Errors Types AuditLog World Logic Repos Bans Tokens Auth Concrete ForwardTextures Sessions ProfileTextures.

Local Open Scope Z_scope.
Local Open Scope aster_scope.
Import ProfileTextureRepo.

(** ** The table as a map *)

Definition slot (b : minecraft_profile_texture) : Z * MinecraftTextureType :=
  (binding_profile_id b, binding_texture_type b).

(** Keys are unique, and so is the binding of a slot; references exist. *)
Record textures_wf (d : Db) : Prop := {
  wf_texture_keys : List.NoDup (List.map tex_pk (rows (textures d)));
  wf_binding_keys : List.NoDup (List.map binding_pk (rows (profile_textures d)));
  wf_binding_fresh : forall b, In b (rows (profile_textures d)) ->
    binding_pk b < next_pk (profile_textures d);
  wf_slots : List.NoDup (List.map slot (rows (profile_textures d)));
  wf_references : forall b, In b (rows (profile_textures d)) ->
    texture_exists (binding_texture_id b) d = true
}.

(** The texture key bound to a slot. *)
Definition bound_in (l : list minecraft_profile_texture) (profile_id : Z)
  (ty : MinecraftTextureType) : option Z :=
  binding_texture_id <$> find_row (binds profile_id ty) l.
Definition bound (d : Db) : Z -> MinecraftTextureType -> option Z :=
  bound_in (rows (profile_textures d)).

Lemma binds_slot id ty b : binds id ty b = true <-> slot b = (id, ty).
Proof.
  unfold binds, slot. rewrite andb_true_iff, Z.eqb_eq, eqb_true. split; [by intros [-> ->]|].
  by intros [= <- <-].
Qed.

Lemma find_binding l id ty b :
  List.NoDup (List.map slot l) -> In b l -> slot b = (id, ty) -> find_row (binds id ty) l = Some b.
Proof.
  intros Hnd Hin Hs. apply (find_row_unique slot); [done|done|].
  intros y. by rewrite binds_slot, Hs.
Qed.

Lemma bound_in_some l id ty tid :
  List.NoDup (List.map slot l) ->
  bound_in l id ty = Some tid <->
  exists b, In b l /\ slot b = (id, ty) /\ binding_texture_id b = tid.
Proof.
  intros Hnd. unfold bound_in. rewrite fmap_Some. split.
  - intros (b & Hf & ->). apply find_row_some in Hf as [Hin Hb]. exists b.
    by rewrite <- binds_slot.
  - intros (b & Hin & Hs & <-). exists b. split; [by apply find_binding|done].
Qed.

Lemma bound_in_none l id ty :
  bound_in l id ty = None <-> forall b, In b l -> slot b <> (id, ty).
Proof.
  unfold bound_in. rewrite fmap_None, find_row_none.
  split; intros H b Hb; specialize (H b Hb); rewrite <- binds_slot in *;
    destruct (binds id ty b); congruence.
Qed.

(** Binding a slot that has a row: only that row changes. *)
Lemma bound_update l e tid now :
  List.NoDup (List.map binding_pk l) -> List.NoDup (List.map slot l) -> In e l ->
  let l' := update_where (is_binding (binding_pk e)) (rebound tid now) l in
  List.NoDup (List.map slot l') /\
  (forall id ty, bound_in l' id ty =
     if decide (slot e = (id, ty)) then Some tid else bound_in l id ty).
Proof.
  intros Hpk Hs He l'.
  assert (Hslots : List.map slot l' = List.map slot l) by by apply update_where_map.
  split; [by rewrite Hslots|]. intros id ty. apply option_eq. intros t.
  rewrite (bound_in_some l') by (by rewrite Hslots).
  assert (Hin : forall b, In b l' <-> b = rebound tid now e \/ (In b l /\ slot b <> slot e)).
  { intros b. unfold l', is_binding. rewrite in_update_where. split.
    - intros (x & Hx & ->). destruct (Z.eqb_spec (binding_pk x) (binding_pk e)) as [E|E].
      + left. f_equal. by apply (NoDup_map_inj_in binding_pk l).
      + right. split; [done|]. intros E'. apply E. f_equal.
        by apply (NoDup_map_inj_in slot l).
    - intros [->|[Hb Hn]]; [exists e; by rewrite Z.eqb_refl|].
      exists b. split; [done|]. destruct (Z.eqb_spec (binding_pk b) (binding_pk e)) as [E|]; [|done].
      destruct Hn. f_equal. by apply (NoDup_map_inj_in binding_pk l). }
  case_decide as Hslot.
  - split.
    + intros (b & [->|[Hb Hn]]%Hin & Hbs & <-); [done|]. congruence.
    + intros [= <-]. exists (rebound tid now e). rewrite Hin. auto.
  - rewrite bound_in_some by done. split.
    + intros (b & [->|[Hb Hn]]%Hin & Hbs & <-); [done|]. eauto.
    + intros (b & Hb & Hbs & <-). exists b. rewrite Hin. split; [|done]. right.
      split; [done|congruence].
Qed.

Lemma bound_insert l b :
  List.NoDup (List.map slot l) -> (forall a, In a l -> slot a <> slot b) ->
  List.NoDup (List.map slot (l ++ [b])) /\
  (forall id ty, bound_in (l ++ [b]) id ty =
     if decide (slot b = (id, ty)) then Some (binding_texture_id b) else bound_in l id ty).
Proof.
  intros Hs Hn.
  assert (Hs' : List.NoDup (List.map slot (l ++ [b]))).
  { rewrite map_app. cbn. apply List.NoDup_app; [done|repeat constructor; by intros []|].
    intros s (a & <- & Ha)%in_map_iff. cbn. intros [E|[]]. by apply (Hn a). }
  split; [done|]. intros id ty. apply option_eq. intros t. rewrite bound_in_some by done.
  case_decide as Hslot.
  - split.
    + intros (a & [Ha|[<-|[]]]%in_app_iff & Has & <-); [|done]. destruct (Hn a Ha). congruence.
    + intros [= <-]. exists b. rewrite in_app_iff. cbn. auto.
  - rewrite bound_in_some by done. split.
    + intros (a & [Ha|[<-|[]]]%in_app_iff & Has & <-); [eauto|done].
    + intros (a & Ha & Has & <-). exists a. rewrite in_app_iff. auto.
Qed.

Lemma bound_delete l p :
  List.NoDup (List.map slot l) ->
  List.NoDup (List.map slot (delete_where p l)) /\
  (forall id ty, bound_in (delete_where p l) id ty =
     match find_row (binds id ty) l with
     | Some b => if p b then None else Some (binding_texture_id b)
     | None => None
     end).
Proof.
  intros Hs.
  assert (Hs' : List.NoDup (List.map slot (delete_where p l))) by by apply NoDup_map_rows_where.
  split; [done|]. intros id ty. destruct (find_row _ l) as [b|] eqn:Hf.
  - apply find_row_some in Hf as [Hin Hb]. apply binds_slot in Hb. destruct (p b) eqn:Hp.
    + apply bound_in_none. intros a [Ha Hpa]%in_delete_where Has.
      assert (a = b) as -> by (apply (NoDup_map_inj_in slot l); congruence). congruence.
    + apply bound_in_some; [done|]. exists b. by rewrite in_delete_where.
  - apply bound_in_none. intros a [Ha _]%in_delete_where Has.
    eapply find_row_none in Hf; [|exact Ha]. apply binds_slot in Has. congruence.
Qed.

(** ** The writes *)

(** The table changed at one slot at most, to [o] there. *)
Definition slot_set (d d' : Db) (id : Z) (ty : MinecraftTextureType) (o : option Z) : Prop :=
  forall id' ty', bound d' id' ty' = if decide ((id, ty) = (id', ty')) then o else bound d id' ty'.

(** Nothing outside the binding table changed. *)
Definition bindings_only `{CB : CacheBackend} (w w' : World) : Prop :=
  db w' = set_profile_textures (profile_textures (db w')) (db w) /\
  cache w' = cache w /\ audit_log w' = audit_log w /\ (step w <= step w')%nat.

Definition put_bindings (l : list minecraft_profile_texture) (d : Db) : Db :=
  set_profile_textures (with_rows l (profile_textures d)) d.

Lemma wf_update d e tid now :
  textures_wf d -> In e (rows (profile_textures d)) -> texture_exists tid d = true ->
  let d' := put_bindings (update_where (is_binding (binding_pk e)) (rebound tid now)
                            (rows (profile_textures d))) d in
  textures_wf d' /\ slot_set d d' (binding_profile_id e) (binding_texture_type e) (Some tid).
Proof.
  intros [Htk Hbk Hfresh Hs Href] He Ht d'.
  destruct (bound_update _ e tid now Hbk Hs He) as [Hs' Hb]. split; [|exact Hb].
  split; cbn; try done.
  - rewrite update_where_map; done.
  - intros b (x & Hx & ->)%in_update_where. destruct (is_binding _ x); exact (Hfresh x Hx).
  - intros b (x & Hx & ->)%in_update_where. destruct (is_binding _ x); [done|exact (Href x Hx)].
Qed.

Lemma wf_insert d b :
  textures_wf d -> binding_pk b = next_pk (profile_textures d) ->
  existsb (binding_conflict b) (rows (profile_textures d)) = false ->
  texture_exists (binding_texture_id b) d = true ->
  let d' := set_profile_textures (mkTable (rows (profile_textures d) ++ [b])
                                    (next_pk (profile_textures d) + 1)) d in
  textures_wf d' /\
  slot_set d d' (binding_profile_id b) (binding_texture_type b) (Some (binding_texture_id b)).
Proof.
  intros [Htk Hbk Hfresh Hs Href] Hpk Hconf Ht d'.
  destruct (bound_insert (rows (profile_textures d)) b Hs) as [Hs' Hb].
  { intros a Ha E. apply not_true_iff_false in Hconf. apply Hconf, existsb_exists.
    exists a. split; [done|]. by apply binds_slot. }
  split; [|exact Hb]. split; cbn; try done.
  - rewrite map_app. apply List.NoDup_app; [done|repeat constructor; by intros []|].
    intros k (a & <- & Ha)%in_map_iff [E|[]]. specialize (Hfresh a Ha). lia.
  - intros a [Ha|[<-|[]]]%in_app_iff; [specialize (Hfresh a Ha)|]; lia.
  - intros a [Ha|[<-|[]]]%in_app_iff; [by apply Href|done].
Qed.

Lemma wf_delete d p :
  textures_wf d ->
  let d' := put_bindings (delete_where p (rows (profile_textures d))) d in
  textures_wf d' /\
  (forall id ty, bound d' id ty =
     match find_row (binds id ty) (rows (profile_textures d)) with
     | Some b => if p b then None else Some (binding_texture_id b)
     | None => None
     end).
Proof.
  intros [Htk Hbk Hfresh Hs Href] d'. destruct (bound_delete _ p Hs) as [Hs' Hb].
  split; [|exact Hb]. split; cbn; try done.
  - by apply NoDup_map_rows_where.
  - intros b [Hb' _]%in_delete_where. by apply Hfresh.
  - intros b [Hb' _]%in_delete_where. by apply Href.
Qed.

(** ** The inner join *)

(** A binding with the texture it refers to. *)
Definition refers (d : Db) (b : minecraft_profile_texture) (t : ProfileTexture) : Prop :=
  binding t = b /\ In (texture t) (rows (textures d)) /\
  tex_pk (texture t) = binding_texture_id b.

Lemma rows_by_key id (l : list minecraft_texture) :
  List.NoDup (List.map tex_pk l) -> existsb (is_texture id) l = true ->
  exists t, rows_where (is_texture id) l = [t] /\ In t l /\ tex_pk t = id.
Proof.
  unfold rows_where. induction l as [|a l IH]; cbn; [done|].
  rewrite List.NoDup_cons_iff. intros [Hn Hd]. unfold is_texture at 1 3.
  destruct (Z.eqb_spec (tex_pk a) id) as [E|E]; cbn.
  - intros _. exists a. split; [|auto]. f_equal.
    apply (rows_where_none (is_texture id)). intros x Hx. unfold is_texture.
    apply Z.eqb_neq. intros E'. apply Hn. rewrite E, <- E'. by apply in_map.
  - intros He. destruct (IH Hd He) as (t & Ht & Hin & Hpk). eauto.
Qed.

Lemma collect_joined d l :
  textures_wf d -> (forall b, In b l -> In b (rows (profile_textures d))) ->
  exists ts, collect_rows (joined_rows l d) = Ok ts /\ List.Forall2 (refers d) l ts.
Proof.
  intros Hwf Hl. induction l as [|b l IH]; [by exists []|].
  destruct IH as (ts & Hts & Hall); [intros x Hx; apply Hl; by right|].
  destruct (rows_by_key (binding_texture_id b) (rows (textures d))) as (t & Ht & Hin & Hpk).
  { apply Hwf. } { apply (wf_references d Hwf), Hl. by left. }
  exists (mkProfileTexture b t :: ts). unfold joined_rows in *. cbn. rewrite Ht. cbn.
  rewrite Hts. split; [done|]. by constructor.
Qed.

Lemma refers_bindings d l ts : List.Forall2 (refers d) l ts -> List.map binding ts = l.
Proof. induction 1 as [|b t l ts (Hb & _) _ IH]; cbn; congruence. Qed.

Section Repository.
Context `{EN : Env} `{CB : CacheBackend}.

Lemma same_bindings_only (w w' : World) : same w w' -> bindings_only w w'.
Proof.
  intros (Hd & Hc & [Ha _] & Hs). split; [|done]. rewrite Hd. by destruct (db w).
Qed.

Lemma wp_referencing {A} ok (f : Db -> outcome AsterError.t (A * Db)) Q (w : World) :
  (forall m, Q (Err (AsterError.DatabaseOperation m)) (tick w)) ->
  (ok (db w) = true ->
   match f (db w) with
   | Ok (a, d) => Q (Ok a) (set_db d (tick w))
   | Err e => Q (Err e) (tick w)
   | Panic m => Q (Panic m) (tick w)
   end) ->
  wp (referencing ok f) Q w.
Proof.
  intros Hf Hok. apply wp_db_exec; [auto|]. intros _. destruct (ok (db w)); [by apply Hok|apply Hf].
Qed.

Lemma with_texture_spec b (w : World) :
  wp (with_texture b) (fun r w' => same w w' /\
    match r with
    | Ok t => binding t = b /\ In (texture t) (rows (textures (db w))) /\
              tex_pk (texture t) = binding_texture_id b
    | Err _ => True
    | Panic _ => False
    end) w.
Proof.
  unfold with_texture. apply wp_bind, wp_db_query; [by split; [apply same_tick|]|]. intros _.
  cbn [wp_next]. apply wp_bind, wp_lift. unfold ok_or.
  destruct (find_row _ _) as [t|] eqn:Hf; [|by split; [apply same_tick|]].
  apply find_row_some in Hf as [Hin Ht]. apply wp_ret. split; [apply same_tick|].
  split; [done|]. split; [done|]. by apply Z.eqb_eq.
Qed.
(** A write of the binding table: it failed without effect, or its effect is
    [l]. *)
Lemma bindings_only_put (w w1 : World) t :
  same w w1 -> bindings_only w (set_db (set_profile_textures t (db w)) (tick w1)).
Proof. intros (_ & Hc & [Ha _] & Hs). repeat (split; [done|]). cbn. lia. Qed.

Lemma upsert_spec input (w : World) :
  textures_wf (db w) ->
  wp (upsert_for_profile input) (fun r w' =>
    bindings_only w w' /\ textures_wf (db w') /\
    (db w' = db w \/
     slot_set (db w) (db w') (up_profile_id input) (up_texture_type input)
       (Some (up_texture_id input))) /\
    match r with
    | Ok t =>
        slot (binding t) = (up_profile_id input, up_texture_type input) /\
        In (binding t) (rows (profile_textures (db w'))) /\
        In (texture t) (rows (textures (db w))) /\ tex_pk (texture t) = up_texture_id input /\
        bound (db w') (up_profile_id input) (up_texture_type input) = Some (up_texture_id input)
    | Err _ => True
    | Panic _ => False
    end) w.
Proof.
  intros Hwf. set (Q := fun _ _ => _).
  assert (Hfail : forall e w1, same w w1 -> Q (Err e) w1).
  { intros e w1 S. split; [by apply same_bindings_only|]. rewrite (same_db _ _ S). auto. }
  assert (Hend : forall b w1 w2, same w w1 ->
    w2 = set_db (set_profile_textures (profile_textures (db w2)) (db w)) (tick w1) ->
    textures_wf (db w2) -> In b (rows (profile_textures (db w2))) ->
    slot b = (up_profile_id input, up_texture_type input) ->
    binding_texture_id b = up_texture_id input ->
    slot_set (db w) (db w2) (up_profile_id input) (up_texture_type input)
      (Some (up_texture_id input)) -> wp (with_texture b) Q w2).
  { intros b w1 w2 S E Hwf2 Hin Hslot Htid Hset.
    eapply wp_mono; [apply with_texture_spec|]. intros r w3 [S3 Hr].
    assert (Hd : db w3 = db w2) by by apply same_db.
    split.
    { rewrite E in S3. destruct S3 as (Hd3 & Hc & [Ha _] & Hs), S as (_ & Hc1 & [Ha1 _] & Hs1).
      cbn in *. split; [rewrite Hd3; done|]. repeat (split; [congruence|]). lia. }
    rewrite Hd. split; [done|]. split; [by right|]. destruct r as [t|e|m]; [|done..].
    destruct Hr as (-> & Hint & Hpk). split; [done|]. split; [done|].
    split; [rewrite E in Hint; exact Hint|]. split; [congruence|].
    rewrite Hset. by rewrite decide_True. }
  unfold upsert_for_profile, find_binding_by_profile_and_type.
  apply wp_bind, wp_utc_now. cbn [wp_next]. apply wp_bind, wp_db_query.
  { intros m _. apply Hfail. by repeat split; cbn; auto. }
  intros _. cbn [wp_next db tick]. set (w1 := tick (tick w)).
  assert (S1 : same w w1) by (eapply same_trans; apply same_tick).
  assert (S1' : same w (tick w1)) by (eapply same_trans; [exact S1|apply same_tick]).
  apply wp_bind. destruct (find_row _ _) as [e|] eqn:Hf.
  - apply find_row_some in Hf as [He Hb]. apply binds_slot in Hb.
    apply wp_referencing; [by intros; apply Hfail|]. cbn [db tick]. intros Ht.
    unfold update_row. destruct (find_row _ _) as [e'|] eqn:Hf'; [|by apply Hfail].
    apply find_row_some in Hf' as [He' Hpk]. apply Z.eqb_eq in Hpk.
    assert (e' = e) as ->.
    { apply (NoDup_map_inj_in binding_pk (rows (profile_textures (db w)))); [apply Hwf|done..]. }
    cbn [wp_next].
    destruct (wf_update (db w) e (up_texture_id input) (clock (step w)) Hwf He Ht) as [Hwf2 Hset].
    injection Hb as Hid Hty. rewrite Hid, Hty in Hset.
    apply (Hend _ w1); [done|done|done| |unfold slot; cbn; congruence|done|done].
    cbn. rewrite in_update_where. exists e. unfold is_binding. by rewrite Z.eqb_refl.
  - apply wp_referencing; [by intros; apply Hfail|]. cbn [db tick].
    intros [_ Ht]%andb_true_iff. unfold insert_row.
    destruct (existsb _ _) eqn:Hc; [by apply Hfail|]. cbn [wp_next].
    match goal with |- wp (with_texture ?b) _ _ =>
      destruct (wf_insert (db w) b Hwf eq_refl Hc Ht) as [Hwf2 Hset] end.
    apply (Hend _ w1); [done|done|done| |done|done|done].
    cbn. rewrite in_app_iff. right. by left.
Qed.

Lemma find_by_slot_ok id ty (w : World) r w' :
  find_by_profile_and_type id ty w = (Ok r, w') ->
  same w w' /\
  match r with
  | None => find_row (binds id ty) (rows (profile_textures (db w))) = None
  | Some t => find_row (binds id ty) (rows (profile_textures (db w))) = Some (binding t) /\
              In (texture t) (rows (textures (db w))) /\
              tex_pk (texture t) = binding_texture_id (binding t)
  end.
Proof.
  unfold find_by_profile_and_type, find_binding_by_profile_and_type. intros H. inv_ok H.
  destruct (find_row _ _) as [b|] eqn:Hf; inv_ok Hr0; [|by split; [apply same_tick|]].
  pose proof (wp_run _ _ _ _ _ (with_texture_spec b (tick w)) Hr) as (S & Hb & Hin & Hpk).
  split; [eapply same_trans; [apply same_tick|exact S]|]. rewrite Hb. done.
Qed.

#[local] Instance reads_with_texture b : Reads (with_texture b).
Proof. unfold with_texture. typeclasses eauto. Qed.
#[local] Instance reads_find_slot id ty : Reads (find_by_profile_and_type id ty).
Proof. unfold find_by_profile_and_type, find_binding_by_profile_and_type. typeclasses eauto. Qed.

Lemma delete_for_profile_spec id ty (w : World) :
  textures_wf (db w) ->
  wp (delete_for_profile id ty) (fun r w' =>
    bindings_only w w' /\ textures_wf (db w') /\
    match r with
    | Ok (Some t) =>
        bound (db w) id ty = Some (tex_pk (texture t)) /\
        In (texture t) (rows (textures (db w))) /\ slot_set (db w) (db w') id ty None
    | Ok None => bound (db w) id ty = None /\ db w' = db w
    | Err _ => db w' = db w
    | Panic _ => False
    end) w.
Proof.
  intros Hwf. unfold delete_for_profile. wp_read as r w1 Hr S.
  assert (Hp : forall m, r <> Panic m).
  { intros m ->. unfold find_by_profile_and_type, find_binding_by_profile_and_type, bind in Hr.
    destruct (db_query _ w) as [[o|e|m'] w2] eqn:Eq; [|done|by apply db_query_no_panic in Eq].
    destruct o as [b|]; [|done].
    pose proof (with_texture_spec b w2) as Hw. unfold wp in Hw.
    destruct (with_texture b w2) as [[]]; cbn in Hw; try done. by destruct Hw. }
  destruct r as [[t|]|e|m]; cbn [wp_next]; [| | |by destruct (Hp m)].
  - apply find_by_slot_ok in Hr as (_ & Hf & Hin & Hpk).
    apply wp_bind. unfold delete_by_id. apply wp_bind, wp_db_delete_many.
    { intros m. cbn [wp_next]. split; [apply same_bindings_only; by eauto using same_trans, same_tick|].
      cbn. by rewrite (same_db _ _ S). }
    intros _. cbn [wp_next]. apply wp_ret. cbn [wp_next]. apply wp_ret.
    rewrite (same_db _ _ S). split; [by apply bindings_only_put|].
    destruct (wf_delete (db w) (is_binding (binding_pk (binding t))) Hwf) as [Hwf' Hb].
    split; [exact Hwf'|]. split; [unfold bound, bound_in; by rewrite Hf, Hpk|].
    split; [done|]. intros id' ty'. etransitivity; [exact (Hb id' ty')|]. case_decide as Hd.
    + injection Hd as <- <-. rewrite Hf. unfold is_binding. by rewrite Z.eqb_refl.
    + unfold bound, bound_in. destruct (find_row (binds id' ty') _) as [b|] eqn:Hf'; [|done].
      unfold is_binding. destruct (Z.eqb_spec (binding_pk b) (binding_pk (binding t))) as [E|]; [|done].
      apply find_row_some in Hf as [Hi1 Hb1], Hf' as [Hi2 Hb2]. apply binds_slot in Hb1, Hb2.
      assert (b = binding t) by (apply (NoDup_map_inj_in binding_pk (rows (profile_textures (db w)))); [apply Hwf|done..]).
      congruence.
  - apply find_by_slot_ok in Hr as (_ & Hf). apply wp_ret.
    split; [by apply same_bindings_only|]. rewrite (same_db _ _ S). split; [done|].
    split; [|done]. unfold bound, bound_in. by rewrite Hf.
  - split; [by apply same_bindings_only|]. by rewrite (same_db _ _ S).
Qed.

Lemma select_ok q (w : World) r w' :
  select q w = (Ok r, w') -> same w w' /\ collect_rows (q (db w)) = Ok r.
Proof. unfold select. intros H. inv_ok H. split; [apply same_tick|done]. Qed.

#[local] Instance reads_select q : Reads (select q).
Proof. unfold select. typeclasses eauto. Qed.

(** The rows left after deleting the keys of a list one by one. *)
Lemma delete_by_texture_spec tid (w : World) :
  textures_wf (db w) ->
  wp (delete_by_texture_id tid) (fun r w' =>
    bindings_only w w' /\ textures_wf (db w') /\
    match r with
    | Ok l =>
        (forall b, In b (List.map binding l) <->
           In b (rows (profile_textures (db w))) /\ binding_texture_id b = tid) /\
        forall id ty, bound (db w') id ty =
          if decide (bound (db w) id ty = Some tid) then None else bound (db w) id ty
    | Err _ => True
    | Panic _ => False
    end) w.
Proof.
  intros Hwf. unfold delete_by_texture_id, list_by_texture_id. set (Q := fun _ _ => _).
  assert (Hfail : forall e w1, same w w1 -> Q (Err e) w1).
  { intros e w1 S. split; [by apply same_bindings_only|]. by rewrite (same_db _ _ S). }
  unfold select at 1. apply wp_bind, wp_bind, wp_db_query.
  { intros m _. apply Hfail, same_tick. }
  intros _. cbn [wp_next]. apply wp_lift.
  set (found := sort_by _ _).
  destruct (collect_joined (db w) found Hwf) as (ts & -> & Hall).
  { unfold found. intros b Hb. by apply in_sort_by, in_rows_where in Hb as [? _]. }
  cbn [wp_next]. pose proof (refers_bindings _ _ _ Hall) as Hts.
  assert (Hfound : forall b, In b (List.map binding ts) <->
            In b (rows (profile_textures (db w))) /\ binding_texture_id b = tid).
  { intros b. rewrite Hts. unfold found. by rewrite in_sort_by, in_rows_where, Z.eqb_eq. }
  set (gone (l : list ProfileTexture) b := mem (binding_pk b) (List.map (fun t => binding_pk (binding t)) l)).
  apply wp_bind, (wp_for_each _ _ (fun done_ _ w1 =>
    db w1 = put_bindings (delete_where (gone done_) (rows (profile_textures (db w)))) (db w) /\
    cache w1 = cache w /\ audit_log w1 = audit_log w /\ (step w <= step w1)%nat)).
  - split; [|split; [done|split; [done|cbn; lia]]]. cbn. unfold put_bindings, gone. cbn.
    rewrite delete_where_nothing. by destruct (db w) as [? ? ? ? ? ? ? ? []].
  - intros done_ x todo w1 _ (Hd & Hc & Ha & Hs).
    assert (Hkeep : bindings_only w (tick w1) /\ textures_wf (db (tick w1))).
    { cbn. rewrite Hd. split; [|by apply wf_delete].
      split; [cbn; by rewrite Hd|]. repeat (split; [done|]). cbn. lia. }
    unfold delete_by_id. apply wp_bind, wp_db_delete_many.
    + intros m. cbn [wp_next]. split; [apply Hkeep|]. split; [apply Hkeep|done].
    + intros _. cbn [wp_next]. apply wp_ret. rewrite Hd.
      assert (Hrows : delete_where (is_binding (binding_pk (binding x)))
                        (delete_where (gone done_) (rows (profile_textures (db w)))) =
                      delete_where (gone (done_ ++ [x])) (rows (profile_textures (db w)))).
      { rewrite delete_where_again. apply delete_where_ext. intros b _. unfold gone, mem.
        rewrite map_app, existsb_app. cbn. rewrite orb_false_r. f_equal.
        unfold is_binding, eqb. apply eq_true_iff_eq. by rewrite Z.eqb_eq, bool_decide_eq_true. }
      rewrite <- Hrows. repeat (split; [done|]). cbn. lia.
  - intros w1 (Hd & Hc & Ha & Hs). cbn [wp_next]. apply wp_ret.
    destruct (wf_delete (db w) (gone ts) Hwf) as [Hwf' Hb].
    split; [split; [rewrite Hd; done|]; done|]. rewrite Hd. split; [done|]. split; [done|].
    intros id ty. rewrite Hb. unfold bound, bound_in.
    destruct (find_row _ _) as [b|] eqn:Hf; cbn; [|by case_decide].
    apply find_row_some in Hf as [Hin _].
    assert (Hg : gone ts b = true <-> binding_texture_id b = tid).
    { unfold gone. rewrite mem_true, in_map_iff. split.
      - intros (t & Ht & Hint). assert (Hb' : In (binding t) (List.map binding ts)) by by apply in_map.
        apply Hfound in Hb' as [Hb1 Hb2].
        assert (b = binding t) as -> by (apply (NoDup_map_inj_in binding_pk (rows (profile_textures (db w)))); [apply Hwf|done..]).
        done.
      - intros Ht. assert (Hb' : In b (List.map binding ts)) by by apply Hfound.
        apply in_map_iff in Hb' as (t & <- & Hint). eauto. }
    case_decide as Hd'.
    + injection Hd' as Hd'. by rewrite (proj2 Hg Hd').
    + destruct (gone ts b); [|done]. destruct Hd'. f_equal. by apply Hg.
Qed.
End Repository.

(** ** Cache keys

    A decimal number contains no colon, so the numbers in front of the colon
    of two keys can be compared. *)

Definition no_colon (s : string) : Prop := ~ In ":"%char (bytes s).

Lemma no_colon_pretty_N n s : no_colon s -> no_colon (pretty_N_go n s).
Proof.
  revert s. induction (N.lt_wf_0 n) as [n _ IH]; intros s Hs.
  assert (n = 0 \/ 0 < n)%N as [->|Hn] by lia; [by rewrite pretty_N_go_0|].
  rewrite pretty_N_go_step by done. apply IH; [by apply N.div_lt|].
  intros [E|Hin]; [|done]. revert E. unfold pretty_N_char. by repeat case_match.
Qed.

Lemma no_colon_pretty (z : Z) : no_colon (pretty z).
Proof.
  assert (Hpos : forall p, no_colon (pretty (N.pos p))).
  { intros p. unfold pretty, pretty_N. case_decide; [by destruct 1|].
    apply no_colon_pretty_N. by intros []. }
  destruct z as [|p|p]; cbn; [by intros [E|[]]|apply Hpos|].
  intros [E|Hin]; [done|]. by apply (Hpos p).
Qed.

Lemma colon_split u v x y :
  no_colon u -> no_colon v -> (u +:+ ":" +:+ x = v +:+ ":" +:+ y)%string -> u = v.
Proof.
  revert v. induction u as [|a u IH]; intros [|b v] Hu Hv; cbn.
  - done.
  - intros [= <- _]. destruct Hv. by left.
  - intros [= -> _]. destruct Hu. by left.
  - intros [= -> E]. f_equal. apply IH; [| |done]; intros Hin; [apply Hu|apply Hv]; by right.
Qed.

Section Keys.
Context `{FC : ForgeCrypto} `{TX : TextureExterns}.

Lemma properties_key_prefix policy profile signed id :
  starts_with (ProfileCache.profile_properties_prefix id)
    (ProfileCache.profile_properties_key policy profile signed) = true <->
  profile_pk profile = id.
Proof.
  unfold ProfileCache.profile_properties_key, ProfileCache.profile_properties_prefix.
  rewrite starts_with_iff, !app_string_assoc. split.
  - intros (r & E). rewrite !app_string_assoc in E. apply app_string_inj, colon_split in E;
      [|apply no_colon_pretty..]. by apply (inj pretty).
  - intros <-. eexists. rewrite !app_string_assoc. reflexivity.
Qed.

Lemma properties_key_common policy profile signed :
  starts_with PROFILE_PROPERTIES_PREFIX
    (ProfileCache.profile_properties_key policy profile signed) = true.
Proof. apply starts_with_iff. unfold ProfileCache.profile_properties_key, ProfileCache.profile_properties_prefix. rewrite !app_string_assoc. by eexists. Qed.
End Keys.

(** ** The textures property *)

(** The texture bound to a slot. *)
Definition texture_of (d : Db) (id : Z) (ty : MinecraftTextureType) : option minecraft_texture :=
  match bound d id ty with
  | Some tid => find_row (is_texture tid) (rows (textures d))
  | None => None
  end.

Section Entries.
Context `{SE : SkinExterns}.
Variable policy : RuntimeYggdrasilPolicy.

(** What the textures map of a profile holds: the cape if one is bound; the
    bound skin with its model, or the default skin of the profile's UUID. *)
Definition cape_entry (d : Db) (profile : minecraft_profile)
  (l : list (string * Properties.TexturePropertyItem)) : Prop :=
  match texture_of d (profile_pk profile) Cape with
  | None => l = []
  | Some t => exists url,
      TextureUrls.required_texture_object_public_url policy (tex_hash t) (storage_key t) = Ok url /\
      l = [("CAPE"%string, Properties.mkItem url None)]
  end.
Definition skin_item (d : Db) (profile : minecraft_profile)
  (i : Properties.TexturePropertyItem) : Prop :=
  match texture_of d (profile_pk profile) Skin with
  | Some t => exists url,
      TextureUrls.required_texture_object_public_url policy (tex_hash t) (storage_key t) = Ok url /\
      i = Properties.mkItem url (Properties.metadata_of (tex_model t))
  | None => exists url,
      let skin := DefaultSkins.for_profile_uuid (uuid profile) in
      TextureUrls.required_texture_public_url policy (DefaultSkins.skin_hash skin) = Ok url /\
      i = Properties.mkItem url (Properties.metadata_of (DefaultSkins.skin_model skin))
  end.
Definition entries_of (d : Db) (profile : minecraft_profile)
  (entries : list (string * Properties.TexturePropertyItem)) : Prop :=
  exists cape skin, entries = cape ++ [("SKIN"%string, skin)] /\
    cape_entry d profile cape /\ skin_item d profile skin.

Lemma texture_of_listed d id l ts :
  textures_wf d ->
  (forall b, In b l <-> In b (rows (profile_textures d)) /\ binding_profile_id b = id) ->
  List.NoDup (List.map slot l) ->
  List.Forall2 (refers d) l ts ->
  List.NoDup (List.map (fun t => binding_texture_type (binding t)) ts) /\
  forall ty, texture_of d id ty =
    texture <$> List.find (fun t => eqb (binding_texture_type (binding t)) ty) ts.
Proof.
  intros Hwf Hl Hnd Hall. pose proof (refers_bindings _ _ _ Hall) as Hts.
  assert (Hid : forall t, In t ts -> slot (binding t) = (id, binding_texture_type (binding t)) /\
            In (binding t) (rows (profile_textures d)) /\ refers d (binding t) t).
  { intros t Ht. assert (Hb : In (binding t) l).
    { rewrite <- Hts. by apply in_map. }
    apply Hl in Hb as [Hb Hp]. unfold slot. rewrite Hp. split; [done|]. split; [done|].
    clear - Hall Ht. induction Hall as [|b' t' l ts Hr _ IH]; [done|].
    destruct Ht as [->|Ht]; [by destruct Hr as (<- & ?)|by apply IH]. }
  split.
  { rewrite <- Hts, map_map in Hnd.
    rewrite (map_ext_in _ (fun t => (id, binding_texture_type (binding t)))) in Hnd
      by (intros t Ht; apply Hid, Ht).
    rewrite <- (map_map (fun t => binding_texture_type (binding t)) (pair id)) in Hnd.
    by apply NoDup_map_inv in Hnd. }
  intros ty. unfold texture_of. destruct (List.find _ ts) as [t|] eqn:Hf; cbn.
  - apply List.find_some in Hf as [Ht Hty]. rewrite eqb_true in Hty.
    destruct (Hid t Ht) as (Hs & Hin & _ & Htex & Hpk). rewrite Hty in Hs.
    assert (bound d id ty = Some (tex_pk (texture t))) as ->
      by (apply bound_in_some; [apply Hwf|eauto]).
    apply (find_row_unique tex_pk); [apply Hwf|done|]. intros y. apply Z.eqb_eq.
  - destruct (bound d id ty) as [tid|] eqn:Hb; [|done].
    apply (bound_in_some _ _ _ _ (wf_slots d Hwf)) in Hb as (b & Hb & Hs & _).
    injection Hs as Hp Hty. assert (Hin : In b l) by by apply Hl.
    rewrite <- Hts in Hin. apply in_map_iff in Hin as (t & <- & Ht).
    eapply List.find_none in Hf; [|exact Ht]. cbn in Hf. by rewrite Hty, eqb_refl in Hf.
Qed.

(** Decide the comparisons of closed terms. *)
Ltac decide_eqbs :=
  repeat match goal with
  | |- context [eqb ?a ?b] =>
      let v := eval vm_compute in (eqb a b) in
      first [constr_eq v true | constr_eq v false]; change (eqb a b) with v
  end; cbn.

Lemma entries_correct d profile ts entries entries' :
  List.NoDup (List.map (fun t => binding_texture_type (binding t)) ts) ->
  (forall ty, texture_of d (profile_pk profile) ty =
     texture <$> List.find (fun t => eqb (binding_texture_type (binding t)) ty) ts) ->
  Properties.bound_entries policy ts [] = Ok entries ->
  Properties.with_default_skin policy profile entries = Ok entries' ->
  entries_of d profile entries'.
Proof.
  intros Hnd Hof. unfold entries_of, cape_entry, skin_item. rewrite !Hof. clear Hof.
  destruct ts as [|[[? ? ? ty1 ? ?] t1] [|[[? ? ? ty2 ? ?] t2] [|[[? ? ? ty3 ? ?] t3] rest]]];
    cbn in *.
  4: { exfalso. rewrite !List.NoDup_cons_iff in Hnd. cbn in Hnd.
       destruct ty1, ty2, ty3; intuition congruence. }
  3: destruct ty1, ty2; try by (apply List.NoDup_cons_iff in Hnd as [Hn _]; destruct Hn; left).
  2: destruct ty1.
  all: unfold Properties.with_default_skin, Properties.contains_key, and_then; cbn; decide_eqbs.
  all: repeat match goal with
       | |- context [match TextureUrls.required_texture_object_public_url ?p ?h ?k with _ => _ end] =>
           destruct (TextureUrls.required_texture_object_public_url p h k) eqn:?; [|done..]
       end.
  all: intros [= <-]; cbn; decide_eqbs.
  all: try (destruct (TextureUrls.required_texture_public_url _ _) eqn:?; [|done..]).
  all: intros [= <-].
  1-2: exists [].
  3-5: eexists [_].
  all: eexists; (split; [reflexivity|]); split; eauto.
Qed.
End Entries.

(** ** The properties of a profile *)
Section Implementation.
Context `{EN : Env} `{CB : CacheBackend} `{CL : !CacheLaws CB} `{FC : ForgeCrypto}.
Context `{TX : TextureExterns} `{TL : !TextureExternLaws TX} `{SE : SkinExterns} `{RC : RuntimeConfig}.

#[local] Abbreviation key := (ProfileCache.profile_properties_key policy).

(** Properties computed between [w] and [w']: the textures property encodes
    the bound textures, the uploadable textures follow if there are any, and
    both are signed as asked. *)
Definition fresh_properties (p : minecraft_profile) (signed : bool) (w w' : World)
  (l : list YggdrasilProfileProperty) : Prop :=
  exists value sig rest entries n json,
    l = mkProperty "textures" value sig :: rest /\
    Properties.property_signature_of signed value = Ok sig /\
    match Properties.uploadable_textures_property_value policy p with
    | Some u => exists sig', rest = [mkProperty "uploadableTextures" u sig'] /\
                Properties.property_signature_of signed u = Ok sig'
    | None => rest = []
    end /\
    (step w <= n < step w')%nat /\
    base64_decode value = Ok json /\
    json_from_slice json =
      Ok (Properties.textures_value
            (Properties.mkTextures (ProfileCache.timestamp_millis (clock n))
               (uuid p) (profile_name p) entries)) /\
    entries_of policy (db w) p entries.

#[local] Instance reads_list_by_profile id : Reads (list_by_profile id).
Proof. unfold list_by_profile, select. typeclasses eauto. Qed.
#[local] Instance reads_texture_value p l :
  Reads (Properties.texture_property_value policy p l).
Proof. unfold Properties.texture_property_value. typeclasses eauto. Qed.

Lemma list_by_profile_ok id (w : World) ts w' :
  textures_wf (db w) -> list_by_profile id w = (Ok ts, w') ->
  List.NoDup (List.map (fun t => binding_texture_type (binding t)) ts) /\
  forall ty, texture_of (db w) id ty =
    texture <$> List.find (fun t => eqb (binding_texture_type (binding t)) ty) ts.
Proof.
  intros Hwf H. unfold list_by_profile, select in H. inv_ok H.
  set (l := sort_by _ _) in *.
  assert (Hl : forall b, In b l <-> In b (rows (profile_textures (db w))) /\ binding_profile_id b = id).
  { intros b. unfold l. by rewrite in_sort_by, in_rows_where, Z.eqb_eq. }
  destruct (collect_joined (db w) l Hwf) as (ts' & Hts & Hall); [by intros b [? _]%Hl|].
  rewrite Hts in Hr0. injection Hr0 as ->.
  apply (texture_of_listed _ _ l); [done|done| |done].
  eapply Permutation_NoDup; [symmetry; apply Permutation_map, sort_by_perm|].
  apply NoDup_map_rows_where, Hwf.
Qed.

Lemma texture_value_ok p ts (w : World) value w' :
  Properties.texture_property_value policy p ts w = (Ok value, w') ->
  exists entries0 entries json,
    Properties.bound_entries policy ts [] = Ok entries0 /\
    Properties.with_default_skin policy p entries0 = Ok entries /\
    step w' = S (step w) /\ base64_decode value = Ok json /\
    json_from_slice json =
      Ok (Properties.textures_value
            (Properties.mkTextures (ProfileCache.timestamp_millis (clock (step w)))
               (uuid p) (profile_name p) entries)).
Proof.
  unfold Properties.texture_property_value. intros H. inv_ok H.
  destruct (json_to_vec _) as [json|e|m] eqn:Hj; [|done..]. injection Hr3 as <-.
  eexists _, _, json. repeat (split; [eassumption || done|]).
  split; [apply base64_roundtrip|]. by apply json_roundtrip.
Qed.

(** The end of a computation: the properties are cached and returned. *)
Lemma cache_properties_frame p signed l (w w1 : World) t k x :
  same w w1 ->
  cache_get (cache_set (cache w1) (clock (step w1)) (key p signed) (CvProperties l)
               ProfileCache.PROFILE_PROPERTIES_TTL_SECS) t k = Some x ->
  cache_get (cache w) t k = Some x \/ (k = key p signed /\ x = CvProperties l).
Proof.
  intros S Hg. apply get_set in Hg as [(-> & -> & _)|Hg]; [by right|left].
  by rewrite (same_cache _ _ S) in Hg.
Qed.

(** What both branches guarantee, about the world [w] a request starts in. *)
Definition properties_post (p : minecraft_profile) (signed : bool) (w : World)
  (r : outcome Yggdrasil.YggdrasilError YggdrasilProfile) (w' : World) : Prop :=
  (db w' = db w /\ audit_log w' = audit_log w /\ (step w <= step w')%nat) /\
  (forall t k x, cache_get (cache w') t k = Some x ->
     cache_get (cache w) t k = Some x \/
     (k = key p signed /\ exists l, x = CvProperties l /\ r = Ok (Properties.profile_answer p l))) /\
  forall a, r = Ok a -> exists l, a = Properties.profile_answer p l /\
    (cache_get (cache w) (clock (step w)) (key p signed) = Some (CvProperties l) \/
     (textures_wf (db w) -> fresh_properties p signed w w' l)).

Lemma post_same p signed w r w1 :
  same w w1 ->
  (forall a, r = Ok a -> exists l, a = Properties.profile_answer p l /\
     cache_get (cache w) (clock (step w)) (key p signed) = Some (CvProperties l)) ->
  properties_post p signed w r w1.
Proof.
  intros (Hd & Hc & [Ha _] & Hs) Hr. split; [done|]. split.
  - intros t k x Hg. rewrite Hc in Hg. by left.
  - intros a E. destruct (Hr a E) as (l & ? & ?). eauto.
Qed.

Lemma post_failed p signed w r w1 :
  same w w1 -> (forall a, r <> Ok a) -> properties_post p signed w r w1.
Proof. intros S Hr. apply post_same; [done|]. intros a E. by destruct (Hr a). Qed.

Lemma cache_properties_spec p signed l (w w1 : World) :
  same w w1 ->
  (textures_wf (db w) -> forall w2, (step w1 < step w2)%nat -> fresh_properties p signed w w2 l) ->
  wp (do* ProfileCache.set_profile_properties policy p signed l in
      ret (Properties.profile_answer p l)) (properties_post p signed w) w1.
Proof.
  intros S Hl. unfold ProfileCache.set_profile_properties.
  apply wp_bind, wp_cache_write. cbn [wp_next]. apply wp_ret.
  pose proof S as (Hd & _ & [Ha _] & Hs). split; [cbn; repeat split; [done..|lia]|]. split.
  - intros t k x [Hg|[-> ->]]%(cache_properties_frame _ _ _ w); [by left| |done]. eauto.
  - intros a [= <-]. exists l. split; [done|]. right. intros Hwf. apply Hl; [done|]. cbn. lia.
Qed.

Lemma build_properties_spec p signed (w w0 : World) :
  same w w0 -> (step w < step w0)%nat ->
  wp (Properties.build_profile_properties p signed) (properties_post p signed w) w0.
Proof.
  intros S0 Hlt. unfold Properties.build_profile_properties.
  wp_read as r1 w1 H1 S1. pose proof (same_trans _ _ _ S0 S1) as S01.
  destruct r1 as [ts|e|m]; cbn [wp_next]; [|by apply post_failed..].
  unfold ygg in H1. apply map_err_ok in H1.
  wp_read as r2 w2 H2 S2. pose proof (same_trans _ _ _ S01 S2) as S02.
  destruct r2 as [value|e|m]; cbn [wp_next]; [|by apply post_failed..].
  unfold ygg in H2. apply map_err_ok, texture_value_ok in H2
    as (entries0 & entries & json & He0 & He & Hstep & Hb & Hj).
  unfold ygg. apply wp_bind, wp_map_err, wp_lift.
  destruct (Properties.property_signature_of signed value) as [sig|e|m] eqn:Hsig;
    cbn [wp_next]; [|by apply post_failed..].
  assert (Hfresh : forall rest, match Properties.uploadable_textures_property_value policy p with
    | Some u => exists sig', rest = [mkProperty "uploadableTextures" u sig'] /\
                Properties.property_signature_of signed u = Ok sig'
    | None => rest = []
    end -> textures_wf (db w) -> forall w3, (step w2 < step w3)%nat ->
    fresh_properties p signed w w3 (mkProperty "textures" value sig :: rest)).
  { intros rest Hrest Hwf w3 Hw3. exists value, sig, rest, entries, (step w1), json.
    pose proof (same_step _ _ S01). pose proof (same_step _ _ S2).
    repeat (split; [done || lia|]). rewrite <- (same_db _ _ S0) in *.
    destruct (list_by_profile_ok _ _ _ _ Hwf H1) as [Hnd Hof]. by eapply entries_correct. }
  apply wp_bind. destruct (Properties.uploadable_textures_property_value policy p) as [u|].
  - apply wp_bind, wp_map_err, wp_lift.
    destruct (Properties.property_signature_of signed u) as [sig'|e|m] eqn:Hsig';
      cbn [wp_next]; [|by apply post_failed..].
    apply wp_ret. cbn [wp_next]. apply cache_properties_spec; [done|]. apply Hfresh. eauto.
  - apply wp_ret. cbn [wp_next]. apply cache_properties_spec; [done|]. by apply Hfresh.
Qed.

Lemma profile_properties_spec p signed (w : World) :
  wp (Properties.profile_with_properties p signed) (properties_post p signed w) w.
Proof.
  unfold Properties.profile_with_properties, ProfileCache.get_profile_properties.
  apply wp_bind, wp_bind, wp_cache_read. cbn [wp_next]. apply wp_ret. cbn [wp_next].
  destruct (cache_get _ _ _) as [[t|j|us|q|l|k|c|c|c]|] eqn:Hg;
    try (apply build_properties_spec; [apply same_tick|cbn; lia]).
  apply wp_ret, post_same; [apply same_tick|]. intros a [= <-]. eauto.
Qed.
End Implementation.

(** The implementation keeps the promises of the interface. *)
#[export] Instance implementation_laws `{EN : Env} `{CB : CacheBackend} `{CL : !CacheLaws CB}
  `{FC : ForgeCrypto} `{TX : TextureExterns} `{TL : !TextureExternLaws TX} `{SE : SkinExterns}
  `{RC : RuntimeConfig} : ProfilePropertiesLaws Properties.implementation.
Proof.
  split; cbn.
  - intros p signed w. destruct (profile_properties_spec p signed w) as ((Hd & Ha & Hs) & Hc & _).
    repeat (split; [done|]). intros t k x [Hg|(-> & l & -> & _)]%Hc; [by left|right].
    split; [apply properties_key_common|eauto].
  - intros p signed w r w' Hr.
    destruct (wp_run _ _ _ _ _ (profile_properties_spec p signed w) Hr) as (_ & _ & Ha).
    by destruct (Ha r eq_refl) as (l & -> & _).
Qed.

Section Theorems.
Context `{EN : Env} `{CB : CacheBackend} `{CL : !CacheLaws CB} `{FC : ForgeCrypto}.
Context `{TX : TextureExterns} `{TL : !TextureExternLaws TX} `{SE : SkinExterns} `{RC : RuntimeConfig}.

(** the properties of a profile. An answer carries the profile's UUID and
    name; its properties are those cached for exactly this profile revision,
    signing mode and policy, or were computed now: the textures property
    encodes the time, the profile and its textures (the bound cape, if any;
    the bound skin with its model, or else the default skin of the UUID), and
    the uploadable textures follow when the profile has them; every property
    is signed as requested with the configured key. The tables do not change,
    and the cache gains at most that answer. *)
Theorem profile_properties_correct p signed w a w' :
  textures_wf (db w) ->
  Properties.profile_with_properties p signed w = (Ok a, w') ->
  exists l, a = Properties.profile_answer p l /\
    db w' = db w /\ audit_log w' = audit_log w /\
    (cache_get (cache w) (clock (step w))
       (ProfileCache.profile_properties_key policy p signed) = Some (CvProperties l) \/
     fresh_properties p signed w w' l) /\
    forall t k x, cache_get (cache w') t k = Some x ->
      cache_get (cache w) t k = Some x \/
      (k = ProfileCache.profile_properties_key policy p signed /\ x = CvProperties l).
Proof.
  intros Hwf Hr.
  destruct (wp_run _ _ _ _ _ (profile_properties_spec p signed w) Hr) as ((Hd & Ha & _) & Hc & Hok).
  destruct (Hok a eq_refl) as (l & -> & Hl). exists l. repeat (split; [done|]).
  split; [destruct Hl as [?|Hl]; auto|].
  intros t k x [Hg|(-> & l' & -> & [= E])]%Hc; [by left|]. right. by rewrite E.
Qed.

(** Invalidating a profile's cached properties is complete and exact. No
    entry of that profile survives, whatever its revision, signing mode or
    the policy it was computed under; the removed prefix is the prefix of no
    other profile's key; and nothing new appears in the cache. *)
Theorem profile_properties_invalidated id (w : World) (r : outcome Yggdrasil.YggdrasilError unit) w' :
  Properties.invalidate_profile_properties_cache id w = (r, w') ->
  r = Ok tt /\ db w' = db w /\
  (forall policy p signed t, profile_pk p = id ->
     cache_get (cache w') t (ProfileCache.profile_properties_key policy p signed) = None) /\
  (forall policy p signed, profile_pk p <> id ->
     starts_with (ProfileCache.profile_properties_prefix id)
       (ProfileCache.profile_properties_key policy p signed) = false) /\
  (forall t k x, cache_get (cache w') t k = Some x -> cache_get (cache w) t k = Some x).
Proof.
  unfold Properties.invalidate_profile_properties_cache,
    ProfileCache.invalidate_profile_properties, cache_update.
  intros [= <- <-]. cbn. split; [done|]. split; [done|]. split; [|split].
  - intros pol p signed t Hp. destruct (cache_get _ t _) as [x|] eqn:Hg; [|done].
    apply get_invalidate_prefix in Hg as [Hk _].
    by rewrite (proj2 (properties_key_prefix pol p signed id) Hp) in Hk.
  - intros pol p signed Hp. apply not_true_iff_false. by rewrite properties_key_prefix.
  - by intros t k x [_ Hg]%get_invalidate_prefix.
Qed.

(** The table of texture bindings is a map. Binding a texture sets exactly
    the slot of that profile and texture type and returns the texture;
    removing a binding clears exactly that slot and returns what it held;
    removing a texture clears exactly the slots that held it. Keys stay
    unique and references intact, no other table changes, and a failure
    leaves the slot as it was or (when only the read-back failed) set. *)
Theorem profile_bindings_exact (w : World) :
  textures_wf (db w) ->
  (forall input r w', upsert_for_profile input w = (r, w') ->
     bindings_only w w' /\ textures_wf (db w') /\
     (db w' = db w \/
      slot_set (db w) (db w') (up_profile_id input) (up_texture_type input)
        (Some (up_texture_id input))) /\
     forall t, r = Ok t ->
       bound (db w') (up_profile_id input) (up_texture_type input) = Some (up_texture_id input) /\
       In (texture t) (rows (textures (db w))) /\ tex_pk (texture t) = up_texture_id input) /\
  (forall id ty r w', delete_for_profile id ty w = (r, w') ->
     bindings_only w w' /\ textures_wf (db w') /\
     match r with
     | Ok (Some t) =>
         bound (db w) id ty = Some (tex_pk (texture t)) /\ slot_set (db w) (db w') id ty None
     | Ok None => bound (db w) id ty = None /\ db w' = db w
     | _ => db w' = db w
     end) /\
  (forall tid r w', delete_by_texture_id tid w = (r, w') ->
     bindings_only w w' /\ textures_wf (db w') /\
     forall l, r = Ok l -> forall id ty, bound (db w') id ty =
       if decide (bound (db w) id ty = Some tid) then None else bound (db w) id ty).
Proof.
  intros Hwf. split; [|split].
  - intros input r w' Hr.
    destruct (wp_run _ _ _ _ _ (upsert_spec input w Hwf) Hr) as (Hb & Hw & Hs & Ht).
    repeat (split; [done|]). intros t ->. by destruct Ht as (_ & _ & Hin & Hpk & Hbound).
  - intros id ty r w' Hr.
    destruct (wp_run _ _ _ _ _ (delete_for_profile_spec id ty w Hwf) Hr) as (Hb & Hw & Ht).
    repeat (split; [done|]). destruct r as [[t|]|e|m]; [by destruct Ht as (? & _ & ?)|done..].
  - intros tid r w' Hr.
    destruct (wp_run _ _ _ _ _ (delete_by_texture_spec tid w Hwf) Hr) as (Hb & Hw & Ht).
    repeat (split; [done|]). intros l ->. by destruct Ht.
Qed.
End Theorems.

(** ** Concrete runs *)

(** JSON text of one textures property: the profile of Concrete.v with a slim
    skin, at the first second of the concrete clock. *)
Definition slim_payload (url : string) : Value :=
  VObject
    [("timestamp", VNumber "1000000");
     ("profileId", VString "0123456789abcdef0123456789abcdef");
     ("profileName", VString "Alex");
     ("textures", VObject [("SKIN",
        VObject [("url", VString url); ("metadata", VObject [("model", VString "slim")])])])]%string.
Definition slim_url (v : Value) : option string :=
  match v with
  | VObject [(a, VNumber n); (b, VString i); (c, VString m);
             (d, VObject [(e, VObject [(f, VString u); (g, VObject [(h, VString mo)])])])] =>
      if eqb [a; n; b; i; c; m; d; e; f; g; h; mo]
           ["timestamp"; "1000000"; "profileId"; "0123456789abcdef0123456789abcdef";
            "profileName"; "Alex"; "textures"; "SKIN"; "url"; "metadata"; "model"; "slim"]%string
      then Some u else None
  | _ => None
  end.

Lemma slim_url_some v u : slim_url v = Some u -> v = slim_payload u.
Proof.
  unfold slim_url. intros H.
  repeat match type of H with
         | match ?x with _ => _ end = _ => destruct x eqn:?; try done
         end; simplify_eq.
  match goal with E : eqb _ _ = true |- _ => rewrite eqb_true in E; injection E as -> -> -> -> -> -> -> -> -> -> -> -> end.
  done.
Qed.

Definition property_externs0 : TextureExterns := {|
  Url := string;
  url_parse := fun s => Ok s;
  url_scheme := fun _ => "https"%string;
  url_to_string := fun s => s;
  url_path_segments := fun _ => None;
  base64_decode := fun s => Ok s;
  base64_encode := fun s => s;
  json_from_slice := fun s => Ok (slim_payload s);
  json_to_vec := fun v =>
    match slim_url v with Some u => Ok u | None => Err "unsupported"%string end;
  encode_ticket := fun t => Err "unsupported"%string;
  decode_ticket := fun s => Err "unsupported"%string;
  PrivateKey := string;
  private_key_from_pem := fun s => Ok s;
  sign_sha1 := fun k s => (k +:+ s)%string
|}.
Lemma property_externs0_laws : TextureExternLaws property_externs0.
Proof.
  split; cbn; [done|done|]. intros v s. destruct (slim_url v) as [u|] eqn:E; [|done].
  intros [= <-]. by apply slim_url_some in E as ->.
Qed.

Definition skin_externs0 : SkinExterns := {|
  uuid_parse_str := fun s => if (str_len s =? 32)%nat then Some 15 else None;
  STEVE_BYTES := "steve";
  ALEX_BYTES := "alex"
|}.
Definition config1 : RuntimeConfig := {|
  audit_settings := mkSettings true all_actions_mask;
  Auth.policy := policy1
|}.
#[local] Existing Instance property_externs0.
#[local] Existing Instance skin_externs0.
#[local] Existing Instance config1.

(** Alice owns two skins, the first is bound to her profile. *)
Definition slim_skin (id : Z) : minecraft_texture :=
  mkTexture id 1 Skin TextureLocal "cafe" "/ca/cafe.png" "image/png" 512 64 64 Slim VisPrivate
    false None LibPrivate None None None None 0 0.
Definition textures_db : Db :=
  mkDb (users db0) (profiles db0) (tokens db0) (bans db0) (ban_events db0) (servers db0) (tasks db0)
    (mkTable [slim_skin 1; slim_skin 2] 3) (mkTable [mkBinding 1 1 1 Skin 0 0] 2) (accounts db0) (library db0)
    (external db0) (passkeys db0).
Definition textures_world : World := set_db textures_db world0.

Lemma textures_world_wf : textures_wf (db textures_world).
Proof.
  split.
  - repeat constructor; cbn; intuition congruence.
  - repeat constructor; by intros [].
  - intros b [<-|[]]. vm_compute. done.
  - repeat constructor; by intros [].
  - intros b [<-|[]]. reflexivity.
Qed.

Definition properties_run : outcome Yggdrasil.YggdrasilError YggdrasilProfile * World :=
  Properties.profile_with_properties alex true textures_world.
Definition alex_answer : YggdrasilProfile :=
  match fst properties_run with Ok a => a | _ => mkYggProfile "" "" None None end.

Lemma profile_properties_correct_witness :
  exists l, alex_answer = Properties.profile_answer alex l /\ length l = 2%nat.
Proof.
  assert (H : properties_run = (Ok alex_answer, snd properties_run)) by (vm_compute; reflexivity).
  destruct (profile_properties_correct (TL := property_externs0_laws) _ _ _ _ _ textures_world_wf H)
    as (l & Hl & _).
  exists l. split; [exact Hl|].
  assert (E : ygg_properties alex_answer = Some l) by (rewrite Hl; reflexivity).
  vm_compute in E. injection E as <-. reflexivity.
Defined.

Lemma profile_properties_invalidated_witness :
  cache_get (cache (snd (Properties.invalidate_profile_properties_cache
              (E := Yggdrasil.YggdrasilError) 1 (snd properties_run)))) (clock 0)
    (ProfileCache.profile_properties_key policy1 alex true) = None.
Proof.
  destruct (profile_properties_invalidated 1 (snd properties_run) _ _
              (surjective_pairing _)) as (_ & _ & H & _).
  apply H. reflexivity.
Defined.

Lemma profile_bindings_exact_witness :
  bound (db (snd (upsert_for_profile (mkUpsert 1 2 Skin) textures_world))) 1 Skin = Some 2.
Proof.
  destruct (profile_bindings_exact textures_world textures_world_wf) as (H & _).
  destruct (H (mkUpsert 1 2 Skin) _ _ (surjective_pairing _)) as (_ & _ & _ & Ht).
  by destruct (Ht (mkProfileTexture (rebound 2 (clock 0) (mkBinding 1 1 1 Skin 0 0)) (slim_skin 2))
                 eq_refl) as (Hb & _).
Defined.
