(* ===== verification/AuthConfig.v ===== *)
(** * The runtime configuration of accounts

    [config/auth_runtime.rs], [config/local_email_policy.rs] and the parts of
    [config/site_url.rs], [config/branding.rs] and [config/avatar.rs] the
    account services read: typed policies over the key-value snapshot, with
    the readers of [aster_forge_config] as a class. *)

From Stdlib Require Import ZArith List Bool Lia Ascii.
From stdpp Require Import base decidable list strings.
From S2P Require Import Prelude Text Errors Types.

Local Open Scope Z_scope.

(** ** The snapshot and the libraries that read it *)

(** [aster_forge_config::ConfigCoreError]; a JSON error is its text. *)
Inductive ConfigCoreError : Type :=
| InvalidValue (message : string)
| UnknownKey (key : string)
| JsonError (message : string)
| StoreError (message : string)
| NotificationError (message : string).

Definition from_config_core (e : ConfigCoreError) : AsterError.t :=
  match e with
  | InvalidValue message => AsterError.ValidationError message
  | UnknownKey key => AsterError.RecordNotFound ("config key '" +:+ key +:+ "'")
  | JsonError error => AsterError.ValidationError error
  | StoreError message | NotificationError message => AsterError.InternalError message
  end.

(** [RuntimeConfig::get]. *)
Class ConfigStore : Type := { config_get : string -> option string }.

(** The text of a core error ([Display]) is the library's. *)
Class ForgeConfig : Type := {
  read_bool : (string -> option string) -> string -> bool -> bool;
  read_positive_u64 : (string -> option string) -> string -> Z -> Z;
  read_bounded_u64 : (string -> option string) -> string -> Z -> Z -> Z -> Z;
  normalize_bool : string -> string -> outcome ConfigCoreError string;
  normalize_positive_u64 : string -> string -> outcome ConfigCoreError string;
  normalize_bounded_u64 : string -> string -> Z -> Z -> outcome ConfigCoreError string;
  parse_string_array : string -> string -> outcome ConfigCoreError (list string);
  parse_single_string_enum_selection :
    forall {A}, string -> string -> string -> (string -> option A) -> outcome ConfigCoreError A;
  config_error_to_string : ConfigCoreError -> string;
  display_text_or_default : option string -> string -> string -> nat -> string;
  forge_gravatar_base_url_or_default : option string -> string;
  runtime_public_site_origins : option string -> list string;
  join_origin_and_path : string -> string -> string
}.

(** A reader never returns a value outside its range: an unusable value is
    replaced by the default.  An enumeration is parsed by the given parser. *)
Class ForgeConfigLaws (FC : ForgeConfig) : Prop := {
  read_positive_range get key default :
    0 < default <= U64_MAX -> 0 < read_positive_u64 get key default <= U64_MAX;
  read_bounded_range get key default lo hi :
    lo <= default <= hi -> lo <= read_bounded_u64 get key default lo hi <= hi;
  read_bool_missing get key default : get key = None -> read_bool get key default = default;
  read_positive_missing get key default :
    get key = None -> read_positive_u64 get key default = default;
  read_bounded_missing get key default lo hi :
    get key = None -> read_bounded_u64 get key default lo hi = default;
  parse_selection_spec {A} (value key expected : string) (parse : string -> option A) a :
    parse_single_string_enum_selection value key expected parse = Ok a ->
    exists s, parse s = Some a
}.

(** ** Keys and defaults *)

Definition AUTH_COOKIE_SECURE_KEY : string := "auth_cookie_secure".
Definition AUTH_ACCESS_TOKEN_TTL_SECS_KEY : string := "auth_access_token_ttl_secs".
Definition AUTH_REFRESH_TOKEN_TTL_SECS_KEY : string := "auth_refresh_token_ttl_secs".
Definition AUTH_ALLOW_USER_REGISTRATION_KEY : string := "auth_allow_user_registration".
Definition AUTH_ALLOW_LOCAL_REGISTRATION_KEY : string := "auth_allow_local_registration".
Definition AUTH_ALLOW_LOCAL_LOGIN_KEY : string := "auth_allow_local_login".
Definition AUTH_REGISTER_ACTIVATION_ENABLED_KEY : string := "auth_register_activation_enabled".
Definition AUTH_REGISTER_ACTIVATION_TTL_SECS_KEY : string := "auth_register_activation_ttl_secs".
Definition AUTH_USER_INVITATION_TTL_SECS_KEY : string := "auth_user_invitation_ttl_secs".
Definition AUTH_CONTACT_CHANGE_TTL_SECS_KEY : string := "auth_contact_change_ttl_secs".
Definition AUTH_PASSWORD_RESET_TTL_SECS_KEY : string := "auth_password_reset_ttl_secs".
Definition AUTH_CONTACT_VERIFICATION_RESEND_COOLDOWN_SECS_KEY : string :=
  "auth_contact_verification_resend_cooldown_secs".
Definition AUTH_PASSWORD_RESET_REQUEST_COOLDOWN_SECS_KEY : string :=
  "auth_password_reset_request_cooldown_secs".
Definition AUTH_EMAIL_CODE_LOGIN_ENABLED_KEY : string := "auth_email_code_login_enabled".
Definition AUTH_PASSKEY_LOGIN_ENABLED_KEY : string := "auth_passkey_login_enabled".
Definition AUTH_CAPTCHA_ENABLED_KEY : string := "auth_captcha_enabled".
Definition AUTH_CAPTCHA_LOGIN_REQUIRED_KEY : string := "auth_captcha_login_required".
Definition AUTH_CAPTCHA_REGISTER_REQUIRED_KEY : string := "auth_captcha_register_required".
Definition AUTH_CAPTCHA_INVITATION_ACCEPT_REQUIRED_KEY : string :=
  "auth_captcha_invitation_accept_required".
Definition AUTH_CAPTCHA_REGISTER_ACTIVATION_RESEND_REQUIRED_KEY : string :=
  "auth_captcha_register_activation_resend_required".
Definition AUTH_CAPTCHA_PRESET_KEY : string := "auth_captcha_preset".
Definition AUTH_CAPTCHA_TTL_SECS_KEY : string := "auth_captcha_ttl_secs".
Definition AUTH_CAPTCHA_LENGTH_KEY : string := "auth_captcha_length".
Definition AUTH_CAPTCHA_MAX_ATTEMPTS_KEY : string := "auth_captcha_max_attempts".
Definition AUTH_EMAIL_CODE_LOGIN_ALLOW_TOTP_FALLBACK_KEY : string :=
  "auth_email_code_login_allow_totp_fallback".
Definition AUTH_EMAIL_CODE_LOGIN_TTL_SECS_KEY : string := "auth_email_code_login_ttl_secs".
Definition AUTH_EMAIL_CODE_LOGIN_RESEND_COOLDOWN_SECS_KEY : string :=
  "auth_email_code_login_resend_cooldown_secs".
Definition AUTH_LOCAL_EMAIL_ALLOWLIST_KEY : string := "auth_local_email_allowlist".
Definition AUTH_LOCAL_EMAIL_BLOCKLIST_KEY : string := "auth_local_email_blocklist".
Definition BRANDING_TITLE_KEY : string := "branding_title".
Definition GRAVATAR_BASE_URL_KEY : string := "gravatar_base_url".
Definition PUBLIC_SITE_URL_KEY : string := "public_site_url".

Definition DEFAULT_AUTH_ACCESS_TOKEN_TTL_SECS : Z := 900.
Definition DEFAULT_AUTH_REFRESH_TOKEN_TTL_SECS : Z := 604800.
Definition DEFAULT_AUTH_REGISTER_ACTIVATION_TTL_SECS : Z := 86400.
Definition DEFAULT_AUTH_USER_INVITATION_TTL_SECS : Z := 7 * 86400.
Definition DEFAULT_AUTH_CONTACT_CHANGE_TTL_SECS : Z := 86400.
Definition DEFAULT_AUTH_PASSWORD_RESET_TTL_SECS : Z := 3600.
Definition DEFAULT_AUTH_CONTACT_VERIFICATION_RESEND_COOLDOWN_SECS : Z := 60.
Definition DEFAULT_AUTH_PASSWORD_RESET_REQUEST_COOLDOWN_SECS : Z := 60.
Definition DEFAULT_AUTH_EMAIL_CODE_LOGIN_TTL_SECS : Z := 600.
Definition DEFAULT_AUTH_EMAIL_CODE_LOGIN_RESEND_COOLDOWN_SECS : Z := 60.
Definition DEFAULT_AUTH_CAPTCHA_TTL_SECS : Z := 120.
Definition DEFAULT_AUTH_CAPTCHA_LENGTH : Z := 5.
Definition DEFAULT_AUTH_CAPTCHA_MAX_ATTEMPTS : Z := 3.
Definition MIN_AUTH_CAPTCHA_LENGTH : Z := 4.
Definition MAX_AUTH_CAPTCHA_LENGTH : Z := 8.
Definition MIN_AUTH_CAPTCHA_MAX_ATTEMPTS : Z := 1.
Definition MAX_AUTH_CAPTCHA_MAX_ATTEMPTS : Z := 10.
Definition DEFAULT_BRANDING_TITLE : string := "AsterYggdrasil".
Definition MAX_BRANDING_TITLE_LEN : nat := 120.

(** ** The captcha preset *)

Module CaptchaRenderPreset.
Inductive t : Type := Readable | Balanced | Hardened.

Definition ALL : list t := [Readable; Balanced; Hardened].

Definition as_str (p : t) : string :=
  match p with Readable => "readable" | Balanced => "balanced" | Hardened => "hardened" end.

Definition parse_value (value : string) : option t :=
  let v := trim value in
  if eqb v "readable"%string then Some Readable
  else if eqb v "balanced"%string then Some Balanced
  else if eqb v "hardened"%string then Some Hardened
  else None.

Record CaptchaRenderParams : Type := mkParams {
  height : Z;
  complexity : Z;
  compression : Z;
  interference_lines : Z;
  interference_ellipses : Z;
  distortion : Z
}.

Definition render_params (p : t) : CaptchaRenderParams :=
  match p with
  | Readable => mkParams 54 1 86 1 0 1
  | Balanced => mkParams 58 2 78 2 1 2
  | Hardened => mkParams 64 4 58 4 3 4
  end.

Definition from_str (value : string) : outcome AsterError.t t :=
  match parse_value value with
  | Some p => Ok p
  | None => Err (AsterError.ValidationError
      "captcha render preset must be one of: readable, balanced, hardened")
  end.
End CaptchaRenderPreset.

Definition DEFAULT_AUTH_CAPTCHA_PRESET : CaptchaRenderPreset.t := CaptchaRenderPreset.Balanced.

(** ** The policies *)

Record RuntimeAuthPolicy : Type := mkAuthPolicy {
  cookie_secure : bool;
  allow_user_registration : bool;
  allow_local_registration : bool;
  allow_local_login : bool;
  passkey_login_enabled : bool;
  register_activation_enabled : bool;
  access_token_ttl_secs : Z;
  refresh_token_ttl_secs : Z
}.

Record RuntimeContactVerificationPolicy : Type := mkContactPolicy {
  register_activation_ttl_secs : Z;
  contact_change_ttl_secs : Z;
  resend_cooldown_secs : Z;
  password_reset_ttl_secs : Z;
  password_reset_request_cooldown_secs : Z
}.

Record RuntimeEmailCodeLoginPolicy : Type := mkEmailCodePolicy {
  email_code_enabled : bool;
  allow_totp_fallback : bool;
  email_code_ttl_secs : Z;
  email_code_resend_cooldown_secs : Z
}.

Record RuntimeCaptchaPolicy : Type := mkCaptchaPolicy {
  captcha_enabled : bool;
  login_required : bool;
  register_required : bool;
  invitation_accept_required : bool;
  register_activation_resend_required : bool;
  captcha_ttl_secs : Z;
  preset : CaptchaRenderPreset.t;
  captcha_length : Z;
  max_attempts : Z
}.

Section Policies.
Context `{FC : ForgeConfig}.

Definition auth_policy (get : string -> option string) : RuntimeAuthPolicy :=
  {| cookie_secure := read_bool get AUTH_COOKIE_SECURE_KEY true;
     allow_user_registration := read_bool get AUTH_ALLOW_USER_REGISTRATION_KEY true;
     allow_local_registration := read_bool get AUTH_ALLOW_LOCAL_REGISTRATION_KEY true;
     allow_local_login := read_bool get AUTH_ALLOW_LOCAL_LOGIN_KEY true;
     register_activation_enabled := read_bool get AUTH_REGISTER_ACTIVATION_ENABLED_KEY true;
     passkey_login_enabled := read_bool get AUTH_PASSKEY_LOGIN_ENABLED_KEY true;
     access_token_ttl_secs :=
       read_positive_u64 get AUTH_ACCESS_TOKEN_TTL_SECS_KEY DEFAULT_AUTH_ACCESS_TOKEN_TTL_SECS;
     refresh_token_ttl_secs :=
       read_positive_u64 get AUTH_REFRESH_TOKEN_TTL_SECS_KEY DEFAULT_AUTH_REFRESH_TOKEN_TTL_SECS |}.

Definition contact_policy (get : string -> option string) : RuntimeContactVerificationPolicy :=
  {| register_activation_ttl_secs :=
       read_positive_u64 get AUTH_REGISTER_ACTIVATION_TTL_SECS_KEY
         DEFAULT_AUTH_REGISTER_ACTIVATION_TTL_SECS;
     contact_change_ttl_secs :=
       read_positive_u64 get AUTH_CONTACT_CHANGE_TTL_SECS_KEY DEFAULT_AUTH_CONTACT_CHANGE_TTL_SECS;
     password_reset_ttl_secs :=
       read_positive_u64 get AUTH_PASSWORD_RESET_TTL_SECS_KEY DEFAULT_AUTH_PASSWORD_RESET_TTL_SECS;
     resend_cooldown_secs :=
       read_positive_u64 get AUTH_CONTACT_VERIFICATION_RESEND_COOLDOWN_SECS_KEY
         DEFAULT_AUTH_CONTACT_VERIFICATION_RESEND_COOLDOWN_SECS;
     password_reset_request_cooldown_secs :=
       read_positive_u64 get AUTH_PASSWORD_RESET_REQUEST_COOLDOWN_SECS_KEY
         DEFAULT_AUTH_PASSWORD_RESET_REQUEST_COOLDOWN_SECS |}.

Definition email_code_policy (get : string -> option string) : RuntimeEmailCodeLoginPolicy :=
  {| email_code_enabled := read_bool get AUTH_EMAIL_CODE_LOGIN_ENABLED_KEY false;
     allow_totp_fallback := read_bool get AUTH_EMAIL_CODE_LOGIN_ALLOW_TOTP_FALLBACK_KEY false;
     email_code_ttl_secs :=
       read_positive_u64 get AUTH_EMAIL_CODE_LOGIN_TTL_SECS_KEY
         DEFAULT_AUTH_EMAIL_CODE_LOGIN_TTL_SECS;
     email_code_resend_cooldown_secs :=
       read_positive_u64 get AUTH_EMAIL_CODE_LOGIN_RESEND_COOLDOWN_SECS_KEY
         DEFAULT_AUTH_EMAIL_CODE_LOGIN_RESEND_COOLDOWN_SECS |}.

Definition parse_captcha_preset_selection (value : string)
  : outcome AsterError.t CaptchaRenderPreset.t :=
  match parse_single_string_enum_selection value AUTH_CAPTCHA_PRESET_KEY
          "readable, balanced, hardened"
          (fun v => match CaptchaRenderPreset.from_str v with Ok p => Some p | _ => None end) with
  | Ok p => Ok p
  | Err e => Err (AsterError.ValidationError (config_error_to_string e))
  | Panic m => Panic m
  end.

Definition read_captcha_render_preset_from (get : string -> option string)
  : CaptchaRenderPreset.t :=
  match get AUTH_CAPTCHA_PRESET_KEY with
  | Some raw =>
      match parse_captcha_preset_selection raw with
      | Ok value => value
      | _ => DEFAULT_AUTH_CAPTCHA_PRESET
      end
  | None => DEFAULT_AUTH_CAPTCHA_PRESET
  end.

(** [overrides.get(key).cloned().or_else(|| runtime_config.get(key))] *)
Definition with_overrides (overrides get : string -> option string) (key : string)
  : option string :=
  match overrides key with Some v => Some v | None => get key end.

Definition captcha_policy_with_overrides (stored overrides : string -> option string)
  : RuntimeCaptchaPolicy :=
  let get := with_overrides overrides stored in
  {| captcha_enabled := read_bool get AUTH_CAPTCHA_ENABLED_KEY false;
     login_required := read_bool get AUTH_CAPTCHA_LOGIN_REQUIRED_KEY true;
     register_required := read_bool get AUTH_CAPTCHA_REGISTER_REQUIRED_KEY true;
     invitation_accept_required := read_bool get AUTH_CAPTCHA_INVITATION_ACCEPT_REQUIRED_KEY true;
     register_activation_resend_required :=
       read_bool get AUTH_CAPTCHA_REGISTER_ACTIVATION_RESEND_REQUIRED_KEY true;
     captcha_ttl_secs :=
       read_positive_u64 get AUTH_CAPTCHA_TTL_SECS_KEY DEFAULT_AUTH_CAPTCHA_TTL_SECS;
     preset := read_captcha_render_preset_from get;
     captcha_length :=
       read_bounded_u64 get AUTH_CAPTCHA_LENGTH_KEY DEFAULT_AUTH_CAPTCHA_LENGTH
         MIN_AUTH_CAPTCHA_LENGTH MAX_AUTH_CAPTCHA_LENGTH;
     max_attempts :=
       read_bounded_u64 get AUTH_CAPTCHA_MAX_ATTEMPTS_KEY DEFAULT_AUTH_CAPTCHA_MAX_ATTEMPTS
         MIN_AUTH_CAPTCHA_MAX_ATTEMPTS MAX_AUTH_CAPTCHA_MAX_ATTEMPTS |}.

Definition captcha_policy (get : string -> option string) : RuntimeCaptchaPolicy :=
  captcha_policy_with_overrides get (fun _ => None).

Definition captcha_login_required (p : RuntimeCaptchaPolicy) : bool :=
  captcha_enabled p && login_required p.
Definition captcha_register_required (p : RuntimeCaptchaPolicy) : bool :=
  captcha_enabled p && register_required p.
Definition captcha_invitation_accept_required (p : RuntimeCaptchaPolicy) : bool :=
  captcha_enabled p && invitation_accept_required p.
Definition captcha_register_activation_resend_required (p : RuntimeCaptchaPolicy) : bool :=
  captcha_enabled p && register_activation_resend_required p.

Definition user_invitation_ttl_secs (get : string -> option string) : Z :=
  read_positive_u64 get AUTH_USER_INVITATION_TTL_SECS_KEY DEFAULT_AUTH_USER_INVITATION_TTL_SECS.

(** [.map_err(Into::into)] *)
Definition core_result {A} (r : outcome ConfigCoreError A) : outcome AsterError.t A :=
  match r with Ok a => Ok a | Err e => Err (from_config_core e) | Panic m => Panic m end.

Definition normalize_auth_bool_config_value (key value : string) : outcome AsterError.t string :=
  core_result (normalize_bool key value).

Definition normalize_token_ttl_config_value (key value : string) : outcome AsterError.t string :=
  core_result (normalize_positive_u64 key value).

Definition normalize_captcha_length_config_value (value : string)
  : outcome AsterError.t string :=
  core_result (normalize_bounded_u64 AUTH_CAPTCHA_LENGTH_KEY value
                 MIN_AUTH_CAPTCHA_LENGTH MAX_AUTH_CAPTCHA_LENGTH).

Definition normalize_captcha_max_attempts_config_value (value : string)
  : outcome AsterError.t string :=
  core_result (normalize_bounded_u64 AUTH_CAPTCHA_MAX_ATTEMPTS_KEY value
                 MIN_AUTH_CAPTCHA_MAX_ATTEMPTS MAX_AUTH_CAPTCHA_MAX_ATTEMPTS).

Definition normalize_captcha_preset_config_value (value : string)
  : outcome AsterError.t string :=
  match parse_captcha_preset_selection value with
  | Ok selected => Ok (CaptchaRenderPreset.as_str selected)
  | Err e => Err e
  | Panic m => Panic m
  end.

(** ** Presentation values *)

Definition title_or_default (get : string -> option string) : string :=
  display_text_or_default (get BRANDING_TITLE_KEY) DEFAULT_BRANDING_TITLE
    "branding_title" MAX_BRANDING_TITLE_LEN.

Definition gravatar_base_url_or_default (get : string -> option string) : string :=
  forge_gravatar_base_url_or_default (get GRAVATAR_BASE_URL_KEY).

Definition public_site_url_config_value (get : string -> option string) : option string :=
  match trim <$> get PUBLIC_SITE_URL_KEY with
  | Some value => if is_empty value then None else Some value
  | None => None
  end.

Definition public_site_urls (get : string -> option string) : list string :=
  runtime_public_site_origins (public_site_url_config_value get).

Definition public_site_url (get : string -> option string) : option string :=
  head (public_site_urls get).

Definition public_app_url (get : string -> option string) (path : string) : option string :=
  match public_site_url get with
  | None => None
  | Some base => Some (join_origin_and_path base path)
  end.

Definition public_app_url_or_path (get : string -> option string) (path : string) : string :=
  match public_app_url get path with Some url => url | None => path end.
End Policies.

(** ** The local email policy *)

(** [aster_forge_validation]: addresses and policy lists; errors are the
    text of the library's [ValidationError]. *)
Class ForgeEmail : Type := {
  normalize_email : string -> outcome string string;
  normalized_email_and_domain : string -> outcome string (string * string);
  EmailPolicyList : Type;
  no_items : EmailPolicyList;
  from_items_lossy : list string -> EmailPolicyList;
  policy_list_empty : EmailPolicyList -> bool;
  policy_list_matches : EmailPolicyList -> string -> string -> bool
}.

Class ForgeEmailLaws (FE : ForgeEmail) : Prop := {
  normalize_email_idem e e' : normalize_email e = Ok e' -> normalize_email e' = Ok e';
  normalized_email_is_normalize e :
    match normalized_email_and_domain e with
    | Ok (n, _) => normalize_email e = Ok n
    | Err m => normalize_email e = Err m
    | Panic _ => False
    end;
  no_items_empty : policy_list_empty no_items = true;
  no_items_match n d : policy_list_matches no_items n d = false
}.

Module LocalEmailPolicy.
Section Policy.
Context `{FC : ForgeConfig} `{FE : ForgeEmail}.

Record t : Type := mk { allowlist : EmailPolicyList; blocklist : EmailPolicyList }.

Definition read_policy_list (get : string -> option string) (key : string) : EmailPolicyList :=
  match get key with
  | None => no_items
  | Some raw =>
      match parse_string_array raw key with
      | Ok items => from_items_lossy items
      | _ => no_items
      end
  end.

Definition from_runtime_config (get : string -> option string) : t :=
  {| allowlist := read_policy_list get AUTH_LOCAL_EMAIL_ALLOWLIST_KEY;
     blocklist := read_policy_list get AUTH_LOCAL_EMAIL_BLOCKLIST_KEY |}.

Definition email_blocked_error : AsterError.t :=
  AsterError.validation_error_code AsterErrorCode.AuthEmailBlocked
    "email address is blocked by local account policy".

(** [normalized_email_and_domain(email)?] *)
Definition normalized (email : string) : outcome AsterError.t (string * string) :=
  match normalized_email_and_domain email with
  | Ok p => Ok p
  | Err m => Err (AsterError.ValidationError m)
  | Panic m => Panic m
  end.

Definition check (p : t) (email : string) : outcome AsterError.t unit :=
  match normalized email with
  | Ok (n, domain) =>
      if policy_list_matches (blocklist p) n domain then Err email_blocked_error
      else if negb (policy_list_empty (allowlist p))
              && negb (policy_list_matches (allowlist p) n domain)
      then Err (AsterError.validation_error_code AsterErrorCode.AuthEmailNotAllowlisted
                  "email address is not allowed by local account policy")
      else Ok tt
  | Err e => Err e
  | Panic m => Panic m
  end.

Definition check_not_blocked (p : t) (email : string) : outcome AsterError.t unit :=
  match normalized email with
  | Ok (n, domain) =>
      if policy_list_matches (blocklist p) n domain then Err email_blocked_error else Ok tt
  | Err e => Err e
  | Panic m => Panic m
  end.
End Policy.
End LocalEmailPolicy.
