(* ===== verification/Accounts.v ===== *)
(** * Local accounts

    The writes of [db/repository/user_repo.rs], the account validators and
    the ways an account is created ([services/auth_service.rs], its [shared]
    module), what a response shows of an account
    ([services/profile_service/info.rs]) and the mail outbox
    ([services/mail_outbox_service.rs]). *)

From Stdlib Require Import ZArith List Bool Lia Ascii.
From stdpp Require Import base decidable list strings pretty.
From S2P Require Import Prelude Text Errors Types AuditLog World Logic Repos Tokens Auth AuthConfig.

Local Open Scope Z_scope.
Local Open Scope aster_scope.

(** ** Libraries and generators *)

(** [aster_forge_crypto::hash_password] draws its salt at the tick of the
    call; [Uuid::new_v4().to_string()] and
    [aster_forge_utils::id::new_best_effort_uuid] likewise; a [Uuid] is its
    simple text where the code uses that. *)
Class AccountExterns `{EN : Env} `{CB : CacheBackend} : Type := {
  hash_password_at : nat -> string -> outcome string string;
  uuid_v4 : nat -> string;
  best_effort_uuid : string -> (string -> M AsterError.t bool) -> M AsterError.t string;
  gravatar_url : string -> Z -> string -> string
}.

(** A fresh hash verifies; the uuid generator only calls its probe. *)
Class AccountExternLaws `{EN : Env} `{CB : CacheBackend} (AE : AccountExterns)
  `{FC : ForgeCrypto} : Prop := {
  verify_fresh_hash n p h : hash_password_at n p = Ok h -> verify_password p h = Ok true;
  best_effort_uuid_reads label (probe : string -> M AsterError.t bool) :
    (forall c, Reads (probe c)) -> Reads (best_effort_uuid label probe)
}.

(** [chrono]: [Duration::seconds] ([None] is its documented panic) and
    [checked_add_signed]; [t + d] panics where the checked sum is [None]. *)
Class ChronoSeconds : Type := {
  duration_seconds : Z -> option Z;
  checked_add_signed : DateTimeUtc -> Z -> option DateTimeUtc
}.

Class ChronoSecondsLaws (CS : ChronoSeconds) : Prop := {
  duration_seconds_some n d : duration_seconds n = Some d -> d = seconds n;
  checked_add_some t d t' : checked_add_signed t d = Some t' -> t' = t + d
}.

(** [DateTime::timestamp]. *)
Definition timestamp (t : DateTimeUtc) : Z := t / NANOS_PER_SEC.

Section Generators.
Context `{EN : Env} `{CB : CacheBackend} `{AE : !AccountExterns} `{CS : ChronoSeconds}.

(** [hash_password(password)?] *)
Definition hash_password (password : string) : M AsterError.t string :=
  fun w =>
    (match hash_password_at (step w) password with
     | Ok h => Ok h
     | Err e => Err (AsterError.InternalError e)
     | Panic m => Panic m
     end, tick w).

Definition new_uuid {E} : M E string := fun w => (Ok (uuid_v4 (step w)), tick w).

(** [Duration::seconds(n)] and [t + d]. *)
Definition duration {E} (n : Z) : M E Z :=
  match duration_seconds n with
  | Some d => ret d
  | None => panic "TimeDelta::seconds out of bounds"
  end.
Definition add_duration {E} (t : DateTimeUtc) (d : Z) : M E DateTimeUtc :=
  match checked_add_signed t d with
  | Some t' => ret t'
  | None => panic "`DateTime + TimeDelta` overflowed"
  end.

#[global] Instance reads_hash_password p : Reads (hash_password p).
Proof. intros w. apply same_tick. Qed.
#[global] Instance reads_new_uuid {E} : Reads (new_uuid : M E string).
Proof. intros w. apply same_tick. Qed.
#[global] Instance reads_duration {E} n : Reads (duration n : M E Z).
Proof. intros w. unfold duration. destruct (duration_seconds n); apply same_refl. Qed.
#[global] Instance reads_add_duration {E} t d : Reads (add_duration t d : M E DateTimeUtc).
Proof. intros w. unfold add_duration. destruct (checked_add_signed t d); apply same_refl. Qed.
End Generators.

(** ** Validators *)

Definition lift_email {A} (r : outcome string A) : outcome AsterError.t A :=
  match r with
  | Ok a => Ok a
  | Err m => Err (AsterError.ValidationError m)
  | Panic m => Panic m
  end.

(** [c.is_ascii_alphanumeric() || c == '_' || c == '-'] *)
Definition username_char (a : ascii) : bool :=
  is_ascii_alphanumeric a || eqb a "_"%char || eqb a "-"%char.

Definition is_ascii_digit (a : ascii) : bool :=
  (48 <=? Text.code a)%nat && (Text.code a <=? 57)%nat.

Definition validate_username (username : string) : outcome AsterError.t unit :=
  let username := trim username in
  if (str_len username <? 4)%nat
  then Err (AsterError.ValidationError "username must be 4-16 characters")
  else if (16 <? str_len username)%nat
  then Err (AsterError.ValidationError "username must be 4-16 characters")
  else if negb (forallb username_char (bytes username))
  then Err (AsterError.ValidationError
         "username may only contain letters, numbers, underscores and hyphens")
  else Ok tt.

Definition validate_reserved_username (username : string) : outcome AsterError.t unit :=
  match strip_prefix "linuxdo_" (trim username) with
  | None => Ok tt
  | Some subject =>
      if negb (is_empty subject) && forallb is_ascii_digit (bytes subject)
      then Err (AsterError.ValidationError "username is reserved for LinuxDO identities")
      else Ok tt
  end.

Definition validate_password (password : string) : outcome AsterError.t unit :=
  if (str_len password <? 8)%nat
  then Err (AsterError.validation_error_code AsterErrorCode.AuthPasswordPolicyFailed
              "password must be 8-128 characters")
  else if (128 <? str_len password)%nat
  then Err (AsterError.validation_error_code AsterErrorCode.AuthPasswordPolicyFailed
              "password must be 8-128 characters")
  else Ok tt.

Definition validate_email `{FE : ForgeEmail} (email : string) : outcome AsterError.t unit :=
  match lift_email (normalize_email email) with
  | Ok _ => Ok tt
  | Err e => Err e
  | Panic m => Panic m
  end.

Definition require_user_email (u : user) : outcome AsterError.t string :=
  match email u with
  | Some e => Ok e
  | None => Err (AsterError.ValidationError "account does not have an email address")
  end.

(** ** The users table *)

(** The unique indexes of [users]; NULL addresses never conflict. *)
Definition same_email (a b : option string) : bool :=
  match a, b with Some x, Some y => eqb x y | _, _ => false end.

Definition user_conflict (u v : user) : bool :=
  eqb (public_uuid u) (public_uuid v) || eqb (username u) (username v)
  || same_email (email u) (email v).

(** [i64::saturating_add(1)] and the wrapping [+ 1] of a release build. *)
Definition saturating_succ (n : Z) : Z := Z.min (n + 1) I64_MAX.
Definition wrap_i64 (n : Z) : Z := (n + 2 ^ 63) mod 2 ^ 64 - 2 ^ 63.

Module Users.
Section Ops.
Context `{EN : Env} `{CB : CacheBackend} `{AE : !AccountExterns}.

Definition count_all : M AsterError.t Z :=
  db_query (fun d => Z.of_nat (length (rows (users d)))).

Definition find_by_email (address : string) : M AsterError.t (option user) :=
  db_query (fun d => find_row (fun u => eqb (email u) (Some address)) (rows (users d))).

Definition find_by_pending_email (address : string) : M AsterError.t (option user) :=
  db_query (fun d => find_row (fun u => eqb (pending_email u) (Some address)) (rows (users d))).

Definition find_by_username_case_insensitive (name : string) : M AsterError.t (option user) :=
  db_query (fun d =>
    find_row (fun u => eqb (to_ascii_lowercase (username u)) (to_ascii_lowercase name))
             (rows (users d))).

Definition find_by_public_uuid (u : string) : M AsterError.t (option user) :=
  db_query (fun d => find_row (fun r => eqb (public_uuid r) u) (rows (users d))).

Definition unique_public_uuid : M AsterError.t string :=
  best_effort_uuid "user public UUID" (fun candidate =>
    let* found := find_by_public_uuid candidate in ret (is_some found)).

(** [ActiveModel { .. }.insert(db)] *)
Definition insert (mk : Z -> user) : M AsterError.t user :=
  db_insert users set_users user_conflict mk.

(** [active.update(db)]: the changed columns of the row, with the unique
    indexes checked against the other rows. *)
Definition update (id : Z) (f : user -> user) : M AsterError.t user :=
  db_exec (fun d =>
    match update_row user_pk id f (users d) with
    | Some (r, t) =>
        if existsb (fun v => negb (user_pk v =? id) && user_conflict r v) (rows (users d))
        then Err (AsterError.DatabaseOperation unique_violation)
        else Ok (r, set_users t d)
    | None => Err (AsterError.DatabaseOperation record_not_updated)
    end).

Definition create_with_options (name address hash : string) (role : UserRole)
  (status : UserStatus) (must_change : bool) : M AsterError.t user :=
  let* now := utc_now in
  let* public_uuid := unique_public_uuid in
  insert (fun id =>
    mkUser id public_uuid name (Some address) hash role status must_change 1 (Some now) None
           now now).

(** [revoke_sessions_for_user]: the user's sessions that are not revoked. *)
Definition set_session_revoked (now : DateTimeUtc) (s : auth_session) : auth_session :=
  mkSession (session_id s) (session_user_id s) (current_refresh_jti s) (previous_refresh_jti s)
    (refresh_expires_at s) (session_user_agent s) (session_ip_address s) (session_created_at s)
    (session_last_seen_at s) (Some now).
Definition session_active (s : auth_session) : bool := is_none (session_revoked_at s).

Definition revoke_sessions_for_user (user_id : Z) : M AsterError.t Z :=
  let* now := utc_now in
  db_update_many (fun d => auth_sessions (accounts d)) set_auth_sessions
    (fun s => (session_user_id s =? user_id) && session_active s) (set_session_revoked now).

Definition set_session_version (v : Z) (now : DateTimeUtc) (u : user) : user :=
  mkUser (user_pk u) (public_uuid u) (username u) (email u) (password_hash u) (role u)
    (user_status u) (must_change_password u) v (email_verified_at u) (pending_email u)
    (user_created_at u) now.

Definition bump_session_version (user_id : Z) : M AsterError.t unit :=
  let* user := UserRepo.find_by_id user_id in
  let* now := utc_now in
  let* _ := update (user_pk user)
              (set_session_version (wrap_i64 (session_version user + 1)) now) in
  ret tt.
End Ops.
End Users.

(** ** Creating accounts ([auth_service::shared]) *)

Record CreateUserWithRoleInput : Type := mkCreateUser {
  cu_username : string;
  cu_email : string;
  cu_password : string;
  cu_role : UserRole;
  cu_status : UserStatus;
  cu_must_change_password : bool;
  cu_email_verified_at : option DateTimeUtc;
  cu_allow_reserved_linuxdo_username : bool
}.

Section Create.
Context `{EN : Env} `{CB : CacheBackend} `{FE : ForgeEmail} `{AE : !AccountExterns}.

Definition username_exists_error : AsterError.t :=
  AsterError.validation_error_code AsterErrorCode.AuthUsernameExists "username already exists".
Definition email_exists_error : AsterError.t :=
  AsterError.validation_error_code AsterErrorCode.AuthEmailExists "email already exists".

Definition ensure_username_available (name : string) (owner_user_id : option Z)
  : M AsterError.t unit :=
  let* existing := Users.find_by_username_case_insensitive name in
  do* when_ok (is_some_and existing (fun u => negb (eqb (Some (user_pk u)) owner_user_id)))
        username_exists_error in
  let* existing_profile := ProfileRepo.find_by_name name in
  when_ok (is_some_and existing_profile
             (fun p => negb (eqb (Some (profile_user_id p)) owner_user_id)))
    username_exists_error.

Definition ensure_email_available (address : string) (exclude_user_id : option Z)
  : M AsterError.t unit :=
  let* existing := Users.find_by_email address in
  do* when_ok (is_some_and existing (fun u => negb (eqb (Some (user_pk u)) exclude_user_id)))
        email_exists_error in
  let* pending := Users.find_by_pending_email address in
  when_ok (is_some_and pending (fun u => negb (eqb (Some (user_pk u)) exclude_user_id)))
    email_exists_error.

Definition create_user_with_role (input : CreateUserWithRoleInput) : M AsterError.t user :=
  do* lift (validate_username (cu_username input)) in
  do* (if cu_allow_reserved_linuxdo_username input then ret tt
       else lift (validate_reserved_username (cu_username input))) in
  let* address := lift (lift_email (normalize_email (cu_email input))) in
  do* lift (validate_email address) in
  do* lift (validate_password (cu_password input)) in
  do* ensure_username_available (cu_username input) None in
  let* taken := Users.find_by_email address in
  let* taken :=
    (if is_some taken then ret true
     else let* pending := Users.find_by_pending_email address in ret (is_some pending)) in
  do* when_ok taken email_exists_error in
  let* now := utc_now in
  let* public_uuid := Users.unique_public_uuid in
  let* hash := hash_password (cu_password input) in
  Users.insert (fun id =>
    mkUser id public_uuid (cu_username input) (Some address) hash (cu_role input)
      (cu_status input) (cu_must_change_password input) 1 (cu_email_verified_at input) None
      now now).

Definition create_user_without_email_with_role (name password : string) (role : UserRole)
  (status : UserStatus) (must_change allow_reserved : bool) : M AsterError.t user :=
  do* lift (validate_username name) in
  do* (if allow_reserved then ret tt else lift (validate_reserved_username name)) in
  do* lift (validate_password password) in
  do* ensure_username_available name None in
  let* now := utc_now in
  let* public_uuid := Users.unique_public_uuid in
  let* hash := hash_password password in
  Users.insert (fun id =>
    mkUser id public_uuid name None hash role status must_change 1 None None now now).

Definition validate_identity_input (name address password : string)
  : outcome AsterError.t string :=
  match validate_username name with
  | Ok _ =>
      match lift_email (normalize_email address) with
      | Ok e =>
          match validate_password password with
          | Ok _ => Ok e | Err e => Err e | Panic m => Panic m
          end
      | Err e => Err e
      | Panic m => Panic m
      end
  | Err e => Err e
  | Panic m => Panic m
  end.

Definition create_user_with_options (name address password : string) (role : UserRole)
  (status : UserStatus) (must_change : bool) : M AsterError.t user :=
  let* address := lift (validate_identity_input name address password) in
  do* lift (validate_reserved_username name) in
  do* ensure_username_available name None in
  let* hash := hash_password password in
  Users.create_with_options name address hash role status must_change.

Definition create_user (name address password : string) (role : UserRole)
  : M AsterError.t user :=
  create_user_with_options name address password role UserActive false.
End Create.

(** ** What a response shows of an account *)

Inductive AvatarAudience : Type := SelfUser | AdminUser.

Record AvatarInfo : Type := mkAvatar {
  avatar_info_source : AvatarSource;
  url_512 : option string;
  url_1024 : option string;
  avatar_info_version : Z
}.

Record UserProfileInfo : Type := mkProfileInfo {
  info_display_name : option string;
  info_avatar : AvatarInfo
}.

Record AuthUserInfo : Type := mkAuthUser {
  au_id : Z;
  au_username : string;
  au_email : option string;
  au_email_verified : bool;
  au_pending_email : option string;
  au_role : UserRole;
  au_operator_scopes : list OperatorScope;
  au_status : UserStatus;
  au_must_change_password : bool;
  au_profile : UserProfileInfo
}.

Definition AVATAR_SIZE_SM : Z := 512.
Definition AVATAR_SIZE_LG : Z := 1024.

Definition default_user_profile_info : UserProfileInfo :=
  mkProfileInfo None (mkAvatar AvatarNone None None 0).

(** [AuthUserInfo::from] *)
Definition from_user (u : user) : AuthUserInfo :=
  mkAuthUser (user_pk u) (username u) (email u) (is_some (email_verified_at u)) (pending_email u)
    (role u) [] (user_status u) (must_change_password u) default_user_profile_info.

Definition stored_avatar_prefix (profile : option user_profile) : option string :=
  match trim <$> (profile ≫= avatar_key) with
  | Some prefix => if is_empty prefix then None else Some prefix
  | None => None
  end.

Definition avatar_api_path (user_id version size : Z) (audience : AvatarAudience) : string :=
  match audience with
  | SelfUser => "/auth/profile/avatar/" +:+ pretty size +:+ "?v=" +:+ pretty version
  | AdminUser =>
      "/admin/avatars/users/" +:+ pretty user_id +:+ "/" +:+ pretty size +:+ "?v="
        +:+ pretty version
  end.

(** [order_by_asc(Scope)] *)
Definition scope_value_leb (a b : user_operator_scope) : bool :=
  String.leb (operator_scope_value (os_scope a)) (operator_scope_value (os_scope b)).

Section Info.
Context `{EN : Env} `{CB : CacheBackend} `{AE : !AccountExterns}.
Context `{FC : ForgeConfig} `{ST : ConfigStore}.

Definition build_avatar_info (u : user) (profile : option user_profile)
  (audience : AvatarAudience) (gravatar_base_url : string) : AvatarInfo :=
  let source := match profile with Some p => avatar_source p | None => AvatarNone end in
  let version := match profile with Some p => avatar_version p | None => 0 end in
  match source with
  | AvatarNone => mkAvatar source None None version
  | AvatarGravatar =>
      match email u with
      | Some address =>
          mkAvatar source (Some (gravatar_url address AVATAR_SIZE_SM gravatar_base_url))
            (Some (gravatar_url address AVATAR_SIZE_LG gravatar_base_url)) version
      | None => mkAvatar AvatarNone None None version
      end
  | AvatarUpload =>
      let has_upload := is_some (stored_avatar_prefix profile) in
      mkAvatar source
        (if has_upload
         then Some (avatar_api_path (user_pk u) version AVATAR_SIZE_SM audience) else None)
        (if has_upload
         then Some (avatar_api_path (user_pk u) version AVATAR_SIZE_LG audience) else None)
        version
  end.

Definition build_profile_info (u : user) (profile : option user_profile)
  (audience : AvatarAudience) (gravatar_base_url : string) : UserProfileInfo :=
  mkProfileInfo (profile ≫= up_display_name)
    (build_avatar_info u profile audience gravatar_base_url).

Definition get_profile_info (u : user) (audience : AvatarAudience)
  : M AsterError.t UserProfileInfo :=
  let* profile := db_query (fun d =>
    find_row (fun p => up_user_id p =? user_pk u) (rows (user_profiles (accounts d)))) in
  ret (build_profile_info u profile audience (gravatar_base_url_or_default config_get)).

Definition list_operator_scopes_for_user (user_id : Z) : M AsterError.t (list OperatorScope) :=
  db_query (fun d =>
    List.map os_scope
      (sort_by scope_value_leb
        (rows_where (fun s => os_user_id s =? user_id) (rows (operator_scopes (accounts d)))))).

Definition auth_user_operator_scopes (u : user) : M AsterError.t (list OperatorScope) :=
  if negb (eqb (role u) Operator) then ret [] else list_operator_scopes_for_user (user_pk u).

Definition auth_user_info (u : user) : M AsterError.t AuthUserInfo :=
  let* profile := get_profile_info u SelfUser in
  let* scopes := auth_user_operator_scopes u in
  ret (mkAuthUser (user_pk u) (username u) (email u) (is_some (email_verified_at u))
         (pending_email u) (role u) scopes (user_status u) (must_change_password u) profile).

Definition auth_request_user_info (u : user) : M AsterError.t AuthUserInfo :=
  let* scopes := auth_user_operator_scopes u in
  let i := from_user u in
  ret (mkAuthUser (au_id i) (au_username i) (au_email i) (au_email_verified i)
         (au_pending_email i) (au_role i) scopes (au_status i) (au_must_change_password i)
         (au_profile i)).
End Info.

(** ** The mail outbox *)

Section Mail.
Context `{EN : Env} `{CB : CacheBackend}.

(** [enqueue]: one row for the dispatcher, in the caller's transaction. *)
Definition enqueue (address : string) (name : option string) (payload : MailTemplatePayload)
  : M AsterError.t unit :=
  let* now := utc_now in
  db_exec (fun d =>
    Ok (tt, set_mail_outbox (mail_outbox (accounts d) ++ [mkMail address name payload now now]) d)).
End Mail.
