(* ===== verification/WebSessions.v ===== *)
(** * Web sessions

    [db/repository/auth_session_repo.rs] and the session half of
    [services/auth_service.rs]: the access and refresh tokens of the website,
    login, token rotation, logout, the revocation and listing of sessions,
    the resolution of the current user, and the scope of a session that must
    change its password ([auth_service/token_scope.rs]). *)

From Stdlib Require Import ZArith List Bool Lia.
From stdpp Require Import base decidable list strings pretty.
From S2P Require Import Prelude Text Errors Types AuditLog World Logic Repos Tokens Auth AuthConfig Accounts.

Local Open Scope Z_scope.
Local Open Scope aster_scope.

(** ** Pages

    [aster_forge_api::CursorSlice]: the rows of a page, fetched with one row
    more than its limit. *)
Record CursorSlice (A : Type) : Type := mkSlice { items : list A; total : Z; has_more : bool }.
Arguments mkSlice {A} _ _ _.
Arguments items {A} _.
Arguments total {A} _.
Arguments has_more {A} _.

Class ForgeApi : Type := {
  from_overfetch : forall {A}, list A -> Z -> Z -> outcome string (CursorSlice A)
}.

Class ForgeApiLaws (FA : ForgeApi) : Prop := {
  from_overfetch_spec {A} (l : list A) n limit s :
    from_overfetch l n limit = Ok s ->
    s = mkSlice (firstn (Z.to_nat limit) l) n (limit <? Z.of_nat (length l))
}.

(** ** The repository *)
Module SessionRepo.

(** The key and the unique index on [current_refresh_jti]. *)
Definition session_conflict (s t : auth_session) : bool :=
  eqb (session_id s) (session_id t) || eqb (current_refresh_jti s) (current_refresh_jti t).

Definition sessions (d : Db) : Table auth_session := auth_sessions (accounts d).

Definition newest_seen_first (s t : auth_session) : bool :=
  session_last_seen_at t <=? session_last_seen_at s.

(** [order_by_desc(LastSeenAt).order_by_desc(Id)] *)
Definition newest_seen_then_id (s t : auth_session) : bool :=
  (session_last_seen_at t <? session_last_seen_at s)
  || ((session_last_seen_at t =? session_last_seen_at s)
      && String.leb (session_id t) (session_id s)).

(** The row a rotation writes. *)
Definition rotated (next_jti : string) (current_jti : string) (expires_at : DateTimeUtc)
  (ip_address user_agent : option string) (last_seen_at : DateTimeUtc) (s : auth_session)
  : auth_session :=
  mkSession (session_id s) (session_user_id s) next_jti (Some current_jti) expires_at user_agent
    ip_address (session_created_at s) last_seen_at (session_revoked_at s).

Definition has_jti (jti : string) (s : auth_session) : bool := eqb (current_refresh_jti s) jti.

Definition clamp (n lo hi : Z) : Z := Z.max lo (Z.min n hi).

Definition after_cursor (after : option (DateTimeUtc * string)) (s : auth_session) : bool :=
  match after with
  | None => true
  | Some (last_seen_at, id) =>
      (session_last_seen_at s <? last_seen_at)
      || ((session_last_seen_at s =? last_seen_at) && String.ltb (session_id s) id)
  end.

Section Ops.
Context `{EN : Env} `{CB : CacheBackend} `{FA : ForgeApi}.

(** The owner must exist: the foreign key on [user_id]. *)
Definition create (s : auth_session) : M AsterError.t auth_session :=
  db_exec (fun d =>
    if negb (existsb (fun u => user_pk u =? session_user_id s) (rows (users d)))
    then Err (AsterError.DatabaseOperation foreign_key_violation)
    else match insert_row session_conflict (fun _ => s) (sessions d) with
         | Some (r, t) => Ok (r, set_auth_sessions t d)
         | None => Err (AsterError.DatabaseOperation unique_violation)
         end).

Definition find_by_refresh_jti (jti : string) : M AsterError.t (option auth_session) :=
  db_query (fun d => find_row (has_jti jti) (rows (sessions d))).

Definition find_by_previous_refresh_jti (jti : string) : M AsterError.t (option auth_session) :=
  db_query (fun d =>
    find_row (fun s => eqb (previous_refresh_jti s) (Some jti)) (rows (sessions d))).

Definition list_by_user (user_id : Z) : M AsterError.t (list auth_session) :=
  db_query (fun d =>
    sort_by newest_seen_first
      (rows_where (fun s => session_user_id s =? user_id) (rows (sessions d)))).

Definition list_by_user_cursor (user_id limit : Z) (after : option (DateTimeUtc * string))
  : M AsterError.t (CursorSlice auth_session) :=
  let limit := clamp limit 1 100 in
  let* total := db_query (fun d =>
    Z.of_nat (count_where (fun s => session_user_id s =? user_id) (rows (sessions d)))) in
  let* items := db_query (fun d =>
    firstn (Z.to_nat (limit + 1))
      (sort_by newest_seen_then_id
        (rows_where (fun s => (session_user_id s =? user_id) && after_cursor after s)
                    (rows (sessions d))))) in
  lift (match from_overfetch items total limit with
        | Ok s => Ok s
        | Err m => Err (AsterError.ValidationError m)
        | Panic m => Panic m
        end).

Definition list_active_for_user (user_id : Z) : M AsterError.t (list auth_session) :=
  let* now := utc_now in
  db_query (fun d =>
    sort_by newest_seen_first
      (rows_where (fun s => (session_user_id s =? user_id) && Users.session_active s
                            && (now <? refresh_expires_at s)) (rows (sessions d)))).

Definition count_active : M AsterError.t Z :=
  let* now := utc_now in
  db_query (fun d =>
    Z.of_nat (count_where (fun s => Users.session_active s && (now <? refresh_expires_at s))
                (rows (sessions d)))).

Definition find_by_id_for_user (user_id : Z) (id : string)
  : M AsterError.t (option auth_session) :=
  db_query (fun d =>
    find_row (fun s => (session_user_id s =? user_id) && eqb (session_id s) id)
             (rows (sessions d))).

(** [update_many] of the live session with the presented [jti]; a [jti] that
    another row holds violates the unique index. *)
Definition rotate_refresh (current_jti next_jti : string) (expires_at : DateTimeUtc)
  (ip_address user_agent : option string) (last_seen_at : DateTimeUtc) : M AsterError.t bool :=
  db_exec (fun d =>
    let hit s := has_jti current_jti s && Users.session_active s in
    let l := rows (sessions d) in
    if existsb hit l && existsb (fun s => has_jti next_jti s && negb (hit s)) l
    then Err (AsterError.DatabaseOperation unique_violation)
    else
      Ok ((Z.of_nat (count_where hit l) =? 1),
          set_auth_sessions
            (with_rows (update_where hit
                          (rotated next_jti current_jti expires_at ip_address user_agent
                             last_seen_at) l) (sessions d)) d)).

Definition revoke_by_id_for_user (user_id : Z) (id : string) (now : DateTimeUtc)
  : M AsterError.t bool :=
  let* affected := db_update_many sessions set_auth_sessions
    (fun s => (session_user_id s =? user_id) && eqb (session_id s) id && Users.session_active s)
    (Users.set_session_revoked now) in
  ret (affected =? 1).

Definition revoke_by_refresh_jti (jti : string) : M AsterError.t bool :=
  let* now := utc_now in
  let* affected := db_update_many sessions set_auth_sessions
    (fun s => has_jti jti s && Users.session_active s) (Users.set_session_revoked now) in
  ret (affected =? 1).

Definition revoke_all_for_user_except_id (user_id : Z) (keep_session_id : string)
  (now : DateTimeUtc) : M AsterError.t Z :=
  db_update_many sessions set_auth_sessions
    (fun s => (session_user_id s =? user_id) && negb (eqb (session_id s) keep_session_id)
              && Users.session_active s)
    (Users.set_session_revoked now).

Definition delete_expired (now : DateTimeUtc) : M AsterError.t Z :=
  db_delete_many sessions set_auth_sessions (fun s => refresh_expires_at s <? now).
End Ops.
End SessionRepo.

(** ** Claims and tokens *)

Record AccessClaims : Type := mkClaims {
  sub : string;
  claims_user_id : Z;
  claims_session_version : Z;
  jti : option string;
  password_change : bool;
  token_type : TokenType;
  exp : Z
}.

(** [jsonwebtoken] under HS256 with the expiry validated: [encode] signs the
    claims, [decode] answers them, or [None] for an expired signature, or the
    text of any other error. *)
Class Jwt : Type := {
  jwt_encode : string -> AccessClaims -> outcome string string;
  jwt_decode : string -> DateTimeUtc -> string -> AccessClaims + option string
}.

(** The default leeway of [Validation::new]. *)
Definition JWT_LEEWAY_SECS : Z := 60.

(** What was signed is read back until the leeway after [exp] has passed, no
    expired claims are ever returned, and a token's claims do not change with
    time. *)
Class JwtLaws (J : Jwt) : Prop := {
  decode_encode secret c token now :
    jwt_encode secret c = Ok token ->
    jwt_decode secret now token =
      if timestamp now - JWT_LEEWAY_SECS <=? exp c then inl c else inr None;
  decode_unexpired secret token now c :
    jwt_decode secret now token = inl c -> timestamp now - JWT_LEEWAY_SECS <= exp c;
  decode_stable secret token now now' c c' :
    jwt_decode secret now token = inl c -> jwt_decode secret now' token = inl c' -> c = c'
}.

(** The static configuration ([config().auth]). *)
Class AppConfig : Type := { jwt_secret : string }.

(** [aster_forge_utils::numbers::i64_to_u64]. *)
Class ForgeSigned : Type := { i64_to_u64 : Z -> string -> outcome string Z }.
Class ForgeSignedLaws (F : ForgeSigned) : Prop := {
  i64_to_u64_spec n name m : i64_to_u64 n name = Ok m -> m = n /\ 0 <= n
}.

Inductive AuthTokenStatus : Type := Authenticated | PasswordChangeRequired.

Record AuthTokenBundle : Type := mkBundle {
  access_token : string;
  refresh_token : string;
  expires_in : Z;
  bundle_status : AuthTokenStatus;
  bundle_user : AuthUserInfo
}.

Record AuthTokenResponse : Type := mkTokenResponse {
  response_expires_in : Z;
  response_status : AuthTokenStatus
}.
Definition bundle_response (b : AuthTokenBundle) : AuthTokenResponse :=
  mkTokenResponse (expires_in b) (bundle_status b).

Record IssuedTokens : Type := mkIssuedTokens {
  it_access_token : string;
  it_refresh_token : string;
  it_session_id : string;
  it_refresh_jti : string;
  it_refresh_expires_at : DateTimeUtc;
  it_access_expires_in : Z
}.

Record CreatedToken : Type := mkCreated { created_token : string; created_expires_at : DateTimeUtc }.

Record CreateTokenInput : Type := mkTokenInput {
  ti_user_id : Z;
  ti_session_version : Z;
  ti_token_type : TokenType;
  ti_ttl_secs : Z;
  ti_secret : string;
  ti_jti : option string;
  ti_password_change : bool;
  ti_now : DateTimeUtc
}.

Record AuthSessionInfo : Type := mkSessionInfo {
  si_id : string;
  is_current : bool;
  si_user_agent : option string;
  si_ip_address : option string;
  si_created_at : DateTimeUtc;
  si_last_seen_at : DateTimeUtc;
  si_refresh_expires_at : DateTimeUtc;
  si_revoked : bool
}.

(** [AuthSessionInfo::from_model] *)
Definition session_info_from_model (s : auth_session) (current_jti : option string)
  : AuthSessionInfo :=
  mkSessionInfo (session_id s) (is_some_and current_jti (fun j => eqb j (current_refresh_jti s)))
    (session_user_agent s) (session_ip_address s) (session_created_at s)
    (session_last_seen_at s) (refresh_expires_at s) (is_some (session_revoked_at s)).

Definition ensure_token_type (claims : AccessClaims) (expected : TokenType)
  : outcome AsterError.t unit :=
  if negb (eqb (token_type claims) expected)
  then Err (AsterError.AuthTokenInvalid ("not an " +:+ token_type_as_str expected +:+ " token"))
  else Ok tt.

(** ** Requests

    [api/request_auth.rs]: the parts of actix's [HttpRequest] the website
    reads, the cookie first. *)
Record WebRequest : Type := mkWebRequest {
  web_request : HttpRequest;
  method : string;
  path : string;
  access_cookie : option string;
  authorization : option string
}.

Definition bearer_token (req : WebRequest) : option string :=
  authorization req ≫= strip_prefix "Bearer ".

Definition request_access_token (req : WebRequest) : option string :=
  match access_cookie req with Some t => Some t | None => bearer_token req end.

(** [token_scope]: what a session that must change its password may reach. *)
Definition password_change_path_allowed (method path : string) : bool :=
  (eqb method "GET"%string && eqb path "/api/v1/auth/me"%string)
  || (eqb method "PUT"%string && eqb path "/api/v1/auth/password"%string)
  || (eqb method "PUT"%string && eqb path "/api/v1/auth/password/local"%string)
  || (eqb method "POST"%string && eqb path "/api/v1/auth/logout"%string).

Definition password_change_request_allowed (req : WebRequest) : bool :=
  password_change_path_allowed (method req) (path req).

(** ** The service *)

Section Service.
Context `{EN : Env} `{CB : CacheBackend} `{TM : TxnManager} `{FC : ForgeCrypto}.
Context `{FN : ForgeNumbers} `{FS : ForgeSigned} `{AE : !AccountExterns} `{CS : ChronoSeconds}.
Context `{JW : Jwt} `{CF : ForgeConfig} `{ST : ConfigStore} `{RC : RuntimeConfig}.
Context `{AC : AppConfig} `{FA : ForgeApi}.

Abbreviation AM := (M AsterError.t).

Definition user_disabled : AsterError.t :=
  AsterError.auth_forbidden_code AsterErrorCode.AuthUserDisabled "user is disabled".
Definition stale_session : AsterError.t := AsterError.AuthTokenInvalid "session is stale".
Definition password_change_required : AsterError.t :=
  AsterError.auth_forbidden_code AsterErrorCode.AuthPasswordChangeRequired
    "password change required".

(** A conversion's [UtilsError], through [?]. *)
Definition utils {A} (r : outcome string A) : outcome AsterError.t A :=
  match r with
  | Ok a => Ok a
  | Err m => Err (AsterError.InternalError m)
  | Panic m => Panic m
  end.

(** [decode] validates the expiry against the current time. *)
Definition decode_claims (token : string) : AM AccessClaims :=
  let* now := utc_now in
  lift (match jwt_decode jwt_secret now token with
        | inl claims => Ok claims
        | inr None => Err (AsterError.AuthTokenExpired "token expired")
        | inr (Some m) => Err (AsterError.AuthTokenInvalid m)
        end).

Definition decode_access_claims (token : string) : AM AccessClaims :=
  let* claims := decode_claims token in
  do* lift (ensure_token_type claims AccessToken) in
  ret claims.

(** [u64::checked_add] *)
Definition checked_add_u64 (a b : Z) : option Z :=
  if a + b <=? U64_MAX then Some (a + b) else None.

Definition create_token (input : CreateTokenInput) : AM CreatedToken :=
  let* now_secs := lift (utils (i64_to_u64 (timestamp (ti_now input)) "jwt issued-at unix timestamp")) in
  let* exp_secs :=
    lift (match checked_add_u64 now_secs (ti_ttl_secs input) with
          | Some n => Ok n
          | None => Err (AsterError.InternalError
              ("jwt exp overflow: " +:+ pretty now_secs +:+ " + " +:+ pretty (ti_ttl_secs input)))
          end) in
  let* ttl := lift (utils (u64_to_i64 (ti_ttl_secs input) "jwt ttl secs")) in
  let* d := duration ttl in
  let* expires_at :=
    lift (match checked_add_signed (ti_now input) d with
          | Some t => Ok t
          | None => Err (AsterError.InternalError "jwt expires_at overflow")
          end) in
  let* exp := lift (utils (u64_to_usize exp_secs "jwt exp")) in
  let claims := mkClaims (pretty (ti_user_id input)) (ti_user_id input) (ti_session_version input)
                  (ti_jti input) (ti_password_change input) (ti_token_type input) exp in
  let* token := lift (utils (jwt_encode (ti_secret input) claims)) in
  ret (mkCreated token expires_at).

Definition create_token_pair (user_id session_version : Z) (sid : option string)
  (password_change : bool) : AM IssuedTokens :=
  let* now := utc_now in
  let policy := auth_policy config_get in
  let* access := create_token
    (mkTokenInput user_id session_version AccessToken (access_token_ttl_secs policy) jwt_secret
       None password_change now) in
  let* refresh_jti := new_uuid in
  let* refresh := create_token
    (mkTokenInput user_id session_version RefreshToken (refresh_token_ttl_secs policy) jwt_secret
       (Some refresh_jti) password_change now) in
  let* sid := match sid with Some id => ret id | None => new_uuid end in
  ret (mkIssuedTokens (created_token access) (created_token refresh) sid refresh_jti
         (created_expires_at refresh) (access_token_ttl_secs policy)).

Definition persist_auth_session (user_id : Z) (tokens : IssuedTokens) (req : HttpRequest)
  : AM auth_session :=
  let* now := utc_now in
  SessionRepo.create
    (mkSession (it_session_id tokens) user_id (it_refresh_jti tokens) None
       (it_refresh_expires_at tokens) (req_user_agent req) (req_peer_ip req) now now None).

Definition issue_tokens (u : user) (req : HttpRequest) : AM AuthTokenBundle :=
  let must_change := must_change_password u in
  let* tokens := create_token_pair (user_pk u) (session_version u) None must_change in
  let* _ := persist_auth_session (user_pk u) tokens req in
  ret (mkBundle (it_access_token tokens) (it_refresh_token tokens) (it_access_expires_in tokens)
         (if must_change then PasswordChangeRequired else Authenticated) (from_user u)).

Definition issue_tokens_for_user_id (user_id : Z) (req : HttpRequest) : AM AuthTokenBundle :=
  let* u := UserRepo.find_by_id user_id in
  issue_tokens u req.

(** [a.or_else(|| b)] *)
Definition or_else {A} (a b : option A) : option A := match a with Some _ => a | None => b end.

Definition rotate_tokens (u : user) (session : auth_session) (req : HttpRequest)
  : AM AuthTokenBundle :=
  let* tokens := create_token_pair (user_pk u) (session_version u) (Some (session_id session))
                   false in
  let next_ip := or_else (req_peer_ip req) (session_ip_address session) in
  let next_user_agent := or_else (req_user_agent req) (session_user_agent session) in
  let* now := utc_now in
  let* rotated := SessionRepo.rotate_refresh (current_refresh_jti session) (it_refresh_jti tokens)
    (it_refresh_expires_at tokens) next_ip next_user_agent now in
  do* when_ok (negb rotated) (AsterError.AuthTokenInvalid "refresh token is stale") in
  ret (mkBundle (it_access_token tokens) (it_refresh_token tokens) (it_access_expires_in tokens)
         Authenticated (from_user u)).

Definition login (identifier password : string) (req : HttpRequest) : AM AuthTokenBundle :=
  do* when_ok (negb (allow_local_login (auth_policy config_get)))
        (AsterError.auth_forbidden_code AsterErrorCode.AuthLocalLoginDisabled
           "local password login is disabled by administrator policy") in
  let* found := UserRepo.find_by_identifier identifier in
  match found with
  | None => throw (AsterError.AuthInvalidCredentials "invalid credentials")
  | Some u =>
      do* when_ok (negb (is_active_user (user_status u))) user_disabled in
      do* when_ok (negb (is_email_activation_satisfied u))
            (AsterError.auth_pending_activation "account email activation is pending") in
      let* verified := lift (utils (verify_password password (password_hash u))) in
      do* when_ok (negb verified) (AsterError.AuthInvalidCredentials "invalid credentials") in
      let* response := issue_tokens u req in
      do* AuditService.log_with_details (AuditService.from_request req (user_pk u))
            AuditAction.UserLogin AuthSession None (Some (username u)) in
      ret response
  end.

(** The checks of [refresh] up to the user and the session it rotates. *)
Definition refresh_check (token : string) : AM (user * auth_session) :=
  let* claims := decode_claims token in
  do* lift (ensure_token_type claims RefreshToken) in
  match jti claims with
  | None => throw (AsterError.AuthTokenInvalid "refresh token missing jti")
  | Some refresh_jti =>
      let* found := SessionRepo.find_by_refresh_jti refresh_jti in
      match (match found with
             | Some s => if Users.session_active s then Some s else None
             | None => None
             end) with
      | None =>
          let* reused := SessionRepo.find_by_previous_refresh_jti refresh_jti in
          if is_some reused then throw (AsterError.AuthTokenInvalid "refresh token is stale")
          else throw (AsterError.AuthTokenInvalid "invalid refresh token")
      | Some session =>
          let* now := utc_now in
          do* when_ok (refresh_expires_at session <=? now)
                (AsterError.AuthTokenExpired "refresh token expired") in
          do* when_ok (negb (session_user_id session =? claims_user_id claims))
                (AsterError.AuthTokenInvalid "invalid refresh token") in
          let* u := UserRepo.find_by_id (claims_user_id claims) in
          do* when_ok (negb (is_active_user (user_status u))) user_disabled in
          do* when_ok (negb (claims_session_version claims =? session_version u))
                stale_session in
          do* when_ok (must_change_password u || password_change claims)
                password_change_required in
          ret (u, session)
      end
  end.

Definition refresh (token : string) (req : HttpRequest) : AM AuthTokenBundle :=
  let* found := refresh_check token in
  let '(u, session) := found in
  let* response := rotate_tokens u session req in
  do* AuditService.log_with_details (AuditService.from_request req (user_pk u))
        AuditAction.UserRefreshToken AuthSession None (Some (username u)) in
  ret response.

Definition logout (token : string) (req : HttpRequest) : AM bool :=
  let* decoded := catch (decode_claims token) in
  match decoded with
  | inr (AsterError.AuthTokenExpired _) | inr (AsterError.AuthTokenInvalid _) => ret false
  | inr error => throw error
  | inl claims =>
      if negb (is_ok (ensure_token_type claims RefreshToken)) then ret false
      else match jti claims with
      | None => ret false
      | Some refresh_jti =>
          let* session := SessionRepo.find_by_refresh_jti refresh_jti in
          let* revoked := SessionRepo.revoke_by_refresh_jti refresh_jti in
          do* (if revoked
               then AuditService.log_with_details
                      (AuditService.from_request req
                         (match session with
                          | Some s => session_user_id s
                          | None => claims_user_id claims
                          end))
                      AuditAction.UserLogout AuthSession None None
               else ret tt) in
          ret revoked
      end
  end.

Definition refresh_jti_from_token (token : string) : AM string :=
  let* claims := decode_claims token in
  do* lift (ensure_token_type claims RefreshToken) in
  match jti claims with
  | Some j => ret j
  | None => throw (AsterError.AuthTokenInvalid "refresh token missing jti")
  end.

Definition optional_refresh_jti_from_token (token : option string) : AM (option string) :=
  match token with
  | None => ret None
  | Some token =>
      let* r := catch (refresh_jti_from_token token) in
      ret (match r with inl j => Some j | inr _ => None end)
  end.

Definition revoke_session (user_id : Z) (sid : string) (current_token : option string)
  (req : HttpRequest) : AM bool :=
  let* current_jti := optional_refresh_jti_from_token current_token in
  let* revoked_current := with_transaction (
    let* session := SessionRepo.find_by_id_for_user user_id sid in
    let* session := lift (ok_or (AsterError.record_not_found_code AsterErrorCode.AuthSessionNotFound
                              ("auth session '" +:+ sid +:+ "'")) session) in
    let revoked_current := is_some_and current_jti (fun j => eqb j (current_refresh_jti session)) in
    let* now := utc_now in
    let* _ := SessionRepo.revoke_by_id_for_user user_id sid now in
    ret revoked_current) in
  do* AuditService.log_with_details (AuditService.from_request req user_id)
        AuditAction.UserRevokeSession AuthSession None (Some sid) in
  ret revoked_current.

Definition missing_current_session : AsterError.t :=
  AsterError.AuthTokenInvalid "missing current session".

Definition revoke_other_sessions (user_id : Z) (current_token : string) (req : HttpRequest)
  : AM Z :=
  let* current_jti := refresh_jti_from_token current_token in
  let* removed := with_transaction (
    let* found := SessionRepo.find_by_refresh_jti current_jti in
    let* current := lift (ok_or missing_current_session found) in
    do* when_ok (negb (session_user_id current =? user_id))
          (AsterError.auth_forbidden_code AsterErrorCode.AuthSessionRevocationFailed
             "current session does not belong to user") in
    do* when_ok (is_some (session_revoked_at current)) missing_current_session in
    let* now := utc_now in
    SessionRepo.revoke_all_for_user_except_id user_id (session_id current) now) in
  do* AuditService.log_with_details (AuditService.from_request req user_id)
        AuditAction.UserRevokeOtherSessions AuthSession None None in
  ret removed.

Definition current_user_and_claims_from_token (token : string) : AM (user * AccessClaims) :=
  let* claims := decode_access_claims token in
  let* u := UserRepo.find_by_id (claims_user_id claims) in
  do* when_ok (negb (is_active_user (user_status u))) user_disabled in
  do* when_ok (negb (session_version u =? claims_session_version claims)) stale_session in
  do* when_ok (must_change_password u && negb (password_change claims))
        (AsterError.AuthTokenInvalid "password change required") in
  do* when_ok (negb (must_change_password u) && password_change claims)
        (AsterError.AuthTokenInvalid "password change session is no longer valid") in
  ret (u, claims).

Definition current_user_from_token (token : string) : AM user :=
  let* found := current_user_and_claims_from_token token in
  ret (fst found).

Definition current_user (req : WebRequest) : AM user :=
  let* token := lift (ok_or (AsterError.AuthTokenInvalid "missing access token")
                        (request_access_token req)) in
  let* found := current_user_and_claims_from_token token in
  let '(u, claims) := found in
  do* when_ok (password_change claims && negb (password_change_request_allowed req))
        password_change_required in
  ret u.

Definition list_sessions (user_id : Z) (current_token : option string)
  : AM (list AuthSessionInfo) :=
  let* current_jti := optional_refresh_jti_from_token current_token in
  let* sessions := SessionRepo.list_by_user user_id in
  ret (List.map (fun s => session_info_from_model s current_jti) sessions).

Record SessionPage : Type := mkSessionPage {
  page_items : list AuthSessionInfo;
  page_total : Z;
  page_limit : Z;
  page_next : option (DateTimeUtc * string)
}.

Definition list_sessions_cursor (user_id : Z) (current_token : option string) (limit : Z)
  (cursor : option (DateTimeUtc * string)) : AM SessionPage :=
  let* current_jti := optional_refresh_jti_from_token current_token in
  let limit := SessionRepo.clamp limit 1 100 in
  let* page := SessionRepo.list_by_user_cursor user_id limit cursor in
  let next :=
    if has_more page
    then (fun s => (session_last_seen_at s, session_id s)) <$> last (items page)
    else None in
  ret (mkSessionPage
         (List.map (fun s => session_info_from_model s current_jti) (items page))
         (total page) limit next).

Definition cleanup_expired_auth_sessions : AM Z :=
  let* now := utc_now in
  SessionRepo.delete_expired now.
End Service.
