(* ===== verification/AccountFlows.v ===== *)
(** * Registration, verification and passwords

    [db/repository/contact_verification_token_repo.rs] and the account flows
    of [services/auth_service.rs] and [auth_service/password_change.rs]:
    first-admin setup, registration and its activation, email changes,
    password resets and password changes. *)

From Stdlib Require Import ZArith List Bool Lia.
From stdpp Require Import base decidable list strings pretty.
From S2P Require Import Prelude Text Errors Types AuditLog World Logic Repos Tokens Auth AuthConfig Accounts WebSessions.

Local Open Scope Z_scope.
Local Open Scope aster_scope.

(** ** The repository *)
Module VerificationRepo.

Definition tokens (d : Db) : Table contact_verification_token := verification_tokens (accounts d).

Definition unconsumed (t : contact_verification_token) : bool := is_none (consumed_at t).

Definition same_slot (t u : contact_verification_token) : bool :=
  (verification_user_id t =? verification_user_id u)
  && eqb (verification_channel t) (verification_channel u)
  && eqb (verification_purpose t) (verification_purpose u).

(** The unique index on [token_hash] and the one that keeps a single
    unconsumed token per user, channel and purpose. *)
Definition verification_conflict (t u : contact_verification_token) : bool :=
  eqb (verification_token_hash t) (verification_token_hash u)
  || (unconsumed t && unconsumed u && same_slot t u).

Definition of_slot (user_id : Z) (channel : VerificationChannel) (purpose : VerificationPurpose)
  (t : contact_verification_token) : bool :=
  (verification_user_id t =? user_id) && eqb (verification_channel t) channel
  && eqb (verification_purpose t) purpose.

Definition newest_created_first (t u : contact_verification_token) : bool :=
  verification_created_at u <=? verification_created_at t.

Definition set_consumed (now : DateTimeUtc) (t : contact_verification_token)
  : contact_verification_token :=
  mkVerification (verification_pk t) (verification_user_id t) (verification_channel t)
    (verification_purpose t) (verification_target t) (verification_token_hash t)
    (verification_expires_at t) (Some now) (verification_created_at t).

Section Ops.
Context `{EN : Env} `{CB : CacheBackend}.

(** The user must exist: the foreign key on [user_id]. *)
Definition create (mk : Z -> contact_verification_token)
  : M AsterError.t contact_verification_token :=
  db_exec (fun d =>
    if negb (existsb (fun u => user_pk u =? verification_user_id (mk (next_pk (tokens d))))
                     (rows (users d)))
    then Err (AsterError.DatabaseOperation foreign_key_violation)
    else match insert_row verification_conflict mk (tokens d) with
         | Some (r, t) => Ok (r, set_verification_tokens t d)
         | None => Err (AsterError.DatabaseOperation unique_violation)
         end).

Definition find_by_token_hash (hash : string)
  : M AsterError.t (option contact_verification_token) :=
  db_query (fun d => find_row (fun t => eqb (verification_token_hash t) hash) (rows (tokens d))).

Definition find_latest_active_for_user (user_id : Z) (channel : VerificationChannel)
  (purpose : VerificationPurpose) : M AsterError.t (option contact_verification_token) :=
  let* now := utc_now in
  db_query (fun d =>
    head (sort_by newest_created_first
      (rows_where (fun t => of_slot user_id channel purpose t && unconsumed t
                            && (now <? verification_expires_at t)) (rows (tokens d))))).

Definition delete_active_for_user (user_id : Z) (channel : VerificationChannel)
  (purpose : VerificationPurpose) : M AsterError.t unit :=
  let* _ := db_delete_many tokens set_verification_tokens
    (fun t => of_slot user_id channel purpose t && unconsumed t) in
  ret tt.

Definition mark_consumed_if_unused (id : Z) : M AsterError.t bool :=
  let* now := utc_now in
  let* affected := db_update_many tokens set_verification_tokens
    (fun t => (verification_pk t =? id) && unconsumed t) (set_consumed now) in
  ret (affected =? 1).

Definition delete_expired : M AsterError.t Z :=
  let* now := utc_now in
  db_delete_many tokens set_verification_tokens (fun t => verification_expires_at t <? now).
End Ops.
End VerificationRepo.

(** [external_auth_identity_repo::exists_for_user] *)
Definition identity_exists_for_user `{EN : Env} `{CB : CacheBackend} (user_id : Z)
  : M AsterError.t bool :=
  let* count := db_query (fun d =>
    Z.of_nat (count_where (fun i => identity_user_id i =? user_id)
                (rows (external_identities (accounts d))))) in
  ret (0 <? count).

(** The system configuration store and the URL normaliser of first-admin
    setup: [serde_json], [aster_forge_utils::url] and
    [system_config_repo::upsert_with_options] with [runtime_config().apply],
    which write the configuration table only. *)
Class SetupExterns `{EN : Env} `{CB : CacheBackend} : Type := {
  origins_to_json : list string -> outcome string string;
  normalize_public_site_origins : string -> outcome string string;
  save_system_config : string -> string -> option Z -> M AsterError.t unit
}.

Class SetupExternLaws `{EN : Env} `{CB : CacheBackend} (SE : SetupExterns) : Prop := {
  save_system_config_reads k v by_user :: Reads (save_system_config k v by_user)
}.

Inductive RegisterOutcome : Type :=
| RegisterAuthenticated (bundle : AuthTokenBundle)
| RegisterPendingActivation (info : AuthUserInfo).

Record RegisterResponse : Type := mkRegisterResponse {
  register_expires_in : Z;
  requires_activation : bool
}.

Definition register_response (o : RegisterOutcome) : RegisterResponse :=
  match o with
  | RegisterAuthenticated bundle => mkRegisterResponse (expires_in bundle) false
  | RegisterPendingActivation _ => mkRegisterResponse 0 true
  end.

Record ContactVerificationConfirmResult : Type := mkConfirmResult {
  confirmed_purpose : VerificationPurpose;
  confirmed_user_id : Z;
  confirmed_target : string
}.

Inductive RegisterActivationResendOutcome : Type :=
| ResendSent (info : AuthUserInfo)
| EmailNotFound
| AlreadyActive
| AccountDisabled
| Cooldown
| EmailPolicyRejected.

(** ** Columns the flows write *)

Definition set_password (hash : string) (version : Z) (now : DateTimeUtc) (u : user) : user :=
  mkUser (user_pk u) (public_uuid u) (username u) (email u) hash (role u) (user_status u) false
    version (email_verified_at u) (pending_email u) (user_created_at u) now.

Definition set_pending_email (address : string) (now : DateTimeUtc) (u : user) : user :=
  mkUser (user_pk u) (public_uuid u) (username u) (email u) (password_hash u) (role u)
    (user_status u) (must_change_password u) (session_version u) (email_verified_at u)
    (Some address) (user_created_at u) now.

Definition set_email_verified (now : DateTimeUtc) (u : user) : user :=
  mkUser (user_pk u) (public_uuid u) (username u) (email u) (password_hash u) (role u)
    (user_status u) (must_change_password u) (session_version u) (Some now) (pending_email u)
    (user_created_at u) now.

Definition set_confirmed_email (address : string) (now : DateTimeUtc) (u : user) : user :=
  mkUser (user_pk u) (public_uuid u) (username u) (Some address) (password_hash u) (role u)
    (user_status u) (must_change_password u) (session_version u) (Some now) None
    (user_created_at u) now.

Section Flows.
Context `{EN : Env} `{CB : CacheBackend} `{TM : TxnManager} `{FC : ForgeCrypto}.
Context `{FN : ForgeNumbers} `{FS : ForgeSigned} `{AE : !AccountExterns} `{CS : ChronoSeconds}.
Context `{JW : Jwt} `{CF : ForgeConfig} `{ST : ConfigStore} `{RC : RuntimeConfig}.
Context `{AC : AppConfig} `{FE : ForgeEmail} `{SE : !SetupExterns}.

Abbreviation AM := (M AsterError.t).

Definition email_policy : LocalEmailPolicy.t := LocalEmailPolicy.from_runtime_config config_get.
Definition site_name : string := title_or_default config_get.

(** ** Issuing a verification token *)

(** [mail_service::build_verification_token] *)
Definition build_verification_token : AM string :=
  let* t := new_short_token in ret ("cv_" +:+ t).

Definition issue_contact_verification_token (user_id : Z) (purpose : VerificationPurpose)
  (target : string) (ttl_secs : Z) : AM string :=
  let* now := utc_now in
  let* token := build_verification_token in
  let token_hash := sha256_hex token in
  do* VerificationRepo.delete_active_for_user user_id EmailChannel purpose in
  let* ttl := lift (utils (u64_to_i64 ttl_secs "contact verification ttl")) in
  let* d := duration ttl in
  let* expires_at := add_duration now d in
  let* _ := VerificationRepo.create (fun id =>
    mkVerification id user_id EmailChannel purpose target token_hash expires_at None now) in
  ret token.

(** [latest.created_at + cooldown <= Utc::now()] for the latest unconsumed
    token of the purpose. *)
Definition cooldown_passed (user_id : Z) (purpose : VerificationPurpose) (secs : Z)
  (name : string) : AM bool :=
  let* latest := VerificationRepo.find_latest_active_for_user user_id EmailChannel purpose in
  match latest with
  | None => ret true
  | Some latest =>
      let* n := lift (utils (u64_to_i64 secs name)) in
      let* cooldown := duration n in
      let* ready := add_duration (verification_created_at latest) cooldown in
      let* now := utc_now in
      ret (ready <=? now)
  end.

Definition password_reset_request_allowed (user_id : Z) : AM bool :=
  cooldown_passed user_id PasswordReset
    (password_reset_request_cooldown_secs (contact_policy config_get))
    "password reset request cooldown".

Definition register_activation_resend_allowed (user_id : Z) : AM bool :=
  cooldown_passed user_id RegisterActivation (resend_cooldown_secs (contact_policy config_get))
    "contact verification resend cooldown".

(** ** Setup and registration *)

Definition normalize_public_site_url_config_value (value : string) : outcome AsterError.t string :=
  match normalize_public_site_origins value with
  | Ok v => Ok v
  | Err m => Err (AsterError.ValidationError m)
  | Panic m => Panic m
  end.

(** [public_site_url.map(str::trim).filter(|value| !value.is_empty())] and
    its normal form. *)
Definition setup_site_url (public_site_url : option string) : AM (option string) :=
  match trim <$> public_site_url with
  | Some origin =>
      if is_empty origin then ret None
      else
        let* json := lift (match origins_to_json [origin] with
          | Ok j => Ok j
          | Err m => Err (AsterError.InternalError
              ("failed to serialize setup public_site_url: " +:+ m))
          | Panic m => Panic m
          end) in
        let* value := lift (normalize_public_site_url_config_value json) in
        ret (Some value)
  | None => ret None
  end.

Definition setup_first_admin (name address password : string) (public_site_url : option string)
  (req : HttpRequest) : AM AuthTokenBundle :=
  let* n := Users.count_all in
  do* when_ok (0 <? n)
        (AsterError.validation_error_code AsterErrorCode.AuthSetupAlreadyCompleted
           "system is already initialized") in
  let* site_url := setup_site_url public_site_url in
  let* _ := lift (validate_identity_input name address password) in
  let* u := create_user name address password Admin in
  do* (match site_url with
       | Some value => save_system_config PUBLIC_SITE_URL_KEY value (Some (user_pk u))
       | None => ret tt
       end) in
  let* response := issue_tokens u req in
  do* AuditService.log_with_details (AuditService.from_request req (user_pk u))
        AuditAction.SystemSetup UserEntity (Some (user_pk u)) (Some (username u)) in
  ret response.

(** The account of a registration that must be activated: the user, its
    activation token and the mail, in one transaction. *)
Definition register_with_activation (name address password : string) (role : UserRole)
  : AM user :=
  with_transaction (
    let* u := create_user_with_role
      (mkCreateUser name address password role UserActive false None false) in
    let* address := lift (require_user_email u) in
    let* token := issue_contact_verification_token (user_pk u) RegisterActivation address
                    (register_activation_ttl_secs (contact_policy config_get)) in
    do* enqueue address (Some (username u))
          (MailRegisterActivation (username u) token site_name) in
    ret u).

Definition registration_disabled (message : string) : AsterError.t :=
  AsterError.auth_forbidden_code AsterErrorCode.AuthRegistrationDisabled message.

Definition register (name address password : string) (req : HttpRequest) : AM RegisterOutcome :=
  let policy := auth_policy config_get in
  do* when_ok (negb (allow_user_registration policy))
        (registration_disabled "registration is disabled") in
  do* when_ok (negb (allow_local_registration policy))
        (registration_disabled "local registration is disabled") in
  do* lift (LocalEmailPolicy.check email_policy address) in
  let* n := Users.count_all in
  let is_first_user := n =? 0 in
  let role := if is_first_user then Admin else User in
  let activation_required := register_activation_enabled policy && negb is_first_user in
  let* u := (if activation_required then register_with_activation name address password role
             else create_user name address password role) in
  do* AuditService.log_with_details (AuditService.from_request req (user_pk u))
        AuditAction.UserRegister UserEntity (Some (user_pk u)) (Some (username u)) in
  if activation_required then ret (RegisterPendingActivation (from_user u))
  else let* response := issue_tokens u req in ret (RegisterAuthenticated response).

Definition resend_register_activation (identifier : string)
  : AM RegisterActivationResendOutcome :=
  let* found := UserRepo.find_by_identifier identifier in
  match found with
  | None => ret EmailNotFound
  | Some u =>
      if negb (is_active_user (user_status u)) then ret AccountDisabled
      else if is_email_verified u then ret AlreadyActive
      else
        let* address := lift (require_user_email u) in
        if negb (is_ok (LocalEmailPolicy.check email_policy address))
        then ret EmailPolicyRejected
        else
          let* allowed := register_activation_resend_allowed (user_pk u) in
          if negb allowed then ret Cooldown
          else
            do* with_transaction (
              let* address := lift (require_user_email u) in
              let* token := issue_contact_verification_token (user_pk u) RegisterActivation
                              address (register_activation_ttl_secs (contact_policy config_get)) in
              enqueue address (Some (username u))
                (MailRegisterActivation (username u) token site_name)) in
            ret (ResendSent (from_user u))
  end.

(** ** Email changes *)

Definition activate_before_email_change : AsterError.t :=
  AsterError.auth_forbidden_code AsterErrorCode.AuthPendingActivation
    "account must be activated before changing email".

Definition send_email_change (u : user) (address : string) : AM unit :=
  let* token := issue_contact_verification_token (user_pk u) ContactChange address
                  (contact_change_ttl_secs (contact_policy config_get)) in
  enqueue address (Some (username u))
    (MailContactChangeConfirmation (username u) token site_name).

Definition request_email_change (user_id : Z) (new_email : string) : AM AuthUserInfo :=
  let* address := lift (lift_email (normalize_email new_email)) in
  let* existing := UserRepo.find_by_id user_id in
  do* when_ok (negb (is_active_user (user_status existing))) user_disabled in
  do* when_ok (negb (is_email_activation_satisfied existing)) activate_before_email_change in
  do* when_ok (eqb (email existing) (Some address))
        (AsterError.ValidationError "new email must be different from current email") in
  do* lift (LocalEmailPolicy.check email_policy address) in
  do* ensure_email_available address (Some (user_pk existing)) in
  do* (if eqb (pending_email existing) (Some address)
       then let* allowed := register_activation_resend_allowed (user_pk existing) in
            when_ok (negb allowed)
              (AsterError.rate_limited "please wait before resending verification email")
       else ret tt) in
  let* updated := with_transaction (
    let* now := utc_now in
    let* updated := Users.update (user_pk existing) (set_pending_email address now) in
    do* send_email_change updated address in
    ret updated) in
  auth_user_info updated.

Definition resend_email_change (user_id : Z) : AM (option AuthUserInfo) :=
  let* u := UserRepo.find_by_id user_id in
  let* pending := lift (ok_or (AsterError.ValidationError "no pending email change request")
                          (pending_email u)) in
  do* when_ok (negb (is_active_user (user_status u))) user_disabled in
  do* when_ok (negb (is_email_activation_satisfied u)) activate_before_email_change in
  do* lift (LocalEmailPolicy.check_not_blocked email_policy pending) in
  do* ensure_email_available pending (Some (user_pk u)) in
  let* allowed := register_activation_resend_allowed (user_pk u) in
  if negb allowed then ret None
  else
    do* with_transaction (send_email_change u pending) in
    let* info := auth_user_info u in
    ret (Some info).

(** ** Passwords *)

Definition update_password_in_connection (u : user) (new_password : string) : AM user :=
  do* lift (validate_password new_password) in
  let* hash := hash_password new_password in
  let* now := utc_now in
  Users.update (user_pk u) (set_password hash (saturating_succ (session_version u)) now).

Definition request_password_reset (address : string) : AM (option AuthUserInfo) :=
  let* address := lift (lift_email (normalize_email address)) in
  let* found := Users.find_by_email address in
  match found with
  | None => ret None
  | Some u =>
      if negb (is_active_user (user_status u)) || negb (is_email_verified u) then ret None
      else
        let* allowed := password_reset_request_allowed (user_pk u) in
        if negb allowed then let* info := auth_user_info u in ret (Some info)
        else
          do* with_transaction (
            let* address := lift (require_user_email u) in
            let* token := issue_contact_verification_token (user_pk u) PasswordReset address
                            (password_reset_ttl_secs (contact_policy config_get)) in
            enqueue address (Some (username u))
              (MailPasswordReset (username u) token site_name)) in
          let* info := auth_user_info u in
          ret (Some info)
  end.

(** The guards on a presented token, shared by the two confirmations. *)
Definition reset_link_invalid : AsterError.t :=
  AsterError.contact_verification_invalid "password reset link is invalid".
Definition reset_link_used : AsterError.t :=
  AsterError.contact_verification_invalid "password reset link has already been used".

Definition reset_in_txn (record : contact_verification_token) (new_password : string)
  : AM user :=
  let* existing := UserRepo.find_by_id (verification_user_id record) in
  do* when_ok (negb (is_active_user (user_status existing))) user_disabled in
  do* when_ok (negb (is_email_verified existing)
               || negb (eqb (email existing) (Some (verification_target record))))
        (AsterError.contact_verification_invalid "password reset request no longer exists") in
  let* consumed := VerificationRepo.mark_consumed_if_unused (verification_pk record) in
  do* when_ok (negb consumed) reset_link_used in
  let* updated := update_password_in_connection existing new_password in
  let* address := lift (require_user_email updated) in
  do* enqueue address (Some (username updated))
        (MailPasswordResetNotice (username updated) site_name) in
  ret updated.

Definition confirm_password_reset (token new_password : string) : AM AuthUserInfo :=
  do* lift (validate_password new_password) in
  let token_hash := sha256_hex token in
  let* found := VerificationRepo.find_by_token_hash token_hash in
  let* record := lift (ok_or reset_link_invalid found) in
  do* when_ok (negb (eqb (verification_purpose record) PasswordReset)) reset_link_invalid in
  do* when_ok (is_some (consumed_at record)) reset_link_used in
  let* now := utc_now in
  do* when_ok (verification_expires_at record <=? now)
        (AsterError.contact_verification_expired "password reset link has expired") in
  let* updated := with_transaction (reset_in_txn record new_password) in
  auth_user_info updated.

(** [verify_password(..)?] *)
Definition check_hash (password hash : string) : AM bool :=
  lift (utils (verify_password password hash)).

Definition same_password : AsterError.t :=
  AsterError.ValidationError "new password must be different from current password".

Definition verify_change_password_input (user_id : Z) (current_password new_password : string)
  : AM user :=
  let* u := UserRepo.find_by_id user_id in
  do* when_ok (negb (is_active_user (user_status u))) user_disabled in
  do* when_ok (negb (is_email_activation_satisfied u))
        (AsterError.auth_forbidden_code AsterErrorCode.AuthPendingActivation
           "account email activation is pending") in
  let* verified := check_hash current_password (password_hash u) in
  do* when_ok (negb verified) (AsterError.AuthInvalidCredentials "wrong password") in
  do* when_ok (eqb current_password new_password) same_password in
  ret u.

Definition verify_set_local_password_input (user_id : Z) (new_password : string) : AM user :=
  let* u := UserRepo.find_by_id user_id in
  do* when_ok (negb (is_active_user (user_status u))) user_disabled in
  let* external := identity_exists_for_user user_id in
  do* when_ok (negb external)
        (AsterError.auth_forbidden_code AsterErrorCode.Forbidden
           "local password setup is only allowed for external auth accounts") in
  let* verified := check_hash new_password (password_hash u) in
  do* when_ok verified same_password in
  ret u.

(** The transaction both changes share: the new password, and every session
    of the user revoked. *)
Definition replace_password (verified : AM user) (new_password : string) : AM user :=
  let* u := verified in
  let* updated := update_password_in_connection u new_password in
  let* _ := Users.revoke_sessions_for_user (user_pk updated) in
  ret updated.

Definition change_password (user_id : Z) (current_password new_password : string)
  : AM AuthUserInfo :=
  let* updated := with_transaction
    (replace_password (verify_change_password_input user_id current_password new_password)
       new_password) in
  auth_user_info updated.

Definition set_local_password (user_id : Z) (new_password : string) : AM AuthUserInfo :=
  let* updated := with_transaction
    (replace_password (verify_set_local_password_input user_id new_password) new_password) in
  auth_user_info updated.

Definition audit_password_change (req : HttpRequest) (info : AuthUserInfo) : AM unit :=
  AuditService.log_with_details (AuditService.from_request req (au_id info))
    AuditAction.UserChangePassword UserEntity (Some (au_id info)) (Some (au_username info)).

Definition change_password_with_audit (req : HttpRequest) (user_id : Z)
  (current_password new_password : string) : AM AuthUserInfo :=
  let* info := change_password user_id current_password new_password in
  do* audit_password_change req info in
  ret info.

Definition set_local_password_with_audit (req : HttpRequest) (user_id : Z)
  (new_password : string) : AM AuthUserInfo :=
  let* info := set_local_password user_id new_password in
  do* audit_password_change req info in
  ret info.

(** ** Confirming a contact *)

Definition confirm_link_used : AsterError.t :=
  AsterError.contact_verification_invalid "contact verification link has already been used".
Definition reset_token_misused : AsterError.t :=
  AsterError.contact_verification_invalid
    "password reset token cannot be confirmed from this endpoint".
Definition no_email : AsterError.t :=
  AsterError.ValidationError "account does not have an email address".

Definition confirm_registration (u : user) (target : string) (now : DateTimeUtc) : AM unit :=
  do* when_ok (negb (eqb (email u) (Some target)))
        (AsterError.contact_verification_invalid "contact verification target mismatch") in
  if is_none (email_verified_at u)
  then let* _ := Users.update (user_pk u) (set_email_verified now) in ret tt
  else ret tt.

Definition confirm_contact_change (u : user) (target : string) (now : DateTimeUtc) : AM unit :=
  do* when_ok (negb (eqb (email u) (Some target)) && negb (eqb (pending_email u) (Some target)))
        (AsterError.contact_verification_invalid "contact change request no longer exists") in
  do* ensure_email_available target (Some (user_pk u)) in
  if negb (eqb (email u) (Some target)) then
    let* _ := Users.update (user_pk u) (set_confirmed_email target now) in
    let* previous := lift (ok_or no_email (email u)) in
    enqueue previous (Some (username u))
      (MailContactChangeNotice (username u) previous target site_name)
  else ret tt.

Definition confirm_in_txn (record : contact_verification_token) : AM unit :=
  let* u := UserRepo.find_by_id (verification_user_id record) in
  do* when_ok (negb (is_active_user (user_status u))) user_disabled in
  do* when_ok (eqb (verification_purpose record) PasswordReset) reset_token_misused in
  let* consumed := VerificationRepo.mark_consumed_if_unused (verification_pk record) in
  do* when_ok (negb consumed) confirm_link_used in
  let* now := utc_now in
  match verification_purpose record with
  | RegisterActivation => confirm_registration u (verification_target record) now
  | ContactChange => confirm_contact_change u (verification_target record) now
  | PasswordReset => throw reset_token_misused
  end.

Definition confirm_contact_verification (token : string) : AM ContactVerificationConfirmResult :=
  let token_hash := sha256_hex token in
  let* found := VerificationRepo.find_by_token_hash token_hash in
  let* record := lift (ok_or (AsterError.contact_verification_invalid
                                "contact verification link is invalid") found) in
  do* when_ok (is_some (consumed_at record)) confirm_link_used in
  let* now := utc_now in
  do* when_ok (verification_expires_at record <=? now)
        (AsterError.contact_verification_expired "contact verification link has expired") in
  do* with_transaction (confirm_in_txn record) in
  ret (mkConfirmResult (verification_purpose record) (verification_user_id record)
         (verification_target record)).

Definition cleanup_expired_contact_verification_tokens : AM Z :=
  VerificationRepo.delete_expired.
End Flows.
