(* ===== verification/AccountSpec.v ===== *)
(** * Accounts: the abstract machine

    What may happen to the sessions, the verification tokens and the session
    versions of the users while the account handlers run
    ([account_moves]): sessions are opened under fresh refresh identifiers,
    rotated to fresh ones, revoked and deleted; verification tokens are
    issued under fresh hashes, consumed and deleted; a user's session version
    never goes back.  [Moves] is the class of the programs that do nothing
    else, inferred by instance search. *)

From Stdlib Require Import ZArith List Bool Lia.
From stdpp Require Import base decidable list strings relations.
From S2P Require Import Prelude Text Errors Types AuditLog World Logic Repos Tokens Auth AuthConfig Accounts WebSessions AccountFlows.

Local Open Scope Z_scope.
Import SessionRepo.

Section Spec.
Context `{EN : Env} `{CB : CacheBackend} `{AE : !AccountExterns} `{FC : ForgeCrypto}.

Definition session_rows (d : Db) : list auth_session := rows (auth_sessions (accounts d)).
Definition verification_rows (d : Db) : list contact_verification_token :=
  rows (verification_tokens (accounts d)).

(** ** Sessions

    An identifier drawn at a tick of [lo, hi). *)
Definition drawn (lo hi : nat) (j : string) : Prop :=
  exists i, (lo <= i < hi)%nat /\ j = uuid_v4 i.

Inductive session_event (lo hi : nat) : relation (list auth_session) :=
| ev_open s l :
    existsb (session_conflict s) l = false ->
    drawn lo hi (current_refresh_jti s) -> session_revoked_at s = None ->
    session_event lo hi l (l ++ [s])
| ev_rotate hit cur next expires ip ua seen l :
    drawn lo hi next ->
    (forall s, hit s = true -> has_jti cur s = true /\ session_revoked_at s = None) ->
    (forall s, In s l -> has_jti next s = true -> hit s = true \/ forall t, In t l -> hit t = false) ->
    session_event lo hi l (update_where hit (rotated next cur expires ip ua seen) l)
| ev_revoke hit now l :
    session_event lo hi l (update_where hit (Users.set_session_revoked now) l)
| ev_delete p l :
    session_event lo hi l (delete_where p l).

(** ** Verification tokens *)

Definition link_hash (i : nat) : string := sha256_hex ("cv_" +:+ short_token i).
Definition hashed (lo hi : nat) (h : string) : Prop :=
  exists i, (lo <= i < hi)%nat /\ h = link_hash i.

Inductive verification_event (lo hi : nat) : relation (list contact_verification_token) :=
| ev_issue t l :
    existsb (VerificationRepo.verification_conflict t) l = false ->
    hashed lo hi (verification_token_hash t) -> consumed_at t = None ->
    verification_event lo hi l (l ++ [t])
| ev_consume hit now l :
    verification_event lo hi l (update_where hit (VerificationRepo.set_consumed now) l)
| ev_discard p l :
    verification_event lo hi l (delete_where p l).

(** ** Session versions

    [version_floor id v]: the user [id] was created, and its session version,
    an [i64], is at least [v]. *)
Definition version_floor (id v : Z) (d : Db) : Prop :=
  id < next_pk (users d) /\
  forall u, In u (rows (users d)) -> user_pk u = id -> v <= session_version u <= I64_MAX.

Definition versions_kept (d d' : Db) : Prop :=
  forall id v, version_floor id v d -> version_floor id v d'.

(** ** Moves *)

Definition account_moves (w w' : World) : Prop :=
  (step w <= step w')%nat /\
  rtc (session_event (step w) (step w')) (session_rows (db w)) (session_rows (db w')) /\
  rtc (verification_event (step w) (step w'))
    (verification_rows (db w)) (verification_rows (db w')) /\
  versions_kept (db w) (db w').

Class Moves {E A} (c : M E A) : Prop := moves : forall w, account_moves w (snd (c w)).

Lemma session_event_widen lo hi lo' hi' l l' :
  (lo' <= lo)%nat -> (hi <= hi')%nat -> session_event lo hi l l' -> session_event lo' hi' l l'.
Proof.
  assert (D : forall j, (lo' <= lo)%nat -> (hi <= hi')%nat -> drawn lo hi j -> drawn lo' hi' j).
  { intros j ? ? (i & ? & ->). exists i. split; [lia|done]. }
  intros ? ? []; [apply ev_open|apply ev_rotate|apply ev_revoke|apply ev_delete]; auto.
Qed.

Lemma verification_event_widen lo hi lo' hi' l l' :
  (lo' <= lo)%nat -> (hi <= hi')%nat ->
  verification_event lo hi l l' -> verification_event lo' hi' l l'.
Proof.
  intros ? ? [t l0 ? (i & ? & ?) ?| |]; [apply ev_issue|apply ev_consume|apply ev_discard]; auto.
  exists i. split; [lia|done].
Qed.

Lemma rtc_weaken {A} (R S : relation A) x y :
  (forall a b, R a b -> S a b) -> rtc R x y -> rtc S x y.
Proof. intros H. induction 1; [done|]. eapply rtc_l; eauto. Qed.

Lemma account_moves_same_rows w w' :
  (step w <= step w')%nat -> session_rows (db w') = session_rows (db w) ->
  verification_rows (db w') = verification_rows (db w) -> versions_kept (db w) (db w') ->
  account_moves w w'.
Proof. intros ? Hs Hv ?. split_and!; [done|by rewrite Hs|by rewrite Hv|done]. Qed.

Lemma versions_kept_refl d : versions_kept d d.
Proof. by intros id v. Qed.
Lemma versions_kept_users d d' : users d' = users d -> versions_kept d d'.
Proof. intros E id v H. unfold version_floor. by rewrite E. Qed.

Lemma account_moves_db w w' : (step w <= step w')%nat -> db w' = db w -> account_moves w w'.
Proof. intros ? E. apply account_moves_same_rows; rewrite ?E; auto using versions_kept_refl. Qed.
Lemma account_moves_same w w' : same w w' -> account_moves w w'.
Proof. intros (E & _ & _ & ?). by apply account_moves_db. Qed.
Lemma account_moves_refl w : account_moves w w.
Proof. apply account_moves_same, same_refl. Qed.

Lemma account_moves_trans w1 w2 w3 :
  account_moves w1 w2 -> account_moves w2 w3 -> account_moves w1 w3.
Proof.
  intros (L1 & S1 & V1 & K1) (L2 & S2 & V2 & K2). split_and!.
  - lia.
  - etrans; eapply rtc_weaken; try eassumption; intros a b; apply session_event_widen; lia.
  - etrans; eapply rtc_weaken; try eassumption; intros a b; apply verification_event_widen; lia.
  - intros id v H. by apply K2, K1.
Qed.

(** ** The programs that only move

    Reading, sequencing, transactions, and each write. *)

#[global] Instance moves_reads {E A} (c : M E A) : Reads c -> Moves c.
Proof. intros H w. apply account_moves_same, H. Qed.

#[global] Instance moves_bind {E A B} (c : M E A) (k : A -> M E B) :
  Moves c -> (forall a, Moves (k a)) -> Moves (bind c k).
Proof.
  intros Hc Hk w. unfold bind. specialize (Hc w). destruct (c w) as [[a|e|m] w']; cbn in *; try done.
  eapply account_moves_trans; [done|apply Hk].
Qed.

#[global] Instance moves_map_err {E F A} (f : E -> F) (c : M E A) : Moves c -> Moves (map_err f c).
Proof. intros Hc w. unfold map_err. specialize (Hc w). by destruct (c w) as [[a|e|m] w']. Qed.

#[global] Instance moves_catch {E F A} (c : M E A) : Moves c -> Moves (catch c : M F (A + E)).
Proof. intros Hc w. unfold catch. specialize (Hc w). by destruct (c w) as [[a|e|m] w']. Qed.

Lemma wp_moves {E A} (c : M E A) :
  (forall w, wp c (fun _ w' => account_moves w w') w) -> Moves c.
Proof. intros H w. apply H. Qed.

Lemma moves_run {E A} (c : M E A) `{Hc : !Moves c} w r w' : c w = (r, w') -> account_moves w w'.
Proof. intros H. specialize (Hc w). by rewrite H in Hc. Qed.

Lemma rolled_back_moves w w0 w1 w' :
  same w w0 -> account_moves w0 w1 -> rolled_back w w1 w' -> account_moves w w'.
Proof.
  intros (_ & _ & _ & L0) (L1 & _) (E & _ & _ & L2). cbn in *.
  apply account_moves_db; [lia|done].
Qed.

#[global] Instance moves_with_transaction `{TM : !TxnManager} `{TL : !TxnLaws TM} {A}
  (body : M AsterError.t A) : Moves body -> Moves (with_transaction body).
Proof.
  intros Hb. apply wp_moves. intros w. apply wp_with_transaction.
  - intros e w'. apply account_moves_same.
  - intros w0 H0. apply wp_intro. intros r w1 Hr. apply moves_run in Hr; [|done].
    assert (H01 : account_moves w w1).
    { eapply account_moves_trans; [by apply account_moves_same|done]. }
    destruct r; [split; [intros w' Hw|intros e w' Hw]|intros w' Hw..].
    + eapply account_moves_trans; [done|by apply account_moves_same].
    + by eapply rolled_back_moves.
    + by eapply rolled_back_moves.
    + by eapply rolled_back_moves.
Qed.

#[global] Instance moves_log `{RC : RuntimeConfig} {E} ctx action ty id name :
  Moves (AuditService.log_with_details ctx action ty id name : M E unit).
Proof.
  intros w. unfold AuditService.log_with_details. destruct (should_record _ _); cbn.
  - apply account_moves_db; cbn; [lia|done].
  - apply account_moves_refl.
Qed.

(** A statement whose effect on the tables moves. *)
Lemma moves_db_exec {A} (f : Db -> outcome AsterError.t (A * Db)) :
  (forall w a d, f (db w) = Ok (a, d) -> account_moves w (set_db d (tick w))) -> Moves (db_exec f).
Proof.
  intros H. apply wp_moves. intros w. apply wp_db_exec.
  - intros m _. apply account_moves_same, same_tick.
  - intros _. destruct (f (db w)) as [[a d]|e|m] eqn:E.
    + by eapply H.
    + apply account_moves_same, same_tick.
    + apply account_moves_same, same_tick.
Qed.

Lemma moves_sessions w t :
  session_event (step w) (S (step w)) (session_rows (db w)) (rows t) ->
  account_moves w (set_db (set_auth_sessions t (db w)) (tick w)).
Proof.
  intros H. split_and!; cbn; [lia|by apply rtc_once|done|by apply versions_kept_users].
Qed.

Lemma moves_verifications w t :
  verification_event (step w) (S (step w)) (verification_rows (db w)) (rows t) ->
  account_moves w (set_db (set_verification_tokens t (db w)) (tick w)).
Proof.
  intros H. split_and!; cbn; [lia|done|by apply rtc_once|by apply versions_kept_users].
Qed.

Lemma moves_users w t :
  versions_kept (db w) (set_users t (db w)) ->
  account_moves w (set_db (set_users t (db w)) (tick w)).
Proof. intros H. apply account_moves_same_rows; cbn; [lia|done..]. Qed.

#[global] Instance moves_enqueue address name payload : Moves (enqueue address name payload).
Proof.
  unfold enqueue. apply moves_bind; [apply _|]. intros now. apply moves_db_exec.
  intros w a d [= <- <-]. apply account_moves_same_rows; cbn; [lia|done|done|].
  by apply versions_kept_users.
Qed.

(** ** The invariant

    Keys and refresh identifiers are unique and were drawn before the current
    tick; likewise the hashes, with one unconsumed token per slot. *)
Definition sessions_wf (n : nat) (l : list auth_session) : Prop :=
  List.NoDup (List.map session_id l) /\ List.NoDup (List.map current_refresh_jti l) /\
  forall s, In s l -> drawn 0 n (current_refresh_jti s).

Definition verifications_wf (n : nat) (l : list contact_verification_token) : Prop :=
  List.NoDup (List.map verification_token_hash l) /\
  (forall t u, In t l -> In u l -> VerificationRepo.unconsumed t = true ->
     VerificationRepo.unconsumed u = true -> VerificationRepo.same_slot t u = true -> t = u) /\
  forall t, In t l -> hashed 0 n (verification_token_hash t).

Definition account_wf (w : World) : Prop :=
  sessions_wf (step w) (session_rows (db w)) /\
  verifications_wf (step w) (verification_rows (db w)).

Lemma drawn_widen lo hi lo' hi' j :
  (lo' <= lo)%nat -> (hi <= hi')%nat -> drawn lo hi j -> drawn lo' hi' j.
Proof. intros ? ? (i & ? & ->). exists i. split; [lia|done]. Qed.
Lemma hashed_widen lo hi lo' hi' h :
  (lo' <= lo)%nat -> (hi <= hi')%nat -> hashed lo hi h -> hashed lo' hi' h.
Proof. intros ? ? (i & ? & ->). exists i. split; [lia|done]. Qed.

(** A row that no other row conflicts with can be added. *)
Lemma existsb_false {A} (p : A -> bool) l x : existsb p l = false -> In x l -> p x = false.
Proof.
  intros H Hx. destruct (p x) eqn:E; [|done].
  assert (existsb p l = true) by (apply existsb_exists; eauto). congruence.
Qed.

(** Rewriting the one row that satisfies [hit] to a value no other row has
    keeps a column free of duplicates. *)
Lemma NoDup_map_update_one {A B} (g : A -> B) (hit : A -> bool) (f : A -> A) l b c :
  List.NoDup (List.map g l) ->
  (forall x, In x l -> hit x = true -> g x = b) -> (forall x, g (f x) = c) ->
  (forall x, In x l -> g x = c -> hit x = true \/ forall y, In y l -> hit y = false) ->
  List.NoDup (List.map g (update_where hit f l)).
Proof.
  intros Hd Hb Hc Hn. unfold update_where. rewrite map_map.
  induction l as [|a l IH]; [done|]. cbn in *. apply List.NoDup_cons_iff in Hd as [Ha Hd].
  apply List.NoDup_cons.
  - intros (y & Hy & Hin)%in_map_iff. apply Ha. apply in_map_iff.
    destruct (hit y) eqn:Ey, (hit a) eqn:Ea.
    + exists y. split; [|done]. rewrite (Hb y), (Hb a); auto.
    + rewrite Hc in Hy. destruct (Hn a) as [H|H]; auto; [congruence|].
      rewrite (H y) in Ey by auto. done.
    + rewrite Hc in Hy. destruct (Hn y) as [H|H]; auto; [congruence|].
      rewrite (H a) in Ea by auto. done.
    + eauto.
  - apply IH; [done|auto|]. intros x Hx E. destruct (Hn x) as [H|H]; auto.
Qed.

Lemma session_event_wf lo hi n l l' :
  (n <= hi)%nat -> session_event lo hi l l' -> sessions_wf n l -> sessions_wf hi l'.
Proof.
  intros Hn He (Hid & Hj & Hdr).
  assert (Hdr' : forall s, In s l -> drawn 0 hi (current_refresh_jti s)).
  { intros s Hs. eapply drawn_widen; [..|by apply Hdr]; lia. }
  destruct He as [s l Hc Hs Hr|hit cur next e ip ua t l Hnext Hhit Hfree|hit now l|p l].
  - split_and!.
    + rewrite List.map_app. apply NoDup_app_singleton; [done|].
      intros (u & Hu & Hin)%in_map_iff. apply existsb_false with (x := u) in Hc; [|done].
      unfold session_conflict in Hc. apply orb_false_iff in Hc as [Hc _].
      rewrite eqb_false in Hc. congruence.
    + rewrite List.map_app. apply NoDup_app_singleton; [done|].
      intros (u & Hu & Hin)%in_map_iff. apply existsb_false with (x := u) in Hc; [|done].
      unfold session_conflict in Hc. apply orb_false_iff in Hc as [_ Hc].
      rewrite eqb_false in Hc. congruence.
    + intros u [Hu|[<-|[]]]%in_app_iff; [auto|]. eapply drawn_widen; [..|exact Hs]; lia.
  - split_and!.
    + rewrite update_where_map; done.
    + eapply NoDup_map_update_one with (b := cur) (c := next); [done| |done|].
      * intros x _ [Hx _]%Hhit. unfold has_jti in Hx. by rewrite eqb_true in Hx.
      * intros x Hx E. apply (Hfree x Hx). unfold has_jti. by rewrite eqb_true.
    + intros u (v & Hv & ->)%in_update_where. destruct (hit v); [|auto]. cbn.
      eapply drawn_widen; [..|exact Hnext]; lia.
  - split_and!; [by rewrite update_where_map..|].
    intros u (v & Hv & ->)%in_update_where. destruct (hit v); cbn; auto.
  - split_and!; [by apply NoDup_map_rows_where..|]. intros u [Hu _]%in_delete_where. auto.
Qed.

Lemma verification_event_wf lo hi n l l' :
  (n <= hi)%nat -> verification_event lo hi l l' ->
  verifications_wf n l -> verifications_wf hi l'.
Proof.
  intros Hn He (Hh & Hslot & Hdr).
  assert (Hdr' : forall t, In t l -> hashed 0 hi (verification_token_hash t)).
  { intros t Ht. eapply hashed_widen; [..|by apply Hdr]; lia. }
  destruct He as [t l Hc Ht Hu|hit now l|p l].
  - assert (Hcf : forall u, In u l -> verification_token_hash t <> verification_token_hash u /\
      (VerificationRepo.unconsumed u = true ->
       VerificationRepo.same_slot t u = false)).
    { intros u Hin. apply existsb_false with (x := u) in Hc; [|done].
      unfold VerificationRepo.verification_conflict in Hc. apply orb_false_iff in Hc as [Hc Hc'].
      rewrite eqb_false in Hc. split; [done|]. intros Hun. rewrite Hun in Hc'.
      unfold VerificationRepo.unconsumed in Hc' at 1. by rewrite Hu in Hc'. }
    split_and!.
    + rewrite List.map_app. apply NoDup_app_singleton; [done|].
      intros (u & Hu' & Hin)%in_map_iff. by apply (proj1 (Hcf u Hin)).
    + intros a b [Ha|[<-|[]]]%in_app_iff [Hb|[<-|[]]]%in_app_iff Ua Ub Hs; auto.
      * exfalso. pose proof (proj2 (Hcf a Ha) Ua) as Hf.
        unfold VerificationRepo.same_slot in *. reflect_guards. destruct Hs as [[]].
        destruct Hf as [[|]|]; congruence || lia.
      * exfalso. rewrite (proj2 (Hcf b Hb) Ub) in Hs. done.
    + intros u [Hin|[<-|[]]]%in_app_iff; [auto|]. eapply hashed_widen; [..|exact Ht]; lia.
  - split_and!.
    + by rewrite update_where_map.
    + intros a b (a0 & Ha & ->)%in_update_where (b0 & Hb & ->)%in_update_where.
      destruct (hit a0), (hit b0); cbn; try done. by apply Hslot.
    + intros u (v & Hv & ->)%in_update_where. destruct (hit v); cbn; auto.
  - split_and!.
    + by apply NoDup_map_rows_where.
    + intros a b [Ha _]%in_delete_where [Hb _]%in_delete_where. by apply Hslot.
    + intros u [Hu _]%in_delete_where. auto.
Qed.

(** ** What is dead stays dead *)

(** No live session has the refresh identifier [j]. *)
Definition jti_dead (j : string) (l : list auth_session) : Prop :=
  forall s, In s l -> current_refresh_jti s = j -> is_some (session_revoked_at s) = true.

(** No unconsumed token has the hash [h]. *)
Definition hash_spent (h : string) (l : list contact_verification_token) : Prop :=
  forall t, In t l -> verification_token_hash t = h -> is_some (consumed_at t) = true.

Lemma session_event_dead lo hi j l l' :
  ~ drawn lo hi j -> session_event lo hi l l' -> jti_dead j l -> jti_dead j l'.
Proof.
  intros Hj [s l0 _ Hs _|hit cur next e ip ua t l0 Hn Hhit _|hit now l0|p l0] Hd u.
  - intros [Hu|[<-|[]]]%in_app_iff E; [by apply Hd|congruence].
  - intros (v & Hv & ->)%in_update_where. destruct (hit v); cbn; [congruence|by apply Hd].
  - intros (v & Hv & ->)%in_update_where. destruct (hit v); cbn; [done|by apply Hd].
  - intros [Hu _]%in_delete_where. by apply Hd.
Qed.

Lemma verification_event_spent lo hi h l l' :
  ~ hashed lo hi h -> verification_event lo hi l l' -> hash_spent h l -> hash_spent h l'.
Proof.
  intros Hh [t l0 _ Ht _|hit now l0|p l0] Hd u.
  - intros [Hu|[<-|[]]]%in_app_iff E; [by apply Hd|congruence].
  - intros (v & Hv & ->)%in_update_where. destruct (hit v); cbn; [done|by apply Hd].
  - intros [Hu _]%in_delete_where. by apply Hd.
Qed.

(** Generators never repeat themselves. *)
Definition uuids_distinct : Prop := forall i j, uuid_v4 i = uuid_v4 j -> i = j.
Definition link_hashes_distinct : Prop := forall i j, link_hash i = link_hash j -> i = j.

Lemma rtc_invariant {A} (R : relation A) (P : A -> Prop) x y :
  (forall a b, R a b -> P a -> P b) -> rtc R x y -> P x -> P y.
Proof. intros H. induction 1; eauto. Qed.

Lemma account_moves_wf w w' : account_moves w w' -> account_wf w -> account_wf w'.
Proof.
  intros (L & Hs & Hv & _) [(Hi & Hj & Hd) (Hh & Hsl & Hd')]. split.
  - apply (rtc_invariant _ (sessions_wf (step w')) _ _) with (2 := Hs).
    + intros a b He Ha. by eapply session_event_wf; [|exact He|exact Ha].
    + split_and!; [done..|]. intros s Hin. eapply drawn_widen; [..|by apply Hd]; lia.
  - apply (rtc_invariant _ (verifications_wf (step w')) _ _) with (2 := Hv).
    + intros a b He Ha. by eapply verification_event_wf; [|exact He|exact Ha].
    + split_and!; [done..|]. intros s Hin. eapply hashed_widen; [..|by apply Hd']; lia.
Qed.

(** An identifier drawn in the past is never drawn again. *)
Lemma account_moves_dead w w' j :
  uuids_distinct -> drawn 0 (step w) j -> account_moves w w' ->
  jti_dead j (session_rows (db w)) -> jti_dead j (session_rows (db w')).
Proof.
  intros Hu (i & Hi & ->) (L & Hs & _ & _). apply rtc_invariant with (2 := Hs).
  intros a b. apply session_event_dead. intros (k & Hk & E%Hu). lia.
Qed.

Lemma account_moves_spent w w' h :
  link_hashes_distinct -> hashed 0 (step w) h -> account_moves w w' ->
  hash_spent h (verification_rows (db w)) -> hash_spent h (verification_rows (db w')).
Proof.
  intros Hu (i & Hi & ->) (L & _ & Hs & _). apply rtc_invariant with (2 := Hs).
  intros a b. apply verification_event_spent. intros (k & Hk & E%Hu). lia.
Qed.

Lemma account_moves_floor w w' id v :
  account_moves w w' -> version_floor id v (db w) -> version_floor id v (db w').
Proof. intros (_ & _ & _ & H). apply H. Qed.
End Spec.

(** Walk through a handler, and look up its blocks. *)
Ltac solve_moves :=
  repeat lazymatch goal with
  | |- Moves (bind _ _) => apply moves_bind; [|intros ?]
  | |- Moves (if ?b then _ else _) => destruct b
  | |- Moves (match ?x with _ => _ end) => destruct x
  | |- Moves (let _ := _ in _) => cbv zeta
  | |- Moves (with_transaction _) => apply moves_with_transaction
  | |- Moves (map_err _ _) => apply moves_map_err
  | |- Moves (catch _) => apply moves_catch
  end; try apply _.
