(* ===== verification/AccountOps.v ===== *)
(** * Accounts: the handlers move

    Every account handler refines the abstract machine of AccountSpec.v: the
    [Moves] instances, and the specifications of the blocks they share
    (creating a token pair, opening and rotating a session, replacing a
    password, issuing a verification token). *)

From Stdlib Require Import ZArith List Bool Lia.
From stdpp Require Import base decidable list strings relations pretty.
From S2P Require Import Prelude Text Errors Types AuditLog World Logic Repos Tokens Auth AuthConfig Accounts WebSessions AccountFlows AccountSpec.

Local Open Scope Z_scope.
Import SessionRepo.

Section Ops.
Context `{EN : Env} `{CB : CacheBackend} `{TM : !TxnManager} `{TL : !TxnLaws TM}.
Context `{FC : ForgeCrypto} `{FN : ForgeNumbers} `{FS : ForgeSigned} `{AE : !AccountExterns}.
Context `{AL : !AccountExternLaws AE} `{CS : ChronoSeconds} `{JW : Jwt} `{CF : ForgeConfig}.
Context `{ST : ConfigStore} `{RC : RuntimeConfig} `{AC : AppConfig} `{FE : ForgeEmail}.
Context `{SE : !SetupExterns} `{SL : !SetupExternLaws SE} `{FA : ForgeApi}.

(** ** Reading blocks *)

#[global] Instance reads_unique_public_uuid : Reads Users.unique_public_uuid.
Proof. unfold Users.unique_public_uuid. apply best_effort_uuid_reads. intros c. apply _. Qed.

#[global] Instance reads_ensure_username_available name owner :
  Reads (ensure_username_available name owner).
Proof. unfold ensure_username_available. apply _. Qed.
#[global] Instance reads_ensure_email_available address owner :
  Reads (ensure_email_available address owner).
Proof. unfold ensure_email_available. apply _. Qed.

#[global] Instance reads_get_profile_info u a : Reads (get_profile_info u a).
Proof. unfold get_profile_info. apply _. Qed.
#[global] Instance reads_auth_user_info u : Reads (auth_user_info u).
Proof. unfold auth_user_info, auth_user_operator_scopes, list_operator_scopes_for_user. apply _. Qed.

#[global] Instance reads_decode_claims token : Reads (decode_claims token).
Proof. unfold decode_claims. apply _. Qed.
#[global] Instance reads_decode_access_claims token : Reads (decode_access_claims token).
Proof. unfold decode_access_claims. apply _. Qed.
#[global] Instance reads_create_token input : Reads (create_token input).
Proof. unfold create_token. apply _. Qed.
#[global] Instance reads_create_token_pair id v sid pc : Reads (create_token_pair id v sid pc).
Proof. unfold create_token_pair. apply _. Qed.
#[global] Instance reads_refresh_check token : Reads (refresh_check token).
Proof. unfold refresh_check, find_by_refresh_jti, find_by_previous_refresh_jti. apply _. Qed.
#[global] Instance reads_refresh_jti_from_token token : Reads (refresh_jti_from_token token).
Proof. unfold refresh_jti_from_token. apply _. Qed.
#[global] Instance reads_optional_refresh_jti token :
  Reads (optional_refresh_jti_from_token token).
Proof. unfold optional_refresh_jti_from_token. apply _. Qed.
#[global] Instance reads_current_user_and_claims token :
  Reads (current_user_and_claims_from_token token).
Proof. unfold current_user_and_claims_from_token. apply _. Qed.
#[global] Instance reads_cooldown_passed id purpose secs name :
  Reads (cooldown_passed id purpose secs name).
Proof. unfold cooldown_passed, VerificationRepo.find_latest_active_for_user. apply _. Qed.
#[global] Instance reads_register_activation_resend_allowed id :
  Reads (register_activation_resend_allowed id).
Proof. apply reads_cooldown_passed. Qed.
#[global] Instance reads_password_reset_request_allowed id :
  Reads (password_reset_request_allowed id).
Proof. apply reads_cooldown_passed. Qed.
#[global] Instance reads_verify_change id cur new : Reads (verify_change_password_input id cur new).
Proof. unfold verify_change_password_input, check_hash. apply _. Qed.
#[global] Instance reads_verify_set_local id new : Reads (verify_set_local_password_input id new).
Proof. unfold verify_set_local_password_input, identity_exists_for_user, check_hash. apply _. Qed.

(** Blocks with an instance of their own are not unfolded by the search. *)
#[global] Typeclasses Opaque ensure_username_available ensure_email_available auth_user_info
  decode_claims decode_access_claims create_token create_token_pair refresh_check
  refresh_jti_from_token optional_refresh_jti_from_token current_user_and_claims_from_token
  cooldown_passed register_activation_resend_allowed password_reset_request_allowed
  verify_change_password_input verify_set_local_password_input get_profile_info
  Users.unique_public_uuid Users.insert Users.update Users.revoke_sessions_for_user
  create_user_with_role create_user_without_email_with_role create_user issue_tokens
  rotate_tokens SessionRepo.create rotate_refresh revoke_by_refresh_jti enqueue
  AuditService.log_with_details db_update_many db_delete_many db_insert db_exec db_query
  with_transaction.

(** ** Statements *)

#[global] Instance moves_revoke_where p now :
  Moves (db_update_many (fun d => auth_sessions (accounts d)) set_auth_sessions p
           (Users.set_session_revoked now)).
Proof. apply moves_db_exec. intros w a d [= <- <-]. apply moves_sessions, ev_revoke. Qed.
#[global] Instance moves_delete_sessions p :
  Moves (db_delete_many (fun d => auth_sessions (accounts d)) set_auth_sessions p).
Proof. apply moves_db_exec. intros w a d [= <- <-]. apply moves_sessions, ev_delete. Qed.
#[global] Instance moves_consume_where p now :
  Moves (db_update_many (fun d => verification_tokens (accounts d)) set_verification_tokens p
           (VerificationRepo.set_consumed now)).
Proof. apply moves_db_exec. intros w a d [= <- <-]. apply moves_verifications, ev_consume. Qed.
#[global] Instance moves_delete_verifications p :
  Moves (db_delete_many (fun d => verification_tokens (accounts d)) set_verification_tokens p).
Proof. apply moves_db_exec. intros w a d [= <- <-]. apply moves_verifications, ev_discard. Qed.

#[global] Instance moves_revoke_sessions_for_user id : Moves (Users.revoke_sessions_for_user id).
Proof. unfold Users.revoke_sessions_for_user. apply _. Qed.

Lemma moves_user_insert mk :
  (forall id, user_pk (mk id) = id) -> Moves (Users.insert mk).
Proof.
  intros Hpk. apply moves_db_exec. intros w a d. unfold insert_row.
  destruct (existsb _ _); [done|]. intros [= <- <-]. apply moves_users.
  intros id v [Hlt Hv]. split; cbn; [lia|].
  intros u [Hu|[<-|[]]]%in_app_iff; [by apply Hv|]. rewrite Hpk. lia.
Qed.

(** An update of the row [id] that writes at least the floor. *)
Lemma versions_kept_update id f d :
  (forall u, In u (rows (users d)) -> user_pk u = id -> user_pk (f u) = id) ->
  (forall v, version_floor id v d ->
     forall u, In u (rows (users d)) -> user_pk u = id -> v <= session_version (f u) <= I64_MAX) ->
  versions_kept d
    (set_users (with_rows (update_where (fun u => user_pk u =? id) f (rows (users d))) (users d)) d).
Proof.
  intros Hpk Hf id' v [Hlt Hv]. split; [done|].
  intros u (u0 & Hu & ->)%in_update_where. cbn. destruct (Z.eqb_spec (user_pk u0) id) as [E|E].
  - intros E'. assert (id' = id) as -> by (rewrite <- E'; by apply Hpk).
    by apply (Hf v).
  - by apply Hv.
Qed.

Lemma moves_user_update id f :
  (forall u, user_pk (f u) = user_pk u /\ session_version (f u) = session_version u) ->
  Moves (Users.update id f).
Proof.
  intros Hf. apply moves_db_exec. intros w a d. unfold update_row.
  destruct (find_row _ _) as [r|]; [|done]. destruct (existsb _ _); [done|]. intros [= <- <-].
  apply moves_users, versions_kept_update.
  - intros u _ <-. apply Hf.
  - intros v [_ Hv] u Hu E. rewrite (proj2 (Hf u)). by apply Hv.
Qed.

#[global] Instance moves_set_pending_email id address now :
  Moves (Users.update id (set_pending_email address now)).
Proof. by apply moves_user_update. Qed.
#[global] Instance moves_set_email_verified id now :
  Moves (Users.update id (set_email_verified now)).
Proof. by apply moves_user_update. Qed.
#[global] Instance moves_set_confirmed_email id address now :
  Moves (Users.update id (set_confirmed_email address now)).
Proof. by apply moves_user_update. Qed.

#[global] Instance moves_create_user_with_role input : Moves (create_user_with_role input).
Proof.
  unfold create_user_with_role. repeat first
    [ apply moves_bind; [apply _|intros ?] | by apply moves_user_insert ].
Qed.
#[global] Instance moves_create_user_without_email name password role status mc ar :
  Moves (create_user_without_email_with_role name password role status mc ar).
Proof.
  unfold create_user_without_email_with_role. repeat first
    [ apply moves_bind; [apply _|intros ?] | by apply moves_user_insert ].
Qed.
#[global] Instance moves_create_user name address password role :
  Moves (create_user name address password role).
Proof.
  unfold create_user, create_user_with_options, Users.create_with_options. repeat first
    [ apply moves_bind; [apply _|intros ?] | by apply moves_user_insert ].
Qed.

(** ** Tokens *)

Context `{NL : !ForgeNumberLaws FN} `{FSL : !ForgeSignedLaws FS} `{CSL : !ChronoSecondsLaws CS}.

Lemma utils_ok {A} (r : outcome string A) a : utils r = Ok a -> r = Ok a.
Proof. by destruct r; cbn; [intros [= ->]|..]. Qed.

Lemma duration_ok {E} n w d w' : duration n w = (@Ok E Z d, w') -> d = seconds n /\ w' = w.
Proof.
  unfold duration. destruct (duration_seconds n) as [d0|] eqn:Ed; [|done].
  intros [= -> ->]. split; [by apply duration_seconds_some|done].
Qed.

(** The claims a token is signed with. *)
Definition claims_of (id version : Z) (j : option string) (pc : bool) (ty : TokenType)
  (now : DateTimeUtc) (ttl : Z) : AccessClaims :=
  mkClaims (pretty id) id version j pc ty (timestamp now + ttl).

(** A created token carries the claims asked for, expires [ttl] seconds
    after [now], and fits its machine integers. *)
Lemma create_token_ok input w ct w' :
  create_token input w = (Ok ct, w') ->
  w' = w /\ 0 <= timestamp (ti_now input) /\
  timestamp (ti_now input) + ti_ttl_secs input <= U64_MAX /\ ti_ttl_secs input <= I64_MAX /\
  created_expires_at ct = ti_now input + seconds (ti_ttl_secs input) /\
  jwt_encode (ti_secret input)
    (claims_of (ti_user_id input) (ti_session_version input) (ti_jti input)
       (ti_password_change input) (ti_token_type input) (ti_now input) (ti_ttl_secs input))
    = Ok (created_token ct).
Proof.
  unfold create_token. intros H. inv_ok H.
  repeat match goal with E : utils _ = Ok _ |- _ => apply utils_ok in E end.
  apply i64_to_u64_spec in Hr as [-> H0].
  match goal with E : match checked_add_u64 ?a ?b with _ => _ end = Ok _ |- _ =>
    unfold checked_add_u64 in E; destruct (a + b <=? U64_MAX) eqn:Ele; [injection E as <-|done] end.
  match goal with E : duration _ _ = _ |- _ => apply duration_ok in E as [-> ->] end.
  match goal with E : match checked_add_signed ?a ?b with _ => _ end = Ok _ |- _ =>
    destruct (checked_add_signed a b) as [t'|] eqn:Ec; [injection E as <-|done] end.
  apply checked_add_some in Ec.
  match goal with E : u64_to_i64 ?n ?nm = Ok _ |- _ =>
    pose proof (u64_to_i64_spec n nm) as Hi; rewrite E in Hi;
    destruct (n <=? I64_MAX) eqn:Ei; [injection Hi as ->|destruct Hi as [? [=]]] end.
  match goal with E : u64_to_usize ?n ?nm = Ok _ |- _ =>
    pose proof (u64_to_usize_spec n nm) as Hu; rewrite E in Hu; subst end.
  cbn. reflect_guards. split_and!; try done.
Qed.

(** A pair of tokens for [id] at session version [version], signed at [now]. *)
Record pair_for (id version : Z) (pc : bool) (now : DateTimeUtc) (t : IssuedTokens) : Prop := {
  pair_access :
    jwt_encode jwt_secret
      (claims_of id version None pc AccessToken now (access_token_ttl_secs (auth_policy config_get)))
      = Ok (it_access_token t);
  pair_refresh :
    jwt_encode jwt_secret
      (claims_of id version (Some (it_refresh_jti t)) pc RefreshToken now
         (refresh_token_ttl_secs (auth_policy config_get)))
      = Ok (it_refresh_token t);
  pair_expires :
    it_refresh_expires_at t = now + seconds (refresh_token_ttl_secs (auth_policy config_get));
  pair_expires_in : it_access_expires_in t = access_token_ttl_secs (auth_policy config_get)
}.

Lemma create_token_pair_ok id v sid pc w t w' :
  create_token_pair id v sid pc w = (Ok t, w') ->
  same w w' /\ drawn (step w) (step w') (it_refresh_jti t) /\
  pair_for id v pc (clock (step w)) t /\
  match sid with Some s => it_session_id t = s | None => True end.
Proof.
  intros H. assert (Hs : same w w') by (by eapply reads_run; [|exact H]; apply _).
  split; [done|]. unfold create_token_pair in H. inv_ok H.
  repeat match goal with E : create_token _ _ = (Ok _, _) |- _ =>
    apply create_token_ok in E as (-> & _ & _ & _ & ? & ?) end.
  match goal with E : new_uuid _ = (Ok _, _) |- _ => injection E as <- <- end.
  match goal with E : match sid with _ => _ end _ = (Ok ?x, w') |- _ =>
    assert (Hstep : (S (S (step w)) <= step w')%nat /\
                    match sid with Some s => x = s | None => True end)
      by (destruct sid; injection E as <- <-; cbn; split; try done; lia) end.
  destruct Hstep as [Hstep Hsid]. split_and!; cbn.
  - exists (S (step w)). split; [lia|done].
  - by split.
  - by destruct sid.
Qed.

(** ** Opening and rotating sessions *)

Lemma moves_create_session lo s w :
  (lo <= step w)%nat -> drawn lo (step w) (current_refresh_jti s) -> session_revoked_at s = None ->
  forall w0, account_moves w0 w -> step w0 = lo ->
  wp (SessionRepo.create s) (fun _ w' => account_moves w0 w') w.
Proof.
  intros Hlo Hd Hr w0 H0 <-. apply wp_db_exec.
  - intros m _. eapply account_moves_trans; [done|apply account_moves_same, same_tick].
  - intros _. destruct (negb _).
    { eapply account_moves_trans; [done|apply account_moves_same, same_tick]. }
    unfold insert_row. destruct (existsb _ (rows _)) eqn:Hc.
    { eapply account_moves_trans; [done|apply account_moves_same, same_tick]. }
    destruct H0 as (L & Hs & Hv & Hk). split_and!; cbn; [lia| | |].
    + etrans; [eapply rtc_weaken; [|exact Hs]; intros a b; apply session_event_widen; lia|].
      apply rtc_once, ev_open; [done| |done].
      eapply drawn_widen; [..|exact Hd]; cbn; lia.
    + eapply rtc_weaken; [|exact Hv]; intros a b; apply verification_event_widen; lia.
    + intros id v Hf. by apply Hk.
Qed.

#[global] Instance issue_tokens_moves u req : Moves (issue_tokens u req).
Proof.
  apply wp_moves. intros w. unfold issue_tokens. apply wp_bind, wp_intro.
  intros r w1 Hr. assert (Hs : same w w1) by (by eapply reads_run; [|exact Hr]; apply _).
  destruct r as [t|e|m]; cbn [wp_next]; [|by apply account_moves_same..].
  apply create_token_pair_ok in Hr as (_ & Hd & _ & _).
  apply wp_bind. unfold persist_auth_session. apply wp_bind, wp_utc_now. cbn [wp_next].
  eapply wp_mono.
  - apply (moves_create_session (step w)) with (w0 := w); cbn; try done.
    + destruct Hs as (_ & _ & _ & ?). lia.
    + eapply drawn_widen; [..|exact Hd]; lia.
    + eapply account_moves_trans; [by apply account_moves_same|apply account_moves_same, same_tick].
  - intros r' w2 H2. by destruct r'.
Qed.

(** What a rotation does to the table: nothing, or one session rotated. *)
Definition rotation_hit (cur : string) (s : auth_session) : bool :=
  has_jti cur s && Users.session_active s.

Lemma rotation_event lo hi cur next e ip ua seen l :
  drawn lo hi next ->
  existsb (rotation_hit cur) l &&
    existsb (fun s => has_jti next s && negb (rotation_hit cur s)) l = false ->
  session_event lo hi l (update_where (rotation_hit cur) (rotated next cur e ip ua seen) l).
Proof.
  intros Hd Hc. apply ev_rotate; [done| |].
  - intros s [Hj Ha]%andb_true_iff. split; [done|].
    unfold Users.session_active, is_none, is_some in Ha. by destruct (session_revoked_at s).
  - intros s Hs Hn. destruct (rotation_hit cur s) eqn:E; [by left|right].
    apply andb_false_iff in Hc as [Hc|Hc].
    + intros t. by apply existsb_false.
    + apply existsb_false with (x := s) in Hc; [|done]. by rewrite Hn, E in Hc.
Qed.

Lemma moves_rotate_refresh cur next e ip ua seen w w0 :
  drawn (step w0) (step w) next -> account_moves w0 w ->
  wp (rotate_refresh cur next e ip ua seen) (fun _ w' => account_moves w0 w') w.
Proof.
  intros Hd H0. apply wp_db_exec.
  - intros m _. eapply account_moves_trans; [done|apply account_moves_same, same_tick].
  - intros _. cbv zeta. fold (rotation_hit cur).
    destruct (existsb (rotation_hit cur) _ && _) eqn:Hc.
    { eapply account_moves_trans; [done|apply account_moves_same, same_tick]. }
    destruct H0 as (L & Hs & Hv & Hk). split_and!; cbn; [lia| | |].
    + etrans; [eapply rtc_weaken; [|exact Hs]; intros a b; apply session_event_widen; lia|].
      apply rtc_once, rotation_event; [eapply drawn_widen; [..|exact Hd]; lia|exact Hc].
    + eapply rtc_weaken; [|exact Hv]; intros a b; apply verification_event_widen; lia.
    + intros id v Hf. by apply Hk.
Qed.

#[global] Instance rotate_tokens_moves u s req : Moves (rotate_tokens u s req).
Proof.
  apply wp_moves. intros w. unfold rotate_tokens. apply wp_bind, wp_intro.
  intros r w1 Hr. assert (Hs : same w w1) by (by eapply reads_run; [|exact Hr]; apply _).
  destruct r as [t|e|m]; cbn [wp_next]; [|by apply account_moves_same..].
  apply create_token_pair_ok in Hr as (_ & Hd & _ & _). cbv zeta.
  apply wp_bind, wp_utc_now. cbn [wp_next]. apply wp_bind. eapply wp_mono.
  - apply moves_rotate_refresh with (w0 := w).
    + eapply drawn_widen; [..|exact Hd]; cbn; lia.
    + eapply account_moves_trans; [by apply account_moves_same|apply account_moves_same, same_tick].
  - intros r' w2 H2. destruct r' as [b|e|m]; [|done..]. cbn [wp_next].
    apply wp_bind, wp_when_ok; by cbn [wp_next].
Qed.

(** ** The session handlers *)

#[global] Instance login_moves identifier password req : Moves (login identifier password req).
Proof. unfold login. solve_moves. Qed.
#[global] Instance issue_tokens_for_user_id_moves id req :
  Moves (issue_tokens_for_user_id id req).
Proof. unfold issue_tokens_for_user_id. solve_moves. Qed.
#[global] Instance refresh_moves token req : Moves (refresh token req).
Proof. unfold refresh. solve_moves. Qed.
#[global] Instance revoke_by_refresh_jti_moves j : Moves (revoke_by_refresh_jti j).
Proof. unfold revoke_by_refresh_jti. solve_moves. Qed.
#[global] Instance logout_moves token req : Moves (logout token req).
Proof. unfold logout, find_by_refresh_jti. solve_moves. Qed.
#[global] Instance revoke_session_moves id sid cur req : Moves (revoke_session id sid cur req).
Proof. unfold revoke_session, revoke_by_id_for_user, find_by_id_for_user. solve_moves. Qed.
#[global] Instance revoke_other_sessions_moves id cur req :
  Moves (revoke_other_sessions id cur req).
Proof.
  unfold revoke_other_sessions, revoke_all_for_user_except_id, find_by_refresh_jti. solve_moves.
Qed.
#[global] Instance cleanup_sessions_moves : Moves cleanup_expired_auth_sessions.
Proof. unfold cleanup_expired_auth_sessions, SessionRepo.delete_expired. solve_moves. Qed.

(** A reading statement of a handler that has moved from [w0]. *)
Lemma wp_bind_reads_moves {E A B} (c : M E A) `{Hc : !Reads c} (k : A -> M E B) w0 w :
  account_moves w0 w ->
  (forall a w', c w = (Ok a, w') -> same w w' -> account_moves w0 w' ->
     wp (k a) (fun _ w' => account_moves w0 w') w') ->
  wp (bind c k) (fun _ w' => account_moves w0 w') w.
Proof.
  intros H0 Hk. apply wp_bind, wp_reads; [done|]. intros r w' Hr Hs.
  assert (H0' : account_moves w0 w').
  { eapply account_moves_trans; [exact H0|by apply account_moves_same]. }
  destruct r; cbn [wp_next]; eauto.
Qed.

(** ** Verification tokens *)

Lemma moves_create_verification mk w w0 :
  (forall id, hashed (step w0) (step w) (verification_token_hash (mk id)) /\
              consumed_at (mk id) = None) ->
  account_moves w0 w ->
  wp (VerificationRepo.create mk) (fun _ w' => account_moves w0 w') w.
Proof.
  intros Hmk H0.
  assert (Ht : account_moves w0 (tick w)).
  { eapply account_moves_trans; [done|apply account_moves_same, same_tick]. }
  apply wp_db_exec; [done|]. intros _. destruct (negb _); [done|].
  unfold insert_row. destruct (existsb _ (rows _)) eqn:Hc; [done|].
  destruct H0 as (L & Hs & Hv & Hk). split_and!; cbn; [lia| | |].
  - eapply rtc_weaken; [|exact Hs]; intros a b; apply session_event_widen; lia.
  - etrans; [eapply rtc_weaken; [|exact Hv]; intros a b; apply verification_event_widen; lia|].
    apply rtc_once, ev_issue; [done| |apply Hmk]. eapply hashed_widen; [..|apply Hmk]; lia.
  - intros id v Hf. by apply Hk.
Qed.

#[global] Instance delete_active_moves id channel purpose :
  Moves (VerificationRepo.delete_active_for_user id channel purpose).
Proof. unfold VerificationRepo.delete_active_for_user. solve_moves. Qed.

#[global] Instance issue_verification_moves id purpose target ttl :
  Moves (issue_contact_verification_token id purpose target ttl).
Proof.
  apply wp_moves. intros w. unfold issue_contact_verification_token.
  apply wp_bind_reads_moves; [apply _|apply account_moves_refl|]. intros now w1 _ H1 M1.
  apply wp_bind_reads_moves; [apply _|done|]. intros token w2 Ht H2 M2.
  assert (Hh : hashed (step w) (step w2) (sha256_hex token)).
  { injection Ht as <- <-. destruct H1 as (_ & _ & _ & ?), H2 as (_ & _ & _ & ?); cbn in *.
    exists (step w1). split; [lia|done]. }
  cbv zeta. apply wp_bind, wp_intro. intros r w3 Hr.
  apply moves_run in Hr as M3'; [|apply _].
  assert (M3 : account_moves w w3) by (by eapply account_moves_trans).
  destruct r; cbn [wp_next]; [|done..].
  apply wp_bind_reads_moves; [apply _|done|]. intros n w4 _ H4 M4.
  apply wp_bind_reads_moves; [apply _|done|]. intros d w5 _ H5 M5.
  apply wp_bind_reads_moves; [apply _|done|]. intros expires w6 _ H6 M6.
  apply wp_bind. eapply wp_mono.
  - apply moves_create_verification; [|exact M6]. intros pk. split; [|done]. cbn.
    destruct M3' as [? _], H4 as (_ & _ & _ & ?), H5 as (_ & _ & _ & ?), H6 as (_ & _ & _ & ?).
    eapply hashed_widen; [..|exact Hh]; lia.
  - intros r w7 H7. by destruct r.
Qed.

(** ** Passwords *)

(** What [update_password_in_connection] writes, from a user of the table. *)
Lemma update_password_ok u new w updated w' :
  update_password_in_connection u new w = (Ok updated, w') ->
  exists n h now row,
    validate_password new = Ok tt /\ hash_password_at n new = Ok h /\
    In row (rows (users (db w))) /\ user_pk row = user_pk u /\
    updated = set_password h (saturating_succ (session_version u)) now row /\
    same (set_db (set_users (with_rows
      (update_where (fun r => user_pk r =? user_pk u)
         (set_password h (saturating_succ (session_version u)) now) (rows (users (db w))))
      (users (db w))) (db w)) w) w'.
Proof.
  unfold update_password_in_connection. intros H. inv_ok H.
  unfold hash_password in Hr1.
  destruct (hash_password_at (step w) new) as [h|e|m] eqn:Eh; [injection Hr1 as <- <-|done..].
  unfold Users.update, db_exec, update_row in Hr3. cbn in Hr3.
  destruct (db_fault _); [done|].
  destruct (find_row _ _) as [row|] eqn:Ef; [|done]. destruct (existsb _ _); [done|].
  injection Hr3 as <- <-. apply find_row_some in Ef as [Hin Hpk].
  destruct a. exists (step w), h, (clock (S (step w))), row.
  split_and!; try done; [lia|]. repeat split. cbn. lia.
Qed.

Lemma saturating_succ_bounds v : v <= I64_MAX -> v <= saturating_succ v <= I64_MAX.
Proof. unfold saturating_succ. lia. Qed.

Lemma update_password_moves u new w :
  In u (rows (users (db w))) ->
  wp (update_password_in_connection u new) (fun _ w' => account_moves w w') w.
Proof.
  intros Hu. unfold update_password_in_connection.
  apply wp_bind_reads_moves; [apply _|apply account_moves_refl|]. intros _ w1 _ H1 _.
  apply wp_bind_reads_moves; [apply _|by apply account_moves_same|]. intros h w2 _ H2 M2.
  apply wp_bind_reads_moves; [apply _|done|]. intros now w3 _ H3 M3.
  assert (H03 : same w w3) by (eapply same_trans; [exact H1|by eapply same_trans]).
  eapply wp_intro. intros r w4 Hr. eapply account_moves_trans; [exact M3|].
  unfold Users.update, db_exec, update_row in Hr.
  destruct (db_fault _); [injection Hr as <- <-; apply account_moves_same, same_tick|].
  destruct (find_row _ _) as [row|]; [|injection Hr as <- <-; apply account_moves_same, same_tick].
  destruct (existsb _ _); injection Hr as <- <-; [apply account_moves_same, same_tick|].
  apply moves_users, versions_kept_update; [done|].
  intros v [_ Hv] x _ _. cbn. rewrite <- (same_db _ _ H03) in Hu.
  destruct (Hv u Hu eq_refl). pose proof (saturating_succ_bounds (session_version u)). lia.
Qed.

Lemma find_by_id_ok id w u w' :
  UserRepo.find_by_id id w = (Ok u, w') ->
  In u (rows (users (db w))) /\ user_pk u = id /\ same w w'.
Proof.
  intros H. assert (Hs : same w w') by (by eapply reads_run; [|exact H]; apply _).
  unfold UserRepo.find_by_id in H. inv_ok H. unfold ok_or in Hr0.
  match goal with E : match ?o with _ => _ end = Ok u |- _ =>
    destruct o as [x|] eqn:Ef; [injection E as ->|done] end.
  apply find_row_some in Ef as [? ?]. split_and!; [done|lia|done].
Qed.

Lemma active_user s : is_active_user s = true -> s = UserActive.
Proof. by destruct s. Qed.

Lemma ok_or_ok {A} (e : AsterError.t) (o : option A) a : ok_or e o = Ok a -> o = Some a.
Proof. by destruct o; cbn; [intros [= ->]|]. Qed.

Lemma identity_exists_ok id w b w' :
  identity_exists_for_user id w = (Ok b, w') ->
  same w w' /\ (b = true ->
    exists i, In i (rows (external_identities (accounts (db w)))) /\ identity_user_id i = id).
Proof.
  intros H. assert (Hs : same w w').
  { by eapply reads_run; [|exact H]; unfold identity_exists_for_user; apply _. }
  split; [done|]. unfold identity_exists_for_user in H. inv_ok H.
  intros E%Z.ltb_lt.
  match type of E with 0 < Z.of_nat (count_where ?p ?l) =>
    destruct (count_where_pos p l) as (i & Hi & Hk); [lia|] end.
  exists i. split; [done|lia].
Qed.
End Ops.

(** Read the guards of a successful run. *)
Ltac tidy_guards :=
  repeat match goal with
  | E : utils _ = Ok _ |- _ => apply utils_ok in E
  | E : ok_or _ _ = Ok _ |- _ => apply ok_or_ok in E
  | E : negb _ = false |- _ => apply negb_false_iff in E
  | E : negb _ = true |- _ => apply negb_true_iff in E
  | E : _ || _ = false |- _ => apply orb_false_iff in E as [? ?]
  | E : eqb _ _ = false |- _ => rewrite eqb_false in E
  | E : eqb _ _ = true |- _ => rewrite eqb_true in E
  | E : is_active_user _ = true |- _ => apply active_user in E
  | E : (_ <=? _) = false |- _ => apply Z.leb_gt in E
  | E : (_ =? _) = true |- _ => apply Z.eqb_eq in E
  | E : UserRepo.find_by_id _ _ = (Ok _, _) |- _ => apply find_by_id_ok in E as (? & ? & ?)
  end; subst.

Section Flows.
Context `{EN : Env} `{CB : CacheBackend} `{TM : !TxnManager} `{TL : !TxnLaws TM}.
Context `{FC : ForgeCrypto} `{FN : ForgeNumbers} `{FS : ForgeSigned} `{AE : !AccountExterns}.
Context `{AL : !AccountExternLaws AE} `{CS : ChronoSeconds} `{JW : Jwt} `{CF : ForgeConfig}.
Context `{ST : ConfigStore} `{RC : RuntimeConfig} `{AC : AppConfig} `{FE : ForgeEmail}.
Context `{SE : !SetupExterns} `{SL : !SetupExternLaws SE} `{FA : ForgeApi}.
Context `{NL : !ForgeNumberLaws FN} `{FSL : !ForgeSignedLaws FS} `{CSL : !ChronoSecondsLaws CS}.

(** The user both password changes go on with is the stored one. *)
Lemma verify_change_ok id cur new w u w' :
  verify_change_password_input id cur new w = (Ok u, w') ->
  In u (rows (users (db w))) /\ user_pk u = id /\ user_status u = UserActive /\
  is_email_activation_satisfied u = true /\ verify_password cur (password_hash u) = Ok true /\
  cur <> new /\ same w w'.
Proof.
  intros H. assert (Hs : same w w') by (by eapply reads_run; [|exact H]; apply _).
  unfold verify_change_password_input, check_hash in H. inv_ok H. tidy_guards. done.
Qed.

Lemma verify_set_local_ok id new w u w' :
  verify_set_local_password_input id new w = (Ok u, w') ->
  In u (rows (users (db w))) /\ user_pk u = id /\ user_status u = UserActive /\
  (exists i, In i (rows (external_identities (accounts (db w)))) /\ identity_user_id i = id) /\
  same w w'.
Proof.
  intros H. assert (Hs : same w w') by (by eapply reads_run; [|exact H]; apply _).
  unfold verify_set_local_password_input, check_hash in H. inv_ok H. tidy_guards.
  match goal with E : identity_exists_for_user _ _ = _ |- _ =>
    apply identity_exists_ok in E as [_ E]; specialize (E eq_refl) end.
  match goal with S : same ?a ?b, E : context [db ?b] |- _ => rewrite (same_db _ _ S) in E end.
  done.
Qed.

(** The transaction of both: once verified, the password is replaced and the
    user's sessions are revoked. *)
Lemma replace_password_moves (verified : M AsterError.t user) new :
  Reads verified ->
  (forall w u w', verified w = (Ok u, w') -> In u (rows (users (db w)))) ->
  Moves (replace_password verified new).
Proof.
  intros Hv Hin. apply wp_moves. intros w. unfold replace_password.
  apply wp_bind_reads_moves; [done|apply account_moves_refl|]. intros u w1 Hu H1 M1.
  apply Hin in Hu. apply wp_bind. eapply wp_mono.
  - apply update_password_moves. by rewrite (same_db _ _ H1).
  - intros r w2 M2. assert (M : account_moves w w2) by (by eapply account_moves_trans).
    destruct r as [updated|e|m]; cbn [wp_next]; [|done..].
    apply wp_bind, wp_intro. intros r w3 Hr. apply moves_run in Hr; [|apply _].
    assert (M3 : account_moves w w3) by (by eapply account_moves_trans). by destruct r.
Qed.

#[global] Instance change_password_moves id cur new : Moves (change_password id cur new).
Proof.
  unfold change_password. apply moves_bind; [|intros; apply _]. apply moves_with_transaction.
  apply replace_password_moves; [apply _|]. by intros w u w' (? & _)%verify_change_ok.
Qed.
#[global] Instance set_local_password_moves id new : Moves (set_local_password id new).
Proof.
  unfold set_local_password. apply moves_bind; [|intros; apply _]. apply moves_with_transaction.
  apply replace_password_moves; [apply _|]. by intros w u w' (? & _)%verify_set_local_ok.
Qed.

#[global] Instance mark_consumed_moves id : Moves (VerificationRepo.mark_consumed_if_unused id).
Proof. unfold VerificationRepo.mark_consumed_if_unused. solve_moves. Qed.

(** Consuming a token leaves the users alone. *)
Lemma mark_consumed_users id w r w' :
  VerificationRepo.mark_consumed_if_unused id w = (r, w') -> users (db w') = users (db w).
Proof.
  unfold VerificationRepo.mark_consumed_if_unused, bind, utc_now, db_update_many, db_exec.
  cbn. destruct (db_fault _); intros [= <- <-]; done.
Qed.

#[global] Instance reset_in_txn_moves record new : Moves (reset_in_txn record new).
Proof.
  apply wp_moves. intros w. unfold reset_in_txn.
  apply wp_bind_reads_moves; [apply _|apply account_moves_refl|]. intros u w1 Hu H1 M1.
  apply find_by_id_ok in Hu as (Hu & _ & _). rewrite <- (same_db _ _ H1) in Hu.
  apply wp_bind_reads_moves; [apply _|done|]. intros _ w2 _ H2 M2.
  apply wp_bind_reads_moves; [apply _|done|]. intros _ w3 _ H3 M3.
  rewrite <- (same_db _ _ H2), <- (same_db _ _ H3) in Hu.
  apply wp_bind, wp_intro. intros r w4 Hr. pose proof (mark_consumed_users _ _ _ _ Hr) as Hus.
  apply moves_run in Hr; [|apply _].
  assert (M4 : account_moves w w4) by (by eapply account_moves_trans).
  destruct r; cbn [wp_next]; [|done..].
  apply wp_bind_reads_moves; [apply _|done|]. intros _ w5 _ H5 M5.
  rewrite <- Hus, <- (same_db _ _ H5) in Hu.
  apply wp_bind. eapply wp_mono; [by apply update_password_moves|].
  intros r w6 M6'. assert (M6 : account_moves w w6) by (by eapply account_moves_trans).
  destruct r as [updated|e|m]; cbn [wp_next]; [|done..].
  apply wp_bind_reads_moves; [apply _|done|]. intros address w7 _ H7 M7.
  apply wp_bind, wp_intro. intros r w8 Hr8. apply moves_run in Hr8; [|apply _].
  assert (M8 : account_moves w w8) by (by eapply account_moves_trans). by destruct r.
Qed.

(** ** The remaining flows *)

#[global] Instance confirm_password_reset_moves token new :
  Moves (confirm_password_reset token new).
Proof. unfold confirm_password_reset, VerificationRepo.find_by_token_hash. solve_moves. Qed.
#[global] Instance request_password_reset_moves address : Moves (request_password_reset address).
Proof. unfold request_password_reset. solve_moves. Qed.
#[global] Instance send_email_change_moves u address : Moves (send_email_change u address).
Proof. unfold send_email_change. solve_moves. Qed.
#[global] Instance request_email_change_moves id address : Moves (request_email_change id address).
Proof. unfold request_email_change. solve_moves. Qed.
#[global] Instance resend_email_change_moves id : Moves (resend_email_change id).
Proof. unfold resend_email_change. solve_moves. Qed.
#[global] Instance confirm_contact_moves token : Moves (confirm_contact_verification token).
Proof.
  unfold confirm_contact_verification, confirm_in_txn, confirm_registration,
    confirm_contact_change, VerificationRepo.find_by_token_hash. solve_moves.
Qed.
#[global] Instance resend_register_activation_moves identifier :
  Moves (resend_register_activation identifier).
Proof. unfold resend_register_activation. solve_moves. Qed.
#[global] Instance register_moves name address password req :
  Moves (register name address password req).
Proof. unfold register, register_with_activation. solve_moves. Qed.
#[global] Instance setup_first_admin_moves name address password url req :
  Moves (setup_first_admin name address password url req).
Proof. unfold setup_first_admin, setup_site_url. solve_moves. Qed.
#[global] Instance cleanup_verifications_moves :
  Moves cleanup_expired_contact_verification_tokens.
Proof.
  unfold cleanup_expired_contact_verification_tokens, VerificationRepo.delete_expired. solve_moves.
Qed.
#[global] Instance change_password_with_audit_moves req id cur new :
  Moves (change_password_with_audit req id cur new).
Proof. unfold change_password_with_audit, audit_password_change. solve_moves. Qed.
#[global] Instance set_local_password_with_audit_moves req id new :
  Moves (set_local_password_with_audit req id new).
Proof. unfold set_local_password_with_audit, audit_password_change. solve_moves. Qed.
End Flows.
