(* ===== verification/AccountProofs.v ===== *)
(** * Accounts: what the handlers do

    Exact specifications of the successful runs of the session handlers and
    of the account flows, over the blocks of AccountOps.v. *)

From Stdlib Require Import ZArith List Bool Lia.
From stdpp Require Import base decidable list strings relations pretty.
From S2P Require Import Prelude Text Errors Types AuditLog World Logic Repos Tokens Auth AuthConfig Accounts WebSessions AccountFlows AccountSpec AccountOps.

Local Open Scope Z_scope.
Import SessionRepo.

Section Proofs.
Context `{EN : Env} `{CB : CacheBackend} `{TM : !TxnManager} `{TL : !TxnLaws TM}.
Context `{FC : ForgeCrypto} `{FN : ForgeNumbers} `{FS : ForgeSigned} `{AE : !AccountExterns}.
Context `{AL : !AccountExternLaws AE} `{CS : ChronoSeconds} `{JW : Jwt} `{CF : ForgeConfig}.
Context `{ST : ConfigStore} `{RC : RuntimeConfig} `{AC : AppConfig} `{FE : ForgeEmail}.
Context `{SE : !SetupExterns} `{SL : !SetupExternLaws SE} `{FA : ForgeApi}.
Context `{NL : !ForgeNumberLaws FN} `{FSL : !ForgeSignedLaws FS} `{CSL : !ChronoSecondsLaws CS}.
Context `{JL : !JwtLaws JW}.

(** A log entry changes neither the tables nor the cache. *)
Lemma log_run {E} ctx action ty id name w (r : outcome E unit) w' :
  AuditService.log_with_details ctx action ty id name w = (r, w') ->
  r = Ok tt /\ db w' = db w /\ (step w <= step w')%nat.
Proof.
  unfold AuditService.log_with_details. destruct (should_record _ _); intros [= <- <-]; cbn;
    split_and!; auto; lia.
Qed.

Lemma decode_claims_ok token w c w' :
  decode_claims token w = (Ok c, w') ->
  jwt_decode jwt_secret (clock (step w)) token = inl c /\ w' = tick w.
Proof.
  unfold decode_claims. intros H. inv_ok H. cbn in *.
  destruct (jwt_decode _ _ _) as [c'|[m|]]; [|done..]. by injection Hr0 as ->.
Qed.

Lemma ensure_token_type_ok c ty u : ensure_token_type c ty = Ok u -> token_type c = ty.
Proof.
  unfold ensure_token_type. destruct (negb _) eqn:E; [done|]. intros _.
  apply negb_false_iff in E. by rewrite eqb_true in E.
Qed.

(** ** Refreshing *)

(** The session and the user a refresh token stands for at [w]. *)
Record refreshable (w : World) (token : string) (c : AccessClaims) (u : user)
  (s : auth_session) : Prop := {
  rf_decoded : jwt_decode jwt_secret (clock (step w)) token = inl c;
  rf_type : token_type c = RefreshToken;
  rf_jti : jti c = Some (current_refresh_jti s);
  rf_session : In s (session_rows (db w));
  rf_live : session_revoked_at s = None;
  rf_unexpired : exists i, (step w <= i)%nat /\ clock i < refresh_expires_at s;
  rf_owner : session_user_id s = user_pk u;
  rf_user : In u (rows (users (db w)));
  rf_user_id : claims_user_id c = user_pk u;
  rf_active : user_status u = UserActive;
  rf_version : claims_session_version c = session_version u;
  rf_free : must_change_password u = false /\ password_change c = false
}.

Lemma find_by_refresh_jti_ok j w o w' :
  find_by_refresh_jti j w = (Ok o, w') ->
  same w w' /\ match o with
              | Some s => In s (session_rows (db w)) /\ current_refresh_jti s = j
              | None => forall s, In s (session_rows (db w)) -> current_refresh_jti s <> j
              end.
Proof.
  intros H. assert (Hs : same w w') by (by eapply reads_run; [|exact H]; unfold find_by_refresh_jti; apply _).
  split; [done|]. unfold find_by_refresh_jti in H. inv_ok H. destruct (find_row _ _) as [s|] eqn:E.
  - apply find_row_some in E as [? E]. split; [done|]. unfold has_jti in E. by rewrite eqb_true in E.
  - intros s Hin. rewrite find_row_none in E. specialize (E s Hin).
    unfold has_jti in E. by rewrite eqb_false in E.
Qed.

Lemma active_revoked s : Users.session_active s = true <-> session_revoked_at s = None.
Proof.
  unfold Users.session_active, is_none, is_some. by destruct (session_revoked_at s).
Qed.

Lemma refresh_check_ok token w u s w' :
  refresh_check token w = (Ok (u, s), w') -> exists c, refreshable w token c u s.
Proof.
  unfold refresh_check. intros H. apply bind_ok in H as (c & w1 & Hc & H).
  apply decode_claims_ok in Hc as [Hc ->]. apply bind_ok in H as (? & w2 & Ht & H).
  apply lift_ok in Ht as [Ht ->]. apply ensure_token_type_ok in Ht.
  destruct (jti c) as [j|] eqn:Ej; [|done].
  apply bind_ok in H as (found & w3 & Hf & H). apply find_by_refresh_jti_ok in Hf as [H3 Hf].
  destruct found as [s0|]; cbn in H.
  2:{ apply bind_ok in H as (? & ? & _ & H). by destruct (is_some _). }
  destruct (Users.session_active s0) eqn:Ha.
  2:{ apply bind_ok in H as (? & ? & _ & H). by destruct (is_some _). }
  apply active_revoked in Ha. destruct Hf as [Hin Hj]. exists c. inv_ok H. tidy_guards.
  cbn [db tick] in *. rewrite (same_db _ _ H3) in *.
  split; try done; try congruence.
  exists (step w3). apply same_step in H3. cbn in H3. split; [lia|done].
Qed.

(** A dead refresh identifier is refused. *)
Lemma refresh_check_dead token w w0 c j r w' :
  jwt_decode jwt_secret (clock (step w0)) token = inl c -> jti c = Some j ->
  jti_dead j (session_rows (db w)) ->
  refresh_check token w = (r, w') -> forall u s, r <> Ok (u, s).
Proof.
  intros Hd Hj Hdead Hr u s ->. apply refresh_check_ok in Hr as (c' & Hrf).
  assert (c' = c) as -> by (eapply decode_stable; [apply (rf_decoded _ _ _ _ _ Hrf)|exact Hd]).
  pose proof (rf_jti _ _ _ _ _ Hrf) as Hj'. rewrite Hj in Hj'. injection Hj' as ->.
  specialize (Hdead s (rf_session _ _ _ _ _ Hrf) eq_refl).
  by rewrite (rf_live _ _ _ _ _ Hrf) in Hdead.
Qed.

Lemma refresh_dead token req w w0 c j r w' :
  jwt_decode jwt_secret (clock (step w0)) token = inl c -> jti c = Some j ->
  jti_dead j (session_rows (db w)) -> refresh token req w = (r, w') -> forall b, r <> Ok b.
Proof.
  intros Hd Hj Hdead Hr b ->. unfold refresh in Hr. apply bind_ok in Hr as ([u s] & w1 & H1 & _).
  by eapply (refresh_check_dead token w w0).
Qed.

(** The rotation of the session that holds [cur]. *)
Definition rotate_rows (cur next : string) (e : DateTimeUtc) (ip ua : option string)
  (seen : DateTimeUtc) (l : list auth_session) : list auth_session :=
  update_where (rotation_hit cur) (rotated next cur e ip ua seen) l.

Lemma rotate_refresh_ok cur next e ip ua seen w w' :
  rotate_refresh cur next e ip ua seen w = (Ok true, w') ->
  count_where (rotation_hit cur) (session_rows (db w)) = 1%nat /\
  w' = set_db (set_auth_sessions
         (with_rows (rotate_rows cur next e ip ua seen (session_rows (db w)))
            (auth_sessions (accounts (db w)))) (db w)) (tick w).
Proof.
  unfold rotate_refresh, db_exec. destruct (db_fault _); [done|].
  cbv zeta. destruct (_ && _); [done|]. intros [= Hc <-]. apply Z.eqb_eq in Hc.
  split; [|done]. by apply Nat2Z.inj.
Qed.

Lemma rotate_tokens_ok u s req w b w' :
  rotate_tokens u s req w = (Ok b, w') ->
  exists t seen,
    pair_for (user_pk u) (session_version u) false (clock (step w)) t /\
    drawn (step w) (step w') (it_refresh_jti t) /\
    count_where (rotation_hit (current_refresh_jti s)) (session_rows (db w)) = 1%nat /\
    db w' = set_auth_sessions
         (with_rows (rotate_rows (current_refresh_jti s) (it_refresh_jti t)
              (it_refresh_expires_at t) (or_else (req_peer_ip req) (session_ip_address s))
              (or_else (req_user_agent req) (session_user_agent s)) seen (session_rows (db w)))
            (auth_sessions (accounts (db w)))) (db w) /\
    b = mkBundle (it_access_token t) (it_refresh_token t) (it_access_expires_in t)
          Authenticated (from_user u).
Proof.
  unfold rotate_tokens. intros H. apply bind_ok in H as (t & w1 & Ht & H).
  apply create_token_pair_ok in Ht as (Hs & Hd & Hp & _). inv_ok H.
  match goal with E : negb ?b = false |- _ => apply negb_false_iff in E; subst b end.
  match goal with E : rotate_refresh _ _ _ _ _ _ _ = _ |- _ =>
    apply rotate_refresh_ok in E as [Hc ->] end.
  exists t. eexists. cbn in *. rewrite (same_db _ _ Hs) in *.
  split_and!; try done. eapply drawn_widen; [..|exact Hd]; lia.
Qed.

Lemma refresh_ok token req w b w' :
  refresh token req w = (Ok b, w') ->
  exists c u s t now seen,
    refreshable w token c u s /\
    pair_for (user_pk u) (session_version u) false now t /\
    (exists i, (step w <= i)%nat /\ now = clock i) /\
    drawn (step w) (step w') (it_refresh_jti t) /\
    count_where (rotation_hit (current_refresh_jti s)) (session_rows (db w)) = 1%nat /\
    db w' = set_auth_sessions
         (with_rows (rotate_rows (current_refresh_jti s) (it_refresh_jti t)
              (it_refresh_expires_at t) (or_else (req_peer_ip req) (session_ip_address s))
              (or_else (req_user_agent req) (session_user_agent s)) seen (session_rows (db w)))
            (auth_sessions (accounts (db w)))) (db w) /\
    b = mkBundle (it_access_token t) (it_refresh_token t) (it_access_expires_in t)
          Authenticated (from_user u).
Proof.
  unfold refresh. intros H. apply bind_ok in H as ([u s] & w1 & Hc & H).
  assert (Hs : same w w1) by (by eapply reads_run; [|exact Hc]; apply _).
  apply refresh_check_ok in Hc as (c & Hc).
  apply bind_ok in H as (b' & w2 & Hr & H).
  apply rotate_tokens_ok in Hr as (t & seen & Hp & Hd & Hn & Hdb & ->).
  apply bind_ok in H as ([] & w3 & Hl & H). injection H as <- <-.
  apply log_run in Hl as (_ & Hdb' & L). pose proof (same_step _ _ Hs) as L1.
  rewrite (same_db _ _ Hs) in *.
  exists c, u, s, t, (clock (step w1)), seen. split_and!; try done.
  - by exists (step w1).
  - eapply drawn_widen; [..|exact Hd]; lia.
  - by rewrite Hdb'.
Qed.

(** The presented identifier is dead once its session was rotated. *)
Lemma rotate_rows_dead cur next e ip ua seen l :
  next <> cur -> jti_dead cur (rotate_rows cur next e ip ua seen l).
Proof.
  intros Hn s (s0 & Hs & ->)%in_update_where. destruct (rotation_hit cur s0) eqn:E; cbn; [done|].
  intros Hj. unfold rotation_hit, has_jti in E. rewrite Hj, eqb_refl in E. cbn in E.
  unfold Users.session_active, is_none in E. by apply negb_false_iff in E.
Qed.

Lemma revoke_where_dead j (p : auth_session -> bool) now l :
  (forall s, In s l -> current_refresh_jti s = j -> session_revoked_at s = None -> p s = true) ->
  jti_dead j (update_where p (Users.set_session_revoked now) l).
Proof.
  intros Hp s (s0 & Hs & ->)%in_update_where. destruct (p s0) eqn:E; cbn; [done|].
  intros Hj. destruct (session_revoked_at s0) eqn:Er; [done|].
  rewrite Hp in E by done. done.
Qed.

(** ** Who a token stands for *)

Lemma current_user_and_claims_ok token w u c w' :
  current_user_and_claims_from_token token w = (Ok (u, c), w') ->
  jwt_decode jwt_secret (clock (step w)) token = inl c /\ token_type c = AccessToken /\
  In u (rows (users (db w))) /\ user_pk u = claims_user_id c /\ user_status u = UserActive /\
  session_version u = claims_session_version c /\ must_change_password u = password_change c /\
  same w w'.
Proof.
  intros H. assert (Hs : same w w') by (by eapply reads_run; [|exact H]; apply _).
  unfold current_user_and_claims_from_token, decode_access_claims in H. inv_ok H.
  match goal with E : decode_claims _ _ = _ |- _ => apply decode_claims_ok in E as [Hc ->] end.
  match goal with E : ensure_token_type _ _ = _ |- _ => apply ensure_token_type_ok in E end.
  tidy_guards. split_and!; try done. by destruct (must_change_password u), (password_change c).
Qed.

Lemma current_user_ok req w u w' :
  current_user req w = (Ok u, w') ->
  exists token c,
    request_access_token req = Some token /\
    jwt_decode jwt_secret (clock (step w)) token = inl c /\ token_type c = AccessToken /\
    In u (rows (users (db w))) /\ user_pk u = claims_user_id c /\ user_status u = UserActive /\
    session_version u = claims_session_version c /\ must_change_password u = password_change c /\
    (must_change_password u = true -> password_change_request_allowed req = true) /\ same w w'.
Proof.
  unfold current_user. intros H. apply bind_ok in H as (token & w1 & Ht & H).
  apply lift_ok in Ht as [Ht ->]. apply ok_or_ok in Ht.
  apply bind_ok in H as ([u0 c] & w2 & Hc & H).
  apply current_user_and_claims_ok in Hc as (? & ? & ? & ? & ? & ? & Hm & ?).
  apply bind_ok in H as (? & w3 & Hg & H). apply when_ok_ok in Hg as [Hg ->].
  injection H as -> ->. exists token, c. split_and!; try done.
  intros Hmc. rewrite <- Hm, Hmc in Hg. by apply negb_false_iff in Hg.
Qed.

(** ** Opening a session *)

Lemma create_session_ok s w s' w' :
  SessionRepo.create s w = (Ok s', w') ->
  s' = s /\ existsb (session_conflict s) (session_rows (db w)) = false /\
  (exists u, In u (rows (users (db w))) /\ user_pk u = session_user_id s) /\
  w' = set_db (set_auth_sessions (mkTable (session_rows (db w) ++ [s])
         (next_pk (auth_sessions (accounts (db w))) + 1)) (db w)) (tick w).
Proof.
  unfold SessionRepo.create, db_exec, insert_row. destruct (db_fault _); [done|].
  destruct (existsb _ (rows (users (db w)))) eqn:Hu; [|done]. cbn.
  destruct (existsb _ (rows (sessions (db w)))) eqn:Hc; [done|]. intros [= <- <-].
  apply existsb_exists in Hu as (u & Hin & Hu). split_and!; try done. exists u. split; [done|lia].
Qed.

(** The row a login adds. *)
Definition opened_session (u : user) (t : IssuedTokens) (req : HttpRequest) (now : DateTimeUtc)
  : auth_session :=
  mkSession (it_session_id t) (user_pk u) (it_refresh_jti t) None (it_refresh_expires_at t)
    (req_user_agent req) (req_peer_ip req) now now None.

Lemma issue_tokens_ok u req w b w' :
  issue_tokens u req w = (Ok b, w') ->
  exists t now,
    pair_for (user_pk u) (session_version u) (must_change_password u) (clock (step w)) t /\
    db w' = set_auth_sessions (mkTable (session_rows (db w) ++ [opened_session u t req now])
              (next_pk (auth_sessions (accounts (db w))) + 1)) (db w) /\
    existsb (session_conflict (opened_session u t req now)) (session_rows (db w)) = false /\
    (step w <= step w')%nat /\
    b = mkBundle (it_access_token t) (it_refresh_token t) (it_access_expires_in t)
          (if must_change_password u then PasswordChangeRequired else Authenticated) (from_user u).
Proof.
  unfold issue_tokens. cbv zeta. intros H. apply bind_ok in H as (t & w1 & Ht & H).
  apply create_token_pair_ok in Ht as (Hs & _ & Hp & _).
  apply bind_ok in H as (s & w2 & Hc & H). injection H as <- <-.
  unfold persist_auth_session in Hc. inv_ok Hc.
  match goal with E : SessionRepo.create _ _ = _ |- _ =>
    apply create_session_ok in E as (_ & Hf & _ & ->) end.
  apply same_step in Hs as L. exists t. eexists. cbn in *. rewrite (same_db _ _ Hs) in *.
  split_and!; try done. lia.
Qed.

(** ** Logging in *)

Lemma login_ok identifier password req w b w' :
  login identifier password req w = (Ok b, w') ->
  exists u t now,
    allow_local_login (auth_policy config_get) = true /\
    In u (rows (users (db w))) /\
    (username u = identifier \/ email u = Some identifier) /\
    user_status u = UserActive /\ is_email_activation_satisfied u = true /\
    verify_password password (password_hash u) = Ok true /\
    (exists i, (step w <= i)%nat /\
       pair_for (user_pk u) (session_version u) (must_change_password u) (clock i) t) /\
    db w' = set_auth_sessions (mkTable (session_rows (db w) ++ [opened_session u t req now])
              (next_pk (auth_sessions (accounts (db w))) + 1)) (db w) /\
    b = mkBundle (it_access_token t) (it_refresh_token t) (it_access_expires_in t)
          (if must_change_password u then PasswordChangeRequired else Authenticated) (from_user u).
Proof.
  unfold login. intros H. apply bind_ok in H as ([] & w1 & Hg & H).
  apply when_ok_ok in Hg as [Hg ->]. apply negb_false_iff in Hg.
  apply bind_ok in H as (found & w2 & Hf & H).
  unfold UserRepo.find_by_identifier in Hf. apply db_query_ok in Hf as (-> & -> & _).
  destruct (find_row _ _) as [u|] eqn:Ef; [|done]. apply find_row_some in Ef as [Hin Hm].
  inv_ok H. tidy_guards.
  match goal with E : issue_tokens _ _ _ = _ |- _ =>
    apply issue_tokens_ok in E as (t & now & Hp & Hdb & _ & _ & ->) end.
  match goal with E : AuditService.log_with_details _ _ _ _ _ _ = _ |- _ =>
    apply log_run in E as (_ & Hl & _) end.
  exists u, t, now. cbn in *. split_and!; try done.
  - apply orb_true_iff in Hm as [Hm|Hm]; rewrite eqb_true in Hm; auto.
  - exists (S (step w)). split; [lia|done].
  - by rewrite Hl.
Qed.

(** ** Replacing a password *)

(** The users after the password of [u] became [h]. *)
Definition password_rows (u : user) (h : string) (now : DateTimeUtc) (l : list user) : list user :=
  update_where (fun r => user_pk r =? user_pk u)
    (set_password h (saturating_succ (session_version u)) now) l.

Definition revoked_rows (id : Z) (now : DateTimeUtc) (l : list auth_session)
  : list auth_session :=
  update_where (fun s => (session_user_id s =? id) && Users.session_active s)
    (Users.set_session_revoked now) l.

Lemma replace_password_ok (verified : M AsterError.t user) `{Hr : !Reads verified} new w updated w' :
  replace_password verified new w = (Ok updated, w') ->
  exists u w1 n h now now' row,
    verified w = (Ok u, w1) /\ validate_password new = Ok tt /\ hash_password_at n new = Ok h /\
    In row (rows (users (db w))) /\ user_pk row = user_pk u /\
    updated = set_password h (saturating_succ (session_version u)) now row /\
    rows (users (db w')) = password_rows u h now (rows (users (db w))) /\
    session_rows (db w') = revoked_rows (user_pk u) now' (session_rows (db w)) /\
    next_pk (users (db w')) = next_pk (users (db w)).
Proof.
  unfold replace_password. intros H. apply bind_ok in H as (u & w1 & Hv & H).
  assert (H1 : same w w1) by (by eapply reads_run).
  apply bind_ok in H as (upd & w2 & Hu & H).
  apply update_password_ok in Hu as (n & h & now & row & Hval & Hh & Hin & Hpk & -> & H2).
  rewrite (same_db _ _ H1) in *.
  apply bind_ok in H as (k & w3 & Hs & H). injection H as <- <-.
  unfold Users.revoke_sessions_for_user, db_update_many, db_exec, bind, utc_now in Hs.
  cbn in Hs. destruct (db_fault _); [done|]. injection Hs as _ <-.
  exists u, w1, n, h, now, (clock (step w2)), row.
  pose proof (same_db _ _ H2) as E2. cbn in E2. split_and!; try done; cbn.
  - by rewrite E2.
  - unfold session_rows. cbn. rewrite E2. cbn. by rewrite Hpk.
  - by rewrite E2.
Qed.

Lemma change_password_ok id cur new w info w' :
  change_password id cur new w = (Ok info, w') ->
  exists u n h now now',
    In u (rows (users (db w))) /\ user_pk u = id /\ user_status u = UserActive /\
    is_email_activation_satisfied u = true /\ verify_password cur (password_hash u) = Ok true /\
    cur <> new /\ validate_password new = Ok tt /\ hash_password_at n new = Ok h /\
    rows (users (db w')) = password_rows u h now (rows (users (db w))) /\
    session_rows (db w') = revoked_rows id now' (session_rows (db w)) /\
    next_pk (users (db w')) = next_pk (users (db w)).
Proof.
  unfold change_password. intros H. apply bind_ok in H as (upd & w1 & Ht & H).
  apply with_transaction_ok in Ht as (w0 & w2 & H0 & Hb & H2).
  apply replace_password_ok in Hb as (u & wv & n & h & now & now' & row & Hv & ? & ? & _ & _ & _ & Hus & Hss & Hnx);
    [|apply _].
  apply verify_change_ok in Hv as (? & ? & ? & ? & ? & ? & _).
  assert (Hr : same w1 w') by (by eapply reads_run; [|exact H]; apply _).
  rewrite (same_db _ _ H0) in *. exists u, n, h, now, now'.
  rewrite (same_db _ _ Hr), (same_db _ _ H2). subst. rewrite Hnx. done.
Qed.

(** ** Verification links *)

(** The unconsumed, unexpired token a link stands for. *)
Record live_link (w : World) (token : string) (r : contact_verification_token) : Prop := {
  ll_row : In r (verification_rows (db w));
  ll_hash : verification_token_hash r = sha256_hex token;
  ll_unconsumed : consumed_at r = None;
  ll_unexpired : exists i, (step w <= i)%nat /\ clock i < verification_expires_at r
}.

Definition consumed_rows (id : Z) (now : DateTimeUtc) (l : list contact_verification_token)
  : list contact_verification_token :=
  update_where (fun t => (verification_pk t =? id) && VerificationRepo.unconsumed t)
    (VerificationRepo.set_consumed now) l.

Lemma find_by_token_hash_ok h w o w' :
  VerificationRepo.find_by_token_hash h w = (Ok o, w') ->
  same w w' /\ forall r, o = Some r -> In r (verification_rows (db w)) /\ verification_token_hash r = h.
Proof.
  intros H. assert (Hs : same w w').
  { by eapply reads_run; [|exact H]; unfold VerificationRepo.find_by_token_hash; apply _. }
  split; [done|]. intros r ->. unfold VerificationRepo.find_by_token_hash in H.
  apply db_query_ok in H as (Hf & _ & _). symmetry in Hf. apply find_row_some in Hf as [? Hh].
  by rewrite eqb_true in Hh.
Qed.

Lemma mark_consumed_ok id w w' :
  VerificationRepo.mark_consumed_if_unused id w = (Ok true, w') ->
  exists now, (exists t, In t (verification_rows (db w)) /\ verification_pk t = id /\
                  consumed_at t = None) /\
    db w' = set_verification_tokens (with_rows (consumed_rows id now (verification_rows (db w)))
              (verification_tokens (accounts (db w)))) (db w) /\ (step w <= step w')%nat.
Proof.
  unfold VerificationRepo.mark_consumed_if_unused, bind, utc_now, db_update_many, db_exec. cbn.
  destruct (db_fault _); [done|]. cbn. intros [= Hc <-]. apply Z.eqb_eq in Hc.
  exists (clock (step w)). split_and!; cbn; [|done|lia].
  match type of Hc with Z.of_nat (count_where ?p ?l) = _ =>
    destruct (count_where_pos p l) as (t & Ht & [? Hu]%andb_true_iff); [lia|] end.
  exists t. unfold VerificationRepo.unconsumed, is_none, is_some in Hu.
  split_and!; [done|lia|by destruct (consumed_at t)].
Qed.

(** The row is found by its key, so the hash of the consumed row is spent. *)
Lemma consumed_rows_spent r now l :
  List.NoDup (List.map verification_token_hash l) -> In r l ->
  hash_spent (verification_token_hash r) (consumed_rows (verification_pk r) now l).
Proof.
  intros Hd Hr t (t0 & Ht & ->)%in_update_where Hh.
  destruct (_ && _) eqn:E; [done|].
  assert (t0 = r) as -> by (by eapply (NoDup_map_inj_in verification_token_hash)).
  rewrite Z.eqb_refl in E. cbn in E. unfold VerificationRepo.unconsumed, is_none in E.
  by apply negb_false_iff in E.
Qed.

Lemma users_update_ok id f w u w' :
  Users.update id f w = (Ok u, w') ->
  exists row, In row (rows (users (db w))) /\ user_pk row = id /\ u = f row /\
    (forall v, In v (rows (users (db w))) -> user_pk v <> id -> user_conflict (f row) v = false) /\
    db w' = set_users (with_rows (update_where (fun r => user_pk r =? id) f (rows (users (db w))))
              (users (db w))) (db w) /\ (step w <= step w')%nat.
Proof.
  unfold Users.update, db_exec, update_row. destruct (db_fault _); [done|].
  destruct (find_row _ _) as [row|] eqn:Ef; [|done]. destruct (existsb _ _) eqn:Ec; [done|].
  intros [= <- <-]. apply find_row_some in Ef as [Hin Hpk]. exists row.
  split_and!; cbn; try done; [lia| |lia]. intros v Hv Hne.
  apply existsb_false with (x := v) in Ec; [|done]. apply andb_false_iff in Ec as [Ec|Ec]; [|done].
  apply negb_false_iff in Ec. lia.
Qed.

Lemma enqueue_ok address name payload w u w' :
  enqueue address name payload w = (Ok u, w') ->
  exists now, db w' = set_mail_outbox
    (mail_outbox (accounts (db w)) ++ [mkMail address name payload now now]) (db w).
Proof.
  unfold enqueue, bind, utc_now, db_exec. cbn. destruct (db_fault _); [done|].
  intros [= _ <-]. by eexists.
Qed.

(** Nobody but [id] uses or asks for [address]. *)
Definition email_free (address : string) (id : Z) (l : list user) : Prop :=
  (forall u, find_row (fun u => eqb (email u) (Some address)) l = Some u -> user_pk u = id) /\
  (forall u, find_row (fun u => eqb (pending_email u) (Some address)) l = Some u -> user_pk u = id).

Lemma ensure_email_available_ok address id w u w' :
  ensure_email_available address (Some id) w = (Ok u, w') ->
  same w w' /\ email_free address id (rows (users (db w))).
Proof.
  intros H. assert (Hs : same w w') by (by eapply reads_run; [|exact H]; apply _).
  split; [done|]. unfold ensure_email_available, Users.find_by_email, Users.find_by_pending_email in H.
  inv_ok H.
  cbn [db tick] in *. split; intros v Hv.
  - rewrite Hv in Hr. cbn in Hr. apply negb_false_iff in Hr. rewrite eqb_true in Hr. congruence.
  - rewrite Hv in Hr2. cbn in Hr2. apply negb_false_iff in Hr2. rewrite eqb_true in Hr2. congruence.
Qed.

Lemma reset_in_txn_ok r new w updated w' :
  reset_in_txn r new w = (Ok updated, w') ->
  exists u n h now now' sent,
    In u (rows (users (db w))) /\ user_pk u = verification_user_id r /\
    user_status u = UserActive /\ is_email_verified u = true /\
    email u = Some (verification_target r) /\
    validate_password new = Ok tt /\ hash_password_at n new = Ok h /\
    rows (users (db w')) = password_rows u h now (rows (users (db w))) /\
    verification_rows (db w') = consumed_rows (verification_pk r) now' (verification_rows (db w)) /\
    session_rows (db w') = session_rows (db w) /\
    exists address name,
    mail_outbox (accounts (db w')) = mail_outbox (accounts (db w)) ++
      [mkMail address (Some name) (MailPasswordResetNotice name site_name) sent sent].
Proof.
  unfold reset_in_txn. intros H. apply bind_ok in H as (u & w1 & Hu & H).
  apply find_by_id_ok in Hu as (Hin & Hpk & H1).
  apply bind_ok in H as (? & w2 & Hg & H). apply when_ok_ok in Hg as [Hg ->].
  apply bind_ok in H as (? & w3 & Hg' & H). apply when_ok_ok in Hg' as [Hg' ->]. tidy_guards.
  apply bind_ok in H as (consumed & w4 & Hc & H).
  apply bind_ok in H as (? & w5 & Hg'' & H). apply when_ok_ok in Hg'' as [Hg'' ->].
  apply negb_false_iff in Hg'' as ->. apply mark_consumed_ok in Hc as (now' & _ & H4 & _).
  apply bind_ok in H as (upd & w6 & Hp & H).
  apply update_password_ok in Hp as (n & h & now & row & Hval & Hh & Hrow & Hrpk & -> & H6).
  apply bind_ok in H as (address & w7 & Ha & H). apply lift_ok in Ha as [Ha ->].
  apply bind_ok in H as (? & w8 & He & H). injection H as <- <-.
  apply enqueue_ok in He as (sent & He). cbn in He.
  pose proof (same_db _ _ H6) as E6. cbn in E6.
  rewrite (same_db _ _ H1) in H4. rewrite H4 in E6, Hrow. cbn in E6, Hrow.
  rewrite E6 in He. cbn in He.
  exists u, n, h, now, now', sent. unfold session_rows, verification_rows. rewrite !He. cbn.
  split_and!; try done. by eexists _, _.
Qed.

Lemma confirm_password_reset_ok token new w info w' :
  confirm_password_reset token new w = (Ok info, w') ->
  exists r u n h now now' sent,
    live_link w token r /\ verification_purpose r = PasswordReset /\
    In u (rows (users (db w))) /\ user_pk u = verification_user_id r /\
    user_status u = UserActive /\ is_email_verified u = true /\
    email u = Some (verification_target r) /\
    validate_password new = Ok tt /\ hash_password_at n new = Ok h /\
    rows (users (db w')) = password_rows u h now (rows (users (db w))) /\
    verification_rows (db w') = consumed_rows (verification_pk r) now' (verification_rows (db w)) /\
    session_rows (db w') = session_rows (db w) /\
    exists address name,
    mail_outbox (accounts (db w')) = mail_outbox (accounts (db w)) ++
      [mkMail address (Some name) (MailPasswordResetNotice name site_name) sent sent].
Proof.
  unfold confirm_password_reset. intros H. apply bind_ok in H as (? & w1 & Hval & H).
  apply lift_ok in Hval as [_ ->]. cbv zeta in H.
  apply bind_ok in H as (found & w2 & Hf & H). apply find_by_token_hash_ok in Hf as [H2 Hf].
  apply bind_ok in H as (r & w3 & Hr & H). apply lift_ok in Hr as [Hr ->]. apply ok_or_ok in Hr.
  apply Hf in Hr as [Hin Hh].
  inv_ok H. tidy_guards.
  match goal with E : is_some (consumed_at r) = false |- _ => rename E into Hun end.
  match goal with E : with_transaction _ _ = _ |- _ =>
    apply with_transaction_ok in E as (w4 & w5 & H4 & Hb & H5) end.
  apply reset_in_txn_ok in Hb as (u & n & h & now & now' & sent & Hb).
  match goal with E : auth_user_info _ ?wa = (_, ?wb) |- _ =>
    assert (H6 : same wa wb) by (by eapply reads_run; [|exact E]; apply _) end.
  assert (E2 : db w4 = db w).
  { rewrite (same_db _ _ H4). cbn. apply (same_db _ _ H2). }
  exists r, u, n, h, now, now', sent.
  rewrite (same_db _ _ H6), (same_db _ _ H5). rewrite E2 in Hb.
  split_and!; try apply Hb; [|done].
  split; try done; [by destruct (consumed_at r)|].
  exists (step w2). split; [by apply same_step in H2|done].
Qed.

(** What a confirmation does to the accounts [l] and the mail [m]. *)
Inductive contact_effect (r : contact_verification_token) (u : user) (l : list user)
  (m : list MailOutboxCreate) : list user -> list MailOutboxCreate -> Prop :=
| effect_activated now :
    verification_purpose r = RegisterActivation -> email u = Some (verification_target r) ->
    email_verified_at u = None ->
    contact_effect r u l m
      (update_where (fun v => user_pk v =? user_pk u) (set_email_verified now) l) m
| effect_already_active :
    verification_purpose r = RegisterActivation -> email u = Some (verification_target r) ->
    email_verified_at u <> None -> contact_effect r u l m l m
| effect_changed now sent previous :
    verification_purpose r = ContactChange -> pending_email u = Some (verification_target r) ->
    email u = Some previous -> previous <> verification_target r ->
    email_free (verification_target r) (user_pk u) l ->
    contact_effect r u l m
      (update_where (fun v => user_pk v =? user_pk u)
         (set_confirmed_email (verification_target r) now) l)
      (m ++ [mkMail previous (Some (username u))
               (MailContactChangeNotice (username u) previous (verification_target r) site_name)
               sent sent])
| effect_already_changed :
    verification_purpose r = ContactChange -> email u = Some (verification_target r) ->
    email_free (verification_target r) (user_pk u) l -> contact_effect r u l m l m.

Definition users_and_mail (d : Db) : list user * list MailOutboxCreate :=
  (rows (users d), mail_outbox (accounts d)).

Lemma confirm_registration_ok r u now w x w' :
  verification_purpose r = RegisterActivation ->
  confirm_registration u (verification_target r) now w = (Ok x, w') ->
  contact_effect r u (rows (users (db w))) (mail_outbox (accounts (db w)))
    (rows (users (db w'))) (mail_outbox (accounts (db w'))) /\
  verification_rows (db w') = verification_rows (db w) /\
  session_rows (db w') = session_rows (db w).
Proof.
  intros Hp. unfold confirm_registration. intros H. apply bind_ok in H as (? & w1 & Hg & H).
  apply when_ok_ok in Hg as [Hg ->]. tidy_guards. unfold is_none, is_some in H.
  destruct (email_verified_at u) eqn:Ev; cbn in H.
  - injection H as _ <-. split; [|done]. apply effect_already_active; [done..|congruence].
  - apply bind_ok in H as (v & w2 & Hu & H). injection H as _ <-.
    apply users_update_ok in Hu as (row & _ & _ & _ & _ & E & _).
    unfold verification_rows, session_rows. rewrite !E. cbn. split; [|done].
    by apply effect_activated.
Qed.

Lemma confirm_contact_change_ok r u now w x w' :
  verification_purpose r = ContactChange ->
  confirm_contact_change u (verification_target r) now w = (Ok x, w') ->
  contact_effect r u (rows (users (db w))) (mail_outbox (accounts (db w)))
    (rows (users (db w'))) (mail_outbox (accounts (db w'))) /\
  verification_rows (db w') = verification_rows (db w) /\
  session_rows (db w') = session_rows (db w).
Proof.
  intros Hp. unfold confirm_contact_change. intros H. apply bind_ok in H as (? & w1 & Hg & H).
  apply when_ok_ok in Hg as [Hg ->].
  apply bind_ok in H as (? & w1 & He & H). apply ensure_email_available_ok in He as [H1 Hfree].
  destruct (eqb (email u) (Some (verification_target r))) eqn:Ee; cbn in Hg, H.
  - injection H as _ <-. rewrite eqb_true in Ee. rewrite (same_db _ _ H1).
    split; [|done]. by apply effect_already_changed.
  - apply negb_false_iff in Hg. rewrite eqb_true in Hg. rewrite eqb_false in Ee.
    apply bind_ok in H as (v & w2 & Hu & H).
    apply users_update_ok in Hu as (row & _ & _ & _ & _ & E & _).
    apply bind_ok in H as (prev & w3 & Ho & H). apply lift_ok in Ho as [Ho ->].
    apply ok_or_ok in Ho. apply enqueue_ok in H as [sent H].
    rewrite (same_db _ _ H1) in E. rewrite E in H. cbn in H.
    unfold verification_rows, session_rows. rewrite !H. cbn. split; [|done].
    apply effect_changed; [done..| |done]. congruence.
Qed.

Lemma confirm_contact_verification_ok token w res w' :
  confirm_contact_verification token w = (Ok res, w') ->
  exists r u now,
    live_link w token r /\
    In u (rows (users (db w))) /\ user_pk u = verification_user_id r /\
    user_status u = UserActive /\
    contact_effect r u (rows (users (db w))) (mail_outbox (accounts (db w)))
      (rows (users (db w'))) (mail_outbox (accounts (db w'))) /\
    verification_rows (db w') = consumed_rows (verification_pk r) now (verification_rows (db w)) /\
    session_rows (db w') = session_rows (db w) /\
    res = mkConfirmResult (verification_purpose r) (verification_user_id r) (verification_target r).
Proof.
  unfold confirm_contact_verification. cbv zeta. intros H.
  apply bind_ok in H as (found & w2 & Hf & H). apply find_by_token_hash_ok in Hf as [H2 Hf].
  apply bind_ok in H as (r & w3 & Hr & H). apply lift_ok in Hr as [Hr ->]. apply ok_or_ok in Hr.
  apply Hf in Hr as [Hin Hh]. inv_ok H. tidy_guards.
  match goal with E : is_some (consumed_at r) = false |- _ => rename E into Hun end.
  match goal with E : clock _ < _ |- _ => rename E into Hexp end.
  match goal with E : with_transaction _ _ = _ |- _ =>
    apply with_transaction_ok in E as (w4 & w5 & H4 & Hb & H5) end.
  assert (E2 : db w4 = db w).
  { rewrite (same_db _ _ H4). cbn. apply (same_db _ _ H2). }
  unfold confirm_in_txn in Hb. apply bind_ok in Hb as (u & w6 & Hu & Hb).
  apply find_by_id_ok in Hu as (Hu & Hpk & H6).
  apply bind_ok in Hb as (? & w7 & Hg & Hb). apply when_ok_ok in Hg as [Hg ->].
  apply bind_ok in Hb as (? & w7 & Hg' & Hb). apply when_ok_ok in Hg' as [_ ->].
  apply bind_ok in Hb as (consumed & w8 & Hc & Hb).
  apply bind_ok in Hb as (? & w9 & Hg'' & Hb). apply when_ok_ok in Hg'' as [Hg'' ->]. tidy_guards.
  apply mark_consumed_ok in Hc as (now' & _ & H8 & _).
  apply bind_ok in Hb as (now & w9 & Hn & Hb). injection Hn as <- <-.
  rewrite (same_db _ _ H6), E2 in H8. rewrite E2 in Hu.
  exists r, u, now'. unfold session_rows. rewrite (same_db _ _ H5).
  assert (Hll : live_link w token r).
  { split; try done; [by destruct (consumed_at r)|].
    exists (step w2). split; [by apply same_step in H2|done]. }
  destruct (verification_purpose r) eqn:Ep.
  - apply confirm_registration_ok in Hb as (He & Hv & Hs); [|done].
    unfold verification_rows, session_rows in *. cbn in He, Hv, Hs.
    rewrite H8 in He, Hv, Hs. cbn in He, Hv, Hs. by rewrite Hv, Hs.
  - apply confirm_contact_change_ok in Hb as (He & Hv & Hs); [|done].
    unfold verification_rows, session_rows in *. cbn in He, Hv, Hs.
    rewrite H8 in He, Hv, Hs. cbn in He, Hv, Hs. by rewrite Hv, Hs.
  - done.
Qed.
End Proofs.
