(* ===== verification/AccountConcrete.v ===== *)
(** * Concrete account libraries

    Stand-ins for the token, configuration, address and date libraries of
    the account services that satisfy their laws, and a small population of
    accounts, on which the theorems are applied. *)

From Stdlib Require Import ZArith List Bool Lia Ascii.
From stdpp Require Import base decidable list strings pretty countable relations.
From S2P Require Import Prelude Text Errors Types AuditLog World Logic Repos Tokens Auth Concrete AuthConfig Accounts WebSessions AccountFlows AccountSpec AccountOps.

Local Open Scope Z_scope.

(** ** Signed claims as a string of bits *)

Fixpoint bits (p : positive) : string :=
  match p with
  | xH => EmptyString
  | xO p => String "0" (bits p)
  | xI p => String "1" (bits p)
  end.

Fixpoint unbits (s : string) : option positive :=
  match s with
  | EmptyString => Some xH
  | String a s =>
      if eqb a "0"%char then xO <$> unbits s
      else if eqb a "1"%char then xI <$> unbits s
      else None
  end.

Lemma unbits_bits p : unbits (bits p) = Some p.
Proof. induction p as [p IH|p IH|]; cbn; rewrite ?IH; done. Qed.

Definition claims_tuple : Type :=
  string * (string * Z * Z * option string * bool * bool * Z).

Definition claims_to_tuple (secret : string) (c : AccessClaims) : claims_tuple :=
  (secret, (sub c, claims_user_id c, claims_session_version c, jti c, password_change c,
            eqb (token_type c) AccessToken, exp c)).
Definition claims_of_tuple (t : claims_tuple) : AccessClaims :=
  let '(_, (s, u, v, j, pc, ty, e)) := t in
  mkClaims s u v j pc (if (ty : bool) then AccessToken else RefreshToken) e.

Lemma claims_of_to secret c : claims_of_tuple (claims_to_tuple secret c) = c.
Proof. destruct c as [s u v j pc [] e]; done. Qed.

Definition jwt_payload (token : string) : option claims_tuple := unbits token ≫= decode.

#[export] Instance jwt0 : Jwt := {|
  jwt_encode := fun secret c => Ok (bits (encode (claims_to_tuple secret c)));
  jwt_decode := fun secret now token =>
    match jwt_payload token with
    | Some t =>
        if eqb (fst t) secret
        then if timestamp now - JWT_LEEWAY_SECS <=? exp (claims_of_tuple t)
             then inl (claims_of_tuple t) else inr None
        else inr (Some "InvalidSignature"%string)
    | None => inr (Some "InvalidToken"%string)
    end
|}.

#[export] Instance jwt0_laws : JwtLaws jwt0.
Proof.
  split; cbn.
  - intros secret c token now [= <-]. unfold jwt_payload. rewrite unbits_bits.
    cbn [mbind option_bind]. rewrite countable.decode_encode.
    rewrite claims_of_to. cbn [fst claims_to_tuple]. by rewrite eqb_refl.
  - intros secret token now c. destruct (jwt_payload token) as [t|]; [|done].
    destruct (eqb _ _); [|done]. destruct (Z.leb_spec (timestamp now - JWT_LEEWAY_SECS)
      (exp (claims_of_tuple t))); [|done]. by intros [= <-].
  - intros secret token now now' c c'. destruct (jwt_payload token) as [t|]; [|done].
    destruct (eqb _ _); [|done]. destruct (_ <=? _); [|done]. destruct (_ <=? _); [|done]. congruence.
Qed.

(** ** Numbers, dates, generators *)

#[export] Instance signed0 : ForgeSigned := {|
  i64_to_u64 := fun n name => if 0 <=? n then Ok n else Err (name +:+ " is negative")%string
|}.
#[export] Instance signed0_laws : ForgeSignedLaws signed0.
Proof.
  split. cbn. intros n name m. destruct (Z.leb_spec 0 n); [|done]. by intros [= ->].
Qed.

#[export] Instance chrono_seconds0 : ChronoSeconds := {|
  duration_seconds := fun n => if n * 1000 <=? I64_MAX then Some (seconds n) else None;
  checked_add_signed := fun t d => if t + d <=? seconds 8210266876799 then Some (t + d) else None
|}.
#[export] Instance chrono_seconds0_laws : ChronoSecondsLaws chrono_seconds0.
Proof. split; cbn; intros; destruct (_ <=? _); congruence. Qed.

#[export] Instance account_externs0 : AccountExterns := {|
  hash_password_at := fun _ p => Ok p;
  uuid_v4 := fun n => ("uuid-" +:+ pretty n)%string;
  best_effort_uuid := fun _ _ => let* t := new_short_token in ret ("u" +:+ t)%string;
  gravatar_url := fun address _ base => (base +:+ "/" +:+ address)%string
|}%aster.

#[export] Instance account_externs0_laws : AccountExternLaws account_externs0.
Proof.
  split; cbn.
  - intros _ p h [= <-]. by rewrite eqb_refl.
  - intros label probe _. apply _.
Qed.

Lemma uuids0_distinct : uuids_distinct.
Proof. intros i j E%app_string_inj. by apply (inj pretty) in E. Qed.

Lemma link_hashes0_distinct : link_hashes_distinct.
Proof.
  intros i j E. unfold link_hash in E. cbn -[String.append] in E.
  apply app_string_inj, app_string_inj, app_string_inj in E. by apply (inj pretty) in E.
Qed.

(** ** Configuration, addresses, pages *)

#[export] Instance forge_config0 : ForgeConfig := {|
  read_bool := fun get key d =>
    match get key with Some v => eqb v "true"%string | None => d end;
  read_positive_u64 := fun _ _ d => d;
  read_bounded_u64 := fun _ _ d _ _ => d;
  normalize_bool := fun _ v => Ok v;
  normalize_positive_u64 := fun _ v => Ok v;
  normalize_bounded_u64 := fun _ v _ _ => Ok v;
  parse_string_array := fun v _ => Ok [v];
  parse_single_string_enum_selection := fun _ v _ _ parse =>
    match parse v with Some a => Ok a | None => Err (InvalidValue v) end;
  config_error_to_string := fun _ => "invalid"%string;
  display_text_or_default := fun v d _ _ => match v with Some v => v | None => d end;
  forge_gravatar_base_url_or_default := fun v =>
    match v with Some v => v | None => "https://www.gravatar.com/avatar"%string end;
  runtime_public_site_origins := fun v => match v with Some v => [v] | None => [] end;
  join_origin_and_path := fun o p => (o +:+ p)%string
|}.
#[export] Instance forge_config0_laws : ForgeConfigLaws forge_config0.
Proof.
  split; cbn; try done.
  - intros get key default E. by rewrite E.
  - intros A v key expected parse a. destruct (parse v) as [a'|] eqn:E; [|done].
    intros [= <-]. eauto.
Qed.

#[export] Instance config_store0 : ConfigStore := {| config_get := fun _ => None |}.
#[export] Instance app_config0 : AppConfig := {| jwt_secret := "jwt-secret" |}.

#[export] Instance forge_email0 : ForgeEmail := {|
  normalize_email := fun e => Ok (to_ascii_lowercase e);
  normalized_email_and_domain := fun e => Ok (to_ascii_lowercase e, "example.org"%string);
  EmailPolicyList := list string;
  no_items := [];
  from_items_lossy := fun l => l;
  policy_list_empty := fun l => match l with [] => true | _ => false end;
  policy_list_matches := fun l n d => mem n l || mem d l
|}.
#[export] Instance forge_email0_laws : ForgeEmailLaws forge_email0.
Proof. split; cbn; try done. intros e e' [= <-]. by rewrite to_ascii_lowercase_idem. Qed.

#[export] Instance setup_externs0 : SetupExterns := {|
  origins_to_json := fun l => Ok (String.concat "," l);
  normalize_public_site_origins := fun s => Ok s;
  save_system_config := fun _ _ _ => ret tt
|}.
#[export] Instance setup_externs0_laws : SetupExternLaws setup_externs0.
Proof. split. intros k v b. cbn. apply _. Qed.

#[export] Instance forge_api0 : ForgeApi := {|
  from_overfetch := fun A l n limit =>
    Ok (mkSlice (firstn (Z.to_nat limit) l) n (limit <? Z.of_nat (length l)))
|}.
#[export] Instance forge_api0_laws : ForgeApiLaws forge_api0.
Proof. split. cbn. intros A l n limit s [= <-]. done. Qed.

(** ** Concrete account requests

    Runs of the account services on a small population, shared by the
    instances of the theorems: a sign-in and its refresh, a registration and
    its link, a password reset. *)

(** The answer and the world of a run that succeeds. *)
Definition run_of {E A} (default : A) (p : outcome E A * World) : A * World :=
  match p with
  | (Ok a, w) => (a, w)
  | (_, w) => (default, w)
  end.

Definition no_bundle : AuthTokenBundle := mkBundle "" "" 0 Authenticated (from_user alice).

(** Alice signs in, refreshes, and signs in on a second device. *)
Definition signed_in : AuthTokenBundle * World :=
  run_of no_bundle (login "alice" "secret" request0 world0).
Definition refreshed : AuthTokenBundle * World :=
  run_of no_bundle (refresh (refresh_token (fst signed_in)) request0 (snd signed_in)).
Definition signed_in_twice : AuthTokenBundle * World :=
  run_of no_bundle (login "alice" "secret" request0 (snd signed_in)).

Lemma signed_in_run : login "alice" "secret" request0 world0 = (Ok (fst signed_in), snd signed_in).
Proof. vm_compute. reflexivity. Qed.
Lemma refreshed_run :
  refresh (refresh_token (fst signed_in)) request0 (snd signed_in) = (Ok (fst refreshed), snd refreshed).
Proof. vm_compute. reflexivity. Qed.
Lemma signed_in_twice_run :
  login "alice" "secret" request0 (snd signed_in) = (Ok (fst signed_in_twice), snd signed_in_twice).
Proof. vm_compute. reflexivity. Qed.

(** The token in a mail. *)
Definition mailed_token (m : MailOutboxCreate) : string :=
  match mail_payload m with
  | MailRegisterActivation _ token _ | MailContactChangeConfirmation _ token _
  | MailPasswordReset _ token _ => token
  | _ => ""
  end.
Definition last_link (w : World) : string :=
  match last (mail_outbox (accounts (db w))) with Some m => mailed_token m | None => "" end.

(** Mallory registers; Alice asks for a reset. *)
Definition registered : RegisterOutcome * World :=
  run_of (RegisterAuthenticated no_bundle)
    (register "mallory" "mallory@example.org" "password1" request0 world0).
Lemma registered_run :
  register "mallory" "mallory@example.org" "password1" request0 world0
    = (Ok (fst registered), snd registered).
Proof. vm_compute. reflexivity. Qed.

Definition confirmed : ContactVerificationConfirmResult * World :=
  run_of (mkConfirmResult ContactChange 0 "")
    (confirm_contact_verification (last_link (snd registered)) (snd registered)).
Lemma confirmed_run :
  confirm_contact_verification (last_link (snd registered)) (snd registered)
    = (Ok (fst confirmed), snd confirmed).
Proof. vm_compute. reflexivity. Qed.

Definition reset_requested : option AuthUserInfo * World :=
  run_of None (request_password_reset "alice@example.org" (snd signed_in)).
Lemma reset_requested_run :
  request_password_reset "alice@example.org" (snd signed_in)
    = (Ok (fst reset_requested), snd reset_requested).
Proof. vm_compute. reflexivity. Qed.

(** Their worlds are well formed. *)
Lemma world0_account_wf : account_wf world0.
Proof. split; split_and!; try constructor; done. Qed.

Lemma run_wf {E A} (c : M E A) `{Hm : !Moves c} w r w' :
  account_wf w -> c w = (r, w') -> account_wf w'.
Proof. intros Hw Hc. eapply account_moves_wf; [by eapply moves_run|done]. Qed.

Lemma signed_in_wf : account_wf (snd signed_in).
Proof. exact (run_wf _ _ _ _ world0_account_wf signed_in_run). Qed.
Lemma registered_wf : account_wf (snd registered).
Proof. exact (run_wf _ _ _ _ world0_account_wf registered_run). Qed.
Lemma reset_requested_wf : account_wf (snd reset_requested).
Proof. exact (run_wf _ _ _ _ signed_in_wf reset_requested_run). Qed.
