(* ===== verification/AccountTheorems.v ===== *)
(** * Accounts: the theorems

    Histories of requests over sessions, links and passwords, and what they
    guarantee: a refresh token is good for one rotation, a password change
    ends every session, a link is good once, a token stands for an account in
    good standing, and the flows do what they say.  The theorems about
    failures show where the code falls short of that. *)

From Stdlib Require Import ZArith List Bool Lia.
From stdpp Require Import base decidable list strings relations pretty.
From S2P Require Import Prelude Text Errors Types AuditLog World Logic Repos Tokens Auth Concrete AuthConfig Accounts WebSessions AccountFlows AccountSpec AccountOps AccountProofs AccountConcrete.

Local Open Scope Z_scope.
Import SessionRepo.

Section Theorems.
Context `{EN : Env} `{CB : CacheBackend} `{TM : !TxnManager} `{TL : !TxnLaws TM}.
Context `{FC : ForgeCrypto} `{FN : ForgeNumbers} `{FS : ForgeSigned} `{AE : !AccountExterns}.
Context `{AL : !AccountExternLaws AE} `{CS : ChronoSeconds} `{JW : Jwt} `{CF : ForgeConfig}.
Context `{ST : ConfigStore} `{RC : RuntimeConfig} `{AC : AppConfig} `{FE : ForgeEmail}.
Context `{SE : !SetupExterns} `{SL : !SetupExternLaws SE} `{FA : ForgeApi}.
Context `{NL : !ForgeNumberLaws FN} `{FSL : !ForgeSignedLaws FS} `{CSL : !ChronoSecondsLaws CS}.
Context `{JL : !JwtLaws JW}.

(** ** Histories

    Any request of the account services, with any outcome, and anything that
    leaves users, sessions and links alone. *)
Inductive account_op : relation World :=
| op_setup name address password url req w r w' :
    setup_first_admin name address password url req w = (r, w') -> account_op w w'
| op_register name address password req w r w' :
    register name address password req w = (r, w') -> account_op w w'
| op_login identifier password req w r w' :
    login identifier password req w = (r, w') -> account_op w w'
| op_issue id req w r w' :
    issue_tokens_for_user_id id req w = (r, w') -> account_op w w'
| op_refresh token req w r w' : refresh token req w = (r, w') -> account_op w w'
| op_logout token req w r w' : logout token req w = (r, w') -> account_op w w'
| op_revoke_session id sid cur req w r w' :
    revoke_session id sid cur req w = (r, w') -> account_op w w'
| op_revoke_others id cur req w r w' :
    revoke_other_sessions id cur req w = (r, w') -> account_op w w'
| op_cleanup_sessions w r w' : cleanup_expired_auth_sessions w = (r, w') -> account_op w w'
| op_change_password req id cur new w r w' :
    change_password_with_audit req id cur new w = (r, w') -> account_op w w'
| op_set_password req id new w r w' :
    set_local_password_with_audit req id new w = (r, w') -> account_op w w'
| op_request_reset address w r w' : request_password_reset address w = (r, w') -> account_op w w'
| op_confirm_reset token new w r w' :
    confirm_password_reset token new w = (r, w') -> account_op w w'
| op_request_email id address w r w' :
    request_email_change id address w = (r, w') -> account_op w w'
| op_resend_email id w r w' : resend_email_change id w = (r, w') -> account_op w w'
| op_confirm_contact token w r w' :
    confirm_contact_verification token w = (r, w') -> account_op w w'
| op_resend_activation identifier w r w' :
    resend_register_activation identifier w = (r, w') -> account_op w w'
| op_cleanup_links w r w' :
    cleanup_expired_contact_verification_tokens w = (r, w') -> account_op w w'
| op_elsewhere w w' :
    (step w <= step w')%nat -> session_rows (db w') = session_rows (db w) ->
    verification_rows (db w') = verification_rows (db w) -> users (db w') = users (db w) ->
    account_op w w'.

Definition account_history : relation World := rtc account_op.

Lemma account_op_moves w w' : account_op w w' -> account_moves w w'.
Proof.
  destruct 1;
    try (match goal with E : ?c ?w0 = (?r, _) |- _ => exact (moves_run c w0 r _ E) end).
  by apply account_moves_same_rows; [..|apply versions_kept_users].
Qed.

Lemma account_history_moves w w' : account_history w w' -> account_moves w w'.
Proof.
  induction 1; [apply account_moves_refl|]. eapply account_moves_trans; [|done].
  by apply account_op_moves.
Qed.

Lemma wf_jti_drawn w s :
  account_wf w -> In s (session_rows (db w)) -> drawn 0 (step w) (current_refresh_jti s).
Proof. intros [(_ & _ & Hd) _] Hin. by apply Hd. Qed.

(** A token whose session is no longer live is refused ever after. *)
Lemma dead_token_refused token req w w0 c j w1 w2 r w3 :
  uuids_distinct -> account_moves w1 w2 ->
  jwt_decode jwt_secret (clock (step w0)) token = inl c -> jti c = Some j ->
  drawn 0 (step w1) j -> jti_dead j (session_rows (db w1)) ->
  w = w2 -> refresh token req w = (r, w3) -> is_ok r = false.
Proof.
  intros Hu Hm Hd Hj Hdr Hdead -> Hr.
  assert (Hdead2 : jti_dead j (session_rows (db w2))) by (by eapply account_moves_dead).
  destruct r as [b|e|m]; [|done..]. exfalso. by eapply (refresh_dead token req w2 w0).
Qed.

(** C2: A refresh token is good for one rotation.  Once a refresh succeeded,
    no refresh with the same token ever succeeds again, whatever requests run
    in between: the session moved on to a fresh identifier, and identifiers
    are never drawn twice. *)
Theorem refresh_token_single_use token req req' w b w1 w2 r w3 :
  uuids_distinct -> account_wf w ->
  refresh token req w = (Ok b, w1) -> account_history w1 w2 ->
  refresh token req' w2 = (r, w3) -> is_ok r = false.
Proof.
  intros Hu Hwf H1 Hh H2. pose proof (moves_run _ _ _ _ H1) as Hm.
  apply refresh_ok in H1 as (c & u & s & t & now & seen & Hrf & _ & _ & Hd & _ & Hdb & _).
  pose proof (wf_jti_drawn _ _ Hwf (rf_session _ _ _ _ _ Hrf)) as Hold.
  eapply (dead_token_refused token req' w2 w c (current_refresh_jti s) w1 w2 r w3);
    [done|by apply account_history_moves|apply Hrf|apply Hrf| | |done|done].
  - destruct Hm as [L _]. eapply drawn_widen; [..|exact Hold]; lia.
  - unfold session_rows. rewrite Hdb. cbn. apply rotate_rows_dead.
    intros E. rewrite E in Hd. destruct Hd as (i & Hi & Ei), Hold as (k & Hk & Ek).
    assert (i = k) by (apply Hu; congruence). lia.
Qed.

(** C25: Whatever requests run, with whatever outcome: session keys and
    refresh identifiers stay unique and drawn from the past, link hashes stay
    unique, and an account never has two open links for the same purpose. *)
Theorem account_history_invariant w w' :
  account_wf w -> account_history w w' -> account_wf w'.
Proof. intros Hwf Hh. eapply account_moves_wf; [by apply account_history_moves|done]. Qed.

(** ** Revocation *)

Lemma revoke_by_refresh_jti_ok j w w' :
  revoke_by_refresh_jti j w = (Ok true, w') ->
  exists now s, In s (session_rows (db w)) /\ current_refresh_jti s = j /\
    session_revoked_at s = None /\
    db w' = set_auth_sessions (with_rows
      (update_where (fun s => has_jti j s && Users.session_active s)
         (Users.set_session_revoked now) (session_rows (db w)))
      (auth_sessions (accounts (db w)))) (db w).
Proof.
  unfold revoke_by_refresh_jti, bind, utc_now, db_update_many, db_exec. cbn.
  destruct (db_fault _); [done|]. cbn. intros [= Hc <-]. apply Z.eqb_eq in Hc.
  exists (clock (step w)).
  destruct (count_where_pos (fun s => has_jti j s && Users.session_active s) (session_rows (db w)))
    as (s & Hs & [Hj Ha]%andb_true_iff).
  { unfold session_rows, sessions in *. lia. }
  exists s. unfold has_jti in Hj.
  rewrite eqb_true in Hj. apply active_revoked in Ha. done.
Qed.

Lemma logout_ok token req w w' :
  logout token req w = (Ok true, w') ->
  exists c j now, jwt_decode jwt_secret (clock (step w)) token = inl c /\ jti c = Some j /\
    (exists s, In s (session_rows (db w)) /\ current_refresh_jti s = j /\
               session_revoked_at s = None) /\
    session_rows (db w') =
      update_where (fun s => has_jti j s && Users.session_active s)
        (Users.set_session_revoked now) (session_rows (db w)).
Proof.
  unfold logout. intros H. apply bind_ok in H as (dec & w1 & Hc & H).
  unfold catch in Hc. destruct (decode_claims token w) as [[c|e|m] w1'] eqn:Ed; [| |done].
  2:{ injection Hc as <- <-. by destruct e. }
  injection Hc as <- <-. apply decode_claims_ok in Ed as [Hdec ->].
  destruct (is_ok _); cbn in H; [|done]. destruct (jti c) as [j|] eqn:Ej; [|done].
  apply bind_ok in H as (s & w2 & Hf & H). apply find_by_refresh_jti_ok in Hf as [H2 _].
  apply bind_ok in H as (b & w3 & Hr & H). apply bind_ok in H as (? & w4 & Hl & H).
  injection H as -> ->.
  apply revoke_by_refresh_jti_ok in Hr as (now & s' & Hin & Hj & Hlive & Hdb).
  exists c, j, now. apply log_run in Hl as (_ & Hl & _).
  rewrite (same_db _ _ H2) in *. unfold session_rows in *. rewrite Hl, Hdb.
  split_and!; try done. by exists s'.
Qed.

(** After a logout the refresh token it was given never works again. *)
Theorem logout_is_final token req req' w w1 w2 r w3 :
  uuids_distinct -> account_wf w ->
  logout token req w = (Ok true, w1) -> account_history w1 w2 ->
  refresh token req' w2 = (r, w3) -> is_ok r = false.
Proof.
  intros Hu Hwf H1 Hh H2. pose proof (moves_run _ _ _ _ H1) as Hm.
  apply logout_ok in H1 as (c & j & now & Hdec & Hj & (s & Hin & Hs & _) & Hrows).
  pose proof (wf_jti_drawn _ _ Hwf Hin) as Hold. rewrite Hs in Hold.
  eapply (dead_token_refused token req' w2 w c j w1 w2 r w3);
    [done|by apply account_history_moves|done|done| | |done|done].
  - destruct Hm as [L _]. eapply drawn_widen; [..|exact Hold]; lia.
  - rewrite Hrows. apply revoke_where_dead. intros x _ Hx Hlive.
    unfold has_jti. rewrite Hx, eqb_refl. by apply active_revoked.
Qed.

(** "Sign out everywhere else" is exact: it needs the live session of
    the caller's own refresh token, revokes every other live session of that
    user, leaves that session and everybody else's alone, and reports how
    many it revoked. *)
Theorem revoke_other_sessions_exact id token req w n w' :
  revoke_other_sessions id token req w = (Ok n, w') ->
  exists c s now,
    jwt_decode jwt_secret (clock (step w)) token = inl c /\ token_type c = RefreshToken /\
    jti c = Some (current_refresh_jti s) /\ In s (session_rows (db w)) /\
    session_user_id s = id /\ session_revoked_at s = None /\
    session_rows (db w') =
      update_where (fun x => (session_user_id x =? id) && negb (eqb (session_id x) (session_id s))
                             && Users.session_active x)
        (Users.set_session_revoked now) (session_rows (db w)) /\
    n = Z.of_nat (count_where
          (fun x => (session_user_id x =? id) && negb (eqb (session_id x) (session_id s))
                    && Users.session_active x) (session_rows (db w))) /\
    users (db w') = users (db w).
Proof.
  unfold revoke_other_sessions. intros H. apply bind_ok in H as (j & w1 & Hj & H).
  unfold refresh_jti_from_token in Hj. apply bind_ok in Hj as (c & w2 & Hc & Hj).
  apply decode_claims_ok in Hc as [Hc ->].
  apply bind_ok in Hj as (? & w2 & Ht & Hj). apply lift_ok in Ht as [Ht ->].
  apply ensure_token_type_ok in Ht. destruct (jti c) as [j'|] eqn:Ej; [|done].
  injection Hj as -> <-. apply bind_ok in H as (removed & w3 & Htx & H).
  apply bind_ok in H as (? & w4 & Hl & H). injection H as -> ->.
  apply log_run in Hl as (_ & Hl & _).
  apply with_transaction_ok in Htx as (wa & wb & Ha & Hb & Hw).
  apply bind_ok in Hb as (found & w5 & Hf & Hb). apply find_by_refresh_jti_ok in Hf as [H5 Hf].
  apply bind_ok in Hb as (s & w6 & Ho & Hb). apply lift_ok in Ho as [Ho ->].
  apply ok_or_ok in Ho as ->. destruct Hf as [Hin Hs].
  apply bind_ok in Hb as (? & w7 & Hg & Hb). apply when_ok_ok in Hg as [Hg ->].
  apply bind_ok in Hb as (? & w8 & Hg' & Hb). apply when_ok_ok in Hg' as [Hg' ->]. tidy_guards.
  apply bind_ok in Hb as (now & w9 & Hn & Hb). injection Hn as <- <-.
  unfold revoke_all_for_user_except_id, db_update_many, db_exec in Hb. cbn in Hb.
  destruct (db_fault _); [done|]. injection Hb as <- <-.
  assert (E : db w5 = db w) by (rewrite (same_db _ _ H5), (same_db _ _ Ha); done).
  rewrite (same_db _ _ Ha) in Hin. cbn in Hin.
  exists c, s, (clock (step w5)). unfold session_rows. rewrite Hl, (same_db _ _ Hw). cbn.
  rewrite E in *. split_and!; try done. by destruct (session_revoked_at s).
Qed.

(** ** Passwords *)

(** A version that was left behind is refused, by the current-user check and
    by a refresh. *)
Lemma old_version_refused id v w token w0 c :
  version_floor id v (db w) ->
  jwt_decode jwt_secret (clock (step w0)) token = inl c ->
  claims_user_id c = id -> claims_session_version c < v ->
  (forall r w', current_user_from_token token w = (r, w') -> is_ok r = false) /\
  (forall req r w', refresh token req w = (r, w') -> is_ok r = false).
Proof.
  intros [_ Hv] Hd Hid Hlt. split.
  - intros [u|e|m] w' H; [|done..]. exfalso. unfold current_user_from_token in H.
    apply bind_ok in H as ([u' c'] & w1 & H & _).
    apply current_user_and_claims_ok in H as (Hd' & _ & Hin & Hpk & _ & Hver & _).
    assert (c' = c) as -> by (by eapply decode_stable).
    destruct (Hv u' Hin); [congruence|lia].
  - intros req [b|e|m] w' H; [|done..]. exfalso.
    apply refresh_ok in H as (c' & u & s & t & now & seen & Hrf & _).
    assert (c' = c) as -> by (eapply decode_stable; [apply Hrf|exact Hd]).
    destruct Hrf as [_ _ _ _ _ _ _ Hin Hpk _ Hver _].
    destruct (Hv u Hin); [congruence|lia].
Qed.

Lemma password_rows_floor u h now l d id :
  rows (users d) = password_rows u h now l -> user_pk u = id -> id < next_pk (users d) ->
  session_version u < I64_MAX -> version_floor id (session_version u + 1) d.
Proof.
  intros Hr <- Hlt Hv. split; [done|]. rewrite Hr.
  intros x (y & Hy & ->)%in_update_where. destruct (Z.eqb_spec (user_pk y) (user_pk u)); cbn.
  - intros _. unfold saturating_succ. lia.
  - done.
Qed.

(** C4: A password change ends every session of the user.  It is granted only
    to an active, activated account that knew the old password, for a new and
    different one that satisfies the policy; the new password's hash is what
    is stored; and afterwards every session row of the user is revoked, and
    every access and refresh token issued before is refused, now and after
    any later requests. *)
Theorem password_change_ends_sessions id cur new w info w1 :
  change_password id cur new w = (Ok info, w1) ->
  id < next_pk (users (db w)) ->
  exists u h,
    In u (rows (users (db w))) /\ user_pk u = id /\ user_status u = UserActive /\
    is_email_activation_satisfied u = true /\
    verify_password cur (password_hash u) = Ok true /\ cur <> new /\
    verify_password new h = Ok true /\ (8 <= str_len new <= 128)%nat /\
    (forall x, In x (rows (users (db w1))) -> user_pk x = id ->
       password_hash x = h /\ must_change_password x = false) /\
    (forall s, In s (session_rows (db w1)) -> session_user_id s = id ->
       is_some (session_revoked_at s) = true) /\
    (session_version u < I64_MAX ->
     forall w2 token w0 c, account_history w1 w2 ->
       jwt_decode jwt_secret (clock (step w0)) token = inl c ->
       claims_user_id c = id -> claims_session_version c <= session_version u ->
       (forall r w', current_user_from_token token w2 = (r, w') -> is_ok r = false) /\
       (forall req r w', refresh token req w2 = (r, w') -> is_ok r = false)).
Proof.
  intros H Hlt. apply change_password_ok in H as (u & n & h & now & now' & Hin & Hpk & Hact & Hem & Hcur & Hne
    & Hval & Hh & Hus & Hss & Hnx).
  assert (Hlen : (8 <= str_len new <= 128)%nat).
  { unfold validate_password in Hval. destruct (Nat.ltb_spec (str_len new) 8); [done|].
    destruct (Nat.ltb_spec 128 (str_len new)); [done|]. lia. }
  exists u, h. split_and!; try done; [by eapply verify_fresh_hash|apply Hlen..| | |].
  - intros x. rewrite Hus. intros (y & _ & ->)%in_update_where Hx.
    destruct (Z.eqb_spec (user_pk y) (user_pk u)); cbn; [done|congruence].
  - intros s. rewrite Hss. intros (y & _ & ->)%in_update_where Hy.
    destruct (_ && _) eqn:E; [done|]. rewrite Hy, Z.eqb_refl in E. cbn in E.
    unfold Users.session_active, is_none in E. by apply negb_false_iff in E.
  - intros Hv w2 token w0 c Hh2 Hdec Hid Hle.
    apply (old_version_refused id (session_version u + 1) w2 token w0 c); [|done|done|lia].
    eapply account_moves_floor; [by apply account_history_moves|].
    eapply password_rows_floor; [exact Hus|done| |done]. by rewrite Hnx.
Qed.
End Theorems.

(** ** The theorems at work *)

Lemma refresh_token_single_use_witness :
  account_wf (snd signed_in) /\
  is_ok (fst (refresh (refresh_token (fst signed_in)) request0 (snd refreshed))) = false.
Proof.
  split; [apply signed_in_wf|].
  apply (refresh_token_single_use (refresh_token (fst signed_in)) request0 request0 (snd signed_in)
           (fst refreshed) (snd refreshed) (snd refreshed) _
           (snd (refresh (refresh_token (fst signed_in)) request0 (snd refreshed)))).
  - apply uuids0_distinct.
  - apply signed_in_wf.
  - apply refreshed_run.
  - apply rtc_refl.
  - apply surjective_pairing.
Defined.

Lemma account_history_invariant_witness : account_wf (snd refreshed).
Proof.
  apply (account_history_invariant world0); [apply world0_account_wf|].
  eapply rtc_l; [exact (op_login _ _ _ _ _ _ signed_in_run)|].
  apply rtc_once. exact (op_refresh _ _ _ _ _ refreshed_run).
Defined.

Lemma logout_is_final_witness :
  is_ok (fst (refresh (refresh_token (fst signed_in)) request0
                (snd (logout (refresh_token (fst signed_in)) request0 (snd signed_in))))) = false.
Proof.
  apply (logout_is_final (refresh_token (fst signed_in)) request0 request0 (snd signed_in)
           (snd (logout (refresh_token (fst signed_in)) request0 (snd signed_in)))
           (snd (logout (refresh_token (fst signed_in)) request0 (snd signed_in))) _
           (snd (refresh (refresh_token (fst signed_in)) request0
                (snd (logout (refresh_token (fst signed_in)) request0 (snd signed_in)))))).
  - apply uuids0_distinct.
  - apply signed_in_wf.
  - vm_compute. reflexivity.
  - apply rtc_refl.
  - apply surjective_pairing.
Defined.

Lemma revoke_other_sessions_exact_witness :
  exists n w', revoke_other_sessions 1 (refresh_token (fst signed_in_twice)) request0
                 (snd signed_in_twice) = (Ok n, w') /\ n = 1 /\
    users (db w') = users (db (snd signed_in_twice)).
Proof.
  eexists _, _. split; [vm_compute; reflexivity|]. split; [reflexivity|].
  edestruct (revoke_other_sessions_exact 1 (refresh_token (fst signed_in_twice)) request0
               (snd signed_in_twice)) as (c & s & now & H); [vm_compute; reflexivity|].
  apply H.
Defined.

Lemma password_change_ends_sessions_witness :
  exists info w1, change_password 1 "secret" "password2" (snd signed_in) = (Ok info, w1) /\
    is_ok (fst (current_user_from_token (access_token (fst signed_in)) w1)) = false.
Proof.
  eexists _, _. split; [vm_compute; reflexivity|].
  edestruct (password_change_ends_sessions 1 "secret" "password2" (snd signed_in))
    as (u & h & Hin & _ & _ & _ & _ & _ & _ & _ & _ & _ & H); [vm_compute; reflexivity|reflexivity|].
  destruct Hin as [<-|[]].
  destruct (H eq_refl _ (access_token (fst signed_in)) world0
              (claims_of 1 1 None false AccessToken (clock 0) 900) (rtc_refl _ _)) as [Hc _];
    [vm_compute; reflexivity|reflexivity|reflexivity|].
  by eapply Hc, surjective_pairing.
Defined.
