(* ===== verification/AccountSignIn.v ===== *)
(** * Accounts: signing in

    Who a request stands for, what a login opens, and that the tokens handed
    out are accepted as long as they should be.  Then the links sent by mail:
    each works once, a confirmation is all or nothing, and a password reset
    ends the sessions of the account. *)

From Stdlib Require Import ZArith List Bool Lia.
From stdpp Require Import base decidable list strings relations pretty.
From S2P Require Import Prelude Text Errors Types AuditLog World Logic Repos Tokens Auth Concrete AuthConfig Accounts WebSessions AccountFlows AccountSpec AccountOps AccountProofs AccountConcrete AccountTheorems.

Local Open Scope Z_scope.

Import SessionRepo.

Section SignIn.
Context `{EN : Env} `{CB : CacheBackend} `{TM : !TxnManager} `{TL : !TxnLaws TM}.
Context `{FC : ForgeCrypto} `{FN : ForgeNumbers} `{FS : ForgeSigned} `{AE : !AccountExterns}.
Context `{AL : !AccountExternLaws AE} `{CS : ChronoSeconds} `{JW : Jwt} `{CF : ForgeConfig}.
Context `{ST : ConfigStore} `{RC : RuntimeConfig} `{AC : AppConfig} `{FE : ForgeEmail}.
Context `{SE : !SetupExterns} `{SL : !SetupExternLaws SE} `{FA : ForgeApi}.
Context `{NL : !ForgeNumberLaws FN} `{FSL : !ForgeSignedLaws FS} `{CSL : !ChronoSecondsLaws CS}.
Context `{JL : !JwtLaws JW}.

(** ** Who a request stands for *)

(** C15: The user a request is answered for is the stored user its access
    token names.  The token is the access cookie, or the bearer token when
    there is no cookie; it was signed with the server's secret as an access
    token and is at most a minute past its expiry; the user is active, and
    its session version and its duty to change the password are those the
    token was issued under; under that duty only the four routes that serve
    it are open.  Nothing is written. *)
Theorem current_user_sound req w u w' :
  current_user req w = (Ok u, w') ->
  exists token c,
    request_access_token req = Some token /\
    jwt_decode jwt_secret (clock (step w)) token = inl c /\ token_type c = AccessToken /\
    timestamp (clock (step w)) - JWT_LEEWAY_SECS <= exp c /\
    In u (rows (users (db w))) /\ user_pk u = claims_user_id c /\ user_status u = UserActive /\
    session_version u = claims_session_version c /\
    must_change_password u = password_change c /\
    (must_change_password u = true ->
     In (method req, path req)
       [("GET", "/api/v1/auth/me"); ("PUT", "/api/v1/auth/password");
        ("PUT", "/api/v1/auth/password/local"); ("POST", "/api/v1/auth/logout")]%string) /\
    same w w'.
Proof.
  intros H. apply current_user_ok in H as (token & c & ? & Hd & ? & ? & ? & ? & ? & ? & Hp & ?).
  exists token, c. split_and!; try done; [by eapply decode_unexpired|].
  intros Hm%Hp. unfold password_change_request_allowed, password_change_path_allowed in Hm.
  repeat match goal with
  | E : _ || _ = true |- _ => apply orb_true_iff in E as [E|E]
  end; apply andb_true_iff in Hm as [Hm Hq]; rewrite eqb_true in Hm; rewrite eqb_true in Hq;
    rewrite Hm, Hq; cbn; tauto.
Qed.

(** ** The tokens handed out are accepted *)

Lemma db_query_live {A} (f : Db -> A) w :
  no_faults -> db_query f w = (Ok (f (db w)), tick w).
Proof. intros NF. unfold db_query, db_exec. rewrite NF. by destruct w. Qed.

Lemma bind_run {E A B} (c : M E A) (k : A -> M E B) w a w1 :
  c w = (Ok a, w1) -> bind c k w = k a w1.
Proof. intros H. unfold bind. by rewrite H. Qed.

Lemma decode_claims_live secret c token w :
  secret = jwt_secret -> jwt_encode secret c = Ok token ->
  timestamp (clock (step w)) - JWT_LEEWAY_SECS <= exp c ->
  decode_claims token w = (Ok c, tick w).
Proof.
  intros -> He Ht. unfold decode_claims, bind, utc_now. cbn.
  rewrite (decode_encode _ c) by done. by rewrite (proj2 (Z.leb_le _ _) Ht).
Qed.

Lemma find_by_id_live id w u :
  no_faults -> find_row (fun r => user_pk r =? id) (rows (users (db w))) = Some u ->
  UserRepo.find_by_id id w = (Ok u, tick w).
Proof.
  intros NF Hf. unfold UserRepo.find_by_id. erewrite bind_run by (by apply db_query_live).
  rewrite Hf. done.
Qed.

(** [u'] is what has become of the user [u] a token was issued to. *)
Record unchanged_user (u u' : user) (w : World) : Prop := {
  uu_found : find_row (fun r => user_pk r =? user_pk u) (rows (users (db w))) = Some u';
  uu_active : user_status u' = UserActive;
  uu_version : session_version u' = session_version u;
  uu_change : must_change_password u' = must_change_password u
}.

Lemma access_token_claims u u' now t w :
  no_faults ->
  pair_for (user_pk u) (session_version u) (must_change_password u) now t ->
  unchanged_user u u' w ->
  timestamp (clock (step w)) - JWT_LEEWAY_SECS <=
    timestamp now + access_token_ttl_secs (auth_policy config_get) ->
  exists c, password_change c = must_change_password u /\
    current_user_and_claims_from_token (it_access_token t) w = (Ok (u', c), tick (tick w)).
Proof.
  intros NF [Ha _ _ _] [Hf Hst Hv Hm] Ht.
  set (c := claims_of _ _ _ _ _ _ _) in Ha. exists c. split; [done|].
  unfold current_user_and_claims_from_token.
  rewrite (bind_run _ _ _ c (tick w)).
  2:{ unfold decode_access_claims. rewrite (bind_run _ _ _ c (tick w)); [done|].
      by apply (decode_claims_live jwt_secret). }
  rewrite (bind_run _ _ _ u' (tick (tick w))) by (by apply find_by_id_live).
  subst c. cbn [claims_session_version password_change claims_of].
  rewrite Hst, Hv, Hm, Z.eqb_refl. by destruct (must_change_password u).
Qed.

Lemma find_session_live j w :
  no_faults ->
  find_by_refresh_jti j w = (Ok (find_row (has_jti j) (session_rows (db w))), tick w).
Proof. intros NF. by apply db_query_live. Qed.

Lemma refresh_token_resolves u u' now t s w :
  no_faults ->
  pair_for (user_pk u) (session_version u) (must_change_password u) now t ->
  unchanged_user u u' w ->
  find_row (has_jti (it_refresh_jti t)) (session_rows (db w)) = Some s ->
  session_user_id s = user_pk u -> session_revoked_at s = None ->
  timestamp (clock (step w)) - JWT_LEEWAY_SECS <=
    timestamp now + refresh_token_ttl_secs (auth_policy config_get) ->
  clock (step w + 2) < refresh_expires_at s ->
  fst (refresh_check (it_refresh_token t) w) =
    if must_change_password u then Err password_change_required else Ok (u', s).
Proof.
  intros NF [_ Hr _ _] [Hf Hst Hv Hm] Hs Ho Hl Ht He. unfold refresh_check.
  erewrite bind_run by (eapply decode_claims_live; [done|exact Hr|exact Ht]).
  erewrite bind_run by reflexivity. cbn [jti claims_of].
  rewrite (bind_run _ _ _ _ _ (find_session_live _ _ NF)). cbn [db tick]. rewrite Hs.
  unfold Users.session_active, is_none, is_some. rewrite Hl. cbn [negb].
  erewrite bind_run by reflexivity. cbn [step tick].
  replace (S (S (step w))) with (step w + 2)%nat by lia.
  rewrite (proj2 (Z.leb_gt _ _) He). cbn [claims_user_id claims_of]. rewrite Ho, Z.eqb_refl.
  erewrite !(bind_run (when_ok _ _)) by reflexivity.
  erewrite bind_run by (apply find_by_id_live; [done|exact Hf]).
  cbn [claims_session_version password_change claims_of].
  rewrite Hst, Hv, Hm, Z.eqb_refl. by destruct (must_change_password u).
Qed.

(** C35: The tokens a sign-in hands out are accepted, as far as the duty to
    change the password lets them.  As long as the account stays active with
    the same session version and the same such duty, the access token stands
    for it until a minute after its expiry: a request that carries it is
    answered for the account, except that under the duty every route but the
    four that serve it is refused because the password must be changed.  While
    the session is neither revoked, rotated nor expired, the refresh token
    passes every check of a refresh; under the duty it passes them all but the
    last and is refused because the password must be changed. *)
Theorem issued_tokens_accepted u req w b w1 :
  no_faults -> issue_tokens u req w = (Ok b, w1) ->
  exists s,
    In s (session_rows (db w1)) /\ session_user_id s = user_pk u /\
    session_revoked_at s = None /\
    refresh_expires_at s =
      clock (step w) + seconds (refresh_token_ttl_secs (auth_policy config_get)) /\
    forall w2 u', unchanged_user u u' w2 ->
      (timestamp (clock (step w2)) - JWT_LEEWAY_SECS <=
         timestamp (clock (step w)) + access_token_ttl_secs (auth_policy config_get) ->
       fst (current_user_from_token (access_token b) w2) = Ok u' /\
       forall q, request_access_token q = Some (access_token b) ->
         fst (current_user q w2) =
           if must_change_password u && negb (password_change_request_allowed q)
           then Err password_change_required else Ok u') /\
      (find_row (has_jti (current_refresh_jti s)) (session_rows (db w2)) = Some s ->
       timestamp (clock (step w2)) - JWT_LEEWAY_SECS <=
         timestamp (clock (step w)) + refresh_token_ttl_secs (auth_policy config_get) ->
       clock (step w2 + 2) < refresh_expires_at s ->
       fst (refresh_check (refresh_token b) w2) =
         if must_change_password u then Err password_change_required else Ok (u', s)).
Proof.
  intros NF H. apply issue_tokens_ok in H as (t & now & Hp & Hdb & _ & _ & ->).
  exists (opened_session u t req now). unfold session_rows. rewrite Hdb. cbn.
  pose proof (pair_expires _ _ _ _ _ Hp) as He.
  split_and!; [apply in_or_app; right; by left|done..|]. intros w2 u' Hu. split.
  - intros Ht. destruct (access_token_claims u u' (clock (step w)) t w2) as (c & Hc & Hr); [done..|].
    split; [by unfold current_user_from_token; rewrite (bind_run _ _ _ _ _ Hr)|].
    intros q Hq. unfold current_user.
    rewrite Hq. cbn [ok_or].
    rewrite (bind_run _ _ _ _ _ Hr), Hc. by destruct (_ && _).
  - intros Hs Ht Hc.
    by eapply (refresh_token_resolves u u' (clock (step w)) t (opened_session u t req now)).
Qed.

(** ** Logging in *)

(** A login opens one session for the account whose password was given.
    Local logins are enabled; the account is stored under the identifier as
    its name or its address, is active and activated; the password verifies
    against its hash; the only table that changes is that of the sessions,
    which gains one live session of the account with the caller's agent and
    address; and the tokens answered are signed for the account at its
    session version, for a change of password only when it owes one. *)
Theorem login_sound identifier password req w b w' :
  login identifier password req w = (Ok b, w') ->
  exists u s c c' at_,
    allow_local_login (auth_policy config_get) = true /\
    In u (rows (users (db w))) /\ (username u = identifier \/ email u = Some identifier) /\
    user_status u = UserActive /\ is_email_activation_satisfied u = true /\
    verify_password password (password_hash u) = Ok true /\
    db w' = set_auth_sessions (mkTable (session_rows (db w) ++ [s])
              (next_pk (auth_sessions (accounts (db w))) + 1)) (db w) /\
    session_user_id s = user_pk u /\ session_revoked_at s = None /\
    session_user_agent s = req_user_agent req /\ session_ip_address s = req_peer_ip req /\
    jwt_encode jwt_secret c = Ok (access_token b) /\ token_type c = AccessToken /\
    claims_user_id c = user_pk u /\ claims_session_version c = session_version u /\
    password_change c = must_change_password u /\
    exp c = timestamp (clock at_) + access_token_ttl_secs (auth_policy config_get) /\
    jwt_encode jwt_secret c' = Ok (refresh_token b) /\ token_type c' = RefreshToken /\
    claims_user_id c' = user_pk u /\ claims_session_version c' = session_version u /\
    jti c' = Some (current_refresh_jti s) /\
    (bundle_status b = Authenticated <-> must_change_password u = false).
Proof.
  intros H. apply login_ok in H as (u & t & now & Hg & Hin & Hid & Hst & Hem & Hpw
    & (i & _ & Hp) & Hdb & ->).
  exists u, (opened_session u t req now). eexists _, _, i.
  split_and!; try done; [apply Hp|done..|apply Hp|done|done|done|done|].
  cbn. by destruct (must_change_password u).
Qed.
End SignIn.

(** ** The theorems at work *)

(** Alice asks for her account with the cookie of her sign-in. *)
Definition me_request : WebRequest :=
  mkWebRequest request0 "GET" "/api/v1/auth/me" (Some (access_token (fst signed_in))) None.

Lemma current_user_sound_witness :
  exists u w', current_user me_request (snd signed_in) = (Ok u, w') /\ user_status u = UserActive.
Proof.
  eexists _, _. split; [vm_compute; reflexivity|].
  edestruct (current_user_sound me_request (snd signed_in)) as (token & c & H);
    [vm_compute; reflexivity|].
  apply H.
Defined.

(** Alice, when she must change her password; she signs in all the same. *)
Definition owing : user :=
  mkUser 1 "alice-uuid" "alice" (Some "alice@example.org"%string) "secret" User UserActive true 1
    (Some 0) None 0 0.
Definition owing_world : World :=
  set_db (set_users (with_rows [owing] (users (db world0))) (db world0)) world0.
Definition owing_tokens : AuthTokenBundle * World :=
  run_of no_bundle (issue_tokens owing request0 owing_world).
Definition sessions_request (token : string) : WebRequest :=
  mkWebRequest request0 "GET" "/api/v1/auth/sessions" (Some token) None.

Lemma issued_tokens_accepted_witness :
  (exists b w1, issue_tokens alice request0 world0 = (Ok b, w1) /\
    fst (current_user_from_token (access_token b) w1) = Ok alice) /\
  fst (current_user (sessions_request (access_token (fst owing_tokens))) (snd owing_tokens))
    = Err password_change_required /\
  fst (refresh_check (refresh_token (fst owing_tokens)) (snd owing_tokens))
    = Err password_change_required.
Proof.
  split.
  - eexists _, _. split; [vm_compute; reflexivity|].
    edestruct (issued_tokens_accepted alice request0 world0) as (s & _ & _ & _ & _ & H);
      [apply env0_no_faults|vm_compute; reflexivity|].
    apply H; [split; reflexivity|vm_compute; congruence].
  - edestruct (issued_tokens_accepted owing request0 owing_world (fst owing_tokens)
      (snd owing_tokens)) as (s & Hs & _ & _ & He & H);
      [apply env0_no_faults|vm_compute; reflexivity|].
    destruct (H (snd owing_tokens) owing) as [Ha Hr]; [split; reflexivity|]. split.
    + apply Ha; [vm_compute; congruence|reflexivity].
    + apply Hr; [|vm_compute; congruence|rewrite He; vm_compute; reflexivity].
      revert Hs. vm_compute. by intros [<-|[]].
Defined.

Lemma login_sound_witness :
  verify_password "secret" (password_hash alice) = Ok true /\
  session_rows (db (snd signed_in)) <> [].
Proof.
  destruct (login_sound "alice" "secret" request0 world0 _ _ signed_in_run)
    as (u & s & c & c' & i & _ & Hin & _ & _ & _ & Hp & Hdb & _).
  destruct Hin as [<-|[]]. split; [exact Hp|]. unfold session_rows. rewrite Hdb. done.
Defined.

(** ** All or nothing

    A program whose failures leave the tables as they were: reading, then one
    transaction, then nothing that can fail. *)
Class AllOrNothing `{CB : CacheBackend} {E A} (c : M E A) : Prop :=
  all_or_nothing : forall w r w', c w = (r, w') -> is_ok r = false -> db w' = db w.

Section AllOrNothing.
Context `{EN : Env} `{CB : CacheBackend} `{TM : !TxnManager} `{TL : !TxnLaws TM}.

Lemma aon_reads {E A} (c : M E A) : Reads c -> AllOrNothing c.
Proof. intros Hc w r w' H _. by apply reads_run in H as (? & _). Qed.

Lemma aon_bind_reads {E A B} (c : M E A) (k : A -> M E B) :
  Reads c -> (forall a, AllOrNothing (k a)) -> AllOrNothing (bind c k).
Proof.
  intros Hc Hk w r w' H Hf. unfold bind in H. destruct (c w) as [[a|e|m] w1] eqn:Ec.
  - apply reads_run in Ec as (<- & _); [|done]. by eapply Hk.
  - injection H as <- <-. by apply reads_run in Ec as (? & _).
  - injection H as <- <-. by apply reads_run in Ec as (? & _).
Qed.

Lemma aon_bind_ret {E A B} (c : M E A) (f : A -> B) :
  AllOrNothing c -> AllOrNothing (bind c (fun a => ret (f a))).
Proof.
  intros Hc w r w' H Hf. unfold bind in H. destruct (c w) as [[a|e|m] w1] eqn:Ec;
    injection H as <- <-; [done|by eapply Hc..].
Qed.

Lemma aon_with_transaction {A} (body : M AsterError.t A) : AllOrNothing (with_transaction body).
Proof.
  intros w r w' H%with_transaction_spec Hf.
  destruct H as [e w' Hb|a w0 w1 w' Hs Hb Hw|a e w0 w1 w' Hs Hb Hw
                |e w0 w1 w' Hs Hb Hw|m w0 w1 w' Hs Hb Hw]; [by apply same_db|done|apply Hw..].
Qed.
End AllOrNothing.

Section Links.
Context `{EN : Env} `{CB : CacheBackend} `{TM : !TxnManager} `{TL : !TxnLaws TM}.
Context `{FC : ForgeCrypto} `{FN : ForgeNumbers} `{FS : ForgeSigned} `{AE : !AccountExterns}.
Context `{AL : !AccountExternLaws AE} `{CS : ChronoSeconds} `{JW : Jwt} `{CF : ForgeConfig}.
Context `{ST : ConfigStore} `{RC : RuntimeConfig} `{AC : AppConfig} `{FE : ForgeEmail}.
Context `{SE : !SetupExterns} `{SL : !SetupExternLaws SE} `{FA : ForgeApi}.
Context `{NL : !ForgeNumberLaws FN} `{FSL : !ForgeSignedLaws FS} `{CSL : !ChronoSecondsLaws CS}.
Context `{JL : !JwtLaws JW}.

(** ** A link works once *)

Lemma live_link_dead w token r :
  hash_spent (sha256_hex token) (verification_rows (db w)) -> live_link w token r -> False.
Proof.
  intros Hd [Hin Hh Hu _]. specialize (Hd r Hin Hh). by rewrite Hu in Hd.
Qed.

Lemma spent_link_refused token w :
  hash_spent (sha256_hex token) (verification_rows (db w)) ->
  (forall r w', confirm_contact_verification token w = (r, w') -> is_ok r = false) /\
  (forall new r w', confirm_password_reset token new w = (r, w') -> is_ok r = false).
Proof.
  intros Hd. split.
  - intros [x|e|m] w' H; [|done..]. exfalso.
    apply confirm_contact_verification_ok in H as (r & u & now & Hl & _).
    by eapply live_link_dead.
  - intros new [x|e|m] w' H; [|done..]. exfalso.
    apply confirm_password_reset_ok in H as (r & u & n & h & now & now' & sent & Hl & _).
    by eapply live_link_dead.
Qed.

(** The link a confirmation consumed is spent, at once and for good. *)
Lemma consumed_link_spent token w w1 w2 r now :
  link_hashes_distinct -> account_wf w -> live_link w token r ->
  verification_rows (db w1) = consumed_rows (verification_pk r) now (verification_rows (db w)) ->
  account_moves w w1 -> account_history w1 w2 ->
  hash_spent (sha256_hex token) (verification_rows (db w2)).
Proof.
  intros Hd [_ (Hn & _ & Hh)] [Hin <- _ _] Hrows [L _] Hist.
  eapply account_moves_spent; [done| |by apply account_history_moves|].
  - eapply hashed_widen; [..|by apply Hh]; lia.
  - rewrite Hrows. by apply consumed_rows_spent.
Qed.

Definition link_used (token : string) (w w1 : World) : Prop :=
  (exists res, confirm_contact_verification token w = (Ok res, w1)) \/
  (exists new info, confirm_password_reset token new w = (Ok info, w1)).

(** C9: A verification link works once.  After a successful confirmation or
    password reset with a link, and any requests in between, neither a
    confirmation nor a reset with that link succeeds. *)
Theorem verification_link_single_use token w w1 w2 :
  link_hashes_distinct -> account_wf w -> link_used token w w1 -> account_history w1 w2 ->
  (forall r w', confirm_contact_verification token w2 = (r, w') -> is_ok r = false) /\
  (forall new r w', confirm_password_reset token new w2 = (r, w') -> is_ok r = false).
Proof.
  intros Hd Hwf [[res H]|(new & info & H)] Hh; apply spent_link_refused;
    pose proof (moves_run _ _ _ _ H) as Hm.
  - apply confirm_contact_verification_ok in H as (r & u & now & Hl & _ & _ & _ & _ & Hrows & _).
    by eapply consumed_link_spent.
  - apply confirm_password_reset_ok in H
      as (r & u & n & h & now & now' & sent & Hl & _ & _ & _ & _ & _ & _ & _ & _ & _ & Hrows & _).
    by eapply consumed_link_spent.
Qed.

(** ** A confirmation *)

#[local] Instance aon_confirm token : AllOrNothing (confirm_contact_verification token).
Proof.
  unfold confirm_contact_verification, VerificationRepo.find_by_token_hash. cbv zeta.
  repeat (apply aon_bind_reads; [apply _|intros ?]).
  apply aon_bind_ret, aon_with_transaction.
Qed.

(** A confirmation is all or nothing.  If it fails no table has changed.
    If it succeeds the link was live, was not a password reset, and belongs
    to an active user; it is consumed; the sessions are left alone; and the
    user's address is verified, or replaced by the address the link was sent
    to, which nobody else uses or asks for, with a notice to the old one, or
    was so already. *)
Theorem contact_confirmation_atomic token w r w' :
  confirm_contact_verification token w = (r, w') ->
  match r with
  | Ok res =>
      exists t u now,
        live_link w token t /\ verification_purpose t <> PasswordReset /\
        In u (rows (users (db w))) /\ user_pk u = verification_user_id t /\
        user_status u = UserActive /\
        contact_effect t u (rows (users (db w))) (mail_outbox (accounts (db w)))
          (rows (users (db w'))) (mail_outbox (accounts (db w'))) /\
        verification_rows (db w') =
          consumed_rows (verification_pk t) now (verification_rows (db w)) /\
        session_rows (db w') = session_rows (db w) /\
        res = mkConfirmResult (verification_purpose t) (verification_user_id t)
                (verification_target t)
  | _ => db w' = db w
  end.
Proof.
  intros H. destruct r as [res|e|m]; [|by eapply all_or_nothing..].
  apply confirm_contact_verification_ok in H as (t & u & now & H). exists t, u, now.
  split_and!; try apply H.
  destruct H as (_ & _ & _ & _ & [] & _); congruence.
Qed.

(** ** A password reset *)

(** A password reset ends the sessions of the account.  It needs a live
    reset link of an active user whose verified address is still the one the
    link was sent to, and a password that satisfies the policy; the new hash
    is stored, the link is consumed and a notice is queued; and every access
    and refresh token issued before is refused, now and after any later
    requests, although the session rows are not revoked. *)
Theorem password_reset_ends_sessions token new w info w1 :
  confirm_password_reset token new w = (Ok info, w1) ->
  exists t u h now,
    live_link w token t /\ verification_purpose t = PasswordReset /\
    In u (rows (users (db w))) /\ user_pk u = verification_user_id t /\
    user_status u = UserActive /\ is_email_verified u = true /\
    email u = Some (verification_target t) /\
    validate_password new = Ok tt /\ verify_password new h = Ok true /\
    verification_rows (db w1) =
      consumed_rows (verification_pk t) now (verification_rows (db w)) /\
    session_rows (db w1) = session_rows (db w) /\
    (forall x, In x (rows (users (db w1))) -> user_pk x = user_pk u ->
       password_hash x = h /\ must_change_password x = false) /\
    (user_pk u < next_pk (users (db w1)) -> session_version u < I64_MAX ->
     forall w2 access w0 c, account_history w1 w2 ->
       jwt_decode jwt_secret (clock (step w0)) access = inl c ->
       claims_user_id c = user_pk u -> claims_session_version c <= session_version u ->
       (forall r w', current_user_from_token access w2 = (r, w') -> is_ok r = false) /\
       (forall req r w', refresh access req w2 = (r, w') -> is_ok r = false)).
Proof.
  intros H. apply confirm_password_reset_ok in H
    as (t & u & n & h & now & now' & sent & Hl & Hp & Hin & Hpk & Hact & Hv & He & Hval & Hh
        & Hus & Hvr & Hss & _).
  exists t, u, h, now'. split_and!; try done; [by eapply verify_fresh_hash| |].
  - intros x. rewrite Hus. intros (y & _ & ->)%in_update_where Hx.
    destruct (Z.eqb_spec (user_pk y) (user_pk u)); cbn; [done|congruence].
  - intros Hlt Hver w2 access w0 c Hh2 Hdec Hid Hle.
    apply (old_version_refused (user_pk u) (session_version u + 1) w2 access w0 c);
      [|done|done|lia].
    eapply account_moves_floor; [by apply account_history_moves|].
    by eapply password_rows_floor.
Qed.
End Links.

(** ** The theorems at work *)

Lemma verification_link_single_use_witness :
  is_ok (fst (confirm_contact_verification (last_link (snd registered)) (snd confirmed))) = false.
Proof.
  apply (verification_link_single_use (last_link (snd registered)) (snd registered)
           (snd confirmed) (snd confirmed))
    with (w' := snd (confirm_contact_verification (last_link (snd registered)) (snd confirmed))).
  - apply link_hashes0_distinct.
  - apply registered_wf.
  - left. exists (fst confirmed). apply confirmed_run.
  - apply rtc_refl.
  - apply surjective_pairing.
Defined.

Lemma contact_confirmation_atomic_witness :
  confirmed_target (fst confirmed) = "mallory@example.org"%string /\
  session_rows (db (snd confirmed)) = session_rows (db (snd registered)).
Proof.
  split; [vm_compute; reflexivity|].
  destruct (contact_confirmation_atomic _ _ _ _ confirmed_run) as (t & u & now & H). apply H.
Defined.

Lemma password_reset_ends_sessions_witness :
  exists info w1,
    confirm_password_reset (last_link (snd reset_requested)) "password2" (snd reset_requested)
      = (Ok info, w1) /\
    is_ok (fst (current_user_from_token (access_token (fst signed_in)) w1)) = false.
Proof.
  eexists _, _. split; [vm_compute; reflexivity|].
  edestruct (password_reset_ends_sessions (last_link (snd reset_requested)) "password2"
               (snd reset_requested))
    as (t & u & h & now & _ & _ & Hin & _ & _ & _ & _ & _ & _ & _ & _ & _ & H);
    [vm_compute; reflexivity|].
  assert (u = alice) as -> by (vm_compute in Hin; destruct Hin as [<-|[]]; reflexivity).
  edestruct (H ltac:(vm_compute; reflexivity) eq_refl _ (access_token (fst signed_in)) world0
              (claims_of 1 1 None false AccessToken (clock 0) 900) (rtc_refl _ _)) as [Hc _];
    [vm_compute; reflexivity|reflexivity|reflexivity|].
  by eapply Hc, surjective_pairing.
Defined.
