(* ===== verification/AccountRegistration.v ===== *)
(** * Accounts: registration

    What a registration creates, that its activation link works, and, in the
    last part, where the flows fall short. *)

From Stdlib Require Import ZArith List Bool Lia.
From stdpp Require Import base decidable list strings relations pretty.
From S2P Require Import Prelude Text Errors Types AuditLog World Logic Repos Tokens Auth Concrete AuthConfig Accounts WebSessions AccountFlows AccountSpec AccountOps AccountProofs AccountConcrete AccountSignIn.

Local Open Scope Z_scope.

Section Registration.
Context `{EN : Env} `{CB : CacheBackend} `{TM : !TxnManager} `{TL : !TxnLaws TM}.
Context `{FC : ForgeCrypto} `{FN : ForgeNumbers} `{FS : ForgeSigned} `{AE : !AccountExterns}.
Context `{AL : !AccountExternLaws AE} `{CS : ChronoSeconds} `{JW : Jwt} `{CF : ForgeConfig}.
Context `{ST : ConfigStore} `{RC : RuntimeConfig} `{AC : AppConfig} `{FE : ForgeEmail}.
Context `{SE : !SetupExterns} `{SL : !SetupExternLaws SE} `{FA : ForgeApi}.
Context `{NL : !ForgeNumberLaws FN} `{FSL : !ForgeSignedLaws FS} `{CSL : !ChronoSecondsLaws CS}.
Context `{JL : !JwtLaws JW}.

(** ** Blocks *)

(** Nobody has the name in any case, nor has a profile of that name. *)
Definition name_free (name : string) (d : Db) : Prop :=
  (forall v, In v (rows (users d)) ->
     to_ascii_lowercase (username v) <> to_ascii_lowercase name) /\
  (forall p, In p (rows (profiles d)) ->
     normalized_name p <> ProfileRepo.normalize_profile_name name).

Lemma find_row_is_none {A} (p : A -> bool) l : find_row p l = None -> forall x, In x l -> p x = false.
Proof. by rewrite find_row_none. Qed.

Lemma ensure_username_available_ok name w u w' :
  ensure_username_available name None w = (Ok u, w') -> same w w' /\ name_free name (db w).
Proof.
  intros H. assert (Hs : same w w') by (by eapply reads_run; [|exact H]; apply _).
  split; [done|]. unfold ensure_username_available, Users.find_by_username_case_insensitive,
    ProfileRepo.find_by_name in H. inv_ok H. cbn [db tick] in *.
  split; intros x Hx E.
  - destruct (find_row (fun u => eqb (to_ascii_lowercase (username u)) _) _) as [v|] eqn:Ef;
      [done|]. apply find_row_is_none with (x := x) in Ef; [|done].
    by rewrite eqb_false in Ef.
  - destruct (find_row (fun p => eqb (normalized_name p) _) _) as [v|] eqn:Ef;
      [done|]. apply find_row_is_none with (x := x) in Ef; [|done].
    by rewrite eqb_false in Ef.
Qed.

Lemma lift_email_ok {A} (r : outcome string A) a : lift_email r = Ok a -> r = Ok a.
Proof. by destruct r; cbn; [intros [= ->]|..]. Qed.

Lemma hash_password_ok p w h w' :
  hash_password p w = (Ok h, w') -> hash_password_at (step w) p = Ok h /\ w' = tick w.
Proof. unfold hash_password. by destruct (hash_password_at _ _); intros [= <- <-]. Qed.

(** The user [u] appended to the table of [w]. *)
Definition user_added (u : user) (w w' : World) : Prop :=
  user_pk u = next_pk (users (db w)) /\
  (forall v, In v (rows (users (db w))) -> user_conflict u v = false) /\
  db w' = set_users (mkTable (rows (users (db w)) ++ [u]) (next_pk (users (db w)) + 1)) (db w).

Lemma user_insert_ok mk w u w' :
  (forall id, user_pk (mk id) = id) -> Users.insert mk w = (Ok u, w') ->
  u = mk (next_pk (users (db w))) /\ user_added u w w' /\ step w' = S (step w).
Proof.
  intros Hmk H. apply db_insert_ok in H as (-> & Hc & ->). split_and!; cbn; try done.
  split_and!; cbn; try done. intros v Hv. by eapply existsb_false.
Qed.

Lemma user_added_same u w0 w w' : same w0 w -> user_added u w w' -> user_added u w0 w'.
Proof. intros Hs. unfold user_added. by rewrite (same_db _ _ Hs). Qed.

(** What both ways of creating an account with an address promise: a new
    active account of the role under the name and the normal address, whose
    hash verifies the password. *)
Record new_account (name address password : string) (role_ : UserRole) (u : user) : Prop := {
  na_username : username u = name;
  na_email : exists e, normalize_email address = Ok e /\ email u = Some e;
  na_password : verify_password password (password_hash u) = Ok true;
  na_role : role u = role_;
  na_status : user_status u = UserActive;
  na_change : must_change_password u = false;
  na_version : session_version u = 1;
  na_pending : pending_email u = None;
  na_valid : validate_username name = Ok tt /\ validate_reserved_username name = Ok tt /\
             validate_password password = Ok tt
}.

(** Nobody has or asks for the address. *)
Definition address_free (e : string) (l : list user) : Prop :=
  forall v, In v l -> email v <> Some e /\ pending_email v <> Some e.

Lemma find_by_email_ok e w o w' :
  Users.find_by_email e w = (Ok o, w') ->
  same w w' /\ (is_some o = false -> forall v, In v (rows (users (db w))) -> email v <> Some e).
Proof.
  unfold Users.find_by_email. intros H. apply db_query_ok in H as (-> & -> & _).
  split; [apply same_tick|]. destruct (find_row _ _) eqn:E; [done|]. intros _ v Hv.
  pose proof (find_row_is_none _ _ E v Hv) as Hx. by rewrite eqb_false in Hx.
Qed.

Lemma find_by_pending_email_ok e w o w' :
  Users.find_by_pending_email e w = (Ok o, w') ->
  same w w' /\
  (is_some o = false -> forall v, In v (rows (users (db w))) -> pending_email v <> Some e).
Proof.
  unfold Users.find_by_pending_email. intros H. apply db_query_ok in H as (-> & -> & _).
  split; [apply same_tick|]. destruct (find_row _ _) eqn:E; [done|]. intros _ v Hv.
  pose proof (find_row_is_none _ _ E v Hv) as Hx. by rewrite eqb_false in Hx.
Qed.

(** The row of an account with an address. *)
Definition account_row (pk : Z) (uid name e h : string) (role_ : UserRole) (status : UserStatus)
  (change : bool) (verified_at : option DateTimeUtc) (now : DateTimeUtc) : user :=
  mkUser pk uid name (Some e) h role_ status change 1 verified_at None now now.

Lemma create_user_with_role_effect input w u w' :
  create_user_with_role input w = (Ok u, w') ->
  validate_username (cu_username input) = Ok tt /\
  (cu_allow_reserved_linuxdo_username input = false ->
   validate_reserved_username (cu_username input) = Ok tt) /\
  validate_password (cu_password input) = Ok tt /\ name_free (cu_username input) (db w) /\
  user_added u w w' /\
  exists e n h uid now,
    normalize_email (cu_email input) = Ok e /\ address_free e (rows (users (db w))) /\
    hash_password_at n (cu_password input) = Ok h /\
    u = account_row (next_pk (users (db w))) uid (cu_username input) e h (cu_role input)
          (cu_status input) (cu_must_change_password input) (cu_email_verified_at input) now.
Proof.
  intros H. unfold create_user_with_role in H.
  apply bind_ok in H as ([] & w1 & Hv1 & H). apply lift_ok in Hv1 as [Hv1 ->].
  apply bind_ok in H as ([] & w1 & Hv2 & H).
  assert (w1 = w /\ (cu_allow_reserved_linuxdo_username input = false ->
            validate_reserved_username (cu_username input) = Ok tt)) as [-> Hr].
  { destruct (cu_allow_reserved_linuxdo_username input).
    - injection Hv2 as <-. done.
    - apply lift_ok in Hv2 as [Hv2 ->]. done. }
  apply bind_ok in H as (e & w1 & He & H). apply lift_ok in He as [He%lift_email_ok ->].
  apply bind_ok in H as (? & w1 & Hv3 & H). apply lift_ok in Hv3 as [_ ->].
  apply bind_ok in H as ([] & w1 & Hv4 & H). apply lift_ok in Hv4 as [Hv4 ->].
  apply bind_ok in H as (? & w1 & Hn & H). apply ensure_username_available_ok in Hn as [H1 Hn].
  apply bind_ok in H as (o & w2 & Ho & H). apply find_by_email_ok in Ho as [H2 Ho].
  apply bind_ok in H as (b & w3 & Hb & H). apply bind_ok in H as (? & w4 & Hg & H).
  apply when_ok_ok in Hg as [-> ->]. destruct (is_some o); [done|].
  apply bind_ok in Hb as (o' & w4 & Ho' & Hb). apply find_by_pending_email_ok in Ho' as [H3 Ho'].
  injection Hb as Hb <-.
  apply bind_ok in H as (now & w5 & Hnow & H). injection Hnow as <- <-.
  apply bind_ok in H as (uid & w6 & Hu & H).
  assert (H6 : same (tick w4) w6) by (by eapply reads_run; [|exact Hu]; apply _).
  apply bind_ok in H as (h & w7 & Hh & H). apply hash_password_ok in Hh as [Hh ->].
  apply user_insert_ok in H as (-> & Ha & _); [|done].
  assert (S2 : same w w2) by (by eapply same_trans).
  assert (S4 : same w w4) by (by eapply same_trans).
  assert (S7 : same w (tick w6)).
  { eapply same_trans; [exact S4|]. eapply same_trans; [apply same_tick|].
    eapply same_trans; [exact H6|apply same_tick]. }
  rewrite (same_db _ _ H1) in Ho. rewrite (same_db _ _ S2) in Ho'.
  split_and!; [done..|by eapply user_added_same|].
  eexists e, (step w6), h, uid, _. split_and!; [done|by intros v Hv; auto|done|].
  by rewrite (same_db _ _ S7).
Qed.

Lemma create_user_with_role_ok input w u w' :
  cu_allow_reserved_linuxdo_username input = false -> cu_status input = UserActive ->
  cu_must_change_password input = false ->
  create_user_with_role input w = (Ok u, w') ->
  new_account (cu_username input) (cu_email input) (cu_password input) (cu_role input) u /\
  email_verified_at u = cu_email_verified_at input /\ name_free (cu_username input) (db w) /\
  (forall e, email u = Some e -> address_free e (rows (users (db w)))) /\ user_added u w w'.
Proof.
  intros Hr Hst Hmc H.
  apply create_user_with_role_effect in H
    as (Hv1 & Hv2 & Hv4 & Hn & Ha & e & n & h & uid & now & He & Hfree & Hh & ->).
  split_and!; try done; [|by intros e' [= <-]].
  split; cbn; try done; [by exists e|by eapply verify_fresh_hash|auto].
Qed.

Lemma create_user_ok name address password role_ w u w' :
  create_user name address password role_ w = (Ok u, w') ->
  new_account name address password role_ u /\ is_some (email_verified_at u) = true /\
  name_free name (db w) /\ user_added u w w'.
Proof.
  unfold create_user, create_user_with_options, Users.create_with_options. intros H.
  apply bind_ok in H as (e & w1 & Hv & H). apply lift_ok in Hv as [Hv ->].
  unfold validate_identity_input in Hv.
  destruct (validate_username name) as [[]|?|?] eqn:Hn; [|done..].
  destruct (lift_email _) as [e'|?|?] eqn:He; [|done..]. apply lift_email_ok in He.
  destruct (validate_password password) as [[]|?|?] eqn:Hp; [|done..]. injection Hv as ->.
  apply bind_ok in H as ([] & w1 & Hr & H). apply lift_ok in Hr as [Hr ->].
  apply bind_ok in H as (? & w1 & Hf & H). apply ensure_username_available_ok in Hf as [H1 Hf].
  apply bind_ok in H as (h & w2 & Hh & H). apply hash_password_ok in Hh as [Hh ->].
  apply bind_ok in H as (now & w2 & Hnow & H). injection Hnow as <- <-.
  apply bind_ok in H as (uid & w3 & Hu & H).
  assert (H3 : same (tick (tick w1)) w3) by (by eapply reads_run; [|exact Hu]; apply _).
  apply user_insert_ok in H as (-> & Ha & _); [|done].
  assert (S3 : same w w3).
  { eapply same_trans; [exact H1|]. eapply same_trans; [apply same_tick|].
    eapply same_trans; [apply same_tick|exact H3]. }
  split_and!; [|done..|by eapply user_added_same].
  split; cbn; try done; [by exists e|by eapply verify_fresh_hash].
Qed.

(** ** A link *)

Lemma add_duration_ok {E} t d t' w w' : add_duration t d w = (@Ok E _ t', w') -> t' = t + d /\ w' = w.
Proof.
  unfold add_duration. destruct (checked_add_signed t d) eqn:Ec; [|done].
  intros [= -> ->]. split; [by eapply checked_add_some|done].
Qed.

(** The row of a link issued at [now]. *)
Definition issued_link (pk id : Z) (purpose : VerificationPurpose) (target token : string)
  (ttl : Z) (now : DateTimeUtc) : contact_verification_token :=
  mkVerification pk id EmailChannel purpose target (sha256_hex token) (now + seconds ttl) None now.

Lemma issue_verification_ok id purpose target ttl w token w' :
  issue_contact_verification_token id purpose target ttl w = (Ok token, w') ->
  let t := issued_link (next_pk (verification_tokens (accounts (db w)))) id purpose target token
             ttl (clock (step w)) in
  let l := delete_where (fun t => VerificationRepo.of_slot id EmailChannel purpose t
                                  && VerificationRepo.unconsumed t) (verification_rows (db w)) in
  db w' = set_verification_tokens
            (mkTable (l ++ [t]) (next_pk (verification_tokens (accounts (db w))) + 1)) (db w) /\
  existsb (VerificationRepo.verification_conflict t) l = false.
Proof.
  unfold issue_contact_verification_token, build_verification_token. intros H.
  apply bind_ok in H as (now & w1 & Hnow & H). injection Hnow as <- <-.
  apply bind_ok in H as (tok & w2 & Ht & H). injection Ht as <- <-. cbv zeta in H.
  apply bind_ok in H as (? & w3 & Hd & H).
  unfold VerificationRepo.delete_active_for_user in Hd. apply bind_ok in Hd as (n & w4 & Hd & He).
  injection He as _ <-. unfold db_delete_many, db_exec in Hd.
  destruct (db_fault _); [done|]. injection Hd as <- <-.
  apply bind_ok in H as (n' & w4 & Hn & H). apply lift_ok in Hn as [Hn%utils_ok ->].
  pose proof (u64_to_i64_spec ttl "contact verification ttl") as Hi. rewrite Hn in Hi.
  assert (n' = ttl) as -> by (destruct (ttl <=? I64_MAX); [congruence|by destruct Hi]).
  apply bind_ok in H as (d & w5 & Hd & H). apply duration_ok in Hd as [-> ->].
  apply bind_ok in H as (e & w5 & He & H). apply add_duration_ok in He as [-> ->].
  apply bind_ok in H as (row & w6 & Hc & H). injection H as <- <-.
  unfold VerificationRepo.create, db_exec, insert_row in Hc. destruct (db_fault _); [done|].
  destruct (negb _); [done|]. destruct (existsb _ (rows _)) eqn:Ex; [done|].
  injection Hc as <- <-. cbn in Ex |- *. split; [done|exact Ex].
Qed.
(** ** Registering *)

Lemma register_with_activation_ok name address password role_ w u w' :
  register_with_activation name address password role_ w = (Ok u, w') ->
  new_account name address password role_ u /\ email_verified_at u = None /\
  name_free name (db w) /\ user_pk u = next_pk (users (db w)) /\
  rows (users (db w')) = rows (users (db w)) ++ [u] /\ session_rows (db w') = session_rows (db w) /\
  exists e token pk now sent,
    email u = Some e /\ address_free e (rows (users (db w))) /\
    In (issued_link pk (user_pk u) RegisterActivation e token
          (register_activation_ttl_secs (contact_policy config_get)) now)
       (verification_rows (db w')) /\
    mail_outbox (accounts (db w')) = mail_outbox (accounts (db w)) ++
      [mkMail e (Some name) (MailRegisterActivation name token site_name) sent sent].
Proof.
  unfold register_with_activation. intros H.
  apply with_transaction_ok in H as (w0 & w1 & H0 & H & H1).
  apply bind_ok in H as (v & w2 & Hc & H).
  apply create_user_with_role_ok in Hc as (Hna & Hv & Hf & Hfree & Hpk & _ & Hdb); [|done..].
  apply bind_ok in H as (e & w3 & He & H). apply lift_ok in He as [He ->].
  assert (Em : email v = Some e).
  { unfold require_user_email in He. destruct (email v); [congruence|done]. }
  apply bind_ok in H as (token & w3 & Hi & H). apply issue_verification_ok in Hi as [Hi _].
  apply bind_ok in H as (? & w4 & Hq & H). apply enqueue_ok in Hq as [sent Hq].
  injection H as -> <-. pose proof (na_username _ _ _ _ _ Hna) as Hname. cbn in Hname, Hv.
  rewrite (same_db _ _ H0) in *. rewrite Hi, Hdb in Hq. cbn in Hq.
  unfold session_rows, verification_rows. rewrite (same_db _ _ H1), Hq. cbn.
  split_and!; try done. eexists e, token, _, _, sent. split_and!; try done; [by apply Hfree| |].
  - apply in_or_app. right. left. done.
  - by rewrite Hname.
Qed.

(** A registration creates exactly the account asked for.  Registration
    is enabled and the address passes the local policy; the name, address
    and password are valid, and no account or profile has the name in any
    case; one user is added, active, under the normal address, with a hash of
    the password, as administrator exactly when it is the first.  When
    activation is required nobody has or asks for the address, it starts
    unverified, one mail is queued to it with the token of a stored link, and
    no session is opened; otherwise it is verified and a session is opened. *)
Theorem registration_sound name address password req w o w' :
  register name address password req w = (Ok o, w') ->
  let policy := auth_policy config_get in
  exists u,
    allow_user_registration policy = true /\ allow_local_registration policy = true /\
    LocalEmailPolicy.check email_policy address = Ok tt /\
    new_account name address password
      (if Z.of_nat (length (rows (users (db w)))) =? 0 then Admin else User) u /\
    name_free name (db w) /\ user_pk u = next_pk (users (db w)) /\
    rows (users (db w')) = rows (users (db w)) ++ [u] /\
    match o with
    | RegisterPendingActivation info =>
        register_activation_enabled policy = true /\ info = from_user u /\
        email_verified_at u = None /\ session_rows (db w') = session_rows (db w) /\
        exists e token pk now sent,
          email u = Some e /\ address_free e (rows (users (db w))) /\
          In (issued_link pk (user_pk u) RegisterActivation e token
                (register_activation_ttl_secs (contact_policy config_get)) now)
             (verification_rows (db w')) /\
          mail_outbox (accounts (db w')) = mail_outbox (accounts (db w)) ++
            [mkMail e (Some name) (MailRegisterActivation name token site_name) sent sent]
    | RegisterAuthenticated b =>
        (register_activation_enabled policy = false \/ rows (users (db w)) = []) /\
        is_some (email_verified_at u) = true /\
        mail_outbox (accounts (db w')) = mail_outbox (accounts (db w)) /\
        exists s, session_rows (db w') = session_rows (db w) ++ [s] /\
          session_user_id s = user_pk u /\ session_revoked_at s = None
    end.
Proof.
  unfold register. cbv zeta. intros H.
  apply bind_ok in H as (? & w1 & Hg & H). apply when_ok_ok in Hg as [Hg1%negb_false_iff ->].
  apply bind_ok in H as (? & w1 & Hg & H). apply when_ok_ok in Hg as [Hg2%negb_false_iff ->].
  apply bind_ok in H as ([] & w1 & Hp & H). apply lift_ok in Hp as [Hp ->].
  apply bind_ok in H as (n & w1 & Hn & H). apply db_query_ok in Hn as (-> & -> & _).
  set (first := Z.of_nat (length (rows (users (db w)))) =? 0) in *.
  assert (Hfirst : first = true -> rows (users (db w)) = []).
  { intros E%Z.eqb_eq. destruct (rows (users (db w))); [done|]. cbn in E. lia. }
  apply bind_ok in H as (u & w2 & Hu & H). apply bind_ok in H as (? & w3 & Hl & H).
  apply log_run in Hl as (_ & Hl & _). exists u.
  destruct (register_activation_enabled (auth_policy config_get) && negb first) eqn:Ea.
  - apply register_with_activation_ok in Hu as (Hna & Hv & Hf & Hpk & Hr & Hs & Hx).
    injection H as <- <-. unfold session_rows, verification_rows in *. rewrite Hl.
    apply andb_true_iff in Ea as [Ea _]. split_and!; done.
  - apply create_user_ok in Hu as (Hna & Hv & Hf & Hpk & _ & Hdb).
    apply bind_ok in H as (b & w4 & Hi & H). injection H as <- <-.
    apply issue_tokens_ok in Hi as (t & now & _ & Hi & _ & _ & _).
    rewrite Hl, Hdb in Hi. cbn in Hi. unfold session_rows in *. rewrite Hi. cbn.
    split_and!; try done; [|by exists (opened_session u t req now)].
    apply andb_false_iff in Ea as [Ea|Ea]; [by left|right]. apply Hfirst.
    by apply negb_false_iff in Ea.
Qed.

(** ** The activation link *)

(** No two accounts share a key, a public identifier, a name or an address. *)
Definition users_unique (l : list user) : Prop :=
  List.NoDup (List.map user_pk l) /\
  forall u v, In u l -> In v l -> user_pk u <> user_pk v -> user_conflict u v = false.

Lemma users_update_live id f w u :
  no_faults -> users_unique (rows (users (db w))) ->
  find_row (fun r => user_pk r =? id) (rows (users (db w))) = Some u ->
  (forall v, user_conflict (f u) v = user_conflict u v) ->
  exists w', Users.update id f w = (Ok (f u), w') /\
    db w' = set_users (with_rows (update_where (fun r => user_pk r =? id) f (rows (users (db w))))
              (users (db w))) (db w).
Proof.
  intros NF [_ Hu] Hf Hc. unfold Users.update, db_exec, update_row. rewrite NF, Hf.
  destruct (existsb _ _) eqn:Ex; [exfalso|by eexists].
  apply existsb_exists in Ex as (v & Hv & [Hne Hx]%andb_true_iff).
  apply find_row_some in Hf as [Hin Hpk]. rewrite Hc in Hx. rewrite (Hu u v) in Hx; [done..|].
  apply negb_true_iff in Hne. lia.
Qed.

Lemma count_where_unique (l : list contact_verification_token) t :
  List.NoDup (List.map verification_pk l) -> In t l -> consumed_at t = None ->
  count_where (fun x => (verification_pk x =? verification_pk t) && VerificationRepo.unconsumed x) l
    = 1%nat.
Proof.
  intros Hd Hin Hc. unfold count_where, rows_where. induction l as [|x l IH]; [done|].
  cbn in Hd |- *. apply List.NoDup_cons_iff in Hd as [Hx Hd]. destruct Hin as [->|Hin].
  - rewrite Z.eqb_refl. unfold VerificationRepo.unconsumed at 1, is_none, is_some. rewrite Hc. cbn.
    f_equal. match goal with |- length (List.filter ?p l) = _ => change (length (rows_where p l) = 0%nat) end.
    rewrite rows_where_none; [done|]. intros y Hy. destruct (Z.eqb_spec (verification_pk y) (verification_pk t)) as [E|]; [|done].
    exfalso. apply Hx. apply in_map_iff. by exists y.
  - destruct (Z.eqb_spec (verification_pk x) (verification_pk t)) as [E|]; [|by apply IH].
    exfalso. apply Hx. apply in_map_iff. by exists t.
Qed.

Lemma mark_consumed_live t w :
  no_faults -> List.NoDup (List.map verification_pk (verification_rows (db w))) ->
  In t (verification_rows (db w)) -> consumed_at t = None ->
  exists w', VerificationRepo.mark_consumed_if_unused (verification_pk t) w = (Ok true, w') /\
    users (db w') = users (db w).
Proof.
  intros NF Hd Hin Hc.
  unfold VerificationRepo.mark_consumed_if_unused, bind, utc_now, db_update_many, db_exec. cbn.
  rewrite NF. unfold VerificationRepo.tokens. fold (verification_rows (db w)).
  rewrite count_where_unique by done. by eexists.
Qed.

(** An activation link works.  While the database answers, a stored,
    unconsumed activation link that has not expired, sent to the address an
    active account still has, activates the account: the confirmation
    succeeds and answers the account and the address. *)
Theorem activation_link_works token w t u :
  no_faults -> users_unique (rows (users (db w))) ->
  List.NoDup (List.map verification_pk (verification_rows (db w))) ->
  find_row (fun t => eqb (verification_token_hash t) (sha256_hex token))
    (verification_rows (db w)) = Some t ->
  verification_purpose t = RegisterActivation -> consumed_at t = None ->
  clock (S (step w)) < verification_expires_at t ->
  find_row (fun r => user_pk r =? verification_user_id t) (rows (users (db w))) = Some u ->
  user_status u = UserActive -> email u = Some (verification_target t) ->
  fst (confirm_contact_verification token w) =
    Ok (mkConfirmResult RegisterActivation (user_pk u) (verification_target t)).
Proof.
  intros NF Hus Hd Hf Hp Hc He Hu Hst Hem. unfold confirm_contact_verification. cbv zeta.
  apply find_row_some in Hf as Hin. destruct Hin as [Hin _].
  apply find_row_some in Hu as Hpk. destruct Hpk as [_ Hpk%Z.eqb_eq].
  rewrite (bind_run _ _ _ (Some t) (tick w)).
  2:{ unfold VerificationRepo.find_by_token_hash. rewrite db_query_live by done.
      unfold VerificationRepo.tokens. fold (verification_rows (db w)). by rewrite Hf. }
  erewrite bind_run by reflexivity. rewrite Hc. erewrite bind_run by reflexivity.
  erewrite bind_run by reflexivity. cbn [step tick]. rewrite (proj2 (Z.leb_gt _ _) He).
  erewrite bind_run by reflexivity.
  destruct (with_transaction_live _ (confirm_in_txn t) (tick (tick w)) NF) as (w0 & H0 & Hx).
  assert (E0 : db w0 = db w) by (by rewrite (same_db _ _ H0)).
  assert (Hb : exists w1, confirm_in_txn t w0 = (Ok tt, w1)).
  { unfold confirm_in_txn. rewrite (bind_run _ _ _ u (tick w0)) by (apply find_by_id_live; [done|by rewrite E0]).
    rewrite Hst, Hp. do 2 (erewrite bind_run by reflexivity).
    destruct (mark_consumed_live t (tick w0)) as (w1 & Hm & Hus1);
      [done|cbn; by rewrite E0..|done|].
    rewrite (bind_run _ _ _ _ _ Hm). do 2 (erewrite bind_run by reflexivity).
    unfold confirm_registration. rewrite Hem, eqb_refl. erewrite bind_run by reflexivity.
    destruct (is_none _); [|by eexists].
    destruct (users_update_live (user_pk u) (set_email_verified (clock (step w1))) (tick w1) u)
      as (w2 & H2 & _); cbn [db tick] in *; rewrite ?Hus1, ?E0; try done.
    - by rewrite Hpk.
    - rewrite (bind_run _ _ _ _ _ H2). by eexists. }
  destruct Hb as [w1 Hb]. rewrite Hb in Hx. destruct Hx as (w' & Hx & _).
  rewrite (bind_run _ _ _ _ _ Hx). cbn. by rewrite Hp, Hpk.
Qed.
End Registration.

(** ** The theorems at work *)

Lemma registration_sound_witness :
  exists u, rows (users (db (snd registered))) = [alice; u] /\
    verify_password "password1" (password_hash u) = Ok true /\ role u = User.
Proof.
  destruct (registration_sound "mallory" "mallory@example.org" "password1" request0 world0 _ _
              registered_run) as (u & _ & _ & _ & Hna & _ & _ & Hr & _).
  exists u. split; [exact Hr|]. split; [apply Hna|apply Hna].
Defined.

(** Mallory's account and the link in her mail. *)
Definition registered_user : user :=
  match find_row (fun r => user_pk r =? 2) (rows (users (db (snd registered)))) with
  | Some u => u
  | None => alice
  end.
Definition registered_link : contact_verification_token :=
  match verification_rows (db (snd registered)) with
  | t :: _ => t
  | [] => issued_link 0 0 RegisterActivation "" "" 0 0
  end.

Lemma activation_link_works_witness :
  fst (confirm_contact_verification (last_link (snd registered)) (snd registered)) =
    Ok (mkConfirmResult RegisterActivation 2 "mallory@example.org").
Proof.
  apply (activation_link_works (last_link (snd registered)) (snd registered) registered_link
           registered_user).
  - apply env0_no_faults.
  - vm_compute. split.
    + repeat constructor; cbn; intros H; repeat destruct H as [H|H]; congruence.
    + intros u v [<-|[<-|[]]] [<-|[<-|[]]]; done.
  - vm_compute. repeat constructor; cbn; tauto.
  - vm_compute. reflexivity.
  - vm_compute. reflexivity.
  - vm_compute. reflexivity.
  - vm_compute. reflexivity.
  - vm_compute. reflexivity.
  - vm_compute. reflexivity.
  - vm_compute. reflexivity.
Defined.

(** ** Accounts: where the flows fall short

    An account without an address can never confirm one, the resend of an
    email change is not limited, and names are stored as typed although they
    are checked trimmed. *)

Section Errors.
Context `{EN : Env} `{CB : CacheBackend} `{TM : !TxnManager} `{TL : !TxnLaws TM}.
Context `{FC : ForgeCrypto} `{FN : ForgeNumbers} `{FS : ForgeSigned} `{AE : !AccountExterns}.
Context `{AL : !AccountExternLaws AE} `{CS : ChronoSeconds} `{JW : Jwt} `{CF : ForgeConfig}.
Context `{ST : ConfigStore} `{RC : RuntimeConfig} `{AC : AppConfig} `{FE : ForgeEmail}.
Context `{SE : !SetupExterns} `{SL : !SetupExternLaws SE} `{FA : ForgeApi}.
Context `{NL : !ForgeNumberLaws FN} `{FSL : !ForgeSignedLaws FS} `{CSL : !ChronoSecondsLaws CS}.
Context `{JL : !JwtLaws JW}.

(** An account without an email address can never confirm one.  Every
    confirmation of an email change of such an account fails, whatever else
    holds: the notice to the previous address needs an address to go to. *)
Theorem emailless_change_never_confirms token w r w' :
  (forall t, In t (verification_rows (db w)) -> verification_token_hash t = sha256_hex token ->
     verification_purpose t = ContactChange /\
     forall u, In u (rows (users (db w))) -> user_pk u = verification_user_id t -> email u = None) ->
  confirm_contact_verification token w = (r, w') -> is_ok r = false.
Proof.
  intros Ht H. destruct r as [res|e|m]; [|done..]. exfalso.
  apply confirm_contact_verification_ok in H as (t & u & now & Hl & Hin & Hpk & _ & He & _).
  destruct (Ht t (ll_row _ _ _ Hl) (ll_hash _ _ _ Hl)) as [Hp Hu].
  specialize (Hu u Hin Hpk). destruct He; congruence.
Qed.

(** The resend of an email change is not limited.  Whatever email-change
    links were sent to a user, and however recently, the cooldown admits the
    next one: it looks for activation links, which an activated account does
    not have. *)
Theorem email_change_cooldown_ignored id w :
  no_faults ->
  (forall t, In t (verification_rows (db w)) -> verification_user_id t = id ->
     verification_purpose t = RegisterActivation -> consumed_at t <> None) ->
  fst (register_activation_resend_allowed id w) = Ok true.
Proof.
  intros NF Ht. unfold register_activation_resend_allowed, cooldown_passed,
    VerificationRepo.find_latest_active_for_user.
  rewrite (bind_run _ _ _ None (tick (tick w))); [reflexivity|].
  erewrite bind_run by reflexivity.
  rewrite db_query_live by done. cbn [db tick]. rewrite rows_where_none; [reflexivity|].
  intros t Hin. destruct (_ && VerificationRepo.unconsumed t) eqn:E; [exfalso|done].
  apply andb_true_iff in E as [E Hu]. unfold VerificationRepo.of_slot in E.
  apply andb_true_iff in E as [[Hid _]%andb_true_iff Hp]. rewrite eqb_true in Hp.
  apply (Ht t Hin); [lia|done|]. unfold VerificationRepo.unconsumed, is_none, is_some in Hu.
  by destruct (consumed_at t).
Qed.
End Errors.

(** ** Names *)

(** A user database in which "alice" exists. *)
Definition mallory_registers : outcome AsterError.t RegisterOutcome * World :=
  register " alice" "mallory@example.org" "password1" request0 world0.

(** A name is checked trimmed but stored as typed.  With an account
    "alice" present, a registration as " alice" is accepted, and the two
    accounts differ in a space only. *)
Theorem padded_username_registered :
  exists info u,
    fst mallory_registers = Ok (RegisterPendingActivation info) /\
    In u (rows (users (db (snd mallory_registers)))) /\ username u = " alice"%string /\
    validate_username (username u) = Ok tt /\ In alice (rows (users (db (snd mallory_registers)))).
Proof.
  eexists _, _. split_and!; [vm_compute; reflexivity|vm_compute; right; left; reflexivity|..].
  - reflexivity.
  - reflexivity.
  - vm_compute. left. reflexivity.
Qed.

(** ** The theorems at work *)

(** Bob signed up through another site and has no address; he asks for one. *)
Definition bob : user :=
  mkUser 1 "7f000001000000000000000000000002" "bob1" None "secret" User UserActive false 1
         None None 0 0.
Definition bob_world : World :=
  set_db (set_users (mkTable [bob] 2) (db world0)) world0.
Definition bob_asks : World := snd (request_email_change 1 "bob@example.org" bob_world).

Lemma emailless_change_never_confirms_witness :
  is_ok (fst (request_email_change 1 "bob@example.org" bob_world)) = true /\
  is_ok (fst (confirm_contact_verification (last_link bob_asks) bob_asks)) = false.
Proof.
  split; [vm_compute; reflexivity|].
  apply (emailless_change_never_confirms (last_link bob_asks) bob_asks _
           (snd (confirm_contact_verification (last_link bob_asks) bob_asks))).
  - vm_compute. intros t [<-|[]] _. split; [reflexivity|]. intros u [<-|[]] _. reflexivity.
  - apply surjective_pairing.
Defined.

Lemma email_change_cooldown_ignored_witness :
  length (verification_rows (db bob_asks)) = 1%nat /\
  fst (register_activation_resend_allowed 1 bob_asks) = Ok true.
Proof.
  split; [vm_compute; reflexivity|].
  apply email_change_cooldown_ignored; [apply env0_no_faults|].
  vm_compute. intros t [<-|[]] _. intros [=].
Defined.
