(* ===== verification/SessionPages.v ===== *)
(** * Accounts: the pages of the session list

    The cursor of a page resumes exactly after its last session: following
    the cursors ends, and visits every session of the user once, in order. *)

From Stdlib Require Import ZArith List Bool Lia Ascii Permutation Sorted.
From stdpp Require Import base decidable list strings pretty.
From S2P Require Import Prelude Text Errors Types AuditLog World Logic Repos Tokens Auth Concrete AuthConfig Accounts WebSessions AccountFlows AccountSpec AccountOps AccountProofs AccountConcrete AccountSignIn.

Local Open Scope Z_scope.
Import SessionRepo.

(** ** Sorting and filtering *)

Section SortFilter.
Context {A : Type} (leb : A -> A -> bool).
Context (leb_total : forall x y, leb x y = true \/ leb y x = true).
Context (leb_trans : forall x y z, leb x y = true -> leb y z = true -> leb x z = true).

Lemma sort_insert_below x l :
  List.Forall (fun y => leb x y = true) l -> sort_insert leb x l = x :: l.
Proof. destruct 1 as [|y l H _]; cbn; [done|]. by rewrite H. Qed.

Lemma sort_insert_filter p x l :
  StronglySorted (fun a b => leb a b = true) l ->
  rows_where p (sort_insert leb x l) =
    if p x then sort_insert leb x (rows_where p l) else rows_where p l.
Proof.
  unfold rows_where. induction 1 as [|y l Hs IH Hy]; cbn; [by destruct (p x)|].
  destruct (leb x y) eqn:E; cbn.
  - destruct (p x) eqn:Ex; [|done]. destruct (p y) eqn:Ey; cbn; [by rewrite E|].
    rewrite sort_insert_below; [done|]. apply List.Forall_forall. intros z Hz.
    apply filter_In in Hz as [Hz _]. rewrite List.Forall_forall in Hy. eauto.
  - rewrite IH. destruct (p y) eqn:Ey, (p x) eqn:Ex; cbn; try done. by rewrite E.
Qed.

Lemma sort_by_rows_where p l :
  sort_by leb (rows_where p l) = rows_where p (sort_by leb l).
Proof.
  induction l as [|x l IH]; [done|]. cbn [sort_by].
  rewrite sort_insert_filter by (by apply sort_by_sorted). rewrite <- IH.
  unfold rows_where. cbn. by destruct (p x).
Qed.
End SortFilter.

(** ** The order of the list *)

Lemma string_compare_trans a b c :
  String.compare a b <> Gt -> String.compare b c <> Gt -> String.compare a c <> Gt.
Proof.
  revert b c. induction a as [|x a IH]; intros [|y b] [|z c]; cbn; try done.
  unfold Ascii.compare.
  destruct (N.compare_spec (N_of_ascii x) (N_of_ascii y)) as [Exy|Hxy|Hxy],
    (N.compare_spec (N_of_ascii y) (N_of_ascii z)) as [Eyz|Hyz|Hyz]; try done;
    intros H1 H2;
    destruct (N.compare_spec (N_of_ascii x) (N_of_ascii z)); try done; try lia.
  by eapply IH.
Qed.

Lemma string_leb_spec a b : String.leb a b = true <-> String.compare a b <> Gt.
Proof. unfold String.leb. by destruct (String.compare a b). Qed.

Lemma string_leb_trans a b c :
  String.leb a b = true -> String.leb b c = true -> String.leb a c = true.
Proof. rewrite !string_leb_spec. apply string_compare_trans. Qed.

Lemma string_ltb_leb a b : String.ltb a b = String.leb a b && negb (eqb a b).
Proof.
  unfold String.ltb, String.leb. destruct (String.compare a b) eqn:E; cbn; try done.
  - apply String.compare_eq_iff in E as ->. by rewrite eqb_refl.
  - destruct (eqb a b) eqn:Eq; [|done]. rewrite eqb_true in Eq. subst.
    pose proof (String.compare_antisym b b) as Ha. by rewrite E in Ha.
Qed.

Lemma newest_total s t : newest_seen_then_id s t = true \/ newest_seen_then_id t s = true.
Proof.
  unfold newest_seen_then_id.
  destruct (Z.lt_trichotomy (session_last_seen_at s) (session_last_seen_at t)) as [H|[H|H]].
  - right. by rewrite (proj2 (Z.ltb_lt _ _) H).
  - rewrite H, Z.eqb_refl, Z.ltb_irrefl. cbn. apply or_comm, String.leb_total.
  - left. by rewrite (proj2 (Z.ltb_lt _ _) H).
Qed.

Lemma newest_iff s t :
  newest_seen_then_id s t = true <->
  session_last_seen_at t < session_last_seen_at s \/
  (session_last_seen_at t = session_last_seen_at s /\
   String.leb (session_id t) (session_id s) = true).
Proof.
  unfold newest_seen_then_id. by rewrite orb_true_iff, andb_true_iff, Z.ltb_lt, Z.eqb_eq.
Qed.

Lemma newest_trans s t u :
  newest_seen_then_id s t = true -> newest_seen_then_id t u = true ->
  newest_seen_then_id s u = true.
Proof.
  rewrite !newest_iff. intros [H1|[H1 L1]] [H2|[H2 L2]]; [left; lia..|].
  right. split; [lia|by eapply string_leb_trans].
Qed.

(** The key a cursor holds, and what it admits: the sessions strictly after. *)
Definition cursor_of (s : auth_session) : DateTimeUtc * string :=
  (session_last_seen_at s, session_id s).

Lemma after_cursor_iff s t :
  (session_id s = session_id t -> s = t) ->
  after_cursor (Some (cursor_of t)) s = true <->
  newest_seen_then_id t s = true /\ session_id s <> session_id t.
Proof.
  intros Hid. cbn. rewrite newest_iff, orb_true_iff, andb_true_iff, Z.ltb_lt, Z.eqb_eq,
    string_ltb_leb, andb_true_iff, negb_true_iff, eqb_false. split.
  - intros [H|(H & L & Hn)]; [|tauto]. split; [tauto|]. intros ->%Hid. lia.
  - intros [[H|[H L]] Hn]; tauto.
Qed.

Lemma newest_antisym s t :
  newest_seen_then_id s t = true -> newest_seen_then_id t s = true -> session_id s = session_id t.
Proof.
  rewrite !newest_iff. intros [H1|[H1 L1]] [H2|[H2 L2]]; try lia.
  symmetry. by apply String.leb_antisym.
Qed.

(** A cursor on an ordered list without duplicates keeps what follows it. *)
Lemma after_cursor_suffix l1 x l2 :
  StronglySorted (fun s t => newest_seen_then_id s t = true) (l1 ++ x :: l2) ->
  List.NoDup (List.map session_id (l1 ++ x :: l2)) ->
  rows_where (after_cursor (Some (cursor_of x))) (l1 ++ x :: l2) = l2.
Proof.
  intros Hs Hd.
  assert (Hid : forall s, In s (l1 ++ x :: l2) -> session_id s = session_id x -> s = x).
  { intros s Hin E. eapply (NoDup_map_inj_in session_id); try done.
    apply in_or_app. right. by left. }
  rewrite List.map_app in Hd. cbn [List.map] in Hd.
  assert (H1 : forall s, In s l1 -> after_cursor (Some (cursor_of x)) s = false).
  { intros s Hin. destruct (after_cursor _ s) eqn:E; [exfalso|done].
    apply after_cursor_iff in E as [E Hn].
    - apply Hn, newest_antisym; [|done]. apply (StronglySorted_app _ _ _ _ _ Hs); [done|by left].
    - apply Hid, in_or_app. by left. }
  assert (H2 : forall s, In s l2 -> after_cursor (Some (cursor_of x)) s = true).
  { intros s Hin. apply after_cursor_iff.
    - apply Hid, in_or_app. right. by right.
    - split.
      + replace (l1 ++ x :: l2) with ((l1 ++ [x]) ++ l2) in Hs by (by rewrite <- List.app_assoc).
        apply (StronglySorted_app _ _ _ _ _ Hs); [|done]. apply in_or_app. right. by left.
      + intros E. apply List.NoDup_remove_2 in Hd. apply Hd, in_or_app. right.
        apply in_map_iff. by exists s. }
  rewrite rows_where_app, (rows_where_none _ l1 H1). unfold rows_where. cbn [List.filter app].
  destruct (after_cursor _ x) eqn:E.
  { apply after_cursor_iff in E as [_ E]; [done|auto]. }
  clear -H2. induction l2 as [|y l2 IH]; [done|]. cbn [List.filter].
  rewrite H2 by (by left). f_equal. apply IH. intros s Hs. apply H2. by right.
Qed.

(** ** Following the cursors *)

Section Pages.
Context `{EN : Env} `{CB : CacheBackend} `{TM : !TxnManager} `{TL : !TxnLaws TM}.
Context `{FC : ForgeCrypto} `{FN : ForgeNumbers} `{FS : ForgeSigned} `{AE : !AccountExterns}.
Context `{CS : ChronoSeconds} `{JW : Jwt} `{CF : ForgeConfig} `{ST : ConfigStore}.
Context `{RC : RuntimeConfig} `{AC : AppConfig} `{FA : ForgeApi} `{FL : !ForgeApiLaws FA}.
Local Open Scope aster_scope.

(** A client that asks for at most [fuel] pages; [None] if that was not
    enough. *)
Fixpoint follow_pages (fuel : nat) (user_id : Z) (token : option string) (limit : Z)
  (cursor : option (DateTimeUtc * string)) : M AsterError.t (option (list AuthSessionInfo)) :=
  match fuel with
  | O => ret None
  | S fuel =>
      let* page := list_sessions_cursor user_id token limit cursor in
      match page_next page with
      | None => ret (Some (page_items page))
      | Some c =>
          let* rest := follow_pages fuel user_id token limit (Some c) in
          ret (app (page_items page) <$> rest)
      end
  end.

Lemma refresh_jti_no_panic token w m w' : refresh_jti_from_token token w <> (Panic m, w').
Proof.
  unfold refresh_jti_from_token, decode_claims, bind, utc_now, lift. cbn.
  destruct (jwt_decode _ _ _) as [c|[]]; [|done..].
  unfold ensure_token_type. destruct (negb _); [done|]. by destruct (jti c).
Qed.

Lemma optional_jti_total token w :
  exists j w', optional_refresh_jti_from_token token w = (Ok j, w') /\ same w w'.
Proof.
  destruct (optional_refresh_jti_from_token token w) as [r w'] eqn:E.
  assert (Hs : same w w') by (by eapply reads_run; [|exact E]; apply _).
  destruct token as [token|]; [|injection E as <- <-; eauto].
  unfold optional_refresh_jti_from_token, bind, catch in E.
  destruct (refresh_jti_from_token token w) as [[j|e|m] w1] eqn:Er;
    [injection E as <- <-; eauto..|].
  by apply refresh_jti_no_panic in Er.
Qed.

Definition user_sessions (user_id : Z) (d : Db) : list auth_session :=
  sort_by newest_seen_then_id
    (rows_where (fun s => session_user_id s =? user_id) (session_rows d)).

(** The rows of a page: what follows the cursor, cut at the limit. *)
Lemma list_by_user_cursor_ok id limit cursor w p w' :
  list_by_user_cursor id limit cursor w = (Ok p, w') ->
  let n := Z.to_nat (clamp limit 1 100) in
  let l := rows_where (after_cursor cursor) (user_sessions id (db w)) in
  items p = firstn n l /\ has_more p = (n <? length l)%nat.
Proof.
  unfold list_by_user_cursor. cbv zeta. intros H.
  apply bind_ok in H as (n & w1 & Hn & H). apply db_query_ok in Hn as (-> & -> & _).
  apply bind_ok in H as (l & w2 & Hl & H). apply db_query_ok in Hl as (-> & -> & _).
  apply lift_ok in H as [H _]. destruct (from_overfetch _ _ _) as [s|m|m] eqn:Eo; [|done..].
  injection H as <-. apply from_overfetch_spec in Eo as ->. cbn [items has_more db tick].
  unfold sessions. fold (session_rows (db w)).
  rewrite (rows_where_ext _ (fun s => after_cursor cursor s && (session_user_id s =? id)))
    by (intros; apply andb_comm).
  rewrite <- rows_where_and, sort_by_rows_where by (apply newest_total || apply newest_trans).
  fold (user_sessions id (db w)).
  set (l := rows_where _ (user_sessions id (db w))).
  assert (Hn : 1 <= clamp limit 1 100) by (unfold clamp; lia).
  set (n := clamp limit 1 100) in *. rewrite List.firstn_firstn, List.length_firstn. split.
  - f_equal. lia.
  - apply eq_true_iff_eq. rewrite Z.ltb_lt, Nat.ltb_lt. lia.
Qed.

(** The page a request answers. *)
Lemma list_sessions_cursor_ok id token limit cursor w page w' :
  list_sessions_cursor id token limit cursor w = (Ok page, w') ->
  let n := Z.to_nat (clamp limit 1 100) in
  let l := rows_where (after_cursor cursor) (user_sessions id (db w)) in
  same w w' /\
  List.map si_id (page_items page) = List.map session_id (firstn n l) /\
  page_next page = (if (n <? length l)%nat then cursor_of <$> last (firstn n l) else None).
Proof.
  intros H. cbv zeta.
  assert (Hs : same w w').
  { eapply reads_run; [|exact H].
    unfold list_sessions_cursor, list_by_user_cursor. apply _. }
  split; [done|]. unfold list_sessions_cursor in H. cbv zeta in H.
  apply bind_ok in H as (j & w1 & Hj & H).
  assert (H1 : same w w1) by (by eapply reads_run; [|exact Hj]; apply _).
  apply bind_ok in H as (p & w2 & Hp & H). injection H as <- _.
  apply list_by_user_cursor_ok in Hp as [Hi Hm].
  assert (Hc : clamp (clamp limit 1 100) 1 100 = clamp limit 1 100) by (unfold clamp; lia).
  rewrite Hc, (same_db _ _ H1) in *. cbn [page_items page_next]. rewrite Hi, Hm. split.
  - by rewrite List.map_map.
  - done.
Qed.

(** What is left after a page, and its cursor. *)
Lemma firstn_last {A} (n : nat) (l : list A) :
  (0 < n)%nat -> (n < length l)%nat ->
  exists l1 x, l = l1 ++ x :: skipn n l /\ last (firstn n l) = Some x /\ firstn n l = l1 ++ [x].
Proof.
  intros H0 Hn. destruct n as [|n]; [lia|].
  destruct (List.nth_error l n) as [x|] eqn:E.
  2:{ apply List.nth_error_None in E. lia. }
  apply List.nth_error_split in E as (l1 & l2 & -> & Hl). exists l1, x. subst n.
  rewrite List.firstn_app, List.skipn_app, List.firstn_all2, List.skipn_all2 by lia.
  replace (S (length l1) - length l1)%nat with 1%nat by lia. cbn.
  split; [done|]. split; [apply last_snoc|done].
Qed.

Lemma user_sessions_NoDup id d :
  List.NoDup (List.map session_id (session_rows d)) ->
  List.NoDup (List.map session_id (user_sessions id d)).
Proof.
  intros H. eapply Permutation_NoDup.
  - apply Permutation_map. symmetry. apply sort_by_perm.
  - by apply NoDup_map_rows_where.
Qed.

Lemma follow_pages_suffix fuel id token limit : forall cursor l1 r w o w',
  List.NoDup (List.map session_id (session_rows (db w))) ->
  user_sessions id (db w) = l1 ++ r ->
  rows_where (after_cursor cursor) (user_sessions id (db w)) = r ->
  (length r < fuel)%nat ->
  follow_pages fuel id token limit cursor w = (Ok o, w') ->
  exists l, o = Some l /\ List.map si_id l = List.map session_id r /\ same w w'.
Proof.
  induction fuel as [|fuel IH]; intros cursor l1 r w o w' Hd Hl Hr Hf H; [lia|].
  cbn [follow_pages] in H. apply bind_ok in H as (page & w1 & Hp & H).
  apply list_sessions_cursor_ok in Hp as (H1 & Hi & Hn). rewrite Hr in Hi, Hn.
  assert (H0 : (0 < Z.to_nat (clamp limit 1 100))%nat) by (unfold clamp; lia).
  set (n := Z.to_nat (clamp limit 1 100)) in *.
  destruct (Nat.ltb_spec n (length r)) as [Hlt|Hge].
  - destruct (firstn_last n r) as (r1 & x & Er & Elast & Efst); [done..|].
    rewrite Hn, Elast in H. cbn [fmap option_fmap option_map] in H.
    apply bind_ok in H as (rest & w2 & Hrest & H). injection H as <- <-.
    assert (Hsp : user_sessions id (db w) = (l1 ++ r1) ++ x :: skipn n r).
    { rewrite Hl, Er at 1. apply List.app_assoc. }
    pose proof (user_sessions_NoDup id _ Hd) as Hd'.
    apply (IH (Some (cursor_of x)) ((l1 ++ r1) ++ [x]) (skipn n r)) in Hrest
      as (l & -> & Hm & H2); rewrite ?(same_db _ _ H1).
    + exists (page_items page ++ l). split; [done|]. split; [|by eapply same_trans].
      rewrite List.map_app, Hi, Hm, Efst, <- List.map_app, <- List.app_assoc. cbn. by rewrite <- Er.
    + done.
    + by rewrite Hsp, <- (List.app_assoc (l1 ++ r1)).
    + rewrite Hsp in Hd' |- *. apply after_cursor_suffix; [|done]. rewrite <- Hsp.
      apply sort_by_sorted; [apply newest_total|apply newest_trans].
    + rewrite List.length_skipn. lia.
  - rewrite Hn in H. injection H as <- <-. exists (page_items page).
    rewrite Hi, List.firstn_all2 by lia. done.
Qed.

(** [from_overfetch] accepts the rows of a page. *)
Definition overfetch_total : Prop :=
  forall (l : list auth_session) n limit, exists s, from_overfetch l n limit = Ok s.

Lemma list_sessions_cursor_live id token limit cursor w :
  no_faults -> overfetch_total -> exists page w',
    list_sessions_cursor id token limit cursor w = (Ok page, w').
Proof.
  intros NF Ho. unfold list_sessions_cursor. cbv zeta.
  destruct (optional_jti_total token w) as (j & w1 & Hj & _). rewrite (bind_run _ _ _ _ _ Hj).
  assert (Hp : exists p w2, list_by_user_cursor id (clamp limit 1 100) cursor w1 = (Ok p, w2)).
  { unfold list_by_user_cursor. cbv zeta.
    do 2 rewrite (bind_run _ _ _ _ _ (db_query_live _ _ NF)).
    match goal with |- context [from_overfetch ?l ?t ?n] =>
      destruct (Ho l t n) as [s ->] end. by eexists _, _. }
  destruct Hp as (p & w2 & Hp).
  rewrite (bind_run _ _ _ _ _ Hp). by eexists _, _.
Qed.

Lemma follow_pages_live fuel id token limit : forall cursor w,
  no_faults -> overfetch_total ->
  exists o w', follow_pages fuel id token limit cursor w = (Ok o, w').
Proof.
  induction fuel as [|fuel IH]; intros cursor w NF Ho; [by eexists _, _|]. cbn [follow_pages].
  destruct (list_sessions_cursor_live id token limit cursor w NF Ho) as (page & w1 & Hp).
  rewrite (bind_run _ _ _ _ _ Hp). destruct (page_next page) as [c|]; [|by eexists _, _].
  destruct (IH (Some c) w1 NF Ho) as (o & w2 & Hr). rewrite (bind_run _ _ _ _ _ Hr).
  by eexists _, _.
Qed.

(** C37: Following the cursors of the session list ends and misses nothing.
    With any page size, a client that may ask for one page more than the
    user has sessions always reaches the last page when its requests
    succeed, and has then seen the user's sessions, each exactly once, the
    latest first; nothing is written.  The sessions are taken not to change
    between the pages.  Its requests do succeed while the database answers
    and the pagination library accepts the rows of a page. *)
Theorem session_pages_complete fuel id token limit w :
  List.NoDup (List.map session_id (session_rows (db w))) ->
  (length (user_sessions id (db w)) < fuel)%nat ->
  (forall o w', follow_pages fuel id token limit None w = (Ok o, w') ->
     exists l, o = Some l /\ List.map si_id l = List.map session_id (user_sessions id (db w)) /\
       same w w') /\
  (no_faults -> overfetch_total ->
   exists l w', follow_pages fuel id token limit None w = (Ok (Some l), w')).
Proof.
  intros Hd Hf. assert (H : forall o w', follow_pages fuel id token limit None w = (Ok o, w') ->
     exists l, o = Some l /\ List.map si_id l = List.map session_id (user_sessions id (db w)) /\
       same w w').
  { intros o w'. apply (follow_pages_suffix fuel id token limit None []); try done.
    unfold rows_where. by rewrite (List.filter_ext _ (fun _ => true)), List.filter_true. }
  split; [done|]. intros NF Ho.
  destruct (follow_pages_live fuel id token limit None w NF Ho) as (o & w' & Hr).
  destruct (H o w' Hr) as (l & -> & _). by exists l, w'.
Qed.
End Pages.

(** Alice lists her two sessions one by one. *)
Lemma session_pages_complete_witness :
  exists l w', follow_pages 3 1 None 1 None (snd signed_in_twice) = (Ok (Some l), w') /\
    List.map si_id l =
      List.map session_id (user_sessions 1 (db (snd signed_in_twice))) /\
    length l = 2%nat.
Proof.
  eexists _, _. split; [vm_compute; reflexivity|].
  edestruct (session_pages_complete 3 1 None 1 (snd signed_in_twice)) as [H _];
    [vm_compute; repeat constructor; cbn; intros E; repeat destruct E as [E|E]; congruence
    |vm_compute; lia|].
  edestruct H as (l & E & Hl & _); [vm_compute; reflexivity|]. injection E as <-.
  split; [exact Hl|reflexivity].
Defined.
