(* ===== verification/Invitations.v ===== *)
(** * User invitations

    [db/repository/user_invitation_repo.rs] and
    [services/user_invitation_service.rs]: an administrator invites an
    address, the link is mailed, and accepting it creates the account. *)

From Stdlib Require Import ZArith List Bool Lia.
From stdpp Require Import base decidable list strings pretty.
From S2P Require Import Prelude Text Errors Types AuditLog World Logic Repos Tokens Auth AuthConfig Accounts WebSessions AccountFlows.

Local Open Scope Z_scope.
Local Open Scope aster_scope.

(** ** The repository *)
Module InvitationRepo.

Definition table (d : Db) : Table user_invitation := invitations (accounts d).

(** The unique index on [token_hash]. *)
Definition invitation_conflict (i j : user_invitation) : bool :=
  eqb (invitation_token_hash i) (invitation_token_hash j).

Definition pending (i : user_invitation) : bool := eqb (invitation_status i) InvitePending.

Definition newest_created_first (i j : user_invitation) : bool :=
  invitation_created_at j <=? invitation_created_at i.

(** [order_by_desc(CreatedAt).order_by_desc(Id)] *)
Definition newest_then_id (i j : user_invitation) : bool :=
  (invitation_created_at j <? invitation_created_at i)
  || ((invitation_created_at j =? invitation_created_at i)
      && (invitation_pk j <=? invitation_pk i)).

Definition after_cursor (after : option (DateTimeUtc * Z)) (i : user_invitation) : bool :=
  match after with
  | None => true
  | Some (created_at, id) =>
      (invitation_created_at i <? created_at)
      || ((invitation_created_at i =? created_at) && (invitation_pk i <? id))
  end.

Definition set_revoked (now : DateTimeUtc) (i : user_invitation) : user_invitation :=
  mkInvitation (invitation_pk i) (invitation_email i) (invitation_token_hash i) InviteRevoked
    (invited_by i) (accepted_user_id i) (invitation_expires_at i) (invitation_created_at i) now
    (invitation_accepted_at i) (Some now).

Definition set_expired (now : DateTimeUtc) (i : user_invitation) : user_invitation :=
  mkInvitation (invitation_pk i) (invitation_email i) (invitation_token_hash i) InviteExpired
    (invited_by i) (accepted_user_id i) (invitation_expires_at i) (invitation_created_at i) now
    (invitation_accepted_at i) (invitation_revoked_at i).

Definition set_accepted (user_id : Z) (now : DateTimeUtc) (i : user_invitation)
  : user_invitation :=
  mkInvitation (invitation_pk i) (invitation_email i) (invitation_token_hash i) InviteAccepted
    (invited_by i) (Some user_id) (invitation_expires_at i) (invitation_created_at i) now
    (Some now) (invitation_revoked_at i).

Section Ops.
Context `{EN : Env} `{CB : CacheBackend} `{FA : ForgeApi}.

(** The inviter must exist: the foreign key on [invited_by]. *)
Definition create (mk : Z -> user_invitation) : M AsterError.t user_invitation :=
  db_exec (fun d =>
    if negb (existsb (fun u => user_pk u =? invited_by (mk (next_pk (table d)))) (rows (users d)))
    then Err (AsterError.DatabaseOperation foreign_key_violation)
    else match insert_row invitation_conflict mk (table d) with
         | Some (r, t) => Ok (r, set_invitations t d)
         | None => Err (AsterError.DatabaseOperation unique_violation)
         end).

Definition find_by_id (id : Z) : M AsterError.t user_invitation :=
  let* row := db_query (fun d => find_row (fun i => invitation_pk i =? id) (rows (table d))) in
  lift (ok_or (AsterError.RecordNotFound ("user invitation #" +:+ pretty id)) row).

Definition find_by_token_hash (hash : string) : M AsterError.t (option user_invitation) :=
  db_query (fun d => find_row (fun i => eqb (invitation_token_hash i) hash) (rows (table d))).

Definition find_pending_by_email (address : string) : M AsterError.t (list user_invitation) :=
  db_query (fun d =>
    sort_by newest_created_first
      (rows_where (fun i => eqb (invitation_email i) address && pending i) (rows (table d)))).

Definition list_cursor_after (limit : Z) (after : option (DateTimeUtc * Z))
  : M AsterError.t (CursorSlice user_invitation) :=
  let limit := SessionRepo.clamp limit 1 100 in
  let* total := db_query (fun d => Z.of_nat (length (rows (table d)))) in
  let* items := db_query (fun d =>
    firstn (Z.to_nat (limit + 1))
      (sort_by newest_then_id (rows_where (after_cursor after) (rows (table d))))) in
  lift (match from_overfetch items total limit with
        | Ok s => Ok s
        | Err m => Err (AsterError.ValidationError m)
        | Panic m => Panic m
        end).

Definition list_cursor (limit : Z) : M AsterError.t (CursorSlice user_invitation) :=
  list_cursor_after limit None.

Definition mark_revoked_if_pending (id : Z) : M AsterError.t bool :=
  let* now := utc_now in
  let* affected := db_update_many table set_invitations
    (fun i => (invitation_pk i =? id) && pending i) (set_revoked now) in
  ret (affected =? 1).

Definition mark_expired_if_pending (id : Z) : M AsterError.t bool :=
  let* now := utc_now in
  let* affected := db_update_many table set_invitations
    (fun i => (invitation_pk i =? id) && pending i) (set_expired now) in
  ret (affected =? 1).

Definition mark_accepted_if_pending (id user_id : Z) : M AsterError.t bool :=
  let* now := utc_now in
  let* affected := db_update_many table set_invitations
    (fun i => (invitation_pk i =? id) && pending i && (now <? invitation_expires_at i))
    (set_accepted user_id now) in
  ret (affected =? 1).
End Ops.
End InvitationRepo.

(** ** The service *)

Record AdminUserInvitationInfo : Type := mkInvitationInfo {
  ii_id : Z;
  ii_email : string;
  ii_status : UserInvitationStatus;
  ii_invited_by : Z;
  ii_accepted_user_id : option Z;
  ii_expires_at : DateTimeUtc;
  ii_created_at : DateTimeUtc;
  ii_updated_at : DateTimeUtc;
  ii_accepted_at : option DateTimeUtc;
  ii_revoked_at : option DateTimeUtc;
  ii_invitation_url : option string;
  mail_queued : bool
}.

Record PublicUserInvitationInfo : Type := mkPublicInvitation {
  pi_email : string;
  pi_expires_at : DateTimeUtc
}.

Definition to_admin_info (i : user_invitation) (url : option string) (queued : bool)
  : AdminUserInvitationInfo :=
  mkInvitationInfo (invitation_pk i) (invitation_email i) (invitation_status i) (invited_by i)
    (accepted_user_id i) (invitation_expires_at i) (invitation_created_at i)
    (invitation_updated_at i) (invitation_accepted_at i) (invitation_revoked_at i) url queued.

Definition invitation_invalid_error : AsterError.t :=
  AsterError.validation_error_code AsterErrorCode.AuthInvitationInvalid
    "invitation token is invalid".

Definition invitation_status_error (status : UserInvitationStatus) : AsterError.t :=
  match status with
  | InvitePending =>
      AsterError.validation_error_code AsterErrorCode.AuthInvitationInvalid
        "invitation is not usable"
  | InviteAccepted =>
      AsterError.validation_error_code AsterErrorCode.AuthInvitationAccepted
        "invitation has already been accepted"
  | InviteExpired =>
      AsterError.validation_error_code AsterErrorCode.AuthInvitationExpired
        "invitation has expired"
  | InviteRevoked =>
      AsterError.validation_error_code AsterErrorCode.AuthInvitationRevoked
        "invitation has been revoked"
  end.

(** [i64] arithmetic without overflow: the division is of a positive value. *)
Definition format_mail_duration_seconds (total_secs : Z) : string :=
  let total_secs := Z.max total_secs 1 in
  let '(value, unit) :=
    if (86400 <=? total_secs) && (total_secs mod 86400 =? 0)
    then (total_secs / 86400, "day"%string)
    else if (3600 <=? total_secs) && (total_secs mod 3600 =? 0)
    then (total_secs / 3600, "hour"%string)
    else if 60 <=? total_secs then ((total_secs + 59) / 60, "minute"%string)
    else (total_secs, "second"%string) in
  let suffix := if value =? 1 then "" else "s" in
  pretty value +:+ " " +:+ unit +:+ suffix.

Section Service.
Context `{EN : Env} `{CB : CacheBackend} `{TM : TxnManager} `{FC : ForgeCrypto}.
Context `{FN : ForgeNumbers} `{AE : !AccountExterns} `{CS : ChronoSeconds}.
Context `{CF : ForgeConfig} `{ST : ConfigStore} `{FE : ForgeEmail} `{FA : ForgeApi}.

Abbreviation AM := (M AsterError.t).

(** Hides the hash under which a token is stored. *)
Definition hash_invitation_token (token : string) : outcome AsterError.t string :=
  let token := trim token in
  if is_empty token then Err invitation_invalid_error else Ok (sha256_hex token).

Definition invitation_url (token : string) : string :=
  public_app_url_or_path config_get ("/invite/" +:+ token).

Definition ensure_invited_email_available (address : string) : AM unit :=
  let* found := Users.find_by_email address in
  when_ok (is_some found) email_exists_error.

Definition current_invitation_status_error {A} (id : Z) : AM A :=
  let* r := catch (InvitationRepo.find_by_id id) in
  throw (match r with
         | inl i => invitation_status_error (invitation_status i)
         | inr e => e
         end).

Definition refresh_expired_status (i : user_invitation) : AM user_invitation :=
  if eqb (invitation_status i) InvitePending then
    let* now := utc_now in
    if invitation_expires_at i <=? now then
      let* marked := InvitationRepo.mark_expired_if_pending (invitation_pk i) in
      if negb marked then InvitationRepo.find_by_id (invitation_pk i)
      else
        let* now := utc_now in
        ret (InvitationRepo.set_expired now i)
    else ret i
  else ret i.

Definition ensure_invitation_pending (i : user_invitation) : outcome AsterError.t unit :=
  if is_pending (invitation_status i) then Ok tt
  else Err (invitation_status_error (invitation_status i)).

Definition ensure_invitation_not_expired (i : user_invitation) : AM unit :=
  let* now := utc_now in
  if now <? invitation_expires_at i then ret tt
  else
    let* marked := InvitationRepo.mark_expired_if_pending (invitation_pk i) in
    if negb marked then current_invitation_status_error (invitation_pk i)
    else throw (invitation_status_error InviteExpired).

Definition new_invitation (address token_hash : string) (by_user : Z)
  (expires_at now : DateTimeUtc) (id : Z) : user_invitation :=
  mkInvitation id address token_hash InvitePending by_user None expires_at now now None None.

Definition create_invitation (address : string) (by_user : Z) : AM AdminUserInvitationInfo :=
  let* address := lift (lift_email (normalize_email address)) in
  do* lift (LocalEmailPolicy.check email_policy address) in
  let* token := new_short_token in
  let token_hash := sha256_hex token in
  let* now := utc_now in
  let* ttl_secs := lift (utils (u64_to_i64 (user_invitation_ttl_secs config_get)
                                  "user invitation ttl")) in
  let* d := duration ttl_secs in
  let* expires_at := add_duration now d in
  let url := invitation_url token in
  let expires_in := format_mail_duration_seconds ttl_secs in
  let* invitation := with_transaction (
    do* ensure_invited_email_available address in
    let* open := InvitationRepo.find_pending_by_email address in
    do* for_each open (fun existing =>
          let* _ := InvitationRepo.mark_revoked_if_pending (invitation_pk existing) in ret tt) in
    let* invitation :=
      InvitationRepo.create (new_invitation address token_hash by_user expires_at now) in
    do* enqueue address None (MailUserInvitation address url site_name expires_in) in
    ret invitation) in
  ret (to_admin_info invitation (Some url) true).

(** The listing shows a pending invitation past its expiry as expired. *)
Definition invitation_list_view (now : DateTimeUtc) (i : user_invitation) : user_invitation :=
  if eqb (invitation_status i) InvitePending && (invitation_expires_at i <=? now)
  then mkInvitation (invitation_pk i) (invitation_email i) (invitation_token_hash i)
         InviteExpired (invited_by i) (accepted_user_id i) (invitation_expires_at i)
         (invitation_created_at i) (invitation_updated_at i) (invitation_accepted_at i)
         (invitation_revoked_at i)
  else i.

Fixpoint list_views (l : list user_invitation) : AM (list user_invitation) :=
  match l with
  | [] => ret []
  | i :: l =>
      let* now := (if eqb (invitation_status i) InvitePending then utc_now else ret 0) in
      let* rest := list_views l in
      ret (invitation_list_view now i :: rest)
  end.

Record InvitationPage : Type := mkInvitationPage {
  ip_items : list AdminUserInvitationInfo;
  ip_total : Z;
  ip_limit : Z;
  ip_next : option (DateTimeUtc * Z)
}.

Definition list_invitations (limit : Z) (cursor : option (DateTimeUtc * Z)) : AM InvitationPage :=
  let limit := SessionRepo.clamp limit 1 100 in
  let* page := InvitationRepo.list_cursor_after limit cursor in
  let next :=
    if has_more page
    then (fun i => (invitation_created_at i, invitation_pk i)) <$> last (items page)
    else None in
  let* views := list_views (items page) in
  ret (mkInvitationPage (List.map (fun i => to_admin_info i None false) views) (total page) limit
         next).

Definition revoke_invitation (id : Z) : AM AdminUserInvitationInfo :=
  let* invitation := InvitationRepo.find_by_id id in
  let* invitation := refresh_expired_status invitation in
  do* when_ok (negb (eqb (invitation_status invitation) InvitePending))
        (invitation_status_error (invitation_status invitation)) in
  let* revoked := InvitationRepo.mark_revoked_if_pending (invitation_pk invitation) in
  if negb revoked then current_invitation_status_error (invitation_pk invitation)
  else
    let* invitation := InvitationRepo.find_by_id id in
    ret (to_admin_info invitation None false).

(** The row of a token that is still good; an expired one is marked. *)
Definition usable_invitation (token_hash : string) : AM user_invitation :=
  let* found := InvitationRepo.find_by_token_hash token_hash in
  let* invitation := lift (ok_or invitation_invalid_error found) in
  let* invitation := refresh_expired_status invitation in
  do* lift (ensure_invitation_pending invitation) in
  do* ensure_invitation_not_expired invitation in
  ret invitation.

Definition find_valid_invitation_by_token (token : string) : AM user_invitation :=
  let* token_hash := lift (hash_invitation_token token) in
  usable_invitation token_hash.

Definition verify_public_invitation (token : string) : AM PublicUserInvitationInfo :=
  let* invitation := find_valid_invitation_by_token token in
  ret (mkPublicInvitation (invitation_email invitation) (invitation_expires_at invitation)).

Definition accept_in_txn (token_hash name password : string) : AM user :=
  let* invitation := usable_invitation token_hash in
  do* lift (LocalEmailPolicy.check email_policy (invitation_email invitation)) in
  do* ensure_invited_email_available (invitation_email invitation) in
  let* now := utc_now in
  let* u := create_user_with_role
    (mkCreateUser name (invitation_email invitation) password User UserActive false (Some now)
       false) in
  let* accepted := InvitationRepo.mark_accepted_if_pending (invitation_pk invitation) (user_pk u) in
  if negb accepted then current_invitation_status_error (invitation_pk invitation)
  else ret u.

Definition accept_invitation (token name password : string) : AM user :=
  let* token_hash := lift (hash_invitation_token token) in
  with_transaction (accept_in_txn token_hash name password).
End Service.

Example duration_text :
  format_mail_duration_seconds 604800 = "7 days" /\ format_mail_duration_seconds 3600 = "1 hour" /\
  format_mail_duration_seconds 90 = "2 minutes" /\ format_mail_duration_seconds 0 = "1 second".
Proof. vm_compute. done. Qed.
