(* ===== verification/Tracks.v ===== *)
(** * Programs that keep an invariant, programs that track a relation

    [keeps I P c]: from any world that satisfies [I] the program [c] ends,
    whatever its outcome, in one that satisfies [I], and a result of [c]
    satisfies [P].  Where [Tracks] follows the tables, this judgement follows
    the object storage as well, and the values a handler passes on. *)

From Stdlib Require Import ZArith List Bool Lia.
From stdpp Require Import base decidable list strings gmap relations.
From S2P Require Import Prelude Text Errors Types AuditLog World Logic Repos Tokens Auth.

Local Open Scope Z_scope.

Section Keeps.
Context `{EN : Env} `{CB : CacheBackend}.
Implicit Types (I : World -> Prop).

Definition keeps I {E A} (P : A -> Prop) (c : M E A) : Prop :=
  forall w, I w ->
  wp c (fun r w' => I w' /\ match r with Ok a => P a | _ => True end) w.

Lemma keeps_run I {E A} (P : A -> Prop) (c : M E A) w r w' :
  keeps I P c -> I w -> c w = (r, w') -> I w' /\ match r with Ok a => P a | _ => True end.
Proof. intros H HI. exact (wp_run _ _ _ _ _ (H w HI)). Qed.

Lemma keeps_ret I {E A} (P : A -> Prop) a : P a -> keeps I P (ret a : M E A).
Proof. intros Ha w HI. by apply wp_ret. Qed.

Lemma keeps_throw I {E A} (P : A -> Prop) (e : E) : keeps I P (throw e : M E A).
Proof. intros w HI. by apply wp_throw. Qed.

Lemma keeps_panic I {E A} (P : A -> Prop) m : keeps I P (panic m : M E A).
Proof. intros w HI. by apply wp_panic. Qed.

Lemma keeps_lift I {E A} (P : A -> Prop) (o : outcome E A) :
  (forall a, o = Ok a -> P a) -> keeps I P (lift o).
Proof. intros H w HI. apply wp_lift. split; [done|]. destruct o; auto. Qed.

Lemma keeps_bind I {E A B} (P : A -> Prop) (Q : B -> Prop) (c : M E A) (k : A -> M E B) :
  keeps I P c -> (forall a, P a -> keeps I Q (k a)) -> keeps I Q (bind c k).
Proof.
  intros Hc Hk w HI. apply wp_bind. eapply wp_mono; [by apply Hc|].
  intros [a|e|m] w' [HI' Ha]; cbn; [by apply Hk|done..].
Qed.

Lemma keeps_map_err I {E F A} (f : E -> F) (P : A -> Prop) (c : M E A) :
  keeps I P c -> keeps I P (map_err f c).
Proof.
  intros Hc w HI. apply wp_map_err. eapply wp_mono; [by apply Hc|]. by intros [a|e|m] w' [].
Qed.

Lemma keeps_catch I {E F A} (P : A -> Prop) (c : M E A) :
  keeps I P c ->
  keeps I (fun r => match r with inl a => P a | inr _ => True end) (catch c : M F (A + E)).
Proof.
  intros Hc w HI. apply wp_catch. eapply wp_mono; [by apply Hc|]. by intros [a|e|m] w' [].
Qed.

Lemma keeps_weaken I {E A} (P Q : A -> Prop) (c : M E A) :
  keeps I P c -> (forall a, P a -> Q a) -> keeps I Q c.
Proof.
  intros Hc H w HI. eapply wp_mono; [by apply Hc|]. intros [a|e|m] w' []; auto.
Qed.

Lemma keeps_for_each I {E A} (xs : list A) (body : A -> M E unit) :
  (forall x, In x xs -> keeps I (fun _ => True) (body x)) ->
  keeps I (fun _ => True) (for_each xs body).
Proof.
  induction xs as [|x xs IH]; intros H; cbn; [by apply keeps_ret|].
  eapply keeps_bind; [apply H; by left|]. intros _ _. apply IH. intros y Hy. apply H. by right.
Qed.

(** A statement on the tables. *)
Lemma keeps_db_exec I {A} (P : A -> Prop) (f : Db -> outcome AsterError.t (A * Db)) :
  (forall w, I w -> I (tick w)) ->
  (forall w a d, I w -> f (db w) = Ok (a, d) -> I (set_db d (tick w)) /\ P a) ->
  keeps I P (db_exec f).
Proof.
  intros Ht H w HI. apply wp_db_exec; [by auto|].
  intros _. destruct (f (db w)) as [[a d]|e|m] eqn:E; [by apply H|by auto..].
Qed.

Lemma keeps_db_query I {A} (P : A -> Prop) (f : Db -> A) :
  (forall w, I w -> I (tick w)) -> (forall w, I w -> P (f (db w))) -> keeps I P (db_query f).
Proof.
  intros Ht H. apply keeps_db_exec; [done|]. intros w a d HI [= <- <-]. split; [|auto].
  assert (set_db (db w) (tick w) = tick w) as -> by (by destruct w). auto.
Qed.

(** Reading, where the invariant does not see what a read moves. *)
Lemma keeps_reads I {E A} (c : M E A) :
  (forall w w', same w w' -> I w -> I w') -> Reads c -> keeps I (fun _ => True) c.
Proof.
  intros HS Hc w HI. apply wp_intro. intros r w' Hr. apply reads_run in Hr; [|done].
  split; [by eapply HS|by destruct r].
Qed.

Lemma keeps_cache_write I {E} k v ttl :
  (forall w c, I w -> I (tick (set_cache c w))) ->
  keeps I (fun _ => True) (cache_write k v ttl : M E unit).
Proof. intros H w HI. apply wp_cache_write. split; auto. Qed.

Lemma keeps_cache_update I {E} f :
  (forall w c, I w -> I (tick (set_cache c w))) ->
  keeps I (fun _ => True) (cache_update f : M E unit).
Proof. intros H w HI. apply wp_cache_update. split; auto. Qed.

(** One step of a handler that goes on under another invariant. *)
Lemma keeps_step I {E A B} (P : A -> Prop) (Q : outcome E B -> World -> Prop)
  (c : M E A) (k : A -> M E B) w :
  keeps I P c -> I w ->
  (forall a w', I w' -> P a -> wp (k a) Q w') ->
  (forall e w', I w' -> Q (Err e) w') -> (forall m w', I w' -> Q (Panic m) w') ->
  wp (bind c k) Q w.
Proof.
  intros Hc HI Hok He Hp. apply wp_bind. eapply wp_mono; [by apply Hc|].
  intros [a|e|m] w' [HI' Ha]; cbn; auto.
Qed.
End Keeps.

Create HintDb keeps.

(** Walk through a handler: [keeps_head] finds what a first step gives,
    [solve_keeps] follows the rest. *)
Ltac keeps_head :=
  lazymatch goal with
  | |- keeps _ _ (catch _) => eapply keeps_catch; keeps_head
  | |- keeps _ _ (map_err _ _) => eapply keeps_map_err; keeps_head
  | |- keeps _ _ (ret _) => refine (keeps_ret _ (fun _ => True) _ _); exact I
  | |- keeps _ _ (throw _) => refine (keeps_throw _ (fun _ => True) _)
  | |- keeps _ _ (for_each _ _) => apply keeps_for_each; intros ? ?; solve_keeps
  | |- keeps _ _ (match _ with _ => _ end) =>
      refine (_ : keeps _ (fun _ => True) _); solve_keeps
  | |- keeps _ _ (bind _ _) => refine (_ : keeps _ (fun _ => True) _); solve_keeps
  | |- _ => solve [eauto 3 with keeps]
  end
with solve_keeps :=
  cbv beta;
  lazymatch goal with
  | |- keeps _ _ (bind _ _) =>
      eapply keeps_bind; [keeps_head|intros ? ?; cbv beta iota in *; solve_keeps]
  | |- keeps _ _ (ret _) => apply keeps_ret; eauto
  | |- keeps _ _ (throw _) => apply keeps_throw
  | |- keeps _ _ (panic _) => apply keeps_panic
  | |- keeps _ _ (let _ := _ in _) => cbv zeta; solve_keeps
  | |- keeps _ _ (match ?x with _ => _ end) => destruct x eqn:?; cbv beta iota in *; solve_keeps
  | |- _ => eapply keeps_weaken; [keeps_head|by eauto]
  end.

(** ** Programs that track a relation

    [Tracks R c]: whatever its outcome, the program [c] takes the tables
    along the preorder [R].  The class is closed under sequencing, error
    handling and transactions, so that a handler tracks a relation as soon
    as its writes do. *)

Class Tracks `{CB : CacheBackend} (R : relation Db) {E A} (c : M E A) : Prop :=
  tracks : forall w, R (db w) (db (snd (c w))).

Section Tracks.
Context `{EN : Env} `{CB : CacheBackend} `{TM : !TxnManager} `{TL : !TxnLaws TM}.
Context {R : relation Db} `{HR : !PreOrder R}.

Lemma tracks_run {E A} (c : M E A) `{Hc : !Tracks R c} w r w' : c w = (r, w') -> R (db w) (db w').
Proof. intros H. specialize (Hc w). by rewrite H in Hc. Qed.

#[global] Instance tracks_reads {E A} (c : M E A) : Reads c -> Tracks R c | 10.
Proof. intros H w. destruct (H w) as (E' & _). rewrite E'. done. Qed.

#[global] Instance tracks_bind {E A B} (c : M E A) (k : A -> M E B) :
  Tracks R c -> (forall a, Tracks R (k a)) -> Tracks R (bind c k).
Proof.
  intros Hc Hk w. unfold bind. specialize (Hc w). destruct (c w) as [[a|e|m] w']; cbn in *; try done.
  etrans; [done|apply Hk].
Qed.

(** Sequencing at one world, where the first program is known to have run. *)
Lemma tracks_step {E A B} (c : M E A) (k : A -> M E B) w :
  R (db w) (db (snd (c w))) ->
  (forall a w1, c w = (Ok a, w1) -> R (db w1) (db (snd (k a w1)))) ->
  R (db w) (db (snd (bind c k w))).
Proof.
  intros Hc Hk. unfold bind. destruct (c w) as [[a|e|m] w1]; cbn in *; try done.
  etrans; [done|by apply Hk].
Qed.

#[global] Instance tracks_map_err {E F A} (f : E -> F) (c : M E A) :
  Tracks R c -> Tracks R (map_err f c).
Proof. intros Hc w. unfold map_err. specialize (Hc w). by destruct (c w) as [[a|e|m] w']. Qed.

#[global] Instance tracks_catch {E F A} (c : M E A) :
  Tracks R c -> Tracks R (catch c : M F (A + E)).
Proof. intros Hc w. unfold catch. specialize (Hc w). by destruct (c w) as [[a|e|m] w']. Qed.

#[global] Instance tracks_for_each {E A} (xs : list A) (body : A -> M E unit) :
  (forall x, Tracks R (body x)) -> Tracks R (for_each xs body).
Proof.
  intros Hb. induction xs as [|x xs IH]; cbn; [intros w; done|]. by apply tracks_bind.
Qed.

#[global] Instance tracks_with_transaction {A} (body : M AsterError.t A) :
  Tracks R body -> Tracks R (with_transaction body).
Proof.
  intros Hb w. destruct (with_transaction body w) as [r w'] eqn:Hr. cbn.
  apply with_transaction_spec in Hr.
  destruct Hr as [e w' Hs|a w0 w1 w' Hs Hrun Hw|a e w0 w1 w' Hs Hrun Hw
                 |e w0 w1 w' Hs Hrun Hw|m w0 w1 w' Hs Hrun Hw].
  - by rewrite (same_db _ _ Hs).
  - apply tracks_run in Hrun; [|done]. by rewrite (same_db _ _ Hw), <- (same_db _ _ Hs).
  - by destruct Hw as (-> & _).
  - by destruct Hw as (-> & _).
  - by destruct Hw as (-> & _).
Qed.

#[global] Instance tracks_log `{RC : RuntimeConfig} {E} ctx action ty id name :
  Tracks R (AuditService.log_with_details ctx action ty id name : M E unit).
Proof. intros w. unfold AuditService.log_with_details. by destruct (should_record _ _). Qed.

(** A statement tracks what its effect on the tables does. *)
Lemma tracks_db_exec {A} (f : Db -> outcome AsterError.t (A * Db)) :
  (forall d a d', f d = Ok (a, d') -> R d d') -> Tracks R (db_exec f).
Proof.
  intros H w. unfold db_exec. destruct (db_fault _); [done|].
  destruct (f (db w)) as [[a d]|e|m] eqn:E; [|done..]. by apply H in E.
Qed.

Lemma tracks_update_many {A} get set (p : A -> bool) f :
  (forall d, R d (set (with_rows (update_where p f (rows (get d))) (get d)) d)) ->
  Tracks R (db_update_many get set p f).
Proof. intros H. apply tracks_db_exec. intros d a d' [= _ <-]. apply H. Qed.

Lemma tracks_insert {A} get set conflict (mk : Z -> A) :
  (forall d, existsb (conflict (mk (next_pk (get d)))) (rows (get d)) = false ->
     R d (set (mkTable (rows (get d) ++ [mk (next_pk (get d))]) (next_pk (get d) + 1)) d)) ->
  Tracks R (db_insert get set conflict mk).
Proof.
  intros H. apply tracks_db_exec. intros d a d'. unfold insert_row.
  destruct (existsb _ _) eqn:E; [done|]. intros [= _ <-]. by apply H.
Qed.
End Tracks.

(** Walk through a handler, and look up its blocks. *)
Ltac solve_tracks :=
  repeat lazymatch goal with
  | |- Tracks _ (bind _ _) => apply tracks_bind; [|intros ?]
  | |- Tracks _ (if ?b then _ else _) => destruct b
  | |- Tracks _ (match ?x with _ => _ end) => destruct x
  | |- Tracks _ (let _ := _ in _) => cbv zeta
  | |- Tracks _ (with_transaction _) => apply tracks_with_transaction
  | |- Tracks _ (for_each _ _) => apply tracks_for_each; intros ?
  | |- Tracks _ (map_err _ _) => apply tracks_map_err
  | |- Tracks _ (catch _) => apply tracks_catch
  end; try apply _.
