(* ===== verification/InvitationProofs.v ===== *)
(** * User invitations: the life of an invitation

    The table is a set of rows that start pending and end once, as accepted,
    expired or revoked; at most one invitation per address is pending. *)

From Stdlib Require Import ZArith List Bool Lia.
From stdpp Require Import base decidable list strings relations pretty.
From S2P Require Import Prelude Text Errors Types AuditLog World Logic Repos Tokens Auth Concrete AuthConfig Accounts WebSessions AccountFlows AccountSpec AccountOps AccountProofs AccountConcrete AccountSignIn AccountRegistration Invitations Tracks.

Local Open Scope Z_scope.
Import InvitationRepo.

(** ** The abstract machine *)

Definition final (s : UserInvitationStatus) : Prop := s <> InvitePending.

(** One change of the table. *)
Inductive invitation_event : relation (Table user_invitation) :=
| ev_invited mk t :
    let i := mk (next_pk t) in
    invitation_pk i = next_pk t -> invitation_status i = InvitePending ->
    accepted_user_id i = None -> invitation_accepted_at i = None ->
    invitation_revoked_at i = None ->
    existsb (invitation_conflict i) (rows t) = false ->
    (forall j, In j (rows t) -> pending j = true -> invitation_email j <> invitation_email i) ->
    invitation_event t (mkTable (rows t ++ [i]) (next_pk t + 1))
| ev_ended hit f t :
    (forall i, hit i = true -> pending i = true) ->
    (exists now, f = set_revoked now \/ f = set_expired now \/ exists u, f = set_accepted u now) ->
    invitation_event t (with_rows (update_where hit f (rows t)) t).

Definition invite_moves (d d' : Db) : Prop := rtc invitation_event (table d) (table d').

#[global] Instance invite_moves_preorder : PreOrder invite_moves.
Proof. split; [intros d; apply rtc_refl|intros d1 d2 d3 H1 H2; unfold invite_moves in *; by etrans]. Qed.

(** The columns agree with the status.  An accepted row names the account it
    made, as long as that exists ([linked]). *)
Definition row_wf (i : user_invitation) : Prop :=
  (is_some (accepted_user_id i) = true -> invitation_status i = InviteAccepted) /\
  is_some (invitation_accepted_at i) = eqb (invitation_status i) InviteAccepted /\
  is_some (invitation_revoked_at i) = eqb (invitation_status i) InviteRevoked.

Record invitations_wf (t : Table user_invitation) : Prop := {
  iw_pk : List.NoDup (List.map invitation_pk (rows t));
  iw_fresh : forall i, In i (rows t) -> invitation_pk i < next_pk t;
  iw_hash : List.NoDup (List.map invitation_token_hash (rows t));
  iw_pending : forall i j, In i (rows t) -> In j (rows t) -> pending i = true -> pending j = true ->
    invitation_email i = invitation_email j -> i = j;
  iw_row : forall i, In i (rows t) -> row_wf i
}.

Lemma pending_iff i : pending i = true <-> invitation_status i = InvitePending.
Proof. unfold pending. apply eqb_true. Qed.

Lemma ended_keys f now :
  f = set_revoked now \/ f = set_expired now \/ (exists u, f = set_accepted u now) ->
  (forall i, invitation_pk (f i) = invitation_pk i) /\
  (forall i, invitation_token_hash (f i) = invitation_token_hash i) /\
  (forall i, invitation_email (f i) = invitation_email i) /\
  (forall i, pending (f i) = false) /\
  (forall i, row_wf i -> pending i = true -> row_wf (f i)).
Proof.
  assert (H : forall i, row_wf i -> pending i = true ->
    accepted_user_id i = None /\ invitation_accepted_at i = None /\ invitation_revoked_at i = None).
  { intros i (H1 & H2 & H3) Hp%pending_iff. rewrite Hp in H1, H2, H3.
    by destruct (accepted_user_id i), (invitation_accepted_at i), (invitation_revoked_at i);
      try (specialize (H1 eq_refl)). }
  intros [->|[->|[u ->]]]; split_and!; try done;
    intros i Hw Hp; destruct (H i Hw Hp) as (E1 & E2 & E3); unfold row_wf; cbn;
    by rewrite ?E1, ?E2, ?E3.
Qed.

Lemma invitation_event_wf t t' : invitation_event t t' -> invitations_wf t -> invitations_wf t'.
Proof.
  intros [mk t0 i Hpk Hst Hu Ha Hr Hc Hm|hit f t0 Hhit [now Hf]] [Wpk Wf Wh Wp Wr].
  - assert (Hcf : forall j, In j (rows t0) -> invitation_token_hash i <> invitation_token_hash j).
    { intros j Hj. apply existsb_false with (x := j) in Hc; [|done].
      unfold invitation_conflict in Hc. by rewrite eqb_false in Hc. }
    split; cbn.
    + rewrite List.map_app. apply NoDup_app_singleton; [done|].
      intros (j & Hj & Hin)%in_map_iff. apply Wf in Hin. lia.
    + intros j [Hj|[<-|[]]]%in_app_iff; [apply Wf in Hj|]; lia.
    + rewrite List.map_app. apply NoDup_app_singleton; [done|].
      intros (j & Hj & Hin)%in_map_iff. by apply (Hcf j Hin).
    + intros a b [Ha'|[<-|[]]]%in_app_iff [Hb|[<-|[]]]%in_app_iff Pa Pb E; [by apply Wp|..|done].
      * by apply Hm in Ha'.
      * exfalso. by apply (Hm b Hb Pb).
    + intros j [Hj|[<-|[]]]%in_app_iff; [by apply Wr|].
      unfold row_wf. by rewrite Hst, Hu, Ha, Hr.
  - destruct (ended_keys f now Hf) as (Fpk & Fh & Fe & Fp & Fw). split; cbn.
    + by rewrite update_where_map.
    + intros j (k & Hk & ->)%in_update_where. destruct (hit k); rewrite ?Fpk; by apply Wf.
    + by rewrite update_where_map.
    + intros a b (a0 & Ha & ->)%in_update_where (b0 & Hb & ->)%in_update_where.
      destruct (hit a0); [by rewrite Fp|]. destruct (hit b0); [by rewrite Fp|]. by apply Wp.
    + intros j (k & Hk & ->)%in_update_where. destruct (hit k) eqn:E; [|by apply Wr].
      apply Fw; [by apply Wr|by apply Hhit].
Qed.

Definition linked (t : Table user_invitation) : Prop :=
  forall i, In i (rows t) -> invitation_status i = InviteAccepted ->
    is_some (accepted_user_id i) = true.

Lemma invitation_event_linked t t' : invitation_event t t' -> linked t -> linked t'.
Proof.
  intros [mk t0 i Hpk Hst|hit f t0 Hhit [now Hf]] Hl j; cbn.
  - intros [Hj|[<-|[]]]%in_app_iff; [by apply Hl|]. by rewrite Hst.
  - intros (k & Hk & ->)%in_update_where. destruct (hit k); [|by apply Hl].
    by destruct Hf as [->|[->|[u ->]]].
Qed.

Lemma invite_moves_linked t t' : rtc invitation_event t t' -> linked t -> linked t'.
Proof. induction 1; [done|]. intros Hl. by eapply IHrtc, invitation_event_linked. Qed.

(** What may become of a row: nothing, or its one end. *)
Definition row_next (i j : user_invitation) : Prop :=
  invitation_pk j = invitation_pk i /\ invitation_email j = invitation_email i /\
  invitation_token_hash j = invitation_token_hash i /\ invited_by j = invited_by i /\
  invitation_expires_at j = invitation_expires_at i /\
  (j = i \/ invitation_status i = InvitePending /\ final (invitation_status j)).

Lemma row_next_trans i j k : row_next i j -> row_next j k -> row_next i k.
Proof.
  intros (A1 & A2 & A3 & A4 & A5 & A6) (B1 & B2 & B3 & B4 & B5 & B6).
  split_and!; try congruence. destruct A6 as [->|[Hp Hf]]; [done|].
  right. split; [done|]. destruct B6 as [->|[Hq _]]; [done|]. by rewrite Hq in Hf.
Qed.

Lemma invitation_event_next t t' i :
  invitation_event t t' -> In i (rows t) -> exists j, In j (rows t') /\ row_next i j.
Proof.
  intros [mk t0 k|hit f t0 Hhit [now Hf]] Hi.
  - exists i. split; [apply in_or_app; by left|]. split_and!; auto.
  - exists (if hit i then f i else i). split.
    + apply in_update_where. by exists i.
    + destruct (hit i) eqn:E; [|split_and!; auto]. apply Hhit, pending_iff in E.
      destruct Hf as [->|[->|[u ->]]]; split_and!; cbn; try done; right; by split.
Qed.

Lemma invite_moves_next t t' i :
  rtc invitation_event t t' -> In i (rows t) -> exists j, In j (rows t') /\ row_next i j.
Proof.
  intros H. revert i. induction H as [t|t1 t2 t3 He _ IH]; intros i Hi.
  - exists i. split; [done|]. split_and!; auto.
  - destruct (invitation_event_next _ _ _ He Hi) as (j & Hj & Hij).
    destruct (IH j Hj) as (k & Hk & Hjk). exists k. split; [done|]. by eapply row_next_trans.
Qed.

Lemma invite_moves_wf t t' : rtc invitation_event t t' -> invitations_wf t -> invitations_wf t'.
Proof. induction 1; [done|]. intros Hw. by eapply IHrtc, invitation_event_wf. Qed.

(** ** The handlers move along it *)

Section Handlers.
Context `{EN : Env} `{CB : CacheBackend} `{TM : !TxnManager} `{TL : !TxnLaws TM}.
Context `{FC : ForgeCrypto} `{FN : ForgeNumbers} `{AE : !AccountExterns}.
Context `{AL : !AccountExternLaws AE} `{CS : ChronoSeconds} `{CF : ForgeConfig}.
Context `{ST : ConfigStore} `{FE : ForgeEmail} `{FA : ForgeApi}.

Abbreviation Invites := (Tracks invite_moves).

Lemma invite_moves_same d d' : table d' = table d -> invite_moves d d'.
Proof. unfold invite_moves. intros ->. apply rtc_refl. Qed.

#[local] Instance invites_users_insert mk : Invites (Users.insert mk).
Proof. apply tracks_insert. intros d _. by apply invite_moves_same. Qed.
#[local] Instance invites_enqueue address name payload : Invites (enqueue address name payload).
Proof.
  unfold enqueue. apply tracks_bind; [apply _|]. intros now. apply tracks_db_exec.
  intros d a d' [= _ <-]. by apply invite_moves_same.
Qed.
#[local] Instance invites_create_user input : Invites (create_user_with_role input).
Proof. unfold create_user_with_role. solve_tracks. Qed.

Lemma invites_end (hit : user_invitation -> bool) f :
  (forall i, hit i = true -> pending i = true) ->
  (exists now, f = set_revoked now \/ f = set_expired now \/ exists u, f = set_accepted u now) ->
  Invites (db_update_many table set_invitations hit f).
Proof. intros Hh Hf. apply tracks_update_many. intros d. by apply rtc_once, ev_ended. Qed.

#[local] Instance invites_revoke id : Invites (mark_revoked_if_pending id).
Proof.
  unfold mark_revoked_if_pending. apply tracks_bind; [apply _|]. intros now.
  apply tracks_bind; [|intros; apply _]. apply invites_end; [|eauto].
  by intros i [_ Hp]%andb_true_iff.
Qed.
#[local] Instance invites_expire id : Invites (mark_expired_if_pending id).
Proof.
  unfold mark_expired_if_pending. apply tracks_bind; [apply _|]. intros now.
  apply tracks_bind; [|intros; apply _]. apply invites_end; [|eauto].
  by intros i [_ Hp]%andb_true_iff.
Qed.
#[local] Instance invites_accept id u : Invites (mark_accepted_if_pending id u).
Proof.
  unfold mark_accepted_if_pending. apply tracks_bind; [apply _|]. intros now.
  apply tracks_bind; [|intros; apply _]. apply invites_end; [|eauto].
  by intros i [[_ Hp]%andb_true_iff _]%andb_true_iff.
Qed.

#[global] Typeclasses Opaque mark_revoked_if_pending mark_expired_if_pending
  mark_accepted_if_pending.

#[local] Instance invites_refresh_status i : Invites (refresh_expired_status i).
Proof. unfold refresh_expired_status, InvitationRepo.find_by_id. solve_tracks. Qed.
#[local] Instance invites_not_expired i : Invites (ensure_invitation_not_expired i).
Proof.
  unfold ensure_invitation_not_expired, current_invitation_status_error,
    InvitationRepo.find_by_id. solve_tracks.
Qed.
#[local] Instance invites_usable h : Invites (usable_invitation h).
Proof. unfold usable_invitation, InvitationRepo.find_by_token_hash. solve_tracks. Qed.
#[local] Instance invites_verify token : Invites (verify_public_invitation token).
Proof. unfold verify_public_invitation, find_valid_invitation_by_token. solve_tracks. Qed.
#[local] Instance invites_accept_in_txn h name password : Invites (accept_in_txn h name password).
Proof.
  unfold accept_in_txn, ensure_invited_email_available, current_invitation_status_error,
    InvitationRepo.find_by_id. solve_tracks.
Qed.
#[local] Instance invites_accept_invitation token name password :
  Invites (accept_invitation token name password).
Proof. unfold accept_invitation. solve_tracks. Qed.
#[local] Instance invites_revoke_invitation id : Invites (revoke_invitation id).
Proof.
  unfold revoke_invitation, current_invitation_status_error, InvitationRepo.find_by_id.
  solve_tracks.
Qed.

(** ** Inviting *)

Lemma mark_revoked_rows id w b w' :
  mark_revoked_if_pending id w = (Ok b, w') ->
  exists now, db w' = set_invitations (with_rows
    (update_where (fun i => (invitation_pk i =? id) && pending i) (set_revoked now)
       (rows (table (db w)))) (table (db w))) (db w).
Proof.
  unfold mark_revoked_if_pending, bind, utc_now, db_update_many, db_exec. cbn.
  destruct (db_fault _); [done|]. intros [= _ <-]. by eexists.
Qed.

(** The loop leaves no pending row among those it was given. *)
Lemma revoke_loop_ok l : forall w u w',
  for_each l (fun existing =>
    (let* _ := mark_revoked_if_pending (invitation_pk existing) in ret tt)%aster) w = (Ok u, w') ->
  forall j, In j (rows (table (db w'))) -> pending j = true ->
    In j (rows (table (db w))) /\ forall x, In x l -> invitation_pk x <> invitation_pk j.
Proof.
  induction l as [|x l IH]; intros w u w' H j Hj Hp; cbn in H.
  - injection H as <- <-. by split.
  - apply bind_ok in H as (? & w1 & Hx & H). apply bind_ok in Hx as (b & w2 & Hm & Hx).
    injection Hx as _ <-. apply mark_revoked_rows in Hm as [now Hm].
    destruct (IH _ _ _ H j Hj Hp) as [Hin Hl]. rewrite Hm in Hin. cbn in Hin.
    apply in_update_where in Hin as (k & Hk & Hjk).
    destruct (_ && _) eqn:E; [by subst|]. subst k. split; [done|].
    intros y [<-|Hy]; [|by apply Hl]. rewrite Hp, andb_true_r in E. lia.
Qed.

Lemma pending_revoked address l w w1 w2 u :
  find_pending_by_email address w = (Ok l, w1) ->
  for_each l (fun existing =>
    (let* _ := mark_revoked_if_pending (invitation_pk existing) in ret tt)%aster) w1 = (Ok u, w2) ->
  forall j, In j (rows (table (db w2))) -> pending j = true -> invitation_email j <> address.
Proof.
  intros Hf Hl j Hj Hp E. apply db_query_ok in Hf as (-> & -> & _).
  destruct (revoke_loop_ok _ _ _ _ Hl j Hj Hp) as [Hin Hn]. apply (Hn j); [|done].
  apply in_sort_by, in_rows_where. split; [done|].
  apply andb_true_iff. split; [by apply eqb_true|done].
Qed.

(** Inserting an invitation to an address nobody has a pending one for. *)
Lemma create_moves address h by_user expires now w :
  (forall j, In j (rows (table (db w))) -> pending j = true -> invitation_email j <> address) ->
  invite_moves (db w)
    (db (snd (InvitationRepo.create (new_invitation address h by_user expires now) w))).
Proof.
  intros Hp. unfold InvitationRepo.create, db_exec, insert_row.
  destruct (db_fault _); [done|]. destruct (negb _); [done|].
  destruct (existsb _ (rows (table _))) eqn:Hc; [done|]. cbn. by apply rtc_once, ev_invited.
Qed.

#[local] Instance invites_create_invitation address by_user :
  Invites (create_invitation address by_user).
Proof.
  unfold create_invitation.
  repeat (apply tracks_bind; [apply _|intros ?]; cbv zeta).
  apply tracks_bind; [|intros; apply _]. apply tracks_with_transaction.
  apply tracks_bind; [unfold ensure_invited_email_available; apply _|intros _].
  intros w. apply tracks_step.
  { unfold find_pending_by_email. apply (tracks_reads _ _). }
  intros l w1 Hf. apply tracks_step.
  { match goal with |- invite_moves (db w1) (db (snd (?c w1))) =>
      assert (Hc : Invites c) by solve_tracks; apply Hc end. }
  intros u w2 Hl. apply tracks_step.
  - apply create_moves. by eapply pending_revoked.
  - intros i w3 _. match goal with |- invite_moves (db w3) (db (snd (?c w3))) =>
      assert (Hc : Invites c) by solve_tracks; apply Hc end.
Qed.
(** ** Histories *)

Inductive invitation_op : relation World :=
| op_invite address by_user w r w' :
    create_invitation address by_user w = (r, w') -> invitation_op w w'
| op_revoke id w r w' : revoke_invitation id w = (r, w') -> invitation_op w w'
| op_verify token w r w' : verify_public_invitation token w = (r, w') -> invitation_op w w'
| op_accept token name password w r w' :
    accept_invitation token name password w = (r, w') -> invitation_op w w'
| op_other w w' : table (db w') = table (db w) -> invitation_op w w'.

Definition invitation_history : relation World := rtc invitation_op.

Lemma invitation_op_moves w w' : invitation_op w w' -> invite_moves (db w) (db w').
Proof.
  destruct 1; [by eapply tracks_run; [|eassumption]; apply _..|by apply invite_moves_same].
Qed.

Lemma invitation_history_moves w w' : invitation_history w w' -> invite_moves (db w) (db w').
Proof.
  induction 1; [done|]. etrans; [by apply invitation_op_moves|done].
Qed.

(** ** Accepting *)

Lemma count_pending t i :
  invitations_wf t -> In i (rows t) -> pending i = true ->
  count_where (fun j => (invitation_pk j =? invitation_pk i) && pending j) (rows t) = 1%nat.
Proof.
  intros [Wpk _ _ _ _] Hin Hp. unfold count_where.
  rewrite (rows_where_ext _ (fun j => invitation_pk j =? invitation_pk i)).
  2:{ intros j Hj. destruct (Z.eqb_spec (invitation_pk j) (invitation_pk i)) as [E|]; [|done].
      assert (j = i) as -> by (by eapply (NoDup_map_inj_in invitation_pk)). by rewrite Hp. }
  clear Hp. induction (rows t) as [|j l IH]; [done|]. cbn in Wpk.
  apply List.NoDup_cons_iff in Wpk as [Hj Hd]. unfold rows_where in *. cbn.
  destruct Hin as [->|Hin].
  - rewrite Z.eqb_refl. cbn. f_equal.
    match goal with |- length (List.filter ?p l) = _ => change (length (rows_where p l) = 0%nat) end.
    rewrite rows_where_none; [done|]. intros k Hk.
    destruct (Z.eqb_spec (invitation_pk k) (invitation_pk i)) as [E|]; [|done].
    exfalso. apply Hj. apply in_map_iff. by exists k.
  - destruct (Z.eqb_spec (invitation_pk j) (invitation_pk i)) as [E|]; [|by apply IH].
    exfalso. apply Hj. rewrite E. apply in_map_iff. by exists i.
Qed.

(** The pending, unexpired row a token stands for. *)
Record live_invitation (h : string) (w : World) (i : user_invitation) : Prop := {
  li_row : In i (rows (table (db w)));
  li_hash : invitation_token_hash i = h;
  li_pending : invitation_status i = InvitePending;
  li_unexpired : exists n, (step w <= n)%nat /\ clock n < invitation_expires_at i
}.

Lemma mark_expired_count id w b w' :
  mark_expired_if_pending id w = (Ok b, w') ->
  b = (Z.of_nat (count_where (fun i => (invitation_pk i =? id) && pending i)
                   (rows (table (db w)))) =? 1).
Proof.
  unfold mark_expired_if_pending, bind, utc_now, db_update_many, db_exec. cbn.
  destruct (db_fault _); [done|]. by intros [= <- _].
Qed.

(** A row that stays usable was read without a write. *)
Lemma refresh_status_pending i w j w' :
  invitations_wf (table (db w)) -> In i (rows (table (db w))) ->
  refresh_expired_status i w = (Ok j, w') -> invitation_status j = InvitePending ->
  j = i /\ same w w'.
Proof.
  intros Hwf Hin H Hj. unfold refresh_expired_status in H.
  destruct (eqb (invitation_status i) InvitePending) eqn:Ep.
  2:{ injection H as <- <-. by apply eqb_false in Ep. }
  apply bind_ok in H as (now & w1 & Hn & H). injection Hn as <- <-.
  destruct (invitation_expires_at i <=? _).
  2:{ injection H as <- <-. split; [done|apply same_tick]. }
  apply bind_ok in H as (b & w2 & Hm & H). apply mark_expired_count in Hm as ->.
  cbn [db tick] in H. rewrite count_pending in H by done. cbn in H.
  apply bind_ok in H as (now & w3 & Hn & H). injection H as <- _. done.
Qed.

Lemma ensure_not_expired_ok i w u w' :
  ensure_invitation_not_expired i w = (Ok u, w') ->
  clock (step w) < invitation_expires_at i /\ w' = tick w.
Proof.
  unfold ensure_invitation_not_expired. intros H. apply bind_ok in H as (now & w1 & Hn & H).
  injection Hn as <- <-. destruct (Z.ltb_spec (clock (step w)) (invitation_expires_at i)).
  - injection H as _ <-. done.
  - apply bind_ok in H as (b & w2 & _ & H). destruct (negb b); [|done].
    unfold current_invitation_status_error in H. by apply bind_ok in H as (? & ? & _ & H).
Qed.

Lemma usable_invitation_ok h w i w' :
  invitations_wf (table (db w)) -> usable_invitation h w = (Ok i, w') ->
  live_invitation h w i /\ same w w'.
Proof.
  intros Hwf H. unfold usable_invitation in H. apply bind_ok in H as (o & w1 & Hf & H).
  apply db_query_ok in Hf as (-> & -> & _).
  apply bind_ok in H as (k & w2 & Ho & H). apply lift_ok in Ho as [Ho%ok_or_ok ->].
  apply find_row_some in Ho as [Hin Hh]. rewrite eqb_true in Hh.
  apply bind_ok in H as (j & w2 & Hr & H).
  apply bind_ok in H as (? & w3 & Hp & H). apply lift_ok in Hp as [Hp ->].
  assert (Ej : invitation_status j = InvitePending).
  { unfold ensure_invitation_pending in Hp. by destruct (invitation_status j). }
  apply refresh_status_pending in Hr as [-> H2]; [|done..].
  apply bind_ok in H as (? & w3 & He & H). apply ensure_not_expired_ok in He as [He ->].
  injection H as <- <-. split; [split|]; try done.
  - exists (step w2). split; [apply same_step in H2; cbn in H2; lia|done].
  - eapply same_trans; [apply same_tick|]. eapply same_trans; [exact H2|apply same_tick].
Qed.

Lemma accept_invitation_ok token name password w u w' :
  invitations_wf (table (db w)) -> accept_invitation token name password w = (Ok u, w') ->
  exists i now,
    live_invitation (sha256_hex (trim token)) w i /\ now < invitation_expires_at i /\
    LocalEmailPolicy.check email_policy (invitation_email i) = Ok tt /\
    new_account name (invitation_email i) password User u /\
    is_some (email_verified_at u) = true /\ name_free name (db w) /\
    (forall e, email u = Some e -> address_free e (rows (users (db w)))) /\
    user_pk u = next_pk (users (db w)) /\
    rows (users (db w')) = rows (users (db w)) ++ [u] /\
    rows (table (db w')) =
      update_where (fun j => (invitation_pk j =? invitation_pk i) && pending j
                             && (now <? invitation_expires_at j))
        (set_accepted (user_pk u) now) (rows (table (db w))).
Proof.
  intros Hwf H. unfold accept_invitation in H. apply bind_ok in H as (h & w0 & Hh & H).
  apply lift_ok in Hh as [Hh ->]. unfold hash_invitation_token in Hh.
  destruct (is_empty (trim token)); [done|]. injection Hh as <-.
  apply with_transaction_ok in H as (w1 & w2 & H1 & H & H2).
  unfold accept_in_txn in H. apply bind_ok in H as (i & w3 & Hu & H).
  rewrite <- (same_db _ _ H1) in Hwf. apply usable_invitation_ok in Hu as [[Hi Hh Hp Hx] H3]; [|done].
  apply bind_ok in H as ([] & w4 & Hc & H). apply lift_ok in Hc as [Hc ->].
  apply bind_ok in H as (? & w4 & He & H).
  assert (H4 : same w3 w4).
  { eapply reads_run; [|exact He]. unfold ensure_invited_email_available. apply _. }
  apply bind_ok in H as (now & w5 & Hn & H). injection Hn as <- <-.
  apply bind_ok in H as (v & w6 & Hcu & H).
  apply create_user_with_role_ok in Hcu as (Hna & Hv & Hnf & Haf & Hpk & _ & Hdb); [|done..].
  apply bind_ok in H as (b & w7 & Ha & H). destruct b; cbn in H.
  2:{ unfold current_invitation_status_error in H. by apply bind_ok in H as (? & ? & _ & H). }
  injection H as -> <-.
  unfold mark_accepted_if_pending, bind, utc_now, db_update_many, db_exec in Ha. cbn in Ha.
  destruct (db_fault _); [done|]. injection Ha as Hcnt <-.
  assert (E4 : db w4 = db w).
  { by rewrite (same_db _ _ H4), (same_db _ _ H3), (same_db _ _ H1). }
  cbn [db tick] in Hdb, Hpk, Hnf, Haf. rewrite E4 in Hdb, Hpk, Hnf, Haf.
  exists i, (clock (step w6)). rewrite (same_db _ _ H2). cbn. rewrite Hdb in Hcnt |- *. cbn in Hcnt |- *.
  apply Z.eqb_eq in Hcnt. cbn in Hna, Hv.
  split_and!; try done.
  - rewrite (same_db _ _ H1) in Hi. destruct Hx as (n & Hn & Hx). split; try done.
    exists n. split; [apply same_step in H1; lia|done].
  - match type of Hcnt with Z.of_nat (count_where ?p ?l) = _ =>
      destruct (count_where_pos p l) as (j & Hj & Hjx); [lia|] end.
    apply andb_true_iff in Hjx as [[Hjpk _]%andb_true_iff Hjx].
    assert (j = i) as ->; [|lia]. rewrite (same_db _ _ H1) in Hwf, Hi.
    eapply (NoDup_map_inj_in invitation_pk); [apply Hwf|done|done|lia].
  - by rewrite Hv.
Qed.
#[local] Instance aon_accept token name password :
  AllOrNothing (accept_invitation token name password).
Proof.
  unfold accept_invitation. apply aon_bind_reads; [apply _|]. intros h. apply aon_with_transaction.
Qed.

(** Accepting an invitation is all or nothing.  If it fails no table has
    changed.  If it succeeds, the token is that of a pending, unexpired
    invitation whose address passes the local policy and is nobody's; one
    account is added, for that address, verified, with the chosen name and
    password, never as administrator; and that invitation alone is marked
    accepted by it. *)
Theorem invitation_acceptance_atomic token name password w r w' :
  invitations_wf (table (db w)) -> accept_invitation token name password w = (r, w') ->
  match r with
  | Ok u =>
      exists i now,
        live_invitation (sha256_hex (trim token)) w i /\
        LocalEmailPolicy.check email_policy (invitation_email i) = Ok tt /\
        new_account name (invitation_email i) password User u /\
        is_some (email_verified_at u) = true /\ name_free name (db w) /\
        (forall e, email u = Some e -> address_free e (rows (users (db w)))) /\
        rows (users (db w')) = rows (users (db w)) ++ [u] /\
        (forall j, In j (rows (table (db w'))) <->
           (In j (rows (table (db w))) /\ j <> i) \/ j = set_accepted (user_pk u) now i)
  | _ => db w' = db w
  end.
Proof.
  intros Hwf H. destruct r as [u|e|m]; [|by eapply all_or_nothing..].
  apply accept_invitation_ok in H
    as (i & now & Hl & Hx & ? & ? & ? & ? & ? & ? & ? & Hrows); [|done].
  exists i, now. split_and!; try done. rewrite Hrows. destruct Hl as [Hi _ Hp _].
  apply pending_iff in Hp.
  assert (Hone : forall k, In k (rows (table (db w))) -> invitation_pk k = invitation_pk i -> k = i).
  { intros k Hk E. eapply (NoDup_map_inj_in invitation_pk); [apply Hwf|done..]. }
  intros j. rewrite in_update_where. split.
  - intros (k & Hk & ->). destruct (Z.eqb_spec (invitation_pk k) (invitation_pk i)) as [E|E]; cbn.
    + rewrite (Hone k Hk E), Hp, (proj2 (Z.ltb_lt _ _) Hx). by right.
    + left. split; [done|congruence].
  - intros [[Hj Hne]| ->].
    + exists j. split; [done|]. destruct (Z.eqb_spec (invitation_pk j) (invitation_pk i)) as [E|E];
        [|done]. by apply Hone in E.
    + exists i. by rewrite Z.eqb_refl, Hp, (proj2 (Z.ltb_lt _ _) Hx).
Qed.

(** An invitation is accepted once: after a success, and any requests in
    between, the same token is refused. *)
Theorem invitation_accepted_once token name password name' password' w u w1 w2 r w3 :
  invitations_wf (table (db w)) ->
  accept_invitation token name password w = (Ok u, w1) -> invitation_history w1 w2 ->
  accept_invitation token name' password' w2 = (r, w3) -> is_ok r = false.
Proof.
  intros Hwf H1 Hh H2. destruct r as [v|e|m]; [exfalso|done..].
  pose proof (tracks_run _ _ _ _ H1 : invite_moves _ _) as Hm.
  pose proof (invite_moves_wf _ _ Hm Hwf) as Hwf1.
  apply invitation_history_moves in Hh. pose proof (invite_moves_wf _ _ Hh Hwf1) as Hwf2.
  apply accept_invitation_ok in H1 as (i & now & [Hi Hih Hip _] & Hx & _ & _ & _ & _ & _ & _ & _ & Hr); [|done].
  apply accept_invitation_ok in H2 as (j & now' & [Hj Hjh Hjp _] & _); [|done].
  assert (Hin : In (set_accepted (user_pk u) now i) (rows (table (db w1)))).
  { rewrite Hr. apply in_update_where. exists i. split; [done|].
    rewrite Z.eqb_refl, (proj2 (pending_iff _) Hip), (proj2 (Z.ltb_lt _ _) Hx). done. }
  destruct (invite_moves_next _ _ _ Hh Hin) as (k & Hk & _ & _ & Hkh & _ & _ & Hn).
  assert (k = j) as ->.
  { eapply (NoDup_map_inj_in invitation_token_hash); [apply Hwf2|done|done|].
    rewrite Hkh, Hjh. exact Hih. }
  destruct Hn as [->|[Hp _]]; done.
Qed.

(** Accepting an expired invitation does not record the expiry.  The
    acceptance is refused, as it should be, but it marks the row inside the
    transaction that the refusal rolls back: the invitation stays pending. *)
Theorem expired_acceptance_not_recorded token name password w i r w' :
  invitations_wf (table (db w)) -> In i (rows (table (db w))) ->
  invitation_token_hash i = sha256_hex (trim token) -> invitation_status i = InvitePending ->
  (forall n, (step w <= n)%nat -> invitation_expires_at i <= clock n) ->
  accept_invitation token name password w = (r, w') ->
  is_ok r = false /\ In i (rows (table (db w'))).
Proof.
  intros Hwf Hi Hh Hp Hx H.
  assert (Hr : is_ok r = false).
  { destruct r as [u|e|m]; [exfalso|done..].
    apply accept_invitation_ok in H as (j & now & [Hj Hjh _ (n & Hn & Hjx)] & _); [|done].
    assert (j = i) as ->.
    { eapply (NoDup_map_inj_in invitation_token_hash); [apply Hwf|done|done|congruence]. }
    specialize (Hx n Hn). lia. }
  split; [done|]. eapply (all_or_nothing (c := accept_invitation token name password)) in H; [|done].
  by rewrite H.
Qed.
End Handlers.

(** ** The theorems at work *)

(** Alice invites an address; her invitation as it is mailed. *)
Definition invited : outcome AsterError.t AdminUserInvitationInfo * World :=
  create_invitation "carol@example.org" 1 world0.
Definition invited_token : string := short_token 0.
Definition accepted : user * World :=
  run_of alice (accept_invitation invited_token "carol" "password3" (snd invited)).

Lemma accepted_run :
  accept_invitation invited_token "carol" "password3" (snd invited)
    = (Ok (fst accepted), snd accepted).
Proof. vm_compute. reflexivity. Qed.

Lemma no_invitations_wf : invitations_wf (table (db world0)).
Proof. split; try constructor; done. Qed.

Lemma invited_wf : invitations_wf (table (db (snd invited))).
Proof.
  split; vm_compute.
  - repeat constructor; cbn; tauto.
  - intros i [<-|[]]. reflexivity.
  - repeat constructor; cbn; tauto.
  - intros i j [<-|[]] [<-|[]]. reflexivity.
  - intros i [<-|[]]. split_and!; try reflexivity. discriminate.
Qed.

Lemma invitation_acceptance_atomic_witness :
  role (fst accepted) = User /\ is_some (email_verified_at (fst accepted)) = true.
Proof.
  destruct (invitation_acceptance_atomic _ _ _ _ _ _ invited_wf accepted_run)
    as (i & now & _ & _ & Hna & Hv & _).
  split; [apply Hna|exact Hv].
Defined.

Lemma invitation_accepted_once_witness :
  is_ok (fst (accept_invitation invited_token "carol2" "password4" (snd accepted))) = false.
Proof.
  apply (invitation_accepted_once invited_token "carol" "password3" "carol2" "password4"
           (snd invited) (fst accepted) (snd accepted) (snd accepted) _
           (snd (accept_invitation invited_token "carol2" "password4" (snd accepted)))).
  - apply invited_wf.
  - apply accepted_run.
  - apply rtc_refl.
  - apply surjective_pairing.
Defined.

(** An invitation that expired long ago. *)
Definition stale_invitation : user_invitation :=
  mkInvitation 1 "dave@example.org" (sha256_hex "old") InvitePending 1 None 0 0 0 None None.
Definition stale_world : World :=
  set_db (set_invitations (mkTable [stale_invitation] 2) (db world0)) world0.

Lemma expired_acceptance_not_recorded_witness :
  In stale_invitation (rows (table (db
    (snd (accept_invitation "old" "dave" "password5" stale_world))))).
Proof.
  eapply (expired_acceptance_not_recorded "old" "dave" "password5" stale_world stale_invitation).
  - split; vm_compute.
    + repeat constructor; cbn; tauto.
    + intros i [<-|[]]. reflexivity.
    + repeat constructor; cbn; tauto.
    + intros i j [<-|[]] [<-|[]]. reflexivity.
    + intros i [<-|[]]. split_and!; try reflexivity. discriminate.
  - left. reflexivity.
  - reflexivity.
  - reflexivity.
  - intros n _. change (0 <= seconds 1000 + Z.of_nat n). unfold seconds, NANOS_PER_SEC. lia.
  - apply surjective_pairing.
Defined.
