(* ===== verification/YggdrasilConfig.v ===== *)
(** * The Yggdrasil configuration

    [config/yggdrasil.rs]: how the policy of Types.v is read from the
    runtime snapshot, and the normal forms under which configuration values
    are stored. *)

From Stdlib Require Import ZArith List Bool Lia Ascii.
From stdpp Require Import base decidable list strings.
From S2P Require Import Prelude Text Errors Types World Concrete AuthConfig AccountConcrete.

Local Open Scope Z_scope.

(** The typed readers of [aster_forge_config]'s snapshot, the URL library,
    [serde_json::to_string] of a list of strings and the RSA parsers (a key
    parses, or the parser's error). *)
Class YggdrasilExterns : Type := {
  get_bool_or : (string -> option string) -> string -> bool -> bool;
  get_string_or : (string -> option string) -> string -> string -> string;
  normalize_http_base_url : string -> string -> bool -> outcome string (option string);
  url_host : string -> option string;
  strings_to_json : list string -> outcome string string;
  rsa_private_pkcs8 : string -> option string;
  rsa_private_pkcs1 : string -> option string;
  rsa_public_pem : string -> option string;
  rsa_public_pkcs1 : string -> option string
}.

(** A serialised list of strings parses back. *)
Class YggdrasilExternLaws `{CF : ForgeConfig} (Y : YggdrasilExterns) : Prop := {
  strings_roundtrip l s key : strings_to_json l = Ok s -> parse_string_array s key = Ok l
}.

Definition YGGDRASIL_SERVER_NAME_KEY : string := "yggdrasil_server_name".
Definition YGGDRASIL_ALLOW_PROFILE_NAME_LOGIN_KEY : string := "yggdrasil_allow_profile_name_login".
Definition YGGDRASIL_ALLOW_SKIN_UPLOAD_KEY : string := "yggdrasil_allow_skin_upload".
Definition YGGDRASIL_ALLOW_CAPE_UPLOAD_KEY : string := "yggdrasil_allow_cape_upload".
Definition YGGDRASIL_ALLOW_MICROSOFT_PROFILE_TEXTURE_OVERRIDE_KEY : string :=
  "yggdrasil_allow_microsoft_profile_texture_override".
Definition YGGDRASIL_ENABLE_PROFILE_KEY_KEY : string := "yggdrasil_enable_profile_key".
Definition YGGDRASIL_ENABLE_MOJANG_ANTI_FEATURES_KEY : string :=
  "yggdrasil_enable_mojang_anti_features".
Definition YGGDRASIL_TOKEN_TTL_DAYS_KEY : string := "yggdrasil_token_ttl_days".
Definition YGGDRASIL_MAX_ACTIVE_TOKENS_KEY : string := "yggdrasil_max_active_tokens".
Definition YGGDRASIL_MAX_TEXTURE_UPLOAD_BYTES_KEY : string :=
  "yggdrasil_max_texture_upload_bytes".
Definition YGGDRASIL_MAX_TEXTURE_PIXELS_KEY : string := "yggdrasil_max_texture_pixels".
Definition YGGDRASIL_SKIN_DOMAINS_KEY : string := "yggdrasil_skin_domains".
Definition YGGDRASIL_PUBLIC_BASE_URL_KEY : string := "yggdrasil_public_base_url".
Definition YGGDRASIL_TEXTURE_PUBLIC_BASE_URL_KEY : string := "yggdrasil_texture_public_base_url".
Definition YGGDRASIL_SIGNATURE_PUBLIC_KEY_KEY : string := "yggdrasil_signature_public_key".
Definition YGGDRASIL_SIGNATURE_PRIVATE_KEY_KEY : string := "yggdrasil_signature_private_key".
Definition YGGDRASIL_MAX_PROFILES_PER_USER_KEY : string := "yggdrasil_max_profiles_per_user".
Definition YGGDRASIL_MAX_PROFILE_RENAMES_KEY : string := "yggdrasil_max_profile_renames".
Definition YGGDRASIL_MOJANG_NAME_CHECK_ENABLED_KEY : string :=
  "yggdrasil_mojang_name_check_enabled".
Definition YGGDRASIL_MOJANG_NAME_CHECK_TIMEOUT_SECS_KEY : string :=
  "yggdrasil_mojang_name_check_timeout_secs".
Definition YGGDRASIL_MOJANG_PROFILE_API_BASE_URL_KEY : string :=
  "yggdrasil_mojang_profile_api_base_url".

Definition DEFAULT_YGGDRASIL_SERVER_NAME : string := "AsterYggdrasil".
Definition DEFAULT_YGGDRASIL_API_ROOT : string := "/api/yggdrasil".
Definition DEFAULT_YGGDRASIL_TOKEN_TTL_DAYS : Z := 15.
Definition DEFAULT_YGGDRASIL_MAX_ACTIVE_TOKENS : Z := 10.
Definition DEFAULT_YGGDRASIL_MAX_TEXTURE_UPLOAD_BYTES : Z := 4 * 1024 * 1024.
Definition DEFAULT_YGGDRASIL_MAX_TEXTURE_PIXELS : Z := 4096 * 4096.
Definition DEFAULT_YGGDRASIL_SKIN_DOMAINS : list string :=
  [".minecraft.net"; ".mojang.com"]%string.
Definition DEFAULT_YGGDRASIL_MAX_PROFILES_PER_USER : Z := 1.
Definition DEFAULT_YGGDRASIL_MAX_PROFILE_RENAMES : Z := 1.
Definition DEFAULT_YGGDRASIL_MOJANG_NAME_CHECK_TIMEOUT_SECS : Z := 3.
Definition DEFAULT_YGGDRASIL_MOJANG_PROFILE_API_BASE_URL : string := "https://api.mojang.com".

(** [.fold(Vec::new(), |mut xs, x| { if !xs.contains(&x) { xs.push(x); } xs })] *)
Definition keep_first (l : list string) : list string :=
  List.fold_left (fun xs x => if mem x xs then xs else xs ++ [x]) l [].

(** [.map(f).collect::<Result<Vec<_>>>()] *)
Fixpoint collect {A B} (f : A -> outcome AsterError.t B) (l : list A)
  : outcome AsterError.t (list B) :=
  match l with
  | [] => Ok []
  | a :: l =>
      match f a with
      | Ok b => match collect f l with Ok r => Ok (b :: r) | Err e => Err e | Panic m => Panic m end
      | Err e => Err e
      | Panic m => Panic m
      end
  end.

(** [.filter_map(f)] *)
Fixpoint filter_map {A B} (f : A -> option B) (l : list A) : list B :=
  match l with
  | [] => []
  | a :: l => match f a with Some b => b :: filter_map f l | None => filter_map f l end
  end.

Section Config.
Context `{CF : ForgeConfig} `{Y : YggdrasilExterns}.

(** ** Skin domains *)

Definition normalize_skin_domain (value : string) : option string :=
  let trimmed := to_ascii_lowercase (trim value) in
  if is_empty trimmed then None else Some trimmed.

Definition label_ok (label : string) : bool :=
  negb (is_empty label || starts_with "-" label || ends_with "-" label
        || negb (forallb (fun ch => is_ascii_alphanumeric ch || eqb ch "-"%char) (bytes label))).

Definition validate_skin_domain_rule (domain : string) : outcome AsterError.t unit :=
  if contains_str "://" domain || contains_char "/"%char domain || contains_char ":"%char domain
     || contains_char "*"%char domain || has_whitespace (bytes domain)
  then Err (AsterError.ValidationError
         "yggdrasil skin domain must be a host rule, not a URL or wildcard")
  else
    let host := match strip_prefix "." domain with Some h => h | None => domain end in
    if is_empty host || starts_with "." host || ends_with "." host
    then Err (AsterError.ValidationError "yggdrasil skin domain must contain a non-empty host")
    else if negb (forallb label_ok (split_char "."%char host))
    then Err (AsterError.ValidationError "yggdrasil skin domain contains an invalid host label")
    else Ok tt.

Definition normalize_required_skin_domain (value : string) : outcome AsterError.t string :=
  match normalize_skin_domain value with
  | None => Err (AsterError.ValidationError "yggdrasil skin domain entries cannot be empty")
  | Some domain =>
      match validate_skin_domain_rule domain with
      | Ok _ => Ok domain
      | Err e => Err e
      | Panic m => Panic m
      end
  end.

Definition skin_domain_matches_host (domain host : string) : bool :=
  let domain := to_ascii_lowercase (trim domain) in
  let host := to_ascii_lowercase (trim host) in
  match strip_prefix "." domain with
  | Some suffix => ends_with domain host && (str_len suffix <? str_len host)%nat
  | None => eqb host domain
  end.

(** [Url::parse(base_url).ok()] and its lower-case host. *)
Definition lower_host (base_url : string) : option string :=
  to_ascii_lowercase <$> url_host base_url.

Definition public_base_url_hosts_missing_from_skin_domains (public_base_urls skin_domains : list string)
  : list string :=
  keep_first
    (List.filter (fun host => negb (existsb (fun domain => skin_domain_matches_host domain host)
                                      skin_domains))
       (filter_map lower_host public_base_urls)).

(** ** Base URLs *)

Definition url_error {A} (r : outcome string A) : outcome AsterError.t A :=
  match r with
  | Ok a => Ok a
  | Err m => Err (AsterError.ValidationError m)
  | Panic m => Panic m
  end.

Definition non_empty_url (message : string) (r : outcome string (option string))
  : outcome AsterError.t string :=
  match url_error r with
  | Ok (Some u) => Ok u
  | Ok None => Err (AsterError.ValidationError message)
  | Err e => Err e
  | Panic m => Panic m
  end.

Definition normalize_mojang_profile_api_base_url_config_value (value : string)
  : outcome AsterError.t string :=
  non_empty_url "Mojang profile API base URL cannot be empty"
    (normalize_http_base_url value "Mojang profile API base URL" true).

Definition normalize_texture_public_base_url_config_value (value : string)
  : outcome AsterError.t string :=
  match url_error (normalize_http_base_url value "yggdrasil texture public base URL" false) with
  | Ok o => Ok (match o with Some u => u | None => "" end)
  | Err e => Err e
  | Panic m => Panic m
  end.

Definition normalize_required_public_base_url (value : string) : outcome AsterError.t string :=
  non_empty_url "yggdrasil public base URL cannot be empty"
    (normalize_http_base_url value "yggdrasil public base URL" true).

Definition normalize_public_base_url (value : string) : option string :=
  match normalize_http_base_url value "yggdrasil public base URL" false with
  | Ok normalized => normalized
  | _ => None
  end.

(** Parse a JSON list, normalise every entry, keep the first of each, and
    print it. *)
Definition normalize_list (key value message : string)
  (normalize : string -> outcome AsterError.t string) : outcome AsterError.t string :=
  match core_result (parse_string_array value key) with
  | Ok items =>
      match collect normalize items with
      | Ok items =>
          match strings_to_json (keep_first items) with
          | Ok s => Ok s
          | Err error => Err (AsterError.InternalError (message +:+ error))
          | Panic m => Panic m
          end
      | Err e => Err e
      | Panic m => Panic m
      end
  | Err e => Err e
  | Panic m => Panic m
  end.

Definition normalize_public_base_url_config_value (value : string) : outcome AsterError.t string :=
  normalize_list YGGDRASIL_PUBLIC_BASE_URL_KEY value
    "failed to serialize Yggdrasil public base URLs: " normalize_required_public_base_url.

Definition normalize_skin_domains_config_value (value : string) : outcome AsterError.t string :=
  normalize_list YGGDRASIL_SKIN_DOMAINS_KEY value
    "failed to serialize Yggdrasil skin domains: " normalize_required_skin_domain.

(** ** Keys *)

(** [None] is a key that parses; the first parser's error is dropped. *)
Definition parse_signature_private_key_pem (pem : string) : outcome AsterError.t unit :=
  match rsa_private_pkcs8 pem with
  | None => Ok tt
  | Some _ =>
      match rsa_private_pkcs1 pem with
      | None => Ok tt
      | Some error => Err (AsterError.ValidationError
          ("invalid yggdrasil signature private key PEM: " +:+ error))
      end
  end.

Definition parse_signature_public_key_pem (pem : string) : outcome AsterError.t unit :=
  match rsa_public_pem pem with
  | None => Ok tt
  | Some _ =>
      match rsa_public_pkcs1 pem with
      | None => Ok tt
      | Some error => Err (AsterError.ValidationError
          ("invalid yggdrasil signature public key PEM: " +:+ error))
      end
  end.

Definition validate_signature_private_key_config_value (value : string)
  : outcome AsterError.t unit :=
  let pem := trim value in
  if is_empty pem
  then Err (AsterError.ValidationError
         "yggdrasil signature private key must be a non-empty RSA PEM")
  else parse_signature_private_key_pem pem.

Definition validate_signature_public_key_config_value (value : string)
  : outcome AsterError.t unit :=
  let pem := trim value in
  if is_empty pem then Ok tt else parse_signature_public_key_pem pem.

Definition validated (r : outcome AsterError.t unit) (value : string)
  : outcome AsterError.t string :=
  match r with Ok _ => Ok (trim value) | Err e => Err e | Panic m => Panic m end.

Definition positive_u64_keys : list string :=
  [YGGDRASIL_TOKEN_TTL_DAYS_KEY; YGGDRASIL_MAX_ACTIVE_TOKENS_KEY;
   YGGDRASIL_MAX_TEXTURE_UPLOAD_BYTES_KEY; YGGDRASIL_MAX_TEXTURE_PIXELS_KEY;
   YGGDRASIL_MAX_PROFILES_PER_USER_KEY; YGGDRASIL_MAX_PROFILE_RENAMES_KEY;
   YGGDRASIL_MOJANG_NAME_CHECK_TIMEOUT_SECS_KEY].

Definition normalize_yggdrasil_config_value (key value : string) : outcome AsterError.t string :=
  if eqb key YGGDRASIL_PUBLIC_BASE_URL_KEY then normalize_public_base_url_config_value value
  else if eqb key YGGDRASIL_TEXTURE_PUBLIC_BASE_URL_KEY
  then normalize_texture_public_base_url_config_value value
  else if eqb key YGGDRASIL_SKIN_DOMAINS_KEY then normalize_skin_domains_config_value value
  else if mem key positive_u64_keys then core_result (normalize_positive_u64 key value)
  else if eqb key YGGDRASIL_MOJANG_PROFILE_API_BASE_URL_KEY
  then normalize_mojang_profile_api_base_url_config_value value
  else if eqb key YGGDRASIL_SIGNATURE_PRIVATE_KEY_KEY
  then validated (validate_signature_private_key_config_value value) value
  else if eqb key YGGDRASIL_SIGNATURE_PUBLIC_KEY_KEY
  then validated (validate_signature_public_key_config_value value) value
  else Ok value.

(** ** Reading the policy *)

Definition read_string_array (get : string -> option string) (key : string) : list string :=
  match get key with
  | Some raw => match parse_string_array raw key with Ok l => l | _ => [] end
  | None => []
  end.

Definition read_public_base_urls (get : string -> option string) (key : string) : list string :=
  keep_first (filter_map normalize_public_base_url (read_string_array get key)).

Definition read_effective_public_base_urls (get : string -> option string) : list string :=
  match read_public_base_urls get YGGDRASIL_PUBLIC_BASE_URL_KEY with
  | [] =>
      keep_first
        (List.map (fun origin => join_origin_and_path origin DEFAULT_YGGDRASIL_API_ROOT)
           (public_site_urls get))
  | configured => configured
  end.

Definition read_texture_public_base_url (get : string -> option string) : option string :=
  match get YGGDRASIL_TEXTURE_PUBLIC_BASE_URL_KEY with
  | Some value =>
      match normalize_texture_public_base_url_config_value value with
      | Ok value => if is_empty value then None else Some value
      | _ => None
      end
  | None => None
  end.

Definition read_effective_skin_domains (get : string -> option string)
  (public_base_urls : list string) (texture_public_base_url : option string) : list string :=
  keep_first
    (filter_map normalize_skin_domain
       (DEFAULT_YGGDRASIL_SKIN_DOMAINS ++ read_string_array get YGGDRASIL_SKIN_DOMAINS_KEY)
     ++ filter_map lower_host public_base_urls
     ++ filter_map lower_host
          (match texture_public_base_url with Some u => [u] | None => [] end)).

Definition from_runtime_config (get : string -> option string) : RuntimeYggdrasilPolicy :=
  let urls := read_effective_public_base_urls get in
  let texture_url := read_texture_public_base_url get in
  {| server_name := get_string_or get YGGDRASIL_SERVER_NAME_KEY DEFAULT_YGGDRASIL_SERVER_NAME;
     allow_profile_name_login := get_bool_or get YGGDRASIL_ALLOW_PROFILE_NAME_LOGIN_KEY true;
     allow_skin_upload := get_bool_or get YGGDRASIL_ALLOW_SKIN_UPLOAD_KEY true;
     allow_cape_upload := get_bool_or get YGGDRASIL_ALLOW_CAPE_UPLOAD_KEY true;
     allow_microsoft_profile_texture_override :=
       get_bool_or get YGGDRASIL_ALLOW_MICROSOFT_PROFILE_TEXTURE_OVERRIDE_KEY true;
     enable_profile_key := get_bool_or get YGGDRASIL_ENABLE_PROFILE_KEY_KEY true;
     enable_mojang_anti_features :=
       get_bool_or get YGGDRASIL_ENABLE_MOJANG_ANTI_FEATURES_KEY true;
     token_ttl_days :=
       read_positive_u64 get YGGDRASIL_TOKEN_TTL_DAYS_KEY DEFAULT_YGGDRASIL_TOKEN_TTL_DAYS;
     max_active_tokens :=
       read_positive_u64 get YGGDRASIL_MAX_ACTIVE_TOKENS_KEY DEFAULT_YGGDRASIL_MAX_ACTIVE_TOKENS;
     max_texture_upload_bytes :=
       read_positive_u64 get YGGDRASIL_MAX_TEXTURE_UPLOAD_BYTES_KEY
         DEFAULT_YGGDRASIL_MAX_TEXTURE_UPLOAD_BYTES;
     max_texture_pixels :=
       read_positive_u64 get YGGDRASIL_MAX_TEXTURE_PIXELS_KEY DEFAULT_YGGDRASIL_MAX_TEXTURE_PIXELS;
     max_profiles_per_user :=
       read_positive_u64 get YGGDRASIL_MAX_PROFILES_PER_USER_KEY
         DEFAULT_YGGDRASIL_MAX_PROFILES_PER_USER;
     max_profile_renames :=
       read_positive_u64 get YGGDRASIL_MAX_PROFILE_RENAMES_KEY
         DEFAULT_YGGDRASIL_MAX_PROFILE_RENAMES;
     mojang_name_check_enabled := get_bool_or get YGGDRASIL_MOJANG_NAME_CHECK_ENABLED_KEY true;
     mojang_name_check_timeout_secs :=
       read_positive_u64 get YGGDRASIL_MOJANG_NAME_CHECK_TIMEOUT_SECS_KEY
         DEFAULT_YGGDRASIL_MOJANG_NAME_CHECK_TIMEOUT_SECS;
     mojang_profile_api_base_url :=
       get_string_or get YGGDRASIL_MOJANG_PROFILE_API_BASE_URL_KEY
         DEFAULT_YGGDRASIL_MOJANG_PROFILE_API_BASE_URL;
     skin_domains := read_effective_skin_domains get urls texture_url;
     public_base_urls := urls;
     texture_public_base_url := texture_url;
     signature_public_key := get_string_or get YGGDRASIL_SIGNATURE_PUBLIC_KEY_KEY "";
     signature_private_key := get_string_or get YGGDRASIL_SIGNATURE_PRIVATE_KEY_KEY "" |}.
End Config.
