(* ===== verification/ConfigProofs.v ===== *)
(** * The runtime configuration: its policies are well formed

    Whatever the snapshot holds, the policies read from it stay in range;
    the second part is the Yggdrasil policy and its stored skin domains. *)

From Stdlib Require Import ZArith List Bool Lia Ascii.
From stdpp Require Import base decidable list strings.
From S2P Require Import Prelude Text Errors Types World Concrete AuthConfig AccountConcrete YggdrasilConfig.

Local Open Scope Z_scope.
Import CaptchaRenderPreset.

Definition ttl_range (n : Z) : Prop := 0 < n <= U64_MAX.

(** What a client of the policies relies on. *)
Record auth_policy_ok (p : RuntimeAuthPolicy) : Prop := {
  access_ttl_ok : ttl_range (access_token_ttl_secs p);
  refresh_ttl_ok : ttl_range (refresh_token_ttl_secs p)
}.

Record contact_policy_ok (p : RuntimeContactVerificationPolicy) : Prop := {
  activation_ttl_ok : ttl_range (register_activation_ttl_secs p);
  change_ttl_ok : ttl_range (contact_change_ttl_secs p);
  reset_ttl_ok : ttl_range (password_reset_ttl_secs p);
  resend_ok : ttl_range (resend_cooldown_secs p);
  reset_cooldown_ok : ttl_range (password_reset_request_cooldown_secs p)
}.

Record captcha_policy_ok (p : RuntimeCaptchaPolicy) : Prop := {
  captcha_ttl_ok : ttl_range (captcha_ttl_secs p);
  length_ok : MIN_AUTH_CAPTCHA_LENGTH <= captcha_length p <= MAX_AUTH_CAPTCHA_LENGTH;
  attempts_ok : MIN_AUTH_CAPTCHA_MAX_ATTEMPTS <= max_attempts p <= MAX_AUTH_CAPTCHA_MAX_ATTEMPTS;
  preset_ok : In (preset p) ALL;
  render_ok : let r := render_params (preset p) in
    54 <= height r <= 64 /\ 1 <= complexity r <= 4 /\ 58 <= compression r <= 86
}.

Lemma preset_in_all p : In p ALL.
Proof. destruct p; cbn; tauto. Qed.

(** The text of a preset reads back as the preset. *)
Lemma from_str_as_str p : from_str (as_str p) = Ok p.
Proof. by destruct p. Qed.

Section Config.
Context `{CF : ForgeConfig} `{FL : !ForgeConfigLaws CF}.

Lemma read_ttl_range get key d : ttl_range d -> ttl_range (read_positive_u64 get key d).
Proof. apply read_positive_range. Qed.

(** Policies are well formed, whatever was stored or overridden: every
    lifetime and cooldown is a positive u64, a captcha has four to eight
    characters and one to ten attempts, and its preset is one of the three,
    with parameters in their documented ranges. *)
Theorem policies_well_formed get overrides :
  auth_policy_ok (auth_policy get) /\ contact_policy_ok (contact_policy get) /\
  ttl_range (email_code_ttl_secs (email_code_policy get)) /\
  ttl_range (email_code_resend_cooldown_secs (email_code_policy get)) /\
  ttl_range (user_invitation_ttl_secs get) /\
  captcha_policy_ok (captcha_policy_with_overrides get overrides).
Proof.
  split_and!; try split; try (by apply read_ttl_range); try (by apply read_bounded_range).
  - apply preset_in_all.
  - cbn. destruct (read_captcha_render_preset_from _); cbn; lia.
Qed.
End Config.

Lemma policies_well_formed_witness :
  captcha_policy_ok (captcha_policy_with_overrides
    (fun k => if eqb k AUTH_CAPTCHA_PRESET_KEY then Some "nonsense"%string else None)
    (fun _ => None)).
Proof. apply policies_well_formed. Defined.

(** ** The Yggdrasil configuration: what is stored and what is read

    The policy read from any snapshot is well formed and lists the host of
    each of its own URLs; the stored skin domains are in normal form, and the
    policy reads back every one of them. *)

(** ** The list helpers *)

Definition add_new (xs : list string) (x : string) : list string :=
  if mem x xs then xs else xs ++ [x].

Lemma in_add_new xs x y : In y (add_new xs x) <-> y = x \/ In y xs.
Proof.
  unfold add_new. destruct (mem x xs) eqn:E.
  - rewrite mem_true in E. split; [auto|]. by intros [->|?].
  - rewrite in_app_iff. cbn. split; intros [?|?]; auto. by destruct H as [->|[]]; auto.
Qed.

Lemma NoDup_add_new xs x : List.NoDup xs -> List.NoDup (add_new xs x).
Proof.
  intros H. unfold add_new. destruct (mem x xs) eqn:E; [done|].
  rewrite mem_false in E. by apply NoDup_app_singleton.
Qed.

Lemma in_fold_add l : forall xs y, In y (List.fold_left add_new l xs) <-> In y xs \/ In y l.
Proof.
  induction l as [|x l IH]; intros xs y; cbn; [tauto|].
  rewrite IH, in_add_new. split; [intros [[->|?]|?]|intros [?|[->|?]]]; auto.
Qed.

Lemma NoDup_fold_add l : forall xs, List.NoDup xs -> List.NoDup (List.fold_left add_new l xs).
Proof. induction l as [|x l IH]; intros xs H; cbn; [done|]. by apply IH, NoDup_add_new. Qed.

Lemma in_keep_first l x : In x (keep_first l) <-> In x l.
Proof. change (In x (List.fold_left add_new l []) <-> In x l). rewrite in_fold_add. cbn. tauto. Qed.

Lemma NoDup_keep_first l : List.NoDup (keep_first l).
Proof. apply (NoDup_fold_add l []), List.NoDup_nil. Qed.

(** A list without repetitions is kept as it is. *)
Lemma keep_first_id l : List.NoDup l -> keep_first l = l.
Proof.
  intros H. change (List.fold_left add_new l [] = [] ++ l).
  assert (Hd : forall x, In x l -> ~ In x []) by auto. revert Hd.
  generalize (@nil string) as xs. induction H as [|x l Hx H IH]; intros xs Hd; cbn.
  - by rewrite app_nil_r.
  - unfold add_new at 2. rewrite (proj2 (mem_false x xs)) by (apply Hd; by left).
    rewrite IH.
    + by rewrite <- app_assoc.
    + intros y Hy. rewrite in_app_iff. intros [Hi|[->|[]]]; [|done].
      by apply (Hd y); [right|].
Qed.

Lemma in_filter_map {A B} (f : A -> option B) l b :
  In b (filter_map f l) <-> exists a, In a l /\ f a = Some b.
Proof.
  induction l as [|a l IH]; cbn.
  - split; [done|]. by intros (? & [] & _).
  - destruct (f a) as [b'|] eqn:E; cbn; rewrite IH; split.
    + intros [<-|(a' & H1 & H2)]; eauto.
    + intros (a' & [->|H1] & H2); [left; congruence|eauto].
    + intros (a' & H1 & H2). eauto.
    + intros (a' & [->|H1] & H2); [congruence|eauto].
Qed.

(** The collected values are the images, in order. *)
Lemma collect_ok {A B} (f : A -> outcome AsterError.t B) l r :
  collect f l = Ok r <-> Forall2 (fun a b => f a = Ok b) l r.
Proof.
  revert r. induction l as [|a l IH]; intros r; cbn.
  - split; [by intros [= <-]|]. by inversion 1.
  - destruct (f a) as [b| |] eqn:E.
    + destruct (collect f l) as [r'| |] eqn:Er.
      * split.
        -- intros [= <-]. constructor; [done|]. by apply IH.
        -- inversion 1; subst. f_equal. f_equal; [congruence|].
           assert (Hr : Ok r' = Ok l') by (by apply IH). by injection Hr.
      * split; [done|]. inversion 1; subst. exfalso.
        assert (Hr : Err e = Ok l') by (by apply IH). done.
      * split; [done|]. inversion 1; subst. exfalso.
        assert (Hr : Panic message = Ok l') by (by apply IH). done.
    + split; [done|]. inversion 1; congruence.
    + split; [done|]. inversion 1; congruence.
Qed.

Lemma collect_fixed {A} (f : A -> outcome AsterError.t A) l :
  (forall a, In a l -> f a = Ok a) -> collect f l = Ok l.
Proof.
  intros H. apply collect_ok. induction l as [|a l IH]; constructor; [by apply H; left|].
  apply IH. intros b Hb. apply H. by right.
Qed.

Lemma collect_in {A B} (f : A -> outcome AsterError.t B) l r b :
  collect f l = Ok r -> In b r -> exists a, In a l /\ f a = Ok b.
Proof.
  rewrite collect_ok. induction 1 as [|a b' l r E _ IH]; cbn; [done|].
  intros [<-|Hb]; [eauto|]. destruct (IH Hb) as (a' & ? & ?). eauto.
Qed.

(** ** Skin-domain rules *)

(** A stored rule: what [validate_skin_domain_rule] lets through. *)
Definition host_of (domain : string) : string :=
  match strip_prefix "." domain with Some h => h | None => domain end.

Record skin_domain_rule (d : string) : Prop := {
  rule_lower : to_ascii_lowercase d = d;
  rule_trimmed : trim d = d;
  rule_host : is_empty (host_of d) = false;
  rule_labels : forall l, In l (split_char "."%char (host_of d)) -> label_ok l = true;
  rule_no_url : contains_str "://" d = false /\ contains_char "/"%char d = false /\
                contains_char ":"%char d = false /\ contains_char "*"%char d = false
}.

Lemma validate_rule_ok d :
  validate_skin_domain_rule d = Ok tt ->
  has_whitespace (bytes d) = false /\ is_empty (host_of d) = false /\
  (forall l, In l (split_char "."%char (host_of d)) -> label_ok l = true) /\
  contains_str "://" d = false /\ contains_char "/"%char d = false /\
  contains_char ":"%char d = false /\ contains_char "*"%char d = false.
Proof.
  unfold validate_skin_domain_rule. fold (host_of d).
  destruct (_ || has_whitespace (bytes d)) eqn:E; [done|].
  apply orb_false_iff in E as [E Hw]. rewrite !orb_false_iff in E. destruct E as [[[E1 E2] E3] E4].
  destruct (is_empty (host_of d)) eqn:Eh; [done|]. cbn.
  destruct (_ || _); [done|]. destruct (forallb _ _) eqn:El; [|done].
  intros _. split_and!; auto. by apply forallb_forall.
Qed.

Lemma normalize_required_fixed v d :
  normalize_required_skin_domain v = Ok d ->
  skin_domain_rule d /\ normalize_required_skin_domain d = Ok d /\ normalize_skin_domain d = Some d.
Proof.
  unfold normalize_required_skin_domain. destruct (normalize_skin_domain v) as [d'|] eqn:En; [|done].
  destruct (validate_skin_domain_rule d') as [[]| |] eqn:Ev; [|done..]. intros [= ->].
  unfold normalize_skin_domain in En. destruct (is_empty _) eqn:Ee in En; [done|].
  injection En as En. pose proof (validate_rule_ok d Ev) as (Hw & Hh & Hl & Hu).
  assert (El : to_ascii_lowercase d = d) by (by rewrite <- En, to_ascii_lowercase_idem).
  assert (Et : trim d = d) by (by apply trim_no_whitespace).
  assert (Hn : normalize_skin_domain d = Some d).
  { unfold normalize_skin_domain. rewrite Et, El. by rewrite <- En, Ee. }
  split_and!; [by split|by rewrite Hn, Ev|done].
Qed.

Lemma ends_with_refl s : ends_with s s = true.
Proof.
  apply starts_with_iff. exists EmptyString.
  by rewrite app_string_nil_r.
Qed.

(** Every rule covers the host it spells. *)
Lemma matches_itself h : skin_domain_matches_host h h = true.
Proof.
  unfold skin_domain_matches_host. set (d := to_ascii_lowercase (trim h)).
  destruct (strip_prefix "." d) as [r|] eqn:E; [|apply eqb_refl].
  apply strip_prefix_some in E. rewrite ends_with_refl. cbn [andb].
  apply Nat.ltb_lt. rewrite E, app_string_cons. apply Nat.lt_succ_diag_r.
Qed.

(** ** The policy read from a snapshot *)

Section Config.
Context `{CF : ForgeConfig} `{FL : !ForgeConfigLaws CF} `{Y : YggdrasilExterns}.
Context `{YL : !YggdrasilExternLaws Y}.

Definition u64_positive (n : Z) : Prop := 0 < n <= U64_MAX.

(** What the protocol handlers rely on. *)
Record yggdrasil_policy_ok (p : RuntimeYggdrasilPolicy) : Prop := {
  limits_ok : u64_positive (token_ttl_days p) /\ u64_positive (max_active_tokens p) /\
    u64_positive (max_texture_upload_bytes p) /\ u64_positive (max_texture_pixels p) /\
    u64_positive (max_profiles_per_user p) /\ u64_positive (max_profile_renames p) /\
    u64_positive (mojang_name_check_timeout_secs p);
  domains_once : List.NoDup (skin_domains p);
  urls_once : List.NoDup (public_base_urls p);
  official_domains : forall d, In d DEFAULT_YGGDRASIL_SKIN_DOMAINS -> In d (skin_domains p);
  own_hosts_covered :
    public_base_url_hosts_missing_from_skin_domains
      (public_base_urls p ++ match texture_public_base_url p with Some u => [u] | None => [] end)
      (skin_domains p) = []
}.

Lemma missing_nil urls domains :
  (forall h, In h (filter_map lower_host urls) ->
     exists d, In d domains /\ skin_domain_matches_host d h = true) ->
  public_base_url_hosts_missing_from_skin_domains urls domains = [].
Proof.
  intros H. unfold public_base_url_hosts_missing_from_skin_domains.
  destruct (List.filter _ _) as [|h l] eqn:E; [done|]. exfalso.
  assert (Hh : In h (h :: l)) by by left. rewrite <- E, filter_In, negb_true_iff in Hh.
  destruct Hh as [Hh Hn]. destruct (H h Hh) as (d & Hd & Hm).
  assert (Hx : existsb (fun domain => skin_domain_matches_host domain h) domains = true)
    by (apply existsb_exists; eauto).
  congruence.
Qed.

Lemma filter_map_app {A B} (f : A -> option B) l l' :
  filter_map f (l ++ l') = filter_map f l ++ filter_map f l'.
Proof. induction l as [|a l IH]; cbn; [done|]. destruct (f a); by rewrite IH. Qed.

Lemma urls_effective_once get : List.NoDup (read_effective_public_base_urls get).
Proof.
  unfold read_effective_public_base_urls.
  destruct (read_public_base_urls _ _) eqn:E; [apply NoDup_keep_first|].
  rewrite <- E. apply NoDup_keep_first.
Qed.

(** The policy read from any configuration snapshot is well formed: every
    limit is a positive u64, no URL and no skin domain is listed twice, the
    official texture domains are always listed, and the host of each of the
    server's own base URLs is covered by a listed skin domain, so that the
    diagnostic of missing hosts reports nothing. *)
Theorem policy_read_well_formed get : yggdrasil_policy_ok (from_runtime_config get).
Proof.
  split.
  - split_and!; by apply read_positive_range.
  - apply NoDup_keep_first.
  - apply urls_effective_once.
  - intros d Hd. apply in_keep_first, in_app_iff. left. apply in_filter_map. exists d.
    split; [by apply in_app_iff; left|]. by destruct Hd as [<-|[<-|[]]].
  - apply missing_nil. intros h Hh. exists h. split; [|apply matches_itself].
    apply in_keep_first, in_app_iff. right. rewrite <- filter_map_app. exact Hh.
Qed.

Lemma normalize_list_ok key v m f s :
  normalize_list key v m f = Ok s ->
  exists items out, parse_string_array v key = Ok items /\ collect f items = Ok out /\
    strings_to_json (keep_first out) = Ok s.
Proof.
  unfold normalize_list. destruct (parse_string_array v key) as [items| |]; [|done..]. cbn.
  destruct (collect f items) as [out| |] eqn:Ec; [|done..].
  destruct (strings_to_json _) as [s'| |] eqn:Es; [|done..]. intros [= ->]. eauto.
Qed.

(** The skin domains an administrator stores are in normal form: the
    normalised value parses to a list without repetitions of trimmed,
    lower-case host rules (no URL, port or wildcard; every label valid),
    normalising it again changes nothing, and a policy read from a snapshot
    that holds it lists every one of them. *)
Theorem skin_domains_normal_form v s :
  normalize_yggdrasil_config_value YGGDRASIL_SKIN_DOMAINS_KEY v = Ok s ->
  exists domains,
    parse_string_array s YGGDRASIL_SKIN_DOMAINS_KEY = Ok domains /\ List.NoDup domains /\
    (forall d, In d domains -> skin_domain_rule d) /\
    normalize_yggdrasil_config_value YGGDRASIL_SKIN_DOMAINS_KEY s = Ok s /\
    forall get d, get YGGDRASIL_SKIN_DOMAINS_KEY = Some s -> In d domains ->
      In d (skin_domains (from_runtime_config get)).
Proof.
  change (normalize_yggdrasil_config_value YGGDRASIL_SKIN_DOMAINS_KEY)
    with normalize_skin_domains_config_value.
  intros H. apply normalize_list_ok in H as (items & out & Hp & Hc & Hs).
  pose proof (strings_roundtrip _ _ YGGDRASIL_SKIN_DOMAINS_KEY Hs) as Hr.
  assert (Hd : forall d, In d (keep_first out) -> skin_domain_rule d /\
      normalize_required_skin_domain d = Ok d /\ normalize_skin_domain d = Some d).
  { intros d Hin. rewrite in_keep_first in Hin. destruct (collect_in _ _ _ _ Hc Hin) as (a & _ & Ha).
    by eapply normalize_required_fixed. }
  exists (keep_first out). split_and!; [done|apply NoDup_keep_first|by apply Hd| |].
  - unfold normalize_skin_domains_config_value, normalize_list. rewrite Hr. cbn.
    rewrite collect_fixed by by apply Hd.
    by rewrite (keep_first_id (keep_first out)) by apply NoDup_keep_first; rewrite Hs.
  - intros get d Hg Hin. apply in_keep_first, in_app_iff. left. apply in_filter_map.
    exists d. split; [|by apply Hd]. apply in_app_iff. right.
    unfold read_string_array. by rewrite Hg, Hr.
Qed.
End Config.

(** ** Concrete libraries

    Lists of strings are written with a comma after every entry; a comma
    inside an entry is refused. *)

Fixpoint write_items (l : list string) : outcome string string :=
  match l with
  | [] => Ok EmptyString
  | x :: l =>
      if contains_char ","%char x then Err "comma"%string
      else match write_items l with
           | Ok s => Ok (x +:+ String "," s)
           | other => other
           end
  end.

Fixpoint read_items (s current : string) : list string :=
  match s with
  | EmptyString => []
  | String c s =>
      if eqb ","%char c then current :: read_items s EmptyString
      else read_items s (current +:+ String c EmptyString)
  end.

Lemma read_items_entry x s : forall current,
  contains_char ","%char x = false ->
  read_items (x +:+ String "," s) current = (current +:+ x) :: read_items s EmptyString.
Proof.
  induction x as [|c x IH]; intros current H.
  - by rewrite app_string_nil_r.
  - rewrite app_string_cons. cbn [read_items]. unfold contains_char in H. cbn in H.
    apply orb_false_iff in H as [-> H]. rewrite IH by done. by rewrite app_string_assoc.
Qed.

Lemma read_write_items l : forall s, write_items l = Ok s -> read_items s EmptyString = l.
Proof.
  induction l as [|x l IH]; cbn; intros s; [by intros [= <-]|].
  destruct (contains_char _ x) eqn:E; [done|].
  destruct (write_items l) as [s'| |] eqn:Es; [|done..]. intros [= <-].
  rewrite read_items_entry by done. by rewrite (IH s' eq_refl).
Qed.

Definition forge_config1 : ForgeConfig := {|
  read_bool := fun get key d =>
    match get key with Some v => eqb v "true"%string | None => d end;
  read_positive_u64 := fun _ _ d => d;
  read_bounded_u64 := fun _ _ d _ _ => d;
  normalize_bool := fun _ v => Ok v;
  normalize_positive_u64 := fun _ v => Ok v;
  normalize_bounded_u64 := fun _ v _ _ => Ok v;
  parse_string_array := fun v _ => Ok (read_items v EmptyString);
  parse_single_string_enum_selection := @parse_single_string_enum_selection forge_config0;
  config_error_to_string := fun _ => "invalid"%string;
  display_text_or_default := fun v d _ _ => match v with Some v => v | None => d end;
  forge_gravatar_base_url_or_default := @forge_gravatar_base_url_or_default forge_config0;
  runtime_public_site_origins := fun v => match v with Some v => [v] | None => [] end;
  join_origin_and_path := fun o p => (o +:+ p)%string
|}.

Lemma forge_config1_laws : ForgeConfigLaws forge_config1.
Proof.
  split; cbn; try done.
  - intros get key d E. by rewrite E.
  - intros A v key e p a. apply (@parse_selection_spec forge_config0 _ A v key e p a).
Qed.

Definition yggdrasil_externs1 : YggdrasilExterns := {|
  get_bool_or := fun _ _ d => d;
  get_string_or := fun get key d => match get key with Some v => v | None => d end;
  normalize_http_base_url := fun v _ _ => Ok (Some v);
  url_host := strip_prefix "https://";
  strings_to_json := write_items;
  rsa_private_pkcs8 := fun _ => None;
  rsa_private_pkcs1 := fun _ => None;
  rsa_public_pem := fun _ => None;
  rsa_public_pkcs1 := fun _ => None
|}.

Lemma yggdrasil_externs1_laws : @YggdrasilExternLaws forge_config1 yggdrasil_externs1.
Proof. split. cbn. intros l s _ H. by rewrite (read_write_items l s H). Qed.

Definition stored1 : string := ".example.org,skins.example.net,".
Definition snapshot1 (k : string) : option string :=
  if eqb k YGGDRASIL_SKIN_DOMAINS_KEY then Some stored1
  else if eqb k YGGDRASIL_PUBLIC_BASE_URL_KEY then Some "https://Ygg.Example.ORG,"%string
  else None.

Lemma policy_read_well_formed_witness :
  skin_domains (@from_runtime_config forge_config1 yggdrasil_externs1 snapshot1)
    = [".minecraft.net"; ".mojang.com"; ".example.org"; "skins.example.net";
       "ygg.example.org"]%string /\
  @yggdrasil_policy_ok yggdrasil_externs1
    (@from_runtime_config forge_config1 yggdrasil_externs1 snapshot1).
Proof.
  split; [vm_compute; reflexivity|].
  apply (@policy_read_well_formed forge_config1 forge_config1_laws yggdrasil_externs1).
Defined.

Lemma skin_domains_normal_form_witness :
  @normalize_yggdrasil_config_value forge_config1 yggdrasil_externs1 YGGDRASIL_SKIN_DOMAINS_KEY
    " .Example.ORG,skins.example.net,.example.org ," = Ok stored1 /\
  exists domains,
    @parse_string_array forge_config1 stored1 YGGDRASIL_SKIN_DOMAINS_KEY = Ok domains /\
    List.NoDup domains /\
    (forall d, In d domains -> skin_domain_rule d) /\
    @normalize_yggdrasil_config_value forge_config1 yggdrasil_externs1
      YGGDRASIL_SKIN_DOMAINS_KEY stored1 = Ok stored1 /\
    forall get d, get YGGDRASIL_SKIN_DOMAINS_KEY = Some stored1 -> In d domains ->
      In d (skin_domains (@from_runtime_config forge_config1 yggdrasil_externs1 get)).
Proof.
  split; [vm_compute; reflexivity|].
  apply (@skin_domains_normal_form forge_config1 yggdrasil_externs1 yggdrasil_externs1_laws
           " .Example.ORG,skins.example.net,.example.org ,").
  vm_compute; reflexivity.
Defined.
