(* ===== verification/ObjectStorage.v ===== *)
(** * Object storage

    [object_storage/mod.rs] and [object_storage/local.rs]: the trait the
    texture service stores blobs through, as a class with the laws of an
    object store, and its implementation over a file system.  The names of
    texture blobs are those of [texture_service.rs] and
    [texture_service/maintenance.rs], those of avatars are from
    [profile_service/avatar_storage.rs]. *)

From Stdlib Require Import ZArith List Bool Lia Ascii Permutation.
From stdpp Require Import base decidable list strings gmap pretty.
From S2P Require Import Prelude Text Errors Types AuditLog World Logic.

Local Open Scope Z_scope.
Local Open Scope aster_scope.

(** ** Names of texture blobs *)

(** [str::split_once('/')]. *)
Fixpoint split_once (a : ascii) (s : string) : option (string * string) :=
  match s with
  | EmptyString => None
  | String b s =>
      if eqb a b then Some (EmptyString, s)
      else match split_once a s with Some (p, r) => Some (String b p, r) | None => None end
  end.

Definition strip_suffix (suffix s : string) : option string :=
  match strip_prefix (of_bytes (List.rev (bytes suffix))) (of_bytes (List.rev (bytes s))) with
  | Some r => Some (of_bytes (List.rev (bytes r)))
  | None => None
  end.

Definition is_valid_texture_hash (hash : string) : bool :=
  (str_len hash =? 64)%nat && forallb is_ascii_hexdigit (bytes hash).

(** [&hash[..2]] panics when there is no such prefix. *)
Definition object_storage_key {E} (hash : string) : outcome E string :=
  if (2 <=? str_len hash)%nat && is_char_boundary hash 2
  then Ok (byte_prefix 2 hash +:+ "/" +:+ hash +:+ ".png")
  else Panic "byte index 2 is out of bounds or not a character boundary".

Definition object_storage_key_matches_hash (key hash : string) : bool :=
  if (2 <=? str_len hash)%nat && is_char_boundary hash 2
  then eqb key (byte_prefix 2 hash +:+ "/" +:+ hash +:+ ".png")
  else false.

Definition is_texture_blob_storage_key (key : string) : bool :=
  match split_once "/" key with
  | None => false
  | Some (prefix, file_name) =>
      if negb (str_len prefix =? 2)%nat || negb (forallb is_ascii_hexdigit (bytes prefix))
      then false
      else match strip_suffix ".png" file_name with
           | None => false
           | Some hash =>
               (str_len hash =? 64)%nat && starts_with prefix hash
               && forallb is_ascii_hexdigit (bytes hash)
           end
  end.

(** ** Names of avatars *)

Definition AVATAR_OBJECT_ROOT : string := "avatar".

Definition user_avatar_prefix (user_id version : Z) : string :=
  AVATAR_OBJECT_ROOT +:+ "/user/" +:+ pretty user_id +:+ "/v" +:+ pretty version.

Definition user_avatar_variant_key (prefix : string) (size : Z) : string :=
  prefix +:+ "/" +:+ pretty size +:+ ".webp".

(** The keys the program makes. *)
Definition own_key (key : string) : Prop :=
  is_texture_blob_storage_key key = true \/
  exists user_id version size,
    key = user_avatar_variant_key (user_avatar_prefix user_id version) size.

(** ** The trait

    [put_file] is given the bytes of the local file. *)
Section Trait.
Context `{CB : CacheBackend}.

Class ObjectStorage : Type := {
  put_file : string -> string -> M AsterError.t string;
  get_stream : string -> M AsterError.t string;
  delete : string -> M AsterError.t unit;
  exists_ : string -> M AsterError.t bool;
  list_keys : string -> M AsterError.t (list string)
}.

(** Nothing moved but the object under [key]. *)
Definition only_object (key : string) (w w' : World) : Prop :=
  db w' = db w /\ cache w' = cache w /\ audit_log w' = audit_log w /\
  (step w <= step w')%nat /\ forall k, k <> key -> objects w' !! k = objects w !! k.

Definition stored (key : string) (w : World) : Prop := is_Some (objects w !! key).

(** Nothing but the objects moved. *)
Definition only_objects (w w' : World) : Prop :=
  db w' = db w /\ cache w' = cache w /\ audit_log w' = audit_log w /\ (step w <= step w')%nat.

(** What the services rely on.  An object's name is its own; a failed
    upload may leave something behind but loses nothing that was stored; a
    failed deletion may or may not have deleted; looking changes nothing. *)
Class ObjectStorageLaws (OS : ObjectStorage) : Prop := {
  put_file_frame key content w : only_objects w (snd (put_file key content w));
  delete_frame key w : only_objects w (snd (delete key w));
  exists_reads key w : same w (snd (exists_ key w));
  list_keys_reads prefix w : same w (snd (list_keys prefix w));
  put_file_spec key content w r w' :
    own_key key -> put_file key content w = (r, w') ->
    only_object key w w' /\ (stored key w -> stored key w') /\
    match r with Ok _ => stored key w' | Err _ => True | Panic _ => False end;
  delete_spec key w r w' :
    own_key key -> delete key w = (r, w') ->
    only_object key w w' /\ (stored key w' -> stored key w) /\
    match r with Ok _ => ~ stored key w' | Err _ => True | Panic _ => False end;
  exists_spec key w r w' :
    own_key key -> exists_ key w = (r, w') ->
    match r with Ok b => b = true <-> stored key w | Err _ => True | Panic _ => False end;
  list_keys_spec w r w' :
    list_keys EmptyString w = (r, w') ->
    match r with
    | Ok l => List.NoDup l /\
              forall k, is_texture_blob_storage_key k = true -> In k l <-> stored k w
    | Err _ => True
    | Panic _ => False
    end
}.
End Trait.

(** ** The local file system *)

(** [aster_forge_storage_core]'s key normalisation, the failures of the file
    system by tick, and what a copy that fails leaves at its target. *)
Class FileSystem : Type := {
  normalize_object_key : string -> outcome string string;
  normalize_object_prefix : string -> outcome string string;
  io_fault : nat -> option string;
  no_such_file : string;
  partial_copy : nat -> string -> option string
}.

Class FileSystemLaws (FS : FileSystem) : Prop := {
  normalize_own_key key : own_key key -> normalize_object_key key = Ok key;
  normalize_empty_prefix : normalize_object_prefix EmptyString = Ok EmptyString
}.

Module LocalObjectStorage.
Section Local.
Context `{CB : CacheBackend} `{FS : FileSystem}.

Definition normalize_storage_object_key (key : string) : outcome AsterError.t string :=
  match normalize_object_key key with
  | Ok k => Ok k
  | Err e => Err (AsterError.ValidationError e)
  | Panic m => Panic m
  end.

Definition normalize_storage_prefix (prefix : string) : outcome AsterError.t string :=
  match normalize_object_prefix prefix with
  | Ok p => Ok p
  | Err e => Err (AsterError.ValidationError e)
  | Panic m => Panic m
  end.

(** One call of [tokio::fs]. *)
Definition fs {A} (context : string) (mapper : string -> AsterError.t)
  (f : gmap string string -> A * gmap string string) : M AsterError.t A :=
  fun w =>
    match io_fault (step w) with
    | Some e => (Err (mapper (context +:+ ": " +:+ e)), tick w)
    | None => let (a, o) := f (objects w) in (Ok a, tick (set_objects o w))
    end.

(** [tokio::fs::copy]: a failure may leave part of the file. *)
Definition copy (content target : string) : M AsterError.t unit :=
  fun w =>
    match io_fault (step w) with
    | Some e =>
        (Err (AsterError.InternalError ("store object: " +:+ e)),
         tick (match partial_copy (step w) content with
               | Some part => set_objects (<[target := part]> (objects w)) w
               | None => w
               end))
    | None => (Ok tt, tick (set_objects (<[target := content]> (objects w)) w))
    end.

Definition put_file (key content : string) : M AsterError.t string :=
  let* key := lift (normalize_storage_object_key key) in
  let* _ := fs "create object storage dir" AsterError.InternalError (fun o => (tt, o)) in
  let* found := fs "check existing object" AsterError.InternalError
                  (fun o => (is_some (o !! key), o)) in
  if found then ret key
  else
    do* copy content key in
    ret key.

Definition get_stream (key : string) : M AsterError.t string :=
  let* key := lift (normalize_storage_object_key key) in
  let* found := fs "open object" AsterError.RecordNotFound (fun o => (o !! key, o)) in
  match found with
  | Some content => ret content
  | None => throw (AsterError.RecordNotFound ("open object: " +:+ no_such_file))
  end.

(** A missing file is deleted already. *)
Definition delete (key : string) : M AsterError.t unit :=
  let* key := lift (normalize_storage_object_key key) in
  fs "delete object" AsterError.InternalError (fun o => (tt, base.delete key o)).

Definition exists_ (key : string) : M AsterError.t bool :=
  let* key := lift (normalize_storage_object_key key) in
  fs "check object exists" AsterError.InternalError (fun o => (is_some (o !! key), o)).

(** The walk of the directory [prefix], with its keys sorted; the failures of
    the walk's calls are one. *)
Definition under (prefix key : string) : bool :=
  is_empty prefix || starts_with (prefix +:+ "/") key.

Definition keys_under (prefix : string) (o : gmap string string) : list string :=
  List.filter (under prefix) (List.map fst (map_to_list o)).

Definition list_keys (prefix : string) : M AsterError.t (list string) :=
  let* prefix := lift (normalize_storage_prefix prefix) in
  let* found := fs "check object storage prefix" AsterError.InternalError
                  (fun o => (negb (eqb (keys_under prefix o) []), o)) in
  if negb found then ret []
  else
    fs "read object storage dir" AsterError.InternalError (fun o =>
      (sort_by String.leb (keys_under prefix o), o)).

Definition implementation : ObjectStorage :=
  @Build_ObjectStorage _ put_file get_stream delete exists_ list_keys.

(** ** The implementation keeps the laws *)

Lemma fs_run {A} context mapper (f : gmap string string -> A * gmap string string) w r w' :
  fs context mapper f w = (r, w') ->
  (exists e, r = Err e /\ w' = tick w) \/
  (r = Ok (fst (f (objects w))) /\ w' = tick (set_objects (snd (f (objects w))) w)).
Proof.
  unfold fs. destruct (io_fault _) as [e|]; [intros [= <- <-]; eauto|].
  destruct (f (objects w)) as [a o] eqn:E. intros [= <- <-]. by right.
Qed.

Lemma only_objects_refl w : only_objects w w.
Proof. by split_and!. Qed.

Lemma only_objects_trans w1 w2 w3 : only_objects w1 w2 -> only_objects w2 w3 -> only_objects w1 w3.
Proof. intros (? & ? & ? & ?) (? & ? & ? & ?). split_and!; try congruence. lia. Qed.

Lemma fs_frame {A} context mapper (f : gmap string string -> A * gmap string string) w :
  only_objects w (snd (fs context mapper f w)).
Proof.
  unfold fs. destruct (io_fault _); [split_and!; cbn; auto|].
  destruct (f _). split_and!; cbn; auto.
Qed.

Lemma copy_frame content key w : only_objects w (snd (copy content key w)).
Proof.
  unfold copy. destruct (io_fault _); [destruct (partial_copy _ _)|]; split_and!; cbn; auto.
Qed.

Lemma frame_bind {E A B} (c : M E A) (k : A -> M E B) w :
  only_objects w (snd (c w)) -> (forall a w, only_objects w (snd (k a w))) ->
  only_objects w (snd (bind c k w)).
Proof.
  intros Hc Hk. unfold bind. destruct (c w) as [[a|e|m] w1]; cbn in *; try done.
  eapply only_objects_trans; [done|apply Hk].
Qed.

Lemma set_objects_id w : set_objects (objects w) w = w.
Proof. by destruct w. Qed.

Lemma only_object_same key w w' : same w w' -> only_object key w w'.
Proof. intros (? & ? & [? E] & ?). split_and!; auto. intros k _. by rewrite E. Qed.

Lemma only_object_trans key w1 w2 w3 :
  only_object key w1 w2 -> only_object key w2 w3 -> only_object key w1 w3.
Proof.
  intros (? & ? & ? & ? & Ha) (? & ? & ? & ? & Hb). split_and!; try congruence; [lia|].
  intros k Hk. rewrite Hb by done. by apply Ha.
Qed.

(** A step of the file system that looks and does not touch. *)
Lemma wp_look {A} context mapper (f : gmap string string -> A) Q w :
  (forall e w', same w w' -> Q (Err e) w') ->
  (forall w', same w w' -> Q (Ok (f (objects w))) w') ->
  wp (fs context mapper (fun o => (f o, o))) Q w.
Proof.
  intros He Hok. apply wp_intro. intros r w' [(e & -> & ->)|[-> ->]]%fs_run.
  - apply He, same_tick.
  - cbn. rewrite set_objects_id. apply Hok, same_tick.
Qed.

Lemma copy_spec key content w r w' :
  copy content key w = (r, w') ->
  only_object key w w' /\ (stored key w -> stored key w') /\
  match r with Ok _ => stored key w' | Err _ => True | Panic _ => False end.
Proof.
  assert (Hset : forall c, only_object key w (tick (set_objects (<[key:=c]> (objects w)) w))).
  { intros c. split_and!; cbn; auto. intros k Hk. by rewrite lookup_insert_ne. }
  assert (Hin : forall c, stored key (tick (set_objects (<[key:=c]> (objects w)) w))).
  { intros c. unfold stored. cbn. rewrite lookup_insert_eq. eauto. }
  unfold copy. destruct (io_fault _) as [e|].
  - destruct (partial_copy _ _) as [part|]; intros [= <- <-]; (split_and!; [|auto|done]).
    + apply Hset.
    + apply only_object_same, same_tick.
  - intros [= <- <-]. split_and!; auto.
Qed.

Lemma keys_nodup (o : gmap string string) : List.NoDup (List.map fst (map_to_list o)).
Proof. apply NoDup_ListNoDup, NoDup_fst_map_to_list. Qed.

Lemma in_keys (o : gmap string string) k :
  In k (List.map fst (map_to_list o)) <-> is_Some (o !! k).
Proof.
  rewrite in_map_iff. split.
  - intros ((k' & v) & <- & Hin). apply list_elem_of_In, elem_of_map_to_list in Hin. cbn. eauto.
  - intros [v Hv]. exists (k, v). split; [done|]. by apply list_elem_of_In, elem_of_map_to_list.
Qed.

Lemma put_file_frame_local key content w : only_objects w (snd (put_file key content w)).
Proof.
  apply frame_bind; [apply only_objects_refl|intros k w1].
  apply frame_bind; [apply fs_frame|intros [] w2].
  apply frame_bind; [apply fs_frame|intros [] w3]; [apply only_objects_refl|].
  apply frame_bind; [apply copy_frame|intros [] w4]. apply only_objects_refl.
Qed.

Lemma delete_frame_local key w : only_objects w (snd (delete key w)).
Proof. apply frame_bind; [apply only_objects_refl|intros k w1; apply fs_frame]. Qed.

(** A program that looks at one place. *)
Lemma look_reads {A B} context mapper (f : B -> gmap string string -> A) (o : outcome AsterError.t B) w :
  same w (snd (bind (lift o) (fun b => fs context mapper (fun m => (f b m, m))) w)).
Proof.
  destruct o as [b|e|m]; cbn; try apply same_refl. unfold fs. destruct (io_fault _); cbn.
  - apply same_tick.
  - rewrite set_objects_id. apply same_tick.
Qed.

Context `{FL : !FileSystemLaws FS}.

Lemma put_file_local key content w :
  own_key key ->
  wp (put_file key content) (fun r w' =>
    only_object key w w' /\ (stored key w -> stored key w') /\
    match r with Ok _ => stored key w' | Err _ => True | Panic _ => False end) w.
Proof.
  intros Hk. unfold put_file, normalize_storage_object_key.
  rewrite (normalize_own_key _ Hk). wp_step. wp_step. cbn [wp_next].
  assert (Hkeep : forall w', same w w' -> only_object key w w' /\ (stored key w -> stored key w')).
  { intros w' S. split; [by apply only_object_same|]. destruct S as (_ & _ & [_ E] & _).
    unfold stored. by rewrite E. }
  apply wp_bind, (wp_look _ _ (fun _ => tt)).
  { intros e w1 S. cbn [wp_next]. destruct (Hkeep _ S). auto. }
  intros w1 S1. cbn [wp_next]. apply wp_bind, (wp_look _ _ (fun o => is_some (o !! key))).
  { intros e w2 S2. destruct (Hkeep _ (same_trans _ _ _ S1 S2)). cbn [wp_next]. auto. }
  intros w2 S2. destruct (Hkeep _ (same_trans _ _ _ S1 S2)) as [Ho Hs]. cbn [wp_next].
  destruct (is_some _) eqn:E.
  - apply wp_ret. split_and!; auto. apply is_some_true in E. unfold stored.
    destruct S2 as (_ & _ & [_ ->] & _). by apply E.
  - apply wp_bind, wp_intro. intros r w3 (Ho3 & Hs3 & Hr)%copy_spec.
    assert (only_object key w w3) by by eapply only_object_trans.
    destruct r; cbn [wp_next]; [apply wp_ret|..]; split_and!; auto.
Qed.

Lemma delete_local key w :
  own_key key ->
  wp (delete key) (fun r w' =>
    only_object key w w' /\ (stored key w' -> stored key w) /\
    match r with Ok _ => ~ stored key w' | Err _ => True | Panic _ => False end) w.
Proof.
  intros Hk. unfold delete, normalize_storage_object_key. rewrite (normalize_own_key _ Hk).
  wp_step. wp_step. cbn [wp_next]. apply wp_intro. intros r w' [(e & -> & ->)|[-> ->]]%fs_run.
  - split; [apply only_object_same, same_tick|done].
  - split.
    + split_and!; cbn; auto. intros k Hne. by rewrite lookup_delete_ne.
    + assert (~ stored key (tick (set_objects (base.delete key (objects w)) w))) as Hgone
        by (unfold stored; cbn; rewrite lookup_delete_eq; by intros [? ?]).
      by split.
Qed.

Lemma exists_local key w :
  own_key key ->
  wp (exists_ key) (fun r _ =>
    match r with Ok b => b = true <-> stored key w | Err _ => True | Panic _ => False end) w.
Proof.
  intros Hk. unfold exists_, normalize_storage_object_key. rewrite (normalize_own_key _ Hk).
  wp_step. wp_step. cbn [wp_next]. apply (wp_look _ _ (fun o => is_some (o !! key))).
  - done.
  - intros w' S. apply is_some_true.
Qed.

Lemma list_keys_local w :
  wp (list_keys EmptyString) (fun r _ =>
    match r with
    | Ok l => List.NoDup l /\
              forall k, is_texture_blob_storage_key k = true -> In k l <-> stored k w
    | Err _ => True
    | Panic _ => False
    end) w.
Proof.
  unfold list_keys, normalize_storage_prefix. rewrite normalize_empty_prefix.
  wp_step. wp_step. cbn [wp_next].
  assert (forall k, In k (keys_under EmptyString (objects w)) <-> stored k w) as Hin
    by (intros k; unfold keys_under; rewrite filter_In, in_keys; unfold stored, under; cbn; tauto).
  apply wp_bind, (wp_look _ _ (fun o => negb (eqb (keys_under EmptyString o) []))); [done|].
  intros w1 S1. cbn [wp_next]. rewrite negb_involutive.
  destruct (eqb (keys_under EmptyString (objects w)) []) eqn:Ek.
  - rewrite eqb_true in Ek. rewrite Ek in Hin. apply wp_ret. split; [apply List.NoDup_nil|].
    intros k _. apply Hin.
  - apply (wp_look _ _ (fun o => sort_by String.leb (keys_under EmptyString o))); [done|].
    intros w2 S2. destruct S1 as (_ & _ & [_ ->] & _). split.
    + eapply Permutation_NoDup; [symmetry; apply sort_by_perm|]. apply List.NoDup_filter, keys_nodup.
    + intros k _. by rewrite in_sort_by.
Qed.

Lemma list_keys_same prefix w : same w (snd (list_keys prefix w)).
Proof.
  apply (wp_run (list_keys prefix) (fun _ w' => same w w') w (fst (list_keys prefix w))); [|apply surjective_pairing].
  unfold list_keys. apply wp_bind, wp_lift. destruct (normalize_storage_prefix prefix) as [p|e|m];
    cbn [wp_next]; [|apply same_refl..].
  apply wp_bind, (wp_look _ _ (fun o => negb (eqb (keys_under p o) []))); [done|].
  intros w1 S1. cbn [wp_next]. destruct (negb _); [by apply wp_ret|].
  apply (wp_look _ _ (fun o => sort_by String.leb (keys_under p o)));
    intros; by eapply same_trans.
Qed.
End Local.
End LocalObjectStorage.

#[export] Instance local_laws `{CB : CacheBackend} `{FL : FileSystemLaws} :
  ObjectStorageLaws LocalObjectStorage.implementation.
Proof.
  split; cbn; intros *.
  - apply LocalObjectStorage.put_file_frame_local.
  - apply LocalObjectStorage.delete_frame_local.
  - apply (LocalObjectStorage.look_reads _ _ (fun key o => is_some (o !! key))).
  - apply LocalObjectStorage.list_keys_same.
  - intros Hk H. exact (wp_run _ _ _ _ _ (LocalObjectStorage.put_file_local _ _ _ Hk) H).
  - intros Hk H. exact (wp_run _ _ _ _ _ (LocalObjectStorage.delete_local _ _ Hk) H).
  - intros Hk H. exact (wp_run _ _ _ _ _ (LocalObjectStorage.exists_local _ _ Hk) H).
  - intros H. exact (wp_run _ _ _ _ _ (LocalObjectStorage.list_keys_local _) H).
Qed.
