(* ===== verification/TextureRepo.v ===== *)
(** * The texture tables

    [db/repository/minecraft_texture_repo.rs], [minecraft_texture_tag_repo.rs],
    [minecraft_texture_report_repo.rs] and
    [minecraft_profile_texture_preference_repo.rs], with the foreign keys of
    their tables: a deleted texture takes its profile bindings, tags, reports
    and presets with it. *)

From Stdlib Require Import ZArith List Bool Lia Ascii.
From stdpp Require Import base decidable list strings pretty.
From S2P Require Import Prelude Text Errors Types AuditLog World Logic Repos Tokens Auth ForwardTextures Sessions ProfileTextures AuthConfig Accounts WebSessions.

Local Open Scope Z_scope.
Local Open Scope aster_scope.

Import ProfileTextureRepo(is_texture, texture_exists, profile_exists, referencing).

(** [column LIKE '%keyword%'], as it is written and with both sides lower
    case; their collation is the database's. *)
Class TextSearch : Type := {
  like_contains : string -> string -> bool;
  lower_like : string -> string -> bool
}.

Definition user_exists (id : Z) (d : Db) : bool :=
  existsb (fun u => user_pk u =? id) (rows (users d)).

Definition trimmed_keyword (keyword : option string) : option string :=
  match keyword with
  | Some k => let k := trim k in if is_empty k then None else Some k
  | None => None
  end.

(** ** Textures *)
Module TextureRepo.

Record CreateMinecraftTexture : Type := mkCreate {
  ct_user_id : Z;
  ct_texture_type : MinecraftTextureType;
  ct_source : MinecraftTextureSource;
  ct_hash : string;
  ct_storage_key : string;
  ct_mime_type : string;
  ct_file_size : Z;
  ct_width : Z;
  ct_height : Z;
  ct_texture_model : MinecraftTextureModel;
  ct_visibility : MinecraftTextureVisibility;
  ct_is_wardrobe_item : bool;
  ct_display_name : option string
}.

Record WardrobeTextureListFilter : Type := mkWardrobeFilter {
  wf_texture_type : option MinecraftTextureType;
  wf_tag_ids : list Z;
  wf_tag_search_method : TextureTagSearchMethod;
  wf_keyword : option string
}.

Record AdminTextureLibraryListFilter : Type := mkAdminFilter {
  af_texture_type : option MinecraftTextureType;
  af_visibility : option MinecraftTextureVisibility;
  af_library_status : option MinecraftTextureLibraryStatus;
  af_published : option bool;
  af_tag_ids : list Z;
  af_tag_search_method : TextureTagSearchMethod;
  af_keyword : option string
}.

Record UpdateWardrobeTextureMetadata : Type := mkUpdateMetadata {
  um_display_name : option (option string);
  um_texture_model : option MinecraftTextureModel;
  um_visibility : option MinecraftTextureVisibility
}.

Record ReplaceWardrobeTextureContent : Type := mkReplaceContent {
  rc_hash : string;
  rc_storage_key : string;
  rc_mime_type : string;
  rc_file_size : Z;
  rc_width : Z;
  rc_height : Z;
  rc_texture_model : MinecraftTextureModel
}.

Record UpdateTextureLibraryReview : Type := mkReview {
  lr_library_status : MinecraftTextureLibraryStatus;
  lr_submitted_at : option (option DateTimeUtc);
  lr_reviewed_at : option (option DateTimeUtc);
  lr_reviewer_user_id : option (option Z);
  lr_review_note : option (option string)
}.

(** *** The rows the updates write *)

Definition created (input : CreateMinecraftTexture) (now : DateTimeUtc) (id : Z)
  : minecraft_texture :=
  mkTexture id (ct_user_id input) (ct_texture_type input) (ct_source input) (ct_hash input)
    (ct_storage_key input) (ct_mime_type input) (ct_file_size input) (ct_width input)
    (ct_height input) (ct_texture_model input) (ct_visibility input)
    (ct_is_wardrobe_item input) (ct_display_name input) LibPrivate None None None None now now.

Definition copied (t : minecraft_texture) (user_id : Z) (visibility : MinecraftTextureVisibility)
  (display_name : option string) (now : DateTimeUtc) (id : Z) : minecraft_texture :=
  mkTexture id user_id (tex_type t) TextureLocal (tex_hash t) (storage_key t) (mime_type t)
    (file_size t) (tex_width t) (tex_height t) (tex_model t) visibility true display_name
    LibPrivate None None None None now now.

Definition as_wardrobe_item (now : DateTimeUtc) (t : minecraft_texture) : minecraft_texture :=
  mkTexture (tex_pk t) (tex_user_id t) (tex_type t) (tex_source t) (tex_hash t) (storage_key t)
    (mime_type t) (file_size t) (tex_width t) (tex_height t) (tex_model t) (visibility t) true
    (tex_display_name t) (library_status t) (library_submitted_at t) (library_reviewed_at t)
    (library_reviewer_user_id t) (library_review_note t) (tex_created_at t) now.

(** A texture made private leaves the library. *)
Definition with_metadata (input : UpdateWardrobeTextureMetadata) (now : DateTimeUtc)
  (t : minecraft_texture) : minecraft_texture :=
  let hidden := eqb (um_visibility input) (Some VisPrivate) in
  mkTexture (tex_pk t) (tex_user_id t) (tex_type t) (tex_source t) (tex_hash t) (storage_key t)
    (mime_type t) (file_size t) (tex_width t) (tex_height t)
    (default (tex_model t) (um_texture_model input))
    (default (visibility t) (um_visibility input)) (is_wardrobe_item t)
    (default (tex_display_name t) (um_display_name input))
    (if hidden then LibPrivate else library_status t)
    (if hidden then None else library_submitted_at t)
    (if hidden then None else library_reviewed_at t)
    (if hidden then None else library_reviewer_user_id t)
    (if hidden then None else library_review_note t) (tex_created_at t) now.

(** New content leaves the library. *)
Definition with_content (input : ReplaceWardrobeTextureContent) (now : DateTimeUtc)
  (t : minecraft_texture) : minecraft_texture :=
  mkTexture (tex_pk t) (tex_user_id t) (tex_type t) TextureLocal (rc_hash input)
    (rc_storage_key input) (rc_mime_type input) (rc_file_size input) (rc_width input)
    (rc_height input) (rc_texture_model input) (visibility t) (is_wardrobe_item t)
    (tex_display_name t) LibPrivate None None None None (tex_created_at t) now.

Definition with_review (input : UpdateTextureLibraryReview) (now : DateTimeUtc)
  (t : minecraft_texture) : minecraft_texture :=
  mkTexture (tex_pk t) (tex_user_id t) (tex_type t) (tex_source t) (tex_hash t) (storage_key t)
    (mime_type t) (file_size t) (tex_width t) (tex_height t) (tex_model t) (visibility t)
    (is_wardrobe_item t) (tex_display_name t) (lr_library_status input)
    (default (library_submitted_at t) (lr_submitted_at input))
    (default (library_reviewed_at t) (lr_reviewed_at input))
    (default (library_reviewer_user_id t) (lr_reviewer_user_id input))
    (default (library_review_note t) (lr_review_note input)) (tex_created_at t) now.

(** *** Filters *)

Definition owned_by (id user_id : Z) (t : minecraft_texture) : bool :=
  is_texture id t && (tex_user_id t =? user_id).

(** What the public library shows. *)
Definition publicly_listed (t : minecraft_texture) : bool :=
  is_wardrobe_item t && eqb (visibility t) VisPublic && eqb (library_status t) Published.

Definition fingerprint (user_id : Z) (ty : MinecraftTextureType) (source : MinecraftTextureSource)
  (hash : string) (model : MinecraftTextureModel) (t : minecraft_texture) : bool :=
  (tex_user_id t =? user_id) && eqb (tex_type t) ty && eqb (tex_source t) source
  && eqb (tex_hash t) hash && eqb (tex_model t) model && is_wardrobe_item t.

Definition named (user_id : Z) (name : string) (t : minecraft_texture) : bool :=
  (tex_user_id t =? user_id) && eqb (tex_display_name t) (Some name) && is_wardrobe_item t.

Definition texture_id_leb (a b : minecraft_texture) : bool := tex_pk a <=? tex_pk b.

(** [order_by_desc(UpdatedAt).order_by_desc(Id)] *)
Definition newest_updated_then_id (a b : minecraft_texture) : bool :=
  (tex_updated_at b <? tex_updated_at a)
  || ((tex_updated_at b =? tex_updated_at a) && (tex_pk b <=? tex_pk a)).

Definition after_cursor (after : option (DateTimeUtc * Z)) (t : minecraft_texture) : bool :=
  match after with
  | None => true
  | Some (updated_at, id) =>
      (tex_updated_at t <? updated_at) || ((tex_updated_at t =? updated_at) && (tex_pk t <? id))
  end.

Definition has_tag (d : Db) (tag_id : Z) (t : minecraft_texture) : bool :=
  existsb (fun b => (tag_binding_texture_id b =? tex_pk t) && (tag_binding_tag_id b =? tag_id))
    (rows (tag_bindings (library d))).

Definition apply_tag_filter (tag_ids : list Z) (how : TextureTagSearchMethod) (d : Db)
  (t : minecraft_texture) : bool :=
  match tag_ids with
  | [] => true
  | _ =>
      match how with
      | AllTags => forallb (fun id => has_tag d id t) tag_ids
      | AnyTag => existsb (fun id => has_tag d id t) tag_ids
      end
  end.

Definition texture_model_as_str (m : MinecraftTextureModel) : string :=
  match m with ModelDefault => "default" | Slim => "slim" end.

(** The deletion of a row and of what refers to it ([ON DELETE CASCADE]). *)
Definition drop_texture (id : Z) (d : Db) : Db :=
  let l := library d in
  set_library
    (mkLibrary (texture_tags l)
       (with_rows (delete_where (fun b => tag_binding_texture_id b =? id) (rows (tag_bindings l)))
          (tag_bindings l))
       (with_rows (delete_where (fun r => report_texture_id r =? id) (rows (texture_reports l)))
          (texture_reports l))
       (with_rows (delete_where (fun p => preference_texture_id p =? id)
                     (rows (texture_preferences l)))
          (texture_preferences l)))
    (set_profile_textures
       (with_rows (delete_where (fun b => binding_texture_id b =? id) (rows (profile_textures d)))
          (profile_textures d))
       (set_textures (with_rows (delete_where (is_texture id) (rows (textures d))) (textures d)) d)).

Section Ops.
Context `{EN : Env} `{CB : CacheBackend} `{FA : ForgeApi} `{TS : TextSearch}.

Definition texture_keyword_condition (keyword : string) (t : minecraft_texture) : bool :=
  let normalized := to_ascii_lowercase keyword in
  like_contains (tex_hash t) keyword || like_contains (mime_type t) keyword
  || is_some_and (tex_display_name t) (fun n => like_contains n keyword)
  || (eqb normalized (texture_type_as_str Skin) && eqb (tex_type t) Skin)
  || (eqb normalized (texture_type_as_str Cape) && eqb (tex_type t) Cape)
  || (eqb normalized (texture_model_as_str ModelDefault) && eqb (tex_model t) ModelDefault)
  || (eqb normalized (texture_model_as_str Slim) && eqb (tex_model t) Slim).

Definition keyword_filter (keyword : option string) (t : minecraft_texture) : bool :=
  match trimmed_keyword keyword with
  | Some k => texture_keyword_condition k t
  | None => true
  end.

Definition apply_wardrobe_filter (filter : WardrobeTextureListFilter) (d : Db)
  (t : minecraft_texture) : bool :=
  is_none_or (wf_texture_type filter) (eqb (tex_type t))
  && apply_tag_filter (wf_tag_ids filter) (wf_tag_search_method filter) d t
  && keyword_filter (wf_keyword filter) t.

Definition current_user_wardrobe_query (user_id : Z) (filter : WardrobeTextureListFilter) (d : Db)
  (t : minecraft_texture) : bool :=
  (tex_user_id t =? user_id) && is_wardrobe_item t && apply_wardrobe_filter filter d t.

Definition public_wardrobe_query (filter : WardrobeTextureListFilter) (d : Db)
  (t : minecraft_texture) : bool :=
  publicly_listed t && apply_wardrobe_filter filter d t.

Definition admin_library_query (filter : AdminTextureLibraryListFilter) (d : Db)
  (t : minecraft_texture) : bool :=
  is_wardrobe_item t
  && is_none_or (af_texture_type filter) (eqb (tex_type t))
  && is_none_or (af_visibility filter) (eqb (visibility t))
  && is_none_or (af_library_status filter) (eqb (library_status t))
  && is_none_or (af_published filter) (fun published =>
       if published then eqb (visibility t) VisPublic && eqb (library_status t) Published
       else negb (eqb (visibility t) VisPublic) || negb (eqb (library_status t) Published))
  && apply_tag_filter (af_tag_ids filter) (af_tag_search_method filter) d t
  && keyword_filter (af_keyword filter) t.

(** *** Statements *)

Definition create (input : CreateMinecraftTexture) : M AsterError.t minecraft_texture :=
  let* now := utc_now in
  referencing (user_exists (ct_user_id input)) (fun d =>
    match insert_row (fun _ _ => false) (created input now) (textures d) with
    | Some (t, table) => Ok (t, set_textures table d)
    | None => Err (AsterError.DatabaseOperation unique_violation)
    end).

Definition create_wardrobe_copy (t : minecraft_texture) (user_id : Z)
  (visibility : MinecraftTextureVisibility) (display_name : option string)
  : M AsterError.t minecraft_texture :=
  let* now := utc_now in
  referencing (user_exists user_id) (fun d =>
    match insert_row (fun _ _ => false) (copied t user_id visibility display_name now)
            (textures d) with
    | Some (t, table) => Ok (t, set_textures table d)
    | None => Err (AsterError.DatabaseOperation unique_violation)
    end).

Definition find_where (p : minecraft_texture -> bool) : M AsterError.t (option minecraft_texture) :=
  db_query (fun d => find_row p (rows (textures d))).

(** [order_by_asc(Id).one(db)] *)
Definition find_first (p : minecraft_texture -> bool) : M AsterError.t (option minecraft_texture) :=
  db_query (fun d => head (sort_by texture_id_leb (rows_where p (rows (textures d))))).

Definition find_by_id_for_user (id user_id : Z) := find_where (owned_by id user_id).
Definition find_by_id (id : Z) := find_where (is_texture id).
Definition find_by_hash (hash : string) := find_where (fun t => eqb (tex_hash t) hash).
Definition find_public_wardrobe_by_id (id : Z) :=
  find_where (fun t => is_texture id t && publicly_listed t).

Definition find_wardrobe_by_fingerprint (user_id : Z) (ty : MinecraftTextureType)
  (source : MinecraftTextureSource) (hash : string) (model : MinecraftTextureModel) :=
  find_first (fingerprint user_id ty source hash model).
Definition find_wardrobe_by_display_name (user_id : Z) (name : string) :=
  find_first (named user_id name).

Definition find_by_ids (ids : list Z) : M AsterError.t (list minecraft_texture) :=
  match ids with
  | [] => ret []
  | _ => db_query (fun d =>
           sort_by texture_id_leb (rows_where (fun t => mem (tex_pk t) ids) (rows (textures d))))
  end.

Definition list_all : M AsterError.t (list minecraft_texture) :=
  db_query (fun d => sort_by texture_id_leb (rows (textures d))).

Definition list_by_hash (hash : string) : M AsterError.t (list minecraft_texture) :=
  db_query (fun d =>
    sort_by texture_id_leb (rows_where (fun t => eqb (tex_hash t) hash) (rows (textures d)))).

Definition list_by_user (user_id : Z) : M AsterError.t (list minecraft_texture) :=
  db_query (fun d =>
    sort_by newest_updated_then_id
      (rows_where (fun t => (tex_user_id t =? user_id) && is_wardrobe_item t)
         (rows (textures d)))).

Definition count_by_storage_key (key : string) : M AsterError.t Z :=
  db_query (fun d =>
    Z.of_nat (count_where (fun t => eqb (storage_key t) key) (rows (textures d)))).

Definition fetch_updated_at_cursor_slice (base : Db -> minecraft_texture -> bool) (limit : Z)
  (after : option (DateTimeUtc * Z)) : M AsterError.t (CursorSlice minecraft_texture) :=
  let* total := db_query (fun d => Z.of_nat (count_where (base d) (rows (textures d)))) in
  if (total =? 0) || (limit =? 0) then ret (mkSlice [] total false)
  else
    let* items := db_query (fun d =>
      firstn (Z.to_nat (limit + 1))
        (sort_by newest_updated_then_id
           (rows_where (fun t => base d t && after_cursor after t) (rows (textures d))))) in
    lift (match from_overfetch items total limit with
          | Ok s => Ok s
          | Err m => Err (AsterError.ValidationError m)
          | Panic m => Panic m
          end).

Definition list_by_user_cursor (user_id limit : Z) (after : option (DateTimeUtc * Z))
  (filter : WardrobeTextureListFilter) :=
  fetch_updated_at_cursor_slice (current_user_wardrobe_query user_id filter) limit after.
Definition list_public_wardrobe_cursor (limit : Z) (after : option (DateTimeUtc * Z))
  (filter : WardrobeTextureListFilter) :=
  fetch_updated_at_cursor_slice (public_wardrobe_query filter) limit after.
Definition list_admin_library_textures_cursor (limit : Z) (after : option (DateTimeUtc * Z))
  (filter : AdminTextureLibraryListFilter) :=
  fetch_updated_at_cursor_slice (admin_library_query filter) limit after.

Definition update (id : Z) (f : minecraft_texture -> minecraft_texture)
  : M AsterError.t minecraft_texture :=
  db_update textures set_textures tex_pk id f.

Definition mark_as_wardrobe_item (t : minecraft_texture) : M AsterError.t minecraft_texture :=
  let* now := utc_now in
  update (tex_pk t) (as_wardrobe_item now).

Definition update_wardrobe_metadata_for_user (t : minecraft_texture) (user_id : Z)
  (input : UpdateWardrobeTextureMetadata) : M AsterError.t (option minecraft_texture) :=
  if negb (tex_user_id t =? user_id) || negb (is_wardrobe_item t) then ret None
  else
    let* now := utc_now in
    let* updated := update (tex_pk t) (with_metadata input now) in
    ret (Some updated).

(** Writes only the row it was given, at the instant it was read. *)
Definition unchanged_since (t : minecraft_texture) (user_id : Z) (r : minecraft_texture) : bool :=
  owned_by (tex_pk t) user_id r && is_wardrobe_item r && (tex_updated_at r =? tex_updated_at t).

Definition replace_wardrobe_content_for_user (t : minecraft_texture) (user_id : Z)
  (input : ReplaceWardrobeTextureContent) : M AsterError.t (option minecraft_texture) :=
  if negb (tex_user_id t =? user_id) || negb (is_wardrobe_item t) then ret None
  else
    let* now := utc_now in
    let* affected := db_update_many textures set_textures (unchanged_since t user_id)
                       (with_content input now) in
    if negb (affected =? 1) then ret None
    else find_by_id_for_user (tex_pk t) user_id.

Definition update_library_review (t : minecraft_texture) (input : UpdateTextureLibraryReview)
  : M AsterError.t minecraft_texture :=
  let* now := utc_now in
  update (tex_pk t) (with_review input now).

(** [texture.delete(db)]: the number of rows is not looked at. *)
Definition delete_row (id : Z) : M AsterError.t unit :=
  db_exec (fun d => Ok (tt, drop_texture id d)).

Definition delete_by_hash (hash : string) : M AsterError.t (list minecraft_texture) :=
  let* textures := list_by_hash hash in
  do* for_each textures (fun t => delete_row (tex_pk t)) in
  ret textures.

Definition delete_by_id_for_user (id user_id : Z) : M AsterError.t (option minecraft_texture) :=
  let* found := find_by_id_for_user id user_id in
  match found with
  | None => ret None
  | Some t =>
      do* delete_row (tex_pk t) in
      ret (Some t)
  end.

Definition delete_wardrobe_by_id (id : Z) : M AsterError.t (option minecraft_texture) :=
  let* found := find_by_id id in
  match found with
  | None => ret None
  | Some t =>
      if negb (is_wardrobe_item t) then ret None
      else
        do* delete_row (tex_pk t) in
        ret (Some t)
  end.
End Ops.
End TextureRepo.

Import ProfileTextureRepo(texture_exists, profile_exists, referencing).

(** ** Tags *)
Module TagRepo.

Record CreateMinecraftTextureTag : Type := mkCreateTag {
  cg_name : string;
  cg_normalized_name : string;
  cg_color : string;
  cg_sort_order : Z
}.

Record UpdateMinecraftTextureTag : Type := mkUpdateTag {
  ug_name : option string;
  ug_normalized_name : option string;
  ug_color : option string;
  ug_sort_order : option Z
}.

Definition tags (d : Db) : Table minecraft_texture_tag := texture_tags (library d).
Definition bindings (d : Db) : Table minecraft_texture_tag_binding := tag_bindings (library d).

(** The unique indexes. *)
Definition tag_conflict (a b : minecraft_texture_tag) : bool :=
  eqb (tag_normalized_name a) (tag_normalized_name b).
Definition tag_binding_conflict (a b : minecraft_texture_tag_binding) : bool :=
  (tag_binding_texture_id a =? tag_binding_texture_id b)
  && (tag_binding_tag_id a =? tag_binding_tag_id b).

Definition tag_exists (id : Z) (d : Db) : bool :=
  existsb (fun t => tag_pk t =? id) (rows (tags d)).

Definition text_ltb (a b : string) : bool := String.leb a b && negb (eqb a b).

(** [order_by_asc(SortOrder).order_by_asc(Name)], and then by [Id]. *)
Definition sort_then_name (a b : minecraft_texture_tag) : bool :=
  (tag_sort_order a <? tag_sort_order b)
  || ((tag_sort_order a =? tag_sort_order b) && String.leb (tag_name a) (tag_name b)).
Definition sort_then_name_then_id (a b : minecraft_texture_tag) : bool :=
  (tag_sort_order a <? tag_sort_order b)
  || ((tag_sort_order a =? tag_sort_order b)
      && (text_ltb (tag_name a) (tag_name b)
          || (eqb (tag_name a) (tag_name b) && (tag_pk a <=? tag_pk b)))).

Definition after_cursor (after : option (Z * string * Z)) (t : minecraft_texture_tag) : bool :=
  match after with
  | None => true
  | Some (sort_order, name, id) =>
      (sort_order <? tag_sort_order t)
      || ((tag_sort_order t =? sort_order) && text_ltb name (tag_name t))
      || ((tag_sort_order t =? sort_order) && eqb (tag_name t) name && (id <? tag_pk t))
  end.

Definition updated (input : UpdateMinecraftTextureTag) (now : DateTimeUtc)
  (t : minecraft_texture_tag) : minecraft_texture_tag :=
  mkTag (tag_pk t) (default (tag_name t) (ug_name input))
    (default (tag_normalized_name t) (ug_normalized_name input))
    (default (tag_color t) (ug_color input)) (default (tag_sort_order t) (ug_sort_order input))
    (tag_created_at t) now.

(** The bindings of some textures joined with their tags, in tag order. *)
Definition joined (p : minecraft_texture_tag_binding -> bool) (d : Db)
  : list (minecraft_texture_tag_binding * minecraft_texture_tag) :=
  sort_by (fun a b => sort_then_name (snd a) (snd b))
    (List.flat_map (fun b =>
       List.map (pair b) (rows_where (fun t => tag_pk t =? tag_binding_tag_id b) (rows (tags d))))
       (rows_where p (rows (bindings d)))).

(** [map.entry(id).or_insert_with(Vec::new).push(tag)] on a [BTreeMap]. *)
Fixpoint push_entry (id : Z) (tag : minecraft_texture_tag)
  (m : list (Z * list minecraft_texture_tag)) : list (Z * list minecraft_texture_tag) :=
  match m with
  | [] => [(id, [tag])]
  | (k, l) :: m' =>
      if id <? k then (id, [tag]) :: m
      else if id =? k then (k, l ++ [tag]) :: m'
      else (k, l) :: push_entry id tag m'
  end.

Section Ops.
Context `{EN : Env} `{CB : CacheBackend} `{FA : ForgeApi} `{TS : TextSearch}.

Definition create (input : CreateMinecraftTextureTag) : M AsterError.t minecraft_texture_tag :=
  let* now := utc_now in
  db_insert tags set_texture_tags tag_conflict (fun id =>
    mkTag id (cg_name input) (cg_normalized_name input) (cg_color input) (cg_sort_order input)
      now now).

Definition list : M AsterError.t (list minecraft_texture_tag) :=
  db_query (fun d => sort_by sort_then_name (rows (tags d))).

Definition texture_tag_list_query (keyword : option string) (t : minecraft_texture_tag) : bool :=
  match trimmed_keyword keyword with
  | Some k => lower_like (tag_name t) k || lower_like (tag_normalized_name t) k
  | None => true
  end.

Definition list_cursor (limit : Z) (after : option (Z * string * Z)) (keyword : option string)
  : M AsterError.t (CursorSlice minecraft_texture_tag) :=
  let limit := SessionRepo.clamp limit 1 100 in
  let base := texture_tag_list_query keyword in
  let* total := db_query (fun d => Z.of_nat (count_where base (rows (tags d)))) in
  if total =? 0 then ret (mkSlice [] total false)
  else
    let* items := db_query (fun d =>
      firstn (Z.to_nat (limit + 1))
        (sort_by sort_then_name_then_id
           (rows_where (fun t => base t && after_cursor after t) (rows (tags d))))) in
    lift (match from_overfetch items total limit with
          | Ok s => Ok s
          | Err m => Err (AsterError.ValidationError m)
          | Panic m => Panic m
          end).

Definition find_by_id (id : Z) : M AsterError.t (option minecraft_texture_tag) :=
  db_query (fun d => find_row (fun t => tag_pk t =? id) (rows (tags d))).

Definition find_by_normalized_name (name : string)
  : M AsterError.t (option minecraft_texture_tag) :=
  db_query (fun d => find_row (fun t => eqb (tag_normalized_name t) name) (rows (tags d))).

Definition find_by_ids (ids : Datatypes.list Z)
  : M AsterError.t (Datatypes.list minecraft_texture_tag) :=
  match ids with
  | [] => ret []
  | _ => db_query (fun d =>
           sort_by sort_then_name (rows_where (fun t => mem (tag_pk t) ids) (rows (tags d))))
  end.

Definition update (t : minecraft_texture_tag) (input : UpdateMinecraftTextureTag)
  : M AsterError.t minecraft_texture_tag :=
  let* now := utc_now in
  db_exec (fun d =>
    match update_row tag_pk (tag_pk t) (updated input now) (tags d) with
    | Some (r, table) =>
        if existsb (fun o => negb (tag_pk o =? tag_pk t) && tag_conflict r o) (rows (tags d))
        then Err (AsterError.DatabaseOperation unique_violation)
        else Ok (r, set_texture_tags table d)
    | None => Err (AsterError.DatabaseOperation record_not_updated)
    end).

(** A deleted tag takes its bindings with it. *)
Definition delete (id : Z) : M AsterError.t bool :=
  db_exec (fun d =>
    Ok (0 <? Z.of_nat (count_where (fun t => tag_pk t =? id) (rows (tags d))),
        set_tag_bindings
          (with_rows (delete_where (fun b => tag_binding_tag_id b =? id) (rows (bindings d)))
             (bindings d))
          (set_texture_tags
             (with_rows (delete_where (fun t => tag_pk t =? id) (rows (tags d))) (tags d)) d))).

Definition insert_binding (texture_id tag_id : Z) (now : DateTimeUtc) : M AsterError.t unit :=
  referencing (fun d => texture_exists texture_id d && tag_exists tag_id d) (fun d =>
    match insert_row tag_binding_conflict (fun id => mkTagBinding id texture_id tag_id now)
            (bindings d) with
    | Some (_, table) => Ok (tt, set_tag_bindings table d)
    | None => Err (AsterError.DatabaseOperation unique_violation)
    end).

(** Not a transaction: a failure leaves the tags it got to. *)
Definition replace_texture_tags (texture_id : Z) (tag_ids : Datatypes.list Z)
  : M AsterError.t unit :=
  let* _ := db_delete_many bindings set_tag_bindings
              (fun b => tag_binding_texture_id b =? texture_id) in
  let* now := utc_now in
  for_each tag_ids (fun tag_id => insert_binding texture_id tag_id now).

Definition list_for_texture (texture_id : Z)
  : M AsterError.t (Datatypes.list minecraft_texture_tag) :=
  db_query (fun d =>
    List.map snd (joined (fun b => tag_binding_texture_id b =? texture_id) d)).

Definition list_for_texture_ids (ids : Datatypes.list Z)
  : M AsterError.t (Datatypes.list (Z * Datatypes.list minecraft_texture_tag)) :=
  match ids with
  | [] => ret []
  | _ => db_query (fun d =>
           List.fold_left (fun m bt => push_entry (tag_binding_texture_id (fst bt)) (snd bt) m)
             (joined (fun b => mem (tag_binding_texture_id b) ids) d) [])
  end.
End Ops.
End TagRepo.

(** ** Reports *)
Module ReportRepo.

Record CreateTextureReport : Type := mkCreateReport {
  cr_texture_id : Z;
  cr_reporter_user_id : Z;
  cr_reason : MinecraftTextureReportReason;
  cr_message : option string
}.

Record AdminTextureReportListFilter : Type := mkReportFilter {
  rf_status : option MinecraftTextureReportStatus;
  rf_reason : option MinecraftTextureReportReason;
  rf_texture_id : option Z
}.

Record HandleTextureReport : Type := mkHandle {
  hr_status : MinecraftTextureReportStatus;
  hr_admin_note : option string;
  hr_handled_by_user_id : Z;
  hr_handled_at : DateTimeUtc
}.

Definition reports (d : Db) : Table minecraft_texture_report := texture_reports (library d).

Definition is_pending_report (r : minecraft_texture_report) : bool :=
  eqb (report_status r) ReportPending.

Definition handled (input : HandleTextureReport) (now : DateTimeUtc)
  (r : minecraft_texture_report) : minecraft_texture_report :=
  mkReport (report_pk r) (report_texture_id r) (reporter_user_id r) (report_reason r)
    (report_message r) (hr_status input) (hr_admin_note input)
    (Some (hr_handled_by_user_id input)) (Some (hr_handled_at input)) (report_created_at r) now.

Definition newest_created_then_id (a b : minecraft_texture_report) : bool :=
  (report_created_at b <? report_created_at a)
  || ((report_created_at b =? report_created_at a) && (report_pk b <=? report_pk a)).

Definition after_cursor (after : option (DateTimeUtc * Z)) (r : minecraft_texture_report)
  : bool :=
  match after with
  | None => true
  | Some (created_at, id) =>
      (report_created_at r <? created_at)
      || ((report_created_at r =? created_at) && (report_pk r <? id))
  end.

Definition filtered_query (filter : AdminTextureReportListFilter) (r : minecraft_texture_report)
  : bool :=
  is_none_or (rf_status filter) (eqb (report_status r))
  && is_none_or (rf_reason filter) (eqb (report_reason r))
  && is_none_or (rf_texture_id filter) (Z.eqb (report_texture_id r)).

Section Ops.
Context `{EN : Env} `{CB : CacheBackend} `{FA : ForgeApi}.

Definition create (input : CreateTextureReport) : M AsterError.t minecraft_texture_report :=
  let* now := utc_now in
  referencing (fun d => texture_exists (cr_texture_id input) d
                        && user_exists (cr_reporter_user_id input) d) (fun d =>
    match insert_row (fun _ _ => false) (fun id =>
            mkReport id (cr_texture_id input) (cr_reporter_user_id input) (cr_reason input)
              (cr_message input) ReportPending None None None now now) (reports d) with
    | Some (r, table) => Ok (r, set_texture_reports table d)
    | None => Err (AsterError.DatabaseOperation unique_violation)
    end).

Definition find_by_id (id : Z) : M AsterError.t (option minecraft_texture_report) :=
  db_query (fun d => find_row (fun r => report_pk r =? id) (rows (reports d))).

Definition find_pending_for_reporter_and_texture (user_id texture_id : Z)
  : M AsterError.t (option minecraft_texture_report) :=
  db_query (fun d =>
    find_row (fun r => (reporter_user_id r =? user_id) && (report_texture_id r =? texture_id)
                       && is_pending_report r) (rows (reports d))).

Definition list_cursor (limit : Z) (filter : AdminTextureReportListFilter)
  (after : option (DateTimeUtc * Z)) : M AsterError.t (CursorSlice minecraft_texture_report) :=
  let limit := SessionRepo.clamp limit 1 100 in
  let base := filtered_query filter in
  let* total := db_query (fun d => Z.of_nat (count_where base (rows (reports d)))) in
  let* items := db_query (fun d =>
    firstn (Z.to_nat (limit + 1))
      (sort_by newest_created_then_id
         (rows_where (fun r => base r && after_cursor after r) (rows (reports d))))) in
  lift (match from_overfetch items total limit with
        | Ok s => Ok s
        | Err m => Err (AsterError.ValidationError m)
        | Panic m => Panic m
        end).

(** [active.update(db)], whose handler must exist. *)
Definition write_handled (id : Z) (input : HandleTextureReport) (now : DateTimeUtc)
  : M AsterError.t minecraft_texture_report :=
  referencing (user_exists (hr_handled_by_user_id input)) (fun d =>
    match update_row report_pk id (handled input now) (reports d) with
    | Some (r, table) => Ok (r, set_texture_reports table d)
    | None => Err (AsterError.DatabaseOperation record_not_updated)
    end).

Definition handle (r : minecraft_texture_report) (input : HandleTextureReport)
  : M AsterError.t minecraft_texture_report :=
  let* now := utc_now in
  write_handled (report_pk r) input now.

Fixpoint handle_each (l : list minecraft_texture_report) (input : HandleTextureReport)
  (now : DateTimeUtc) : M AsterError.t (list minecraft_texture_report) :=
  match l with
  | [] => ret []
  | r :: l =>
      let* u := write_handled (report_pk r) input now in
      let* us := handle_each l input now in
      ret (u :: us)
  end.

Definition handle_pending_for_texture (texture_id : Z) (input : HandleTextureReport)
  : M AsterError.t (list minecraft_texture_report) :=
  let* found := db_query (fun d =>
    rows_where (fun r => (report_texture_id r =? texture_id) && is_pending_report r)
      (rows (reports d))) in
  let* now := utc_now in
  handle_each found input now.
End Ops.
End ReportRepo.

(** ** Local presets *)
Module PreferenceRepo.

Record UpsertMinecraftProfileTexturePreference : Type := mkUpsertPreference {
  pp_profile_id : Z;
  pp_texture_type : MinecraftTextureType;
  pp_texture_id : Z
}.

Definition preferences (d : Db) : Table minecraft_profile_texture_preference :=
  texture_preferences (library d).

Definition prefers (profile_id : Z) (ty : MinecraftTextureType)
  (p : minecraft_profile_texture_preference) : bool :=
  (preference_profile_id p =? profile_id) && eqb (preference_texture_type p) ty.

Definition preference_conflict (a b : minecraft_profile_texture_preference) : bool :=
  prefers (preference_profile_id b) (preference_texture_type b) a.

Definition repointed (texture_id : Z) (now : DateTimeUtc)
  (p : minecraft_profile_texture_preference) : minecraft_profile_texture_preference :=
  mkPreference (preference_pk p) (preference_profile_id p) (preference_texture_type p) texture_id
    (preference_created_at p) now.

Section Ops.
Context `{EN : Env} `{CB : CacheBackend}.

Definition find_by_profile_and_type (profile_id : Z) (ty : MinecraftTextureType)
  : M AsterError.t (option minecraft_profile_texture_preference) :=
  db_query (fun d => find_row (prefers profile_id ty) (rows (preferences d))).

Definition upsert (input : UpsertMinecraftProfileTexturePreference)
  : M AsterError.t minecraft_profile_texture_preference :=
  let* now := utc_now in
  let* existing := find_by_profile_and_type (pp_profile_id input) (pp_texture_type input) in
  match existing with
  | Some e =>
      referencing (texture_exists (pp_texture_id input)) (fun d =>
        match update_row preference_pk (preference_pk e) (repointed (pp_texture_id input) now)
                (preferences d) with
        | Some (p, table) => Ok (p, set_texture_preferences table d)
        | None => Err (AsterError.DatabaseOperation record_not_updated)
        end)
  | None =>
      referencing (fun d => profile_exists (pp_profile_id input) d
                            && texture_exists (pp_texture_id input) d) (fun d =>
        match insert_row preference_conflict (fun id =>
                mkPreference id (pp_profile_id input) (pp_texture_type input)
                  (pp_texture_id input) now now) (preferences d) with
        | Some (p, table) => Ok (p, set_texture_preferences table d)
        | None => Err (AsterError.DatabaseOperation unique_violation)
        end)
  end.
End Ops.
End PreferenceRepo.
