(* ===== verification/TextureProcessing.v ===== *)
(** * Texture errors, texture images and blobs

    [services/texture_service/error.rs], [processing.rs] and the validators of
    [services/texture_service.rs]: what an uploaded PNG must be, and the file
    that is stored for it; the PNG codec is the image library's.  Then
    [cache.rs], [maintenance.rs] and the lookups of [query.rs]: the cache from
    hashes to storage keys, the removal of blobs no texture refers to, and the
    checks an operator runs.  At the end, what a response shows of a texture:
    [types.rs], the metadata builders of [query.rs] and the preview URL of
    [preview.rs], whose settings in floating point are a parameter. *)

From Stdlib Require Import ZArith List Bool Lia Ascii.
From stdpp Require Import base decidable list strings pretty.
From S2P Require Import Prelude Text Errors Types AuditLog World Logic Repos Tokens Auth ForwardTextures Sessions ProfileTextures AuthConfig Accounts WebSessions ObjectStorage TextureRepo.

Local Open Scope Z_scope.
Local Open Scope aster_scope.

(** ** Errors *)
Module TextureErrors.

Inductive TextureErrorKind : Type :=
| InvalidTextureType | UploadDisabled | UserBanForbidden | InvalidToken | ForbiddenProfile
| NotFound | Conflict | InvalidContentType | MissingFile | InvalidPng | InvalidDimensions
| Storage.

#[export] Instance TextureErrorKind_eq_dec : EqDecision TextureErrorKind.
Proof. solve_decision. Defined.

Record TextureError : Type := mkError { kind : TextureErrorKind; detail : option string }.

Definition new (k : TextureErrorKind) : TextureError := mkError k None.
Definition with_detail (k : TextureErrorKind) (d : string) : TextureError := mkError k (Some d).

Definition status_code (e : TextureError) : Z :=
  match kind e with
  | InvalidToken => UNAUTHORIZED
  | ForbiddenProfile | UploadDisabled | UserBanForbidden => FORBIDDEN
  | NotFound => NOT_FOUND
  | Conflict => 409
  | InvalidTextureType | InvalidContentType | MissingFile | InvalidPng | InvalidDimensions =>
      BAD_REQUEST
  | Storage => INTERNAL_SERVER_ERROR
  end.

Definition protocol_error_name (e : TextureError) : string :=
  match kind e with
  | InvalidToken | ForbiddenProfile | UploadDisabled | UserBanForbidden =>
      "ForbiddenOperationException"
  | NotFound | Conflict | InvalidTextureType | InvalidContentType | MissingFile | InvalidPng
  | InvalidDimensions => "IllegalArgumentException"
  | Storage => "InternalServerError"
  end.

Definition detail_or (e : TextureError) (d : string) : string :=
  match detail e with Some s => s | None => d end.

Definition protocol_message (e : TextureError) : string :=
  match kind e with
  | InvalidTextureType => "Invalid texture type."
  | UploadDisabled => "Texture upload is disabled."
  | UserBanForbidden => "Texture upload is restricted for this account."
  | InvalidToken => "Invalid token."
  | ForbiddenProfile => "Profile does not belong to this user."
  | NotFound => detail_or e "Texture not found."
  | Conflict => detail_or e "Texture was modified concurrently; try again."
  | InvalidContentType => "Texture file must be image/png."
  | MissingFile => "Texture upload file is missing."
  | InvalidPng => detail_or e "Invalid PNG texture."
  | InvalidDimensions => detail_or e "Invalid texture dimensions."
  | Storage => "Object storage failed."
  end.

(** [impl From<AsterError> for TextureError] *)
Definition from_aster (e : AsterError.t) : TextureError :=
  match e with
  | AsterError.Public _ _ AsterErrorCode.UserBanForbidden _ _ => new UserBanForbidden
  | _ => new Storage
  end.
End TextureErrors.

(** ** Dimensions *)

Definition is_multiple_texture_size (width height unit_width unit_height : Z) : bool :=
  (unit_width <=? width) && (unit_height <=? height)
  && (width mod unit_width =? 0) && (height mod unit_height =? 0)
  && (width / unit_width =? height / unit_height).

Definition validate_texture_dimensions (ty : MinecraftTextureType) (width height : Z)
  : outcome AsterError.t unit :=
  let valid :=
    match ty with
    | Skin => is_multiple_texture_size width height 64 32
              || is_multiple_texture_size width height 64 64
    | Cape => is_multiple_texture_size width height 64 32
              || is_multiple_texture_size width height 22 17
    end in
  if negb valid
  then Err (AsterError.ValidationError
         ("invalid " +:+ texture_type_as_str ty +:+ " texture dimensions: " +:+ pretty width
            +:+ "x" +:+ pretty height))
  else Ok tt.

Definition validate_texture_pixel_limit (width height max_pixels : Z)
  : outcome AsterError.t unit :=
  let pixels := width * height in
  if U64_MAX <? pixels
  then Err (AsterError.ValidationError "texture dimensions are too large")
  else if max_pixels <? pixels
  then Err (AsterError.ValidationError
         ("texture dimensions exceed " +:+ pretty max_pixels +:+ " pixels: " +:+ pretty width
            +:+ "x" +:+ pretty height))
  else Ok tt.

(** ** Images *)

Record Image : Type := mkImage { img_width : Z; img_height : Z; pixel : Z -> Z -> Z }.

(** The image library: the header of a PNG, its decoding, the conversion to
    RGBA and the encoder; and the text of a [JoinError]. *)
Class ImageCodec : Type := {
  png_dimensions : string -> outcome string (Z * Z);
  png_decode : string -> outcome string Image;
  to_rgba8 : Image -> Image;
  png_encode : Image -> outcome string string;
  join_error : string -> string
}.

(** Dimensions are [u32]s; the encoder is asked for the size of the image. *)
Class ImageCodecLaws (IC : ImageCodec) : Prop := {
  dimensions_u32 s w h : png_dimensions s = Ok (w, h) -> 0 <= w < 2 ^ 32 /\ 0 <= h < 2 ^ 32;
  decode_u32 s i : png_decode s = Ok i -> 0 <= img_width i < 2 ^ 32 /\ 0 <= img_height i < 2 ^ 32;
  rgba_size i : img_width (to_rgba8 i) = img_width i /\ img_height (to_rgba8 i) = img_height i
}.

Definition wrap_u32 (n : Z) : Z := n mod 2 ^ 32.

Record TextureProcessingResult : Type := mkProcessing {
  pr_width : Z;
  pr_height : Z;
  pr_file_size : Z;
  pr_hash : string
}.

(** [put_pixel] outside the padded image panics. *)
Definition normalize_texture_canvas (ty : MinecraftTextureType) (rgba : Image) (width height : Z)
  : outcome AsterError.t (Image * Z * Z) :=
  if negb (eqb ty Cape) || negb (is_multiple_texture_size width height 22 17)
  then Ok (rgba, width, height)
  else
    let scale := width / 22 in
    let output_width := wrap_u32 (64 * scale) in
    let output_height := wrap_u32 (32 * scale) in
    if (output_width <? width) || (output_height <? height)
    then Panic "Image index out of bounds"
    else
      Ok (mkImage output_width output_height (fun x y =>
            if (0 <=? x) && (x <? width) && (0 <=? y) && (y <? height) then pixel rgba x y else 0),
          output_width, output_height).

Definition context {A} (what : string) (mapper : string -> AsterError.t) (r : outcome string A)
  : outcome AsterError.t A :=
  match r with
  | Ok a => Ok a
  | Err e => Err (mapper (what +:+ ": " +:+ e))
  | Panic m => Panic m
  end.

Section Processing.
Context `{CB : CacheBackend} `{FC : ForgeCrypto} `{IC : ImageCodec} `{FS : FileSystem}.

(** One call on the temporary files. *)
Definition file_op (what : string) (mapper : string -> AsterError.t) : M AsterError.t unit :=
  LocalObjectStorage.fs what mapper (fun o => (tt, o)).

(** The bytes that are written, and what is said of them. *)
Definition sanitize_png_texture (source : string) (ty : MinecraftTextureType) (max_pixels : Z)
  : M AsterError.t (TextureProcessingResult * string) :=
  let* dims := lift (context "decode png header" AsterError.ValidationError
                       (png_dimensions source)) in
  do* lift (validate_texture_pixel_limit (fst dims) (snd dims) max_pixels) in
  do* lift (validate_texture_dimensions ty (fst dims) (snd dims)) in
  do* file_op "rewind png texture" AsterError.ValidationError in
  let* image := lift (context "decode png texture" AsterError.ValidationError
                        (png_decode source)) in
  do* lift (validate_texture_pixel_limit (img_width image) (img_height image) max_pixels) in
  do* lift (validate_texture_dimensions ty (img_width image) (img_height image)) in
  let* canvas := lift (normalize_texture_canvas ty (to_rgba8 image) (img_width image)
                         (img_height image)) in
  let '(rgba, output_width, output_height) := canvas in
  let* encoded := lift (context "encode sanitized png texture" AsterError.InternalError
                          (png_encode rgba)) in
  do* file_op "flush sanitized png texture" AsterError.InternalError in
  ret (mkProcessing output_width output_height (Z.of_nat (str_len encoded)) (sha256_hex encoded),
       encoded).

(** A panic of the blocking task is its [JoinError]. *)
Definition spawn_blocking {A} (c : M AsterError.t A) : M AsterError.t A :=
  fun w =>
    match c w with
    | (Panic m, w') =>
        (Err (AsterError.InternalError ("process texture task: " +:+ join_error m)), w')
    | other => other
    end.

Definition process_texture_file (source : string) (ty : MinecraftTextureType) (max_pixels : Z)
  : M AsterError.t (TextureProcessingResult * string) :=
  spawn_blocking
    (do* file_op "open uploaded texture" AsterError.ValidationError in
     do* file_op "create processed texture" AsterError.InternalError in
     sanitize_png_texture source ty max_pixels).
End Processing.

(** The other conversions of [aster_forge_utils::numbers]. *)
Class TextureNumbers : Type := {
  u32_to_i32 : Z -> string -> outcome string Z;
  usize_to_u64 : Z -> string -> outcome string Z
}.

Definition I32_MAX : Z := 2 ^ 31 - 1.

Class TextureNumberLaws (F : TextureNumbers) : Prop := {
  u32_to_i32_spec n name :
    if n <=? I32_MAX then u32_to_i32 n name = Ok n else exists e, u32_to_i32 n name = Err e;
  usize_to_u64_spec n name :
    match usize_to_u64 n name with Ok m => m = n | Err _ => True | Panic _ => False end
}.

(** [BTreeSet<i64>]: its values in order, each once. *)
Fixpoint set_insert (x : Z) (l : list Z) : list Z :=
  match l with
  | [] => [x]
  | y :: l' => if x <? y then x :: l else if x =? y then l else y :: set_insert x l'
  end.
Definition btree_set (l : list Z) : list Z := List.fold_left (fun s x => set_insert x s) l [].

(** ** The lookup cache *)
Module BlobCache.

Definition TEXTURE_BLOB_LOOKUP_PREFIX : string := "minecraft-texture:blob:".
Definition TEXTURE_BLOB_LOOKUP_TTL_SECS : Z := 600.

Definition texture_blob_lookup_key (hash : string) : string :=
  TEXTURE_BLOB_LOOKUP_PREFIX +:+ hash.

Section Ops.
Context `{EN : Env} `{CB : CacheBackend}.

Definition get_texture_blob_lookup {E} (hash : string) : M E (option string) :=
  if negb (is_valid_texture_hash hash) then ret None
  else
    let* v := cache_read (texture_blob_lookup_key hash) in
    ret (match v with Some (CvBlob storage_key) => Some storage_key | _ => None end).

Definition set_texture_blob_lookup {E} (hash storage_key : string) : M E unit :=
  if negb (is_valid_texture_hash hash) then ret tt
  else cache_write (texture_blob_lookup_key hash) (CvBlob storage_key) TEXTURE_BLOB_LOOKUP_TTL_SECS.

Definition invalidate_texture_blob_lookup {E} (hash : string) : M E unit :=
  if is_valid_texture_hash hash
  then cache_update (fun c => cache_delete c (texture_blob_lookup_key hash))
  else ret tt.
End Ops.
End BlobCache.

Section Blobs.
Context `{EN : Env} `{CB : CacheBackend} `{FA : ForgeApi} `{TS : TextSearch}.

(** ** Lookups *)

Definition texture_by_hash (hash : string) : M AsterError.t (option minecraft_texture) :=
  if negb (is_valid_texture_hash hash) then ret None else TextureRepo.find_by_hash hash.

(** A [TextureBlob] is its storage key. *)
Definition texture_blob_by_hash (hash : string) : M AsterError.t (option string) :=
  if negb (is_valid_texture_hash hash) then ret None
  else
    let* cached := BlobCache.get_texture_blob_lookup hash in
    match cached with
    | Some key => ret (Some key)
    | None =>
        let* found := TextureRepo.find_by_hash hash in
        match storage_key <$> found with
        | Some key =>
            do* BlobCache.set_texture_blob_lookup hash key in
            ret (Some key)
        | None => ret None
        end
    end.

(** ** Cleanup *)

Context `{OS : !ObjectStorage}.

Definition count_object_storage_references (key : string) : M AsterError.t Z :=
  TextureRepo.count_by_storage_key key.

(** Its failures are logged. *)
Definition cleanup_texture_blob_if_unreferenced {E} (key : string) : M E unit :=
  let* ref_count := catch (count_object_storage_references key) in
  match ref_count with
  | inr _ => ret tt
  | inl n =>
      if negb (n =? 0) then ret tt
      else
        let* deleted := catch (delete key) in
        match deleted with
        | inl _ => ret tt
        | inr _ => let* _ := catch (exists_ key) in ret tt
        end
  end.

(** ** Maintenance *)

Record OrphanTextureCleanupResult : Type := mkOrphans {
  orphan_scanned : Z;
  orphan_deleted : Z;
  orphan_skipped : Z
}.

Inductive ObjectStorageConsistencyIssueKind : Type := MissingObject | HashMismatch.

#[global] Instance ObjectStorageConsistencyIssueKind_eq_dec :
  EqDecision ObjectStorageConsistencyIssueKind.
Proof. solve_decision. Defined.

Record ObjectStorageConsistencyIssue : Type := mkIssue {
  issue_texture_id : Z;
  issue_storage_key : string;
  issue_hash : string;
  issue_kind : ObjectStorageConsistencyIssueKind
}.

Record ObjectStorageConsistencyReport : Type := mkReportOf {
  cons_checked : Z;
  cons_missing : Z;
  cons_hash_mismatched : Z;
  cons_issues : list ObjectStorageConsistencyIssue
}.

Context `{TN : TextureNumbers}.

Fixpoint cleanup_orphan_loop (keys : list string) (result : OrphanTextureCleanupResult)
  : M AsterError.t OrphanTextureCleanupResult :=
  match keys with
  | [] => ret result
  | key :: keys =>
      let* references := count_object_storage_references key in
      if 0 <? references
      then cleanup_orphan_loop keys
             (mkOrphans (orphan_scanned result) (orphan_deleted result)
                (orphan_skipped result + 1))
      else
        do* delete key in
        cleanup_orphan_loop keys
          (mkOrphans (orphan_scanned result) (orphan_deleted result + 1)
             (orphan_skipped result))
  end.

Definition cleanup_orphan_texture_blobs : M AsterError.t OrphanTextureCleanupResult :=
  let* storage_keys := list_keys EmptyString in
  let texture_storage_keys := List.filter is_texture_blob_storage_key storage_keys in
  let* scanned := lift (utils (usize_to_u64 (Z.of_nat (length texture_storage_keys))
                                 "orphan texture cleanup scanned count")) in
  cleanup_orphan_loop texture_storage_keys (mkOrphans scanned 0 0).

(** One round of the loop over the textures. *)
Definition check_texture (storage_keys : list string) (report : ObjectStorageConsistencyReport)
  (t : minecraft_texture) : ObjectStorageConsistencyReport :=
  let issue := mkIssue (tex_pk t) (storage_key t) (tex_hash t) in
  if negb (mem (storage_key t) storage_keys)
  then mkReportOf (cons_checked report) (cons_missing report + 1) (cons_hash_mismatched report)
         (cons_issues report ++ [issue MissingObject])
  else if negb (object_storage_key_matches_hash (storage_key t) (tex_hash t))
  then mkReportOf (cons_checked report) (cons_missing report) (cons_hash_mismatched report + 1)
         (cons_issues report ++ [issue HashMismatch])
  else report.

Definition check_object_storage_consistency : M AsterError.t ObjectStorageConsistencyReport :=
  let* textures := TextureRepo.list_all in
  let* storage_keys := list_keys EmptyString in
  let* checked := lift (utils (usize_to_u64 (Z.of_nat (length textures))
                                 "object storage consistency checked count")) in
  ret (List.fold_left (check_texture storage_keys) textures (mkReportOf checked 0 0 [])).
End Blobs.

(** [RuntimeTexturePreviewPolicy]: the name of its engine and the serialised
    fingerprint of its settings for a model. *)
Class PreviewPolicy : Type := {
  preview_engine : string;
  preview_payload : string -> string
}.

Inductive MinecraftTextureMetadataSource : Type := Bound | Default.

Record MinecraftTextureTagInfo : Type := mkTagInfo {
  ti_id : Z;
  ti_name : string;
  ti_color : string;
  ti_sort_order : Z;
  ti_created_at : DateTimeUtc;
  ti_updated_at : DateTimeUtc
}.

Record MinecraftTextureMetadata : Type := mkTextureMetadata {
  md_id : Z;
  md_texture_id : Z;
  md_name : string;
  md_display_name : option string;
  md_profile_id : Z;
  md_profile_uuid : string;
  md_profile_name : string;
  md_hash : string;
  md_texture_type : MinecraftTextureType;
  md_texture_model : MinecraftTextureModel;
  md_visibility : MinecraftTextureVisibility;
  md_width : Z;
  md_height : Z;
  md_file_size : Z;
  md_mime_type : string;
  md_url : string;
  md_preview_url : option string;
  md_source : MinecraftTextureMetadataSource;
  md_texture_source : option MinecraftTextureSource;
  md_created_at : DateTimeUtc;
  md_updated_at : DateTimeUtc
}.

(** The fields the wardrobe and the library show alike. *)
Record TextureView : Type := mkView {
  tv_id : Z;
  tv_name : string;
  tv_display_name : option string;
  tv_hash : string;
  tv_texture_type : MinecraftTextureType;
  tv_texture_model : MinecraftTextureModel;
  tv_visibility : MinecraftTextureVisibility;
  tv_library_status : MinecraftTextureLibraryStatus;
  tv_library_review_note : option string;
  tv_library_submitted_at : option DateTimeUtc;
  tv_library_reviewed_at : option DateTimeUtc;
  tv_tags : list MinecraftTextureTagInfo;
  tv_width : Z;
  tv_height : Z;
  tv_file_size : Z;
  tv_mime_type : string;
  tv_url : string;
  tv_preview_url : option string;
  tv_created_at : DateTimeUtc;
  tv_updated_at : DateTimeUtc
}.

Record MinecraftWardrobeTextureMetadata : Type := mkWardrobeMetadata {
  wm_view : TextureView;
  wm_texture_source : MinecraftTextureSource
}.

Record MinecraftTextureUploaderInfo : Type := mkUploader {
  ui_id : Z;
  ui_username : string;
  ui_public_uuid : string;
  ui_name : string;
  ui_avatar : AvatarInfo
}.

Record PublicTextureLibraryTextureMetadata : Type := mkLibraryMetadata {
  lm_view : TextureView;
  lm_uploader : option MinecraftTextureUploaderInfo
}.

Definition texture_tag_info (t : minecraft_texture_tag) : MinecraftTextureTagInfo :=
  mkTagInfo (tag_pk t) (tag_name t) (tag_color t) (tag_sort_order t) (tag_created_at t)
    (tag_updated_at t).

Definition chars_take (n : nat) (s : string) : string := of_bytes (take_chars n (bytes s)).

Definition texture_display_name (t : minecraft_texture) : string :=
  match trim <$> tex_display_name t with
  | Some name => if is_empty name then chars_take 16 (tex_hash t) else name
  | None => chars_take 16 (tex_hash t)
  end.

Definition site_texture_url (policy : RuntimeYggdrasilPolicy) (hash : string) : string :=
  TextureUrls.texture_base_url policy hash.

(** A [HashMap] collected from keyed rows: of two rows with one key the last
    one stays. *)
Definition by_key {A} (key : A -> Z) (l : list A) (id : Z) : option A :=
  find_row (fun a => key a =? id) (List.rev l).

(** [tags_by_texture.remove(&id).unwrap_or_default()] *)
Definition remove_tags (id : Z) (m : list (Z * list minecraft_texture_tag))
  : list minecraft_texture_tag * list (Z * list minecraft_texture_tag) :=
  (match find_row (fun e => fst e =? id) m with Some e => snd e | None => [] end,
   List.filter (fun e => negb (fst e =? id)) m).

Section Metadata.
Context `{EN : Env} `{CB : CacheBackend} `{FC : ForgeCrypto} `{SE : SkinExterns}.
Context `{RC : RuntimeConfig} `{PP : PreviewPolicy}.

(** ** Preview URLs *)

Definition preview_fingerprint (model : MinecraftTextureModel) : string :=
  chars_take 16 (sha256_hex (preview_payload (TextureRepo.texture_model_as_str model))).

Definition preview_file_name (model : MinecraftTextureModel) : string :=
  preview_engine +:+ "-" +:+ TextureRepo.texture_model_as_str model +:+ "-"
    +:+ preview_fingerprint model +:+ ".png".

Definition current_texture_preview_url (hash : string) (ty : MinecraftTextureType)
  (model : MinecraftTextureModel) : option string :=
  if negb (eqb ty Skin) || negb (is_valid_texture_hash hash) then None
  else Some ("/api/v1/texture-previews/" +:+ hash +:+ "/" +:+ preview_file_name model).

(** ** Textures of a profile *)

Definition texture_metadata (profile : minecraft_profile) (pt : ProfileTextureRepo.ProfileTexture)
  : MinecraftTextureMetadata :=
  let b := ProfileTextureRepo.binding pt in
  let t := ProfileTextureRepo.texture pt in
  mkTextureMetadata (binding_pk b) (tex_pk t) (texture_display_name t) (tex_display_name t)
    (profile_pk profile) (uuid profile) (profile_name profile) (tex_hash t)
    (binding_texture_type b) (tex_model t) (visibility t) (tex_width t) (tex_height t)
    (file_size t) (mime_type t) (site_texture_url policy (tex_hash t))
    (current_texture_preview_url (tex_hash t) (binding_texture_type b) (tex_model t))
    Bound (Some (tex_source t)) (binding_created_at b) (binding_updated_at b).

Definition default_skin_metadata (profile : minecraft_profile) : MinecraftTextureMetadata :=
  let skin := DefaultSkins.for_profile_uuid (uuid profile) in
  mkTextureMetadata 0 0 "Default skin" None (profile_pk profile) (uuid profile)
    (profile_name profile) (DefaultSkins.skin_hash skin) Skin (DefaultSkins.skin_model skin)
    VisPublic (DefaultSkins.skin_width skin) (DefaultSkins.skin_height skin)
    (DefaultSkins.skin_file_size skin) "image/png"
    (TextureUrls.texture_base_url policy (DefaultSkins.skin_hash skin))
    (current_texture_preview_url (DefaultSkins.skin_hash skin) Skin (DefaultSkins.skin_model skin))
    Default None (profile_created_at profile) (profile_updated_at profile).

Definition textures_for_profile (profile_id : Z)
  : M AsterError.t (list ProfileTextureRepo.ProfileTexture) :=
  ProfileTextureRepo.list_by_profile profile_id.

Definition texture_metadata_for_profile (profile : minecraft_profile)
  : M AsterError.t (list MinecraftTextureMetadata) :=
  let* textures := ProfileTextureRepo.list_by_profile (profile_pk profile) in
  let metadata := List.map (texture_metadata profile) textures in
  ret (if negb (existsb (fun m => eqb (md_texture_type m) Skin) metadata)
       then metadata ++ [default_skin_metadata profile]
       else metadata).

(** ** The wardrobe *)

Definition texture_view (t : minecraft_texture) (tags : list minecraft_texture_tag) : TextureView :=
  mkView (tex_pk t) (texture_display_name t) (tex_display_name t) (tex_hash t) (tex_type t)
    (tex_model t) (visibility t) (library_status t) (library_review_note t)
    (library_submitted_at t) (library_reviewed_at t) (List.map texture_tag_info tags)
    (tex_width t) (tex_height t) (file_size t) (mime_type t)
    (site_texture_url policy (tex_hash t))
    (current_texture_preview_url (tex_hash t) (tex_type t) (tex_model t))
    (tex_created_at t) (tex_updated_at t).

Definition wardrobe_texture_metadata_with_tags (t : minecraft_texture)
  (tags : list minecraft_texture_tag) : MinecraftWardrobeTextureMetadata :=
  mkWardrobeMetadata (texture_view t tags) (tex_source t).

Definition wardrobe_texture_metadata (t : minecraft_texture) : MinecraftWardrobeTextureMetadata :=
  wardrobe_texture_metadata_with_tags t [].

Fixpoint with_tags {A} (f : minecraft_texture -> list minecraft_texture_tag -> A)
  (textures : list minecraft_texture) (m : list (Z * list minecraft_texture_tag)) : list A :=
  match textures with
  | [] => []
  | t :: textures =>
      let (tags, m) := remove_tags (tex_pk t) m in
      f t tags :: with_tags f textures m
  end.

Definition wardrobe_texture_metadata_by_texture_ids (textures : list minecraft_texture)
  : M AsterError.t (list MinecraftWardrobeTextureMetadata) :=
  let* tags := TagRepo.list_for_texture_ids (List.map tex_pk textures) in
  ret (with_tags wardrobe_texture_metadata_with_tags textures tags).

(** ** The library *)

Context `{AE : !AccountExterns} `{CF : ForgeConfig} `{ST : ConfigStore}.

Definition texture_uploader_info (u : user) (profile : option user_profile)
  (avatar_audience : option AvatarAudience) : MinecraftTextureUploaderInfo :=
  let name :=
    match trim <$> (profile ≫= up_display_name) with
    | Some n => if is_empty n then username u else n
    | None => username u
    end in
  let avatar :=
    match avatar_audience with
    | Some audience =>
        info_avatar (build_profile_info u profile audience
                       (gravatar_base_url_or_default config_get))
    | None => mkAvatar AvatarNone None None 0
    end in
  mkUploader (user_pk u) (username u) (public_uuid u) name avatar.

Definition public_texture_library_metadata_with_tags (t : minecraft_texture)
  (tags : list minecraft_texture_tag) (uploader : option user)
  (uploader_profile : option user_profile) (avatar_audience : option AvatarAudience)
  : PublicTextureLibraryTextureMetadata :=
  mkLibraryMetadata (texture_view t tags)
    ((fun u => texture_uploader_info u uploader_profile avatar_audience) <$> uploader).

Definition find_users_by_ids (ids : list Z) : M AsterError.t (list user) :=
  match ids with
  | [] => ret []
  | _ => db_query (fun d =>
           sort_by (fun a b => user_pk a <=? user_pk b)
             (rows_where (fun u => mem (user_pk u) ids) (rows (users d))))
  end.

Definition find_user_profile (user_id : Z) : M AsterError.t (option user_profile) :=
  db_query (fun d => find_row (fun p => up_user_id p =? user_id) (rows (user_profiles (accounts d)))).

Definition find_user_profiles (ids : list Z) : M AsterError.t (list user_profile) :=
  match ids with
  | [] => ret []
  | _ => db_query (fun d =>
           rows_where (fun p => mem (up_user_id p) ids) (rows (user_profiles (accounts d))))
  end.

Definition texture_library_metadata (t : minecraft_texture)
  (avatar_audience : option AvatarAudience) : M AsterError.t PublicTextureLibraryTextureMetadata :=
  let* tags := TagRepo.list_for_texture (tex_pk t) in
  let* uploader := UserRepo.find_by_id (tex_user_id t) in
  let* uploader_profile := find_user_profile (tex_user_id t) in
  ret (public_texture_library_metadata_with_tags t tags (Some uploader) uploader_profile
         avatar_audience).

Definition public_texture_library_metadata (t : minecraft_texture) :=
  texture_library_metadata t None.
Definition admin_texture_library_metadata (t : minecraft_texture) :=
  texture_library_metadata t (Some AdminUser).

Definition texture_library_metadata_by_texture_ids (textures : list minecraft_texture)
  (avatar_audience : option AvatarAudience)
  : M AsterError.t (list PublicTextureLibraryTextureMetadata) :=
  let user_ids := btree_set (List.map tex_user_id textures) in
  let* tags := TagRepo.list_for_texture_ids (List.map tex_pk textures) in
  let* users := find_users_by_ids user_ids in
  let* profiles := find_user_profiles user_ids in
  ret (with_tags (fun t tags =>
         public_texture_library_metadata_with_tags t tags (by_key user_pk users (tex_user_id t))
           (by_key up_user_id profiles (tex_user_id t)) avatar_audience) textures tags).

Definition public_texture_library_metadata_by_texture_ids (textures : list minecraft_texture) :=
  texture_library_metadata_by_texture_ids textures None.
Definition admin_texture_library_metadata_by_texture_ids (textures : list minecraft_texture) :=
  texture_library_metadata_by_texture_ids textures (Some AdminUser).
End Metadata.
