(* ===== verification/TextureService.v ===== *)
(** * Uploads, wardrobes and the textures of profiles

    [services/texture_service.rs]: who may change a texture, how an upload
    becomes a wardrobe texture, what is bound to a profile, and what is left
    behind when a texture goes.  Temporary files are the byte strings they
    hold; their removal leaves nothing to model. *)

From Stdlib Require Import ZArith List Bool Lia Ascii.
From stdpp Require Import base decidable list strings pretty.
From S2P Require Import Prelude Text Errors Types AuditLog World Logic Repos Bans Tokens Auth ForwardTextures Sessions ProfileTextures AuthConfig Accounts WebSessions ObjectStorage TextureRepo TextureProcessing.

Local Open Scope Z_scope.
Local Open Scope aster_scope.
Import TextureErrors ProfileTextureRepo.

Abbreviation TM := (M TextureError).

Definition PNG_CONTENT_TYPE : string := "image/png".
Definition WARDROBE_REPLACE_MAX_ATTEMPTS : Z := 4.

(** [.map_err(TextureError::from)?] *)
Definition tex `{CB : CacheBackend} {A} (c : M AsterError.t A) : TM A := map_err from_aster c.

(** ** Requests *)

Definition parse_texture_type (value : string) : outcome TextureError MinecraftTextureType :=
  match parse_path value with Some ty => Ok ty | None => Err (new InvalidTextureType) end.

Definition parse_skin_model (value : option string) : outcome TextureError MinecraftTextureModel :=
  let value := trim (default EmptyString value) in
  if eqb value "" || eqb value "default" then Ok ModelDefault
  else if eqb value "slim" then Ok Slim
  else Err (with_detail InvalidDimensions "Invalid skin model.").

Definition ensure_upload_allowed (profile : minecraft_profile) (ty : MinecraftTextureType)
  : outcome TextureError unit :=
  if existsb (fun item => eqb (trim item) (texture_type_as_str ty))
       (split_char "," (uploadable_textures profile))
  then Ok tt
  else Err (new UploadDisabled).

Definition ensure_profile_texture_mutation_allowed (policy : RuntimeYggdrasilPolicy)
  (profile : minecraft_profile) : outcome TextureError unit :=
  if eqb (source profile) Microsoft && negb (allow_microsoft_profile_texture_override policy)
  then Err (new UploadDisabled)
  else Ok tt.

Definition official_texture_display_name (ty : MinecraftTextureType) : string :=
  match ty with
  | Skin => "Official Minecraft skin"
  | Cape => "Official Minecraft cape"
  end.

(** ** The official texture server

    The URL library, and one HTTP exchange. *)
Record Url : Type := mkUrl { scheme : string; host_str : option string; url_text : string }.

Record HttpResponse : Type := mkResponse {
  response_status : string;
  response_success : bool;
  content_length : option Z;
  bytes_stream : list (outcome string string)
}.

Class OfficialTextures : Type := {
  parse_url : string -> outcome string Url;
  set_scheme_https : Url -> option Url;
  build_client : nat -> option string;
  http_get : nat -> Url -> outcome string HttpResponse
}.

Definition eq_ignore_ascii_case (a b : string) : bool :=
  eqb (to_ascii_lowercase a) (to_ascii_lowercase b).

Definition is_official_host (url : Url) : bool :=
  is_some_and (host_str url) (fun h => eq_ignore_ascii_case h "textures.minecraft.net").

Definition parse_official_texture_url `{OT : OfficialTextures} (source_url : string)
  : outcome TextureError Url :=
  match parse_url source_url with
  | Panic m => Panic m
  | Err error =>
      Err (with_detail InvalidContentType ("Invalid official texture URL: " +:+ error))
  | Ok url =>
      let official := is_official_host url in
      let is_allowed := (eqb (scheme url) "http" || eqb (scheme url) "https") && official in
      let checked (url : Url) : outcome TextureError Url :=
        if negb (is_allowed && is_official_host url)
        then Err (with_detail InvalidContentType
                    "Official texture URL must use textures.minecraft.net.")
        else Ok url in
      if official && eqb (scheme url) "http"
      then match set_scheme_https url with
           | None => Err (with_detail InvalidContentType "Invalid official texture URL scheme.")
           | Some url => checked url
           end
      else checked url
  end.

(** ** Receiving a file *)

Record ReceiveErrors : Type := mkReceive {
  chunk_name : string;
  read_failed : string -> TextureError;
  counter_overflow : TextureError;
  exceeds : Z -> TextureError;
  write_failed : string
}.

Definition multipart_errors : ReceiveErrors :=
  mkReceive "texture upload chunk"
    (fun e => with_detail InvalidPng ("Invalid multipart file field: " +:+ e))
    (with_detail InvalidDimensions "Texture upload is too large.")
    (fun n => with_detail InvalidDimensions
                ("Texture upload exceeds " +:+ pretty n +:+ " bytes."))
    "Failed to write upload temp file: ".

Definition official_errors : ReceiveErrors :=
  mkReceive "official texture chunk"
    (fun e => with_detail Storage ("Failed to read official texture response: " +:+ e))
    (with_detail InvalidDimensions "Official texture is too large.")
    (fun n => with_detail InvalidDimensions
                ("Official texture exceeds " +:+ pretty n +:+ " bytes."))
    "Failed to write official texture temp file: ".

Section Service.
Context `{EN : Env} `{CB : CacheBackend} `{FC : ForgeCrypto} `{FA : ForgeApi} `{TS : TextSearch}.
Context `{FN : ForgeNumbers} `{TN : TextureNumbers} `{SE : SkinExterns} `{TX : TextureExterns}.
Context `{RC : RuntimeConfig} `{PP : PreviewPolicy} `{IC : ImageCodec} `{FS : FileSystem}.
Context `{OS : !ObjectStorage} `{OT : OfficialTextures} `{BE : BanExterns}.

(** One call on a temporary file. *)
Definition temp_file (what : string) : TM unit :=
  fun w =>
    match io_fault (step w) with
    | Some e => (Err (with_detail Storage (what +:+ e)), tick w)
    | None => (Ok tt, tick w)
    end.

(** The loop over the chunks: at most [max_bytes] bytes are written. *)
Fixpoint receive_chunks (errors : ReceiveErrors) (max_bytes : Z)
  (chunks : list (outcome string string)) (written : Z) (content : string) : TM string :=
  match chunks with
  | [] => ret content
  | Err e :: _ => throw (read_failed errors e)
  | Panic m :: _ => panic m
  | Ok chunk :: chunks =>
      let* chunk_len := tex (lift (utils (usize_to_u64 (Z.of_nat (str_len chunk))
                                            (chunk_name errors)))) in
      let written := written + chunk_len in
      if U64_MAX <? written then throw (counter_overflow errors)
      else if max_bytes <? written then throw (exceeds errors max_bytes)
      else
        do* temp_file (write_failed errors) in
        receive_chunks errors max_bytes chunks written (content +:+ chunk)
  end.

Definition write_multipart_texture_field_to_file (field : list (outcome string string))
  (max_upload_bytes : Z) : TM string :=
  do* temp_file "Failed to create upload temp dir: " in
  do* temp_file "Failed to create upload temp file: " in
  let* content := receive_chunks multipart_errors max_upload_bytes field 0 EmptyString in
  do* temp_file "Failed to flush upload temp file: " in
  ret content.

Definition fetch {A} (what : string) (r : outcome string A) : TM A :=
  fun w =>
    (match r with
     | Ok a => Ok a
     | Err e => Err (with_detail Storage (what +:+ e))
     | Panic m => Panic m
     end, tick w).

Definition download_official_texture_to_temp_file (source_url : string) (max_texture_bytes : Z)
  : TM string :=
  let* url := lift (parse_official_texture_url source_url) in
  do* (fun w => fetch "Failed to build official texture HTTP client: "
                  (match build_client (step w) with Some e => Err e | None => Ok tt end) w) in
  let* response := (fun w => fetch "Failed to download official texture: "
                               (http_get (step w) url) w) in
  if negb (response_success response)
  then throw (with_detail Storage
         ("Official texture download returned " +:+ response_status response))
  else if is_some_and (content_length response) (fun n => max_texture_bytes <? n)
  then throw (exceeds official_errors max_texture_bytes)
  else
    do* temp_file "Failed to create official texture temp file: " in
    let* content := receive_chunks official_errors max_texture_bytes (bytes_stream response) 0
                      EmptyString in
    do* temp_file "Failed to flush official texture temp file: " in
    ret content.

(** ** Caches *)

(** The failure of the second statement is logged. *)
Definition invalidate_profile_texture_caches {E} (profile_id : Z) : M E unit :=
  do* Properties.invalidate_profile_properties_cache profile_id in
  let* _ := catch (ProfileRepo.touch_by_id profile_id) in
  ret tt.

Definition invalidate_profile_texture_caches_for_bindings {E} (bindings : list ProfileTexture)
  : M E unit :=
  for_each (btree_set (List.map (fun b => binding_profile_id (binding b)) bindings))
    invalidate_profile_texture_caches.

Definition invalidate_texture_asset_caches {E} (t : minecraft_texture) : M E unit :=
  BlobCache.invalidate_texture_blob_lookup (tex_hash t).

(** ** Unreferenced assets *)

Definition cleanup_texture_asset_if_unreferenced {E} (t : minecraft_texture) : M E unit :=
  if is_wardrobe_item t then ret tt
  else
    let* ref_count := catch (count_by_texture_id (tex_pk t)) in
    match ref_count with
    | inr _ => ret tt
    | inl n =>
        if negb (n =? 0) then ret tt
        else
          let* deleted := catch (TextureRepo.delete_by_id_for_user (tex_pk t) (tex_user_id t)) in
          match deleted with
          | inr _ => ret tt
          | inl _ => cleanup_texture_blob_if_unreferenced (storage_key t)
          end
    end.

(** ** Access *)

Definition authenticate_texture_access (access_token profile_uuid : string)
  : TM (yggdrasil_token * minecraft_profile) :=
  let* token := map_err (fun _ => new InvalidToken) (active_token_for_protocol access_token) in
  match selected_profile_id token with
  | None => throw (new InvalidToken)
  | Some selected_profile_id =>
      let* profile := tex (ProfileRepo.find_by_id selected_profile_id) in
      if negb (eqb (uuid profile) profile_uuid) then throw (new ForbiddenProfile)
      else ret (token, profile)
  end.

(** ** Storing an asset *)

Record StoreTextureAssetInput : Type := mkAsset {
  sa_user_id : Z;
  sa_texture_type : MinecraftTextureType;
  sa_source : MinecraftTextureSource;
  sa_texture_model : MinecraftTextureModel;
  sa_source_file : string;
  sa_visibility : MinecraftTextureVisibility;
  sa_display_name : option string
}.

(** The numbers of a row: an [i64] and two [i32]s. *)
Definition normalized_metadata (p : TextureProcessingResult) : outcome AsterError.t (Z * Z * Z) :=
  and_then (utils (u64_to_i64 (pr_file_size p) "texture file size")) (fun file_size =>
  and_then (utils (u32_to_i32 (pr_width p) "texture width")) (fun width =>
  and_then (utils (u32_to_i32 (pr_height p) "texture height")) (fun height =>
  Ok (file_size, width, height)))).

Definition process_upload (source_file : string) (ty : MinecraftTextureType)
  : TM (TextureProcessingResult * string) :=
  map_err (fun e => with_detail InvalidPng (AsterError.message e))
    (process_texture_file source_file ty (max_texture_pixels policy)).

Definition store_or_reuse_wardrobe_texture (input : StoreTextureAssetInput)
  : TM minecraft_texture :=
  let* processed := process_upload (sa_source_file input) (sa_texture_type input) in
  let (processing, processed_file) := processed in
  let* key := lift (object_storage_key (pr_hash processing)) in
  let* existing := tex (TextureRepo.find_wardrobe_by_fingerprint (sa_user_id input)
                          (sa_texture_type input) (sa_source input) (pr_hash processing)
                          (sa_texture_model input)) in
  match existing with
  | Some existing => ret existing
  | None =>
      let* _ := tex (put_file key processed_file) in
      let* metadata := tex (lift (normalized_metadata processing)) in
      let '(file_size, width, height) := metadata in
      let* texture := catch (TextureRepo.create
        (TextureRepo.mkCreate (sa_user_id input) (sa_texture_type input) (sa_source input)
           (pr_hash processing) key PNG_CONTENT_TYPE file_size width height
           (sa_texture_model input) (sa_visibility input) true (sa_display_name input))) in
      match texture with
      | inl texture => ret texture
      | inr error =>
          do* cleanup_texture_blob_if_unreferenced key in
          throw (from_aster error)
      end
  end.

Definition remember_local_texture_preset (profile : minecraft_profile) (t : minecraft_texture)
  : TM unit :=
  if negb (eqb (tex_source t) TextureLocal) || negb (is_wardrobe_item t) then ret tt
  else
    let* _ := tex (PreferenceRepo.upsert
                (PreferenceRepo.mkUpsertPreference (profile_pk profile) (tex_type t) (tex_pk t))) in
    ret tt.

Record StoredTexture : Type := mkStored {
  stored_texture : ProfileTexture;
  stored_profile : minecraft_profile;
  stored_wardrobe_texture : minecraft_texture
}.

(** What follows a new binding: the replaced texture goes when nothing else
    uses it, and the caches forget what they knew. *)
Definition after_binding {E} (profile : minecraft_profile) (previous : option ProfileTexture)
  (bound : ProfileTexture) : M E unit :=
  do* match previous with
      | Some p =>
          if negb (tex_pk (texture p) =? tex_pk (texture bound))
          then cleanup_texture_asset_if_unreferenced (texture p) else ret tt
      | None => ret tt
      end in
  do* invalidate_profile_texture_caches (profile_pk profile) in
  do* invalidate_texture_asset_caches (texture bound) in
  match previous with
  | Some p => invalidate_texture_asset_caches (texture p)
  | None => ret tt
  end.

(** The bind of an asset that was just stored: the asset goes when it fails. *)
Definition bind_stored (profile : minecraft_profile) (ty : MinecraftTextureType)
  (wardrobe_texture : minecraft_texture) : TM ProfileTexture :=
  let* bound := catch (upsert_for_profile
                         (mkUpsert (profile_pk profile) (tex_pk wardrobe_texture) ty)) in
  match bound with
  | inl bound => ret bound
  | inr error =>
      do* cleanup_texture_asset_if_unreferenced wardrobe_texture in
      throw (from_aster error)
  end.

Definition ensure_may_upload (user_id : Z) : TM unit :=
  do* tex (ensure_user_not_banned user_id TextureUpload) in
  tex (ensure_user_not_banned user_id MinecraftProfileManage).

Definition ensure_may_change (profile : minecraft_profile) (ty : MinecraftTextureType) : TM unit :=
  do* lift (ensure_profile_texture_mutation_allowed policy profile) in
  lift (ensure_upload_allowed profile ty).

Definition store_texture (profile : minecraft_profile) (ty : MinecraftTextureType)
  (model : MinecraftTextureModel) (source_file : string) : TM StoredTexture :=
  do* ensure_may_upload (profile_user_id profile) in
  do* ensure_may_change profile ty in
  let* wardrobe_texture := store_or_reuse_wardrobe_texture
    (mkAsset (profile_user_id profile) ty TextureLocal model source_file VisPrivate None) in
  let* previous := tex (find_by_profile_and_type (profile_pk profile) ty) in
  let* bound := bind_stored profile ty wardrobe_texture in
  do* remember_local_texture_preset profile (texture bound) in
  do* after_binding profile previous bound in
  ret (mkStored bound profile wardrobe_texture).

Definition store_wardrobe_texture (user_id : Z) (ty : MinecraftTextureType)
  (model : MinecraftTextureModel) (vis : MinecraftTextureVisibility) (source_file : string)
  : TM minecraft_texture :=
  do* tex (ensure_user_not_banned user_id TextureUpload) in
  store_or_reuse_wardrobe_texture (mkAsset user_id ty TextureLocal model source_file vis None).

(** *** Official textures *)

Inductive OfficialTextureBindingMode : Type := PreserveLocal | ReplaceCurrent.

Definition import_official_texture_to_profile_with_mode (profile : minecraft_profile)
  (ty : MinecraftTextureType) (model : MinecraftTextureModel) (source_url : string)
  (mode : OfficialTextureBindingMode) : TM unit :=
  let* source_file := download_official_texture_to_temp_file source_url
                        (max_texture_upload_bytes policy) in
  let* wardrobe_texture := store_or_reuse_wardrobe_texture
    (mkAsset (profile_user_id profile) ty TextureMojang model source_file VisPrivate
       (Some (official_texture_display_name ty))) in
  let* previous := tex (find_by_profile_and_type (profile_pk profile) ty) in
  let should_bind :=
    match mode with
    | ReplaceCurrent => true
    | PreserveLocal =>
        is_none_or previous (fun p =>
          eqb (tex_source (texture p)) TextureMojang && eqb (tex_type (texture p)) ty)
    end in
  if negb should_bind then invalidate_texture_asset_caches wardrobe_texture
  else
    let* bound := bind_stored profile ty wardrobe_texture in
    after_binding profile previous bound.

Definition import_official_texture_to_profile (profile : minecraft_profile)
  (ty : MinecraftTextureType) (model : MinecraftTextureModel) (source_url : string) : TM unit :=
  import_official_texture_to_profile_with_mode profile ty model source_url PreserveLocal.

Definition apply_official_texture_to_profile (profile : minecraft_profile)
  (ty : MinecraftTextureType) (model : MinecraftTextureModel) (source_url : string) : TM unit :=
  import_official_texture_to_profile_with_mode profile ty model source_url ReplaceCurrent.

(** *** Binding from the wardrobe *)

(** The text of the first error is a literal: it does not name the texture. *)
Definition bind_wardrobe_texture_to_profile (user_id : Z) (profile : minecraft_profile)
  (wardrobe_texture_id : Z) (ty : MinecraftTextureType) : TM StoredTexture :=
  do* ensure_may_upload user_id in
  do* ensure_may_change profile ty in
  let* found := tex (TextureRepo.find_by_id_for_user wardrobe_texture_id user_id) in
  match found with
  | None => throw (with_detail NotFound "wardrobe texture #{wardrobe_texture_id}")
  | Some wardrobe_texture =>
      if negb (eqb (tex_type wardrobe_texture) ty)
      then throw (with_detail InvalidTextureType
             "Wardrobe texture type does not match the target slot.")
      else
        let* previous := tex (find_by_profile_and_type (profile_pk profile) ty) in
        let* bound := tex (upsert_for_profile
                        (mkUpsert (profile_pk profile) (tex_pk wardrobe_texture) ty)) in
        do* remember_local_texture_preset profile (texture bound) in
        do* after_binding profile previous bound in
        ret (mkStored bound profile wardrobe_texture)
  end.

(** One slot of [apply_local_texture_presets_to_profile]: was it applied? *)
Definition apply_local_preset (user_id : Z) (profile : minecraft_profile)
  (ty : MinecraftTextureType) : TM bool :=
  let* preference := tex (PreferenceRepo.find_by_profile_and_type (profile_pk profile) ty) in
  match preference with
  | None => ret false
  | Some preference =>
      let* found := tex (TextureRepo.find_by_id_for_user (preference_texture_id preference)
                           user_id) in
      match found with
      | None => ret false
      | Some t =>
          if negb (eqb (tex_type t) ty) || negb (eqb (tex_source t) TextureLocal)
             || negb (is_wardrobe_item t)
          then ret false
          else
            let* _ := bind_wardrobe_texture_to_profile user_id profile (tex_pk t) ty in
            ret true
      end
  end.

Definition apply_local_texture_presets_to_profile (user_id : Z) (profile : minecraft_profile)
  : TM (list MinecraftTextureMetadata) :=
  if negb (eqb (source profile) Microsoft) then throw (new ForbiddenProfile)
  else
    let* skin := apply_local_preset user_id profile Skin in
    let* cape := apply_local_preset user_id profile Cape in
    if negb skin && negb cape then throw (with_detail NotFound "local texture preset")
    else tex (texture_metadata_for_profile profile).
End Service.
