(* ===== verification/TextureWardrobe.v ===== *)
(** * Wardrobe textures: replacement, deletion, registration

    The rest of [services/texture_service.rs] on textures a user owns: new
    content for a wardrobe texture under optimistic concurrency, every way a
    texture or a binding is deleted, and the registration of bound textures
    in their owners' wardrobes. *)

From Stdlib Require Import ZArith List Bool Lia Ascii.
From stdpp Require Import base decidable list strings pretty.
From S2P Require Import Prelude Text Errors Types AuditLog World Logic Repos Bans Tokens Auth ForwardTextures Sessions ProfileTextures AuthConfig Accounts WebSessions ObjectStorage TextureRepo TextureProcessing TextureService.

Local Open Scope Z_scope.
Local Open Scope aster_scope.
Import TextureErrors ProfileTextureRepo.

Record DeletedMinecraftTexture : Type := mkDeleted {
  deleted_texture : ProfileTexture;
  deleted_profile : minecraft_profile
}.

Record WardrobeRegistrationResult : Type := mkRegistration {
  scanned_bindings : Z;
  converted_textures : Z;
  rebound_bindings : Z;
  removed_duplicate_textures : Z
}.

Definition missing_wardrobe_texture (id : Z) : TextureError :=
  with_detail NotFound ("wardrobe texture #" +:+ pretty id).

Section Wardrobe.
Context `{EN : Env} `{CB : CacheBackend} `{FC : ForgeCrypto} `{FA : ForgeApi} `{TS : TextSearch}.
Context `{FN : ForgeNumbers} `{TN : TextureNumbers} `{SE : SkinExterns} `{TX : TextureExterns}.
Context `{RC : RuntimeConfig} `{PP : PreviewPolicy} `{IC : ImageCodec} `{FS : FileSystem}.
Context `{OS : !ObjectStorage} `{BE : BanExterns}.

Definition wardrobe_texture_with_current_tags (t : minecraft_texture)
  : M AsterError.t MinecraftWardrobeTextureMetadata :=
  let* tags := TagRepo.list_for_texture (tex_pk t) in
  ret (wardrobe_texture_metadata_with_tags t tags).

(** [.filter(|texture| texture.is_wardrobe_item)] *)
Definition wardrobe_item (found : option minecraft_texture) : option minecraft_texture :=
  match found with
  | Some t => if is_wardrobe_item t then Some t else None
  | None => None
  end.

(** ** New content for a wardrobe texture *)

(** Cleans up the blob that was stored for the replacement. *)
Definition abandon {A} (key : string) (e : TextureError) : TM A :=
  do* cleanup_texture_blob_if_unreferenced key in
  throw e.

Definition same_content (hash : string) (model : MinecraftTextureModel) (t : minecraft_texture)
  : bool :=
  eqb (tex_hash t) hash && eqb (tex_model t) model.

(** The [loop]: the row as it was last read, and as it is now.  [None] is
    the end of the fuel; [attempt] counts the rounds before this one. *)
Fixpoint replacement_loop (fuel : nat) (attempt : Z) (user_id : Z)
  (input : TextureRepo.ReplaceWardrobeTextureContent) (existing : minecraft_texture)
  : TM (option (minecraft_texture * minecraft_texture)) :=
  match fuel with
  | O => ret None
  | S fuel =>
      let id := tex_pk existing in
      let key := TextureRepo.rc_storage_key input in
      let replacement_attempt := attempt + 1 in
      let* replacement := catch (tex (TextureRepo.replace_wardrobe_content_for_user existing
                                        user_id input)) in
      match replacement with
      | inr error => abandon key error
      | inl (Some t) => ret (Some (existing, t))
      | inl None =>
          let* current := catch (TextureRepo.find_by_id_for_user id user_id) in
          match current with
          | inr error => abandon key (from_aster error)
          | inl current =>
              match wardrobe_item current with
              | None => abandon key (missing_wardrobe_texture id)
              | Some current =>
                  if same_content (TextureRepo.rc_hash input)
                       (TextureRepo.rc_texture_model input) current
                  then ret (Some (existing, current))
                  else if WARDROBE_REPLACE_MAX_ATTEMPTS <=? replacement_attempt
                  then abandon key (new Conflict)
                  else replacement_loop fuel replacement_attempt user_id input current
              end
          end
      end
  end.

Definition WARDROBE_REPLACE_FUEL : nat := 4.

(** After the loop. *)
Definition after_replacement (bindings : list ProfileTexture) (existing updated : minecraft_texture)
  : TM MinecraftWardrobeTextureMetadata :=
  do* invalidate_profile_texture_caches_for_bindings bindings in
  do* invalidate_texture_asset_caches existing in
  do* invalidate_texture_asset_caches updated in
  do* (if negb (eqb (storage_key existing) (storage_key updated))
       then cleanup_texture_blob_if_unreferenced (storage_key existing) else ret tt) in
  tex (wardrobe_texture_with_current_tags updated).

Definition model_for (t : minecraft_texture) (model : MinecraftTextureModel)
  : MinecraftTextureModel :=
  if eqb (tex_type t) Skin then model else ModelDefault.

(** With the new content at hand: [put_file] is skipped when the row that was
    read already has it. *)
Definition write_replacement (user_id : Z) (existing : minecraft_texture)
  (model : MinecraftTextureModel) (processing : TextureProcessingResult) (processed_file : string)
  : TM MinecraftWardrobeTextureMetadata :=
  let* metadata := tex (lift (normalized_metadata processing)) in
  let '(file_size, width, height) := metadata in
  let* key := lift (object_storage_key (pr_hash processing)) in
  do* (if negb (eqb (pr_hash processing) (tex_hash existing))
       then let* _ := tex (put_file key processed_file) in ret tt else ret tt) in
  let* bindings := catch (list_by_texture_id (tex_pk existing)) in
  match bindings with
  | inr error => abandon key (from_aster error)
  | inl bindings =>
      let* result := replacement_loop WARDROBE_REPLACE_FUEL 0 user_id
        (TextureRepo.mkReplaceContent (pr_hash processing) key PNG_CONTENT_TYPE file_size width
           height model) existing in
      match result with
      | None => panic "out of fuel"
      | Some (existing, updated) => after_replacement bindings existing updated
      end
  end.

Definition replace_wardrobe_texture_content (user_id wardrobe_texture_id : Z)
  (model : MinecraftTextureModel) (source_file : string)
  : TM MinecraftWardrobeTextureMetadata :=
  do* tex (ensure_user_not_banned user_id TextureUpload) in
  if wardrobe_texture_id <=? 0 then throw (missing_wardrobe_texture wardrobe_texture_id)
  else
    let* found := tex (TextureRepo.find_by_id_for_user wardrobe_texture_id user_id) in
    match wardrobe_item found with
    | None => throw (missing_wardrobe_texture wardrobe_texture_id)
    | Some existing =>
        let model := model_for existing model in
        let* processed := process_upload source_file (tex_type existing) in
        let (processing, processed_file) := processed in
        if same_content (pr_hash processing) model existing
        then tex (wardrobe_texture_with_current_tags existing)
        else write_replacement user_id existing model processing processed_file
    end.

(** ** Deletion of bindings *)

(** A deleted binding's texture goes when nothing else uses it. *)
Definition after_unbinding {E} (deleted : ProfileTexture) : M E unit :=
  do* cleanup_texture_asset_if_unreferenced (texture deleted) in
  invalidate_texture_asset_caches (texture deleted).

(** The statements [delete_texture] and its unchecked form share. *)
Definition unbind (profile : minecraft_profile) (ty : MinecraftTextureType)
  : TM (option ProfileTexture) :=
  let* deleted := tex (delete_for_profile (profile_pk profile) ty) in
  match deleted with
  | Some t =>
      do* after_unbinding t in
      do* invalidate_profile_texture_caches (profile_pk profile) in
      ret deleted
  | None => ret deleted
  end.

Definition delete_texture (profile : minecraft_profile) (ty : MinecraftTextureType)
  : TM (option ProfileTexture) :=
  do* ensure_may_upload (profile_user_id profile) in
  do* ensure_may_change profile ty in
  unbind profile ty.

Definition delete_texture_for_profile (profile : minecraft_profile) (ty : MinecraftTextureType)
  : TM (option DeletedMinecraftTexture) :=
  let* deleted := delete_texture profile ty in
  ret ((fun t => mkDeleted t profile) <$> deleted).

Definition delete_texture_for_profile_unchecked (profile : minecraft_profile)
  (ty : MinecraftTextureType) : TM (option DeletedMinecraftTexture) :=
  let* deleted := unbind profile ty in
  ret ((fun t => mkDeleted t profile) <$> deleted).

Definition delete_official_texture_for_profile_if_bound (profile : minecraft_profile)
  (ty : MinecraftTextureType) : TM (option DeletedMinecraftTexture) :=
  let* current := tex (find_by_profile_and_type (profile_pk profile) ty) in
  let should_delete := is_some_and current (fun c => eqb (tex_source (texture c)) TextureMojang) in
  if negb should_delete then ret None
  else delete_texture_for_profile_unchecked profile ty.

Fixpoint delete_bindings_of_hash (l : list ProfileTexture) (deleted : list DeletedMinecraftTexture)
  : TM (list DeletedMinecraftTexture) :=
  match l with
  | [] => ret deleted
  | t :: l =>
      let* profile := tex (ProfileRepo.find_by_id (binding_profile_id (binding t))) in
      let* d := tex (delete_for_profile (profile_pk profile) (binding_texture_type (binding t))) in
      match d with
      | None => delete_bindings_of_hash l deleted
      | Some d =>
          do* cleanup_texture_asset_if_unreferenced (texture d) in
          do* invalidate_profile_texture_caches (profile_pk profile) in
          do* invalidate_texture_asset_caches (texture d) in
          delete_bindings_of_hash l (deleted ++ [mkDeleted d profile])
      end
  end.

Definition delete_textures_by_hash (hash : string) : TM (list DeletedMinecraftTexture) :=
  if negb (is_valid_texture_hash hash) then ret []
  else
    let* textures := tex (list_by_hash hash) in
    let* deleted := delete_bindings_of_hash textures [] in
    let* deleted_assets := tex (TextureRepo.delete_by_hash hash) in
    do* for_each deleted_assets (fun t =>
          do* cleanup_texture_blob_if_unreferenced (storage_key t) in
          invalidate_texture_asset_caches t) in
    ret deleted.

Fixpoint delete_bindings_of_profile (profile_id : Z) (l deleted : list ProfileTexture)
  : TM (list ProfileTexture) :=
  match l with
  | [] => ret deleted
  | t :: l =>
      let* d := tex (delete_for_profile profile_id (binding_texture_type (binding t))) in
      match d with
      | None => delete_bindings_of_profile profile_id l deleted
      | Some d =>
          do* after_unbinding d in
          delete_bindings_of_profile profile_id l (deleted ++ [d])
      end
  end.

Definition delete_all_textures_for_profile (profile : minecraft_profile)
  : TM (list ProfileTexture) :=
  let* textures := tex (list_by_profile (profile_pk profile)) in
  let* deleted := delete_bindings_of_profile (profile_pk profile) textures [] in
  do* match deleted with
      | [] => ret tt
      | _ => invalidate_profile_texture_caches (profile_pk profile)
      end in
  ret deleted.

(** ** Deletion of wardrobe textures *)

Definition delete_wardrobe_texture_unchecked (user_id wardrobe_texture_id : Z)
  : TM minecraft_texture :=
  let* deleted_bindings := tex (list_by_texture_id wardrobe_texture_id) in
  let* deleted := tex (TextureRepo.delete_by_id_for_user wardrobe_texture_id user_id) in
  match deleted with
  | None => throw (missing_wardrobe_texture wardrobe_texture_id)
  | Some t =>
      do* cleanup_texture_blob_if_unreferenced (storage_key t) in
      do* invalidate_profile_texture_caches_for_bindings deleted_bindings in
      do* invalidate_texture_asset_caches t in
      ret t
  end.

Definition delete_wardrobe_texture (user_id wardrobe_texture_id : Z) : TM minecraft_texture :=
  do* tex (ensure_user_not_banned user_id TextureUpload) in
  delete_wardrobe_texture_unchecked user_id wardrobe_texture_id.

Fixpoint delete_each (user_id : Z) (l deleted : list minecraft_texture)
  : TM (list minecraft_texture) :=
  match l with
  | [] => ret deleted
  | t :: l =>
      let* d := catch (delete_wardrobe_texture_unchecked user_id (tex_pk t)) in
      match d with
      | inl t => delete_each user_id l (deleted ++ [t])
      | inr error =>
          if eqb (kind error) NotFound then delete_each user_id l deleted else throw error
      end
  end.

Definition delete_all_wardrobe_textures_for_user (user_id : Z) : TM (list minecraft_texture) :=
  let* textures := tex (TextureRepo.list_by_user user_id) in
  delete_each user_id textures [].

(** ** Registration of bound textures *)

(** One round of the loop. *)
Definition register_binding (result : WardrobeRegistrationResult) (b : ProfileTexture)
  : TM WardrobeRegistrationResult :=
  let t := texture b in
  let profile_id := binding_profile_id (binding b) in
  if is_wardrobe_item t then ret result
  else
    let* found := tex (TextureRepo.find_wardrobe_by_fingerprint (tex_user_id t) (tex_type t)
                         (tex_source t) (tex_hash t) (tex_model t)) in
    match found with
    | None =>
        let* _ := tex (TextureRepo.mark_as_wardrobe_item t) in
        do* invalidate_profile_texture_caches profile_id in
        ret (mkRegistration (scanned_bindings result) (converted_textures result + 1)
               (rebound_bindings result) (removed_duplicate_textures result))
    | Some existing =>
        let* _ := tex (upsert_for_profile
                         (mkUpsert profile_id (tex_pk existing) (binding_texture_type (binding b)))) in
        do* invalidate_profile_texture_caches profile_id in
        do* invalidate_texture_asset_caches existing in
        do* invalidate_texture_asset_caches t in
        let rebound := mkRegistration (scanned_bindings result) (converted_textures result)
                         (rebound_bindings result + 1) (removed_duplicate_textures result) in
        let* deleted := tex (TextureRepo.delete_by_id_for_user (tex_pk t) (tex_user_id t)) in
        match deleted with
        | None => ret rebound
        | Some deleted =>
            do* cleanup_texture_blob_if_unreferenced (storage_key deleted) in
            do* invalidate_texture_asset_caches deleted in
            ret (mkRegistration (scanned_bindings rebound) (converted_textures rebound)
                   (rebound_bindings rebound) (removed_duplicate_textures rebound + 1))
        end
    end.

Fixpoint register_bindings (l : list ProfileTexture) (result : WardrobeRegistrationResult)
  : TM WardrobeRegistrationResult :=
  match l with
  | [] => ret result
  | b :: l =>
      let* result := register_binding result b in
      register_bindings l result
  end.

Definition register_bound_textures_in_wardrobe : TM WardrobeRegistrationResult :=
  let* bindings := tex list_all in
  let* scanned := tex (lift (utils (usize_to_u64 (Z.of_nat (length bindings))
                                      "wardrobe registration scan"))) in
  register_bindings bindings (mkRegistration scanned 0 0 0).
End Wardrobe.
