(* ===== verification/TextureLibrary.v ===== *)
(** * The texture library

    [services/texture_service.rs] and [config/texture_library.rs]: tags, the
    review of submissions, reports, listings and copies of public textures. *)

From Stdlib Require Import ZArith List Bool Lia Ascii.
From stdpp Require Import base decidable list strings pretty.
From S2P Require Import Prelude Text Errors Types AuditLog World Logic Repos Bans Tokens Auth ForwardTextures Sessions ProfileTextures AuthConfig Accounts WebSessions YggdrasilConfig ObjectStorage TextureRepo TextureProcessing TextureService TextureWardrobe.

Local Open Scope Z_scope.
Local Open Scope aster_scope.

(** ** Policy *)

Definition TEXTURE_LIBRARY_ENABLED_KEY : string := "texture_library_enabled".
Definition TEXTURE_LIBRARY_REVIEW_REQUIRED_KEY : string := "texture_library_review_required".
Definition DEFAULT_TEXTURE_LIBRARY_ENABLED : bool := true.
Definition DEFAULT_TEXTURE_LIBRARY_REVIEW_REQUIRED : bool := true.

Record RuntimeTextureLibraryPolicy : Type := mkLibraryPolicy {
  library_enabled : bool;
  review_required : bool
}.

Definition library_policy `{YE : YggdrasilExterns} (get : string -> option string)
  : RuntimeTextureLibraryPolicy :=
  mkLibraryPolicy
    (get_bool_or get TEXTURE_LIBRARY_ENABLED_KEY DEFAULT_TEXTURE_LIBRARY_ENABLED)
    (get_bool_or get TEXTURE_LIBRARY_REVIEW_REQUIRED_KEY
       DEFAULT_TEXTURE_LIBRARY_REVIEW_REQUIRED).

(** ** Validators

    [str::to_lowercase] reads the tables of Unicode. *)
Class Unicode : Type := { to_lowercase : string -> string }.

Definition not_found (code : AsterErrorCode.t) (message : string) : AsterError.t :=
  AsterError.record_not_found_code code message.
Definition invalid (code : AsterErrorCode.t) (message : string) : AsterError.t :=
  AsterError.validation_error_code code message.

(** [match found { Some(x) => x, None => return Err(e) }] *)
Definition some_or {A} (e : AsterError.t) (found : option A) : outcome AsterError.t A :=
  ok_or e found.

(** A trimmed text: nothing when empty, an error when too long. *)
Definition limited_text `{BE : BanExterns} (value : string) (max_chars : Z) (e : AsterError.t)
  : outcome AsterError.t (option string) :=
  let value := trim value in
  if is_empty value then Ok None
  else if max_chars <? char_count value then Err e
  else Ok (Some value).

Section Validators.
Context `{BE : BanExterns} `{UC : Unicode}.

Definition normalize_review_note (value : string) : outcome AsterError.t (option string) :=
  limited_text value 512 (invalid AsterErrorCode.TextureLibraryReviewNoteInvalid
                            "review note must not exceed 512 characters").

Definition normalize_review_note_optional (value : option string)
  : outcome AsterError.t (option string) :=
  match value with Some value => normalize_review_note value | None => Ok None end.

Definition normalize_review_note_required (value : option string) : outcome AsterError.t string :=
  let missing := invalid AsterErrorCode.TextureLibraryReviewNoteInvalid
                   "review note is required when rejecting a texture library submission" in
  and_then (normalize_review_note_optional value) (fun note =>
    match note with
    | Some note => if is_empty note then Err missing else Ok note
    | None => Err missing
    end).

Definition normalize_report_message (value : option string)
  : outcome AsterError.t (option string) :=
  match value with
  | Some value => limited_text value 1000 (invalid AsterErrorCode.TextureReportMessageInvalid
                                             "report message must not exceed 1000 characters")
  | None => Ok None
  end.

Definition normalize_admin_report_note (value : option string)
  : outcome AsterError.t (option string) :=
  match value with
  | Some value => limited_text value 512 (invalid AsterErrorCode.TextureReportMessageInvalid
                                            "admin note must not exceed 512 characters")
  | None => Ok None
  end.

Definition normalize_texture_display_name (value : string)
  : outcome AsterError.t (option string) :=
  limited_text value 96 (invalid AsterErrorCode.WardrobeTextureNameInvalid
                           "texture display name must not exceed 96 characters").

Definition normalize_texture_display_name_patch (value : Bans.NullablePatch string)
  : outcome AsterError.t (option string) :=
  match value with
  | Bans.Absent | Bans.Null => Ok None
  | Bans.Value value => normalize_texture_display_name value
  end.

(** [display_name.map(normalize_texture_display_name_patch).transpose()] *)
Definition display_name_patch (value : option (Bans.NullablePatch string))
  : outcome AsterError.t (option (option string)) :=
  match value with
  | Some value => and_then (normalize_texture_display_name_patch value) (fun n => Ok (Some n))
  | None => Ok None
  end.

Fixpoint normalize_tag_ids_into (tag_ids unique : list Z) : outcome AsterError.t (list Z) :=
  match tag_ids with
  | [] => Ok unique
  | id :: tag_ids =>
      if id <=? 0
      then Err (not_found AsterErrorCode.TextureLibraryTagNotFound
                  "invalid texture library tag id")
      else normalize_tag_ids_into tag_ids (set_insert id unique)
  end.
Definition normalize_texture_tag_ids (tag_ids : list Z) : outcome AsterError.t (list Z) :=
  normalize_tag_ids_into tag_ids [].

Definition normalize_texture_tag_name (value : string) : outcome AsterError.t (string * string) :=
  let name := trim value in
  if is_empty name || (64 <? char_count name)
  then Err (invalid AsterErrorCode.TextureLibraryTagNameInvalid
              "texture library tag name must be 1-64 characters")
  else Ok (name, to_lowercase name).

(** [color[1..]] is only looked at behind a ["#"]. *)
Definition normalize_texture_tag_color (value : string) : outcome AsterError.t string :=
  let color := trim value in
  let valid := (str_len color =? 7)%nat && starts_with "#" color
               && forallb is_ascii_hexdigit (List.tl (bytes color)) in
  if negb valid
  then Err (invalid AsterErrorCode.TextureLibraryTagColorInvalid
              "texture library tag color must be a #RRGGBB value")
  else Ok (to_ascii_lowercase color).
End Validators.

(** ** Pages *)
Record CursorPage (A C : Type) : Type := mkPage {
  page_items : list A;
  page_total : Z;
  page_limit : Z;
  next_cursor : option C
}.
Arguments mkPage {A C} _ _ _ _.
Arguments page_items {A C} _.
Arguments page_total {A C} _.
Arguments page_limit {A C} _.
Arguments next_cursor {A C} _.

(** The cursor of the last item, when there is more. *)
Definition cursor_of {A C} (f : A -> C) (l : list A) (more : bool) : option C :=
  if more then f <$> last l else None.

Definition texture_next_cursor (textures : list minecraft_texture) (more : bool)
  : option (DateTimeUtc * Z) :=
  cursor_of (fun t => (tex_updated_at t, tex_pk t)) textures more.

Definition clamp_limit (limit : Z) : Z := SessionRepo.clamp limit 1 100.

Section Library.
Context `{EN : Env} `{CB : CacheBackend} `{FC : ForgeCrypto} `{FA : ForgeApi} `{TS : TextSearch}.
Context `{SE : SkinExterns} `{RC : RuntimeConfig} `{PP : PreviewPolicy} `{BE : BanExterns}.
Context `{AE : !AccountExterns} `{CF : ForgeConfig} `{ST : ConfigStore}.
Context `{YE : YggdrasilExterns} `{UC : Unicode}.

Definition ensure_texture_library_enabled : outcome AsterError.t unit :=
  if negb (library_enabled (library_policy config_get))
  then Err (invalid AsterErrorCode.TextureLibraryDisabled "public texture library is disabled")
  else Ok tt.

(** ** Tags *)

Definition list_texture_library_tags : M AsterError.t (list MinecraftTextureTagInfo) :=
  let* tags := TagRepo.list in
  ret (List.map texture_tag_info tags).

Definition list_texture_library_tags_paginated (limit : Z) (after : option (Z * string * Z))
  (keyword : option string) : M AsterError.t (CursorPage MinecraftTextureTagInfo (Z * string * Z)) :=
  let limit := clamp_limit limit in
  let* page := TagRepo.list_cursor limit after keyword in
  ret (mkPage (List.map texture_tag_info (items page)) (total page) limit
         (cursor_of (fun t => (tag_sort_order t, tag_name t, tag_pk t)) (items page)
            (has_more page))).

Definition tag_name_taken : AsterError.t :=
  invalid AsterErrorCode.TextureLibraryTagNameTaken "texture library tag name already exists".
Definition tag_missing (id : Z) : AsterError.t :=
  not_found AsterErrorCode.TextureLibraryTagNotFound
    ("texture library tag '" +:+ pretty id +:+ "'").

Definition create_texture_library_tag (name color : string) (sort_order : option Z)
  : M AsterError.t MinecraftTextureTagInfo :=
  let* names := lift (normalize_texture_tag_name name) in
  let (name, normalized_name) := names in
  let* color := lift (normalize_texture_tag_color color) in
  let* existing := TagRepo.find_by_normalized_name normalized_name in
  if is_some existing then throw tag_name_taken
  else
    let* tag := TagRepo.create
                  (TagRepo.mkCreateTag name normalized_name color (default 0 sort_order)) in
    ret (texture_tag_info tag).

(** The new names of a tag, when one is given. *)
Definition rename_tag (tag : minecraft_texture_tag) (name : option string)
  : M AsterError.t (option string * option string) :=
  match name with
  | None => ret (None, None)
  | Some name =>
      let* names := lift (normalize_texture_tag_name name) in
      let (name, normalized_name) := names in
      let* existing := TagRepo.find_by_normalized_name normalized_name in
      if is_some_and existing (fun e => negb (tag_pk e =? tag_pk tag)) then throw tag_name_taken
      else ret (Some name, Some normalized_name)
  end.

Definition update_texture_library_tag (tag_id : Z) (name color : option string)
  (sort_order : option Z) : M AsterError.t MinecraftTextureTagInfo :=
  let* found := TagRepo.find_by_id tag_id in
  let* tag := lift (some_or (tag_missing tag_id) found) in
  let* names := rename_tag tag name in
  let (name, normalized_name) := names in
  let* color := lift (match color with
                      | Some color => and_then (normalize_texture_tag_color color)
                                        (fun c => Ok (Some c))
                      | None => Ok None
                      end) in
  let* tag := TagRepo.update tag (TagRepo.mkUpdateTag name normalized_name color sort_order) in
  ret (texture_tag_info tag).

Definition delete_texture_library_tag (tag_id : Z) : M AsterError.t unit :=
  let* deleted := TagRepo.delete tag_id in
  if negb deleted then throw (tag_missing tag_id) else ret tt.

(** ** Lookups with their errors *)

Definition wardrobe_missing (id : Z) : AsterError.t :=
  not_found AsterErrorCode.WardrobeTextureNotFound ("wardrobe texture '" +:+ pretty id +:+ "'").
Definition invalid_wardrobe_id : AsterError.t :=
  not_found AsterErrorCode.WardrobeTextureNotFound "invalid wardrobe texture id".
Definition library_missing (what : string) (id : Z) : AsterError.t :=
  not_found AsterErrorCode.TextureLibraryTextureNotFound
    (what +:+ " '" +:+ pretty id +:+ "'").
Definition invalid_public_id : AsterError.t :=
  not_found AsterErrorCode.TextureLibraryTextureNotFound "invalid public texture id".
Definition invalid_library_id : AsterError.t :=
  not_found AsterErrorCode.TextureLibraryTextureNotFound
    "invalid texture library texture id".

Definition user_wardrobe_texture (user_id texture_id : Z) : M AsterError.t minecraft_texture :=
  if texture_id <=? 0 then throw invalid_wardrobe_id
  else
    let* found := TextureRepo.find_by_id_for_user texture_id user_id in
    lift (some_or (wardrobe_missing texture_id) (wardrobe_item found)).

Definition admin_wardrobe_texture (texture_id : Z) : M AsterError.t minecraft_texture :=
  if texture_id <=? 0 then throw invalid_library_id
  else
    let* found := TextureRepo.find_by_id texture_id in
    lift (some_or (library_missing "texture library texture" texture_id) (wardrobe_item found)).

Definition public_reportable_texture (texture_id : Z) : M AsterError.t minecraft_texture :=
  if texture_id <=? 0 then throw invalid_library_id
  else
    let* found := TextureRepo.find_public_wardrobe_by_id texture_id in
    lift (some_or (invalid AsterErrorCode.TextureReportTextureNotReportable
                     "only published public texture library entries can be reported") found).

Definition admin_texture_report (report_id : Z) : M AsterError.t minecraft_texture_report :=
  if report_id <=? 0
  then throw (not_found AsterErrorCode.TextureReportNotFound "invalid texture report id")
  else
    let* found := ReportRepo.find_by_id report_id in
    lift (some_or (not_found AsterErrorCode.TextureReportNotFound
                     ("texture report '" +:+ pretty report_id +:+ "'")) found).

Definition pending_admin_texture_report (report_id : Z)
  : M AsterError.t minecraft_texture_report :=
  let* report := admin_texture_report report_id in
  if negb (eqb (report_status report) ReportPending)
  then throw (invalid AsterErrorCode.TextureReportNotPending
                "only pending texture reports can be handled")
  else ret report.

(** ** The owner's side *)

Definition tags_missing : AsterError.t :=
  not_found AsterErrorCode.TextureLibraryTagNotFound
    "one or more texture library tags were not found".

(** The tags the ids name, each once; all of them must exist. *)
Definition known_tags (tag_ids : list Z) : M AsterError.t (list Z * list minecraft_texture_tag) :=
  let* unique_tag_ids := lift (normalize_texture_tag_ids tag_ids) in
  let* tags := TagRepo.find_by_ids unique_tag_ids in
  if negb (length tags =? length unique_tag_ids)%nat then throw tags_missing
  else ret (unique_tag_ids, tags).

Definition replace_library_texture_tags_for_admin (texture_id : Z) (tag_ids : list Z)
  : M AsterError.t unit :=
  let* known := known_tags tag_ids in
  TagRepo.replace_texture_tags texture_id (fst known).

Definition update_wardrobe_texture_metadata (user_id texture_id : Z)
  (display_name : option (Bans.NullablePatch string)) (model : option MinecraftTextureModel)
  (vis : option MinecraftTextureVisibility) : M AsterError.t MinecraftWardrobeTextureMetadata :=
  do* ensure_user_not_banned user_id TextureUpload in
  let* t := user_wardrobe_texture user_id texture_id in
  let* display_name := lift (display_name_patch display_name) in
  let model := model_for t <$> model in
  let texture_model_changed := is_some_and model (fun m => negb (eqb m (tex_model t))) in
  let* updated := TextureRepo.update_wardrobe_metadata_for_user t user_id
                    (TextureRepo.mkUpdateMetadata display_name model vis) in
  let* updated := lift (some_or (wardrobe_missing texture_id) updated) in
  do* (if texture_model_changed
       then
         let* bindings := ProfileTextureRepo.list_by_texture_id texture_id in
         invalidate_profile_texture_caches_for_bindings bindings
       else ret tt) in
  wardrobe_texture_with_current_tags updated.

Definition replace_wardrobe_texture_tags (user_id texture_id : Z) (tag_ids : list Z)
  : M AsterError.t MinecraftWardrobeTextureMetadata :=
  do* ensure_user_not_banned user_id TextureUpload in
  let* t := user_wardrobe_texture user_id texture_id in
  let* known := known_tags tag_ids in
  do* TagRepo.replace_texture_tags (tex_pk t) (fst known) in
  ret (wardrobe_texture_metadata_with_tags t (snd known)).

(** What may be reviewed by whom is up to here. *)
Definition ensure_may_interact (user_id : Z) : M AsterError.t unit :=
  do* lift ensure_texture_library_enabled in
  ensure_user_not_banned user_id TextureLibraryInteract.

Definition submission (policy : RuntimeTextureLibraryPolicy) (now : DateTimeUtc)
  : TextureRepo.UpdateTextureLibraryReview :=
  TextureRepo.mkReview (if review_required policy then PendingReview else Published)
    (Some (Some now)) (Some (if review_required policy then None else Some now))
    (Some None) (Some None).

Definition withdrawal : TextureRepo.UpdateTextureLibraryReview :=
  TextureRepo.mkReview LibPrivate (Some None) (Some None) (Some None) (Some None).

Definition submit_texture_library_review (user_id texture_id : Z)
  : M AsterError.t MinecraftWardrobeTextureMetadata :=
  do* ensure_may_interact user_id in
  let* t := user_wardrobe_texture user_id texture_id in
  if negb (eqb (visibility t) VisPublic)
  then throw (invalid AsterErrorCode.TextureLibraryTextureNotPublic
                "texture must be public before it can be submitted to the library")
  else
    let* now := utc_now in
    let* updated := TextureRepo.update_library_review t
                      (submission (library_policy config_get) now) in
    wardrobe_texture_with_current_tags updated.

Definition withdraw_texture_library_submission (user_id texture_id : Z)
  : M AsterError.t MinecraftWardrobeTextureMetadata :=
  do* ensure_may_interact user_id in
  let* t := user_wardrobe_texture user_id texture_id in
  let* updated := TextureRepo.update_library_review t withdrawal in
  wardrobe_texture_with_current_tags updated.

(** ** The reviewer's side *)

Definition reviewed (status : MinecraftTextureLibraryStatus) (reviewer_user_id : Z)
  (now : DateTimeUtc) (note : option string) : TextureRepo.UpdateTextureLibraryReview :=
  TextureRepo.mkReview status None (Some (Some now)) (Some (Some reviewer_user_id)) (Some note).

(** A texture taken out of the library by a reviewer. *)
Definition taken_down (reviewer_user_id : Z) (now : DateTimeUtc) (note : option string)
  : TextureRepo.UpdateTextureLibraryReview :=
  TextureRepo.mkReview LibPrivate (Some None) (Some (Some now)) (Some (Some reviewer_user_id))
    (Some note).

Definition approve_texture_library_texture (reviewer_user_id texture_id : Z)
  (review_note : option string) (tag_ids : option (list Z))
  : M AsterError.t PublicTextureLibraryTextureMetadata :=
  do* lift ensure_texture_library_enabled in
  let* t := admin_wardrobe_texture texture_id in
  if negb (eqb (library_status t) PendingReview)
  then throw (invalid AsterErrorCode.TextureLibraryTextureNotPending
                "only pending texture library submissions can be approved")
  else if negb (eqb (visibility t) VisPublic)
  then throw (invalid AsterErrorCode.TextureLibraryTextureNotPublic
                "texture must be public before it can be published")
  else
    do* match tag_ids with
        | Some tag_ids => replace_library_texture_tags_for_admin (tex_pk t) tag_ids
        | None => ret tt
        end in
    let* now := utc_now in
    let* note := lift (normalize_review_note_optional review_note) in
    let* updated := TextureRepo.update_library_review t
                      (reviewed Published reviewer_user_id now note) in
    admin_texture_library_metadata updated.

Definition reject_texture_library_texture (reviewer_user_id texture_id : Z)
  (review_note : option string) : M AsterError.t PublicTextureLibraryTextureMetadata :=
  do* lift ensure_texture_library_enabled in
  let* t := admin_wardrobe_texture texture_id in
  if negb (eqb (library_status t) PendingReview)
  then throw (invalid AsterErrorCode.TextureLibraryTextureNotPending
                "only pending texture library submissions can be rejected")
  else
    let* note := lift (normalize_review_note_required review_note) in
    let* now := utc_now in
    let* updated := TextureRepo.update_library_review t
                      (reviewed LibRejected reviewer_user_id now (Some note)) in
    admin_texture_library_metadata updated.

Definition unpublish_texture_library_texture (reviewer_user_id texture_id : Z)
  (review_note : option string) : M AsterError.t PublicTextureLibraryTextureMetadata :=
  do* lift ensure_texture_library_enabled in
  let* t := admin_wardrobe_texture texture_id in
  if negb (eqb (library_status t) Published)
  then throw (invalid AsterErrorCode.TextureLibraryTextureNotPublished
                "only published texture library entries can be unpublished")
  else
    let* note := lift (normalize_review_note_optional review_note) in
    let* now := utc_now in
    let* updated := TextureRepo.update_library_review t (taken_down reviewer_user_id now note) in
    let* _ := ReportRepo.handle_pending_for_texture texture_id
                (ReportRepo.mkHandle ReportAccepted note reviewer_user_id now) in
    admin_texture_library_metadata updated.

Definition get_admin_texture_library_texture (texture_id : Z)
  : M AsterError.t PublicTextureLibraryTextureMetadata :=
  let* t := admin_wardrobe_texture texture_id in
  admin_texture_library_metadata t.

Definition list_admin_texture_library_textures_cursor (limit : Z)
  (after : option (DateTimeUtc * Z)) (filter : TextureRepo.AdminTextureLibraryListFilter)
  : M AsterError.t (CursorPage PublicTextureLibraryTextureMetadata (DateTimeUtc * Z)) :=
  let limit := clamp_limit limit in
  let* slice := TextureRepo.list_admin_library_textures_cursor limit after filter in
  let* textures := admin_texture_library_metadata_by_texture_ids (items slice) in
  ret (mkPage textures (total slice) limit (texture_next_cursor (items slice) (has_more slice))).

Record DeletedTextureLibraryTexture : Type := mkDeletedLibrary {
  dl_texture : PublicTextureLibraryTextureMetadata;
  deleted_profile_binding_count : Z
}.

Context `{OS : !ObjectStorage} `{TN : TextureNumbers}.

Definition library_texture_gone (id : Z) : TextureErrors.TextureError :=
  TextureErrors.with_detail TextureErrors.NotFound ("texture library texture #" +:+ pretty id).

Definition delete_texture_library_texture (texture_id : Z) : TM DeletedTextureLibraryTexture :=
  if texture_id <=? 0 then throw (library_texture_gone texture_id)
  else
    let* found := tex (TextureRepo.find_by_id texture_id) in
    match wardrobe_item found with
    | None => throw (library_texture_gone texture_id)
    | Some t =>
        let* metadata := tex (admin_texture_library_metadata t) in
        let* deleted_bindings := tex (ProfileTextureRepo.delete_by_texture_id texture_id) in
        let* deleted := tex (TextureRepo.delete_wardrobe_by_id texture_id) in
        match deleted with
        | None => throw (library_texture_gone texture_id)
        | Some deleted =>
            do* cleanup_texture_blob_if_unreferenced (storage_key deleted) in
            do* invalidate_profile_texture_caches_for_bindings deleted_bindings in
            do* invalidate_texture_asset_caches deleted in
            let* count := tex (lift (utils (usize_to_u64 (Z.of_nat (length deleted_bindings))
                                              "deleted profile texture binding count"))) in
            ret (mkDeletedLibrary metadata count)
        end
    end.
End Library.

Record TextureReportUserInfo : Type := mkReportUser {
  ru_public_uuid : string;
  ru_name : string
}.

Record TextureReportInfo : Type := mkReportInfo {
  ri_id : Z;
  ri_texture_id : Z;
  ri_reason : MinecraftTextureReportReason;
  ri_message : option string;
  ri_status : MinecraftTextureReportStatus;
  ri_admin_note : option string;
  ri_texture : option PublicTextureLibraryTextureMetadata;
  ri_reporter : option TextureReportUserInfo;
  ri_handler : option TextureReportUserInfo;
  ri_handled_at : option DateTimeUtc;
  ri_created_at : DateTimeUtc;
  ri_updated_at : DateTimeUtc
}.

Definition texture_report_user_info (u : user) : TextureReportUserInfo :=
  mkReportUser (public_uuid u) (username u).

(** The users a page of reports names. *)
Definition report_user_ids (reports : list minecraft_texture_report) : list Z :=
  List.fold_left (fun ids r =>
    match handled_by_user_id r with
    | Some handler => set_insert handler (set_insert (reporter_user_id r) ids)
    | None => set_insert (reporter_user_id r) ids
    end) reports [].

Definition report_info (textures : list PublicTextureLibraryTextureMetadata) (users : list user)
  (r : minecraft_texture_report) : TextureReportInfo :=
  mkReportInfo (report_pk r) (report_texture_id r) (report_reason r) (report_message r)
    (report_status r) (report_admin_note r)
    (by_key (fun t => tv_id (lm_view t)) textures (report_texture_id r))
    (texture_report_user_info <$> by_key user_pk users (reporter_user_id r))
    (texture_report_user_info <$> (handled_by_user_id r ≫= by_key user_pk users))
    (handled_at r) (report_created_at r) (report_updated_at r).

Section Reports.
Context `{EN : Env} `{CB : CacheBackend} `{FC : ForgeCrypto} `{FA : ForgeApi} `{TS : TextSearch}.
Context `{SE : SkinExterns} `{RC : RuntimeConfig} `{PP : PreviewPolicy} `{BE : BanExterns}.
Context `{AE : !AccountExterns} `{CF : ForgeConfig} `{ST : ConfigStore}.
Context `{YE : YggdrasilExterns}.

(** A texture of two reports is looked up once and shown twice: the metadata
    is built from one entry per report. *)
Definition texture_report_infos_by_reports (reports : list minecraft_texture_report)
  : M AsterError.t (list TextureReportInfo) :=
  match reports with
  | [] => ret []
  | _ =>
      let* textures := TextureRepo.find_by_ids (btree_set (List.map report_texture_id reports)) in
      let* users := find_users_by_ids (report_user_ids reports) in
      let existing_textures :=
        filter_map (fun r => by_key tex_pk textures (report_texture_id r)) reports in
      let* texture_metadata := admin_texture_library_metadata_by_texture_ids existing_textures in
      ret (List.map (report_info texture_metadata users) reports)
  end.

Definition texture_report_info (report : minecraft_texture_report)
  : M AsterError.t TextureReportInfo :=
  let* infos := texture_report_infos_by_reports [report] in
  lift (some_or (not_found AsterErrorCode.TextureReportNotFound
                   ("texture report '" +:+ pretty (report_pk report) +:+ "'"))
          (List.hd_error infos)).

(** ** Reports *)

Definition create_texture_library_report (reporter_user_id texture_id : Z)
  (reason : MinecraftTextureReportReason) (message : option string)
  : M AsterError.t TextureReportInfo :=
  do* ensure_may_interact reporter_user_id in
  let* t := public_reportable_texture texture_id in
  if tex_user_id t =? reporter_user_id
  then throw (invalid AsterErrorCode.TextureReportSelfReportNotAllowed
                "users cannot report their own texture library entries")
  else
    let* pending := ReportRepo.find_pending_for_reporter_and_texture reporter_user_id texture_id in
    if is_some pending
    then throw (invalid AsterErrorCode.TextureReportPendingExists
                  "a pending report already exists for this texture")
    else
      let* message := lift (normalize_report_message message) in
      let* report := ReportRepo.create
                       (ReportRepo.mkCreateReport texture_id reporter_user_id reason message) in
      texture_report_info report.

Definition list_admin_texture_library_reports_cursor (limit : Z)
  (filter : ReportRepo.AdminTextureReportListFilter) (cursor : option (DateTimeUtc * Z))
  : M AsterError.t (CursorPage TextureReportInfo (DateTimeUtc * Z)) :=
  let* page := ReportRepo.list_cursor limit filter cursor in
  let next := cursor_of (fun r => (report_created_at r, report_pk r)) (items page)
                (has_more page) in
  let* infos := texture_report_infos_by_reports (items page) in
  ret (mkPage infos (total page) (clamp_limit limit) next).

Definition get_admin_texture_library_report (report_id : Z) : M AsterError.t TextureReportInfo :=
  let* report := admin_texture_report report_id in
  texture_report_info report.

Definition accept_texture_library_report (handler_user_id report_id : Z)
  (note : option string) : M AsterError.t TextureReportInfo :=
  do* lift ensure_texture_library_enabled in
  let* report := pending_admin_texture_report report_id in
  let* t := admin_wardrobe_texture (report_texture_id report) in
  let* note := lift (normalize_admin_report_note note) in
  let* now := utc_now in
  let* _ := TextureRepo.update_library_review t (taken_down handler_user_id now note) in
  let* report := ReportRepo.handle report
                   (ReportRepo.mkHandle ReportAccepted note handler_user_id now) in
  texture_report_info report.

Definition reject_texture_library_report (handler_user_id report_id : Z)
  (note : option string) : M AsterError.t TextureReportInfo :=
  do* lift ensure_texture_library_enabled in
  let* report := pending_admin_texture_report report_id in
  let* note := lift (normalize_admin_report_note note) in
  let* now := utc_now in
  let* report := ReportRepo.handle report
                   (ReportRepo.mkHandle ReportRejected note handler_user_id now) in
  texture_report_info report.

(** ** Listings *)

Definition list_wardrobe_textures (user_id : Z) : M AsterError.t (list minecraft_texture) :=
  TextureRepo.list_by_user user_id.

Definition get_wardrobe_texture (user_id texture_id : Z)
  : M AsterError.t MinecraftWardrobeTextureMetadata :=
  let* t := user_wardrobe_texture user_id texture_id in
  wardrobe_texture_with_current_tags t.

Definition list_wardrobe_textures_cursor (user_id limit : Z) (after : option (DateTimeUtc * Z))
  (filter : TextureRepo.WardrobeTextureListFilter)
  : M AsterError.t (CursorPage MinecraftWardrobeTextureMetadata (DateTimeUtc * Z)) :=
  let limit := clamp_limit limit in
  let* slice := TextureRepo.list_by_user_cursor user_id limit after filter in
  let* textures := wardrobe_texture_metadata_by_texture_ids (items slice) in
  ret (mkPage textures (total slice) limit (texture_next_cursor (items slice) (has_more slice))).

Definition list_public_texture_library_cursor (limit : Z) (after : option (DateTimeUtc * Z))
  (filter : TextureRepo.WardrobeTextureListFilter)
  : M AsterError.t (CursorPage PublicTextureLibraryTextureMetadata (DateTimeUtc * Z)) :=
  do* lift ensure_texture_library_enabled in
  let limit := clamp_limit limit in
  let* slice := TextureRepo.list_public_wardrobe_cursor limit after filter in
  let* textures := public_texture_library_metadata_by_texture_ids (items slice) in
  ret (mkPage textures (total slice) limit (texture_next_cursor (items slice) (has_more slice))).

(** A published texture anyone may see. *)
Definition public_texture (texture_id : Z) : M AsterError.t minecraft_texture :=
  if texture_id <=? 0 then throw invalid_public_id
  else
    let* found := TextureRepo.find_public_wardrobe_by_id texture_id in
    lift (some_or (library_missing "public texture" texture_id) found).

Definition get_public_texture_library_texture (texture_id : Z)
  : M AsterError.t PublicTextureLibraryTextureMetadata :=
  do* lift ensure_texture_library_enabled in
  let* t := public_texture texture_id in
  public_texture_library_metadata t.

(** ** Copies *)

Definition copy_new_texture (user_id : Z) (t : minecraft_texture) (name : option string)
  : M AsterError.t MinecraftWardrobeTextureMetadata :=
  let* copied := TextureRepo.create_wardrobe_copy t user_id VisPrivate name in
  let* source_tags := TagRepo.list_for_texture (tex_pk t) in
  do* match source_tags with
      | [] => ret tt
      | _ => TagRepo.replace_texture_tags (tex_pk copied) (List.map tag_pk source_tags)
      end in
  ret (wardrobe_texture_metadata_with_tags copied source_tags).

Definition copy_public_texture_to_wardrobe (user_id texture_id : Z)
  (name : option (Bans.NullablePatch string)) : M AsterError.t MinecraftWardrobeTextureMetadata :=
  do* ensure_may_interact user_id in
  let* t := public_texture texture_id in
  let* existing := TextureRepo.find_wardrobe_by_fingerprint user_id (tex_type t) TextureLocal
                     (tex_hash t) (tex_model t) in
  match existing with
  | Some existing => wardrobe_texture_with_current_tags existing
  | None =>
      let* name := match name with
                   | Some name => lift (normalize_texture_display_name_patch name)
                   | None => ret (tex_display_name t)
                   end in
      let* taken := match name with
                    | Some name => TextureRepo.find_wardrobe_by_display_name user_id name
                    | None => ret None
                    end in
      if is_some taken
      then throw (invalid AsterErrorCode.WardrobeTextureNameTaken
                    "wardrobe texture name already exists")
      else copy_new_texture user_id t name
  end.
End Reports.
