(* ===== verification/TextureInvariant.v ===== *)
(** * Every texture has its blob

    The invariant of the texture tables and the object storage: each row names
    the blob of its own content, and that blob is stored.  The rules by which
    the blocks of the texture service and each repository operation keep it.
    At the end, concrete instances of the parameters of the texture files:
    hashes of 64 digits, images that are their own PNG, and a file system that
    never fails under the local object storage. *)

From Stdlib Require Import ZArith List Bool Lia Ascii.
From stdpp Require Import base decidable list strings gmap pretty.
From S2P Require Import Prelude Text Errors Types AuditLog World Logic Repos Bans Tokens Auth Concrete AuthProofs ForwardTextures Sessions ProfileTextures AuthConfig Accounts WebSessions AccountConcrete Tracks YggdrasilConfig ObjectStorage TextureRepo TextureProcessing TextureService TextureWardrobe TextureLibrary.

Local Open Scope Z_scope.
Local Open Scope aster_scope.

Import ProfileTextureRepo.

(** ** Names of blobs *)

(** SHA-256 in hexadecimal: 64 digits. *)
Class Sha256Laws (FC : ForgeCrypto) : Prop := {
  sha256_hex_valid s : is_valid_texture_hash (sha256_hex s) = true
}.

Definition blob_key (hash : string) : string := byte_prefix 2 hash +:+ "/" +:+ hash +:+ ".png".

Lemma bytes_app s t : bytes (s +:+ t) = bytes s ++ bytes t.
Proof.
  rewrite <- (of_bytes_bytes s), <- (of_bytes_bytes t) at 1.
  by rewrite <- of_bytes_app, bytes_of_bytes.
Qed.

Lemma hexdigit_ascii a : is_ascii_hexdigit a = true -> is_continuation a = false /\ a <> "/"%char.
Proof. by destruct a as [[] [] [] [] [] [] [] []]. Qed.

Lemma split_once_app a p r :
  (forall b, In b (bytes p) -> b <> a) -> split_once a (p +:+ String a r) = Some (p, r).
Proof.
  induction p as [|b p IH]; intros H.
  - change (EmptyString +:+ String a r) with (String a r). cbn [split_once]. by rewrite eqb_refl.
  - rewrite app_string_cons. cbn [split_once]. destruct (eqb a b) eqn:E.
    + rewrite eqb_true in E. subst. destruct (H b); [by left|done].
    + rewrite IH; [done|]. intros c Hc. apply H. by right.
Qed.

Lemma strip_suffix_app s suffix : strip_suffix suffix (s +:+ suffix) = Some s.
Proof.
  unfold strip_suffix. rewrite bytes_app, rev_app_distr, of_bytes_app, strip_prefix_app.
  by rewrite bytes_of_bytes, rev_involutive, of_bytes_bytes.
Qed.

Lemma valid_hash_parts hash :
  is_valid_texture_hash hash = true ->
  str_len hash = 64%nat /\ (forall a, In a (bytes hash) -> is_ascii_hexdigit a = true).
Proof.
  unfold is_valid_texture_hash. intros [Hl Hh]%andb_true_iff. split; [by apply Nat.eqb_eq|].
  by apply forallb_forall.
Qed.

Lemma valid_hash_boundary hash :
  is_valid_texture_hash hash = true ->
  (2 <=? str_len hash)%nat && is_char_boundary hash 2 = true.
Proof.
  intros [Hl Hh]%valid_hash_parts. rewrite Hl. cbn [Nat.leb andb]. unfold is_char_boundary. cbn.
  destruct (bytes hash !! 2%nat) as [a|] eqn:E.
  - apply list_elem_of_lookup_2, list_elem_of_In, Hh, hexdigit_ascii in E as [-> _]. done.
  - apply lookup_ge_None in E. rewrite length_bytes in E. unfold str_len in Hl. lia.
Qed.

Lemma object_storage_key_valid {E} hash :
  is_valid_texture_hash hash = true -> @object_storage_key E hash = Ok (blob_key hash).
Proof. intros H. unfold object_storage_key. by rewrite valid_hash_boundary. Qed.

Lemma in_byte_prefix n s a : In a (bytes (byte_prefix n s)) -> In a (bytes s).
Proof.
  unfold byte_prefix. rewrite bytes_of_bytes. intros H.
  rewrite <- (firstn_skipn n). apply in_or_app. by left.
Qed.

Lemma blob_key_is_texture_key hash :
  is_valid_texture_hash hash = true -> is_texture_blob_storage_key (blob_key hash) = true.
Proof.
  intros H. pose proof (valid_hash_parts _ H) as [Hl Hh]. unfold is_texture_blob_storage_key, blob_key.
  change ("/" +:+ hash +:+ ".png")%string with (String "/" (hash +:+ ".png")).
  rewrite split_once_app by (intros b Hb%in_byte_prefix%Hh%hexdigit_ascii; tauto).
  unfold str_len in *. rewrite length_byte_prefix, strip_suffix_app, Hl by lia. cbn [Nat.eqb negb orb].
  assert (forallb is_ascii_hexdigit (bytes (byte_prefix 2 hash)) = true) as ->
    by (apply forallb_forall; intros b Hb%in_byte_prefix; by apply Hh).
  cbn [negb andb]. apply andb_true_iff. split; [|by apply forallb_forall].
  apply starts_with_iff. eexists. apply byte_prefix_app.
Qed.

(** A name belongs to one hash. *)
Lemma blob_key_inj h h' :
  is_valid_texture_hash h = true -> is_valid_texture_hash h' = true ->
  blob_key h = blob_key h' -> h = h'.
Proof.
  intros [Hl _]%valid_hash_parts [Hl' _]%valid_hash_parts E. unfold str_len in *.
  assert (bytes (blob_key h) = bytes (blob_key h')) as E' by by rewrite E.
  unfold blob_key in E'. rewrite !bytes_app in E'.
  assert (forall s, String.length s = 64%nat -> length (bytes (byte_prefix 2 s)) = 2%nat) as Hp
    by (intros s Hs; rewrite length_bytes, length_byte_prefix; lia).
  apply app_inj_1 in E' as [_ E']; [|by rewrite !Hp].
  cbn in E'. injection E' as E'. apply app_inj_1 in E' as [E' _]; [|by rewrite !length_bytes; lia].
  by rewrite <- (of_bytes_bytes h), E', of_bytes_bytes.
Qed.

(** ** The invariant *)

(** A row names the blob of its content. *)
Definition well_named (t : minecraft_texture) : Prop :=
  is_valid_texture_hash (tex_hash t) = true /\ storage_key t = blob_key (tex_hash t).

Definition opt_named (o : option minecraft_texture) : Prop :=
  match o with Some t => well_named t | None => True end.
Definition all_named (l : list minecraft_texture) : Prop := forall t, In t l -> well_named t.
Definition bound_named (pt : ProfileTexture) : Prop := well_named (texture pt).
Definition opt_bound_named (o : option ProfileTexture) : Prop :=
  match o with Some pt => bound_named pt | None => True end.
Definition all_bound_named (l : list ProfileTexture) : Prop := forall pt, In pt l -> bound_named pt.

Lemma well_named_key t : well_named t -> is_texture_blob_storage_key (storage_key t) = true.
Proof. intros [H ->]. by apply blob_key_is_texture_key. Qed.

(** The two fields the invariant reads. *)
Definition content_of (t t' : minecraft_texture) : Prop :=
  tex_hash t' = tex_hash t /\ storage_key t' = storage_key t.

Lemma well_named_content t t' : content_of t t' -> well_named t -> well_named t'.
Proof. unfold well_named. by intros [-> ->]. Qed.

Section Invariant.
Context `{EN : Env} `{CB : CacheBackend}.

(** Every row has its blob, and so have the names of [K], which a handler has
    stored and not yet written down. *)
Definition stored_with (K : string -> Prop) (w : World) : Prop :=
  (forall t, In t (rows (textures (db w))) -> well_named t /\ stored (storage_key t) w) /\
  (forall key, K key -> stored key w).

Definition nothing : string -> Prop := fun _ => False.
Definition blobs_stored : World -> Prop := stored_with nothing.

Implicit Types (K : string -> Prop) (d : Db).

(** The rows of [d'] have the contents of rows of [d]. *)
Definition no_new_content (d d' : Db) : Prop :=
  forall t', In t' (rows (textures d')) ->
  exists t, In t (rows (textures d)) /\ content_of t t'.

Lemma no_new_content_same d d' : textures d' = textures d -> no_new_content d d'.
Proof. intros E t' H. rewrite E in H. by exists t'. Qed.

Lemma stored_with_mono K w w' :
  no_new_content (db w) (db w') -> objects w' = objects w -> stored_with K w -> stored_with K w'.
Proof.
  unfold stored_with, stored. intros Hn -> [Hrows HK]. split; [|done].
  intros t' (t & Hin & Hc)%Hn. destruct (Hrows t Hin). split; [by eapply well_named_content|].
  by destruct Hc as [_ ->].
Qed.

Lemma stored_with_tick K w : stored_with K w -> stored_with K (tick w).
Proof. by apply stored_with_mono; [apply no_new_content_same|]. Qed.

Lemma stored_with_same K w w' : same w w' -> stored_with K w -> stored_with K w'.
Proof.
  intros (E & _ & [_ Eo] & _). apply (stored_with_mono _ w); [|done]. apply no_new_content_same.
  by rewrite E.
Qed.

Lemma stored_with_cache K w c : stored_with K w -> stored_with K (tick (set_cache c w)).
Proof. by apply stored_with_mono; [apply no_new_content_same|]. Qed.

Lemma stored_with_weaken K K' w : (forall k, K' k -> K k) -> stored_with K w -> stored_with K' w.
Proof. intros H [Hr HK]. split; auto. Qed.

Lemma stored_with_forget K w : stored_with K w -> blobs_stored w.
Proof. by apply stored_with_weaken. Qed.

(** A row's own blob can be held on to. *)
Lemma stored_with_pin w t :
  blobs_stored w -> In t (rows (textures (db w))) -> stored_with (eq (storage_key t)) w.
Proof. intros [Hr _] Hin. split; [done|]. intros k <-. by apply Hr. Qed.

(** ** Statements *)

Lemma keeps_read K {E A} (c : M E A) : Reads c -> keeps (stored_with K) (fun _ => True) c.
Proof. apply keeps_reads. intros w w'. apply stored_with_same. Qed.

Lemma keeps_query K {A} (P : A -> Prop) (f : Db -> A) :
  (forall d, (forall t, In t (rows (textures d)) -> well_named t) -> P (f d)) ->
  keeps (stored_with K) P (db_query f).
Proof.
  intros H. apply keeps_db_query; [apply stored_with_tick|]. intros w [Hr _]. apply H.
  intros t Hin. by apply Hr.
Qed.

Lemma keeps_statement K {A} (P : A -> Prop) (f : Db -> outcome AsterError.t (A * Db)) :
  (forall d a d', f d = Ok (a, d') -> no_new_content d d') ->
  (forall d a d', (forall t, In t (rows (textures d)) -> well_named t) -> f d = Ok (a, d') -> P a) ->
  keeps (stored_with K) P (db_exec f).
Proof.
  intros Hf HP. apply keeps_db_exec; [apply stored_with_tick|]. intros w a d HI Hd. split.
  - apply (stored_with_mono _ w); [|done..]. cbn. by eapply Hf.
  - eapply HP; [|done]. intros t Hin. by apply HI.
Qed.

(** A statement on another table. *)
Lemma keeps_aside K {A} (f : Db -> outcome AsterError.t (A * Db)) :
  (forall d a d', f d = Ok (a, d') -> textures d' = textures d) ->
  keeps (stored_with K) (fun _ => True) (db_exec f).
Proof.
  intros H. apply keeps_statement; [|done]. intros d a d' Hd.
  by eapply no_new_content_same, H.
Qed.

Lemma keeps_caches K {E} f : keeps (stored_with K) (fun _ => True) (cache_update f : M E unit).
Proof. apply keeps_cache_update. intros w c. apply stored_with_cache. Qed.

Lemma keeps_caching K {E} k v ttl :
  keeps (stored_with K) (fun _ => True) (cache_write k v ttl : M E unit).
Proof. apply keeps_cache_write. intros w c. apply stored_with_cache. Qed.

(** A row that enters the table. *)
Lemma keeps_new_row K references_ok conflict mk :
  (forall id, well_named (mk id) /\ K (storage_key (mk id))) ->
  keeps (stored_with K) well_named
    (referencing references_ok (fun d =>
       match insert_row conflict mk (textures d) with
       | Some (t, table) => Ok (t, set_textures table d)
       | None => Err (AsterError.DatabaseOperation unique_violation)
       end)).
Proof.
  intros Hmk. apply keeps_db_exec; [apply stored_with_tick|]. intros w t d [Hr HK] Hd.
  destruct (references_ok (db w)); [|done]. unfold insert_row in Hd.
  destruct (existsb _ _); [done|]. injection Hd as <- <-. split; [|apply Hmk]. split.
  - cbn. intros t [Hin|[<-|[]]]%in_app_iff; [by apply Hr|]. split; [apply Hmk|]. apply HK, Hmk.
  - by apply HK.
Qed.
End Invariant.

(** ** How the statements keep it

    One rule per repository operation, gathered in the hint database [keeps]
    the handlers are walked through with. *)

#[export] Hint Extern 8 (keeps _ _ _) => apply keeps_read; apply _ : keeps.
#[export] Hint Resolve keeps_caches keeps_caching : keeps.

Section Textures.
Context `{EN : Env} `{CB : CacheBackend} `{FA : ForgeApi} `{TS : TextSearch}.
Implicit Types (K : string -> Prop) (d : Db).

(** ** Lookups *)

Lemma keeps_find_where K p : keeps (stored_with K) opt_named (TextureRepo.find_where p).
Proof.
  apply keeps_query. intros d H. destruct (find_row p _) as [t|] eqn:E; [|done].
  apply find_row_some in E as [Hin _]. by apply H.
Qed.

Lemma keeps_find_first K p : keeps (stored_with K) opt_named (TextureRepo.find_first p).
Proof.
  apply keeps_query. intros d H.
  destruct (sort_by _ _) as [|t l] eqn:E; [done|]. cbn. apply H.
  assert (In t (sort_by TextureRepo.texture_id_leb (rows_where p (rows (textures d)))))
    as [Hin _]%in_sort_by%in_rows_where by (rewrite E; by left). done.
Qed.

Lemma keeps_list_all K : keeps (stored_with K) all_named TextureRepo.list_all.
Proof. apply keeps_query. intros d H t Hin%in_sort_by. by apply H. Qed.

Lemma keeps_list_by_hash K hash : keeps (stored_with K) all_named (TextureRepo.list_by_hash hash).
Proof. apply keeps_query. intros d H t [Hin _]%in_sort_by%in_rows_where. by apply H. Qed.

Lemma keeps_list_by_user K id : keeps (stored_with K) all_named (TextureRepo.list_by_user id).
Proof. apply keeps_query. intros d H t [Hin _]%in_sort_by%in_rows_where. by apply H. Qed.

Lemma keeps_find_for_user K id user_id :
  keeps (stored_with K) opt_named (TextureRepo.find_by_id_for_user id user_id).
Proof. apply keeps_find_where. Qed.

Lemma keeps_find_by_id K id : keeps (stored_with K) opt_named (TextureRepo.find_by_id id).
Proof. apply keeps_find_where. Qed.

Lemma keeps_find_fingerprint K user_id ty source hash model :
  keeps (stored_with K) opt_named
    (TextureRepo.find_wardrobe_by_fingerprint user_id ty source hash model).
Proof. apply keeps_find_first. Qed.

(** ** Writes *)

Lemma update_where_content p f d :
  (forall t, content_of t (f t)) ->
  no_new_content d (set_textures (with_rows (update_where p f (rows (textures d))) (textures d)) d).
Proof.
  intros Hf t' Hin. cbn in Hin. apply in_update_where in Hin as (t & Hin & ->). exists t.
  split; [done|]. destruct (p t); [apply Hf|done].
Qed.

Lemma keeps_update K id f :
  (forall t, content_of t (f t)) -> keeps (stored_with K) well_named (TextureRepo.update id f).
Proof.
  intros Hf. apply keeps_statement.
  - intros d t d'. unfold update_row. destruct (find_row _ _) eqn:E; [|done]. intros [= _ <-].
    by apply update_where_content.
  - intros d t d' H. unfold update_row. destruct (find_row _ _) eqn:E; [|done]. intros [= <- _].
    apply find_row_some in E as [Hin _]. eapply well_named_content; [apply Hf|]. by apply H.
Qed.

Lemma keeps_mark K t : keeps (stored_with K) well_named (TextureRepo.mark_as_wardrobe_item t).
Proof.
  unfold TextureRepo.mark_as_wardrobe_item. eapply keeps_bind; [apply keeps_read; apply _|].
  intros now _. by apply keeps_update.
Qed.

Lemma keeps_update_metadata K t user_id input :
  keeps (stored_with K) opt_named (TextureRepo.update_wardrobe_metadata_for_user t user_id input).
Proof.
  unfold TextureRepo.update_wardrobe_metadata_for_user.
  destruct (_ || _); [by apply keeps_ret|]. eapply keeps_bind; [apply keeps_read; apply _|].
  intros now _. eapply keeps_bind; [by apply keeps_update|]. intros u Hu. by apply keeps_ret.
Qed.

Lemma keeps_update_review K t input :
  keeps (stored_with K) well_named (TextureRepo.update_library_review t input).
Proof.
  unfold TextureRepo.update_library_review. eapply keeps_bind; [apply keeps_read; apply _|].
  intros now _. by apply keeps_update.
Qed.

Lemma keeps_replace_content K t user_id input :
  is_valid_texture_hash (TextureRepo.rc_hash input) = true ->
  TextureRepo.rc_storage_key input = blob_key (TextureRepo.rc_hash input) ->
  K (TextureRepo.rc_storage_key input) ->
  keeps (stored_with K) opt_named (TextureRepo.replace_wardrobe_content_for_user t user_id input).
Proof.
  intros Hh Hk HK. unfold TextureRepo.replace_wardrobe_content_for_user.
  destruct (_ || _); [by apply keeps_ret|]. eapply keeps_bind; [apply keeps_read; apply _|].
  intros now _. refine (keeps_bind _ (fun _ => True) _ _ _ _ _).
  - apply keeps_db_exec; [apply stored_with_tick|]. intros w a d [Hr HKw] [= _ <-].
    split; [|done]. split; [|done]. cbn. intros t' (t0 & Hin & ->)%in_update_where.
    destruct (TextureRepo.unchanged_since _ _ _); [|by apply Hr]. split; [done|]. by apply HKw.
  - intros n _. destruct (negb _); [by apply keeps_ret|]. apply keeps_find_for_user.
Qed.

Lemma keeps_create K input :
  is_valid_texture_hash (TextureRepo.ct_hash input) = true ->
  TextureRepo.ct_storage_key input = blob_key (TextureRepo.ct_hash input) ->
  K (TextureRepo.ct_storage_key input) ->
  keeps (stored_with K) well_named (TextureRepo.create input).
Proof.
  intros Hh Hk HK. eapply keeps_bind; [apply keeps_read; apply _|]. intros now _.
  by apply keeps_new_row.
Qed.

Lemma keeps_copy K t user_id vis name :
  well_named t -> K (storage_key t) ->
  keeps (stored_with K) well_named (TextureRepo.create_wardrobe_copy t user_id vis name).
Proof.
  intros Ht HK. eapply keeps_bind; [apply keeps_read; apply _|]. intros now _.
  by apply keeps_new_row.
Qed.

Lemma drop_texture_content id d : no_new_content d (TextureRepo.drop_texture id d).
Proof. intros t Hin. cbn in Hin. apply in_delete_where in Hin as [Hin _]. by exists t. Qed.

Lemma keeps_delete_row K id : keeps (stored_with K) (fun _ => True) (TextureRepo.delete_row id).
Proof. apply keeps_statement; [|done]. intros d a d' [= _ <-]. apply drop_texture_content. Qed.

Lemma keeps_delete_by_hash K hash :
  keeps (stored_with K) all_named (TextureRepo.delete_by_hash hash).
Proof.
  eapply keeps_bind; [apply keeps_list_by_hash|]. intros l Hl.
  eapply keeps_bind; [apply keeps_for_each; intros t _; apply keeps_delete_row|].
  intros _ _. by apply keeps_ret.
Qed.

Lemma keeps_delete_for_user K id user_id :
  keeps (stored_with K) opt_named (TextureRepo.delete_by_id_for_user id user_id).
Proof.
  eapply keeps_bind; [apply keeps_find_for_user|]. intros [t|] Ht; [|by apply keeps_ret].
  eapply keeps_bind; [apply keeps_delete_row|]. intros _ _. by apply keeps_ret.
Qed.

Lemma keeps_delete_wardrobe K id :
  keeps (stored_with K) opt_named (TextureRepo.delete_wardrobe_by_id id).
Proof.
  eapply keeps_bind; [apply keeps_find_by_id|]. intros [t|] Ht; [|by apply keeps_ret].
  destruct (negb _); [by apply keeps_ret|].
  eapply keeps_bind; [apply keeps_delete_row|]. intros _ _. by apply keeps_ret.
Qed.
End Textures.

#[export] Hint Resolve keeps_find_where keeps_find_first keeps_list_all keeps_list_by_hash
  keeps_list_by_user keeps_find_for_user keeps_find_by_id keeps_find_fingerprint keeps_mark
  keeps_update_metadata keeps_update_review keeps_delete_row keeps_delete_by_hash
  keeps_delete_for_user keeps_delete_wardrobe : keeps.

(** ** The other tables *)

(** A statement that leaves the textures alone. *)
Ltac aside :=
  apply keeps_aside; intros ? ? ? Hd;
  repeat first [case_match | progress simplify_eq/=]; done.

Section Bindings.
Context `{EN : Env} `{CB : CacheBackend}.
Implicit Types (K : string -> Prop) (d : Db).

Lemma collect_rows_named l r :
  (forall b t, In (b, Some t) l -> well_named t) -> collect_rows l = Ok r -> all_bound_named r.
Proof.
  revert r. induction l as [|[b [t|]] l IH]; intros r H; cbn; [by intros [= <-]| |done].
  destruct (collect_rows l) as [r'|e|m]; [|done..]. intros [= <-] pt [<-|Hin].
  - apply (H b). by left.
  - eapply IH; [|reflexivity|done]. intros b' t' Hin'. apply (H b'). by right.
Qed.

Lemma joined_rows_named l d b t :
  (forall t, In t (rows (textures d)) -> well_named t) ->
  In (b, Some t) (joined_rows l d) -> well_named t.
Proof.
  intros H (b' & _ & (t' & [= -> ->] & [Hin _]%in_rows_where)%in_map_iff)%in_flat_map. by apply H.
Qed.

Lemma keeps_select K query :
  (forall d b t, (forall t, In t (rows (textures d)) -> well_named t) ->
     In (b, Some t) (query d) -> well_named t) ->
  keeps (stored_with K) all_bound_named (select query).
Proof.
  intros H. eapply (keeps_bind _ (fun l => forall b t, In (b, Some t) l -> well_named t)).
  - apply keeps_query. intros d Hd b t. by apply H.
  - intros l Hl. apply keeps_lift. intros r. by apply collect_rows_named.
Qed.

Lemma keeps_list_by_profile K id : keeps (stored_with K) all_bound_named (list_by_profile id).
Proof. apply keeps_select. intros d b t. apply joined_rows_named. Qed.

Lemma keeps_list_all_bindings K : keeps (stored_with K) all_bound_named list_all.
Proof. apply keeps_select. intros d b t. apply joined_rows_named. Qed.

Lemma keeps_list_bindings_of_hash K hash :
  keeps (stored_with K) all_bound_named (list_by_hash hash).
Proof.
  apply keeps_select. intros d b t Hd [Hin _]%filter_In. by eapply joined_rows_named.
Qed.

Lemma keeps_list_by_texture K id : keeps (stored_with K) all_bound_named (list_by_texture_id id).
Proof. apply keeps_select. intros d b t. apply joined_rows_named. Qed.

Lemma keeps_with_texture K b : keeps (stored_with K) bound_named (with_texture b).
Proof.
  eapply keeps_bind; [apply (keeps_query _ opt_named)|].
  - intros d Hd. destruct (find_row _ _) as [t|] eqn:E; [|done].
    apply find_row_some in E as [Hin _]. by apply Hd.
  - intros [t|] Ht; (eapply keeps_bind; [apply (keeps_lift _ well_named)|]); cbn.
    + by intros t' [= <-].
    + intros t' Ht'. by apply keeps_ret.
    + done.
    + intros t' Ht'. by apply keeps_ret.
Qed.

Lemma keeps_find_slot K id ty :
  keeps (stored_with K) opt_bound_named (find_by_profile_and_type id ty).
Proof.
  eapply keeps_bind; [apply keeps_read; apply _|]. intros [b|] _; [|by apply keeps_ret].
  eapply keeps_bind; [apply keeps_with_texture|]. intros pt Hpt. by apply keeps_ret.
Qed.

Lemma keeps_upsert K input : keeps (stored_with K) bound_named (upsert_for_profile input).
Proof.
  eapply keeps_bind; [apply keeps_read; apply _|]. intros now _.
  eapply keeps_bind; [apply keeps_read; apply _|]. intros existing _.
  eapply keeps_bind; [|intros b _; apply keeps_with_texture].
  destruct existing; aside.
Qed.

Lemma keeps_delete_binding K id : keeps (stored_with K) (fun _ => True) (delete_by_id id).
Proof.
  unfold delete_by_id. eapply (keeps_bind _ (fun _ => True)); [aside|]. intros n _.
  by apply keeps_ret.
Qed.

Lemma keeps_delete_slot K id ty :
  keeps (stored_with K) opt_bound_named (delete_for_profile id ty).
Proof.
  eapply keeps_bind; [apply keeps_find_slot|]. intros [pt|] Hpt; [|by apply keeps_ret].
  eapply keeps_bind; [apply keeps_delete_binding|]. intros _ _. by apply keeps_ret.
Qed.

Lemma keeps_delete_by_texture K id :
  keeps (stored_with K) all_bound_named (delete_by_texture_id id).
Proof.
  eapply keeps_bind; [apply keeps_list_by_texture|]. intros l Hl.
  eapply keeps_bind; [apply keeps_for_each; intros b _; apply keeps_delete_binding|].
  intros _ _. by apply keeps_ret.
Qed.

Lemma keeps_touch K id : keeps (stored_with K) (fun _ => True) (ProfileRepo.touch_by_id id).
Proof.
  eapply keeps_bind; [apply keeps_read; apply _|]. intros [p|] _; [|by apply keeps_ret].
  eapply keeps_bind; [apply keeps_read; apply _|]. intros now _.
  eapply (keeps_bind _ (fun _ => True)); [aside|]. intros u _. by apply keeps_ret.
Qed.

Lemma keeps_upsert_preference K input :
  keeps (stored_with K) (fun _ => True) (PreferenceRepo.upsert input).
Proof.
  eapply keeps_bind; [apply keeps_read; apply _|]. intros now _.
  eapply keeps_bind; [apply keeps_read; apply _|]. intros existing _.
  destruct existing; aside.
Qed.
End Bindings.

#[export] Hint Resolve keeps_list_by_profile keeps_list_all_bindings keeps_list_bindings_of_hash
  keeps_list_by_texture keeps_find_slot keeps_upsert keeps_delete_slot
  keeps_delete_by_texture keeps_touch keeps_upsert_preference : keeps.

Section LibraryTables.
Context `{EN : Env} `{CB : CacheBackend} `{FA : ForgeApi} `{TS : TextSearch}.
Implicit Types (K : string -> Prop).

Lemma keeps_create_tag K input : keeps (stored_with K) (fun _ => True) (TagRepo.create input).
Proof. eapply keeps_bind; [apply keeps_read; apply _|]. intros now _. aside. Qed.

Lemma keeps_update_tag K t input : keeps (stored_with K) (fun _ => True) (TagRepo.update t input).
Proof. eapply keeps_bind; [apply keeps_read; apply _|]. intros now _. aside. Qed.

Lemma keeps_delete_tag K id : keeps (stored_with K) (fun _ => True) (TagRepo.delete id).
Proof. aside. Qed.

Lemma keeps_replace_tags K id ids :
  keeps (stored_with K) (fun _ => True) (TagRepo.replace_texture_tags id ids).
Proof.
  eapply (keeps_bind _ (fun _ => True)); [aside|]. intros n _.
  eapply keeps_bind; [apply keeps_read; apply _|]. intros now _.
  apply keeps_for_each. intros tag_id _. aside.
Qed.

Lemma keeps_create_report K input :
  keeps (stored_with K) (fun _ => True) (ReportRepo.create input).
Proof. eapply keeps_bind; [apply keeps_read; apply _|]. intros now _. aside. Qed.

Lemma keeps_write_handled K id input now :
  keeps (stored_with K) (fun _ => True) (ReportRepo.write_handled id input now).
Proof. aside. Qed.

Lemma keeps_handle K r input : keeps (stored_with K) (fun _ => True) (ReportRepo.handle r input).
Proof.
  eapply keeps_bind; [apply keeps_read; apply _|]. intros now _. apply keeps_write_handled.
Qed.

Lemma keeps_handle_pending K id input :
  keeps (stored_with K) (fun _ => True) (ReportRepo.handle_pending_for_texture id input).
Proof.
  eapply keeps_bind; [apply keeps_read; apply _|]. intros l _.
  eapply keeps_bind; [apply keeps_read; apply _|]. intros now _.
  induction l as [|r l IH]; cbn; [by apply keeps_ret|].
  eapply keeps_bind; [apply keeps_write_handled|]. intros u _.
  eapply keeps_bind; [apply IH|]. intros us _. by apply keeps_ret.
Qed.
End LibraryTables.

#[export] Hint Resolve keeps_create_tag keeps_update_tag keeps_delete_tag keeps_replace_tags
  keeps_create_report keeps_handle keeps_handle_pending : keeps.

(** ** Hashes: two digits of the last byte of the text *)

Definition nibble (b0 b1 b2 b3 : bool) : ascii :=
  match b3, b2, b1, b0 with
  | false, false, false, false => "0" | false, false, false, true => "1"
  | false, false, true, false => "2" | false, false, true, true => "3"
  | false, true, false, false => "4" | false, true, false, true => "5"
  | false, true, true, false => "6" | false, true, true, true => "7"
  | true, false, false, false => "8" | true, false, false, true => "9"
  | true, false, true, false => "a" | true, false, true, true => "b"
  | true, true, false, false => "c" | true, true, false, true => "d"
  | true, true, true, false => "e" | true, true, true, true => "f"
  end%char.

Definition last_byte (s : string) : ascii := List.last (bytes s) Ascii.zero.

Definition hash1 (s : string) : string :=
  let 'Ascii b0 b1 b2 b3 b4 b5 b6 b7 := last_byte s in
  ("00000000000000000000000000000000000000000000000000000000000000" +:+
   String (nibble b4 b5 b6 b7) (String (nibble b0 b1 b2 b3) EmptyString))%string.

Definition crypto1 : ForgeCrypto := {|
  sha256_hex := hash1;
  verify_password := fun password hash => Ok (eqb password hash)
|}.

Lemma crypto1_laws : Sha256Laws crypto1.
Proof. split. intros s. cbn. unfold hash1. by destruct (last_byte s) as [[] [] [] [] [] [] [] []]. Qed.

(** ** Files and images *)

#[export] Instance file_system1 : FileSystem := {|
  normalize_object_key := fun k => Ok k;
  normalize_object_prefix := fun p => Ok p;
  io_fault := fun _ => None;
  no_such_file := "No such file or directory (os error 2)"%string;
  partial_copy := fun _ _ => None
|}.
#[export] Instance file_system1_laws : FileSystemLaws file_system1.
Proof. by split. Qed.

#[export] Instance storage1 : ObjectStorage := LocalObjectStorage.implementation.
#[export] Instance storage1_laws : ObjectStorageLaws storage1 := local_laws.

(** Every image is 64 by 64; its pixels and its file are the last byte. *)
#[export] Instance image_codec1 : ImageCodec := {|
  png_dimensions := fun _ => Ok (64, 64);
  png_decode := fun s => Ok (mkImage 64 64 (fun _ _ => Z.of_nat (nat_of_ascii (last_byte s))));
  to_rgba8 := fun i => i;
  png_encode := fun i => Ok (String (ascii_of_nat (Z.to_nat (pixel i 0 0))) EmptyString);
  join_error := fun s => s
|}.
#[export] Instance image_codec1_laws : ImageCodecLaws image_codec1.
Proof. split; cbn; intros; simplify_eq; cbn; try lia; done. Qed.

#[export] Instance text_search1 : TextSearch := {|
  like_contains := fun _ _ => true;
  lower_like := fun _ _ => true
|}.

#[export] Instance texture_numbers1 : TextureNumbers := {|
  u32_to_i32 := fun n name =>
    if n <=? I32_MAX then Ok n else Err (name +:+ " is too large")%string;
  usize_to_u64 := fun n _ => Ok n
|}.
#[export] Instance texture_numbers1_laws : TextureNumberLaws texture_numbers1.
Proof. split; cbn; [|done]. intros n name. destruct (n <=? I32_MAX); eauto. Qed.

#[export] Instance preview1 : PreviewPolicy := {|
  preview_engine := "software"%string;
  preview_payload := fun s => s
|}.
#[export] Instance official1 : OfficialTextures := {|
  parse_url := fun s => Ok (mkUrl "https" (Some "textures.minecraft.net"%string) s);
  set_scheme_https := fun u => Some u;
  build_client := fun _ => None;
  http_get := fun _ _ => Ok (mkResponse "200 OK" true None [Ok "skin"%string])
|}.
#[export] Instance unicode1 : Unicode := {| to_lowercase := to_ascii_lowercase |}.
#[export] Instance skin_externs1 : SkinExterns := {|
  uuid_parse_str := fun s => if (str_len s =? 32)%nat then Some 15 else None;
  STEVE_BYTES := "steve"%string;
  ALEX_BYTES := "alex"%string
|}.
#[export] Instance yggdrasil_externs2 : YggdrasilExterns := {|
  get_bool_or := fun _ _ d => d;
  get_string_or := fun get key d => match get key with Some v => v | None => d end;
  normalize_http_base_url := fun v _ _ => Ok (Some v);
  url_host := strip_prefix "https://";
  strings_to_json := fun l => Ok (String.concat "," l);
  rsa_private_pkcs8 := fun _ => None;
  rsa_private_pkcs1 := fun _ => None;
  rsa_public_pem := fun _ => None;
  rsa_public_pkcs1 := fun _ => None
|}.

(** ** Textures of Alice *)

Definition texture1 (id : Z) (hash key : string) (vis : MinecraftTextureVisibility)
  (status : MinecraftTextureLibraryStatus) : minecraft_texture :=
  mkTexture id 1 Skin TextureLocal hash key "image/png" 1 64 64 ModelDefault vis true None status
    None None None None 0 0.

Definition with_textures (l : list minecraft_texture) (next : Z) (w : World) : World :=
  set_db (set_textures (mkTable l next) (db w)) w.
