(* ===== verification/BlobProofs.v ===== *)
(** * No request loses a blob

    The handlers of the texture service keep the invariant of
    TextureInvariant.v, whatever fails on the way. *)

From Stdlib Require Import ZArith List Bool Lia Ascii.
From stdpp Require Import base decidable list strings gmap.
From S2P Require Import Prelude Text Errors Types AuditLog World Logic Repos Bans Tokens Auth BanProofs AuthProofs ForwardTextures Sessions ProfileTextures AuthConfig Accounts WebSessions Tracks YggdrasilConfig ObjectStorage TextureRepo TextureProcessing TextureService TextureWardrobe TextureLibrary TextureInvariant.

Local Open Scope Z_scope.
Local Open Scope aster_scope.
Import ProfileTextureRepo.

Lemma keeps_tex `{CB : CacheBackend} I {A} (P : A -> Prop) (c : M AsterError.t A) :
  keeps I P c -> keeps I P (tex c).
Proof. apply keeps_map_err. Qed.
#[export] Hint Resolve keeps_tex : keeps.

Section Reading.
Context `{EN : Env} `{CB : CacheBackend} `{FC : ForgeCrypto} `{IC : ImageCodec} `{FS : FileSystem}.

#[export] Instance reads_tex {A} (c : M AsterError.t A) : Reads c -> Reads (tex c).
Proof. unfold tex. apply _. Qed.
#[export] Instance reads_file_op what mapper : Reads (file_op what mapper).
Proof.
  intros w. unfold file_op, LocalObjectStorage.fs. destruct (io_fault _); cbn; [apply same_tick|].
  rewrite LocalObjectStorage.set_objects_id. apply same_tick.
Qed.
#[export] Instance reads_spawn {A} (c : M AsterError.t A) : Reads c -> Reads (spawn_blocking c).
Proof.
  intros H w. unfold spawn_blocking. specialize (H w). by destruct (c w) as [[a|e|m] w'].
Qed.
#[export] Instance reads_sanitize source ty n : Reads (sanitize_png_texture source ty n).
Proof. unfold sanitize_png_texture. apply _. Qed.
#[export] Instance reads_process source ty n : Reads (process_texture_file source ty n).
Proof. unfold process_texture_file. apply _. Qed.
#[export] Instance reads_temp_file what : Reads (temp_file what).
Proof. intros w. unfold temp_file. destruct (io_fault _); apply same_tick. Qed.
#[export] Instance reads_process_upload `{RC : RuntimeConfig} s ty : Reads (process_upload s ty).
Proof. unfold process_upload. apply _. Qed.
#[export] Instance reads_ensure_not_banned `{BE : BanExterns} u s :
  Reads (ensure_user_not_banned u s).
Proof. unfold ensure_user_not_banned, active_user_ban_for_scope. apply _. Qed.
#[export] Instance reads_ensure_may_upload `{BE : BanExterns} u : Reads (ensure_may_upload u).
Proof. unfold ensure_may_upload. apply _. Qed.
#[export] Instance reads_ensure_may_change `{RC : RuntimeConfig} p ty : Reads (ensure_may_change p ty).
Proof. unfold ensure_may_change. apply _. Qed.
#[export] Instance reads_receive `{TN : TextureNumbers} errors n chunks written content :
  Reads (receive_chunks errors n chunks written content).
Proof.
  revert written content. induction chunks as [|[c|e|m] chunks IH]; intros written content;
    cbn [receive_chunks]; apply _.
Qed.
#[export] Instance reads_fetch {A} what (r : outcome string A) : Reads (fetch what r).
Proof. intros w. apply same_tick. Qed.
End Reading.

Section Cleanup.
Context `{EN : Env} `{CB : CacheBackend} `{FA : ForgeApi} `{TS : TextSearch}.
Context `{OS : !ObjectStorage} `{OL : !ObjectStorageLaws OS}.

#[export] Instance reads_exists key : Reads (exists_ key).
Proof. intros w. apply exists_reads. Qed.
#[export] Instance reads_list_keys prefix : Reads (list_keys prefix).
Proof. intros w. apply list_keys_reads. Qed.
#[export] Instance reads_count key : Reads (TextureRepo.count_by_storage_key key).
Proof. unfold TextureRepo.count_by_storage_key. apply _. Qed.

(** Deleting a blob no row names. *)
Lemma delete_unreferenced key w r w' :
  is_texture_blob_storage_key key = true ->
  (forall t, In t (rows (textures (db w))) -> storage_key t <> key) ->
  delete key w = (r, w') -> blobs_stored w -> blobs_stored w'.
Proof.
  intros Hk Hno Hd [Hr _]. apply delete_spec in Hd as ((Edb & _ & _ & _ & Ho) & _ & _); [|by left].
  split; [|done]. rewrite Edb. intros t Hin. destruct (Hr t Hin) as [Hn Hs]. split; [done|].
  unfold stored. rewrite Ho; [done|]. by apply Hno.
Qed.

Lemma count_zero key d :
  Z.of_nat (count_where (fun t => eqb (storage_key t) key) (rows (textures d))) = 0 ->
  forall t, In t (rows (textures d)) -> storage_key t <> key.
Proof.
  intros Hc t Hin E. unfold count_where in Hc.
  assert (In t (rows_where (fun t => eqb (storage_key t) key) (rows (textures d)))) as H
    by (apply in_rows_where; split; [done|by rewrite eqb_true]).
  destruct (rows_where _ _); [done|]. cbn in Hc. lia.
Qed.

Lemma keeps_cleanup {E} key :
  is_texture_blob_storage_key key = true ->
  keeps blobs_stored (fun _ => True) (cleanup_texture_blob_if_unreferenced key : M E unit).
Proof.
  intros Hk w HI. unfold cleanup_texture_blob_if_unreferenced, count_object_storage_references.
  apply wp_bind, wp_catch. unfold TextureRepo.count_by_storage_key. apply wp_db_query.
  - intros m _. cbn. apply wp_ret. split; [by apply stored_with_tick|done].
  - intros _. cbn [wp_next]. apply (stored_with_tick _ w) in HI.
    destruct (Z.of_nat _ =? 0) eqn:Ec; cbn [negb]; [|by apply wp_ret].
    apply Z.eqb_eq in Ec. pose proof (count_zero _ _ Ec) as Hno.
    apply wp_bind, wp_catch, wp_intro. intros r w1 Hd.
    apply delete_unreferenced in Hd as HI1; [|done..].
    destruct r; cbn [wp_next]; [by apply wp_ret| |done].
    eapply keeps_bind; [apply keeps_catch, keeps_read; apply _| |done].
    intros b _. by apply keeps_ret.
Qed.
End Cleanup.
#[export] Hint Resolve keeps_cleanup well_named_key : keeps.

(** ** The service *)

Section Service.
Context `{EN : Env} `{CB : CacheBackend} `{FC : ForgeCrypto} `{FA : ForgeApi} `{TS : TextSearch}.
Context `{FN : ForgeNumbers} `{TN : TextureNumbers} `{SE : SkinExterns} `{TX : TextureExterns}.
Context `{RC : RuntimeConfig} `{PP : PreviewPolicy} `{IC : ImageCodec} `{FS : FileSystem}.
Context `{OS : !ObjectStorage} `{OT : OfficialTextures} `{BE : BanExterns}.
Context `{OL : !ObjectStorageLaws OS} `{SL : !Sha256Laws FC}.

Lemma keeps_invalidate_profile K {E} id :
  keeps (stored_with K) (fun _ => True) (invalidate_profile_texture_caches id : M E unit).
Proof. unfold invalidate_profile_texture_caches. solve_keeps. Qed.

Lemma keeps_invalidate_bindings K {E} l :
  keeps (stored_with K) (fun _ => True)
    (invalidate_profile_texture_caches_for_bindings l : M E unit).
Proof. apply keeps_for_each. intros id _. apply keeps_invalidate_profile. Qed.

Lemma keeps_invalidate_asset K {E} t :
  keeps (stored_with K) (fun _ => True) (invalidate_texture_asset_caches t : M E unit).
Proof.
  unfold invalidate_texture_asset_caches, BlobCache.invalidate_texture_blob_lookup. solve_keeps.
Qed.

#[local] Hint Resolve keeps_invalidate_profile keeps_invalidate_bindings keeps_invalidate_asset : keeps.

Lemma keeps_cleanup_asset {E} t :
  well_named t ->
  keeps blobs_stored (fun _ => True) (cleanup_texture_asset_if_unreferenced t : M E unit).
Proof.
  intros Ht. unfold cleanup_texture_asset_if_unreferenced. destruct (is_wardrobe_item t);
    [by apply keeps_ret|]. unfold count_by_texture_id. solve_keeps.
Qed.

#[local] Hint Resolve keeps_cleanup_asset : keeps.

(** What processing an upload gives: bytes under their own hash. *)
Lemma process_upload_hash s ty w p file w' :
  process_upload s ty w = (Ok (p, file), w') ->
  pr_hash p = sha256_hex file /\ pr_file_size p = Z.of_nat (str_len file).
Proof.
  unfold process_upload. rewrite map_err_ok. unfold process_texture_file, spawn_blocking.
  intros H. assert (forall c : M AsterError.t (TextureProcessingResult * string),
    match c w with
    | (Panic m, w1) =>
        (Err (AsterError.InternalError ("process texture task: " +:+ join_error m)), w1)
    | other => other
    end = (Ok (p, file), w') -> c w = (Ok (p, file), w')) as Hspawn
    by (intros c; by destruct (c w) as [[?|?|?] ?]).
  apply Hspawn in H. unfold sanitize_png_texture in H.
  repeat (apply bind_ok in H as (? & ? & _ & H)).
  repeat (case_match; simplify_eq; try done).
  repeat (apply bind_ok in H as (? & ? & _ & H)). by injection H as <- <- _.
Qed.

Lemma blobs_stored_same w w' : same w w' -> blobs_stored w -> blobs_stored w'.
Proof. apply stored_with_same. Qed.

(** A stored file's name is held on to until a row names it. *)
Lemma put_file_pins key content w r w' :
  is_texture_blob_storage_key key = true -> put_file key content w = (r, w') ->
  blobs_stored w ->
  blobs_stored w' /\ match r with Ok _ => stored_with (eq key) w' | _ => True end.
Proof.
  intros Hk Hp [Hr _]. apply put_file_spec in Hp as ((Edb & _ & _ & _ & Ho) & Hkeep & Hres); [|by left].
  assert (forall t, In t (rows (textures (db w'))) -> well_named t /\ stored (storage_key t) w') as Hr'.
  { rewrite Edb. intros t Hin. destruct (Hr t Hin) as [Hn Hs]. split; [done|].
    destruct (decide (storage_key t = key)) as [E|Hne]; [rewrite E in Hs |- *; by apply Hkeep|].
    unfold stored. by rewrite Ho. }
  split; [by split|]. destruct r; [|exact I..]. split; [exact Hr'|]. by intros k <-.
Qed.

(** From a world where a name is held on to, to one where it need not be. *)
Lemma wp_forget {E A} (P : A -> Prop) K (c : M E A) w :
  keeps (stored_with K) P c -> stored_with K w ->
  wp c (fun r w' => blobs_stored w' /\ match r with Ok a => P a | _ => True end) w.
Proof.
  intros Hc HI. eapply wp_mono; [by apply Hc|]. intros r w' [H1 H2]. split; [|done].
  by eapply stored_with_forget.
Qed.

Lemma keeps_store input : keeps blobs_stored well_named (store_or_reuse_wardrobe_texture input).
Proof.
  intros w HI. unfold store_or_reuse_wardrobe_texture.
  apply wp_bind. apply (wp_reads (process_upload _ _)). intros r w1 Hp S1.
  apply (blobs_stored_same _ _ S1) in HI.
  destruct r as [[p file]|e|m]; cbn [wp_next]; [|done..].
  apply process_upload_hash in Hp as [Hh _].
  assert (is_valid_texture_hash (pr_hash p) = true) as Hv by (rewrite Hh; apply sha256_hex_valid).
  rewrite object_storage_key_valid by done. wp_step. wp_step. cbn [wp_next].
  refine (keeps_step _ opt_named _ _ _ _ _ HI _ _ _); [solve [eauto 3 with keeps]| |done..].
  clear w1 HI S1. intros [t|] w1 HI Ht; [by apply wp_ret|].
  pose proof (blob_key_is_texture_key _ Hv) as Hk.
  apply wp_bind, wp_map_err, wp_intro. intros r w2 Hput.
  apply put_file_pins in Hput as [HI2 Hpin]; [|done..].
  destruct r as [k|e|m]; cbn [wp_next]; [|done..]. apply wp_bind.
  apply wp_map_err. wp_step. destruct (normalized_metadata p) as [[[fs wd] ht]|e|m]; cbn [wp_next];
    [|done..].
  apply wp_bind, wp_catch. eapply wp_mono; [by apply (keeps_create (eq (blob_key (pr_hash p))))|]. cbn.
  intros [t|e|m] w3 [HI3 Ht3]; cbn [wp_next]; apply stored_with_forget in HI3.
  - by apply wp_ret.
  - refine (keeps_step _ (fun _ => True) _ _ _ _ _ HI3 _ _ _); [by apply keeps_cleanup| |done..].
    intros _ w4 HI4 _. by apply wp_throw.
  - done.
Qed.
#[local] Hint Resolve keeps_store : keeps.

(** *** Bindings *)

Lemma keeps_after_binding {E} profile previous bound :
  opt_bound_named previous -> bound_named bound ->
  keeps blobs_stored (fun _ => True) (after_binding profile previous bound : M E unit).
Proof. intros Hp Hb. unfold after_binding. solve_keeps. Qed.

Lemma keeps_bind_stored profile ty t :
  well_named t -> keeps blobs_stored bound_named (bind_stored profile ty t).
Proof. intros Ht. unfold bind_stored. solve_keeps. Qed.

Lemma keeps_remember profile t :
  keeps blobs_stored (fun _ => True) (remember_local_texture_preset profile t).
Proof. unfold remember_local_texture_preset. solve_keeps. Qed.

#[local] Hint Resolve keeps_after_binding keeps_bind_stored keeps_remember : keeps.

Lemma keeps_store_texture profile ty model file :
  keeps blobs_stored (fun _ => True) (store_texture profile ty model file).
Proof. unfold store_texture. solve_keeps. Qed.

Lemma keeps_store_wardrobe user_id ty model vis file :
  keeps blobs_stored (fun _ => True) (store_wardrobe_texture user_id ty model vis file).
Proof. unfold store_wardrobe_texture. solve_keeps. Qed.

Lemma keeps_bind_wardrobe user_id profile id ty :
  keeps blobs_stored (fun _ => True) (bind_wardrobe_texture_to_profile user_id profile id ty).
Proof. unfold bind_wardrobe_texture_to_profile. solve_keeps. Qed.
#[local] Hint Resolve keeps_bind_wardrobe : keeps.

Lemma keeps_preset user_id profile ty :
  keeps blobs_stored (fun _ => True) (apply_local_preset user_id profile ty).
Proof. unfold apply_local_preset. solve_keeps. Qed.
#[local] Hint Resolve keeps_preset : keeps.

#[local] Instance reads_download url n : Reads (download_official_texture_to_temp_file url n).
Proof.
  unfold download_official_texture_to_temp_file. apply reads_bind; [apply _|intros u].
  apply reads_bind; [intros w; apply same_tick|intros _].
  apply reads_bind; [intros w; apply same_tick|intros response]. apply _.
Qed.

Lemma keeps_import profile ty model url mode :
  keeps blobs_stored (fun _ => True)
    (import_official_texture_to_profile_with_mode profile ty model url mode).
Proof. unfold import_official_texture_to_profile_with_mode. solve_keeps. Qed.

(** *** Deletion *)

Lemma keeps_after_unbinding {E} pt :
  bound_named pt -> keeps blobs_stored (fun _ => True) (after_unbinding pt : M E unit).
Proof. intros H. unfold after_unbinding. solve_keeps. Qed.
#[local] Hint Resolve keeps_after_unbinding : keeps.

Lemma keeps_unbind profile ty : keeps blobs_stored (fun _ => True) (unbind profile ty).
Proof. unfold unbind. solve_keeps. Qed.
#[local] Hint Resolve keeps_unbind : keeps.

Lemma keeps_delete_texture profile ty :
  keeps blobs_stored (fun _ => True) (delete_texture_for_profile profile ty).
Proof. unfold delete_texture_for_profile, delete_texture. solve_keeps. Qed.

Lemma keeps_delete_unchecked profile ty :
  keeps blobs_stored (fun _ => True) (delete_texture_for_profile_unchecked profile ty).
Proof. unfold delete_texture_for_profile_unchecked. solve_keeps. Qed.
#[local] Hint Resolve keeps_delete_unchecked : keeps.

Lemma keeps_delete_official profile ty :
  keeps blobs_stored (fun _ => True) (delete_official_texture_for_profile_if_bound profile ty).
Proof. unfold delete_official_texture_for_profile_if_bound. solve_keeps. Qed.

Lemma keeps_delete_bindings l deleted :
  keeps blobs_stored (fun _ => True) (delete_bindings_of_hash l deleted).
Proof. revert deleted. induction l as [|t l IH]; intros deleted; cbn; solve_keeps. Qed.
#[local] Hint Resolve keeps_delete_bindings : keeps.

Lemma keeps_delete_by_hash_request hash :
  keeps blobs_stored (fun _ => True) (delete_textures_by_hash hash).
Proof.
  unfold delete_textures_by_hash. destruct (negb _); [by apply keeps_ret|].
  eapply keeps_bind; [eauto 3 with keeps|]. intros l _.
  eapply keeps_bind; [eauto 3 with keeps|]. intros deleted _.
  eapply keeps_bind; [eauto 3 with keeps|]. intros assets Hassets. cbn beta in Hassets.
  eapply keeps_bind; [|intros _ _; by apply keeps_ret].
  apply keeps_for_each. intros t Hin. pose proof (Hassets _ Hin). solve_keeps.
Qed.

Lemma keeps_delete_profile_bindings id l deleted :
  keeps blobs_stored (fun _ => True) (delete_bindings_of_profile id l deleted).
Proof. revert deleted. induction l as [|t l IH]; intros deleted; cbn; solve_keeps. Qed.
#[local] Hint Resolve keeps_delete_profile_bindings : keeps.

Lemma keeps_delete_all_for_profile profile :
  keeps blobs_stored (fun _ => True) (delete_all_textures_for_profile profile).
Proof. unfold delete_all_textures_for_profile. solve_keeps. Qed.

Lemma keeps_delete_wardrobe_unchecked user_id id :
  keeps blobs_stored (fun _ => True) (delete_wardrobe_texture_unchecked user_id id).
Proof. unfold delete_wardrobe_texture_unchecked. solve_keeps. Qed.
#[local] Hint Resolve keeps_delete_wardrobe_unchecked : keeps.

Lemma keeps_delete_wardrobe_request user_id id :
  keeps blobs_stored (fun _ => True) (delete_wardrobe_texture user_id id).
Proof. unfold delete_wardrobe_texture. solve_keeps. Qed.

Lemma keeps_delete_each user_id l deleted :
  keeps blobs_stored (fun _ => True) (delete_each user_id l deleted).
Proof. revert deleted. induction l as [|t l IH]; intros deleted; cbn; solve_keeps. Qed.
#[local] Hint Resolve keeps_delete_each : keeps.

Lemma keeps_delete_all_wardrobe user_id :
  keeps blobs_stored (fun _ => True) (delete_all_wardrobe_textures_for_user user_id).
Proof. unfold delete_all_wardrobe_textures_for_user. solve_keeps. Qed.

(** *** Registration *)

Lemma keeps_register_binding result b :
  bound_named b -> keeps blobs_stored (fun _ => True) (register_binding result b).
Proof. intros Hb. unfold register_binding. solve_keeps. Qed.

Lemma keeps_register_bindings l result :
  all_bound_named l -> keeps blobs_stored (fun _ => True) (register_bindings l result).
Proof.
  revert result. induction l as [|b l IH]; intros result Hl; cbn; [by apply keeps_ret|].
  eapply keeps_bind; [apply keeps_register_binding, Hl; by left|]. intros r _. apply IH.
  intros b' Hin. apply Hl. by right.
Qed.

Lemma keeps_register : keeps blobs_stored (fun _ => True) register_bound_textures_in_wardrobe.
Proof.
  unfold register_bound_textures_in_wardrobe.
  eapply keeps_bind; [eauto 3 with keeps|]. intros l Hl.
  eapply keeps_bind; [eauto 3 with keeps|]. intros n _. by apply keeps_register_bindings.
Qed.

(** *** Maintenance *)

Lemma keeps_orphan_loop keys result :
  (forall k, In k keys -> is_texture_blob_storage_key k = true) ->
  keeps blobs_stored (fun _ => True) (cleanup_orphan_loop keys result).
Proof.
  revert result. induction keys as [|key keys IH]; intros result Hkeys; cbn [cleanup_orphan_loop];
    [by apply keeps_ret|].
  assert (forall r, keeps blobs_stored (fun _ => True) (cleanup_orphan_loop keys r)) as IH'
    by (intros r; apply IH; intros k Hk; apply Hkeys; by right).
  intros w HI. unfold count_object_storage_references, TextureRepo.count_by_storage_key.
  apply wp_bind, wp_db_query; [intros m _; split; [by apply stored_with_tick|done]|].
  intros _. cbn [wp_next]. apply (stored_with_tick _ w) in HI.
  destruct (0 <? Z.of_nat _) eqn:Ec; [by apply IH'|].
  apply wp_bind, wp_intro. intros r w1 Hd. apply delete_unreferenced in Hd as HI1.
  - destruct r; cbn [wp_next]; [by apply IH'|done..].
  - apply Hkeys. by left.
  - apply count_zero, Z.le_antisymm; [by apply Z.ltb_ge|apply Nat2Z.is_nonneg].
  - done.
Qed.

Lemma keeps_orphans : keeps blobs_stored (fun _ => True) cleanup_orphan_texture_blobs.
Proof.
  unfold cleanup_orphan_texture_blobs. eapply keeps_bind; [eauto 3 with keeps|]. intros keys _.
  eapply keeps_bind; [eauto 3 with keeps|]. intros n _. apply keeps_orphan_loop.
  intros k [_ Hk]%filter_In. done.
Qed.

(** *** Replacement *)

Lemma wardrobe_item_some o t : wardrobe_item o = Some t -> o = Some t.
Proof. destruct o as [u|]; cbn; [|done]. destruct (is_wardrobe_item u); congruence. Qed.

Lemma opt_named_item o : opt_named o -> opt_named (wardrobe_item o).
Proof. destruct o as [u|]; cbn; [|done]. by destruct (is_wardrobe_item u). Qed.

Lemma keeps_abandon {A} (P : A -> Prop) key e :
  is_texture_blob_storage_key key = true -> keeps blobs_stored P (abandon key e).
Proof.
  intros Hk. eapply keeps_bind; [by apply keeps_cleanup|]. intros _ _. apply keeps_throw.
Qed.

Definition pair_named (r : option (minecraft_texture * minecraft_texture)) : Prop :=
  match r with Some (old, updated) => well_named old /\ well_named updated | None => True end.

Definition replaces_with (input : TextureRepo.ReplaceWardrobeTextureContent) : Prop :=
  is_valid_texture_hash (TextureRepo.rc_hash input) = true /\
  TextureRepo.rc_storage_key input = blob_key (TextureRepo.rc_hash input).

Lemma loop_keeps fuel attempt user_id input existing w :
  replaces_with input -> well_named existing ->
  stored_with (eq (TextureRepo.rc_storage_key input)) w ->
  wp (replacement_loop fuel attempt user_id input existing)
     (fun r w' => blobs_stored w' /\ match r with Ok a => pair_named a | _ => True end) w.
Proof.
  intros [Hv Hk]. assert (is_texture_blob_storage_key (TextureRepo.rc_storage_key input) = true) as Hb
    by (rewrite Hk; by apply blob_key_is_texture_key).
  revert attempt existing w. induction fuel as [|fuel IH]; intros attempt existing w Hn HI;
    cbn [replacement_loop]; [apply wp_ret; split; [by eapply stored_with_forget|done]|].
  assert (forall A (P : A -> Prop) e w, stored_with (eq (TextureRepo.rc_storage_key input)) w ->
    wp (abandon (TextureRepo.rc_storage_key input) e : TM A)
       (fun r w' => blobs_stored w' /\ match r with Ok a => P a | _ => True end) w) as Hfail.
  { intros A P e w1 HI1. apply keeps_abandon; [done|]. by eapply stored_with_forget. }
  refine (keeps_step _ _ _ _ _ _ _ HI _ _ _).
  { apply keeps_catch, keeps_tex. by apply keeps_replace_content. }
  2,3: by intros ? w1 HI1; split; [by eapply stored_with_forget|].
  cbn. intros [[t|]|e] w1 HI1 Ht; [apply wp_ret; split; [by eapply stored_with_forget|done]| |by apply Hfail].
  refine (keeps_step _ _ _ _ _ _ _ HI1 _ _ _); [apply keeps_catch, keeps_find_for_user| | |].
  2,3: by intros ? w2 HI2; split; [by eapply stored_with_forget|].
  cbn. intros [current|e] w2 HI2 Hc; [|by apply Hfail].
  apply opt_named_item in Hc. destruct (wardrobe_item current) as [t|]; [|by apply Hfail].
  destruct (same_content _ _ t); [apply wp_ret; split; [by eapply stored_with_forget|done]|].
  destruct (_ <=? _); [by apply Hfail|]. by apply IH.
Qed.

#[local] Instance reads_tags_for t : Reads (wardrobe_texture_with_current_tags t).
Proof. unfold wardrobe_texture_with_current_tags, TagRepo.list_for_texture. apply _. Qed.

Lemma keeps_after_replacement bindings old updated :
  well_named old ->
  keeps blobs_stored (fun _ => True) (after_replacement bindings old updated).
Proof. intros Ho. unfold after_replacement. solve_keeps. Qed.

Lemma write_keeps user_id t model p file w :
  is_valid_texture_hash (pr_hash p) = true -> In t (rows (textures (db w))) -> blobs_stored w ->
  wp (write_replacement user_id t model p file)
     (fun r w' => blobs_stored w' /\ match r with Ok _ => True | _ => True end) w.
Proof.
  intros Hv Hin HI. pose proof HI as [Hr _]. destruct (Hr t Hin) as [Hn _].
  pose proof (blob_key_is_texture_key _ Hv) as Hk.
  unfold write_replacement. apply wp_bind, wp_map_err. wp_step.
  destruct (normalized_metadata p) as [[[fs wd] ht]|e|m]; cbn [wp_next]; [|done..].
  rewrite object_storage_key_valid by done. wp_step. wp_step. cbn [wp_next]. apply wp_bind.
  apply (wp_mono _ (fun r w1 => blobs_stored w1 /\
    match r with Ok _ => stored_with (eq (blob_key (pr_hash p))) w1 | _ => True end)).
  - destruct (eqb (pr_hash p) (tex_hash t)) eqn:Eh; cbn [negb].
    + apply wp_ret. split; [done|]. rewrite eqb_true in Eh. rewrite Eh.
      destruct Hn as [_ <-]. by apply stored_with_pin.
    + apply wp_bind, wp_map_err, wp_intro. intros r w1 Hput.
      apply put_file_pins in Hput as [HI1 Hpin]; [|done..]. by destruct r.
  - intros [u|e|m] w1 [HI1 Hpin]; cbn [wp_next]; [|done..].
    refine (keeps_step _ _ _ _ _ _ _ Hpin _ _ _); [apply keeps_catch; eauto 3 with keeps| | |].
    2,3: by intros ? w2 HI2; split; [by eapply stored_with_forget|].
    cbv beta iota. intros [bindings|e] w2 HI2 _.
    2:{ apply keeps_abandon; [done|]. by eapply stored_with_forget. }
    apply wp_bind. eapply wp_mono; [by apply loop_keeps|].
    intros [[[old updated]|]|e|m] w3 [HI3 Hres]; cbn [wp_next]; [|by apply wp_panic|done..].
    destruct Hres as [Ho _]. by apply keeps_after_replacement.
Qed.

Lemma find_where_run p w r w' :
  TextureRepo.find_where p w = (r, w') ->
  same w w' /\ match r with Ok (Some t) => In t (rows (textures (db w))) | _ => True end.
Proof.
  intros H. pose proof (reads_run (db_query _) _ _ _ H) as S. split; [done|].
  destruct r as [[t|]|e|m]; [|done..]. apply db_query_ok in H as (Hf & _ & _).
  symmetry in Hf. by apply find_row_some in Hf as [Hin _].
Qed.

Lemma keeps_replace user_id id model file :
  keeps blobs_stored (fun _ => True) (replace_wardrobe_texture_content user_id id model file).
Proof.
  unfold replace_wardrobe_texture_content. eapply keeps_bind; [eauto 3 with keeps|]. intros _ _.
  destruct (id <=? 0); [by apply keeps_throw|]. intros w HI. apply wp_bind, wp_map_err, wp_intro.
  intros r w1 [S1 Hin]%find_where_run. apply (blobs_stored_same _ _ S1) in HI.
  destruct r as [found|e|m]; cbn [wp_next]; [|done..].
  destruct (wardrobe_item found) as [t|] eqn:Ei; [|by apply wp_throw].
  apply wardrobe_item_some in Ei as ->. apply wp_bind.
  apply (wp_reads (process_upload _ _)). intros r w2 Hp S2.
  apply (blobs_stored_same _ _ S2) in HI.
  destruct r as [[p processed]|e|m]; cbn [wp_next]; [|done..].
  apply process_upload_hash in Hp as [Hh _].
  destruct (same_content _ _ t); [apply (keeps_read nothing); [apply _|done]|].
  apply write_keeps; [rewrite Hh; apply sha256_hex_valid| |done].
  by rewrite (same_db _ _ S2), (same_db _ _ S1).
Qed.
End Service.

#[export] Hint Resolve keeps_invalidate_profile keeps_invalidate_bindings keeps_invalidate_asset : keeps.
#[export] Existing Instance reads_tags_for.
