(* ===== verification/TextureTheorems.v ===== *)
(** * The requests of the texture service

    Every request that changes a texture, its library entry or its blob, as
    one type, and what all of them keep.  Then what an operator's tools do: the
    orphan cleanup deletes exactly the blobs no texture refers to, and the
    consistency check finds nothing exactly when every texture has its blob. *)

From Stdlib Require Import ZArith List Bool Lia Ascii Permutation.
From stdpp Require Import base decidable list strings gmap.
From S2P Require Import Prelude Text Errors Types AuditLog World Logic Repos Bans Tokens Auth Concrete BanProofs AuthProofs ForwardTextures Sessions ProfileTextures PropertyProofs AuthConfig Accounts WebSessions AccountConcrete Tracks YggdrasilConfig ObjectStorage TextureRepo TextureProcessing TextureService TextureWardrobe TextureLibrary TextureInvariant BlobProofs.

Local Open Scope Z_scope.
Local Open Scope aster_scope.

Inductive TextureRequest : Type :=
| StoreTexture (profile : minecraft_profile) (ty : MinecraftTextureType)
    (model : MinecraftTextureModel) (file : string)
| StoreWardrobeTexture (user_id : Z) (ty : MinecraftTextureType) (model : MinecraftTextureModel)
    (vis : MinecraftTextureVisibility) (file : string)
| ImportOfficialTexture (profile : minecraft_profile) (ty : MinecraftTextureType)
    (model : MinecraftTextureModel) (url : string) (mode : OfficialTextureBindingMode)
| ReplaceContent (user_id id : Z) (model : MinecraftTextureModel) (file : string)
| BindWardrobeTexture (user_id : Z) (profile : minecraft_profile) (id : Z)
    (ty : MinecraftTextureType)
| ApplyLocalPresets (user_id : Z) (profile : minecraft_profile)
| DeleteTexture (profile : minecraft_profile) (ty : MinecraftTextureType)
| DeleteTextureUnchecked (profile : minecraft_profile) (ty : MinecraftTextureType)
| DeleteOfficialTexture (profile : minecraft_profile) (ty : MinecraftTextureType)
| DeleteByHash (hash : string)
| DeleteAllForProfile (profile : minecraft_profile)
| DeleteWardrobeTexture (user_id id : Z)
| DeleteAllWardrobeTextures (user_id : Z)
| RegisterBoundTextures
| CleanupOrphans
| CreateTag (name color : string) (sort_order : option Z)
| UpdateTag (id : Z) (name color : option string) (sort_order : option Z)
| DeleteTag (id : Z)
| UpdateMetadata (user_id id : Z) (name : option (Bans.NullablePatch string))
    (model : option MinecraftTextureModel) (vis : option MinecraftTextureVisibility)
| ReplaceTags (user_id id : Z) (tag_ids : list Z)
| SubmitReview (user_id id : Z)
| WithdrawSubmission (user_id id : Z)
| ApproveTexture (reviewer id : Z) (note : option string) (tag_ids : option (list Z))
| RejectTexture (reviewer id : Z) (note : option string)
| UnpublishTexture (reviewer id : Z) (note : option string)
| DeleteLibraryTexture (id : Z)
| CreateReport (reporter id : Z) (reason : MinecraftTextureReportReason) (message : option string)
| AcceptReport (handler report_id : Z) (note : option string)
| RejectReport (handler report_id : Z) (note : option string)
| CopyPublicTexture (user_id id : Z) (name : option (Bans.NullablePatch string)).

Section Requests.
Context `{EN : Env} `{CB : CacheBackend} `{FC : ForgeCrypto} `{FA : ForgeApi} `{TS : TextSearch}.
Context `{FN : ForgeNumbers} `{TN : TextureNumbers} `{SE : SkinExterns} `{TX : TextureExterns}.
Context `{RC : RuntimeConfig} `{PP : PreviewPolicy} `{IC : ImageCodec} `{FS : FileSystem}.
Context `{OS : !ObjectStorage} `{OT : OfficialTextures} `{BE : BanExterns}.
Context `{AE : !AccountExterns} `{CF : ForgeConfig} `{ST : ConfigStore}.
Context `{YE : YggdrasilExterns} `{UC : Unicode}.

(** The world a request leaves. *)
Definition handle_texture (r : TextureRequest) (w : World) : World :=
  match r with
  | StoreTexture profile ty model file => snd (store_texture profile ty model file w)
  | StoreWardrobeTexture user_id ty model vis file =>
      snd (store_wardrobe_texture user_id ty model vis file w)
  | ImportOfficialTexture profile ty model url mode =>
      snd (import_official_texture_to_profile_with_mode profile ty model url mode w)
  | ReplaceContent user_id id model file =>
      snd (replace_wardrobe_texture_content user_id id model file w)
  | BindWardrobeTexture user_id profile id ty =>
      snd (bind_wardrobe_texture_to_profile user_id profile id ty w)
  | ApplyLocalPresets user_id profile =>
      snd (apply_local_texture_presets_to_profile user_id profile w)
  | DeleteTexture profile ty => snd (delete_texture_for_profile profile ty w)
  | DeleteTextureUnchecked profile ty => snd (delete_texture_for_profile_unchecked profile ty w)
  | DeleteOfficialTexture profile ty =>
      snd (delete_official_texture_for_profile_if_bound profile ty w)
  | DeleteByHash hash => snd (delete_textures_by_hash hash w)
  | DeleteAllForProfile profile => snd (delete_all_textures_for_profile profile w)
  | DeleteWardrobeTexture user_id id => snd (delete_wardrobe_texture user_id id w)
  | DeleteAllWardrobeTextures user_id => snd (delete_all_wardrobe_textures_for_user user_id w)
  | RegisterBoundTextures => snd (register_bound_textures_in_wardrobe w)
  | CleanupOrphans => snd (cleanup_orphan_texture_blobs w)
  | CreateTag name color sort_order => snd (create_texture_library_tag name color sort_order w)
  | UpdateTag id name color sort_order =>
      snd (update_texture_library_tag id name color sort_order w)
  | DeleteTag id => snd (delete_texture_library_tag id w)
  | UpdateMetadata user_id id name model vis =>
      snd (update_wardrobe_texture_metadata user_id id name model vis w)
  | ReplaceTags user_id id tag_ids => snd (replace_wardrobe_texture_tags user_id id tag_ids w)
  | SubmitReview user_id id => snd (submit_texture_library_review user_id id w)
  | WithdrawSubmission user_id id => snd (withdraw_texture_library_submission user_id id w)
  | ApproveTexture reviewer id note tag_ids =>
      snd (approve_texture_library_texture reviewer id note tag_ids w)
  | RejectTexture reviewer id note => snd (reject_texture_library_texture reviewer id note w)
  | UnpublishTexture reviewer id note =>
      snd (unpublish_texture_library_texture reviewer id note w)
  | DeleteLibraryTexture id => snd (delete_texture_library_texture id w)
  | CreateReport reporter id reason message =>
      snd (create_texture_library_report reporter id reason message w)
  | AcceptReport handler report_id note =>
      snd (accept_texture_library_report handler report_id note w)
  | RejectReport handler report_id note =>
      snd (reject_texture_library_report handler report_id note w)
  | CopyPublicTexture user_id id name => snd (copy_public_texture_to_wardrobe user_id id name w)
  end.

(** ** Reading *)

#[export] Instance reads_user_wardrobe user_id id : Reads (user_wardrobe_texture user_id id).
Proof. unfold user_wardrobe_texture, TextureRepo.find_by_id_for_user, TextureRepo.find_where. apply _. Qed.
#[export] Instance reads_admin_wardrobe id : Reads (admin_wardrobe_texture id).
Proof. unfold admin_wardrobe_texture, TextureRepo.find_by_id, TextureRepo.find_where. apply _. Qed.
#[export] Instance reads_known_tags ids : Reads (known_tags ids).
Proof. unfold known_tags, TagRepo.find_by_ids. apply _. Qed.
#[export] Instance reads_may_interact id : Reads (ensure_may_interact id).
Proof. unfold ensure_may_interact. apply _. Qed.
#[export] Instance reads_user_profile id : Reads (find_user_profile id).
Proof. unfold find_user_profile. apply _. Qed.
#[export] Instance reads_library_metadata t a : Reads (texture_library_metadata t a).
Proof. unfold texture_library_metadata, TagRepo.list_for_texture. apply _. Qed.
#[export] Instance reads_admin_metadata t : Reads (admin_texture_library_metadata t).
Proof. unfold admin_texture_library_metadata. apply _. Qed.
#[export] Instance reads_library_metadatas l a : Reads (texture_library_metadata_by_texture_ids l a).
Proof.
  unfold texture_library_metadata_by_texture_ids, TagRepo.list_for_texture_ids,
    find_users_by_ids, find_user_profiles. apply _.
Qed.
#[export] Instance reads_report_infos l : Reads (texture_report_infos_by_reports l).
Proof.
  unfold texture_report_infos_by_reports, TextureRepo.find_by_ids, find_users_by_ids,
    admin_texture_library_metadata_by_texture_ids. apply _.
Qed.
#[export] Instance reads_report_info r : Reads (texture_report_info r).
Proof. unfold texture_report_info. apply _. Qed.
#[export] Instance reads_pending_report id : Reads (pending_admin_texture_report id).
Proof. unfold pending_admin_texture_report, admin_texture_report, ReportRepo.find_by_id. apply _. Qed.
#[export] Instance reads_reportable id : Reads (public_reportable_texture id).
Proof.
  unfold public_reportable_texture, TextureRepo.find_public_wardrobe_by_id, TextureRepo.find_where.
  apply _.
Qed.
#[export] Instance reads_profile_metadata p : Reads (texture_metadata_for_profile p).
Proof.
  unfold texture_metadata_for_profile, ProfileTextureRepo.list_by_profile,
    ProfileTextureRepo.select. apply _.
Qed.
#[export] Instance reads_rename tag name : Reads (rename_tag tag name).
Proof. unfold rename_tag, TagRepo.find_by_normalized_name. apply _. Qed.
#[export] Instance reads_tag id : Reads (TagRepo.find_by_id id).
Proof. unfold TagRepo.find_by_id. apply _. Qed.
#[export] Instance reads_tag_by_name n : Reads (TagRepo.find_by_normalized_name n).
Proof. unfold TagRepo.find_by_normalized_name. apply _. Qed.
#[export] Instance reads_tags_of id : Reads (TagRepo.list_for_texture id).
Proof. unfold TagRepo.list_for_texture. apply _. Qed.
#[export] Instance reads_pending_for a b :
  Reads (ReportRepo.find_pending_for_reporter_and_texture a b).
Proof. unfold ReportRepo.find_pending_for_reporter_and_texture. apply _. Qed.

(** ** Every request keeps the invariant *)

Context `{OL : !ObjectStorageLaws OS} `{SL : !Sha256Laws FC}.

#[local] Hint Resolve keeps_store_texture keeps_store_wardrobe keeps_import keeps_replace
  keeps_bind_wardrobe keeps_preset keeps_delete_texture keeps_delete_unchecked
  keeps_delete_official keeps_delete_by_hash_request keeps_delete_all_for_profile
  keeps_delete_wardrobe_request keeps_delete_all_wardrobe keeps_register keeps_orphans : keeps.

Lemma keeps_presets user_id profile :
  keeps blobs_stored (fun _ => True) (apply_local_texture_presets_to_profile user_id profile).
Proof. unfold apply_local_texture_presets_to_profile. solve_keeps. Qed.

Lemma keeps_tag_requests :
  (forall name color n,
     keeps blobs_stored (fun _ => True) (create_texture_library_tag name color n)) /\
  (forall id name color n,
     keeps blobs_stored (fun _ => True) (update_texture_library_tag id name color n)) /\
  (forall id,
     keeps blobs_stored (fun _ => True) (delete_texture_library_tag id)).
Proof.
  unfold create_texture_library_tag, update_texture_library_tag, delete_texture_library_tag.
  split_and!; intros; solve_keeps.
Qed.

Lemma keeps_owner_requests :
  (forall user_id id name model vis,
     keeps blobs_stored (fun _ => True) (update_wardrobe_texture_metadata user_id id name model vis)) /\
  (forall user_id id tag_ids,
     keeps blobs_stored (fun _ => True) (replace_wardrobe_texture_tags user_id id tag_ids)) /\
  (forall user_id id,
     keeps blobs_stored (fun _ => True) (submit_texture_library_review user_id id)) /\
  (forall user_id id,
     keeps blobs_stored (fun _ => True) (withdraw_texture_library_submission user_id id)).
Proof.
  unfold update_wardrobe_texture_metadata, replace_wardrobe_texture_tags,
    submit_texture_library_review, withdraw_texture_library_submission.
  split_and!; intros; solve_keeps.
Qed.

Lemma keeps_review_requests :
  (forall reviewer id note tag_ids,
     keeps blobs_stored (fun _ => True) (approve_texture_library_texture reviewer id note tag_ids)) /\
  (forall reviewer id note,
     keeps blobs_stored (fun _ => True) (reject_texture_library_texture reviewer id note)) /\
  (forall reviewer id note,
     keeps blobs_stored (fun _ => True) (unpublish_texture_library_texture reviewer id note)) /\
  (forall id,
     keeps blobs_stored (fun _ => True) (delete_texture_library_texture id)).
Proof.
  unfold approve_texture_library_texture, reject_texture_library_texture,
    unpublish_texture_library_texture, delete_texture_library_texture,
    replace_library_texture_tags_for_admin.
  split_and!; intros; solve_keeps.
Qed.

Lemma keeps_report_requests :
  (forall reporter id reason message,
     keeps blobs_stored (fun _ => True) (create_texture_library_report reporter id reason message)) /\
  (forall handler id note,
     keeps blobs_stored (fun _ => True) (accept_texture_library_report handler id note)) /\
  (forall handler id note,
     keeps blobs_stored (fun _ => True) (reject_texture_library_report handler id note)).
Proof.
  unfold create_texture_library_report, accept_texture_library_report,
    reject_texture_library_report.
  split_and!; intros; solve_keeps.
Qed.

(** The blob of the copied texture is held on to until the copy names it. *)
Lemma keeps_copy_new K user_id t name :
  well_named t -> K (storage_key t) ->
  keeps (stored_with K) (fun _ => True) (copy_new_texture user_id t name).
Proof.
  intros Ht HK. unfold copy_new_texture. eapply keeps_bind; [by apply keeps_copy|].
  intros c _. solve_keeps.
Qed.

Lemma keeps_copy_request user_id id name :
  keeps blobs_stored (fun _ => True) (copy_public_texture_to_wardrobe user_id id name).
Proof.
  unfold copy_public_texture_to_wardrobe. eapply keeps_bind; [eauto 3 with keeps|]. intros _ _.
  intros w HI. unfold public_texture. destruct (id <=? 0); [by apply wp_throw|].
  apply wp_bind, wp_bind, wp_intro. intros r w1 [S1 Hin]%find_where_run.
  apply (blobs_stored_same _ _ S1) in HI. destruct r as [[t|]|e|m]; cbn [wp_next]; [|done..].
  wp_step. cbn [wp_next some_or ok_or]. rewrite <- (same_db _ _ S1) in Hin.
  pose proof (proj1 (proj1 HI t Hin)) as Ht. apply (stored_with_pin _ _ HI) in Hin.
  eapply (wp_forget _ (eq (storage_key t))); [|exact Hin].
  eapply keeps_bind; [apply keeps_find_fingerprint|]. intros existing _.
  pose proof (fun n => keeps_copy_new (eq (storage_key t)) user_id t n Ht eq_refl). solve_keeps.
Qed.

(** C5: Whatever fails on the way, no history of texture requests (uploads,
    imports, replacements, bindings, deletions, registrations, orphan
    cleanups, review, reports and copies) leaves a texture whose blob is not
    in the object storage: if each row names the blob of its content and
    that blob is stored, the same holds after the requests. *)
Theorem blobs_never_lost (requests : list TextureRequest) w :
  blobs_stored w -> blobs_stored (fold_left (fun w r => handle_texture r w) requests w).
Proof.
  revert w. induction requests as [|r requests IH]; intros w HI; [done|]. cbn [fold_left]. apply IH.
  destruct r; cbn [handle_texture]; match goal with
  | |- blobs_stored (snd (?c w)) =>
      enough (keeps blobs_stored (fun _ => True) c) as H by exact (proj1 (H w HI))
  end; first
    [ solve [eauto 2 with keeps] | apply keeps_presets | apply keeps_tag_requests
    | apply keeps_owner_requests | apply keeps_review_requests
    | apply keeps_report_requests | apply keeps_copy_request ].
Qed.
End Requests.

(** ** A history *)

#[local] Existing Instance crypto1.
#[local] Existing Instance property_externs0.
#[local] Existing Instance config0.

(** An upload of a skin for Alex, new content for it, a second upload and the
    deletion of the first, an orphan cleanup. *)
Definition history1 : list TextureRequest :=
  [StoreTexture alex Skin ModelDefault "skin1"; ReplaceContent 1 1 ModelDefault "skin2";
   StoreWardrobeTexture 1 Skin Slim VisPublic "skin3"; DeleteWardrobeTexture 1 1; CleanupOrphans].

Definition after_history1 : World := List.fold_left (fun w r => handle_texture r w) history1 world0.

Lemma blobs_never_lost_witness :
  blobs_stored world0 /\ List.map tex_hash (rows (textures (db after_history1))) = [hash1 "3"] /\
  blobs_stored after_history1.
Proof.
  assert (blobs_stored world0) as H by (split; [intros t []|done]).
  split; [done|]. split; [vm_compute; reflexivity|].
  exact (blobs_never_lost (OL := storage1_laws) (SL := crypto1_laws) history1 world0 H).
Defined.

Section Maintenance.
Context `{EN : Env} `{CB : CacheBackend} `{FA : ForgeApi} `{TS : TextSearch}.
Context `{OS : !ObjectStorage} `{OL : !ObjectStorageLaws OS}.
Context `{TN : TextureNumbers} `{TL : !TextureNumberLaws TN}.

Definition referenced (key : string) (d : Db) : Prop :=
  exists t, In t (rows (textures d)) /\ storage_key t = key.

Lemma count_referenced key d :
  0 < Z.of_nat (count_where (fun t => eqb (storage_key t) key) (rows (textures d))) <->
  referenced key d.
Proof.
  split.
  - intros H. destruct (count_where_pos (fun t => eqb (storage_key t) key) (rows (textures d)))
      as (t & Hin & Ht); [lia|]. exists t. split; [done|]. by rewrite eqb_true in Ht.
  - intros (t & Hin & E).
    destruct (Z.of_nat (count_where (fun t => eqb (storage_key t) key) (rows (textures d)))) eqn:Ez;
      [|lia|lia]. exfalso. by apply (count_zero key d Ez t).
Qed.

(** What a run of the loop over [keys] has done. *)
Definition swept (keys : list string) (w w' : World) : Prop :=
  db w' = db w /\
  forall k, (In k keys -> referenced k (db w) -> objects w' !! k = objects w !! k) /\
            (~ In k keys -> objects w' !! k = objects w !! k).

Definition swept_all (keys : list string) (w w' : World) : Prop :=
  forall k, In k keys -> ~ referenced k (db w) -> ~ stored k w'.

Lemma swept_nothing keys w w' : same w w' -> swept keys w w'.
Proof. intros (E & _ & [_ Eo] & _). split; [done|]. intros k. by rewrite Eo. Qed.

Lemma swept_step key keys w w1 w2 :
  ~ referenced key (db w) -> only_object key w w1 -> swept keys w1 w2 -> swept (key :: keys) w w2.
Proof.
  intros Hno (E & _ & _ & _ & Ho) [E2 Hk]. rewrite E in Hk, E2. split; [done|]. intros k. split.
  - intros [->|Hin] Hr; [done|]. destruct (decide (k = key)) as [->|Hne]; [done|].
    rewrite <- Ho by done. by apply (proj1 (Hk k)).
  - intros Hn. rewrite <- Ho by (intros ->; apply Hn; by left).
    apply (proj2 (Hk k)). intros Hin. apply Hn. by right.
Qed.

Definition loop_post (keys : list string) (result : OrphanTextureCleanupResult) (w : World)
  (r : outcome AsterError.t OrphanTextureCleanupResult) (w' : World) : Prop :=
  swept keys w w' /\
  match r with
  | Ok res =>
      swept_all keys w w' /\ orphan_scanned res = orphan_scanned result /\
      orphan_deleted res + orphan_skipped res =
        orphan_deleted result + orphan_skipped result + Z.of_nat (length keys)
  | _ => True
  end.

Lemma orphan_loop_spec keys result w :
  List.NoDup keys -> (forall k, In k keys -> is_texture_blob_storage_key k = true) ->
  wp (cleanup_orphan_loop keys result) (loop_post keys result w) w.
Proof.
  revert result w. induction keys as [|key keys IH]; intros result w Hnd Hkeys;
    cbn [cleanup_orphan_loop].
  { apply wp_ret. split; [apply swept_nothing, same_refl|]. split_and!; [by intros k []|done|].
    cbn. lia. }
  apply List.NoDup_cons_iff in Hnd as [Hn Hnd].
  assert (forall k, In k keys -> is_texture_blob_storage_key k = true) as Hkeys'
    by (intros k Hk; apply Hkeys; by right).
  unfold count_object_storage_references, TextureRepo.count_by_storage_key.
  apply wp_bind, wp_db_query; [intros m _; cbn; split; [apply swept_nothing, same_tick|done]|].
  intros _. cbn [wp_next]. destruct (0 <? Z.of_nat _) eqn:Ec.
  - apply Z.ltb_lt, count_referenced in Ec. eapply wp_mono; [by apply IH|]. intros r w' [Hs Hres].
    assert (swept (key :: keys) w w') as Hs'.
    { destruct Hs as [E Hk]. split; [done|]. intros k. split.
      - intros _ Hr. destruct (List.in_dec String.string_dec k keys); [by apply (proj1 (Hk k))|by apply (proj2 (Hk k))].
      - intros Hnk. apply (Hk k). intros Hin. apply Hnk. by right. }
    split; [done|]. destruct r as [res|e|m]; [|done..]. destruct Hres as (Ha & Hsc & Hc).
    split_and!; [|done|cbn in Hc |- *; lia]. intros k [<-|Hin] Hnr; [done|by apply Ha].
  - assert (~ referenced key (db w)) as Hno.
    { rewrite <- count_referenced. by apply Z.ltb_ge, Z.le_ngt in Ec. }
    apply wp_bind, wp_intro. intros r w1 (Hobj & _ & Hd)%delete_spec; [|left; apply Hkeys; by left].
    assert (only_object key w w1) as Hobj' by (destruct Hobj as (?&?&?&Hst&?); cbn in Hst; split_and!; auto; lia).
    destruct r as [u|e|m]; cbn [wp_next].
    + eapply wp_mono; [by apply IH|]. intros r w' [Hs Hres]. split; [by eapply swept_step|].
      destruct r as [res|e|m]; [|done..]. destruct Hres as (Ha & Hsc & Hc).
      destruct Hobj' as (Edb & _). split_and!; [|done|cbn in Hc |- *; lia].
      intros k [<-|Hin] Hnr; [|by apply Ha; [|rewrite Edb]].
      intros Hst. apply Hd. destruct Hs as [_ Hk]. unfold stored in *.
      by rewrite (proj2 (Hk key)) in Hst.
    + split; [|done]. eapply swept_step; [done..|]. apply swept_nothing, same_refl.
    + done.
Qed.

Definition cleanup_post (w : World) (r : outcome AsterError.t OrphanTextureCleanupResult)
  (w' : World) : Prop :=
  db w' = db w /\
  (forall k, is_texture_blob_storage_key k = false \/ referenced k (db w) ->
     objects w' !! k = objects w !! k) /\
  match r with
  | Ok res =>
      (forall k, is_texture_blob_storage_key k = true ->
         stored k w' <-> stored k w /\ referenced k (db w)) /\
      orphan_scanned res = orphan_deleted res + orphan_skipped res
  | _ => True
  end.

Lemma cleanup_wp w : wp cleanup_orphan_texture_blobs (cleanup_post w) w.
Proof.
  assert (forall w', same w w' -> db w' = db w /\
    (forall k, is_texture_blob_storage_key k = false \/ referenced k (db w) ->
       objects w' !! k = objects w !! k)) as Hsame.
  { intros w' (E & _ & [_ Eo] & _). split; [done|]. intros k _. by rewrite Eo. }
  unfold cleanup_orphan_texture_blobs. apply wp_bind, wp_intro. intros r w1 Hl.
  pose proof (reads_run _ _ _ _ Hl) as S1. apply list_keys_spec in Hl.
  destruct r as [keys|e|m]; cbn [wp_next]; [|by destruct (Hsame _ S1)|done].
  destruct Hl as [Hnd Hkeys]. apply wp_bind. wp_step. unfold utils.
  pose proof (usize_to_u64_spec
    (Z.of_nat (length (List.filter is_texture_blob_storage_key keys)))
    "orphan texture cleanup scanned count") as Hn.
  destruct (usize_to_u64 _ _) as [n|e|m]; cbn [wp_next]; [subst n|by destruct (Hsame _ S1)|done].
  eapply wp_mono; [apply orphan_loop_spec|].
  - by apply List.NoDup_filter.
  - by intros k [_ ?]%filter_In.
  - intros r w2 [[E Hk] Hres]. pose proof (Hsame _ S1) as [E1 Ho1]. destruct S1 as (_ & _ & [_ Eo] & _).
    rewrite E1 in *. rewrite Eo in Hk. split_and!; [done| |].
    + intros k Hcase. destruct (List.in_dec String.string_dec k (List.filter is_texture_blob_storage_key keys)) as [Hin|Hin].
      * destruct Hcase as [Hf|Hr]; [|by apply (proj1 (Hk k))]. apply filter_In in Hin as [_ Ht]. congruence.
      * by apply (proj2 (Hk k)).
    + destruct r as [res|e|m]; [|done..]. destruct Hres as (Ha & Hsc & Hc). split; [|cbn in *; lia].
      intros k Hkey. unfold swept_all in Ha. rewrite E1 in Ha. split.
      * intros Hst. assert (stored k w) as Hw.
        { destruct (List.in_dec String.string_dec k (List.filter is_texture_blob_storage_key keys)) as [Hin|Hin].
          - apply filter_In in Hin as [Hin _]. by apply Hkeys in Hin.
          - unfold stored in *. by rewrite (proj2 (Hk k)) in Hst. }
        split; [done|].
        destruct (Z_lt_dec 0 (Z.of_nat (count_where (fun t => eqb (storage_key t) k)
          (rows (textures (db w)))))) as [Hlt|Hge]; [by apply count_referenced|].
        exfalso. eapply Ha; [| |exact Hst]; [|by rewrite <- count_referenced].
        apply filter_In. split; [|done]. by apply Hkeys.
      * intros [Hst Hr]. unfold stored in *.
        destruct (List.in_dec String.string_dec k (List.filter is_texture_blob_storage_key keys)) as [Hin|Hin].
        -- by rewrite (proj1 (Hk k)).
        -- by rewrite (proj2 (Hk k)).
Qed.

(** The orphan cleanup deletes exactly the blobs no texture refers to:
    after it succeeds a texture blob is stored if and only if it was and a
    row names it, and its counts add up to what it scanned; whether or not it
    succeeds, the tables, every other object and every blob a row names are
    untouched. *)
Theorem orphan_cleanup_exact w r w' :
  cleanup_orphan_texture_blobs w = (r, w') ->
  db w' = db w /\
  (forall k, is_texture_blob_storage_key k = false \/ referenced k (db w) ->
     objects w' !! k = objects w !! k) /\
  match r with
  | Ok res =>
      (forall k, is_texture_blob_storage_key k = true ->
         stored k w' <-> stored k w /\ referenced k (db w)) /\
      orphan_scanned res = orphan_deleted res + orphan_skipped res
  | _ => True
  end.
Proof. exact (wp_run _ _ _ _ _ (cleanup_wp w)). Qed.

(** ** The consistency check *)

Definition issue_of (keys : list string) (t : minecraft_texture)
  : list ObjectStorageConsistencyIssue :=
  if negb (mem (storage_key t) keys)
  then [mkIssue (tex_pk t) (storage_key t) (tex_hash t) MissingObject]
  else if negb (object_storage_key_matches_hash (storage_key t) (tex_hash t))
  then [mkIssue (tex_pk t) (storage_key t) (tex_hash t) HashMismatch]
  else [].

Lemma check_fold keys l report :
  let report' := List.fold_left (check_texture keys) l report in
  cons_issues report' = cons_issues report ++ List.flat_map (issue_of keys) l /\
  cons_checked report' = cons_checked report /\
  cons_missing report' + cons_hash_mismatched report' - Z.of_nat (length (cons_issues report')) =
  cons_missing report + cons_hash_mismatched report - Z.of_nat (length (cons_issues report)) /\
  cons_missing report <= cons_missing report' /\
  cons_hash_mismatched report <= cons_hash_mismatched report'.
Proof.
  revert report. induction l as [|t l IH]; intros report; cbn [List.fold_left List.flat_map];
    [split_and!; [by rewrite app_nil_r|done|lia..]|].
  destruct (IH (check_texture keys report t)) as (Hi & Hc & Hn & Hm & Hh). cbv zeta in *.
  split_and!; [rewrite Hi|rewrite Hc|rewrite Hn|etrans; [|exact Hm]|etrans; [|exact Hh]];
    clear Hi Hc Hn Hm Hh;
    unfold check_texture, issue_of; repeat case_match;
    cbn [cons_issues cons_checked cons_missing cons_hash_mismatched];
    rewrite <- ?app_assoc, ?length_app; cbn [length app]; auto; lia.
Qed.

Lemma no_issue keys w t :
  is_valid_texture_hash (tex_hash t) = true ->
  is_texture_blob_storage_key (storage_key t) = true ->
  (forall k, is_texture_blob_storage_key k = true -> In k keys <-> stored k w) ->
  issue_of keys t = [] <-> well_named t /\ stored (storage_key t) w.
Proof.
  intros Hv Hk Hkeys. unfold issue_of, well_named, object_storage_key_matches_hash.
  rewrite valid_hash_boundary by done. rewrite <- Hkeys by done.
  change (byte_prefix 2 (tex_hash t) +:+ "/" +:+ tex_hash t +:+ ".png") with (blob_key (tex_hash t)).
  destruct (mem (storage_key t) keys) eqn:Em; cbn [negb].
  - apply mem_true in Em. destruct (eqb (storage_key t) _) eqn:Ee; cbn [negb].
    + by rewrite eqb_true in Ee.
    + rewrite eqb_false in Ee. split; [done|]. by intros [[_ ?] _].
  - split; [done|]. intros [_ Hin]. apply mem_true in Hin. congruence.
Qed.

(** The consistency check is exact.  When the rows hold hashes and names
    of the right form, it reports nothing if and only if every texture names
    the blob of its content and that blob is stored; its counts add up to the
    issues it lists, and it changes nothing. *)
Lemma consistency_check_run w report w' :
  (forall t, In t (rows (textures (db w))) ->
     is_valid_texture_hash (tex_hash t) = true /\
     is_texture_blob_storage_key (storage_key t) = true) ->
  check_object_storage_consistency w = (Ok report, w') ->
  same w w' /\
  (cons_issues report = [] <-> blobs_stored w) /\
  cons_checked report = Z.of_nat (length (rows (textures (db w)))) /\
  cons_missing report + cons_hash_mismatched report = Z.of_nat (length (cons_issues report)) /\
  0 <= cons_missing report /\ 0 <= cons_hash_mismatched report.
Proof.
  intros Hform. unfold check_object_storage_consistency.
  intros (l & w1 & Hl & (keys & w2 & Hk & (n & w3 & [Hn ->]%lift_ok & [= <- <-])%bind_ok)%bind_ok)%bind_ok.
  apply db_query_ok in Hl as (-> & -> & _).
  pose proof (reads_run _ _ _ _ Hk) as S. apply list_keys_spec in Hk as [_ Hkeys].
  assert (n = Z.of_nat (length (rows (textures (db w))))) as ->.
  { unfold utils in Hn. rewrite length_sort_by in Hn.
    pose proof (usize_to_u64_spec (Z.of_nat (length (rows (textures (db w)))))
      "object storage consistency checked count") as Hs.
    destruct (usize_to_u64 _ _); [|done..]. by injection Hn as <-. }
  destruct (check_fold keys (sort_by TextureRepo.texture_id_leb (rows (textures (db w))))
    (mkReportOf (Z.of_nat (length (rows (textures (db w))))) 0 0 [])) as (Hi & Hc & Ha & Hm & Hh).
  cbv zeta in *. cbn [cons_issues cons_checked cons_missing cons_hash_mismatched app length] in *.
  split_and!; [eapply same_trans; [apply same_tick|done]| |done|lia..].
  rewrite Hi. split.
  - intros Hnil. split; [|done]. intros t Hin. destruct (Hform t Hin) as [Hv Hb].
    apply (no_issue keys w t Hv Hb Hkeys). destruct (issue_of keys t) as [|i rest] eqn:Ei; [done|].
    assert (In i (List.flat_map (issue_of keys)
      (sort_by TextureRepo.texture_id_leb (rows (textures (db w)))))) as Hin'.
    { apply in_flat_map. exists t. rewrite in_sort_by, Ei. split; [done|]. by left. }
    by rewrite Hnil in Hin'.
  - intros [Hrows _]. rewrite flat_map_concat_map. apply concat_nil_Forall, List.Forall_forall.
    intros issues (t & <- & Hin%in_sort_by)%in_map_iff. destruct (Hform t Hin) as [Hv Hb].
    apply (no_issue keys w t Hv Hb Hkeys). by apply Hrows.
Qed.
End Maintenance.

(** ** A storage with one blob in use, one orphan and one other object *)

Definition kept1 : minecraft_texture :=
  texture1 1 (hash1 "1") (blob_key (hash1 "1")) VisPrivate LibPrivate.
Definition objects1 : gmap string string :=
  <[blob_key (hash1 "1") := "1"%string]>
    (<[blob_key (hash1 "2") := "2"%string]> {["avatars/1.webp" := "a"]})%string.
Definition littered : World := set_objects objects1 (with_textures [kept1] 2 world0).
Definition swept1 : World := snd (cleanup_orphan_texture_blobs littered).

Lemma orphan_cleanup_exact_witness :
  fst (cleanup_orphan_texture_blobs littered) = Ok (mkOrphans 2 1 1) /\
  objects swept1 !! blob_key (hash1 "1") = Some "1"%string /\
  objects swept1 !! blob_key (hash1 "2") = None /\
  (stored (blob_key (hash1 "1")) swept1 <->
   stored (blob_key (hash1 "1")) littered /\ referenced (blob_key (hash1 "1")) (db littered)).
Proof.
  destruct (orphan_cleanup_exact littered _ _ (surjective_pairing _)) as (_ & _ & H).
  assert (fst (cleanup_orphan_texture_blobs littered) = Ok (mkOrphans 2 1 1)) as E
    by (vm_compute; reflexivity).
  split; [exact E|]. split; [vm_compute; reflexivity|]. split; [vm_compute; reflexivity|].
  rewrite E in H. apply (proj1 H). vm_compute. reflexivity.
Defined.
