(* ===== verification/LibraryProofs.v ===== *)
(** * The library shows what was reviewed

    How the requests of the texture service move the published entries: the
    relation [publishes_nothing], which every statement but a favourable
    review tracks, and the step that does publish. *)

From Stdlib Require Import ZArith List Bool Lia Ascii.
From stdpp Require Import base decidable list strings relations gmap.
From S2P Require Import Prelude Text Errors Types AuditLog World Logic Repos Bans Tokens Auth Concrete BanProofs AuthProofs ForwardTextures Sessions ProfileTextures PropertyProofs AuthConfig Accounts WebSessions AccountConcrete Tracks YggdrasilConfig ObjectStorage TextureRepo TextureProcessing TextureService TextureWardrobe TextureLibrary TextureInvariant BlobProofs TextureTheorems.

Local Open Scope Z_scope.
Local Open Scope aster_scope.

(** The same row, with the content it had. *)
Definition same_entry (t t' : minecraft_texture) : Prop :=
  tex_pk t' = tex_pk t /\ tex_user_id t' = tex_user_id t /\ tex_hash t' = tex_hash t.

(** What is published after was published before, with the same content. *)
Definition publishes_nothing (d d' : Db) : Prop :=
  forall t', In t' (rows (textures d')) -> library_status t' = Published ->
  exists t, In t (rows (textures d)) /\ library_status t = Published /\ same_entry t t'.

#[export] Instance publishes_nothing_preorder : PreOrder publishes_nothing.
Proof.
  split.
  - intros d t Hin Hp. exists t. by split_and!.
  - intros d1 d2 d3 H12 H23 t3 Hin Hp.
    destruct (H23 _ Hin Hp) as (t2 & Hin2 & Hp2 & ? & ? & ?).
    destruct (H12 _ Hin2 Hp2) as (t1 & Hin1 & Hp1 & ? & ? & ?).
    exists t1. unfold same_entry. split_and!; congruence.
Qed.

Lemma publishes_nothing_same d d' : textures d' = textures d -> publishes_nothing d d'.
Proof. intros E t Hin Hp. rewrite E in Hin. exists t. by split_and!. Qed.

Section Tracking.
Context `{EN : Env} `{CB : CacheBackend} `{FA : ForgeApi} `{TS : TextSearch}.

#[local] Abbreviation quiet := (Tracks publishes_nothing).

(** Programs that leave the tables alone. *)
Lemma quiet_db {E A} (c : M E A) : (forall w, db (snd (c w)) = db w) -> quiet c.
Proof. intros H w. rewrite H. done. Qed.

#[export] Instance quiet_cache_update {E} f : quiet (cache_update f : M E unit).
Proof. by apply quiet_db. Qed.
#[export] Instance quiet_cache_write {E} k v ttl : quiet (cache_write k v ttl : M E unit).
Proof. by apply quiet_db. Qed.
#[export] Instance quiet_tex {A} (c : M AsterError.t A) : quiet c -> quiet (tex c).
Proof. apply tracks_map_err. Qed.

(** Statements on other tables. *)
Lemma quiet_aside {A} (f : Db -> outcome AsterError.t (A * Db)) :
  (forall d a d', f d = Ok (a, d') -> textures d' = textures d) -> quiet (db_exec f).
Proof. intros H. apply tracks_db_exec. intros d a d' Hd. by eapply publishes_nothing_same, H. Qed.

Ltac quiet_other :=
  apply quiet_aside; intros ? ? ? Hd; repeat first [case_match | progress simplify_eq/=]; done.

#[export] Instance quiet_touch id : quiet (ProfileRepo.touch_by_id id).
Proof. unfold ProfileRepo.touch_by_id. solve_tracks. quiet_other. Qed.
#[export] Instance quiet_with_texture b : quiet (ProfileTextureRepo.with_texture b).
Proof. unfold ProfileTextureRepo.with_texture. apply _. Qed.
#[export] Instance quiet_upsert input : quiet (ProfileTextureRepo.upsert_for_profile input).
Proof.
  unfold ProfileTextureRepo.upsert_for_profile, ProfileTextureRepo.find_binding_by_profile_and_type.
  solve_tracks; quiet_other.
Qed.
#[export] Instance quiet_delete_binding id : quiet (ProfileTextureRepo.delete_by_id id).
Proof. unfold ProfileTextureRepo.delete_by_id. solve_tracks. quiet_other. Qed.
#[export] Instance quiet_delete_slot id ty : quiet (ProfileTextureRepo.delete_for_profile id ty).
Proof.
  unfold ProfileTextureRepo.delete_for_profile, ProfileTextureRepo.find_by_profile_and_type,
    ProfileTextureRepo.find_binding_by_profile_and_type. solve_tracks.
Qed.
#[export] Instance quiet_delete_by_texture id : quiet (ProfileTextureRepo.delete_by_texture_id id).
Proof.
  unfold ProfileTextureRepo.delete_by_texture_id, ProfileTextureRepo.list_by_texture_id,
    ProfileTextureRepo.select. solve_tracks.
Qed.
#[export] Instance quiet_upsert_preference input : quiet (PreferenceRepo.upsert input).
Proof.
  unfold PreferenceRepo.upsert, PreferenceRepo.find_by_profile_and_type. solve_tracks; quiet_other.
Qed.
#[export] Instance quiet_create_tag input : quiet (TagRepo.create input).
Proof. unfold TagRepo.create. solve_tracks. quiet_other. Qed.
#[export] Instance quiet_update_tag t input : quiet (TagRepo.update t input).
Proof. unfold TagRepo.update. solve_tracks. quiet_other. Qed.
#[export] Instance quiet_delete_tag id : quiet (TagRepo.delete id).
Proof. quiet_other. Qed.
#[export] Instance quiet_insert_binding id tag now : quiet (TagRepo.insert_binding id tag now).
Proof. quiet_other. Qed.
#[export] Instance quiet_replace_tags id ids : quiet (TagRepo.replace_texture_tags id ids).
Proof. unfold TagRepo.replace_texture_tags. solve_tracks. quiet_other. Qed.
#[export] Instance quiet_create_report input : quiet (ReportRepo.create input).
Proof. unfold ReportRepo.create. solve_tracks. quiet_other. Qed.
#[export] Instance quiet_write_handled id input now : quiet (ReportRepo.write_handled id input now).
Proof. quiet_other. Qed.
#[export] Instance quiet_handle r input : quiet (ReportRepo.handle r input).
Proof. unfold ReportRepo.handle. apply _. Qed.
#[export] Instance quiet_handle_each l input now : quiet (ReportRepo.handle_each l input now).
Proof. induction l as [|r l IH]; cbn; apply _. Qed.
#[export] Instance quiet_handle_pending id input :
  quiet (ReportRepo.handle_pending_for_texture id input).
Proof. unfold ReportRepo.handle_pending_for_texture. apply _. Qed.

(** Statements on the textures. *)
Definition publishes_none (f : minecraft_texture -> minecraft_texture) : Prop :=
  forall t, library_status (f t) = Published -> library_status t = Published /\ same_entry t (f t).

Lemma update_publishes_none p f d :
  publishes_none f ->
  publishes_nothing d
    (set_textures (with_rows (update_where p f (rows (textures d))) (textures d)) d).
Proof.
  intros Hf t' Hin Hp. cbn in Hin. apply in_update_where in Hin as (t & Hin & ->). exists t.
  destruct (p t); [apply Hf in Hp as [? ?]|]; by split_and!.
Qed.

Lemma quiet_update id f : publishes_none f -> quiet (TextureRepo.update id f).
Proof.
  intros Hf. apply tracks_db_exec. intros d a d' Hd. unfold update_row in Hd.
  repeat first [case_match | progress simplify_eq/=]. by apply update_publishes_none.
Qed.

#[export] Instance quiet_mark t : quiet (TextureRepo.mark_as_wardrobe_item t).
Proof. unfold TextureRepo.mark_as_wardrobe_item. solve_tracks. apply quiet_update. by intros u. Qed.
#[export] Instance quiet_update_metadata t u i :
  quiet (TextureRepo.update_wardrobe_metadata_for_user t u i).
Proof.
  unfold TextureRepo.update_wardrobe_metadata_for_user. solve_tracks. apply quiet_update.
  intros v. cbn. by destruct (eqb _ _).
Qed.
#[export] Instance quiet_replace_content t u i :
  quiet (TextureRepo.replace_wardrobe_content_for_user t u i).
Proof.
  unfold TextureRepo.replace_wardrobe_content_for_user, TextureRepo.find_by_id_for_user,
    TextureRepo.find_where. solve_tracks.
  apply tracks_update_many. intros d. by apply update_publishes_none.
Qed.

Lemma quiet_new_row references_ok mk :
  (forall id, library_status (mk id) <> Published) ->
  quiet (ProfileTextureRepo.referencing references_ok (fun d =>
    match insert_row (fun _ _ => false) mk (textures d) with
    | Some (t, table) => Ok (t, set_textures table d)
    | None => Err (AsterError.DatabaseOperation unique_violation)
    end)).
Proof.
  intros Hmk. apply tracks_db_exec. intros d a d' Hd. destruct (references_ok d); [|done].
  unfold insert_row in Hd. destruct (existsb _ _); [done|]. injection Hd as _ <-.
  intros t [Hin|[<-|[]]]%in_app_iff Hp; [exists t; by split_and!|by apply Hmk in Hp].
Qed.

#[export] Instance quiet_create i : quiet (TextureRepo.create i).
Proof. unfold TextureRepo.create. solve_tracks. by apply quiet_new_row. Qed.
#[export] Instance quiet_copy t u v n : quiet (TextureRepo.create_wardrobe_copy t u v n).
Proof. unfold TextureRepo.create_wardrobe_copy. solve_tracks. by apply quiet_new_row. Qed.
#[export] Instance quiet_delete_row id : quiet (TextureRepo.delete_row id).
Proof.
  apply tracks_db_exec. intros d a d' [= _ <-] t Hin Hp. cbn in Hin.
  apply in_delete_where in Hin as [Hin _]. exists t. by split_and!.
Qed.
#[export] Instance quiet_delete_by_hash h : quiet (TextureRepo.delete_by_hash h).
Proof. unfold TextureRepo.delete_by_hash, TextureRepo.list_by_hash. solve_tracks. Qed.
#[export] Instance quiet_delete_for_user i u : quiet (TextureRepo.delete_by_id_for_user i u).
Proof.
  unfold TextureRepo.delete_by_id_for_user, TextureRepo.find_by_id_for_user,
    TextureRepo.find_where. solve_tracks.
Qed.
#[export] Instance quiet_delete_wardrobe i : quiet (TextureRepo.delete_wardrobe_by_id i).
Proof.
  unfold TextureRepo.delete_wardrobe_by_id, TextureRepo.find_by_id, TextureRepo.find_where.
  solve_tracks.
Qed.

(** A review that does not publish. *)
Lemma quiet_review t input :
  TextureRepo.lr_library_status input <> Published ->
  quiet (TextureRepo.update_library_review t input).
Proof.
  intros H. unfold TextureRepo.update_library_review. solve_tracks. apply quiet_update.
  by intros u.
Qed.
End Tracking.

Section Requests.
Context `{EN : Env} `{CB : CacheBackend} `{FC : ForgeCrypto} `{FA : ForgeApi} `{TS : TextSearch}.
Context `{FN : ForgeNumbers} `{TN : TextureNumbers} `{SE : SkinExterns} `{TX : TextureExterns}.
Context `{RC : RuntimeConfig} `{PP : PreviewPolicy} `{IC : ImageCodec} `{FS : FileSystem}.
Context `{OS : !ObjectStorage} `{OT : OfficialTextures} `{BE : BanExterns}.
Context `{AE : !AccountExterns} `{CF : ForgeConfig} `{ST : ConfigStore}.
Context `{YE : YggdrasilExterns} `{UC : Unicode} `{OL : !ObjectStorageLaws OS}.

#[local] Abbreviation quiet := (Tracks publishes_nothing).

#[local] Instance quiet_put key content : quiet (put_file key content).
Proof. apply quiet_db. intros w. apply put_file_frame. Qed.
#[local] Instance quiet_object_delete key : quiet (delete key).
Proof. apply quiet_db. intros w. apply delete_frame. Qed.
#[local] Instance quiet_cleanup {E} key : quiet (cleanup_texture_blob_if_unreferenced key : M E unit).
Proof. unfold cleanup_texture_blob_if_unreferenced, count_object_storage_references. solve_tracks. Qed.
#[local] Instance quiet_invalidate_profile {E} id :
  quiet (invalidate_profile_texture_caches id : M E unit).
Proof.
  unfold invalidate_profile_texture_caches, Properties.invalidate_profile_properties_cache,
    ProfileCache.invalidate_profile_properties. solve_tracks.
Qed.
#[local] Instance quiet_invalidate_bindings {E} l :
  quiet (invalidate_profile_texture_caches_for_bindings l : M E unit).
Proof. unfold invalidate_profile_texture_caches_for_bindings. solve_tracks. Qed.
#[local] Instance quiet_invalidate_asset {E} t : quiet (invalidate_texture_asset_caches t : M E unit).
Proof.
  unfold invalidate_texture_asset_caches, BlobCache.invalidate_texture_blob_lookup. solve_tracks.
Qed.
#[local] Instance quiet_cleanup_asset {E} t :
  quiet (cleanup_texture_asset_if_unreferenced t : M E unit).
Proof.
  unfold cleanup_texture_asset_if_unreferenced, ProfileTextureRepo.count_by_texture_id.
  solve_tracks.
Qed.
#[local] Instance reads_fingerprint a b c d e :
  Reads (TextureRepo.find_wardrobe_by_fingerprint a b c d e).
Proof. unfold TextureRepo.find_wardrobe_by_fingerprint, TextureRepo.find_first. apply _. Qed.
#[local] Instance reads_find_for_user a b : Reads (TextureRepo.find_by_id_for_user a b).
Proof. unfold TextureRepo.find_by_id_for_user, TextureRepo.find_where. apply _. Qed.
#[local] Instance reads_find_id a : Reads (TextureRepo.find_by_id a).
Proof. unfold TextureRepo.find_by_id, TextureRepo.find_where. apply _. Qed.
#[local] Instance reads_find_public a : Reads (TextureRepo.find_public_wardrobe_by_id a).
Proof. unfold TextureRepo.find_public_wardrobe_by_id, TextureRepo.find_where. apply _. Qed.
#[local] Instance reads_find_slot id ty : Reads (ProfileTextureRepo.find_by_profile_and_type id ty).
Proof.
  unfold ProfileTextureRepo.find_by_profile_and_type,
    ProfileTextureRepo.find_binding_by_profile_and_type, ProfileTextureRepo.with_texture. apply _.
Qed.
#[local] Instance reads_list_for_texture id : Reads (ProfileTextureRepo.list_by_texture_id id).
Proof. unfold ProfileTextureRepo.list_by_texture_id, ProfileTextureRepo.select. apply _. Qed.
#[local] Instance quiet_store i : quiet (store_or_reuse_wardrobe_texture i).
Proof. unfold store_or_reuse_wardrobe_texture. solve_tracks. Qed.
#[local] Instance quiet_remember p t : quiet (remember_local_texture_preset p t).
Proof. unfold remember_local_texture_preset. solve_tracks. Qed.
#[local] Instance quiet_after_binding {E} p a b : quiet (after_binding p a b : M E unit).
Proof. unfold after_binding. solve_tracks. Qed.
#[local] Instance quiet_bind_stored p ty t : quiet (bind_stored p ty t).
Proof. unfold bind_stored. solve_tracks. Qed.
#[local] Instance quiet_store_texture p ty m f : quiet (store_texture p ty m f).
Proof. unfold store_texture. solve_tracks. Qed.
#[local] Instance quiet_store_wardrobe u ty m v f : quiet (store_wardrobe_texture u ty m v f).
Proof. unfold store_wardrobe_texture. solve_tracks. Qed.
#[local] Instance quiet_import p ty m url mode :
  quiet (import_official_texture_to_profile_with_mode p ty m url mode).
Proof.
  unfold import_official_texture_to_profile_with_mode, download_official_texture_to_temp_file.
  apply tracks_bind; [|intros file; solve_tracks].
  apply tracks_bind; [apply _|intros url'].
  apply tracks_bind; [by apply quiet_db|intros _].
  apply tracks_bind; [by apply quiet_db|intros response]. apply _.
Qed.
#[local] Instance quiet_bind_wardrobe u p i ty : quiet (bind_wardrobe_texture_to_profile u p i ty).
Proof. unfold bind_wardrobe_texture_to_profile. solve_tracks. Qed.
#[local] Instance quiet_preset u p ty : quiet (apply_local_preset u p ty).
Proof. unfold apply_local_preset, PreferenceRepo.find_by_profile_and_type. solve_tracks. Qed.
#[local] Instance quiet_abandon {A} key e : quiet (abandon key e : TM A).
Proof. unfold abandon. solve_tracks. Qed.
#[local] Instance quiet_loop fuel n u i t : quiet (replacement_loop fuel n u i t).
Proof. revert n t. induction fuel as [|fuel IH]; intros n t; cbn; solve_tracks. Qed.
#[local] Instance quiet_write_replacement u t m p f : quiet (write_replacement u t m p f).
Proof. unfold write_replacement, after_replacement. solve_tracks. Qed.
#[local] Instance quiet_replace u i m f : quiet (replace_wardrobe_texture_content u i m f).
Proof. unfold replace_wardrobe_texture_content. solve_tracks. Qed.
#[local] Instance quiet_unbind p ty : quiet (unbind p ty).
Proof. unfold unbind, after_unbinding. solve_tracks. Qed.
#[local] Instance quiet_hash_bindings l acc : quiet (delete_bindings_of_hash l acc).
Proof. revert acc. induction l as [|t l IH]; intros acc; cbn; solve_tracks. Qed.
#[local] Instance quiet_by_hash h : quiet (delete_textures_by_hash h).
Proof.
  unfold delete_textures_by_hash, ProfileTextureRepo.list_by_hash, ProfileTextureRepo.select.
  solve_tracks.
Qed.
#[local] Instance quiet_profile_bindings i l acc : quiet (delete_bindings_of_profile i l acc).
Proof. revert acc. induction l as [|t l IH]; intros acc; cbn; unfold after_unbinding; solve_tracks. Qed.
#[local] Instance quiet_all_for_profile p : quiet (delete_all_textures_for_profile p).
Proof.
  unfold delete_all_textures_for_profile, ProfileTextureRepo.list_by_profile,
    ProfileTextureRepo.select. solve_tracks.
Qed.
#[local] Instance quiet_delete_unchecked u i : quiet (delete_wardrobe_texture_unchecked u i).
Proof. unfold delete_wardrobe_texture_unchecked. solve_tracks. Qed.
#[local] Instance quiet_delete_each u l acc : quiet (delete_each u l acc).
Proof. revert acc. induction l as [|t l IH]; intros acc; cbn; solve_tracks. Qed.
#[local] Instance quiet_all_wardrobe u : quiet (delete_all_wardrobe_textures_for_user u).
Proof. unfold delete_all_wardrobe_textures_for_user, TextureRepo.list_by_user. solve_tracks. Qed.
#[local] Instance quiet_register_bindings l r : quiet (register_bindings l r).
Proof.
  revert r. induction l as [|b l IH]; intros r; cbn; unfold register_binding; solve_tracks.
Qed.
#[local] Instance quiet_register : quiet register_bound_textures_in_wardrobe.
Proof.
  unfold register_bound_textures_in_wardrobe, ProfileTextureRepo.list_all,
    ProfileTextureRepo.select. solve_tracks.
Qed.
#[local] Instance quiet_orphan_loop l r : quiet (cleanup_orphan_loop l r).
Proof.
  revert r. induction l as [|k l IH]; intros r; cbn; unfold count_object_storage_references;
    solve_tracks.
Qed.
#[local] Instance quiet_orphans : quiet cleanup_orphan_texture_blobs.
Proof. unfold cleanup_orphan_texture_blobs. solve_tracks. Qed.

(** ** The step that publishes *)

Definition same_textures (d d' : Db) : Prop := textures d' = textures d.

#[local] Instance same_textures_preorder : PreOrder same_textures.
Proof. split; [done|]. unfold same_textures. congruence. Qed.

Lemma tags_leave_textures id ids : Tracks same_textures (TagRepo.replace_texture_tags id ids).
Proof.
  unfold TagRepo.replace_texture_tags. solve_tracks.
  - apply tracks_db_exec. intros d n d' Hd. by simplify_eq/=.
  - apply tracks_db_exec. intros d n d' Hd.
    repeat first [case_match | progress simplify_eq/=]; done.
Qed.

Lemma review_rows t input w r w' :
  TextureRepo.update_library_review t input w = (r, w') ->
  textures (db w') = textures (db w) \/
  exists now, rows (textures (db w')) =
    update_where (fun u => tex_pk u =? tex_pk t) (TextureRepo.with_review input now)
      (rows (textures (db w))).
Proof.
  unfold TextureRepo.update_library_review, TextureRepo.update, bind, utc_now, db_update, db_exec,
    update_row.
  destruct (db_fault _); [intros [= _ <-]; by left|]. cbn [db tick].
  destruct (find_row _ _); intros [= _ <-]; [right; by eexists|by left].
Qed.

(** One row of the table that a review wrote. *)
Lemma reviewed_row t input now (l : list minecraft_texture) t' :
  List.NoDup (List.map tex_pk l) -> In t l ->
  In t' (update_where (fun u => tex_pk u =? tex_pk t) (TextureRepo.with_review input now) l) ->
  In t' l \/ t' = TextureRepo.with_review input now t.
Proof.
  intros Hnd Hin (u & Hu & ->)%in_update_where. destruct (tex_pk u =? tex_pk t) eqn:E; [|by left].
  right. f_equal. apply Z.eqb_eq in E. by eapply (NoDup_map_inj_in tex_pk l).
Qed.

(** [t'] was published by request [r]. *)
Definition published_by (r : TextureRequest) (w : World) (t' : minecraft_texture) : Prop :=
  library_enabled (library_policy config_get) = true /\
  exists t, In t (rows (textures (db w))) /\ same_entry t t' /\ visibility t = VisPublic /\
    is_wardrobe_item t = true /\
    match r with
    | ApproveTexture reviewer id _ _ =>
        id = tex_pk t /\ library_status t = PendingReview /\
        library_reviewer_user_id t' = Some reviewer
    | SubmitReview user_id id =>
        id = tex_pk t /\ user_id = tex_user_id t /\
        review_required (library_policy config_get) = false
    | _ => False
    end.

Definition explained (r : TextureRequest) (w w' : World) : Prop :=
  forall t', In t' (rows (textures (db w'))) -> library_status t' = Published ->
  (exists t, In t (rows (textures (db w))) /\ library_status t = Published /\ same_entry t t') \/
  published_by r w t'.

Lemma explained_quiet r w w' : publishes_nothing (db w) (db w') -> explained r w w'.
Proof. intros H t' Hin Hp. left. by apply H. Qed.

(** What a review writes is explained by the row it was given. *)
Lemma explained_review q t input w w1 r w2 :
  List.NoDup (List.map tex_pk (rows (textures (db w)))) -> In t (rows (textures (db w))) ->
  textures (db w1) = textures (db w) ->
  (forall now, library_status (TextureRepo.with_review input now t) = Published ->
     published_by q w (TextureRepo.with_review input now t)) ->
  TextureRepo.update_library_review t input w1 = (r, w2) -> explained q w w2.
Proof.
  intros Hnd Hin E1 Hq [E2|[now E2]]%review_rows.
  - apply explained_quiet, publishes_nothing_same. congruence.
  - intros t' Hin' Hp. rewrite E2, E1 in Hin'.
    apply reviewed_row in Hin' as [Hold| ->]; [|right; by apply Hq|done..].
    left. exists t'. by split_and!.
Qed.

Lemma explained_later q w w1 w2 :
  explained q w w1 -> textures (db w2) = textures (db w1) -> explained q w w2.
Proof. unfold explained. by intros H ->. Qed.

(** A guard passed. *)
Lemma enabled_ok w u w' :
  lift ensure_texture_library_enabled w = (Ok u, w') ->
  library_enabled (library_policy config_get) = true /\ w' = w.
Proof.
  intros [He ->]%lift_ok. unfold ensure_texture_library_enabled in He.
  destruct (library_enabled _); [done|]. discriminate He.
Qed.

Lemma wardrobe_item_ok o t :
  wardrobe_item o = Some t -> o = Some t /\ is_wardrobe_item t = true.
Proof. destruct o as [u|]; cbn; [|done]. destruct (is_wardrobe_item u) eqn:E; [|done]. by intros [= ->]. Qed.

Lemma find_item p e w t w' :
  bind (TextureRepo.find_where p) (fun found => lift (some_or e (wardrobe_item found))) w = (Ok t, w') ->
  same w w' /\ In t (rows (textures (db w))) /\ p t = true /\ is_wardrobe_item t = true.
Proof.
  intros (o & w1 & Hf & [Ho ->]%lift_ok)%bind_ok.
  pose proof (reads_run (db_query _) _ _ _ Hf) as S. apply db_query_ok in Hf as (Ef & _ & _).
  unfold some_or, ok_or in Ho. destruct (wardrobe_item o) as [u|] eqn:Ei; [|done].
  injection Ho as ->. apply wardrobe_item_ok in Ei as [-> Hi]. symmetry in Ef.
  apply find_row_some in Ef as [Hin Hp]. done.
Qed.

Lemma admin_item id w t w' :
  admin_wardrobe_texture id w = (Ok t, w') ->
  same w w' /\ In t (rows (textures (db w))) /\ tex_pk t = id /\ is_wardrobe_item t = true.
Proof.
  unfold admin_wardrobe_texture. destruct (id <=? 0); [done|].
  intros (S & Hin & Hp & Hi)%find_item. split_and!; auto. by apply Z.eqb_eq.
Qed.

Lemma user_item user_id id w t w' :
  user_wardrobe_texture user_id id w = (Ok t, w') ->
  same w w' /\ In t (rows (textures (db w))) /\ tex_pk t = id /\ tex_user_id t = user_id /\
  is_wardrobe_item t = true.
Proof.
  unfold user_wardrobe_texture. destruct (id <=? 0); [done|].
  intros (S & Hin & [Hp Hu]%andb_true_iff & Hi)%find_item. split_and!; auto; by apply Z.eqb_eq.
Qed.

(** The part of a handler after its last write only reads. *)
Lemma explained_tail {A B} q w (c : M AsterError.t A) (k : A -> M AsterError.t B) w1 :
  (forall r w2, c w1 = (r, w2) -> explained q w w2) -> (forall a, Reads (k a)) ->
  explained q w (snd (bind c k w1)).
Proof.
  intros Hc Hk. unfold bind. destruct (c w1) as [[a|e|m] w2] eqn:E; cbn;
    specialize (Hc _ _ eq_refl); [|done..].
  eapply explained_later; [done|]. destruct (Hk a w2) as (-> & _). done.
Qed.

(** A step before the write that leaves the textures alone. *)
Lemma explained_head {E A B} q w (c : M E A) (k : A -> M E B) w1 :
  Tracks same_textures c -> textures (db w1) = textures (db w) ->
  (forall a w2, c w1 = (Ok a, w2) -> textures (db w2) = textures (db w) ->
     explained q w (snd (k a w2))) ->
  explained q w (snd (bind c k w1)).
Proof.
  intros Hc E1 Hk. specialize (Hc w1). unfold bind. unfold same_textures in Hc.
  destruct (c w1) as [[a|e|m] w2] eqn:Hcw; cbn in Hc |- *.
  - apply Hk; [done|congruence].
  - apply explained_quiet, publishes_nothing_same. congruence.
  - apply explained_quiet, publishes_nothing_same. congruence.
Qed.

Lemma explained_throw {E A} q w (e : E) w1 :
  textures (db w1) = textures (db w) -> explained q w (snd ((throw e : M E A) w1)).
Proof. intros E1. by apply explained_quiet, publishes_nothing_same. Qed.

Lemma approval_explained reviewer id note tag_ids w :
  List.NoDup (List.map tex_pk (rows (textures (db w)))) ->
  explained (ApproveTexture reviewer id note tag_ids) w
    (snd (approve_texture_library_texture reviewer id note tag_ids w)).
Proof.
  intros Hnd. unfold approve_texture_library_texture.
  apply explained_head; [apply _|done|]. intros [] w1 [Hen ->]%enabled_ok _.
  apply explained_head; [apply _|done|]. intros t w2 (S & Hin & Hid & Hi)%admin_item E2.
  destruct (eqb (library_status t) PendingReview) eqn:Hs; cbn [negb]; [|by apply explained_throw].
  destruct (eqb (visibility t) VisPublic) eqn:Hv; cbn [negb]; [|by apply explained_throw].
  rewrite eqb_true in Hs. rewrite eqb_true in Hv.
  apply explained_head; [|done|].
  { destruct tag_ids; [|apply _]. unfold replace_library_texture_tags_for_admin. apply tracks_bind;
      [apply _|]. intros known. apply tags_leave_textures. }
  intros _ w3 _ E3. apply explained_head; [apply _|done|]. intros now w4 _ E4.
  apply explained_head; [apply _|done|]. intros n w5 _ E5.
  apply explained_tail; [|intros u; apply _]. intros r w6. apply explained_review; [done..|].
  intros now'. cbn. intros _. split; [done|]. exists t. by split_and!.
Qed.

Lemma submission_explained user_id id w :
  List.NoDup (List.map tex_pk (rows (textures (db w)))) ->
  explained (SubmitReview user_id id) w (snd (submit_texture_library_review user_id id w)).
Proof.
  intros Hnd. unfold submit_texture_library_review.
  apply explained_head; [apply _|done|].
  intros [] w1 ([] & w1' & [Hen ->]%enabled_ok & _)%bind_ok E1.
  apply explained_head; [apply _|done|]. intros t w2 (S & Hin & Hid & Hu & Hi)%user_item E2.
  rewrite E1 in Hin.
  destruct (eqb (visibility t) VisPublic) eqn:Hv; cbn [negb]; [|by apply explained_throw].
  rewrite eqb_true in Hv.
  apply explained_head; [apply _|done|]. intros now w3 _ E3.
  apply explained_tail; [|intros u; apply _]. intros r w4. apply explained_review; [done..|].
  intros now' Hp. cbn [TextureRepo.with_review library_status submission TextureRepo.lr_library_status] in Hp. split; [done|]. exists t.
  destruct (review_required _) eqn:Hr; [done|]. by split_and!.
Qed.

(** C12: Nothing enters the public library without a favourable review: a
    texture that is published after a request was published before it with
    the same content, or the request is an administrator's approval of it
    while it was pending and public, which records the reviewer, or its
    owner's submission of it while public and the library asks for no
    review. *)
Theorem published_only_after_review (r : TextureRequest) w t' :
  List.NoDup (List.map tex_pk (rows (textures (db w)))) ->
  In t' (rows (textures (db (handle_texture r w)))) -> library_status t' = Published ->
  (exists t, In t (rows (textures (db w))) /\ library_status t = Published /\ same_entry t t') \/
  published_by r w t'.
Proof.
  intros Hnd. revert t'. change (explained r w (handle_texture r w)).
  destruct r; cbn [handle_texture];
    first [by apply approval_explained | by apply submission_explained | apply explained_quiet].
  all: match goal with |- publishes_nothing (db ?w) (db (snd (?c ?w))) =>
         enough (Tracks publishes_nothing c) as H by apply (H w) end.
  all: try apply _.
  all: unfold apply_local_texture_presets_to_profile, delete_texture_for_profile, delete_texture,
    delete_texture_for_profile_unchecked, delete_official_texture_for_profile_if_bound,
    delete_wardrobe_texture, create_texture_library_tag, update_texture_library_tag,
    delete_texture_library_tag, update_wardrobe_texture_metadata, replace_wardrobe_texture_tags,
    withdraw_texture_library_submission, reject_texture_library_texture,
    unpublish_texture_library_texture, delete_texture_library_texture,
    create_texture_library_report, accept_texture_library_report, reject_texture_library_report,
    copy_public_texture_to_wardrobe, copy_new_texture, public_texture,
    TextureRepo.find_wardrobe_by_display_name, TextureRepo.find_first.
  all: solve_tracks; by apply quiet_review.
Qed.
End Requests.

(** ** An approval *)

#[local] Existing Instance crypto1.
#[local] Existing Instance property_externs0.
#[local] Existing Instance config0.

Definition waiting1 : minecraft_texture :=
  texture1 1 (hash1 "1") (blob_key (hash1 "1")) VisPublic PendingReview.
Definition waiting_world : World := with_textures [waiting1] 2 world0.
Definition approval1 : TextureRequest := ApproveTexture 7 1 None None.
Definition approved1 : minecraft_texture :=
  List.hd waiting1 (rows (textures (db (handle_texture approval1 waiting_world)))).

Lemma published_only_after_review_witness :
  library_status approved1 = Published /\ library_reviewer_user_id approved1 = Some 7 /\
  ((exists t, In t (rows (textures (db waiting_world))) /\ library_status t = Published /\
      same_entry t approved1) \/
   published_by approval1 waiting_world approved1).
Proof.
  split; [vm_compute; reflexivity|]. split; [vm_compute; reflexivity|].
  apply (published_only_after_review (OL := storage1_laws) approval1 waiting_world approved1).
  - apply List.NoDup_cons; [by intros []|apply List.NoDup_nil].
  - vm_compute. by left.
  - vm_compute. reflexivity.
Defined.
