(* ===== verification/WardrobeProofs.v ===== *)
(** * New content for a wardrobe texture; reports of one texture

    The optimistic loop of [replace_wardrobe_texture_content] ends, and what
    it does to a texture another request has replaced in the meantime.  The
    administrator's page of reports, and what it shows of a texture that
    several of its reports are about. *)

From Stdlib Require Import ZArith List Bool Lia Ascii.
From stdpp Require Import base decidable list strings gmap.
From S2P Require Import Prelude Text Errors Types AuditLog World Logic Repos Bans Tokens Auth Concrete ForwardTextures Sessions ProfileTextures PropertyProofs AuthConfig Accounts WebSessions AccountConcrete Tracks YggdrasilConfig ConfigProofs ObjectStorage TextureRepo TextureProcessing TextureService TextureWardrobe TextureLibrary TextureInvariant BlobProofs.

Local Open Scope Z_scope.
Local Open Scope aster_scope.
Import ProfileTextureRepo.

(** ** The loop ends *)

Section Termination.
Context `{EN : Env} `{CB : CacheBackend} `{FA : ForgeApi} `{TS : TextSearch}.
Context `{OS : !ObjectStorage}.

Lemma abandon_never {A} key e w (a : A) w' : abandon key e w <> (Ok a, w').
Proof. unfold abandon. by intros (? & ? & _ & ?)%bind_ok. Qed.

(** Two programs that begin alike agree when they go on alike. *)
Lemma bind_agree {A B E} (c : M E A) (k k' : A -> M E B) (never : B) w :
  (forall a w1, k a w1 = k' a w1 /\ forall w', k' a w1 <> (Ok never, w')) ->
  bind c k w = bind c k' w /\ forall w', bind c k' w <> (Ok never, w').
Proof. intros H. unfold bind. by destruct (c w) as [[a|e|m] w1]. Qed.

(** More fuel than there are rounds left changes nothing. *)
Lemma loop_more_fuel fuel extra attempt user_id input existing w :
  WARDROBE_REPLACE_MAX_ATTEMPTS - attempt <= Z.of_nat fuel -> (0 < fuel)%nat ->
  replacement_loop (fuel + extra) attempt user_id input existing w =
  replacement_loop fuel attempt user_id input existing w /\
  (forall w', replacement_loop fuel attempt user_id input existing w <> (Ok None, w')).
Proof.
  revert attempt existing w. induction fuel as [|fuel IH]; intros attempt existing w Hf Hpos; [lia|].
  assert (forall key e w1 w',
    abandon key e w1 <> (Ok (@None (minecraft_texture * minecraft_texture)), w')) as Hno
    by (intros; apply abandon_never).
  cbn [Nat.add replacement_loop]. apply bind_agree. intros [[t|]|e] w1; [by split| |by split].
  apply bind_agree. intros [c|e] w2; [|by split].
  destruct (wardrobe_item c) as [current|]; [|by split].
  destruct (same_content _ _ _); [by split|].
  destruct (WARDROBE_REPLACE_MAX_ATTEMPTS <=? attempt + 1) eqn:Em; [by split|].
  apply Z.leb_gt in Em. apply IH; lia.
Qed.

(** The fuel of the replacement loop is enough: four rounds reach the limit of
    the code, so with any larger fuel the loop gives the same result in the
    same world, and it never runs out. *)
Lemma replacement_loop_ends extra user_id input existing w :
  replacement_loop (WARDROBE_REPLACE_FUEL + extra) 0 user_id input existing w =
  replacement_loop WARDROBE_REPLACE_FUEL 0 user_id input existing w /\
  (forall w', replacement_loop WARDROBE_REPLACE_FUEL 0 user_id input existing w <> (Ok None, w')).
Proof. apply loop_more_fuel; unfold WARDROBE_REPLACE_FUEL, WARDROBE_REPLACE_MAX_ATTEMPTS; lia. Qed.
End Termination.

(** ** A blob that is gone *)

Section Shrinking.
Context `{EN : Env} `{CB : CacheBackend} `{FC : ForgeCrypto} `{FA : ForgeApi} `{TS : TextSearch}.
Context `{FN : ForgeNumbers} `{TN : TextureNumbers} `{SE : SkinExterns} `{TX : TextureExterns}.
Context `{RC : RuntimeConfig} `{PP : PreviewPolicy} `{IC : ImageCodec} `{FS : FileSystem}.
Context `{OS : !ObjectStorage} `{OL : !ObjectStorageLaws OS} `{BE : BanExterns}.

(** Facts that survive when objects go and the tables stay. *)
Variable I : World -> Prop.
Hypothesis I_shrinks : forall w w',
  textures (db w') = textures (db w) -> (forall k, stored k w' -> stored k w) -> I w -> I w'.

Lemma shrinks_same w w' : same w w' -> I w -> I w'.
Proof. intros (E & _ & [_ Eo] & _). apply I_shrinks; [by rewrite E|]. unfold stored. by rewrite Eo. Qed.

Lemma shrinks_read {E A} (c : M E A) : Reads c -> keeps I (fun _ => True) c.
Proof. apply keeps_reads, shrinks_same. Qed.

Lemma shrinks_caches {E} f : keeps I (fun _ => True) (cache_update f : M E unit).
Proof. apply keeps_cache_update. intros w c. by apply I_shrinks. Qed.

Lemma shrinks_caching {E} k v ttl : keeps I (fun _ => True) (cache_write k v ttl : M E unit).
Proof. apply keeps_cache_write. intros w c. by apply I_shrinks. Qed.

Lemma shrinks_delete key :
  is_texture_blob_storage_key key = true -> keeps I (fun _ => True) (delete key).
Proof.
  intros Hk w HI. apply wp_intro. intros r w' H.
  apply delete_spec in H as ((Edb & _ & _ & _ & Ho) & Hback & _); [|by left]. split; [|by destruct r].
  eapply I_shrinks; [by rewrite Edb| |done]. intros k. destruct (decide (k = key)) as [->|Hne]; [done|].
  unfold stored. by rewrite Ho.
Qed.

Lemma shrinks_cleanup {E} key :
  is_texture_blob_storage_key key = true ->
  keeps I (fun _ => True) (cleanup_texture_blob_if_unreferenced key : M E unit).
Proof.
  intros Hk. pose proof (shrinks_delete key Hk) as Hd.
  pose proof (fun b => @shrinks_read _ _ (exists_ key) b) as He.
  pose proof (shrinks_read (count_object_storage_references key) _) as Hc.
  unfold cleanup_texture_blob_if_unreferenced.
  eapply keeps_bind; [by apply keeps_catch|]. intros [n|e] _; [|by apply keeps_ret].
  destruct (negb _); [by apply keeps_ret|].
  eapply keeps_bind; [by apply keeps_catch|]. intros [u|e] _; [by apply keeps_ret|].
  eapply keeps_bind; [apply keeps_catch, shrinks_read; apply _|]. intros b _. by apply keeps_ret.
Qed.

(** A statement on another table. *)
Lemma shrinks_aside {A} (f : Db -> outcome AsterError.t (A * Db)) :
  (forall d a d', f d = Ok (a, d') -> textures d' = textures d) ->
  keeps I (fun _ => True) (db_exec f).
Proof.
  intros H. apply keeps_db_exec; [intros w; by apply I_shrinks|]. intros w a d HI Hd.
  split; [|done]. refine (I_shrinks w _ _ _ HI); [by eapply H|done].
Qed.

Lemma shrinks_touch id : keeps I (fun _ => True) (ProfileRepo.touch_by_id id).
Proof.
  eapply keeps_bind; [apply shrinks_read; apply _|]. intros [p|] _; [|by apply keeps_ret].
  eapply keeps_bind; [apply shrinks_read; apply _|]. intros now _.
  eapply (keeps_bind _ (fun _ => True)); [|intros u _; by apply keeps_ret].
  apply shrinks_aside. intros d a d' Hd. repeat first [case_match | progress simplify_eq/=]; done.
Qed.

Lemma shrinks_after_replacement bindings old updated :
  well_named old -> keeps I (fun _ => True) (after_replacement bindings old updated).
Proof.
  intros Hold%well_named_key.
  assert (forall E id, keeps I (fun _ => True) (invalidate_profile_texture_caches id : M E unit)) as Hprofile.
  { intros E id. pose proof (shrinks_touch id). unfold invalidate_profile_texture_caches.
    eapply (keeps_bind _ (fun _ => True)); [apply shrinks_caches|]. intros _ _.
    eapply keeps_bind; [by apply keeps_catch|]. intros _ _. by apply keeps_ret. }
  assert (forall E t, keeps I (fun _ => True) (invalidate_texture_asset_caches t : M E unit)) as Hasset.
  { intros E t. unfold invalidate_texture_asset_caches, BlobCache.invalidate_texture_blob_lookup.
    destruct (is_valid_texture_hash _); [apply shrinks_caches|by apply keeps_ret]. }
  unfold after_replacement.
  eapply (keeps_bind _ (fun _ => True)); [apply keeps_for_each; intros id _; apply Hprofile|intros _ _].
  eapply (keeps_bind _ (fun _ => True)); [apply Hasset|intros _ _].
  eapply (keeps_bind _ (fun _ => True)); [apply Hasset|intros _ _].
  eapply (keeps_bind _ (fun _ => True)).
  { destruct (negb _); [by apply shrinks_cleanup|by apply keeps_ret]. }
  intros _ _. apply keeps_tex, shrinks_read. unfold wardrobe_texture_with_current_tags. apply _.
Qed.
End Shrinking.

Section Stale.
Context `{EN : Env} `{CB : CacheBackend} `{FC : ForgeCrypto} `{FA : ForgeApi} `{TS : TextSearch}.
Context `{FN : ForgeNumbers} `{TN : TextureNumbers} `{SE : SkinExterns} `{TX : TextureExterns}.
Context `{RC : RuntimeConfig} `{PP : PreviewPolicy} `{IC : ImageCodec} `{FS : FileSystem}.
Context `{OS : !ObjectStorage} `{OL : !ObjectStorageLaws OS} `{BE : BanExterns}.

Definition holds (hash : string) (w : World) : Prop :=
  exists t, In t (rows (textures (db w))) /\ tex_hash t = hash.

(** Every row names its own blob, and the blob of [hash] is not stored. *)
Definition lost (hash : string) (w : World) : Prop :=
  all_named (rows (textures (db w))) /\ ~ stored (blob_key hash) w.

Lemma lost_shrinks hash w w' :
  textures (db w') = textures (db w) -> (forall k, stored k w' -> stored k w) ->
  lost hash w -> lost hash w'.
Proof. intros E Hk [Hn Hs]. split; [by rewrite E|]. intros H. by apply Hs, Hk. Qed.

Lemma lost_row_shrinks hash w w' :
  textures (db w') = textures (db w) -> (forall k, stored k w' -> stored k w) ->
  lost hash w /\ holds hash w -> lost hash w' /\ holds hash w'.
Proof. intros E Hk [Hl Hh]. split; [by eapply lost_shrinks|]. unfold holds. by rewrite E. Qed.

Lemma keeps_lost_read hash {E A} (c : M E A) : Reads c -> keeps (lost hash) (fun _ => True) c.
Proof. apply shrinks_read, lost_shrinks. Qed.

Lemma find_lost hash p w :
  lost hash w ->
  wp (TextureRepo.find_where p)
     (fun r w' => lost hash w' /\
        match r with Ok (Some t) => well_named t /\ holds (tex_hash t) w' | _ => True end) w.
Proof.
  intros HI. apply wp_intro. intros r w' [S H]%find_where_run. split.
  - by apply (shrinks_same _ (lost_shrinks hash) _ _ S).
  - destruct r as [[t|]|e|m]; [|done..]. split; [by apply HI|]. exists t. split; [|done].
    destruct S as (-> & _). done.
Qed.

Section Input.
Variables (input : TextureRepo.ReplaceWardrobeTextureContent) (user_id : Z).
Hypothesis hash_valid : is_valid_texture_hash (TextureRepo.rc_hash input) = true.
Hypothesis input_named :
  TextureRepo.rc_storage_key input = blob_key (TextureRepo.rc_hash input).

(** The conditional update: when it reports one row, that row has the content. *)
Lemma replace_lost existing w :
  lost (TextureRepo.rc_hash input) w ->
  wp (TextureRepo.replace_wardrobe_content_for_user existing user_id input)
     (fun r w' => lost (TextureRepo.rc_hash input) w' /\ match r with Ok (Some _) => holds (TextureRepo.rc_hash input) w' | _ => True end) w.
Proof.
  intros HI. unfold TextureRepo.replace_wardrobe_content_for_user.
  destruct (_ || _); [by apply wp_ret|]. apply wp_bind, wp_utc_now. cbn [wp_next].
  apply wp_bind, wp_db_update_many.
  { intros m. cbn. split; [|done]. by eapply lost_shrinks. }
  intros _. cbn [wp_next]. set (w1 := set_db _ _).
  assert (lost (TextureRepo.rc_hash input) w1) as HI1.
  { split; [|apply HI]. intros t' (t0 & Hin & ->)%in_update_where.
    destruct (TextureRepo.unchanged_since _ _ _); [by split|by apply HI]. }
  destruct (Z.of_nat _ =? 1) eqn:Ec; cbn [negb]; [|by apply wp_ret].
  assert (holds (TextureRepo.rc_hash input) w1) as Hh.
  { apply Z.eqb_eq in Ec. change (db (tick w)) with (db w) in Ec.
    destruct (count_where_pos (TextureRepo.unchanged_since existing user_id) (rows (textures (db w))))
      as (t & Hin & Ht); [lia|].
    eexists. split; [apply in_update_where; exists t; split; [done|reflexivity]|]. by rewrite Ht. }
  eapply wp_intro. intros r w' [S _]%find_where_run.
  destruct (shrinks_same _ (lost_row_shrinks (TextureRepo.rc_hash input)) _ _ S (conj HI1 Hh)) as [HI2 Hh2].
  split; [done|]. by destruct r as [[t|]|e|m].
Qed.

Lemma abandon_lost {A} (e : TextureErrors.TextureError) w Q :
  lost (TextureRepo.rc_hash input) w -> (forall e' w', lost (TextureRepo.rc_hash input) w' -> Q (Err e') w') -> (forall m w', lost (TextureRepo.rc_hash input) w' -> Q (Panic m) w') ->
  wp (abandon (A := A) (TextureRepo.rc_storage_key input) e) Q w.
Proof.
  intros HI He Hp. unfold abandon.
  refine (keeps_step _ (fun _ => True) _ _ _ _ (shrinks_cleanup _ (lost_shrinks (TextureRepo.rc_hash input)) _ _) HI _ He Hp).
  - rewrite input_named. by apply blob_key_is_texture_key.
  - intros _ w' HI' _. apply wp_throw. by apply He.
Qed.

Lemma loop_lost fuel attempt existing w :
  well_named existing -> lost (TextureRepo.rc_hash input) w ->
  wp (replacement_loop fuel attempt user_id input existing)
     (fun r w' => lost (TextureRepo.rc_hash input) w' /\
        match r with Ok (Some (old, _)) => well_named old /\ holds (TextureRepo.rc_hash input) w' | _ => True end) w.
Proof.
  revert attempt existing w. induction fuel as [|fuel IH]; intros attempt existing w Ht HI;
    cbn [replacement_loop]; [by apply wp_ret|].
  apply wp_bind, wp_catch, wp_map_err. eapply wp_mono; [by apply replace_lost|].
  intros [[t|]|e|m] w1 [HI1 Hh]; cbn [wp_next]; [by apply wp_ret| | |done].
  2:{ by apply abandon_lost. }
  apply wp_bind, wp_catch. eapply wp_mono; [by apply find_lost|].
  intros [c|e|m] w2 [HI2 Hc]; cbn [wp_next]; [|by apply abandon_lost|done].
  destruct (wardrobe_item c) as [current|] eqn:Ec; [|by apply abandon_lost].
  assert (c = Some current) as ->.
  { unfold wardrobe_item in Ec. destruct c as [c|]; [|done]. destruct (is_wardrobe_item c); congruence. }
  destruct (same_content _ _ _) eqn:Es.
  - apply wp_ret. split; [done|]. split; [done|].
    unfold same_content in Es. rewrite andb_true_iff, !eqb_true in Es. destruct Es as [<- _].
    apply Hc.
  - destruct (_ <=? _); [by apply abandon_lost|]. apply IH; [apply Hc|done].
Qed.
End Input.

(** C40: A replacement that changes only the model trusts the row it read.
    The upload's hash is the one of the row that was read, so nothing is
    stored; if another request has replaced the content in between and its
    cleanup has deleted the old blob, the loop still writes the old hash back.
    The request succeeds, and the texture names a blob that is not stored. *)
Theorem stale_replacement_loses_blob user_id existing model processing file w t w' :
  all_named (rows (textures (db w))) -> well_named existing ->
  pr_hash processing = tex_hash existing ->
  ~ stored (blob_key (tex_hash existing)) w ->
  write_replacement user_id existing model processing file w = (Ok t, w') ->
  (exists t, In t (rows (textures (db w'))) /\
     tex_hash t = tex_hash existing /\ ~ stored (storage_key t) w') /\
  ~ blobs_stored w'.
Proof.
  intros Hn Hold Eh Hmissing H. pose proof (proj1 Hold) as Hv. unfold write_replacement in H.
  rewrite Eh, object_storage_key_valid, eqb_refl in H by done. cbn [negb] in H.
  apply bind_ok in H as ([[fs wd] ht] & w1 & Hm & H). unfold tex in Hm.
  apply map_err_ok, lift_ok in Hm as [_ ->].
  set (hash := tex_hash existing) in *.
  enough (lost hash w' /\ holds hash w') as [[Hn' Hm'] (t' & Hin & Ht)].
  { assert (~ stored (storage_key t') w') as Hgone by (rewrite (proj2 (Hn' _ Hin)), Ht; done).
    split; [by exists t'|]. intros [Hr _]. by apply Hgone, Hr. }
  assert (lost hash w) as HI by done.
  apply bind_ok in H as (key & w1 & [[= <-] ->]%lift_ok & H).
  apply bind_ok in H as (u & w1 & [= <- <-] & H).
  apply bind_ok in H as (bindings & w1 & Hb & H).
  assert (lost hash w1) as HI1.
  { assert (Reads (list_by_texture_id (tex_pk existing))) as Hr by apply _.
    refine (proj1 (keeps_run _ _ _ _ _ _ (keeps_catch _ _ _ (keeps_lost_read hash _ Hr)) HI Hb)). }
  destruct bindings as [bindings|e]; [|by apply abandon_never in H].
  apply bind_ok in H as ([[old updated]|] & w2 & Hloop & H); [|done].
  pose proof (wp_run _ _ _ _ _ (loop_lost (TextureRepo.mkReplaceContent hash (blob_key hash)
    PNG_CONTENT_TYPE fs wd ht model) user_id Hv eq_refl _ _ _ _ Hold HI1) Hloop) as [HI2 [Ho Hh]].
  exact (proj1 (keeps_run _ _ _ _ _ _
    (shrinks_after_replacement _ (lost_row_shrinks hash) bindings old updated Ho) (conj HI2 Hh) H)).
Qed.
End Stale.

(** ** A stale row

    Alice's texture was read with content "1"; it has content "2" now, and the
    blob of "1" has been cleaned up. *)

#[local] Existing Instance crypto1.
#[local] Existing Instance property_externs0.
#[local] Existing Instance config0.

Definition read_before : minecraft_texture :=
  texture1 1 (hash1 "1") (blob_key (hash1 "1")) VisPrivate LibPrivate.
Definition replaced_since : minecraft_texture :=
  mkTexture 1 1 Skin TextureLocal (hash1 "2") (blob_key (hash1 "2")) "image/png" 1 64 64
    ModelDefault VisPrivate true None LibPrivate None None None None 0 5.
Definition raced : World :=
  set_objects {[blob_key (hash1 "2") := "2"%string]} (with_textures [replaced_since] 2 world0).
Definition model_only : TextureProcessingResult := mkProcessing 64 64 1 (hash1 "1").
Definition after_race := write_replacement 1 read_before Slim model_only "1" raced.

Lemma stale_replacement_loses_blob_witness :
  blobs_stored raced /\ ~ blobs_stored (snd after_race).
Proof.
  assert (well_named replaced_since) as Hn by (split; vm_compute; reflexivity).
  split.
  - split; [|done]. intros t [<-|[]]. split; [done|]. vm_compute. eauto.
  - unfold after_race.
    destruct (write_replacement 1 read_before Slim model_only "1" raced) as [[t|e|m] w'] eqn:E;
      [|exfalso; revert E; vm_compute; discriminate..].
    apply (stale_replacement_loses_blob _ _ _ _ _ _ t w') in E; [apply E| | | |].
    + by intros x [<-|[]].
    + split; vm_compute; reflexivity.
    + reflexivity.
    + vm_compute. by intros [? ?].
Defined.

(** ** The page of reports *)

(** The later rows win. *)
Lemma by_key_cons {A} (key : A -> Z) a l id :
  by_key key (a :: l) id =
  match by_key key l id with Some b => Some b | None => if key a =? id then Some a else None end.
Proof. unfold by_key. cbn [rev]. by rewrite find_row_app. Qed.

Lemma by_key_some {A} (key : A -> Z) l id a :
  by_key key l id = Some a -> In a l /\ key a = id.
Proof.
  unfold by_key. intros [Hin He]%find_row_some. split; [by apply in_rev in Hin|]. by apply Z.eqb_eq in He.
Qed.

Lemma by_key_none {A} (key : A -> Z) l id :
  by_key key l id = None <-> count_where (fun a => key a =? id) l = 0%nat.
Proof.
  induction l as [|a l IH]; [done|]. rewrite by_key_cons. unfold count_where, rows_where in *.
  cbn [List.filter]. destruct (by_key key l id) as [b|].
  - destruct (key a =? id); cbn [length]; split; intros; try done.
    symmetry in IH. by apply IH in H.
  - destruct (key a =? id); [done|]. by apply IH.
Qed.

Lemma remove_tags_gone id m : find_row (fun e => fst e =? id) (snd (remove_tags id m)) = None.
Proof.
  apply find_row_none. intros e [_ He]%filter_In. by apply negb_true_iff in He.
Qed.

Section Tags.
Context {A : Type} (f : minecraft_texture -> list minecraft_texture_tag -> A) (key : A -> Z).
Hypothesis key_f : forall t tags, key (f t tags) = tex_pk t.

Lemma with_tags_count textures m id :
  count_where (fun a => key a =? id) (with_tags f textures m) =
  count_where (fun t => tex_pk t =? id) textures.
Proof.
  revert m. induction textures as [|t l IH]; intros m; [done|]. cbn [with_tags].
  destruct (remove_tags (tex_pk t) m) as [tags m']. unfold count_where, rows_where in *.
  cbn [List.filter]. rewrite key_f. destruct (tex_pk t =? id); cbn [length]; by rewrite IH.
Qed.

Lemma with_tags_in textures m a :
  In a (with_tags f textures m) -> exists t tags, a = f t tags /\ In t textures.
Proof.
  revert m. induction textures as [|t l IH]; intros m; [done|]. cbn [with_tags].
  destruct (remove_tags (tex_pk t) m) as [tags m']. intros [<-|Hin].
  - exists t, tags. split; [done|by left].
  - destruct (IH _ Hin) as (t' & g & -> & Hin'). exists t', g. split; [done|by right].
Qed.

Definition untagged (id : Z) (m : list (Z * list minecraft_texture_tag)) : Prop :=
  find_row (fun e => fst e =? id) m = None.

Lemma untagged_remove id id' m : untagged id m -> untagged id (snd (remove_tags id' m)).
Proof.
  unfold untagged. rewrite !find_row_none. intros H e [Hin _]%filter_In. by apply H.
Qed.

(** A texture met twice has lost its tags the second time, and the second
    entry is the one that is looked up. *)
Lemma with_tags_shared textures m id a :
  (1 < count_where (fun t => Z.eqb (tex_pk t) id) textures)%nat \/ untagged id m ->
  by_key key (with_tags f textures m) id = Some a -> exists t, a = f t [].
Proof.
  revert m. induction textures as [|t l IH]; intros m Hcase; [done|].
  cbn [with_tags]. pose proof (remove_tags_gone (tex_pk t) m) as Hgone.
  pose proof (untagged_remove id (tex_pk t) m) as Hkeep.
  destruct (remove_tags (tex_pk t) m) as [tags m'] eqn:Er. cbn [snd] in *.
  rewrite by_key_cons, key_f. unfold count_where, rows_where in Hcase. cbn [List.filter] in Hcase.
  destruct (by_key key (with_tags f l m') id) as [b|] eqn:Eb.
  - intros [= <-]. apply (IH m'); [|done]. destruct (tex_pk t =? id) eqn:Et.
    + right. apply Z.eqb_eq in Et. by rewrite Et in Hgone.
    + destruct Hcase as [Hc|Hu]; [by left|right; by apply Hkeep].
  - destruct (tex_pk t =? id) eqn:Et; [|done]. intros [= <-].
    apply by_key_none in Eb. rewrite with_tags_count in Eb. unfold count_where, rows_where in Eb.
    destruct Hcase as [Hc|Hu]; [cbn [length] in Hc; rewrite Eb in Hc; lia|].
    exists t. unfold remove_tags in Er. apply Z.eqb_eq in Et. rewrite Et in Er.
    unfold untagged in Hu. rewrite Hu in Er. by injection Er as <- _.
Qed.
End Tags.

Lemma count_filter_map {A B} (g : A -> option B) (p : B -> bool) (q : A -> bool) l :
  (forall a, q a = true -> exists b, g a = Some b /\ p b = true) ->
  (count_where q l <= count_where p (filter_map g l))%nat.
Proof.
  intros H. unfold count_where, rows_where. induction l as [|a l IH]; [done|]. cbn.
  destruct (q a) eqn:Eq.
  - destruct (H a Eq) as (b & -> & Hb). cbn. rewrite Hb. cbn. lia.
  - destruct (g a) as [b|]; [|done]. cbn. destruct (p b); cbn; lia.
Qed.

Section Reports.
Context `{EN : Env} `{CB : CacheBackend} `{FC : ForgeCrypto} `{FA : ForgeApi} `{TS : TextSearch}.
Context `{SE : SkinExterns} `{RC : RuntimeConfig} `{PP : PreviewPolicy} `{BE : BanExterns}.
Context `{AE : !AccountExterns} `{CF : ForgeConfig} `{ST : ConfigStore}.
Context `{YE : YggdrasilExterns}.

(** What the page is built from. *)
Lemma report_page reports infos w w' :
  texture_report_infos_by_reports reports w = (Ok infos, w') ->
  exists textures tags us ps users md,
    infos = List.map (report_info md users) reports /\
    (reports = [] \/
     md = with_tags (fun t tags =>
            public_texture_library_metadata_with_tags t tags (by_key user_pk us (tex_user_id t))
              (by_key up_user_id ps (tex_user_id t)) (Some AdminUser))
            (filter_map (fun r => by_key tex_pk textures (report_texture_id r)) reports) tags).
Proof.
  unfold texture_report_infos_by_reports. destruct reports as [|r0 rest].
  { intros [= <- _]. exists [], [], [], [], [], []. split; [done|by left]. }
  intros (textures & w1 & _ & (users & w2 & _ & (md & w3 & Hmd & [= <- _])%bind_ok)%bind_ok)%bind_ok.
  apply bind_ok in Hmd as (tags & w4 & _ & Hmd).
  apply bind_ok in Hmd as (us & w5 & _ & (ps & w6 & _ & [= <- _])%bind_ok).
  exists textures, tags, us, ps, users. eexists. split; [reflexivity|]. by right.
Qed.

(** Reports of one texture hide its tags.  The page of reports builds the
    metadata of a texture once per report and takes its tags out of the map
    the first time, so when two reports of the page are about the same texture
    every one of them shows it without tags. *)
Theorem shared_report_hides_tags reports infos info shown w w' :
  texture_report_infos_by_reports reports w = (Ok infos, w') ->
  In info infos -> ri_texture info = Some shown ->
  (1 < count_where (fun r => Z.eqb (report_texture_id r) (ri_texture_id info)) reports)%nat ->
  tv_tags (lm_view shown) = [].
Proof.
  intros Hrun Hin Hshown Hc.
  destruct (report_page _ _ _ _ Hrun) as (textures & tags & us & ps & users & md & -> & Hmd).
  apply in_map_iff in Hin as (r & <- & Hin). cbn [report_info ri_texture ri_texture_id] in *.
  set (id := report_texture_id r) in *.
  destruct Hmd as [->| ->]; [done|].
  match type of Hshown with by_key _ (with_tags ?f ?l _) _ = _ =>
    destruct (with_tags_shared f (fun t => tv_id (lm_view t)) (fun t g => eq_refl) l tags id shown)
      as [t ->]; [left|done|done] end.
  eapply Nat.lt_le_trans; [exact Hc|]. apply count_filter_map. intros r' Er%Z.eqb_eq. rewrite Er.
  destruct (by_key tex_pk textures id) as [t|] eqn:Et.
  - exists t. split; [done|]. apply by_key_some in Et as [_ ->]. apply Z.eqb_refl.
  - exfalso. apply by_key_some in Hshown as [Hsh Hid].
    apply with_tags_in in Hsh as (t & g & -> & Hin').
    apply in_filter_map in Hin' as (r'' & _ & E). cbn in Hid.
    pose proof (by_key_some _ _ _ _ E) as [_ E']. congruence.
Qed.
End Reports.

(** ** Two reports of one tagged texture *)

#[local] Existing Instance crypto1.
#[local] Existing Instance config0.

Definition tagged1 : minecraft_texture :=
  texture1 1 (hash1 "1") (blob_key (hash1 "1")) VisPublic Published.
Definition report1 (id : Z) : minecraft_texture_report :=
  mkReport id 1 (id + 1) OtherReason None ReportPending None None None 0 0.
Definition reported : World :=
  let w := with_textures [tagged1] 2 world0 in
  set_db (set_library (mkLibrary (mkTable [mkTag 1 "blue" "blue" "#00f" 0 0 0] 2)
    (mkTable [mkTagBinding 1 1 1 0] 2) (mkTable [report1 1; report1 2] 3) (mkTable [] 1)) (db w)) w.

Definition shown_tags (reports : list minecraft_texture_report) : list (list string) :=
  match fst (texture_report_infos_by_reports reports reported) with
  | Ok infos => List.map (fun i => match ri_texture i with
                                   | Some t => List.map ti_name (tv_tags (lm_view t))
                                   | None => []
                                   end) infos
  | _ => []
  end.

Definition both : list minecraft_texture_report := [report1 1; report1 2].
Definition page1 : list TextureReportInfo :=
  match fst (texture_report_infos_by_reports both reported) with Ok infos => infos | _ => [] end.

Lemma shared_report_hides_tags_witness :
  shown_tags [report1 1] = [["blue"%string]] /\ shown_tags both = [[]; []] /\
  exists info shown, In info page1 /\ ri_texture info = Some shown /\ tv_tags (lm_view shown) = [].
Proof.
  split; [vm_compute; reflexivity|]. split; [vm_compute; reflexivity|].
  destruct page1 as [|info rest] eqn:Ep; [exfalso; revert Ep; vm_compute; discriminate|].
  destruct (ri_texture info) as [shown|] eqn:Es;
    [|exfalso; revert Es; revert Ep; vm_compute; intros [= <- _]; discriminate].
  assert (texture_report_infos_by_reports both reported =
    (Ok page1, snd (texture_report_infos_by_reports both reported))) as E
    by (vm_compute; reflexivity).
  assert (In info page1) as Hin by (rewrite Ep; by left).
  exists info, shown. split; [by left|]. split; [done|].
  apply (shared_report_hides_tags _ _ _ _ _ _ E Hin Es).
  assert (ri_texture_id info = 1) as -> by (revert Ep; vm_compute; by intros [= <- _]).
  vm_compute. by apply le_n.
Defined.
