(* ===== verification/Profiles.v ===== *)
(** * Minecraft profiles

    [services/yggdrasil_service/profile.rs]: the profiles of users are
    created, renamed and deleted; an external login may create one from a
    foreign name.  [services/yggdrasil_service/mojang.rs]: whether Mojang
    knows a name, and the official textures of a Microsoft profile, which are
    read from Mojang and bound here.  [services/yggdrasil_service.rs]: the
    protocol's bulk lookup of profiles by name, through the cache of name
    summaries, and the profile of a UUID.  [metadata.rs]: what the API root
    says of the server.  [minecraft_services.rs]: the answers the game client
    asks of the Minecraft services with its access token: a profile key
    certificate, privileges, player attributes and the block list. *)

From Stdlib Require Import ZArith List Bool Lia Ascii.
From stdpp Require Import base decidable list strings pretty.
From S2P Require Import Prelude Text Errors Types AuditLog World Logic Repos Bans Tokens Auth ForwardTextures Sessions ProfileTextures AuthConfig Accounts WebSessions ObjectStorage TextureRepo TextureProcessing TextureService TextureWardrobe.

Local Open Scope Z_scope.
Local Open Scope aster_scope.

(** ** Mojang *)

Record MojangProfileName : Type := mkMojangName { mojang_uuid : string; mojang_name : string }.

Inductive MojangProfileNameLookup : Type :=
| MojangFound (profile : MojangProfileName)
| MojangNotFound.

Record MojangProfileResponse : Type := mkMojangResponse {
  mp_id : option string;
  mp_name : option string;
  mp_error_message : option string
}.

(** One HTTP exchange (the body is parsed on demand), URL encoding, UUIDs, and
    the database's LOWER. *)
Record MojangHttp : Type := mkMojangHttp {
  http_status : Z;
  http_json : outcome string MojangProfileResponse
}.

Class ProfileExterns : Type := {
  mojang_client : nat -> option string;
  mojang_send : nat -> string -> outcome string MojangHttp;
  urlencode : string -> string;
  uuid_parse_simple : string -> option string;
  uuid_new_simple : nat -> string;
  sql_lower : string -> string
}.

Definition mojang_lookup_failed_error : AsterError.t :=
  AsterError.validation_error_code AsterErrorCode.MinecraftProfileMojangLookupFailed
    "failed to verify Mojang profile name availability".

Section Mojang.
Context `{EN : Env} `{CB : CacheBackend} `{RC : RuntimeConfig} `{PX : ProfileExterns}.

(** What a response means. *)
Definition mojang_answer (response : MojangHttp)
  : outcome AsterError.t MojangProfileNameLookup :=
  if http_status response =? 404 then Ok MojangNotFound
  else if negb ((200 <=? http_status response) && (http_status response <? 300))
  then Err mojang_lookup_failed_error
  else
    match http_json response with
    | Panic m => Panic m
    | Err _ => Err mojang_lookup_failed_error
    | Ok body =>
        if is_some_and (mp_error_message body) (fun message =>
             contains_str "couldn't find any profile" (to_ascii_lowercase message))
        then Ok MojangNotFound
        else
          match mp_id body, mp_name body with
          | Some id, Some name =>
              match uuid_parse_simple (trim id) with
              | Some uuid => Ok (MojangFound (mkMojangName uuid name))
              | None => Err mojang_lookup_failed_error
              end
          | _, _ => Err mojang_lookup_failed_error
          end
    end.

Definition lookup_profile_name (name : string) : M AsterError.t MojangProfileNameLookup :=
  let url := trim_end_matches "/"%char (mojang_profile_api_base_url policy)
               +:+ "/users/profiles/minecraft/" +:+ urlencode name in
  do* (fun w => match mojang_client (step w) with
                | Some error => (Err (AsterError.InternalError ("build HTTP client: " +:+ error)), w)
                | None => (Ok tt, w)
                end) in
  let* response := (fun w =>
    (match mojang_send (step w) url with
     | Ok response => Ok response
     | Err _ => Err mojang_lookup_failed_error
     | Panic m => Panic m
     end, tick w)) in
  lift (mojang_answer response).
End Mojang.

(** ** Names *)

Definition is_name_byte (b : ascii) : bool := is_ascii_alphanumeric b || eqb b "_"%char.

Definition validate_profile_name (name : string) : outcome AsterError.t unit :=
  let valid_len := (3 <=? str_len name)%nat && (str_len name <=? 16)%nat in
  let valid_chars := forallb is_name_byte (bytes name) in
  if negb valid_len || negb valid_chars
  then Err (AsterError.ValidationError
              "profile name must be 3-16 ASCII letters, numbers, or underscores")
  else Ok tt.

Definition is_ascii_digit (b : ascii) : bool := (48 <=? code b)%nat && (code b <=? 57)%nat.

Definition is_reserved_linuxdo_profile_name (name : string) : bool :=
  match strip_prefix "linuxdo_" name with
  | None => false
  | Some subject => negb (is_empty subject) && forallb is_ascii_digit (bytes subject)
  end.

Definition validate_reserved_profile_name (name : string) (allow_reserved_linuxdo_name : bool)
  : outcome AsterError.t unit :=
  if negb allow_reserved_linuxdo_name && is_reserved_linuxdo_profile_name name
  then Err (AsterError.ValidationError "profile name is reserved for LinuxDO fallback identities")
  else Ok tt.

(** [trim_matches('_')] *)
Definition trim_matches (a : ascii) (s : string) : string :=
  trim_end_matches a (trim_start_matches a s).

(** A character outside ASCII is dropped, and so are its bytes. *)
Definition sanitize_byte (b : ascii) : option ascii :=
  if is_ascii_alphanumeric b then Some b
  else if mem b ["_"; "-"; "."; " "]%char then Some "_"%char
  else None.

Definition pad_name (name : string) : string :=
  name +:+ of_bytes (List.repeat "_"%char (3 - str_len name)).

Definition sanitize_external_username (username : string) : option string :=
  let sanitized := trim_matches "_"%char (of_bytes (omap sanitize_byte (bytes username))) in
  let name :=
    if (16 <? str_len sanitized)%nat then trim_matches "_"%char (byte_prefix 16 sanitized)
    else sanitized in
  if is_empty name then None
  else
    let name := pad_name name in
    if negb (existsb is_ascii_alphanumeric (bytes name)) then None else Some name.

(** ** Rows *)
Module ProfileRows.

(** The foreign keys: tokens forget the profile, bindings and preferences go. *)
Definition forget_profile (id : Z) (t : yggdrasil_token) : yggdrasil_token :=
  mkToken (token_pk t) (token_user_id t) (access_token_hash t) (client_token t) None (issued_at t)
    (expires_at t) (revoked_at t) (temporarily_invalidated_at t) (token_user_agent t)
    (token_ip_address t).

Definition drop_profile (id : Z) (d : Db) : Db :=
  let l := library d in
  set_library
    (mkLibrary (texture_tags l) (tag_bindings l) (texture_reports l)
       (with_rows (delete_where (fun p => preference_profile_id p =? id)
                     (rows (texture_preferences l)))
          (texture_preferences l)))
    (set_profile_textures
       (with_rows (delete_where (fun b => binding_profile_id b =? id) (rows (profile_textures d)))
          (profile_textures d))
       (set_tokens
          (with_rows (update_where (fun t => eqb (selected_profile_id t) (Some id))
                        (forget_profile id) (rows (tokens d))) (tokens d))
          (set_profiles (with_rows (delete_where (fun p => profile_pk p =? id) (rows (profiles d)))
                           (profiles d)) d))).

Section Ops.
Context `{EN : Env} `{CB : CacheBackend} `{PX : ProfileExterns}.

Definition delete_by_id (id : Z) : M AsterError.t (option minecraft_profile) :=
  let* existing := db_query (fun d => find_row (fun p => profile_pk p =? id) (rows (profiles d))) in
  match existing with
  | None => ret None
  | Some existing =>
      do* db_exec (fun d => Ok (tt, drop_profile id d)) in
      ret (Some existing)
  end.

(** [user_repo::find_by_username_case_insensitive] *)
Definition find_by_username_case_insensitive (name : string) : M AsterError.t (option user) :=
  db_query (fun d =>
    find_row (fun u => eqb (sql_lower (username u)) (to_ascii_lowercase name)) (rows (users d))).
End Ops.
End ProfileRows.

(** ** The service *)

Record MinecraftProfileInfo : Type := mkProfileInfo {
  pi_id : Z;
  pi_user_id : Z;
  pi_uuid : string;
  pi_name : string;
  pi_source : MinecraftProfileSource;
  pi_uploadable_textures : string;
  pi_texture_model : MinecraftTextureModel;
  pi_created_at : DateTimeUtc;
  pi_updated_at : DateTimeUtc
}.

Record CreateProfileInput : Type := mkCreateProfile {
  cp_user_id : Z;
  cp_user_role : UserRole;
  cp_uuid : string;
  cp_name : string;
  cp_source : MinecraftProfileSource;
  cp_allow_reserved_linuxdo_name : bool;
  cp_check_mojang_name : bool
}.

Record DeleteMinecraftProfileResult : Type := mkDeleteProfile {
  dp_profile : minecraft_profile;
  dp_deleted_texture_count : nat;
  dp_revoked_token_count : Z
}.

Record RenameMinecraftProfileResult : Type := mkRenameProfile {
  rp_profile : minecraft_profile;
  rp_old_name : string;
  rp_temporarily_invalidated_token_count : Z
}.

Definition project_profile_summary (p : minecraft_profile) : YggdrasilProfile :=
  mkYggProfile (uuid p) (profile_name p) (Some (source p)) None.

Definition profile_info (p : minecraft_profile) : MinecraftProfileInfo :=
  mkProfileInfo (profile_pk p) (profile_user_id p) (uuid p) (profile_name p) (source p)
    (uploadable_textures p) (texture_model p) (profile_created_at p) (profile_updated_at p).

Definition profile_error (c : AsterErrorCode.t) (message : string) : AsterError.t :=
  AsterError.validation_error_code c message.

Definition name_taken_error : AsterError.t :=
  profile_error AsterErrorCode.MinecraftProfileNameTaken "profile name already exists".

Definition unconvertible_name_error : AsterError.t :=
  AsterError.ValidationError "external username cannot be converted to a valid profile name".

(** The names to try for an external login, each with whether it may be a
    reserved one. *)
Definition external_profile_names (external_username : string) (fallback_username : option string)
  : list (string * bool) :=
  let profile_names :=
    match sanitize_external_username external_username with
    | Some name => [(name, false)]
    | None => []
    end in
  match fallback_username ≫= sanitize_external_username with
  | Some fallback =>
      if existsb (fun n => eq_ignore_ascii_case (fst n) fallback) profile_names
      then profile_names else profile_names ++ [(fallback, true)]
  | None => profile_names
  end.

Definition suffixed_name (profile_name : string) (suffix : Z) : string :=
  let suffix := pretty suffix in
  let max_base := (16 - str_len suffix)%nat in
  byte_prefix (Nat.min max_base (str_len profile_name)) profile_name +:+ suffix.

Section Service.
Context `{EN : Env} `{CB : CacheBackend} `{FC : ForgeCrypto} `{FA : ForgeApi} `{TS : TextSearch}.
Context `{FN : ForgeNumbers} `{TN : TextureNumbers} `{SE : SkinExterns} `{TX : TextureExterns}.
Context `{RC : RuntimeConfig} `{PP : PreviewPolicy} `{IC : ImageCodec} `{FS : FileSystem}.
Context `{BE : BanExterns} `{TM : TxnManager} {OS : ObjectStorage} `{PX : ProfileExterns}.

Definition ensure_profile_creation_not_banned (user_id : Z) : M AsterError.t unit :=
  let* now := utc_now in
  let* ban := BanRepo.find_effective_for_scope user_id MinecraftProfileManage now in
  match ban with
  | Some _ =>
      throw (AsterError.auth_forbidden_code AsterErrorCode.UserBanForbidden
               ("user is banned from " +:+ scope_as_str MinecraftProfileManage))
  | None => ret tt
  end.

Definition ensure_name_not_reserved_by_mojang (name : string) : M AsterError.t unit :=
  if negb (mojang_name_check_enabled policy) then ret tt
  else
    let* found := lookup_profile_name name in
    match found with
    | MojangNotFound => ret tt
    | MojangFound _ =>
        throw (profile_error AsterErrorCode.MinecraftProfileNameReservedByMojang
                 "profile name is already used by an official Minecraft account")
    end.

Definition profile_name_taken (name : string) (owner_user_id : Z)
  (exclude_profile_id : option Z) : M AsterError.t bool :=
  let* existing_profile := ProfileRepo.find_by_name name in
  if is_some_and existing_profile (fun p => negb (eqb (Some (profile_pk p)) exclude_profile_id))
  then ret true
  else
    let* existing_user := ProfileRows.find_by_username_case_insensitive name in
    ret (is_some_and existing_user (fun u => negb (user_pk u =? owner_user_id))).

Definition create_profile_with_uuid_in_connection_inner (input : CreateProfileInput)
  : M AsterError.t minecraft_profile :=
  do* ensure_profile_creation_not_banned (cp_user_id input) in
  do* (if negb (is_admin (cp_user_role input)) then
         let* existing_count := ProfileRepo.count_by_user (cp_user_id input) in
         when_ok (max_profiles_per_user policy <=? existing_count)
           (profile_error AsterErrorCode.MinecraftProfileLimitExceeded
              "profile limit reached for this user")
       else ret tt) in
  do* lift (validate_profile_name (cp_name input)) in
  do* lift (validate_reserved_profile_name (cp_name input)
              (cp_allow_reserved_linuxdo_name input)) in
  do* (if eqb (cp_source input) SourceLocal && cp_check_mojang_name input
       then ensure_name_not_reserved_by_mojang (cp_name input) else ret tt) in
  let* existing := ProfileRepo.find_by_uuid (cp_uuid input) in
  do* when_ok (is_some existing)
    (profile_error AsterErrorCode.MinecraftProfileUuidTaken "profile uuid already exists") in
  let* taken := profile_name_taken (cp_name input) (cp_user_id input) None in
  do* when_ok taken name_taken_error in
  ProfileRepo.create_with_source (cp_user_id input) (cp_uuid input) (cp_name input)
    (cp_source input) ModelDefault (uploadable_textures_value policy).

Definition create_profile_with_uuid_in_connection (user_id : Z) (user_role : UserRole)
  (uuid name : string) (source : MinecraftProfileSource) : M AsterError.t minecraft_profile :=
  create_profile_with_uuid_in_connection_inner
    (mkCreateProfile user_id user_role uuid name source false false).

(** [Uuid::new_v4().simple()] *)
Definition new_uuid : M AsterError.t string := fun w => (Ok (uuid_new_simple (step w)), tick w).

Definition create_profile_inner (user_id : Z) (user_role : UserRole) (name : string)
  (allow_reserved_linuxdo_name : bool) : M AsterError.t minecraft_profile :=
  let* uuid := new_uuid in
  create_profile_with_uuid_in_connection_inner
    (mkCreateProfile user_id user_role uuid name SourceLocal allow_reserved_linuxdo_name true).

Definition create_profile (user_id : Z) (user_role : UserRole) (name : string)
  : M AsterError.t minecraft_profile :=
  create_profile_inner user_id user_role name false.

Definition delete_profile_for_user (user_id : Z) (u : string)
  : M AsterError.t (option DeleteMinecraftProfileResult) :=
  do* ensure_user_not_banned user_id MinecraftProfileManage in
  let* profile := ProfileRepo.find_by_uuid_for_user u user_id in
  match profile with
  | None => ret None
  | Some profile =>
      do* when_ok (eqb (source profile) Microsoft)
        (AsterError.auth_forbidden_code AsterErrorCode.MinecraftProfileDeleteForbidden
           "official Minecraft profile cannot be deleted on this site") in
      let* _ := invalidate_token_cache_for_selected_profile (profile_pk profile) in
      let* deleted_textures :=
        map_err (fun error => AsterError.InternalError (TextureErrors.protocol_message error))
          (delete_all_textures_for_profile profile) in
      let* revoked_token_count := TokenRepo.revoke_all_for_selected_profile (profile_pk profile) in
      let* deleted := ProfileRows.delete_by_id (profile_pk profile) in
      ret (Some (mkDeleteProfile (default profile deleted) (length deleted_textures)
                   revoked_token_count))
  end.

(** [u64::try_from(rename_count).unwrap_or(0)] *)
Definition rename_count_u64 (p : minecraft_profile) : Z := Z.max 0 (rename_count p).

Definition rename_txn (profile : minecraft_profile) (new_name : string)
  : M AsterError.t RenameMinecraftProfileResult :=
  let* updated := ProfileRepo.update_name_by_id (profile_pk profile) new_name in
  let* updated := lift (ok_or (AsterError.RecordNotFound
                                 ("minecraft profile '" +:+ uuid profile +:+ "'")) updated) in
  let* count := TokenRepo.temporarily_invalidate_all_for_selected_profile (profile_pk profile) in
  ret (mkRenameProfile updated (profile_name profile) count).

Definition rename_profile (profile : minecraft_profile) (new_name : string)
  : M AsterError.t RenameMinecraftProfileResult :=
  do* lift (validate_profile_name new_name) in
  do* lift (validate_reserved_profile_name new_name false) in
  if eqb (profile_name profile) new_name then
    ret (mkRenameProfile profile (profile_name profile) 0)
  else
    do* when_ok (eqb (source profile) Microsoft)
      (profile_error AsterErrorCode.MinecraftProfileOfficialNameReadonly
         "official Minecraft profile name cannot be changed on this site") in
    do* when_ok (max_profile_renames policy <=? rename_count_u64 profile)
      (profile_error AsterErrorCode.MinecraftProfileRenameLimitExceeded
         "profile rename limit reached") in
    let* taken := profile_name_taken new_name (profile_user_id profile)
                    (Some (profile_pk profile)) in
    do* when_ok taken name_taken_error in
    let* token_hashes := invalidate_token_cache_for_selected_profile (profile_pk profile) in
    let* result := with_transaction (rename_txn profile new_name) in
    do* TokenCache.invalidate_tokens token_hashes in
    do* ProfileCache.invalidate_profile_name_summary (rp_old_name result) in
    do* ProfileCache.invalidate_profile_name_summary (profile_name (rp_profile result)) in
    ret result.

Definition rename_profile_for_user (user_id : Z) (u new_name : string)
  : M AsterError.t (option RenameMinecraftProfileResult) :=
  do* ensure_user_not_banned user_id MinecraftProfileManage in
  do* lift (validate_profile_name new_name) in
  do* lift (validate_reserved_profile_name new_name false) in
  let* profile := ProfileRepo.find_by_uuid_for_user u user_id in
  match profile with
  | None => ret None
  | Some profile =>
      let* result := rename_profile profile new_name in
      ret (Some result)
  end.

(** The first candidate that is allowed and free. *)
Fixpoint first_free_name (user_id : Z) (user_role : UserRole) (names : list (string * bool))
  (otherwise : M AsterError.t minecraft_profile) : M AsterError.t minecraft_profile :=
  match names with
  | [] => otherwise
  | (name, allow) :: names =>
      match validate_reserved_profile_name name allow with
      | Ok _ =>
          let* taken := profile_name_taken name user_id None in
          if negb taken then create_profile_inner user_id user_role name allow
          else first_free_name user_id user_role names otherwise
      | _ => first_free_name user_id user_role names otherwise
      end
  end.

(** The suffixes left to try; after the last one the candidate is created
    all the same, and refused there when it is taken. *)
Fixpoint suffix_loop (user_id : Z) (user_role : UserRole) (name : string) (allow : bool)
  (candidate : string) (suffixes : list Z) : M AsterError.t minecraft_profile :=
  match suffixes with
  | [] => create_profile_inner user_id user_role candidate allow
  | suffix :: suffixes =>
      let candidate := suffixed_name name suffix in
      let* taken := profile_name_taken candidate user_id None in
      if negb taken then create_profile_inner user_id user_role candidate allow
      else suffix_loop user_id user_role name allow candidate suffixes
  end.

Definition create_profile_for_external_auth (user_id : Z) (user_role : UserRole)
  (external_username : string) (fallback_username : option string)
  : M AsterError.t minecraft_profile :=
  let profile_names := external_profile_names external_username fallback_username in
  match profile_names with
  | [] => throw unconvertible_name_error
  | _ =>
      first_free_name user_id user_role profile_names
        (match last profile_names with
         | None => throw unconvertible_name_error
         | Some (profile_name, allow) =>
             suffix_loop user_id user_role profile_name allow profile_name (seqZ 1 99)
         end)
  end.
End Service.

(** ** Lookups *)
Section Lookup.
Context `{EN : Env} `{CB : CacheBackend} `{FC : ForgeCrypto} `{TX : TextureExterns}.
Context `{SE : SkinExterns} `{RC : RuntimeConfig}.

Abbreviation YM := (M Yggdrasil.YggdrasilError).

(** The names the cache answers, and the others. *)
Fixpoint cached_summaries (names : list string) (summaries : list YggdrasilProfile)
  (missed : list string) : YM (list YggdrasilProfile * list string) :=
  match names with
  | [] => ret (summaries, missed)
  | name :: names =>
      let* hit := ProfileCache.get_profile_name_summary name in
      match hit with
      | Some profile => cached_summaries names (summaries ++ [profile]) missed
      | None => cached_summaries names summaries (missed ++ [name])
      end
  end.

Fixpoint cache_summaries (profiles : list YggdrasilProfile) (summaries : list YggdrasilProfile)
  : YM (list YggdrasilProfile) :=
  match profiles with
  | [] => ret summaries
  | profile :: profiles =>
      do* ProfileCache.set_profile_name_summary profile in
      cache_summaries profiles (summaries ++ [profile])
  end.

Definition profiles_by_names (names : list string) : YM (list YggdrasilProfile) :=
  do* when_ok (100 <? length names)%nat (Yggdrasil.new Yggdrasil.TooManyProfilesRequested) in
  let* r := cached_summaries names [] [] in
  match snd r with
  | [] => ret (fst r)
  | missed_names =>
      let* profiles := ygg (ProfileRepo.list_by_names missed_names) in
      cache_summaries (List.map profile_summary profiles) (fst r)
  end.

Definition profile_by_uuid (u : string) (unsigned : bool) : YM (option YggdrasilProfile) :=
  let* profile := ygg (ProfileRepo.find_by_uuid u) in
  match profile with
  | None => ret None
  | Some profile =>
      let* answer := Properties.profile_with_properties profile (negb unsigned) in
      ret (Some answer)
  end.
End Lookup.

(** ** Official textures *)

Record MojangOfficialTexture : Type := mkOfficial {
  official_url : string;
  official_model : MinecraftTextureModel
}.

Record MojangOfficialTextures : Type := mkOfficials {
  official_skin : option MojangOfficialTexture;
  official_cape : option MojangOfficialTexture
}.

Record MojangSessionProfileProperty : Type := mkSessionProperty {
  sp_name : string;
  sp_value : string
}.

(** One exchange with the session server: the status, and the properties of
    the parsed body. *)
Record SessionHttp : Type := mkSessionHttp {
  session_success : bool;
  session_json : outcome string (list MojangSessionProfileProperty)
}.

Class SessionServer : Type := {
  session_client : nat -> option string;
  session_get : nat -> string -> outcome string SessionHttp
}.

Definition MOJANG_SESSION_SERVER_PROFILE_URL : string :=
  "https://sessionserver.mojang.com/session/minecraft/profile".

Definition as_str (v : Value) : option string :=
  match v with VString s => Some s | _ => None end.

Definition parse_official_texture_item (value : Value) : option MojangOfficialTexture :=
  match option_bind _ _ as_str (get_field "url" value) with
  | None => None
  | Some url =>
      let url := trim url in
      if is_empty url then None
      else
        let model :=
          option_bind _ _ as_str (option_bind _ _ (get_field "model") (get_field "metadata" value)) in
        Some (mkOfficial url
                (if is_some_and model (fun m => eq_ignore_ascii_case (trim m) "slim")
                 then Slim else ModelDefault))
  end.

Section Official.
Context `{EN : Env} `{CB : CacheBackend} `{FC : ForgeCrypto} `{FA : ForgeApi} `{TS : TextSearch}.
Context `{FN : ForgeNumbers} `{TN : TextureNumbers} `{SE : SkinExterns} `{TX : TextureExterns}.
Context `{RC : RuntimeConfig} `{PP : PreviewPolicy} `{IC : ImageCodec} `{FS : FileSystem}.
Context `{OT : OfficialTextures} `{BE : BanExterns} {OS : ObjectStorage} `{SS : SessionServer}.

Definition parse_official_textures_property (properties : list MojangSessionProfileProperty)
  : outcome AsterError.t MojangOfficialTextures :=
  match List.find (fun p => eqb (sp_name p) "textures") properties with
  | None => Ok (mkOfficials None None)
  | Some property =>
      match base64_decode (sp_value property) with
      | Panic m => Panic m
      | Err _ => Err mojang_lookup_failed_error
      | Ok decoded =>
          match json_from_slice decoded with
          | Panic m => Panic m
          | Err _ => Err mojang_lookup_failed_error
          | Ok payload =>
              let item (k : string) :=
                option_bind _ _ parse_official_texture_item
                  (option_bind _ _ (get_field k) (get_field "textures" payload)) in
              Ok (mkOfficials (item "SKIN")
                    (option_map (fun t => mkOfficial (official_url t) ModelDefault) (item "CAPE")))
          end
      end
  end.

Definition fetch_official_profile_textures (u : string) : M AsterError.t MojangOfficialTextures :=
  let url := MOJANG_SESSION_SERVER_PROFILE_URL +:+ "/" +:+ u +:+ "?unsigned=false" in
  do* (fun w => match session_client (step w) with
                | Some error => (Err (AsterError.InternalError ("build HTTP client: " +:+ error)), w)
                | None => (Ok tt, w)
                end) in
  let* response := (fun w =>
    (match session_get (step w) url with
     | Ok response => Ok response
     | Err _ => Err mojang_lookup_failed_error
     | Panic m => Panic m
     end, tick w)) in
  do* when_ok (negb (session_success response)) mojang_lookup_failed_error in
  let* body := lift (match session_json response with
                     | Ok body => Ok body
                     | Err _ => Err mojang_lookup_failed_error
                     | Panic m => Panic m
                     end) in
  lift (parse_official_textures_property body).

(** [.map_err(|error| AsterError::internal_error(error.protocol_message()))] *)
Definition internal {A} (c : M TextureErrors.TextureError A) : M AsterError.t A :=
  map_err (fun error => AsterError.InternalError (TextureErrors.protocol_message error)) c.

Definition sync_official_texture_slot (profile : minecraft_profile) (ty : MinecraftTextureType)
  (official : option MojangOfficialTexture) : M AsterError.t unit :=
  match official with
  | Some o =>
      internal (import_official_texture_to_profile profile ty (official_model o) (official_url o))
  | None =>
      let* _ := internal (delete_official_texture_for_profile_if_bound profile ty) in ret tt
  end.

Definition apply_official_texture_slot (profile : minecraft_profile) (ty : MinecraftTextureType)
  (official : option MojangOfficialTexture) : M AsterError.t unit :=
  match official with
  | Some o =>
      internal (apply_official_texture_to_profile profile ty (official_model o) (official_url o))
  | None => let* _ := internal (delete_texture_for_profile_unchecked profile ty) in ret tt
  end.

Definition refresh_official_profile_textures (profile : minecraft_profile)
  : M AsterError.t (list MinecraftTextureMetadata) :=
  do* when_ok (negb (eqb (source profile) Microsoft))
    (AsterError.auth_forbidden_code AsterErrorCode.MinecraftProfileOfficialNameReadonly
       "official texture refresh requires a Microsoft Minecraft profile") in
  let* officials := fetch_official_profile_textures (uuid profile) in
  do* sync_official_texture_slot profile Skin (official_skin officials) in
  do* sync_official_texture_slot profile Cape (official_cape officials) in
  texture_metadata_for_profile profile.

Definition apply_official_profile_textures (profile : minecraft_profile)
  : M AsterError.t (list MinecraftTextureMetadata) :=
  do* when_ok (negb (eqb (source profile) Microsoft))
    (AsterError.auth_forbidden_code AsterErrorCode.MinecraftProfileOfficialNameReadonly
       "official texture source requires a Microsoft Minecraft profile") in
  let* officials := fetch_official_profile_textures (uuid profile) in
  do* apply_official_texture_slot profile Skin (official_skin officials) in
  do* apply_official_texture_slot profile Cape (official_cape officials) in
  texture_metadata_for_profile profile.
End Official.

(** ** Metadata *)

Record YggdrasilMetaLinks : Type := mkMetaLinks { homepage : string; register : option string }.

Record YggdrasilMeta : Type := mkMeta {
  meta_server_name : string;
  implementation_name : string;
  implementation_version : string;
  meta_links_of : option YggdrasilMetaLinks;
  feature_non_email_login : bool;
  feature_enable_profile_key : bool;
  feature_enable_mojang_anti_features : bool;
  feature_username_check : bool
}.

Record YggdrasilMetaResp : Type := mkMetaResp {
  meta : YggdrasilMeta;
  meta_skin_domains : list string;
  signature_publickey : string
}.

(** The build's version, the public half of an RSA key, the generation of a
    PKCS#1 key pair, and the text of a date. *)
Class ServiceExterns `{TX : TextureExterns} : Type := {
  VERSION : string;
  to_public_key_pem : PrivateKey -> outcome string string;
  rsa_generate : nat -> Z -> outcome string (outcome string string * outcome string string);
  rfc3339_secs : DateTimeUtc -> string
}.

Section Metadata.
Context `{TX : TextureExterns} `{SX : !ServiceExterns}.

Definition public_key_pem (private_key : PrivateKey) : outcome AsterError.t string :=
  match to_public_key_pem private_key with
  | Ok pem => Ok pem
  | Err error =>
      Err (AsterError.ConfigError ("failed to derive yggdrasil signature public key: " +:+ error))
  | Panic m => Panic m
  end.

Definition signature_public_key_of (policy : RuntimeYggdrasilPolicy)
  : outcome AsterError.t string :=
  match configured_private_key policy with
  | Ok (Some private_key) => public_key_pem private_key
  | Ok None => Ok (trim (signature_public_key policy))
  | Err e => Err e
  | Panic m => Panic m
  end.

Definition public_key_pem_from_private_key_pem (private_key_pem : string)
  : outcome AsterError.t string :=
  match parse_private_key_pem (trim private_key_pem) with
  | Ok private_key => public_key_pem private_key
  | Err e => Err e
  | Panic m => Panic m
  end.

Context `{FG : ForgeConfig} `{GS : ConfigStore} `{RC : RuntimeConfig}.

Definition meta_links : option YggdrasilMetaLinks :=
  match public_site_url config_get with
  | None => None
  | Some public_site_url =>
      Some (mkMetaLinks (join_origin_and_path public_site_url "/")
              (if allow_user_registration (auth_policy config_get)
               then Some (join_origin_and_path public_site_url "/register") else None))
  end.

Definition metadata : outcome AsterError.t YggdrasilMetaResp :=
  let answer (signature_publickey : string) :=
    Ok (mkMetaResp
          (mkMeta (server_name policy) "AsterYggdrasil" VERSION meta_links
             (allow_profile_name_login policy) (enable_profile_key policy)
             (enable_mojang_anti_features policy) true)
          (skin_domains policy) signature_publickey) in
  match signature_public_key_of policy with
  | Ok key => answer key
  | Err _ => answer (signature_public_key policy)
  | Panic m => Panic m
  end.
End Metadata.

(** ** Minecraft services *)

Inductive MinecraftServicesPreferenceState : Type := PreferenceEnabled | PreferenceDisabled.

Record MinecraftServicesKeyPair : Type := mkKeyPair { private_key_of : string; public_key_of : string }.

Record MinecraftServicesCertificateResp : Type := mkCertificate {
  key_pair : MinecraftServicesKeyPair;
  public_key_signature : string;
  public_key_signature_v2 : string;
  cert_expires_at : string;
  refreshed_after : string
}.

(** A privilege is its [enabled] flag. *)
Record MinecraftServicesPrivileges : Type := mkPrivileges {
  online_chat : bool;
  multiplayer_server : bool;
  multiplayer_realms : bool;
  telemetry : bool;
  optional_telemetry : bool
}.

Record MinecraftServicesPlayerAttributesResp : Type := mkAttributes {
  privileges : MinecraftServicesPrivileges;
  profanity_filter_on : bool;
  friends : MinecraftServicesPreferenceState;
  accept_invites : MinecraftServicesPreferenceState;
  text_communication : MinecraftServicesPreferenceState;
  multiplayer_banned : bool
}.

Definition PROFILE_KEY_BITS : Z := 2048.
Definition DUMMY_PUBLIC_KEY_SIGNATURE : string := "AA==".

Section Services.
Context `{EN : Env} `{CB : CacheBackend} `{BE : BanExterns} `{FC : ForgeCrypto}.
Context `{TX : TextureExterns} `{SX : !ServiceExterns} `{CS : ChronoSeconds}.

Abbreviation YM := (M Yggdrasil.YggdrasilError).

Definition generate_profile_key_pair : M AsterError.t MinecraftServicesKeyPair := fun w =>
  (match rsa_generate (step w) PROFILE_KEY_BITS with
   | Ok (Ok private_key, Ok public_key) => Ok (mkKeyPair private_key public_key)
   | Ok (Ok _, Err error) =>
       Err (AsterError.InternalError
              ("failed to encode minecraft services public key: " +:+ error))
   | Ok (Err error, _) =>
       Err (AsterError.InternalError
              ("failed to encode minecraft services private key: " +:+ error))
   | Err error =>
       Err (AsterError.InternalError
              ("failed to generate minecraft services profile key: " +:+ error))
   | Ok (Panic m, _) | Ok (_, Panic m) | Panic m => Panic m
   end, tick w).

Definition profile_key_certificate (access_token : string)
  : YM MinecraftServicesCertificateResp :=
  let* token := active_token_for_protocol access_token in
  do* when_ok (is_none (selected_profile_id token)) invalid_token in
  let* key_pair := ygg generate_profile_key_pair in
  let* now := utc_now in
  let* expires_at := add_duration now (seconds (48 * 3600)) in
  let* refreshed_after := add_duration now (seconds (36 * 3600)) in
  ret (mkCertificate key_pair DUMMY_PUBLIC_KEY_SIGNATURE DUMMY_PUBLIC_KEY_SIGNATURE
         (rfc3339_secs expires_at) (rfc3339_secs refreshed_after)).

Definition validate_minecraft_services_token (access_token : string) : YM yggdrasil_token :=
  active_token_for_protocol access_token.

Definition privileges_for_user (user_id : Z) : YM MinecraftServicesPrivileges :=
  let* banned := ygg (is_user_banned user_id YggdrasilJoin) in
  let multiplayer_enabled := negb banned in
  ret (mkPrivileges true multiplayer_enabled multiplayer_enabled true true).

Definition minecraft_services_privileges (access_token : string)
  : YM MinecraftServicesPrivileges :=
  let* token := validate_minecraft_services_token access_token in
  privileges_for_user (token_user_id token).

Definition minecraft_services_player_attributes (access_token : string)
  : YM MinecraftServicesPlayerAttributesResp :=
  let* token := validate_minecraft_services_token access_token in
  let* join_banned := ygg (is_user_banned (token_user_id token) YggdrasilJoin) in
  let* privileges := privileges_for_user (token_user_id token) in
  ret (mkAttributes privileges false PreferenceDisabled PreferenceDisabled PreferenceEnabled
         join_banned).

Definition minecraft_services_privacy_blocklist (access_token : string) : YM (list string) :=
  do* validate_minecraft_services_token access_token in
  ret [].
End Services.
