(* ===== verification/ProfileProofs.v ===== *)
(** * The profile table over every history

    [profiles_wf]: UUIDs and normalized names are unique, names are valid and
    normalized as they are stored.  Every request of Profiles.v keeps it.
    Before that, what [sanitize_external_username] makes of a foreign name:
    every name an external login tries can be a profile's name. *)

From Stdlib Require Import ZArith List Bool Lia Ascii.
From stdpp Require Import base decidable list strings pretty relations.
From S2P Require Import Prelude Text Errors Types AuditLog World Logic Repos Bans Tokens Auth ForwardTextures Sessions ProfileTextures AuthConfig Accounts WebSessions AccountSpec Invitations Tracks ObjectStorage TextureRepo TextureProcessing TextureService TextureWardrobe BlobProofs Profiles.

Local Open Scope nat_scope.

Definition valid_profile_name (name : string) : Prop := validate_profile_name name = Ok tt.

Lemma valid_profile_name_iff name :
  valid_profile_name name <->
  3 <= str_len name <= 16 /\ forall b, In b (bytes name) -> is_name_byte b = true.
Proof.
  unfold valid_profile_name, validate_profile_name.
  rewrite <- (forallb_forall is_name_byte (bytes name)).
  destruct (Nat.leb_spec 3 (str_len name)), (Nat.leb_spec (str_len name) 16),
    (forallb is_name_byte (bytes name)); cbn;
    split; first [done|by intros [? ?]|by intros [[? ?] ?]; lia|intros; split; [lia|done]].
Qed.

(** ** Trimming *)

Lemma in_drop_leading a l x : In x (drop_leading a l) -> In x l.
Proof. induction l as [|b l IH]; cbn; [done|]. destruct (eqb a b); auto. Qed.

Lemma length_drop_leading a l : length (drop_leading a l) <= length l.
Proof. induction l as [|b l IH]; cbn; [done|]. destruct (eqb a b); cbn; lia. Qed.

Lemma drop_leading_idem a l : drop_leading a (drop_leading a l) = drop_leading a l.
Proof.
  induction l as [|b l IH]; cbn; [done|]. destruct (eqb a b) eqn:E; [done|]. cbn. by rewrite E.
Qed.

(** The front does not begin with [a], neither does the back. *)
Definition trimmed (a : ascii) (l : list ascii) : Prop :=
  drop_leading a l = l /\ drop_leading a (List.rev l) = List.rev l.

Lemma drop_leading_app a l1 l2 :
  l1 <> [] -> drop_leading a l1 = l1 -> drop_leading a (l1 ++ l2) = l1 ++ l2.
Proof.
  destruct l1 as [|b l1]; [done|]. cbn. intros _. destruct (eqb a b) eqn:E; [|done].
  intros H. pose proof (length_drop_leading a l1) as Hl. rewrite H in Hl. cbn in Hl. lia.
Qed.

Lemma drop_leading_repeat a n l : drop_leading a (List.repeat a n ++ l) = drop_leading a l.
Proof. induction n as [|n IH]; cbn; [done|]. by rewrite eqb_refl. Qed.

Lemma repeat_snoc {A} (a : A) n : List.repeat a (S n) = List.repeat a n ++ [a].
Proof. induction n as [|n IH]; [done|]. cbn in *. by rewrite IH. Qed.

(** What is left at the end begins where the whole began. *)
Lemma drop_back_front a l :
  drop_leading a l = l ->
  drop_leading a (List.rev (drop_leading a (List.rev l))) = List.rev (drop_leading a (List.rev l)).
Proof.
  intros H. assert (exists n, l = List.rev (drop_leading a (List.rev l)) ++ List.repeat a n) as [n E].
  { clear H. induction l as [|b l IH] using rev_ind; [by exists 0|]. rewrite List.rev_app_distr. cbn.
    destruct (eqb a b) eqn:Eb.
    - apply eqb_true in Eb as <-. destruct IH as [n IH]. exists (S n).
      rewrite repeat_snoc, app_assoc. by f_equal.
    - exists 0. cbn. by rewrite app_nil_r, List.rev_involutive. }
  set (m := List.rev (drop_leading a (List.rev l))) in *. clearbody m. rewrite E in H.
  destruct m as [|b m]; [done|]. cbn in *. destruct (eqb a b) eqn:Eb; [|done].
  pose proof (length_drop_leading a (m ++ List.repeat a n)) as Hl. rewrite H in Hl. cbn in Hl. lia.
Qed.

Lemma trim_matches_trimmed a s : trimmed a (bytes (trim_matches a s)).
Proof.
  unfold trim_matches, trim_start_matches, trim_end_matches, trimmed. rewrite !bytes_of_bytes.
  split; [apply drop_back_front, drop_leading_idem|].
  rewrite List.rev_involutive. apply drop_leading_idem.
Qed.

Lemma in_trim_matches a s x : In x (bytes (trim_matches a s)) -> In x (bytes s).
Proof.
  unfold trim_matches, trim_start_matches, trim_end_matches. rewrite !bytes_of_bytes.
  by intros H%in_rev%in_drop_leading%in_rev%in_drop_leading.
Qed.

Lemma length_trim_matches a s : str_len (trim_matches a s) <= str_len s.
Proof.
  unfold str_len. rewrite <- !length_bytes.
  unfold trim_matches, trim_start_matches, trim_end_matches. rewrite !bytes_of_bytes, length_rev.
  etrans; [apply length_drop_leading|]. rewrite length_rev. apply length_drop_leading.
Qed.

(** Trailing padding goes. *)
Lemma trim_matches_pad a l n :
  l <> [] -> trimmed a l -> trim_matches a (of_bytes (l ++ List.repeat a n)) = of_bytes l.
Proof.
  intros Hn [Hf Hb]. unfold trim_matches, trim_start_matches, trim_end_matches.
  rewrite !bytes_of_bytes, drop_leading_app by done.
  rewrite List.rev_app_distr. assert (List.rev (List.repeat a n) = List.repeat a n) as ->.
  { clear. induction n as [|n IH]; [done|]. rewrite repeat_snoc at 2. cbn. by rewrite IH. }
  by rewrite drop_leading_repeat, Hb, List.rev_involutive.
Qed.

(** ** Sanitizing *)

Lemma sanitize_byte_name b c : sanitize_byte b = Some c -> is_name_byte c = true.
Proof.
  unfold sanitize_byte, is_name_byte. destruct (is_ascii_alphanumeric b) eqn:E.
  - intros [= <-]. by rewrite E.
  - destruct (mem b _); [|done]. by intros [= <-].
Qed.

Lemma sanitize_byte_fixed b : is_name_byte b = true -> sanitize_byte b = Some b.
Proof.
  unfold sanitize_byte, is_name_byte. destruct (is_ascii_alphanumeric b); [done|].
  cbn [orb]. by intros ->%eqb_true.
Qed.

Lemma omap_fixed l : (forall b, In b l -> is_name_byte b = true) -> omap sanitize_byte l = l.
Proof.
  induction l as [|b l IH]; intros H; [done|]. cbn. rewrite sanitize_byte_fixed by (apply H; by left).
  f_equal. apply IH. intros c Hc. apply H. by right.
Qed.

Lemma in_byte_prefix_bytes n s a : In a (bytes (byte_prefix n s)) -> In a (bytes s).
Proof.
  unfold byte_prefix. rewrite bytes_of_bytes. intros H.
  rewrite <- (firstn_skipn n). apply in_or_app. by left.
Qed.

(** The name before padding. *)
Lemma sanitize_some username name :
  sanitize_external_username username = Some name ->
  exists core, name = pad_name core /\ 0 < str_len core <= 16 /\ trimmed "_" (bytes core) /\
    (forall b, In b (bytes core) -> is_name_byte b = true) /\
    existsb is_ascii_alphanumeric (bytes name) = true.
Proof.
  unfold sanitize_external_username. set (s := trim_matches _ (of_bytes _)). cbv zeta.
  set (core := if 16 <? str_len s then _ else s). destruct (is_empty core) eqn:Ee; [done|].
  destruct (existsb _ _) eqn:Ex; [|done]. intros [= <-].
  assert (Hs : trimmed "_" (bytes s) /\ forall b, In b (bytes s) -> is_name_byte b = true).
  { split; [apply trim_matches_trimmed|]. intros b Hb%in_trim_matches.
    rewrite bytes_of_bytes in Hb. apply list_elem_of_In, list_elem_of_omap in Hb as (c & _ & Hc).
    by eapply sanitize_byte_name. }
  exists core. assert (0 < str_len core).
  { destruct core; [done|]. cbn. lia. }
  subst core. destruct (Nat.ltb_spec 16 (str_len s)).
  - split_and!; [done|done| |apply trim_matches_trimmed| |done].
    + etrans; [apply length_trim_matches|]. unfold str_len in *. rewrite length_byte_prefix; lia.
    + intros b Hb%in_trim_matches%in_byte_prefix_bytes. by apply Hs.
  - split_and!; [done|done|lia|apply Hs|apply Hs|done].
Qed.

Lemma pad_name_bytes core :
  bytes (pad_name core) = bytes core ++ List.repeat "_"%char (3 - str_len core).
Proof.
  unfold pad_name. rewrite <- (of_bytes_bytes core) at 1. by rewrite <- of_bytes_app, bytes_of_bytes.
Qed.

Lemma length_pad_name core : str_len (pad_name core) = Nat.max 3 (str_len core).
Proof.
  unfold str_len. rewrite <- !length_bytes, pad_name_bytes, length_app, repeat_length.
  unfold str_len. rewrite <- length_bytes. lia.
Qed.

Lemma sanitized_valid username name :
  sanitize_external_username username = Some name -> valid_profile_name name.
Proof.
  intros (core & -> & Hl & _ & Hb & _)%sanitize_some. apply valid_profile_name_iff.
  rewrite length_pad_name. split; [lia|]. intros b. rewrite pad_name_bytes.
  intros [Hin|Hin%repeat_spec]%in_app_or; [by apply Hb|by subst b].
Qed.

Lemma is_empty_false s : 0 < str_len s -> is_empty s = false.
Proof. destruct s; [cbn; lia|done]. Qed.

(** A sanitized name is its own sanitized form. *)
Lemma sanitize_idem username name :
  sanitize_external_username username = Some name ->
  sanitize_external_username name = Some name.
Proof.
  intros H. pose proof (sanitized_valid _ _ H) as [_ Hv]%valid_profile_name_iff.
  apply sanitize_some in H as (core & -> & Hl & Ht & Hb & Hx).
  unfold sanitize_external_username. rewrite omap_fixed by done. rewrite pad_name_bytes.
  assert (bytes core <> []) as Hne.
  { intros E. rewrite <- (of_bytes_bytes core), E in Hl. cbn in Hl. lia. }
  rewrite trim_matches_pad by done. rewrite of_bytes_bytes.
  destruct (Nat.ltb_spec 16 (str_len core)); [lia|]. rewrite is_empty_false by lia. by rewrite Hx.
Qed.

(** ** Suffixes *)

Definition suffix_ok (n : Z) : bool :=
  (1 <=? str_len (pretty n)) && (str_len (pretty n) <=? 2)
  && forallb is_name_byte (bytes (pretty n)).

Lemma suffixes_ok n : (1 <= n <= 99)%Z -> suffix_ok n = true.
Proof.
  intros H. assert (forallb suffix_ok (seqZ 1 99) = true) as Ha by by vm_compute.
  rewrite forallb_forall in Ha. apply Ha, list_elem_of_In, elem_of_seqZ. lia.
Qed.

Lemma suffixed_name_valid name n :
  (1 <= n <= 99)%Z -> valid_profile_name name -> valid_profile_name (suffixed_name name n).
Proof.
  intros Hs%suffixes_ok [Hl Hb]%valid_profile_name_iff. unfold suffix_ok in Hs.
  apply andb_true_iff in Hs as [[H1%Nat.leb_le H2%Nat.leb_le]%andb_true_iff H3].
  rewrite forallb_forall in H3. apply valid_profile_name_iff. unfold suffixed_name.
  set (d := pretty n) in *. set (k := Nat.min (16 - str_len d) (str_len name)).
  assert (bytes (byte_prefix k name +:+ d) = firstn k (bytes name) ++ bytes d) as E.
  { unfold byte_prefix. rewrite <- (of_bytes_bytes d) at 1. by rewrite <- of_bytes_app, bytes_of_bytes. }
  split.
  - unfold str_len in *. rewrite <- (length_bytes (_ +:+ _)), E, length_app, length_firstn, !length_bytes.
    subst k. lia.
  - rewrite E. intros b [Hi|Hi]%in_app_or; [|by apply H3]. apply Hb.
    rewrite <- (firstn_skipn k). apply in_or_app. by left.
Qed.

(** The cut falls between two characters: every byte is ASCII. *)
Lemma name_byte_boundary name i :
  valid_profile_name name -> i <= str_len name -> is_char_boundary name i = true.
Proof.
  intros [_ Hb]%valid_profile_name_iff Hi. unfold is_char_boundary.
  destruct (i =? 0); [done|]. destruct (bytes name !! i) as [a|] eqn:E.
  - apply list_elem_of_lookup_2, list_elem_of_In, Hb in E.
    unfold is_name_byte, is_ascii_alphanumeric, is_continuation in *.
    destruct (Nat.leb_spec 128 (code a)) as [Hge|]; [|done]. exfalso.
    apply orb_true_iff in E as [E|E]; [|rewrite eqb_true in E; rewrite E in Hge; change (128 <= 95) in Hge; lia].
    repeat (apply orb_true_iff in E as [E|E]);
      apply andb_true_iff in E as [_ E%Nat.leb_le]; lia.
  - apply lookup_ge_None in E. rewrite length_bytes in E. unfold str_len in Hi.
    apply Nat.eqb_eq. lia.
Qed.

Local Open Scope Z_scope.

Lemma update_where_ext_in {A} (p : A -> bool) (f g : A -> A) l :
  (forall x, In x l -> p x = true -> f x = g x) -> update_where p f l = update_where p g l.
Proof.
  intros H. apply map_ext_in. intros x Hx. destruct (p x) eqn:E; auto.
Qed.

(** ** The invariant *)

Record profiles_wf (t : Table minecraft_profile) : Prop := mkProfilesWf {
  profile_keys : List.NoDup (List.map profile_pk (rows t));
  profile_keys_below p : In p (rows t) -> profile_pk p < next_pk t;
  profile_uuids : List.NoDup (List.map uuid (rows t));
  profile_names : List.NoDup (List.map normalized_name (rows t));
  profile_name_ok p : In p (rows t) ->
    valid_profile_name (profile_name p) /\
    normalized_name p = to_ascii_lowercase (profile_name p)
}.

Lemma profiles_wf_insert (t : Table minecraft_profile) (mk : Z -> minecraft_profile) r t' :
  (forall id, profile_pk (mk id) = id) ->
  (forall id, valid_profile_name (profile_name (mk id)) /\
              normalized_name (mk id) = to_ascii_lowercase (profile_name (mk id))) ->
  profiles_wf t -> insert_row ProfileRepo.profile_conflict mk t = Some (r, t') -> profiles_wf t'.
Proof.
  intros Hpk Hn [H1 H2 H3 H4 H5]. unfold insert_row.
  destruct (existsb _ _) eqn:Ex; [done|]. intros [= <- <-].
  assert (Hfree : forall p, In p (rows t) ->
    uuid p <> uuid (mk (next_pk t)) /\ normalized_name p <> normalized_name (mk (next_pk t))).
  { intros p Hp. enough (ProfileRepo.profile_conflict (mk (next_pk t)) p = false) as E.
    - apply orb_false_iff in E as [E1 E2]. rewrite eqb_false in E1, E2. split; congruence.
    - destruct (ProfileRepo.profile_conflict _ p) eqn:E; [|done].
      assert (existsb (ProfileRepo.profile_conflict (mk (next_pk t))) (rows t) = true)
        by (apply existsb_exists; eauto). congruence. }
  split; cbn; rewrite ?List.map_app; cbn.
  - apply NoDup_app_singleton; [done|]. rewrite Hpk. intros (p & E & Hp)%in_map_iff.
    apply H2 in Hp. lia.
  - intros p [Hp%H2|[<-|[]]]%in_app_or; rewrite ?Hpk; lia.
  - apply NoDup_app_singleton; [done|]. intros (p & E & Hp)%in_map_iff. by apply Hfree in Hp as [? _].
  - apply NoDup_app_singleton; [done|]. intros (p & E & Hp)%in_map_iff. by apply Hfree in Hp as [_ ?].
  - intros p [Hp|[<-|[]]]%in_app_or; auto.
Qed.

Lemma profiles_wf_delete p (t : Table minecraft_profile) :
  profiles_wf t -> profiles_wf (with_rows (delete_where p (rows t)) t).
Proof.
  intros [H1 H2 H3 H4 H5]. split; cbn; try by apply NoDup_map_rows_where.
  - intros q [Hq _]%in_delete_where. auto.
  - intros q [Hq _]%in_delete_where. auto.
Qed.

(** A row keeps its key and takes a name no other row has. *)
Lemma wf_rename (t : Table minecraft_profile) id name f :
  valid_profile_name name ->
  (forall p, profile_pk (f p) = profile_pk p /\ uuid (f p) = uuid p /\ profile_name (f p) = name /\
             normalized_name (f p) = to_ascii_lowercase name) ->
  existsb (fun q => negb (profile_pk q =? id) && eqb (normalized_name q) (to_ascii_lowercase name))
    (rows t) = false ->
  profiles_wf t -> profiles_wf (with_rows (update_where (fun p => profile_pk p =? id) f (rows t)) t).
Proof.
  intros Hv Hf Hfree [H1 H2 H3 H4 H5]. split; cbn.
  - rewrite update_where_map; [done|]. intros p. apply Hf.
  - intros q (p & Hp & ->)%in_update_where. destruct (_ =? id); [|auto].
    destruct (Hf p) as (-> & _). auto.
  - rewrite update_where_map; [done|]. intros p. apply Hf.
  - destruct (find_row (fun p => profile_pk p =? id) (rows t)) as [p|] eqn:E.
    + apply find_row_some in E as [Hp Hpk%Z.eqb_eq].
      eapply NoDup_map_update_one with (b := normalized_name p) (c := to_ascii_lowercase name); auto.
      * intros q Hq Hid%Z.eqb_eq. f_equal.
        eapply (NoDup_map_inj_in profile_pk); [exact H1|done|done|lia].
      * intros q. apply Hf.
      * intros q Hq En. left. destruct (profile_pk q =? id) eqn:Eq; [done|].
        assert (existsb (fun q => negb (profile_pk q =? id)
                 && eqb (normalized_name q) (to_ascii_lowercase name)) (rows t) = true); [|congruence].
        apply existsb_exists. exists q. split; [done|]. rewrite Eq. cbn. by rewrite eqb_true.
    + rewrite find_row_none in E. rewrite update_where_id; [done|]. auto.
  - intros q (p & Hp & ->)%in_update_where. destruct (_ =? id); [|auto].
    destruct (Hf p) as (_ & _ & -> & ->). auto.
Qed.

(** ** Tracking it *)

(** The profiles without the date of their last change. *)
Definition undated (t : Table minecraft_profile) : list minecraft_profile :=
  List.map (ProfileRepo.touched 0) (rows t).

Lemma undated_column {B} (g : minecraft_profile -> B) t :
  (forall now p, g (ProfileRepo.touched now p) = g p) ->
  List.map g (undated t) = List.map g (rows t).
Proof. intros H. unfold undated. rewrite List.map_map. apply List.map_ext. auto. Qed.

Lemma in_undated t p : In p (rows t) -> In (ProfileRepo.touched 0 p) (undated t).
Proof. apply in_map. Qed.

(** What the texture services leave of profiles and tokens: only dates move. *)
Definition profiles_kept (d d' : Db) : Prop :=
  next_pk (profiles d') = next_pk (profiles d) /\ undated (profiles d') = undated (profiles d) /\
  tokens d' = tokens d.

Lemma wf_undated t t' :
  next_pk t' = next_pk t -> undated t' = undated t -> profiles_wf t -> profiles_wf t'.
Proof.
  intros En Eu [H1 H2 H3 H4 H5].
  assert (Hin : forall p, In p (rows t') -> exists q, In q (rows t) /\
    profile_pk q = profile_pk p /\ profile_name q = profile_name p /\
    normalized_name q = normalized_name p).
  { intros p Hp%in_undated. rewrite Eu in Hp. apply in_map_iff in Hp as (q & E & Hq).
    exists q. split; [done|]. by injection E as -> _ _ -> -> _ _ _ _ _. }
  assert (Hcol : forall B (g : minecraft_profile -> B),
    (forall now p, g (ProfileRepo.touched now p) = g p) ->
    List.map g (rows t') = List.map g (rows t)).
  { intros B g Hg. rewrite <- !undated_column by done. by rewrite Eu. }
  split; rewrite ?En, ?Hcol by done; try done.
  - intros p (q & Hq & <- & _)%Hin. auto.
  - intros p (q & Hq & _ & <- & <-)%Hin. auto.
Qed.

Definition wf_kept (d d' : Db) : Prop := profiles_wf (profiles d) -> profiles_wf (profiles d').

#[export] Instance profiles_kept_preorder : PreOrder profiles_kept.
Proof. split; [by intros d|]. unfold profiles_kept. by intros d1 d2 d3 (-> & -> & ->) (-> & -> & ->). Qed.
#[export] Instance wf_kept_preorder : PreOrder wf_kept.
Proof. split; unfold wf_kept; [by intros d|]. auto. Qed.

(** A relation the statements of the texture services stay within. *)
Class TextureFrame (R : relation Db) : Prop := {
  frame_preorder :: PreOrder R;
  frame_bindings t d : R d (set_profile_textures t d);
  frame_texture id d : R d (TextureRepo.drop_texture id d);
  frame_touch id now d :
    R d (set_profiles (with_rows (update_where (fun p => profile_pk p =? id)
           (ProfileRepo.touched now) (rows (profiles d))) (profiles d)) d)
}.

#[export] Instance profiles_kept_frame : TextureFrame profiles_kept.
Proof.
  split; [apply _|done|done|]. intros id now d. split_and!; [done| |done].
  unfold undated. cbn. by apply update_where_map.
Qed.

Section Tracking.
Context `{EN : Env} `{CB : CacheBackend} `{FC : ForgeCrypto} `{FA : ForgeApi} `{TS : TextSearch}.
Context `{FN : ForgeNumbers} `{TN : TextureNumbers} `{SE : SkinExterns} `{TX : TextureExterns}.
Context `{RC : RuntimeConfig} `{PP : PreviewPolicy} `{IC : ImageCodec} `{FS : FileSystem}.
Context `{BE : BanExterns} `{TM : !TxnManager} `{TL : !TxnLaws TM} {OS : ObjectStorage}.
Context `{OL : !ObjectStorageLaws OS} `{PX : ProfileExterns}.

Lemma tracks_wf {E A} (c : M E A) : Tracks profiles_kept c -> Tracks wf_kept c.
Proof. intros H w Hwf. destruct (H w) as (Hn & Hu & _). by eapply wf_undated. Qed.

(** A guard whose answer the rest relies on. *)
Lemma tracks_checked {R : relation Db} `{!PreOrder R} {E A B} (o : outcome E A) (k : A -> M E B) :
  (forall a, o = Ok a -> Tracks R (k a)) -> Tracks R (bind (lift o) k).
Proof.
  intros H w. unfold bind, lift. destruct o as [a|e|m]; cbn; [by apply H|done..].
Qed.

#[export] Instance reads_new_uuid : Reads new_uuid.
Proof. intros w. apply same_tick. Qed.
#[export] Instance reads_lookup name : Reads (lookup_profile_name name).
Proof.
  unfold lookup_profile_name. cbv zeta. apply reads_bind.
  - intros w. destruct (mojang_client _); apply same_refl.
  - intros _. apply reads_bind; [|apply _]. intros w. apply same_tick.
Qed.
#[export] Instance reads_taken name owner exclude : Reads (profile_name_taken name owner exclude).
Proof.
  unfold profile_name_taken, ProfileRepo.find_by_name, ProfileRows.find_by_username_case_insensitive.
  apply _.
Qed.
#[export] Instance reads_creation_banned u : Reads (ensure_profile_creation_not_banned u).
Proof. unfold ensure_profile_creation_not_banned, BanRepo.find_effective_for_scope. apply _. Qed.
#[export] Instance reads_reserved name : Reads (ensure_name_not_reserved_by_mojang name).
Proof. unfold ensure_name_not_reserved_by_mojang. apply _. Qed.
#[export] Instance reads_profile_uuid u : Reads (ProfileRepo.find_by_uuid u).
Proof. unfold ProfileRepo.find_by_uuid. apply _. Qed.
#[export] Instance reads_profile_for_user u i : Reads (ProfileRepo.find_by_uuid_for_user u i).
Proof. unfold ProfileRepo.find_by_uuid_for_user. apply _. Qed.
#[export] Instance reads_count_profiles u : Reads (ProfileRepo.count_by_user u).
Proof. unfold ProfileRepo.count_by_user. apply _. Qed.
#[export] Instance reads_user_banned u s : Reads (ensure_user_not_banned u s).
Proof.
  unfold ensure_user_not_banned, active_user_ban_for_scope, BanRepo.find_effective_for_scope.
  apply _.
Qed.

Lemma create_with_source_wf u uuid name source model up :
  valid_profile_name name ->
  Tracks wf_kept (ProfileRepo.create_with_source u uuid name source model up).
Proof.
  intros Hv. unfold ProfileRepo.create_with_source, db_insert.
  apply tracks_bind; [apply _|intros now].
  apply tracks_db_exec. intros d a d' Hd Hwf. destruct (insert_row _ _ _) as [[r t]|] eqn:E; [|done].
  injection Hd as _ <-. cbn. by eapply profiles_wf_insert in E.
Qed.

Lemma create_inner_wf input :
  Tracks wf_kept (create_profile_with_uuid_in_connection_inner input).
Proof.
  unfold create_profile_with_uuid_in_connection_inner.
  do 2 (apply tracks_bind; [apply _|intros _]).
  apply tracks_checked. intros [] Hv. apply tracks_checked. intros [] _.
  apply tracks_bind; [apply _|intros _].
  apply tracks_bind; [apply _|intros found]. apply tracks_bind; [apply _|intros _].
  apply tracks_bind; [apply _|intros taken]. apply tracks_bind; [apply _|intros _].
  by apply create_with_source_wf.
Qed.

#[export] Instance create_profile_inner_wf u role name allow :
  Tracks wf_kept (create_profile_inner u role name allow).
Proof. unfold create_profile_inner. apply tracks_bind; [apply _|intros uuid]. apply create_inner_wf. Qed.

#[export] Instance first_free_wf u role names otherwise :
  Tracks wf_kept otherwise -> Tracks wf_kept (first_free_name u role names otherwise).
Proof.
  intros Ho. induction names as [|[name allow] names IH]; cbn; [done|].
  destruct (validate_reserved_profile_name name allow); [|done..]. solve_tracks.
Qed.
#[export] Instance suffix_loop_wf u role name allow candidate suffixes :
  Tracks wf_kept (suffix_loop u role name allow candidate suffixes).
Proof.
  revert candidate. induction suffixes as [|s suffixes IH]; intros candidate; cbn; solve_tracks.
Qed.
#[export] Instance external_profile_wf u role name fallback :
  Tracks wf_kept (create_profile_for_external_auth u role name fallback).
Proof.
  unfold create_profile_for_external_auth. cbv zeta. destruct (external_profile_names _ _); [apply _|].
  apply first_free_wf. solve_tracks.
Qed.

Lemma update_name_wf id name :
  valid_profile_name name -> Tracks wf_kept (ProfileRepo.update_name_by_id id name).
Proof.
  intros Hv. unfold ProfileRepo.update_name_by_id. apply tracks_bind; [apply _|intros [e|]]; [|apply _].
  apply tracks_bind; [apply _|intros now]. apply tracks_bind; [|intros; apply _].
  apply tracks_db_exec. intros d a d' Hd Hwf. destruct (existsb _ _) eqn:Ex; [done|].
  unfold update_row in Hd. destruct (find_row _ _); [|done]. injection Hd as _ <-. cbn.
  by eapply wf_rename.
Qed.

(** *** Deleting *)

#[export] Instance wf_tokens (p : yggdrasil_token -> bool) f :
  Tracks wf_kept (db_update_many tokens set_tokens p f).
Proof. apply tracks_update_many. by intros d Hwf. Qed.
Section Frame.
Context {R : relation Db} `{TF : !TextureFrame R}.

Lemma kept_same_tables {E A} (c : M E A) :
  (forall w, db (snd (c w)) = db w) -> Tracks R c.
Proof. intros H w. by rewrite H. Qed.

#[global] Instance kept_object_delete key : Tracks R (delete key).
Proof. apply kept_same_tables. intros w. apply delete_frame. Qed.
#[global] Instance kept_delete_row id : Tracks R (TextureRepo.delete_row id).
Proof. apply tracks_db_exec. intros d a d' [= _ <-]. apply frame_texture. Qed.
#[global] Instance kept_binding_delete id : Tracks R (ProfileTextureRepo.delete_by_id id).
Proof.
  unfold ProfileTextureRepo.delete_by_id. apply tracks_bind; [|intros; apply _].
  apply tracks_db_exec. intros d a d' [= _ <-]. apply frame_bindings.
Qed.
#[global] Instance kept_cleanup_blob {E} key :
  Tracks R (cleanup_texture_blob_if_unreferenced key : M E unit).
Proof.
  unfold cleanup_texture_blob_if_unreferenced, count_object_storage_references. solve_tracks.
Qed.
#[global] Instance kept_cleanup_asset {E} t :
  Tracks R (cleanup_texture_asset_if_unreferenced t : M E unit).
Proof.
  unfold cleanup_texture_asset_if_unreferenced, ProfileTextureRepo.count_by_texture_id,
    TextureRepo.delete_by_id_for_user, TextureRepo.find_by_id_for_user, TextureRepo.find_where.
  solve_tracks.
Qed.
#[global] Instance kept_cache {E} f : Tracks R (cache_update f : M E unit).
Proof. by apply kept_same_tables. Qed.
#[global] Instance kept_after_unbinding {E} t : Tracks R (after_unbinding t : M E unit).
Proof.
  unfold after_unbinding, invalidate_texture_asset_caches, BlobCache.invalidate_texture_blob_lookup.
  solve_tracks.
Qed.
#[global] Instance kept_delete_slot id ty :
  Tracks R (ProfileTextureRepo.delete_for_profile id ty).
Proof.
  unfold ProfileTextureRepo.delete_for_profile, ProfileTextureRepo.find_by_profile_and_type,
    ProfileTextureRepo.find_binding_by_profile_and_type, ProfileTextureRepo.with_texture.
  solve_tracks.
Qed.
#[global] Instance kept_delete_bindings id l deleted :
  Tracks R (delete_bindings_of_profile id l deleted).
Proof. revert deleted. induction l as [|t l IH]; intros deleted; cbn; solve_tracks. Qed.
#[global] Instance kept_touch id : Tracks R (ProfileRepo.touch_by_id id).
Proof.
  unfold ProfileRepo.touch_by_id. apply tracks_bind; [apply _|intros [e|]]; [|apply _].
  apply tracks_bind; [apply _|intros now]. apply tracks_bind; [|intros; apply _].
  apply tracks_db_exec. intros d a d' Hd. unfold update_row in Hd.
  destruct (find_row _ _); [|done]. injection Hd as _ <-. apply frame_touch.
Qed.
#[global] Instance kept_delete_textures p :
  Tracks R (delete_all_textures_for_profile p).
Proof.
  unfold delete_all_textures_for_profile, ProfileTextureRepo.list_by_profile,
    ProfileTextureRepo.select, invalidate_profile_texture_caches,
    Properties.invalidate_profile_properties_cache, ProfileCache.invalidate_profile_properties.
  solve_tracks.
Qed.
#[global] Instance kept_invalidate_tokens id :
  Tracks R (invalidate_token_cache_for_selected_profile id).
Proof.
  unfold invalidate_token_cache_for_selected_profile,
    TokenRepo.list_active_hashes_for_selected_profile, TokenCache.invalidate_tokens. solve_tracks.
Qed.

#[global] Instance kept_delete_for_user id user_id :
  Tracks R (TextureRepo.delete_by_id_for_user id user_id).
Proof.
  unfold TextureRepo.delete_by_id_for_user, TextureRepo.find_by_id_for_user, TextureRepo.find_where.
  solve_tracks.
Qed.
#[global] Instance kept_touch_bindings {E} l :
  Tracks R (invalidate_profile_texture_caches_for_bindings l : M E unit).
Proof.
  unfold invalidate_profile_texture_caches_for_bindings, invalidate_profile_texture_caches,
    Properties.invalidate_profile_properties_cache, ProfileCache.invalidate_profile_properties.
  solve_tracks.
Qed.
#[global] Instance kept_delete_each u l deleted : Tracks R (delete_each u l deleted).
Proof.
  revert deleted. induction l as [|t l IH]; intros deleted; cbn; [apply _|].
  unfold delete_wardrobe_texture_unchecked, ProfileTextureRepo.list_by_texture_id,
    ProfileTextureRepo.select, invalidate_texture_asset_caches, BlobCache.invalidate_texture_blob_lookup.
  solve_tracks.
Qed.
#[global] Instance kept_delete_wardrobe u : Tracks R (delete_all_wardrobe_textures_for_user u).
Proof. unfold delete_all_wardrobe_textures_for_user, TextureRepo.list_by_user. solve_tracks. Qed.
End Frame.

#[export] Instance wf_revoke_profile id :
  Tracks wf_kept (TokenRepo.revoke_all_for_selected_profile id).
Proof. unfold TokenRepo.revoke_all_for_selected_profile. solve_tracks. Qed.
#[export] Instance wf_lock_profile id :
  Tracks wf_kept (TokenRepo.temporarily_invalidate_all_for_selected_profile id).
Proof. unfold TokenRepo.temporarily_invalidate_all_for_selected_profile. solve_tracks. Qed.

Lemma delete_profile_wf u uid : Tracks wf_kept (delete_profile_for_user u uid).
Proof.
  unfold delete_profile_for_user. apply tracks_bind; [apply _|intros _].
  apply tracks_bind; [apply _|intros [p|]]; [|apply _]. apply tracks_bind; [apply _|intros _].
  do 2 (apply tracks_bind; [apply tracks_wf; apply _|intros ?]). apply tracks_bind; [apply _|intros ?].
  apply tracks_bind; [|intros; apply _]. unfold ProfileRows.delete_by_id.
  apply tracks_bind; [apply _|intros [q|]]; [|apply _]. apply tracks_bind; [|intros; apply _].
  apply tracks_db_exec. intros d x d' [= _ <-]. exact (profiles_wf_delete _ (profiles d)).
Qed.

(** *** Renaming *)

Lemma rename_profile_wf p name : Tracks wf_kept (rename_profile p name).
Proof.
  unfold rename_profile. apply tracks_checked. intros [] Hv. apply tracks_checked. intros [] _.
  destruct (eqb (profile_name p) name); [apply _|].
  do 2 (apply tracks_bind; [apply _|intros _]). apply tracks_bind; [apply _|intros taken].
  apply tracks_bind; [apply _|intros _].
  apply tracks_bind; [apply tracks_wf; apply _|intros hashes]. apply tracks_bind.
  - apply tracks_with_transaction. unfold rename_txn.
    apply tracks_bind; [by apply update_name_wf|intros updated]. apply tracks_bind; [apply _|intros q].
    apply tracks_bind; [apply _|intros; apply _].
  - intros result. unfold TokenCache.invalidate_tokens, ProfileCache.invalidate_profile_name_summary.
    apply tracks_wf. solve_tracks.
Qed.

(** ** Requests *)

Inductive profile_request : Type :=
| CreateProfile (user_id : Z) (role : UserRole) (name : string)
| ImportProfile (user_id : Z) (role : UserRole) (uuid name : string) (source : MinecraftProfileSource)
| ExternalProfile (user_id : Z) (role : UserRole) (username : string) (fallback : option string)
| RenameProfile (user_id : Z) (uuid name : string)
| RenameAnyProfile (profile : minecraft_profile) (name : string)
| DeleteProfile (user_id : Z) (uuid : string).

Definition handle_profile (r : profile_request) (w : World) : World :=
  match r with
  | CreateProfile u role name => snd (create_profile u role name w)
  | ImportProfile u role uid name source =>
      snd (create_profile_with_uuid_in_connection u role uid name source w)
  | ExternalProfile u role name fallback =>
      snd (create_profile_for_external_auth u role name fallback w)
  | RenameProfile u uid name => snd (rename_profile_for_user u uid name w)
  | RenameAnyProfile p name => snd (rename_profile p name w)
  | DeleteProfile u uid => snd (delete_profile_for_user u uid w)
  end.

Lemma handle_profile_wf r w :
  profiles_wf (profiles (db w)) -> profiles_wf (profiles (db (handle_profile r w))).
Proof.
  destruct r; cbn [handle_profile]; match goal with |- context[snd (?c w)] =>
    enough (Tracks wf_kept c) as H by apply (H w) end.
  - apply create_profile_inner_wf.
  - apply create_inner_wf.
  - apply _.
  - unfold rename_profile_for_user. apply tracks_bind; [apply _|intros _].
    do 2 (apply tracks_bind; [apply _|intros _]). apply tracks_bind; [apply _|intros [p|]]; [|apply _].
    apply tracks_bind; [apply rename_profile_wf|intros; apply _].
  - apply rename_profile_wf.
  - apply delete_profile_wf.
Qed.

(** C10: Profiles stay well formed: whatever requests are made,
    in whatever order and with whatever failures, two profiles never share a
    UUID or a name up to case, every name is three to sixteen letters, digits
    or underscores, and the normalized column is the name in lower case. *)
Theorem profile_histories_keep_wf (requests : list profile_request) w :
  profiles_wf (profiles (db w)) ->
  profiles_wf (profiles (db (List.fold_left (fun w r => handle_profile r w) requests w))).
Proof.
  revert w. induction requests as [|r requests IH]; intros w Hwf; cbn; [done|].
  by apply IH, handle_profile_wf.
Qed.
End Tracking.
