(* ===== verification/ProfileTheorems.v ===== *)
(** * What renaming and deleting a profile do

    Renaming is all or nothing and locks the profile's tokens; deleting
    revokes them and takes the bindings along.  A deleted profile's name
    summary stays cached. *)

From Stdlib Require Import ZArith List Bool Lia Ascii.
From stdpp Require Import base decidable list strings pretty relations.
From S2P Require Import Prelude Text Errors Types AuditLog World Logic Repos Bans Tokens Auth Concrete ForwardTextures Sessions ProfileTextures PropertyProofs AuthConfig Accounts WebSessions AccountSpec AccountConcrete Invitations Tracks ObjectStorage TextureRepo TextureProcessing TextureService TextureWardrobe TextureInvariant BlobProofs Profiles ProfileProofs.

Local Open Scope Z_scope.

(** ** Renaming *)

Definition renamed_row (name : string) (now : DateTimeUtc) (p : minecraft_profile)
  : minecraft_profile :=
  mkProfile (profile_pk p) (profile_user_id p) (uuid p) name (to_ascii_lowercase name) (source p)
    (texture_model p) (uploadable_textures p) (wrap_i32 (rename_count p + 1))
    (profile_created_at p) now.

(** A token of the profile that still works. *)
Definition works_for (id : Z) (t : yggdrasil_token) : bool :=
  eqb (selected_profile_id t) (Some id) && TokenRepo.not_revoked t.

(** The tables after a rename: the row, and the tokens locked. *)
Definition renamed_db (p : minecraft_profile) (name : string) (now locked : DateTimeUtc) (d : Db)
  : Db :=
  set_tokens
    (with_rows (update_where (fun t => works_for (profile_pk p) t
                                       && is_none (temporarily_invalidated_at t))
                  (TokenRepo.set_temporarily_invalidated locked) (rows (tokens d))) (tokens d))
    (set_profiles
       (with_rows (update_where (fun q => profile_pk q =? profile_pk p) (fun _ => renamed_row name now p)
                     (rows (profiles d))) (profiles d)) d).

Section Rename.
Context `{EN : Env} `{CB : CacheBackend} `{FC : ForgeCrypto} `{FA : ForgeApi} `{TS : TextSearch}.
Context `{FN : ForgeNumbers} `{TN : TextureNumbers} `{SE : SkinExterns} `{TX : TextureExterns}.
Context `{RC : RuntimeConfig} `{PP : PreviewPolicy} `{IC : ImageCodec} `{FS : FileSystem}.
Context `{BE : BanExterns} `{TM : !TxnManager} `{TL : !TxnLaws TM} {OS : ObjectStorage}.
Context `{OL : !ObjectStorageLaws OS} `{PX : ProfileExterns} `{CL : !CacheLaws CB}.

Definition renamed (p : minecraft_profile) (name : string) (w : World)
  (result : RenameMinecraftProfileResult) (w' : World) : Prop :=
  source p <> Microsoft /\ rename_count_u64 p < max_profile_renames policy /\
  (forall q, In q (rows (profiles (db w))) -> profile_pk q <> profile_pk p ->
             normalized_name q <> to_ascii_lowercase name) /\
  (exists now locked, rp_profile result = renamed_row name now p /\
                      db w' = renamed_db p name now locked (db w)) /\
  (forall t, In t (rows (tokens (db w))) -> works_for (profile_pk p) t = true ->
             uncached w' (TokenCache.token_key (access_token_hash t))) /\
  uncached w' (ProfileCache.profile_name_summary_key (profile_name p)) /\
  uncached w' (ProfileCache.profile_name_summary_key name).

Definition rename_outcome (p : minecraft_profile) (name : string) (w : World)
  (r : outcome AsterError.t RenameMinecraftProfileResult) (w' : World) : Prop :=
  match r with
  | Ok result =>
      rp_old_name result = profile_name p /\
      ((profile_name p = name /\ rp_profile result = p /\ db w' = db w) \/
       (profile_name p <> name /\ renamed p name w result w'))
  | _ => db w' = db w
  end.

Lemma uncached_delete w key c :
  cache (tick (set_cache c w)) = cache_delete (cache w) key -> uncached (tick (set_cache c w)) key.
Proof. intros E now v. rewrite E. by intros [? _]%get_delete. Qed.

Lemma uncached_kept w w' key key' :
  cache w' = cache_delete (cache w) key' -> uncached w key -> uncached w' key.
Proof. intros E Hu now v. rewrite E. intros [_ H]%get_delete. by eapply Hu. Qed.

(** The body of the transaction. *)
Lemma rename_txn_wp p name w :
  profiles_wf (profiles (db w)) -> In p (rows (profiles (db w))) ->
  wp (rename_txn p name) (fun r w1 =>
    match r with
    | Ok result => rp_old_name result = profile_name p /\ cache w1 = cache w /\
        (forall q, In q (rows (profiles (db w))) -> profile_pk q <> profile_pk p ->
                   normalized_name q <> to_ascii_lowercase name) /\
        exists now locked, rp_profile result = renamed_row name now p /\
                           db w1 = renamed_db p name now locked (db w)
    | _ => cache w1 = cache w
    end) w.
Proof.
  intros Hwf Hp. unfold rename_txn, ProfileRepo.update_name_by_id.
  apply wp_bind, wp_bind. apply wp_db_query; [done|]. intros _. cbn [wp_next].
  erewrite (find_row_unique profile_pk) with (x := p);
    [|apply Hwf|done|by intros q; rewrite Z.eqb_eq]. apply wp_bind, wp_utc_now. cbn [wp_next].
  apply wp_bind, wp_db_exec; [done|]. intros _. cbn [db tick].
  destruct (existsb _ _) eqn:Ex; [done|]. unfold update_row.
  erewrite (find_row_unique profile_pk) with (x := p);
    [|apply Hwf|done|by intros q; rewrite Z.eqb_eq]. cbn [wp_next wp_ret].
  apply wp_ret. cbn [wp_next]. apply wp_bind, wp_lift. cbn [wp_next ok_or].
  unfold TokenRepo.temporarily_invalidate_all_for_selected_profile.
  apply wp_bind, wp_bind, wp_utc_now. cbn [wp_next]. apply wp_db_update_many; [done|]. intros _.
  cbn [wp_next]. apply wp_ret. split_and!; [done|done| |].
  - intros q Hq Hne E. assert (existsb (fun q => negb (profile_pk q =? profile_pk p)
      && eqb (normalized_name q) (ProfileRepo.normalize_profile_name name))
      (rows (profiles (db w))) = true); [|congruence].
    apply existsb_exists. exists q. split; [done|]. apply andb_true_iff. split; [|by rewrite eqb_true].
    apply negb_true_iff, Z.eqb_neq. done.
  - eexists _, _. split; [done|]. unfold renamed_db. cbn. f_equal. f_equal. f_equal.
    apply update_where_ext_in. intros q Hq Hid%Z.eqb_eq.
    assert (q = p) as -> by (eapply (NoDup_map_inj_in profile_pk); [apply Hwf|done..]). done.
Qed.
(** Clearing the cache of a profile's tokens reads the table only. *)
Lemma wp_invalidate_selected id (Q : outcome AsterError.t (list string) -> World -> Prop) w :
  (forall m, Q (Err (AsterError.DatabaseOperation m)) (tick w)) ->
  (forall w', db w' = db w ->
     (forall t, In t (rows (tokens (db w))) -> works_for id t = true ->
                uncached w' (TokenCache.token_key (access_token_hash t))) ->
     Q (Ok (List.map access_token_hash (rows_where (works_for id) (rows (tokens (db w)))))) w') ->
  wp (invalidate_token_cache_for_selected_profile id) Q w.
Proof.
  intros Hf Hok. unfold invalidate_token_cache_for_selected_profile,
    TokenRepo.list_active_hashes_for_selected_profile.
  apply wp_bind, wp_db_query; [by intros; apply Hf|]. intros _. cbn [wp_next].
  apply wp_bind, wp_cache_update. cbn [wp_next]. apply wp_ret. apply Hok; [done|].
  intros t Ht Hw now v [Hn _]%get_delete_many. apply Hn. by apply in_map, in_map, in_rows_where.
Qed.

(** The three clearings after the commit. *)
Lemma renamed_uncached p name w w' hashes :
  cache w' = cache_delete (cache_delete (cache_delete_many (cache w)
      (List.map TokenCache.token_key hashes))
      (ProfileCache.profile_name_summary_key (profile_name p)))
      (ProfileCache.profile_name_summary_key name) ->
  (forall h, In h hashes -> uncached w' (TokenCache.token_key h)) /\
  uncached w' (ProfileCache.profile_name_summary_key (profile_name p)) /\
  uncached w' (ProfileCache.profile_name_summary_key name).
Proof.
  intros E. split_and!.
  - intros h Hh now v. rewrite E. intros [_ [_ [Hn _]%get_delete_many]%get_delete]%get_delete.
    apply Hn. by apply in_map.
  - intros now v. rewrite E. by intros [_ [Hn _]%get_delete]%get_delete.
  - intros now v. rewrite E. by intros [Hn _]%get_delete.
Qed.

Lemma rename_outcome_same p name w w1 r w' :
  db w1 = db w -> rename_outcome p name w1 r w' -> rename_outcome p name w r w'.
Proof. intros E. unfold rename_outcome, renamed. by rewrite E. Qed.

Lemma rename_profile_wp p name w :
  profiles_wf (profiles (db w)) -> In p (rows (profiles (db w))) ->
  wp (rename_profile p name) (rename_outcome p name w) w.
Proof.
  intros Hwf Hp. unfold rename_profile.
  pose proof (same_refl w) as S0. wp_read_on u1 w1 Hr1 from S0 as S1.
  wp_read_on u2 w2 Hr2 from S1 as S2.
  destruct (eqb (profile_name p) name) eqn:Een.
  { rewrite eqb_true in Een. apply wp_ret. split; [done|]. left. split_and!; [done|done|by apply same_db]. }
  rewrite eqb_false in Een.
  wp_read_on u3 w3 Hm from S2 as S3.
  apply when_ok_ok in Hm as [Hm%eqb_false _].
  wp_read_on u4 w4 Hc from S3 as S4.
  apply when_ok_ok in Hc as [Hc%Z.leb_gt _].
  wp_read_on taken w5 Hr5 from S4 as S5.
  wp_read_on u6 w6 Hr6 from S5 as S6.
  apply wp_bind, wp_invalidate_selected; [intros m; by apply same_db in S6|].
  intros w7 E7 _. cbn [wp_next]. apply same_db in S6. rewrite S6 in E7 |- *.
  apply wp_bind, wp_with_transaction.
  { intros e w8 H8. cbn. by rewrite (same_db _ _ H8). }
  intros w8 H8. rewrite <- E7, <- (same_db _ _ H8) in Hwf, Hp.
  eapply wp_mono; [by apply rename_txn_wp|]. rewrite (same_db _ _ H8), E7.
  intros [res|e|m] w9; [|by intros _ w10 R; apply rolled_back_db in R; cbn; congruence..].
  intros (Eold & _ & Hfree & now & locked & Erow & Edb). split.
  2: { intros e w10 R. apply rolled_back_db in R. cbn. congruence. }
  intros w10 H10. cbn [wp_next]. apply wp_bind, wp_cache_update. cbn [wp_next].
  apply wp_bind, wp_cache_update. cbn [wp_next]. apply wp_bind, wp_cache_update. cbn [wp_next].
  apply wp_ret. rewrite Eold, Erow. cbn [profile_name renamed_row].
  lazymatch goal with |- rename_outcome _ _ _ _ ?w' =>
    destruct (renamed_uncached p name w10 w' _ eq_refl) as (Ht & Ho & Hn) end.
  split; [done|]. right. split; [done|]. split_and!; [done|done|done| | |exact Ho|exact Hn].
  { exists now, locked. split; [done|]. cbn. by rewrite (same_db _ _ H10). }
  intros t Ht1 Ht2. apply Ht, in_map_iff. exists t. split; [done|]. by apply in_rows_where.
Qed.

(** C18: Renaming is exact and all or nothing: the answer is
    the user's own profile, either untouched because it has that name
    already, or, when it is not an official one, has renames left and no
    other profile has the name, with exactly its name, normalized name,
    rename count and date changed; then every token of the profile is locked
    in the same step, and neither a token of the profile nor a summary of
    either name is left in the cache.  Any other end leaves the tables
    untouched. *)
Theorem rename_exact user_id uid name w r w' :
  profiles_wf (profiles (db w)) -> rename_profile_for_user user_id uid name w = (r, w') ->
  match r with
  | Ok (Some result) => valid_profile_name name /\
      exists p, In p (rows (profiles (db w))) /\ uuid p = uid /\ profile_user_id p = user_id /\
                rename_outcome p name w (Ok result) w'
  | _ => db w' = db w
  end.
Proof.
  intros Hwf Hr. refine (wp_run _ (fun r w' => _) _ _ _ _ Hr). clear Hr. unfold rename_profile_for_user.
  pose proof (same_refl w) as S0. wp_read_on u1 w1 Hr1 from S0 as S1.
  wp_read_on u2 w2 Hv from S1 as S2.
  apply lift_ok in Hv as [Hv _]. destruct u2.
  wp_read_on u3 w3 Hr3 from S2 as S3.
  wp_read_on found w4 Hf from S3 as S4.
  apply same_db in S4. destruct found as [p|]; [|by apply wp_ret].
  apply db_query_ok in Hf as (Hf & _). rewrite (same_db _ _ S3) in Hf.
  symmetry in Hf. apply find_row_some in Hf as [Hp [Hu Ho%Z.eqb_eq]%andb_true_iff].
  rewrite eqb_true in Hu.
  apply wp_bind. rewrite <- S4 in Hwf, Hp. eapply wp_mono; [by apply rename_profile_wp|].
  intros [res|e|m] w5 Hres; cbn [wp_next]; [|by cbn in Hres; congruence..].
  apply wp_ret. split; [done|]. exists p. rewrite <- S4. do 3 (split; [done|]).
  by eapply rename_outcome_same.
Qed.
End Rename.

(** ** Deleting *)

(** Only entries that were there are. *)
Definition cache_shrinks `{CB : CacheBackend} (w w' : World) : Prop :=
  forall now k v, cache_get (cache w') now k = Some v -> cache_get (cache w) now k = Some v.

(** A token after its profile is gone. *)
Definition token_after (id : Z) (now : DateTimeUtc) (t : yggdrasil_token) : yggdrasil_token :=
  let t := if works_for id t then TokenRepo.set_revoked now t else t in
  if eqb (selected_profile_id t) (Some id) then ProfileRows.forget_profile id t else t.

Section Delete.
Context `{EN : Env} `{CB : CacheBackend} `{FC : ForgeCrypto} `{FA : ForgeApi} `{TS : TextSearch}.
Context `{FN : ForgeNumbers} `{TN : TextureNumbers} `{SE : SkinExterns} `{TX : TextureExterns}.
Context `{RC : RuntimeConfig} `{PP : PreviewPolicy} `{IC : ImageCodec} `{FS : FileSystem}.
Context `{BE : BanExterns} `{TM : !TxnManager} `{TL : !TxnLaws TM} {OS : ObjectStorage}.
Context `{OL : !ObjectStorageLaws OS} `{PX : ProfileExterns} `{CL : !CacheLaws CB}.

#[local] Abbreviation shrinking w := (keeps (cache_shrinks w) (fun _ => True)).

Section Shrinking.
Variable w0 : World.

Lemma shrinking_same_cache w w' : cache w' = cache w -> cache_shrinks w0 w -> cache_shrinks w0 w'.
Proof. unfold cache_shrinks. by intros ->. Qed.

Lemma shrinking_reads {E A} (c : M E A) : Reads c -> shrinking w0 c.
Proof. apply keeps_reads. intros w w' S%same_cache. by apply shrinking_same_cache. Qed.

Lemma shrinking_db_exec {A} (f : Db -> outcome AsterError.t (A * Db)) : shrinking w0 (db_exec f).
Proof. by apply keeps_db_exec. Qed.

Lemma shrinking_delete key : shrinking w0 (delete key).
Proof.
  intros w HI. apply wp_intro. intros r w' H. pose proof (delete_frame key w) as Hf. rewrite H in Hf.
  split; [|by destruct r]. eapply shrinking_same_cache; [apply Hf|done].
Qed.

Lemma shrinking_update {E} f :
  (forall c now k v, cache_get (f c) now k = Some v -> cache_get c now k = Some v) ->
  shrinking w0 (cache_update f : M E unit).
Proof.
  intros Hf w HI. apply wp_cache_update. split; [|done]. intros now k v H%Hf. by apply HI.
Qed.

Lemma shrinking_touch id : shrinking w0 (ProfileRepo.touch_by_id id).
Proof.
  unfold ProfileRepo.touch_by_id, db_query, db_update. pose proof (@shrinking_db_exec).
  eapply keeps_bind; [apply shrinking_db_exec|]. intros [e|] _; [|by apply keeps_ret].
  eapply keeps_bind; [apply shrinking_reads; apply _|]. intros now _.
  eapply (keeps_bind _ (fun _ => True)); [apply shrinking_db_exec|]. intros u _. by apply keeps_ret.
Qed.

Lemma shrinking_invalidate {E} id : shrinking w0 (invalidate_profile_texture_caches id : M E unit).
Proof.
  pose proof (shrinking_touch id). unfold invalidate_profile_texture_caches.
  eapply (keeps_bind _ (fun _ => True)).
  - apply shrinking_update. by intros c now k v [_ H']%get_invalidate_prefix.
  - intros _ _. eapply keeps_bind; [by apply keeps_catch|]. intros _ _. by apply keeps_ret.
Qed.

Lemma shrinking_cleanup {E} key :
  shrinking w0 (cleanup_texture_blob_if_unreferenced key : M E unit).
Proof.
  pose proof (shrinking_delete key). pose proof (@shrinking_reads).
  unfold cleanup_texture_blob_if_unreferenced, count_object_storage_references.
  eapply keeps_bind; [apply keeps_catch, shrinking_reads; apply _|]. intros [n|e] _; [|by apply keeps_ret].
  destruct (negb _); [by apply keeps_ret|].
  eapply keeps_bind; [by apply keeps_catch|]. intros [u|e] _; [by apply keeps_ret|].
  eapply keeps_bind; [apply keeps_catch, shrinking_reads; apply _|]. intros b _. by apply keeps_ret.
Qed.

Lemma shrinking_after_unbinding {E} t : shrinking w0 (after_unbinding t : M E unit).
Proof.
  pose proof (@shrinking_cleanup). unfold after_unbinding. eapply (keeps_bind _ (fun _ => True)).
  - unfold cleanup_texture_asset_if_unreferenced. destruct (is_wardrobe_item _); [by apply keeps_ret|].
    eapply keeps_bind; [apply keeps_catch, shrinking_db_exec|]. intros [n|e] _; [|by apply keeps_ret].
    destruct (negb _); [by apply keeps_ret|]. eapply keeps_bind.
    + apply keeps_catch. unfold TextureRepo.delete_by_id_for_user, TextureRepo.find_by_id_for_user,
        TextureRepo.find_where. eapply keeps_bind; [apply shrinking_reads; apply _|].
      intros [u|] _; [|by apply (keeps_ret _ (fun _ => True))].
      eapply (keeps_bind _ (fun _ => True)); [apply shrinking_db_exec|]. intros _ _. by apply keeps_ret.
    + intros [d|e] _; [auto|by apply keeps_ret].
  - intros _ _. unfold invalidate_texture_asset_caches, BlobCache.invalidate_texture_blob_lookup.
    destruct (is_valid_texture_hash _); [|by apply keeps_ret]. apply shrinking_update.
    by intros c now k v [_ H']%get_delete.
Qed.

Lemma shrinking_delete_textures p : shrinking w0 (delete_all_textures_for_profile p).
Proof.
  unfold delete_all_textures_for_profile. eapply keeps_bind.
  { apply keeps_map_err, shrinking_reads. unfold ProfileTextureRepo.list_by_profile,
      ProfileTextureRepo.select. apply _. }
  intros l _. apply (keeps_bind _ (fun _ => True)).
  - generalize (@nil ProfileTextureRepo.ProfileTexture).
    induction l as [|t l IH]; intros deleted; cbn [delete_bindings_of_profile]; [by apply keeps_ret|].
    eapply (keeps_bind _ (fun _ => True)).
    + apply keeps_map_err. unfold ProfileTextureRepo.delete_for_profile.
      eapply keeps_bind; [apply shrinking_reads|].
      * unfold ProfileTextureRepo.find_by_profile_and_type,
          ProfileTextureRepo.find_binding_by_profile_and_type, ProfileTextureRepo.with_texture. apply _.
      * intros [e|] _; [|by apply keeps_ret]. apply (keeps_bind _ (fun _ => True)); [|by intros; apply keeps_ret].
        apply (keeps_bind _ (fun _ => True)); [apply shrinking_db_exec|by intros; apply keeps_ret].
    + intros [d|] _; [|apply IH]. apply (keeps_bind _ (fun _ => True)); [apply shrinking_after_unbinding|].
      intros _ _. apply IH.
  - intros [|d l'] _; [by apply (keeps_bind _ (fun _ => True)); intros; apply keeps_ret|].
    apply (keeps_bind _ (fun _ => True)); [apply shrinking_invalidate|by intros; apply keeps_ret].
Qed.
End Shrinking.

(** The profile is gone, with what referred to it; the others only changed
    dates. *)
Record profile_gone (p : minecraft_profile) (w w' : World) : Prop := mkProfileGone {
  gone_rows : undated (profiles (db w')) =
    List.map (ProfileRepo.touched 0)
      (delete_where (fun q => profile_pk q =? profile_pk p) (rows (profiles (db w))));
  gone_bindings b : In b (rows (profile_textures (db w'))) -> binding_profile_id b <> profile_pk p;
  gone_preferences b : In b (rows (texture_preferences (library (db w')))) ->
    preference_profile_id b <> profile_pk p;
  gone_tokens : exists now, rows (tokens (db w')) =
    List.map (token_after (profile_pk p) now) (rows (tokens (db w)));
  gone_cached t : In t (rows (tokens (db w))) -> works_for (profile_pk p) t = true ->
    uncached w' (TokenCache.token_key (access_token_hash t))
}.

Lemma undated_delete id l :
  List.map (ProfileRepo.touched 0) (delete_where (fun q => profile_pk q =? id) l) =
  delete_where (fun q => profile_pk q =? id) (List.map (ProfileRepo.touched 0) l).
Proof.
  unfold delete_where in *. induction l as [|q l IH]; [done|]. cbn.
  destruct (negb _); cbn; by rewrite IH.
Qed.

Lemma undated_ext (l l' : list minecraft_profile) id :
  List.map (ProfileRepo.touched 0) l' = List.map (ProfileRepo.touched 0) l ->
  existsb (fun q => profile_pk q =? id) l' = existsb (fun q => profile_pk q =? id) l.
Proof.
  revert l'. induction l as [|q l IH]; intros [|q' l'] E; try done. injection E as E1 E2 E3 E4 E5.
  cbn. f_equal; [congruence|]. by apply IH.
Qed.

(** The two statements after the textures are gone. *)
Lemma drop_tokens id now (l : list yggdrasil_token) :
  update_where (fun t => eqb (selected_profile_id t) (Some id)) (ProfileRows.forget_profile id)
    (update_where (works_for id) (TokenRepo.set_revoked now) l) =
  List.map (token_after id now) l.
Proof.
  unfold update_where. rewrite List.map_map. apply List.map_ext. intros t. unfold token_after.
  by destruct (works_for id t).
Qed.

Lemma delete_rest_wp {B} p w w1 (k : option minecraft_profile -> Z -> M AsterError.t B)
  (Q : outcome AsterError.t B -> World -> Prop) :
  In p (rows (profiles (db w))) -> profiles_kept (db w) (db w1) ->
  (forall t, In t (rows (tokens (db w))) -> works_for (profile_pk p) t = true ->
             uncached w1 (TokenCache.token_key (access_token_hash t))) ->
  (forall q count w', profile_pk q = profile_pk p -> profile_gone p w w' ->
                      wp (k (Some q) count) Q w') ->
  (forall e w', undated (profiles (db w')) = undated (profiles (db w)) -> Q (Err e) w') ->
  wp (let* count := TokenRepo.revoke_all_for_selected_profile (profile_pk p) in
      let* deleted := ProfileRows.delete_by_id (profile_pk p) in
      k deleted count)%aster Q w1.
Proof.
  intros Hp (Hn & Hu & Ht) Hc Hk He. unfold TokenRepo.revoke_all_for_selected_profile.
  apply wp_bind, wp_bind, wp_utc_now. cbn [wp_next].
  apply wp_db_update_many; [by intros; apply He|]. intros _.
  cbn [wp_next]. unfold ProfileRows.delete_by_id. apply wp_bind, wp_bind.
  apply wp_db_query; [by intros; apply He|]. intros _. cbn [wp_next].
  destruct (find_row _ _) as [q|] eqn:Eq.
  2: { exfalso. pose proof (undated_ext _ _ (profile_pk p) Hu) as E.
       assert (existsb (fun q => profile_pk q =? profile_pk p) (rows (profiles (db w))) = true) as E1
         by (apply existsb_exists; exists p; by rewrite Z.eqb_refl).
       rewrite E1 in E. apply existsb_exists in E as (q & Hq & Hid).
       eapply find_row_none in Eq; [|exact Hq]. cbn in Eq. congruence. }
  apply find_row_some in Eq as [Hq Hid%Z.eqb_eq].
  apply wp_bind, wp_db_exec; [by intros; apply He|]. intros _. cbn [wp_next]. apply wp_ret.
  cbn [wp_next]. apply Hk; [done|]. split.
  - unfold undated. cbn. rewrite !undated_delete. unfold undated in Hu. by rewrite Hu.
  - intros b [_ Hb%Z.eqb_neq]%in_delete_where. done.
  - intros b [_ Hb%Z.eqb_neq]%in_delete_where. done.
  - eexists. cbn. rewrite Ht. apply drop_tokens.
  - done.
Qed.

(** Deletion takes exactly the user's own profile away: on
    success a profile that is not an official one and has the given UUID is
    gone, no binding or preference of it is left, every token it was selected
    with is revoked and refers to it no more, and none of those is still
    cached; the other profiles keep everything but the date of their last
    change.  Any other end leaves every profile in place. *)
Theorem delete_exact user_id uid w r w' :
  delete_profile_for_user user_id uid w = (r, w') ->
  match r with
  | Ok (Some result) =>
      exists p, In p (rows (profiles (db w))) /\ uuid p = uid /\ profile_user_id p = user_id /\
                source p <> Microsoft /\ profile_pk (dp_profile result) = profile_pk p /\
                profile_gone p w w'
  | _ => undated (profiles (db w')) = undated (profiles (db w))
  end.
Proof.
  intros Hr. refine (wp_run _ (fun r w' => _) _ _ _ _ Hr). clear Hr. unfold delete_profile_for_user.
  pose proof (same_refl w) as S0. wp_read_on u1 w1 Hr1 from S0 as S1.
  wp_read_on found w2 Hf from S1 as S2.
  destruct found as [p|]; [|apply wp_ret; by rewrite (same_db _ _ S2)].
  apply db_query_ok in Hf as (Hf & _). rewrite (same_db _ _ S1) in Hf.
  symmetry in Hf. apply find_row_some in Hf as [Hp [Hu Ho%Z.eqb_eq]%andb_true_iff].
  rewrite eqb_true in Hu.
  wp_read_on u3 w3 Hm from S2 as S3.
  apply when_ok_ok in Hm as [Hm _]. rewrite eqb_false in Hm. apply same_db in S3.
  apply wp_bind, wp_invalidate_selected; [intros m; cbn; by rewrite S3|].
  intros w4 E4 Hc4. cbn [wp_next]. apply wp_bind, wp_map_err, wp_intro. intros r5 w5 H5.
  assert (K : profiles_kept (db w) (db w5)).
  { eapply tracks_run in H5; [|apply kept_delete_textures]. by rewrite E4, S3 in H5. }
  pose proof (keeps_run _ _ _ _ _ _ (shrinking_delete_textures w4 p) (fun _ _ _ H => H) H5) as [Hsh _].
  destruct r5 as [l|e|m]; cbn [wp_next]; [|apply K..].
  apply delete_rest_wp with w; [done|done| | |done].
  - intros t Ht Hw now v Hv%Hsh. rewrite S3 in Hc4. by eapply Hc4.
  - intros q count w6 Hq Hg. apply wp_ret. exists p. by split_and!.
Qed.
End Delete.

(** ** Names for external logins *)

(** Whatever an identity provider calls a user, every name
    an external login may create a profile with is a valid profile name: the
    sanitized names, which sanitizing leaves alone, and each of the 99
    suffixed forms of them, whose cut falls on a character boundary. *)
Theorem external_names_valid username fallback name allow :
  In (name, allow) (external_profile_names username fallback) ->
  valid_profile_name name /\ sanitize_external_username name = Some name /\
  forall suffix, 1 <= suffix <= 99 ->
    valid_profile_name (suffixed_name name suffix) /\
    is_char_boundary name (Nat.min (16 - str_len (pretty suffix)) (str_len name)) = true.
Proof.
  intros Hin. assert (exists from, sanitize_external_username from = Some name) as [from Hs].
  { unfold external_profile_names in Hin.
    destruct (sanitize_external_username username) as [n|] eqn:E1;
      destruct (fallback ≫= sanitize_external_username) as [f|] eqn:E2; cbn in Hin;
      try destruct (_ || _); cbn in Hin; destruct fallback as [fb|]; cbn in E2;
      intuition (simplify_eq; eauto). }
  pose proof (sanitized_valid _ _ Hs) as Hv.
  split; [done|]. split; [by eapply sanitize_idem|]. intros suffix Hr.
  split; [by apply suffixed_name_valid|]. apply name_byte_boundary; [done|lia].
Qed.

(** ** Alex, renamed and deleted *)

#[local] Existing Instance crypto1.
#[local] Existing Instance property_externs0.
#[local] Existing Instance config0.

(** Mojang knows no name. *)
#[local] Instance profile_externs1 : ProfileExterns := {|
  mojang_client := fun _ => None;
  mojang_send := fun _ _ => Ok (mkMojangHttp 404 (Err "empty"%string));
  urlencode := fun s => s;
  uuid_parse_simple := fun s => Some s;
  uuid_new_simple := fun n => ("0000000000000000000000000000" +:+ pretty (1000 + Z.of_nat n))%string;
  sql_lower := to_ascii_lowercase
|}.

Definition alex_uuid : string := "0123456789abcdef0123456789abcdef".

(** A token that selected Alex, known to the cache. *)
Definition alex_token : yggdrasil_token :=
  mkToken 1 1 "hash" "client" (Some 1) 0 (seconds 1000000) None None None None.
Definition world2 : World :=
  mkWorld (set_tokens (mkTable [alex_token] 2) db0)
    [(TokenCache.token_key "hash", CvToken alex_token, seconds 1000000)] [] 0%nat ∅.

Definition requests2 : list profile_request :=
  [CreateProfile 1 User "Steve"; CreateProfile 2 User "ALEX"; CreateProfile 2 User "Steve";
   RenameProfile 1 alex_uuid "Herobrine"; ExternalProfile 3 User "h.e.r.o" (Some "steve"%string);
   DeleteProfile 1 alex_uuid].

Lemma world2_wf : profiles_wf (profiles (db world2)).
Proof.
  split; cbn; try by repeat constructor; cbn; tauto.
  - by intros p [<-|[]].
  - by intros p [<-|[]].
Qed.

Lemma profile_histories_keep_wf_witness :
  List.map profile_name (rows (profiles (db
    (List.fold_left (fun w r => handle_profile r w) requests2 world2)))) = ["Steve"; "h_e_r_o"]%string /\
  profiles_wf (profiles (db (List.fold_left (fun w r => handle_profile r w) requests2 world2))).
Proof.
  split; [vm_compute; reflexivity|].
  exact (profile_histories_keep_wf (OL := storage1_laws) requests2 world2 world2_wf).
Defined.

Definition renaming : outcome AsterError.t (option RenameMinecraftProfileResult) * World :=
  rename_profile_for_user 1 alex_uuid "Steve" world2.

Lemma rename_exact_witness :
  (rp_old_name <$> match fst renaming with Ok r => r | _ => None end) = Some "Alex"%string /\
  exists p, In p (rows (profiles (db world2))) /\ uuid p = alex_uuid /\ profile_user_id p = 1.
Proof.
  split; [vm_compute; reflexivity|].
  pose proof (rename_exact 1 alex_uuid "Steve" world2 (fst renaming) (snd renaming) world2_wf
                (surjective_pairing _)) as H.
  destruct (fst renaming) as [[result|]|e|m] eqn:E.
  - destruct H as (_ & p & Hp & Hu & Ho & _). by exists p.
  - revert E. vm_compute. discriminate.
  - revert E. vm_compute. discriminate.
  - revert E. vm_compute. discriminate.
Defined.

Definition deleting : outcome AsterError.t (option DeleteMinecraftProfileResult) * World :=
  delete_profile_for_user 1 alex_uuid world2.

Lemma delete_exact_witness :
  rows (profiles (db (snd deleting))) = [] /\ exists p, profile_gone p world2 (snd deleting).
Proof.
  split; [vm_compute; reflexivity|].
  pose proof (delete_exact (OL := storage1_laws) 1 alex_uuid world2 (fst deleting) (snd deleting)
                (surjective_pairing _)) as H.
  destruct (fst deleting) as [[result|]|e|m] eqn:E.
  - destruct H as (p & _ & _ & _ & _ & _ & Hg). by exists p.
  - revert E. vm_compute. discriminate.
  - revert E. vm_compute. discriminate.
  - revert E. vm_compute. discriminate.
Defined.

Lemma external_names_valid_witness :
  external_profile_names "-jöhn.doe-" (Some "John"%string) =
    [("jhn_doe"%string, false); ("John"%string, true)] /\
  valid_profile_name (suffixed_name "jhn_doe" 99) /\ suffixed_name "jhn_doe" 99 = "jhn_doe99"%string.
Proof.
  split; [vm_compute; reflexivity|]. split; [|vm_compute; reflexivity].
  apply (external_names_valid "-jöhn.doe-" (Some "John"%string) "jhn_doe" false); [|lia].
  vm_compute. by left.
Defined.

(** A deleted profile goes on being found by its name: the
    deletion leaves the cached summary of the name, where a rename clears it,
    so that until the entry expires the lookup by names answers with the UUID
    of a profile that is no more. *)
Theorem deleted_profile_still_answered :
  exists w w1 w2 w3 result,
    profiles_by_names ["Alex"%string] w = (Ok [profile_summary alex], w1) /\
    delete_profile_for_user 1 alex_uuid w1 = (Ok (Some result), w2) /\
    rows (profiles (db w2)) = [] /\
    profiles_by_names ["Alex"%string] w2 = (Ok [profile_summary alex], w3).
Proof.
  exists world2.
  set (w1 := snd (profiles_by_names ["Alex"%string] world2)).
  set (r := delete_profile_for_user 1 alex_uuid w1).
  exists w1, (snd r), (snd (profiles_by_names ["Alex"%string] (snd r))),
    (mkDeleteProfile alex 0 1).
  split_and!; vm_compute; reflexivity.
Qed.
