(* ===== verification/ForwardServers.v ===== *)
(** * Administration of session forward servers

    [services/yggdrasil_session_forward_service.rs]: the servers hasJoined
    consults are listed, created, changed and deleted by an administrator;
    two built-in ones are seeded at start-up.  With the statements of
    [db/repository/yggdrasil_session_forward_server_repo.rs] that Sessions.v
    does not hold. *)

From Stdlib Require Import ZArith List Bool Lia Ascii.
From stdpp Require Import base decidable list strings pretty.
From S2P Require Import Prelude Text Errors Types AuditLog World Logic Repos Tokens Auth ForwardTextures Sessions WebSessions YggdrasilConfig TextureLibrary.

Local Open Scope Z_scope.
Local Open Scope aster_scope.

Definition MIN_PRIORITY : Z := -10000.
Definition MAX_PRIORITY : Z := 10000.
Definition MIN_WEIGHT : Z := 1.
Definition MAX_WEIGHT : Z := 1000.
Definition MIN_TIMEOUT_MS : Z := 100.
Definition MAX_TIMEOUT_MS : Z := 10000.
Definition LOCAL_DISPLAY_NAME : string := "AsterYggdrasil".
Definition MOJANG_DISPLAY_NAME : string := "Mojang".
Definition MOJANG_SESSION_SERVER_BASE_URL : string := "https://sessionserver.mojang.com".

Inductive YggdrasilSessionForwardServerSortBy : Type := CallOrder | SortById.

(** ** The repository *)
Module ForwardServerRepo.

Inductive SessionForwardServerCursor : Type :=
| AtCall (is_enabled : bool) (at_priority : Z) (id : Z)
| AtId (id : Z).

(** The unique index on [base_url]; NULLs are distinct. *)
Definition url_conflict (s t : forward_server) : bool :=
  is_some (base_url s) && eqb (base_url s) (base_url t).

Definition bool_lt (a b : bool) : bool := negb a && b.

(** [order_by_desc(Enabled).order_by_asc(Priority).order_by_asc(Id)] *)
Definition call_order (s t : forward_server) : bool :=
  bool_lt (enabled t) (enabled s)
  || (Bool.eqb (enabled s) (enabled t)
      && ((priority s <? priority t)
          || ((priority s =? priority t) && (server_pk s <=? server_pk t)))).

Definition listing_order (sort_by : YggdrasilSessionForwardServerSortBy)
  : forward_server -> forward_server -> bool :=
  match sort_by with CallOrder => call_order | SortById => ServerRepo.server_id_leb end.

Definition after_cursor (sort_by : YggdrasilSessionForwardServerSortBy)
  (after : option SessionForwardServerCursor) (s : forward_server) : bool :=
  match sort_by, after with
  | CallOrder, Some (AtCall en prio id) =>
      bool_lt (enabled s) en
      || (Bool.eqb (enabled s) en && (prio <? priority s))
      || (Bool.eqb (enabled s) en && (priority s =? prio) && (id <? server_pk s))
  | SortById, Some (AtId id) => id <? server_pk s
  | _, _ => true
  end.

Section Ops.
Context `{EN : Env} `{CB : CacheBackend} `{FA : ForgeApi}.

Definition find_cursor (limit : Z) (after : option SessionForwardServerCursor)
  (by_key : YggdrasilSessionForwardServerSortBy) : M AsterError.t (CursorSlice forward_server) :=
  let limit := SessionRepo.clamp limit 1 100 in
  let* total := db_query (fun d => Z.of_nat (length (rows (servers d)))) in
  if total =? 0 then ret (mkSlice [] total false)
  else
    let* items := db_query (fun d =>
      firstn (Z.to_nat (limit + 1))
        (sort_by (listing_order by_key) (rows_where (after_cursor by_key after) (rows (servers d))))) in
    lift (match from_overfetch items total limit with
          | Ok s => Ok s
          | Err m => Err (AsterError.ValidationError m)
          | Panic m => Panic m
          end).

Definition create (model : Z -> forward_server) : M AsterError.t forward_server :=
  db_insert servers set_servers url_conflict model.

(** The columns the model has set. *)
Definition update (id : Z) (set : forward_server -> forward_server) : M AsterError.t forward_server :=
  db_exec (fun d =>
    match update_row server_pk id set (servers d) with
    | Some (r, t) =>
        if existsb (fun q => negb (server_pk q =? id) && url_conflict r q) (rows (servers d))
        then Err (AsterError.DatabaseOperation unique_violation)
        else Ok (r, set_servers t d)
    | None => Err (AsterError.DatabaseOperation record_not_updated)
    end).
End Ops.
End ForwardServerRepo.

(** ** The service *)

Record AdminYggdrasilSessionForwardServerInfo : Type := mkServerInfo {
  si_row : forward_server;         (* the columns, as they are *)
  si_local : bool;
  si_deletable : bool
}.

Definition server_to_admin (model : forward_server) : AdminYggdrasilSessionForwardServerInfo :=
  mkServerInfo model (eqb (provider_kind model) ProviderLocal) (negb (builtin model)).

Record CreateYggdrasilSessionForwardServerInput : Type := mkCreateServer {
  cs_display_name : string;
  cs_base_url : string;
  cs_endpoint_kind : option YggdrasilSessionForwardEndpointKind;
  cs_enabled : option bool;
  cs_priority : option Z;
  cs_weight : option Z;
  cs_timeout_ms : option Z;
  cs_texture_forward_enabled : option bool
}.

Record UpdateYggdrasilSessionForwardServerInput : Type := mkUpdateServer {
  us_display_name : option string;
  us_base_url : option string;
  us_endpoint_kind : option YggdrasilSessionForwardEndpointKind;
  us_enabled : option bool;
  us_priority : option Z;
  us_weight : option Z;
  us_timeout_ms : option Z;
  us_texture_forward_enabled : option bool
}.

Definition normalize_display_name (value : string) : outcome AsterError.t string :=
  let value := trim value in
  if is_empty value then Err (AsterError.ValidationError "display_name cannot be empty")
  else if (128 <? str_len value)%nat
  then Err (AsterError.ValidationError "display_name must not exceed 128 bytes")
  else Ok value.

Definition in_range (name : string) (low high value : Z) : outcome AsterError.t Z :=
  if negb ((low <=? value) && (value <=? high))
  then Err (AsterError.ValidationError
              (name +:+ " must be between " +:+ pretty low +:+ " and " +:+ pretty high))
  else Ok value.

Definition normalize_priority : Z -> outcome AsterError.t Z :=
  in_range "priority" MIN_PRIORITY MAX_PRIORITY.
Definition normalize_weight : Z -> outcome AsterError.t Z := in_range "weight" MIN_WEIGHT MAX_WEIGHT.
Definition normalize_timeout_ms : Z -> outcome AsterError.t Z :=
  in_range "timeout_ms" MIN_TIMEOUT_MS MAX_TIMEOUT_MS.

(** A seeded row. *)
Definition builtin_server (name : string) (provider : YggdrasilSessionForwardProviderKind)
  (endpoint : YggdrasilSessionForwardEndpointKind) (url : option string) (on : bool) (prio : Z)
  (now : DateTimeUtc) (id : Z) : forward_server :=
  mkServer id name provider endpoint url true on prio 1 1500 false None None None None now now.

Definition local_builtin_server : DateTimeUtc -> Z -> forward_server :=
  builtin_server LOCAL_DISPLAY_NAME ProviderLocal AuthlibInjector None true 100.
Definition mojang_builtin_server : DateTimeUtc -> Z -> forward_server :=
  builtin_server MOJANG_DISPLAY_NAME ProviderRemote MojangSession
    (Some MOJANG_SESSION_SERVER_BASE_URL) false 200.

(** The columns an update has set. *)
Record ServerChange : Type := mkChange {
  ch_display_name : option string;
  ch_base_url : option string;
  ch_endpoint_kind : option YggdrasilSessionForwardEndpointKind;
  ch_enabled : option bool;
  ch_priority : option Z;
  ch_weight : option Z;
  ch_timeout_ms : option Z;
  ch_texture_forward_enabled : option bool
}.

Definition with_change (c : ServerChange) (now : DateTimeUtc) (s : forward_server) : forward_server :=
  mkServer (server_pk s) (default (display_name s) (ch_display_name c)) (provider_kind s)
    (default (endpoint_kind s) (ch_endpoint_kind c))
    (match ch_base_url c with Some url => Some url | None => base_url s end)
    (builtin s) (default (enabled s) (ch_enabled c)) (default (priority s) (ch_priority c))
    (default (weight s) (ch_weight c)) (default (timeout_ms s) (ch_timeout_ms c))
    (default (texture_forward_enabled s) (ch_texture_forward_enabled c))
    (last_checked_at s) (last_success_at s) (last_failure_at s) (last_failure_message s)
    (server_created_at s) now.

Section Service.
Context `{EN : Env} `{CB : CacheBackend} `{FA : ForgeApi} `{YE : YggdrasilExterns}.

Definition normalize_base_url (value : string) : outcome AsterError.t string :=
  non_empty_url "base_url cannot be empty" (normalize_http_base_url value "base_url" true).

Definition seed (model : DateTimeUtc -> Z -> forward_server) : M AsterError.t unit :=
  let* now := utc_now in
  let* _ := ForwardServerRepo.create (model now) in
  ret tt.

(** The number of rows inserted. *)
Definition ensure_builtin_servers : M AsterError.t nat :=
  let* local := ServerRepo.find_local in
  let* n := if is_none local then (do* seed local_builtin_server in ret 1%nat) else ret 0%nat in
  let* mojang := ServerRepo.find_by_base_url MOJANG_SESSION_SERVER_BASE_URL in
  let* m := if is_none mojang then (do* seed mojang_builtin_server in ret 1%nat) else ret 0%nat in
  ret (n + m)%nat.

Definition prepare_runtime_session_forward_servers : M AsterError.t nat := ensure_builtin_servers.

Definition repo_cursor (after_id : option Z) (after_call_order : option (bool * Z * Z))
  (by_key : YggdrasilSessionForwardServerSortBy)
  : option ForwardServerRepo.SessionForwardServerCursor :=
  match by_key with
  | CallOrder => option_map (fun c => ForwardServerRepo.AtCall (fst (fst c)) (snd (fst c)) (snd c))
                   after_call_order
  | SortById => option_map ForwardServerRepo.AtId after_id
  end.

Definition cursor_at (by_key : YggdrasilSessionForwardServerSortBy) (s : forward_server)
  : ForwardServerRepo.SessionForwardServerCursor :=
  match by_key with
  | CallOrder => ForwardServerRepo.AtCall (enabled s) (priority s) (server_pk s)
  | SortById => ForwardServerRepo.AtId (server_pk s)
  end.

Definition list_servers (limit : Z) (after_id : option Z)
  (after_call_order : option (bool * Z * Z)) (by_key : YggdrasilSessionForwardServerSortBy)
  : M AsterError.t (CursorPage AdminYggdrasilSessionForwardServerInfo
                      ForwardServerRepo.SessionForwardServerCursor) :=
  let limit := SessionRepo.clamp limit 1 100 in
  let* page := ForwardServerRepo.find_cursor limit
                 (repo_cursor after_id after_call_order by_key) by_key in
  let next_cursor :=
    if has_more page then option_map (cursor_at by_key) (last (items page)) else None in
  ret (mkPage (List.map server_to_admin (items page)) (total page) limit next_cursor).

Definition get_server (id : Z) : M AsterError.t AdminYggdrasilSessionForwardServerInfo :=
  let* server := ServerRepo.find_by_id id in
  ret (server_to_admin server).

Definition ensure_base_url_available (current_id : option Z) (url : string)
  : M AsterError.t unit :=
  let* existing := ServerRepo.find_by_base_url url in
  when_ok (is_some_and existing (fun s => negb (eqb (Some (server_pk s)) current_id)))
    (AsterError.ValidationError "Yggdrasil forwarding server base_url already exists").

Definition create_server (input : CreateYggdrasilSessionForwardServerInput)
  : M AsterError.t AdminYggdrasilSessionForwardServerInfo :=
  let* name := lift (normalize_display_name (cs_display_name input)) in
  let* url := lift (normalize_base_url (cs_base_url input)) in
  let endpoint := default AuthlibInjector (cs_endpoint_kind input) in
  do* ensure_base_url_available None url in
  let* prio := lift (normalize_priority (default 100 (cs_priority input))) in
  let* weight := lift (normalize_weight (default 1 (cs_weight input))) in
  let* timeout := lift (normalize_timeout_ms (default 1500 (cs_timeout_ms input))) in
  let* now := utc_now in
  let* server := ForwardServerRepo.create (fun id =>
    mkServer id name ProviderRemote endpoint (Some url) false (default true (cs_enabled input))
      prio weight timeout (default false (cs_texture_forward_enabled input)) None None None None
      now now) in
  do* SessionCache.invalidate_session_forward_servers in
  ret (server_to_admin server).

(** An optional field, normalized. *)
Definition normalized {A} (f : A -> outcome AsterError.t A) (o : option A)
  : outcome AsterError.t (option A) :=
  match o with
  | None => Ok None
  | Some a => match f a with Ok b => Ok (Some b) | Err e => Err e | Panic m => Panic m end
  end.

Definition changed_base_url (id : Z) (is_builtin : bool) (url : option string)
  : M AsterError.t (option string) :=
  match url with
  | None => ret None
  | Some url =>
      do* when_ok is_builtin (AsterError.ValidationError
            "built-in Yggdrasil forwarding server base_url cannot be changed") in
      let* url := lift (normalize_base_url url) in
      do* ensure_base_url_available (Some id) url in
      ret (Some url)
  end.

Definition update_server (id : Z) (input : UpdateYggdrasilSessionForwardServerInput)
  : M AsterError.t AdminYggdrasilSessionForwardServerInfo :=
  let* existing := ServerRepo.find_by_id id in
  let* name := lift (normalized normalize_display_name (us_display_name input)) in
  let* url := changed_base_url id (builtin existing) (us_base_url input) in
  do* when_ok (is_some (us_endpoint_kind input) && builtin existing)
    (AsterError.ValidationError
       "built-in Yggdrasil forwarding server endpoint_kind cannot be changed") in
  let* prio := lift (normalized normalize_priority (us_priority input)) in
  let* weight := lift (normalized normalize_weight (us_weight input)) in
  let* timeout := lift (normalized normalize_timeout_ms (us_timeout_ms input)) in
  do* when_ok (is_some_and (us_texture_forward_enabled input) (fun on =>
                 eqb (provider_kind existing) ProviderLocal && on))
    (AsterError.ValidationError
       "local Yggdrasil forwarding server cannot enable texture forwarding") in
  let* now := utc_now in
  let* server := ForwardServerRepo.update (server_pk existing)
    (with_change (mkChange name url (us_endpoint_kind input) (us_enabled input) prio weight timeout
                    (us_texture_forward_enabled input)) now) in
  do* SessionCache.invalidate_session_forward_servers in
  ret (server_to_admin server).

Definition delete_server (id : Z) : M AsterError.t AdminYggdrasilSessionForwardServerInfo :=
  let* server := ServerRepo.find_by_id id in
  do* when_ok (builtin server)
    (AsterError.ValidationError "built-in Yggdrasil forwarding server cannot be deleted") in
  let info := server_to_admin server in
  do* ServerRepo.delete id in
  do* SessionCache.invalidate_session_forward_servers in
  ret info.
End Service.
