(* ===== verification/ForwardServerProofs.v ===== *)
(** * The forward servers over every history

    [servers_wf]: the settings of every server are in range, a remote server
    has a URL of its own, the local one forwards no textures.  Requests keep
    it, and never touch what a built-in server is. *)

From Stdlib Require Import ZArith List Bool Lia Ascii.
From stdpp Require Import base decidable list strings pretty relations.
From S2P Require Import Prelude Text Errors Types AuditLog World Logic Repos Tokens Auth Concrete ForwardTextures Sessions WebSessions AccountSpec AccountConcrete SessionPages Invitations Tracks YggdrasilConfig ConfigProofs TextureLibrary TextureInvariant ForwardServers.

Local Open Scope Z_scope.

(** ** The invariant *)

Definition is_remote (s : forward_server) : bool := eqb (provider_kind s) ProviderRemote.

Record server_ok (s : forward_server) : Prop := mkServerOk {
  ok_priority : MIN_PRIORITY <= priority s <= MAX_PRIORITY;
  ok_weight : MIN_WEIGHT <= weight s <= MAX_WEIGHT;
  ok_timeout : MIN_TIMEOUT_MS <= timeout_ms s <= MAX_TIMEOUT_MS;
  ok_name : (0 < str_len (display_name s) <= 128)%nat;
  ok_url : is_some (base_url s) = is_remote s;
  ok_local : provider_kind s = ProviderLocal ->
    builtin s = true /\ texture_forward_enabled s = false
}.

Record servers_wf (t : Table forward_server) : Prop := mkServersWf {
  server_keys : List.NoDup (List.map server_pk (rows t));
  server_keys_below s : In s (rows t) -> server_pk s < next_pk t;
  server_urls s s' : In s (rows t) -> In s' (rows t) ->
    ForwardServerRepo.url_conflict s s' = true -> s = s';
  server_rows s : In s (rows t) -> server_ok s
}.

(** What a built-in server is: its administrator may rename it, switch it on
    and off and tune it, no more. *)
Definition same_builtin (s s' : forward_server) : Prop :=
  server_pk s' = server_pk s /\ builtin s' = true /\ provider_kind s' = provider_kind s /\
  endpoint_kind s' = endpoint_kind s /\ base_url s' = base_url s.

Definition builtins_kept (t t' : Table forward_server) : Prop :=
  forall s, In s (rows t) -> builtin s = true -> exists s', In s' (rows t') /\ same_builtin s s'.

Definition server_steps (d d' : Db) : Prop :=
  servers_wf (servers d) -> servers_wf (servers d') /\ builtins_kept (servers d) (servers d').

#[export] Instance server_steps_preorder : PreOrder server_steps.
Proof.
  split.
  - intros d Hwf. split; [done|]. intros s Hs Hb. exists s. by split_and!.
  - intros d1 d2 d3 H1 H2 Hwf. destruct (H1 Hwf) as [Hwf2 K1]. destruct (H2 Hwf2) as [Hwf3 K2].
    split; [done|]. intros s Hs Hb. destruct (K1 s Hs Hb) as (s2 & Hs2 & E1 & B1 & P1 & N1 & U1).
    destruct (K2 s2 Hs2 B1) as (s3 & Hs3 & E2 & B2 & P2 & N2 & U2).
    exists s3. split; [done|]. split_and!; congruence.
Qed.

(** Equal rows by key. *)
Lemma wf_same_key t s s' :
  servers_wf t -> In s (rows t) -> In s' (rows t) -> server_pk s = server_pk s' -> s = s'.
Proof. intros Hwf. apply (NoDup_map_inj_in server_pk), Hwf. Qed.

Lemma url_conflict_sym s s' :
  ForwardServerRepo.url_conflict s s' = true -> ForwardServerRepo.url_conflict s' s = true.
Proof.
  unfold ForwardServerRepo.url_conflict. intros [H1 H2]%andb_true_iff. rewrite eqb_true in H2.
  rewrite <- H2. by rewrite H1, eqb_refl.
Qed.

Lemma server_insert_steps d (mk : Z -> forward_server) :
  (forall id, server_pk (mk id) = id) -> (forall id, server_ok (mk id)) ->
  existsb (ForwardServerRepo.url_conflict (mk (next_pk (servers d)))) (rows (servers d)) = false ->
  server_steps d (set_servers (mkTable (rows (servers d) ++ [mk (next_pk (servers d))])
                                (next_pk (servers d) + 1)) d).
Proof.
  intros Hpk Hok Hfree [H1 H2 H3 H4]. set (r := mk _) in *.
  assert (Hno : forall s, In s (rows (servers d)) -> ForwardServerRepo.url_conflict r s = false).
  { intros s Hs. destruct (ForwardServerRepo.url_conflict r s) eqn:E; [|done].
    assert (existsb (ForwardServerRepo.url_conflict r) (rows (servers d)) = true)
      by (apply existsb_exists; eauto). congruence. }
  split; [split; cbn|].
  - rewrite List.map_app. cbn. apply NoDup_app_singleton; [done|]. unfold r. rewrite Hpk.
    intros (s & E & Hs)%in_map_iff. apply H2 in Hs. lia.
  - intros s [Hs%H2|[<-|[]]]%in_app_or; [lia|]. unfold r. rewrite Hpk. lia.
  - intros s s' [Hs|[<-|[]]]%in_app_or [Hs'|[<-|[]]]%in_app_or Hc; [by apply H3| | |done].
    + apply url_conflict_sym in Hc. by rewrite Hno in Hc.
    + by rewrite Hno in Hc.
  - intros s [Hs|[<-|[]]]%in_app_or; [auto|apply Hok].
  - intros s Hs Hb. exists s. split; [apply in_or_app; by left|]. by split_and!.
Qed.

Lemma server_delete_steps d id :
  (forall s, In s (rows (servers d)) -> server_pk s = id -> builtin s = false) ->
  server_steps d (set_servers (with_rows (delete_where (ServerRepo.is_server id) (rows (servers d)))
                                 (servers d)) d).
Proof.
  intros Hb [H1 H2 H3 H4]. split; [split; cbn|].
  - by apply NoDup_map_rows_where.
  - intros s [Hs _]%in_delete_where. auto.
  - intros s s' [Hs _]%in_delete_where [Hs' _]%in_delete_where. auto.
  - intros s [Hs _]%in_delete_where. auto.
  - intros s Hs Hbs. exists s. split; [|by split_and!]. apply in_delete_where. split; [done|].
    apply Z.eqb_neq. intros E. specialize (Hb s Hs E). congruence.
Qed.

(** A row rewritten in place: its key stays, its URL is free. *)
Lemma server_update_steps d id f :
  (forall s, server_pk (f s) = server_pk s) ->
  (forall s, In s (rows (servers d)) -> server_pk s = id -> server_ok s -> server_ok (f s)) ->
  (forall s, In s (rows (servers d)) -> server_pk s = id -> builtin s = true -> same_builtin s (f s)) ->
  (forall s q, In s (rows (servers d)) -> server_pk s = id -> In q (rows (servers d)) ->
     server_pk q <> id -> ForwardServerRepo.url_conflict (f s) q = false) ->
  server_steps d (set_servers (with_rows (update_where (ServerRepo.is_server id) f (rows (servers d)))
                                 (servers d)) d).
Proof.
  intros Hpk Hok Hb Hfree Hwf. pose proof Hwf as [H1 H2 H3 H4].
  unfold ServerRepo.is_server. split; [split; cbn|].
  - rewrite update_where_map; auto.
  - intros s (q & Hq & ->)%in_update_where. destruct (_ =? id); rewrite ?Hpk; auto.
  - intros s s' (q & Hq & ->)%in_update_where (q' & Hq' & ->)%in_update_where Hc.
    destruct (Z.eqb_spec (server_pk q) id) as [E|E], (Z.eqb_spec (server_pk q') id) as [E'|E'].
    + f_equal. eapply wf_same_key; [exact Hwf|done|done|congruence].
    + by rewrite Hfree in Hc.
    + apply url_conflict_sym in Hc. by rewrite Hfree in Hc.
    + auto.
  - intros s (q & Hq & ->)%in_update_where. destruct (Z.eqb_spec (server_pk q) id); auto.
  - intros s Hs Hbs. exists (if server_pk s =? id then f s else s). split.
    + apply in_update_where. eauto.
    + destruct (Z.eqb_spec (server_pk s) id); [auto|by split_and!].
Qed.

(** ** Normalized settings *)

Lemma in_range_ok name low high v v' : in_range name low high v = Ok v' -> v' = v /\ low <= v <= high.
Proof.
  unfold in_range. destruct (Z.leb_spec low v), (Z.leb_spec v high); cbn; try done.
  intros [= <-]. lia.
Qed.

Lemma display_name_ok v v' : normalize_display_name v = Ok v' -> (0 < str_len v' <= 128)%nat.
Proof.
  unfold normalize_display_name. destruct (is_empty _) eqn:E; [done|].
  destruct (Nat.ltb_spec 128 (str_len (trim v))); [done|]. intros [= <-].
  destruct (trim v); [done|]. cbn in *. lia.
Qed.

Lemma normalized_ok {A} (f : A -> outcome AsterError.t A) o o' :
  normalized f o = Ok o' -> forall a', o' = Some a' -> exists a, o = Some a /\ f a = Ok a'.
Proof.
  unfold normalized. destruct o as [a|]; [|by intros [= <-]].
  destruct (f a) eqn:E; [|done..]. intros [= <-] a' [= ->]. eauto.
Qed.

(** What an update may set. *)
Record change_ok (s : forward_server) (c : ServerChange) : Prop := mkChangeOk {
  change_name n : ch_display_name c = Some n -> (0 < str_len n <= 128)%nat;
  change_priority n : ch_priority c = Some n -> MIN_PRIORITY <= n <= MAX_PRIORITY;
  change_weight n : ch_weight c = Some n -> MIN_WEIGHT <= n <= MAX_WEIGHT;
  change_timeout n : ch_timeout_ms c = Some n -> MIN_TIMEOUT_MS <= n <= MAX_TIMEOUT_MS;
  change_builtin : builtin s = true -> ch_base_url c = None /\ ch_endpoint_kind c = None;
  change_textures : provider_kind s = ProviderLocal -> ch_texture_forward_enabled c <> Some true
}.

Lemma with_change_ok s c now :
  change_ok s c -> server_ok s -> server_ok (with_change c now s).
Proof.
  intros [Cn Cp Cw Ct Cb Cx] [H1 H2 H3 H4 H5 H6]. split; cbn.
  - destruct (ch_priority c) eqn:E; cbn; auto.
  - destruct (ch_weight c) eqn:E; cbn; auto.
  - destruct (ch_timeout_ms c) eqn:E; cbn; auto.
  - destruct (ch_display_name c) eqn:E; cbn; auto.
  - destruct (ch_base_url c) as [u|] eqn:E; [|done]. unfold is_remote. cbn.
    destruct (provider_kind s) eqn:Ep; [|done]. by destruct (Cb (proj1 (H6 eq_refl))).
  - intros Hp. destruct (H6 Hp) as [Hb Ht]. split; [done|].
    destruct (ch_texture_forward_enabled c) as [[|]|] eqn:E; cbn; [by destruct (Cx Hp)|done|done].
Qed.

Lemma with_change_builtin s c now :
  change_ok s c -> builtin s = true -> same_builtin s (with_change c now s).
Proof.
  intros [_ _ _ _ Cb _] Hb. destruct (Cb Hb) as [Eu Ee]. split_and!; cbn; try done.
  - by rewrite Ee.
  - by rewrite Eu.
Qed.

(** ** Requests *)

Section Requests.
Context `{EN : Env} `{CB : CacheBackend} `{FA : ForgeApi} `{YE : YggdrasilExterns}.
Context `{CL : !CacheLaws CB}.

#[export] Instance reads_find_server id : Reads (ServerRepo.find_by_id id).
Proof. unfold ServerRepo.find_by_id. apply _. Qed.
#[export] Instance reads_find_url url : Reads (ServerRepo.find_by_base_url url).
Proof. unfold ServerRepo.find_by_base_url. apply _. Qed.
#[export] Instance reads_find_local : Reads ServerRepo.find_local.
Proof. unfold ServerRepo.find_local. apply _. Qed.
#[export] Instance reads_url_available i url : Reads (ensure_base_url_available i url).
Proof. unfold ensure_base_url_available. apply _. Qed.
#[export] Instance reads_changed_url id b url : Reads (changed_base_url id b url).
Proof. unfold changed_base_url. apply _. Qed.

(** The change an input asks for. *)
Definition requested (input : UpdateYggdrasilSessionForwardServerInput) (c : ServerChange) : Prop :=
  ch_display_name c = (trim <$> us_display_name input) /\
  is_some (ch_base_url c) = is_some (us_base_url input) /\
  ch_endpoint_kind c = us_endpoint_kind input /\ ch_enabled c = us_enabled input /\
  ch_priority c = us_priority input /\ ch_weight c = us_weight input /\
  ch_timeout_ms c = us_timeout_ms input /\
  ch_texture_forward_enabled c = us_texture_forward_enabled input.

(** No other server has the URL. *)
Definition url_free (c : ServerChange) (id : Z) (t : Table forward_server) : Prop :=
  forall url q, ch_base_url c = Some url -> In q (rows t) -> server_pk q <> id ->
    base_url q <> Some url.

Definition server_updated (id : Z) (input : UpdateYggdrasilSessionForwardServerInput) (w : World)
  (info : AdminYggdrasilSessionForwardServerInfo) (w' : World) : Prop :=
  exists s c now, In s (rows (servers (db w))) /\ server_pk s = id /\ requested input c /\
    change_ok s c /\ url_free c id (servers (db w)) /\
    info = server_to_admin (with_change c now s) /\
    db w' = set_servers (with_rows (update_where (fun s => server_pk s =? id) (with_change c now)
                                      (rows (servers (db w)))) (servers (db w))) (db w).

Lemma normalized_range name low high o o' :
  normalized (in_range name low high) o = Ok o' ->
  o' = o /\ forall n, o' = Some n -> low <= n <= high.
Proof.
  unfold normalized. destruct o as [a|]; [|by intros [= <-]].
  destruct (in_range name low high a) eqn:E; [|done..]. apply in_range_ok in E as [-> Hr].
  intros [= <-]. split; [done|]. by intros n [= <-].
Qed.

Lemma normalized_name o o' :
  normalized normalize_display_name o = Ok o' ->
  o' = (trim <$> o) /\ forall n, o' = Some n -> (0 < str_len n <= 128)%nat.
Proof.
  unfold normalized. destruct o as [a|]; [|by intros [= <-]].
  destruct (normalize_display_name a) as [n|e|m] eqn:E; [|done..]. pose proof (display_name_ok _ _ E) as Hn.
  intros [= <-]. split; [|by intros m [= <-]]. unfold normalize_display_name in E.
  destruct (is_empty _); [done|]. destruct (_ <? _)%nat; [done|]. by injection E as <-.
Qed.

(** What the check of a new URL has seen. *)
Lemma changed_url_ok id b url w o w' :
  changed_base_url id b url w = (Ok o, w') ->
  is_some o = is_some url /\ (b = true -> o = None) /\
  forall u q, o = Some u ->
    find_row (fun s => eqb (base_url s) (Some u)) (rows (servers (db w))) = Some q -> server_pk q = id.
Proof.
  unfold changed_base_url. destruct url as [v|]; [|by intros [= <- <-]]. intros H.
  apply bind_ok in H as ([] & w1 & H1 & H). apply when_ok_ok in H1 as [-> ->].
  apply bind_ok in H as (u & w2 & H2 & H). apply lift_ok in H2 as [_ ->].
  apply bind_ok in H as ([] & w3 & H3 & H). injection H as <- <-. split; [done|]. split; [done|].
  intros u' q [= <-] Hq. unfold ensure_base_url_available in H3.
  apply bind_ok in H3 as (ex & w4 & H4 & H3). apply db_query_ok in H4 as (-> & -> & _).
  apply when_ok_ok in H3 as [H3 _]. rewrite Hq in H3. cbn in H3.
  apply negb_false_iff in H3. rewrite eqb_true in H3. congruence.
Qed.

(** With the URLs distinct, finding this row first means no other has it. *)
Lemma url_free_found (t : Table forward_server) u id :
  servers_wf t ->
  (forall q, find_row (fun s => eqb (base_url s) (Some u)) (rows t) = Some q -> server_pk q = id) ->
  forall q, In q (rows t) -> server_pk q <> id -> base_url q <> Some u.
Proof.
  intros Hwf Hf q Hq Hne Eu. destruct (find_row _ _) as [s|] eqn:E.
  - pose proof (Hf s eq_refl) as Es. apply find_row_some in E as [Hs Eb]. rewrite eqb_true in Eb.
    apply Hne. rewrite <- Es. f_equal. apply (server_urls _ Hwf); [done|done|].
    unfold ForwardServerRepo.url_conflict. by rewrite Eu, Eb, eqb_refl.
  - eapply find_row_none in E; [|exact Hq]. cbn in E. by rewrite eqb_false in E.
Qed.

Lemma update_server_wp id input w :
  servers_wf (servers (db w)) ->
  wp (update_server id input) (fun r w' =>
    match r with
    | Ok info => server_updated id input w info w' /\ uncached w' SessionCache.SESSION_FORWARD_SERVER_KEY
    | _ => db w' = db w
    end) w.
Proof.
  intros Hwf. unfold update_server.
  pose proof (same_refl w) as S0. wp_read_on s w1 Hs from S0 as S1.
  apply bind_ok in Hs as (found & w0 & Hq & Hs). apply db_query_ok in Hq as (-> & -> & _).
  apply lift_ok in Hs as [Hs _]. destruct (find_row _ _) as [s'|] eqn:Ef; [|done].
  injection Hs as ->. apply find_row_some in Ef as [Hin Hid%Z.eqb_eq].
  wp_read_on name w2 Hn from S1 as S2.
  apply lift_ok in Hn as [[En Hn]%normalized_name _].
  wp_read_on url w3 Hu from S2 as S3.
  apply changed_url_ok in Hu as (Eu & Hbu & Hu). rewrite (same_db _ _ S2) in Hu.
  wp_read_on u4 w4 He from S3 as S4.
  apply when_ok_ok in He as [He _].
  wp_read_on prio w5 Hp from S4 as S5.
  apply lift_ok in Hp as [[Ep Hp]%normalized_range _].
  wp_read_on wt w6 Hw from S5 as S6.
  apply lift_ok in Hw as [[Ew Hw]%normalized_range _].
  wp_read_on ms w7 Ht from S6 as S7.
  apply lift_ok in Ht as [[Et Ht]%normalized_range _].
  wp_read_on u8 w8 Hx from S7 as S8.
  apply when_ok_ok in Hx as [Hx _]. apply same_db in S8.
  apply wp_bind, wp_utc_now. cbn [wp_next].
  set (c := mkChange name url (us_endpoint_kind input) (us_enabled input) prio wt ms
              (us_texture_forward_enabled input)).
  apply wp_bind, wp_db_exec; [by intros|]. intros _. cbn [db tick]. rewrite S8. unfold update_row.
  destruct (find_row _ _) as [s2|] eqn:Ef; [|done]. apply find_row_some in Ef as [Hin2 Hid2%Z.eqb_eq].
  assert (s2 = s) as -> by (eapply wf_same_key; eauto).
  destruct (existsb _ _); [done|]. cbn [wp_next]. apply wp_bind, wp_cache_update. cbn [wp_next].
  apply wp_ret. split; [|by intros t v [? _]%get_delete].
  exists s, c, (clock (step w8)). rewrite Hid. split_and!; try done.
  - split; cbn; auto.
    + intros Hb. split; [auto|]. destruct (us_endpoint_kind input); [|done]. cbn in He. congruence.
    + intros Hl Ex. rewrite Ex, Hl in Hx. done.
  - intros u q Ec. apply url_free_found; [done|]. intros q' Hq'. by eapply Hu.
Qed.

Lemma updated_steps id input w info w' :
  servers_wf (servers (db w)) -> server_updated id input w info w' ->
  server_steps (db w) (db w').
Proof.
  intros Hwf (s & c & now & Hs & Hid & _ & Hc & Hfree & _ & ->).
  assert (Hone : forall q, In q (rows (servers (db w))) -> server_pk q = id -> q = s).
  { intros q Hq Hq'. eapply wf_same_key; [exact Hwf|done|done|congruence]. }
  apply server_update_steps; [done|..].
  - intros q Hq ->%Hone Hok; [|done]. by apply with_change_ok.
  - intros q Hq ->%Hone Hb; [|done]. by apply with_change_builtin.
  - intros q q' Hq ->%Hone Hq' Hne; [|done]. unfold ForwardServerRepo.url_conflict. cbn.
    destruct (ch_base_url c) as [u|] eqn:Eu; cbn [is_some andb].
    + apply eqb_false. intros E. by eapply (Hfree u q').
    + destruct (is_some (base_url s) && eqb (base_url s) (base_url q')) eqn:E; [|done].
      destruct Hne. rewrite <- Hid. f_equal. symmetry. by apply (server_urls _ Hwf).
Qed.

(** *** Creation *)

Definition created_row (input : CreateYggdrasilSessionForwardServerInput) (url : string)
  (now : DateTimeUtc) (id : Z) : forward_server :=
  mkServer id (trim (cs_display_name input)) ProviderRemote
    (default AuthlibInjector (cs_endpoint_kind input)) (Some url) false
    (default true (cs_enabled input)) (default 100 (cs_priority input))
    (default 1 (cs_weight input)) (default 1500 (cs_timeout_ms input))
    (default false (cs_texture_forward_enabled input)) None None None None now now.

Definition server_created (input : CreateYggdrasilSessionForwardServerInput) (w : World)
  (info : AdminYggdrasilSessionForwardServerInfo) (w' : World) : Prop :=
  exists url now, let r := created_row input url now (next_pk (servers (db w))) in
    normalize_base_url (cs_base_url input) = Ok url /\ server_ok r /\
    existsb (ForwardServerRepo.url_conflict r) (rows (servers (db w))) = false /\
    info = server_to_admin r /\
    db w' = set_servers (mkTable (rows (servers (db w)) ++ [r]) (next_pk (servers (db w)) + 1)) (db w).

Lemma create_server_wp input w :
  wp (create_server input) (fun r w' =>
    match r with
    | Ok info => server_created input w info w' /\ uncached w' SessionCache.SESSION_FORWARD_SERVER_KEY
    | _ => db w' = db w
    end) w.
Proof.
  unfold create_server. pose proof (same_refl w) as S0.
  wp_read_on name w1 Hn from S0 as S1. apply lift_ok in Hn as [Hn _].
  wp_read_on url w2 Hu from S1 as S2. apply lift_ok in Hu as [Hu _]. cbv zeta.
  wp_read_on u3 w3 Hr3 from S2 as S3.
  wp_read_on prio w4 Hp from S3 as S4. apply lift_ok in Hp as [[-> Hp]%in_range_ok _].
  wp_read_on wt w5 Hw from S4 as S5. apply lift_ok in Hw as [[-> Hw]%in_range_ok _].
  wp_read_on ms w6 Ht from S5 as S6. apply lift_ok in Ht as [[-> Ht]%in_range_ok _].
  wp_read_on now w7 Hr7 from S6 as S7. apply same_db in S7.
  apply wp_bind, wp_db_insert; [by intros|]. intros _. cbv zeta. rewrite S7. intros Hfree.
  cbn [wp_next]. apply wp_bind, wp_cache_update. cbn [wp_next]. apply wp_ret.
  split; [|by intros t v [? _]%get_delete]. pose proof (display_name_ok _ _ Hn) as Hl.
  unfold normalize_display_name in Hn. destruct (is_empty _); [done|]. destruct (_ <? _)%nat; [done|].
  injection Hn as <-. exists url, now. split_and!; try done.
Qed.

Lemma created_steps input w info w' :
  server_created input w info w' -> server_steps (db w) (db w').
Proof.
  intros (url & now & _ & Hok & Hfree & _ & ->).
  apply (server_insert_steps _ (created_row input url now)); [done| |done]. intros id. by destruct Hok.
Qed.

(** *** Deletion *)

Definition server_deleted (id : Z) (w : World) (info : AdminYggdrasilSessionForwardServerInfo)
  (w' : World) : Prop :=
  exists s, In s (rows (servers (db w))) /\ server_pk s = id /\ builtin s = false /\
    info = server_to_admin s /\
    db w' = set_servers (with_rows (delete_where (ServerRepo.is_server id) (rows (servers (db w))))
                           (servers (db w))) (db w).

Lemma delete_server_wp id w :
  wp (delete_server id) (fun r w' =>
    match r with
    | Ok info => server_deleted id w info w' /\ uncached w' SessionCache.SESSION_FORWARD_SERVER_KEY
    | _ => db w' = db w
    end) w.
Proof.
  unfold delete_server. pose proof (same_refl w) as S0. wp_read_on s w1 Hs from S0 as S1.
  apply bind_ok in Hs as (found & w0 & Hq & Hs). apply db_query_ok in Hq as (-> & -> & _).
  apply lift_ok in Hs as [Hs _]. destruct (find_row _ _) as [s'|] eqn:Ef; [|done].
  injection Hs as ->. apply find_row_some in Ef as [Hin Hid%Z.eqb_eq].
  wp_read_on u2 w2 Hb from S1 as S2. apply when_ok_ok in Hb as [Hb _]. apply same_db in S2.
  cbv zeta. unfold ServerRepo.delete. apply wp_bind, wp_bind, wp_db_delete_many; [by intros|].
  intros _. cbn [wp_next]. rewrite S2. apply wp_when_ok.
  - intros E%Z.eqb_eq. exfalso. assert (0 < count_where (ServerRepo.is_server id) (rows (servers (db w))))%nat.
    { unfold count_where. destruct (rows_where _ _) eqn:E2; cbn; [|lia].
      assert (In s (rows_where (ServerRepo.is_server id) (rows (servers (db w)))))
        by (apply in_rows_where; split; [done|by apply Z.eqb_eq]). by rewrite E2 in *. }
    lia.
  - intros _. cbn [wp_next]. apply wp_bind, wp_cache_update. cbn [wp_next]. apply wp_ret.
    split; [|by intros t v [? _]%get_delete]. exists s. by split_and!.
Qed.

Lemma deleted_steps id w info w' :
  servers_wf (servers (db w)) -> server_deleted id w info w' -> server_steps (db w) (db w').
Proof.
  intros Hwf (s & Hs & Hid & Hb & _ & ->). apply server_delete_steps. intros q Hq E.
  assert (q = s) as -> by (eapply wf_same_key; [exact Hwf|done|done|congruence]). done.
Qed.

(** *** What hasJoined notes on a server *)

Lemma noted_steps d id f :
  (forall s, server_pk (f s) = server_pk s /\ base_url (f s) = base_url s) ->
  (forall s, server_ok s -> server_ok (f s)) ->
  (forall s, builtin s = true -> same_builtin s (f s)) ->
  server_steps d (set_servers (with_rows (update_where (ServerRepo.is_server id) f (rows (servers d)))
                                 (servers d)) d).
Proof.
  intros Hf Hok Hb Hwf. apply server_update_steps; auto.
  - intros s. apply Hf.
  - intros s q Hs Hid Hq Hne. unfold ForwardServerRepo.url_conflict.
    destruct (Hf s) as [_ ->]. destruct (is_some (base_url s) && eqb (base_url s) (base_url q)) eqn:E; [|done].
    destruct Hne. rewrite <- Hid. f_equal. symmetry. by apply (server_urls _ Hwf).
Qed.

Lemma marked_steps (p : M AsterError.t bool) f id :
  p = (let* n := db_update_many servers set_servers (ServerRepo.is_server id) f in ret (n =? 1))%aster ->
  (forall s, server_pk (f s) = server_pk s /\ base_url (f s) = base_url s) ->
  (forall s, server_ok s -> server_ok (f s)) ->
  (forall s, builtin s = true -> same_builtin s (f s)) -> Tracks server_steps p.
Proof.
  intros -> H1 H2 H3. apply tracks_bind; [|intros; apply _]. apply tracks_update_many.
  intros d. by apply noted_steps.
Qed.

Lemma seed_steps model :
  (forall now id, server_pk (model now id) = id) -> (forall now id, server_ok (model now id)) ->
  Tracks server_steps (seed model).
Proof.
  intros Hpk Hok. unfold seed. apply tracks_bind; [apply _|intros now].
  apply tracks_bind; [|intros; apply _]. apply tracks_insert. intros d.
  by apply (server_insert_steps d (model now)).
Qed.

Lemma builtin_ok name provider endpoint url on prio now id :
  MIN_PRIORITY <= prio <= MAX_PRIORITY -> (0 < str_len name <= 128)%nat ->
  is_some url = eqb provider ProviderRemote ->
  server_ok (builtin_server name provider endpoint url on prio now id).
Proof.
  intros Hp Hn Hu. split; cbn; try done; unfold MIN_WEIGHT, MAX_WEIGHT, MIN_TIMEOUT_MS, MAX_TIMEOUT_MS; lia.
Qed.

Lemma ensure_steps : Tracks server_steps ensure_builtin_servers.
Proof.
  assert (Tracks server_steps (seed local_builtin_server)) as Hl.
  { apply seed_steps; [done|]. intros now id. apply builtin_ok; [unfold MIN_PRIORITY, MAX_PRIORITY; lia|cbn; lia|done]. }
  assert (Tracks server_steps (seed mojang_builtin_server)) as Hm.
  { apply seed_steps; [done|]. intros now id. apply builtin_ok; [unfold MIN_PRIORITY, MAX_PRIORITY; lia|cbn; lia|done]. }
  unfold ensure_builtin_servers. apply tracks_bind; [apply _|intros local].
  apply tracks_bind; [destruct (is_none local); apply _|intros n].
  apply tracks_bind; [apply _|intros mojang].
  apply tracks_bind; [destruct (is_none mojang); apply _|intros m]. apply _.
Qed.

(** What happens to the table: the administrator's requests, start-up, and
    the results hasJoined notes. *)
Inductive server_request : Type :=
| CreateServer (input : CreateYggdrasilSessionForwardServerInput)
| UpdateServer (id : Z) (input : UpdateYggdrasilSessionForwardServerInput)
| DeleteServer (id : Z)
| SeedServers
| NoteSuccess (id : Z) (checked_at : DateTimeUtc)
| NoteFailure (id : Z) (checked_at : DateTimeUtc) (message : string).

Definition handle_server (r : server_request) (w : World) : World :=
  match r with
  | CreateServer input => snd (create_server input w)
  | UpdateServer id input => snd (update_server id input w)
  | DeleteServer id => snd (delete_server id w)
  | SeedServers => snd (ensure_builtin_servers w)
  | NoteSuccess id t => snd (ServerRepo.mark_success id t w)
  | NoteFailure id t m => snd (ServerRepo.mark_failure id t m w)
  end.

Lemma handle_server_steps r w :
  servers_wf (servers (db w)) -> server_steps (db w) (db (handle_server r w)).
Proof.
  intros Hwf. destruct r; cbn [handle_server].
  - destruct (create_server input w) as [o w'] eqn:E.
    pose proof (wp_run _ _ _ _ _ (create_server_wp input w) E) as H.
    destruct o; [by destruct H as [H _]; eapply created_steps|..]; cbn; rewrite H; done.
  - destruct (update_server id input w) as [o w'] eqn:E.
    pose proof (wp_run _ _ _ _ _ (update_server_wp id input w Hwf) E) as H.
    destruct o; [by destruct H as [H _]; eapply updated_steps|..]; cbn; rewrite H; done.
  - destruct (delete_server id w) as [o w'] eqn:E.
    pose proof (wp_run _ _ _ _ _ (delete_server_wp id w) E) as H.
    destruct o; [by destruct H as [H _]; eapply deleted_steps|..]; cbn; rewrite H; done.
  - apply ensure_steps.
  - eapply marked_steps; [done|done| |done]. by intros s [].
  - eapply marked_steps; [done|done| |done]. by intros s [].
Qed.

Lemma history_steps requests w :
  server_steps (db w) (db (List.fold_left (fun w r => handle_server r w) requests w)).
Proof.
  revert w. induction requests as [|r requests IH]; intros w; cbn; [done|]. intros Hwf.
  assert (server_steps (db w) (db (handle_server r w))) as H1 by by apply handle_server_steps.
  by apply (transitivity H1 (IH _)).
Qed.

(** C21: The forward servers stay sound: over every history of
    administrator requests, start-ups and noted results, keys and URLs are
    unique, every priority, weight, timeout and name is in range, a server
    has a URL exactly when it is remote, and the local server forwards no
    textures; and what a built-in server is never changes: it stays, with its
    provider, endpoint kind and URL. *)
Theorem forward_servers_sound (requests : list server_request) w :
  servers_wf (servers (db w)) ->
  let w' := List.fold_left (fun w r => handle_server r w) requests w in
  servers_wf (servers (db w')) /\ builtins_kept (servers (db w)) (servers (db w')).
Proof. apply history_steps. Qed.

(** Both built-in servers are there. *)
Definition seeded (t : Table forward_server) : Prop :=
  (exists s, In s (rows t) /\ builtin s = true /\ provider_kind s = ProviderLocal) /\
  (exists s, In s (rows t) /\ builtin s = true /\ base_url s = Some MOJANG_SESSION_SERVER_BASE_URL).

Lemma seeded_kept t t' : builtins_kept t t' -> seeded t -> seeded t'.
Proof.
  intros K [(s & Hs & Hb & Hp) (u & Hu & Hc & Hm)].
  destruct (K s Hs Hb) as (s' & Hs' & _ & B & P & _). destruct (K u Hu Hc) as (u' & Hu' & _ & C & _ & _ & U).
  split; [exists s'|exists u']; split_and!; congruence.
Qed.

Lemma local_found t :
  seeded t -> List.hd_error (sort_by ServerRepo.server_id_leb
    (rows_where (fun s => eqb (provider_kind s) ProviderLocal) (rows t))) <> None.
Proof.
  intros [(s & Hs & _ & Hp) _] E.
  assert (In s (sort_by ServerRepo.server_id_leb
    (rows_where (fun s => eqb (provider_kind s) ProviderLocal) (rows t)))) as Hin.
  { apply in_sort_by, in_rows_where. split; [done|]. by rewrite Hp. }
  by destruct (sort_by _ _).
Qed.

Lemma mojang_found t :
  seeded t ->
  find_row (fun s => eqb (base_url s) (Some MOJANG_SESSION_SERVER_BASE_URL)) (rows t) <> None.
Proof.
  intros [_ (s & Hs & _ & Hm)] E. eapply find_row_none in E; [|exact Hs]. cbn in E.
  rewrite Hm, eqb_refl in E. done.
Qed.

(** Seeding happens once: after both built-in servers are
    there, whatever requests follow, another start-up inserts nothing and
    leaves the table as it is. *)
Theorem seeding_happens_once (requests : list server_request) w r w' :
  servers_wf (servers (db w)) -> seeded (servers (db w)) ->
  ensure_builtin_servers (List.fold_left (fun w r => handle_server r w) requests w) = (r, w') ->
  db w' = db (List.fold_left (fun w r => handle_server r w) requests w) /\
  match r with Ok n => n = 0%nat | _ => True end.
Proof.
  intros Hwf Hseed Hr. destruct (history_steps requests w Hwf) as [_ K].
  apply (seeded_kept _ _ K) in Hseed. set (w1 := List.fold_left _ _ _) in *. clearbody w1. clear K Hwf.
  refine (wp_run _ (fun r w' => _) _ _ _ _ Hr). clear Hr. unfold ensure_builtin_servers.
  pose proof (same_refl w1) as S0. wp_read_on local w2 Hl from S0 as S1.
  apply db_query_ok in Hl as (-> & _).
  pose proof (local_found _ Hseed) as Hf. destruct (List.hd_error _) as [s|]; [|done].
  cbn [is_none is_some negb]. wp_read_on n w3 Hn from S1 as S3. injection Hn as <- _.
  wp_read_on mojang w4 Hm from S3 as S4. apply db_query_ok in Hm as (-> & _).
  rewrite (same_db _ _ S3).
  pose proof (mojang_found _ Hseed) as Hg. destruct (find_row _ _) as [u|]; [|done].
  cbn [is_none is_some negb]. apply wp_bind, wp_ret. cbn [wp_next]. apply wp_ret.
  by rewrite (same_db _ _ S4).
Qed.
End Requests.

(** ** Pages *)

(** A cursor on an ordered list with distinct keys keeps what follows it. *)
Section Keyset.
Context {A : Type} (leb : A -> A -> bool) (key : A -> Z) (after : A -> A -> bool).
Context (leb_antisym : forall x y, leb x y = true -> leb y x = true -> key x = key y).
Context (after_iff : forall x y, (key y = key x -> y = x) ->
  after x y = true <-> leb x y = true /\ key y <> key x).

Lemma keyset_suffix l1 x l2 :
  Sorted.StronglySorted (fun a b => leb a b = true) (l1 ++ x :: l2) ->
  List.NoDup (List.map key (l1 ++ x :: l2)) ->
  rows_where (after x) (l1 ++ x :: l2) = l2.
Proof.
  intros Hs Hd.
  assert (Hid : forall y, In y (l1 ++ x :: l2) -> key y = key x -> y = x).
  { intros y Hin E. eapply (NoDup_map_inj_in key); try done. apply in_or_app. right. by left. }
  rewrite rows_where_app, (rows_where_none _ l1).
  2: { intros y Hy. destruct (after x y) eqn:E; [|done].
       apply after_iff in E as [E Hn]; [|apply Hid, in_or_app; by left]. destruct Hn.
       apply leb_antisym; [|done]. apply (StronglySorted_app _ _ _ _ _ Hs); [done|by left]. }
  assert (H2 : forall y, In y l2 -> after x y = true).
  { intros y Hy. apply after_iff; [apply Hid, in_or_app; right; by right|]. split.
    - replace (l1 ++ x :: l2) with ((l1 ++ [x]) ++ l2) in Hs by (by rewrite <- List.app_assoc).
      apply (StronglySorted_app _ _ _ _ _ Hs); [|done]. apply in_or_app. right. by left.
    - intros E. rewrite List.map_app in Hd. cbn in Hd. apply List.NoDup_remove_2 in Hd.
      apply Hd, in_or_app. right. apply in_map_iff. by exists y. }
  unfold rows_where. cbn. destruct (after x x) eqn:E.
  { by apply after_iff in E as [_ E]. }
  clear -H2. induction l2 as [|y l2 IH]; [done|]. cbn.
  rewrite H2 by (by left). f_equal. apply IH. intros s Hs. apply H2. by right.
Qed.
End Keyset.

Import ForwardServerRepo.

Lemma call_order_iff s t :
  call_order s t = true <->
  (enabled s = true /\ enabled t = false) \/
  (enabled s = enabled t /\ (priority s < priority t \/
     (priority s = priority t /\ server_pk s <= server_pk t))).
Proof.
  unfold call_order, bool_lt. rewrite orb_true_iff, !andb_true_iff, orb_true_iff, andb_true_iff,
    Z.ltb_lt, Z.eqb_eq, Z.leb_le, negb_true_iff, Bool.eqb_true_iff. tauto.
Qed.

Lemma listing_total by_key s t :
  listing_order by_key s t = true \/ listing_order by_key t s = true.
Proof.
  destruct by_key; cbn.
  - rewrite !call_order_iff.
    enough ((priority s < priority t \/ (priority s = priority t /\ server_pk s <= server_pk t)) \/
            (priority t < priority s \/ (priority t = priority s /\ server_pk t <= server_pk s)))
      by (destruct (enabled s), (enabled t); tauto). lia.
  - unfold ServerRepo.server_id_leb. rewrite !Z.leb_le. lia.
Qed.

Lemma listing_trans by_key s t u :
  listing_order by_key s t = true -> listing_order by_key t u = true ->
  listing_order by_key s u = true.
Proof.
  destruct by_key; cbn.
  - rewrite !call_order_iff. intros [[H1 H2]|[H1 H2]] [[H3 H4]|[H3 H4]].
    + congruence.
    + left. split; congruence.
    + left. split; congruence.
    + right. split; [congruence|lia].
  - unfold ServerRepo.server_id_leb. rewrite !Z.leb_le. lia.
Qed.

Lemma listing_antisym by_key s t :
  listing_order by_key s t = true -> listing_order by_key t s = true -> server_pk s = server_pk t.
Proof.
  destruct by_key; cbn.
  - rewrite !call_order_iff. intros [[H1 H2]|[H1 H2]] [[H3 H4]|[H3 H4]]; try congruence. lia.
  - unfold ServerRepo.server_id_leb. rewrite !Z.leb_le. lia.
Qed.

Lemma server_after_cursor_iff by_key x s :
  (server_pk s = server_pk x -> s = x) ->
  after_cursor by_key (Some (cursor_at by_key x)) s = true <->
  listing_order by_key x s = true /\ server_pk s <> server_pk x.
Proof.
  intros Hid. destruct by_key; cbn.
  - rewrite call_order_iff, !orb_true_iff, !andb_true_iff, !Bool.eqb_true_iff, !Z.ltb_lt, Z.eqb_eq.
    unfold bool_lt. rewrite andb_true_iff, negb_true_iff. split.
    + intros H. assert (server_pk s <> server_pk x) as Hne.
      { intros E. rewrite (Hid E) in H. destruct (enabled x); intuition (try congruence; lia). }
      split; [|done]. intuition (try congruence).
    + intros [[[H1 H2]|[H1 [H2|[H2 H3]]]] Hn]; [left; left; done|left; right; done|].
      right. split; [done|]. lia.
  - unfold ServerRepo.server_id_leb. rewrite Z.ltb_lt, Z.leb_le. lia.
Qed.

Section Listing.
Context `{EN : Env} `{CB : CacheBackend} `{FA : ForgeApi} `{FL : !ForgeApiLaws FA}.
Context `{YE : YggdrasilExterns}.

(** The cursor a client sends back. *)
Definition as_after_id (c : option SessionForwardServerCursor) : option Z :=
  match c with Some (AtId id) => Some id | _ => None end.
Definition as_after_call (c : option SessionForwardServerCursor) : option (bool * Z * Z) :=
  match c with Some (AtCall en p id) => Some (en, p, id) | _ => None end.

(** The servers that follow the cursor of [x]. *)
Lemma servers_after by_key (l l1 l2 : list forward_server) x :
  List.NoDup (List.map server_pk l) -> sort_by (listing_order by_key) l = l1 ++ x :: l2 ->
  sort_by (listing_order by_key) (rows_where (after_cursor by_key (Some (cursor_at by_key x))) l) = l2.
Proof.
  intros Hd Es. rewrite sort_by_rows_where; [|apply listing_total|apply listing_trans].
  rewrite Es. apply (keyset_suffix (listing_order by_key) server_pk
    (fun x => after_cursor by_key (Some (cursor_at by_key x)))).
  - apply listing_antisym.
  - intros a b. apply server_after_cursor_iff.
  - rewrite <- Es. apply sort_by_sorted; [apply listing_total|apply listing_trans].
  - rewrite <- Es. eapply Permutation.Permutation_NoDup; [|exact Hd].
    apply Permutation.Permutation_map. symmetry. apply sort_by_perm.
Qed.

(** A page of forward servers resumes exactly after the
    server its cursor came from: in either order it holds the next servers of
    the sorted table, as many as the clamped limit allows, with the number of
    all servers, and it carries a cursor exactly when servers remain, that of
    its last one. *)
Theorem server_page_exact by_key limit x l1 l2 w page w' :
  List.NoDup (List.map server_pk (rows (servers (db w)))) ->
  sort_by (listing_order by_key) (rows (servers (db w))) = l1 ++ x :: l2 ->
  list_servers limit (as_after_id (Some (cursor_at by_key x)))
    (as_after_call (Some (cursor_at by_key x))) by_key w = (Ok page, w') ->
  let n := Z.to_nat (SessionRepo.clamp limit 1 100) in
  page_items page = List.map server_to_admin (firstn n l2) /\
  page_total page = Z.of_nat (length (rows (servers (db w)))) /\
  next_cursor page = if (n <? length l2)%nat
                     then option_map (cursor_at by_key) (last (firstn n l2)) else None.
Proof.
  intros Hd Es Hr n. unfold list_servers in Hr.
  assert (repo_cursor (as_after_id (Some (cursor_at by_key x)))
    (as_after_call (Some (cursor_at by_key x))) by_key = Some (cursor_at by_key x)) as Ec
    by by destruct by_key.
  rewrite Ec in Hr. clear Ec. apply bind_ok in Hr as (slice & w1 & H1 & Hr).
  injection Hr as <- <-. cbn [page_items page_total next_cursor].
  unfold find_cursor in H1. apply bind_ok in H1 as (tot & w2 & H2 & H1).
  apply db_query_ok in H2 as (-> & -> & _).
  assert (length (rows (servers (db w))) = length (l1 ++ x :: l2)) as Elen
    by (rewrite <- Es; symmetry; apply length_sort_by).
  destruct (Z.eqb_spec (Z.of_nat (length (rows (servers (db w))))) 0) as [E|_].
  { rewrite Elen, List.length_app in E. cbn in E. lia. }
  apply bind_ok in H1 as (items & w3 & H3 & H1). apply db_query_ok in H3 as (-> & -> & _).
  apply lift_ok in H1 as [H1 _]. cbn [db tick] in H1. rewrite (servers_after _ _ l1 l2) in H1 by done.
  set (lim := SessionRepo.clamp limit 1 100) in *.
  assert (SessionRepo.clamp lim 1 100 = lim /\ 1 <= lim) as [Ecl Hlim]
    by (subst lim; unfold SessionRepo.clamp; lia).
  rewrite Ecl in H1.
  destruct (from_overfetch _ _ _) as [s|e|m] eqn:Ef in H1; [|done..]. injection H1 as <-.
  apply from_overfetch_spec in Ef as ->. cbn [items total has_more].
  rewrite List.firstn_firstn. replace (Nat.min (Z.to_nat lim) (Z.to_nat (lim + 1))) with n by lia.
  split; [done|]. split; [done|]. rewrite List.length_firstn.
  destruct (Z.ltb_spec lim (Z.of_nat (Nat.min (Z.to_nat (lim + 1)) (length l2)))),
    (Nat.ltb_spec n (length l2)); (done || lia).
Qed.
End Listing.

Section Updating.
Context `{EN : Env} `{CB : CacheBackend} `{FA : ForgeApi} `{YE : YggdrasilExterns}.
Context `{CL : !CacheLaws CB}.

(** An update is exact: it writes the settings it was given,
    normalized and in range, to the one server it names, and nothing else; a
    built-in server keeps its URL and endpoint kind and a local one cannot
    forward textures; a new URL is no other server's; the cached list of
    servers is dropped, so the next lookup sees the change.  An update that
    fails leaves the tables as they were. *)
Theorem server_update_exact id input w r w' :
  servers_wf (servers (db w)) -> update_server id input w = (r, w') ->
  match r with
  | Ok info => server_updated id input w info w' /\ uncached w' SessionCache.SESSION_FORWARD_SERVER_KEY
  | _ => db w' = db w
  end.
Proof. intros Hwf Hr. exact (wp_run _ _ _ _ _ (update_server_wp id input w Hwf) Hr). Qed.
End Updating.

(** ** A server is added, changed and removed *)

Definition seeding : outcome AsterError.t nat * World := ensure_builtin_servers world0.
Definition seeded_world : World := snd seeding.

Lemma empty_servers_wf : servers_wf (servers (db world0)).
Proof. split; cbn; try by constructor. all: by intros. Qed.

Lemma seeded_world_ok :
  fst seeding = Ok 2%nat /\ servers_wf (servers (db seeded_world)) /\ seeded (servers (db seeded_world)).
Proof.
  split; [vm_compute; reflexivity|].
  split; [exact (proj1 (handle_server_steps SeedServers world0 empty_servers_wf empty_servers_wf))|].
  split; [eexists; split; [vm_compute; left; reflexivity|done]|].
  eexists. split; [vm_compute; right; left; reflexivity|done].
Qed.

Definition server_requests1 : list server_request :=
  [CreateServer (mkCreateServer " Friends " "https://friends.example" None None (Some 10) None None None);
   CreateServer (mkCreateServer "Again" "https://friends.example" None None None None None None);
   DeleteServer 1; NoteFailure 3 5 "timeout";
   UpdateServer 2 (mkUpdateServer None (Some "https://evil.example"%string) None None None None None None);
   UpdateServer 2 (mkUpdateServer None None None (Some true) (Some 5) None None (Some true));
   DeleteServer 3].

Lemma forward_servers_sound_witness :
  List.map display_name (rows (servers (db
    (List.fold_left (fun w r => handle_server r w) server_requests1 seeded_world)))) =
    [LOCAL_DISPLAY_NAME; MOJANG_DISPLAY_NAME] /\
  servers_wf (servers (db (List.fold_left (fun w r => handle_server r w) server_requests1 seeded_world))).
Proof.
  split; [vm_compute; reflexivity|].
  exact (proj1 (forward_servers_sound server_requests1 seeded_world (proj1 (proj2 seeded_world_ok)))).
Defined.

Lemma seeding_happens_once_witness :
  let w := List.fold_left (fun w r => handle_server r w) server_requests1 seeded_world in
  db (snd (ensure_builtin_servers w)) = db w.
Proof.
  intros w.
  exact (proj1 (seeding_happens_once server_requests1 seeded_world _ _ (proj1 (proj2 seeded_world_ok))
    (proj2 (proj2 seeded_world_ok)) (surjective_pairing _))).
Defined.

Definition switching_on : outcome AsterError.t AdminYggdrasilSessionForwardServerInfo * World :=
  update_server 2 (mkUpdateServer (Some " Official "%string) None None (Some true) (Some 5) None None
                     (Some true)) seeded_world.

Lemma server_update_exact_witness :
  (display_name <$> (si_row <$> match fst switching_on with Ok i => Some i | _ => None end))
    = Some "Official"%string /\
  uncached (snd switching_on) SessionCache.SESSION_FORWARD_SERVER_KEY.
Proof.
  split; [vm_compute; reflexivity|].
  pose proof (server_update_exact _ _ _ (fst switching_on) (snd switching_on)
                (proj1 (proj2 seeded_world_ok)) (surjective_pairing _)) as H.
  destruct (fst switching_on) as [info|e|m] eqn:E; [by destruct H|..].
  - revert E. vm_compute. discriminate.
  - revert E. vm_compute. discriminate.
Defined.

Definition listing : outcome AsterError.t
    (CursorPage AdminYggdrasilSessionForwardServerInfo SessionForwardServerCursor) * World :=
  list_servers 1 None (Some (true, 100, 1)) CallOrder seeded_world.

Lemma server_page_exact_witness :
  match fst listing with
  | Ok page => List.map (fun i => display_name (si_row i)) (page_items page) = [MOJANG_DISPLAY_NAME] /\
               page_total page = 2
  | _ => False
  end.
Proof.
  destruct (fst listing) as [page|e|m] eqn:E; [|revert E; vm_compute; discriminate..].
  pose proof (server_page_exact (FL := forge_api0_laws) CallOrder 1
    (local_builtin_server (clock 1) 1) [] [mojang_builtin_server (clock 4) 2]
    seeded_world page (snd listing)) as H.
  destruct H as (Hi & Ht & _).
  - exact (server_keys _ (proj1 (proj2 seeded_world_ok))).
  - vm_compute. reflexivity.
  - rewrite <- E. apply surjective_pairing.
  - rewrite Hi, Ht. split; vm_compute; reflexivity.
Defined.
