(* ===== verification/ExternalAuth.v ===== *)
(** * External authentication: data, libraries and tables

    The provider options of [types/external_auth.rs], the provider library
    ([aster_forge_external_auth]) as a class, the repositories
    [db/repository/external_auth_*_repo.rs] and the input normalizers of
    [services/external_auth_service/normalize.rs]. *)

From Stdlib Require Import ZArith List Bool Lia Ascii.
From stdpp Require Import base decidable list strings pretty.
From S2P Require Import Prelude Text Errors Types AuditLog World Logic Repos Tokens Auth AuthConfig Accounts WebSessions.

Local Open Scope Z_scope.
Local Open Scope aster_scope.

Abbreviation ProviderKind := ExternalAuthProviderKind.t.

(** ** Provider options *)

Record MicrosoftExternalAuthProviderOptions : Type := mkMicrosoftOptions {
  tenant : string;
  legacy : option bool
}.

Record LinuxDoExternalAuthProviderOptions : Type := mkLinuxDoOptions {
  min_trust_level : Z;
  auto_create_profile : bool
}.

Record ExternalAuthProviderOptions : Type := mkOptions {
  microsoft_options : option MicrosoftExternalAuthProviderOptions;
  linuxdo_options : option LinuxDoExternalAuthProviderOptions;
  allow_login : bool;
  allow_unlink : bool
}.

(** [Default] *)
Definition default_options : ExternalAuthProviderOptions := mkOptions None None true true.

Definition microsoft_normalized (o : MicrosoftExternalAuthProviderOptions)
  : option MicrosoftExternalAuthProviderOptions :=
  let t := trim (tenant o) in
  if is_empty t then None else Some (mkMicrosoftOptions t (legacy o)).

Definition linuxdo_normalized (o : LinuxDoExternalAuthProviderOptions)
  : LinuxDoExternalAuthProviderOptions :=
  mkLinuxDoOptions (Z.min (Z.max (min_trust_level o) 0) 4) (auto_create_profile o).

Definition options_normalized (o : ExternalAuthProviderOptions) : ExternalAuthProviderOptions :=
  mkOptions (microsoft_options o ≫= microsoft_normalized)
    (option_map linuxdo_normalized (linuxdo_options o)) (allow_login o) (allow_unlink o).

(** ** The provider library

    [ExternalAuthProviderKind] of the library has no LinuxDo; the service
    talks to it as a generic OAuth2 provider. *)
Module ForgeProviderKind.
Inductive t : Type := Oidc | GenericOAuth2 | GitHub | Google | Microsoft | Qq.
#[global] Instance eq_dec : EqDecision t.
Proof. solve_decision. Defined.
End ForgeProviderKind.

Definition to_forge_kind (k : ProviderKind) : ForgeProviderKind.t :=
  match k with
  | ExternalAuthProviderKind.Oidc => ForgeProviderKind.Oidc
  | ExternalAuthProviderKind.GenericOAuth2 => ForgeProviderKind.GenericOAuth2
  | ExternalAuthProviderKind.GitHub => ForgeProviderKind.GitHub
  | ExternalAuthProviderKind.Google => ForgeProviderKind.Google
  | ExternalAuthProviderKind.Microsoft => ForgeProviderKind.Microsoft
  | ExternalAuthProviderKind.Qq => ForgeProviderKind.Qq
  | ExternalAuthProviderKind.LinuxDo => ForgeProviderKind.GenericOAuth2
  end.

Definition from_forge_kind (k : ForgeProviderKind.t) : ProviderKind :=
  match k with
  | ForgeProviderKind.Oidc => ExternalAuthProviderKind.Oidc
  | ForgeProviderKind.GenericOAuth2 => ExternalAuthProviderKind.GenericOAuth2
  | ForgeProviderKind.GitHub => ExternalAuthProviderKind.GitHub
  | ForgeProviderKind.Google => ExternalAuthProviderKind.Google
  | ForgeProviderKind.Microsoft => ExternalAuthProviderKind.Microsoft
  | ForgeProviderKind.Qq => ExternalAuthProviderKind.Qq
  end.

(** [ExternalAuthError] and its conversion ([errors.rs]). *)
Inductive ExternalAuthError : Type :=
| ExtValidation (message : string)
| ExtConfig (message : string)
| ExtInvalidCredentials (message : string)
| ExtState (message : string)
| ExtInternal (message : string).

Definition from_external_auth_error (e : ExternalAuthError) : AsterError.t :=
  match e with
  | ExtValidation m => AsterError.ValidationError m
  | ExtConfig m => AsterError.ConfigError m
  | ExtInvalidCredentials m => AsterError.AuthInvalidCredentials m
  | ExtState m => AsterError.DatabaseOperation m
  | ExtInternal m => AsterError.InternalError m
  end.

(** [map_external_auth] *)
Definition map_external_auth {A} (r : outcome ExternalAuthError A) : outcome AsterError.t A :=
  match r with
  | Ok a => Ok a
  | Err e => Err (from_external_auth_error e)
  | Panic m => Panic m
  end.

(** [ExternalAuthProviderConfig]: what a driver is told of a provider. *)
Record ExternalAuthProviderConfig : Type := mkProviderConfig {
  config_id : Z;
  config_key : string;
  config_kind : ForgeProviderKind.t;
  config_protocol : ExternalAuthProtocol.t;
  config_tenant : option string;
  config_issuer_url : option string;
  config_authorization_url : option string;
  config_token_url : option string;
  config_userinfo_url : option string;
  config_client_id : string;
  config_client_secret : option string;
  config_scopes : string;
  config_subject_claim : option string;
  config_username_claim : option string;
  config_display_name_claim : option string;
  config_email_claim : option string;
  config_email_verified_claim : option string;
  config_groups_claim : option string;
  config_avatar_url_claim : option string;
  config_user_agent : option string
}.

(** [ExternalAuthProfile]: the claims a callback ends in. *)
Record ExternalAuthProfile : Type := mkExternalProfile {
  ep_identity_namespace : string;
  ep_subject : string;
  ep_email : option string;
  ep_email_verified : bool;
  ep_display_name : option string;
  ep_preferred_username : option string
}.

Record AuthorizationStart : Type := mkAuthorizationStart {
  start_authorization_url : string;
  start_state : string;
  start_nonce : option string;
  start_pkce_verifier : option string
}.

Record ExternalAuthCallback : Type := mkCallback {
  callback_code : string;
  callback_nonce : option string;
  callback_pkce_verifier : option string;
  callback_uri : string
}.

(** A driver of the registry and [aster_forge_external_auth::normalize]; a
    driver's HTTP exchange and its random state belong to the tick of the
    call.  [options_from_json] is the derived deserializer. *)
Class ForgeExternalAuth : Type := {
  options_from_json : string -> option ExternalAuthProviderOptions;
  options_to_json : ExternalAuthProviderOptions -> outcome string string;
  forge_driver : ForgeProviderKind.t -> outcome ExternalAuthError ForgeProviderKind.t;
  start_authorization : nat -> ForgeProviderKind.t -> ExternalAuthProviderConfig -> string ->
                        outcome ExternalAuthError AuthorizationStart;
  exchange_callback : nat -> ForgeProviderKind.t -> ExternalAuthProviderConfig ->
                      ExternalAuthCallback -> outcome ExternalAuthError ExternalAuthProfile;
  normalize_provider_key : string -> outcome ExternalAuthError string;
  forge_return_path : option string -> nat -> outcome ExternalAuthError string;
  forge_flow_token : string -> nat -> outcome ExternalAuthError string;
  forge_email_domain_allowed : option string -> string -> outcome ExternalAuthError bool;
  forge_state_hash : string -> string;
  forge_token_hash : string -> string;
  normalize_microsoft_tenant_input : option string -> outcome ExternalAuthError string;
  site_origin_for_request : list string -> string -> string -> option string;
  outbound_user_agent : string
}.

(** Serialized options read back; the hashes are SHA-256. *)
Class ForgeExternalAuthLaws (FX : ForgeExternalAuth) : Prop := {
  options_roundtrip o s : options_to_json o = Ok s -> options_from_json s = Some o;
  state_hash_inj a b : forge_state_hash a = forge_state_hash b -> a = b;
  token_hash_inj a b : forge_token_hash a = forge_token_hash b -> a = b
}.

Definition FLOW_TTL_SECS : Z := 300.
Definition EMAIL_VERIFICATION_FLOW_TTL_SECS : Z := 1800.
Definition MICROSOFT_PROVIDER_PUBLIC_KEY : string := "microsoft".
Definition EXTERNAL_AUTH_URL_MAX_LEN : nat := 2048.
Definition EXTERNAL_AUTH_IDENTITY_NAMESPACE_MAX_LEN : nat := 512.
Definition USERNAME_MAX_LEN : nat := 16.
Definition USERNAME_MIN_LEN : nat := 4.
Definition MINECRAFT_IDENTITY_NAMESPACE : string :=
  "https://api.minecraftservices.com/minecraft/profile".

Definition public_provider_key (kind : ProviderKind) (stored_key : string) : string :=
  if eqb kind ExternalAuthProviderKind.Microsoft then MICROSOFT_PROVIDER_PUBLIC_KEY
  else stored_key.

Definition provider_key_matches (kind : ProviderKind) (stored_key requested_key : string)
  : bool :=
  eqb stored_key requested_key
  || (eqb kind ExternalAuthProviderKind.Microsoft
      && eqb requested_key MICROSOFT_PROVIDER_PUBLIC_KEY).

(** [req.connection_info()] *)
Record ConnectionInfo : Type := mkConnection {
  conn_scheme : string;
  conn_host : string
}.

Section Normalize.
Context `{FX : ForgeExternalAuth} `{CF : ForgeConfig} `{FE : ForgeEmail}.

Definition parse_external_auth_provider_options (options : string)
  : ExternalAuthProviderOptions :=
  options_normalized (default default_options (options_from_json options)).

Definition serialize_external_auth_provider_options (o : ExternalAuthProviderOptions)
  : outcome string string :=
  options_to_json (options_normalized o).

Definition provider_parsed_options (p : external_auth_provider) : ExternalAuthProviderOptions :=
  parse_external_auth_provider_options (provider_options p).

(** [external_auth_provider_config_from_model] *)
Definition external_auth_provider_config (p : external_auth_provider)
  : ExternalAuthProviderConfig :=
  mkProviderConfig (provider_pk p) (provider_key p) (to_forge_kind (provider_auth_kind p))
    (provider_protocol p) (option_map tenant (microsoft_options (provider_parsed_options p)))
    (issuer_url p) (authorization_url p) (token_url p) (userinfo_url p) (client_id p)
    (client_secret p) (scopes p) (subject_claim p) (username_claim p) (display_name_claim p)
    (email_claim p) (email_verified_claim p) (groups_claim p) (avatar_url_claim p)
    (Some outbound_user_agent).

(** [registry::default_registry().get_driver(kind)] *)
Definition get_driver (k : ProviderKind) : outcome AsterError.t ForgeProviderKind.t :=
  map_external_auth (forge_driver (to_forge_kind k)).

Definition normalize_key (value : string) : outcome AsterError.t string :=
  map_external_auth (normalize_provider_key value).
Definition normalize_return_path (value : option string) : outcome AsterError.t string :=
  map_external_auth (forge_return_path value EXTERNAL_AUTH_URL_MAX_LEN).
Definition normalize_flow_token (value : string) : outcome AsterError.t string :=
  map_external_auth (forge_flow_token value 128%nat).
Definition state_hash (state : string) : string := forge_state_hash state.
Definition token_hash (token : string) : string := forge_token_hash token.
Definition email_domain_allowed (p : external_auth_provider) (email : string)
  : outcome AsterError.t bool :=
  map_external_auth (forge_email_domain_allowed (allowed_domains p) email).

Definition normalize_email_for_external_auth (value : string) : outcome AsterError.t string :=
  let email := trim value in
  match validate_email email with
  | Ok _ => Ok email
  | Err e => Err e
  | Panic m => Panic m
  end.

(** *** Callback addresses *)

Definition callback_path (kind : ProviderKind) (key : string) : string :=
  if eqb kind ExternalAuthProviderKind.LinuxDo
  then "/api/v1/auth/external-auth/linuxdo/callback"
  else "/api/v1/auth/external-auth/" +:+ ExternalAuthProviderKind.as_str kind +:+ "/" +:+ key
         +:+ "/callback".

Definition binding_callback_path (kind : ProviderKind) (key : string) : string :=
  "/api/v1/auth/external-auth/" +:+ ExternalAuthProviderKind.as_str kind +:+ "/" +:+ key
    +:+ "/binding/callback".

Definition public_app_url_for_request (get : string -> option string) (path scheme host : string)
  : option string :=
  match site_origin_for_request (public_site_urls get) scheme host with
  | None => None
  | Some base => Some (join_origin_and_path base path)
  end.

Definition redirect_uri_error (message : string) : AsterError.t :=
  AsterError.validation_error_code AsterErrorCode.ExternalAuthCallbackRedirectUriRequired message.

Definition absolute_callback (get : string -> option string) (conn : ConnectionInfo)
  (path missing relative : string) : outcome AsterError.t string :=
  match public_app_url_for_request get path (conn_scheme conn) (conn_host conn) with
  | None => Err (redirect_uri_error missing)
  | Some uri =>
      if starts_with "/" uri then Err (redirect_uri_error relative) else Ok uri
  end.

Definition callback_redirect_uri (get : string -> option string) (conn : ConnectionInfo)
  (kind : ProviderKind) (key : string) : outcome AsterError.t string :=
  absolute_callback get conn (callback_path kind key)
    "cannot build external auth callback redirect URI; configure public_site_url"
    "external auth callback redirect URI must be absolute; configure public_site_url".

Definition binding_callback_redirect_uri (get : string -> option string) (conn : ConnectionInfo)
  (kind : ProviderKind) (key : string) : outcome AsterError.t string :=
  absolute_callback get conn (binding_callback_path kind key)
    "cannot build external auth binding callback redirect URI; configure public_site_url"
    "external auth binding callback redirect URI must be absolute; configure public_site_url".
End Normalize.

(** ** Tables *)

Definition update_one (n : Z) : bool := n =? 1.

(** [order_by_asc(DisplayName).order_by_asc(Id)] *)
Definition provider_leb (a b : external_auth_provider) : bool :=
  if eqb (provider_display_name a) (provider_display_name b)
  then provider_pk a <=? provider_pk b
  else String.leb (provider_display_name a) (provider_display_name b).

Module ProviderRepo.
Section Ops.
Context `{EN : Env} `{CB : CacheBackend}.

Definition providers (d : Db) : Table external_auth_provider := external_providers (external d).

(** [idx_external_auth_providers_kind_key] *)
Definition conflict (p q : external_auth_provider) : bool :=
  eqb (provider_auth_kind p) (provider_auth_kind q) && eqb (provider_key p) (provider_key q).

Definition listed (p : external_auth_provider -> bool) : M AsterError.t (list external_auth_provider) :=
  db_query (fun d => sort_by provider_leb (rows_where p (rows (providers d)))).

Definition find_all : M AsterError.t (list external_auth_provider) := listed (fun _ => true).

Definition find_by_ids (ids : list Z) : M AsterError.t (list external_auth_provider) :=
  match ids with
  | [] => ret []
  | _ => listed (fun p => mem (provider_pk p) ids)
  end.

Definition find_enabled : M AsterError.t (list external_auth_provider) :=
  listed provider_enabled.

Definition find_enabled_by_kind (kind : ProviderKind)
  : M AsterError.t (list external_auth_provider) :=
  listed (fun p => provider_enabled p && eqb (provider_auth_kind p) kind).

Definition find_by_id (id : Z) : M AsterError.t external_auth_provider :=
  let* row := db_query (fun d => find_row (fun p => provider_pk p =? id) (rows (providers d))) in
  lift (ok_or (AsterError.RecordNotFound ("external auth provider #" +:+ pretty id)) row).

Definition find_by_kind_key (kind : ProviderKind) (key : string)
  : M AsterError.t (option external_auth_provider) :=
  db_query (fun d =>
    find_row (fun p => eqb (provider_auth_kind p) kind && eqb (provider_key p) key)
             (rows (providers d))).

Definition create (mk : Z -> external_auth_provider) : M AsterError.t external_auth_provider :=
  db_insert providers set_external_providers conflict mk.

(** [active.update(db)]: the changed columns; the key and kind never change. *)
Definition update (id : Z) (f : external_auth_provider -> external_auth_provider)
  : M AsterError.t external_auth_provider :=
  db_update providers set_external_providers provider_pk id f.

(** The foreign keys: what belongs to the provider goes with it. *)
Definition drop_provider (id : Z) (d : Db) : Db :=
  let x := external d in
  set_external
    (mkExternal
       (with_rows (delete_where (fun p => provider_pk p =? id) (rows (external_providers x)))
          (external_providers x))
       (with_rows (delete_where (fun f => login_flow_provider_id f =? id) (rows (login_flows x)))
          (login_flows x))
       (with_rows (delete_where (fun f => binding_flow_provider_id f =? id)
                     (rows (binding_flows x))) (binding_flows x))
       (with_rows (delete_where (fun f => email_flow_provider_id f =? id) (rows (email_flows x)))
          (email_flows x)))
    (set_external_identities
       (with_rows (delete_where (fun i => identity_provider_id i =? id)
                     (rows (external_identities (accounts d)))) (external_identities (accounts d)))
       d).

Definition delete (id : Z) : M AsterError.t unit :=
  db_exec (fun d =>
    if existsb (fun p => provider_pk p =? id) (rows (providers d))
    then Ok (tt, drop_provider id d)
    else Err (AsterError.RecordNotFound ("external auth provider #" +:+ pretty id))).

Definition set_provider_updated_at (now : DateTimeUtc) (p : external_auth_provider)
  : external_auth_provider :=
  mkProvider (provider_pk p) (provider_key p) (provider_display_name p) (provider_icon_url p)
    (provider_auth_kind p) (provider_protocol p) (provider_options p) (issuer_url p)
    (authorization_url p) (token_url p) (userinfo_url p) (client_id p) (client_secret p)
    (scopes p) (provider_enabled p) (auto_provision_enabled p)
    (auto_link_verified_email_enabled p) (require_email_verified p) (subject_claim p)
    (username_claim p) (display_name_claim p) (email_claim p) (email_verified_claim p)
    (groups_claim p) (avatar_url_claim p) (allowed_domains p) (provider_created_at p) now.

Definition touch_updated_at (id : Z) (now : DateTimeUtc) : M AsterError.t bool :=
  let* n := db_update_many providers set_external_providers (fun p => provider_pk p =? id)
              (set_provider_updated_at now) in
  ret (update_one n).
End Ops.
End ProviderRepo.

(** A foreign key of an inserted row. *)
Definition provider_exists (id : Z) (d : Db) : bool :=
  existsb (fun p => provider_pk p =? id) (rows (external_providers (external d))).
Definition user_exists (id : Z) (d : Db) : bool :=
  existsb (fun u => user_pk u =? id) (rows (users d)).

Section Insert.
Context `{EN : Env} `{CB : CacheBackend}.

(** An insertion whose references are checked. *)
Definition insert_referring {A} (references : Db -> bool) (get : Db -> Table A)
  (set : Table A -> Db -> Db) (conflict : A -> A -> bool) (mk : Z -> A) : M AsterError.t A :=
  db_exec (fun d =>
    if negb (references d) then Err (AsterError.DatabaseOperation foreign_key_violation)
    else match insert_row conflict mk (get d) with
         | Some (r, t) => Ok (r, set t d)
         | None => Err (AsterError.DatabaseOperation unique_violation)
         end).
End Insert.

Module LoginFlowRepo.
Section Ops.
Context `{EN : Env} `{CB : CacheBackend}.

Definition flows (d : Db) : Table external_auth_login_flow := login_flows (external d).

Definition active (now : DateTimeUtc) (f : external_auth_login_flow) : bool :=
  is_none (login_flow_consumed_at f) && (now <? login_flow_expires_at f).

Definition set_consumed (now : DateTimeUtc) (f : external_auth_login_flow)
  : external_auth_login_flow :=
  mkLoginFlow (login_flow_pk f) (login_flow_provider_id f) (login_state_hash f) (login_nonce f)
    (login_pkce_verifier f) (login_redirect_uri f) (login_return_path f)
    (login_flow_created_at f) (login_flow_expires_at f) (Some now).

Definition create (provider_id : Z) (mk : Z -> external_auth_login_flow)
  : M AsterError.t external_auth_login_flow :=
  insert_referring (provider_exists provider_id) flows set_login_flows
    (fun f g => eqb (login_state_hash f) (login_state_hash g)) mk.

Definition consume_by_state_hash (hash : string) (now : DateTimeUtc)
  : M AsterError.t (option external_auth_login_flow) :=
  let* existing := db_query (fun d =>
    find_row (fun f => eqb (login_state_hash f) hash && active now f) (rows (flows d))) in
  match existing with
  | None => ret None
  | Some flow =>
      let* n := db_update_many flows set_login_flows
                  (fun f => (login_flow_pk f =? login_flow_pk flow) && active now f)
                  (set_consumed now) in
      ret (if update_one n then Some flow else None)
  end.

Definition cleanup_expired (now : DateTimeUtc) : M AsterError.t Z :=
  db_delete_many flows set_login_flows (fun f => login_flow_expires_at f <? now).
End Ops.
End LoginFlowRepo.

Module BindingFlowRepo.
Section Ops.
Context `{EN : Env} `{CB : CacheBackend}.

Definition flows (d : Db) : Table external_auth_binding_flow := binding_flows (external d).

Definition active (now : DateTimeUtc) (f : external_auth_binding_flow) : bool :=
  is_none (binding_flow_consumed_at f) && (now <? binding_flow_expires_at f).

Definition set_consumed (now : DateTimeUtc) (f : external_auth_binding_flow)
  : external_auth_binding_flow :=
  mkBindingFlow (binding_flow_pk f) (binding_flow_user_id f) (binding_flow_provider_id f)
    (binding_state_hash f) (binding_nonce f) (binding_pkce_verifier f) (binding_redirect_uri f)
    (binding_return_path f) (binding_flow_created_at f) (binding_flow_expires_at f) (Some now).

Definition create (user_id provider_id : Z) (mk : Z -> external_auth_binding_flow)
  : M AsterError.t external_auth_binding_flow :=
  insert_referring (fun d => user_exists user_id d && provider_exists provider_id d) flows
    set_binding_flows (fun f g => eqb (binding_state_hash f) (binding_state_hash g)) mk.

Definition find_active_by_state_hash (hash : string) (now : DateTimeUtc)
  : M AsterError.t (option external_auth_binding_flow) :=
  db_query (fun d =>
    find_row (fun f => eqb (binding_state_hash f) hash && active now f) (rows (flows d))).

Definition consume_by_id (id : Z) (now : DateTimeUtc) : M AsterError.t bool :=
  let* n := db_update_many flows set_binding_flows
              (fun f => (binding_flow_pk f =? id) && active now f) (set_consumed now) in
  ret (update_one n).

Definition consume_by_state_hash (hash : string) (now : DateTimeUtc)
  : M AsterError.t (option external_auth_binding_flow) :=
  let* existing := find_active_by_state_hash hash now in
  match existing with
  | None => ret None
  | Some flow =>
      let* consumed := consume_by_id (binding_flow_pk flow) now in
      ret (if consumed then Some flow else None)
  end.

Definition cleanup_expired (now : DateTimeUtc) : M AsterError.t Z :=
  db_delete_many flows set_binding_flows (fun f => binding_flow_expires_at f <? now).
End Ops.
End BindingFlowRepo.

Module EmailFlowRepo.
Section Ops.
Context `{EN : Env} `{CB : CacheBackend}.

Definition flows (d : Db) : Table external_auth_email_verification_flow := email_flows (external d).

Definition active (now : DateTimeUtc) (f : external_auth_email_verification_flow) : bool :=
  is_none (email_flow_consumed_at f) && (now <? email_flow_expires_at f).

Definition set_consumed (now : DateTimeUtc) (f : external_auth_email_verification_flow)
  : external_auth_email_verification_flow :=
  mkEmailFlow (email_flow_pk f) (email_flow_provider_id f) (email_flow_namespace f)
    (email_flow_subject f) (target_email f) (email_flow_display_name f)
    (preferred_username_snapshot f) (email_flow_return_path f) (flow_token_hash f)
    (email_flow_verification_hash f) (email_requested_at f) (email_flow_created_at f)
    (email_flow_expires_at f) (Some now).

Definition set_email_request (email hash : string) (now : DateTimeUtc)
  (f : external_auth_email_verification_flow) : external_auth_email_verification_flow :=
  mkEmailFlow (email_flow_pk f) (email_flow_provider_id f) (email_flow_namespace f)
    (email_flow_subject f) (Some email) (email_flow_display_name f)
    (preferred_username_snapshot f) (email_flow_return_path f) (flow_token_hash f) (Some hash)
    (Some now) (email_flow_created_at f) (email_flow_expires_at f) (email_flow_consumed_at f).

Definition create (provider_id : Z) (mk : Z -> external_auth_email_verification_flow)
  : M AsterError.t external_auth_email_verification_flow :=
  insert_referring (provider_exists provider_id) flows set_email_flows
    (fun f g => eqb (flow_token_hash f) (flow_token_hash g)) mk.

Definition find_active_by_flow_token_hash (hash : string) (now : DateTimeUtc)
  : M AsterError.t (option external_auth_email_verification_flow) :=
  db_query (fun d =>
    find_row (fun f => eqb (flow_token_hash f) hash && active now f) (rows (flows d))).

Definition find_active_by_verification_token_hash (hash : string) (now : DateTimeUtc)
  : M AsterError.t (option external_auth_email_verification_flow) :=
  db_query (fun d =>
    find_row (fun f => eqb (email_flow_verification_hash f) (Some hash) && active now f)
             (rows (flows d))).

Definition update_email_request (flow : external_auth_email_verification_flow)
  (email hash : string) (now : DateTimeUtc) : M AsterError.t bool :=
  let* n := db_update_many flows set_email_flows
              (fun f => (email_flow_pk f =? email_flow_pk flow)
                        && is_none (email_flow_verification_hash f) && active now f)
              (set_email_request email hash now) in
  ret (update_one n).

Definition mark_consumed_if_unused (id : Z) (now : DateTimeUtc) : M AsterError.t bool :=
  let* n := db_update_many flows set_email_flows
              (fun f => (email_flow_pk f =? id) && active now f) (set_consumed now) in
  ret (update_one n).

Definition cleanup_expired (now : DateTimeUtc) : M AsterError.t Z :=
  db_delete_many flows set_email_flows (fun f => email_flow_expires_at f <? now).
End Ops.
End EmailFlowRepo.

Module IdentityRepo.

Record CreateExternalAuthIdentityInput : Type := mkCreateIdentity {
  ci_user_id : Z;
  ci_provider_id : Z;
  ci_identity_namespace : string;
  ci_subject : string;
  ci_email_snapshot : option string;
  ci_display_name_snapshot : option string;
  ci_metadata : option string;
  ci_now : DateTimeUtc
}.

(** [order_by_desc(LastLoginAt).order_by_desc(CreatedAt)]: a row without a
    last login sorts last; [order_by_desc(CreatedAt).order_by_desc(Id)]. *)
Definition option_geb (a b : option Z) : bool :=
  match a, b with
  | _, None => true
  | None, Some _ => false
  | Some x, Some y => y <=? x
  end.
Definition recent_login_leb (a b : external_auth_identity) : bool :=
  if eqb (last_login_at a) (last_login_at b)
  then identity_created_at b <=? identity_created_at a
  else option_geb (last_login_at a) (last_login_at b).
Definition newest_leb (a b : external_auth_identity) : bool :=
  if identity_created_at a =? identity_created_at b then identity_pk b <=? identity_pk a
  else identity_created_at b <=? identity_created_at a.

(** The unique indexes: provider and subject, namespace and subject, user
    and provider. *)
Definition conflict (i j : external_auth_identity) : bool :=
  ((identity_provider_id i =? identity_provider_id j)
     && eqb (identity_subject i) (identity_subject j))
  || (eqb (identity_namespace i) (identity_namespace j)
      && eqb (identity_subject i) (identity_subject j))
  || ((identity_user_id i =? identity_user_id j)
      && (identity_provider_id i =? identity_provider_id j)).

Definition touched (email name metadata : option string) (now : DateTimeUtc)
  (i : external_auth_identity) : external_auth_identity :=
  mkIdentity (identity_pk i) (identity_user_id i) (identity_provider_id i) (identity_namespace i)
    (identity_subject i)
    (if is_some email then email else email_snapshot i)
    (if is_some name then name else display_name_snapshot i)
    (if is_some metadata then metadata else identity_metadata i)
    (identity_created_at i) now (Some now).

Section Ops.
Context `{EN : Env} `{CB : CacheBackend} `{FA : ForgeApi}.

Definition identities (d : Db) : Table external_auth_identity :=
  external_identities (accounts d).

Definition find_identity (p : external_auth_identity -> bool)
  : M AsterError.t (option external_auth_identity) :=
  db_query (fun d => find_row p (rows (identities d))).

Definition list_for_user (user_id : Z) : M AsterError.t (list external_auth_identity) :=
  db_query (fun d =>
    sort_by recent_login_leb
      (rows_where (fun i => identity_user_id i =? user_id) (rows (identities d)))).

Definition after_cursor (after : option (DateTimeUtc * Z)) (i : external_auth_identity) : bool :=
  match after with
  | None => true
  | Some (created, id) =>
      (identity_created_at i <? created)
      || ((identity_created_at i =? created) && (identity_pk i <? id))
  end.

Definition list_for_user_cursor (user_id limit : Z) (after : option (DateTimeUtc * Z))
  : M AsterError.t (CursorSlice external_auth_identity) :=
  let limit := SessionRepo.clamp limit 1 100 in
  let mine := fun i => identity_user_id i =? user_id in
  let* total := db_query (fun d => Z.of_nat (count_where mine (rows (identities d)))) in
  let* items := db_query (fun d =>
    firstn (Z.to_nat (limit + 1))
      (sort_by newest_leb (rows_where (fun i => mine i && after_cursor after i)
                             (rows (identities d))))) in
  lift (match from_overfetch items total limit with
        | Ok s => Ok s
        | Err m => Err (AsterError.ValidationError m)
        | Panic m => Panic m
        end).

Definition find_by_provider_for_user (provider_id user_id : Z)
  : M AsterError.t (option external_auth_identity) :=
  find_identity (fun i => (identity_provider_id i =? provider_id)
                          && (identity_user_id i =? user_id)).

Definition find_by_identity_namespace_subject (namespace subject : string)
  : M AsterError.t (option external_auth_identity) :=
  find_identity (fun i => eqb (identity_namespace i) namespace
                          && eqb (identity_subject i) subject).

Definition find_by_id_for_user (id user_id : Z) : M AsterError.t (option external_auth_identity) :=
  find_identity (fun i => (identity_pk i =? id) && (identity_user_id i =? user_id)).

Definition create_identity (input : CreateExternalAuthIdentityInput)
  : M AsterError.t external_auth_identity :=
  insert_referring
    (fun d => user_exists (ci_user_id input) d && provider_exists (ci_provider_id input) d)
    identities set_external_identities conflict
    (fun id =>
       mkIdentity id (ci_user_id input) (ci_provider_id input) (ci_identity_namespace input)
         (ci_subject input) (ci_email_snapshot input) (ci_display_name_snapshot input)
         (ci_metadata input) (ci_now input) (ci_now input) (Some (ci_now input))).

Definition touch_login (id : Z) (email name metadata : option string) (now : DateTimeUtc)
  : M AsterError.t bool :=
  let* n := db_update_many identities set_external_identities (fun i => identity_pk i =? id)
              (touched email name metadata now) in
  ret (update_one n).

Definition delete_for_user (id user_id : Z) : M AsterError.t bool :=
  let* n := db_delete_many identities set_external_identities
              (fun i => (identity_pk i =? id) && (identity_user_id i =? user_id)) in
  ret (update_one n).
End Ops.
End IdentityRepo.

(** ** An explicit transaction

    [let txn = begin().await?; let result = async { .. }.await; match result
    { Ok(a) => { commit(txn).await?; .. } Err(e) => .. }]: a failed body
    drops the transaction, and so does a panic while unwinding. *)
Section Txn.
Context `{EN : Env} `{CB : CacheBackend} `{TM : TxnManager}.

Definition txn_result {A} (body : M AsterError.t A) : M AsterError.t (A + AsterError.t) :=
  let* txn := begin in
  fun w =>
    match body w with
    | (Ok a, w1) => (let* _ := commit txn in ret (inl a)) w1
    | (Err e, w1) => (Ok (inr e), drop_txn txn w1)
    | (Panic m, w1) => (Panic m, drop_txn txn w1)
    end.

(** [Err(error) => return Err(error)] *)
Definition or_fail {A} (r : A + AsterError.t) : outcome AsterError.t A :=
  match r with inl a => Ok a | inr e => Err e end.
End Txn.
