(* ===== verification/UserProfiles.v ===== *)
(** * User profiles and avatars

    [services/profile_service/] and [db/repository/user_profile_repo.rs]: the
    display name of a user, the source of the avatar, and uploaded avatars,
    which are cropped, scaled to two sizes and kept in the object storage.
    Decoding and encoding images belong to the image library. *)

From Stdlib Require Import ZArith List Bool Lia Ascii.
From stdpp Require Import base decidable list strings gmap pretty.
From S2P Require Import Prelude Text Errors Types AuditLog World Logic Repos Bans AuthConfig Accounts ObjectStorage TextureRepo TextureProcessing ExternalAuth.

Local Open Scope Z_scope.
Local Open Scope aster_scope.

#[export] Instance AvatarSource_eq_dec : EqDecision AvatarSource.
Proof. solve_decision. Defined.

(** ** The images of avatars *)

Definition MAX_AVATAR_DECODE_ALLOC : Z := 128 * 1024 * 1024.
Definition AVATAR_MAX_UPLOAD_SIZE : Z := 5 * 1024 * 1024.

(** [image]: the format of some bytes, their decoding under a limit on the
    memory it takes and under the default one, and what is done to images. *)
Class AvatarImages : Type := {
  avatar_image : Type;
  guess_format : string -> option string;
  decode_limited : Z -> string -> outcome string avatar_image;
  decode_default : string -> outcome string avatar_image;
  image_dimensions : avatar_image -> Z * Z;
  crop_imm : avatar_image -> Z -> Z -> Z -> Z -> avatar_image;
  resize_exact : avatar_image -> Z -> Z -> avatar_image;
  write_webp : avatar_image -> outcome string string
}.

(** Dimensions are [u32]s. *)
Class AvatarImagesLaws (AI : AvatarImages) : Prop := {
  image_dimensions_u32 i : 0 <= fst (image_dimensions i) < 2 ^ 32 /\
                           0 <= snd (image_dimensions i) < 2 ^ 32
}.

(** A field of a multipart body: the file name it is sent with, its chunks. *)
Record MultipartField : Type := mkField {
  field_file_name : option string;
  field_chunks : list (outcome string string)
}.

Record ProcessedAvatar : Type := mkProcessed { small_bytes : string; large_bytes : string }.

Definition read_failed {A} (r : outcome string A) : outcome AsterError.t A :=
  match r with
  | Ok a => Ok a
  | Err e => Err (AsterError.validation_error_code AsterErrorCode.AvatarUploadReadFailed e)
  | Panic m => Panic m
  end.

Definition file_required : AsterError.t :=
  AsterError.validation_error_code AsterErrorCode.AvatarFileRequired "avatar file is required".

Definition request_payload_too_large (message : string) : AsterError.t :=
  AsterError.public_error 413 AsterErrorCode.RequestPayloadTooLarge message.

Definition has_file_name (f : MultipartField) : bool :=
  match option_map trim (field_file_name f) with
  | Some name => negb (is_empty name)
  | None => false
  end.

Fixpoint drain (chunks : list (outcome string string)) : outcome AsterError.t unit :=
  match chunks with
  | [] => Ok tt
  | c :: chunks =>
      match read_failed c with Ok _ => drain chunks | Err e => Err e | Panic m => Panic m end
  end.

Fixpoint read_file (chunks : list (outcome string string)) (content : string)
  : outcome AsterError.t string :=
  match chunks with
  | [] => Ok content
  | c :: chunks =>
      match read_failed c with
      | Ok chunk =>
          if AVATAR_MAX_UPLOAD_SIZE <? Z.of_nat (str_len content) + Z.of_nat (str_len chunk)
          then Err (request_payload_too_large
                      ("avatar upload exceeds " +:+ pretty AVATAR_MAX_UPLOAD_SIZE +:+ " bytes"))
          else read_file chunks (content +:+ chunk)
      | Err e => Err e
      | Panic m => Panic m
      end
  end.

(** The first field with a file name; those before it are drained. *)
Fixpoint read_fields (payload : list (outcome string MultipartField))
  : outcome AsterError.t (option string) :=
  match payload with
  | [] => Ok None
  | f :: payload =>
      match read_failed f with
      | Ok f =>
          if has_file_name f
          then match read_file (field_chunks f) EmptyString with
               | Ok content => Ok (Some content)
               | Err e => Err e
               | Panic m => Panic m
               end
          else match drain (field_chunks f) with
               | Ok _ => read_fields payload
               | Err e => Err e
               | Panic m => Panic m
               end
      | Err e => Err e
      | Panic m => Panic m
      end
  end.

Definition read_avatar_upload (payload : list (outcome string MultipartField))
  : outcome AsterError.t string :=
  match read_fields payload with
  | Ok (Some content) => if is_empty content then Err file_required else Ok content
  | Ok None => Err file_required
  | Err e => Err e
  | Panic m => Panic m
  end.

Section Images.
Context `{AI : AvatarImages}.

Definition empty_image (message : string) : AsterError.t :=
  AsterError.validation_error_code AsterErrorCode.AvatarEmptyImage message.

Definition output_invalid (message : string) : AsterError.t :=
  AsterError.public_error INTERNAL_SERVER_ERROR AsterErrorCode.AvatarOutputInvalid message.

(** [width.min(height)], [(width - side) / 2] *)
Definition square_of (width height : Z) : Z * Z * Z :=
  let side := Z.min width height in ((width - side) / 2, (height - side) / 2, side).

Definition center_square (i : avatar_image) : outcome AsterError.t avatar_image :=
  let (width, height) := image_dimensions i in
  if (width =? 0) || (height =? 0) then Err (empty_image "avatar image is empty")
  else let '(x, y, side) := square_of width height in Ok (crop_imm i x y side side).

Definition validate_webp (content : string) : outcome AsterError.t unit :=
  match guess_format content with
  | Some error => Err (output_invalid ("failed to inspect avatar output: " +:+ error))
  | None =>
      match decode_default content with
      | Ok _ => Ok tt
      | Err error => Err (output_invalid ("avatar output is invalid: " +:+ error))
      | Panic m => Panic m
      end
  end.

Definition encode_webp (i : avatar_image) : outcome AsterError.t string :=
  match write_webp i with
  | Ok content => and_then (validate_webp content) (fun _ => Ok content)
  | Err error =>
      Err (AsterError.public_error INTERNAL_SERVER_ERROR AsterErrorCode.AvatarRenderFailed
             ("failed to encode avatar webp: " +:+ error))
  | Panic m => Panic m
  end.

Definition render_avatar_variants (content : string) : outcome AsterError.t ProcessedAvatar :=
  match guess_format content with
  | Some error => Err (empty_image ("avatar image format cannot be detected: " +:+ error))
  | None =>
      match decode_limited MAX_AVATAR_DECODE_ALLOC content with
      | Err error => Err (empty_image ("avatar image cannot be decoded: " +:+ error))
      | Panic m => Panic m
      | Ok image =>
          and_then (center_square image) (fun square =>
            and_then (encode_webp (resize_exact square AVATAR_SIZE_SM AVATAR_SIZE_SM)) (fun small =>
              and_then (encode_webp (resize_exact square AVATAR_SIZE_LG AVATAR_SIZE_LG))
                (fun large => Ok (mkProcessed small large))))
      end
  end.

(** A panic of the blocking task is its [JoinError]. *)
Definition process_avatar_upload `{IC : ImageCodec} (content : string)
  : outcome AsterError.t ProcessedAvatar :=
  match render_avatar_variants content with
  | Panic m => Err (AsterError.InternalError ("process avatar image task: " +:+ join_error m))
  | r => r
  end.
End Images.

(** ** The names of stored avatars *)

Definition resolve_stored_avatar_prefix (p : user_profile) : option string :=
  match stored_avatar_prefix (Some p) with
  | Some prefix =>
      if eqb prefix (user_avatar_prefix (up_user_id p) (avatar_version p)) then Some prefix
      else None
  | None => None
  end.

Definition resolve_stored_avatar_variant_key (p : user_profile) (size : Z) : option string :=
  option_map (fun prefix => user_avatar_variant_key prefix size) (resolve_stored_avatar_prefix p).

Definition default_profile (user_id : Z) (now : DateTimeUtc) : user_profile :=
  mkUserProfile user_id None AvatarNone None 0 now now.

(** [i32::saturating_add(1)] *)
Definition next_version (v : Z) : Z := Z.min I32_MAX (v + 1).

(** ** The repository *)

Module UserProfileRepo.
Section Ops.
Context `{EN : Env} `{CB : CacheBackend}.

Definition table (d : Db) : Table user_profile := user_profiles (accounts d).

Definition find_by_user_id (user_id : Z) : M AsterError.t (option user_profile) :=
  db_query (fun d => find_row (fun p => up_user_id p =? user_id) (rows (table d))).

Definition find_by_user_ids (ids : list Z) : M AsterError.t (list user_profile) :=
  match ids with
  | [] => ret []
  | _ => db_query (fun d => rows_where (fun p => mem (up_user_id p) ids) (rows (table d)))
  end.

(** The key of the table is its reference to the user. *)
Definition create (p : user_profile) : M AsterError.t user_profile :=
  insert_referring (user_exists (up_user_id p)) table set_user_profiles
    (fun p q => up_user_id p =? up_user_id q) (fun _ => p).

Definition update (user_id : Z) (f : user_profile -> user_profile) : M AsterError.t user_profile :=
  db_update table set_user_profiles up_user_id user_id f.
End Ops.
End UserProfileRepo.

Definition with_display_name (name : option string) (now : DateTimeUtc) (p : user_profile)
  : user_profile :=
  mkUserProfile (up_user_id p) name (avatar_source p) (avatar_key p) (avatar_version p)
    (up_created_at p) now.

Definition with_avatar (source : AvatarSource) (key : option string) (version : Z)
  (now : DateTimeUtc) (p : user_profile) : user_profile :=
  mkUserProfile (up_user_id p) (up_display_name p) source key version (up_created_at p) now.

(** ** The service *)

Section Service.
Context `{EN : Env} `{CB : CacheBackend} `{BE : BanExterns} `{AE : !AccountExterns}.
Context `{CF : ForgeConfig} `{ST : ConfigStore} `{IC : ImageCodec} `{FS : FileSystem}.
Context {OS : ObjectStorage} `{AI : AvatarImages}.

Abbreviation AM := (M AsterError.t).

Definition resolve_gravatar_base_url : string := gravatar_base_url_or_default config_get.

Definition own_profile_info (u : user) (p : option user_profile) : UserProfileInfo :=
  build_profile_info u p SelfUser resolve_gravatar_base_url.

Definition get_profile_info_map (us : list user) (audience : AvatarAudience)
  : AM (list (Z * UserProfileInfo)) :=
  let* profiles := UserProfileRepo.find_by_user_ids (List.map user_pk us) in
  ret (List.map (fun u =>
    (user_pk u,
     build_profile_info u (find_row (fun p => up_user_id p =? user_pk u) profiles) audience
       resolve_gravatar_base_url)) us).

(** *** The display name *)

Definition normalize_display_name (value : string) : outcome AsterError.t (option string) :=
  let trimmed := trim value in
  if is_empty trimmed then Ok None
  else if 64 <? char_count trimmed
  then Err (AsterError.ValidationError "display name must be 64 characters or fewer")
  else Ok (Some trimmed).

Definition update_profile (user_id : Z) (display_name : option string) : AM UserProfileInfo :=
  let* user := UserRepo.find_by_id user_id in
  let* existing := UserProfileRepo.find_by_user_id user_id in
  match display_name with
  | None => ret (own_profile_info user existing)
  | Some display_name =>
      let* normalized := lift (normalize_display_name display_name) in
      let* now := utc_now in
      match existing with
      | Some current =>
          if eqb (up_display_name current) normalized
          then ret (own_profile_info user (Some current))
          else
            let* saved := UserProfileRepo.update (up_user_id current)
                            (with_display_name normalized now) in
            ret (own_profile_info user (Some saved))
      | None =>
          match normalized with
          | None => ret (own_profile_info user None)
          | Some _ =>
              let* saved := UserProfileRepo.create
                (with_display_name normalized now (default_profile user_id now)) in
              ret (own_profile_info user (Some saved))
          end
      end
  end.

(** *** Avatars *)

Definition put_avatar_bytes (key content : string) : AM unit :=
  do* file_op "write avatar temp file" AsterError.InternalError in
  let* _ := put_file key content in
  ret tt.

(** Failures to delete are only logged. *)
Definition delete_avatar_variant_objects (prefix : string) : AM unit :=
  let* _ := catch (delete (user_avatar_variant_key prefix AVATAR_SIZE_SM)) in
  let* _ := catch (delete (user_avatar_variant_key prefix AVATAR_SIZE_LG)) in
  ret tt.

Definition delete_upload_objects (p : user_profile) : AM unit :=
  if negb (eqb (avatar_source p) AvatarUpload) then ret tt
  else match resolve_stored_avatar_prefix p with
       | Some prefix => delete_avatar_variant_objects prefix
       | None => ret tt
       end.

Definition delete_previous (p : option user_profile) : AM unit :=
  match p with Some p => delete_upload_objects p | None => ret tt end.

(** The row with the new avatar; a failure takes its objects away again. *)
Definition save_avatar (user_id : Z) (existing : option user_profile) (prefix : string)
  (version : Z) (now : DateTimeUtc) : AM user_profile :=
  let* saved := catch
    (match existing with
     | Some current =>
         UserProfileRepo.update (up_user_id current)
           (with_avatar AvatarUpload (Some prefix) version now)
     | None =>
         UserProfileRepo.create
           (with_avatar AvatarUpload (Some prefix) version now (default_profile user_id now))
     end) in
  match saved with
  | inl p => ret p
  | inr error =>
      do* delete_avatar_variant_objects prefix in
      throw error
  end.

Definition upload_avatar (user_id : Z) (payload : list (outcome string MultipartField))
  : AM UserProfileInfo :=
  let* user := UserRepo.find_by_id user_id in
  let* existing := UserProfileRepo.find_by_user_id user_id in
  let* content := lift (read_avatar_upload payload) in
  let* processed := lift (process_avatar_upload content) in
  let version := match existing with Some p => next_version (avatar_version p) | None => 1 end in
  let prefix := user_avatar_prefix user_id version in
  do* put_avatar_bytes (user_avatar_variant_key prefix AVATAR_SIZE_SM) (small_bytes processed) in
  let* large := catch (put_avatar_bytes (user_avatar_variant_key prefix AVATAR_SIZE_LG)
                         (large_bytes processed)) in
  match large with
  | inr error =>
      do* delete_avatar_variant_objects prefix in
      throw error
  | inl _ =>
      let* now := utc_now in
      let* saved := save_avatar user_id existing prefix version now in
      do* delete_previous existing in
      ret (own_profile_info user (Some saved))
  end.

Definition set_avatar_source (user_id : Z) (source : AvatarSource) : AM UserProfileInfo :=
  do* when_ok (eqb source AvatarUpload)
    (AsterError.validation_error_code AsterErrorCode.AvatarSourceInvalid
       "upload avatar source must use the upload endpoint") in
  let* user := UserRepo.find_by_id user_id in
  let* existing := UserProfileRepo.find_by_user_id user_id in
  match existing with
  | None =>
      if eqb source AvatarNone then ret (own_profile_info user None)
      else
        let* now := utc_now in
        let* saved := UserProfileRepo.create
          (with_avatar source None 0 now (default_profile user_id now)) in
        ret (own_profile_info user (Some saved))
  | Some current =>
      let* now := utc_now in
      let* saved := UserProfileRepo.update (up_user_id current)
        (with_avatar source None (next_version (avatar_version current)) now) in
      do* delete_upload_objects current in
      ret (own_profile_info user (Some saved))
  end.

Definition validate_avatar_size (size : Z) : outcome AsterError.t Z :=
  if (size =? AVATAR_SIZE_SM) || (size =? AVATAR_SIZE_LG) then Ok size
  else Err (AsterError.validation_error_code AsterErrorCode.AvatarSizeInvalid
              "avatar size must be 512 or 1024").

Definition avatar_not_found (message : string) : AsterError.t :=
  AsterError.record_not_found_code AsterErrorCode.AvatarNotFound message.

(** The stream of an object is its bytes. *)
Definition get_avatar_bytes (user_id size : Z) : AM string :=
  let* size := lift (validate_avatar_size size) in
  let* _ := UserRepo.find_by_id user_id in
  let* found := UserProfileRepo.find_by_user_id user_id in
  let* profile := lift (ok_or (avatar_not_found ("profile for user #" +:+ pretty user_id)) found) in
  do* when_ok (negb (eqb (avatar_source profile) AvatarUpload))
    (avatar_not_found ("user #" +:+ pretty user_id +:+ " does not have an uploaded avatar")) in
  let* _ := lift (ok_or (avatar_not_found "avatar key missing")
                    (stored_avatar_prefix (Some profile))) in
  let* key := lift (ok_or (avatar_not_found "avatar key invalid")
                      (resolve_stored_avatar_variant_key profile size)) in
  map_err (fun _ => avatar_not_found ("avatar object " +:+ key)) (get_stream key).

Definition delete_uploaded_avatar_for_user (user_id : Z) : AM unit :=
  let* found := UserProfileRepo.find_by_user_id user_id in
  delete_previous found.
End Service.
