(* ===== verification/Passkeys.v ===== *)
(** * Passkeys

    [services/passkey_service.rs] and [passkey_repo.rs]: the ceremonies of
    WebAuthn, whose challenges wait in the cache, and the credentials they
    leave in the table.  The WebAuthn library, its JSON, base64 and URLs are
    the class [Webauthn]; the state of a ceremony is its JSON. *)

From Stdlib Require Import ZArith List Bool Lia Ascii.
From stdpp Require Import base decidable list strings pretty.
From S2P Require Import Prelude Text Errors Types AuditLog World Repos Bans Tokens Auth ForwardTextures AuthConfig Accounts WebSessions TextureLibrary ExternalAuth.

Local Open Scope Z_scope.
Local Open Scope aster_scope.

Definition PASSKEY_CHALLENGE_TTL_SECS : Z := 300.
Definition PASSKEY_NAME_MAX_LEN : Z := 128.

Record PasskeyInfo : Type := mkPasskeyInfo {
  pi_id : Z;
  pi_name : string;
  pi_transports : option (list string);
  pi_backup_eligible : bool;
  pi_backed_up : bool;
  pi_sign_count : Z;
  pi_created_at : DateTimeUtc;
  pi_updated_at : DateTimeUtc;
  pi_last_used_at : option DateTimeUtc
}.

(** What a browser is given to run a ceremony; the options are JSON. *)
Record PasskeyStartResp : Type := mkPasskeyStart { ps_flow_id : string; ps_public_key : string }.

Record PasskeyLoginResult : Type := mkPasskeyLogin {
  pl_session : AuthTokenBundle;
  pl_passkey_id : Z;
  pl_passkey_name : string
}.

Inductive ResidentKeyRequirement : Set := KeyDiscouraged | KeyPreferred | KeyRequired.
Inductive UserVerificationPolicy : Set := UvRequired | UvPreferred | UvDiscouraged.

(** [AuthenticatorSelectionCriteria] *)
Record Selection : Type := mkSelection {
  authenticator_attachment : option string;
  resident_key : option ResidentKeyRequirement;
  require_resident_key : bool;
  user_verification : UserVerificationPolicy
}.

(** ** The library boundary *)

Class Webauthn : Type := {
  (* serde_json *)
  Value : Type;
  value_get : Value -> string -> option Value;
  value_as_bool : Value -> option bool;
  value_as_u64 : Value -> option Z;
  value_is_null : Value -> bool;
  value_to_string : Value -> outcome string string;
  value_from_str : string -> outcome string Value;
  strings_from_str : string -> option (list string);
  (* url, aster_forge_utils *)
  rp_url : Type;
  rp_url_parse : string -> outcome string rp_url;
  rp_url_scheme : rp_url -> string;
  rp_url_host : rp_url -> option string;
  forge_is_loopback_host : string -> bool;
  u32_to_i64 : Z -> Z;
  base64_url_encode : string -> string;
  uuid_parse_str : string -> outcome string string;
  (* the relying party *)
  Builder : Type;
  RelyingParty : Type;
  builder_new : string -> rp_url -> outcome string Builder;
  builder_rp_name : string -> Builder -> Builder;
  append_allowed_origin : rp_url -> Builder -> Builder;
  builder_build : Builder -> outcome string RelyingParty;
  (* credentials *)
  Credential : Type;
  cred_id : Credential -> string;
  credential_to_value : Credential -> outcome string Value;
  credential_from_value : Value -> outcome string Credential;
  (* registration *)
  CreationOptions : Type;
  selection_of : CreationOptions -> option Selection;
  default_selection : Selection;
  with_selection : Selection -> CreationOptions -> CreationOptions;
  creation_to_value : CreationOptions -> outcome string string;
  RegisterCredential : Type;
  register_from_value : string -> outcome string RegisterCredential;
  cred_props_rk : RegisterCredential -> option bool;
  start_passkey_registration : RelyingParty -> nat -> string -> string -> string ->
    option (list string) -> outcome string (CreationOptions * string);
  finish_passkey_registration : RelyingParty -> RegisterCredential -> string ->
    outcome string Credential;
  (* authentication *)
  RequestOptions : Type;
  clear_mediation : RequestOptions -> RequestOptions;
  request_to_value : RequestOptions -> outcome string string;
  LoginCredential : Type;
  login_from_value : string -> outcome string LoginCredential;
  get_credential_id : LoginCredential -> string;
  start_discoverable_authentication : RelyingParty -> nat ->
    outcome string (RequestOptions * string);
  identify_discoverable_authentication : RelyingParty -> LoginCredential ->
    outcome string (string * string);
  DiscoverableKey : Type;
  discoverable_key : Credential -> DiscoverableKey;
  AuthenticationResult : Type;
  finish_discoverable_authentication : RelyingParty -> LoginCredential -> string ->
    list DiscoverableKey -> outcome string AuthenticationResult;
  user_verified : AuthenticationResult -> bool;
  result_backup_eligible : AuthenticationResult -> bool;
  result_backup_state : AuthenticationResult -> bool;
  result_counter : AuthenticationResult -> Z;
  update_credential : Credential -> AuthenticationResult -> option (bool * Credential);
  (* whether the database sorts NULL below every value *)
  nulls_low : bool
}.

(** ** The table *)

Module PasskeyRepo.
Section Ops.
Context `{EN : Env} `{CB : CacheBackend} `{WA : Webauthn} `{FA : ForgeApi}.

(** [NULL] against a date, as the database orders them. *)
Definition date_ltb (a b : option DateTimeUtc) : bool :=
  match a, b with
  | None, None => false
  | None, Some _ => nulls_low
  | Some _, None => negb nulls_low
  | Some a, Some b => a <? b
  end.

Definition used_first (p q : passkey) : bool :=
  date_ltb (passkey_last_used_at q) (passkey_last_used_at p)
  || (negb (date_ltb (passkey_last_used_at p) (passkey_last_used_at q))
      && (passkey_created_at q <=? passkey_created_at p)).

Definition newest_first (p q : passkey) : bool :=
  (passkey_created_at q <? passkey_created_at p)
  || ((passkey_created_at p =? passkey_created_at q) && (passkey_pk q <=? passkey_pk p)).

Definition after_cursor (after : option (DateTimeUtc * Z)) (p : passkey) : bool :=
  match after with
  | None => true
  | Some (created_at, id) =>
      (passkey_created_at p <? created_at)
      || ((passkey_created_at p =? created_at) && (passkey_pk p <? id))
  end.

Definition of_user (user_id : Z) (p : passkey) : bool := passkey_user_id p =? user_id.
Definition own (id user_id : Z) (p : passkey) : bool :=
  (passkey_pk p =? id) && (passkey_user_id p =? user_id).

Definition list_for_user (user_id : Z) : M AsterError.t (list passkey) :=
  db_query (fun d => sort_by used_first (rows_where (of_user user_id) (rows (passkeys d)))).

Definition list_for_user_cursor (user_id limit : Z) (after : option (DateTimeUtc * Z))
  : M AsterError.t (CursorSlice passkey) :=
  let limit := SessionRepo.clamp limit 1 100 in
  let* total := db_query (fun d =>
    Z.of_nat (count_where (of_user user_id) (rows (passkeys d)))) in
  let* items := db_query (fun d =>
    firstn (Z.to_nat (limit + 1))
      (sort_by newest_first
         (rows_where (fun p => of_user user_id p && after_cursor after p) (rows (passkeys d))))) in
  lift (match from_overfetch items total limit with
        | Ok s => Ok s
        | Err m => Err (AsterError.ValidationError m)
        | Panic m => Panic m
        end).

Definition find_by_id_for_user (id user_id : Z) : M AsterError.t (option passkey) :=
  db_query (fun d => find_row (own id user_id) (rows (passkeys d))).

Definition find_by_credential_id (c : string) : M AsterError.t (option passkey) :=
  db_query (fun d => find_row (fun p => eqb (credential_id p) c) (rows (passkeys d))).

Definition find_by_user_handle_and_credential_id (handle c : string)
  : M AsterError.t (option passkey) :=
  db_query (fun d =>
    find_row (fun p => eqb (user_handle p) handle && eqb (credential_id p) c) (rows (passkeys d))).

Definition user_handle_exists (handle : string) : M AsterError.t bool :=
  db_query (fun d => is_some (find_row (fun p => eqb (user_handle p) handle) (rows (passkeys d)))).

Definition renamed (name : string) (now : DateTimeUtc) (p : passkey) : passkey :=
  mkPasskey (passkey_pk p) (passkey_user_id p) (credential_id p) (user_handle p) (credential p)
    name (transports p) (backup_eligible p) (backed_up p) (sign_count p) (passkey_created_at p)
    now (passkey_last_used_at p).

Definition update_name_for_user (id user_id : Z) (name : string) : M AsterError.t bool :=
  let* now := utc_now in
  let* n := db_update_many passkeys set_passkeys (own id user_id) (renamed name now) in
  ret (n =? 1).

Definition authenticated (c : string) (eligible backed : bool) (count : Z) (at_ : DateTimeUtc)
  (p : passkey) : passkey :=
  mkPasskey (passkey_pk p) (passkey_user_id p) (credential_id p) (user_handle p) c
    (passkey_name p) (transports p) eligible backed count (passkey_created_at p) at_ (Some at_).

Definition update_credential_after_auth (id : Z) (c : string) (eligible backed : bool) (count : Z)
  (last_used_at : DateTimeUtc) : M AsterError.t bool :=
  do* when_ok (count <? 0) (AsterError.ValidationError "passkey sign count cannot be negative") in
  let* n := db_update_many passkeys set_passkeys (fun p => passkey_pk p =? id)
              (authenticated c eligible backed count last_used_at) in
  ret (n =? 1).

Definition used (at_ : DateTimeUtc) (p : passkey) : passkey :=
  mkPasskey (passkey_pk p) (passkey_user_id p) (credential_id p) (user_handle p) (credential p)
    (passkey_name p) (transports p) (backup_eligible p) (backed_up p) (sign_count p)
    (passkey_created_at p) at_ (Some at_).

Definition touch_last_used (id : Z) (last_used_at : DateTimeUtc) : M AsterError.t bool :=
  let* n := db_update_many passkeys set_passkeys (fun p => passkey_pk p =? id)
              (used last_used_at) in
  ret (n =? 1).

Definition delete_for_user (id user_id : Z) : M AsterError.t bool :=
  let* n := db_delete_many passkeys set_passkeys (own id user_id) in
  ret (n =? 1).

Definition already_exists : AsterError.t :=
  AsterError.ValidationError "passkey credential already exists".

(** The unique index. *)
Definition credential_conflict (p q : passkey) : bool := eqb (credential_id p) (credential_id q).

(** [ActiveModel { .. }.insert(db)] with [map_unique_passkey_err]. *)
Definition insert (user_id : Z) (mk : Z -> passkey) : M AsterError.t passkey :=
  db_exec (fun d =>
    if negb (user_exists user_id d) then Err (AsterError.DatabaseOperation foreign_key_violation)
    else match insert_row credential_conflict mk (passkeys d) with
         | Some (r, t) => Ok (r, set_passkeys t d)
         | None => Err already_exists
         end).
End Ops.
End PasskeyRepo.

(** ** The service *)

(** [char::is_control]: C0, DEL and, as UTF-8, C1. *)
Fixpoint has_control (l : list ascii) : bool :=
  match l with
  | [] => false
  | a :: rest =>
      (Text.code a <? 32)%nat || (Text.code a =? 127)%nat
      || match rest with
         | b :: _ => (Text.code a =? 194)%nat && (128 <=? Text.code b)%nat
                     && (Text.code b <=? 159)%nat
         | [] => false
         end
      || has_control rest
  end.

Example control_in_utf8 :
  has_control (bytes "Key") = false /\ has_control [ascii_of_nat 194; ascii_of_nat 133] = true.
Proof. by split. Qed.

Section Service.
Context `{EN : Env} `{CB : CacheBackend} `{FC : ForgeCrypto} `{FN : ForgeNumbers}.
Context `{FS : ForgeSigned} `{AE : !AccountExterns} `{CS : ChronoSeconds} `{JW : Jwt}.
Context `{CF : ForgeConfig} `{ST : ConfigStore} `{RC : RuntimeConfig} `{AC : AppConfig}.
Context `{FA : ForgeApi} `{BE : BanExterns} `{WA : Webauthn}.

Abbreviation AM := (M AsterError.t).

Definition registration_cache_key (flow_id : string) : string :=
  "external_auth:passkey:registration:" +:+ flow_id.
Definition login_cache_key (flow_id : string) : string :=
  "external_auth:passkey:login:" +:+ flow_id.

(** [map_aster_err_ctx(context, mapper)] *)
Definition in_context {A} (context : string) (mapper : string -> AsterError.t)
  (r : outcome string A) : outcome AsterError.t A :=
  match r with
  | Ok a => Ok a
  | Err e => Err (mapper (context +:+ ": " +:+ e))
  | Panic m => Panic m
  end.

(** A [Uuid] is its hyphenated text. *)
Definition user_handle_from_storage (value : string) : outcome AsterError.t string :=
  in_context "invalid stored passkey user handle" AsterError.DatabaseOperation
    (uuid_parse_str value).

Definition user_handle_for_registration (existing : list passkey) : AM string :=
  match existing with
  | p :: _ => lift (user_handle_from_storage (user_handle p))
  | [] => best_effort_uuid "passkey user handle" PasskeyRepo.user_handle_exists
  end.

Definition normalize_passkey_name (name : option string) : outcome AsterError.t string :=
  let normalized :=
    match option_map trim name with
    | Some v => if is_empty v then "Passkey"%string else v
    | None => "Passkey"%string
    end in
  if PASSKEY_NAME_MAX_LEN <? char_count normalized
  then Err (AsterError.validation_error_code AsterErrorCode.PasskeyNameTooLong
              ("passkey name exceeds " +:+ pretty PASSKEY_NAME_MAX_LEN +:+ " characters"))
  else if has_control (bytes normalized)
  then Err (AsterError.validation_error_code AsterErrorCode.PasskeyNameInvalid
              "passkey name cannot contain control characters")
  else Ok normalized.

Definition passkey_to_json (c : Credential) : outcome AsterError.t Value :=
  in_context "failed to serialize passkey" AsterError.InternalError (credential_to_value c).

Definition stored_passkey_credential (v : Value) : outcome AsterError.t string :=
  in_context "failed to serialize passkey" AsterError.InternalError (value_to_string v).

Definition passkey_from_json (stored : string) : outcome AsterError.t Credential :=
  and_then (in_context "failed to parse stored passkey credential JSON"
              AsterError.DatabaseOperation (value_from_str stored)) (fun v =>
  in_context "failed to deserialize passkey" AsterError.DatabaseOperation (credential_from_value v)).

Record PasskeyMetadata : Type := mkMetadata {
  pm_credential : string;
  pm_transports : option string;
  pm_backup_eligible : bool;
  pm_backed_up : bool;
  pm_sign_count : Z
}.

(** [value.get("cred").and_then(|cred| cred.get(field))] *)
Definition cred_field (v : Value) (field : string) : option Value :=
  cred ← value_get v "cred"; value_get cred field.

Definition transports_from_passkey_json (v : Value) : option string :=
  t ← cred_field v "transports";
  if value_is_null t then None
  else match value_to_string t with Ok s => Some s | _ => None end.

Definition passkey_metadata (c : Credential) : outcome AsterError.t PasskeyMetadata :=
  and_then (passkey_to_json c) (fun v =>
  and_then (match cred_field v "counter" ≫= value_as_u64 with
            | Some n => utils (u64_to_i64 n "passkey sign count")
            | None => Ok 0
            end) (fun count =>
  and_then (stored_passkey_credential v) (fun stored =>
  Ok (mkMetadata stored (transports_from_passkey_json v)
        (default false (cred_field v "backup_eligible" ≫= value_as_bool))
        (default false (cred_field v "backup_state" ≫= value_as_bool)) count)))).

Definition transports_to_vec (value : option string) : option (list string) :=
  raw ← value; strings_from_str raw.

Definition model_to_info (p : passkey) : PasskeyInfo :=
  mkPasskeyInfo (passkey_pk p) (passkey_name p) (transports_to_vec (transports p))
    (backup_eligible p) (backed_up p) (sign_count p) (passkey_created_at p)
    (passkey_updated_at p) (passkey_last_used_at p).

Definition webauthn_error {A} (r : outcome string A) : outcome AsterError.t A :=
  in_context "passkey verification failed" AsterError.AuthInvalidCredentials r.

Definition webauthn_config_error {A} (r : outcome string A) : outcome AsterError.t A :=
  in_context "invalid passkey relying party configuration" AsterError.ConfigError r.

Definition rp_id_from_origin (origin : rp_url) : outcome AsterError.t string :=
  ok_or (AsterError.ConfigError "public_site_url origin must include a host") (rp_url_host origin).

Definition primary_public_origin : outcome AsterError.t string :=
  and_then (ok_or (AsterError.validation_error_code AsterErrorCode.ConfigPublicSiteUrlRequired
                     "public_site_url must be configured before enabling passkey authentication")
              (public_site_url config_get)) (fun origin =>
  match rp_url_parse origin with
  | Err _ => Err (AsterError.validation_error_code AsterErrorCode.ConfigPublicSiteUrlInvalid
                    "passkey authentication requires a valid public_site_url")
  | Panic m => Panic m
  | Ok parsed =>
      let is_local_http := eqb (rp_url_scheme parsed) "http"%string
                           && is_some_and (rp_url_host parsed) forge_is_loopback_host in
      if eqb (rp_url_scheme parsed) "https"%string || is_local_http then Ok origin
      else Err (AsterError.validation_error_code AsterErrorCode.ConfigPublicSiteUrlInvalid
                  "passkey authentication requires HTTPS public_site_url, except localhost")
  end).

Fixpoint append_origins (primary : string) (origins : list string) (b : Builder)
  : outcome AsterError.t Builder :=
  match origins with
  | [] => Ok b
  | origin :: origins =>
      if eqb origin primary then append_origins primary origins b
      else and_then (webauthn_config_error (rp_url_parse origin)) (fun parsed =>
             append_origins primary origins (append_allowed_origin parsed b))
  end.

Definition build_webauthn : outcome AsterError.t RelyingParty :=
  and_then primary_public_origin (fun primary_origin =>
  and_then (webauthn_config_error (rp_url_parse primary_origin)) (fun primary =>
  and_then (rp_id_from_origin primary) (fun rp_id =>
  and_then (webauthn_config_error (builder_new rp_id primary)) (fun builder =>
  and_then (append_origins primary_origin (public_site_urls config_get)
              (builder_rp_name (title_or_default config_get) builder)) (fun builder =>
  webauthn_config_error (builder_build builder)))))).

Definition login_disabled : AsterError.t :=
  AsterError.auth_forbidden_code AsterErrorCode.AuthPasskeyLoginDisabled
    "passkey login is disabled by administrator policy".

Definition ensure_passkey_login_enabled : AM unit :=
  let policy := auth_policy config_get in
  do* when_ok (negb (allow_local_login policy)) login_disabled in
  when_ok (negb (passkey_login_enabled policy)) login_disabled.

(** *** Challenges *)

Definition store_registration_challenge (flow_id : string) (c : PasskeyRegistrationChallenge)
  : AM unit :=
  cache_write (registration_cache_key flow_id) (CvRegistration c) PASSKEY_CHALLENGE_TTL_SECS.

Definition take_registration_challenge (flow_id : string) : AM PasskeyRegistrationChallenge :=
  let* found := cache_take (registration_cache_key flow_id) in
  match found with
  | Some (CvRegistration c) => ret c
  | _ => throw (AsterError.AuthTokenInvalid "passkey registration challenge expired")
  end.

Definition store_login_challenge (flow_id : string) (c : PasskeyAuthenticationChallenge)
  : AM unit :=
  cache_write (login_cache_key flow_id) (CvAuthentication c) PASSKEY_CHALLENGE_TTL_SECS.

Definition take_login_challenge (flow_id : string) : AM PasskeyAuthenticationChallenge :=
  let* found := cache_take (login_cache_key flow_id) in
  match found with
  | Some (CvAuthentication c) => ret c
  | _ => throw (AsterError.AuthTokenInvalid "passkey login challenge expired")
  end.

Definition require_discoverable_registration (o : CreationOptions) : CreationOptions :=
  let s := default default_selection (selection_of o) in
  with_selection (mkSelection (authenticator_attachment s) (Some KeyRequired) true UvRequired) o.

Definition ensure_discoverable_registration_result (c : RegisterCredential)
  : outcome AsterError.t unit :=
  if eqb (cred_props_rk c) (Some false)
  then Err (AsterError.validation_error_code AsterErrorCode.PasskeyNotDiscoverable
              "passkey registration did not create a discoverable credential")
  else Ok tt.

Definition ensure_login_user (u : user) : outcome AsterError.t unit :=
  if negb (is_active_user (user_status u)) then Err (AsterError.AuthForbidden "account is disabled")
  else if negb (is_email_activation_satisfied u)
  then Err (AsterError.auth_pending_activation "account pending activation")
  else Ok tt.

Definition normalize_login_identifier (identifier : option string) : option string :=
  match option_map trim identifier with
  | Some v => if is_empty v then None else Some v
  | None => None
  end.

Definition ensure_login_identifier_matches (u : user) (identifier : string)
  : outcome AsterError.t unit :=
  let matches :=
    if contains_char "@" identifier then eqb (email u) (Some identifier)
    else eqb (username u) identifier in
  if matches then Ok tt
  else Err (AsterError.AuthInvalidCredentials "passkey does not match requested identifier").

(** A call of the library that draws a challenge. *)
Definition drawn {A} (f : nat -> outcome string A) : AM A :=
  fun w => (webauthn_error (f (step w)), tick w).

(** *** What a user sees and does *)

Definition list_passkeys (user_id : Z) : AM (list PasskeyInfo) :=
  let* items := PasskeyRepo.list_for_user user_id in
  ret (List.map model_to_info items).

Definition list_passkeys_cursor (user_id limit : Z) (cursor : option (DateTimeUtc * Z))
  : AM (CursorPage PasskeyInfo (DateTimeUtc * Z)) :=
  let limit := SessionRepo.clamp limit 1 100 in
  let* page := PasskeyRepo.list_for_user_cursor user_id limit cursor in
  let next :=
    if has_more page
    then option_map (fun p => (passkey_created_at p, passkey_pk p)) (last (items page))
    else None in
  ret (mkPage (List.map model_to_info (items page)) (total page) limit next).

Definition rename_passkey (user_id id : Z) (name : string) : AM PasskeyInfo :=
  let not_found := AsterError.RecordNotFound ("passkey #" +:+ pretty id) in
  let* name := lift (normalize_passkey_name (Some name)) in
  let* updated := PasskeyRepo.update_name_for_user id user_id name in
  do* when_ok (negb updated) not_found in
  let* found := PasskeyRepo.find_by_id_for_user id user_id in
  let* p := lift (ok_or not_found found) in
  ret (model_to_info p).

Definition delete_passkey (user_id id : Z) : AM bool := PasskeyRepo.delete_for_user id user_id.

(** *** Registration *)

Definition registration_display_name (u : user) : string :=
  match option_map (fun e => default EmptyString (head (split_char "@" e))) (email u) with
  | Some v => if is_empty v then username u else v
  | None => username u
  end.

Definition excluded (existing : list passkey) : outcome AsterError.t (option (list string)) :=
  and_then (collect (fun p => and_then (passkey_from_json (credential p)) (fun c => Ok (cred_id c)))
              existing) (fun ids =>
  Ok (match ids with [] => None | _ => Some ids end)).

Definition active_account (user_id : Z) : AM user :=
  let* user := UserRepo.find_by_id user_id in
  do* when_ok (negb (is_active_user (user_status user)))
        (AsterError.AuthForbidden "account is disabled") in
  ret user.

Definition start_registration (user_id : Z) (name : option string) : AM PasskeyStartResp :=
  let* webauthn := lift build_webauthn in
  let* user := active_account user_id in
  let* existing := PasskeyRepo.list_for_user (user_pk user) in
  let* handle := user_handle_for_registration existing in
  let* exclude := lift (excluded existing) in
  let* (options, registration) := drawn (fun n =>
    start_passkey_registration webauthn n handle (username user) (registration_display_name user)
      exclude) in
  let options := require_discoverable_registration options in
  let* flow_id := new_uuid in
  let* default_name := lift (normalize_passkey_name name) in
  do* store_registration_challenge flow_id
        (mkRegistrationChallenge (user_pk user) handle default_name registration) in
  let* public_key := lift (in_context "failed to serialize passkey registration options"
                             AsterError.InternalError (creation_to_value options)) in
  ret (mkPasskeyStart flow_id public_key).

Definition finish_registration (user_id : Z) (flow_id : string) (value : string)
  (name : option string) : AM PasskeyInfo :=
  let* webauthn := lift build_webauthn in
  let* challenge := take_registration_challenge flow_id in
  do* when_ok (negb (rc_user_id challenge =? user_id))
        (AsterError.AuthForbidden "passkey registration challenge does not belong to user") in
  let* user := active_account user_id in
  let* c := lift (in_context "invalid passkey registration credential" AsterError.ValidationError
                    (register_from_value value)) in
  do* lift (ensure_discoverable_registration_result c) in
  let* created := lift (webauthn_error (finish_passkey_registration webauthn c (rc_state challenge))) in
  let id := base64_url_encode (cred_id created) in
  let* known := PasskeyRepo.find_by_credential_id id in
  do* when_ok (is_some known) PasskeyRepo.already_exists in
  let* final_name :=
    match name with
    | Some name => lift (normalize_passkey_name (Some name))
    | None => ret (rc_default_name challenge)
    end in
  let* meta := lift (passkey_metadata created) in
  let* now := utc_now in
  let* row := PasskeyRepo.insert (user_pk user) (fun pk =>
    mkPasskey pk (user_pk user) id (rc_user_handle challenge) (pm_credential meta) final_name
      (pm_transports meta) (pm_backup_eligible meta) (pm_backed_up meta) (pm_sign_count meta)
      now now None) in
  ret (model_to_info row).

(** *** Signing in *)

Definition start_login (identifier : option string) (conditional : bool) : AM PasskeyStartResp :=
  do* ensure_passkey_login_enabled in
  let* webauthn := lift build_webauthn in
  let* (options, state) := drawn (start_discoverable_authentication webauthn) in
  let options := if conditional then options else clear_mediation options in
  let* flow_id := new_uuid in
  do* store_login_challenge flow_id
        (mkAuthenticationChallenge (normalize_login_identifier identifier) state) in
  let* public_key := lift (in_context "failed to serialize passkey login options"
                             AsterError.InternalError (request_to_value options)) in
  ret (mkPasskeyStart flow_id public_key).

Definition passkey_not_found : AsterError.t :=
  AsterError.AuthInvalidCredentials "passkey not found".

(** The stored passkey a credential claims to be. *)
Definition claimed_passkey (webauthn : RelyingParty) (c : LoginCredential) : AM passkey :=
  let id := base64_url_encode (get_credential_id c) in
  let* (handle, discovered) :=
    lift (webauthn_error (identify_discoverable_authentication webauthn c)) in
  do* when_ok (negb (eqb (base64_url_encode discovered) id))
        (AsterError.AuthInvalidCredentials "passkey credential id mismatch") in
  let* found := PasskeyRepo.find_by_user_handle_and_credential_id handle id in
  lift (ok_or passkey_not_found found).

(** The row after a sign-in: the credential when its counter or backup state
    moved, the date in any case. *)
Definition record_use (p : passkey) (stored : Credential) (result : AuthenticationResult)
  : AM unit :=
  let* now := utc_now in
  let* (changed, stored) := lift (ok_or
    (AsterError.AuthInvalidCredentials "passkey credential update mismatch")
    (update_credential stored result)) in
  let* written :=
    if changed then
      let* v := lift (passkey_to_json stored) in
      let* c := lift (stored_passkey_credential v) in
      PasskeyRepo.update_credential_after_auth (passkey_pk p) c (result_backup_eligible result)
        (result_backup_state result) (u32_to_i64 (result_counter result)) now
    else PasskeyRepo.touch_last_used (passkey_pk p) now in
  when_ok (negb written) passkey_not_found.

Definition finish_login (flow_id : string) (value : string) (req : HttpRequest)
  : AM PasskeyLoginResult :=
  do* ensure_passkey_login_enabled in
  let* webauthn := lift build_webauthn in
  let* challenge := take_login_challenge flow_id in
  let* c := lift (in_context "invalid passkey login credential" AsterError.ValidationError
                    (login_from_value value)) in
  let* p := claimed_passkey webauthn c in
  let* user := UserRepo.find_by_id (passkey_user_id p) in
  do* lift (match ac_identifier challenge with
            | Some identifier => ensure_login_identifier_matches user identifier
            | None => Ok tt
            end) in
  do* lift (ensure_login_user user) in
  let* stored := lift (passkey_from_json (credential p)) in
  let* result := lift (webauthn_error
    (finish_discoverable_authentication webauthn c (ac_state challenge)
       [discoverable_key stored])) in
  do* when_ok (negb (user_verified result))
        (AsterError.AuthInvalidCredentials "passkey user verification required") in
  do* record_use p stored result in
  let* session := issue_tokens user req in
  ret (mkPasskeyLogin session (passkey_pk p) (passkey_name p)).
End Service.
