(* ===== verification/ExternalResolution.v ===== *)
(** * External authentication: from claims to an account

    [services/external_auth_service/resolution.rs]: which account a set of
    external claims signs in, the user names made up for new accounts, and
    the links between an account and an external identity. *)

From Stdlib Require Import ZArith List Bool Lia Ascii.
From stdpp Require Import base decidable list strings pretty.
From S2P Require Import Prelude Text Errors Types AuditLog World Logic Repos Tokens Auth AuthConfig Accounts WebSessions AccountFlows Profiles ExternalAuth.

Local Open Scope Z_scope.
Local Open Scope aster_scope.

Abbreviation ExternalAuthUserClaims := ExternalAuthProfile.

(** [base64(rand::fill([0; 48]))], drawn at the tick of the call. *)
Class ExternalRandom : Type := { internal_password_at : nat -> string }.

(** 48 bytes are 64 characters. *)
Class ExternalRandomLaws (ER : ExternalRandom) : Prop := {
  internal_password_length n : str_len (internal_password_at n) = 64%nat
}.

Definition UNIQUE_USERNAME_MAX_ATTEMPTS : nat := 5.
Definition UNIQUE_USERNAME_SUFFIX_LEN : nat := 6.
Definition UNIQUE_USERNAME_SUFFIX_CHARSET : list ascii :=
  bytes "abcdefghijklmnopqrstuvwxyz0123456789".
Definition LINUXDO_USERNAME_PREFIX : string := "linuxdo_".

Record ResolvedExternalAuthUser : Type := mkResolved {
  resolved_user : user;
  resolved_linked : bool;
  resolved_auto_provisioned : bool
}.

Record ResolveExternalAuthUserOptions : Type := mkResolveOptions {
  enforce_email_domain : bool;
  allow_verified_email_auto_link : bool
}.

Definition DEFAULT_RESOLVE_OPTIONS : ResolveExternalAuthUserOptions := mkResolveOptions true true.

Definition require_email_if_configured (p : external_auth_provider)
  (claims : ExternalAuthUserClaims) : outcome AsterError.t unit :=
  if negb (require_email_verified p) then Ok tt
  else if is_none_or (ep_email claims) is_empty
  then Err (AsterError.AuthForbidden
              "external auth provider requires a verified email but no email claim was returned")
  else if negb (ep_email_verified claims)
  then Err (AsterError.AuthForbidden "external auth provider requires verified email")
  else Ok tt.

(** ** User names *)

Definition sanitize_username_byte (a : ascii) : option ascii :=
  if username_char a then Some (ascii_to_lower a)
  else if mem a ["."; " "]%char then Some "-"%char
  else None.

Definition sanitize_username_piece (value : string) : string :=
  trim_matches "-"%char (of_bytes (omap sanitize_username_byte (bytes value))).

(** [filter(|value| value.len() >= USERNAME_MIN_LEN)] *)
Definition long_enough (value : string) : option string :=
  if (USERNAME_MIN_LEN <=? str_len value)%nat then Some value else None.

(** [while base.len() < USERNAME_MIN_LEN { base.push('0') }] *)
Definition pad_username (base : string) : string :=
  base +:+ of_bytes (List.repeat "0"%char (USERNAME_MIN_LEN - str_len base)).

Section Names.
Context `{FC : ForgeCrypto}.

Definition external_auth_username_base (claims : ExternalAuthUserClaims) : string :=
  let from_email := fun address => head (split_char "@"%char address) in
  let base :=
    match (ep_preferred_username claims) ≫= (fun v => long_enough (sanitize_username_piece v)) with
    | Some base => base
    | None =>
        match (ep_email claims ≫= from_email)
              ≫= (fun v => long_enough (sanitize_username_piece v)) with
        | Some base => base
        | None => "oidc" +:+ byte_prefix 8 (sha256_hex (ep_subject claims))
        end
    end in
  pad_username
    (if (USERNAME_MAX_LEN <? str_len base)%nat
     then trim_matches "-"%char (byte_prefix USERNAME_MAX_LEN base) else base).
End Names.

(** The candidate of a retry, with its suffix. *)
Definition suffixed_username (base suffix : string) : string :=
  let stem_max := (USERNAME_MAX_LEN - (str_len suffix + 1))%nat in
  let stem :=
    if (stem_max <? str_len base)%nat
    then trim_matches "-"%char (byte_prefix stem_max base) else base in
  let stem := if (str_len stem <? USERNAME_MIN_LEN)%nat then "oidc" else stem in
  stem +:+ "-" +:+ suffix.

Definition linuxdo_subject_username_candidate (claims : ExternalAuthUserClaims) : option string :=
  let subject := sanitize_username_piece (ep_subject claims) in
  if is_empty subject then None
  else
    let subject_max_len := (USERNAME_MAX_LEN - str_len LINUXDO_USERNAME_PREFIX)%nat in
    let subject :=
      if (subject_max_len <? str_len subject)%nat then byte_prefix subject_max_len subject
      else subject in
    let candidate := LINUXDO_USERNAME_PREFIX +:+ subject in
    if (USERNAME_MIN_LEN <=? str_len candidate)%nat
       && (str_len candidate <=? USERNAME_MAX_LEN)%nat
    then Some candidate else None.

Definition is_linuxdo (p : external_auth_provider) : bool :=
  eqb (provider_auth_kind p) ExternalAuthProviderKind.LinuxDo.

(** What the candidates of a provider start from. *)
Definition username_stem (p : external_auth_provider) (claims : ExternalAuthUserClaims)
  (base : string) : string :=
  if negb (is_linuxdo p) then base
  else default base (linuxdo_subject_username_candidate claims).

Definition external_auth_username_conflict (e : AsterError.t) : bool :=
  match e with
  | AsterError.Public _ _ AsterErrorCode.AuthUsernameExists _ _ => true
  | _ => false
  end.

Definition claims_with_verified_local_email (flow : external_auth_email_verification_flow)
  (email : string) : ExternalAuthUserClaims :=
  mkExternalProfile (email_flow_namespace flow) (email_flow_subject flow) (Some email) true
    (email_flow_display_name flow) (preferred_username_snapshot flow).

Definition claims_without_provider_email (flow : external_auth_email_verification_flow)
  : ExternalAuthUserClaims :=
  mkExternalProfile (email_flow_namespace flow) (email_flow_subject flow) None false
    (email_flow_display_name flow) (preferred_username_snapshot flow).

Definition external_auth_claims_missing_email (claims : ExternalAuthUserClaims) : bool :=
  is_none_or (ep_email claims) is_empty.

Definition account_disabled : AsterError.t := AsterError.AuthForbidden "account is disabled".
Definition domain_not_allowed : AsterError.t :=
  AsterError.AuthForbidden "external auth email domain is not allowed for this provider".

Section Resolution.
Context `{EN : Env} `{CB : CacheBackend} `{TM : TxnManager} `{FC : ForgeCrypto} `{FA : ForgeApi}.
Context `{AE : !AccountExterns} `{CF : ForgeConfig} `{ST : ConfigStore} `{FE : ForgeEmail}.
Context `{FX : ForgeExternalAuth} `{ER : ExternalRandom}.

Abbreviation AM := (M AsterError.t).

Definition random_internal_password : AM string :=
  fun w => (Ok (internal_password_at (step w)), tick w).

(** [(0..n).map(|_| CHARSET[rng.random_range(0..CHARSET.len())])] *)
Fixpoint random_suffix (n : nat) : AM string :=
  match n with
  | O => ret EmptyString
  | S n =>
      let* index := random_range (Z.of_nat (length UNIQUE_USERNAME_SUFFIX_CHARSET)) in
      let* rest := random_suffix n in
      ret (String (List.nth (Z.to_nat index) UNIQUE_USERNAME_SUFFIX_CHARSET "a"%char) rest)
  end.

Definition random_username_suffix : AM string := random_suffix UNIQUE_USERNAME_SUFFIX_LEN.

Definition external_auth_username_candidate (base : string) (attempt : nat) : AM string :=
  match attempt with
  | O => ret base
  | _ => let* suffix := random_username_suffix in ret (suffixed_username base suffix)
  end.

Definition external_auth_username_candidate_for_provider (p : external_auth_provider)
  (claims : ExternalAuthUserClaims) (base : string) (attempt : nat) : AM string :=
  external_auth_username_candidate (username_stem p claims base) attempt.

Definition create_identity_for_claims (user_id : Z) (p : external_auth_provider)
  (claims : ExternalAuthUserClaims) (now : DateTimeUtc) (metadata : option string)
  : AM external_auth_identity :=
  IdentityRepo.create_identity
    (IdentityRepo.mkCreateIdentity user_id (provider_pk p) (ep_identity_namespace claims)
       (ep_subject claims) (ep_email claims) (ep_display_name claims) metadata now).

(** The identity of the claims, touched, and its account. *)
Definition identity_of_claims (claims : ExternalAuthUserClaims)
  : AM (option external_auth_identity) :=
  IdentityRepo.find_by_identity_namespace_subject (ep_identity_namespace claims)
    (ep_subject claims).

Definition touch_for_claims (identity : external_auth_identity)
  (claims : ExternalAuthUserClaims) (metadata : option string) (now : DateTimeUtc) : AM bool :=
  IdentityRepo.touch_login (identity_pk identity) (ep_email claims) (ep_display_name claims)
    metadata now.

Definition sign_in_identity (identity : external_auth_identity)
  (claims : ExternalAuthUserClaims) (metadata : option string) (now : DateTimeUtc)
  : AM ResolvedExternalAuthUser :=
  let* _ := touch_for_claims identity claims metadata now in
  let* user := UserRepo.find_by_id (identity_user_id identity) in
  do* when_ok (negb (is_active_user (user_status user))) account_disabled in
  ret (mkResolved user false false).

Definition link_external_auth_identity_to_authenticated_user (p : external_auth_provider)
  (claims : ExternalAuthUserClaims) (u : user) (now : DateTimeUtc)
  : AM ResolvedExternalAuthUser :=
  let* found := identity_of_claims claims in
  match found with
  | Some identity =>
      do* when_ok (negb (identity_user_id identity =? user_pk u))
            (AsterError.AuthForbidden
               "external auth identity is already linked to another user") in
      let* _ := touch_for_claims identity claims None now in
      ret (mkResolved u false false)
  | None =>
      let* _ := create_identity_for_claims (user_pk u) p claims now None in
      ret (mkResolved u true false)
  end.

(** ** New accounts *)

(** [for attempt in 0..UNIQUE_USERNAME_MAX_ATTEMPTS]: one candidate after
    the other until one is not taken. *)
Fixpoint username_attempts {A} (p : external_auth_provider) (claims : ExternalAuthUserClaims)
  (base : string) (attempts : list nat) (try_name : string -> string -> AM (A + AsterError.t))
  : AM A :=
  match attempts with
  | [] =>
      throw (AsterError.ValidationError
               "failed to allocate unique username for external auth user")
  | attempt :: attempts =>
      let* username := external_auth_username_candidate_for_provider p claims base attempt in
      let* password := random_internal_password in
      let* result := try_name username password in
      match result with
      | inl a => ret a
      | inr e =>
          if external_auth_username_conflict e
          then username_attempts p claims base attempts try_name else throw e
      end
  end.

Definition new_registration_disabled : AsterError.t :=
  registration_disabled "new user registration is disabled".

Definition new_user_input (p : external_auth_provider) (name address password : string)
  (verified_at : option DateTimeUtc) : CreateUserWithRoleInput :=
  mkCreateUser name address password User UserActive false verified_at (is_linuxdo p).

Definition create_external_auth_user_and_identity (p : external_auth_provider)
  (claims : ExternalAuthUserClaims) (now : DateTimeUtc) (metadata : option string)
  (options : ResolveExternalAuthUserOptions) : AM ResolvedExternalAuthUser :=
  do* when_ok (negb (allow_user_registration (auth_policy config_get))) new_registration_disabled in
  let* base_email := lift (ok_or
    (AsterError.AuthForbidden "external auth auto provisioning requires an email claim")
    (ep_email claims)) in
  do* when_ok ((require_email_verified p || auto_link_verified_email_enabled p)
               && negb (ep_email_verified claims))
        (AsterError.AuthForbidden "external auth auto provisioning requires verified email") in
  do* (if enforce_email_domain options
       then let* allowed := lift (email_domain_allowed p base_email) in
            when_ok (negb allowed) domain_not_allowed
       else ret tt) in
  let base := external_auth_username_base claims in
  username_attempts p claims base (seq 0 UNIQUE_USERNAME_MAX_ATTEMPTS) (fun name password =>
    txn_result (
      let* existing := Users.find_by_email base_email in
      do* when_ok (is_some existing)
            (AsterError.ValidationError "account exists; automatic linking disabled") in
      let* user := create_user_with_role
        (new_user_input p name base_email password
           (if ep_email_verified claims then Some now else None)) in
      let* _ := create_identity_for_claims (user_pk user) p claims now metadata in
      ret (mkResolved user true true))).

Definition resolve_external_auth_user_without_email (p : external_auth_provider)
  (claims : ExternalAuthUserClaims) (metadata : option string) : AM ResolvedExternalAuthUser :=
  let* now := utc_now in
  do* when_ok (negb (allow_user_registration (auth_policy config_get))) new_registration_disabled in
  let base := external_auth_username_base claims in
  username_attempts p claims base (seq 0 UNIQUE_USERNAME_MAX_ATTEMPTS) (fun name password =>
    txn_result (
      let* user := create_user_without_email_with_role name password User UserActive false
                     (is_linuxdo p) in
      let* _ := create_identity_for_claims (user_pk user) p claims now metadata in
      ret (mkResolved user true true))).

Definition create_external_auth_user_and_identity_in_connection (p : external_auth_provider)
  (claims : ExternalAuthUserClaims) (now : DateTimeUtc) : AM user :=
  do* when_ok (negb (allow_user_registration (auth_policy config_get))) new_registration_disabled in
  let* email := lift (ok_or
    (AsterError.AuthForbidden "external auth auto provisioning requires an email claim")
    (ep_email claims)) in
  let* allowed := lift (email_domain_allowed p email) in
  do* when_ok (negb allowed) domain_not_allowed in
  let* existing := Users.find_by_email email in
  do* when_ok (is_some existing)
        (AsterError.ValidationError
           "user email already exists but automatic email linking is disabled") in
  let base := external_auth_username_base claims in
  username_attempts p claims base (seq 0 UNIQUE_USERNAME_MAX_ATTEMPTS) (fun name password =>
    let* created := catch (create_user_with_role (new_user_input p name email password (Some now))) in
    match created with
    | inl user =>
        let* _ := create_identity_for_claims (user_pk user) p claims now None in
        ret (inl user)
    | inr e => ret (inr e)
    end).

(** ** Resolution *)

Definition resolve_external_auth_user_with_verified_email (p : external_auth_provider)
  (claims : ExternalAuthUserClaims) (now : DateTimeUtc) : AM ResolvedExternalAuthUser :=
  let* email := lift (ok_or
    (AsterError.AuthForbidden "external auth email verification requires an email")
    (ep_email claims)) in
  let* allowed := lift (email_domain_allowed p email) in
  do* when_ok (negb allowed) domain_not_allowed in
  let* found := identity_of_claims claims in
  match found with
  | Some identity => sign_in_identity identity claims None now
  | None =>
      let* existing := Users.find_by_email email in
      match existing with
      | Some user =>
          do* when_ok (negb (is_active_user (user_status user))) account_disabled in
          do* when_ok (is_none (email_verified_at user))
                (AsterError.AuthForbidden "local account email is not verified") in
          let* _ := create_identity_for_claims (user_pk user) p claims now None in
          ret (mkResolved user true false)
      | None =>
          let* user := create_external_auth_user_and_identity_in_connection p claims now in
          ret (mkResolved user true true)
      end
  end.

(** The account with the verified address of the claims, when the provider
    links those. *)
Definition auto_link_candidate (p : external_auth_provider) (claims : ExternalAuthUserClaims)
  (options : ResolveExternalAuthUserOptions) : AM (option user) :=
  if allow_verified_email_auto_link options && auto_link_verified_email_enabled p
     && ep_email_verified claims
  then match ep_email claims with
       | Some email => Users.find_by_email email
       | None => ret None
       end
  else ret None.

Definition auto_provision (p : external_auth_provider) (claims : ExternalAuthUserClaims)
  (metadata : option string) (options : ResolveExternalAuthUserOptions) (now : DateTimeUtc)
  : AM (option ResolvedExternalAuthUser) :=
  match ep_email claims with
  | None => ret None
  | Some email =>
      if is_empty email then ret None
      else if (require_email_verified p || auto_link_verified_email_enabled p)
              && negb (ep_email_verified claims)
      then ret None
      else if negb (allow_user_registration (auth_policy config_get)) then ret None
      else
        let* existing := Users.find_by_email email in
        if is_some existing then ret None
        else
          let* resolved := create_external_auth_user_and_identity p claims now metadata options in
          ret (Some resolved)
  end.

Definition resolve_external_auth_user_with_options (p : external_auth_provider)
  (claims : ExternalAuthUserClaims) (metadata : option string)
  (options : ResolveExternalAuthUserOptions) : AM (option ResolvedExternalAuthUser) :=
  let* now := utc_now in
  let* found := identity_of_claims claims in
  match found with
  | Some identity =>
      let* resolved := sign_in_identity identity claims metadata now in
      ret (Some resolved)
  | None =>
      do* lift (require_email_if_configured p claims) in
      do* (if enforce_email_domain options
           then match ep_email claims with
                | Some email =>
                    let* allowed := lift (email_domain_allowed p email) in
                    when_ok (negb allowed) domain_not_allowed
                | None => ret tt
                end
           else ret tt) in
      let* candidate := auto_link_candidate p claims options in
      match candidate with
      | Some user =>
          do* when_ok (negb (is_active_user (user_status user))) account_disabled in
          let* _ := create_identity_for_claims (user_pk user) p claims now metadata in
          ret (Some (mkResolved user true false))
      | None =>
          if auto_provision_enabled p then auto_provision p claims metadata options now
          else ret None
      end
  end.

Definition resolve_external_auth_user (p : external_auth_provider)
  (claims : ExternalAuthUserClaims) (metadata : option string)
  : AM (option ResolvedExternalAuthUser) :=
  resolve_external_auth_user_with_options p claims metadata DEFAULT_RESOLVE_OPTIONS.

Definition resolve_existing_external_auth_identity (claims : ExternalAuthUserClaims)
  (now : DateTimeUtc) (metadata : option string) : AM (option ResolvedExternalAuthUser) :=
  let* found := identity_of_claims claims in
  match found with
  | None => ret None
  | Some identity =>
      let* resolved := sign_in_identity identity claims metadata now in
      ret (Some resolved)
  end.
End Resolution.
