(* ===== verification/ExternalLogin.v ===== *)
(** * External authentication: signing in

    [services/external_auth_service/]: [login.rs] (starting a login, the
    callback, the LinuxDo exchange), [verification.rs] (proving an address
    when the provider gives none), [password_link.rs] and [links.rs]. *)

From Stdlib Require Import ZArith List Bool Lia Ascii.
From stdpp Require Import base decidable list strings pretty.
From S2P Require Import Prelude Text Errors Types AuditLog World Logic Repos Bans Tokens Auth ForwardTextures ProfileTextures AuthConfig Accounts WebSessions AccountFlows ObjectStorage TextureRepo TextureProcessing TextureLibrary Profiles ExternalAuth ExternalResolution.

Local Open Scope Z_scope.
Local Open Scope aster_scope.

(** ** HTTP ([reqwest]) *)

Inductive HttpMethod : Type := GET | POST.

(** The JSON bodies of the Xbox and Minecraft calls are kept as the values
    they serialize. *)
Inductive HttpBody : Type :=
| NoBody
| FormBody (form : string)
| XboxLiveBody (auth_method site_name rps_ticket relying_party token_type : string)
| XstsBody (sandbox_id : string) (user_tokens : list string) (relying_party token_type : string)
| IdentityTokenBody (identity_token : string).

Record HttpCall : Type := mkHttpCall {
  call_method : HttpMethod;
  call_url : string;
  call_headers : list (string * string);
  call_body : HttpBody
}.

(** The text is an error when reading the body fails. *)
Record HttpReply : Type := mkHttpReply {
  reply_status : Z;
  reply_text : outcome string string
}.

(** [Client::builder().build()] and [send()] at a tick. *)
Class HttpTransport : Type := {
  client_error : nat -> option string;
  http_send : nat -> HttpCall -> outcome string HttpReply
}.

(** [response.text().await.unwrap_or_default()] *)
Definition text_or_default (r : HttpReply) : string :=
  match reply_text r with Ok s => s | _ => EmptyString end.

(** [response.json().await] with the given deserializer. *)
Definition reply_json {A} (parse : string -> outcome string A) (r : HttpReply) : outcome string A :=
  match reply_text r with Ok s => parse s | Err e => Err e | Panic m => Panic m end.

Record LinuxDoUserInfo : Type := mkLinuxDoUser {
  linuxdo_id : Z;
  linuxdo_username : string;
  linuxdo_name : option string;
  linuxdo_trust_level : option Z
}.

(** [serde_json] on the LinuxDo bodies and on the trust-level metadata. *)
Class LinuxDoJson : Type := {
  linuxdo_token_from_json : string -> outcome string string;
  linuxdo_user_from_json : string -> outcome string LinuxDoUserInfo;
  trust_level_to_json : Z -> string;
  trust_level_from_json : string -> option Z
}.

Class LinuxDoJsonLaws (LJ : LinuxDoJson) : Prop := {
  trust_level_roundtrip n : trust_level_from_json (trust_level_to_json n) = Some n
}.

(** ** Requests and answers ([mod.rs]) *)

Record ExternalAuthStartLoginResponse : Type := mkStartLogin {
  sl_authorization_url : string;
  sl_device_code : option string;
  sl_user_code : option string;
  sl_verification_uri : option string;
  sl_expires_in : option Z;
  sl_interval : option Z
}.

Record ExternalAuthCallbackQuery : Type := mkCallbackQuery {
  cq_code : option string;
  cq_state : option string;
  cq_error : option string;
  cq_error_description : option string
}.

Record ExternalAuthPrimaryLogin : Type := mkPrimaryLogin {
  pl_user : user;
  pl_return_path : string;
  pl_provider_key : string;
  pl_issuer : string;
  pl_subject : string;
  pl_linked : bool;
  pl_auto_provisioned : bool
}.

Record PendingExternalAuthEmailVerification : Type := mkPendingEmail {
  pe_flow_token : string;
  pe_return_path : string
}.

Inductive ExternalAuthCallbackOutcome : Type :=
| OutcomeLogin (primary_login : ExternalAuthPrimaryLogin)
| OutcomeEmailVerificationRequired (pending : PendingExternalAuthEmailVerification).

Definition primary_login (p : external_auth_provider) (claims : ExternalAuthUserClaims)
  (return_path : option string) (r : ResolvedExternalAuthUser) : ExternalAuthPrimaryLogin :=
  mkPrimaryLogin (resolved_user r) (default "/"%string return_path) (provider_key p)
    (ep_identity_namespace claims) (ep_subject claims) (resolved_linked r)
    (resolved_auto_provisioned r).

Definition provider_not_found (kind : ProviderKind) (key : string) : AsterError.t :=
  AsterError.RecordNotFound
    ("external auth provider '" +:+ ExternalAuthProviderKind.as_str kind +:+ ":" +:+ key +:+ "'").
Definition several_microsoft_providers : AsterError.t :=
  AsterError.validation_error_code AsterErrorCode.ExternalAuthProviderMisconfigured
    "multiple enabled Microsoft providers are configured; keep only one enabled Microsoft provider for the fixed callback URL".
Definition provider_disabled : AsterError.t :=
  AsterError.AuthForbidden "external auth provider is disabled".
Definition login_disabled : AsterError.t :=
  AsterError.auth_forbidden_code AsterErrorCode.ExternalAuthProviderLoginDisabled
    "external auth provider is not available for login".

(** What a provider's error answer means. *)
Definition callback_error (query : ExternalAuthCallbackQuery) : option AsterError.t :=
  match cq_error query with
  | None => None
  | Some error =>
      let description :=
        match cq_error_description query with
        | Some d => if is_empty (trim d) then error else d
        | None => error
        end in
      Some (AsterError.AuthInvalidCredentials
              ("external auth provider returned error: " +:+ description))
  end.

(** ** The LinuxDo exchange *)

Definition LINUXDO_TOKEN_URL : string := "https://connect.linux.do/oauth2/token".
Definition LINUXDO_USERINFO_URL : string := "https://connect.linux.do/api/user".

Inductive LinuxDoTokenAuthMethod : Type := Basic | ClientSecretPost.

Record LinuxDoTokenRequest : Type := mkTokenRequest {
  tr_token_url : string;
  tr_client_id : string;
  tr_client_secret : string;
  tr_code : string;
  tr_redirect_uri : string;
  tr_pkce_verifier : option string;
  tr_auth_method : LinuxDoTokenAuthMethod
}.

Definition with_method (m : LinuxDoTokenAuthMethod) (r : LinuxDoTokenRequest)
  : LinuxDoTokenRequest :=
  mkTokenRequest (tr_token_url r) (tr_client_id r) (tr_client_secret r) (tr_code r)
    (tr_redirect_uri r) (tr_pkce_verifier r) m.

Record LinuxDoExchangeResult : Type := mkLinuxDoExchange {
  lx_profile : ExternalAuthProfile;
  lx_trust_level : option Z
}.

Definition linuxdo_should_retry_client_secret_post (status : Z) (body : string) : bool :=
  (status =? 401)
  || ((status =? 400) && contains_str "invalid_client" (to_ascii_lowercase body)).

Section LinuxDo.
Context `{EN : Env} `{CB : CacheBackend} `{HT : HttpTransport} `{PX : ProfileExterns}.
Context `{TX : TextureExterns} `{FX : ForgeExternalAuth} `{LJ : LinuxDoJson}.

Definition form_urlencoded_body (fields : list (string * string)) : string :=
  join_with "&" (List.map (fun f => urlencode (fst f) +:+ "=" +:+ urlencode (snd f)) fields).

Definition build_client (context : string) : M AsterError.t unit :=
  fun w => match client_error (step w) with
           | Some error => (Err (AsterError.InternalError (context +:+ error)), w)
           | None => (Ok tt, w)
           end.

(** [send().await.map_err(..)?] *)
Definition send (mk_error : string -> AsterError.t) (call : HttpCall) : M AsterError.t HttpReply :=
  fun w =>
    (match http_send (step w) call with
     | Ok reply => Ok reply
     | Err e => Err (mk_error e)
     | Panic m => Panic m
     end, tick w).

Definition linuxdo_token_fields (r : LinuxDoTokenRequest) : list (string * string) :=
  [("grant_type", "authorization_code"); ("code", tr_code r); ("redirect_uri", tr_redirect_uri r)]
  ++ match tr_pkce_verifier r with Some v => [("code_verifier", v)] | None => [] end
  ++ match tr_auth_method r with
     | Basic => []
     | ClientSecretPost =>
         [("client_id", tr_client_id r); ("client_secret", tr_client_secret r)]
     end.

Definition linuxdo_token_call (r : LinuxDoTokenRequest) : HttpCall :=
  mkHttpCall POST (tr_token_url r)
    ([("Accept", "application/json"); ("Content-Type", "application/x-www-form-urlencoded")]
     ++ match tr_auth_method r with
        | Basic =>
            [("Authorization",
              "Basic " +:+ base64_encode (tr_client_id r +:+ ":" +:+ tr_client_secret r))]
        | ClientSecretPost => []
        end)
    (FormBody (form_urlencoded_body (linuxdo_token_fields r))).

Definition is_basic (m : LinuxDoTokenAuthMethod) : bool :=
  match m with Basic => true | ClientSecretPost => false end.

(** One request; [retry] is the recursive call. *)
Definition linuxdo_token_once (r : LinuxDoTokenRequest) (retry : M AsterError.t string)
  : M AsterError.t string :=
  let* reply := send (fun e => AsterError.InternalError ("LinuxDo token exchange failed: " +:+ e))
                  (linuxdo_token_call r) in
  if is_success (reply_status reply) then
    lift (match reply_json linuxdo_token_from_json reply with
          | Ok token => Ok token
          | Err e => Err (AsterError.InternalError
                            ("failed to parse LinuxDo token response: " +:+ e))
          | Panic m => Panic m
          end)
  else if is_basic (tr_auth_method r)
          && linuxdo_should_retry_client_secret_post (reply_status reply) (text_or_default reply)
  then retry
  else throw (AsterError.AuthInvalidCredentials "LinuxDo token exchange failed").

Definition linuxdo_token_failed : M AsterError.t string :=
  throw (AsterError.AuthInvalidCredentials "LinuxDo token exchange failed").

(** The second request has the other method and is not repeated. *)
Definition request_linuxdo_token (r : LinuxDoTokenRequest) : M AsterError.t string :=
  linuxdo_token_once r (linuxdo_token_once (with_method ClientSecretPost r) linuxdo_token_failed).

Definition linuxdo_profile (info : LinuxDoUserInfo) : ExternalAuthProfile :=
  let preferred_username := Some (linuxdo_username info) in
  mkExternalProfile "https://connect.linux.do" (pretty (linuxdo_id info)) None false
    (match linuxdo_name info with
     | Some n => if is_empty n then preferred_username else Some n
     | None => preferred_username
     end) preferred_username.

Definition exchange_linuxdo_callback (r : LinuxDoTokenRequest) (userinfo_url : string)
  : M AsterError.t LinuxDoExchangeResult :=
  do* build_client "failed to build HTTP client: " in
  let* access_token := request_linuxdo_token r in
  let* reply :=
    send (fun e => AsterError.InternalError ("LinuxDo userinfo fetch failed: " +:+ e))
      (mkHttpCall GET userinfo_url
         [("Authorization", "Bearer " +:+ access_token); ("Accept", "application/json")] NoBody) in
  do* when_ok (negb (is_success (reply_status reply)))
        (AsterError.AuthInvalidCredentials "LinuxDo userinfo fetch failed") in
  let* info :=
    lift (match reply_json linuxdo_user_from_json reply with
          | Ok info => Ok info
          | Err e => Err (AsterError.InternalError
                            ("failed to parse LinuxDo userinfo response: " +:+ e))
          | Panic m => Panic m
          end) in
  ret (mkLinuxDoExchange (linuxdo_profile info) (linuxdo_trust_level info)).

Definition linuxdo_trust_level_metadata (trust_level : option Z) : option string :=
  option_map trust_level_to_json trust_level.

(** The user's level is below the configured minimum. *)
Definition trust_level_too_low (options : ExternalAuthProviderOptions) (metadata : option string)
  : bool :=
  match linuxdo_options options, metadata ≫= trust_level_from_json with
  | Some o, Some level => level <? min_trust_level o
  | _, _ => false
  end.
End LinuxDo.

(** ** Signing in *)

Section Login.
Context `{EN : Env} `{CB : CacheBackend} `{TM : TxnManager} `{FC : ForgeCrypto} `{FA : ForgeApi}.
Context `{FN : ForgeNumbers} `{TN : TextureNumbers} `{AE : !AccountExterns} `{CS : ChronoSeconds}.
Context `{CF : ForgeConfig} `{ST : ConfigStore} `{RC : RuntimeConfig} `{FE : ForgeEmail}.
Context `{TX : TextureExterns} `{SE : SkinExterns} `{TS : TextSearch} `{PP : PreviewPolicy}.
Context `{IC : ImageCodec} `{FS : FileSystem} `{BE : BanExterns} {OS : ObjectStorage}.
Context `{PX : ProfileExterns} `{FX : ForgeExternalAuth} `{ER : ExternalRandom}.
Context `{HT : HttpTransport} `{LJ : LinuxDoJson}.

Abbreviation AM := (M AsterError.t).

(** The provider of a kind and key; the fixed Microsoft key also names the
    only enabled Microsoft provider. *)
Definition find_login_provider (kind : ProviderKind) (key : string) : AM external_auth_provider :=
  let* found := ProviderRepo.find_by_kind_key kind key in
  match found with
  | Some p => ret p
  | None =>
      if eqb kind ExternalAuthProviderKind.Microsoft && eqb key MICROSOFT_PROVIDER_PUBLIC_KEY then
        let* providers := ProviderRepo.find_enabled_by_kind kind in
        match providers with
        | [p] => ret p
        | [] => throw (provider_not_found kind key)
        | _ => throw several_microsoft_providers
        end
      else throw (provider_not_found kind key)
  end.

Definition start_authorization_now (driver : ForgeProviderKind.t)
  (config : ExternalAuthProviderConfig) (redirect_uri : string) : AM AuthorizationStart :=
  fun w => (map_external_auth (start_authorization (step w) driver config redirect_uri), tick w).

Definition exchange_callback_now (driver : ForgeProviderKind.t)
  (config : ExternalAuthProviderConfig) (callback : ExternalAuthCallback)
  : AM ExternalAuthProfile :=
  fun w => (map_external_auth (exchange_callback (step w) driver config callback), tick w).

(** [now + Duration::seconds(u64_to_i64(secs, name)?)] *)
Definition expiry (now : DateTimeUtc) (secs : Z) (name : string) : AM DateTimeUtc :=
  let* ttl := lift (utils (u64_to_i64 secs name)) in
  let* d := duration ttl in
  add_duration now d.

Definition start_login (conn : ConnectionInfo) (kind : ProviderKind) (key : string)
  (return_path : option string) : AM ExternalAuthStartLoginResponse :=
  let* key := lift (normalize_key key) in
  let* p := find_login_provider kind key in
  do* when_ok (negb (provider_enabled p)) provider_disabled in
  do* when_ok (negb (allow_login (provider_parsed_options p))) login_disabled in
  let* return_path := lift (normalize_return_path return_path) in
  let redirect_key := public_provider_key (provider_auth_kind p) (provider_key p) in
  let* redirect_uri := lift (callback_redirect_uri config_get conn (provider_auth_kind p)
                               redirect_key) in
  let* driver := lift (get_driver (provider_auth_kind p)) in
  let* started := start_authorization_now driver (external_auth_provider_config p) redirect_uri in
  let* now := utc_now in
  let* expires_at := expiry now FLOW_TTL_SECS "external auth login flow ttl" in
  let* _ := LoginFlowRepo.create (provider_pk p) (fun id =>
    mkLoginFlow id (provider_pk p) (state_hash (start_state started)) (start_nonce started)
      (start_pkce_verifier started) redirect_uri (Some return_path) now expires_at None) in
  ret (mkStartLogin (start_authorization_url started) None None None None None).

(** *** Verifying an address ([verification.rs]) *)

Definition format_mail_duration_seconds (total_secs : Z) : string :=
  let total_secs := Z.max total_secs 1 in
  let '(value, unit) :=
    if (86400 <=? total_secs) && (total_secs mod 86400 =? 0)
    then (total_secs / 86400, "day"%string)
    else if (3600 <=? total_secs) && (total_secs mod 3600 =? 0)
    then (total_secs / 3600, "hour"%string)
    else if 60 <=? total_secs then ((total_secs + 59) / 60, "minute"%string)
    else (total_secs, "second"%string) in
  pretty value +:+ " " +:+ unit +:+ (if value =? 1 then "" else "s").

Definition create_pending_email_verification_flow (p : external_auth_provider)
  (claims : ExternalAuthUserClaims) (return_path : option string)
  : AM PendingExternalAuthEmailVerification :=
  let* token := new_short_token in
  let flow_token := "oev_" +:+ token in
  let* now := utc_now in
  let* expires_at := expiry now EMAIL_VERIFICATION_FLOW_TTL_SECS
                       "external auth email verification flow ttl" in
  let* _ := EmailFlowRepo.create (provider_pk p) (fun id =>
    mkEmailFlow id (provider_pk p) (ep_identity_namespace claims) (ep_subject claims) None
      (ep_display_name claims) (ep_preferred_username claims) return_path
      (token_hash flow_token) None None now expires_at None) in
  ret (mkPendingEmail flow_token (default "/"%string return_path)).

Definition flow_invalid : AsterError.t :=
  AsterError.contact_verification_invalid "external auth email verification flow is invalid".
Definition already_started : AsterError.t :=
  AsterError.contact_verification_invalid
    "external auth email verification request has already been started".

(** The enabled provider of a flow. *)
Definition enabled_provider (id : Z) : AM external_auth_provider :=
  let* p := ProviderRepo.find_by_id id in
  do* when_ok (negb (provider_enabled p)) provider_disabled in
  ret p.

(** Who may have a mail sent to an address. *)
Definition may_verify_address (email : string) : AM unit :=
  let* existing := Users.find_by_email email in
  match existing with
  | Some user =>
      do* when_ok (negb (is_active_user (user_status user))) account_disabled in
      when_ok (is_none (email_verified_at user))
        (AsterError.AuthForbidden "local account email is not verified")
  | None =>
      when_ok (negb (allow_user_registration (auth_policy config_get))) new_registration_disabled
  end.

(** [(a - b).num_seconds()] *)
Definition num_seconds (a b : DateTimeUtc) : Z := Z.quot (a - b) NANOS_PER_SEC.

Definition start_email_verification (flow_token email : string) : AM string :=
  let* flow_token := lift (normalize_flow_token flow_token) in
  let* email := lift (normalize_email_for_external_auth email) in
  let* now := utc_now in
  let* found := EmailFlowRepo.find_active_by_flow_token_hash (token_hash flow_token) now in
  let* flow := lift (ok_or flow_invalid found) in
  do* when_ok (is_some (email_flow_verification_hash flow)) already_started in
  let* p := enabled_provider (email_flow_provider_id flow) in
  let* allowed := lift (email_domain_allowed p email) in
  do* when_ok (negb allowed) domain_not_allowed in
  do* may_verify_address email in
  let* token := build_verification_token in
  let hash := token_hash token in
  let expires_in := format_mail_duration_seconds (num_seconds (email_flow_expires_at flow) now) in
  let* result := txn_result (
    let* started := EmailFlowRepo.update_email_request flow email hash now in
    do* when_ok (negb started) already_started in
    enqueue email None
      (MailExternalAuthEmailVerification email token (provider_display_name p)
         (title_or_default config_get) expires_in)) in
  let* _ := lift (or_fail result) in
  ret "external auth email verification email sent"%string.

Definition confirm_email_verification (token : string) : AM ExternalAuthPrimaryLogin :=
  let token := trim token in
  do* when_ok (is_empty token)
        (AsterError.contact_verification_invalid
           "external auth email verification token is missing") in
  let* now := utc_now in
  let* found := EmailFlowRepo.find_active_by_verification_token_hash (token_hash token) now in
  let* flow := lift (ok_or (AsterError.contact_verification_invalid
                              "external auth email verification link is invalid") found) in
  let* email := lift (ok_or (AsterError.contact_verification_invalid
                               "external auth email verification target is missing")
                        (target_email flow)) in
  let* p := enabled_provider (email_flow_provider_id flow) in
  let claims := claims_with_verified_local_email flow email in
  let* result := txn_result (
    let* consumed := EmailFlowRepo.mark_consumed_if_unused (email_flow_pk flow) now in
    do* when_ok (negb consumed)
          (AsterError.contact_verification_invalid
             "external auth email verification link has already been used") in
    resolve_external_auth_user_with_verified_email p claims now) in
  let* resolved := lift (or_fail result) in
  ret (primary_login p claims (email_flow_return_path flow) resolved).

(** *** Linking with a password ([password_link.rs]) *)

Definition DUMMY_PASSWORD_HASH : string :=
  "$argon2id$v=19$m=19456,t=2,p=1$c29tZXNhbHRmb3JkdW1teQ$uLpdZ2ciOQUUMGrye7Tyvz/vZ/saqtJiqQBvovmG6ms".

Definition invalid_credentials : AsterError.t :=
  AsterError.AuthInvalidCredentials "invalid credentials".

Definition link_with_password (flow_token identifier password : string)
  : AM ExternalAuthPrimaryLogin :=
  let* flow_token := lift (normalize_flow_token flow_token) in
  let identifier := trim identifier in
  do* when_ok (is_empty identifier) (AsterError.ValidationError "identifier is required") in
  do* when_ok (is_empty password) (AsterError.ValidationError "password is required") in
  let* now := utc_now in
  let* found := EmailFlowRepo.find_active_by_flow_token_hash (token_hash flow_token) now in
  let* flow := lift (ok_or flow_invalid found) in
  let* p := enabled_provider (email_flow_provider_id flow) in
  let* user := UserRepo.find_by_identifier identifier in
  let password_hash :=
    match user with Some u => password_hash u | None => DUMMY_PASSWORD_HASH end in
  let* verified := lift (utils (verify_password password password_hash)) in
  do* when_ok (negb verified) invalid_credentials in
  let* user := lift (ok_or invalid_credentials user) in
  do* when_ok (negb (is_active_user (user_status user))) account_disabled in
  do* when_ok (negb (is_email_activation_satisfied user))
        (AsterError.auth_pending_activation "account pending activation") in
  let claims := claims_without_provider_email flow in
  let* result := txn_result (
    let* consumed := EmailFlowRepo.mark_consumed_if_unused (email_flow_pk flow) now in
    do* when_ok (negb consumed)
          (AsterError.contact_verification_invalid
             "external auth login flow has already been used") in
    link_external_auth_identity_to_authenticated_user p claims user now) in
  let* resolved := lift (or_fail result) in
  ret (primary_login p claims (email_flow_return_path flow) resolved).

(** *** The callback *)

Definition maybe_auto_create_linuxdo_profile (p : external_auth_provider)
  (resolved : ResolvedExternalAuthUser) (claims : ExternalAuthUserClaims) : AM unit :=
  if negb (is_linuxdo p) || negb (resolved_auto_provisioned resolved) then ret tt
  else if negb (is_none_or (linuxdo_options (provider_parsed_options p)) auto_create_profile)
  then ret tt
  else
    match ep_preferred_username claims with
    | None => ret tt
    | Some preferred_username =>
        let* _ := catch (create_profile_for_external_auth (user_pk (resolved_user resolved))
                           (role (resolved_user resolved)) preferred_username
                           (Some ("linuxdo_" +:+ ep_subject claims))) in
        ret tt
    end.

(** The flow of a callback, used up, and its provider. *)
Definition consume_login_flow (kind : ProviderKind) (key : option string) (state : string)
  : AM (external_auth_login_flow * external_auth_provider) :=
  let* now := utc_now in
  let* found := LoginFlowRepo.consume_by_state_hash (state_hash state) now in
  let* flow := lift (ok_or (AsterError.AuthInvalidCredentials
                              "external auth state is invalid or expired") found) in
  let* p := ProviderRepo.find_by_id (login_flow_provider_id flow) in
  do* when_ok (negb (eqb (provider_auth_kind p) kind))
        (AsterError.AuthInvalidCredentials
           "external auth callback provider kind does not match login flow") in
  do* (match key with
       | None => ret tt
       | Some key =>
           let* expected := lift (normalize_key key) in
           when_ok (negb (provider_key_matches (provider_auth_kind p) (provider_key p) expected))
             (AsterError.AuthInvalidCredentials
                "external auth callback provider does not match login flow")
       end) in
  do* when_ok (negb (provider_enabled p)) provider_disabled in
  do* when_ok (negb (allow_login (provider_parsed_options p))) login_disabled in
  ret (flow, p).

(** The claims behind a code, and the metadata of a LinuxDo user. *)
Definition exchange_claims (p : external_auth_provider) (flow : external_auth_login_flow)
  (code : string) : AM (ExternalAuthUserClaims * option string) :=
  if is_linuxdo p then
    let* result := exchange_linuxdo_callback
      (mkTokenRequest (default LINUXDO_TOKEN_URL (token_url p)) (client_id p)
         (default EmptyString (client_secret p)) code (login_redirect_uri flow)
         (login_pkce_verifier flow) Basic)
      (default LINUXDO_USERINFO_URL (userinfo_url p)) in
    ret (lx_profile result, linuxdo_trust_level_metadata (lx_trust_level result))
  else
    let* driver := lift (get_driver (provider_auth_kind p)) in
    let* claims := exchange_callback_now driver (external_auth_provider_config p)
      (mkCallback code (login_nonce flow) (login_pkce_verifier flow) (login_redirect_uri flow)) in
    ret (claims, None).

Definition email_verification_required (p : external_auth_provider)
  (claims : ExternalAuthUserClaims) (return_path : option string)
  : AM ExternalAuthCallbackOutcome :=
  let* pending := create_pending_email_verification_flow p claims return_path in
  ret (OutcomeEmailVerificationRequired pending).

(** The callback's claims have no address. *)
Definition finish_without_email (p : external_auth_provider) (flow : external_auth_login_flow)
  (claims : ExternalAuthUserClaims) (metadata : option string)
  : AM ExternalAuthCallbackOutcome :=
  let* now := utc_now in
  let* existing := resolve_existing_external_auth_identity claims now metadata in
  match existing with
  | Some resolved => ret (OutcomeLogin (primary_login p claims (login_return_path flow) resolved))
  | None =>
      if is_linuxdo p then
        let* resolved := resolve_external_auth_user_without_email p claims metadata in
        do* maybe_auto_create_linuxdo_profile p resolved claims in
        ret (OutcomeLogin (primary_login p claims (login_return_path flow) resolved))
      else
        do* when_ok (eqb (provider_auth_kind p) ExternalAuthProviderKind.GitHub
                     && require_email_verified p)
              (AsterError.AuthForbidden "GitHub provider requires a verified primary email") in
        email_verification_required p claims (login_return_path flow)
  end.

Definition finish_callback (kind : ProviderKind) (key : option string)
  (query : ExternalAuthCallbackQuery) : AM ExternalAuthCallbackOutcome :=
  match callback_error query with
  | Some e => throw e
  | None =>
      let* code := lift (ok_or (AsterError.AuthInvalidCredentials
                                  "external auth callback missing code") (cq_code query)) in
      let* state := lift (ok_or (AsterError.AuthInvalidCredentials
                                   "external auth callback missing state") (cq_state query)) in
      let* (flow, p) := consume_login_flow kind key state in
      let* (claims, metadata) := exchange_claims p flow code in
      do* when_ok (is_linuxdo p && trust_level_too_low (provider_parsed_options p) metadata)
            (AsterError.AuthForbidden "LinuxDO trust level below minimum requirement") in
      if external_auth_claims_missing_email claims then finish_without_email p flow claims metadata
      else
        let* resolved := resolve_external_auth_user p claims metadata in
        match resolved with
        | None => email_verification_required p claims (login_return_path flow)
        | Some resolved =>
            do* maybe_auto_create_linuxdo_profile p resolved claims in
            ret (OutcomeLogin (primary_login p claims (login_return_path flow) resolved))
        end
  end.
End Login.

(** ** Links ([links.rs]) *)

Record ExternalAuthLinkInfo : Type := mkLinkInfo {
  li_id : Z;
  li_provider_id : Z;
  li_provider_key : string;
  li_provider_kind : ProviderKind;
  li_provider_display_name : string;
  li_provider_icon_url : option string;
  li_issuer : string;
  li_subject : string;
  li_email_snapshot : option string;
  li_display_name_snapshot : option string;
  li_created_at : DateTimeUtc;
  li_updated_at : DateTimeUtc;
  li_last_login_at : option DateTimeUtc;
  li_metadata : option Value;
  li_allow_unlink : bool
}.

Definition external_auth_identity_can_unlink (kind : ProviderKind) (namespace : string)
  (provider_allows_unlink : bool) : bool :=
  if eqb kind ExternalAuthProviderKind.Microsoft || eqb kind ExternalAuthProviderKind.LinuxDo
  then false
  else negb (eqb namespace MINECRAFT_IDENTITY_NAMESPACE) && provider_allows_unlink.

Section Links.
Context `{EN : Env} `{CB : CacheBackend} `{FA : ForgeApi} `{FX : ForgeExternalAuth}.
Context `{TX : TextureExterns}.

Definition can_unlink (i : external_auth_identity) (p : external_auth_provider) : bool :=
  external_auth_identity_can_unlink (provider_auth_kind p) (identity_namespace i)
    (allow_unlink (provider_parsed_options p)).

Definition link_to_info (i : external_auth_identity) (p : external_auth_provider)
  : ExternalAuthLinkInfo :=
  let metadata :=
    match identity_metadata i with
    | Some raw => match json_from_slice raw with Ok v => Some v | _ => None end
    | None => None
    end in
  mkLinkInfo (identity_pk i) (identity_provider_id i) (provider_key p) (provider_auth_kind p)
    (provider_display_name p) (provider_icon_url p) (identity_namespace i) (identity_subject i)
    (email_snapshot i) (display_name_snapshot i) (identity_created_at i) (identity_updated_at i)
    (last_login_at i) metadata (can_unlink i p).

(** [filter_map] over the identities with the table of providers by key. *)
Definition link_infos (providers : list external_auth_provider)
  (l : list external_auth_identity) : list ExternalAuthLinkInfo :=
  omap (fun i =>
    option_map (link_to_info i)
      (find_row (fun p => provider_pk p =? identity_provider_id i) providers)) l.

Definition list_links (user_id : Z) : M AsterError.t (list ExternalAuthLinkInfo) :=
  let* identities := IdentityRepo.list_for_user user_id in
  let* providers := ProviderRepo.find_all in
  ret (link_infos providers identities).

Definition list_links_paginated (user_id limit : Z) (cursor : option (DateTimeUtc * Z))
  : M AsterError.t (CursorPage ExternalAuthLinkInfo (DateTimeUtc * Z)) :=
  let limit := SessionRepo.clamp limit 1 100 in
  let* page := IdentityRepo.list_for_user_cursor user_id limit cursor in
  let next :=
    if has_more page then option_map (fun i => (identity_created_at i, identity_pk i))
                            (last (items page))
    else None in
  let* providers := ProviderRepo.find_by_ids (dedup (List.map identity_provider_id (items page))) in
  ret (mkPage (link_infos providers (items page)) (total page) limit next).

Definition delete_link (user_id id : Z) : M AsterError.t bool :=
  let* found := IdentityRepo.find_by_id_for_user id user_id in
  match found with
  | None => ret false
  | Some identity =>
      let* p := ProviderRepo.find_by_id (identity_provider_id identity) in
      do* when_ok (negb (can_unlink identity p))
            (AsterError.auth_forbidden_code AsterErrorCode.ExternalAuthProviderUnlinkDisabled
               "external auth identity cannot be unlinked") in
      IdentityRepo.delete_for_user id user_id
  end.

Definition cleanup_expired_flows : M AsterError.t Z :=
  let* now := utc_now in
  let* login_flows := LoginFlowRepo.cleanup_expired now in
  let* binding_flows := BindingFlowRepo.cleanup_expired now in
  let* email_flows := EmailFlowRepo.cleanup_expired now in
  ret (login_flows + binding_flows + email_flows).
End Links.
