(* ===== verification/MinecraftBinding.v ===== *)
(** * Binding a Minecraft account

    [services/external_auth_service/binding.rs]: a signed-in user proves to
    own a Minecraft account through Microsoft, by an authorization code or a
    device code; the chain Microsoft, Xbox Live, XSTS, Minecraft services;
    and the identity and profile the binding creates. *)

From Stdlib Require Import ZArith List Bool Lia Ascii.
From stdpp Require Import base decidable list strings pretty.
From S2P Require Import Prelude Text Errors Types AuditLog World Logic Repos Bans Tokens Auth ForwardTextures ProfileTextures AuthConfig Accounts WebSessions AccountFlows ObjectStorage TextureRepo TextureProcessing TextureService TextureLibrary Profiles ExternalAuth ExternalResolution ExternalLogin.

Local Open Scope Z_scope.
Local Open Scope aster_scope.

Definition MICROSOFT_LOGIN_BASE : string := "https://login.microsoftonline.com".
Definition LIVE_TOKEN_URL : string := "https://login.live.com/oauth20_token.srf".
Definition DEVICE_CODE_URL : string :=
  "https://login.microsoftonline.com/consumers/oauth2/v2.0/devicecode".
Definition DEVICE_TOKEN_URL : string :=
  "https://login.microsoftonline.com/consumers/oauth2/v2.0/token".
Definition MICROSOFT_MINECRAFT_SCOPES : string := "XboxLive.signin offline_access".
Definition XBOX_LIVE_AUTH_URL : string := "https://user.auth.xboxlive.com/user/authenticate".
Definition XSTS_AUTHORIZE_URL : string := "https://xsts.auth.xboxlive.com/xsts/authorize".
Definition MINECRAFT_LOGIN_WITH_XBOX_URL : string :=
  "https://api.minecraftservices.com/authentication/login_with_xbox".
Definition MINECRAFT_PROFILE_URL : string :=
  "https://api.minecraftservices.com/minecraft/profile".

Record OfficialMinecraftTexture : Type := mkOfficialTexture {
  ot_url : string;
  ot_model : MinecraftTextureModel
}.

Record OfficialMinecraftTextures : Type := mkOfficialTextures {
  ot_skin : option OfficialMinecraftTexture;
  ot_cape : option OfficialMinecraftTexture
}.

Record MicrosoftMinecraftAccount : Type := mkMinecraftAccount {
  ma_uuid : string;
  ma_name : string;
  ma_xbox_user_hash : option string;
  ma_official_textures : OfficialMinecraftTextures
}.

Record ExternalAuthMinecraftBindingCallbackResult : Type := mkBindingResult {
  br_user_id : Z;
  br_provider_id : Z;
  br_identity_id : Z;
  br_profile : minecraft_profile;
  br_identity_linked : bool;
  br_profile_created : bool;
  br_return_path : string
}.

(** *** What the servers answer *)

Record MinecraftProfileSkinResponse : Type := mkSkinResponse {
  skin_state : option string;
  skin_url : option string;
  skin_variant : option string
}.

Record MinecraftProfileCapeResponse : Type := mkCapeResponse {
  cape_state : option string;
  cape_url : option string
}.

Record MinecraftProfileResponse : Type := mkProfileResponse {
  mpr_id : string;
  mpr_name : string;
  mpr_skins : list MinecraftProfileSkinResponse;
  mpr_capes : list MinecraftProfileCapeResponse
}.

Record DeviceCodeResponse : Type := mkDeviceCode {
  dc_device_code : option string;
  dc_user_code : option string;
  dc_verification_uri : option string;
  dc_expires_in : option Z;
  dc_interval : option Z
}.

Record DeviceCodeTokenResponse : Type := mkDeviceToken {
  dt_access_token : option string;
  dt_error : option string;
  dt_error_description : option string
}.

(** The token, and the user hash of each claim. *)
Record XboxAuthResponse : Type := mkXboxResponse {
  xr_token : string;
  xr_user_hashes : list (option string)
}.

Record XboxToken : Type := mkXboxToken { xbox_token : string; user_hash : string }.

Inductive DeviceCodeTokenStatus : Type :=
| Authorized (access_token : string)
| Pending
| SlowDown
| Expired.

(** A parsed URL, as far as the code looks at it. *)
Record ParsedUrl : Type := mkParsedUrl {
  pu_scheme : string;
  pu_host : option string;
  pu_port : option Z;
  pu_segments : option (list string)
}.

(** [url] and [serde_json] on the bodies of this module. *)
Class BindingExterns : Type := {
  parse_any_url : string -> outcome string ParsedUrl;
  device_code_from_json : string -> outcome string DeviceCodeResponse;
  device_token_from_json : string -> outcome string DeviceCodeTokenResponse;
  microsoft_token_from_json : string -> outcome string string;
  xbox_from_json : string -> outcome string XboxAuthResponse;
  minecraft_token_from_json : string -> outcome string string;
  minecraft_profile_from_json : string -> outcome string MinecraftProfileResponse;
  binding_metadata_to_json : string -> string -> option string -> string
}.

Definition is_active_minecraft_profile_texture (state : option string) : bool :=
  is_some_and (option_map trim state) (fun v => eq_ignore_ascii_case v "ACTIVE").

Definition trimmed_nonempty (value : option string) : option string :=
  match option_map trim value with
  | Some v => if is_empty v then None else Some v
  | None => None
  end.

Definition skin_active_texture (s : MinecraftProfileSkinResponse)
  : option OfficialMinecraftTexture :=
  if negb (is_active_minecraft_profile_texture (skin_state s)) then None
  else
    url ← trimmed_nonempty (skin_url s);
    let model :=
      match option_map trim (skin_variant s) with
      | Some v => if eq_ignore_ascii_case v "SLIM" then Slim else ModelDefault
      | None => ModelDefault
      end in
    Some (mkOfficialTexture url model).

Definition cape_active_texture (c : MinecraftProfileCapeResponse)
  : option OfficialMinecraftTexture :=
  if negb (is_active_minecraft_profile_texture (cape_state c)) then None
  else
    url ← trimmed_nonempty (cape_url c);
    Some (mkOfficialTexture url ModelDefault).

(** [iter().find_map(f)] *)
Definition find_map {A B} (f : A -> option B) (l : list A) : option B := head (omap f l).

Definition official_textures (p : MinecraftProfileResponse) : OfficialMinecraftTextures :=
  mkOfficialTextures (find_map skin_active_texture (mpr_skins p))
    (find_map cape_active_texture (mpr_capes p)).

Definition ensure_minecraft_binding_provider_kind (kind : ProviderKind)
  : outcome AsterError.t unit :=
  if eqb kind ExternalAuthProviderKind.Microsoft then Ok tt
  else Err (AsterError.validation_error_code AsterErrorCode.ExternalAuthProviderMisconfigured
              "Minecraft account binding requires a Microsoft external auth provider").

Definition ensure_provider_enabled (p : external_auth_provider) : outcome AsterError.t unit :=
  if provider_enabled p then Ok tt
  else Err (AsterError.auth_forbidden_code AsterErrorCode.ExternalAuthProviderDisabled
              "external auth provider is disabled").

Definition provider_has_client_secret (p : external_auth_provider) : bool :=
  is_some_and (client_secret p) (fun s => negb (is_empty (trim s))).

Definition is_loopback_host (host : string) : bool :=
  eq_ignore_ascii_case host "localhost" || eq_ignore_ascii_case host "127.0.0.1"
  || eq_ignore_ascii_case host "::1".

Definition url_origin (url : ParsedUrl) : string :=
  pu_scheme url +:+ "://" +:+ default EmptyString (pu_host url)
    +:+ match pu_port url with Some port => ":" +:+ pretty port | None => EmptyString end.

Definition tenant_from_issuer_url (url : ParsedUrl) : option string :=
  match pu_segments url with
  | Some [first; second] =>
      if eq_ignore_ascii_case second "v2.0" && negb (is_empty first) then Some first else None
  | _ => None
  end.

(** Where the Xbox and Minecraft calls go. *)
Record MinecraftServicesEndpoints : Type := mkEndpoints {
  xbox_live_auth_url : string;
  xsts_authorize_url : string;
  minecraft_login_with_xbox_url : string;
  minecraft_profile_url : string
}.

Definition xbox_user_hash (r : XboxAuthResponse) : outcome AsterError.t string :=
  match find_map (fun h => h) (xr_user_hashes r) with
  | Some h => Ok h
  | None => Err (AsterError.AuthInvalidCredentials "Xbox response missing user hash")
  end.

Section Endpoints.
Context `{FX : ForgeExternalAuth} `{BX : BindingExterns}.

Definition parse_http_url (value field : string) : outcome AsterError.t ParsedUrl :=
  match parse_any_url value with
  | Panic m => Panic m
  | Err error => Err (AsterError.ValidationError ("invalid " +:+ field +:+ ": " +:+ error))
  | Ok url =>
      if negb (eqb (pu_scheme url) "http" || eqb (pu_scheme url) "https")
      then Err (AsterError.ValidationError (field +:+ " must use http or https"))
      else Ok url
  end.

Definition use_legacy (p : external_auth_provider) : bool :=
  match microsoft_options (provider_parsed_options p) with
  | Some m => default false (legacy m)
  | None => false
  end.

Definition microsoft_provider_tenant (p : external_auth_provider) : outcome AsterError.t string :=
  match microsoft_options (provider_parsed_options p) with
  | Some m => map_external_auth (normalize_microsoft_tenant_input (Some (tenant m)))
  | None =>
      let from_issuer :=
        issuer ← trimmed_nonempty (issuer_url p);
        match parse_any_url issuer with Ok url => tenant_from_issuer_url url | _ => None end in
      map_external_auth (normalize_microsoft_tenant_input from_issuer)
  end.

Definition microsoft_oauth_endpoint_from_provider (p : external_auth_provider) (endpoint : string)
  : outcome AsterError.t string :=
  and_then (microsoft_provider_tenant p) (fun tenant =>
    Ok (MICROSOFT_LOGIN_BASE +:+ "/" +:+ tenant +:+ "/oauth2/v2.0/" +:+ endpoint)).

(** [MicrosoftOAuthEndpoints { token_url }] *)
Definition microsoft_oauth_endpoints (p : external_auth_provider) : outcome AsterError.t string :=
  if is_some (trimmed_nonempty (authorization_url p)) || is_some (trimmed_nonempty (token_url p))
  then Ok (default LIVE_TOKEN_URL (trimmed_nonempty (token_url p)))
  else if use_legacy p then Ok LIVE_TOKEN_URL
  else
    and_then (microsoft_oauth_endpoint_from_provider p "token") (fun url =>
      and_then (parse_http_url url "Microsoft token_url") (fun _ => Ok url)).

Definition on_loopback (url : ParsedUrl) : bool := is_some_and (pu_host url) is_loopback_host.

Definition microsoft_device_code_url (p : external_auth_provider) : outcome AsterError.t string :=
  and_then (microsoft_oauth_endpoints p) (fun token_url =>
    and_then (parse_http_url token_url "Microsoft token_url") (fun url =>
      Ok (if on_loopback url then url_origin url +:+ "/devicecode" else DEVICE_CODE_URL))).

Definition microsoft_device_token_url (p : external_auth_provider) : outcome AsterError.t string :=
  and_then (microsoft_oauth_endpoints p) (fun token_url =>
    and_then (parse_http_url token_url "Microsoft token_url") (fun url =>
      Ok (if on_loopback url then token_url else DEVICE_TOKEN_URL))).

Definition minecraft_services_endpoints (token_url : string)
  : outcome AsterError.t MinecraftServicesEndpoints :=
  and_then (parse_http_url token_url "Microsoft token_url") (fun url =>
    Ok (if on_loopback url then
          let origin := url_origin url in
          mkEndpoints (origin +:+ "/user/authenticate") (origin +:+ "/xsts/authorize")
            (origin +:+ "/authentication/login_with_xbox") (origin +:+ "/minecraft/profile")
        else
          mkEndpoints XBOX_LIVE_AUTH_URL XSTS_AUTHORIZE_URL MINECRAFT_LOGIN_WITH_XBOX_URL
            MINECRAFT_PROFILE_URL)).
End Endpoints.

Section Exchange.
Context `{EN : Env} `{CB : CacheBackend} `{FX : ForgeExternalAuth} `{BX : BindingExterns}.
Context `{HT : HttpTransport} `{PX : ProfileExterns}.

Abbreviation AM := (M AsterError.t).

Definition credentials_error (message : string) : AsterError.t :=
  AsterError.AuthInvalidCredentials message.

Definition parse_json_response {A} (parse : string -> outcome string A) (context : string)
  (reply : HttpReply) : outcome AsterError.t A :=
  if negb (is_success (reply_status reply))
  then Err (credentials_error (context +:+ " returned non-success status"))
  else match reply_json parse reply with
       | Ok a => Ok a
       | Err e => Err (credentials_error (context +:+ " response parse failed: " +:+ e))
       | Panic m => Panic m
       end.

Definition json_headers : list (string * string) := [("Accept", "application/json")].
Definition form_headers : list (string * string) :=
  [("Accept", "application/json"); ("Content-Type", "application/x-www-form-urlencoded")].

Definition exchange_microsoft_code_for_token (p : external_auth_provider)
  (token_url code redirect_uri pkce_verifier : string) : AM string :=
  let secret :=
    match trimmed_nonempty (client_secret p) with
    | Some s => if use_legacy p then [] else [("client_secret"%string, s)]
    | None => []
    end in
  let form :=
    [("grant_type", "authorization_code"); ("client_id", client_id p); ("code", code);
     ("redirect_uri", redirect_uri); ("code_verifier", pkce_verifier)] ++ secret in
  let* reply := send (fun e => credentials_error ("Microsoft token exchange failed: " +:+ e))
    (mkHttpCall POST token_url form_headers (FormBody (form_urlencoded_body form))) in
  lift (parse_json_response microsoft_token_from_json "Microsoft token exchange" reply).

Definition to_xbox_token (r : XboxAuthResponse) : outcome AsterError.t XboxToken :=
  and_then (xbox_user_hash r) (fun hash => Ok (mkXboxToken (xr_token r) hash)).

Definition authenticate_xbox_live (url access_token : string) : AM XboxToken :=
  let* reply := send (fun e => credentials_error ("Xbox Live authentication failed: " +:+ e))
    (mkHttpCall POST url json_headers
       (XboxLiveBody "RPS" "user.auth.xboxlive.com" ("d=" +:+ access_token)
          "http://auth.xboxlive.com" "JWT")) in
  let* response := lift (parse_json_response xbox_from_json "Xbox Live authentication" reply) in
  lift (to_xbox_token response).

(** What a refusal of XSTS means. *)
Definition xsts_error (body : string) : AsterError.t :=
  if contains_str "2148916227" body then credentials_error "Xbox account is banned"
  else if contains_str "2148916233" body
  then credentials_error "Xbox account not found, please register first"
  else if contains_str "2148916235" body
  then credentials_error "Xbox service is not available in your region"
  else if contains_str "2148916238" body
  then credentials_error "Xbox account age restriction, please update your birth date"
  else credentials_error ("XSTS authorization failed: " +:+ body).

Definition authorize_xsts (url token : string) : AM XboxToken :=
  let* reply := send (fun e => credentials_error ("XSTS authorization failed: " +:+ e))
    (mkHttpCall POST url json_headers
       (XstsBody "RETAIL" [token] "rp://api.minecraftservices.com/" "JWT")) in
  let body := text_or_default reply in
  do* when_ok ((reply_status reply =? 401) || (reply_status reply =? 400)) (xsts_error body) in
  do* when_ok (negb (is_success (reply_status reply)))
        (credentials_error "XSTS authorization failed") in
  let* response :=
    lift (match xbox_from_json body with
          | Ok r => Ok r
          | Err e => Err (credentials_error ("XSTS response parse failed: " +:+ e))
          | Panic m => Panic m
          end) in
  lift (to_xbox_token response).

Definition login_minecraft_with_xbox (url hash token : string) : AM string :=
  let* reply := send (fun e => credentials_error ("Minecraft Services login failed: " +:+ e))
    (mkHttpCall POST url json_headers
       (IdentityTokenBody ("XBL3.0 x=" +:+ hash +:+ ";" +:+ token))) in
  lift (parse_json_response minecraft_token_from_json "Minecraft Services login" reply).

Definition fetch_minecraft_profile (url access_token : string) : AM MinecraftProfileResponse :=
  let* reply := send (fun e => credentials_error ("Minecraft profile fetch failed: " +:+ e))
    (mkHttpCall GET url (json_headers ++ [("Authorization", "Bearer " +:+ access_token)]) NoBody) in
  lift (parse_json_response minecraft_profile_from_json "Minecraft profile fetch" reply).

Definition normalize_minecraft_uuid (value : string) : outcome AsterError.t string :=
  match uuid_parse_simple (trim value) with
  | Some u => Ok u
  | None => Err (AsterError.validation_error_code AsterErrorCode.MinecraftProfileUuidInvalid
                   "Minecraft profile id is not a valid UUID")
  end.

(** From a Microsoft access token to the Minecraft account. *)
Definition account_of_token (endpoints : MinecraftServicesEndpoints) (access_token : string)
  : AM MicrosoftMinecraftAccount :=
  let* xbox := authenticate_xbox_live (xbox_live_auth_url endpoints) access_token in
  let* xsts := authorize_xsts (xsts_authorize_url endpoints) (xbox_token xbox) in
  let* minecraft_token := login_minecraft_with_xbox (minecraft_login_with_xbox_url endpoints)
                            (user_hash xsts) (xbox_token xsts) in
  let* profile := fetch_minecraft_profile (minecraft_profile_url endpoints) minecraft_token in
  let* u := lift (normalize_minecraft_uuid (mpr_id profile)) in
  ret (mkMinecraftAccount u (mpr_name profile) (Some (user_hash xsts))
         (official_textures profile)).

Definition exchange_microsoft_minecraft_account_with_token (p : external_auth_provider)
  (access_token : string) : AM MicrosoftMinecraftAccount :=
  let* token_url := lift (microsoft_oauth_endpoints p) in
  let* endpoints := lift (minecraft_services_endpoints token_url) in
  account_of_token endpoints access_token.

Definition exchange_microsoft_minecraft_account (p : external_auth_provider)
  (code redirect_uri : string) (pkce_verifier : option string) : AM MicrosoftMinecraftAccount :=
  let* pkce_verifier := lift (ok_or
    (AsterError.InternalError "stored Microsoft binding PKCE verifier is missing")
    pkce_verifier) in
  do* build_client "build HTTP client: " in
  let* token_url := lift (microsoft_oauth_endpoints p) in
  let* endpoints := lift (minecraft_services_endpoints token_url) in
  let* access_token := exchange_microsoft_code_for_token p token_url code redirect_uri
                         pkce_verifier in
  account_of_token endpoints access_token.

Definition poll_device_code_token (token_url client device_code : string)
  : AM DeviceCodeTokenStatus :=
  let form :=
    [("grant_type", "urn:ietf:params:oauth:grant-type:device_code");
     ("device_code", device_code); ("client_id", client)] in
  let* reply := send (fun e => credentials_error ("Device code token request failed: " +:+ e))
    (mkHttpCall POST token_url form_headers (FormBody (form_urlencoded_body form))) in
  let* response :=
    lift (match device_token_from_json (text_or_default reply) with
          | Ok r => Ok r
          | Err e => Err (credentials_error ("Token response parse failed: " +:+ e))
          | Panic m => Panic m
          end) in
  match dt_error response with
  | Some error =>
      if eqb error "authorization_pending" then ret Pending
      else if eqb error "slow_down" then ret SlowDown
      else if eqb error "expired_token" then ret Expired
      else
        let description :=
          match dt_error_description response with
          | Some d => if is_empty (trim d) then error else d
          | None => error
          end in
        throw (credentials_error
                 ("Microsoft device code token request failed: " +:+ description))
  | None =>
      do* when_ok (negb (is_success (reply_status reply)))
            (credentials_error "Device code token request failed") in
      let* access_token := lift (ok_or (credentials_error "Missing access_token in response")
        (match dt_access_token response with
         | Some t => if is_empty (trim t) then None else Some t
         | None => None
         end)) in
      ret (Authorized access_token)
  end.
End Exchange.

(** ** The binding *)

Section Binding.
Context `{EN : Env} `{CB : CacheBackend} `{TM : TxnManager} `{FC : ForgeCrypto} `{FA : ForgeApi}.
Context `{FN : ForgeNumbers} `{TN : TextureNumbers} `{AE : !AccountExterns} `{CS : ChronoSeconds}.
Context `{CF : ForgeConfig} `{ST : ConfigStore} `{RC : RuntimeConfig} `{FE : ForgeEmail}.
Context `{TX : TextureExterns} `{SE : SkinExterns} `{TS : TextSearch} `{PP : PreviewPolicy}.
Context `{IC : ImageCodec} `{FS : FileSystem} `{BE : BanExterns} {OS : ObjectStorage}.
Context `{OT : OfficialTextures}.
Context `{PX : ProfileExterns} `{FX : ForgeExternalAuth} `{HT : HttpTransport}.
Context `{BX : BindingExterns}.

Abbreviation AM := (M AsterError.t).

Definition find_minecraft_binding_provider (kind : ProviderKind) (key : string)
  : AM external_auth_provider :=
  let* key := lift (normalize_key key) in
  find_login_provider kind key.

Definition start_authorization_code_binding_flow (conn : ConnectionInfo) (user_id : Z)
  (p : external_auth_provider) (return_path : option string)
  : AM ExternalAuthStartLoginResponse :=
  let* return_path := lift (normalize_return_path return_path) in
  let redirect_key := public_provider_key (provider_auth_kind p) (provider_key p) in
  let* redirect_uri := lift (binding_callback_redirect_uri config_get conn (provider_auth_kind p)
                               redirect_key) in
  let c := external_auth_provider_config p in
  let config :=
    mkProviderConfig (config_id c) (config_key c) (config_kind c) (config_protocol c)
      (config_tenant c) (config_issuer_url c) (config_authorization_url c) (config_token_url c)
      (config_userinfo_url c) (config_client_id c) (config_client_secret c)
      MICROSOFT_MINECRAFT_SCOPES (config_subject_claim c) (config_username_claim c)
      (config_display_name_claim c) (config_email_claim c) (config_email_verified_claim c)
      (config_groups_claim c) (config_avatar_url_claim c) (config_user_agent c) in
  let* driver := lift (get_driver (provider_auth_kind p)) in
  let* started := start_authorization_now driver config redirect_uri in
  let* now := utc_now in
  let* expires_at := expiry now FLOW_TTL_SECS "external auth binding flow ttl" in
  let* _ := BindingFlowRepo.create user_id (provider_pk p) (fun id =>
    mkBindingFlow id user_id (provider_pk p) (state_hash (start_state started))
      (start_nonce started) (start_pkce_verifier started) redirect_uri (Some return_path) now
      expires_at None) in
  ret (mkStartLogin (start_authorization_url started) None None None None None).

Definition missing_field (field : string) : AsterError.t :=
  credentials_error ("Missing " +:+ field +:+ " in response").

Definition start_device_code_flow (user_id : Z) (p : external_auth_provider)
  (return_path : option string) : AM ExternalAuthStartLoginResponse :=
  let* return_path := lift (normalize_return_path return_path) in
  do* build_client "build HTTP client: " in
  let* url := lift (microsoft_device_code_url p) in
  let* reply := send (fun e => credentials_error ("Device code request failed: " +:+ e))
    (mkHttpCall POST url form_headers
       (FormBody (form_urlencoded_body
          [("client_id", client_id p); ("scope", MICROSOFT_MINECRAFT_SCOPES)]))) in
  do* when_ok (negb (is_success (reply_status reply)))
        (credentials_error "Device code request failed") in
  let* response :=
    lift (match device_code_from_json (text_or_default reply) with
          | Ok r => Ok r
          | Err e => Err (credentials_error ("Device code response parse failed: " +:+ e))
          | Panic m => Panic m
          end) in
  let* device_code := lift (ok_or (missing_field "device_code") (dc_device_code response)) in
  let* user_code := lift (ok_or (missing_field "user_code") (dc_user_code response)) in
  let* verification_uri :=
    lift (ok_or (missing_field "verification_uri") (dc_verification_uri response)) in
  let expires_in := default 900 (dc_expires_in response) in
  let interval := default 5 (dc_interval response) in
  let* now := utc_now in
  let* expires_at := expiry now (Z.min (Z.max expires_in 1) 900)
                       "external auth device code flow ttl" in
  let* _ := BindingFlowRepo.create user_id (provider_pk p) (fun id =>
    mkBindingFlow id user_id (provider_pk p) (state_hash device_code) None None verification_uri
      (Some return_path) now expires_at None) in
  ret (mkStartLogin verification_uri (Some device_code) (Some user_code) (Some verification_uri)
         (Some expires_in) (Some interval)).

Definition start_minecraft_binding (conn : ConnectionInfo) (user_id : Z) (kind : ProviderKind)
  (key : string) (return_path : option string) : AM ExternalAuthStartLoginResponse :=
  do* lift (ensure_minecraft_binding_provider_kind kind) in
  let* p := find_minecraft_binding_provider kind key in
  do* lift (ensure_provider_enabled p) in
  if provider_has_client_secret p
  then start_authorization_code_binding_flow conn user_id p return_path
  else start_device_code_flow user_id p return_path.

Definition minecraft_binding_metadata (account : MicrosoftMinecraftAccount) : string :=
  binding_metadata_to_json (ma_uuid account) (ma_name account) (ma_xbox_user_hash account).

Definition identity_conflict (message : string) : AsterError.t :=
  AsterError.auth_forbidden_code AsterErrorCode.ExternalAuthIdentityConflict message.

Definition ensure_minecraft_identity (user_id : Z) (p : external_auth_provider)
  (account : MicrosoftMinecraftAccount) (metadata : string) (now : DateTimeUtc)
  : AM (external_auth_identity * bool) :=
  let* found := IdentityRepo.find_by_identity_namespace_subject MINECRAFT_IDENTITY_NAMESPACE
                  (ma_uuid account) in
  match found with
  | Some identity =>
      do* when_ok (negb (identity_user_id identity =? user_id))
            (identity_conflict "Minecraft account is already linked to another user") in
      let* _ := IdentityRepo.touch_login (identity_pk identity) None (Some (ma_name account))
                  (Some metadata) now in
      ret (identity, false)
  | None =>
      let* other := IdentityRepo.find_by_provider_for_user (provider_pk p) user_id in
      match other with
      | Some other =>
          throw (identity_conflict
            ("user already linked a different account for external auth provider #"
               +:+ pretty (identity_provider_id other)))
      | None =>
          let* identity := IdentityRepo.create_identity
            (IdentityRepo.mkCreateIdentity user_id (provider_pk p) MINECRAFT_IDENTITY_NAMESPACE
               (ma_uuid account) None (Some (ma_name account)) (Some metadata) now) in
          ret (identity, true)
      end
  end.

Definition ensure_minecraft_profile (user_id : Z) (user_role : UserRole)
  (account : MicrosoftMinecraftAccount) : AM (minecraft_profile * bool) :=
  let* found := ProfileRepo.find_by_uuid (ma_uuid account) in
  match found with
  | Some existing =>
      do* when_ok (negb (profile_user_id existing =? user_id))
            (AsterError.validation_error_code AsterErrorCode.MinecraftProfileUuidTaken
               "Minecraft profile UUID is already bound to another user") in
      ret (existing, false)
  | None =>
      let* profile := create_profile_with_uuid_in_connection user_id user_role (ma_uuid account)
                        (ma_name account) Microsoft in
      ret (profile, true)
  end.

Record ApplyBindingResult : Type := mkApplied {
  ab_identity : external_auth_identity;
  ab_profile : minecraft_profile;
  ab_identity_linked : bool;
  ab_profile_created : bool
}.

Definition apply_in_txn (p : external_auth_provider) (user_id : Z) (user_role : UserRole)
  (account : MicrosoftMinecraftAccount) : AM ApplyBindingResult :=
  let* now := utc_now in
  let metadata := minecraft_binding_metadata account in
  let* (identity, identity_linked) := ensure_minecraft_identity user_id p account metadata now in
  let* (profile, profile_created) := ensure_minecraft_profile user_id user_role account in
  ret (mkApplied identity profile identity_linked profile_created).

Definition apply_minecraft_binding (p : external_auth_provider) (user_id : Z)
  (user_role : UserRole) (account : MicrosoftMinecraftAccount) : AM ApplyBindingResult :=
  with_transaction (apply_in_txn p user_id user_role account).

Definition user_role_for_binding (user_id : Z) : AM UserRole :=
  let* user := UserRepo.find_by_id user_id in
  ret (role user).

(** A texture that cannot be synchronized is only logged. *)
Definition sync_official_texture (profile : minecraft_profile) (ty : MinecraftTextureType)
  (texture : option OfficialMinecraftTexture) : AM unit :=
  match texture with
  | None => ret tt
  | Some t =>
      let* _ := catch (import_official_texture_to_profile profile ty (ot_model t) (ot_url t)) in
      ret tt
  end.

Definition sync_official_minecraft_textures (profile : minecraft_profile)
  (account : MicrosoftMinecraftAccount) : AM unit :=
  do* sync_official_texture profile Skin (ot_skin (ma_official_textures account)) in
  sync_official_texture profile Cape (ot_cape (ma_official_textures account)).

(** What both ends of a flow do with the account. *)
Definition finish_binding (p : external_auth_provider) (flow : external_auth_binding_flow)
  (account : MicrosoftMinecraftAccount) : AM ExternalAuthMinecraftBindingCallbackResult :=
  let* user_role := user_role_for_binding (binding_flow_user_id flow) in
  let* applied := apply_minecraft_binding p (binding_flow_user_id flow) user_role account in
  do* sync_official_minecraft_textures (ab_profile applied) account in
  ret (mkBindingResult (binding_flow_user_id flow) (provider_pk p)
         (identity_pk (ab_identity applied)) (ab_profile applied) (ab_identity_linked applied)
         (ab_profile_created applied) (default "/account"%string (binding_return_path flow))).

(** The flow of a callback, used up, and its enabled provider. *)
Definition consume_binding_flow (kind : ProviderKind) (key : option string) (state : string)
  : AM (external_auth_binding_flow * external_auth_provider) :=
  let* now := utc_now in
  let* found := BindingFlowRepo.consume_by_state_hash (state_hash state) now in
  let* flow := lift (ok_or (credentials_error
                              "external auth binding state is invalid or expired") found) in
  let* p := ProviderRepo.find_by_id (binding_flow_provider_id flow) in
  do* when_ok (negb (eqb (provider_auth_kind p) kind))
        (credentials_error "external auth binding callback provider kind does not match flow") in
  do* (match key with
       | None => ret tt
       | Some key =>
           let* expected := lift (normalize_key key) in
           when_ok (negb (provider_key_matches (provider_auth_kind p) (provider_key p) expected))
             (credentials_error "external auth binding callback provider does not match flow")
       end) in
  do* lift (ensure_provider_enabled p) in
  ret (flow, p).

Definition finish_minecraft_binding_callback (kind : ProviderKind) (key : option string)
  (query : ExternalAuthCallbackQuery) : AM ExternalAuthMinecraftBindingCallbackResult :=
  do* lift (ensure_minecraft_binding_provider_kind kind) in
  match callback_error query with
  | Some e => throw e
  | None =>
      let* code := lift (ok_or (credentials_error "external auth binding callback missing code")
                           (cq_code query)) in
      let* state := lift (ok_or (credentials_error
                                   "external auth binding callback missing state")
                            (cq_state query)) in
      let* (flow, p) := consume_binding_flow kind key state in
      let* account := exchange_microsoft_minecraft_account p code (binding_redirect_uri flow)
                        (binding_pkce_verifier flow) in
      finish_binding p flow account
  end.

Definition check_device_code_status (user_id : Z) (device_code : string)
  : AM (option ExternalAuthMinecraftBindingCallbackResult) :=
  let* now := utc_now in
  let* found := BindingFlowRepo.find_active_by_state_hash (state_hash device_code) now in
  match found with
  | None => ret None
  | Some flow =>
      do* when_ok (negb (binding_flow_user_id flow =? user_id))
            (identity_conflict "Device code flow does not belong to this user") in
      let* p := ProviderRepo.find_by_id (binding_flow_provider_id flow) in
      do* build_client "build HTTP client: " in
      let* url := lift (microsoft_device_token_url p) in
      let* status := poll_device_code_token url (client_id p) device_code in
      match status with
      | Pending | SlowDown => ret None
      | Expired =>
          let* now := utc_now in
          let* _ := BindingFlowRepo.consume_by_id (binding_flow_pk flow) now in
          throw (credentials_error "Microsoft device code has expired")
      | Authorized access_token =>
          let* now := utc_now in
          let* consumed := BindingFlowRepo.consume_by_id (binding_flow_pk flow) now in
          if negb consumed then ret None
          else
            let* account := exchange_microsoft_minecraft_account_with_token p access_token in
            let* result := finish_binding p flow account in
            ret (Some result)
      end
  end.
End Binding.
