(* ===== verification/ExternalProviders.v ===== *)
(** * Administration of external authentication providers

    [services/external_auth_service/providers.rs], the registry boundary
    [external_auth/] and the input normalizers of [normalize.rs] it uses. *)

From Stdlib Require Import ZArith List Bool Lia Ascii.
From stdpp Require Import base decidable list strings pretty.
From S2P Require Import Prelude Text Errors Types AuditLog World Logic Repos Bans Tokens Auth AuthConfig Accounts WebSessions TextureLibrary ExternalAuth ExternalLogin MinecraftBinding.

Local Open Scope Z_scope.
Local Open Scope aster_scope.

Definition DEFAULT_SCOPES : string := "openid email profile".
Definition REDACTED_SECRET : string := "***REDACTED***".

(** [ExternalAuthProviderDescriptor] of the service. *)
Record ExternalAuthProviderDescriptor : Type := mkDescriptor {
  dp_kind : ProviderKind;
  dp_protocol : ExternalAuthProtocol.t;
  dp_display_name : string;
  dp_description : string;
  dp_default_scopes : string;
  dp_issuer_url_required : bool;
  dp_manual_endpoint_configuration_supported : bool;
  dp_authorization_url_required : bool;
  dp_token_url_required : bool;
  dp_userinfo_url_required : bool;
  dp_supports_discovery : bool;
  dp_supports_pkce : bool;
  dp_supports_email_verified_claim : bool
}.

Record ExternalAuthProviderTestCheck : Type := mkTestCheck {
  tc_name : string;
  tc_success : bool;
  tc_message : string
}.

Record ExternalAuthProviderTestResult : Type := mkTestResult {
  tr_provider : string;
  tr_issuer : option string;
  tr_authorization_endpoint : option string;
  tr_token_endpoint : option string;
  tr_userinfo_endpoint : option string;
  tr_jwks_key_count : option Z;
  tr_checks : list ExternalAuthProviderTestCheck
}.

(** The library's registry (a descriptor with the kind of the library, given
    as this program's kind) and [aster_forge_external_auth::normalize]. *)
Class ProviderInputs : Type := {
  forge_kinds : list ForgeProviderKind.t;
  forge_descriptors : list ExternalAuthProviderDescriptor;
  forge_descriptor_for : ForgeProviderKind.t ->
                         outcome ExternalAuthError ExternalAuthProviderDescriptor;
  forge_test_provider : nat -> ForgeProviderKind.t -> ExternalAuthProviderConfig ->
                        outcome ExternalAuthError ExternalAuthProviderTestResult;
  forge_parse_allowed_domains : option string -> outcome ExternalAuthError (list string);
  forge_required_field : string -> string -> nat -> outcome ExternalAuthError string;
  forge_optional_claim : option string -> string -> outcome ExternalAuthError (option string);
  forge_scopes : option string -> string -> ExternalAuthProtocol.t ->
                 outcome ExternalAuthError string;
  forge_icon_url : option string -> nat -> outcome ExternalAuthError (option string);
  forge_issuer_url : option string -> bool -> nat -> outcome ExternalAuthError (option string);
  forge_manual_endpoint : option string -> string -> bool -> bool -> nat ->
                          outcome ExternalAuthError (option string);
  forge_allowed_domains : option (list string) -> outcome ExternalAuthError (option string);
  forge_microsoft_tenant_or_issuer_url : option string ->
                                         outcome ExternalAuthError (option string)
}.

(** ** The registry boundary ([external_auth/registry.rs], [mod.rs]) *)

Definition with_default_scopes (s : string) (d : ExternalAuthProviderDescriptor)
  : ExternalAuthProviderDescriptor :=
  mkDescriptor (dp_kind d) (dp_protocol d) (dp_display_name d) (dp_description d) s
    (dp_issuer_url_required d) (dp_manual_endpoint_configuration_supported d)
    (dp_authorization_url_required d) (dp_token_url_required d) (dp_userinfo_url_required d)
    (dp_supports_discovery d) (dp_supports_pkce d) (dp_supports_email_verified_claim d).

Definition map_external_auth_provider_descriptor (d : ExternalAuthProviderDescriptor)
  : ExternalAuthProviderDescriptor :=
  with_default_scopes
    (if eqb (dp_kind d) ExternalAuthProviderKind.Microsoft then "XboxLive.signin offline_access"
     else dp_default_scopes d) d.

Definition linuxdo_descriptor : ExternalAuthProviderDescriptor :=
  mkDescriptor ExternalAuthProviderKind.LinuxDo ExternalAuthProtocol.OAuth2 "Linux DO"
    "Sign in with LinuxDo community account" "user" false false false false false false true false.

(** What the service reports of a kind is the descriptor, column by column. *)
Abbreviation ExternalAuthProviderKindInfo := ExternalAuthProviderDescriptor.

Record ExternalAuthPublicProvider : Type := mkPublicProvider {
  pp_key : string;
  pp_kind : ProviderKind;
  pp_display_name : string;
  pp_icon_url : option string
}.

Definition provider_to_public (p : external_auth_provider) : ExternalAuthPublicProvider :=
  mkPublicProvider (public_provider_key (provider_auth_kind p) (provider_key p))
    (provider_auth_kind p) (provider_display_name p) (provider_icon_url p).

(** What an administrator sees of a provider. *)
Record AdminExternalAuthProviderInfo : Type := mkAdminProvider {
  ap_id : Z;
  ap_key : string;
  ap_provider_kind : ProviderKind;
  ap_protocol : ExternalAuthProtocol.t;
  ap_display_name : string;
  ap_icon_url : option string;
  ap_options : ExternalAuthProviderOptions;
  ap_issuer_url : option string;
  ap_authorization_url : option string;
  ap_token_url : option string;
  ap_userinfo_url : option string;
  ap_client_id : string;
  ap_client_secret : option string;
  ap_client_secret_configured : bool;
  ap_scopes : string;
  ap_enabled : bool;
  ap_auto_provision_enabled : bool;
  ap_auto_link_verified_email_enabled : bool;
  ap_require_email_verified : bool;
  ap_subject_claim : option string;
  ap_username_claim : option string;
  ap_display_name_claim : option string;
  ap_email_claim : option string;
  ap_email_verified_claim : option string;
  ap_groups_claim : option string;
  ap_avatar_url_claim : option string;
  ap_allowed_domains : list string;
  ap_created_at : DateTimeUtc;
  ap_updated_at : DateTimeUtc
}.

Record CreateExternalAuthProviderInput : Type := mkCreateProvider {
  cp_provider_kind : ProviderKind;
  cp_display_name : string;
  cp_icon_url : option string;
  cp_options : option ExternalAuthProviderOptions;
  cp_issuer_url : option string;
  cp_authorization_url : option string;
  cp_token_url : option string;
  cp_userinfo_url : option string;
  cp_client_id : string;
  cp_client_secret : option string;
  cp_scopes : option string;
  cp_enabled : option bool;
  cp_auto_provision_enabled : option bool;
  cp_auto_link_verified_email_enabled : option bool;
  cp_require_email_verified : option bool;
  cp_subject_claim : option string;
  cp_username_claim : option string;
  cp_display_name_claim : option string;
  cp_email_claim : option string;
  cp_email_verified_claim : option string;
  cp_groups_claim : option string;
  cp_avatar_url_claim : option string;
  cp_allowed_domains : option (list string)
}.

Record UpdateExternalAuthProviderInput : Type := mkUpdateProvider {
  un_display_name : option string;
  un_icon_url : option (NullablePatch string);
  un_issuer_url : option (NullablePatch string);
  un_authorization_url : option (NullablePatch string);
  un_token_url : option (NullablePatch string);
  un_userinfo_url : option (NullablePatch string);
  un_options : option ExternalAuthProviderOptions;
  un_client_id : option string;
  un_client_secret : option (NullablePatch string);
  un_scopes : option string;
  un_enabled : option bool;
  un_auto_provision_enabled : option bool;
  un_auto_link_verified_email_enabled : option bool;
  un_require_email_verified : option bool;
  un_subject_claim : option (NullablePatch string);
  un_username_claim : option (NullablePatch string);
  un_display_name_claim : option (NullablePatch string);
  un_email_claim : option (NullablePatch string);
  un_email_verified_claim : option (NullablePatch string);
  un_groups_claim : option (NullablePatch string);
  un_avatar_url_claim : option (NullablePatch string);
  un_allowed_domains : option (NullablePatch (list string))
}.

Record ExternalAuthProviderTestParamsInput : Type := mkTestParams {
  tp_provider_kind : ProviderKind;
  tp_options : option ExternalAuthProviderOptions;
  tp_issuer_url : option string;
  tp_authorization_url : option string;
  tp_token_url : option string;
  tp_userinfo_url : option string;
  tp_client_id : string;
  tp_client_secret : option string;
  tp_scopes : option string
}.

Definition nullable_patch_to_update {A} (value : NullablePatch A) : option (option A) :=
  match value with Absent => None | Null => Some None | Value v => Some (Some v) end.

(** [input.field.and_then(nullable_patch_to_update)] *)
Definition patch {A} (value : option (NullablePatch A)) : option (option A) :=
  value ≫= nullable_patch_to_update.

(** ** Secrets ([normalize.rs]) *)

Definition normalize_secret_create (value : option string) : option string :=
  match option_map trim value with
  | Some secret =>
      if negb (is_empty secret) && negb (eqb secret REDACTED_SECRET) then Some secret else None
  | None => None
  end.

Definition normalize_secret_update (value : NullablePatch string) (existing : option string)
  : option string :=
  match value with
  | Absent => existing
  | Null => None
  | Value secret =>
      let trimmed := trim secret in
      if is_empty trimmed then None
      else if eqb trimmed REDACTED_SECRET then existing
      else Some trimmed
  end.

(** ** What an administrator is shown *)

(** [filter(|secret| !secret.is_empty())] *)
Definition stored_secret (p : external_auth_provider) : option string :=
  match client_secret p with
  | Some s => if is_empty s then None else Some s
  | None => None
  end.

Definition admin_issuer_url (kind : ProviderKind) (issuer : option string)
  (options : ExternalAuthProviderOptions) : option string :=
  match kind with
  | ExternalAuthProviderKind.Oidc | ExternalAuthProviderKind.GenericOAuth2 => issuer
  | ExternalAuthProviderKind.Microsoft =>
      if is_some (microsoft_options options) then None else issuer
  | _ => None
  end.

Definition admin_manual_endpoint (kind : ProviderKind) (value : option string) : option string :=
  match kind with
  | ExternalAuthProviderKind.Oidc | ExternalAuthProviderKind.GenericOAuth2
  | ExternalAuthProviderKind.LinuxDo => value
  | _ => None
  end.

Definition default_require_email_verified (kind : ProviderKind) : bool :=
  negb (eqb kind ExternalAuthProviderKind.Microsoft || eqb kind ExternalAuthProviderKind.Qq
        || eqb kind ExternalAuthProviderKind.LinuxDo).

(** [MicrosoftExternalAuthProviderOptions::new], [LinuxDo..::new] *)
Definition new_microsoft_options (tenant : string) : MicrosoftExternalAuthProviderOptions :=
  mkMicrosoftOptions tenant None.
Definition new_linuxdo_options (min_trust_level : Z) : LinuxDoExternalAuthProviderOptions :=
  mkLinuxDoOptions min_trust_level false.

Definition with_microsoft (m : MicrosoftExternalAuthProviderOptions)
  (o : ExternalAuthProviderOptions) : ExternalAuthProviderOptions :=
  mkOptions (Some m) (linuxdo_options o) (allow_login o) (allow_unlink o).
Definition with_linuxdo (l : LinuxDoExternalAuthProviderOptions)
  (o : ExternalAuthProviderOptions) : ExternalAuthProviderOptions :=
  mkOptions (microsoft_options o) (Some l) (allow_login o) (allow_unlink o).

Definition options_not_valid (which : string) (kind : ProviderKind) : AsterError.t :=
  AsterError.ValidationError
    (which +:+ " provider options are not valid for " +:+ ExternalAuthProviderKind.as_str kind
       +:+ " providers").

(** ** Pages ([public_provider_page]) *)

Definition is_after_display_name_cursor (p : external_auth_provider) (display_name : string)
  (id : Z) : bool :=
  negb (String.leb (provider_display_name p) display_name)
  || (eqb (provider_display_name p) display_name && (id <? provider_pk p)).

Definition after_display_name (after : option (string * Z)) (p : external_auth_provider) : bool :=
  is_none_or after (fun c => is_after_display_name_cursor p (fst c) (snd c)).

Definition provider_next_cursor (providers : list external_auth_provider) (more : bool)
  : option (string * Z) :=
  if negb more then None
  else option_map (fun p => (provider_display_name p, provider_pk p)) (last providers).

(** One row more than the page is taken, and dropped when it is there. *)
Definition provider_page (candidate : external_auth_provider -> bool)
  (providers : list external_auth_provider) (limit : Z) (after : option (string * Z))
  : CursorPage ExternalAuthPublicProvider (string * Z) :=
  let limit := SessionRepo.clamp limit 1 100 in
  let filtered := List.filter candidate providers in
  let total := Z.of_nat (length filtered) in
  let taken := firstn (Z.to_nat (limit + 1)) (List.filter (after_display_name after) filtered) in
  let more := limit <? Z.of_nat (length taken) in
  let items := if more then removelast taken else taken in
  mkPage (List.map provider_to_public items) total limit (provider_next_cursor items more).

(** ** The changes of an update *)

Record ProviderChange : Type := mkProviderChange {
  pc_display_name : option string;
  pc_icon_url : option (option string);
  pc_issuer_url : option (option string);
  pc_options : option string;
  pc_authorization_url : option (option string);
  pc_token_url : option (option string);
  pc_userinfo_url : option (option string);
  pc_scopes : option string;
  pc_client_id : option string;
  pc_client_secret : option (option string);
  pc_enabled : option bool;
  pc_auto_provision_enabled : option bool;
  pc_auto_link_verified_email_enabled : option bool;
  pc_require_email_verified : option bool;
  pc_subject_claim : option (option string);
  pc_username_claim : option (option string);
  pc_display_name_claim : option (option string);
  pc_email_claim : option (option string);
  pc_email_verified_claim : option (option string);
  pc_groups_claim : option (option string);
  pc_avatar_url_claim : option (option string);
  pc_allowed_domains : option (option string)
}.

Definition with_provider_change (c : ProviderChange) (now : DateTimeUtc)
  (p : external_auth_provider) : external_auth_provider :=
  mkProvider (provider_pk p) (provider_key p)
    (default (provider_display_name p) (pc_display_name c))
    (default (provider_icon_url p) (pc_icon_url c)) (provider_auth_kind p) (provider_protocol p)
    (default (provider_options p) (pc_options c)) (default (issuer_url p) (pc_issuer_url c))
    (default (authorization_url p) (pc_authorization_url c))
    (default (token_url p) (pc_token_url c)) (default (userinfo_url p) (pc_userinfo_url c))
    (default (client_id p) (pc_client_id c)) (default (client_secret p) (pc_client_secret c))
    (default (scopes p) (pc_scopes c)) (default (provider_enabled p) (pc_enabled c))
    (default (auto_provision_enabled p) (pc_auto_provision_enabled c))
    (default (auto_link_verified_email_enabled p) (pc_auto_link_verified_email_enabled c))
    (default (require_email_verified p) (pc_require_email_verified c))
    (default (subject_claim p) (pc_subject_claim c))
    (default (username_claim p) (pc_username_claim c))
    (default (display_name_claim p) (pc_display_name_claim c))
    (default (email_claim p) (pc_email_claim c))
    (default (email_verified_claim p) (pc_email_verified_claim c))
    (default (groups_claim p) (pc_groups_claim c))
    (default (avatar_url_claim p) (pc_avatar_url_claim c))
    (default (allowed_domains p) (pc_allowed_domains c)) (provider_created_at p) now.

Section Inputs.
Context `{FX : ForgeExternalAuth} `{PI : ProviderInputs}.

Definition supported_kinds : list ProviderKind :=
  List.map from_forge_kind forge_kinds ++ [ExternalAuthProviderKind.LinuxDo].

Definition list_provider_kinds : list ExternalAuthProviderKindInfo :=
  List.map map_external_auth_provider_descriptor forge_descriptors ++ [linuxdo_descriptor].

Definition registry_contains (kind : ProviderKind) : bool :=
  eqb kind ExternalAuthProviderKind.LinuxDo || mem (to_forge_kind kind) forge_kinds.

Definition descriptor_for (kind : ProviderKind)
  : outcome AsterError.t ExternalAuthProviderDescriptor :=
  if eqb kind ExternalAuthProviderKind.LinuxDo then Ok linuxdo_descriptor
  else and_then (map_external_auth (forge_descriptor_for (to_forge_kind kind))) (fun d =>
         Ok (map_external_auth_provider_descriptor d)).

Definition provider_is_public_login_candidate (p : external_auth_provider) : bool :=
  registry_contains (provider_auth_kind p) && allow_login (provider_parsed_options p).

Definition provider_is_minecraft_binding_candidate (p : external_auth_provider) : bool :=
  eqb (provider_auth_kind p) ExternalAuthProviderKind.Microsoft
  && registry_contains (provider_auth_kind p).

Definition normalize_required (value field : string) (max_len : nat)
  : outcome AsterError.t string :=
  map_external_auth (forge_required_field value field max_len).
Definition normalize_optional_claim (value : option string) (field : string)
  : outcome AsterError.t (option string) :=
  map_external_auth (forge_optional_claim value field).
Definition normalize_scopes_with_default (value : option string) (scopes : string)
  (protocol : ExternalAuthProtocol.t) : outcome AsterError.t string :=
  map_external_auth (forge_scopes value scopes protocol).
Definition normalize_scopes (value : option string) (protocol : ExternalAuthProtocol.t)
  : outcome AsterError.t string :=
  normalize_scopes_with_default value DEFAULT_SCOPES protocol.
Definition normalize_icon_url_input (value : option string)
  : outcome AsterError.t (option string) :=
  map_external_auth (forge_icon_url value EXTERNAL_AUTH_URL_MAX_LEN).
Definition normalize_issuer_url_input (value : option string) (required : bool)
  : outcome AsterError.t (option string) :=
  map_external_auth (forge_issuer_url value required EXTERNAL_AUTH_IDENTITY_NAMESPACE_MAX_LEN).
Definition normalize_manual_endpoint_input (value : option string) (field : string)
  (required supported : bool) : outcome AsterError.t (option string) :=
  map_external_auth
    (forge_manual_endpoint value field required supported EXTERNAL_AUTH_URL_MAX_LEN).
Definition normalize_allowed_domains (value : option (list string))
  : outcome AsterError.t (option string) :=
  map_external_auth (forge_allowed_domains value).
Definition parse_allowed_domains (raw : option string) : outcome AsterError.t (list string) :=
  map_external_auth (forge_parse_allowed_domains raw).
Definition microsoft_tenant (value : option string) : outcome AsterError.t string :=
  map_external_auth (normalize_microsoft_tenant_input value).

Definition normalize_specialized_issuer_url_input (kind : ProviderKind) (value : option string)
  (message : string) : outcome AsterError.t (option string) :=
  if is_none_or value (fun v => is_empty (trim v)) then Ok None
  else Err (AsterError.ValidationError
    ("issuer_url is not configurable for " +:+ ExternalAuthProviderKind.as_str kind
       +:+ " providers. " +:+ message +:+ ".")).

Definition normalize_provider_issuer_url_input (kind : ProviderKind) (value : option string)
  (required allow_test_override : bool) : outcome AsterError.t (option string) :=
  match kind with
  | ExternalAuthProviderKind.Oidc | ExternalAuthProviderKind.GenericOAuth2 =>
      normalize_issuer_url_input value required
  | ExternalAuthProviderKind.Microsoft =>
      if allow_test_override
      then map_external_auth (forge_microsoft_tenant_or_issuer_url value)
      else normalize_specialized_issuer_url_input kind value
             "Use options.microsoft.tenant for Microsoft providers"
  | ExternalAuthProviderKind.Google =>
      if allow_test_override then normalize_issuer_url_input value false
      else normalize_specialized_issuer_url_input kind value
             "Dedicated external auth providers use fixed endpoints"
  | _ =>
      normalize_specialized_issuer_url_input kind value
        "Dedicated external auth providers use fixed endpoints"
  end.

Definition normalize_provider_options (kind : ProviderKind)
  (options : ExternalAuthProviderOptions) : outcome AsterError.t ExternalAuthProviderOptions :=
  let options := options_normalized options in
  match kind with
  | ExternalAuthProviderKind.Microsoft =>
      and_then (microsoft_tenant (option_map tenant (microsoft_options options))) (fun tenant =>
        Ok (with_microsoft (new_microsoft_options tenant) options))
  | ExternalAuthProviderKind.LinuxDo =>
      Ok (if is_none (linuxdo_options options)
          then with_linuxdo (new_linuxdo_options 0) options else options)
  | _ =>
      if is_some (microsoft_options options) then Err (options_not_valid "microsoft" kind)
      else if is_some (linuxdo_options options) then Err (options_not_valid "linuxdo" kind)
      else Ok options
  end.

Definition normalize_provider_options_from_create (kind : ProviderKind)
  (options : option ExternalAuthProviderOptions)
  : outcome AsterError.t ExternalAuthProviderOptions :=
  let options := options_normalized (default default_options options) in
  if eqb kind ExternalAuthProviderKind.Microsoft && is_none (microsoft_options options)
  then and_then (microsoft_tenant None) (fun tenant =>
         normalize_provider_options kind (with_microsoft (new_microsoft_options tenant) options))
  else normalize_provider_options kind options.

Definition normalize_provider_options_from_test_params (kind : ProviderKind)
  (options : option ExternalAuthProviderOptions) (issuer : option string)
  : outcome AsterError.t ExternalAuthProviderOptions :=
  if eqb kind ExternalAuthProviderKind.Microsoft && is_some issuer
  then Ok (options_normalized (default default_options options))
  else normalize_provider_options kind (default default_options options).

Definition serialize_options (options : ExternalAuthProviderOptions) : outcome AsterError.t string :=
  match serialize_external_auth_provider_options options with
  | Ok s => Ok s
  | Err e => Err (AsterError.InternalError
                    ("serialize external auth provider options: " +:+ e))
  | Panic m => Panic m
  end.

Definition microsoft_tenant_from_legacy_issuer_url (value : string) : option string :=
  match normalize_microsoft_tenant_input (Some value) with Ok t => Some t | _ => None end.

Definition admin_provider_options (kind : ProviderKind) (raw_options : string)
  (legacy_issuer_url : option string) : outcome AsterError.t ExternalAuthProviderOptions :=
  let options := parse_external_auth_provider_options raw_options in
  if eqb kind ExternalAuthProviderKind.Microsoft && is_none (microsoft_options options) then
    match legacy_issuer_url with
    | None => normalize_provider_options kind options
    | Some url =>
        match microsoft_tenant_from_legacy_issuer_url url with
        | None => Ok options
        | Some tenant =>
            normalize_provider_options kind
              (with_microsoft (new_microsoft_options tenant) options)
        end
    end
  else normalize_provider_options kind options.

Definition provider_to_admin (p : external_auth_provider)
  : outcome AsterError.t AdminExternalAuthProviderInfo :=
  and_then (parse_allowed_domains (allowed_domains p)) (fun domains =>
    and_then (admin_provider_options (provider_auth_kind p) (provider_options p) (issuer_url p))
      (fun options =>
        let kind := provider_auth_kind p in
        Ok (mkAdminProvider (provider_pk p) (provider_key p) kind (provider_protocol p)
              (provider_display_name p) (provider_icon_url p) options
              (admin_issuer_url kind (issuer_url p) options)
              (admin_manual_endpoint kind (authorization_url p))
              (admin_manual_endpoint kind (token_url p))
              (admin_manual_endpoint kind (userinfo_url p)) (client_id p)
              (option_map (fun _ => REDACTED_SECRET) (stored_secret p))
              (is_some (stored_secret p)) (scopes p) (provider_enabled p)
              (auto_provision_enabled p) (auto_link_verified_email_enabled p)
              (require_email_verified p) (subject_claim p) (username_claim p)
              (display_name_claim p) (email_claim p) (email_verified_claim p) (groups_claim p)
              (avatar_url_claim p) domains (provider_created_at p) (provider_updated_at p)))).

(** An endpoint of a new provider or a test: fixed for LinuxDo. *)
Definition endpoint_input (kind : ProviderKind) (d : ExternalAuthProviderDescriptor)
  (fixed : string) (value : option string) (field : string) (required : bool)
  : outcome AsterError.t (option string) :=
  if eqb kind ExternalAuthProviderKind.LinuxDo then Ok (Some fixed)
  else normalize_manual_endpoint_input value field required
         (dp_manual_endpoint_configuration_supported d).

(** [fixed.or(value).and_then(|v| normalize(v).ok().flatten())] *)
Definition lossy_claim (fixed value : option string) (field : string) : option string :=
  v ← (if is_some fixed then fixed else value);
  match normalize_optional_claim (Some v) field with Ok c => c | _ => None end.
End Inputs.

(** ** The service *)

Section Service.
Context `{EN : Env} `{CB : CacheBackend} `{FA : ForgeApi} `{AE : !AccountExterns}.
Context `{FX : ForgeExternalAuth} `{PI : ProviderInputs}.

Abbreviation AM := (M AsterError.t).

Definition list_public_providers : AM (list ExternalAuthPublicProvider) :=
  let* providers := ProviderRepo.find_enabled in
  ret (List.map provider_to_public (List.filter provider_is_public_login_candidate providers)).

Definition list_public_providers_paginated (limit : Z) (after : option (string * Z))
  : AM (CursorPage ExternalAuthPublicProvider (string * Z)) :=
  let limit := SessionRepo.clamp limit 1 100 in
  let* providers := ProviderRepo.find_enabled in
  ret (provider_page provider_is_public_login_candidate providers limit after).

Definition list_public_providers_by_kind (kind : ProviderKind)
  : AM (list ExternalAuthPublicProvider) :=
  let* providers := ProviderRepo.find_enabled_by_kind kind in
  ret (List.map provider_to_public (List.filter provider_is_public_login_candidate providers)).

Definition list_public_providers_by_kind_paginated (kind : ProviderKind) (limit : Z)
  (after : option (string * Z)) : AM (CursorPage ExternalAuthPublicProvider (string * Z)) :=
  let limit := SessionRepo.clamp limit 1 100 in
  let* providers := ProviderRepo.find_enabled_by_kind kind in
  ret (provider_page provider_is_public_login_candidate providers limit after).

Definition list_minecraft_binding_providers_by_kind_paginated (kind : ProviderKind) (limit : Z)
  (after : option (string * Z)) : AM (CursorPage ExternalAuthPublicProvider (string * Z)) :=
  do* lift (ensure_minecraft_binding_provider_kind kind) in
  let limit := SessionRepo.clamp limit 1 100 in
  let* providers := ProviderRepo.find_enabled_by_kind kind in
  ret (provider_page provider_is_minecraft_binding_candidate providers limit after).

(** [external_auth_provider_repo::find_cursor] *)
Definition find_cursor (limit : Z) (after : option (string * Z)) (kinds : list ProviderKind)
  : AM (CursorSlice external_auth_provider) :=
  let limit := SessionRepo.clamp limit 1 100 in
  let base := fun p => mem (provider_auth_kind p) kinds in
  let* total := db_query (fun d => Z.of_nat (count_where base (rows (ProviderRepo.providers d)))) in
  if total =? 0 then ret (mkSlice [] total false)
  else
    let* items := db_query (fun d =>
      firstn (Z.to_nat (limit + 1))
        (sort_by provider_leb
           (rows_where (fun p => base p && after_display_name after p)
              (rows (ProviderRepo.providers d))))) in
    lift (match from_overfetch items total limit with
          | Ok s => Ok s
          | Err m => Err (AsterError.ValidationError m)
          | Panic m => Panic m
          end).

Definition list_admin_providers (limit : Z) (after : option (string * Z))
  : AM (CursorPage AdminExternalAuthProviderInfo (string * Z)) :=
  let limit := SessionRepo.clamp limit 1 100 in
  let* page := find_cursor limit after supported_kinds in
  let next := provider_next_cursor (items page) (has_more page) in
  let* infos := lift (collect provider_to_admin (items page)) in
  ret (mkPage infos (total page) limit next).

(** A registered provider. *)
Definition registered_provider (id : Z) : AM external_auth_provider :=
  let* p := ProviderRepo.find_by_id id in
  do* when_ok (negb (registry_contains (provider_auth_kind p)))
        (AsterError.RecordNotFound ("external auth provider #" +:+ pretty id)) in
  ret p.

Definition get_admin_provider (id : Z) : AM AdminExternalAuthProviderInfo :=
  let* p := registered_provider id in
  lift (provider_to_admin p).

Definition new_provider_key (kind : ProviderKind) : AM string :=
  let* taken :=
    (if eqb kind ExternalAuthProviderKind.Microsoft then
       let* existing := ProviderRepo.find_by_kind_key kind MICROSOFT_PROVIDER_PUBLIC_KEY in
       ret (is_some existing)
     else ret true) in
  if negb taken then ret MICROSOFT_PROVIDER_PUBLIC_KEY
  else best_effort_uuid "external auth provider key" (fun candidate =>
         let* found := ProviderRepo.find_by_kind_key kind candidate in ret (is_some found)).

Definition create_provider (input : CreateExternalAuthProviderInput)
  : AM AdminExternalAuthProviderInfo :=
  let kind := cp_provider_kind input in
  let* d := lift (descriptor_for kind) in
  let* key := new_provider_key kind in
  let* name := lift (normalize_required (cp_display_name input) "display_name" 128) in
  let* icon := lift (normalize_icon_url_input (cp_icon_url input)) in
  let* options := lift (normalize_provider_options_from_create kind (cp_options input)) in
  let linuxdo := eqb kind ExternalAuthProviderKind.LinuxDo in
  let fixed := fun s : string => if linuxdo then Some s else None in
  let* issuer := lift (normalize_provider_issuer_url_input kind (cp_issuer_url input)
                         (dp_issuer_url_required d) false) in
  let* authorization := lift (endpoint_input kind d "https://connect.linux.do/oauth2/authorize"
    (cp_authorization_url input) "authorization_url" (dp_authorization_url_required d)) in
  let* token := lift (endpoint_input kind d "https://connect.linux.do/oauth2/token"
    (cp_token_url input) "token_url" (dp_token_url_required d)) in
  let* userinfo := lift (endpoint_input kind d "https://connect.linux.do/api/user"
    (cp_userinfo_url input) "userinfo_url" (dp_userinfo_url_required d)) in
  let* client := lift (normalize_required (cp_client_id input) "client_id" 512) in
  let* scopes :=
    (if linuxdo then ret "user"%string
     else lift (normalize_scopes_with_default (cp_scopes input) (dp_default_scopes d)
                  (dp_protocol d))) in
  let* domains := lift (normalize_allowed_domains (cp_allowed_domains input)) in
  let* now := utc_now in
  let* options := lift (serialize_options options) in
  let* email := lift (normalize_optional_claim (cp_email_claim input) "email_claim") in
  let* email_verified :=
    lift (normalize_optional_claim (cp_email_verified_claim input) "email_verified_claim") in
  let* groups := lift (normalize_optional_claim (cp_groups_claim input) "groups_claim") in
  let* avatar := lift (normalize_optional_claim (cp_avatar_url_claim input) "avatar_url_claim") in
  let* p := ProviderRepo.create (fun id =>
    mkProvider id key name icon kind (dp_protocol d) options issuer authorization token userinfo
      client (normalize_secret_create (cp_client_secret input)) scopes
      (default true (cp_enabled input)) (default linuxdo (cp_auto_provision_enabled input))
      (default false (cp_auto_link_verified_email_enabled input))
      (if linuxdo then false
       else default (default_require_email_verified kind) (cp_require_email_verified input))
      (lossy_claim (fixed "id") (cp_subject_claim input) "subject_claim")
      (lossy_claim (fixed "username") (cp_username_claim input) "username_claim")
      (lossy_claim (fixed "name") (cp_display_name_claim input) "display_name_claim")
      email email_verified groups avatar domains now now) in
  lift (provider_to_admin p).

(** [if let Some(v) = field { active.column = Set(f(v)?) }] *)
Definition changed {A B} (field : option A) (f : A -> outcome AsterError.t B)
  : AM (option B) :=
  match field with
  | None => ret None
  | Some v => let* b := lift (f v) in ret (Some b)
  end.

Definition claim_change (field : option (NullablePatch string)) (name : string)
  : AM (option (option string)) :=
  changed (patch field) (fun v => normalize_optional_claim v name).

Definition update_provider (id : Z) (input : UpdateExternalAuthProviderInput)
  : AM AdminExternalAuthProviderInfo :=
  let* existing := registered_provider id in
  let kind := provider_auth_kind existing in
  let* d := lift (descriptor_for kind) in
  let* name := changed (un_display_name input) (fun v => normalize_required v "display_name" 128) in
  let* icon := changed (patch (un_icon_url input)) normalize_icon_url_input in
  let* issuer := changed (patch (un_issuer_url input)) (fun v =>
    normalize_provider_issuer_url_input kind v (dp_issuer_url_required d) false) in
  let* options := changed (un_options input) (fun o =>
    and_then (normalize_provider_options kind o) serialize_options) in
  let issuer :=
    if is_some options && eqb kind ExternalAuthProviderKind.Microsoft then Some None else issuer in
  let linuxdo := eqb kind ExternalAuthProviderKind.LinuxDo in
  let endpoint := fun field name required =>
    if linuxdo then ret None
    else changed (patch field) (fun v =>
           normalize_manual_endpoint_input v name required
             (dp_manual_endpoint_configuration_supported d)) in
  let* authorization := endpoint (un_authorization_url input) "authorization_url"%string
                          (dp_authorization_url_required d) in
  let* token := endpoint (un_token_url input) "token_url"%string (dp_token_url_required d) in
  let* userinfo := endpoint (un_userinfo_url input) "userinfo_url"%string
                     (dp_userinfo_url_required d) in
  let* scopes :=
    (if linuxdo then ret None
     else changed (un_scopes input) (fun s =>
            normalize_scopes (Some s) (provider_protocol existing))) in
  let* client := changed (un_client_id input) (fun v => normalize_required v "client_id" 512) in
  let secret :=
    option_map (fun v => normalize_secret_update v (client_secret existing))
      (un_client_secret input) in
  let* subject := claim_change (un_subject_claim input) "subject_claim" in
  let* username := claim_change (un_username_claim input) "username_claim" in
  let* display := claim_change (un_display_name_claim input) "display_name_claim" in
  let* email := claim_change (un_email_claim input) "email_claim" in
  let* email_verified := claim_change (un_email_verified_claim input) "email_verified_claim" in
  let* groups := claim_change (un_groups_claim input) "groups_claim" in
  let* avatar := claim_change (un_avatar_url_claim input) "avatar_url_claim" in
  let* domains := changed (patch (un_allowed_domains input)) normalize_allowed_domains in
  let* now := utc_now in
  let* p := ProviderRepo.update (provider_pk existing)
    (with_provider_change
       (mkProviderChange name icon issuer options authorization token userinfo scopes client secret
          (un_enabled input) (un_auto_provision_enabled input)
          (un_auto_link_verified_email_enabled input) (un_require_email_verified input) subject
          username display email email_verified groups avatar domains) now) in
  lift (provider_to_admin p).

Definition delete_provider (id : Z) : AM unit :=
  let* _ := registered_provider id in
  ProviderRepo.delete id.

Definition test_provider_now (driver : ForgeProviderKind.t) (config : ExternalAuthProviderConfig)
  : AM ExternalAuthProviderTestResult :=
  fun w => (map_external_auth (forge_test_provider (step w) driver config), tick w).

Definition test_provider (id : Z) : AM ExternalAuthProviderTestResult :=
  let* p := ProviderRepo.find_by_id id in
  let* driver := lift (get_driver (provider_auth_kind p)) in
  let* result := test_provider_now driver (external_auth_provider_config p) in
  let* now := utc_now in
  let* _ := ProviderRepo.touch_updated_at id now in
  ret result.

Definition external_auth_provider_config_from_test_params
  (input : ExternalAuthProviderTestParamsInput)
  : outcome AsterError.t ExternalAuthProviderConfig :=
  let kind := tp_provider_kind input in
  and_then (descriptor_for kind) (fun d =>
  and_then (normalize_provider_options_from_test_params kind (tp_options input)
              (tp_issuer_url input)) (fun options =>
  and_then (endpoint_input kind d "https://connect.linux.do/oauth2/authorize"
              (tp_authorization_url input) "authorization_url" (dp_authorization_url_required d))
    (fun authorization =>
  and_then (endpoint_input kind d "https://connect.linux.do/oauth2/token" (tp_token_url input)
              "token_url" (dp_token_url_required d)) (fun token =>
  and_then (endpoint_input kind d "https://connect.linux.do/api/user" (tp_userinfo_url input)
              "userinfo_url" (dp_userinfo_url_required d)) (fun userinfo =>
  and_then (normalize_provider_issuer_url_input kind (tp_issuer_url input)
              (dp_issuer_url_required d) true) (fun issuer =>
  and_then (normalize_required (tp_client_id input) "client_id" 512) (fun client =>
  and_then (normalize_scopes_with_default (tp_scopes input) (dp_default_scopes d)
              (dp_protocol d)) (fun scopes =>
    Ok (mkProviderConfig 0 "draft" (to_forge_kind kind) (dp_protocol d)
          (option_map tenant (microsoft_options options)) issuer authorization token userinfo
          client (normalize_secret_create (tp_client_secret input)) scopes None None None None None
          None None (Some outbound_user_agent)))))))))).

Definition test_provider_params (input : ExternalAuthProviderTestParamsInput)
  : AM ExternalAuthProviderTestResult :=
  let* config := lift (external_auth_provider_config_from_test_params input) in
  let* driver := lift (map_external_auth (forge_driver (config_kind config))) in
  test_provider_now driver config.
End Service.
