(* ===== verification/AdminUsers.v ===== *)
(** * Administration of users

    [services/admin_user_service.rs], with [user_operator_scope_repo.rs] and
    the statements of [user_repo.rs] that only administrators use: accounts
    are listed, created, edited, signed out and deleted. *)

From Stdlib Require Import ZArith List Bool Lia Ascii.
From stdpp Require Import base decidable list strings gmap pretty.
From S2P Require Import Prelude Text Errors Types AuditLog World Logic Repos Bans Tokens Auth ForwardTextures Sessions ProfileTextures AuthConfig Accounts WebSessions Invitations ObjectStorage TextureRepo TextureProcessing TextureService TextureWardrobe TextureLibrary Profiles ExternalAuth UserProfiles.

Local Open Scope Z_scope.
Local Open Scope aster_scope.

Definition SUPER_ADMIN_USER_ID : Z := 1.
Definition GENERATED_PASSWORD_LENGTH : nat := 24.
Definition GENERATED_PASSWORD_UPPERCASE : list ascii := bytes "ABCDEFGHJKLMNPQRSTUVWXYZ".
Definition GENERATED_PASSWORD_LOWERCASE : list ascii := bytes "abcdefghijkmnopqrstuvwxyz".
Definition GENERATED_PASSWORD_DIGITS : list ascii := bytes "23456789".
Definition GENERATED_PASSWORD_SYMBOLS : list ascii := bytes "!@#$%^&*-_+=".
Definition GENERATED_PASSWORD_CHARSET : list ascii :=
  bytes "ABCDEFGHJKLMNPQRSTUVWXYZabcdefghijkmnopqrstuvwxyz23456789!@#$%^&*-_+=".

Record AdminUserInfo : Type := mkAdminUser {
  ui_id : Z;
  ui_username : string;
  ui_email : option string;
  ui_pending_email : option string;
  ui_role : UserRole;
  ui_operator_scopes : list OperatorScope;
  ui_status : UserStatus;
  ui_must_change_password : bool;
  ui_session_version : Z;
  ui_profile_count : Z;
  ui_active_session_count : Z;
  ui_profile : UserProfileInfo;
  ui_email_verified_at : option DateTimeUtc;
  ui_created_at : DateTimeUtc;
  ui_updated_at : DateTimeUtc
}.

Record CreateAdminUserOutput : Type := mkCreateOutput {
  co_user : AdminUserInfo;
  generated_password : option string
}.

Record AdminCreateUserInput : Type := mkAdminCreate {
  ac_username : string;
  ac_email : string;
  ac_password : option string;
  ac_role : UserRole;
  ac_operator_scopes : option (list OperatorScope);
  ac_status : UserStatus;
  ac_must_change_password : option bool
}.

Record DeleteAdminUserOutput : Type := mkDeleteOutput {
  do_user : AdminUserInfo;
  deleted_profile_count : Z;
  deleted_profile_texture_count : Z;
  deleted_wardrobe_texture_count : Z;
  revoked_session_count : Z;
  revoked_yggdrasil_token_count : Z
}.

Record AdminUpdateUserInput : Type := mkAdminUpdate {
  ad_username : option string;
  ad_email : option string;
  ad_password : option string;
  ad_role : option UserRole;
  ad_operator_scopes : option (list OperatorScope);
  ad_status : option UserStatus;
  ad_must_change_password : option bool
}.

Record AdminUserListFilters : Type := mkUserFilters {
  lf_keyword : option string;
  lf_role : option UserRole;
  lf_status : option UserStatus
}.

(** *** Roles and scopes *)

Definition normalize_role_and_scopes (requested : UserRole)
  (scopes : option (list OperatorScope)) : UserRole * list OperatorScope :=
  match scopes with
  | Some scopes =>
      match requested with
      | Admin | Operator => (Operator, scopes)
      | User => (User, [])
      end
  | None => (requested, [])
  end.

Definition normalize_update_role_and_scopes (existing : UserRole) (requested : option UserRole)
  (scopes : option (list OperatorScope)) (existing_scopes : list OperatorScope)
  : UserRole * option (list OperatorScope) :=
  let base := default existing requested in
  match scopes with
  | Some scopes =>
      match base with
      | Admin | Operator => (Operator, Some scopes)
      | User => (User, Some [])
      end
  | None =>
      match base with
      | Admin => (Admin, Some [])
      | User => (User, Some [])
      | Operator =>
          if eqb requested (Some Operator) && negb (eqb existing Operator)
          then (Operator, Some [])
          else if eqb existing Operator then (Operator, Some existing_scopes)
          else (Operator, Some [])
      end
  end.

(** ** The table of operator scopes *)

Module OperatorScopeRepo.
Section Ops.
Context `{EN : Env} `{CB : CacheBackend}.

Definition table (d : Db) : Table user_operator_scope := operator_scopes (accounts d).

(** The rows of the users, grouped by user. *)
Definition list_for_user_ids (ids : list Z) : M AsterError.t (list (Z * list OperatorScope)) :=
  match ids with
  | [] => ret []
  | _ =>
      db_query (fun d =>
        List.map (fun id =>
          (id, List.map os_scope
                 (sort_by scope_value_leb
                    (rows_where (fun s => os_user_id s =? id) (rows (table d)))))) ids)
  end.

(** The order of the enumeration, which is that of a [BTreeSet]. *)
Definition ordered_scopes : list OperatorScope :=
  [ScopeOverview; ScopeUsers; ScopeProfiles; ScopeTextureLibrary; ScopeAudit; ScopeTasks;
   ScopeSettings; ScopeExternalAuth].

Definition unique_scopes (scopes : list OperatorScope) : list OperatorScope :=
  List.filter (fun s => mem s scopes) ordered_scopes.

Definition insert (user_id : Z) (now : DateTimeUtc) (scope : OperatorScope)
  : M AsterError.t user_operator_scope :=
  insert_referring (user_exists user_id) table set_operator_scopes
    (fun s t => (os_user_id s =? os_user_id t) && eqb (os_scope s) (os_scope t))
    (fun id => mkOperatorScope id user_id scope now).

Fixpoint insert_all (user_id : Z) (now : DateTimeUtc) (scopes : list OperatorScope)
  : M AsterError.t unit :=
  match scopes with
  | [] => ret tt
  | scope :: scopes =>
      let* _ := insert user_id now scope in
      insert_all user_id now scopes
  end.

Definition replace_for_user (user_id : Z) (scopes : list OperatorScope) : M AsterError.t unit :=
  let* _ := db_delete_many table set_operator_scopes (fun s => os_user_id s =? user_id) in
  let* now := utc_now in
  insert_all user_id now (unique_scopes scopes).
End Ops.
End OperatorScopeRepo.

(** ** The statements of administrators on users *)

Definition newest_user_leb (a b : user) : bool :=
  (user_created_at b <? user_created_at a)
  || ((user_created_at a =? user_created_at b) && (user_pk b <=? user_pk a)).

Definition older_user (after : option (DateTimeUtc * Z)) (u : user) : bool :=
  match after with
  | None => true
  | Some (created_at, id) =>
      (user_created_at u <? created_at)
      || ((user_created_at u =? created_at) && (user_pk u <? id))
  end.

Record AdminUserChange : Type := mkUserChange {
  uc_username : option string;
  uc_email : option string;
  uc_password_hash : option string;
  uc_role : option UserRole;
  uc_status : option UserStatus;
  uc_must_change_password : option bool;
  uc_bump_session_version : bool
}.

(** The row [u] after the change; [existing] is the row as it was read. *)
Definition with_admin_change (c : AdminUserChange) (existing : user) (now : DateTimeUtc) (u : user)
  : user :=
  mkUser (user_pk u) (public_uuid u) (default (username u) (uc_username c))
    (match uc_email c with Some e => Some e | None => email u end)
    (default (password_hash u) (uc_password_hash c)) (default (role u) (uc_role c))
    (default (user_status u) (uc_status c))
    (default (must_change_password u) (uc_must_change_password c))
    (if uc_bump_session_version c then wrap_i64 (session_version existing + 1)
     else session_version u)
    (email_verified_at u) (pending_email u) (user_created_at u) now.

(** The foreign keys on a user: what is theirs goes with them, and what names
    them as an actor forgets them. *)
Definition forget_creator (id : Z) (t : background_task) : background_task :=
  mkTask (task_pk t) (task_kind t) (task_status t) None (task_display_name t) (dedupe_key t)
    (payload_json t) (result_json t) (runtime_json t) (steps_json t) (progress_current t)
    (progress_total t) (status_text t) (attempt_count t) (Types.max_attempts t) (next_run_at t)
    (processing_token t) (processing_started_at t) (last_heartbeat_at t) (lease_expires_at t)
    (started_at t) (finished_at t) (last_error t) (failure_can_retry t) (task_expires_at t)
    (task_created_at t) (task_updated_at t).

Definition forget_accepted (id : Z) (i : user_invitation) : user_invitation :=
  mkInvitation (invitation_pk i) (invitation_email i) (invitation_token_hash i)
    (invitation_status i) (invited_by i) None (invitation_expires_at i) (invitation_created_at i)
    (invitation_updated_at i) (invitation_accepted_at i) (invitation_revoked_at i).

Definition forget (id : Z) (actor : option Z) : option Z :=
  if eqb actor (Some id) then None else actor.

Definition forget_banning (id : Z) (b : user_ban) : user_ban :=
  mkBan (ban_pk b) (ban_user_id b) (ban_scopes_raw b) (ban_status b) (ban_reason b)
    (ban_public_reason b) (ban_admin_note b) (forget id (created_by_user_id b)) (ban_starts_at b)
    (ban_expires_at b) (ban_revoked_at b) (forget id (revoked_by_user_id b)) (revoke_note b)
    (ban_created_at b) (ban_updated_at b).

Definition forget_actor (id : Z) (e : user_ban_event) : user_ban_event :=
  mkBanEvent (event_pk e) (event_ban_id e) (forget id (actor_user_id e)) (event_type e)
    (previous_status e) (next_status e) (previous_scopes e) (next_scopes e)
    (previous_expires_at e) (next_expires_at e) (event_note e) (event_created_at e).

Definition forget_handler (id : Z) (r : minecraft_texture_report) : minecraft_texture_report :=
  mkReport (report_pk r) (report_texture_id r) (reporter_user_id r) (report_reason r)
    (report_message r) (report_status r) (report_admin_note r) (forget id (handled_by_user_id r))
    (handled_at r) (report_created_at r) (report_updated_at r).

(** A table without the rows of the user, and one whose rows forget them. *)
Definition without {A} (p : A -> bool) (t : Table A) : Table A :=
  with_rows (delete_where p (rows t)) t.
Definition mapped {A} (f : A -> A) (t : Table A) : Table A :=
  with_rows (List.map f (rows t)) t.

Definition drop_bans (id : Z) (d : Db) : Db :=
  let dropped := List.map ban_pk (rows_where (fun b => ban_user_id b =? id) (rows (bans d))) in
  set_ban_events
    (mapped (forget_actor id) (without (fun e => mem (event_ban_id e) dropped) (ban_events d)))
    (set_bans (mapped (forget_banning id) (without (fun b => ban_user_id b =? id) (bans d))) d).

Definition drop_invitations (id : Z) (t : Table user_invitation) : Table user_invitation :=
  mapped (fun i => if eqb (accepted_user_id i) (Some id) then forget_accepted id i else i)
    (without (fun i => invited_by i =? id) t).

Definition drop_account (id : Z) (d : Db) : Db :=
  let a := accounts d in
  set_accounts
    (mkAccounts (without (fun s => session_user_id s =? id) (auth_sessions a))
       (without (fun t => verification_user_id t =? id) (verification_tokens a))
       (drop_invitations id (invitations a))
       (without (fun p => up_user_id p =? id) (user_profiles a))
       (without (fun s => os_user_id s =? id) (operator_scopes a))
       (without (fun i => identity_user_id i =? id) (external_identities a)) (mail_outbox a)) d.

Definition drop_library (id : Z) (d : Db) : Db :=
  set_texture_reports
    (mapped (forget_handler id)
       (without (fun r => reporter_user_id r =? id) (texture_reports (library d)))) d.

Definition drop_user (id : Z) (d : Db) : Db :=
  let profile_ids :=
    List.map profile_pk (rows_where (fun p => profile_user_id p =? id) (rows (profiles d))) in
  let texture_ids :=
    List.map tex_pk (rows_where (fun t => tex_user_id t =? id) (rows (textures d))) in
  let d := List.fold_left (fun d p => ProfileRows.drop_profile p d) profile_ids d in
  let d := List.fold_left (fun d t => TextureRepo.drop_texture t d) texture_ids d in
  let d := set_tokens (without (fun t => token_user_id t =? id) (tokens d)) d in
  let d := set_tasks (mapped (fun t => if eqb (creator_user_id t) (Some id)
                                       then forget_creator id t else t) (tasks d)) d in
  let d := set_binding_flows (without (fun f => binding_flow_user_id f =? id)
                                (binding_flows (external d))) d in
  let d := set_passkeys (without (fun p => passkey_user_id p =? id) (passkeys d)) d in
  let d := drop_library id (drop_account id (drop_bans id d)) in
  set_users (without (fun u => user_pk u =? id) (users d)) d.

(** ** The service *)

Definition cannot_change_super : AsterError.t :=
  AsterError.AuthForbidden "super administrator role, status, and permissions cannot be changed".
Definition cannot_delete_super : AsterError.t :=
  AsterError.AuthForbidden "super administrator cannot be deleted".

(** An edit that would change what the super administrator is. *)
Definition changes_super (existing : user) (input : AdminUpdateUserInput) : bool :=
  is_some_and (ad_role input) (fun r => negb (eqb r (role existing)))
  || is_some_and (ad_status input) (fun s => negb (eqb s (user_status existing)))
  || is_some (ad_operator_scopes input).

Section Service.
Context `{EN : Env} `{CB : CacheBackend} `{TM : TxnManager} `{FC : ForgeCrypto} `{FA : ForgeApi}.
Context `{FN : ForgeNumbers} `{FG : ForgeSigned} `{TN : TextureNumbers} `{AE : !AccountExterns}.
Context `{CF : ForgeConfig} `{ST : ConfigStore} `{RC : RuntimeConfig} `{FE : ForgeEmail}.
Context `{TX : TextureExterns} `{SE : SkinExterns} `{TS : TextSearch} `{PP : PreviewPolicy}.
Context `{IC : ImageCodec} `{FS : FileSystem} `{BE : BanExterns} {OS : ObjectStorage}.
Context `{PX : ProfileExterns}.

Abbreviation AM := (M AsterError.t).

(** *** Statements ([user_repo.rs]) *)

Definition matches_admin_filters (f : AdminUserListFilters) (u : user) : bool :=
  is_none_or (lf_role f) (eqb (role u)) && is_none_or (lf_status f) (eqb (user_status u))
  && match trimmed_keyword (lf_keyword f) with
     | None => true
     | Some k => lower_like (username u) k || is_some_and (email u) (fun e => lower_like e k)
     end.

Definition list_admin_cursor (f : AdminUserListFilters) (limit : Z)
  (after : option (DateTimeUtc * Z)) : AM (CursorSlice user) :=
  let limit := SessionRepo.clamp limit 1 100 in
  let* total := db_query (fun d =>
    Z.of_nat (count_where (matches_admin_filters f) (rows (users d)))) in
  let* items := db_query (fun d =>
    firstn (Z.to_nat (limit + 1))
      (sort_by newest_user_leb
         (rows_where (fun u => matches_admin_filters f u && older_user after u)
            (rows (users d))))) in
  lift (match from_overfetch items total limit with
        | Ok s => Ok s
        | Err m => Err (AsterError.ValidationError m)
        | Panic m => Panic m
        end).

(** [GROUP BY user_id]: one count for each user that has rows. *)
Definition group_counts (what : string) (count : Z -> nat) (ids : list Z)
  : outcome AsterError.t (list (Z * Z)) :=
  collect (fun id => and_then (utils (i64_to_u64 (Z.of_nat (count id)) what)) (fun n => Ok (id, n)))
    (List.filter (fun id => negb (count id =? 0)%nat) (remove_dups ids)).

Definition count_by (what : string) (count : Db -> Z -> nat) (ids : list Z) : AM (list (Z * Z)) :=
  let* counts := db_query (fun d => count d) in
  lift (group_counts what counts ids).

Definition count_profiles_by_user_ids (ids : list Z) : AM (list (Z * Z)) :=
  match ids with
  | [] => ret []
  | _ =>
      count_by "profile count" (fun d id =>
        count_where (fun p => profile_user_id p =? id) (rows (profiles d))) ids
  end.

Definition count_active_sessions_by_user_ids (ids : list Z) : AM (list (Z * Z)) :=
  match ids with
  | [] => ret []
  | _ =>
      let* now := utc_now in
      count_by "active session count" (fun d id =>
        count_where (fun s => (session_user_id s =? id) && Users.session_active s
                              && (now <? refresh_expires_at s))
          (rows (auth_sessions (accounts d)))) ids
  end.

Definition update_admin (id : Z) (change : AdminUserChange) : AM user :=
  let* existing := UserRepo.find_by_id id in
  let* now := utc_now in
  Users.update (user_pk existing) (with_admin_change change existing now).

Definition delete_by_id (id : Z) : AM user :=
  let* user := UserRepo.find_by_id id in
  do* db_exec (fun d => Ok (tt, drop_user id d)) in
  ret user.

(** *** Generated passwords *)

(** [charset[rng.random_range(0..charset.len())]] *)
Definition draw (charset : list ascii) : AM ascii :=
  let* index := random_range (Z.of_nat (length charset)) in
  ret (List.nth (Z.to_nat index) charset (List.hd "?"%char charset)).

Fixpoint draws (charsets : list (list ascii)) : AM (list ascii) :=
  match charsets with
  | [] => ret []
  | charset :: charsets =>
      let* a := draw charset in
      let* rest := draws charsets in
      ret (a :: rest)
  end.

(** [bytes.swap(i, j)] *)
Definition swap {A} (i j : nat) (l : list A) : list A :=
  match l !! i, l !! j with
  | Some a, Some b => <[i := b]> (<[j := a]> l)
  | _, _ => l
  end.

(** [for index in (1..=index).rev()] *)
Fixpoint shuffle {A} (index : nat) (l : list A) : AM (list A) :=
  match index with
  | O => ret l
  | S i =>
      let* swap_index := random_range (Z.of_nat index + 1) in
      shuffle i (swap index (Z.to_nat swap_index) l)
  end.

Definition generate_temporary_password : AM string :=
  let* characters := draws
    ([GENERATED_PASSWORD_UPPERCASE; GENERATED_PASSWORD_LOWERCASE; GENERATED_PASSWORD_DIGITS;
      GENERATED_PASSWORD_SYMBOLS]
     ++ List.repeat GENERATED_PASSWORD_CHARSET (GENERATED_PASSWORD_LENGTH - 4)) in
  let* shuffled := shuffle (length characters - 1) characters in
  ret (of_bytes shuffled).

(** *** What an administrator sees *)

Definition lookup_id {A} (id : Z) (l : list (Z * A)) : option A :=
  option_map snd (find_row (fun e => fst e =? id) l).

Definition hydrate_users (us : list user) : AM (list AdminUserInfo) :=
  let ids := List.map user_pk us in
  let* profile_counts := count_profiles_by_user_ids ids in
  let* session_counts := count_active_sessions_by_user_ids ids in
  let* scopes := OperatorScopeRepo.list_for_user_ids ids in
  let* infos := get_profile_info_map us AdminUser in
  ret (List.map (fun u =>
    mkAdminUser (user_pk u) (username u) (email u) (pending_email u) (role u)
      (if eqb (role u) Operator then default [] (lookup_id (user_pk u) scopes) else [])
      (user_status u) (must_change_password u) (session_version u)
      (default 0 (lookup_id (user_pk u) profile_counts))
      (default 0 (lookup_id (user_pk u) session_counts))
      (default default_user_profile_info (lookup_id (user_pk u) infos)) (email_verified_at u)
      (user_created_at u) (user_updated_at u)) us).

(** The one item of a hydrated list of one. *)
Definition hydrate_one (what : string) (u : user) : AM AdminUserInfo :=
  let* infos := hydrate_users [u] in
  lift (ok_or (AsterError.InternalError (what +:+ " hydration returned no item")) (head infos)).

Definition list_users (limit : Z) (filters : AdminUserListFilters)
  (cursor : option (DateTimeUtc * Z)) : AM (CursorPage AdminUserInfo (DateTimeUtc * Z)) :=
  let* page := list_admin_cursor filters limit cursor in
  let next :=
    if has_more page then option_map (fun u => (user_created_at u, user_pk u)) (last (items page))
    else None in
  let* infos := hydrate_users (items page) in
  ret (mkPage infos (total page) (SessionRepo.clamp limit 1 100) next).

Definition get_user (id : Z) : AM AdminUserInfo :=
  let* user := UserRepo.find_by_id id in
  hydrate_one "admin user" user.

(** *** Creating and editing *)

Definition validate_identity_input (name address password : string)
  : outcome AsterError.t string :=
  and_then (validate_username name) (fun _ =>
  and_then (validate_reserved_username name) (fun _ =>
  and_then (lift_email (normalize_email address)) (fun address =>
  and_then (validate_password password) (fun _ => Ok address)))).

Definition explicit_password (password : option string) : option string :=
  match option_map trim password with
  | Some p => if is_empty p then None else Some p
  | None => None
  end.

Definition create_in_txn (input : AdminCreateUserInput) (address hash : string) (role : UserRole)
  (scopes : list OperatorScope) (must_change : bool) : AM user :=
  do* ensure_username_available (trim (ac_username input)) None in
  let* user := Users.create_with_options (trim (ac_username input)) address hash role
                 (ac_status input) must_change in
  do* (if eqb role Operator then OperatorScopeRepo.replace_for_user (user_pk user) scopes
       else ret tt) in
  ret user.

Definition create_user (input : AdminCreateUserInput) : AM CreateAdminUserOutput :=
  let* generated :=
    match explicit_password (ac_password input) with
    | Some _ => ret None
    | None => let* p := generate_temporary_password in ret (Some p)
    end in
  let* password := lift (ok_or
    (AsterError.InternalError "temporary password generation failed")
    (match generated with Some p => Some p | None => explicit_password (ac_password input) end)) in
  let* address := lift (validate_identity_input (ac_username input) (ac_email input) password) in
  let* hash := hash_password password in
  let must_change := is_some generated || default false (ac_must_change_password input) in
  let (role, scopes) := normalize_role_and_scopes (ac_role input) (ac_operator_scopes input) in
  let* user := with_transaction (create_in_txn input address hash role scopes must_change) in
  let* info := hydrate_one "created admin user" user in
  ret (mkCreateOutput info generated).

(** [value.map(|v| f(v)).transpose()?] *)
Definition checked {A B} (value : option A) (f : A -> AM B) : AM (option B) :=
  match value with
  | None => ret None
  | Some a => let* b := f a in ret (Some b)
  end.

Definition checked_username (name : string) : AM string :=
  do* lift (validate_username name) in
  do* lift (validate_reserved_username name) in
  ret (trim name).

Definition checked_password (password : string) : AM string :=
  do* lift (validate_password password) in
  hash_password password.

Definition update_in_txn (id : Z) (change : AdminUserChange)
  (scopes : option (list OperatorScope)) : AM user :=
  do* match uc_username change with
      | Some name => ensure_username_available name (Some id)
      | None => ret tt
      end in
  let* user := update_admin id change in
  do* match scopes with
      | Some scopes => OperatorScopeRepo.replace_for_user id scopes
      | None => ret tt
      end in
  ret user.

Definition update_user (id : Z) (input : AdminUpdateUserInput) : AM AdminUserInfo :=
  let* existing := UserRepo.find_by_id id in
  do* when_ok ((id =? SUPER_ADMIN_USER_ID) && changes_super existing input) cannot_change_super in
  let* existing_scopes := list_operator_scopes_for_user id in
  let (role, scopes) :=
    normalize_update_role_and_scopes (role existing) (ad_role input) (ad_operator_scopes input)
      existing_scopes in
  let* name := checked (ad_username input) checked_username in
  let* address := checked (ad_email input) (fun v => lift (lift_email (normalize_email v))) in
  let* hash := checked (ad_password input) checked_password in
  let bump := is_some hash || eqb (ad_status input) (Some Types.Disabled)
              || is_some (ad_must_change_password input) in
  let change := mkUserChange name address hash (Some role) (ad_status input)
                  (ad_must_change_password input) bump in
  let* user := with_transaction (update_in_txn id change scopes) in
  hydrate_one "updated admin user" user.

Definition revoke_user_sessions (user_id : Z) : AM Z :=
  let* _ := UserRepo.find_by_id user_id in
  do* Users.bump_session_version user_id in
  Users.revoke_sessions_for_user user_id.

(** *** Deleting *)

(** The profiles one by one; the sums of what went with them. *)
Fixpoint delete_profiles (user_id : Z) (l : list minecraft_profile) (textures tokens : Z)
  : AM (Z * Z) :=
  match l with
  | [] => ret (textures, tokens)
  | p :: l =>
      let* result := delete_profile_for_user user_id (uuid p) in
      match result with
      | Some r =>
          delete_profiles user_id l (textures + Z.of_nat (dp_deleted_texture_count r))
            (tokens + dp_revoked_token_count r)
      | None => delete_profiles user_id l textures tokens
      end
  end.

Definition delete_user (user_id : Z) : AM DeleteAdminUserOutput :=
  do* when_ok (user_id =? SUPER_ADMIN_USER_ID) cannot_delete_super in
  let* user := get_user user_id in
  let* profile_count := lift (utils (u64_to_usize (ui_profile_count user) "deleted profile count")) in
  do* delete_uploaded_avatar_for_user user_id in
  let* profiles := ProfileRepo.list_by_user user_id in
  let* (textures, profile_tokens) := delete_profiles user_id profiles 0 0 in
  let* wardrobe := map_err (fun error => AsterError.InternalError (TextureErrors.protocol_message error))
                     (delete_all_wardrobe_textures_for_user user_id) in
  let* sessions := Users.revoke_sessions_for_user user_id in
  let* token_hashes := invalidate_token_cache_for_user user_id in
  let* tokens := TokenRepo.revoke_all_for_user user_id in
  do* TokenCache.invalidate_tokens token_hashes in
  let* _ := delete_by_id user_id in
  ret (mkDeleteOutput user profile_count textures (Z.of_nat (length wardrobe)) sessions
         (profile_tokens + tokens)).
End Service.
