(* ===== verification/ExternalProofs.v ===== *)
(** * External sign-in: names and accounts

    Every name made up for an external account is a valid user name; and what
    the blocks of the sign-in do to the tables: the account of a set of
    claims, the identity it is signed in by, and what a failure leaves. *)

From Stdlib Require Import ZArith List Bool Lia Ascii.
From stdpp Require Import base decidable list strings pretty relations.
From S2P Require Import Prelude Text Errors Types AuditLog World Logic Repos Bans Tokens Auth Concrete BanProofs ForwardTextures ProfileTextures AuthConfig Accounts WebSessions AccountFlows AccountSpec AccountOps AccountProofs AccountSignIn AccountRegistration Tracks ObjectStorage TextureRepo TextureProcessing TextureService TextureWardrobe TextureInvariant Profiles ProfileProofs ExternalAuth ExternalResolution ExternalLogin.

Local Open Scope nat_scope.

(** ** Names *)

Definition name_bytes (s : string) : Prop := forall b, In b (bytes s) -> username_char b = true.

Lemma name_bytes_app s t : name_bytes s -> name_bytes t -> name_bytes (s +:+ t).
Proof. intros Hs Ht b. rewrite bytes_app. intros [H|H]%in_app_or; auto. Qed.

Lemma name_bytes_prefix n s : name_bytes s -> name_bytes (byte_prefix n s).
Proof. intros H b Hb%in_byte_prefix_bytes. auto. Qed.

Lemma name_bytes_trim a s : name_bytes s -> name_bytes (trim_matches a s).
Proof. intros H b Hb%in_trim_matches. auto. Qed.

Lemma name_bytes_literal s : forallb username_char (bytes s) = true -> name_bytes s.
Proof. by rewrite forallb_forall. Qed.

Lemma str_len_app s t : str_len (s +:+ t) = str_len s + str_len t.
Proof. unfold str_len. by rewrite <- !length_bytes, bytes_app, length_app. Qed.

Lemma str_len_prefix n s : n <= str_len s -> str_len (byte_prefix n s) = n.
Proof. apply length_byte_prefix. Qed.

Lemma str_len_of_bytes l : str_len (of_bytes l) = length l.
Proof. unfold str_len. by rewrite <- length_bytes, bytes_of_bytes. Qed.

Lemma username_char_lower a : username_char a = true -> username_char (ascii_to_lower a) = true.
Proof. by destruct a as [[] [] [] [] [] [] [] []]. Qed.

Lemma username_char_space a : username_char a = true -> is_continuation a = false.
Proof. by destruct a as [[] [] [] [] [] [] [] []]. Qed.

Lemma sanitized_piece value : name_bytes (sanitize_username_piece value).
Proof.
  apply name_bytes_trim. intros b. rewrite bytes_of_bytes.
  intros (a & _ & Ha)%list_elem_of_In%list_elem_of_omap. unfold sanitize_username_byte in Ha.
  destruct (username_char a) eqn:E; [injection Ha as <-; by apply username_char_lower|].
  destruct (mem a _); [by injection Ha as <-|done].
Qed.

(** What [validate_username] asks for; nothing is left to trim. *)
Definition user_name (s : string) : Prop := 4 <= str_len s <= 16 /\ name_bytes s.

Lemma username_char_ws a :
  username_char a = true ->
  is_ws1 (code a) = false /\ (forall x, is_ws2 (code a) x = false) /\
  forall x y, is_ws3 (code a) x y = false.
Proof. destruct a as [[] [] [] [] [] [] [] []]; intros H; try discriminate H; split_and!; done. Qed.

Lemma no_whitespace_name l :
  (forall b, In b l -> username_char b = true) -> has_whitespace l = false.
Proof.
  induction l as [|b l IH]; intros H; [done|]. cbn [has_whitespace].
  rewrite IH by (intros c Hc; apply H; by right).
  destruct (username_char_ws b) as (H1 & H2 & H3); [apply H; by left|].
  unfold starts_with_whitespace. rewrite H1. destruct l as [|c [|d l]]; cbn [orb]; [done|..];
    rewrite H2; [done|]. by rewrite H3.
Qed.

Lemma user_name_valid s : user_name s -> validate_username s = Ok tt.
Proof.
  intros [[H4 H16] Hb]. unfold validate_username.
  rewrite trim_no_whitespace by (by apply no_whitespace_name).
  destruct (Nat.ltb_spec (str_len s) 4); [lia|]. destruct (Nat.ltb_spec 16 (str_len s)); [lia|].
  by rewrite (proj2 (forallb_forall _ _) Hb).
Qed.

Section Names.
Context `{FC : ForgeCrypto} `{SL : !Sha256Laws FC}.

Lemma long_enough_some value s : long_enough value = Some s -> s = value /\ 4 <= str_len s.
Proof. unfold long_enough, USERNAME_MIN_LEN. destruct (Nat.leb_spec 4 (str_len value)); [|done]. by intros [= <-]. Qed.

Lemma sha256_prefix_name s :
  str_len (byte_prefix 8 (sha256_hex s)) = 8 /\ name_bytes (byte_prefix 8 (sha256_hex s)).
Proof.
  destruct (valid_hash_parts _ (sha256_hex_valid s)) as [Hl Hh]. split.
  - apply str_len_prefix. lia.
  - apply name_bytes_prefix. intros b Hb%Hh. by destruct b as [[] [] [] [] [] [] [] []].
Qed.

Lemma padded_name base : str_len base <= 16 -> name_bytes base -> user_name (pad_username base).
Proof.
  intros Hl Hb. unfold pad_username, USERNAME_MIN_LEN. split.
  - rewrite str_len_app, str_len_of_bytes, repeat_length. lia.
  - apply name_bytes_app; [done|]. intros b. rewrite bytes_of_bytes. by intros ->%repeat_spec.
Qed.

Lemma username_base_name claims : user_name (external_auth_username_base claims).
Proof.
  unfold external_auth_username_base. cbv zeta.
  set (base := match _ with Some base => base | None => _ end).
  assert (name_bytes base) as Hb.
  { subst base. destruct (ep_preferred_username claims ≫= _) as [b|] eqn:E1.
    - apply bind_Some in E1 as (v & _ & E1). apply long_enough_some in E1 as [-> _].
      apply sanitized_piece.
    - destruct ((ep_email claims ≫= _) ≫= _) as [b|] eqn:E2.
      + apply bind_Some in E2 as (v & _ & E2). apply long_enough_some in E2 as [-> _].
        apply sanitized_piece.
      + apply name_bytes_app; [by apply name_bytes_literal|]. apply sha256_prefix_name. }
  clearbody base. unfold USERNAME_MAX_LEN.
  destruct (Nat.ltb_spec 16 (str_len base)); apply padded_name; [|by apply name_bytes_trim, name_bytes_prefix|lia|done].
  etrans; [apply length_trim_matches|]. rewrite str_len_prefix; lia.
Qed.

Lemma suffixed_user_name base suffix :
  user_name base -> str_len suffix = 6 -> name_bytes suffix ->
  user_name (suffixed_username base suffix).
Proof.
  intros [Hl Hb] Hs Hsb. unfold suffixed_username. rewrite Hs. cbv zeta.
  change (USERNAME_MAX_LEN - (6 + 1)) with 9.
  set (stem := if 9 <? str_len base then _ else base).
  assert (str_len stem <= 9 /\ name_bytes stem) as [H9 Hstem].
  { subst stem. destruct (Nat.ltb_spec 9 (str_len base)); [|done]. split.
    - etrans; [apply length_trim_matches|]. rewrite str_len_prefix; lia.
    - by apply name_bytes_trim, name_bytes_prefix. }
  clearbody stem. set (s := if str_len stem <? USERNAME_MIN_LEN then _ else stem).
  assert (4 <= str_len s <= 9 /\ name_bytes s) as [H4 Hsn].
  { subst s. unfold USERNAME_MIN_LEN. destruct (Nat.ltb_spec (str_len stem) 4); [|done].
    split; [cbn; lia|by apply name_bytes_literal]. }
  split.
  - rewrite !str_len_app, Hs. cbn. lia.
  - apply name_bytes_app; [done|]. apply name_bytes_app; [by apply name_bytes_literal|done].
Qed.

Lemma linuxdo_name claims name :
  linuxdo_subject_username_candidate claims = Some name -> user_name name.
Proof.
  unfold linuxdo_subject_username_candidate. destruct (is_empty _); [done|].
  change (USERNAME_MAX_LEN - str_len LINUXDO_USERNAME_PREFIX) with 8. cbv zeta.
  set (subject := if 8 <? _ then _ else _).
  assert (name_bytes subject) as Hb.
  { subst subject. destruct (8 <? _); [apply name_bytes_prefix|]; apply sanitized_piece. }
  clearbody subject. unfold USERNAME_MIN_LEN, USERNAME_MAX_LEN.
  destruct (Nat.leb_spec 4 (str_len (LINUXDO_USERNAME_PREFIX +:+ subject))); [|done].
  destruct (Nat.leb_spec (str_len (LINUXDO_USERNAME_PREFIX +:+ subject)) 16); [|done].
  intros [= <-]. split; [lia|]. apply name_bytes_app; [by apply name_bytes_literal|done].
Qed.

Lemma username_stem_name p claims base :
  user_name base -> user_name (username_stem p claims base).
Proof.
  intros H. unfold username_stem. destruct (negb _); [done|].
  destruct (linuxdo_subject_username_candidate claims) eqn:E; [by eapply linuxdo_name|done].
Qed.
End Names.

Section Candidates.
Context `{EN : Env} `{CB : CacheBackend} `{FC : ForgeCrypto} `{SL : !Sha256Laws FC}.

(** A suffix is drawn from the lower-case letters and the digits. *)
Lemma random_suffix_run n w :
  exists s w', random_suffix n w = (Ok s, w') /\ same w w' /\ str_len s = n /\ name_bytes s.
Proof.
  revert w. induction n as [|n IH]; intros w; cbn [random_suffix].
  - exists EmptyString, w. split_and!; [done|done|done|by intros b []].
  - unfold bind, random_range. set (i := random_draw _ _).
    destruct (IH (tick w)) as (s & w' & -> & Hs & Hl & Hb). eexists _, w'.
    split_and!; [done|by eapply same_trans; [apply same_tick|]|by cbn; f_equal|].
    intros b [<-|Hin]; [|by apply Hb].
    destruct (nth_in_or_default (Z.to_nat i) UNIQUE_USERNAME_SUFFIX_CHARSET "a"%char) as [H| ->];
      [|done].
    assert (forallb username_char UNIQUE_USERNAME_SUFFIX_CHARSET = true) as Hc by done.
    rewrite forallb_forall in Hc. by apply Hc.
Qed.

(** A candidate is always found, moves nothing, and is a valid name. *)
Lemma candidate_run p claims attempt w :
  exists name w',
    external_auth_username_candidate_for_provider p claims (external_auth_username_base claims)
      attempt w = (Ok name, w') /\
    same w w' /\ user_name name.
Proof.
  pose proof (username_stem_name p claims _ (username_base_name claims)) as Hstem.
  unfold external_auth_username_candidate_for_provider, external_auth_username_candidate.
  destruct attempt as [|attempt]; [by eexists _, w|].
  unfold bind, random_username_suffix.
  destruct (random_suffix_run UNIQUE_USERNAME_SUFFIX_LEN w) as (s & w' & -> & Hs & Hl & Hb).
  exists (suffixed_username (username_stem p claims (external_auth_username_base claims)) s), w'.
  split_and!; [done|done|by apply suffixed_user_name].
Qed.
End Candidates.

(** One row matches when only one key can. *)
Lemma count_where_one {A} (g : A -> Z) (p : A -> bool) l x :
  List.NoDup (List.map g l) -> In x l -> p x = true -> (forall y, p y = true -> g y = g x) ->
  count_where p l = 1%nat.
Proof.
  intros Hd Hin Hp Hg. unfold count_where, rows_where. induction l as [|y l IH]; [done|].
  cbn in Hd |- *. apply List.NoDup_cons_iff in Hd as [Hy Hd]. destruct Hin as [->|Hin].
  - rewrite Hp. cbn. f_equal. change (length (rows_where p l) = 0%nat).
    rewrite rows_where_none; [done|]. intros z Hz. destruct (p z) eqn:E; [|done].
    exfalso. apply Hy. rewrite <- (Hg z E). by apply in_map.
  - destruct (p y) eqn:E; [|by apply IH]. exfalso. apply Hy. rewrite (Hg y E). by apply in_map.
Qed.

(** ** The statements on identities and flows *)

Local Open Scope Z_scope.
Local Open Scope aster_scope.

Section Statements.
Context `{EN : Env} `{CB : CacheBackend} `{FA : ForgeApi}.

#[global] Instance reads_identity_of_claims claims : Reads (identity_of_claims claims).
Proof. unfold identity_of_claims, IdentityRepo.find_by_identity_namespace_subject. apply _. Qed.

#[global] Instance reads_provider_by_id id : Reads (ProviderRepo.find_by_id id).
Proof. unfold ProviderRepo.find_by_id. apply _. Qed.

#[global] Instance reads_enabled_provider id : Reads (enabled_provider id).
Proof. unfold enabled_provider. apply _. Qed.

Abbreviation identities d := (rows (IdentityRepo.identities d)).

(** The identity [i] is of the namespace and subject of the claims. *)
Definition identifies (i : external_auth_identity) (claims : ExternalAuthUserClaims) : Prop :=
  identity_namespace i = ep_identity_namespace claims /\ identity_subject i = ep_subject claims.

Lemma identity_of_claims_ok claims w o w' :
  identity_of_claims claims w = (Ok o, w') ->
  same w w' /\
  match o with
  | Some i => In i (identities (db w)) /\ identifies i claims
  | None => forall i, In i (identities (db w)) -> ~ identifies i claims
  end.
Proof.
  intros H. assert (Hs : same w w') by (by eapply reads_run; [|exact H]; apply _).
  split; [done|]. unfold identity_of_claims, IdentityRepo.find_by_identity_namespace_subject,
    IdentityRepo.find_identity in H. apply db_query_ok in H as (-> & _ & _).
  destruct (find_row _ _) as [i|] eqn:E.
  - apply find_row_some in E as [Hin [Hn Hj]%andb_true_iff]. rewrite eqb_true in Hn, Hj. done.
  - intros i Hi [Hn Hj]. apply find_row_is_none with (x := i) in E; [|done].
    by rewrite Hn, Hj, !eqb_refl in E.
Qed.

Lemma provider_by_id_ok id w p w' :
  ProviderRepo.find_by_id id w = (Ok p, w') ->
  same w w' /\ In p (rows (external_providers (external (db w)))) /\ provider_pk p = id.
Proof.
  intros H. assert (Hs : same w w') by (by eapply reads_run; [|exact H]; apply _).
  split; [done|]. unfold ProviderRepo.find_by_id in H. inv_ok H. apply ok_or_ok in Hr0.
  apply find_row_some in Hr0 as [Hin Hpk%Z.eqb_eq]. done.
Qed.

Lemma enabled_provider_ok id w p w' :
  enabled_provider id w = (Ok p, w') ->
  same w w' /\ In p (rows (external_providers (external (db w)))) /\ provider_pk p = id /\
  provider_enabled p = true.
Proof.
  unfold enabled_provider. intros H. apply bind_ok in H as (q & w1 & Hq & H).
  apply provider_by_id_ok in Hq as (Hs & Hin & Hpk). inv_ok H.
  by apply negb_false_iff in Hr.
Qed.

(** An insertion with references appends one row. *)
Lemma insert_referring_ok {A} references (get : Db -> Table A) set conflict mk w r w' :
  insert_referring references get set conflict mk w = (Ok r, w') ->
  references (db w) = true /\ r = mk (next_pk (get (db w))) /\
  (forall x, In x (rows (get (db w))) -> conflict r x = false) /\
  db w' = set (mkTable (rows (get (db w)) ++ [r]) (next_pk (get (db w)) + 1)) (db w).
Proof.
  unfold insert_referring, db_exec, insert_row. destruct (db_fault (step w)); [done|].
  destruct (references (db w)) eqn:Hr; [|done]. cbn. destruct (existsb _ _) eqn:Ex; [done|].
  intros [= <- <-]. split_and!; [done|done| |done]. intros x Hx. by eapply existsb_false.
Qed.

#[global] Instance aon_insert_referring {A} references (get : Db -> Table A) set conflict mk :
  AllOrNothing (insert_referring references get set conflict mk).
Proof.
  intros w r w'. unfold insert_referring, db_exec. destruct (db_fault _); [by intros [= <- <-]|].
  destruct (negb _); [by intros [= <- <-]|]. destruct (insert_row _ _ _) as [[x t]|]; by intros [= <- <-].
Qed.

(** The identity a new link is recorded by. *)
Definition linked_identity (pk user_id : Z) (p : external_auth_provider)
  (claims : ExternalAuthUserClaims) (metadata : option string) (now : DateTimeUtc)
  : external_auth_identity :=
  mkIdentity pk user_id (provider_pk p) (ep_identity_namespace claims) (ep_subject claims)
    (ep_email claims) (ep_display_name claims) metadata now now (Some now).

(** The tables [d] with one more identity, of a user and provider that had none. *)
Definition identity_added (user_id : Z) (p : external_auth_provider)
  (claims : ExternalAuthUserClaims) (metadata : option string) (now : DateTimeUtc) (d d' : Db)
  : Prop :=
  let t := IdentityRepo.identities d in
  let i := linked_identity (next_pk t) user_id p claims metadata now in
  (exists u, In u (rows (users d)) /\ user_pk u = user_id) /\
  (forall j, In j (rows t) -> IdentityRepo.conflict i j = false) /\
  d' = set_external_identities (mkTable (rows t ++ [i]) (next_pk t + 1)) d.

Lemma create_identity_ok user_id p claims now metadata w i w' :
  create_identity_for_claims user_id p claims now metadata w = (Ok i, w') ->
  identity_added user_id p claims metadata now (db w) (db w').
Proof.
  unfold create_identity_for_claims, IdentityRepo.create_identity.
  intros (Hr & -> & Hc & Hd)%insert_referring_ok. cbn in Hr, Hc, Hd.
  apply andb_true_iff in Hr as [(u & Hu & Hpk%Z.eqb_eq)%existsb_exists _].
  split_and!; [by exists u|done|done].
Qed.

(** The account of an identity: touched, and active. *)
Lemma sign_in_identity_ok i claims metadata now w r w' :
  sign_in_identity i claims metadata now w = (Ok r, w') ->
  exists u,
    r = mkResolved u false false /\ In u (rows (users (db w))) /\
    user_pk u = identity_user_id i /\ user_status u = UserActive /\
    db w' = set_external_identities
      (with_rows (update_where (fun j => identity_pk j =? identity_pk i)
                    (IdentityRepo.touched (ep_email claims) (ep_display_name claims) metadata now)
                    (identities (db w))) (IdentityRepo.identities (db w))) (db w).
Proof.
  unfold sign_in_identity, touch_for_claims, IdentityRepo.touch_login. intros H.
  apply bind_ok in H as (b & w1 & Ht & H). apply bind_ok in Ht as (n & w2 & Ht & Hb).
  injection Hb as <- <-. apply update_many_ok in Ht as [_ ->].
  apply bind_ok in H as (u & w3 & Hu & H). apply find_by_id_ok in Hu as (Hin & Hpk & Hs).
  inv_ok H. apply negb_false_iff, active_user in Hr. exists u. split_and!; try done.
  by rewrite (same_db _ _ Hs).
Qed.
End Statements.

(** ** An explicit transaction *)

Section Txn.
Context `{EN : Env} `{CB : CacheBackend} `{TM : !TxnManager} `{TL : !TxnLaws TM}.

(** Either the body's effects, or the tables as they were. *)
Lemma txn_result_run {A} (body : M AsterError.t A) w r w' :
  txn_result body w = (r, w') ->
  match r with
  | Ok (inl a) => exists w0 w1, same w w0 /\ body w0 = (Ok a, w1) /\ same w1 w'
  | _ => db w' = db w
  end.
Proof.
  unfold txn_result, bind. destruct (begin w) as [[t|e|m] w0] eqn:Eb;
    apply begin_spec in Eb as [Hs Ht]; [|injection 1 as <- <-; by apply same_db|done].
  destruct (body w0) as [[a|e|m] w1] eqn:Ebody.
  - unfold bind. destruct (commit t w1) as [[[]|e|m] w2] eqn:Ec; apply commit_spec in Ec;
      injection 1 as <- <-; [by exists w0, w1| |done].
    apply same_db in Ec. by rewrite Ec.
  - injection 1 as <- <-. pose proof (same_db _ _ (drop_spec t w1)) as Hd. by rewrite Hd.
  - injection 1 as <- <-. pose proof (same_db _ _ (drop_spec t w1)) as Hd. by rewrite Hd.
Qed.

Lemma txn_result_failed {A} (body : M AsterError.t A) w e w' :
  txn_result body w = (Ok (inr e), w') -> exists w0 w1, body w0 = (Err e, w1).
Proof.
  unfold txn_result, bind. destruct (begin w) as [[t|e'|m] w0]; [|done..].
  destruct (body w0) as [[a|e'|m] w1] eqn:Eb; [|intros [= -> _]; by exists w0, w1|done].
  unfold bind. by destruct (commit t w1) as [[[]|?|?] ?].
Qed.

#[global] Instance tracks_txn_result (R : relation Db) `{!PreOrder R} {A} (body : M AsterError.t A) :
  Tracks R body -> Tracks R (txn_result body).
Proof.
  intros Hb w. destruct (txn_result body w) as [r w'] eqn:E. apply txn_result_run in E. cbn.
  destruct r as [[a|e]|e|m]; [|by rewrite E..].
  destruct E as (w0 & w1 & S0 & Hrun & S1).
  assert (R (db w0) (db w1)) as H by (eapply tracks_run; [exact Hb|exact Hrun]).
  by rewrite (same_db _ _ S1), <- (same_db _ _ S0).
Qed.

(** With [let .. = lift (or_fail result)] next the whole is all or nothing. *)
Lemma aon_txn_result {A B} (body : M AsterError.t A) (f : A -> B) :
  AllOrNothing (let* result := txn_result body in
                let* a := lift (or_fail result) in ret (f a)).
Proof.
  intros w r w' H Hf. unfold bind in H. destruct (txn_result body w) as [o w1] eqn:E.
  apply txn_result_run in E. destruct o as [[a|e]|e|m]; cbn in H; injection H as <- <-; done.
Qed.
End Txn.

(** ** New accounts *)

Section Accounts.
Context `{EN : Env} `{CB : CacheBackend} `{TM : !TxnManager} `{TL : !TxnLaws TM}.
Context `{FC : ForgeCrypto} `{SL : !Sha256Laws FC} `{FA : ForgeApi} `{AE : !AccountExterns}.
Context `{AL : !AccountExternLaws AE}.
Context `{CF : ForgeConfig} `{ST : ConfigStore} `{FE : ForgeEmail} `{FX : ForgeExternalAuth}.
Context `{ER : ExternalRandom}.

Lemma aon_user_insert mk : AllOrNothing (Users.insert mk).
Proof.
  intros w r w'. unfold Users.insert, db_insert, db_exec. destruct (db_fault _); [by intros [= <- <-]|].
  destruct (insert_row _ _ _) as [[u t]|]; by intros [= <- <-].
Qed.

#[global] Instance aon_create_user_with_role input : AllOrNothing (create_user_with_role input).
Proof.
  unfold create_user_with_role. repeat (apply aon_bind_reads; [apply _|intros ?]). apply aon_user_insert.
Qed.

(** One candidate after the other: the last attempt is the one that counts,
    when the attempts before it left the tables alone. *)
Lemma username_attempts_ok {A} p claims attempts (try_name : string -> string -> M AsterError.t (A + AsterError.t)) w a w' :
  (forall name password w e w', try_name name password w = (Ok (inr e), w') -> db w' = db w) ->
  username_attempts p claims (external_auth_username_base claims) attempts try_name w = (Ok a, w') ->
  exists name password w1,
    user_name name /\ db w1 = db w /\ try_name name password w1 = (Ok (inl a), w').
Proof.
  intros Hfail. revert w. induction attempts as [|n attempts IH]; intros w H; cbn [username_attempts] in H;
    [done|].
  apply bind_ok in H as (name & w1 & Hn & H).
  destruct (candidate_run p claims n w) as (name' & w1' & Hn' & Hs & Hname).
  rewrite Hn' in Hn. injection Hn as -> ->. apply same_db in Hs.
  apply bind_ok in H as (password & w2 & Hp & H). injection Hp as Hp <-.
  apply bind_ok in H as (result & w3 & Ht & H). destruct result as [b|e].
  - injection H as -> <-. exists name, password, (tick w1). done.
  - apply Hfail in Ht. destruct (external_auth_username_conflict e); [|done].
    apply IH in H as (nm & pw & w4 & Hnm & Hd & Hrun). exists nm, pw, w4. split_and!; [done| |done].
    by rewrite Hd, Ht.
Qed.

(** The address of a new account: in normal form, and nobody's. *)
Definition new_address (raw stored : option string) (l : list user) : Prop :=
  match raw with
  | Some a => exists e, normalize_email a = Ok e /\ stored = Some e /\ address_free e l
  | None => stored = None
  end.

(** The tables [d] with a new account and its identity. *)
Record provisioned (p : external_auth_provider) (claims : ExternalAuthUserClaims)
  (address : option string) (verified_at : option DateTimeUtc) (metadata : option string)
  (now : DateTimeUtc) (u : user) (d d' : Db) : Prop := {
  pr_name : user_name (username u) /\ name_free (username u) d;
  pr_reserved : is_linuxdo p = false -> validate_reserved_username (username u) = Ok tt;
  pr_address : new_address address (email u) (rows (users d));
  pr_verified : email_verified_at u = verified_at;
  pr_plain : role u = User /\ user_status u = UserActive /\ must_change_password u = false;
  pr_key : user_pk u = next_pk (users d);
  pr_identity :
    identity_added (user_pk u) p claims metadata now
      (set_users (mkTable (rows (users d) ++ [u]) (next_pk (users d) + 1)) d) d'
}.

(** An account and its identity, made by [create]. *)
Lemma provision_ok p claims address verified_at metadata now name (create : M AsterError.t user) w r w' :
  user_name name ->
  (forall w u w', create w = (Ok u, w') ->
     user_added u w w' /\ username u = name /\ name_free name (db w) /\
     (is_linuxdo p = false -> validate_reserved_username name = Ok tt) /\
     new_address address (email u) (rows (users (db w))) /\ email_verified_at u = verified_at /\
     role u = User /\ user_status u = UserActive /\ must_change_password u = false) ->
  (let* user := create in
   let* _ := create_identity_for_claims (user_pk user) p claims now metadata in
   ret (mkResolved user true true)) w = (Ok r, w') ->
  exists u, r = mkResolved u true true /\
    provisioned p claims address verified_at metadata now u (db w) (db w').
Proof.
  intros Hname Hc H. apply bind_ok in H as (u & w1 & Hu & H).
  apply Hc in Hu as ((Hpk & _ & Hd) & Hn & Hf & Hr & Ha & Hv & Hrole & Hst & Hmc).
  apply bind_ok in H as (i & w2 & Hi & H). injection H as <- <-.
  apply create_identity_ok in Hi. rewrite Hd in Hi.
  exists u. split; [done|]. by split; rewrite ?Hn.
Qed.

Lemma create_with_address p name address password verified_at w u w' :
  create_user_with_role (new_user_input p name address password verified_at) w = (Ok u, w') ->
  user_added u w w' /\ username u = name /\ name_free name (db w) /\
  (is_linuxdo p = false -> validate_reserved_username name = Ok tt) /\
  new_address (Some address) (email u) (rows (users (db w))) /\ email_verified_at u = verified_at /\
  role u = User /\ user_status u = UserActive /\ must_change_password u = false.
Proof.
  intros (_ & Hr & _ & Hf & Ha & e & n & h & uid & now & He & Hfree & _ & ->)%create_user_with_role_effect.
  cbn in *. split_and!; try done. by exists e.
Qed.

Lemma create_without_address p name password w u w' :
  create_user_without_email_with_role name password User UserActive false (is_linuxdo p) w = (Ok u, w') ->
  user_added u w w' /\ username u = name /\ name_free name (db w) /\
  (is_linuxdo p = false -> validate_reserved_username name = Ok tt) /\
  new_address None (email u) (rows (users (db w))) /\ email_verified_at u = None /\
  role u = User /\ user_status u = UserActive /\ must_change_password u = false.
Proof.
  unfold create_user_without_email_with_role. intros H.
  apply bind_ok in H as ([] & w1 & Hv & H). apply lift_ok in Hv as [_ ->].
  apply bind_ok in H as ([] & w1 & Hv & H).
  assert (w1 = w /\ (is_linuxdo p = false -> validate_reserved_username name = Ok tt)) as [-> Hr].
  { destruct (is_linuxdo p); [by injection Hv as <-|]. by apply lift_ok in Hv as [Hv ->]. }
  apply bind_ok in H as ([] & w1 & Hp & H). apply lift_ok in Hp as [_ ->].
  apply bind_ok in H as (? & w1 & Hn & H). apply ensure_username_available_ok in Hn as [H1 Hn].
  apply bind_ok in H as (now & w2 & Hnow & H). injection Hnow as <- <-.
  apply bind_ok in H as (uid & w2 & Hu & H).
  assert (H2 : same (tick w1) w2) by (by eapply reads_run; [|exact Hu]; apply _).
  apply bind_ok in H as (h & w3 & Hh & H). apply hash_password_ok in Hh as [_ ->].
  apply user_insert_ok in H as (-> & Ha & _); [|done].
  split_and!; try done. eapply user_added_same; [|exact Ha].
  eapply same_trans; [exact H1|]. eapply same_trans; [apply same_tick|].
  eapply same_trans; [exact H2|apply same_tick].
Qed.

(** ** Which account a set of claims signs in

    The account [r] of the claims between the tables [d] and [d']: the one
    their identity belongs to, an account the identity is now linked to, or
    a new one. *)
Inductive resolution (may_link : user -> Prop) (may_create : Prop) (p : external_auth_provider)
  (claims : ExternalAuthUserClaims) (address : option string) (metadata : option string)
  (d d' : Db) : ResolvedExternalAuthUser -> Prop :=
| resolution_known i u now :
    In i (rows (IdentityRepo.identities d)) -> identifies i claims ->
    In u (rows (users d)) -> user_pk u = identity_user_id i -> user_status u = UserActive ->
    d' = set_external_identities
      (with_rows (update_where (fun j => identity_pk j =? identity_pk i)
                    (IdentityRepo.touched (ep_email claims) (ep_display_name claims) metadata now)
                    (rows (IdentityRepo.identities d))) (IdentityRepo.identities d)) d ->
    resolution may_link may_create p claims address metadata d d' (mkResolved u false false)
| resolution_linked u now :
    (forall i, In i (rows (IdentityRepo.identities d)) -> ~ identifies i claims) ->
    In u (rows (users d)) -> user_status u = UserActive -> may_link u ->
    identity_added (user_pk u) p claims metadata now d d' ->
    resolution may_link may_create p claims address metadata d d' (mkResolved u true false)
| resolution_new u verified_at now :
    (forall i, In i (rows (IdentityRepo.identities d)) -> ~ identifies i claims) ->
    may_create -> provisioned p claims address verified_at metadata now u d d' ->
    resolution may_link may_create p claims address metadata d d' (mkResolved u true true).

Definition registration_open : Prop := allow_user_registration (auth_policy config_get) = true.

Lemma new_account_ok p claims now metadata options w r w' :
  create_external_auth_user_and_identity p claims now metadata options w = (Ok r, w') ->
  registration_open /\
  (require_email_verified p || auto_link_verified_email_enabled p = true ->
   ep_email_verified claims = true) /\
  exists a u verified_at,
    ep_email claims = Some a /\ r = mkResolved u true true /\
    provisioned p claims (Some a) verified_at metadata now u (db w) (db w').
Proof.
  unfold create_external_auth_user_and_identity. intros H.
  apply bind_ok in H as (? & w1 & Hg & H). apply when_ok_ok in Hg as [Hg%negb_false_iff ->].
  apply bind_ok in H as (a & w1 & Ha & H). apply lift_ok in Ha as [Ha%ok_or_ok ->].
  apply bind_ok in H as (? & w1 & Hv & H). apply when_ok_ok in Hv as [Hv ->].
  apply bind_ok in H as (? & w1 & Hd & H).
  assert (w1 = w) as ->.
  { destruct (enforce_email_domain options); [inv_ok Hd; done|by injection Hd]. }
  split; [done|]. split.
  { intros E. rewrite E in Hv. by apply negb_false_iff in Hv. }
  cbv zeta in H. apply username_attempts_ok in H as (name & password & w1 & Hname & Hd1 & H).
  - apply txn_result_run in H as (w2 & w3 & S1 & H & S2).
    apply bind_ok in H as (o & w4 & Ho & H). apply find_by_email_ok in Ho as [S3 _].
    apply bind_ok in H as (? & w5 & Hn & H). apply when_ok_ok in Hn as [_ ->].
    eapply (provision_ok p claims (Some a)) in H as (u & -> & Hp); [|done|].
    + exists a, u. eexists. split_and!; [done|done|].
      by rewrite (same_db _ _ S3), (same_db _ _ S1), Hd1, <- (same_db _ _ S2) in Hp.
    + intros v u v' Hu. by eapply create_with_address.
  - intros nm pw v e v' Hv'. by apply txn_result_run in Hv'.
Qed.

Lemma new_account_without_email_ok p claims metadata w r w' :
  resolve_external_auth_user_without_email p claims metadata w = (Ok r, w') ->
  registration_open /\
  exists u now, r = mkResolved u true true /\
    provisioned p claims None None metadata now u (db w) (db w').
Proof.
  unfold resolve_external_auth_user_without_email. intros H.
  apply bind_ok in H as (now & w1 & Hnow & H). injection Hnow as <- <-.
  apply bind_ok in H as (? & w1 & Hg & H). apply when_ok_ok in Hg as [Hg%negb_false_iff ->].
  cbv zeta in H. apply username_attempts_ok in H as (name & password & w1 & Hname & Hd1 & H).
  - apply txn_result_run in H as (w2 & w3 & S1 & H & S2).
    eapply (provision_ok p claims None None) in H as (u & -> & Hp); [|done|].
    + split; [done|]. eexists u, _. split; [done|].
      by rewrite (same_db _ _ S1), Hd1, <- (same_db _ _ S2) in Hp.
    + intros v u v' Hu. by eapply create_without_address.
  - intros nm pw v e v' Hv'. by apply txn_result_run in Hv'.
Qed.

Lemma new_account_in_connection_ok p claims now w u w' :
  create_external_auth_user_and_identity_in_connection p claims now w = (Ok u, w') ->
  registration_open /\
  exists a, ep_email claims = Some a /\
    provisioned p claims (Some a) (Some now) None now u (db w) (db w').
Proof.
  unfold create_external_auth_user_and_identity_in_connection. intros H.
  apply bind_ok in H as (? & w1 & Hg & H). apply when_ok_ok in Hg as [Hg%negb_false_iff ->].
  apply bind_ok in H as (a & w1 & Ha & H). apply lift_ok in Ha as [Ha%ok_or_ok ->].
  apply bind_ok in H as (? & w1 & Hd & H). apply lift_ok in Hd as [_ ->].
  apply bind_ok in H as (? & w1 & Hd & H). apply when_ok_ok in Hd as [_ ->].
  apply bind_ok in H as (o & w1 & Ho & H). apply find_by_email_ok in Ho as [S1 _].
  apply bind_ok in H as (? & w2 & Hn & H). apply when_ok_ok in Hn as [_ ->].
  cbv zeta in H. split; [done|]. exists a. split; [done|].
  apply username_attempts_ok in H as (name & password & w2 & Hname & Hd2 & H).
  - assert (exists r, (let* user := create_user_with_role (new_user_input p name a password (Some now)) in
            let* _ := create_identity_for_claims (user_pk user) p claims now None in
            ret (mkResolved user true true)) w2 = (Ok r, w') /\ r = mkResolved u true true)
      as (r & Hr & ->).
    { eexists. split; [|done]. apply bind_ok in H as (c & w3 & Hc & H).
      unfold catch in Hc. destruct (create_user_with_role _ w2) as [[v|e|m] w4] eqn:Ec;
        try discriminate Hc; injection Hc as <- <-; [|done].
      apply bind_ok in H as (i & w5 & Hi & H). injection H as -> <-.
      apply bind_ok. exists u, w4. split; [done|]. apply bind_ok. by exists i, w5. }
    eapply (provision_ok p claims (Some a)) in Hr as (u' & [= <-] & Hp); [|done|].
    + by rewrite Hd2, (same_db _ _ S1) in Hp.
    + intros v u0 v0 Hu. by eapply create_with_address.
  - intros nm pw v e v' Hv. apply bind_ok in Hv as (c & v1 & Hc & Hv). unfold catch in Hc.
    destruct (create_user_with_role _ v) as [[v3|e'|m0] v2] eqn:Ec;
      try discriminate Hc; injection Hc as <- <-.
    + apply bind_ok in Hv as (i & v4 & _ & Hv). done.
    + injection Hv as _ <-. by eapply all_or_nothing in Ec.
Qed.

(** What a provider lets a callback link or create. *)
Definition callback_may_link (p : external_auth_provider) (claims : ExternalAuthUserClaims)
  (u : user) : Prop :=
  auto_link_verified_email_enabled p = true /\ ep_email_verified claims = true /\
  ep_email claims <> None /\ email u = ep_email claims.
Definition callback_may_create (p : external_auth_provider) (claims : ExternalAuthUserClaims)
  : Prop :=
  registration_open /\ auto_provision_enabled p = true /\
  (require_email_verified p || auto_link_verified_email_enabled p = true ->
   ep_email_verified claims = true).

Lemma find_by_email_some a w u w' :
  Users.find_by_email a w = (Ok (Some u), w') ->
  same w w' /\ In u (rows (users (db w))) /\ email u = Some a.
Proof.
  unfold Users.find_by_email. intros H. apply db_query_ok in H as (H & -> & _).
  split; [apply same_tick|]. symmetry in H. apply find_row_some in H as [Hin He].
  by rewrite eqb_true in He.
Qed.

Lemma existing_identity_ok claims now metadata w o w' may_link may_create p address :
  resolve_existing_external_auth_identity claims now metadata w = (Ok o, w') ->
  match o with
  | Some r => resolution may_link may_create p claims address metadata (db w) (db w') r
  | None => same w w' /\ forall i, In i (rows (IdentityRepo.identities (db w))) -> ~ identifies i claims
  end.
Proof.
  unfold resolve_existing_external_auth_identity. intros H.
  apply bind_ok in H as (f & w1 & Hf & H). apply identity_of_claims_ok in Hf as [S1 Hf].
  destruct f as [i|]; [|by injection H as <- <-].
  apply bind_ok in H as (r & w2 & Hr & H). injection H as <- <-.
  apply sign_in_identity_ok in Hr as (u & -> & Hu & Hpk & Hst & Hd).
  rewrite (same_db _ _ S1) in Hu, Hd.
  eapply resolution_known; [apply Hf..|exact Hu|done|done|exact Hd].
Qed.

Lemma auto_link_candidate_ok p claims options w o w' :
  auto_link_candidate p claims options w = (Ok o, w') ->
  same w w' /\ forall u, o = Some u -> In u (rows (users (db w))) /\ callback_may_link p claims u.
Proof.
  unfold auto_link_candidate. intros H.
  destruct (_ && ep_email_verified claims) eqn:Eg; [|by injection H as <- <-].
  destruct (ep_email claims) as [a|] eqn:Ea; [|by injection H as <- <-].
  pose proof H as H'. apply find_by_email_ok in H' as [S _]. split; [done|]. intros u ->.
  apply find_by_email_some in H as (_ & Hin & He). split; [done|].
  apply andb_true_iff in Eg as [[_ Hl]%andb_true_iff Hv]. split_and!; congruence.
Qed.

Lemma resolve_user_ok p claims metadata w o w' :
  resolve_external_auth_user p claims metadata w = (Ok o, w') ->
  match o with
  | Some r => resolution (callback_may_link p claims) (callback_may_create p claims) p claims
                (ep_email claims) metadata (db w) (db w') r
  | None => same w w'
  end.
Proof.
  unfold resolve_external_auth_user, resolve_external_auth_user_with_options. intros H.
  apply bind_ok in H as (now & w1 & Hnow & H). injection Hnow as <- <-.
  apply bind_ok in H as (f & w1 & Hf & H). apply identity_of_claims_ok in Hf as [S1 Hf].
  destruct f as [i|].
  - apply bind_ok in H as (r & w2 & Hr & H). injection H as <- <-.
    apply sign_in_identity_ok in Hr as (u & -> & Hu & Hpk & Hst & Hd).
    rewrite (same_db _ _ S1) in Hu, Hd.
    eapply resolution_known; [apply Hf..|exact Hu|done|done|exact Hd].
  - apply bind_ok in H as (? & w2 & Hg & H). apply lift_ok in Hg as [_ ->].
    apply bind_ok in H as (? & w2 & Hg & H).
    assert (w2 = w1) as -> by (cbn in Hg; destruct (ep_email claims); [inv_ok Hg; done|by injection Hg]).
    apply bind_ok in H as (c & w2 & Hc & H). apply auto_link_candidate_ok in Hc as [S2 Hc].
    assert (Sw : same w w2).
    { eapply same_trans; [apply same_tick|]. by eapply same_trans. }
    destruct c as [u|].
    + apply bind_ok in H as (? & w3 & Hg' & H). apply when_ok_ok in Hg' as [Hst%negb_false_iff%active_user ->].
      apply bind_ok in H as (i & w3 & Hi & H). injection H as <- <-.
      apply create_identity_ok in Hi. destruct (Hc _ eq_refl) as [Hin Hm].
      rewrite (same_db _ _ S1) in Hin. rewrite (same_db _ _ Sw) in Hi.
      eapply resolution_linked; [exact Hf|done..].
    + destruct (auto_provision_enabled p) eqn:Ep;
        [|injection H as <- <-; exact Sw].
      unfold auto_provision in H. destruct (ep_email claims) as [a|] eqn:Ea;
        [|injection H as <- <-; exact Sw].
      destruct (is_empty a); [injection H as <- <-; exact Sw|].
      destruct ((_ || _) && negb _); [injection H as <- <-; exact Sw|].
      destruct (negb _); [injection H as <- <-; exact Sw|].
      apply bind_ok in H as (known & w3 & Hx & H). apply find_by_email_ok in Hx as [S3 _].
      assert (S3' : same w w3) by (by eapply same_trans).
      destruct (is_some known); [injection H as <- <-; exact S3'|].
      apply bind_ok in H as (r & w4 & Hr & H). injection H as <- <-.
      apply new_account_ok in Hr as (Hopen & Hver & b & u & va & Hb & -> & Hp).
      assert (a = b) as -> by congruence. rewrite (same_db _ _ S3') in Hp.
      eapply resolution_new; [exact Hf|done|exact Hp].
Qed.

(** With an address this server verified itself, any account whose own
    address is verified may be linked. *)
Definition verified_may_link (claims : ExternalAuthUserClaims) (u : user) : Prop :=
  email u = ep_email claims /\ is_some (email_verified_at u) = true.

Lemma resolve_verified_ok p claims now w r w' :
  resolve_external_auth_user_with_verified_email p claims now w = (Ok r, w') ->
  ep_email claims <> None /\
  resolution (verified_may_link claims) registration_open p claims (ep_email claims) None
    (db w) (db w') r.
Proof.
  unfold resolve_external_auth_user_with_verified_email. intros H.
  apply bind_ok in H as (a & w1 & Ha & H). apply lift_ok in Ha as [Ha%ok_or_ok ->].
  apply bind_ok in H as (? & w1 & Hd & H). apply lift_ok in Hd as [_ ->].
  apply bind_ok in H as (? & w1 & Hd & H). apply when_ok_ok in Hd as [_ ->].
  apply bind_ok in H as (f & w1 & Hf & H). apply identity_of_claims_ok in Hf as [S1 Hf].
  split; [congruence|]. rewrite Ha. destruct f as [i|].
  - apply sign_in_identity_ok in H as (u & -> & Hu & Hpk & Hst & Hd).
    rewrite (same_db _ _ S1) in Hu, Hd.
    eapply resolution_known; [apply Hf..|exact Hu|done|done|exact Hd].
  - apply bind_ok in H as (known & w2 & Hx & H). destruct known as [u|].
    + apply find_by_email_some in Hx as (S2 & Hin & He).
      apply bind_ok in H as (? & w3 & Hg & H). apply when_ok_ok in Hg as [Hst%negb_false_iff%active_user ->].
      apply bind_ok in H as (? & w3 & Hg & H). apply when_ok_ok in Hg as [Hv ->].
      apply bind_ok in H as (i & w3 & Hi & H). injection H as <- <-.
      apply create_identity_ok in Hi. rewrite (same_db _ _ S2), (same_db _ _ S1) in Hi.
      rewrite (same_db _ _ S1) in Hin.
      eapply resolution_linked; [exact Hf|done|done| |done].
      split; [congruence|]. by destruct (email_verified_at u).
    + apply find_by_email_ok in Hx as [S2 _].
      apply bind_ok in H as (u & w3 & Hu & H). injection H as <- <-.
      apply new_account_in_connection_ok in Hu as (Hopen & b & Hb & Hp).
      assert (a = b) as -> by congruence. rewrite (same_db _ _ S2), (same_db _ _ S1) in Hp.
      eapply resolution_new; [exact Hf|done|exact Hp].
Qed.

(** Whoever is signed in is active, and holds the identity of the claims. *)
Lemma resolution_signed_in may_link may_create p claims address metadata d d' r :
  resolution may_link may_create p claims address metadata d d' r ->
  user_status (resolved_user r) = UserActive /\ In (resolved_user r) (rows (users d')) /\
  exists i, In i (rows (IdentityRepo.identities d')) /\ identifies i claims /\
    identity_user_id i = user_pk (resolved_user r).
Proof.
  intros [i u now Hi Hn Hu Hpk Hst ->|u now Hno Hu Hst Hm (_ & _ & ->)
         |u va now Hno Hm [_ _ _ _ (_ & Hst & _) _ (_ & _ & ->)]]; cbn.
  - split_and!; [done|done|].
    eexists. split; [apply in_update_where; by exists i|]. rewrite Z.eqb_refl. cbn. done.
  - split_and!; [done|done|].
    eexists. split; [apply in_or_app; right; by left|]. by split.
  - split_and!; [done|apply in_or_app; right; by left|].
    eexists. split; [apply in_or_app; right; by left|]. by split.
Qed.
End Accounts.

(** ** Profiles made at a sign-in

    One profile of the user is added, or nothing changes. *)
Definition profile_added (user_id : Z) (d d' : Db) : Prop :=
  d' = d \/
  exists p, profile_user_id p = user_id /\
    d' = set_profiles (mkTable (rows (profiles d) ++ [p]) (next_pk (profiles d) + 1)) d.

Class AddsProfile `{CB : CacheBackend} (user_id : Z) {E A} (c : M E A) : Prop :=
  adds_profile : forall w, profile_added user_id (db w) (db (snd (c w))).

Section Profile.
Context `{EN : Env} `{CB : CacheBackend} `{TM : !TxnManager} `{TL : !TxnLaws TM}.
Context `{FC : ForgeCrypto} `{FA : ForgeApi} `{TS : TextSearch}.
Context `{FN : ForgeNumbers} `{TN : TextureNumbers} `{SE : SkinExterns} `{TX : TextureExterns}.
Context `{RC : RuntimeConfig} `{PP : PreviewPolicy} `{IC : ImageCodec} `{FS : FileSystem}.
Context `{BE : BanExterns} {OS : ObjectStorage} `{PX : ProfileExterns} `{FX : ForgeExternalAuth}.

Lemma adds_nothing u {E A} (c : M E A) : Reads c -> AddsProfile u c.
Proof. intros H w. left. apply (same_db _ _ (H w)). Qed.

Lemma adds_last u {E A B} (c : M E A) (k : A -> M E B) :
  Reads c -> (forall a, AddsProfile u (k a)) -> AddsProfile u (bind c k).
Proof.
  intros Hc Hk w. specialize (Hc w). unfold bind. destruct (c w) as [[a|e|m] w1]; cbn in *.
  - destruct (Hk a w1) as [Hd|(p & Hp & Hd)]; rewrite (same_db _ _ Hc) in Hd;
      [by left|right; by exists p].
  - left. apply (same_db _ _ Hc).
  - left. apply (same_db _ _ Hc).
Qed.

Lemma adds_then_nothing u {E F A B} (c : M E A) (k : A + E -> M F B) :
  AddsProfile u c -> (forall a, Reads (k a)) -> AddsProfile u (bind (catch c) k).
Proof.
  intros Hc Hk w. specialize (Hc w). unfold bind, catch. destruct (c w) as [[a|e|m] w1]; cbn in *.
  - by rewrite (same_db _ _ (Hk (inl a) w1)).
  - by rewrite (same_db _ _ (Hk (inr e) w1)).
  - done.
Qed.

#[local] Instance adds_create_uuid input :
  AddsProfile (cp_user_id input) (create_profile_with_uuid_in_connection_inner input).
Proof.
  unfold create_profile_with_uuid_in_connection_inner.
  repeat (apply adds_last; [apply _|intros ?]).
  intros w. unfold db_insert, db_exec. destruct (db_fault _); [by left|].
  unfold insert_row. destruct (existsb _ _); [by left|]. right.
  eexists. split; [|reflexivity]. reflexivity.
Qed.

#[local] Instance adds_create_inner u role name allow :
  AddsProfile u (create_profile_inner u role name allow).
Proof.
  unfold create_profile_inner. apply adds_last; [apply _|intros uid].
  exact (adds_create_uuid (mkCreateProfile u role uid name SourceLocal allow true)).
Qed.

#[local] Instance adds_external_profile u role name fallback :
  AddsProfile u (create_profile_for_external_auth u role name fallback).
Proof.
  unfold create_profile_for_external_auth. cbv zeta. destruct (external_profile_names _ _) as [|x names];
    [apply adds_nothing, _|]. generalize (last (x :: names)) as lst. generalize (x :: names) as l.
  intros l lst. induction l as [|[nm allow] l IH]; cbn [first_free_name].
  - destruct lst as [[profile_name allow]|]; [|apply adds_nothing, _].
    generalize profile_name at 2 as candidate.
    induction (seqZ 1 99) as [|s l IH]; intros candidate; cbn [suffix_loop]; [apply _|].
    apply adds_last; [apply _|intros taken]. destruct (negb taken); [apply _|apply IH].
  - destruct (validate_reserved_profile_name nm allow); [|apply IH..].
    apply adds_last; [apply _|intros taken]. destruct (negb taken); [apply _|apply IH].
Qed.

#[export] Instance adds_linuxdo_profile p r claims :
  AddsProfile (user_pk (resolved_user r)) (maybe_auto_create_linuxdo_profile p r claims).
Proof.
  unfold maybe_auto_create_linuxdo_profile. destruct (_ || _); [apply adds_nothing, _|].
  destruct (negb _); [apply adds_nothing, _|].
  destruct (ep_preferred_username claims); [|apply adds_nothing, _].
  apply adds_then_nothing; [apply _|intros ?; apply _].
Qed.
End Profile.
