(* ===== verification/ExternalTheorems.v ===== *)
(** * External sign-in: theorems

    Who an external callback signs in, that its state works once, what the
    confirmation of an address and the link by password do, which links an
    account can drop, and where the flows fall short. *)

From Stdlib Require Import ZArith List Bool Lia Ascii.
From stdpp Require Import base decidable list strings pretty relations.
From S2P Require Import Prelude Text Errors Types AuditLog World Logic Repos Bans Tokens Auth Concrete BanProofs ForwardTextures ProfileTextures PropertyProofs AuthConfig Accounts WebSessions AccountFlows AccountSpec AccountOps AccountProofs AccountConcrete AccountSignIn AccountRegistration Tracks ObjectStorage TextureRepo TextureProcessing TextureService TextureWardrobe TextureInvariant Profiles ProfileProofs ProfileTheorems ExternalAuth ExternalResolution ExternalLogin ExternalProofs.

Local Open Scope Z_scope.
Local Open Scope aster_scope.

(** ** The names made up for accounts *)

Section NameTheorems.
Context `{EN : Env} `{CB : CacheBackend} `{FC : ForgeCrypto} `{SL : !Sha256Laws FC}.

(** C34: Every name the sign-in tries for a new external account is a valid
    user name.  Whatever the provider says of the user, each of the attempts
    produces a candidate, drawing random characters at most; the candidate
    has 4 to 16 ASCII letters, digits, underscores and hyphens, so that the
    validation of user names accepts it. *)
Theorem external_usernames_valid p claims attempt w :
  exists name w',
    external_auth_username_candidate_for_provider p claims (external_auth_username_base claims)
      attempt w = (Ok name, w') /\
    same w w' /\ (4 <= str_len name <= 16)%nat /\
    (forall b, In b (bytes name) ->
       is_ascii_alphanumeric b || eqb b "_"%char || eqb b "-"%char = true) /\
    validate_username name = Ok tt.
Proof.
  destruct (candidate_run p claims attempt w) as (name & w' & H & Hs & Hn). destruct (Hn) as [Hl Hb].
  exists name, w'. split_and!; [done..|lia|lia|exact Hb|by apply user_name_valid].
Qed.
End NameTheorems.

(** ** The callback *)

Section Callback.
Context `{EN : Env} `{CB : CacheBackend} `{TM : !TxnManager} `{TL : !TxnLaws TM}.
Context `{FC : ForgeCrypto} `{SL : !Sha256Laws FC} `{FA : ForgeApi} `{FN : ForgeNumbers}.
Context `{TN : TextureNumbers} `{AE : !AccountExterns} `{AL : !AccountExternLaws AE}.
Context `{CS : ChronoSeconds} `{CF : ForgeConfig} `{ST : ConfigStore} `{RC : RuntimeConfig}.
Context `{FE : ForgeEmail} `{TX : TextureExterns} `{SE : SkinExterns} `{TS : TextSearch}.
Context `{PP : PreviewPolicy} `{IC : ImageCodec} `{FS : FileSystem} `{BE : BanExterns}.
Context {OS : ObjectStorage} `{PX : ProfileExterns} `{FX : ForgeExternalAuth}.
Context `{ER : ExternalRandom} `{HT : HttpTransport} `{LJ : LinuxDoJson}.

#[export] Instance reads_build_client context : Reads (build_client context).
Proof. intros w. unfold build_client. destruct (client_error _); apply same_refl. Qed.
#[export] Instance reads_send mk call : Reads (send mk call).
Proof. intros w. apply same_tick. Qed.
#[local] Instance reads_exchange_callback driver config callback :
  Reads (exchange_callback_now driver config callback).
Proof. intros w. apply same_tick. Qed.
#[local] Instance reads_linuxdo_once r retry : Reads retry -> Reads (linuxdo_token_once r retry).
Proof. intros H. unfold linuxdo_token_once. apply _. Qed.
#[local] Instance reads_linuxdo_token r : Reads (request_linuxdo_token r).
Proof. unfold request_linuxdo_token, linuxdo_token_failed. apply _. Qed.
#[local] Instance reads_exchange_claims p flow code : Reads (exchange_claims p flow code).
Proof. unfold exchange_claims, exchange_linuxdo_callback. apply _. Qed.

(** The sign-in a state stands for, while it can be finished. *)
Definition live_login_flow (state : string) (now : DateTimeUtc) (f : external_auth_login_flow)
  (d : Db) : Prop :=
  In f (rows (login_flows (external d))) /\ login_state_hash f = state_hash state /\
  login_flow_consumed_at f = None /\ now < login_flow_expires_at f.

(** Its provider, which the callback's path names and which lets users in. *)
Definition admitting_provider (kind : ProviderKind) (key : option string)
  (f : external_auth_login_flow) (p : external_auth_provider) (d : Db) : Prop :=
  In p (rows (external_providers (external d))) /\ provider_pk p = login_flow_provider_id f /\
  provider_auth_kind p = kind /\ provider_enabled p = true /\
  allow_login (provider_parsed_options p) = true /\
  (forall k, key = Some k -> exists k', normalize_key k = Ok k' /\
     provider_key_matches kind (provider_key p) k' = true).

(** The tables once the flow is used up. *)
Definition login_flow_used (f : external_auth_login_flow) (now : DateTimeUtc) (d : Db) : Db :=
  set_login_flows
    (with_rows (update_where (fun g => (login_flow_pk g =? login_flow_pk f)
                                       && LoginFlowRepo.active now g)
                  (LoginFlowRepo.set_consumed now) (rows (login_flows (external d))))
       (login_flows (external d))) d.

Lemma consume_by_state_hash_ok hash now w f w' :
  LoginFlowRepo.consume_by_state_hash hash now w = (Ok (Some f), w') ->
  In f (rows (login_flows (external (db w)))) /\ login_state_hash f = hash /\
  login_flow_consumed_at f = None /\ now < login_flow_expires_at f /\
  db w' = login_flow_used f now (db w).
Proof.
  unfold LoginFlowRepo.consume_by_state_hash. intros H.
  apply bind_ok in H as (o & w1 & Ho & H). apply db_query_ok in Ho as (Ho & -> & _).
  destruct o as [g|]; [|done]. symmetry in Ho.
  apply bind_ok in H as (n & w2 & Hn & H). apply update_many_ok in Hn as [_ ->].
  injection H as H <-. destruct (update_one n); [|done]. injection H as ->.
  apply find_row_some in Ho as [Hin [Hh Ha]%andb_true_iff]. rewrite eqb_true in Hh.
  unfold LoginFlowRepo.active in Ha. apply andb_true_iff in Ha as [Hc He%Z.ltb_lt].
  split_and!; [done|done|by destruct (login_flow_consumed_at f)|done|done].
Qed.

Lemma consume_login_flow_ok kind key state w f p w' :
  consume_login_flow kind key state w = (Ok (f, p), w') ->
  exists now, live_login_flow state now f (db w) /\ admitting_provider kind key f p (db w) /\
    db w' = login_flow_used f now (db w).
Proof.
  unfold consume_login_flow. intros H.
  apply bind_ok in H as (now & w1 & Hnow & H). injection Hnow as <- <-.
  apply bind_ok in H as (o & w1 & Ho & H).
  apply bind_ok in H as (g & w2 & Hg & H). apply lift_ok in Hg as [Hg%ok_or_ok ->]. subst o.
  apply consume_by_state_hash_ok in Ho as (Hin & Hh & Hc & He & Hd).
  apply bind_ok in H as (q & w2 & Hq & H). apply provider_by_id_ok in Hq as (S2 & Hqin & Hpk).
  apply bind_ok in H as (? & w3 & Hk & H). apply when_ok_ok in Hk as [Hk%negb_false_iff ->].
  apply bind_ok in H as (? & w3 & Hkey & H).
  apply bind_ok in H as (? & w4 & Hen & H). apply when_ok_ok in Hen as [Hen%negb_false_iff ->].
  apply bind_ok in H as (? & w4 & Hal & H). apply when_ok_ok in Hal as [Hal%negb_false_iff ->].
  injection H as -> -> <-. rewrite eqb_true in Hk.
  assert (w3 = w2 /\ forall k, key = Some k -> exists k', normalize_key k = Ok k' /\
            provider_key_matches kind (provider_key p) k' = true) as [-> Hkeys].
  { destruct key as [k|]; [|by injection Hkey as <-].
    apply bind_ok in Hkey as (k' & w4 & Hk' & Hkey). apply lift_ok in Hk' as [Hk' ->].
    apply when_ok_ok in Hkey as [Hm%negb_false_iff ->]. rewrite Hk in Hm. split; [done|].
    intros ? [= <-]. eauto. }
  eexists. split_and!; [by split_and!| |by rewrite (same_db _ _ S2)].
  rewrite Hd in Hqin. by split_and!.
Qed.

(** An account without an address, which only Linux DO users get. *)
Definition may_create (p : external_auth_provider) (claims : ExternalAuthUserClaims) : Prop :=
  if external_auth_claims_missing_email claims
  then registration_open /\ is_linuxdo p = true
  else callback_may_create p claims.
Definition claimed_address (claims : ExternalAuthUserClaims) : option string :=
  if external_auth_claims_missing_email claims then None else ep_email claims.

(** The account of the claims, and the profile of a new Linux DO user. *)
Definition resolved_to (p : external_auth_provider) (claims : ExternalAuthUserClaims)
  (metadata : option string) (d d' : Db) (r : ResolvedExternalAuthUser) : Prop :=
  exists d2,
    resolution (callback_may_link p claims) (may_create p claims) p claims
      (claimed_address claims) metadata d d2 r /\
    profile_added (user_pk (resolved_user r)) d2 d' /\
    (is_linuxdo p && resolved_auto_provisioned r = false -> d' = d2).

Lemma linuxdo_profile_run p r claims w x w' :
  maybe_auto_create_linuxdo_profile p r claims w = (x, w') ->
  profile_added (user_pk (resolved_user r)) (db w) (db w') /\
  (is_linuxdo p && resolved_auto_provisioned r = false -> db w' = db w).
Proof.
  intros H. split; [pose proof (adds_linuxdo_profile p r claims w) as Ha; by rewrite H in Ha|].
  intros E. unfold maybe_auto_create_linuxdo_profile in H.
  destruct (is_linuxdo p), (resolved_auto_provisioned r); [done|..]; by injection H as <- <-.
Qed.

Lemma resolved_plain p claims metadata d d' r :
  resolution (callback_may_link p claims) (may_create p claims) p claims
    (claimed_address claims) metadata d d' r ->
  resolved_to p claims metadata d d' r.
Proof. intros H. exists d'. split; [done|]. split; [by left|done]. Qed.

Lemma resolved_profile p claims metadata w w1 x w' r :
  resolution (callback_may_link p claims) (may_create p claims) p claims
    (claimed_address claims) metadata (db w) (db w1) r ->
  maybe_auto_create_linuxdo_profile p r claims w1 = (x, w') ->
  resolved_to p claims metadata (db w) (db w') r.
Proof. intros H [Hk He]%linuxdo_profile_run. by exists (db w1). Qed.

Lemma finish_without_email_ok p f claims metadata w l w' :
  external_auth_claims_missing_email claims = true ->
  finish_without_email p f claims metadata w = (Ok (OutcomeLogin l), w') ->
  exists r, resolved_to p claims metadata (db w) (db w') r /\
    l = primary_login p claims (login_return_path f) r.
Proof.
  unfold finish_without_email. intros Hm H.
  apply bind_ok in H as (now & w1 & Hnow & H). injection Hnow as <- <-.
  apply bind_ok in H as (o & w1 & Ho & H).
  eapply (existing_identity_ok _ _ _ _ _ _ _ _ p) in Ho. destruct o as [r|].
  - injection H as <- <-. exists r. split; [|done]. by apply resolved_plain.
  - destruct Ho as [S1 Hno]. destruct (is_linuxdo p) eqn:El.
    + apply bind_ok in H as (r & w2 & Hr & H).
      apply new_account_without_email_ok in Hr as (Hopen & u & t & -> & Hp).
      apply bind_ok in H as (? & w3 & Hx & H). injection H as <- <-.
      eexists. split; [|done]. rewrite (same_db _ _ S1) in Hp. eapply resolved_profile; [|exact Hx].
      unfold may_create, claimed_address. rewrite Hm.
      by eapply resolution_new; [exact Hno|done|exact Hp].
    + apply bind_ok in H as (? & w2 & Hg & H). apply bind_ok in H as (pending & w3 & _ & H). done.
Qed.

(** C8: Who an external callback signs in.  The provider reported no error;
    the state belongs to a sign-in that was started, not finished and not
    expired, and is used up; its provider is the one the path names, enabled
    and open for sign-in; the claims are what the provider exchanged the code
    for, and the trust level of a Linux DO user, where the provider reports
    one, is not below the required one.  The user is the active owner of the
    identity of the claims; or an active account whose address is the one the
    provider vouches for, if the provider links those; or a new account with a
    valid free name, the role of a user and that identity.  A new account needs
    open registration; when the claims have an address, also that the provider
    provisions accounts, and nobody uses or asks for the address; when they
    have none, that the provider is Linux DO (the code does not ask there
    whether it provisions accounts).  No other row of any table changes, but
    that at most one profile of a new Linux DO user is added. *)
Theorem external_login_sound kind key query w l w' :
  finish_callback kind key query w = (Ok (OutcomeLogin l), w') ->
  exists state code f p now claims metadata w1 w2 r,
    cq_error query = None /\ cq_state query = Some state /\ cq_code query = Some code /\
    live_login_flow state now f (db w) /\ admitting_provider kind key f p (db w) /\
    db w1 = login_flow_used f now (db w) /\
    exchange_claims p f code w1 = (Ok (claims, metadata), w2) /\
    (is_linuxdo p = true -> trust_level_too_low (provider_parsed_options p) metadata = false) /\
    resolved_to p claims metadata (db w1) (db w') r /\
    l = primary_login p claims (login_return_path f) r /\
    user_status (pl_user l) = UserActive /\ In (pl_user l) (rows (users (db w'))) /\
    exists i, In i (rows (IdentityRepo.identities (db w'))) /\
      identity_namespace i = pl_issuer l /\ identity_subject i = pl_subject l /\
      identity_user_id i = user_pk (pl_user l).
Proof.
  unfold finish_callback. destruct (callback_error query) eqn:Ee; [done|]. intros H.
  apply bind_ok in H as (code & w1 & Hc & H). apply lift_ok in Hc as [Hc%ok_or_ok ->].
  apply bind_ok in H as (state & w1 & Hs & H). apply lift_ok in Hs as [Hs%ok_or_ok ->].
  apply bind_ok in H as ([f p] & w1 & Hf & H).
  apply consume_login_flow_ok in Hf as (now & Hlive & Hadm & Hd).
  apply bind_ok in H as ([claims metadata] & w2 & Hx & H).
  assert (S2 : same w1 w2) by (by eapply reads_run; [|exact Hx]; apply _).
  apply bind_ok in H as (? & w3 & Ht & H). apply when_ok_ok in Ht as [Ht ->].
  assert (exists r, resolved_to p claims metadata (db w1) (db w') r /\
            l = primary_login p claims (login_return_path f) r) as (r & Hr & Hl).
  { rewrite <- (same_db _ _ S2).
    destruct (external_auth_claims_missing_email claims) eqn:Em; [by eapply finish_without_email_ok|].
    apply bind_ok in H as (o & w3 & Ho & H). apply resolve_user_ok in Ho. destruct o as [r|].
    - apply bind_ok in H as (? & w4 & Hp & H). injection H as <- <-. exists r. split; [|done].
      eapply resolved_profile; [|exact Hp]. unfold may_create, claimed_address. by rewrite Em.
    - apply bind_ok in H as (pending & w4 & _ & H). done. }
  exists state, code, f, p, now, claims, metadata, w1, w2, r.
  destruct Hr as (d2 & Hres & Hk & Hd2).
  assert (users (db w') = users d2 /\ accounts (db w') = accounts d2) as [Hus Hac]
    by (by destruct Hk as [->|(q & _ & ->)]).
  pose proof (resolution_signed_in _ _ _ _ _ _ _ _ _ Hres) as (Hst & Hin & i & Hi & [Hn Hj] & Hu).
  split_and!; try done.
  - unfold callback_error in Ee. by destruct (cq_error query).
  - intros E. by rewrite E in Ht.
  - by exists d2.
  - by subst l.
  - subst l. by rewrite Hus.
  - exists i. subst l. unfold IdentityRepo.identities. by rewrite Hac.
Qed.

(** ** A state works once *)

(** No sign-in is there to finish that was not there before. *)
Definition no_new_flow (d d' : Db) : Prop :=
  forall g, In g (rows (login_flows (external d'))) -> login_flow_consumed_at g = None ->
    In g (rows (login_flows (external d))).

#[local] Instance no_new_flow_preorder : PreOrder no_new_flow.
Proof. split; unfold no_new_flow; [by intros d g|]. intros d1 d2 d3 H1 H2 g Hg Hc. auto. Qed.

Abbreviation Finishes := (Tracks no_new_flow).

Lemma finishes_same {A} (f : Db -> outcome AsterError.t (A * Db)) :
  (forall d a d', f d = Ok (a, d') -> login_flows (external d') = login_flows (external d)) ->
  Finishes (db_exec f).
Proof. intros H. apply tracks_db_exec. intros d a d' Hd. apply H in Hd. by intros g; rewrite Hd. Qed.

#[local] Instance finishes_user_insert mk : Finishes (Users.insert mk).
Proof. by apply tracks_insert; intros d _ g. Qed.
#[local] Instance finishes_create_user input : Finishes (create_user_with_role input).
Proof. unfold create_user_with_role. solve_tracks. Qed.
#[local] Instance finishes_create_user_without_email name password role status mc ar :
  Finishes (create_user_without_email_with_role name password role status mc ar).
Proof. unfold create_user_without_email_with_role. solve_tracks. Qed.
#[local] Instance finishes_create_identity u p claims now metadata :
  Finishes (create_identity_for_claims u p claims now metadata).
Proof.
  apply finishes_same. intros d a d' Hd. destruct (negb _); [done|].
  destruct (insert_row _ _ _) as [[row t]|]; [|done]. by injection Hd as _ <-.
Qed.
#[local] Instance finishes_touch i claims metadata now :
  Finishes (touch_for_claims i claims metadata now).
Proof.
  unfold touch_for_claims, IdentityRepo.touch_login. apply tracks_bind; [|intros; apply _].
  by apply tracks_update_many; intros d g.
Qed.
#[local] Instance finishes_sign_in i claims metadata now :
  Finishes (sign_in_identity i claims metadata now).
Proof. unfold sign_in_identity. solve_tracks. Qed.
#[local] Instance finishes_enqueue address name payload : Finishes (enqueue address name payload).
Proof.
  unfold enqueue. apply tracks_bind; [apply _|]. intros now. apply finishes_same.
  by intros d a d' [= _ <-].
Qed.
#[local] Instance finishes_email_flow_create id mk : Finishes (EmailFlowRepo.create id mk).
Proof.
  apply finishes_same. intros d a d' Hd. destruct (negb _); [done|].
  destruct (insert_row _ _ _) as [[row t]|]; [|done]. by injection Hd as _ <-.
Qed.
#[local] Instance finishes_email_flow_consume id now :
  Finishes (EmailFlowRepo.mark_consumed_if_unused id now).
Proof. apply tracks_bind; [|intros; apply _]. by apply tracks_update_many; intros d g. Qed.
#[local] Instance finishes_email_request f address hash now :
  Finishes (EmailFlowRepo.update_email_request f address hash now).
Proof. apply tracks_bind; [|intros; apply _]. by apply tracks_update_many; intros d g. Qed.

#[local] Instance finishes_consume hash now : Finishes (LoginFlowRepo.consume_by_state_hash hash now).
Proof.
  apply tracks_bind; [apply _|]. intros [f|]; [|apply _]. apply tracks_bind; [|intros; apply _].
  apply tracks_update_many. intros d g Hg Hc. cbn in Hg.
  apply in_update_where in Hg as (h & Hh & ->). by destruct (_ && _).
Qed.

#[local] Instance finishes_username_attempts {A} p claims base attempts
  (try_name : string -> string -> M AsterError.t (A + AsterError.t)) :
  (forall name password, Finishes (try_name name password)) ->
  Finishes (username_attempts p claims base attempts try_name).
Proof.
  intros H. induction attempts as [|n attempts IH]; cbn [username_attempts]; [apply _|].
  apply tracks_bind; [|intros name].
  - apply tracks_reads. unfold external_auth_username_candidate_for_provider,
      external_auth_username_candidate. destruct n as [|n]; [apply _|]. apply reads_bind; [|apply _].
    intros w. unfold random_username_suffix.
    by destruct (random_suffix_run UNIQUE_USERNAME_SUFFIX_LEN w) as (s & w' & -> & Hs & _).
  - apply tracks_bind; [apply tracks_reads; intros w; apply same_tick|intros password].
    apply tracks_bind; [apply H|]. intros [a|e]; [apply _|].
    destruct (external_auth_username_conflict e); [exact IH|apply _].
Qed.

#[local] Instance finishes_resolve_without_email p claims metadata :
  Finishes (resolve_external_auth_user_without_email p claims metadata).
Proof.
  unfold resolve_external_auth_user_without_email. do 2 (apply tracks_bind; [apply _|intros ?]).
  apply finishes_username_attempts. intros. apply tracks_txn_result; [apply _|]. solve_tracks.
Qed.
#[local] Instance finishes_new_account p claims now metadata options :
  Finishes (create_external_auth_user_and_identity p claims now metadata options).
Proof.
  unfold create_external_auth_user_and_identity. do 4 (apply tracks_bind; [apply _|intros ?]).
  apply finishes_username_attempts. intros. apply tracks_txn_result; [apply _|]. solve_tracks.
Qed.
#[local] Instance finishes_new_account_in_connection p claims now :
  Finishes (create_external_auth_user_and_identity_in_connection p claims now).
Proof.
  unfold create_external_auth_user_and_identity_in_connection.
  do 6 (apply tracks_bind; [apply _|intros ?]).
  apply finishes_username_attempts. intros. solve_tracks.
Qed.
#[local] Instance finishes_resolve_user p claims metadata :
  Finishes (resolve_external_auth_user p claims metadata).
Proof.
  unfold resolve_external_auth_user, resolve_external_auth_user_with_options, auto_link_candidate,
    auto_provision. solve_tracks.
Qed.
#[local] Instance finishes_resolve_existing claims now metadata :
  Finishes (resolve_existing_external_auth_identity claims now metadata).
Proof. unfold resolve_existing_external_auth_identity. solve_tracks. Qed.
#[local] Instance finishes_resolve_verified p claims now :
  Finishes (resolve_external_auth_user_with_verified_email p claims now).
Proof. unfold resolve_external_auth_user_with_verified_email. solve_tracks. Qed.
#[local] Instance finishes_linuxdo_profile p r claims :
  Finishes (maybe_auto_create_linuxdo_profile p r claims).
Proof.
  intros w. destruct (adds_linuxdo_profile p r claims w) as [->|(q & _ & ->)]; by intros g.
Qed.

#[local] Instance finishes_callback kind key query : Finishes (finish_callback kind key query).
Proof.
  unfold finish_callback, consume_login_flow, finish_without_email, email_verification_required,
    create_pending_email_verification_flow. solve_tracks.
Qed.
#[local] Instance finishes_start_verification token address :
  Finishes (start_email_verification token address).
Proof.
  unfold start_email_verification, may_verify_address. do 11 (apply tracks_bind; [apply _|intros ?]).
  solve_tracks.
Qed.

#[local] Instance finishes_confirm token : Finishes (confirm_email_verification token).
Proof.
  unfold confirm_email_verification. cbv zeta. do 6 (apply tracks_bind; [apply _|intros ?]).
  apply tracks_bind; [|intros; apply _]. apply tracks_txn_result; [apply _|]. solve_tracks.
Qed.
#[local] Instance finishes_link_user p claims u now :
  Finishes (link_external_auth_identity_to_authenticated_user p claims u now).
Proof. unfold link_external_auth_identity_to_authenticated_user. solve_tracks. Qed.
#[local] Instance finishes_link token identifier password :
  Finishes (link_with_password token identifier password).
Proof.
  unfold link_with_password. cbv zeta. do 13 (apply tracks_bind; [apply _|intros ?]).
  apply tracks_bind; [|intros; apply _]. apply tracks_txn_result; [apply _|]. solve_tracks.
Qed.
#[local] Instance finishes_unlink id pk : Finishes (delete_link id pk).
Proof.
  unfold delete_link, IdentityRepo.find_by_id_for_user, IdentityRepo.find_identity,
    IdentityRepo.delete_for_user. solve_tracks. apply finishes_same. by intros ? ? ? [= _ <-].
Qed.
#[local] Instance finishes_cleanup : Finishes cleanup_expired_flows.
Proof.
  unfold cleanup_expired_flows, LoginFlowRepo.cleanup_expired, BindingFlowRepo.cleanup_expired,
    EmailFlowRepo.cleanup_expired. solve_tracks.
  - apply tracks_db_exec. intros ? ? ? [= _ <-] g Hg _. cbn in Hg. by apply filter_In in Hg as [? _].
  - apply finishes_same. by intros ? ? ? [= _ <-].
  - apply finishes_same. by intros ? ? ? [= _ <-].
Qed.

(** The requests of the sign-in. *)
Inductive external_request : Type :=
| RequestStart (conn : ConnectionInfo) (kind : ProviderKind) (key : string)
    (return_path : option string)
| RequestCallback (kind : ProviderKind) (key : option string) (query : ExternalAuthCallbackQuery)
| RequestVerify (flow_token address : string)
| RequestConfirm (token : string)
| RequestLink (flow_token identifier password : string)
| RequestUnlink (user_id id : Z)
| RequestCleanup.

Definition discard {A} (c : M AsterError.t A) : M AsterError.t unit := let* _ := c in ret tt.

Definition handle_external (r : external_request) : M AsterError.t unit :=
  match r with
  | RequestStart conn kind key return_path => discard (start_login conn kind key return_path)
  | RequestCallback kind key query => discard (finish_callback kind key query)
  | RequestVerify flow_token address => discard (start_email_verification flow_token address)
  | RequestConfirm token => discard (confirm_email_verification token)
  | RequestLink flow_token identifier password =>
      discard (link_with_password flow_token identifier password)
  | RequestUnlink user_id id => discard (delete_link user_id id)
  | RequestCleanup => discard cleanup_expired_flows
  end.

(** From the tick of [w] on no driver draws a state with the hash [h]. *)
Definition never_drawn (h : string) (w : World) : Prop :=
  forall n driver config uri started, (step w <= n)%nat ->
    start_authorization n driver config uri = Ok started -> state_hash (start_state started) <> h.

(** Requests one after the other, with their outcomes whatever they are. *)
Inductive external_history (h : string) : World -> World -> Prop :=
| history_nil w : external_history h w w
| history_cons r w x w1 w2 :
    never_drawn h w -> handle_external r w = (x, w1) -> external_history h w1 w2 ->
    external_history h w w2.

(** Every sign-in with the hash has been finished. *)
Definition state_spent (h : string) (d : Db) : Prop :=
  forall g, In g (rows (login_flows (external d))) -> login_state_hash g = h ->
    login_flow_consumed_at g <> None.

Lemma no_new_flow_spent h d d' : no_new_flow d d' -> state_spent h d -> state_spent h d'.
Proof. intros Hn Hs g Hg Hh Hc. by apply (Hs g); [apply Hn|..]. Qed.

#[local] Instance reads_login_provider kind key : Reads (find_login_provider kind key).
Proof.
  unfold find_login_provider, ProviderRepo.find_by_kind_key, ProviderRepo.find_enabled_by_kind,
    ProviderRepo.listed. apply _.
Qed.
#[local] Instance reads_expiry now secs name : Reads (expiry now secs name).
Proof. unfold expiry. apply _. Qed.

(** A started sign-in has a state its driver drew just then. *)
Lemma start_login_spent h conn kind key path w :
  never_drawn h w -> state_spent h (db w) ->
  wp (start_login conn kind key path) (fun _ w' => state_spent h (db w')) w.
Proof.
  intros Hd Hs. assert (Hk : forall v, same w v -> state_spent h (db v)).
  { intros v Hv. by rewrite (same_db _ _ Hv). }
  unfold start_login. pose proof (same_refl w) as S0.
  wp_read_on k w1 H1 from S0 as S1; [|by auto..].
  wp_read_on p w2 H2 from S1 as S2; [|by auto..].
  wp_read_on x1 w3 H3 from S2 as S3; [|by auto..].
  wp_read_on x2 w4 H4 from S3 as S4; [|by auto..].
  wp_read_on rp w5 H5 from S4 as S5; [|by auto..]. cbv zeta.
  wp_read_on uri w6 H6 from S5 as S6; [|by auto..].
  wp_read_on driver w7 H7 from S6 as S7; [|by auto..].
  apply wp_reading; [intros v; apply same_tick|intros st w8 H8 S8|by intros; apply Hk; eapply same_trans..].
  assert (state_hash (start_state st) <> h) as Hne.
  { unfold start_authorization_now in H8. injection H8 as H8 _.
    destruct (start_authorization (step w7) driver _ uri) as [s|e|m] eqn:E; [|done..].
    injection H8 as ->. eapply Hd; [|exact E]. by apply same_step in S7. }
  apply (same_trans _ _ _ S7) in S8.
  wp_read_on now w9 H9 from S8 as S9; [|by auto..].
  wp_read_on e w10 H10 from S9 as S10; [|by auto..].
  apply wp_bind, wp_intro. intros r w11 Hr. apply Hk in S10. destruct r as [f|e'|m]; cbn [wp_next].
  - apply insert_referring_ok in Hr as (_ & -> & _ & Hdb). apply wp_ret. rewrite Hdb.
    intros g Hg Hh. cbn in Hg. apply in_app_or in Hg as [Hg|[<-|[]]]; [by apply S10|done].
  - apply all_or_nothing in Hr; [|done]. by rewrite Hr.
  - apply all_or_nothing in Hr; [|done]. by rewrite Hr.
Qed.

Lemma discarded_run {A} (c : M AsterError.t A) (Q : World -> Prop) w x w' :
  wp c (fun _ v => Q v) w -> discard c w = (x, w') -> Q w'.
Proof.
  unfold discard, bind, wp. destruct (c w) as [[a|e|m] w1]; cbn; by intros H [= _ <-].
Qed.

Lemma discard_spent {A} (c : M AsterError.t A) `{Hc : !Finishes c} h w x w' :
  discard c w = (x, w') -> state_spent h (db w) -> state_spent h (db w').
Proof.
  intros H Hs. eapply (discarded_run c (fun v => state_spent h (db v))); [|exact H].
  eapply no_new_flow_spent; [apply Hc|exact Hs].
Qed.

Lemma history_spent h w w' : external_history h w w' -> state_spent h (db w) -> state_spent h (db w').
Proof.
  induction 1 as [w|r w x w1 w2 Hd Hr _ IH]; [done|]. intros Hs. apply IH. clear IH.
  destruct r; cbn in Hr; first
    [ by eapply discard_spent; [|exact Hr|exact Hs]; apply _
    | eapply (discarded_run _ (fun v => state_spent h (db v))); [|exact Hr];
      by apply start_login_spent ].
Qed.

(** The state hashes are unique ([external_auth_login_flows.state_hash]). *)
Definition states_unique (d : Db) : Prop :=
  List.NoDup (List.map login_state_hash (rows (login_flows (external d)))).

Lemma nodup_map_inj {A B} (g : A -> B) l x y :
  List.NoDup (List.map g l) -> In x l -> In y l -> g x = g y -> x = y.
Proof.
  induction l as [|a l IH]; [done|]. cbn. intros Hn [<-|Hx] [<-|Hy] E; inversion Hn as [|? ? Hni Hnd].
  - done.
  - exfalso. apply Hni. rewrite E. by apply in_map.
  - exfalso. apply Hni. rewrite <- E. by apply in_map.
  - by apply IH.
Qed.

Lemma used_flow_spent state now f d :
  states_unique d -> live_login_flow state now f d ->
  state_spent (state_hash state) (login_flow_used f now d).
Proof.
  intros Hn (Hin & Hh & Hc & He) g Hg E. cbn in Hg. apply in_update_where in Hg as (g0 & Hg0 & ->).
  assert (g0 = f) as ->.
  { eapply nodup_map_inj; [exact Hn|done..|]. rewrite Hh. by destruct (_ && _). }
  unfold LoginFlowRepo.active. rewrite Z.eqb_refl, Hc. cbn. by apply Z.ltb_lt in He as ->.
Qed.

(** A finished callback has used up the state it came with. *)
Lemma finished_spends kind key query w o w' :
  states_unique (db w) -> finish_callback kind key query w = (Ok o, w') ->
  exists state, cq_state query = Some state /\ state_spent (state_hash state) (db w').
Proof.
  unfold finish_callback. intros Hn. destruct (callback_error query); [done|]. intros H.
  apply bind_ok in H as (code & w1 & Hc & H). apply lift_ok in Hc as [_ ->].
  apply bind_ok in H as (state & w1 & Hs & H). apply lift_ok in Hs as [Hs%ok_or_ok ->].
  exists state. split; [done|]. apply bind_ok in H as ([f p] & w1 & Hf & H).
  apply consume_login_flow_ok in Hf as (now & Hlive & _ & Hd).
  assert (no_new_flow (db w1) (db w')) as Hk.
  { eapply tracks_run; [|exact H]. unfold finish_without_email, email_verification_required,
      create_pending_email_verification_flow. solve_tracks. }
  eapply no_new_flow_spent; [exact Hk|]. rewrite Hd. by apply used_flow_spent.
Qed.

(** A sign-in state works once.  After a callback was answered with a
    state, by a sign-in or by asking for an address, and any requests of the
    sign-in in between, no callback with that state is answered again,
    whatever provider its path names and whatever code it brings, unless a
    driver draws the same state for a new sign-in. *)
Theorem login_state_single_use kind key query state w o w1 w2 kind' key' query' r w3 :
  states_unique (db w) -> cq_state query = Some state ->
  finish_callback kind key query w = (Ok o, w1) ->
  external_history (state_hash state) w1 w2 ->
  cq_state query' = Some state -> finish_callback kind' key' query' w2 = (r, w3) ->
  is_ok r = false.
Proof.
  intros Hn Hq H Hh Hq' H'. apply finished_spends in H as (s & Hs & Hspent); [|done].
  assert (s = state) as -> by congruence. apply (history_spent _ _ _ Hh) in Hspent.
  destruct r as [o'|e|m]; [|done..]. exfalso. revert H'. unfold finish_callback.
  destruct (callback_error query'); [done|]. intros H'.
  apply bind_ok in H' as (code & v1 & Hc & H'). apply lift_ok in Hc as [_ ->].
  apply bind_ok in H' as (st & v1 & Hst & H'). apply lift_ok in Hst as [Hst%ok_or_ok ->].
  assert (st = state) as -> by congruence.
  apply bind_ok in H' as ([f p] & v1 & Hf & H').
  apply consume_login_flow_ok in Hf as (now & (Hin & Hf & Hc' & _) & _). by apply (Hspent f).
Qed.

(** ** Confirming an address, linking with a password *)

(** The tables once a pending flow is used up. *)
Definition email_flow_used (f : external_auth_email_verification_flow) (now : DateTimeUtc) (d : Db)
  : Db :=
  set_email_flows
    (with_rows (update_where (fun g => (email_flow_pk g =? email_flow_pk f)
                                       && EmailFlowRepo.active now g)
                  (EmailFlowRepo.set_consumed now) (rows (email_flows (external d))))
       (email_flows (external d))) d.

(** A pending flow of an enabled provider. *)
Definition live_email_flow (now : DateTimeUtc) (f : external_auth_email_verification_flow)
  (p : external_auth_provider) (d : Db) : Prop :=
  In f (rows (email_flows (external d))) /\ email_flow_consumed_at f = None /\
  now < email_flow_expires_at f /\
  In p (rows (external_providers (external d))) /\ provider_pk p = email_flow_provider_id f /\
  provider_enabled p = true.

Lemma active_email_flow now f :
  EmailFlowRepo.active now f = true ->
  email_flow_consumed_at f = None /\ now < email_flow_expires_at f.
Proof.
  unfold EmailFlowRepo.active. intros [Hc He%Z.ltb_lt]%andb_true_iff.
  by destruct (email_flow_consumed_at f).
Qed.

Lemma mark_email_flow_ok f now w b w' :
  EmailFlowRepo.mark_consumed_if_unused (email_flow_pk f) now w = (Ok b, w') ->
  db w' = email_flow_used f now (db w).
Proof.
  unfold EmailFlowRepo.mark_consumed_if_unused. intros H.
  apply bind_ok in H as (n & w1 & Hn & H). apply update_many_ok in Hn as [_ ->].
  by injection H as _ <-.
Qed.

#[local] Instance reads_by_flow_token hash now :
  Reads (EmailFlowRepo.find_active_by_flow_token_hash hash now).
Proof. unfold EmailFlowRepo.find_active_by_flow_token_hash. apply _. Qed.
#[local] Instance reads_by_verification_token hash now :
  Reads (EmailFlowRepo.find_active_by_verification_token_hash hash now).
Proof. unfold EmailFlowRepo.find_active_by_verification_token_hash. apply _. Qed.

#[local] Instance aon_confirm_email token : AllOrNothing (confirm_email_verification token).
Proof.
  unfold confirm_email_verification. cbv zeta. do 6 (apply aon_bind_reads; [apply _|intros ?]).
  apply (aon_txn_result _ (primary_login _ _ _)).
Qed.
#[local] Instance aon_link_with_password token identifier password :
  AllOrNothing (link_with_password token identifier password).
Proof.
  unfold link_with_password. cbv zeta. do 13 (apply aon_bind_reads; [apply _|intros ?]).
  apply (aon_txn_result _ (primary_login _ _ _)).
Qed.

(** The confirmation of an address is all or nothing.  If it fails no
    table has changed, the link included.  If it succeeds the link belongs to
    a pending sign-in, not used and not expired, of an enabled provider; the
    sign-in is used up; and its identity, with the address the link was sent
    to as its own, signs in the account it belongs to, or is linked to the
    account with that address if that account has verified it, or gets a new
    account with that address as verified if registration is open. *)
Theorem external_confirmation_atomic token w r w' :
  confirm_email_verification token w = (r, w') ->
  match r with
  | Ok l =>
      exists f p e now resolved,
        live_email_flow now f p (db w) /\
        email_flow_verification_hash f = Some (token_hash (trim token)) /\
        target_email f = Some e /\
        (let claims := claims_with_verified_local_email f e in
         resolution (verified_may_link claims) registration_open p claims (Some e) None
           (email_flow_used f now (db w)) (db w') resolved /\
         l = primary_login p claims (email_flow_return_path f) resolved)
  | _ => db w' = db w
  end.
Proof.
  intros H. destruct r as [l|e|m]; [|by eapply aon_confirm_email..].
  unfold confirm_email_verification in H. cbv zeta in H.
  apply bind_ok in H as (? & w1 & Hg & H). apply when_ok_ok in Hg as [_ ->].
  apply bind_ok in H as (now & w1 & Hnow & H). injection Hnow as <- <-.
  apply bind_ok in H as (o & w1 & Ho & H). apply db_query_ok in Ho as (Ho & -> & _).
  apply bind_ok in H as (f & w1 & Hf & H). apply lift_ok in Hf as [Hf%ok_or_ok ->].
  rewrite Hf in Ho. symmetry in Ho. apply find_row_some in Ho as [Hin [Hh Ha]%andb_true_iff].
  rewrite eqb_true in Hh. apply active_email_flow in Ha as [Hc He].
  apply bind_ok in H as (e & w1 & Ht & H). apply lift_ok in Ht as [Ht%ok_or_ok ->].
  apply bind_ok in H as (p & w1 & Hp & H).
  apply enabled_provider_ok in Hp as (S1 & Hpin & Hpk & Hen).
  apply bind_ok in H as (res & w2 & Hr & H). apply txn_result_run in Hr.
  apply bind_ok in H as (final & w3 & Hx & H). apply lift_ok in Hx as [Hx ->].
  injection H as <- <-. destruct res as [r|e']; [|done]. injection Hx as ->.
  destruct Hr as (v0 & v1 & T0 & Hr & T1).
  apply bind_ok in Hr as (b & v2 & Hb & Hr). apply mark_email_flow_ok in Hb.
  apply bind_ok in Hr as (? & v3 & Hg & Hr). apply when_ok_ok in Hg as [_ ->].
  apply resolve_verified_ok in Hr as [_ Hr]. cbn [ep_email claims_with_verified_local_email] in Hr.
  rewrite Hb, (same_db _ _ T0), (same_db _ _ S1), <- (same_db _ _ T1) in Hr. cbn in Hr.
  exists f, p, e, (clock (step w)), final. by split_and!.
Qed.

(** The claims of a pending sign-in linked to an account whose password was
    shown: the identity is the account's already, or it is new. *)
Definition linked_to (u : user) (p : external_auth_provider) (claims : ExternalAuthUserClaims)
  (now : DateTimeUtc) (d d' : Db) (r : ResolvedExternalAuthUser) : Prop :=
  (exists i, In i (rows (IdentityRepo.identities d)) /\ identifies i claims /\
     identity_user_id i = user_pk u /\ r = mkResolved u false false /\
     d' = set_external_identities
       (with_rows (update_where (fun j => identity_pk j =? identity_pk i)
                     (IdentityRepo.touched (ep_email claims) (ep_display_name claims) None now)
                     (rows (IdentityRepo.identities d))) (IdentityRepo.identities d)) d) \/
  ((forall i, In i (rows (IdentityRepo.identities d)) -> ~ identifies i claims) /\
   r = mkResolved u true false /\ identity_added (user_pk u) p claims None now d d').

Lemma link_user_ok p claims u now w r w' :
  link_external_auth_identity_to_authenticated_user p claims u now w = (Ok r, w') ->
  linked_to u p claims now (db w) (db w') r.
Proof.
  unfold link_external_auth_identity_to_authenticated_user. intros H.
  apply bind_ok in H as (o & w1 & Ho & H). apply identity_of_claims_ok in Ho as [S1 Ho].
  rewrite <- (same_db _ _ S1). rewrite <- (same_db _ _ S1) in Ho. destruct o as [i|].
  - left. apply bind_ok in H as (? & w2 & Hg & H).
    apply when_ok_ok in Hg as [Hu%negb_false_iff%Z.eqb_eq ->].
    apply bind_ok in H as (b & w2 & Hb & H). injection H as <- <-.
    unfold touch_for_claims, IdentityRepo.touch_login in Hb.
    apply bind_ok in Hb as (n & w3 & Hn & Hb). apply update_many_ok in Hn as [_ ->].
    injection Hb as _ <-. exists i. split_and!; [apply Ho|apply Ho|done..].
  - right. apply bind_ok in H as (i & w2 & Hi & H). injection H as <- <-.
    apply create_identity_ok in Hi. done.
Qed.

Lemma find_by_identifier_some identifier w u w' :
  UserRepo.find_by_identifier identifier w = (Ok (Some u), w') ->
  same w w' /\ In u (rows (users (db w))) /\
  (username u = identifier \/ email u = Some identifier).
Proof.
  unfold UserRepo.find_by_identifier. intros H. apply db_query_ok in H as (H & -> & _).
  split; [apply same_tick|]. symmetry in H. apply find_row_some in H as [Hin Hi].
  split; [done|]. apply orb_true_iff in Hi as [Hi|Hi]; rewrite eqb_true in Hi; auto.
Qed.

(** C14: Linking a pending sign-in with a password is all or nothing.  If it
    fails no table has changed.  If it succeeds the flow token belongs to a
    pending sign-in, not used and not expired, of an enabled provider; the
    account has the given name or address, the password verifies against its
    hash, and it is active and activated; the sign-in is used up; and its
    identity, which is nobody else's, is that account's from then on. *)
Theorem password_link_atomic flow_token identifier password w r w' :
  link_with_password flow_token identifier password w = (r, w') ->
  match r with
  | Ok l =>
      exists f p u token now resolved,
        normalize_flow_token flow_token = Ok token /\ live_email_flow now f p (db w) /\
        flow_token_hash f = token_hash token /\
        In u (rows (users (db w))) /\
        (username u = trim identifier \/ email u = Some (trim identifier)) /\
        verify_password password (password_hash u) = Ok true /\
        user_status u = UserActive /\ is_email_activation_satisfied u = true /\
        linked_to u p (claims_without_provider_email f) now (email_flow_used f now (db w)) (db w')
          resolved /\
        l = primary_login p (claims_without_provider_email f) (email_flow_return_path f) resolved
  | _ => db w' = db w
  end.
Proof.
  intros H. destruct r as [l|e|m]; [|by eapply aon_link_with_password..].
  unfold link_with_password in H. cbv zeta in H.
  apply bind_ok in H as (token & w1 & Ht & H). apply lift_ok in Ht as [Ht ->].
  apply bind_ok in H as (? & w1 & Hg & H). apply when_ok_ok in Hg as [_ ->].
  apply bind_ok in H as (? & w1 & Hg & H). apply when_ok_ok in Hg as [_ ->].
  apply bind_ok in H as (now & w1 & Hnow & H). injection Hnow as <- <-.
  apply bind_ok in H as (o & w1 & Ho & H). apply db_query_ok in Ho as (Ho & -> & _).
  apply bind_ok in H as (f & w1 & Hf & H). apply lift_ok in Hf as [Hf%ok_or_ok ->].
  rewrite Hf in Ho. symmetry in Ho. apply find_row_some in Ho as [Hin [Hh Ha]%andb_true_iff].
  rewrite eqb_true in Hh. apply active_email_flow in Ha as [Hc He].
  apply bind_ok in H as (p & w1 & Hp & H).
  apply enabled_provider_ok in Hp as (S1 & Hpin & Hpk & Hen).
  apply bind_ok in H as (found & w2 & Hu & H).
  apply bind_ok in H as (ok & w3 & Hv & H). apply lift_ok in Hv as [Hv%utils_ok ->].
  apply bind_ok in H as (? & w3 & Hg & H). apply when_ok_ok in Hg as [->%negb_false_iff ->].
  apply bind_ok in H as (u & w3 & Hf' & H). apply lift_ok in Hf' as [->%ok_or_ok ->].
  apply find_by_identifier_some in Hu as (S2 & Huin & Hident).
  apply bind_ok in H as (? & w3 & Hg & H).
  apply when_ok_ok in Hg as [Hst%negb_false_iff%active_user ->].
  apply bind_ok in H as (? & w3 & Hg & H). apply when_ok_ok in Hg as [Hact%negb_false_iff ->].
  apply bind_ok in H as (res & w3 & Hr & H). apply txn_result_run in Hr.
  apply bind_ok in H as (final & w4 & Hx & H). apply lift_ok in Hx as [Hx ->].
  injection H as <- <-. destruct res as [r|e']; [|done]. injection Hx as ->.
  destruct Hr as (v0 & v1 & T0 & Hr & T1).
  apply bind_ok in Hr as (b & v2 & Hb & Hr). apply mark_email_flow_ok in Hb.
  apply bind_ok in Hr as (? & v3 & Hg & Hr). apply when_ok_ok in Hg as [_ ->].
  apply link_user_ok in Hr.
  rewrite Hb, (same_db _ _ T0), (same_db _ _ S2), (same_db _ _ S1), <- (same_db _ _ T1) in Hr.
  rewrite (same_db _ _ S1) in Huin.
  exists f, p, u, token, (clock (step w)), final. by split_and!.
Qed.

(** ** Dropping a link *)

(** What [delete_link] did to the tables [d]. *)
Definition unlink_outcome (user_id id : Z) (d : Db) (r : outcome AsterError.t bool) (d' : Db)
  : Prop :=
  match r with
  | Ok false =>
      d' = d /\
      forall i, In i (rows (IdentityRepo.identities d)) -> identity_pk i = id ->
        identity_user_id i <> user_id
  | Ok true =>
      exists i p, In i (rows (IdentityRepo.identities d)) /\ identity_pk i = id /\
        identity_user_id i = user_id /\
        In p (rows (external_providers (external d))) /\
        provider_pk p = identity_provider_id i /\
        allow_unlink (provider_parsed_options p) = true /\
        provider_auth_kind p <> ExternalAuthProviderKind.Microsoft /\
        provider_auth_kind p <> ExternalAuthProviderKind.LinuxDo /\
        identity_namespace i <> MINECRAFT_IDENTITY_NAMESPACE /\
        d' = set_external_identities
          (with_rows (delete_where (fun j => (identity_pk j =? id) && (identity_user_id j =? user_id))
                        (rows (IdentityRepo.identities d))) (IdentityRepo.identities d)) d
  | _ => d' = d
  end.

(** An account can drop exactly the links its provider lets it drop.
    [delete_link] answers that there is no such link when the account has
    none with that key, and changes nothing; it refuses when the identity is
    one of Microsoft, of Linux DO or of a Minecraft profile, or when the
    provider forbids it, and changes nothing; otherwise it removes the
    account's identities with that key and nothing else. *)
Theorem delete_link_exact user_id id w r w' :
  List.NoDup (List.map identity_pk (rows (IdentityRepo.identities (db w)))) ->
  delete_link user_id id w = (r, w') -> unlink_outcome user_id id (db w) r (db w').
Proof.
  intros Hnd H.
  apply (wp_run (delete_link user_id id) (fun r w' => unlink_outcome user_id id (db w) r (db w')) w);
    [|exact H].
  clear H. unfold delete_link.
  pose proof (same_refl w) as S0.
  unfold IdentityRepo.find_by_id_for_user, IdentityRepo.find_identity.
  wp_read_on o w1 Ho from S0 as S1. apply db_query_ok in Ho as (Ho & _ & _). symmetry in Ho. destruct o as [i|].
  - apply find_row_some in Ho as [Hin [Hpk%Z.eqb_eq Hus%Z.eqb_eq]%andb_true_iff].
    wp_read_on p w2 Hp from S1 as S2. apply provider_by_id_ok in Hp as (_ & Hp & Hppk).
    rewrite (same_db _ _ S1) in Hp. wp_read_on x w3 Hx from S2 as S3.
    apply when_ok_ok in Hx as [Hu%negb_false_iff _].
    apply wp_bind, wp_db_delete_many; [intros m; cbn; by apply same_db|]. intros _. apply wp_ret.
    rewrite (same_db _ _ S3).
    assert (update_one (Z.of_nat (count_where (fun j => (identity_pk j =? id) && (identity_user_id j =? user_id))
              (rows (IdentityRepo.identities (db w))))) = true) as ->.
    { erewrite count_where_one; [done|exact Hnd|exact Hin|by rewrite Hpk, Hus, !Z.eqb_refl|].
      intros j [->%Z.eqb_eq _]%andb_true_iff. done. }
    unfold can_unlink, external_auth_identity_can_unlink in Hu.
    destruct (_ || _) eqn:Eo; [done|]. apply orb_false_iff in Eo as [Em El].
    apply andb_true_iff in Hu as [Hns%negb_true_iff Hal].
    rewrite eqb_false in Em, El; rewrite eqb_false in Hns. exists i, p. split_and!; done.
  - apply wp_ret. split; [by apply same_db|]. intros i Hi Hpk Hus.
    apply find_row_is_none with (x := i) in Ho; [|done]. by rewrite Hpk, Hus, !Z.eqb_refl in Ho.
Qed.

(** ** A reserved name *)

(** A suffixed candidate is never reserved: its hyphen is no digit. *)
Lemma suffixed_not_reserved base suffix :
  user_name base -> str_len suffix = 6%nat -> name_bytes suffix ->
  validate_reserved_username (suffixed_username base suffix) = Ok tt.
Proof.
  intros Hb Hl Hs. pose proof (suffixed_user_name _ _ Hb Hl Hs) as [_ Hn].
  unfold validate_reserved_username. rewrite trim_no_whitespace by (by apply no_whitespace_name).
  destruct (strip_prefix _ _) as [subject|] eqn:E; [|done].
  assert (In "-"%char (bytes subject)) as Hin.
  { apply strip_prefix_some in E. clear Hn. unfold suffixed_username in E. cbv zeta in E.
    match type of E with ?stem +:+ _ = _ => set (s := stem) in E; clearbody s end.
    assert (In "-"%char (bytes ("linuxdo_" +:+ subject))) as H.
    { rewrite <- E, !bytes_app. apply in_or_app. right. apply in_or_app. left. by left. }
    rewrite bytes_app in H. apply in_app_or in H as [H|H]; [|done].
    exfalso. cbn in H. intuition discriminate. }
  destruct (negb _ && _) eqn:Ed; [|done]. apply andb_true_iff in Ed as [_ Ed].
  rewrite forallb_forall in Ed. by apply Ed in Hin.
Qed.

(** The error of the attempt is not the one that is retried. *)
Lemma reserved_attempt_final {A} p name address password verified_at (k : user -> M AsterError.t A)
  w e w' :
  user_name name -> is_linuxdo p = false -> validate_reserved_username name <> Ok tt ->
  (let* existing := Users.find_by_email address in
   do* when_ok (is_some existing)
         (AsterError.ValidationError "account exists; automatic linking disabled") in
   let* user := create_user_with_role (new_user_input p name address password verified_at) in
   k user) w = (Err e, w') ->
  external_auth_username_conflict e = false.
Proof.
  intros Hname Hl Hr. unfold bind at 1, Users.find_by_email, db_query, db_exec.
  destruct (db_fault (step w)); [by intros [= <- _]|].
  destruct (is_some _); [by intros [= <- _]|]. unfold bind at 1, when_ok, ret.
  unfold bind at 1, create_user_with_role. unfold bind at 1.
  cbn [cu_username cu_allow_reserved_linuxdo_username new_user_input].
  rewrite user_name_valid by done. cbn [lift]. rewrite Hl. unfold bind at 1, lift.
  unfold validate_reserved_username in *. destruct (strip_prefix _ _) as [s|]; [|done].
  destruct (_ && _); [|done]. by intros [= <- _].
Qed.

(** A user whose name at another provider reads like a Linux DO identity
    ([linuxdo_] and digits) can never be provisioned.  The retries are only
    for names that are taken: the first candidate is refused as reserved and
    the refusal ends the sign-in, although every candidate with a suffix
    would be accepted. *)
Theorem reserved_name_never_provisioned p claims now metadata options w r w' :
  is_linuxdo p = false ->
  validate_reserved_username (external_auth_username_base claims) <> Ok tt ->
  create_external_auth_user_and_identity p claims now metadata options w = (r, w') ->
  is_ok r = false /\
  (forall suffix, str_len suffix = 6%nat -> name_bytes suffix ->
     validate_reserved_username (suffixed_username (external_auth_username_base claims) suffix)
       = Ok tt).
Proof.
  intros Hl Hr H. split; [|intros; apply suffixed_not_reserved; [apply username_base_name|done..]].
  destruct r as [res|e|m]; [|done..]. exfalso. revert H.
  unfold create_external_auth_user_and_identity. intros H.
  do 4 (apply bind_ok in H as (? & ? & _ & H)). cbv zeta in H.
  change (seq 0 UNIQUE_USERNAME_MAX_ATTEMPTS) with (0%nat :: seq 1 4) in H.
  cbn [username_attempts] in H. apply bind_ok in H as (name & w1 & Hn & H).
  unfold external_auth_username_candidate_for_provider, username_stem in Hn. rewrite Hl in Hn.
  injection Hn as <- <-. apply bind_ok in H as (password & w2 & _ & H).
  apply bind_ok in H as (tried & w3 & Ht & H). destruct tried as [res'|e].
  - apply txn_result_run in Ht as (v0 & v1 & _ & Ht & _).
    apply bind_ok in Ht as (? & ? & _ & Ht). apply bind_ok in Ht as (? & ? & _ & Ht).
    apply bind_ok in Ht as (u & v2 & Hu & _).
    apply create_user_with_role_effect in Hu as (_ & Hres & _). by apply Hr, Hres.
  - apply txn_result_failed in Ht as (v0 & v1 & Ht).
    apply reserved_attempt_final in Ht; [|apply username_base_name|done..]. by rewrite Ht in H.
Qed.
End Callback.

(** ** Alice signs in through a provider *)

#[export] Instance external1 : ForgeExternalAuth := {|
  options_from_json := fun _ => None;
  options_to_json := fun _ => Err "unsupported"%string;
  forge_driver := fun k => Ok k;
  start_authorization := fun n _ _ uri =>
    Ok (mkAuthorizationStart (uri +:+ "?state")%string ("state" +:+ pretty n)%string None None);
  exchange_callback := fun _ _ _ c =>
    Ok (mkExternalProfile "https://id.example.org" (callback_code c)
          (Some (callback_code c +:+ "@example.org")%string) true None (Some (callback_code c)));
  normalize_provider_key := fun k => Ok k;
  forge_return_path := fun p _ => Ok (default "/"%string p);
  forge_flow_token := fun t _ => Ok t;
  forge_email_domain_allowed := fun _ _ => Ok true;
  forge_state_hash := fun s => ("#" +:+ s)%string;
  forge_token_hash := fun s => ("#" +:+ s)%string;
  normalize_microsoft_tenant_input := fun t => Ok (default "common"%string t);
  site_origin_for_request := fun _ scheme host => Some (scheme +:+ "://" +:+ host)%string;
  outbound_user_agent := "AsterYggdrasil"%string
|}.
#[export] Instance external_random1 : ExternalRandom := {|
  internal_password_at := fun _ => of_bytes (List.repeat "p"%char 64)
|}.
(** No request gets an answer. *)
#[export] Instance http1 : HttpTransport := {|
  client_error := fun _ => None;
  http_send := fun _ _ => Err "offline"%string
|}.
#[export] Instance linuxdo_json1 : LinuxDoJson := {|
  linuxdo_token_from_json := fun s => Ok s;
  linuxdo_user_from_json := fun s => Err "unsupported"%string;
  trust_level_to_json := fun n => pretty n;
  trust_level_from_json := fun _ => None
|}.

#[local] Existing Instance crypto1.
#[local] Existing Instance crypto1_laws.
#[local] Existing Instance profile_externs1.
#[local] Existing Instance property_externs0.
#[local] Existing Instance config0.
#[local] Instance account_externs1_laws : AccountExternLaws account_externs0.
Proof.
  split; cbn.
  - intros _ p h [= <-]. by rewrite eqb_refl.
  - intros label probe _. apply _.
Qed.

(** A provider that links and provisions, and one with nothing to itself. *)
Definition provider1 : external_auth_provider :=
  mkProvider 1 "example" "Example" None ExternalAuthProviderKind.GenericOAuth2
    ExternalAuthProtocol.OAuth2 "{}" None None None None "client" (Some "secret"%string) "openid"
    true true true false None None None None None None None None 0 0.
Definition flow1 : external_auth_login_flow :=
  mkLoginFlow 1 1 "#s1" None None "https://aster.example.org/callback" (Some "/home"%string) 0
    (seconds 2000) None.
Definition pending1 : external_auth_email_verification_flow :=
  mkEmailFlow 1 1 "https://id.example.org" "ally" (Some "alice@example.org"%string) None None None
    "#oev_1" (Some "#mail"%string) (Some 0) 0 (seconds 3000) None.
Definition external_tables1 : ExternalTables :=
  mkExternal (mkTable [provider1] 2) (mkTable [flow1] 2) (mkTable [] 1) (mkTable [pending1] 2).
Definition external_world : World := set_db (set_external external_tables1 db0) world0.

Definition query1 : ExternalAuthCallbackQuery :=
  mkCallbackQuery (Some "alice"%string) (Some "s1"%string) None None.
Definition callback1 : outcome AsterError.t ExternalAuthCallbackOutcome * World :=
  finish_callback ExternalAuthProviderKind.GenericOAuth2 (Some "example"%string) query1
    external_world.
Definition signed_in_user (o : outcome AsterError.t ExternalAuthCallbackOutcome) : option user :=
  match o with Ok (OutcomeLogin l) => Some (pl_user l) | _ => None end.

Lemma external_usernames_valid_witness :
  exists name, validate_username name = Ok tt /\
    (exists w', external_auth_username_candidate_for_provider provider1
      (mkExternalProfile "ns" "42" None false None (Some "j.D"%string))
      (external_auth_username_base
         (mkExternalProfile "ns" "42" None false None (Some "j.D"%string))) 1 world0 = (Ok name, w')).
Proof.
  destruct (external_usernames_valid provider1
    (mkExternalProfile "ns" "42" None false None (Some "j.D"%string)) 1 world0)
    as (name & w' & H & _ & _ & _ & Hv).
  exists name. split; [exact Hv|]. by exists w'.
Defined.

Lemma external_login_sound_witness :
  signed_in_user (fst callback1) = Some alice /\
  exists i, In i (rows (IdentityRepo.identities (db (snd callback1)))) /\
    identity_user_id i = user_pk alice.
Proof.
  split; [vm_compute; reflexivity|].
  destruct (fst callback1) as [[l|pending]|e|m] eqn:E; [|revert E; vm_compute; discriminate..].
  destruct (external_login_sound ExternalAuthProviderKind.GenericOAuth2 (Some "example"%string)
    query1 external_world l (snd callback1)) as
    (state & code & f & p & now & claims & md & w1 & w2 & r & _ & _ & _ & _ & _ & _ & _ & _ & _ & _
     & _ & _ & i & Hi & _ & _ & Hu).
  - rewrite <- E. apply surjective_pairing.
  - exists i. split; [exact Hi|]. rewrite Hu. revert E. vm_compute. by intros [= <-].
Defined.

Lemma login_state_single_use_witness :
  is_ok (fst callback1) = true /\
  is_ok (fst (finish_callback ExternalAuthProviderKind.GenericOAuth2 (Some "example"%string) query1
                (snd callback1))) = false.
Proof.
  split; [vm_compute; reflexivity|].
  destruct (fst callback1) as [o|e|m] eqn:E; [|revert E; vm_compute; discriminate..].
  apply (login_state_single_use ExternalAuthProviderKind.GenericOAuth2 (Some "example"%string)
    query1 "s1" external_world o (snd callback1) (snd callback1)
    ExternalAuthProviderKind.GenericOAuth2 (Some "example"%string) query1 _
    (snd (finish_callback ExternalAuthProviderKind.GenericOAuth2 (Some "example"%string) query1
            (snd callback1)))).
  - repeat constructor. by intros [].
  - done.
  - rewrite <- E. apply surjective_pairing.
  - constructor.
  - done.
  - apply surjective_pairing.
Defined.

Definition confirmed1 : outcome AsterError.t ExternalAuthPrimaryLogin * World :=
  confirm_email_verification " mail " external_world.
Lemma external_confirmation_atomic_witness :
  pl_user <$> (match fst confirmed1 with Ok l => Some l | _ => None end) = Some alice /\
  exists f, email_flow_verification_hash f = Some (token_hash "mail").
Proof.
  split; [vm_compute; reflexivity|].
  pose proof (external_confirmation_atomic " mail " external_world (fst confirmed1) (snd confirmed1)
    (surjective_pairing _)) as H.
  destruct (fst confirmed1) as [l|e|m] eqn:E; [|revert E; vm_compute; discriminate..].
  destruct H as (f & p & e & now & r & _ & Hh & _). by exists f.
Defined.

Definition linked1 : outcome AsterError.t ExternalAuthPrimaryLogin * World :=
  link_with_password "oev_1" "alice" "secret" external_world.
Lemma password_link_atomic_witness :
  pl_user <$> (match fst linked1 with Ok l => Some l | _ => None end) = Some alice /\
  exists u, In u (rows (users (db external_world))) /\
    verify_password "secret" (password_hash u) = Ok true.
Proof.
  split; [vm_compute; reflexivity|].
  pose proof (password_link_atomic "oev_1" "alice" "secret" external_world (fst linked1)
    (snd linked1) (surjective_pairing _)) as H.
  destruct (fst linked1) as [l|e|m] eqn:E; [|revert E; vm_compute; discriminate..].
  destruct H as (f & p & u & token & now & r & _ & _ & _ & Hu & _ & Hv & _). by exists u.
Defined.

Definition unlinked1 : outcome AsterError.t bool * World := delete_link 1 1 (snd linked1).
Lemma delete_link_exact_witness :
  fst unlinked1 = Ok true /\
  unlink_outcome 1 1 (db (snd linked1)) (fst unlinked1) (db (snd unlinked1)).
Proof.
  split; [vm_compute; reflexivity|].
  apply (delete_link_exact 1 1 (snd linked1) (fst unlinked1) (snd unlinked1)).
  - vm_compute. repeat constructor. by intros [].
  - apply surjective_pairing.
Defined.

Lemma reserved_name_never_provisioned_witness :
  is_ok (fst (create_external_auth_user_and_identity provider1
    (mkExternalProfile "ns" "7" (Some "b@example.org"%string) true None (Some "linuxdo_7"%string))
    0 None DEFAULT_RESOLVE_OPTIONS external_world)) = false.
Proof.
  apply (reserved_name_never_provisioned provider1
    (mkExternalProfile "ns" "7" (Some "b@example.org"%string) true None (Some "linuxdo_7"%string))
    0 None DEFAULT_RESOLVE_OPTIONS external_world _
    (snd (create_external_auth_user_and_identity provider1
    (mkExternalProfile "ns" "7" (Some "b@example.org"%string) true None (Some "linuxdo_7"%string))
    0 None DEFAULT_RESOLVE_OPTIONS external_world))).
  - reflexivity.
  - vm_compute. discriminate.
  - apply surjective_pairing.
Defined.
