(* ===== verification/BindingProofs.v ===== *)
(** * Minecraft account binding and provider secrets: theorems

    What a binding leaves in the tables and whose it is, that a device code
    still binds through a disabled provider, and what an administrator sees
    and keeps of a provider's secret. *)

From Stdlib Require Import ZArith List Bool Lia Ascii.
From stdpp Require Import base decidable list strings pretty relations.
From S2P Require Import Prelude Text Errors Types AuditLog World Logic Repos Bans Tokens Auth Concrete BanProofs ForwardTextures ProfileTextures PropertyProofs AuthConfig Accounts WebSessions AccountFlows AccountSpec AccountOps AccountProofs AccountConcrete AccountSignIn AccountRegistration Tracks ObjectStorage TextureRepo TextureProcessing TextureService TextureWardrobe TextureLibrary TextureInvariant Profiles ProfileProofs ProfileTheorems ExternalAuth ExternalResolution ExternalLogin MinecraftBinding ExternalProviders ExternalProofs ExternalTheorems.

Local Open Scope Z_scope.
Local Open Scope aster_scope.

(** ** The binding *)

Section Binding.
Context `{EN : Env} `{CB : CacheBackend} `{TM : !TxnManager} `{TL : !TxnLaws TM}.
Context `{FC : ForgeCrypto} `{FA : ForgeApi} `{FN : ForgeNumbers} `{TN : TextureNumbers}.
Context `{AE : !AccountExterns} `{CS : ChronoSeconds} `{CF : ForgeConfig} `{ST : ConfigStore}.
Context `{RC : RuntimeConfig} `{FE : ForgeEmail} `{TX : TextureExterns} `{SE : SkinExterns}.
Context `{TS : TextSearch} `{PP : PreviewPolicy} `{IC : ImageCodec} `{FS : FileSystem}.
Context `{BE : BanExterns} {OS : ObjectStorage} `{OT : OfficialTextures} `{PX : ProfileExterns}.
Context `{FX : ForgeExternalAuth} `{HT : HttpTransport} `{BX : BindingExterns}.

(** The identity a Minecraft account is recorded by. *)
Definition minecraft_identity (pk user_id : Z) (p : external_auth_provider)
  (account : MicrosoftMinecraftAccount) (now : DateTimeUtc) : external_auth_identity :=
  mkIdentity pk user_id (provider_pk p) MINECRAFT_IDENTITY_NAMESPACE (ma_uuid account) None
    (Some (ma_name account)) (Some (minecraft_binding_metadata account)) now now (Some now).

Definition is_minecraft_identity (account : MicrosoftMinecraftAccount)
  (i : external_auth_identity) : Prop :=
  identity_namespace i = MINECRAFT_IDENTITY_NAMESPACE /\ identity_subject i = ma_uuid account.

(** What the binding of [account] to [user_id] does to the identities: the
    user's own is touched, or a new one is added when nobody has one for the
    account and the user none with the provider. *)
Definition identities_bound (p : external_auth_provider) (user_id : Z)
  (account : MicrosoftMinecraftAccount) (now : DateTimeUtc) (i : external_auth_identity)
  (linked : bool) (t t' : Table external_auth_identity) : Prop :=
  if linked then
    i = minecraft_identity (next_pk t) user_id p account now /\
    (forall j, In j (rows t) -> ~ is_minecraft_identity account j) /\
    (forall j, In j (rows t) -> ~ (identity_provider_id j = provider_pk p
                                   /\ identity_user_id j = user_id)) /\
    t' = mkTable (rows t ++ [i]) (next_pk t + 1)
  else
    In i (rows t) /\ is_minecraft_identity account i /\ identity_user_id i = user_id /\
    t' = with_rows (update_where (fun j => identity_pk j =? identity_pk i)
           (IdentityRepo.touched None (Some (ma_name account))
              (Some (minecraft_binding_metadata account)) now) (rows t)) t.

(** And to the profiles: the user's own profile of that UUID is kept, or a
    new one is added, of Microsoft's name and UUID, within the user's limit. *)
Definition profiles_bound (user_id : Z) (user_role : UserRole)
  (account : MicrosoftMinecraftAccount) (p : minecraft_profile) (created : bool)
  (t t' : Table minecraft_profile) : Prop :=
  if created then
    (exists now, p = mkProfile (next_pk t) user_id (ma_uuid account) (ma_name account)
                       (ProfileRepo.normalize_profile_name (ma_name account)) Microsoft ModelDefault
                       (uploadable_textures_value policy) 0 now now) /\
    validate_profile_name (ma_name account) = Ok tt /\
    (forall q, In q (rows t) -> ProfileRepo.profile_conflict p q = false) /\
    (is_admin user_role = false ->
     Z.of_nat (count_where (fun q => profile_user_id q =? user_id) (rows t))
       < max_profiles_per_user policy) /\
    t' = mkTable (rows t ++ [p]) (next_pk t + 1)
  else In p (rows t) /\ uuid p = ma_uuid account /\ profile_user_id p = user_id /\ t' = t.

(** Nothing else moves. *)
Definition minecraft_bound (p : external_auth_provider) (user_id : Z) (user_role : UserRole)
  (account : MicrosoftMinecraftAccount) (a : ApplyBindingResult) (d d' : Db) : Prop :=
  exists now ti tp,
    identities_bound p user_id account now (ab_identity a) (ab_identity_linked a)
      (IdentityRepo.identities d) ti /\
    profiles_bound user_id user_role account (ab_profile a) (ab_profile_created a)
      (profiles d) tp /\
    d' = set_profiles tp (set_external_identities ti d).

Lemma find_identity_ok q w o w' :
  IdentityRepo.find_identity q w = (Ok o, w') ->
  same w w' /\ o = find_row q (rows (IdentityRepo.identities (db w))).
Proof. intros (Hr & -> & _)%db_query_ok. split; [apply same_tick|done]. Qed.

Lemma minecraft_identity_ok user_id p account now w i linked w' :
  ensure_minecraft_identity user_id p account (minecraft_binding_metadata account) now w
    = (Ok (i, linked), w') ->
  exists ti,
    identities_bound p user_id account now i linked (IdentityRepo.identities (db w)) ti /\
    db w' = set_external_identities ti (db w).
Proof.
  unfold ensure_minecraft_identity, IdentityRepo.find_by_identity_namespace_subject,
    IdentityRepo.find_by_provider_for_user. intros H.
  apply bind_ok in H as (o & w1 & Ho & H). apply find_identity_ok in Ho as [S1 Ho]. symmetry in Ho.
  destruct o as [found|].
  - apply find_row_some in Ho as [Hin [Hn Hs]%andb_true_iff]. rewrite eqb_true in Hn, Hs.
    apply bind_ok in H as (? & w2 & Hg & H).
    apply when_ok_ok in Hg as [Hu%negb_false_iff%Z.eqb_eq ->].
    apply bind_ok in H as (? & w2 & Ht & H). injection H as <- <- <-.
    unfold IdentityRepo.touch_login in Ht. apply bind_ok in Ht as (n & w3 & Ht & Hb).
    injection Hb as _ <-. apply update_many_ok in Ht as [_ ->]. rewrite (same_db _ _ S1).
    eexists. split; [by split_and!|done].
  - apply bind_ok in H as (o & w2 & Ho2 & H). apply find_identity_ok in Ho2 as [S2 Ho2].
    rewrite (same_db _ _ S1) in Ho2. symmetry in Ho2. destruct o as [|]; [done|].
    apply bind_ok in H as (j & w3 & Hc & H). injection H as <- <- <-.
    apply insert_referring_ok in Hc as (_ & -> & _ & ->).
    rewrite (same_db _ _ S2), (same_db _ _ S1).
    eexists. split; [|done]. split_and!; [done| | |done].
    + intros j Hj [Hn Hs]. apply find_row_is_none with (x := j) in Ho; [|done].
      by rewrite Hn, Hs, !eqb_refl in Ho.
    + intros j Hj [Hn Hs]. apply find_row_is_none with (x := j) in Ho2; [|done].
      by rewrite Hn, Hs, !Z.eqb_refl in Ho2.
Qed.

Lemma create_uuid_ok input w p w' :
  create_profile_with_uuid_in_connection_inner input w = (Ok p, w') ->
  validate_profile_name (cp_name input) = Ok tt /\
  (exists now, p = mkProfile (next_pk (profiles (db w))) (cp_user_id input) (cp_uuid input)
                     (cp_name input) (ProfileRepo.normalize_profile_name (cp_name input)) (cp_source input)
                     ModelDefault (uploadable_textures_value policy) 0 now now) /\
  (forall q, In q (rows (profiles (db w))) -> ProfileRepo.profile_conflict p q = false) /\
  (is_admin (cp_user_role input) = false ->
   Z.of_nat (count_where (fun q => profile_user_id q =? cp_user_id input) (rows (profiles (db w))))
     < max_profiles_per_user policy) /\
  db w' = set_profiles (mkTable (rows (profiles (db w)) ++ [p]) (next_pk (profiles (db w)) + 1))
            (db w).
Proof.
  unfold create_profile_with_uuid_in_connection_inner. intros H.
  apply bind_ok in H as (? & w1 & Hb & H).
  assert (S1 : same w w1) by (by eapply reads_run; [|exact Hb]; apply _). clear Hb.
  apply bind_ok in H as (? & w2 & Hl & H).
  assert (S2 : same w1 w2 /\ (is_admin (cp_user_role input) = false ->
     Z.of_nat (count_where (fun q => profile_user_id q =? cp_user_id input) (rows (profiles (db w1))))
       < max_profiles_per_user policy)).
  { destruct (is_admin _); cbn [negb] in Hl; [by injection Hl as _ <-|].
    apply bind_ok in Hl as (n & w3 & Hn & Hl). apply db_query_ok in Hn as (-> & -> & _).
    apply when_ok_ok in Hl as [Hl%Z.leb_gt ->]. split; [apply same_tick|done]. }
  destruct S2 as [S2 Hlimit]. clear Hl.
  apply bind_ok in H as ([] & w3 & Hv & H). apply lift_ok in Hv as [Hv ->].
  apply bind_ok in H as (? & w3 & Hv' & H). apply lift_ok in Hv' as [_ ->].
  apply bind_ok in H as (? & w3 & Hm & H).
  assert (S3 : same w2 w3) by (by eapply reads_run; [|exact Hm]; apply _). clear Hm.
  apply bind_ok in H as (found & w4 & Hf & H).
  assert (S4 : same w3 w4) by (by eapply reads_run; [|exact Hf]; apply _). clear Hf.
  apply bind_ok in H as (? & w5 & Hg & H). apply when_ok_ok in Hg as [_ ->].
  apply bind_ok in H as (taken & w5 & Ht & H).
  assert (S5 : same w4 w5) by (by eapply reads_run; [|exact Ht]; apply _). clear Ht.
  apply bind_ok in H as (? & w6 & Hg & H). apply when_ok_ok in Hg as [_ ->].
  unfold ProfileRepo.create_with_source in H. apply bind_ok in H as (now & w6 & Hnow & H).
  injection Hnow as <- <-. apply db_insert_ok in H as (-> & Hc & ->).
  cbn [db set_db tick] in *.
  assert (E : db w5 = db w).
  { by rewrite (same_db _ _ S5), (same_db _ _ S4), (same_db _ _ S3), (same_db _ _ S2),
      (same_db _ _ S1). }
  rewrite (same_db _ _ S1) in Hlimit. change (db (tick w5)) with (db w5) in *. rewrite E in *.
  split_and!; [done|by eexists| |done|done].
  intros q Hq. by eapply existsb_false.
Qed.

Lemma minecraft_profile_ok user_id user_role account w p created w' :
  ensure_minecraft_profile user_id user_role account w = (Ok (p, created), w') ->
  exists tp, profiles_bound user_id user_role account p created (profiles (db w)) tp /\
    db w' = set_profiles tp (db w).
Proof.
  unfold ensure_minecraft_profile, ProfileRepo.find_by_uuid. intros H.
  apply bind_ok in H as (o & w1 & Ho & H). apply db_query_ok in Ho as (Ho & -> & _). symmetry in Ho.
  destruct o as [found|].
  - apply find_row_some in Ho as [Hin Hu]. rewrite eqb_true in Hu.
    apply bind_ok in H as (? & w2 & Hg & H).
    apply when_ok_ok in Hg as [Hi%negb_false_iff%Z.eqb_eq ->]. injection H as <- <- <-.
    exists (profiles (db w)). split; [by split_and!|]. cbn. by destruct (db w).
  - apply bind_ok in H as (q & w2 & Hc & H). injection H as <- <- <-.
    apply create_uuid_ok in Hc as (Hv & Hp & Hc & Hl & Hd). cbn in Hv, Hp, Hl.
    eexists. split; [|exact Hd]. by split_and!.
Qed.

Lemma apply_minecraft_binding_ok p user_id user_role account w a w' :
  apply_minecraft_binding p user_id user_role account w = (Ok a, w') ->
  minecraft_bound p user_id user_role account a (db w) (db w').
Proof.
  intros (w0 & w1 & S0 & H & S1)%with_transaction_ok.
  unfold apply_in_txn in H. apply bind_ok in H as (now & v & Hnow & H). injection Hnow as <- <-.
  apply bind_ok in H as ([i linked] & v1 & Hi & H).
  apply minecraft_identity_ok in Hi as (ti & Hi & Hdi).
  apply bind_ok in H as ([q created] & v2 & Hq & H).
  apply minecraft_profile_ok in Hq as (tp & Hq & Hdq). injection H as <- <-.
  change (db (tick w0)) with (db w0) in *. rewrite (same_db _ _ S0) in *. rewrite Hdi in *.
  eexists _, ti, tp. split_and!; [exact Hi|exact Hq|by rewrite (same_db _ _ S1)].
Qed.


(** C20: Binding a Minecraft account is all or nothing.  If it fails no table
    has changed.  If it succeeds the identity of the account's UUID belongs
    to the user: it was theirs and its dates and snapshots are refreshed, or
    nobody had it and the user had none with the provider, and it is new; and
    the profile of that UUID belongs to the user: it was theirs and is kept,
    or no profile had its UUID or its name, the name is valid, a user who is
    no administrator was below the limit, and it is new, with Microsoft as
    its source.  Nothing else changes. *)
Theorem minecraft_binding_atomic p user_id user_role account w r w' :
  apply_minecraft_binding p user_id user_role account w = (r, w') ->
  match r with
  | Ok a => minecraft_bound p user_id user_role account a (db w) (db w')
  | _ => db w' = db w
  end.
Proof.
  intros H. destruct r as [a|e|m]; [|by eapply (aon_with_transaction (apply_in_txn _ _ _ _))..].
  by apply apply_minecraft_binding_ok.
Qed.
(** *** The callback *)

Definition live_binding_flow (state : string) (now : DateTimeUtc) (f : external_auth_binding_flow)
  (d : Db) : Prop :=
  In f (rows (binding_flows (external d))) /\ binding_state_hash f = state_hash state /\
  binding_flow_consumed_at f = None /\ now < binding_flow_expires_at f.

(** An enabled Microsoft provider the flow was started with. *)
Definition binding_provider (key : option string) (f : external_auth_binding_flow)
  (p : external_auth_provider) (d : Db) : Prop :=
  In p (rows (external_providers (external d))) /\ provider_pk p = binding_flow_provider_id f /\
  provider_auth_kind p = ExternalAuthProviderKind.Microsoft /\ provider_enabled p = true /\
  forall k, key = Some k -> exists k', normalize_key k = Ok k' /\
    provider_key_matches (provider_auth_kind p) (provider_key p) k' = true.

Definition binding_flow_used (f : external_auth_binding_flow) (now : DateTimeUtc) (d : Db) : Db :=
  set_binding_flows
    (with_rows (update_where
       (fun g => (binding_flow_pk g =? binding_flow_pk f) && BindingFlowRepo.active now g)
       (BindingFlowRepo.set_consumed now) (rows (BindingFlowRepo.flows d)))
       (BindingFlowRepo.flows d)) d.

Lemma consume_binding_hash_ok hash now w f w' :
  BindingFlowRepo.consume_by_state_hash hash now w = (Ok (Some f), w') ->
  In f (rows (binding_flows (external (db w)))) /\ binding_state_hash f = hash /\
  binding_flow_consumed_at f = None /\ now < binding_flow_expires_at f /\
  db w' = binding_flow_used f now (db w).
Proof.
  unfold BindingFlowRepo.consume_by_state_hash. intros H.
  apply bind_ok in H as (o & w1 & Ho & H). apply db_query_ok in Ho as (Ho & -> & _).
  destruct o as [g|]; [|done]. symmetry in Ho.
  apply bind_ok in H as (b & w2 & Hb & H). unfold BindingFlowRepo.consume_by_id in Hb.
  apply bind_ok in Hb as (n & w3 & Hn & Hb). apply update_many_ok in Hn as [_ ->].
  injection Hb as <- <-. injection H as H <-. destruct (update_one n); [|done]. injection H as ->.
  apply find_row_some in Ho as [Hin [Hh Ha]%andb_true_iff]. rewrite eqb_true in Hh.
  unfold BindingFlowRepo.active in Ha. apply andb_true_iff in Ha as [Hc He%Z.ltb_lt].
  split_and!; [done|done|by destruct (binding_flow_consumed_at f)|done|done].
Qed.

Lemma consume_binding_flow_ok key state w f p w' :
  consume_binding_flow ExternalAuthProviderKind.Microsoft key state w = (Ok (f, p), w') ->
  exists now, live_binding_flow state now f (db w) /\ binding_provider key f p (db w) /\
    db w' = binding_flow_used f now (db w).
Proof.
  unfold consume_binding_flow. intros H.
  apply bind_ok in H as (now & w1 & Hnow & H). injection Hnow as <- <-.
  apply bind_ok in H as (o & w1 & Ho & H).
  apply bind_ok in H as (g & w2 & Hg & H). apply lift_ok in Hg as [Hg%ok_or_ok ->]. subst o.
  apply consume_binding_hash_ok in Ho as (Hin & Hh & Hc & He & Hd).
  apply bind_ok in H as (q & w2 & Hq & H). apply provider_by_id_ok in Hq as (S2 & Hqin & Hpk).
  apply bind_ok in H as (? & w3 & Hk & H). apply when_ok_ok in Hk as [Hk%negb_false_iff ->].
  apply bind_ok in H as (? & w3 & Hkey & H).
  apply bind_ok in H as (? & w4 & Hen & H). apply lift_ok in Hen as [Hen ->].
  injection H as -> -> <-. rewrite eqb_true in Hk.
  assert (w3 = w2 /\ forall k, key = Some k -> exists k', normalize_key k = Ok k' /\
            provider_key_matches (provider_auth_kind p) (provider_key p) k' = true) as [-> Hkeys].
  { destruct key as [k|]; [|by injection Hkey as <-].
    apply bind_ok in Hkey as (k' & w4 & Hk' & Hkey). apply lift_ok in Hk' as [Hk' ->].
    apply when_ok_ok in Hkey as [Hm%negb_false_iff ->]. split; [done|]. intros ? [= <-]. eauto. }
  unfold ensure_provider_enabled in Hen. destruct (provider_enabled p) eqn:Ep; [|done].
  eexists. split_and!; [by split_and!| |by rewrite (same_db _ _ S2)].
  rewrite Hd in Hqin. by split_and!.
Qed.

(** What both ends of a flow do with the account: bind it, then fetch its
    textures, which cannot fail it. *)
Definition binding_finished (p : external_auth_provider) (f : external_auth_binding_flow)
  (account : MicrosoftMinecraftAccount) (w : World)
  (b : ExternalAuthMinecraftBindingCallbackResult) (w' : World) : Prop :=
  exists u a w1,
    In u (rows (users (db w))) /\ user_pk u = binding_flow_user_id f /\
    minecraft_bound p (binding_flow_user_id f) (role u) account a (db w) (db w1) /\
    sync_official_minecraft_textures (ab_profile a) account w1 = (Ok tt, w') /\
    b = mkBindingResult (binding_flow_user_id f) (provider_pk p) (identity_pk (ab_identity a))
          (ab_profile a) (ab_identity_linked a) (ab_profile_created a)
          (default "/account"%string (binding_return_path f)).

#[export] Instance reads_account_of_token endpoints token : Reads (account_of_token endpoints token).
Proof.
  unfold account_of_token, authenticate_xbox_live, authorize_xsts, login_minecraft_with_xbox,
    fetch_minecraft_profile. apply _.
Qed.
#[export] Instance reads_exchange_account p code uri verifier :
  Reads (exchange_microsoft_minecraft_account p code uri verifier).
Proof. unfold exchange_microsoft_minecraft_account, exchange_microsoft_code_for_token. apply _. Qed.

Lemma finish_binding_ok p f account w b w' :
  finish_binding p f account w = (Ok b, w') -> binding_finished p f account w b w'.
Proof.
  unfold finish_binding, user_role_for_binding. intros H.
  apply bind_ok in H as (ur & w1 & Hr & H). apply bind_ok in Hr as (u & w2 & Hu & Hr).
  injection Hr as <- <-. apply find_by_id_ok in Hu as (Hin & Hpk & S1).
  apply bind_ok in H as (a & w3 & Ha & H). apply apply_minecraft_binding_ok in Ha.
  rewrite (same_db _ _ S1) in Ha.
  apply bind_ok in H as ([] & w4 & Hs & H). injection H as <- <-.
  exists u, a, w3. by split_and!.
Qed.

(** C17: A Minecraft account is bound through the callback only for the user
    who started the flow.  When the callback succeeds its kind is Microsoft,
    it reports no error, and its state is that of a live flow of an enabled
    Microsoft provider, which is used up; the account is what the exchange of
    the code returned, with the flow's redirection and verifier; and it is
    bound, as above, to the existing user the flow was created for. *)
Theorem minecraft_binding_sound kind key query w b w' :
  finish_minecraft_binding_callback kind key query w = (Ok b, w') ->
  exists state code f p now account w1 w2,
    kind = ExternalAuthProviderKind.Microsoft /\ cq_error query = None /\
    cq_state query = Some state /\ cq_code query = Some code /\
    live_binding_flow state now f (db w) /\ binding_provider key f p (db w) /\
    db w1 = binding_flow_used f now (db w) /\
    exchange_microsoft_minecraft_account p code (binding_redirect_uri f)
      (binding_pkce_verifier f) w1 = (Ok account, w2) /\
    db w2 = db w1 /\ binding_finished p f account w2 b w'.
Proof.
  unfold finish_minecraft_binding_callback. intros H.
  apply bind_ok in H as (? & w1 & Hk & H). apply lift_ok in Hk as [Hk ->].
  unfold ensure_minecraft_binding_provider_kind in Hk.
  destruct (eqb kind _) eqn:Ek; [|done]. rewrite eqb_true in Ek. subst kind.
  destruct (callback_error query) eqn:Ee; [done|].
  apply bind_ok in H as (code & w1 & Hc & H). apply lift_ok in Hc as [Hc%ok_or_ok ->].
  apply bind_ok in H as (state & w1 & Hs & H). apply lift_ok in Hs as [Hs%ok_or_ok ->].
  apply bind_ok in H as ([f p] & w1 & Hf & H).
  apply consume_binding_flow_ok in Hf as (now & Hlive & Hp & Hd).
  apply bind_ok in H as (account & w2 & Hx & H). apply finish_binding_ok in H.
  exists state, code, f, p, now, account, w1, w2. split_and!; try done.
  - unfold callback_error in Ee. by destruct (cq_error query).
  - apply same_db. eapply reads_run; [|exact Hx]. apply _.
Qed.
End Binding.

(** ** The secret of a provider *)

Section Secrets.
Context `{EN : Env} `{CB : CacheBackend} `{FA : ForgeApi} `{AE : !AccountExterns}.
Context `{FX : ForgeExternalAuth} `{PI : ProviderInputs}.

#[local] Instance reads_registered id : Reads (registered_provider id).
Proof. unfold registered_provider. apply _. Qed.
#[local] Instance reads_changed {A B} (field : option A) (f : A -> outcome AsterError.t B) :
  Reads (changed field f).
Proof. unfold changed. apply _. Qed.

#[local] Instance reads_claim_change field name : Reads (claim_change field name).
Proof. unfold claim_change. apply _. Qed.

Lemma bind_read {A B} (c : M AsterError.t A) `{Hc : !Reads c} (k : A -> M AsterError.t B) w0 w b w' :
  same w0 w -> bind c k w = (Ok b, w') ->
  exists a w1, same w0 w1 /\ k a w1 = (Ok b, w').
Proof.
  intros S (a & w1 & Ha & H)%bind_ok. exists a, w1. split; [|done].
  eapply same_trans; [exact S|]. by eapply reads_run.
Qed.

(** The statements of [H] that only read are passed. *)
Ltac skip_reads H S :=
  repeat match type of H with
  | bind (ProviderRepo.update _ _) _ _ = _ => fail 1
  | bind _ _ _ = _ => 
      eapply bind_read in H as (? & ? & ? & H);
      [clear S; rename select (same _ _) into S|apply _|exact S]
  end.

(** The provider [id] of the tables. *)
Definition provider_row (id : Z) (d : Db) : option external_auth_provider :=
  find_row (fun p => provider_pk p =? id) (rows (external_providers (external d))).

Lemma registered_provider_ok id w p w' :
  registered_provider id w = (Ok p, w') -> same w w' /\ provider_row id (db w) = Some p.
Proof.
  intros H. assert (Hs : same w w') by (by eapply reads_run; [|exact H]; apply _).
  split; [done|]. unfold registered_provider in H. apply bind_ok in H as (q & w1 & Hq & H).
  inv_ok H. unfold ProviderRepo.find_by_id in Hq. inv_ok Hq. by apply ok_or_ok in Hr1.
Qed.

Lemma provider_update_ok id f w p w' p0 :
  (forall q, provider_pk (f q) = provider_pk q) ->
  provider_row id (db w) = Some p0 -> ProviderRepo.update id f w = (Ok p, w') ->
  p = f p0 /\ provider_row id (db w') = Some p.
Proof.
  intros Hf H0. unfold ProviderRepo.update, db_update, db_exec, update_row.
  destruct (db_fault _); [done|]. unfold ProviderRepo.providers. unfold provider_row in *.
  rewrite H0. intros [= <- <-]. split; [done|]. cbn. by apply find_row_update_where.
Qed.

(** What an administrator is shown tells whether there is a secret. *)
Lemma shown_secret p info :
  provider_to_admin p = Ok info ->
  ap_client_secret info = option_map (fun _ => REDACTED_SECRET) (stored_secret p) /\
  ap_client_secret_configured info = is_some (stored_secret p).
Proof.
  unfold provider_to_admin, and_then. destruct (parse_allowed_domains _) as [ds|?|?]; [|done..].
  destruct (admin_provider_options _ _ _) as [o|?|?]; [|done..]. by intros [= <-].
Qed.

(** The form leaves the secret out, says nothing of it, or sends it back as
    it was shown. *)
Definition echoes_secret (info : AdminExternalAuthProviderInfo)
  (input : UpdateExternalAuthProviderInput) : Prop :=
  un_client_secret input = None \/ un_client_secret input = Some Bans.Absent \/
  un_client_secret input =
    Some match ap_client_secret info with Some s => Bans.Value s | None => Bans.Null end.

Definition secret_of (secret : option string) : option string :=
  match secret with Some s => if is_empty s then None else Some s | None => None end.

Lemma echo_keeps_secret info input p :
  provider_to_admin p = Ok info -> echoes_secret info input ->
  secret_of (default (client_secret p)
    (option_map (fun v => normalize_secret_update v (client_secret p)) (un_client_secret input)))
  = stored_secret p.
Proof.
  intros [Hs _]%shown_secret H. destruct H as [->|[->| ->]]; [done..|]. rewrite Hs.
  unfold stored_secret. destruct (client_secret p) as [s|]; [|done]. cbn.
  by destruct s.
Qed.

(** C33: A provider's secret survives an edit of the form it is hidden in.
    An administrator is shown the placeholder when the provider has a
    secret and nothing otherwise, never the secret; and an update whose
    form leaves the field out or sends back what was shown stores the same
    secret as before, whatever else it changes, and shows the same again. *)
Theorem provider_secret_roundtrip id input w info w1 info' w2 :
  get_admin_provider id w = (Ok info, w1) ->
  update_provider id input w1 = (Ok info', w2) ->
  echoes_secret info input ->
  exists p p', provider_row id (db w) = Some p /\ provider_row id (db w2) = Some p' /\
    ap_client_secret info = option_map (fun _ => REDACTED_SECRET) (stored_secret p) /\
    stored_secret p' = stored_secret p /\ ap_client_secret info' = ap_client_secret info.
Proof.
  unfold get_admin_provider. intros Hg Hu He.
  apply bind_ok in Hg as (p & wa & Hp & Hg). apply registered_provider_ok in Hp as [S1 Hp].
  apply lift_ok in Hg as [Hg ->].
  unfold update_provider in Hu. apply bind_ok in Hu as (q & wb & Hq & Hu).
  apply registered_provider_ok in Hq as [S2 Hq]. rewrite (same_db _ _ S1), Hp in Hq.
  injection Hq as <-. cbv zeta in Hu.
  assert (S : same w wb) by (by eapply same_trans). clear S1 S2.
  skip_reads Hu S.
  apply bind_ok in Hu as (p' & wc & Hu & Ha). apply lift_ok in Ha as [Ha ->].
  assert (Hpk : provider_pk p = id) by (by apply find_row_some in Hp as [_ Hp%Z.eqb_eq]).
  rewrite Hpk in Hu.
  eapply provider_update_ok in Hu as [E Hrow]; [|done|by rewrite (same_db _ _ S) in *].
  apply shown_secret in Ha as [Ha _].
  assert (Hsecret : stored_secret p' = stored_secret p)
    by (subst p'; by apply (echo_keeps_secret info input p)).
  exists p, p'. split_and!; [done|done|by apply shown_secret in Hg as [Hg _]|done|].
  apply shown_secret in Hg as [Hg _]. by rewrite Ha, Hg, Hsecret.
Qed.
End Secrets.

(** ** Alice binds an account *)

(** Every request is answered, with the account Notch. *)
#[local] Instance http2 : HttpTransport := {|
  client_error := fun _ => None;
  http_send := fun _ _ => Ok (mkHttpReply 200 (Ok EmptyString))
|}.
#[local] Instance binding_externs1 : BindingExterns := {|
  parse_any_url := fun u => Ok (mkParsedUrl "https" (Some "login.live.com"%string) None None);
  device_code_from_json := fun _ => Ok (mkDeviceCode None None None None None);
  device_token_from_json := fun _ => Ok (mkDeviceToken (Some "token"%string) None None);
  microsoft_token_from_json := fun _ => Ok "token"%string;
  xbox_from_json := fun _ => Ok (mkXboxResponse "xbox" [Some "hash"%string]);
  minecraft_token_from_json := fun _ => Ok "minecraft"%string;
  minecraft_profile_from_json := fun _ =>
    Ok (mkProfileResponse "069a79f444e94726a5befca90e38aaf5" "Notch" [] []);
  binding_metadata_to_json := fun u _ _ => u
|}.
#[local] Existing Instance profile_externs1.
#[local] Existing Instance crypto1.
#[local] Existing Instance config0.

(** Microsoft's provider, and the flows of Alice with it. *)
Definition microsoft1 (enabled : bool) : external_auth_provider :=
  mkProvider 1 "microsoft" "Microsoft" None ExternalAuthProviderKind.Microsoft
    ExternalAuthProtocol.OAuth2 "{}" None None (Some "https://login.live.com/token"%string) None
    "client" (Some "secret"%string) "openid" enabled false false false None None None None None None
    None None 0 0.
Definition binding_flow1 : external_auth_binding_flow :=
  mkBindingFlow 1 1 1 "#s1" None (Some "verifier"%string) "https://aster.example.org/callback" None 0
    (seconds 2000) None.
Definition binding_world (enabled : bool) : World :=
  set_db (set_external
    (mkExternal (mkTable [microsoft1 enabled] 2) (mkTable [] 1) (mkTable [binding_flow1] 2)
       (mkTable [] 1)) (set_profiles (mkTable [] 1) db0)) world0.

Definition bound1 : outcome AsterError.t ExternalAuthMinecraftBindingCallbackResult * World :=
  finish_minecraft_binding_callback ExternalAuthProviderKind.Microsoft (Some "microsoft"%string)
    query1 (binding_world true).
Definition notch : MicrosoftMinecraftAccount :=
  mkMinecraftAccount "069a79f444e94726a5befca90e38aaf5" "Notch" None (mkOfficialTextures None None).

Definition bound_name (o : outcome AsterError.t ExternalAuthMinecraftBindingCallbackResult)
  : option (Z * string) :=
  match o with Ok b => Some (br_user_id b, profile_name (br_profile b)) | _ => None end.

Definition applied1 : outcome AsterError.t ApplyBindingResult * World :=
  apply_minecraft_binding (microsoft1 true) 1 User notch (binding_world true).

Lemma minecraft_binding_atomic_witness :
  is_ok (fst applied1) = true /\
  exists tp ti, db (snd applied1) = set_profiles tp (set_external_identities ti (db (binding_world true))).
Proof.
  split; [vm_compute; reflexivity|].
  pose proof (minecraft_binding_atomic (microsoft1 true) 1 User notch (binding_world true)
    (fst applied1) (snd applied1) (surjective_pairing _)) as H.
  destruct (fst applied1) as [a|e|m] eqn:E; [|revert E; vm_compute; discriminate..].
  destruct H as (now & ti & tp & _ & _ & H). by exists tp, ti.
Defined.

Lemma minecraft_binding_sound_witness :
  bound_name (fst bound1) = Some (1, "Notch"%string) /\
  exists f, In f (rows (binding_flows (external (db (binding_world true))))) /\
    binding_state_hash f = state_hash "s1".
Proof.
  split; [vm_compute; reflexivity|].
  destruct (fst bound1) as [b|e|m] eqn:E; [|revert E; vm_compute; discriminate..].
  destruct (minecraft_binding_sound ExternalAuthProviderKind.Microsoft (Some "microsoft"%string)
    query1 (binding_world true) b (snd bound1)) as
    (state & code & f & p & now & account & w1 & w2 & _ & _ & Hs & _ & (Hin & Hh & _) & _).
  - rewrite <- E. unfold bound1. apply surjective_pairing.
  - exists f. split; [exact Hin|]. rewrite Hh. by injection Hs as <-.
Defined.

(** A device code binds through a disabled provider.  Starting a binding
    and the callback of a binding refuse a provider that is not enabled; but
    asking for the status of a device code does not look: with the provider
    disabled, Alice's live flow still ends with Notch's account, identity and
    profile bound to her. *)
Theorem disabled_provider_binds :
  fst (finish_minecraft_binding_callback ExternalAuthProviderKind.Microsoft None query1
         (binding_world false))
    = Err (AsterError.auth_forbidden_code AsterErrorCode.ExternalAuthProviderDisabled
             "external auth provider is disabled") /\
  match check_device_code_status 1 "s1" (binding_world false) with
  | (Ok (Some b), w') =>
      profile_name (br_profile b) = "Notch"%string /\
      exists i, In i (rows (IdentityRepo.identities (db w'))) /\ identity_user_id i = 1 /\
        identity_subject i = ma_uuid notch
  | _ => False
  end.
Proof.
  split; [vm_compute; reflexivity|]. vm_compute. split; [reflexivity|].
  eexists. split; [by left|done].
Qed.

(** *** A secret kept *)

#[local] Instance provider_inputs1 : ProviderInputs := {|
  forge_kinds := [ForgeProviderKind.GenericOAuth2];
  forge_descriptors := [linuxdo_descriptor];
  forge_descriptor_for := fun _ => Ok linuxdo_descriptor;
  forge_test_provider := fun _ _ _ => Ok (mkTestResult "" None None None None None []);
  forge_parse_allowed_domains := fun _ => Ok [];
  forge_required_field := fun v _ _ => Ok v;
  forge_optional_claim := fun v _ => Ok v;
  forge_scopes := fun v d _ => Ok (default d v);
  forge_icon_url := fun v _ => Ok v;
  forge_issuer_url := fun v _ _ => Ok v;
  forge_manual_endpoint := fun v _ _ _ _ => Ok v;
  forge_allowed_domains := fun _ => Ok None;
  forge_microsoft_tenant_or_issuer_url := fun v => Ok v
|}.

(** The form of the provider "Example", with a new name and the placeholder. *)
Definition edit1 : UpdateExternalAuthProviderInput :=
  mkUpdateProvider (Some "Sample"%string) None None None None None None None
    (Some (Bans.Value "***REDACTED***"%string)) None None None None None None None None None None
    None None None.
Definition shown1 : outcome AsterError.t AdminExternalAuthProviderInfo * World :=
  get_admin_provider 1 external_world.
Definition edited1 : outcome AsterError.t AdminExternalAuthProviderInfo * World :=
  update_provider 1 edit1 (snd shown1).

Lemma provider_secret_roundtrip_witness :
  ap_display_name <$> (match fst edited1 with Ok i => Some i | _ => None end) = Some "Sample"%string /\
  stored_secret <$> provider_row 1 (db (snd edited1)) = Some (Some "secret"%string).
Proof.
  split; [vm_compute; reflexivity|].
  destruct (fst shown1) as [i|e|m] eqn:E; [|revert E; vm_compute; discriminate..].
  destruct (fst edited1) as [i'|e|m] eqn:E'; [|revert E'; vm_compute; discriminate..].
  destruct (provider_secret_roundtrip 1 edit1 external_world i (snd shown1) i' (snd edited1))
    as (p & p' & Hp & Hp' & _ & Hs & _).
  - rewrite <- E. unfold shown1. apply surjective_pairing.
  - rewrite <- E'. unfold edited1. apply surjective_pairing.
  - right. right. revert E. vm_compute. by intros [= <-].
  - rewrite Hp'. cbn. rewrite Hs. revert Hp. vm_compute. by intros [= <-].
Defined.
