(* ===== verification/AdminProofs.v ===== *)
(** * Theorems about the administration of users

    Generated passwords, what administrators cannot do to the super
    administrator, and what keeps a user from being deleted. *)

From Stdlib Require Import ZArith List Bool Lia Ascii Permutation.
From stdpp Require Import base decidable list strings gmap pretty relations.
From S2P Require Import Prelude Text Errors Types AuditLog World Logic Repos Bans Tokens Auth Concrete BanProofs AuthProofs ForwardTextures Sessions ProfileTextures AuthConfig Accounts WebSessions AccountSpec AccountOps AccountConcrete Invitations Tracks InvitationProofs ObjectStorage TextureRepo TextureProcessing TextureService TextureWardrobe TextureLibrary TextureInvariant BlobProofs Profiles ProfileProofs ProfileTheorems ExternalAuth UserProfiles AdminUsers.

Local Open Scope Z_scope.
Local Open Scope aster_scope.

(** ** Generated passwords *)

Section Passwords.
Context `{EN : Env} `{CB : CacheBackend}.

Lemma swap_permutation {A} i j (l : list A) : Permutation (swap i j l) l.
Proof.
  unfold swap. destruct (l !! i) as [a|] eqn:Ei; [|done]. destruct (l !! j) as [b|] eqn:Ej; [|done].
  by apply Permutation_insert_swap.
Qed.

Lemma shuffle_run {A} n (l : list A) w :
  exists l' w', shuffle n l w = (Ok l', w') /\ same w w' /\ Permutation l' l.
Proof.
  revert l w. induction n as [|n IH]; intros l w; cbn [shuffle]; [by exists l, w|].
  unfold bind, random_range. set (i := random_draw _ _).
  destruct (IH (swap (S n) (Z.to_nat i) l) (tick w)) as (l' & w' & -> & Hs & Hp).
  exists l', w'. split_and!; [done|by eapply same_trans; [apply same_tick|]|].
  by rewrite Hp, swap_permutation.
Qed.

Lemma draw_run charset w :
  charset <> [] -> exists a, draw charset w = (Ok a, tick w) /\ In a charset.
Proof.
  intros Hc. unfold draw, bind, random_range, ret. set (i := Z.to_nat _). eexists. split; [done|].
  destruct (nth_in_or_default i charset (hd "?"%char charset)) as [Hin| ->]; [done|].
  destruct charset; [done|by left].
Qed.

(** One character of each of the sets, in their order. *)
Lemma draws_run charsets w :
  Forall (fun c => c <> []) charsets ->
  exists l w', draws charsets w = (Ok l, w') /\ same w w' /\
    Forall2 (fun a charset => In a charset) l charsets.
Proof.
  revert w. induction charsets as [|charset charsets IH]; intros w H; cbn [draws].
  { exists [], w. by repeat constructor. }
  apply Forall_cons in H as [Hc H]. unfold bind.
  destruct (draw_run charset w Hc) as (a & -> & Ha).
  destruct (IH (tick w) H) as (l & w' & -> & Hs & Hl). exists (a :: l), w'.
  split_and!; [done|by eapply same_trans; [apply same_tick|]|by constructor].
Qed.

Definition drawn_from (charset : list ascii) (password : string) : Prop :=
  exists a, In a charset /\ In a (bytes password).

(** The temporary password an account is created with: generating one
    never fails and touches nothing, and whatever is drawn it has twenty-four
    characters of the charset, among them an upper-case and a lower-case
    letter, a digit and a symbol, and the password policy accepts it. *)
Theorem generated_password_strong w :
  exists password w',
    generate_temporary_password w = (Ok password, w') /\ same w w' /\
    str_len password = GENERATED_PASSWORD_LENGTH /\
    Forall (fun a => In a GENERATED_PASSWORD_CHARSET) (bytes password) /\
    drawn_from GENERATED_PASSWORD_UPPERCASE password /\
    drawn_from GENERATED_PASSWORD_LOWERCASE password /\
    drawn_from GENERATED_PASSWORD_DIGITS password /\
    drawn_from GENERATED_PASSWORD_SYMBOLS password /\
    validate_password password = Ok tt.
Proof.
  unfold generate_temporary_password. set (charsets := _ ++ _).
  destruct (draws_run charsets w) as (l & w1 & E & Hs & Hl); [by repeat constructor|].
  unfold bind. rewrite E. destruct (shuffle_run (length l - 1) l w1) as (l' & w2 & -> & Hs2 & Hp).
  assert (Hlen : str_len (of_bytes l') = GENERATED_PASSWORD_LENGTH).
  { unfold str_len. rewrite <- length_bytes, bytes_of_bytes, (Permutation_length Hp).
    by rewrite (Forall2_length _ _ _ Hl). }
  assert (Hin : forall i charset, charsets !! i = Some charset -> drawn_from charset (of_bytes l')).
  { intros i charset Hi. destruct (Forall2_lookup_r _ _ _ _ _ Hl Hi) as (a & Ha & Hc).
    exists a. split; [done|]. rewrite bytes_of_bytes. apply (Permutation_in a (Permutation_sym Hp)).
    by eapply list_elem_of_In, list_elem_of_lookup_2. }
  exists (of_bytes l'), w2. split_and!; [done|by eapply same_trans|done| |..].
  - rewrite bytes_of_bytes, Hp. apply Forall_forall. intros a (i & Hi)%list_elem_of_lookup.
    destruct (Forall2_lookup_l _ _ _ _ _ Hl Hi) as (charset & Hc & Ha).
    assert (forall b, In b charset -> In b GENERATED_PASSWORD_CHARSET) as H; [|auto].
    assert (Forall (fun charset => forallb (fun b => mem b GENERATED_PASSWORD_CHARSET) charset = true)
              charsets) as H by (by repeat constructor).
    eapply Forall_lookup_1 in H; [|done]. rewrite forallb_forall in H.
    intros b Hb. by apply mem_true, H.
  - by apply (Hin 0%nat).
  - by apply (Hin 1%nat).
  - by apply (Hin 2%nat).
  - by apply (Hin 3%nat).
  - unfold validate_password. by rewrite Hlen.
Qed.
End Passwords.

(** ** The super administrator *)

Definition the_super (d : Db) : option user :=
  find_row (fun u => user_pk u =? SUPER_ADMIN_USER_ID) (rows (users d)).

(** Their role is [r] and their status [s]. *)
Definition standing (r : UserRole) (s : UserStatus) (d : Db) : Prop :=
  exists u, the_super d = Some u /\ role u = r /\ user_status u = s.

Definition standing_kept r s (d d' : Db) : Prop := standing r s d -> standing r s d'.

#[export] Instance standing_preorder r s : PreOrder (standing_kept r s).
Proof. split; unfold standing_kept; [by intros d|auto]. Qed.

#[export] Instance standing_frame r s : TextureFrame (standing_kept r s).
Proof. split; [apply _|unfold standing_kept; by intros; cbn..]. Qed.

Section Super.
Context `{EN : Env} `{CB : CacheBackend} `{TM : !TxnManager} `{TL : !TxnLaws TM}.
Context `{FC : ForgeCrypto} `{FA : ForgeApi} `{FN : ForgeNumbers} `{FG : ForgeSigned}.
Context `{TN : TextureNumbers} `{AE : !AccountExterns} `{AL : !AccountExternLaws AE}.
Context `{CF : ForgeConfig} `{ST : ConfigStore} `{RC : RuntimeConfig} `{FE : ForgeEmail}.
Context `{TX : TextureExterns} `{SE : SkinExterns} `{TS : TextSearch} `{PP : PreviewPolicy}.
Context `{IC : ImageCodec} `{FS : FileSystem} `{BE : BanExterns} {OS : ObjectStorage}.
Context `{OL : !ObjectStorageLaws OS} `{PX : ProfileExterns}.

(** *** Blocks that only read *)

#[export] Instance reads_scopes_of ids : Reads (OperatorScopeRepo.list_for_user_ids ids).
Proof. unfold OperatorScopeRepo.list_for_user_ids. destruct ids; apply _. Qed.
#[export] Instance reads_count_by what count ids : Reads (count_by what count ids).
Proof. unfold count_by. apply _. Qed.
#[export] Instance reads_hydrate us : Reads (hydrate_users us).
Proof.
  unfold hydrate_users, count_profiles_by_user_ids, count_active_sessions_by_user_ids,
    get_profile_info_map, UserProfileRepo.find_by_user_ids. cbv zeta. destruct us; cbn; apply _.
Qed.
#[export] Instance reads_hydrate_one what u : Reads (hydrate_one what u).
Proof. unfold hydrate_one. apply _. Qed.
#[export] Instance reads_get_user id : Reads (get_user id).
Proof. unfold get_user. apply _. Qed.
#[export] Instance reads_scopes id : Reads (list_operator_scopes_for_user id).
Proof. unfold list_operator_scopes_for_user. apply _. Qed.
#[export] Instance reads_draws charsets : Reads (draws charsets).
Proof. induction charsets as [|c l IH]; cbn; [apply _|]. unfold draw. apply _. Qed.
#[export] Instance reads_shuffle {A} n (l : list A) : Reads (shuffle n l).
Proof. revert l. induction n as [|n IH]; intros l; cbn; apply _. Qed.
#[export] Instance reads_generate : Reads generate_temporary_password.
Proof. unfold generate_temporary_password. apply _. Qed.
#[export] Instance reads_checked {A B} (v : option A) (f : A -> M AsterError.t B) :
  (forall a, Reads (f a)) -> Reads (checked v f).
Proof. intros H. destruct v; cbn; apply _. Qed.

(** *** Writes *)

Section Standing.
Context {r : UserRole} {s : UserStatus}.

(** A guard that the rest relies on. *)
Lemma tracks_guarded {R : relation Db} `{!PreOrder R} {E A} b (e : E) (k : unit -> M E A) :
  (b = false -> Tracks R (k tt)) -> Tracks R (bind (when_ok b e) k).
Proof. intros H w. unfold bind, when_ok. destruct b; cbn; [done|by apply H]. Qed.

(** A write to a table other than the users. *)
Lemma standing_same {A} (f : Db -> outcome AsterError.t (A * Db)) :
  (forall d a d', f d = Ok (a, d') -> users d' = users d) -> Tracks (standing_kept r s) (db_exec f).
Proof.
  intros H. apply tracks_db_exec. intros d a d' Hf. unfold standing_kept, standing, the_super.
  by rewrite (H d a d' Hf).
Qed.

Lemma standing_update id f :
  (forall u, user_pk (f u) = user_pk u) ->
  (id = SUPER_ADMIN_USER_ID ->
   forall u, role u = r -> user_status u = s -> role (f u) = r /\ user_status (f u) = s) ->
  Tracks (standing_kept r s) (Users.update id f).
Proof.
  intros Hk Hf. apply tracks_db_exec. intros d a d' Hd (u & Hu & Hr & Hs).
  destruct (update_row _ _ _ _) as [[v t]|] eqn:E; [|done]. destruct (existsb _ _); [done|].
  injection Hd as _ <-. unfold update_row in E. destruct (find_row _ _) as [x|]; [|done].
  injection E as _ <-. unfold standing, the_super. cbn.
  destruct (decide (id = SUPER_ADMIN_USER_ID)) as [->|Hid].
  - exists (f u). split; [|by apply Hf]. by apply find_row_update_where.
  - exists u. split; [|done]. rewrite find_row_update_other; [done|].
    intros y Hy. rewrite Hk. split; apply Z.eqb_neq; apply Z.eqb_eq in Hy; lia.
Qed.

Lemma standing_create name address hash role0 status must :
  Tracks (standing_kept r s) (Users.create_with_options name address hash role0 status must).
Proof.
  unfold Users.create_with_options, Users.insert.
  apply tracks_bind; [apply _|intros now]. apply tracks_bind; [apply _|intros uid].
  apply tracks_insert. intros d _ (u & Hu & H). exists u. split; [|done].
  unfold the_super in *. cbn. by rewrite find_row_app, Hu.
Qed.

#[local] Instance standing_revoke id : Tracks (standing_kept r s) (Users.revoke_sessions_for_user id).
Proof.
  unfold Users.revoke_sessions_for_user. apply tracks_bind; [apply _|intros now].
  apply standing_same. by intros d a d' [= _ <-].
Qed.

#[local] Instance standing_bump id : Tracks (standing_kept r s) (Users.bump_session_version id).
Proof.
  unfold Users.bump_session_version. apply tracks_bind; [apply _|intros u].
  apply tracks_bind; [apply _|intros now]. apply tracks_bind; [|intros; apply _].
  by apply standing_update.
Qed.

#[local] Instance standing_scopes id l :
  Tracks (standing_kept r s) (OperatorScopeRepo.replace_for_user id l).
Proof.
  unfold OperatorScopeRepo.replace_for_user. apply tracks_bind.
  - intros w. by apply standing_same; intros d a d' [= _ <-].
  - intros _. apply tracks_bind; [apply _|intros now].
    generalize (OperatorScopeRepo.unique_scopes l). clear l. intros l.
    induction l as [|x l IH]; cbn; [apply _|].
    apply tracks_bind; [|intros; apply IH]. apply standing_same. intros d a d'. cbn.
    destruct (negb _); [done|]. destruct (insert_row _ _ _) as [[y t]|]; [|done]. by intros [= _ <-].
Qed.

#[local] Instance standing_tokens p f :
  Tracks (standing_kept r s) (db_update_many tokens set_tokens p f).
Proof. apply standing_same. by intros d a d' [= _ <-]. Qed.

(** *** Requests *)

Lemma standing_create_user input : Tracks (standing_kept r s) (create_user input).
Proof.
  unfold create_user. apply tracks_bind; [destruct (explicit_password _); apply _|intros generated].
  apply tracks_bind; [apply _|intros password]. apply tracks_bind; [apply _|intros address].
  apply tracks_bind; [apply _|intros hash]. cbv zeta.
  destruct (normalize_role_and_scopes _ _) as [role0 scopes].
  apply tracks_bind; [|intros u; apply _]. apply tracks_with_transaction. unfold create_in_txn.
  apply tracks_bind; [apply _|intros _]. apply tracks_bind; [apply standing_create|intros u].
  apply tracks_bind; [destruct (eqb role0 Operator); apply _|intros _; apply _].
Qed.

(** An edit that leaves the role and the status of the super administrator. *)
Definition harmless (id : Z) (c : AdminUserChange) : Prop :=
  id = SUPER_ADMIN_USER_ID ->
  (uc_role c = None \/ uc_role c = Some r) /\ (uc_status c = None \/ uc_status c = Some s).

Lemma standing_update_txn id c scopes :
  harmless id c -> Tracks (standing_kept r s) (update_in_txn id c scopes).
Proof.
  intros Hc. unfold update_in_txn. apply tracks_bind; [destruct (uc_username c); apply _|intros _].
  apply tracks_bind; [|intros u; apply tracks_bind; [destruct scopes; apply _|intros; apply _]].
  unfold update_admin. intros w. apply tracks_step; [by destruct (reads_user_by_id id w) as (-> & _)|].
  intros x w1 (_ & Hx & _)%find_by_id_ok. revert w1. apply tracks_bind; [apply _|intros now].
  apply standing_update; [done|]. rewrite Hx. intros Hid u <- <-. unfold with_admin_change. cbn.
  by destruct (Hc Hid) as [[-> | ->] [-> | ->]].
Qed.

Lemma update_role_kept (role0 : UserRole) requested existing :
  requested = None \/ requested = Some role0 ->
  fst (normalize_update_role_and_scopes role0 requested None existing) = role0.
Proof. intros [-> | ->]; destruct role0; reflexivity. Qed.

(** What the guard on the super administrator leaves. *)
Lemma unchanged_super existing input :
  changes_super existing input = false ->
  (ad_role input = None \/ ad_role input = Some (role existing)) /\
  (ad_status input = None \/ ad_status input = Some (user_status existing)) /\
  ad_operator_scopes input = None.
Proof.
  unfold changes_super. rewrite !orb_false_iff. intros [[Hr Hs] Ho].
  destruct (ad_role input) as [r0|]; cbn in Hr; [rewrite negb_false_iff, eqb_true in Hr; subst|];
  destruct (ad_status input) as [s0|]; cbn in Hs; try (rewrite negb_false_iff, eqb_true in Hs; subst);
  destruct (ad_operator_scopes input); cbn in Ho; try done; auto.
Qed.

Lemma standing_update_user id input : Tracks (standing_kept r s) (update_user id input).
Proof.
  intros w Hst. pose proof Hst as (u & Hu & Hr & Hs).
  refine ((_ : standing_kept r s (db w) (db (snd (update_user id input w)))) Hst). clear Hst.
  apply tracks_step; [by destruct (reads_user_by_id id w) as (-> & _)|].
  intros x w1 Hx.
  assert (Hsuper : id = SUPER_ADMIN_USER_ID -> role x = r /\ user_status x = s).
  { intros ->. apply bind_ok in Hx as (o & w2 & Hq & Hx). apply db_query_ok in Hq as [-> _].
    unfold the_super in Hu. rewrite Hu in Hx. by injection Hx as <- _. }
  clear Hx Hu Hr Hs u. revert w1. apply tracks_guarded. intros Hguard.
  apply tracks_bind; [apply _|intros scopes0].
  destruct (normalize_update_role_and_scopes _ _ _ _) as [role1 scopes] eqn:En.
  do 3 (apply tracks_bind; [apply tracks_reads; apply _|intros ?]). cbv zeta.
  apply tracks_bind; [|intros; apply _]. apply tracks_with_transaction, standing_update_txn.
  intros Hid. destruct (Hsuper Hid) as [<- <-]. rewrite Hid in Hguard.
  apply unchanged_super in Hguard as (Hr & Hs & Ho). cbn. split; [right|done].
  rewrite Ho in En. by rewrite <- (update_role_kept _ _ scopes0 Hr), En.
Qed.

Lemma standing_revoke_user id : Tracks (standing_kept r s) (revoke_user_sessions id).
Proof. unfold revoke_user_sessions. solve_tracks. Qed.

#[local] Instance standing_delete_profile id uid :
  Tracks (standing_kept r s) (delete_profile_for_user id uid).
Proof.
  unfold delete_profile_for_user, TokenRepo.revoke_all_for_selected_profile, ProfileRows.delete_by_id.
  solve_tracks. apply standing_same. by intros d ? d' [= _ <-].
Qed.

#[local] Instance standing_delete_profiles id l n m :
  Tracks (standing_kept r s) (delete_profiles id l n m).
Proof. revert n m. induction l as [|p l IH]; intros n m; cbn; solve_tracks. Qed.

Lemma drop_user_users id d : users (drop_user id d) = without (fun u => user_pk u =? id) (users d).
Proof.
  unfold drop_user. cbn. f_equal.
  assert (H : forall (f : Db -> Z -> Db), (forall d i, users (f d i) = users d) ->
    forall l d, users (List.fold_left f l d) = users d).
  { intros f Hf l. induction l as [|i l IH]; intros d0; cbn; [done|by rewrite IH, Hf]. }
  by rewrite !H.
Qed.

Lemma standing_delete_user id : Tracks (standing_kept r s) (delete_user id).
Proof.
  unfold delete_user. apply tracks_guarded. intros Hid%Z.eqb_neq.
  apply tracks_bind; [apply _|intros u]. apply tracks_bind; [apply _|intros n].
  apply tracks_bind.
  { unfold delete_uploaded_avatar_for_user, UserProfileRepo.find_by_user_id, delete_previous,
      delete_upload_objects, delete_avatar_variant_objects. solve_tracks. }
  intros _. apply tracks_bind; [apply _|intros l]. apply tracks_bind; [apply _|intros [n1 n2]].
  do 2 (apply tracks_bind; [apply _|intros ?]).
  unfold invalidate_token_cache_for_user, TokenRepo.list_active_hashes_for_user,
    TokenCache.invalidate_tokens, TokenRepo.revoke_all_for_user,
    TokenRepo.revoke_all_for_user_returning_hashes, TokenRepo.list_recent_revoked_hashes_for_user,
    delete_by_id. solve_tracks.
  apply tracks_db_exec. intros d ? d' [= _ <-] (v & Hv & Hrs). exists v. split; [|done].
  unfold the_super. rewrite drop_user_users. cbn. rewrite find_row_delete_where; [done|].
  intros x. rewrite Z.eqb_eq, Z.eqb_neq. by intros ->.
Qed.
End Standing.

Inductive admin_request : Type :=
| AdminCreate (input : AdminCreateUserInput)
| AdminUpdate (id : Z) (input : AdminUpdateUserInput)
| AdminRevoke (id : Z)
| AdminDelete (id : Z).

Definition handle_admin (q : admin_request) (w : World) : World :=
  match q with
  | AdminCreate input => snd (create_user input w)
  | AdminUpdate id input => snd (update_user id input w)
  | AdminRevoke id => snd (revoke_user_sessions id w)
  | AdminDelete id => snd (delete_user id w)
  end.

(** C16: The super administrator cannot be taken down: whatever administrators
    ask for, in whatever order and with whatever failures (accounts created,
    edited, signed out or deleted, the super administrator's own among them),
    the user with the first id is still there afterwards, with the role and
    the status they had. *)
Theorem super_admin_protected (requests : list admin_request) r s w :
  standing r s (db w) ->
  standing r s (db (List.fold_left (fun w q => handle_admin q w) requests w)).
Proof.
  revert w. induction requests as [|q requests IH]; intros w Hst; cbn; [done|]. apply IH.
  destruct q; cbn; [apply standing_create_user|apply standing_update_user
    |apply standing_revoke_user|apply standing_delete_user]; done.
Qed.
End Super.

(** ** A user who cannot be deleted *)

Definition has_official_profile (pk id : Z) (uid : string) (d : Db) : Prop :=
  profiles_wf (profiles d) /\
  exists p, In p (rows (profiles d)) /\ profile_pk p = pk /\ uuid p = uid /\
            profile_user_id p = id /\ source p = Microsoft.

Definition official_kept pk id uid (d d' : Db) : Prop :=
  has_official_profile pk id uid d -> has_official_profile pk id uid d' /\ users d' = users d.

#[export] Instance official_preorder pk id uid : PreOrder (official_kept pk id uid).
Proof.
  split; [by intros d|]. intros d1 d2 d3 H12 H23 H1. destruct (H12 H1) as [H2 <-]. auto.
Qed.

#[export] Instance official_frame pk id uid : TextureFrame (official_kept pk id uid).
Proof.
  split; [apply _|done|done|]. intros pk' now d [Hwf (p & Hp & Hu)]. split; [|done]. split.
  - destruct (frame_touch (R := profiles_kept) pk' now d) as (En & Eu & _). by eapply wf_undated.
  - exists (if profile_pk p =? pk' then ProfileRepo.touched now p else p).
    split; [|by destruct (_ =? pk')]. cbn. apply in_update_where. eauto.
Qed.

Section Undeletable.
Context `{EN : Env} `{CB : CacheBackend} `{TM : !TxnManager} `{TL : !TxnLaws TM}.
Context `{FC : ForgeCrypto} `{FA : ForgeApi} `{FN : ForgeNumbers} `{FG : ForgeSigned}.
Context `{TN : TextureNumbers} `{AE : !AccountExterns} `{AL : !AccountExternLaws AE}.
Context `{CF : ForgeConfig} `{ST : ConfigStore} `{RC : RuntimeConfig} `{FE : ForgeEmail}.
Context `{TX : TextureExterns} `{SE : SkinExterns} `{TS : TextSearch} `{PP : PreviewPolicy}.
Context `{IC : ImageCodec} `{FS : FileSystem} `{BE : BanExterns} {OS : ObjectStorage}.
Context `{OL : !ObjectStorageLaws OS} `{PX : ProfileExterns}.
Context {pk id : Z} {uid : string}.

Lemma official_found d :
  has_official_profile pk id uid d ->
  exists p, find_row (fun p => eqb (uuid p) uid && (profile_user_id p =? id)) (rows (profiles d))
            = Some p /\ source p = Microsoft.
Proof.
  intros [Hwf (p & Hp & _ & Hu & Hid & Hs)].
  destruct (find_row _ _) as [q|] eqn:E.
  - exists q. split; [done|]. apply find_row_some in E as [Hq [Eu _]%andb_prop].
    rewrite eqb_true in Eu. enough (p = q) by congruence.
    apply (NoDup_map_inj_in uuid (rows (profiles d))); [apply Hwf|done|done|congruence].
  - rewrite find_row_none in E. specialize (E p Hp). rewrite Hid, Z.eqb_refl, andb_true_r in E.
    by rewrite eqb_false in E.
Qed.

Lemma official_refused x w w' :
  has_official_profile pk id uid (db w) -> delete_profile_for_user id uid w = (Ok x, w') -> False.
Proof.
  intros Hi H. unfold delete_profile_for_user in H. apply bind_ok in H as (u & w1 & Hb & H).
  eapply reads_run in Hb; [|apply _]. destruct Hb as (Hdb & _). rewrite <- Hdb in Hi.
  apply official_found in Hi as (p & Hp & Hs).
  apply bind_ok in H as (o & w2 & Hq & H). apply db_query_ok in Hq as [-> _]. rewrite Hp in H.
  apply bind_ok in H as (y & w3 & Hw & _). apply when_ok_ok in Hw as [Hw _].
  rewrite Hs in Hw. done.
Qed.

Lemma official_drop pk' d :
  pk' <> pk -> official_kept pk id uid d (ProfileRows.drop_profile pk' d).
Proof.
  intros Hne [Hwf (q & Hq & Hpk & H)]. split; [|done]. split.
  - exact (profiles_wf_delete _ _ Hwf).
  - exists q. split; [|done]. cbn. apply in_delete_where. split; [done|]. apply Z.eqb_neq. congruence.
Qed.

Lemma official_same {A} (f : Db -> outcome AsterError.t (A * Db)) :
  (forall d a d', f d = Ok (a, d') -> users d' = users d /\ profiles d' = profiles d) ->
  Tracks (official_kept pk id uid) (db_exec f).
Proof.
  intros H. apply tracks_db_exec. intros d a d' Hf Hi. destruct (H d a d' Hf) as [Eu Ep].
  split; [|done]. unfold has_official_profile. by rewrite Ep.
Qed.

#[local] Instance official_tokens p f :
  Tracks (official_kept pk id uid) (db_update_many tokens set_tokens p f).
Proof. apply official_same. by intros d a d' [= _ <-]. Qed.

(** What follows a step, from where the official profile is known to be. *)
Lemma official_step {E A B} (c : M E A) (k : A -> M E B) w :
  Tracks (official_kept pk id uid) c ->
  (forall a w1, c w = (Ok a, w1) -> has_official_profile pk id uid (db w1) ->
     official_kept pk id uid (db w1) (db (snd (k a w1)))) ->
  official_kept pk id uid (db w) (db (snd (bind c k w))).
Proof.
  intros Hc Hk Hi. pose proof (Hc w Hi) as [H1 H2]. unfold bind.
  destruct (c w) as [[a|e|m] w1] eqn:Ec; cbn in *; [|done..].
  destruct (Hk a w1 eq_refl H1 H1). split; congruence.
Qed.

#[local] Instance official_delete_profile id' uid' :
  Tracks (official_kept pk id uid) (delete_profile_for_user id' uid').
Proof.
  unfold delete_profile_for_user. apply tracks_bind; [apply _|intros _ w].
  apply official_step; [unfold ProfileRepo.find_by_uuid_for_user; apply _|].
  intros found w1 Hf [Hwf (p & Hp & Hpk & _ & _ & Hs)]. apply db_query_ok in Hf as (Ef & -> & _).
  destruct found as [q|]; [|by intros].
  symmetry in Ef. apply find_row_some in Ef as [Hq _]. generalize (tick w). apply tracks_guarded.
  intros Hm. rewrite eqb_false in Hm. assert (Hne : profile_pk q <> pk).
  { intros <-. apply Hm. rewrite <- Hs. f_equal.
    by apply (NoDup_map_inj_in profile_pk (rows (profiles (db w)))); [apply Hwf|..]. }
  unfold TokenRepo.revoke_all_for_selected_profile, ProfileRows.delete_by_id. solve_tracks.
  apply tracks_db_exec. intros d ? d' [= _ <-]. by apply official_drop.
Qed.

#[local] Instance official_delete_profiles l n m :
  Tracks (official_kept pk id uid) (delete_profiles id l n m).
Proof. revert n m. induction l as [|p l IH]; intros n m; cbn; solve_tracks. Qed.

Lemma official_run {E A} (c : M E A) w r w' :
  c w = (r, w') -> Tracks (official_kept pk id uid) c -> has_official_profile pk id uid (db w) ->
  has_official_profile pk id uid (db w').
Proof. intros H Hc Hi. specialize (Hc w Hi). rewrite H in Hc. apply Hc. Qed.

(** The profiles are deleted until the official one is reached. *)
Lemma official_stops l n m x w w' :
  has_official_profile pk id uid (db w) -> In uid (List.map uuid l) ->
  delete_profiles id l n m w = (Ok x, w') -> False.
Proof.
  revert n m w. induction l as [|p l IH]; intros n m w Hi Hin H; [done|]. cbn in H.
  apply bind_ok in H as (o & w1 & Hd & H). destruct (decide (uuid p = uid)) as [E|E].
  { rewrite E in Hd. by eapply official_refused. }
  destruct Hin as [Hin|Hin]; [done|]. apply official_run in Hd; [|apply _|done].
  destruct o; by eapply IH.
Qed.

#[local] Instance official_avatar i : Tracks (official_kept pk id uid) (delete_uploaded_avatar_for_user i).
Proof.
  unfold delete_uploaded_avatar_for_user, UserProfileRepo.find_by_user_id, delete_previous,
    delete_upload_objects, delete_avatar_variant_objects. solve_tracks.
Qed.

Lemma official_listed w l w1 :
  has_official_profile pk id uid (db w) -> ProfileRepo.list_by_user id w = (Ok l, w1) ->
  In uid (List.map uuid l).
Proof.
  intros [_ (p & Hp & _ & <- & Hid & _)] H. apply db_query_ok in H as [-> _]. apply in_map.
  apply in_sort_by, in_rows_where. split; [done|]. by apply Z.eqb_eq.
Qed.

#[local] Instance official_delete_user : Tracks (official_kept pk id uid) (delete_user id).
Proof.
  unfold delete_user. do 4 (apply tracks_bind; [apply _|intros ?]). intros w.
  apply official_step; [apply _|]. intros l w1 Hl Hi1. apply official_step; [apply _|].
  intros x w2 Hd _. apply (reads_run _ (Hc := _)) in Hl as Hs.
  assert (has_official_profile pk id uid (db w)) as Hi by (by rewrite <- (same_db _ _ Hs)).
  destruct (official_stops _ _ _ _ _ _ Hi1 (official_listed _ _ _ Hi Hl) Hd).
Qed.

(** A user with an official profile cannot be deleted by an
    administrator: whatever else happens, the request fails, and the user and
    the profile are still there; the profiles listed before it, their
    textures and the uploaded avatar may already be gone. *)
Theorem official_profile_blocks_deletion w r w' :
  has_official_profile pk id uid (db w) -> delete_user id w = (r, w') ->
  (forall output, r <> Ok output) /\ has_official_profile pk id uid (db w') /\
  users (db w') = users (db w).
Proof.
  intros Hi H. split.
  - intros output ->. unfold delete_user in H.
    do 4 (apply bind_ok in H as (? & ? & Hs & H); apply official_run in Hs; [|apply _|done];
          clear Hi; rename Hs into Hi).
    apply bind_ok in H as (l & w1 & Hl & H). pose proof (official_listed _ _ _ Hi Hl) as Hin.
    apply official_run in Hl; [|apply _|done].
    apply bind_ok in H as ([n m] & w2 & Hd & _). by eapply official_stops.
  - destruct (official_delete_user w Hi) as [Hi1 Hu]. by rewrite H in Hi1, Hu.
Qed.
End Undeletable.

(** ** Invitations and the deletion of users *)

(** The invitations of [d'] are those of [d], with or without the cascade of
    the deletion of the user [id]. *)
Definition invited_kept (id : Z) (d d' : Db) : Prop :=
  invitations (accounts d') = invitations (accounts d) \/
  invitations (accounts d') = drop_invitations id (invitations (accounts d)).

Lemma drop_invitations_again id t : drop_invitations id (drop_invitations id t) = drop_invitations id t.
Proof.
  unfold drop_invitations, mapped, without, with_rows. destruct t as [l n]. cbn. f_equal.
  unfold delete_where. induction l as [|i l IH]; [done|]. cbn.
  destruct (invited_by i =? id) eqn:E; cbn; [done|].
  destruct (eqb (accepted_user_id i) (Some id)) eqn:Ea; cbn; rewrite E; cbn; [|rewrite Ea];
    by rewrite IH.
Qed.

#[export] Instance invited_preorder id : PreOrder (invited_kept id).
Proof.
  split; [by left|]. unfold invited_kept. intros d1 d2 d3 [->|H12] [->|H23]; auto.
  right. by rewrite H23, H12, drop_invitations_again.
Qed.

#[export] Instance invited_frame id : TextureFrame (invited_kept id).
Proof. split; [apply _|by left..]. Qed.







Section Invited.
Context `{EN : Env} `{CB : CacheBackend} `{TM : !TxnManager} `{TL : !TxnLaws TM}.
Context `{FC : ForgeCrypto} `{FA : ForgeApi} `{FN : ForgeNumbers} `{FG : ForgeSigned}.
Context `{TN : TextureNumbers} `{AE : !AccountExterns} `{AL : !AccountExternLaws AE}.
Context `{CS : ChronoSeconds}.
Context `{CF : ForgeConfig} `{ST : ConfigStore} `{RC : RuntimeConfig} `{FE : ForgeEmail}.
Context `{TX : TextureExterns} `{SE : SkinExterns} `{TS : TextSearch} `{PP : PreviewPolicy}.
Context `{IC : ImageCodec} `{FS : FileSystem} `{BE : BanExterns} {OS : ObjectStorage}.
Context `{OL : !ObjectStorageLaws OS} `{PX : ProfileExterns}.

Section Deletion.
Context {id : Z}.

Lemma invited_same {A} (f : Db -> outcome AsterError.t (A * Db)) :
  (forall d a d', f d = Ok (a, d') -> invitations (accounts d') = invitations (accounts d)) ->
  Tracks (invited_kept id) (db_exec f).
Proof. intros H. apply tracks_db_exec. intros d a d' Hf. left. by apply (H d a). Qed.

#[local] Instance invited_tokens p f :
  Tracks (invited_kept id) (db_update_many tokens set_tokens p f).
Proof. apply invited_same. by intros d a d' [= _ <-]. Qed.

#[local] Instance invited_revoke i : Tracks (invited_kept id) (Users.revoke_sessions_for_user i).
Proof.
  unfold Users.revoke_sessions_for_user. apply tracks_bind; [apply _|intros now].
  apply invited_same. by intros d a d' [= _ <-].
Qed.

#[local] Instance invited_delete_profile i uid :
  Tracks (invited_kept id) (delete_profile_for_user i uid).
Proof.
  unfold delete_profile_for_user, TokenRepo.revoke_all_for_selected_profile, ProfileRows.delete_by_id.
  solve_tracks. apply invited_same. by intros d ? d' [= _ <-].
Qed.

#[local] Instance invited_delete_profiles i l n m :
  Tracks (invited_kept id) (delete_profiles i l n m).
Proof. revert n m. induction l as [|p l IH]; intros n m; cbn; solve_tracks. Qed.


End Deletion.


End Invited.

(** ** Witnesses *)

#[local] Existing Instance profile_externs1.







#[local] Existing Instance crypto1.
#[local] Existing Instance config0.

(** Alice, the first user, is edited, signed out and deleted by others. *)
Definition admin_requests1 : list admin_request :=
  [AdminCreate (mkAdminCreate "robert" "robert@example.org" None Operator
                  (Some [ScopeUsers; ScopeAudit]) Types.UserActive None);
   AdminUpdate 1 (mkAdminUpdate None None None (Some User) None (Some Types.Disabled) None);
   AdminUpdate 2 (mkAdminUpdate None None None None None (Some Types.Disabled) None);
   AdminRevoke 1; AdminDelete 1; AdminDelete 2].

Definition after_admin1 : World :=
  List.fold_left (fun w q => handle_admin q w) admin_requests1 world0.

Lemma super_admin_protected_witness :
  List.map user_pk (rows (users (db after_admin1))) = [1] /\
  standing (role alice) (user_status alice) (db after_admin1).
Proof.
  split; [vm_compute; reflexivity|].
  apply (super_admin_protected (OL := storage1_laws) admin_requests1). by exists alice.
Defined.

(** Bob, whose profile came from Mojang. *)
Definition bob : user :=
  mkUser 2 "bob-uuid" "bobby" None "" User UserActive false 1 None None 0 0.
Definition official_alex : minecraft_profile :=
  mkProfile 1 2 alex_uuid "Alex" "alex" Microsoft ModelDefault "skin,cape" 0 0 0.
Definition official_world : World :=
  set_db (set_profiles (mkTable [official_alex] 2) (set_users (mkTable [alice; bob] 3) db0)) world0.
Definition deleting_bob : outcome AsterError.t DeleteAdminUserOutput * World :=
  delete_user 2 official_world.

Lemma official_profile_blocks_deletion_witness :
  match fst deleting_bob with Err e => is_some (find_row (fun u => user_pk u =? 2)
    (rows (users (db (snd deleting_bob))))) | _ => false end = true /\
  users (db (snd deleting_bob)) = users (db official_world).
Proof.
  split; [vm_compute; reflexivity|].
  eapply (official_profile_blocks_deletion (OL := storage1_laws) (pk := 1) (id := 2) (uid := alex_uuid)
    official_world (fst deleting_bob)); [|apply surjective_pairing].
  split; [|exists official_alex; split; [by left|done]].
  split; cbn; try by repeat constructor; cbn; tauto.
  - by intros p [<-|[]].
  - by intros p [<-|[]].
Defined.
