(* ===== verification/PasskeyProofs.v ===== *)
(** * Theorems about passkeys

    A sign-in is the owner's and is good once, a registration is all or
    nothing, and nobody changes the passkeys of others. *)

From Stdlib Require Import ZArith List Bool Lia Ascii.
From stdpp Require Import base decidable list strings gmap pretty relations.
From S2P Require Import Prelude Text Errors Types AuditLog World Logic Repos Bans Tokens Auth Concrete AuthProofs AuthConfig Accounts WebSessions AccountSpec AccountOps AccountProofs AccountConcrete AccountSignIn Tracks TextureLibrary ExternalAuth Passkeys.

Local Open Scope Z_scope.
Local Open Scope aster_scope.

Section Theorems.
Context `{EN : Env} `{CB : CacheBackend} `{TM : !TxnManager} `{TL : !TxnLaws TM}.
Context `{FC : ForgeCrypto} `{FN : ForgeNumbers} `{FS : ForgeSigned} `{AE : !AccountExterns}.
Context `{AL : !AccountExternLaws AE} `{CS : ChronoSeconds} `{JW : Jwt} `{CF : ForgeConfig}.
Context `{ST : ConfigStore} `{RC : RuntimeConfig} `{AC : AppConfig} `{FA : ForgeApi} `{BE : BanExterns}.
Context `{NL : !ForgeNumberLaws FN} `{FSL : !ForgeSignedLaws FS} `{CSL : !ChronoSecondsLaws CS}.
Context `{JL : !JwtLaws JW} `{WA : Webauthn}.

(** ** What the steps do *)

Lemma cache_take_ok {E} k w v w' :
  (cache_take k : M E (option CacheValue)) w = (Ok v, w') ->
  v = cache_get (cache w) (clock (step w)) k /\ w' = tick (set_cache (cache_delete (cache w) k) w).
Proof. by intros [= <- <-]. Qed.

Lemma take_login_ok flow w c w' :
  take_login_challenge flow w = (Ok c, w') ->
  cache_get (cache w) (clock (step w)) (login_cache_key flow) = Some (CvAuthentication c) /\
  w' = tick (set_cache (cache_delete (cache w) (login_cache_key flow)) w).
Proof.
  intros H. apply bind_ok in H as (v & w1 & Ht & H). apply cache_take_ok in Ht as [Hv ->].
  rewrite <- Hv. destruct v as [[| | | | | | |c'|]|]; try done. by injection H as <- <-.
Qed.

Lemma take_registration_ok flow w c w' :
  take_registration_challenge flow w = (Ok c, w') ->
  cache_get (cache w) (clock (step w)) (registration_cache_key flow) = Some (CvRegistration c) /\
  db w' = db w.
Proof.
  intros H. apply bind_ok in H as (v & w1 & Ht & H). apply cache_take_ok in Ht as [Hv ->].
  rewrite <- Hv. destruct v as [[| | | | | |c'| |]|]; try done. by injection H as <- <-.
Qed.

#[local] Instance reads_claimed wa c : Reads (claimed_passkey wa c).
Proof.
  unfold claimed_passkey, PasskeyRepo.find_by_user_handle_and_credential_id. cbv zeta.
  apply reads_bind; [apply _|intros [h i]; apply _].
Qed.

Lemma claimed_ok wa c w p w' :
  claimed_passkey wa c w = (Ok p, w') ->
  same w w' /\ In p (rows (passkeys (db w))) /\
  credential_id p = base64_url_encode (get_credential_id c) /\
  exists discovered, identify_discoverable_authentication wa c = Ok (user_handle p, discovered) /\
    base64_url_encode discovered = credential_id p.
Proof.
  intros H. split; [exact (reads_run _ _ _ _ H)|]. unfold claimed_passkey in H.
  apply bind_ok in H as ([handle discovered] & w1 & Hi & H). apply lift_ok in Hi as [Hi ->].
  apply bind_ok in H as (x & w2 & Hw & H). apply when_ok_ok in Hw as [Hd ->].
  rewrite negb_false_iff, eqb_true in Hd.
  apply bind_ok in H as (found & w3 & Hf & H). apply db_query_ok in Hf as (Ef & -> & _).
  apply lift_ok in H as [H _]. destruct found as [q|]; [|done]. injection H as ->.
  symmetry in Ef. apply find_row_some in Ef as [Hin [Eh Ec]%andb_prop]. rewrite eqb_true in Eh, Ec.
  split; [done|]. split; [done|]. exists discovered. rewrite Eh, Ec. split; [|done].
  unfold webauthn_error, in_context in Hi.
  destruct (identify_discoverable_authentication wa c); [|done..]. by injection Hi as ->.
Qed.

(** What a use may write: never who a passkey is, or whose. *)
Definition identity (p : passkey) : Z * Z * string * string * string :=
  (passkey_pk p, passkey_user_id p, credential_id p, user_handle p, passkey_name p).

Definition use_of (now : DateTimeUtc) (f : passkey -> passkey) : Prop :=
  forall p, identity (f p) = identity p /\ passkey_last_used_at (f p) = Some now /\
            (0 <= sign_count p -> 0 <= sign_count (f p)).

Lemma record_use_ok p stored result w x w' :
  record_use p stored result w = (Ok x, w') ->
  exists now f, use_of now f /\
    db w' = set_passkeys (with_rows (update_where (fun q => passkey_pk q =? passkey_pk p) f
                                       (rows (passkeys (db w)))) (passkeys (db w))) (db w).
Proof.
  intros H. unfold record_use in H. apply bind_ok in H as (now & w1 & Hn & H).
  injection Hn as <- <-. apply bind_ok in H as ([changed stored'] & w2 & Hu & H).
  apply lift_ok in Hu as [_ ->]. apply bind_ok in H as (written & w3 & Hw & H).
  apply when_ok_ok in H as [Hx ->]. rewrite negb_false_iff in Hx. subst written.
  exists (clock (step w)). destruct changed.
  - apply bind_ok in Hw as (v & w4 & Hv & Hw). apply lift_ok in Hv as [_ ->].
    apply bind_ok in Hw as (c & w5 & Hc & Hw). apply lift_ok in Hc as [_ ->].
    apply bind_ok in Hw as (y & w6 & Hs & Hw). apply when_ok_ok in Hs as [Hs%Z.ltb_ge ->].
    apply bind_ok in Hw as (n & w7 & Hd & Hw). apply update_many_ok in Hd as [_ ->].
    injection Hw as _ <-. eexists. split; [|reflexivity]. intros q. unfold identity. cbn. auto.
  - apply bind_ok in Hw as (n & w7 & Hd & Hw). apply update_many_ok in Hd as [_ ->].
    injection Hw as _ <-. eexists. split; [|reflexivity]. intros q. unfold identity. cbn. auto.
Qed.

(** *** Signing in *)

Definition identifier_allows (c : PasskeyAuthenticationChallenge) (u : user) : Prop :=
  match ac_identifier c with
  | Some i => if contains_char "@" i then email u = Some i else username u = i
  | None => True
  end.

Lemma identifier_ok c u :
  match ac_identifier c with
  | Some identifier => ensure_login_identifier_matches u identifier
  | None => Ok tt
  end = Ok tt -> identifier_allows c u.
Proof.
  unfold identifier_allows, ensure_login_identifier_matches. destruct (ac_identifier c); [|done].
  destruct (contains_char _ _).
  - destruct (eqb _ _) eqn:E; [|done]. by rewrite eqb_true in E.
  - destruct (eqb _ _) eqn:E; [|done]. by rewrite eqb_true in E.
Qed.

Lemma verified_ok {A} (r : outcome string A) a : webauthn_error r = Ok a -> r = Ok a.
Proof. destruct r; cbn; congruence. Qed.

Lemma in_context_ok {A} context mapper (r : outcome string A) a :
  in_context context mapper r = Ok a -> r = Ok a.
Proof. destruct r; cbn; congruence. Qed.

Lemma login_enabled_ok w x w' :
  ensure_passkey_login_enabled w = (Ok x, w') ->
  allow_local_login (auth_policy config_get) = true /\
  passkey_login_enabled (auth_policy config_get) = true /\ w' = w.
Proof.
  unfold ensure_passkey_login_enabled. intros H. apply bind_ok in H as (y & w1 & H1 & H2).
  apply when_ok_ok in H1 as [H1 ->]. apply when_ok_ok in H2 as [H2 ->].
  by rewrite !negb_false_iff in *.
Qed.

(** C13: A passkey signs in only its owner: when a sign-in succeeds, the policy
    allows local and passkey logins, a challenge of this flow was waiting in
    the cache, the credential names a stored passkey by its handle and its id,
    the WebAuthn library verified it with the credential stored there and
    the state of that challenge, user verification included, and the session
    opened is that of the passkey's owner, whose account is active, activated
    and the one asked for; of the tables only that session and the record of
    use of that passkey are written. *)
Theorem passkey_login_sound flow value req w r w' :
  finish_login flow value req w = (Ok r, w') ->
  exists wa challenge c p u stored result f used_at t now,
    allow_local_login (auth_policy config_get) = true /\
    passkey_login_enabled (auth_policy config_get) = true /\
    build_webauthn = Ok wa /\
    cache_get (cache w) (clock (step w)) (login_cache_key flow) = Some (CvAuthentication challenge) /\
    login_from_value value = Ok c /\
    In p (rows (passkeys (db w))) /\ credential_id p = base64_url_encode (get_credential_id c) /\
    (exists discovered, identify_discoverable_authentication wa c = Ok (user_handle p, discovered)) /\
    passkey_from_json (credential p) = Ok stored /\
    finish_discoverable_authentication wa c (ac_state challenge) [discoverable_key stored]
      = Ok result /\ user_verified result = true /\
    In u (rows (users (db w))) /\ user_pk u = passkey_user_id p /\
    user_status u = UserActive /\ is_email_activation_satisfied u = true /\
    identifier_allows challenge u /\
    use_of used_at f /\
    (let d := set_passkeys (with_rows (update_where (fun q => passkey_pk q =? passkey_pk p) f
                                         (rows (passkeys (db w)))) (passkeys (db w))) (db w) in
     db w' = set_auth_sessions (mkTable (session_rows d ++ [opened_session u t req now])
               (next_pk (auth_sessions (accounts d)) + 1)) d) /\
    r = mkPasskeyLogin
          (mkBundle (it_access_token t) (it_refresh_token t) (it_access_expires_in t)
             (if must_change_password u then PasswordChangeRequired else Authenticated) (from_user u))
          (passkey_pk p) (passkey_name p).
Proof.
  unfold finish_login. intros H.
  apply bind_ok in H as ([] & w1 & He & H). apply login_enabled_ok in He as (Hlocal & Hpass & ->).
  apply bind_ok in H as (wa & w1 & Hwa & H). apply lift_ok in Hwa as [Hwa ->].
  apply bind_ok in H as (challenge & w1 & Ht & H). apply take_login_ok in Ht as [Hg Hw1].
  apply bind_ok in H as (c & w2 & Hc & H). apply lift_ok in Hc as [Hc ->].
  apply bind_ok in H as (p & w2 & Hp & H). apply claimed_ok in Hp as (Hs & Hin & Hid & Hh).
  apply bind_ok in H as (u & w3 & Hu & H). apply find_by_id_ok in Hu as (Hui & Hup & Hs3).
  apply bind_ok in H as ([] & w4 & Hi & H). apply lift_ok in Hi as [Hi ->].
  apply bind_ok in H as ([] & w4 & Hl & H). apply lift_ok in Hl as [Hl ->].
  apply bind_ok in H as (stored & w4 & Hst & H). apply lift_ok in Hst as [Hst ->].
  apply bind_ok in H as (result & w4 & Hres & H). apply lift_ok in Hres as [Hres ->].
  apply bind_ok in H as ([] & w4 & Hv & H). apply when_ok_ok in Hv as [Hv ->].
  apply bind_ok in H as ([] & w4 & Hrec & H). apply record_use_ok in Hrec as (at_ & f & Hf & Hd).
  apply bind_ok in H as (b & w5 & Hb & H). injection H as <- <-.
  apply issue_tokens_ok in Hb as (t & now & _ & Hdb & _ & _ & ->).
  assert (Hdb1 : db w1 = db w) by (by rewrite Hw1).
  assert (Hdb3 : db w3 = db w) by (by rewrite (same_db _ _ Hs3), (same_db _ _ Hs)).
  rewrite Hdb3 in Hd. rewrite (same_db _ _ Hs), Hdb1 in Hui. rewrite Hdb1 in Hin.
  unfold ensure_login_user in Hl. destruct (user_status u) eqn:Eu; [|done..].
  destruct (is_email_activation_satisfied u) eqn:Ea; [|done].
  destruct Hh as (discovered & Hh & _).
  exists wa, challenge, c, p, u, stored, result, f, at_, t, now.
  rewrite negb_false_iff in Hv. split_and!; eauto using verified_ok, identifier_ok, in_context_ok.
  by rewrite <- Hd.
Qed.

(** *** Registering *)

Lemma active_ok user_id w u w' :
  active_account user_id w = (Ok u, w') ->
  same w w' /\ In u (rows (users (db w))) /\ user_pk u = user_id /\ user_status u = UserActive.
Proof.
  intros H. apply bind_ok in H as (x & w1 & Hu & H). apply find_by_id_ok in Hu as (Hin & Hid & Hs).
  apply bind_ok in H as (y & w2 & Hw & H). apply when_ok_ok in Hw as [Hw ->].
  injection H as -> ->. rewrite negb_false_iff in Hw. by destruct (user_status u).
Qed.

#[local] Instance reads_active id : Reads (active_account id).
Proof. unfold active_account. apply _. Qed.
#[local] Instance reads_by_credential id : Reads (PasskeyRepo.find_by_credential_id id).
Proof. unfold PasskeyRepo.find_by_credential_id. apply _. Qed.

#[local] Instance reads_list_passkeys id : Reads (PasskeyRepo.list_for_user id).
Proof. unfold PasskeyRepo.list_for_user. apply _. Qed.
#[local] Instance reads_handle existing : Reads (user_handle_for_registration existing).
Proof.
  unfold user_handle_for_registration. destruct existing; [|apply _].
  apply best_effort_uuid_reads. intros c. unfold PasskeyRepo.user_handle_exists. apply _.
Qed.

(** What a new row says. *)
Definition registered (user_id : Z) (challenge : PasskeyRegistrationChallenge) (c : Credential)
  (p : passkey) : Prop :=
  passkey_user_id p = user_id /\ credential_id p = base64_url_encode (cred_id c) /\
  user_handle p = rc_user_handle challenge /\ passkey_last_used_at p = None.

Lemma insert_ok user_id mk w p w' :
  PasskeyRepo.insert user_id mk w = (Ok p, w') ->
  p = mk (next_pk (passkeys (db w))) /\
  (forall q, In q (rows (passkeys (db w))) -> credential_id q <> credential_id p) /\
  db w' = set_passkeys (mkTable (rows (passkeys (db w)) ++ [p]) (next_pk (passkeys (db w)) + 1))
            (db w).
Proof.
  unfold PasskeyRepo.insert, db_exec. destruct (db_fault _); [done|].
  destruct (negb _); [done|]. destruct (insert_row _ _ _) as [[r t]|] eqn:E; [|done].
  intros [= <- <-]. unfold insert_row in E. destruct (existsb _ _) eqn:Ex; [done|].
  injection E as <- <-. split_and!; [done| |done]. intros q Hq Heq.
  enough (existsb (PasskeyRepo.credential_conflict (mk (next_pk (passkeys (db w)))))
            (rows (passkeys (db w))) = true) by congruence.
  apply existsb_exists. exists q. split; [done|]. unfold PasskeyRepo.credential_conflict.
  by rewrite eqb_true.
Qed.

Lemma insert_failed user_id mk w r w' :
  PasskeyRepo.insert user_id mk w = (r, w') -> (forall p, r <> Ok p) -> db w' = db w.
Proof.
  unfold PasskeyRepo.insert, db_exec. destruct (db_fault _); [by intros [= <- <-]|].
  destruct (if negb _ then _ else _) as [[p d]|e|m]; intros [= <- <-] Hn; [|done..].
  by destruct (Hn p).
Qed.

Lemma aon_bind_db {E A B} (c : M E A) (k : A -> M E B) :
  (forall w, db (snd (c w)) = db w) -> (forall a, AllOrNothing (k a)) -> AllOrNothing (bind c k).
Proof.
  intros Hc Hk w r w' H Hf. specialize (Hc w). unfold bind in H.
  destruct (c w) as [[a|e|m] w1]; cbn in Hc; rewrite <- Hc.
  - by eapply Hk.
  - by injection H as _ <-.
  - by injection H as _ <-.
Qed.

#[local] Instance registration_atomic user_id flow value name :
  AllOrNothing (finish_registration user_id flow value name).
Proof.
  unfold finish_registration. apply aon_bind_reads; [apply _|intros wa].
  apply aon_bind_db.
  { intros w. unfold take_registration_challenge, bind, cache_take.
    by destruct (cache_get _ _ _) as [[]|]. }
  intros challenge. do 7 (apply aon_bind_reads; [apply _|intros ?]). cbv zeta.
  apply aon_bind_reads; [destruct name; apply _|intros final].
  do 2 (apply aon_bind_reads; [apply _|intros ?]).
  intros w r w' H Hf. unfold bind in H. destruct (PasskeyRepo.insert _ _ w) as [[p|e|m] w1] eqn:E.
  - by injection H as <- <-.
  - injection H as _ <-. by eapply insert_failed.
  - injection H as _ <-. by eapply insert_failed.
Qed.

(** C28: A registration is all or nothing.  When it succeeds, a challenge of
    this flow that was made for this very user was waiting in the cache, the
    account is active, the WebAuthn library accepted the credential for the
    state of that challenge, and exactly one passkey is added: the user's,
    with the handle of the challenge and a credential id no other passkey
    has.  When it fails no table has changed. *)
Theorem passkey_registration_atomic user_id flow value name w r w' :
  finish_registration user_id flow value name w = (r, w') ->
  match r with
  | Ok info =>
      exists wa challenge u c created p,
        build_webauthn = Ok wa /\
        cache_get (cache w) (clock (step w)) (registration_cache_key flow)
          = Some (CvRegistration challenge) /\ rc_user_id challenge = user_id /\
        In u (rows (users (db w))) /\ user_pk u = user_id /\ user_status u = UserActive /\
        register_from_value value = Ok c /\ cred_props_rk c <> Some false /\
        finish_passkey_registration wa c (rc_state challenge) = Ok created /\
        registered user_id challenge created p /\
        (forall q, In q (rows (passkeys (db w))) -> credential_id q <> credential_id p) /\
        db w' = set_passkeys (mkTable (rows (passkeys (db w)) ++ [p])
                  (next_pk (passkeys (db w)) + 1)) (db w) /\
        info = model_to_info p
  | _ => db w' = db w
  end.
Proof.
  intros H. destruct r as [info|e|m].
  - unfold finish_registration in H.
    apply bind_ok in H as (wa & w1 & Hwa & H). apply lift_ok in Hwa as [Hwa ->].
    apply bind_ok in H as (challenge & w1 & Ht & H). apply take_registration_ok in Ht as [Hg Hd1].
    apply bind_ok in H as ([] & w2 & Hown & H). apply when_ok_ok in Hown as [Hown ->].
    rewrite negb_false_iff, Z.eqb_eq in Hown.
    apply bind_ok in H as (u & w2 & Hu & H). apply active_ok in Hu as (Hs & Hui & Hup & Hua).
    apply bind_ok in H as (c & w3 & Hc & H). apply lift_ok in Hc as [Hc ->].
    apply bind_ok in H as ([] & w3 & Hrk & H). apply lift_ok in Hrk as [Hrk ->].
    apply bind_ok in H as (created & w3 & Hcr & H). apply lift_ok in Hcr as [Hcr ->].
    apply bind_ok in H as (known & w3 & Hk & H). apply (reads_run _ _ _ _) in Hk.
    apply bind_ok in H as ([] & w4 & Hkn & H). apply when_ok_ok in Hkn as [_ ->].
    apply bind_ok in H as (final & w4 & Hn & H).
    apply bind_ok in H as (meta & w5 & Hm & H). apply lift_ok in Hm as [_ ->].
    apply bind_ok in H as (now & w5 & Hnow & H). injection Hnow as <- <-.
    apply bind_ok in H as (p & w5 & Hp & H). injection H as <- <-.
    apply insert_ok in Hp as (Ep & Hfree & Hdb).
    assert (Hd : db (tick w4) = db w).
    { cbn. assert (db w4 = db w3) as ->.
      { destruct name; [by apply lift_ok in Hn as [_ ->]|by injection Hn as _ <-]. }
      by rewrite (same_db _ _ Hk), (same_db _ _ Hs), Hd1. }
    rewrite Hd in *. rewrite Hd1 in Hui.
    exists wa, challenge, u, c, created, p. rewrite Ep.
    split_and!; eauto using verified_ok, in_context_ok.
    + intros E. unfold ensure_discoverable_registration_result in Hrk. by rewrite E in Hrk.
    + repeat split. by cbn.
    + by rewrite <- Ep.
    + by rewrite <- Ep.
  - exact (registration_atomic _ _ _ _ w _ w' H eq_refl).
  - exact (registration_atomic _ _ _ _ w _ w' H eq_refl).
Qed.

(** ** Requests *)

Inductive passkey_request : Type :=
| StartRegistration (user_id : Z) (name : option string)
| FinishRegistration (user_id : Z) (flow value : string) (name : option string)
| RenamePasskey (user_id id : Z) (name : string)
| DeletePasskey (user_id id : Z)
| StartLogin (identifier : option string) (conditional : bool)
| FinishLogin (flow value : string) (req : HttpRequest).

Definition handle_passkey (q : passkey_request) (w : World) : World :=
  match q with
  | StartRegistration u name => snd (start_registration u name w)
  | FinishRegistration u flow value name => snd (finish_registration u flow value name w)
  | RenamePasskey u id name => snd (rename_passkey u id name w)
  | DeletePasskey u id => snd (delete_passkey u id w)
  | StartLogin identifier conditional => snd (start_login identifier conditional w)
  | FinishLogin flow value req => snd (finish_login flow value req w)
  end.

Definition handle_passkeys (l : list passkey_request) (w : World) : World :=
  List.fold_left (fun w q => handle_passkey q w) l w.

(** *** A challenge is good once *)

Section SingleUse.
Context `{CL : !CacheLaws CB} {n0 : nat} {flow : string}.
Hypothesis Hfresh : forall n, (n0 <= n)%nat -> uuid_v4 n <> flow.

(** The challenge of the flow is gone, and its name will not be given again. *)
Definition spent (w : World) : Prop :=
  (n0 <= step w)%nat /\ forall t, cache_get (cache w) t (login_cache_key flow) = None.

Lemma spent_same w w' : same w w' -> spent w -> spent w'.
Proof.
  intros Hs [Hn Hg]. apply same_step in Hs as L. split; [lia|]. intros t.
  by rewrite (same_cache _ _ Hs).
Qed.

Lemma spent_tick w : spent w -> spent (tick w).
Proof. intros [Hn Hg]. split; [cbn; lia|done]. Qed.

Lemma spent_db w d : spent w -> spent (set_db d (tick w)).
Proof. intros [Hn Hg]. split; [cbn; lia|done]. Qed.

Lemma spent_reads {E A} (c : M E A) : Reads c -> keeps spent (fun _ => True) c.
Proof. apply keeps_reads. exact spent_same. Qed.

Lemma spent_exec {A} (f : Db -> outcome AsterError.t (A * Db)) :
  keeps spent (fun _ => True) (db_exec f).
Proof. apply keeps_db_exec; [exact spent_tick|]. intros w a d Hw _. split; [by apply spent_db|done]. Qed.

Lemma spent_take {E} k : keeps spent (fun _ => True) (cache_take k : M E (option CacheValue)).
Proof.
  intros w [Hn Hg]. apply wp_intro. intros r w' [= <- <-]. split; [|done]. split; [cbn; lia|].
  intros t. cbn. destruct (cache_get (cache_delete _ _) t _) as [x|] eqn:Ex; [|done].
  apply get_delete in Ex as [_ Ex]. by rewrite Hg in Ex.
Qed.

Lemma spent_write {E} k v ttl :
  k <> login_cache_key flow -> keeps spent (fun _ => True) (cache_write k v ttl : M E unit).
Proof.
  intros Hk w [Hn Hg]. apply wp_intro. intros r w' [= <- <-]. split; [|done]. split; [cbn; lia|].
  intros t. cbn. destruct (cache_get (cache_set _ _ _ _ _) t _) as [x|] eqn:Ex; [|done].
  apply get_set in Ex as [[Ex _]|Ex]; [by subst|]. by rewrite Hg in Ex.
Qed.

Lemma spent_uuid {E} : keeps spent (fun id => id <> flow) (new_uuid : M E string).
Proof.
  intros w Hw. apply wp_intro. intros r w' [= <- <-]. split; [by apply spent_tick|].
  apply Hfresh, Hw.
Qed.

Lemma spent_drawn {A} (f : nat -> outcome string A) : keeps spent (fun _ => True) (drawn f).
Proof.
  intros w Hw. apply wp_intro. intros r w' [= <- <-]. split; [by apply spent_tick|by destruct (webauthn_error _)].
Qed.

Lemma spent_lift {E A} (o : outcome E A) : keeps spent (fun _ => True) (lift o).
Proof. by apply keeps_lift. Qed.
#[local] Hint Resolve spent_exec spent_take spent_drawn spent_uuid spent_lift : keeps.
#[local] Hint Extern 2 (keeps spent _ _) => apply spent_reads; apply _ : keeps.

Lemma spent_record p stored result : keeps spent (fun _ => True) (record_use p stored result).
Proof.
  unfold record_use, PasskeyRepo.update_credential_after_auth, PasskeyRepo.touch_last_used,
    db_update_many. solve_keeps.
Qed.

Lemma spent_issue u req : keeps spent (fun _ => True) (issue_tokens u req).
Proof. unfold issue_tokens, persist_auth_session, SessionRepo.create. cbv zeta. solve_keeps. Qed.
#[local] Hint Resolve spent_record spent_issue : keeps.

Lemma login_key_inj f : login_cache_key f = login_cache_key flow -> f = flow.
Proof. unfold login_cache_key. by intros H%app_string_inj. Qed.

Lemma spent_take_login f : keeps spent (fun _ => True) (take_login_challenge f).
Proof. unfold take_login_challenge. solve_keeps. Qed.
Lemma spent_take_registration f : keeps spent (fun _ => True) (take_registration_challenge f).
Proof. unfold take_registration_challenge. solve_keeps. Qed.
Lemma spent_store_login f c : f <> flow -> keeps spent (fun _ => True) (store_login_challenge f c).
Proof. intros Hf. apply spent_write. by intros E%login_key_inj. Qed.
Lemma spent_store_registration f c :
  keeps spent (fun _ => True) (store_registration_challenge f c).
Proof. by apply spent_write. Qed.
Lemma spent_enabled : keeps spent (fun _ => True) ensure_passkey_login_enabled.
Proof. unfold ensure_passkey_login_enabled. cbv zeta. solve_keeps. Qed.
#[local] Hint Resolve spent_take_login spent_take_registration spent_store_login
  spent_store_registration spent_enabled : keeps.

Lemma spent_request q w : spent w -> spent (handle_passkey q w).
Proof.
  intros Hw. assert (H : forall A (c : M AsterError.t A), keeps spent (fun _ => True) c ->
    spent (snd (c w))).
  { intros A c Hc. destruct (c w) as [r w'] eqn:E. by apply (keeps_run _ _ _ _ _ _ Hc Hw E). }
  destruct q; cbn [handle_passkey]; apply H; clear H.
  - unfold start_registration. solve_keeps.
  - unfold finish_registration, PasskeyRepo.insert. cbv zeta. solve_keeps.
  - unfold rename_passkey, PasskeyRepo.update_name_for_user, PasskeyRepo.find_by_id_for_user,
      db_update_many. cbv zeta. solve_keeps.
  - unfold delete_passkey, PasskeyRepo.delete_for_user, db_delete_many. solve_keeps.
  - unfold start_login. solve_keeps.
  - unfold finish_login. solve_keeps.
Qed.

(** The challenge is taken before anything is checked. *)
Lemma spent_after value req w r w' :
  (n0 <= step w)%nat -> finish_login flow value req w = (Ok r, w') -> spent w'.
Proof.
  intros Hn H. unfold finish_login in H.
  apply bind_ok in H as ([] & w1 & He & H). apply login_enabled_ok in He as (_ & _ & ->).
  apply bind_ok in H as (wa & w1 & Hwa & H). apply lift_ok in Hwa as [_ ->].
  apply bind_ok in H as (challenge & w1 & Ht & H). apply take_login_ok in Ht as [_ Hw1].
  assert (Hs : spent w1).
  { subst w1. split; [cbn; lia|]. intros t. cbn.
    destruct (cache_get (cache_delete _ _) t _) as [x|] eqn:Ex; [|done].
    by apply get_delete in Ex as [? _]. }
  refine (proj1 (keeps_run _ (fun _ => True) _ _ _ _ _ Hs H)). solve_keeps.
Qed.
End SingleUse.

Lemma handle_passkeys_spent `{CL : !CacheLaws CB} n0 flow l w :
  (forall n, (n0 <= n)%nat -> uuid_v4 n <> flow) ->
  spent (n0 := n0) (flow := flow) w -> spent (n0 := n0) (flow := flow) (handle_passkeys l w).
Proof.
  intros Hf. unfold handle_passkeys. revert w. induction l as [|q l IH]; intros w Hw; cbn; [done|].
  apply IH. by apply spent_request.
Qed.

(** A passkey challenge signs in once: after a sign-in with a flow has
    succeeded, and whatever passkey requests follow, no credential signs in
    with that flow again, as long as no new flow is given the same name. *)
Theorem passkey_challenge_single_use `{CL : !CacheLaws CB} flow value req w r w1
  requests value' req' :
  finish_login flow value req w = (Ok r, w1) ->
  (forall n, (step w <= n)%nat -> uuid_v4 n <> flow) ->
  is_ok (fst (finish_login flow value' req' (handle_passkeys requests w1))) = false.
Proof.
  intros H1 Hf. apply (spent_after (n0 := step w)) in H1 as Hs; [|done].
  apply (handle_passkeys_spent _ _ requests) in Hs as [_ Hs]; [|done].
  clear H1. destruct (finish_login _ _ _ _) as [[r'|e|m] w'] eqn:H2; [|done..]. exfalso.
  unfold finish_login in H2.
  apply bind_ok in H2 as ([] & w2 & He & H2). apply login_enabled_ok in He as (_ & _ & ->).
  apply bind_ok in H2 as (wa & w2 & Hwa & H2). apply lift_ok in Hwa as [_ ->].
  apply bind_ok in H2 as (challenge & w2 & Ht & _). apply take_login_ok in Ht as [Hg _].
  by rewrite Hs in Hg.
Qed.

(** *** Nobody else's passkeys *)

Definition owned (u : Z) (d : Db) : list (Z * Z * string * string * string) :=
  List.map identity (rows_where (PasskeyRepo.of_user u) (rows (passkeys d))).

Definition owned_kept u (d d' : Db) : Prop := owned u d' = owned u d.

#[export] Instance owned_preorder u : PreOrder (owned_kept u).
Proof. split; unfold owned_kept; [by intros d|]. by intros d1 d2 d3 -> ->. Qed.

(** The user a request acts for; a sign-in has none. *)
Definition acting (q : passkey_request) : option Z :=
  match q with
  | StartRegistration u _ | FinishRegistration u _ _ _ | RenamePasskey u _ _
  | DeletePasskey u _ => Some u
  | StartLogin _ _ | FinishLogin _ _ _ => None
  end.

Lemma owned_update (p : passkey -> bool) f l u :
  (forall q, p q = true -> identity (f q) = identity q \/
             (passkey_user_id q <> u /\ passkey_user_id (f q) <> u)) ->
  List.map identity (rows_where (PasskeyRepo.of_user u) (update_where p f l)) =
  List.map identity (rows_where (PasskeyRepo.of_user u) l).
Proof.
  intros H. unfold rows_where, update_where, PasskeyRepo.of_user.
  induction l as [|q l IH]; [done|]. cbn. destruct (p q) eqn:E.
  - destruct (H q E) as [Hi|[H1 H2]].
    + assert (passkey_user_id (f q) = passkey_user_id q) as -> by (by injection Hi).
      destruct (_ =? u); cbn; by rewrite ?Hi, IH.
    + apply Z.eqb_neq in H1, H2. by rewrite H1, H2.
  - destruct (_ =? u); cbn; by rewrite IH.
Qed.

Lemma owned_delete (p : passkey -> bool) l u :
  (forall q, p q = true -> passkey_user_id q <> u) ->
  rows_where (PasskeyRepo.of_user u) (delete_where p l) = rows_where (PasskeyRepo.of_user u) l.
Proof.
  intros H. unfold rows_where, delete_where, PasskeyRepo.of_user.
  induction l as [|q l IH]; [done|]. cbn. destruct (p q) eqn:E; cbn; [|by rewrite IH].
  apply H, Z.eqb_neq in E. by rewrite E.
Qed.

Section Ownership.
Context {u : Z}.

Lemma owned_same {A} (f : Db -> outcome AsterError.t (A * Db)) :
  (forall d a d', f d = Ok (a, d') -> passkeys d' = passkeys d) ->
  Tracks (owned_kept u) (db_exec f).
Proof.
  intros H. apply tracks_db_exec. intros d a d' Hf. unfold owned_kept, owned. by rewrite (H d a d' Hf).
Qed.

Lemma owned_db {E A} (c : M E A) : (forall w, db (snd (c w)) = db w) -> Tracks (owned_kept u) c.
Proof. intros H w. by rewrite H. Qed.

#[local] Instance owned_take_login f : Tracks (owned_kept u) (take_login_challenge f).
Proof.
  apply owned_db. intros w. unfold take_login_challenge, bind, cache_take.
  by destruct (cache_get _ _ _) as [[]|].
Qed.
#[local] Instance owned_take_registration f : Tracks (owned_kept u) (take_registration_challenge f).
Proof.
  apply owned_db. intros w. unfold take_registration_challenge, bind, cache_take.
  by destruct (cache_get _ _ _) as [[]|].
Qed.
#[local] Instance owned_write {E} k v ttl : Tracks (owned_kept u) (cache_write k v ttl : M E unit).
Proof. by apply owned_db. Qed.
#[local] Instance owned_drawn {A} (f : nat -> outcome string A) : Tracks (owned_kept u) (drawn f).
Proof. by apply owned_db. Qed.

#[local] Instance owned_record p stored result : Tracks (owned_kept u) (record_use p stored result).
Proof.
  unfold record_use, PasskeyRepo.update_credential_after_auth, PasskeyRepo.touch_last_used.
  solve_tracks; apply tracks_update_many; intros d; unfold owned_kept, owned; cbn;
    apply owned_update; by left.
Qed.

#[local] Instance owned_issue v req : Tracks (owned_kept u) (issue_tokens v req).
Proof.
  unfold issue_tokens, persist_auth_session, SessionRepo.create. cbv zeta. solve_tracks.
  apply owned_same. intros d ? d'. repeat case_match; by intros [= _ <-].
Qed.

Lemma owned_insert v mk :
  v <> u -> (forall k, passkey_user_id (mk k) = v) -> Tracks (owned_kept u) (PasskeyRepo.insert v mk).
Proof.
  intros Hv Hmk. apply tracks_db_exec. intros d a d'. destruct (negb _); [done|].
  unfold insert_row. destruct (existsb _ _); [done|]. intros [= _ <-].
  unfold owned_kept, owned, rows_where. cbn. rewrite List.filter_app. cbn.
  unfold PasskeyRepo.of_user at 2. rewrite Hmk. apply Z.eqb_neq in Hv as ->. by rewrite app_nil_r.
Qed.

Lemma owned_request q : acting q <> Some u -> forall w, owned_kept u (db w) (db (handle_passkey q w)).
Proof.
  intros Ha w. destruct q as [v name|v flow value name|v id name|v id|ident cond|flow value req];
    cbn [handle_passkey acting] in *; try (assert (Hv : v <> u) by congruence);
    match goal with |- context [snd (?c w)] =>
      enough (Tracks (owned_kept u) c) as H by apply (H w) end.
  - unfold start_registration, store_registration_challenge. solve_tracks.
  - unfold finish_registration. apply tracks_bind; [apply _|intros wa].
    apply tracks_bind; [apply _|intros challenge]. apply tracks_bind; [apply _|intros x w1].
    apply tracks_step; [by destruct (reads_active v w1) as (-> & _)|].
    intros v' w2 (_ & _ & Hid & _)%active_ok. revert w2. cbv zeta.
    do 5 (apply tracks_bind; [apply _|intros ?]).
    apply tracks_bind; [destruct name; apply _|intros final].
    do 2 (apply tracks_bind; [apply _|intros ?]). apply tracks_bind; [|intros; apply _].
    apply owned_insert; [congruence|done].
  - unfold rename_passkey, PasskeyRepo.update_name_for_user, PasskeyRepo.find_by_id_for_user.
    cbv zeta. solve_tracks. apply tracks_update_many. intros d. unfold owned_kept, owned. cbn.
    apply owned_update. intros q [_ Hq%Z.eqb_eq]%andb_prop. right. cbn. lia.
  - unfold delete_passkey, PasskeyRepo.delete_for_user. solve_tracks.
    apply tracks_db_exec. intros d ? d' [= _ <-]. unfold owned_kept, owned. cbn. f_equal.
    apply owned_delete. intros q [_ Hq%Z.eqb_eq]%andb_prop. lia.
  - unfold start_login, store_login_challenge, ensure_passkey_login_enabled. cbv zeta. solve_tracks.
  - unfold finish_login, ensure_passkey_login_enabled. cbv zeta. solve_tracks.
Qed.
End Ownership.

(** C26: Nobody else touches a user's passkeys: over every history of
    registrations, renames and deletions by other users and of sign-ins by
    anyone, whatever fails in it, the passkeys of a user are the same ones,
    with their handles, credential ids and names. *)
Theorem passkeys_kept_from_others u requests w :
  (forall q, In q requests -> acting q <> Some u) ->
  owned u (db (handle_passkeys requests w)) = owned u (db w).
Proof.
  unfold handle_passkeys. revert w. induction requests as [|q l IH]; intros w H; cbn; [done|].
  rewrite IH by (intros p Hp; apply H; by right). apply owned_request, H. by left.
Qed.
End Theorems.

(** ** Concrete ceremonies *)

(** A site with a public URL. *)
#[local] Instance site_store : ConfigStore := {|
  config_get := fun k =>
    if eqb k PUBLIC_SITE_URL_KEY then Some "https://aster.example.org"%string else None
|}.

(** A WebAuthn library whose credentials are strings: a credential is signed
    when it is the state of the ceremony, a colon and the key. *)
Definition signs (state credential key : string) : bool := eqb credential (state +:+ ":" +:+ key).
Definition key_of (credential : string) : string :=
  match split_char ":" credential with [_; key] => key | _ => credential end.

#[local] Instance webauthn1 : Webauthn := {|
  Value := string;
  value_get := fun v k => if eqb k "cred"%string then Some v else None;
  value_as_bool := fun _ => None;
  value_as_u64 := fun _ => None;
  value_is_null := fun _ => false;
  value_to_string := fun v => Ok v;
  value_from_str := fun s => Ok s;
  strings_from_str := fun s => Some [s];
  rp_url := string;
  rp_url_parse := fun s => Ok s;
  rp_url_scheme := fun _ => "https"%string;
  rp_url_host := fun s => Some s;
  forge_is_loopback_host := fun _ => false;
  u32_to_i64 := fun n => n;
  base64_url_encode := fun s => s;
  uuid_parse_str := fun s => Ok s;
  Builder := unit;
  RelyingParty := unit;
  builder_new := fun _ _ => Ok tt;
  builder_rp_name := fun _ b => b;
  append_allowed_origin := fun _ b => b;
  builder_build := fun b => Ok b;
  Credential := string;
  cred_id := fun c => c;
  credential_to_value := fun c => Ok c;
  credential_from_value := fun v => Ok v;
  CreationOptions := option Selection;
  selection_of := fun o => o;
  default_selection := mkSelection None None false UvPreferred;
  with_selection := fun s _ => Some s;
  creation_to_value := fun _ => Ok "{}"%string;
  RegisterCredential := string;
  register_from_value := fun s => Ok s;
  cred_props_rk := fun _ => None;
  start_passkey_registration := fun _ n _ _ _ _ => Ok (None, pretty n);
  finish_passkey_registration := fun _ c state =>
    if signs state c (key_of c) then Ok (key_of c) else Err "challenge"%string;
  RequestOptions := unit;
  clear_mediation := fun o => o;
  request_to_value := fun _ => Ok "{}"%string;
  LoginCredential := string;
  login_from_value := fun s => Ok s;
  get_credential_id := key_of;
  start_discoverable_authentication := fun _ n => Ok (tt, pretty n);
  identify_discoverable_authentication := fun _ c => Ok ("handle"%string, key_of c);
  DiscoverableKey := string;
  discoverable_key := fun c => c;
  AuthenticationResult := bool;
  finish_discoverable_authentication := fun _ c state keys =>
    if existsb (signs state c) keys then Ok true else Err "signature"%string;
  user_verified := fun r => r;
  result_backup_eligible := fun _ => false;
  result_backup_state := fun _ => false;
  result_counter := fun _ => 1;
  update_credential := fun c _ => Some (true, c);
  nulls_low := true
|}.

Definition alice_key : passkey :=
  mkPasskey 1 1 "key" "handle" "key" "Laptop" None false false 0 0 0 None.
Definition with_key : World := set_db (set_passkeys (mkTable [alice_key] 2) db0) world0.

(** Alice asks for a challenge, and her key signs it. *)
Definition login_asked : PasskeyStartResp * World :=
  run_of (mkPasskeyStart "" "") (start_login (Some "alice"%string) false with_key).
Definition login_flow : string := ps_flow_id (fst login_asked).
Definition no_login : PasskeyLoginResult := mkPasskeyLogin no_bundle 0 "".
Definition login_done : PasskeyLoginResult * World :=
  run_of no_login (finish_login login_flow "0:key" request0 (snd login_asked)).

Lemma login_done_run :
  finish_login login_flow "0:key" request0 (snd login_asked) = (Ok (fst login_done), snd login_done).
Proof. vm_compute. reflexivity. Qed.

(** Alice adds a second key. *)
Definition key_asked : PasskeyStartResp * World :=
  run_of (mkPasskeyStart "" "") (start_registration 1 None with_key).
Definition no_info : PasskeyInfo := mkPasskeyInfo 0 "" None false false 0 0 0 None.
Definition key_added : PasskeyInfo * World :=
  run_of no_info (finish_registration 1 (ps_flow_id (fst key_asked)) "2:other"
                    (Some " Phone "%string) (snd key_asked)).

Lemma key_added_run :
  finish_registration 1 (ps_flow_id (fst key_asked)) "2:other" (Some " Phone "%string)
    (snd key_asked) = (Ok (fst key_added), snd key_added) /\ pi_name (fst key_added) = "Phone"%string.
Proof. vm_compute. by split. Qed.

Lemma passkey_login_sound_witness :
  exists challenge p used_at,
    cache_get (cache (snd login_asked)) (clock (step (snd login_asked))) (login_cache_key login_flow)
      = Some (CvAuthentication challenge) /\
    In p (rows (passkeys (db (snd login_asked)))) /\ passkey_pk p = 1 /\
    List.map passkey_last_used_at (rows (passkeys (db (snd login_done)))) = [Some used_at].
Proof.
  destruct (passkey_login_sound _ _ _ _ _ _ login_done_run)
    as (wa & challenge & c & p & u & stored & result & f & at_ & t & now & _ & _ & _ & Hg & _ & Hin &
        _ & _ & _ & _ & _ & _ & _ & _ & _ & _ & Hf & Hdb & _).
  exists challenge, p, at_. assert (p = alice_key) as -> by (by destruct Hin as [<-|[]]).
  split_and!; [done|done|done|]. rewrite Hdb. change (passkeys (db (snd login_asked))) with (passkeys (db with_key)).
  cbn. f_equal. apply Hf.
Defined.

Lemma passkey_registration_atomic_witness :
  exists p, db (snd key_added) = set_passkeys (mkTable [alice_key; p] 3) (db (snd key_asked)) /\
    credential_id p = "other"%string /\ user_handle p = "handle"%string.
Proof.
  destruct (passkey_registration_atomic _ _ _ _ _ _ _ (proj1 key_added_run))
    as (wa & challenge & u & c & created & p & _ & Hg & _ & _ & _ & _ & Hc & _ & Hf & Hr & _ & Hdb & _).
  exists p. split; [exact Hdb|]. destruct Hr as (_ & -> & -> & _).
  injection Hc as <-. vm_compute in Hg. injection Hg as <-. vm_compute in Hf. injection Hf as <-.
  by split.
Defined.

Lemma passkey_challenge_single_use_witness :
  is_ok (fst (finish_login login_flow "0:key" request0
    (handle_passkeys [StartLogin None false; RenamePasskey 1 1 "Desk"] (snd login_done)))) = false.
Proof.
  apply (passkey_challenge_single_use _ "0:key" request0 (snd login_asked) (fst login_done)).
  - exact login_done_run.
  - intros n Hn E. assert (login_flow = uuid_v4 1) as Ef by (vm_compute; reflexivity).
    rewrite Ef in E. apply uuids0_distinct in E. subst n. vm_compute in Hn. lia.
Defined.

Lemma passkeys_kept_from_others_witness :
  owned 1 (db (handle_passkeys [DeletePasskey 2 1; RenamePasskey 2 1 "Mine"] with_key)) =
  [(1, 1, "key"%string, "handle"%string, "Laptop"%string)].
Proof.
  rewrite (passkeys_kept_from_others 1 [DeletePasskey 2 1; RenamePasskey 2 1 "Mine"] with_key).
  - reflexivity.
  - intros q [<-|[<-|[]]]; done.
Defined.
