(* ===== verification/RuntimeTasks.v ===== *)
(** * Records of runtime tasks and the periodic jobs

    [services/task_service/create.rs], [runtime.rs], [presentation.rs],
    [types.rs], the listing and the retry of [admin.rs], and the jobs of
    [tasks/runtime.rs]: how a run of a periodic job becomes a row of the task
    table, what an administrator is shown of a row, and what a job makes of
    the result of its work.  The wakeup of the dispatcher carries no state. *)

From Stdlib Require Import ZArith List Bool Lia Ascii.
From stdpp Require Import base decidable list strings pretty.
From S2P Require Import Prelude Text Errors Types AuditLog World Repos Bans Tokens Auth Tasks ForwardTextures ProfileTextures AuthConfig Accounts WebSessions ObjectStorage TextureRepo TextureProcessing TextureService TextureWardrobe TextureLibrary Profiles ExternalAuth ExternalLogin.

Local Open Scope Z_scope.
Local Open Scope aster_scope.

(** ** The registry of the periodic jobs *)

Module SystemRuntimeTaskKind.
Inductive t : Set :=
| BackgroundTaskDispatch | SystemHealthCheck | AuthSessionCleanup | ExternalAuthFlowCleanup
| MailOutboxDispatch | AuditCleanup | TaskCleanup | YggdrasilTokenCleanup
| YggdrasilStorageConsistencyCheck | YggdrasilTextureCleanup.

#[global] Instance SystemRuntimeTaskKind_eq_dec : EqDecision t.
Proof. solve_decision. Defined.

Definition as_str (k : t) : string :=
  match k with
  | BackgroundTaskDispatch => "background-task-dispatch"
  | SystemHealthCheck => "system-health-check"
  | AuthSessionCleanup => "auth-session-cleanup"
  | ExternalAuthFlowCleanup => "external-auth-flow-cleanup"
  | MailOutboxDispatch => "mail-outbox-dispatch"
  | AuditCleanup => "audit-cleanup"
  | TaskCleanup => "task-cleanup"
  | YggdrasilTokenCleanup => "yggdrasil-token-cleanup"
  | YggdrasilStorageConsistencyCheck => "yggdrasil-storage-consistency-check"
  | YggdrasilTextureCleanup => "yggdrasil-texture-cleanup"
  end.

Definition display_name (k : t) : string :=
  match k with
  | BackgroundTaskDispatch => "Background task dispatch"
  | SystemHealthCheck => "System health check"
  | AuthSessionCleanup => "Auth session cleanup"
  | ExternalAuthFlowCleanup => "External auth flow cleanup"
  | MailOutboxDispatch => "Mail outbox dispatch"
  | AuditCleanup => "Audit log cleanup"
  | TaskCleanup => "Task artifact cleanup"
  | YggdrasilTokenCleanup => "Yggdrasil token cleanup"
  | YggdrasilStorageConsistencyCheck => "Yggdrasil storage consistency check"
  | YggdrasilTextureCleanup => "Yggdrasil texture cleanup"
  end.

Definition all : list t :=
  [BackgroundTaskDispatch; SystemHealthCheck; AuthSessionCleanup; ExternalAuthFlowCleanup;
   MailOutboxDispatch; AuditCleanup; TaskCleanup; YggdrasilTokenCleanup;
   YggdrasilStorageConsistencyCheck; YggdrasilTextureCleanup].

Definition from_wire_value (value : string) : option t :=
  List.find (fun k => eqb (as_str k) value) all.
End SystemRuntimeTaskKind.

Module TaskPresentationCode.
Inductive t : Set :=
| RuntimeSystemHealthIssueDetail | RuntimeTaskAuditCleanup | RuntimeTaskAuthSessionCleanup
| RuntimeTaskBackgroundTaskDispatch | RuntimeTaskExternalAuthFlowCleanup
| RuntimeTaskMailOutboxDispatch | RuntimeTaskSystemHealthCheck | RuntimeTaskTaskCleanup
| RuntimeTaskYggdrasilStorageConsistencyCheck | RuntimeTaskYggdrasilTokenCleanup
| RuntimeTaskYggdrasilTextureCleanup | StatusTextFailed | StatusTextQuiet | StatusTextSucceeded
| StatusTextSystemHealthy.

Definition presentation_code (k : SystemRuntimeTaskKind.t) : t :=
  match k with
  | SystemRuntimeTaskKind.BackgroundTaskDispatch => RuntimeTaskBackgroundTaskDispatch
  | SystemRuntimeTaskKind.SystemHealthCheck => RuntimeTaskSystemHealthCheck
  | SystemRuntimeTaskKind.AuthSessionCleanup => RuntimeTaskAuthSessionCleanup
  | SystemRuntimeTaskKind.ExternalAuthFlowCleanup => RuntimeTaskExternalAuthFlowCleanup
  | SystemRuntimeTaskKind.MailOutboxDispatch => RuntimeTaskMailOutboxDispatch
  | SystemRuntimeTaskKind.AuditCleanup => RuntimeTaskAuditCleanup
  | SystemRuntimeTaskKind.TaskCleanup => RuntimeTaskTaskCleanup
  | SystemRuntimeTaskKind.YggdrasilTokenCleanup => RuntimeTaskYggdrasilTokenCleanup
  | SystemRuntimeTaskKind.YggdrasilStorageConsistencyCheck =>
      RuntimeTaskYggdrasilStorageConsistencyCheck
  | SystemRuntimeTaskKind.YggdrasilTextureCleanup => RuntimeTaskYggdrasilTextureCleanup
  end.
End TaskPresentationCode.

(** ** Payloads and results *)

Inductive RuntimeSystemHealthStatus : Set := Healthy | Degraded | Unhealthy.

#[export] Instance health_status_eq_dec : EqDecision RuntimeSystemHealthStatus.
Proof. solve_decision. Defined.

(** The names and health details of the task and runtime libraries. *)
Class RuntimeTaskTypes : Type := {
  RuntimeTaskName : Type;
  task_name_from : SystemRuntimeTaskKind.t -> RuntimeTaskName;
  task_name_known : RuntimeTaskName -> option SystemRuntimeTaskKind.t;
  HealthComponentDetail : Type
}.

Section Values.
Context `{RN : RuntimeTaskTypes}.

Record RuntimeTaskPayload : Type := mkPayload {
  payload_task_name : RuntimeTaskName
}.

Record RuntimeSystemHealthComponent : Type := mkHealthComponent {
  hc_name : string;
  hc_status : RuntimeSystemHealthStatus;
  hc_message : string;
  hc_details : list HealthComponentDetail
}.

Record RuntimeSystemHealthResult : Type := mkHealth {
  health_status : RuntimeSystemHealthStatus;
  health_components : list RuntimeSystemHealthComponent
}.

Record RuntimeTaskResult : Type := mkTaskResult {
  duration_ms : Z;
  result_summary : option string;
  result_system_health : option RuntimeSystemHealthResult
}.

(** [(finished_at - started_at).num_milliseconds()] truncates. *)
Definition from_timestamps (started_at finished_at : DateTimeUtc)
  (summary : option string) (system_health : option RuntimeSystemHealthResult)
  : RuntimeTaskResult :=
  mkTaskResult (Z.max (Z.quot (finished_at - started_at) 1000000) 0) summary system_health.

Inductive TaskPayload : Type := PayloadSystemRuntime (p : RuntimeTaskPayload).
Inductive TaskResult : Type := ResultSystemRuntime (r : RuntimeTaskResult).
End Values.
Arguments mkPayload {RN} _.
Arguments mkHealthComponent {RN} _ _ _ _.
Arguments mkHealth {RN} _ _.
Arguments mkTaskResult {RN} _ _ _.
Arguments PayloadSystemRuntime {RN} _.
Arguments ResultSystemRuntime {RN} _.

Module RuntimeTaskRunOutcome.
Section Outcome.
Context `{RN : RuntimeTaskTypes}.

Inductive t : Type :=
| Quiet
| Succeeded (summary : option string) (system_health : option RuntimeSystemHealthResult)
| Failed (summary : option string) (error : string)
    (system_health : option RuntimeSystemHealthResult).

Definition quiet : t := Quiet.
Definition succeeded (summary : option string) : t := Succeeded summary None.
Definition succeeded_with_system_health (summary : option string)
  (system_health : RuntimeSystemHealthResult) : t := Succeeded summary (Some system_health).
Definition failed (summary : option string) (error : string) : t := Failed summary error None.
Definition failed_with_system_health (summary : option string) (error : string)
  (system_health : RuntimeSystemHealthResult) : t := Failed summary error (Some system_health).

Definition should_record (o : t) : bool := match o with Quiet => false | _ => true end.
Definition is_failed (o : t) : bool := match o with Failed _ _ _ => true | _ => false end.

Definition status (o : t) : BackgroundTaskStatus :=
  match o with
  | Quiet | Succeeded _ _ => Types.Succeeded
  | Failed _ _ _ => Types.Failed
  end.

Definition summary (o : t) : option string :=
  match o with Quiet => None | Succeeded s _ | Failed s _ _ => s end.
Definition error (o : t) : option string :=
  match o with Failed _ e _ => Some e | _ => None end.
Definition system_health (o : t) : option RuntimeSystemHealthResult :=
  match o with Succeeded _ h | Failed _ _ h => h | Quiet => None end.
End Outcome.
Arguments Quiet {RN}.
Arguments Succeeded {RN} _ _.
Arguments Failed {RN} _ _ _.
End RuntimeTaskRunOutcome.

(** ** Creating a task *)

(** [BackgroundTaskSpec]: what a kind of task says of itself; the texts of its
    payload and result are serde's. *)
Class BackgroundTaskSpec : Type := {
  spec_kind : BackgroundTaskKind;
  spec_payload : Type;
  spec_result : Type;
  spec_payload_json : spec_payload -> outcome string string;
  spec_result_json : spec_result -> outcome string string
}.

(** [From<TaskCoreError> for AsterError] *)
Definition task_core {A} (r : outcome string A) : outcome AsterError.t A :=
  match r with
  | Ok a => Ok a
  | Err e => Err (AsterError.InternalError e)
  | Panic m => Panic m
  end.

Definition serialize_payload {S : BackgroundTaskSpec} (p : spec_payload)
  : outcome AsterError.t string := task_core (spec_payload_json p).
Definition serialize_result {S : BackgroundTaskSpec} (r : spec_result)
  : outcome AsterError.t string := task_core (spec_result_json r).

Definition TASK_DISPLAY_NAME_MAX_LEN : Z := 512.
Definition truncate_display_name `{CB : CacheBackend} {TE : TaskExterns} (value : string) : string :=
  truncate_utf8_to_max_bytes value TASK_DISPLAY_NAME_MAX_LEN.

Module TypedTaskCreate.
Section Builder.
Context {S : BackgroundTaskSpec}.

Record t : Type := mkTyped {
  tc_display_name : string;
  tc_payload : spec_payload;
  tc_dedupe_key : option string;
  tc_creator_user_id : option Z;
  tc_status : BackgroundTaskStatus;
  tc_result_json : option string;
  tc_include_steps : bool;
  tc_progress_current : Z;
  tc_progress_total : Z;
  tc_status_text : option string;
  tc_next_run_at : DateTimeUtc;
  tc_started_at : option DateTimeUtc;
  tc_finished_at : option DateTimeUtc;
  tc_last_error : option string;
  tc_failure_can_retry : option bool;
  tc_expires_at_anchor : DateTimeUtc;
  tc_created_at : DateTimeUtc;
  tc_updated_at : DateTimeUtc
}.

(** [new], with the instant it reads. *)
Definition new_at (now : DateTimeUtc) (display_name : string) (payload : spec_payload) : t :=
  mkTyped display_name payload None None Pending None true 0 0 None now None None None None now
    now now.

Definition creator_user_id (v : option Z) (c : t) : t :=
  mkTyped (tc_display_name c) (tc_payload c) (tc_dedupe_key c) v (tc_status c)
    (tc_result_json c) (tc_include_steps c) (tc_progress_current c) (tc_progress_total c)
    (tc_status_text c) (tc_next_run_at c) (tc_started_at c) (tc_finished_at c)
    (tc_last_error c) (tc_failure_can_retry c) (tc_expires_at_anchor c) (tc_created_at c)
    (tc_updated_at c).
Definition dedupe_key (v : string) (c : t) : t :=
  mkTyped (tc_display_name c) (tc_payload c) (Some v) (tc_creator_user_id c) (tc_status c)
    (tc_result_json c) (tc_include_steps c) (tc_progress_current c) (tc_progress_total c)
    (tc_status_text c) (tc_next_run_at c) (tc_started_at c) (tc_finished_at c)
    (tc_last_error c) (tc_failure_can_retry c) (tc_expires_at_anchor c) (tc_created_at c)
    (tc_updated_at c).
Definition next_run_at (v : DateTimeUtc) (c : t) : t :=
  mkTyped (tc_display_name c) (tc_payload c) (tc_dedupe_key c) (tc_creator_user_id c)
    (tc_status c) (tc_result_json c) (tc_include_steps c) (tc_progress_current c)
    (tc_progress_total c) (tc_status_text c) v (tc_started_at c) (tc_finished_at c)
    (tc_last_error c) (tc_failure_can_retry c) v (tc_created_at c) (tc_updated_at c).
Definition progress (current total : Z) (c : t) : t :=
  mkTyped (tc_display_name c) (tc_payload c) (tc_dedupe_key c) (tc_creator_user_id c)
    (tc_status c) (tc_result_json c) (tc_include_steps c) current total (tc_status_text c)
    (tc_next_run_at c) (tc_started_at c) (tc_finished_at c) (tc_last_error c)
    (tc_failure_can_retry c) (tc_expires_at_anchor c) (tc_created_at c) (tc_updated_at c).
Definition status_text (v : string) (c : t) : t :=
  mkTyped (tc_display_name c) (tc_payload c) (tc_dedupe_key c) (tc_creator_user_id c)
    (tc_status c) (tc_result_json c) (tc_include_steps c) (tc_progress_current c)
    (tc_progress_total c) (Some v) (tc_next_run_at c) (tc_started_at c) (tc_finished_at c)
    (tc_last_error c) (tc_failure_can_retry c) (tc_expires_at_anchor c) (tc_created_at c)
    (tc_updated_at c).
Definition status (v : BackgroundTaskStatus) (c : t) : t :=
  mkTyped (tc_display_name c) (tc_payload c) (tc_dedupe_key c) (tc_creator_user_id c) v
    (tc_result_json c) (tc_include_steps c) (tc_progress_current c) (tc_progress_total c)
    (tc_status_text c) (tc_next_run_at c) (tc_started_at c) (tc_finished_at c)
    (tc_last_error c) (tc_failure_can_retry c) (tc_expires_at_anchor c) (tc_created_at c)
    (tc_updated_at c).
Definition with_result (v : string) (c : t) : t :=
  mkTyped (tc_display_name c) (tc_payload c) (tc_dedupe_key c) (tc_creator_user_id c)
    (tc_status c) (Some v) (tc_include_steps c) (tc_progress_current c) (tc_progress_total c)
    (tc_status_text c) (tc_next_run_at c) (tc_started_at c) (tc_finished_at c)
    (tc_last_error c) (tc_failure_can_retry c) (tc_expires_at_anchor c) (tc_created_at c)
    (tc_updated_at c).
Definition result (r : spec_result) (c : t) : outcome AsterError.t t :=
  and_then (serialize_result r) (fun json => Ok (with_result json c)).
Definition without_steps (c : t) : t :=
  mkTyped (tc_display_name c) (tc_payload c) (tc_dedupe_key c) (tc_creator_user_id c)
    (tc_status c) (tc_result_json c) false (tc_progress_current c) (tc_progress_total c)
    (tc_status_text c) (tc_next_run_at c) (tc_started_at c) (tc_finished_at c)
    (tc_last_error c) (tc_failure_can_retry c) (tc_expires_at_anchor c) (tc_created_at c)
    (tc_updated_at c).
Definition started_at (v : DateTimeUtc) (c : t) : t :=
  mkTyped (tc_display_name c) (tc_payload c) (tc_dedupe_key c) (tc_creator_user_id c)
    (tc_status c) (tc_result_json c) (tc_include_steps c) (tc_progress_current c)
    (tc_progress_total c) (tc_status_text c) (tc_next_run_at c) (Some v) (tc_finished_at c)
    (tc_last_error c) (tc_failure_can_retry c) (tc_expires_at_anchor c) v (tc_updated_at c).
Definition finished_at (v : DateTimeUtc) (c : t) : t :=
  mkTyped (tc_display_name c) (tc_payload c) (tc_dedupe_key c) (tc_creator_user_id c)
    (tc_status c) (tc_result_json c) (tc_include_steps c) (tc_progress_current c)
    (tc_progress_total c) (tc_status_text c) v (tc_started_at c) (Some v) (tc_last_error c)
    (tc_failure_can_retry c) v (tc_created_at c) v.
Definition last_error (v : option string) (c : t) : t :=
  mkTyped (tc_display_name c) (tc_payload c) (tc_dedupe_key c) (tc_creator_user_id c)
    (tc_status c) (tc_result_json c) (tc_include_steps c) (tc_progress_current c)
    (tc_progress_total c) (tc_status_text c) (tc_next_run_at c) (tc_started_at c)
    (tc_finished_at c) v (tc_failure_can_retry c) (tc_expires_at_anchor c) (tc_created_at c)
    (tc_updated_at c).
Definition failure_can_retry (v : option bool) (c : t) : t :=
  mkTyped (tc_display_name c) (tc_payload c) (tc_dedupe_key c) (tc_creator_user_id c)
    (tc_status c) (tc_result_json c) (tc_include_steps c) (tc_progress_current c)
    (tc_progress_total c) (tc_status_text c) (tc_next_run_at c) (tc_started_at c)
    (tc_finished_at c) (tc_last_error c) v (tc_expires_at_anchor c) (tc_created_at c)
    (tc_updated_at c).

Context `{EN : Env} `{CB : CacheBackend} {TE : TaskExterns}.

Definition new {E} (display_name : string) (payload : spec_payload) : M E t :=
  let* now := utc_now in
  ret (new_at now display_name payload).

Definition steps_json (c : t) : outcome AsterError.t (option string) :=
  if tc_include_steps c
  then and_then (serialize_task_steps (initial_task_steps spec_kind)) (fun s => Ok (Some s))
  else Ok None.

(** The row without its key. *)
Definition into_active_model (c : t) : M AsterError.t (Z -> background_task) :=
  let* payload_json := lift (serialize_payload (tc_payload c)) in
  let* steps_json := lift (steps_json c) in
  let* expires_at := task_expiration_from (tc_expires_at_anchor c) in
  ret (fun pk =>
    mkTask pk spec_kind (tc_status c) (tc_creator_user_id c)
      (truncate_display_name (tc_display_name c))
      (tc_dedupe_key c) payload_json (tc_result_json c) None steps_json (tc_progress_current c)
      (tc_progress_total c) (truncate_status_text <$> tc_status_text c) 0
      (Tasks.max_attempts spec_kind) (tc_next_run_at c) 0 None None None (tc_started_at c)
      (tc_finished_at c)
      (truncate_error <$> tc_last_error c) (tc_failure_can_retry c) expires_at (tc_created_at c)
      (tc_updated_at c)).
End Builder.
Arguments t : clear implicits.
End TypedTaskCreate.

Section Create.
Context `{EN : Env} `{CB : CacheBackend} {TE : TaskExterns} {S : BackgroundTaskSpec}.

Definition insert_typed_task_record (request : TypedTaskCreate.t S) : M AsterError.t background_task :=
  let* active := TypedTaskCreate.into_active_model request in
  let* created := catch (TaskRepo.create active) in
  match created with
  | inl task => ret task
  | inr error =>
      match TypedTaskCreate.tc_dedupe_key request with
      | Some key =>
          let* existing := TaskRepo.find_by_dedupe_key key in
          match existing with
          | Some existing => ret existing
          | None => throw error
          end
      | None => throw error
      end
  end.

Definition create_typed_task_record (display_name : string) (payload : spec_payload)
  (creator_user_id : option Z) : M AsterError.t background_task :=
  let* request := TypedTaskCreate.new display_name payload in
  insert_typed_task_record (TypedTaskCreate.creator_user_id creator_user_id request).
End Create.

(** ** The records of periodic jobs *)

(** serde and the task library: the texts of payloads and results, the key of
    a scheduled run, and the conversion of a percentage. *)
Class RuntimeTaskExterns `{RN : RuntimeTaskTypes} `{CB : CacheBackend} {TE : TaskExterns} : Type := {
  payload_to_json : RuntimeTaskPayload -> outcome string string;
  result_to_json : RuntimeTaskResult -> outcome string string;
  decode_payload : Z -> string -> outcome string TaskPayload;
  decode_result : Z -> option string -> outcome string (option TaskResult);
  steps_from_json : string -> outcome string (list TaskStepInfo);
  scheduled_task_dedupe_key : string -> string -> DateTimeUtc -> outcome string string;
  i64_to_i32 : Z -> string -> outcome string Z
}.

Section Records.
Context `{EN : Env} `{CB : CacheBackend} {TE : TaskExterns} `{RN : RuntimeTaskTypes}.
Context `{RX : !RuntimeTaskExterns}.

#[export] Instance SystemRuntimeTask : BackgroundTaskSpec := {|
  spec_kind := SystemRuntime;
  spec_payload := RuntimeTaskPayload;
  spec_result := RuntimeTaskResult;
  spec_payload_json := payload_to_json;
  spec_result_json := result_to_json
|}.

(** A worker that is given a runtime record fails. *)
Definition process_system_runtime {A} (task : background_task) : outcome AsterError.t A :=
  Err (AsterError.InternalError
         ("system runtime task #" +:+ pretty (task_pk task) +:+ " should not be dispatched")).

Definition system_runtime_payload_json (task_name : SystemRuntimeTaskKind.t)
  : outcome AsterError.t string := serialize_payload (mkPayload (task_name_from task_name)).

Definition find_latest_system_runtime_by_task_name (task_name : SystemRuntimeTaskKind.t)
  : M AsterError.t (option background_task) :=
  let* payload_json := lift (system_runtime_payload_json task_name) in
  TaskRepo.find_latest_system_runtime_by_payload payload_json.

Definition should_refresh_latest_success (task_name : SystemRuntimeTaskKind.t)
  (run : RuntimeTaskRunOutcome.t) : bool :=
  eqb task_name SystemRuntimeTaskKind.SystemHealthCheck
  && match run with
     | RuntimeTaskRunOutcome.Succeeded _ (Some health) => eqb (health_status health) Healthy
     | _ => false
     end.

(** The conditions before the first block: the refreshed row. *)
Definition refresh_latest_success (payload_json result_json : string) (summary : option string)
  (started_at finished_at : DateTimeUtc) : M AsterError.t (option Z) :=
  let* latest := TaskRepo.find_latest_system_runtime_by_payload payload_json in
  match latest with
  | None => ret None
  | Some existing =>
      if eqb (task_status existing) Types.Succeeded then
        let* expires_at := task_expiration_from finished_at in
        let* refreshed := TaskRepo.refresh_system_runtime_success
          (TaskRepo.mkRefresh (task_pk existing) result_json summary finished_at started_at
             finished_at expires_at) in
        ret (if refreshed then Some (task_pk existing) else None)
      else ret None
  end.

Definition run_request (started_at finished_at : DateTimeUtc)
  (run : RuntimeTaskRunOutcome.t) (summary last_error : option string)
  (dedupe_key : option string) (result_json : string) (c : TypedTaskCreate.t SystemRuntimeTask)
  : TypedTaskCreate.t SystemRuntimeTask :=
  let failed := RuntimeTaskRunOutcome.is_failed run in
  let c := TypedTaskCreate.status (RuntimeTaskRunOutcome.status run) c in
  let c := TypedTaskCreate.without_steps c in
  let c := TypedTaskCreate.progress (if failed then 0 else 1) 1 c in
  let c := TypedTaskCreate.started_at started_at c in
  let c := TypedTaskCreate.finished_at finished_at c in
  let c := TypedTaskCreate.last_error last_error c in
  let c := TypedTaskCreate.failure_can_retry (if failed then Some false else None) c in
  let c := TypedTaskCreate.with_result result_json c in
  let c := match dedupe_key with Some key => TypedTaskCreate.dedupe_key key c | None => c end in
  match summary with Some text => TypedTaskCreate.status_text text c | None => c end.

Definition record_runtime_task_run_with_dedupe_key (task_name : SystemRuntimeTaskKind.t)
  (started_at finished_at : DateTimeUtc) (run : RuntimeTaskRunOutcome.t)
  (dedupe_key : option string) : M AsterError.t (option background_task) :=
  if negb (RuntimeTaskRunOutcome.should_record run) then ret None
  else
    let payload := mkPayload (task_name_from task_name) in
    let* payload_json := lift (serialize_payload payload) in
    let summary := truncate_status_text <$> RuntimeTaskRunOutcome.summary run in
    let last_error := truncate_error <$> RuntimeTaskRunOutcome.error run in
    let result := from_timestamps started_at finished_at summary
                    (RuntimeTaskRunOutcome.system_health run) in
    let* result_json := lift (serialize_result result) in
    let* refreshed :=
      if should_refresh_latest_success task_name run
      then refresh_latest_success payload_json result_json summary started_at finished_at
      else ret None in
    match refreshed with
    | Some id => let* task := TaskRepo.find_by_id id in ret (Some task)
    | None =>
        let* create := TypedTaskCreate.new (SystemRuntimeTaskKind.display_name task_name) payload in
        let* result_json := lift (serialize_result result) in
        let* task := insert_typed_task_record
          (run_request started_at finished_at run summary last_error
             dedupe_key result_json create) in
        ret (Some task)
    end.

Definition record_runtime_task_run (task_name : SystemRuntimeTaskKind.t)
  (started_at finished_at : DateTimeUtc) (run : RuntimeTaskRunOutcome.t)
  : M AsterError.t (option background_task) :=
  record_runtime_task_run_with_dedupe_key task_name started_at finished_at run None.

Definition record_scheduled_runtime_task_run (task_name : SystemRuntimeTaskKind.t)
  (scheduled_at started_at finished_at : DateTimeUtc) (run : RuntimeTaskRunOutcome.t)
  : M AsterError.t (option background_task) :=
  let* dedupe_key := lift (task_core (scheduled_task_dedupe_key "aster_yggdrasil"
                             (SystemRuntimeTaskKind.as_str task_name) scheduled_at)) in
  record_runtime_task_run_with_dedupe_key task_name started_at finished_at run
    (Some dedupe_key).
End Records.

(** ** What an administrator is shown *)

(** The values of presentation parameters, before serde. *)
Inductive ParamValue `{RN : RuntimeTaskTypes} : Type :=
| ParamText (text : string)
| ParamStatus (status : RuntimeSystemHealthStatus)
| ParamComponents (components : list RuntimeSystemHealthComponent).

Record TaskPresentationMessage `{RN : RuntimeTaskTypes} : Type := mkMessage {
  tpm_code : TaskPresentationCode.t;
  tpm_params : list (string * ParamValue)
}.

Record TaskPresentation `{RN : RuntimeTaskTypes} : Type := mkPresentation {
  presentation_title : option TaskPresentationMessage;
  presentation_status : option TaskPresentationMessage
}.
Arguments ParamText {RN} _.
Arguments ParamStatus {RN} _.
Arguments ParamComponents {RN} _.
Arguments mkMessage {RN} _ _.
Arguments mkPresentation {RN} _ _.

Section Presentation.
Context `{RN : RuntimeTaskTypes}.

Definition title_message (payload : TaskPayload) : option TaskPresentationMessage :=
  match payload with
  | PayloadSystemRuntime payload =>
      (fun kind => mkMessage (TaskPresentationCode.presentation_code kind) [])
        <$> task_name_known (payload_task_name payload)
  end.

Definition system_health_status_message (health : RuntimeSystemHealthResult)
  : TaskPresentationMessage :=
  if eqb (health_status health) Healthy
  then mkMessage TaskPresentationCode.StatusTextSystemHealthy []
  else
    let components :=
      List.filter (fun c => negb (eqb (hc_status c) Healthy)) (health_components health) in
    mkMessage TaskPresentationCode.RuntimeSystemHealthIssueDetail
      [("components"%string, ParamComponents components);
       ("status"%string, ParamStatus (health_status health))].

Definition fallback_status_message (status : BackgroundTaskStatus) (last_error : option string)
  : option TaskPresentationMessage :=
  match status with
  | Types.Succeeded => Some (mkMessage TaskPresentationCode.StatusTextSucceeded [])
  | Types.Failed =>
      Some (mkMessage TaskPresentationCode.StatusTextFailed
              (match last_error with
               | Some error => if is_empty error then [] else [("error"%string, ParamText error)]
               | None => []
               end))
  | Canceled => Some (mkMessage TaskPresentationCode.StatusTextQuiet [])
  | Pending | Processing | Retry => None
  end.

Definition status_message (result : option TaskResult) (status : BackgroundTaskStatus)
  (last_error : option string) : option TaskPresentationMessage :=
  match result with
  | Some (ResultSystemRuntime result) =>
      match result_system_health result with
      | Some health => Some (system_health_status_message health)
      | None => fallback_status_message status last_error
      end
  | None => fallback_status_message status last_error
  end.

Definition build_task_presentation (payload : TaskPayload) (result : option TaskResult)
  (status : BackgroundTaskStatus) (last_error : option string) : option TaskPresentation :=
  let title := title_message payload in
  let status := status_message result status last_error in
  if is_some title || is_some status then Some (mkPresentation title status) else None.
End Presentation.

Record TaskCreatorSummary : Type := mkCreator {
  tcs_id : Z;
  tcs_username : string;
  tcs_email : option string
}.

Definition creator_summary (u : user) : TaskCreatorSummary :=
  mkCreator (user_pk u) (username u) (email u).

(** The fields a [TaskInfo] copies from its row are the row. *)
Record TaskInfo `{RN : RuntimeTaskTypes} `{CB : CacheBackend} {TE : TaskExterns} : Type := mkTaskInfo {
  ti_task : background_task;
  ti_creator : option TaskCreatorSummary;
  ti_progress_percent : Z;
  ti_payload : TaskPayload;
  ti_result : option TaskResult;
  ti_steps : list TaskStepInfo;
  ti_can_retry : bool;
  ti_presentation : option TaskPresentation
}.
Arguments mkTaskInfo {RN CB TE} _ _ _ _ _ _ _ _.

Definition TASK_LIST_MAX_LIMIT_KEY : string := "task_list_max_limit".
Definition DEFAULT_TASK_LIST_MAX_LIMIT : Z := 100.

Definition i64_clamp (n : Z) : Z := Z.max (- 2 ^ 63) (Z.min n I64_MAX).

Section Admin.
Context `{EN : Env} `{CB : CacheBackend} {TE : TaskExterns} `{RN : RuntimeTaskTypes}.
Context `{RX : !RuntimeTaskExterns} `{RC : RuntimeConfig} `{FA : ForgeApi} `{CF : ForgeConfig}.
Context `{ST : ConfigStore}.

(** [((current.saturating_mul(100)) / total).clamp(0, 100)]: the division of
    [i64] truncates. *)
Definition progress_percent (task : background_task) : outcome AsterError.t Z :=
  if progress_total task <=? 0
  then Ok (if eqb (task_status task) Types.Succeeded then 100 else 0)
  else utils (i64_to_i32
                (Z.max 0 (Z.min 100
                   (Z.quot (i64_clamp (progress_current task * 100)) (progress_total task))))
                "task progress percent").

Definition decode_task_payload (task : background_task) : outcome AsterError.t TaskPayload :=
  task_core (decode_payload (task_pk task) (payload_json task)).

Definition decode_task_result_or_none (task : background_task) : option TaskResult :=
  match task_core (decode_result (task_pk task) (result_json task)) with
  | Ok result => result
  | _ => None
  end.

Definition parse_task_steps_json (steps_json : option string)
  : outcome AsterError.t (list TaskStepInfo) :=
  match steps_json with
  | Some raw =>
      if is_empty (trim raw) then Ok []
      else match steps_from_json raw with
           | Ok steps => Ok steps
           | Err e => Err (AsterError.InternalError ("parse task steps json: " +:+ e))
           | Panic m => Panic m
           end
  | None => Ok []
  end.

Definition build_task_info (task : background_task) (creator : option TaskCreatorSummary)
  : outcome AsterError.t TaskInfo :=
  and_then (progress_percent task) (fun percent =>
  and_then (decode_task_payload task) (fun payload =>
  let result := decode_task_result_or_none task in
  and_then (parse_task_steps_json (steps_json task)) (fun steps =>
  Ok (mkTaskInfo task creator percent payload result steps (task_can_retry task)
        (build_task_presentation payload result (task_status task) (last_error task)))))).

Definition build_task_info_with_creator (task : background_task) : M AsterError.t TaskInfo :=
  let* creator :=
    match creator_user_id task with
    | Some user_id =>
        let* u := UserRepo.find_by_id user_id in
        ret (Some (creator_summary u))
    | None => ret None
    end in
  lift (build_task_info task creator).

Definition with_creator (creators : list user) (task : TaskInfo) : TaskInfo :=
  mkTaskInfo (ti_task task)
    (creator_user_id (ti_task task) ≫= fun id => creator_summary <$> by_key user_pk creators id)
    (ti_progress_percent task) (ti_payload task) (ti_result task) (ti_steps task)
    (ti_can_retry task) (ti_presentation task).

(** The order of the set does not matter to the query. *)
Definition hydrate_task_creators (tasks : list TaskInfo) : M AsterError.t (list TaskInfo) :=
  let creator_ids := btree_set (omap (fun t => creator_user_id (ti_task t)) tasks) in
  match creator_ids with
  | [] => ret tasks
  | _ =>
      let* creators := find_users_by_ids creator_ids in
      ret (List.map (with_creator creators) tasks)
  end.

Definition newest_task_first (t u : background_task) : bool :=
  (task_updated_at u <? task_updated_at t)
  || ((task_updated_at t =? task_updated_at u) && (task_pk u <=? task_pk t)).

Definition task_after (after : option (DateTimeUtc * Z)) (t : background_task) : bool :=
  match after with
  | None => true
  | Some (updated_at, id) =>
      (task_updated_at t <? updated_at)
      || ((task_updated_at t =? updated_at) && (task_pk t <? id))
  end.

Definition find_cursor_filtered (limit : Z) (filters : TaskRepo.AdminTaskFilters)
  (after : option (DateTimeUtc * Z)) : M AsterError.t (CursorSlice background_task) :=
  let limit := SessionRepo.clamp limit 1 100 in
  let matching := TaskRepo.apply_admin_filters filters in
  let* total := db_query (fun d => Z.of_nat (count_where matching (rows (tasks d)))) in
  let* items := db_query (fun d =>
    firstn (Z.to_nat (limit + 1))
      (sort_by newest_task_first
         (rows_where (fun t => matching t && task_after after t) (rows (tasks d))))) in
  lift (match from_overfetch items total limit with
        | Ok s => Ok s
        | Err m => Err (AsterError.ValidationError m)
        | Panic m => Panic m
        end).

Definition task_list_max_limit : Z :=
  read_positive_u64 config_get TASK_LIST_MAX_LIMIT_KEY DEFAULT_TASK_LIST_MAX_LIMIT.

Definition list_tasks_paginated_for_admin (limit : Z) (filters : TaskRepo.AdminTaskFilters)
  (cursor : option (DateTimeUtc * Z)) : M AsterError.t (CursorPage TaskInfo (DateTimeUtc * Z)) :=
  let limit := SessionRepo.clamp limit 1 task_list_max_limit in
  let* page := find_cursor_filtered limit filters cursor in
  let next :=
    if has_more page then (fun t => (task_updated_at t, task_pk t)) <$> last (items page) else None in
  let* infos := lift (collect (fun t => build_task_info t None) (items page)) in
  let* infos := hydrate_task_creators infos in
  ret (mkPage infos (total page) limit next).

Definition retry_task_for_admin (task_id : Z) : M AsterError.t TaskInfo :=
  let* task := TaskRepo.find_by_id task_id in
  do* retry_task_record task in
  let* task := TaskRepo.find_by_id task_id in
  build_task_info_with_creator task.

Definition retry_task_for_admin_with_audit (task_id : Z) (ctx : AuditContext)
  : M AsterError.t TaskInfo :=
  let* previous := TaskRepo.find_by_id task_id in
  do* retry_task_record previous in
  let* task := TaskRepo.find_by_id task_id in
  let* info := build_task_info_with_creator task in
  do* AuditService.log_with_details ctx AuditAction.TaskRetry Task (Some (task_pk (ti_task info)))
        (Some (task_display_name (ti_task info))) in
  ret info.
End Admin.

(** ** The periodic jobs

    A job turns the result of its work into an outcome to record; work that
    panics is caught by the task library. *)

Section Outcomes.
Context `{RN : RuntimeTaskTypes}.

(** The shape most jobs share. *)
Definition count_outcome (done : Z -> string) (failure : string) (r : Z + AsterError.t)
  : RuntimeTaskRunOutcome.t :=
  match r with
  | inl count =>
      if 0 <? count then RuntimeTaskRunOutcome.succeeded (Some (done count))
      else RuntimeTaskRunOutcome.quiet
  | inr error => RuntimeTaskRunOutcome.failed (Some failure) (AsterError.message error)
  end.

Definition panicked (panic_message : string) : RuntimeTaskRunOutcome.t :=
  RuntimeTaskRunOutcome.failed (Some "Task panicked"%string) panic_message.

Definition MAX_ISSUES_IN_SUMMARY : nat := 5.

Definition issue_detail (issue : ObjectStorageConsistencyIssue) : string :=
  let kind :=
    match issue_kind issue with
    | MissingObject => "missing object"%string
    | HashMismatch => "hash/key mismatch"%string
    end in
  kind +:+ ": texture #" +:+ pretty (issue_texture_id issue) +:+ ", key "
  +:+ issue_storage_key issue +:+ ", expected hash " +:+ issue_hash issue.

Definition yggdrasil_storage_consistency_failure_summary (report : ObjectStorageConsistencyReport)
  : string :=
  let summary :=
    "checked " +:+ pretty (cons_checked report) +:+ ", missing " +:+ pretty (cons_missing report)
    +:+ ", hash/key mismatched " +:+ pretty (cons_hash_mismatched report) +:+ " texture blobs" in
  match cons_issues report with
  | [] => summary
  | issues =>
      let details :=
        String.concat "; " (List.map issue_detail (firstn MAX_ISSUES_IN_SUMMARY issues)) in
      let remaining := (length issues - MAX_ISSUES_IN_SUMMARY)%nat in
      summary +:+ ": " +:+ details
      +:+ (if (0 <? remaining)%nat then "; and " +:+ pretty remaining +:+ " more" else "")
  end.

Definition storage_consistency_outcome (r : ObjectStorageConsistencyReport + AsterError.t)
  : RuntimeTaskRunOutcome.t :=
  match r with
  | inl report =>
      if (0 <? cons_missing report) || (0 <? cons_hash_mismatched report) then
        let summary := yggdrasil_storage_consistency_failure_summary report in
        RuntimeTaskRunOutcome.failed (Some summary) summary
      else if 0 <? cons_checked report then
        RuntimeTaskRunOutcome.succeeded
          (Some ("checked " +:+ pretty (cons_checked report) +:+ " object storage records"))
      else RuntimeTaskRunOutcome.quiet
  | inr error =>
      RuntimeTaskRunOutcome.failed (Some "Yggdrasil storage consistency check failed"%string)
        (AsterError.message error)
  end.

Definition texture_cleanup_failed (error : string) : RuntimeTaskRunOutcome.t :=
  RuntimeTaskRunOutcome.failed (Some "Yggdrasil texture cleanup failed"%string) error.

Definition texture_cleanup_outcome (registration : WardrobeRegistrationResult)
  (r : OrphanTextureCleanupResult + AsterError.t) : RuntimeTaskRunOutcome.t :=
  match r with
  | inl result =>
      if (0 <? converted_textures registration) || (0 <? rebound_bindings registration)
         || (0 <? removed_duplicate_textures registration) || (0 <? orphan_deleted result)
      then
        RuntimeTaskRunOutcome.succeeded (Some
          ("registered " +:+ pretty (converted_textures registration) +:+ " bound textures, rebound "
           +:+ pretty (rebound_bindings registration) +:+ ", removed "
           +:+ pretty (removed_duplicate_textures registration) +:+ " duplicates; scanned "
           +:+ pretty (orphan_scanned result) +:+ ", deleted " +:+ pretty (orphan_deleted result)
           +:+ ", skipped " +:+ pretty (orphan_skipped result) +:+ " texture blobs"))
      else RuntimeTaskRunOutcome.quiet
  | inr error => texture_cleanup_failed (AsterError.message error)
  end.

(** The report of the health checks, a value of the runtime library. *)
Record SystemHealthReport : Type := mkReport {
  report_components : list RuntimeSystemHealthComponent;
  report_status : RuntimeSystemHealthStatus;
  has_issues : bool;
  issue_summary : string;
  issue_details : string
}.

Definition system_health_outcome (report : SystemHealthReport) : RuntimeTaskRunOutcome.t :=
  let summary := if has_issues report then issue_summary report else "system healthy"%string in
  let system_health := mkHealth (report_status report) (report_components report) in
  if has_issues report
  then RuntimeTaskRunOutcome.failed_with_system_health (Some summary) (issue_details report)
         system_health
  else RuntimeTaskRunOutcome.succeeded_with_system_health (Some summary) system_health.

(** A dispatch is recorded only when it fails. *)
Definition background_task_dispatch_outcome {A} (r : A + AsterError.t) : RuntimeTaskRunOutcome.t :=
  match r with
  | inl _ => RuntimeTaskRunOutcome.quiet
  | inr error =>
      RuntimeTaskRunOutcome.failed (Some "Background task dispatch failed"%string)
        (AsterError.message error)
  end.
End Outcomes.

Section Jobs.
Context `{EN : Env} `{CB : CacheBackend} `{TM : TxnManager} `{FC : ForgeCrypto} `{FA : ForgeApi}.
Context `{FN : ForgeNumbers} `{TN : TextureNumbers} `{BE : BanExterns} `{CH : Chrono}.
Context `{TX : TextureExterns} `{SE : SkinExterns} `{TS : TextSearch} `{PP : PreviewPolicy}.
Context `{RC : RuntimeConfig} `{IC : ImageCodec} `{FS : FileSystem} {OS : ObjectStorage}.
Context `{RN : RuntimeTaskTypes}.

Abbreviation Job := (M AsterError.t RuntimeTaskRunOutcome.t).

Definition run_auth_session_cleanup : Job :=
  let* r := catch cleanup_expired_auth_sessions in
  ret (count_outcome (fun count => "cleaned up " +:+ pretty count +:+ " expired auth sessions")
         "Auth session cleanup failed" r).

Definition run_external_auth_flow_cleanup : Job :=
  let* r := catch cleanup_expired_flows in
  ret (count_outcome (fun count => "cleaned up " +:+ pretty count +:+ " expired external auth flows")
         "External auth flow cleanup failed" r).

Definition run_yggdrasil_token_cleanup : Job :=
  let* r := catch cleanup_expired_or_revoked_tokens in
  ret (count_outcome
         (fun count => "cleaned up " +:+ pretty count +:+ " expired or revoked Yggdrasil tokens")
         "Yggdrasil token cleanup failed" r).

Definition run_yggdrasil_storage_consistency_check : Job :=
  let* r := catch check_object_storage_consistency in
  ret (storage_consistency_outcome r).

Definition run_yggdrasil_texture_cleanup : Job :=
  let* registration := catch register_bound_textures_in_wardrobe in
  match registration with
  | inr error => ret (texture_cleanup_failed (TextureErrors.protocol_message error))
  | inl registration =>
      let* r := catch cleanup_orphan_texture_blobs in
      ret (texture_cleanup_outcome registration r)
  end.
End Jobs.

(** ** Recording what a job came to *)

Section Recording.
Context `{EN : Env} `{CB : CacheBackend} {TE : TaskExterns} `{RN : RuntimeTaskTypes}.
Context `{RX : !RuntimeTaskExterns}.

(** A record that cannot be written is only logged. *)
Definition record_scheduled_task_outcome {E} (name : SystemRuntimeTaskKind.t)
  (scheduled_at started_at finished_at : DateTimeUtc) (run : RuntimeTaskRunOutcome.t) : M E unit :=
  let* _ := catch (record_scheduled_runtime_task_run name scheduled_at started_at finished_at run) in
  ret tt.

Definition record_runtime_task_outcome {E} (name : SystemRuntimeTaskKind.t)
  (started_at finished_at : DateTimeUtc) (run : RuntimeTaskRunOutcome.t) : M E unit :=
  let* _ := catch (record_runtime_task_run name started_at finished_at run) in
  ret tt.
End Recording.
