(* ===== verification/RuntimeTaskProofs.v ===== *)
(** * Theorems about runtime records and periodic jobs

    The row a run leaves, that a scheduled run leaves one, that no record is
    ever given to a worker, and what the storage job says. *)

From Stdlib Require Import ZArith List Bool Lia Ascii.
From stdpp Require Import base decidable list strings gmap pretty relations.
From S2P Require Import Prelude Text Errors Types AuditLog World Logic Repos Bans Tokens Auth Concrete Tasks TaskProofs TaskTheorems ForwardTextures AuthConfig Accounts WebSessions AccountOps AccountConcrete Tracks ObjectStorage TextureRepo TextureProcessing TextureService TextureWardrobe TextureLibrary TextureInvariant TextureTheorems RuntimeTasks.

Local Open Scope Z_scope.
Local Open Scope aster_scope.

Lemma take_chars_idem n l : take_chars n (take_chars n l) = take_chars n l.
Proof.
  revert n. induction l as [|a l IH]; intros n; [done|]. cbn.
  destruct (is_continuation a) eqn:Ea; [cbn; by rewrite Ea, IH|].
  destruct n as [|m]; [done|]. cbn. by rewrite Ea, IH.
Qed.

Lemma truncate_status_text_idem s : truncate_status_text (truncate_status_text s) = truncate_status_text s.
Proof. unfold truncate_status_text. by rewrite bytes_of_bytes, take_chars_idem. Qed.
Lemma truncate_error_idem s : truncate_error (truncate_error s) = truncate_error s.
Proof. unfold truncate_error. by rewrite bytes_of_bytes, take_chars_idem. Qed.

Section Theorems.
Context `{EN : Env} `{CB : CacheBackend} {TM : TxnManager} `{TL : !TxnLaws TM} `{FN : ForgeCounts}.
Context {TE : TaskExterns} `{TX : !TaskExternLaws TE} `{RN : RuntimeTaskTypes}.
Context `{RX : !RuntimeTaskExterns} `{RC : RuntimeConfig}.
Implicit Types (run : RuntimeTaskRunOutcome.t) (name : SystemRuntimeTaskKind.t).

(** ** The row of a run *)

Definition run_row name (started_at finished_at : DateTimeUtc) run (key : option string)
  (payload result : string) (expires_at : DateTimeUtc) (pk : Z) : background_task :=
  let failed := RuntimeTaskRunOutcome.is_failed run in
  mkTask pk SystemRuntime (RuntimeTaskRunOutcome.status run) None
    (truncate_display_name (SystemRuntimeTaskKind.display_name name)) key payload (Some result)
    None None (if failed then 0 else 1) 1
    (truncate_status_text <$> RuntimeTaskRunOutcome.summary run) 0 1 finished_at 0 None None None
    (Some started_at) (Some finished_at) (truncate_error <$> RuntimeTaskRunOutcome.error run)
    (if failed then Some false else None) expires_at started_at finished_at.

Definition payload_text name : outcome string string :=
  payload_to_json (mkPayload (task_name_from name)).
Definition result_text (started_at finished_at : DateTimeUtc) run : outcome string string :=
  result_to_json (from_timestamps started_at finished_at
    (truncate_status_text <$> RuntimeTaskRunOutcome.summary run)
    (RuntimeTaskRunOutcome.system_health run)).
Definition expires_after (t : DateTimeUtc) : option DateTimeUtc :=
  datetime_add_hours t load_task_retention_hours.

Lemma task_core_ok {A} (r : outcome string A) a : task_core r = Ok a -> r = Ok a.
Proof. destruct r; cbn; congruence. Qed.

Lemma expiration_ok {E} t w e w' :
  (task_expiration_from t : M E DateTimeUtc) w = (Ok e, w') -> expires_after t = Some e /\ w' = w.
Proof. unfold task_expiration_from, expires_after. by destruct (datetime_add_hours _ _); intros [= <- <-]. Qed.

#[local] Instance reads_expiration {E} t : Reads (task_expiration_from t : M E DateTimeUtc).
Proof. unfold task_expiration_from. destruct (datetime_add_hours _ _); [apply _|]. intros w. apply same_refl. Qed.
#[local] Instance reads_find_task id : Reads (TaskRepo.find_by_id id).
Proof. unfold TaskRepo.find_by_id. apply _. Qed.
#[local] Instance reads_find_key k : Reads (TaskRepo.find_by_dedupe_key k).
Proof. unfold TaskRepo.find_by_dedupe_key. apply _. Qed.
#[local] Instance reads_latest p : Reads (TaskRepo.find_latest_system_runtime_by_payload p).
Proof. unfold TaskRepo.find_latest_system_runtime_by_payload. apply _. Qed.
#[local] Instance reads_model (c : TypedTaskCreate.t SystemRuntimeTask) :
  Reads (TypedTaskCreate.into_active_model c).
Proof. unfold TypedTaskCreate.into_active_model. apply _. Qed.
#[local] Instance reads_new {E} n (p : spec_payload (BackgroundTaskSpec := SystemRuntimeTask)) :
  Reads (TypedTaskCreate.new n p : M E _).
Proof. unfold TypedTaskCreate.new. apply _. Qed.

(** The chain of builder calls makes this row, whatever the clock said. *)
Lemma run_request_row now name s f run key summary error result w mk w' :
  summary = truncate_status_text <$> RuntimeTaskRunOutcome.summary run ->
  error = truncate_error <$> RuntimeTaskRunOutcome.error run ->
  TypedTaskCreate.into_active_model
    (run_request s f run summary error key result
       (TypedTaskCreate.new_at now (SystemRuntimeTaskKind.display_name name)
          (mkPayload (task_name_from name)))) w = (Ok mk, w') ->
  exists payload expires, payload_text name = Ok payload /\ expires_after f = Some expires /\
    mk = run_row name s f run key payload result expires /\ w' = w.
Proof.
  intros -> -> H. unfold TypedTaskCreate.into_active_model in H.
  apply bind_ok in H as (payload & w1 & Hp & H). apply lift_ok in Hp as [Hp%task_core_ok ->].
  apply bind_ok in H as (steps & w1 & Hs & H). apply lift_ok in Hs as [Hs ->].
  apply bind_ok in H as (expires & w1 & He & H). apply expiration_ok in He as [He ->].
  injection H as <- <-. exists payload, expires. unfold run_request in *.
  destruct key, (RuntimeTaskRunOutcome.summary run) eqn:Es; cbn in *;
    injection Hs as <-; (split; [exact Hp|]; split; [exact He|]; split; [|done]);
    unfold run_row; rewrite Es; destruct (RuntimeTaskRunOutcome.error run); cbn;
    by rewrite ?truncate_status_text_idem, ?truncate_error_idem.
Qed.

(** ** What recording does *)

Lemma create_ok mk w t w' :
  TaskRepo.create mk w = (Ok t, w') ->
  t = mk (next_pk (tasks (db w))) /\
  existsb (TaskRepo.task_conflict t) (rows (tasks (db w))) = false /\
  db w' = set_tasks (mkTable (rows (tasks (db w)) ++ [t]) (next_pk (tasks (db w)) + 1)) (db w).
Proof. intros H. by apply db_insert_ok in H as (-> & Hc & ->). Qed.

Lemma create_failed mk w r w' :
  (catch (TaskRepo.create mk) : M AsterError.t _) w = (r, w') ->
  (forall t, r <> Ok (inl t)) -> db w' = db w.
Proof.
  unfold catch, TaskRepo.create, db_insert, db_exec. destruct (db_fault _); [by intros [= _ <-]|].
  destruct (insert_row _ _ _) as [[t T]|]; intros [= <- <-] Hn; [by destruct (Hn t)|done].
Qed.

Definition with_key (k : string) (t : background_task) : bool := eqb (dedupe_key t) (Some k).

(** A row is added, or the one that has the key is returned, or no table
    changes. *)
Lemma insert_request_run (c : TypedTaskCreate.t SystemRuntimeTask) w r w' :
  insert_typed_task_record c w = (r, w') ->
  match r with
  | Ok t =>
      (exists mk w1, TypedTaskCreate.into_active_model c w = (Ok mk, w1) /\
         t = mk (next_pk (tasks (db w))) /\
         existsb (TaskRepo.task_conflict t) (rows (tasks (db w))) = false /\
         db w' = set_tasks (mkTable (rows (tasks (db w)) ++ [t]) (next_pk (tasks (db w)) + 1)) (db w))
      \/ (exists k, TypedTaskCreate.tc_dedupe_key c = Some k /\
           find_row (with_key k) (rows (tasks (db w))) = Some t /\ db w' = db w)
  | _ => db w' = db w
  end.
Proof.
  intros H. unfold insert_typed_task_record, bind in H.
  destruct (TypedTaskCreate.into_active_model c w) as [[mk|e|m] w1] eqn:Em;
    pose proof (reads_run _ _ _ _ Em) as S1; [|injection H as <- <-; by apply same_db..].
  destruct ((catch (TaskRepo.create mk) : M AsterError.t _) w1) as [[[t|e]|e|m] w2] eqn:Ec.
  - unfold catch in Ec. destruct (TaskRepo.create mk w1) as [[t'|e|m] w3] eqn:E; try done.
    injection Ec as -> ->. injection H as <- <-. left. exists mk, w1.
    apply create_ok in E as (Et & Hc & Hd). rewrite (same_db _ _ S1) in *. by split_and!.
  - assert (Hd : db w2 = db w) by (rewrite <- (same_db _ _ S1); by eapply create_failed).
    destruct (TypedTaskCreate.tc_dedupe_key c) as [k|]; [|by injection H as <- <-].
    destruct (TaskRepo.find_by_dedupe_key k w2) as [[x|e'|m] w3] eqn:Ef;
      pose proof (reads_run _ _ _ _ Ef) as S3; apply same_db in S3;
      [|injection H as <- <-; congruence..].
    destruct x as [t|]; injection H as <- <-; [|congruence].
    right. exists k. apply db_query_ok in Ef as (E & _). rewrite Hd in E. split_and!; [done| |congruence].
    by symmetry.
  - apply create_failed in Ec; [|done]. injection H as <- <-. by rewrite Ec, (same_db _ _ S1).
  - apply create_failed in Ec; [|done]. injection H as <- <-. by rewrite Ec, (same_db _ _ S1).
Qed.
(** The refreshed row: the newest success of this very check. *)
Definition refreshed_in (T : Table background_task) (payload result : string)
  (summary : option string) (s f expires : DateTimeUtc) (id : Z) : Table background_task :=
  with_rows (update_where (fun t => TaskRepo.is_task id t && eqb (task_kind t) SystemRuntime
                                    && eqb (task_status t) Succeeded)
               (TaskRepo.refreshed_row (TaskRepo.mkRefresh id result summary f s f expires))
               (rows T)) T.

(** The row [t] was written last of those that record the payload. *)
Definition newest_record (T : Table background_task) (payload : string) (t : background_task) : Prop :=
  In t (rows T) /\ task_kind t = SystemRuntime /\ payload_json t = payload /\
  forall u, In u (rows T) -> task_kind u = SystemRuntime -> payload_json u = payload ->
    task_updated_at u <= task_updated_at t.

Definition latest_success (T : Table background_task) (payload : string) (id : Z) : Prop :=
  exists t, newest_record T payload t /\ task_pk t = id /\ task_status t = Succeeded.

(** No row records the payload, or the newest that does is not a success. *)
Definition no_latest_success (T : Table background_task) (payload : string) : Prop :=
  (forall t, In t (rows T) -> task_kind t = SystemRuntime -> payload_json t <> payload) \/
  exists t, newest_record T payload t /\ task_status t <> Succeeded.

Lemma find_task_row id w t w' :
  TaskRepo.find_by_id id w = (Ok t, w') ->
  find_row (TaskRepo.is_task id) (rows (tasks (db w))) = Some t.
Proof.
  intros H. apply bind_ok in H as (x & w1 & Hq & H). apply db_query_ok in Hq as (-> & _).
  apply lift_ok in H as [H _]. destruct (find_row _ _); cbn in H; congruence.
Qed.

Lemma one_row_db p f w r w' :
  TaskRepo.one_row p f w = (r, w') ->
  if is_ok r
  then db w' = set_tasks (with_rows (update_where p f (rows (tasks (db w)))) (tasks (db w))) (db w)
  else db w' = db w.
Proof.
  unfold TaskRepo.one_row, bind, db_update_many, db_exec. by destruct (db_fault _); intros [= <- <-].
Qed.

Lemma latest_run payload w r w' :
  TaskRepo.find_latest_system_runtime_by_payload payload w = (Ok r, w') ->
  match r with
  | Some t => newest_record (tasks (db w)) payload t
  | None => no_latest_success (tasks (db w)) payload
  end.
Proof.
  intros H. apply db_query_ok in H as (E & _).
  set (l := rows_where _ (rows (tasks (db w)))) in E.
  assert (Hl : forall t, In t (sort_by TaskRepo.newest_updated_first l) <->
    In t (rows (tasks (db w))) /\ task_kind t = SystemRuntime /\ payload_json t = payload).
  { intros t. rewrite in_sort_by. unfold l. rewrite in_rows_where, andb_true_iff, !eqb_true.
    done. }
  pose proof (sort_by_sorted TaskRepo.newest_updated_first
    ltac:(intros; unfold TaskRepo.newest_updated_first; lia)
    ltac:(intros ? ? ?; unfold TaskRepo.newest_updated_first; lia) l) as Hs.
  destruct (sort_by _ _) as [|x xs]; cbn in E; subst r.
  - left. intros t Hin Hk Hp. by apply (Hl t).
  - destruct (proj1 (Hl x)) as (Hin & Hk & Hp); [by left|]. split_and!; [done..|].
    intros u Hu Hku Hpu. destruct (proj2 (Hl u)) as [->|Hx]; [done|lia|].
    inversion Hs as [|? ? _ Hf]; subst. rewrite List.Forall_forall in Hf.
    specialize (Hf u Hx). unfold TaskRepo.newest_updated_first in Hf. lia.
Qed.

Lemma refresh_run payload result summary s f w r w' :
  tasks_wf (tasks (db w)) ->
  refresh_latest_success payload result summary s f w = (r, w') ->
  (db w' = db w /\ (forall id, r <> Ok (Some id)) /\
     (r = Ok None -> no_latest_success (tasks (db w)) payload)) \/
  (exists id expires, latest_success (tasks (db w)) payload id /\ expires_after f = Some expires /\
     (forall x, r = Ok x -> x = Some id) /\
     db w' = set_tasks (refreshed_in (tasks (db w)) payload result summary s f expires id) (db w)).
Proof.
  intros [Hnd _] H. unfold refresh_latest_success, bind in H.
  destruct (TaskRepo.find_latest_system_runtime_by_payload payload w) as [[x|e|m] w1] eqn:El;
    pose proof (reads_run _ _ _ _ El) as S1; [|left; injection H as <- <-; split_and!;
      [by apply same_db|done..]..].
  apply latest_run in El.
  destruct x as [t|]; [|left; injection H as <- <-; split_and!; [by apply same_db|done..]].
  destruct (eqb (task_status t) Succeeded) eqn:Es; [|left; injection H as <- <-; split_and!;
    [by apply same_db|done|intros _; right; exists t; by rewrite eqb_false in Es]].
  rewrite eqb_true in Es.
  unfold task_expiration_from in H. fold (expires_after f) in H.
  change (datetime_add_hours f load_task_retention_hours) with (expires_after f) in H.
  destruct (expires_after f) as [expires|] eqn:Ee; [|left; injection H as <- <-; split_and!;
    [by apply same_db|done..]].
  cbn [ret] in H. unfold ret in H at 1.
  destruct (TaskRepo.refresh_system_runtime_success _ w1) as [[b|e|m] w2] eqn:Eo;
    apply one_row_db in Eo as Ho; rewrite (same_db _ _ S1) in Ho;
    [|left; by injection H as <- <-..].
  right. exists (task_pk t), expires. injection H as <- <-.
  split_and!; [by exists t|done| |done].
  destruct (one_row_run _ _ _ _ _ Eo) as [(? & ? & _)|[[= ->] _]]; [done|].
  intros x [= <-]. rewrite (same_db _ _ S1). destruct El as (Hu & Hk & _).
  assert (count_where (fun x => TaskRepo.is_task (task_pk t) x && eqb (task_kind x) SystemRuntime
            && eqb (task_status x) Succeeded) (rows (tasks (db w))) = 1%nat) as ->; [|done].
  apply Nat.le_antisymm.
  - apply (at_most_one task_pk (task_pk t)); [done|]. intros y [[Hy _]%andb_prop _]%andb_prop.
    unfold TaskRepo.is_task in Hy. lia.
  - apply Nat.neq_0_lt_0. rewrite count_where_zero. intros H0. specialize (H0 t Hu).
    unfold TaskRepo.is_task in H0. by rewrite Hk, Es, Z.eqb_refl in H0.
Qed.

(** The last block: a new row, unless its key is taken. *)
Lemma record_insert_run name s f run key w r w' :
  (let* create := TypedTaskCreate.new (SystemRuntimeTaskKind.display_name name)
                    (mkPayload (task_name_from name) : spec_payload) in
   let* result_json := lift (serialize_result (from_timestamps s f
     (truncate_status_text <$> RuntimeTaskRunOutcome.summary run)
     (RuntimeTaskRunOutcome.system_health run))) in
   let* task := insert_typed_task_record
     (run_request s f run (truncate_status_text <$> RuntimeTaskRunOutcome.summary run)
        (truncate_error <$> RuntimeTaskRunOutcome.error run) key result_json create) in
   ret (Some task)) w = (r, w') ->
  let T := tasks (db w) in
  match r with
  | Ok None => False
  | Ok (Some t) =>
      (exists payload result expires,
          payload_text name = Ok payload /\ result_text s f run = Ok result /\
          expires_after f = Some expires /\
          t = run_row name s f run key payload result expires (next_pk T) /\
          (forall u k, In u (rows T) -> key = Some k -> dedupe_key u <> Some k) /\
          db w' = set_tasks (mkTable (rows T ++ [t]) (next_pk T + 1)) (db w))
      \/ (exists k, key = Some k /\ find_row (with_key k) (rows T) = Some t /\ db w' = db w)
  | _ => db w' = db w
  end.
Proof.
  intros H. cbv zeta. unfold TypedTaskCreate.new, bind, utc_now, lift in H. cbn [ret] in H.
  unfold ret in H. destruct (serialize_result _) as [result|e|m] eqn:Es;
    [|by injection H as <- <-..].
  apply task_core_ok in Es.
  destruct (insert_typed_task_record _ _) as [[t|e|m] w2] eqn:Ei;
    apply insert_request_run in Ei; cbn [db tick] in Ei; injection H as <- <-; try exact Ei.
  destruct Ei as [(mk & w1 & Hm & -> & Hc & Hd)|(k & Hk & Hf & Hd)].
  - apply run_request_row in Hm as (payload & expires & Hp & He & -> & _); [|done..].
    left. exists payload, result, expires. split_and!; [done..| |done].
    intros u k Hu -> Hk. rewrite <- not_true_iff_false in Hc. apply Hc, existsb_exists.
    exists u. split; [done|]. unfold TaskRepo.task_conflict. cbn. by rewrite eqb_true.
  - right. exists k. split_and!; [|done..].
    unfold run_request in Hk. destruct key, (RuntimeTaskRunOutcome.summary run); exact Hk.
Qed.

(** C39: What recording a run does.  A quiet run leaves no trace, not even a
    statement.  Any other run ends in one of four ways: its row is added, with
    the status, progress, times, texts and truncated messages of the run and a
    dedupe key no other row has; or the row that already has its key is
    returned and nothing changes; or, for a healthy health check only, the
    record of the health check that was written last, if it is a success, is
    rewritten with this run and returned (among rows written at the same time
    it may be any); or recording fails, and then no row but such a refreshed
    one has changed.  A healthy health check adds a row only where no record
    was written before or the one written last is not a success.  Only the
    task table is ever written. *)
Theorem runtime_record_exact name s f run key w r w' :
  tasks_wf (tasks (db w)) ->
  record_runtime_task_run_with_dedupe_key name s f run key w = (r, w') ->
  let T := tasks (db w) in
  let refreshed := exists payload result expires id,
    should_refresh_latest_success name run = true /\
    payload_text name = Ok payload /\ result_text s f run = Ok result /\
    expires_after f = Some expires /\ latest_success T payload id /\
    db w' = set_tasks (refreshed_in T payload result
              (truncate_status_text <$> RuntimeTaskRunOutcome.summary run) s f expires id) (db w) /\
    (forall t, r = Ok (Some t) -> find_row (TaskRepo.is_task id) (rows (tasks (db w'))) = Some t) in
  match r with
  | Ok None => run = RuntimeTaskRunOutcome.Quiet /\ w' = w
  | Ok (Some t) =>
      run <> RuntimeTaskRunOutcome.Quiet /\
      ((exists payload result expires,
          payload_text name = Ok payload /\ result_text s f run = Ok result /\
          expires_after f = Some expires /\
          t = run_row name s f run key payload result expires (next_pk T) /\
          (forall u k, In u (rows T) -> key = Some k -> dedupe_key u <> Some k) /\
          (should_refresh_latest_success name run = true -> no_latest_success T payload) /\
          db w' = set_tasks (mkTable (rows T ++ [t]) (next_pk T + 1)) (db w))
       \/ (exists k, key = Some k /\ find_row (with_key k) (rows T) = Some t /\ db w' = db w)
       \/ refreshed)
  | _ => db w' = db w \/ refreshed
  end.
Proof.
  intros Hwf H. cbv zeta. unfold record_runtime_task_run_with_dedupe_key in H.
  destruct (RuntimeTaskRunOutcome.should_record run) eqn:Er; cbn [negb] in H;
    [|injection H as <- <-; by destruct run].
  assert (Hq : run <> RuntimeTaskRunOutcome.Quiet) by (by intros ->). clear Er. cbv zeta in H.
  unfold bind at 1, lift at 1 in H. destruct (serialize_payload _) as [payload|e|m] eqn:Ep;
    [|injection H as <- <-; by left..].
  unfold bind at 1, lift at 1 in H. destruct (serialize_result _) as [result|e|m] eqn:Es;
    [|injection H as <- <-; by left..].
  rewrite <- Es in H. apply task_core_ok in Ep, Es. unfold bind at 1 in H.
  destruct (should_refresh_latest_success name run) eqn:Eh.
  - destruct (refresh_latest_success _ _ _ _ _ w) as [x w1] eqn:Ef. apply refresh_run in Ef; [|done].
    destruct Ef as [(Hd & Hx & Hn)|(id & expires & Hl & He & Hx & Hd)].
    + destruct x as [[id|]|e|m]; [by destruct (Hx id)| |injection H as <- <-; by left..].
      specialize (Hn eq_refl).
      apply record_insert_run in H. rewrite Hd in H. destruct r as [[t|]|e|m]; [|done|by left..].
      split; [done|]. destruct H as [(p & q & y & Hp & H)|H]; [|auto].
      change (payload_text name = Ok payload) in Ep. rewrite Ep in Hp.
      injection Hp as <-. left. exists payload, q, y. by destruct H as (?&?&?&?&?).
    + destruct x as [[id'|]|e|m].
      * specialize (Hx _ eq_refl) as [= ->]. unfold bind in H.
        destruct (TaskRepo.find_by_id id w1) as [[t|e|m] w2] eqn:Eb;
          pose proof (reads_run _ _ _ _ Eb) as S2; apply same_db in S2; injection H as <- <-.
        -- split; [done|]. right. right. exists payload, result, expires, id. rewrite S2.
           split_and!; [done..|]. intros t' [= <-]. by apply find_task_row in Eb.
        -- right. exists payload, result, expires, id. rewrite S2. by split_and!.
        -- right. exists payload, result, expires, id. rewrite S2. by split_and!.
      * by specialize (Hx _ eq_refl).
      * injection H as <- <-. right. exists payload, result, expires, id. split_and!; done.
      * injection H as <- <-. right. exists payload, result, expires, id. split_and!; done.
  - cbn [ret] in H. apply record_insert_run in H.
    destruct r as [[t|]|e|m]; [|done|by left..].
    split; [done|]. destruct H as [(p & q & y & ?&?&?&?&?&?)|H]; [|auto].
    left. by exists p, q, y.
Qed.

(** ** Histories of the task table *)

Inductive runtime_request : Type :=
| RecordRun name (s f : DateTimeUtc) run
| RecordScheduled name (scheduled_at s f : DateTimeUtc) run
| DispatchLane (config : TaskLaneConfig) (candidates : list TaskClaimCandidate)
    (stale claimed_at lease : DateTimeUtc)
| WorkerWrite (id k : Z) (op : worker_write)
| RetryByAdmin (id : Z) (ctx : AuditContext)
| CleanupByAdmin (filters : AdminTaskCleanupFilters)
| DeleteTasks (ids : list Z).

Definition handle_runtime (q : runtime_request) (w : World) : World :=
  match q with
  | RecordRun name s f run => snd (record_runtime_task_run name s f run w)
  | RecordScheduled name at_ s f run => snd (record_scheduled_runtime_task_run name at_ s f run w)
  | DispatchLane config cs stale at_ lease => snd (claim_candidates_for_lane config cs stale at_ lease w)
  | WorkerWrite id k op => snd (write_as id k op w)
  | RetryByAdmin id ctx => snd (retry_task_for_admin_with_audit id ctx w)
  | CleanupByAdmin filters => snd (cleanup_tasks_for_admin filters w)
  | DeleteTasks ids => snd (TaskRepo.delete_many ids w)
  end.

Definition handle_runtimes (l : list runtime_request) (w : World) : World :=
  List.fold_left (fun w q => handle_runtime q w) l w.

#[local] Instance lock_reads_row key : Reads (store_lock_by_key key).
Proof. intros w. apply lock_reads. Qed.
#[local] Instance temp_dir_reads_row id : Reads (remove_task_temp_dir id).
Proof. intros w. apply temp_dir_reads. Qed.
#[local] Instance count_reads_row now ks : Reads (TaskRepo.count_active_processing_by_kinds now ks).
Proof. unfold TaskRepo.count_active_processing_by_kinds. apply _. Qed.

Section Tracking.
Context {R : relation Db} `{!PreOrder R}.

Lemma tracks_one_row p f :
  (forall d, R d (set_tasks (with_rows (update_where p f (rows (tasks d))) (tasks d)) d)) ->
  Tracks R (TaskRepo.one_row p f).
Proof. intros H. unfold TaskRepo.one_row. solve_tracks. by apply tracks_update_many. Qed.

Lemma tracks_claims config cs stale at_ lease :
  (forall id k now stale next lease, Tracks R (TaskRepo.try_claim id k now stale next lease)) ->
  Tracks R (claim_candidates_for_lane config cs stale at_ lease).
Proof.
  intros Ht. unfold claim_candidates_for_lane, claim_in_txn. destruct cs as [|c cs]; [apply _|].
  solve_tracks. generalize (available_lane_capacity (lane_limit config) a0), ([] : list ClaimedTask).
  induction (c :: cs) as [|c' l IH]; intros n claimed; cbn; [apply _|].
  destruct (n <=? _); [apply _|]. apply tracks_bind; [apply Ht|intros ?; apply IH].
Qed.

(** Recording tracks what a refresh and an insertion do. *)
Lemma tracks_record name s f run key :
  (forall refresh, Tracks R (TaskRepo.refresh_system_runtime_success refresh)) ->
  (run <> RuntimeTaskRunOutcome.Quiet -> forall payload result expires,
     Tracks R (TaskRepo.create (run_row name s f run key payload result expires))) ->
  Tracks R (record_runtime_task_run_with_dedupe_key name s f run key).
Proof.
  intros Hr Hc. unfold record_runtime_task_run_with_dedupe_key.
  destruct (RuntimeTaskRunOutcome.should_record run) eqn:Er; cbn [negb]; [|apply _].
  cbv zeta. apply tracks_bind; [apply _|intros payload]. apply tracks_bind; [apply _|intros result].
  apply tracks_bind.
  { unfold refresh_latest_success. solve_tracks. }
  intros [id|]; [apply _|]. intros w. apply tracks_step; [apply (tracks_reads _ _)|].
  intros c w1 Hn. unfold TypedTaskCreate.new in Hn. injection Hn as <- <-.
  apply tracks_step; [done|]. intros result' w2 _.
  apply tracks_step; [|done]. unfold insert_typed_task_record.
  apply tracks_step; [apply (tracks_reads _ _)|]. intros mk w3 Hm.
  apply run_request_row in Hm as (p & e & _ & _ & -> & _); [|done..].
  apply tracks_step; [apply (tracks_catch _ (Hc (ltac:(by intros ->)) _ _ _))|].
  intros [t|err] w4 _; [done|]. destruct (TypedTaskCreate.tc_dedupe_key _); [|done].
  apply (tracks_reads (R := R) _ _).
Qed.

(** A worker's write is a guarded update of the row it holds. *)
Lemma tracks_write id k op :
  (forall f, (forall t, dedupe_key (f t) = dedupe_key t /\ task_pk (f t) = task_pk t) ->
     Tracks R (TaskRepo.one_row (TaskRepo.held_by id k) f)) ->
  Tracks R (write_as id k op).
Proof.
  intros H. destruct op; cbn [write_as]; unfold TaskRepo.touch_heartbeat, TaskRepo.mark_progress,
    TaskRepo.set_runtime_json, TaskRepo.set_display_name, TaskRepo.mark_succeeded,
    TaskRepo.mark_retry, TaskRepo.release_processing, TaskRepo.mark_failed; solve_tracks;
    apply H; intros t;
    unfold TaskRepo.progressed_row, TaskRepo.succeeded_row, TaskRepo.retried_row,
      TaskRepo.failed_row, TaskRepo.set_steps_if; by repeat case_match.
Qed.

Lemma tracks_retry id ctx :
  (forall i now n steps, Tracks R (TaskRepo.reset_for_manual_retry i now n steps)) ->
  Tracks R (retry_task_for_admin_with_audit id ctx).
Proof.
  intros H. unfold retry_task_for_admin_with_audit, retry_task_record, build_task_info_with_creator,
    UserRepo.find_by_id. solve_tracks.
Qed.
End Tracking.

(** The program a request runs. *)
Ltac as_program := lazymatch goal with
  | |- ?R (db ?w) (db (snd (?c ?w))) => refine ((_ : Tracks R c) w)
  end.

(** ** A scheduled run leaves one row *)

(** The row that has the key. *)
Definition keyed (k : string) (id : Z) (d : Db) : Prop :=
  task_pk <$> find_row (with_key k) (rows (tasks d)) = Some id.
Definition keyed_kept (k : string) (id : Z) (d d' : Db) : Prop := keyed k id d -> keyed k id d'.

#[export] Instance keyed_preorder k id : PreOrder (keyed_kept k id).
Proof. split; unfold keyed_kept; [by intros d|]. intros d1 d2 d3 H1 H2 H. auto. Qed.

(** Requests that take no row away. *)
Definition keeps_rows (q : runtime_request) : bool :=
  match q with CleanupByAdmin _ | DeleteTasks _ => false | _ => true end.

Lemma keyed_one_row k id p f :
  (forall t, dedupe_key (f t) = dedupe_key t /\ task_pk (f t) = task_pk t) ->
  Tracks (keyed_kept k id) (TaskRepo.one_row p f).
Proof.
  intros Hf. apply tracks_one_row. intros d. unfold keyed_kept, keyed. cbn. intros <-.
  unfold find_row, update_where, with_key. induction (rows (tasks d)) as [|t l IH]; [done|]. cbn.
  destruct (Hf t) as [Hk Hid]. destruct (p t); rewrite ?Hk; destruct (eqb _ _); cbn; by rewrite ?Hid.
Qed.

Lemma keyed_create k id mk : Tracks (keyed_kept k id) (TaskRepo.create mk).
Proof.
  apply tracks_insert. intros d _. unfold keyed_kept, keyed. cbn. rewrite find_row_app.
  by destruct (find_row _ _).
Qed.

Lemma keyed_request k id q w :
  keeps_rows q = true -> keyed_kept k id (db w) (db (handle_runtime q w)).
Proof.
  intros Hq. assert (Hrec : forall name s f run key,
    Tracks (keyed_kept k id) (record_runtime_task_run_with_dedupe_key name s f run key)).
  { intros. apply tracks_record; [intros; by apply keyed_one_row|intros; apply keyed_create]. }
  destruct q as [name s f run|name at_ s f run|config cs stale at_ lease|i k0 op|i ctx|fs|ids];
    cbn [handle_runtime keeps_rows] in *; try done; as_program.
  - apply tracks_claims. intros. by apply keyed_one_row.
  - apply tracks_write. intros g Hg. by apply keyed_one_row.
  - apply tracks_retry. intros. apply keyed_one_row. intros t. unfold TaskRepo.reset_row.
    by destruct steps.
Qed.

Lemma keyed_requests k id l w :
  forallb keeps_rows l = true -> keyed_kept k id (db w) (db (handle_runtimes l w)).
Proof.
  unfold handle_runtimes. revert w. induction l as [|q l IH]; intros w; cbn; [done|].
  intros [Hq Hl]%andb_prop. etrans; [by apply keyed_request|by apply IH].
Qed.

(** What one scheduled recording says of the row with its key. *)
Lemma scheduled_key name at_ s f run w t w' :
  should_refresh_latest_success name run = false ->
  record_scheduled_runtime_task_run name at_ s f run w = (Ok (Some t), w') ->
  exists k, scheduled_task_dedupe_key "aster_yggdrasil" (SystemRuntimeTaskKind.as_str name) at_ = Ok k /\
    keyed k (task_pk t) (db w') /\
    (forall u, find_row (with_key k) (rows (tasks (db w))) = Some u -> t = u /\ db w' = db w).
Proof.
  intros Hr H. apply bind_ok in H as (k & w1 & Hk & H). apply lift_ok in Hk as [Hk%task_core_ok ->].
  exists k. split; [done|]. unfold record_runtime_task_run_with_dedupe_key in H.
  destruct (negb _); [done|]. cbv zeta in H.
  apply bind_ok in H as (p & w1 & Hp & H). apply lift_ok in Hp as [_ ->].
  apply bind_ok in H as (res & w1 & Hres & H). apply lift_ok in Hres as [_ ->].
  rewrite Hr in H. apply bind_ok in H as (x & w1 & Hx & H). injection Hx as <- <-.
  apply record_insert_run in H as [(payload & result & expires & _ & _ & _ & -> & Hf & Hd)
                                  |(k' & [= <-] & Hf & Hd)].
  - assert (Hn : find_row (with_key k) (rows (tasks (db w))) = None).
    { apply find_row_none. intros u Hu. unfold with_key. rewrite eqb_false. by apply (Hf u k). }
    split; [|by rewrite Hn]. unfold keyed. rewrite Hd. cbn. rewrite find_row_app, Hn. cbn.
    unfold with_key. cbn. by rewrite eqb_refl.
  - split; [unfold keyed; by rewrite Hd, Hf|]. rewrite Hf. by intros u [= <-].
Qed.

(** C23: A scheduled run leaves one record.  After a run of a job was recorded
    for a due time, recording another run for the same due time (a second
    scheduler, a repeated claim, a different result) answers with the row of
    the first and changes no table, whatever recordings, dispatches, writes of
    workers and retries of administrators, failed or not, came between, as
    long as no cleanup took the row.  The rewritten record of a healthy health
    check is the one exception. *)
Theorem scheduled_run_recorded_once name at_ s1 f1 run1 s2 f2 run2 w t1 w1 requests t2 w2 :
  should_refresh_latest_success name run1 = false ->
  should_refresh_latest_success name run2 = false ->
  record_scheduled_runtime_task_run name at_ s1 f1 run1 w = (Ok (Some t1), w1) ->
  forallb keeps_rows requests = true ->
  record_scheduled_runtime_task_run name at_ s2 f2 run2 (handle_runtimes requests w1)
    = (Ok (Some t2), w2) ->
  task_pk t2 = task_pk t1 /\ db w2 = db (handle_runtimes requests w1).
Proof.
  intros Hr1 Hr2 H1 Hk H2.
  destruct (scheduled_key _ _ _ _ _ _ _ _ Hr1 H1) as (k & E1 & K1 & _).
  destruct (scheduled_key _ _ _ _ _ _ _ _ Hr2 H2) as (k' & E2 & _ & F2).
  rewrite E1 in E2. injection E2 as <-. apply (keyed_requests _ _ requests) in K1; [|done].
  unfold keyed in K1. destruct (find_row _ _) as [u|] eqn:Eu; [|done]. injection K1 as K1.
  by destruct (F2 u eq_refl) as [-> Hd].
Qed.
(** ** Records are history, not work *)

(** A row that no worker can claim and no administrator can put back. *)
Definition recorded (t : background_task) : Prop :=
  task_status t = Succeeded \/ (task_status t = Failed /\ failure_can_retry t = Some false).

Definition all_recorded (d : Db) : Prop := forall t, In t (rows (tasks d)) -> recorded t.
Definition recorded_kept (d d' : Db) : Prop := all_recorded d -> all_recorded d'.

#[export] Instance recorded_preorder : PreOrder recorded_kept.
Proof. split; unfold recorded_kept; [by intros d|]. intros d1 d2 d3 H1 H2 H. auto. Qed.

Lemma recorded_one_row p f :
  (forall t, recorded t -> p t = true -> recorded (f t)) ->
  Tracks recorded_kept (TaskRepo.one_row p f).
Proof.
  intros Hf. apply tracks_one_row. intros d Hd t Ht. cbn in Ht.
  apply in_update_where in Ht as (x & Hx & ->). destruct (p x) eqn:E; auto.
Qed.

Lemma recorded_delete p : Tracks recorded_kept (db_delete_many tasks set_tasks p).
Proof.
  apply tracks_db_exec. intros d a d' [= _ <-] Hd t Ht. cbn in Ht.
  apply in_delete_where in Ht as [Ht _]. auto.
Qed.

Lemma recorded_run_row name s f run key payload result expires pk :
  recorded (run_row name s f run key payload result expires pk).
Proof. destruct run; [left|left|right]; done. Qed.

Lemma not_claimable now stale t : recorded t -> TaskRepo.claimable_condition now stale t = false.
Proof.
  unfold TaskRepo.claimable_condition, TaskRepo.processing_stale_condition.
  by intros [->|[-> _]].
Qed.

(** The administrator's retry reads the row and turns it away. *)
Lemma retry_refused id ctx w r w' :
  all_recorded (db w) -> retry_task_for_admin_with_audit id ctx w = (r, w') ->
  is_ok r = false /\ db w' = db w.
Proof.
  intros Hw. unfold retry_task_for_admin_with_audit, bind.
  destruct (TaskRepo.find_by_id id w) as [[t|e|m] w1] eqn:Ef;
    pose proof (reads_run _ _ _ _ Ef) as S1; apply same_db in S1; [|by intros [= <- <-]..].
  apply find_task_row, find_row_some in Ef as [Hin _]. specialize (Hw t Hin).
  unfold retry_task_record, task_can_retry, bind, when_ok.
  destruct Hw as [->|[-> Hc]]; [by intros [= <- <-]|]. rewrite Hc. by intros [= <- <-].
Qed.

Lemma recorded_request q w : recorded_kept (db w) (db (handle_runtime q w)).
Proof.
  assert (Hrec : forall name s f run key,
    Tracks recorded_kept (record_runtime_task_run_with_dedupe_key name s f run key)).
  { intros. apply tracks_record.
    - intros refresh. apply recorded_one_row. intros t _ _. by left.
    - intros _ payload result expires. apply tracks_insert. intros d _ Hd t Ht. cbn in Ht.
      apply in_app_iff in Ht as [Ht|[<-|[]]]; [auto|apply recorded_run_row]. }
  destruct q as [name s f run|name at_ s f run|config cs stale at_ lease|i k0 op|i ctx|fs|ids];
    cbn [handle_runtime].
  5: { intros Hw. destruct (retry_task_for_admin_with_audit i ctx w) as [r w'] eqn:E.
       apply retry_refused in E as [_ E]; [|done]. cbn. by rewrite E. }
  all: as_program.
  - apply tracks_claims. intros. apply recorded_one_row. intros t Ht [_ Hp]%andb_prop.
    by rewrite not_claimable in Hp.
  - apply tracks_write. intros g _. apply recorded_one_row. intros t Ht (_ & Hp & _)%held_by_spec.
    destruct Ht as [Ht|[Ht _]]; congruence.
  - unfold cleanup_tasks_for_admin, TaskRepo.delete_terminal_by_filters. solve_tracks.
    apply recorded_delete.
  - unfold TaskRepo.delete_many. destruct ids; [apply _|apply recorded_delete].
Qed.

Lemma recorded_requests l w : recorded_kept (db w) (db (handle_runtimes l w)).
Proof.
  unfold handle_runtimes. revert w. induction l as [|q l IH]; intros w; cbn; [done|].
  etrans; [apply recorded_request|apply IH].
Qed.

Lemma claim_loop_none cs n stale at_ lease claimed w r w' :
  all_recorded (db w) ->
  claim_loop cs n stale at_ lease claimed w = (Ok r, w') -> r = claimed.
Proof.
  revert w. induction cs as [|c cs IH]; intros w Hw; cbn; [by intros [= <- _]|].
  destruct (n <=? _); [by intros [= <- _]|]. intros H. apply bind_ok in H as (b & w1 & Hc & H).
  assert (b = false /\ all_recorded (db w1)) as [-> Hw1].
  { apply one_row_run in Hc as Hb. destruct Hb as [(e & ? & _)|[[= ->] Ht]]; [done|].
    assert (Hn : forall t, In t (rows (tasks (db w))) ->
      TaskRepo.is_task (cand_task_id c) t && (processing_token t =? expected_processing_token c)
      && TaskRepo.claimable_condition at_ stale t = false).
    { intros t Hin. rewrite not_claimable by auto. apply andb_false_r. }
    split; [|unfold all_recorded; rewrite Ht; cbn; by rewrite update_where_id].
    apply (count_where_zero _ (rows (tasks (db w)))) in Hn. by rewrite Hn. }
  by apply IH in H.
Qed.

(** C24: Runtime records are history, never work.  Over every history of
    recordings, dispatches, workers' writes, retries and cleanups, whatever
    fails in it, that starts from records alone (an empty table among them),
    every row stays a success or a failure that cannot be retried: no row can
    be claimed, a dispatcher claims none, and an administrator's retry is
    refused, so the worker code that would fail on such a task never runs. *)
Theorem runtime_records_never_dispatched requests w :
  all_recorded (db w) ->
  let w' := handle_runtimes requests w in
  all_recorded (db w') /\
  (forall now stale t, In t (rows (tasks (db w'))) ->
     TaskRepo.claimable_condition now stale t = false) /\
  (forall config candidates stale at_ lease claimed w2,
     claim_candidates_for_lane config candidates stale at_ lease w' = (Ok claimed, w2) ->
     claimed = []) /\
  (forall id ctx, is_ok (fst (retry_task_for_admin_with_audit id ctx w')) = false).
Proof.
  intros Hw w'. assert (H : all_recorded (db w')) by (by apply recorded_requests). clearbody w'.
  split_and!; [done| | |].
  - intros now stale t Ht. by apply not_claimable, H.
  - intros config cs stale at_ lease claimed w2 Hc. unfold claim_candidates_for_lane in Hc.
    destruct cs as [|c cs]; [by injection Hc as <- _|]. apply with_transaction_spec in Hc.
    inversion Hc as [|a w0 w1 wx Hs Hb Hx| | |]; subst.
    unfold claim_in_txn in Hb. apply bind_ok in Hb as (u & w3 & Hl & Hb).
    apply bind_ok in Hb as (active & w4 & Ha & Hb). cbv zeta in Hb.
    destruct (_ =? 0); [by injection Hb as <- _|]. apply claim_loop_none in Hb; [done|].
    apply (reads_run _ _ _ _) in Hl, Ha. unfold all_recorded.
    by rewrite (same_db _ _ Ha), (same_db _ _ Hl), (same_db _ _ Hs).
  - intros id ctx. destruct (retry_task_for_admin_with_audit id ctx w') as [r w2] eqn:E.
    by apply retry_refused in E as [E _].
Qed.
End Theorems.

(** ** The storage job *)

Section StorageJob.
Context `{EN : Env} `{CB : CacheBackend} `{FA : ForgeApi} `{TS : TextSearch}.
Context `{OS : !ObjectStorage} `{OL : !ObjectStorageLaws OS}.
Context `{TN : TextureNumbers} `{TL : !TextureNumberLaws TN} `{RN : RuntimeTaskTypes}.

(** C36: The storage job tells the truth.  When the rows hold hashes and names
    of the right form, the job changes nothing, stays quiet exactly when there
    is no texture, succeeds with the number of textures exactly when every
    texture names the blob of its content and that blob is stored, and fails
    otherwise, with the counts and the first issues as its message; it fails
    with the error of the check when that could not run. *)
Theorem storage_job_exact w run w' :
  (forall t, In t (rows (textures (db w))) ->
     is_valid_texture_hash (tex_hash t) = true /\
     is_texture_blob_storage_key (storage_key t) = true) ->
  run_yggdrasil_storage_consistency_check w = (Ok run, w') ->
  let n := Z.of_nat (length (rows (textures (db w)))) in
  (exists error, fst (check_object_storage_consistency w) = Err error /\
     run = RuntimeTaskRunOutcome.failed (Some "Yggdrasil storage consistency check failed"%string)
             (AsterError.message error)) \/
  same w w' /\
  (run = RuntimeTaskRunOutcome.quiet <-> n = 0) /\
  (run = RuntimeTaskRunOutcome.succeeded
           (Some ("checked " +:+ pretty n +:+ " object storage records")) <->
   n <> 0 /\ blobs_stored w) /\
  (RuntimeTaskRunOutcome.is_failed run = true <-> ~ blobs_stored w) /\
  (forall report, fst (check_object_storage_consistency w) = Ok report ->
     RuntimeTaskRunOutcome.is_failed run = true ->
     RuntimeTaskRunOutcome.error run = Some (yggdrasil_storage_consistency_failure_summary report)).
Proof.
  intros Hform H n. apply bind_ok in H as (r & w1 & Hc & H). injection H as <- <-.
  unfold catch in Hc. destruct (check_object_storage_consistency w) as [[report|e|m] w2] eqn:E; try done.
  2:{ injection Hc as <- <-. left. exists e. by split. }
  injection Hc as <- <-. right.
  destruct (consistency_check_run w report w2 Hform E) as (Hs & Hi & Hn & Hsum & Hm & Hh).
  fold n in Hn. cbn [fst storage_consistency_outcome]. rewrite Hn.
  assert (Hnn : 0 <= n) by (unfold n; lia).
  split; [done|]. destruct ((0 <? cons_missing report) || (0 <? cons_hash_mismatched report)) eqn:Eb.
  - assert (Hne : ~ blobs_stored w).
    { rewrite <- Hi. intros E0. rewrite E0 in Hsum. cbn in Hsum.
      apply orb_true_iff in Eb as [Eb|Eb]; apply Z.ltb_lt in Eb; lia. }
    assert (n <> 0).
    { unfold n. intros E0. apply Hne. destruct (rows (textures (db w))) eqn:Er; [|done].
      split; [by rewrite Er|done]. }
    split_and!; [by split|by split; [|intros []]|by split|by intros ? [= <-]].
  - apply orb_false_iff in Eb as [Eb1%Z.ltb_ge Eb2%Z.ltb_ge].
    assert (Hb : blobs_stored w).
    { apply Hi. destruct (cons_issues report); [done|]. cbn in Hsum. lia. }
    destruct (Z.ltb_spec 0 n).
    + split_and!; [split; [done|lia]| |by split|done].
      split; [intros _; split; [lia|done]|done].
    + split_and!; [by split; [lia|]|split; [done|intros []; lia]|by split|done].
Qed.
End StorageJob.

(** ** Concrete records *)

#[local] Instance task_types1 : RuntimeTaskTypes := {|
  RuntimeTaskName := SystemRuntimeTaskKind.t;
  task_name_from := fun k => k;
  task_name_known := fun k => Some k;
  HealthComponentDetail := unit
|}.
#[local] Instance runtime_externs1 : RuntimeTaskExterns := {|
  payload_to_json := fun p => Ok (SystemRuntimeTaskKind.as_str (payload_task_name p));
  result_to_json := fun r => Ok (pretty (duration_ms r));
  decode_payload := fun _ _ => Ok (PayloadSystemRuntime (mkPayload SystemRuntimeTaskKind.AuditCleanup));
  decode_result := fun _ _ => Ok None;
  steps_from_json := fun _ => Ok [];
  scheduled_task_dedupe_key := fun app name t => Ok (app +:+ ":" +:+ name +:+ ":" +:+ pretty t);
  i64_to_i32 := fun n _ => Ok n
|}.

Definition cleaned : RuntimeTaskRunOutcome.t :=
  RuntimeTaskRunOutcome.succeeded (Some "cleaned up 3 expired tokens"%string).
Definition boom : RuntimeTaskRunOutcome.t :=
  RuntimeTaskRunOutcome.failed (Some "Task cleanup failed"%string) "boom".
Definition healthy_run : RuntimeTaskRunOutcome.t :=
  RuntimeTaskRunOutcome.succeeded_with_system_health (Some "system healthy"%string) (mkHealth Healthy []).

Definition scheduled_once : option background_task * World :=
  run_of None (record_scheduled_runtime_task_run SystemRuntimeTaskKind.YggdrasilTokenCleanup
                 (seconds 900) (seconds 901) (seconds 902) cleaned world0).
Definition between : list runtime_request :=
  [RecordRun SystemRuntimeTaskKind.TaskCleanup (seconds 903) (seconds 904) boom;
   RecordRun SystemRuntimeTaskKind.SystemHealthCheck (seconds 905) (seconds 906) healthy_run;
   RecordRun SystemRuntimeTaskKind.SystemHealthCheck (seconds 907) (seconds 908) healthy_run;
   DispatchLane lane0 [mkCandidate 0 1 0 1; mkCandidate 1 2 0 1] 0 (seconds 1000) (seconds 1060);
   RetryByAdmin 2 (mkCtx 1 None None)].
Definition scheduled_twice : option background_task * World :=
  run_of None (record_scheduled_runtime_task_run SystemRuntimeTaskKind.YggdrasilTokenCleanup
                 (seconds 900) (seconds 950) (seconds 951) boom
                 (handle_runtimes between (snd scheduled_once))).

Lemma runtime_record_exact_witness :
  exists t, fst scheduled_once = Some t /\ task_status t = Succeeded /\
    rows (tasks (db (snd scheduled_once))) = [t].
Proof.
  pose proof (runtime_record_exact SystemRuntimeTaskKind.YggdrasilTokenCleanup (seconds 901)
    (seconds 902) cleaned (Some "aster_yggdrasil:yggdrasil-token-cleanup:900000000000"%string) world0
    (Ok (fst scheduled_once)) (snd scheduled_once)
    ltac:(split; [constructor|by intros ? []]) ltac:(vm_compute; reflexivity)) as H.
  destruct (fst scheduled_once) as [t|]; [|by destruct H].
  exists t. split; [done|]. destruct H as [_ [(p & res & e & _ & _ & _ & -> & _ & _ & Hd)
    |[(k & _ & Hk & _)|(p & res & e & id & Hf & _)]]]; [|done..].
  split; [done|]. by rewrite Hd.
Defined.

Lemma scheduled_run_recorded_once_witness :
  exists t1 t2, fst scheduled_once = Some t1 /\ fst scheduled_twice = Some t2 /\
    task_pk t2 = task_pk t1 /\ db (snd scheduled_twice) = db (handle_runtimes between (snd scheduled_once)).
Proof.
  assert (exists t, fst scheduled_once = Some t) as [t1 E1] by (vm_compute; eauto).
  assert (exists t, fst scheduled_twice = Some t) as [t2 E2] by (vm_compute; eauto).
  exists t1, t2. split_and!; [done..| |].
  all: apply (scheduled_run_recorded_once SystemRuntimeTaskKind.YggdrasilTokenCleanup (seconds 900)
    (seconds 901) (seconds 902) cleaned (seconds 950) (seconds 951) boom world0 t1
    (snd scheduled_once) between t2 (snd scheduled_twice)); try (vm_compute; reflexivity);
    rewrite <- ?E1, <- ?E2; vm_compute; reflexivity.
Defined.

Lemma runtime_records_never_dispatched_witness :
  List.map task_status (rows (tasks (db (handle_runtimes between world0)))) = [Failed; Succeeded] /\
  all_recorded (db (handle_runtimes between world0)) /\
  is_ok (fst (retry_task_for_admin_with_audit 1 (mkCtx 1 None None) (handle_runtimes between world0)))
    = false.
Proof.
  destruct (runtime_records_never_dispatched between world0 ltac:(by intros t [])) as (Ha & _ & _ & Hr).
  split; [vm_compute; reflexivity|]. split; [done|apply Hr].
Defined.

Lemma storage_job_exact_witness :
  fst (run_yggdrasil_storage_consistency_check littered) =
    Ok (RuntimeTaskRunOutcome.succeeded (Some "checked 1 object storage records"%string)) /\
  blobs_stored littered.
Proof.
  assert (fst (run_yggdrasil_storage_consistency_check littered) =
    Ok (RuntimeTaskRunOutcome.succeeded (Some "checked 1 object storage records"%string))) as E
    by (vm_compute; reflexivity).
  split; [done|].
  destruct (storage_job_exact littered _ (snd (run_yggdrasil_storage_consistency_check littered))
    ltac:(intros t [<-|[]]; split; vm_compute; reflexivity)
    ltac:(rewrite (surjective_pairing (run_yggdrasil_storage_consistency_check littered)), E; reflexivity))
    as [(e & He & _)|(_ & _ & H & _)]; [by vm_compute in He|]. by apply H.
Defined.
