(* ===== verification/Captcha.v ===== *)
(** * Captcha challenges

    [services/captcha_service.rs]: a challenge is drawn by the captcha
    library, its answer is kept hashed in the cache, and a request that needs
    one must give the answer.  Then what the service promises: a challenge is
    good for one success, and only so many answers to it are ever looked at. *)

From Stdlib Require Import ZArith List Bool Lia Ascii.
From stdpp Require Import base decidable list strings pretty.
From S2P Require Import Prelude Text Errors Types AuditLog World Logic Repos Tokens Auth Concrete AuthConfig Accounts WebSessions AccountConcrete AccountSignIn.

Local Open Scope Z_scope.
Local Open Scope aster_scope.

Definition CACHE_KEY_PREFIX : string := "auth:captcha:".
Definition CAPTCHA_CHARSET : list ascii := bytes "23456789ACDEFGHJKMNPQRTWXY".

(** [captcha_rs::CaptchaBuilder], with what it draws at a tick: the text and
    the image; and the conversion of [u32]. *)
Record CaptchaOptions : Type := mkOptions {
  opt_length : Z;
  opt_chars : list ascii;
  opt_width : Z;
  opt_height : Z;
  opt_complexity : Z;
  opt_compression : Z;
  opt_lines : Z;
  opt_ellipses : Z;
  opt_distortion : Z
}.

Class CaptchaLibrary : Type := {
  captcha_build : nat -> CaptchaOptions -> string * string;
  u32_to_usize : Z -> string -> outcome string Z
}.

Record CaptchaChallengeResponse : Type := mkChallengeResponse {
  cr_challenge_id : string;
  cr_image_base64 : string;
  cr_mime : string;
  cr_expires_in : Z
}.

Inductive CaptchaRequirement : Set :=
| RequireLogin | RequireRegister | RequireInvitationAccept | RequireRegisterActivationResend.

Definition is_required (r : CaptchaRequirement) (policy : RuntimeCaptchaPolicy) : bool :=
  match r with
  | RequireLogin => captcha_login_required policy
  | RequireRegister => captcha_register_required policy
  | RequireInvitationAccept => captcha_invitation_accept_required policy
  | RequireRegisterActivationResend => captcha_register_activation_resend_required policy
  end.

Definition captcha_cache_key (challenge_id : string) : string := CACHE_KEY_PREFIX +:+ challenge_id.

Definition ascii_to_upper (a : ascii) : ascii :=
  let n := code a in if ((97 <=? n) && (n <=? 122))%nat then ascii_of_nat (n - 32) else a.

(** [chars().filter(|c| !c.is_whitespace())] on the bytes of the text. *)
Fixpoint drop_whitespace (l : list ascii) : list ascii :=
  match l with
  | a :: l1 =>
      if is_ws1 (code a) then drop_whitespace l1 else
      match l1 with
      | b :: l2 =>
          if is_ws2 (code a) (code b) then drop_whitespace l2 else
          match l2 with
          | c :: l3 =>
              if is_ws3 (code a) (code b) (code c) then drop_whitespace l3
              else a :: drop_whitespace l1
          | [] => a :: drop_whitespace l1
          end
      | [] => a :: drop_whitespace l1
      end
  | [] => []
  end.

Definition normalize_answer (answer : string) : string :=
  of_bytes (List.map ascii_to_upper (drop_whitespace (bytes (trim answer)))).

Definition captcha_required_error : AsterError.t :=
  AsterError.validation_error_code AsterErrorCode.AuthCaptchaRequired
    "captcha verification is required".
Definition captcha_expired_error : AsterError.t :=
  AsterError.validation_error_code AsterErrorCode.AuthCaptchaExpired
    "captcha challenge is expired".
Definition captcha_invalid_error : AsterError.t :=
  AsterError.validation_error_code AsterErrorCode.AuthCaptchaInvalid "captcha answer is invalid".

Definition U8_MAX : Z := 255.
Definition U64_MAX : Z := 2 ^ 64 - 1.

(** [value.map(str::trim).filter(|v| !v.is_empty()).ok_or_else(..)] *)
Definition given (value : option string) : outcome AsterError.t string :=
  match trim <$> value with
  | Some v => if is_empty v then Err captcha_required_error else Ok v
  | None => Err captcha_required_error
  end.

Section Service.
Context `{EN : Env} `{CB : CacheBackend} `{FC : ForgeCrypto} `{FN : ForgeNumbers}.
Context `{FS : ForgeSigned} `{AE : !AccountExterns} `{CS : ChronoSeconds} `{CF : ForgeConfig}.
Context `{ST : ConfigStore} `{CL : CaptchaLibrary}.

Abbreviation AM := (M AsterError.t).

Definition current_captcha_policy : RuntimeCaptchaPolicy := captcha_policy config_get.

Definition answer_hash (answer : string) : string := sha256_hex (normalize_answer answer).

(** [render_challenge]: the answer and the image. *)
Definition render_challenge (policy : RuntimeCaptchaPolicy) : AM (string * string) :=
  let* length := lift (utils (u64_to_usize (captcha_length policy) "captcha length")) in
  let render := CaptchaRenderPreset.render_params (preset policy) in
  let compression := CaptchaRenderPreset.compression render in
  do* when_ok (U8_MAX <? compression)
        (AsterError.InternalError
           ("captcha compression exceeds u8 range: " +:+ pretty compression)) in
  let* lines := lift (utils (u32_to_usize (CaptchaRenderPreset.interference_lines render)
                               "captcha interference lines")) in
  let* ellipses := lift (utils (u32_to_usize (CaptchaRenderPreset.interference_ellipses render)
                                  "captcha interference ellipses")) in
  fun w =>
    (Ok (captcha_build (step w)
           (mkOptions length CAPTCHA_CHARSET 180 (CaptchaRenderPreset.height render)
              (CaptchaRenderPreset.complexity render) compression lines ellipses
              (CaptchaRenderPreset.distortion render))), tick w).

Definition preview_image (policy : RuntimeCaptchaPolicy) : AM string :=
  let* captcha := render_challenge policy in
  ret (snd captcha).

Definition store_challenge (challenge_id : string) (c : CaptchaChallengeState) (ttl_secs : Z)
  : AM unit := cache_write (captcha_cache_key challenge_id) (CvCaptcha c) ttl_secs.

Definition get_challenge (challenge_id : string) : AM (option CaptchaChallengeState) :=
  let* found := cache_read (captcha_cache_key challenge_id) in
  ret (match found with Some (CvCaptcha c) => Some c | _ => None end).

Definition delete_challenge (challenge_id : string) : AM unit :=
  cache_update (fun c => cache_delete c (captcha_cache_key challenge_id)).

Definition issue_challenge : AM CaptchaChallengeResponse :=
  let policy := current_captcha_policy in
  let* captcha := render_challenge policy in
  let* challenge_id := new_short_token in
  let* now := utc_now in
  do* when_ok (I64_MAX <? captcha_ttl_secs policy)
        (AsterError.InternalError
           ("captcha ttl is too large: " +:+ "out of range integral type conversion attempted")) in
  let* ttl := duration (captcha_ttl_secs policy) in
  let* expires_at := add_duration now ttl in
  do* store_challenge challenge_id
        (mkCaptchaState (answer_hash (fst captcha)) 0 (max_attempts policy) expires_at)
        (captcha_ttl_secs policy) in
  ret (mkChallengeResponse challenge_id (snd captcha) "image/jpeg" (captcha_ttl_secs policy)).

(** [num_seconds] truncates. *)
Definition remaining_ttl_secs (c : CaptchaChallengeState) : AM Z :=
  let* now := utc_now in
  lift (utils (i64_to_u64 (Z.max (Z.quot (cc_expires_at c - now) NANOS_PER_SEC) 1)
                 "captcha remaining ttl seconds")).

Definition with_attempt (c : CaptchaChallengeState) : CaptchaChallengeState :=
  mkCaptchaState (cc_answer_hash c) (Z.min U64_MAX (cc_attempts c + 1)) (cc_max_attempts c)
    (cc_expires_at c).

Definition verify_answer (challenge_id answer : string) : AM unit :=
  let* found := get_challenge challenge_id in
  match found with
  | None => throw captcha_expired_error
  | Some challenge =>
      let* now := utc_now in
      if cc_expires_at challenge <=? now then
        do* delete_challenge challenge_id in
        throw captcha_expired_error
      else if eqb (cc_answer_hash challenge) (answer_hash answer) then
        delete_challenge challenge_id
      else
        let challenge := with_attempt challenge in
        do* (if cc_max_attempts challenge <=? cc_attempts challenge
             then delete_challenge challenge_id
             else
               let* ttl := remaining_ttl_secs challenge in
               store_challenge challenge_id challenge ttl) in
        throw captcha_invalid_error
  end.

Definition verify_if_required (requirement : CaptchaRequirement) (challenge_id answer : option string)
  : AM unit :=
  if negb (is_required requirement current_captcha_policy) then ret tt
  else
    let* challenge_id := lift (given challenge_id) in
    let* answer := lift (given answer) in
    verify_answer challenge_id answer.
End Service.

(** ** What the service promises *)

(** Documented of the cache: a write replaces the entry.  Of the conversion: it
    only refuses negative numbers. *)
Class CacheReplaces (CB : CacheBackend) : Prop := {
  get_replaced c t k v ttl t' x : cache_get (cache_set c t k v ttl) t' k = Some x -> x = v
}.
Class SignedTotal (F : ForgeSigned) : Prop := {
  i64_to_u64_total n name : 0 <= n -> i64_to_u64 n name = Ok n
}.

Section Theorems.
Context `{EN : Env} `{CB : CacheBackend} `{KL : !CacheLaws CB} `{KR : !CacheReplaces CB}.
Context `{FC : ForgeCrypto} `{FN : ForgeNumbers} `{FS : ForgeSigned} `{SL : !SignedTotal FS}.
Context `{AE : !AccountExterns} `{CS : ChronoSeconds} `{CF : ForgeConfig} `{CFL : !ForgeConfigLaws CF}.
Context `{ST : ConfigStore} `{CL : CaptchaLibrary}.

(** At most [n] more answers to the challenge will be looked at: the cache
    holds no entry of it with more left. *)
Definition guesses_left (id hash : string) (n : Z) (w : World) : Prop :=
  forall t v, cache_get (cache w) t (captcha_cache_key id) = Some v ->
    exists c, v = CvCaptcha c /\ cc_answer_hash c = hash /\ cc_max_attempts c <= U64_MAX /\
      Z.max 1 (cc_max_attempts c - cc_attempts c) <= n.

Lemma guesses_spent id hash n w w' :
  guesses_left id hash n w -> cache w' = cache_delete (cache w) (captcha_cache_key id) ->
  guesses_left id hash 0 w'.
Proof. intros _ E t v. rewrite E. by intros [? _]%get_delete. Qed.

Lemma guesses_mono id hash n m w : n <= m -> guesses_left id hash n w -> guesses_left id hash m w.
Proof.
  intros H G t v Hv. destruct (G t v Hv) as (c & ? & ? & ? & ?).
  exists c. repeat split; [done..|lia].
Qed.

Lemma guesses_other id hash n w w' :
  guesses_left id hash n w ->
  (forall t v, cache_get (cache w') t (captcha_cache_key id) = Some v ->
     cache_get (cache w) t (captcha_cache_key id) = Some v) ->
  guesses_left id hash n w'.
Proof. intros G H t v Hv. by apply (G t), H. Qed.

(** A stored challenge leaves what its counter says. *)
Lemma guesses_stored id hash n w w' c t ttl :
  cache w' = cache_set (cache w) t (captcha_cache_key id) (CvCaptcha c) ttl ->
  cc_answer_hash c = hash -> cc_max_attempts c <= U64_MAX ->
  Z.max 1 (cc_max_attempts c - cc_attempts c) <= n -> guesses_left id hash n w'.
Proof.
  intros E ? ? ? t' v. rewrite E. intros ->%get_replaced. eauto.
Qed.

Lemma get_challenge_run id w :
  exists found, get_challenge id w = (Ok found, tick w) /\
    forall c, found = Some c ->
      cache_get (cache w) (clock (step w)) (captcha_cache_key id) = Some (CvCaptcha c).
Proof.
  eexists. split; [done|]. intros c. by destruct (cache_get _ _ _) as [[]|]; intros [= ->] || done.
Qed.

(** What looking at an answer does to the count, and when it is accepted. *)
Lemma verify_answer_spec id answer w r w' hash n :
  guesses_left id hash n w -> verify_answer id answer w = (r, w') ->
  (step w <= step w')%nat /\
  match r with
  | Ok _ => 1 <= n /\ guesses_left id hash 0 w' /\ answer_hash answer = hash
  | Err e =>
      (e = captcha_expired_error /\ guesses_left id hash n w') \/
      (e = captcha_invalid_error /\ 1 <= n /\ guesses_left id hash (n - 1) w' /\
       answer_hash answer <> hash)
  | Panic _ => False
  end.
Proof.
  intros G. unfold verify_answer. destruct (get_challenge_run id w) as ([c|] & Hrun & Hfound);
    rewrite (bind_run _ _ _ _ _ Hrun); cbv beta iota.
  2: { intros [= <- <-]. split; [cbn; lia|]. by left. }
  specialize (Hfound c eq_refl). destruct (G _ _ Hfound) as (c' & [= <-] & Hh & Hmax & Hn).
  rewrite (bind_run _ _ _ _ _ (eq_refl : utc_now _ = (Ok _, _))).
  destruct (cc_expires_at c <=? _).
  - intros [= <- <-]. split; [cbn; lia|]. left. split; [done|].
    apply (guesses_mono _ _ 0); [lia|]. by eapply guesses_spent.
  - destruct (eqb (cc_answer_hash c) (answer_hash answer)) eqn:E;
      [rewrite eqb_true in E|rewrite eqb_false in E].
    + intros [= <- <-]. split; [cbn; lia|]. split; [lia|].
      split; [by eapply guesses_spent|congruence].
    + destruct (cc_max_attempts _ <=? _) eqn:El.
      * intros [= <- <-]. split; [cbn; lia|]. right. split_and!; [done|lia| |congruence].
        apply (guesses_mono _ _ 0); [lia|]. by eapply guesses_spent.
      * unfold bind at 1, remaining_ttl_secs, bind, utc_now, lift, utils.
        rewrite i64_to_u64_total by lia. intros [= <- <-]. split; [cbn; lia|].
        cbn [cc_max_attempts cc_attempts with_attempt] in El. apply Z.leb_gt in El.
        right. split_and!; [done|lia| |congruence].
        eapply guesses_stored; [reflexivity|done|done|]. cbn. lia.
Qed.

(** *** Histories *)

Inductive CaptchaRequest : Type :=
| IssueChallenge
| Answer (requirement : CaptchaRequirement) (challenge_id answer : option string)
| OtherRequest (serve : World -> World).

(** Other requests do not write captcha entries. *)
Definition keeps_captchas (r : CaptchaRequest) : Prop :=
  match r with
  | OtherRequest serve =>
      forall w, (step w <= step (serve w))%nat /\
        forall id t v, cache_get (cache (serve w)) t (captcha_cache_key id) = Some v ->
          cache_get (cache w) t (captcha_cache_key id) = Some v
  | _ => True
  end.

Definition serve_captcha (r : CaptchaRequest) (w : World) : World :=
  match r with
  | IssueChallenge => snd (issue_challenge w)
  | Answer requirement challenge_id answer =>
      snd (verify_if_required requirement challenge_id answer w)
  | OtherRequest serve => serve w
  end.

(** The answers given to one challenge, with what became of them. *)
Definition given_to (id : string) (r : CaptchaRequest) (w : World)
  : list (string * outcome AsterError.t unit) :=
  match r with
  | Answer requirement challenge_id answer =>
      if is_required requirement current_captcha_policy then
        match given challenge_id, given answer with
        | Ok i, Ok a =>
            if eqb i id then [(a, fst (verify_if_required requirement challenge_id answer w))]
            else []
        | _, _ => []
        end
      else []
  | _ => []
  end.

Fixpoint answers_to (id : string) (requests : list CaptchaRequest) (w : World)
  : list (string * outcome AsterError.t unit) :=
  match requests with
  | [] => []
  | r :: requests => given_to id r w ++ answers_to id requests (serve_captcha r w)
  end.

#[local] Instance reads_render policy : Reads (render_challenge policy).
Proof.
  unfold render_challenge, utils. cbv zeta.
  assert (H : forall o, Reads (E := AsterError.t)
    (fun w => (Ok (captcha_build (step w) o), tick w))) by (intros o w; apply same_tick).
  typeclasses eauto.
Qed.

Lemma render_ok policy w x w' :
  render_challenge policy w = (Ok x, w') -> exists j o, captcha_build j o = x.
Proof.
  unfold render_challenge. cbv zeta. intros H.
  apply bind_ok in H as (? & ? & _ & H). apply bind_ok in H as (? & ? & _ & H).
  apply bind_ok in H as (? & ? & _ & H). apply bind_ok in H as (? & ? & _ & H).
  injection H as <- _. eauto.
Qed.

(** Issuing writes one entry, under a fresh identifier. *)
Lemma issue_spec w r w' :
  issue_challenge w = (r, w') ->
  (step w <= step w')%nat /\
  exists k, (step w <= k)%nat /\
  match r with
  | Ok resp => exists text image t expires,
      cr_challenge_id resp = short_token k /\ cr_image_base64 resp = image /\
      (exists j o, captcha_build j o = (text, image)) /\
      cache w' = cache_set (cache w) t (captcha_cache_key (short_token k))
        (CvCaptcha (mkCaptchaState (answer_hash text) 0 (max_attempts current_captcha_policy)
           expires)) (captcha_ttl_secs current_captcha_policy)
  | _ => cache w' = cache w
  end.
Proof.
  intros H. pattern r, w' in |- *.
  match goal with |- ?Q r w' => apply (wp_run _ Q _ _ _) with (2 := H) end. clear H.
  unfold issue_challenge. cbv zeta. wp_read as x w1 Hr Hs.
  pose proof (same_step _ _ Hs) as Hle. pose proof (same_cache _ _ Hs) as Hc.
  destruct x as [[text image]|e|m]; cbn [wp_next].
  2,3: split; [done|]; exists (step w); split; [lia|done].
  apply render_ok in Hr.
  unfold when_ok, duration, add_duration, store_challenge.
  repeat wp_step; (split; [cbn; lia|]).
  2: { exists (step w1). split; [lia|]. do 4 eexists. split_and!; [done..|]. cbn. by rewrite Hc. }
  all: exists (step w); split; [lia|done].
Qed.

(** A fresh identifier cannot name an older challenge. *)
Definition never_drawn (id : string) (n0 : nat) : Prop :=
  forall k, (n0 <= k)%nat -> short_token k <> id.

Lemma captcha_key_inj i j : captcha_cache_key i = captcha_cache_key j -> i = j.
Proof. apply app_string_inj. Qed.

Lemma issue_keeps id hash n w :
  never_drawn id (step w) -> guesses_left id hash n w ->
  (step w <= step (snd (issue_challenge w)))%nat /\
  guesses_left id hash n (snd (issue_challenge w)).
Proof.
  intros Hf G. destruct (issue_challenge w) as [r w'] eqn:H.
  apply issue_spec in H as (Hle & k & Hk & H). cbn [snd]. split; [done|].
  apply (guesses_other _ _ _ w); [done|]. intros t v Hv.
  destruct r as [resp|e|m]; [|by rewrite H in Hv..].
  destruct H as (text & image & t0 & expires & _ & _ & _ & H). rewrite H in Hv.
  apply get_set in Hv as [[E _]|Hv]; [|done]. apply captcha_key_inj in E. by destruct (Hf k Hk).
Qed.

(** Looking at an answer to another challenge. *)
Lemma verify_other id i answer w r w' :
  i <> id -> verify_answer i answer w = (r, w') ->
  (step w <= step w')%nat /\
  forall t v, cache_get (cache w') t (captcha_cache_key id) = Some v ->
    cache_get (cache w) t (captcha_cache_key id) = Some v.
Proof.
  intros Hne H. pattern r, w' in |- *.
  match goal with |- ?Q r w' => apply (wp_run _ Q _ _ _) with (2 := H) end. clear H.
  assert (D : forall c t v, cache_get (cache_delete c (captcha_cache_key i)) t (captcha_cache_key id)
    = Some v -> cache_get c t (captcha_cache_key id) = Some v) by (by intros c t v [_ ?]%get_delete).
  assert (S : forall c n x ttl t v, cache_get (cache_set c n (captcha_cache_key i) x ttl) t
    (captcha_cache_key id) = Some v -> cache_get c t (captcha_cache_key id) = Some v).
  { intros c n x ttl t v [[E _]|?]%get_set; [|done]. by apply captcha_key_inj in E. }
  unfold verify_answer, get_challenge, delete_challenge, store_challenge, remaining_ttl_secs, utils.
  repeat wp_step; try (split; [cbn; lia|]; intros t v; cbn; eauto; fail).
  rewrite i64_to_u64_total by lia. repeat wp_step. split; [cbn; lia|]. intros t v. cbn. eauto.
Qed.

(** An answer to this challenge, or to another, or to none. *)
Lemma answer_step id hash n requirement i a w :
  guesses_left id hash n w -> 0 <= n ->
  let r := Answer requirement i a in
  (step w <= step (serve_captcha r w))%nat /\
  ((given_to id r w = [] /\ guesses_left id hash n (serve_captcha r w)) \/
   exists text o, given_to id r w = [(text, o)] /\
     match o with
     | Ok _ => 1 <= n /\ guesses_left id hash 0 (serve_captcha r w) /\ answer_hash text = hash
     | Err e =>
         (e = captcha_expired_error /\ guesses_left id hash n (serve_captcha r w)) \/
         (e = captcha_invalid_error /\ 1 <= n /\
          guesses_left id hash (n - 1) (serve_captcha r w) /\ answer_hash text <> hash)
     | Panic _ => False
     end).
Proof.
  intros G Hn. cbn [serve_captcha given_to]. unfold verify_if_required.
  destruct (is_required requirement current_captcha_policy); cbn [negb]; [|by split; [|left]].
  destruct (given i) as [i'|e|m] eqn:Ei; [|by split; [|left]..].
  destruct (given a) as [a'|e|m] eqn:Ea; [|by split; [|left]..].
  assert (E : (let* i := lift (Ok i') in let* a := lift (Ok a') in verify_answer i a) w
              = verify_answer i' a' w) by done.
  rewrite !E. destruct (verify_answer i' a' w) as [r w'] eqn:Hv. cbn [fst snd].
  destruct (eqb i' id) eqn:Eid; [rewrite eqb_true in Eid; subst i'|rewrite eqb_false in Eid].
  - eapply verify_answer_spec in Hv as [Hs H]; [|done]. split; [done|]. right. eauto.
  - eapply verify_other in Hv as [Hs H]; [|done]. split; [done|]. left. split; [done|].
    by eapply guesses_other.
Qed.

(** The answers that were compared with the challenge. *)
Definition looked_at (o : outcome AsterError.t unit) : bool :=
  match o with
  | Ok _ => true
  | Err e =>
      match AsterError.api_error_code e with AsterErrorCode.AuthCaptchaInvalid => true | _ => false end
  | Panic _ => false
  end.

Definition looked (id : string) (requests : list CaptchaRequest) (w : World)
  : list (string * outcome AsterError.t unit) :=
  List.filter (fun g => looked_at (snd g)) (answers_to id requests w).

Definition wrong (hash : string) (g : string * outcome AsterError.t unit) : Prop :=
  snd g = Err captcha_invalid_error /\ answer_hash (fst g) <> hash.

Lemma looked_bounded id hash requests : forall w n,
  never_drawn id (step w) -> Forall keeps_captchas requests -> guesses_left id hash n w -> 0 <= n ->
  Z.of_nat (length (looked id requests w)) <= n /\
  exists tried, Forall (wrong hash) tried /\
    (looked id requests w = tried \/
     exists text, looked id requests w = tried ++ [(text, Ok tt)] /\ answer_hash text = hash).
Proof.
  induction requests as [|r requests IH]; intros w n Hf Hk G Hn.
  { cbn. split; [done|]. exists []. auto. }
  apply Forall_cons in Hk as [Hr Hk].
  assert (Q : given_to id r w = [] -> (step w <= step (serve_captcha r w))%nat ->
    guesses_left id hash n (serve_captcha r w) ->
    Z.of_nat (length (looked id (r :: requests) w)) <= n /\
    exists tried, Forall (wrong hash) tried /\
      (looked id (r :: requests) w = tried \/
       exists text, looked id (r :: requests) w = tried ++ [(text, Ok tt)] /\ answer_hash text = hash)).
  { intros Hg Hs G'. unfold looked. cbn [answers_to]. rewrite Hg.
    apply IH; [|done..]. intros k Hk'. apply Hf. lia. }
  destruct r as [|requirement i a|serve].
  - destruct (issue_keeps id hash n w Hf G). by apply Q.
  - destruct (answer_step id hash n requirement i a w G Hn) as [Hs [[Hg G']|(text & o & Hg & H)]];
      [by apply Q|].
    assert (Hf' : never_drawn id (step (serve_captcha (Answer requirement i a) w)))
      by (intros k Hk'; apply Hf; lia).
    unfold looked. cbn [answers_to]. rewrite Hg. cbn [app].
    destruct o as [[]|e|m]; [| |done].
    + destruct H as (H1 & G' & Ht).
      destruct (IH _ _ Hf' Hk G') as [Hl _]; [lia|]. unfold looked in Hl.
      cbn [List.filter snd looked_at length]. split; [lia|]. exists []. split; [done|]. right.
      exists text. split; [|done]. cbn [app]. f_equal.
      by destruct (List.filter _ _); [|cbn in Hl; lia].
    + destruct H as [[-> G']|(-> & H1 & G' & Ht)].
      * cbn [List.filter snd]. replace (looked_at (Err captcha_expired_error)) with false by done.
        by apply (IH _ n).
      * cbn [List.filter snd]. replace (looked_at (Err captcha_invalid_error)) with true by done.
        destruct (IH _ _ Hf' Hk G') as [Hl (tried & Ht' & H)]; [lia|]. unfold looked in Hl, H.
        cbn [length]. split; [lia|]. exists ((text, Err captcha_invalid_error) :: tried).
        split; [by constructor|].
        destruct H as [->|(x & -> & Hx)]; [by left|right; by exists x].
  - destruct (Hr w) as [Hs Hc]. apply Q; [done..|]. by apply (guesses_other _ _ _ w); [|eauto].
Qed.

(** C19: A captcha challenge cannot be guessed at will.  After a challenge was
    issued, over every history of other challenges, answers and requests that
    do not write captcha entries, at most as many answers to it are looked at
    as the policy allows; those are wrong ones and then at most one right one,
    so the challenge lets one request through; and the right one says what the
    issued image says, up to case and white space. *)
Theorem captcha_guesses_bounded w0 resp w requests :
  issue_challenge w0 = (Ok resp, w) ->
  never_drawn (cr_challenge_id resp) (step w) ->
  Forall keeps_captchas requests ->
  exists text k o, captcha_build k o = (text, cr_image_base64 resp) /\
    let answers := looked (cr_challenge_id resp) requests w in
    Z.of_nat (length answers) <= max_attempts current_captcha_policy /\
    exists tried,
      Forall (fun g => snd g = Err captcha_invalid_error /\
                answer_hash (fst g) <> answer_hash text) tried /\
      (answers = tried \/
       exists answer, answers = tried ++ [(answer, Ok tt)] /\
         answer_hash answer = answer_hash text).
Proof.
  intros H Hf Hk. apply issue_spec in H as (_ & k & _ & text & image & t & expires & Hid & Himg &
    (j & o & Hb) & Hc).
  exists text, j, o. rewrite Himg. split; [done|]. rewrite Hid in *.
  assert (Hm : 1 <= max_attempts current_captcha_policy <= 10) by (by apply read_bounded_range).
  apply looked_bounded; [done..| |lia].
  eapply guesses_stored; [exact Hc|done|cbn [cc_max_attempts]|cbn [cc_max_attempts cc_attempts]; lia].
  change U64_MAX with 18446744073709551615. lia.
Qed.
End Theorems.

(** ** A concrete challenge *)

Section Witness.
#[local] Instance captcha_store : ConfigStore := {|
  config_get := fun key => if eqb key AUTH_CAPTCHA_ENABLED_KEY then Some "true"%string else None
|}.
#[local] Instance captcha_library0 : CaptchaLibrary := {|
  captcha_build := fun _ _ => ("A7K"%string, "image"%string);
  u32_to_usize := fun n _ => Ok n
|}.

#[local] Instance cache0_replaces : CacheReplaces cache0.
Proof.
  split. intros c t k v ttl t' x. cbn. unfold mem_get. cbn [List.find fst snd].
  rewrite eqb_refl. cbn [andb]. destruct (t' <=? _); [by intros [= <-]|].
  fold (mem_get (mem_keep (fun k' => negb (eqb k k')) c) t' k).
  intros [E _]%mem_get_keep. by rewrite eqb_refl in E.
Qed.
#[local] Instance signed0_total : SignedTotal signed0.
Proof. split. intros n name Hn. cbn. destruct (Z.leb_spec 0 n); [done|lia]. Qed.

Definition challenge : outcome AsterError.t CaptchaChallengeResponse * World :=
  issue_challenge world0.

(** A wrong answer, a right one in another case, and the right one again. *)
Definition guesses : list CaptchaRequest :=
  [Answer RequireLogin (Some (short_token 1)) (Some "a8k"%string); IssueChallenge;
   Answer RequireLogin (Some (short_token 1)) (Some " a7 k"%string);
   Answer RequireRegister (Some (short_token 1)) (Some "A7K"%string)].

Lemma captcha_guesses_bounded_witness :
  List.map fst (looked (short_token 1) guesses (snd challenge)) = ["a8k"%string; "a7 k"%string] /\
  exists answers, answers = looked (short_token 1) guesses (snd challenge) /\
    Z.of_nat (length answers) <= 5.
Proof.
  split; [vm_compute; reflexivity|]. eexists. split; [reflexivity|].
  destruct (captcha_guesses_bounded world0 (mkChallengeResponse (short_token 1) "image" "image/jpeg"
    DEFAULT_AUTH_CAPTCHA_TTL_SECS) (snd challenge) guesses) as (text & k & o & _ & H & _).
  - vm_compute. reflexivity.
  - intros k Hk E. cbn -[String.append] in E. apply app_string_inj in E. apply (inj pretty) in E. subst k.
    vm_compute in Hk. lia.
  - repeat constructor.
  - exact H.
Defined.
End Witness.
