(* ===== verification/ApiGuards.v ===== *)
(** * HTTP guards

    What stands before a handler of the website's API: the parts of actix's
    request and response the code reads and writes, the cookies
    ([api/routes/auth/cookies.rs], [api/request_auth.rs]), the product side of
    CSRF protection ([api/middleware/csrf/mod.rs]), request validation
    ([api/dto/validation.rs]), the two middlewares ([api/middleware/auth.rs],
    [admin.rs]) and the scopes of the administrator API
    ([api/routes/admin/mod.rs]).  A handler is a function from requests to
    programs, a middleware a function between handlers. *)

From Stdlib Require Import ZArith List Bool Lia Ascii.
From stdpp Require Import base decidable list strings pretty.
From S2P Require Import Prelude Text Errors Types AuditLog World Logic Repos Tokens Auth AuthConfig Accounts WebSessions.

Local Open Scope Z_scope.
Local Open Scope aster_scope.

(** ** Requests and responses *)

(** Cookies in the order of the [Cookie] headers, header names in the lower
    case in which [HeaderMap] keeps them, and the user the authentication
    middleware leaves in the request's extensions. *)
Record ApiRequest : Type := mkApiRequest {
  ar_client : HttpRequest;
  ar_method : string;
  ar_path : string;
  ar_cookies : list (string * string);
  ar_headers : list (string * string);
  ar_user : option AuthUserInfo
}.

Inductive SameSite : Set := SameSiteLax.

Record Cookie : Type := mkCookie {
  ck_name : string;
  ck_value : string;
  ck_path : string;
  ck_http_only : bool;
  ck_same_site : option SameSite;
  ck_secure : bool;
  ck_max_age : Z
}.

(** The headers the handlers set; the body is the data of [ApiResponse::ok] or
    the bytes sent. *)
Record HttpResponse (A : Type) : Type := mkResponse {
  rs_status : Z;
  rs_headers : list (string * string);
  rs_cookies : list Cookie;
  rs_body : option A
}.
Arguments mkResponse {A}.
Arguments rs_status {A}.
Arguments rs_headers {A}.
Arguments rs_cookies {A}.
Arguments rs_body {A}.

Definition ok_response {A} (a : A) : HttpResponse A := mkResponse 200 [] [] (Some a).
Definition created_response {A} (a : A) : HttpResponse A := mkResponse 201 [] [] (Some a).

(** The first entry of that name: [HttpRequest::cookie], [HeaderMap::get]. *)
Definition assoc_first (name : string) (l : list (string * string)) : option string :=
  snd <$> find (fun entry => eqb (fst entry) name) l.

Definition cookie (req : ApiRequest) (name : string) : option string :=
  assoc_first name (ar_cookies req).

(** [HeaderValue::to_str]: visible ASCII and tabs. *)
Definition header_text (value : string) : option string :=
  if forallb (fun a => ((32 <=? code a) && (code a <=? 126))%nat || (code a =? 9)%nat) (bytes value)
  then Some value else None.

Definition header (req : ApiRequest) (name : string) : option string :=
  assoc_first (to_ascii_lowercase name) (ar_headers req) ≫= header_text.

(** ** [api/request_auth.rs] *)

Definition ACCESS_COOKIE : string := "aster_access".
Definition access_cookie_token (req : ApiRequest) : option string := cookie req ACCESS_COOKIE.

(** What [auth_service::current_user] reads of the request. *)
Definition web_of (req : ApiRequest) : WebRequest :=
  mkWebRequest (ar_client req) (ar_method req) (ar_path req) (access_cookie_token req)
    (header req "authorization").

(** ** [api/dto/validation.rs] *)

(** What [validator] collects from the custom rule of a field. *)
Definition field_errors (r : outcome AsterError.t unit) : list string :=
  match r with Err e => [AsterError.message e] | _ => [] end.

(** A rule on an [Option] field is not run on [None]. *)
Definition optional_field {A} (value : option A) (rule : A -> list string) : list string :=
  match value with Some v => rule v | None => [] end.

Definition validate_non_blank (value : string) : outcome AsterError.t unit :=
  if is_empty (trim value) then Err (AsterError.ValidationError "value cannot be empty") else Ok tt.

(** [validate_request], given the messages of the fields. *)
Definition validate_request (messages : list string) : outcome AsterError.t unit :=
  match messages with
  | [] => Ok tt
  | _ => Err (AsterError.ValidationError (join_with ", " (sort_by String.leb messages)))
  end.

(** ** The CSRF library

    [aster_forge_actix_middleware::csrf]: token names, the double-submit
    check, the check of the request's source and fresh tokens. *)

Record CsrfTokenNames : Type := mkTokenNames { cookie_name : string; header_name : string }.

Inductive CsrfErrorKind : Set :=
| TokenNameInvalid | CookieMissing | HeaderMissing | TokenInvalid
| RequestSchemeInvalid | RequestHostInvalid | RequestOriginInvalid | RequestRefererInvalid
| RequestHeaderValueInvalid | RequestSourceUntrusted | RequestOriginUntrusted
| RequestRefererUntrusted | RequestSourceMissing.

Record CsrfError : Type := mkCsrfError { csrf_kind : CsrfErrorKind; csrf_message : string }.

Inductive RequestSourceMode : Set := SourceRequired | OptionalWhenPresent.

Class CsrfLibrary : Type := {
  new_token_names : string -> string -> outcome CsrfError CsrfTokenNames;
  forge_token_names : CsrfTokenNames;
  is_unsafe_method : string -> bool;
  double_submit : ApiRequest -> CsrfTokenNames -> outcome CsrfError unit;
  source_allowed : ApiRequest -> list string -> RequestSourceMode -> outcome CsrfError unit;
  build_csrf_token : nat -> string
}.

(** Documented: methods that write are unsafe; a request passes the
    double-submit check only with a token in the cookie and the same token in
    the header, and with both of these it passes. *)
Class CsrfLaws (C : CsrfLibrary) : Prop := {
  writes_unsafe m : In m ["POST"; "PUT"; "PATCH"; "DELETE"]%string -> is_unsafe_method m = true;
  double_submit_spec req names :
    double_submit req names = Ok tt <->
    exists token, token <> ""%string /\ cookie req (cookie_name names) = Some token /\
      header req (header_name names) = Some token;
  double_submit_returns req names m : double_submit req names <> Panic m
}.

(** ** [api/middleware/csrf/mod.rs] *)

Definition DEFAULT_AUTH_CSRF_COOKIE_NAME : string := "aster_yggdrasil_csrf".
Definition DEFAULT_AUTH_CSRF_HEADER_NAME : string := "X-Aster-Yggdrasil-CSRF".

Definition auth_csrf_missing : string -> AsterError.t :=
  AsterError.auth_forbidden_code AsterErrorCode.AuthCsrfMissing.
Definition auth_csrf_invalid : string -> AsterError.t :=
  AsterError.auth_forbidden_code AsterErrorCode.AuthCsrfInvalid.
Definition auth_admin_required : string -> AsterError.t :=
  AsterError.auth_forbidden_code AsterErrorCode.AuthAdminRequired.

Section Names.
Context `{CL : CsrfLibrary}.

Definition default_token_names : CsrfTokenNames :=
  match new_token_names DEFAULT_AUTH_CSRF_COOKIE_NAME DEFAULT_AUTH_CSRF_HEADER_NAME with
  | Ok names => names
  | _ => forge_token_names
  end.

(** The process-wide [OnceLock], passed explicitly. *)
Definition token_names_in (lock : option CsrfTokenNames) : CsrfTokenNames :=
  match lock with Some names => names | None => default_token_names end.

Definition names_eqb (a b : CsrfTokenNames) : bool :=
  eqb (cookie_name a) (cookie_name b) && eqb (header_name a) (header_name b).

Definition init_token_names (cookie_name header_name : string) (lock : option CsrfTokenNames)
  : outcome AsterError.t unit * option CsrfTokenNames :=
  match new_token_names cookie_name header_name with
  | Ok names =>
      match lock with
      | None => (Ok tt, Some names)
      | Some current =>
          if names_eqb current names then (Ok tt, lock)
          else (Err (AsterError.ConfigError "CSRF token names are already initialized"), lock)
      end
  | Err e => (Err (AsterError.ConfigError (csrf_message e)), lock)
  | Panic m => (Panic m, lock)
  end.

Definition map_csrf_error (e : CsrfError) : AsterError.t :=
  match csrf_kind e with
  | TokenNameInvalid => AsterError.ConfigError (csrf_message e)
  | CookieMissing | HeaderMissing => auth_csrf_missing (csrf_message e)
  | TokenInvalid => auth_csrf_invalid (csrf_message e)
  | RequestSchemeInvalid | RequestHostInvalid | RequestOriginInvalid | RequestRefererInvalid
  | RequestHeaderValueInvalid => AsterError.ValidationError (csrf_message e)
  | RequestSourceUntrusted | RequestOriginUntrusted | RequestRefererUntrusted
  | RequestSourceMissing => AsterError.AuthForbidden (csrf_message e)
  end.

Definition csrf_result {A} (r : outcome CsrfError A) : outcome AsterError.t A :=
  match r with
  | Ok a => Ok a
  | Err e => Err (map_csrf_error e)
  | Panic m => Panic m
  end.
End Names.

(** The state of the lock while requests are served. *)
Class CsrfStarted : Type := { csrf_lock : option CsrfTokenNames }.

Section Guards.
Context `{EN : Env} `{CB : CacheBackend} `{FC : ForgeCrypto}.
Context `{FN : ForgeNumbers} `{FS : ForgeSigned} `{AE : !AccountExterns} `{CS : ChronoSeconds}.
Context `{JW : Jwt} `{CF : ForgeConfig} `{ST : ConfigStore} `{RC : RuntimeConfig}.
Context `{AC : AppConfig} `{CL : CsrfLibrary} `{CT : CsrfStarted}.

Abbreviation AM := (M AsterError.t).

Definition token_names : CsrfTokenNames := token_names_in csrf_lock.

Definition ensure_double_submit_token (req : ApiRequest) : outcome AsterError.t unit :=
  csrf_result (double_submit req token_names).

Definition ensure_request_source_allowed (req : ApiRequest) (mode : RequestSourceMode)
  : outcome AsterError.t unit :=
  csrf_result (source_allowed req (public_site_urls config_get) mode).

(** [ensure_cookie_write_allowed] of [routes/auth.rs]; the middleware makes
    the same two calls. *)
Definition ensure_cookie_write_allowed (req : ApiRequest) : AM unit :=
  do* lift (ensure_request_source_allowed req OptionalWhenPresent) in
  lift (ensure_double_submit_token req).

(** ** Middlewares *)

Definition Service (A : Type) : Type := ApiRequest -> AM (HttpResponse A).

Definition with_user (info : AuthUserInfo) (req : ApiRequest) : ApiRequest :=
  mkApiRequest (ar_client req) (ar_method req) (ar_path req) (ar_cookies req) (ar_headers req)
    (Some info).

(** [JwtAuth] *)
Definition jwt_auth {A} (svc : Service A) : Service A := fun req =>
  do* (if is_some (access_cookie_token req) && is_unsafe_method (ar_method req)
       then ensure_cookie_write_allowed req
       else ret tt) in
  let* u := current_user (web_of req) in
  let* info := auth_request_user_info u in
  svc (with_user info req).

Definition missing_user : AsterError.t :=
  AsterError.InternalError "missing authenticated user in request context".

(** [RequireAdmin] *)
Definition require_admin {A} (svc : Service A) : Service A := fun req =>
  match ar_user req with
  | None => throw missing_user
  | Some u =>
      if is_admin (au_role u) then svc req else throw (auth_admin_required "admin role required")
  end.

Definition scope_allows (scope : OperatorScope) (u : AuthUserInfo) : bool :=
  is_admin (au_role u)
  || (eqb (au_role u) Operator && existsb (fun s => eqb s scope) (au_operator_scopes u)).

(** [RequireAdminOrScope] *)
Definition require_admin_or_scope {A} (scope : OperatorScope) (svc : Service A) : Service A :=
  fun req =>
  match ar_user req with
  | None => throw missing_user
  | Some u =>
      if scope_allows scope u then svc req
      else throw (auth_admin_required "admin permission required")
  end.

Definition current_admin_user_id (req : ApiRequest) : outcome AsterError.t Z :=
  ok_or missing_user (au_id <$> ar_user req).
End Guards.

(** ** [api/routes/auth/cookies.rs] *)

Definition REFRESH_COOKIE : string := "aster_refresh".
Definition ACCESS_COOKIE_PATH : string := "/".
Definition REFRESH_COOKIE_PATH : string := "/api/v1/auth".

Definition build_cookie (name path value : string) (max_age_secs : Z) (secure : bool) : Cookie :=
  mkCookie name value path true (Some SameSiteLax) secure max_age_secs.

Definition clear_cookie (name path : string) (secure : bool) : Cookie :=
  mkCookie name "" path true None secure 0.

Definition build_access_cookie (value : string) (max_age_secs : Z) (secure : bool) : Cookie :=
  build_cookie ACCESS_COOKIE ACCESS_COOKIE_PATH value max_age_secs secure.
Definition build_refresh_cookie (value : string) (max_age_secs : Z) (secure : bool) : Cookie :=
  build_cookie REFRESH_COOKIE REFRESH_COOKIE_PATH value max_age_secs secure.
Definition clear_access_cookie (secure : bool) : Cookie :=
  clear_cookie ACCESS_COOKIE ACCESS_COOKIE_PATH secure.
Definition clear_refresh_cookie (secure : bool) : Cookie :=
  clear_cookie REFRESH_COOKIE REFRESH_COOKIE_PATH secure.

Section CsrfCookies.
Context `{CL : CsrfLibrary} `{CT : CsrfStarted}.

Definition build_csrf_cookie (value : string) (max_age_secs : Z) (secure : bool) : Cookie :=
  mkCookie (cookie_name token_names) value "/" false (Some SameSiteLax) secure max_age_secs.
Definition clear_csrf_cookie (secure : bool) : Cookie :=
  mkCookie (cookie_name token_names) "" "/" false (Some SameSiteLax) secure 0.
End CsrfCookies.

(** ** [api/cache.rs] *)

Definition quote : string := String (ascii_of_nat 34) EmptyString.

Definition weak_etag_for_bytes `{FC : ForgeCrypto} (content : string) : string :=
  "W/" +:+ quote +:+ "sha256-" +:+ sha256_hex content +:+ quote.

(** [get(..2)] with [eq_ignore_ascii_case], then [value[2..]]. *)
Definition normalized_etag (value : string) : string :=
  match trim value with
  | String a (String "/"%char rest) as value =>
      if eqb (ascii_to_lower a) "w"%char then trim rest else value
  | value => value
  end.

Definition if_none_match_contains (value etag : string) : bool :=
  existsb (fun candidate =>
             let candidate := trim candidate in
             eqb candidate "*"%string || eqb (normalized_etag candidate) (normalized_etag etag))
    (split_char "," value).

Definition request_etag_matches (req : ApiRequest) (etag : string) : bool :=
  is_some_and (header req "if-none-match") (fun value => if_none_match_contains value etag).

Definition not_modified_response (etag cache_control : string) : HttpResponse string :=
  mkResponse 304 [("etag", etag); ("cache-control", cache_control)] [] None.

Definition conditional_bytes_response `{FC : ForgeCrypto} (req : ApiRequest)
  (content content_type cache_control : string) : HttpResponse string :=
  let etag := weak_etag_for_bytes content in
  let content_length := pretty (Z.of_nat (String.length content)) in
  if request_etag_matches req etag then not_modified_response etag cache_control
  else mkResponse 200 [("etag", etag); ("cache-control", cache_control);
                       ("content-length", content_length); ("content-type", content_type)] []
         (Some content).
