(* ===== verification/AuthRoutes.v ===== *)
(** * The authentication API

    [api/routes/auth.rs]: one definition per handler of [/api/v1/auth], in the
    order of its calls; the request bodies of [api/dto/auth.rs] are the
    handlers' arguments. *)

From Stdlib Require Import ZArith List Bool Lia Ascii.
From stdpp Require Import base decidable list strings pretty.
From S2P Require Import Prelude Text Errors Types AuditLog World Logic Repos Bans Tokens Auth ForwardTextures AuthConfig Accounts WebSessions AccountFlows Invitations ObjectStorage TextureRepo TextureProcessing TextureLibrary Profiles ExternalAuth UserProfiles Passkeys Captcha ApiGuards.

Local Open Scope Z_scope.
Local Open Scope aster_scope.

(** [aster_forge_api]: limits and cursors of paged lists. *)
Class ForgePages : Type := {
  limit_or : option Z -> Z -> Z -> Z;
  parse_datetime_id_cursor :
    option DateTimeUtc -> option Z -> string -> outcome string (option (DateTimeUtc * Z));
  parse_datetime_string_cursor :
    option DateTimeUtc -> option string -> string -> outcome string (option (DateTimeUtc * string))
}.

(** An [ApiError], through [?]. *)
Definition api_result {A} (r : outcome string A) : outcome AsterError.t A :=
  match r with
  | Ok a => Ok a
  | Err m => Err (AsterError.ValidationError m)
  | Panic m => Panic m
  end.

Record CheckResp : Type := mkCheck {
  initialized : bool;
  check_user_registration : bool;
  check_local_registration : bool;
  check_local_login : bool
}.

Record PublicCaptchaPolicyResp : Type := mkPublicCaptcha {
  pc_enabled : bool;
  pc_login_required : bool;
  pc_register_required : bool;
  pc_invitation_accept_required : bool;
  pc_register_activation_resend_required : bool
}.

Definition AVATAR_CACHE_CONTROL : string := "public, max-age=31536000, immutable".
Definition AVATAR_CONTENT_TYPE : string := "image/webp".

Inductive ContactVerificationRedirectStatus : Set :=
| EmailChanged | RedirectExpired | RedirectInvalid | RedirectMissing | RegisterActivated.

Definition as_query_value (s : ContactVerificationRedirectStatus) : string :=
  match s with
  | EmailChanged => "email-changed"
  | RedirectExpired => "expired"
  | RedirectInvalid => "invalid"
  | RedirectMissing => "missing"
  | RegisterActivated => "register-activated"
  end.

Definition non_blank (token : option string) : option string :=
  token ≫= fun t => if is_empty (trim t) then None else Some t.

Section Routes.
Context `{EN : Env} `{CB : CacheBackend} `{TM : TxnManager} `{FC : ForgeCrypto}.
Context `{FN : ForgeNumbers} `{FG : ForgeSigned} `{AE : !AccountExterns} `{CS : ChronoSeconds}.
Context `{JW : Jwt} `{CF : ForgeConfig} `{ST : ConfigStore} `{RC : RuntimeConfig}.
Context `{AC : AppConfig} `{FE : ForgeEmail} `{SE : !SetupExterns} `{FA : ForgeApi}.
Context `{BE : BanExterns} `{WA : Webauthn} `{IC : ImageCodec} `{FS : FileSystem}.
Context {OS : ObjectStorage} `{AI : AvatarImages} `{PX : ProfileExterns} `{CP : CaptchaLibrary}.
Context `{FP : ForgePages} `{CL : CsrfLibrary} `{CT : CsrfStarted}.

Abbreviation AM := (M AsterError.t).

(** The guard of the handlers a cookie authenticates. *)
Definition guard_access_cookie (req : ApiRequest) : AM unit :=
  if is_some (access_cookie_token req) then ensure_cookie_write_allowed req else ret tt.

Definition audit (req : ApiRequest) (user_id : Z) (action : AuditAction.t)
  (entity : AuditEntityType) (entity_id : option Z) (name : option string) : AM unit :=
  AuditService.log_with_details (AuditService.from_request (ar_client req) user_id) action entity
    entity_id name.

Definition validated (messages : list string) : AM unit := lift (validate_request messages).

(** *** Bootstrap *)

Definition check : AM (HttpResponse CheckResp) :=
  let* count := Users.count_all in
  let policy := auth_policy config_get in
  ret (ok_response (mkCheck (0 <? count) (allow_user_registration policy)
                      (allow_local_registration policy) (allow_local_login policy))).

Definition captcha_policy_route : AM (HttpResponse PublicCaptchaPolicyResp) :=
  let policy := current_captcha_policy in
  ret (ok_response (mkPublicCaptcha (captcha_enabled policy) (captcha_login_required policy)
         (captcha_register_required policy) (captcha_invitation_accept_required policy)
         (captcha_register_activation_resend_required policy))).

Definition issue_captcha : AM (HttpResponse CaptchaChallengeResponse) :=
  let* challenge := issue_challenge in
  ret (ok_response challenge).

(** *** Sessions in cookies *)

Definition draw_csrf_token : AM string := fun w => (Ok (build_csrf_token (step w)), tick w).

Definition session_cookies (session : AuthTokenBundle) : AM (list Cookie) :=
  let policy := auth_policy config_get in
  let secure := cookie_secure policy in
  let* csrf_token := draw_csrf_token in
  let* access_ttl := lift (utils (u64_to_i64 (access_token_ttl_secs policy) "access token ttl")) in
  let* refresh_ttl :=
    lift (utils (u64_to_i64 (refresh_token_ttl_secs policy) "refresh token ttl")) in
  ret [build_access_cookie (access_token session) access_ttl secure;
       build_refresh_cookie (refresh_token session) refresh_ttl secure;
       build_csrf_cookie csrf_token refresh_ttl secure].

Definition authenticated_response_with_body {T} (session : AuthTokenBundle) (body : T)
  : AM (HttpResponse T) :=
  let* cookies := session_cookies session in
  ret (mkResponse 200 [] cookies (Some body)).

Definition authenticated_response (session : AuthTokenBundle) : AM (HttpResponse AuthTokenResponse) :=
  authenticated_response_with_body session (bundle_response session).

Definition authenticated_redirect_response (session : AuthTokenBundle) (location : string)
  : AM (HttpResponse unit) :=
  let* cookies := session_cookies session in
  ret (mkResponse 302 [("location", location)] cookies None).

Definition refresh_cookie (req : ApiRequest) : option string := cookie req REFRESH_COOKIE.

(** The cookie's token, or else the one in the body. *)
Definition logout_token_from_request (req : ApiRequest) (body : option string) : option string :=
  non_blank (or_else (refresh_cookie req) body).

Definition refresh_token_from_request (req : ApiRequest) (body : option string)
  : outcome AsterError.t string :=
  ok_or (AsterError.AuthTokenInvalid "missing refresh token")
    (non_blank (or_else (refresh_cookie req) body)).

(** *** Opening an account *)

Definition account_fields (name address password : string) : list string :=
  field_errors (validate_username name) ++ field_errors (validate_email address)
    ++ field_errors (validate_password password).

Definition setup (req : ApiRequest) (name address password : string)
  (public_site_url : option string) : AM (HttpResponse AuthTokenResponse) :=
  do* validated (account_fields name address password) in
  let* data := setup_first_admin name address password public_site_url (ar_client req) in
  authenticated_response data.

Definition register_route (req : ApiRequest) (name address password : string)
  (captcha_challenge_id captcha_answer : option string) : AM (HttpResponse RegisterResponse) :=
  do* validated (account_fields name address password) in
  do* verify_if_required RequireRegister captcha_challenge_id captcha_answer in
  let* data := AccountFlows.register name address password (ar_client req) in
  match data with
  | RegisterAuthenticated session =>
      authenticated_response_with_body session (mkRegisterResponse (expires_in session) false)
  | RegisterPendingActivation _ => ret (ok_response (register_response data))
  end.

Definition resend_register_activation_route (identifier : string)
  (captcha_challenge_id captcha_answer : option string) : AM (HttpResponse string) :=
  do* validated (field_errors (validate_non_blank identifier)) in
  do* verify_if_required RequireRegisterActivationResend captcha_challenge_id captcha_answer in
  let* _ := resend_register_activation identifier in
  ret (ok_response "If the account can be reactivated, an activation email will be sent").

(** *** Links in mails *)

(** [request_has_active_access_session]: the error is dropped. *)
Definition request_has_active_access_session (req : ApiRequest) : AM bool := fun w =>
  match current_user (web_of req) w with
  | (Panic m, w') => (Panic m, w')
  | (r, w') => (Ok (is_ok r), w')
  end.

Definition contact_verification_redirect_url (path : string)
  (s : ContactVerificationRedirectStatus) (address : option string) : string :=
  path +:+ "?contact_verification=" +:+ as_query_value s
    +:+ match address with Some e => "&email=" +:+ urlencode e | None => "" end.

Definition contact_verification_redirect_response (path : string)
  (s : ContactVerificationRedirectStatus) (address : option string) : HttpResponse unit :=
  mkResponse 302 [("location", contact_verification_redirect_url path s address)] [] None.

Definition confirmation_action (purpose : VerificationPurpose) : AuditAction.t :=
  match purpose with
  | RegisterActivation => AuditAction.UserConfirmRegistration
  | ContactChange => AuditAction.UserConfirmEmailChange
  | PasswordReset => AuditAction.UserConfirmPasswordReset
  end.

Definition confirmation_target (result : ContactVerificationConfirmResult) (active : bool)
  (fallback_path : string) : string * ContactVerificationRedirectStatus * option string :=
  match confirmed_purpose result with
  | RegisterActivation =>
      (if active then "/settings/security" else "/login", RegisterActivated, None)
  | ContactChange =>
      (if active then "/settings/security" else "/login", EmailChanged,
       Some (confirmed_target result))
  | PasswordReset => (fallback_path, RedirectInvalid, None)
  end.

Definition confirm_contact_verification_route (req : ApiRequest) (token : option string)
  : AM (HttpResponse unit) :=
  let* active := request_has_active_access_session req in
  let fallback_path := if active then "/settings/security" else "/login" in
  let redirect s : AM (HttpResponse unit) := ret (contact_verification_redirect_response fallback_path s None) in
  match trim <$> token with
  | None => redirect RedirectMissing
  | Some token =>
      if is_empty token then redirect RedirectMissing else fun w =>
      match confirm_contact_verification token w with
      | (Ok result, w) =>
          (do* audit req (confirmed_user_id result) (confirmation_action (confirmed_purpose result))
                 UserEntity (Some (confirmed_user_id result)) None in
           let '(path, s, address) := confirmation_target result active fallback_path in
           ret (contact_verification_redirect_response path s address)) w
      | (Err e, w) =>
          match AsterError.api_error_code e with
          | AsterErrorCode.ContactVerificationInvalid => redirect RedirectInvalid w
          | AsterErrorCode.ContactVerificationExpired => redirect RedirectExpired w
          | _ => (Err e, w)
          end
      | (Panic m, w) => (Panic m, w)
      end
  end.

Definition request_password_reset_route (req : ApiRequest) (address : string)
  : AM (HttpResponse string) :=
  do* validated (field_errors (validate_email address)) in
  let* result := request_password_reset address in
  do* match result with
      | Some u => audit req (au_id u) AuditAction.UserRequestPasswordReset UserEntity
                    (Some (au_id u)) (Some (au_username u))
      | None => ret tt
      end in
  ret (ok_response "If the account is eligible, a password reset email will be sent").

Definition confirm_password_reset_route (req : ApiRequest) (token new_password : string)
  : AM (HttpResponse string) :=
  do* validated (field_errors (validate_non_blank token)
                   ++ field_errors (validate_password new_password)) in
  let* u := confirm_password_reset token new_password in
  do* audit req (au_id u) AuditAction.UserConfirmPasswordReset UserEntity (Some (au_id u))
        (Some (au_username u)) in
  ret (ok_response "Password reset successful").

(** *** Passwords *)

Definition change_password_route (req : ApiRequest) (current_password new_password : string)
  : AM (HttpResponse AuthTokenResponse) :=
  do* validated (field_errors (validate_non_blank current_password)
                   ++ field_errors (validate_password new_password)) in
  do* guard_access_cookie req in
  let* u := current_user (web_of req) in
  let* updated := change_password_with_audit (ar_client req) (user_pk u) current_password
                    new_password in
  let* session := issue_tokens_for_user_id (au_id updated) (ar_client req) in
  authenticated_response session.

Definition set_local_password_route (req : ApiRequest) (new_password : string)
  : AM (HttpResponse AuthTokenResponse) :=
  do* validated (field_errors (validate_password new_password)) in
  do* guard_access_cookie req in
  let* u := current_user (web_of req) in
  let* updated := set_local_password_with_audit (ar_client req) (user_pk u) new_password in
  let* session := issue_tokens_for_user_id (au_id updated) (ar_client req) in
  authenticated_response session.

(** *** Invitations *)

Definition verify_user_invitation (token : string) : AM (HttpResponse PublicUserInvitationInfo) :=
  let* info := verify_public_invitation token in
  ret (ok_response info).

Definition accept_user_invitation (req : ApiRequest) (token name password : string)
  (captcha_challenge_id captcha_answer : option string) : AM (HttpResponse AuthUserInfo) :=
  do* validated (field_errors (validate_username name)
                   ++ field_errors (validate_password password)) in
  do* verify_if_required RequireInvitationAccept captcha_challenge_id captcha_answer in
  let* u := accept_invitation token name password in
  do* audit req (user_pk u) AuditAction.UserRegister UserEntity (Some (user_pk u))
        (Some (username u)) in
  let* info := auth_user_info u in
  ret (created_response info).

(** *** Signing in and out *)

Definition login_route (req : ApiRequest) (identifier password : string)
  (captcha_challenge_id captcha_answer : option string) : AM (HttpResponse AuthTokenResponse) :=
  do* validated (field_errors (validate_non_blank identifier)
                   ++ field_errors (validate_non_blank password)) in
  do* verify_if_required RequireLogin captcha_challenge_id captcha_answer in
  let* data := login identifier password (ar_client req) in
  authenticated_response data.

Definition refresh_route (req : ApiRequest) (body : option string)
  : AM (HttpResponse AuthTokenResponse) :=
  do* validated (optional_field body (fun t => field_errors (validate_non_blank t))) in
  do* (if is_some (refresh_cookie req) then ensure_cookie_write_allowed req else ret tt) in
  let* token := lift (refresh_token_from_request req body) in
  let* data := refresh token (ar_client req) in
  authenticated_response data.

Definition cleared_cookies : list Cookie :=
  let secure := cookie_secure (auth_policy config_get) in
  [clear_access_cookie secure; clear_refresh_cookie secure; clear_csrf_cookie secure].

Definition logout_route (req : ApiRequest) (body : option string) : AM (HttpResponse bool) :=
  do* validated (optional_field body (fun t => field_errors (validate_non_blank t))) in
  do* (if is_some (access_cookie_token req) || is_some (refresh_cookie req)
       then ensure_cookie_write_allowed req else ret tt) in
  let* revoked := match logout_token_from_request req body with
                  | Some token => logout token (ar_client req)
                  | None => ret false
                  end in
  ret (mkResponse 200 [] cleared_cookies (Some revoked)).

Definition me (req : ApiRequest) : AM (HttpResponse AuthUserInfo) :=
  let* u := current_user (web_of req) in
  let* info := auth_user_info u in
  ret (ok_response info).

(** *** The account's address and profile *)

Definition request_email_change_route (req : ApiRequest) (new_email : string)
  : AM (HttpResponse AuthUserInfo) :=
  do* validated (field_errors (validate_email new_email)) in
  let* u := current_user (web_of req) in
  do* guard_access_cookie req in
  let* info := request_email_change (user_pk u) new_email in
  do* audit req (user_pk u) AuditAction.UserRequestEmailChange UserEntity (Some (user_pk u))
        (Some (username u)) in
  ret (ok_response info).

Definition resend_email_change_route (req : ApiRequest) : AM (HttpResponse string) :=
  let* u := current_user (web_of req) in
  do* guard_access_cookie req in
  let* result := resend_email_change (user_pk u) in
  do* match result with
      | Some info => audit req (au_id info) AuditAction.UserResendEmailChange UserEntity
                       (Some (au_id info)) (Some (au_username info))
      | None => ret tt
      end in
  ret (ok_response "If an email change is pending, a confirmation email will be sent").

(** [UpdateProfileReq] has no rules, [UpdateAvatarSourceReq] neither. *)
Definition patch_profile (req : ApiRequest) (display_name : option string)
  : AM (HttpResponse UserProfileInfo) :=
  do* validated [] in
  let* u := current_user (web_of req) in
  do* guard_access_cookie req in
  let* profile := update_profile (user_pk u) display_name in
  ret (ok_response profile).

Definition upload_avatar_route (req : ApiRequest) (payload : list (outcome string MultipartField))
  : AM (HttpResponse UserProfileInfo) :=
  let* u := current_user (web_of req) in
  do* guard_access_cookie req in
  let* profile := upload_avatar (user_pk u) payload in
  ret (ok_response profile).

Definition put_avatar_source (req : ApiRequest) (source : AvatarSource)
  : AM (HttpResponse UserProfileInfo) :=
  do* validated [] in
  let* u := current_user (web_of req) in
  do* guard_access_cookie req in
  let* profile := set_avatar_source (user_pk u) source in
  ret (ok_response profile).

Definition get_self_avatar (req : ApiRequest) (size : Z) : AM (HttpResponse string) :=
  let* u := current_user (web_of req) in
  let* content := get_avatar_bytes (user_pk u) size in
  ret (conditional_bytes_response req content AVATAR_CONTENT_TYPE AVATAR_CACHE_CONTROL).

(** *** Devices *)

Definition sessions_route (req : ApiRequest) (limit : option Z)
  (after_last_seen_at : option DateTimeUtc) (after_id : option string)
  : AM (HttpResponse SessionPage) :=
  let* u := current_user (web_of req) in
  let* cursor :=
    lift (api_result (parse_datetime_string_cursor after_last_seen_at after_id "auth session")) in
  let* sessions := list_sessions_cursor (user_pk u) (refresh_cookie req) (limit_or limit 50 100)
                     cursor in
  ret (ok_response sessions).

Definition delete_other_sessions (req : ApiRequest) : AM (HttpResponse Z) :=
  let* u := current_user (web_of req) in
  do* ensure_cookie_write_allowed req in
  let* token := lift (ok_or (AsterError.AuthTokenInvalid "missing current refresh session")
                        (non_blank (refresh_cookie req))) in
  let* removed := revoke_other_sessions (user_pk u) token (ar_client req) in
  ret (ok_response removed).

Definition delete_session (req : ApiRequest) (sid : string) : AM (HttpResponse unit) :=
  let* u := current_user (web_of req) in
  do* ensure_cookie_write_allowed req in
  let* revoked_current := revoke_session (user_pk u) sid (refresh_cookie req) (ar_client req) in
  ret (mkResponse 200 [] (if revoked_current then cleared_cookies else []) None).

(** *** Passkeys *)

Definition list_passkeys_route (req : ApiRequest) (limit : option Z)
  (after_created_at : option DateTimeUtc) (after_id : option Z)
  : AM (HttpResponse (CursorPage PasskeyInfo (DateTimeUtc * Z))) :=
  let* u := current_user (web_of req) in
  let* cursor :=
    lift (api_result (parse_datetime_id_cursor after_created_at after_id "passkey")) in
  let* items := list_passkeys_cursor (user_pk u) (limit_or limit 20 100) cursor in
  ret (ok_response items).

Definition start_passkey_registration (req : ApiRequest) (name : option string)
  : AM (HttpResponse PasskeyStartResp) :=
  let* u := current_user (web_of req) in
  let* resp := start_registration (user_pk u) name in
  ret (ok_response resp).

Definition finish_passkey_registration (req : ApiRequest) (flow_id credential : string)
  (name : option string) : AM (HttpResponse PasskeyInfo) :=
  let* u := current_user (web_of req) in
  do* ensure_cookie_write_allowed req in
  let* p := finish_registration (user_pk u) flow_id credential name in
  do* audit req (user_pk u) AuditAction.UserPasskeyRegister Passkey (Some (pi_id p))
        (Some (pi_name p)) in
  ret (ok_response p).

Definition passkey_not_owned (id : Z) : AsterError.t :=
  AsterError.RecordNotFound ("passkey #" +:+ pretty id).

Definition rename_passkey_route (req : ApiRequest) (id : Z) (name : string)
  : AM (HttpResponse PasskeyInfo) :=
  let* u := current_user (web_of req) in
  do* ensure_cookie_write_allowed req in
  let* previous := PasskeyRepo.find_by_id_for_user id (user_pk u) in
  let* _ := lift (ok_or (passkey_not_owned id) previous) in
  let* p := rename_passkey (user_pk u) id name in
  do* audit req (user_pk u) AuditAction.UserPasskeyRename Passkey (Some (pi_id p))
        (Some (pi_name p)) in
  ret (ok_response p).

Definition delete_passkey_route (req : ApiRequest) (id : Z) : AM (HttpResponse unit) :=
  let* u := current_user (web_of req) in
  do* ensure_cookie_write_allowed req in
  let* found := PasskeyRepo.find_by_id_for_user id (user_pk u) in
  let* p := lift (ok_or (passkey_not_owned id) found) in
  let* deleted := delete_passkey (user_pk u) id in
  do* when_ok (negb deleted) (passkey_not_owned id) in
  do* audit req (user_pk u) AuditAction.UserPasskeyDelete Passkey (Some id)
        (Some (passkey_name p)) in
  ret (mkResponse 200 [] [] None).

Definition start_passkey_login (req : ApiRequest) (identifier : option string)
  (conditional : option bool) : AM (HttpResponse PasskeyStartResp) :=
  do* lift (ensure_request_source_allowed req SourceRequired) in
  let* resp := start_login identifier (default false conditional) in
  ret (ok_response resp).

Definition finish_passkey_login (req : ApiRequest) (flow_id credential : string)
  : AM (HttpResponse AuthTokenResponse) :=
  do* lift (ensure_request_source_allowed req OptionalWhenPresent) in
  let* result := finish_login flow_id credential (ar_client req) in
  do* audit req (au_id (bundle_user (pl_session result))) AuditAction.UserPasskeyLogin Passkey
        (Some (pl_passkey_id result)) (Some (pl_passkey_name result)) in
  authenticated_response (pl_session result).
End Routes.
