(* ===== verification/AdminRoutes.v ===== *)
(** * The administrator API

    [api/routes/admin/mod.rs]: the scopes of [/api/v1/admin], the operator
    scope each asks for and its routes; then the handlers of
    [api/routes/admin/users.rs] and [user_bans.rs]. *)

From Stdlib Require Import ZArith List Bool Lia Ascii.
From stdpp Require Import base decidable list strings pretty.
From S2P Require Import Prelude Text Errors Types AuditLog World Logic Repos Bans Tokens Auth ForwardTextures Sessions ProfileTextures AuthConfig Accounts WebSessions AccountFlows Invitations ObjectStorage TextureRepo TextureProcessing TextureService TextureWardrobe TextureLibrary Profiles ExternalAuth UserProfiles AdminUsers ApiGuards AuthRoutes.

Local Open Scope Z_scope.
Local Open Scope aster_scope.

(** ** Routing

    actix matches a scope by a prefix of whole segments and then answers from
    it alone; inside it the first route of that method and pattern answers,
    and a request no route answers gets an empty 404.  A pattern segment in
    braces stands for any non-empty segment. *)

Record AdminScope : Type := mkAdminScope {
  scope_path : string;
  scope_required : OperatorScope;
  scope_routes : list (string * string)
}.

Definition admin_scopes : list AdminScope :=
  [mkAdminScope "/overview" ScopeOverview [("GET", "")];
   mkAdminScope "/system-info" ScopeOverview [("GET", "")];
   mkAdminScope "/config" ScopeSettings
     [("GET", ""); ("GET", "/schema"); ("GET", "/template-variables"); ("GET", "/{key}");
      ("PUT", "/{key}"); ("DELETE", "/{key}"); ("POST", "/{key}/action")];
   mkAdminScope "/audit-logs" ScopeAudit [("GET", "")];
   mkAdminScope "/tasks" ScopeTasks [("GET", ""); ("POST", "/cleanup"); ("POST", "/{id}/retry")];
   mkAdminScope "/texture-library" ScopeTextureLibrary
     [("GET", "/reports"); ("GET", "/reports/{report_id}"); ("POST", "/reports/{report_id}/accept");
      ("POST", "/reports/{report_id}/reject"); ("GET", "/tags"); ("POST", "/tags");
      ("GET", "/textures"); ("GET", "/textures/{texture_id}"); ("DELETE", "/textures/{texture_id}");
      ("POST", "/textures/{texture_id}/approve"); ("POST", "/textures/{texture_id}/reject");
      ("POST", "/textures/{texture_id}/unpublish"); ("PATCH", "/tags/{tag_id}");
      ("DELETE", "/tags/{tag_id}")];
   mkAdminScope "/users" ScopeUsers
     [("GET", ""); ("POST", ""); ("GET", "/invitations"); ("POST", "/invitations");
      ("POST", "/invitations/{id}/revoke"); ("GET", "/{id}"); ("POST", "/{id}/bans");
      ("PATCH", "/{id}"); ("DELETE", "/{id}"); ("POST", "/{id}/sessions/revoke");
      ("GET", "/{user_id}/minecraft-profiles")];
   mkAdminScope "/user-bans" ScopeUsers
     [("GET", ""); ("GET", "/{ban_id}"); ("PATCH", "/{ban_id}"); ("POST", "/{ban_id}/revoke");
      ("GET", "/{ban_id}/events")];
   mkAdminScope "/avatars" ScopeUsers [("GET", "/users/{id}/{size}")];
   mkAdminScope "/minecraft-profiles" ScopeProfiles
     [("GET", ""); ("GET", "/{uuid}"); ("PUT", "/{uuid}/name"); ("DELETE", "/{uuid}");
      ("GET", "/{uuid}/textures"); ("DELETE", "/{uuid}/textures/{texture_type}")];
   mkAdminScope "/minecraft-textures" ScopeProfiles [("DELETE", "/{hash}")];
   mkAdminScope "/external-auth" ScopeExternalAuth
     [("GET", "/provider-kinds"); ("GET", "/providers"); ("POST", "/providers");
      ("POST", "/providers/test"); ("GET", "/providers/{id}"); ("PATCH", "/providers/{id}");
      ("DELETE", "/providers/{id}"); ("POST", "/providers/{id}/test")];
   mkAdminScope "/yggdrasil" ScopeSettings
     [("GET", "/session-forward-servers"); ("POST", "/session-forward-servers");
      ("GET", "/session-forward-servers/{id}"); ("PATCH", "/session-forward-servers/{id}");
      ("DELETE", "/session-forward-servers/{id}")]].

(** The segments after each slash; none for the empty path. *)
Definition segments (path : string) : list string := tail (split_char "/" path).

Definition segment_matches (pattern segment : string) : bool :=
  match pattern with
  | String "{" _ => negb (is_empty segment)
  | _ => eqb pattern segment
  end.

Fixpoint segments_match (pattern path : list string) : bool :=
  match pattern, path with
  | [], [] => true
  | p :: pattern, s :: path => segment_matches p s && segments_match pattern path
  | _, _ => false
  end.

Fixpoint strip_segments (prefix path : list string) : option (list string) :=
  match prefix, path with
  | [], _ => Some path
  | p :: prefix, s :: path => if eqb p s then strip_segments prefix path else None
  | _, _ => None
  end.

Definition route_matches (method : string) (path : list string) (r : string * string) : bool :=
  eqb (fst r) method && segments_match (segments (snd r)) path.

(** The scope that answers a path, and what is left of the path. *)
Fixpoint find_scope (path : list string) (l : list AdminScope)
  : option (AdminScope * list string) :=
  match l with
  | [] => None
  | s :: l =>
      match strip_segments (segments (scope_path s)) path with
      | Some rest => Some (s, rest)
      | None => find_scope path l
      end
  end.

Definition API_PREFIX : string := "/api/v1/admin".

(** [validator]'s e-mail rule. *)
Class Validator : Type := { valid_email : string -> bool }.

Definition email_rule `{VD : Validator} (address : string) : list string :=
  if valid_email address then [] else ["email must be a valid email address"%string].

Section Routes.
Context `{EN : Env} `{CB : CacheBackend} `{TM : TxnManager} `{FC : ForgeCrypto} `{FA : ForgeApi}.
Context `{FN : ForgeNumbers} `{FG : ForgeSigned} `{TN : TextureNumbers} `{AE : !AccountExterns}.
Context `{CS : ChronoSeconds} `{JW : Jwt} `{CF : ForgeConfig} `{ST : ConfigStore}.
Context `{RC : RuntimeConfig} `{AC : AppConfig} `{FE : ForgeEmail}.
Context `{TX : TextureExterns} `{SE : SkinExterns} `{TS : TextSearch} `{PP : PreviewPolicy}.
Context `{IC : ImageCodec} `{FS : FileSystem} `{BE : BanExterns} {OS : ObjectStorage}.
Context `{PX : ProfileExterns} `{FP : ForgePages} `{CL : CsrfLibrary} `{CT : CsrfStarted}.
Context `{VD : Validator}.

Abbreviation AM := (M AsterError.t).

Definition not_found_response {A} : HttpResponse A := mkResponse 404 [] [] None.

(** The administrator API over handlers named by scope, method and pattern. *)
Definition admin_scope {A} (handle : string -> string * string -> Service A) (s : AdminScope)
  (rest : list string) : Service A :=
  require_admin_or_scope (scope_required s) (fun req =>
    match find (route_matches (ar_method req) rest) (scope_routes s) with
    | Some r => handle (scope_path s) r req
    | None => ret not_found_response
    end).

Definition admin_routes {A} (handle : string -> string * string -> Service A) : Service A :=
  fun req =>
  match strip_segments (segments API_PREFIX) (segments (ar_path req)) with
  | None => ret not_found_response
  | Some path =>
      jwt_auth (fun req =>
        match find_scope path admin_scopes with
        | Some (s, rest) => admin_scope handle s rest req
        | None => ret not_found_response
        end) req
  end.

(** ** [api/routes/admin/users.rs] *)

Definition audit_by (req : ApiRequest) (action : AuditAction.t) (entity : AuditEntityType)
  (entity_id : option Z) (name : option string) : AM unit :=
  let* actor := lift (current_admin_user_id req) in
  audit req actor action entity entity_id name.

Definition list_users_route (limit : option Z) (keyword : option string)
  (role_filter : option UserRole) (status_filter : option UserStatus)
  (after_created_at : option DateTimeUtc) (after_id : option Z)
  : AM (HttpResponse (CursorPage AdminUserInfo (DateTimeUtc * Z))) :=
  do* validated (optional_field keyword (fun k =>
        if 96 <? char_count k then ["keyword must not exceed 96 characters"%string] else [])) in
  let* cursor :=
    lift (api_result (parse_datetime_id_cursor after_created_at after_id "admin user")) in
  let* users := list_users (limit_or limit 20 100)
                  (mkUserFilters keyword role_filter status_filter) cursor in
  ret (ok_response users).

Record CreateAdminUserReq : Type := mkCreateReq {
  cu_username : string;
  cu_email : string;
  cu_password : option string;
  cu_must_change_password : option bool;
  cu_role : option UserRole;
  cu_operator_scopes : option (list OperatorScope);
  cu_status : option UserStatus
}.

Definition create_user_route (req : ApiRequest) (body : CreateAdminUserReq)
  : AM (HttpResponse CreateAdminUserOutput) :=
  do* validated (field_errors (validate_username (cu_username body)) ++ email_rule (cu_email body)) in
  let* output := create_user
    (mkAdminCreate (cu_username body) (cu_email body) (cu_password body)
       (default User (cu_role body)) (cu_operator_scopes body)
       (default Types.UserActive (cu_status body)) (cu_must_change_password body)) in
  do* audit_by req AuditAction.AdminCreateUser UserEntity (Some (ui_id (co_user output)))
        (Some (ui_username (co_user output))) in
  ret (created_response output).

Definition create_user_invitation (req : ApiRequest) (address : string)
  : AM (HttpResponse AdminUserInvitationInfo) :=
  let address := trim address in
  do* validated (email_rule address) in
  let* actor := lift (current_admin_user_id req) in
  let* invitation := create_invitation address actor in
  do* audit req actor AuditAction.AdminCreateInvitation Invitation (Some (ii_id invitation))
        (Some (ii_email invitation)) in
  ret (created_response invitation).

Definition list_user_invitations (limit : option Z) (after_created_at : option DateTimeUtc)
  (after_id : option Z) : AM (HttpResponse InvitationPage) :=
  let* cursor :=
    lift (api_result (parse_datetime_id_cursor after_created_at after_id "user invitation")) in
  let* invitations := list_invitations (limit_or limit 20 100) cursor in
  ret (ok_response invitations).

Definition revoke_user_invitation (req : ApiRequest) (id : Z)
  : AM (HttpResponse AdminUserInvitationInfo) :=
  let* invitation := revoke_invitation id in
  do* audit_by req AuditAction.AdminRevokeInvitation Invitation (Some (ii_id invitation))
        (Some (ii_email invitation)) in
  ret (ok_response invitation).

Definition get_user_route (id : Z) : AM (HttpResponse AdminUserInfo) :=
  let* u := get_user id in
  ret (ok_response u).

Definition update_user_route (req : ApiRequest) (id : Z) (body : AdminUpdateUserInput)
  : AM (HttpResponse AdminUserInfo) :=
  do* validated (optional_field (ad_username body) (fun n => field_errors (validate_username n))
                   ++ optional_field (ad_email body) email_rule
                   ++ optional_field (ad_password body)
                        (fun p => field_errors (validate_password p))) in
  let* u := update_user id body in
  do* audit_by req (if eqb (ad_status body) (Some Types.Disabled) then AuditAction.AdminDisableUser
                    else AuditAction.AdminUpdateUser)
        UserEntity (Some (ui_id u)) (Some (ui_username u)) in
  ret (ok_response u).

Definition revoke_user_sessions_route (req : ApiRequest) (id : Z) : AM (HttpResponse Z) :=
  let* removed := revoke_user_sessions id in
  do* audit_by req AuditAction.AdminRevokeUserSessions UserEntity (Some id)
        (Some ("user #" +:+ pretty id)) in
  ret (ok_response removed).

Definition delete_user_route (req : ApiRequest) (id : Z)
  : AM (HttpResponse DeleteAdminUserOutput) :=
  let* output := delete_user id in
  do* audit_by req AuditAction.AdminDeleteUser UserEntity (Some (ui_id (do_user output)))
        (Some (ui_username (do_user output))) in
  ret (ok_response output).

(** ** [api/routes/admin/user_bans.rs] *)

Definition ban_scope_entity_name (scopes : list UserBanScope) : string :=
  join_with "," (List.map scope_as_str scopes).

Definition log_user_ban_audit (req : ApiRequest) (actor : Z) (action : AuditAction.t)
  (ban : UserBanInfo) : AM unit :=
  audit req actor action AuditLog.UserBan (Some (ban_pk (info_row ban)))
    (Some (ban_scope_entity_name (info_scopes ban))).

Definition get_user_ban_route (id : Z) : AM (HttpResponse UserBanInfo) :=
  let* ban := get_user_ban id in
  ret (ok_response ban).

(** [length(min, max)] on characters. *)
Definition length_rule (lo hi : Z) (message value : string) : list string :=
  if (lo <=? char_count value) && (char_count value <=? hi) then [] else [message].

Definition reason_rule : string -> list string :=
  length_rule 1 128 "reason must be 1-128 characters".
Definition note_rule (field : string) : string -> list string :=
  length_rule 0 1000 (field +:+ " must not exceed 1000 characters").

Definition create_user_ban_route (req : ApiRequest) (body : CreateUserBanInput)
  : AM (HttpResponse UserBanInfo) :=
  do* validated (reason_rule (in_reason body)
                   ++ optional_field (in_public_reason body) (note_rule "public_reason")
                   ++ optional_field (in_admin_note body) (note_rule "admin_note")) in
  let* actor := current_user (web_of req) in
  let* ban := create_user_ban (user_pk actor) body in
  do* log_user_ban_audit req (user_pk actor) AuditAction.AdminCreateUserBan ban in
  ret (ok_response ban).

(** [NullablePatch] fields have no rule. *)
Definition update_user_ban_route (req : ApiRequest) (id : Z) (body : UpdateUserBanInput)
  : AM (HttpResponse UserBanInfo) :=
  do* validated (optional_field (up_reason body) reason_rule) in
  let* actor := current_user (web_of req) in
  let* ban := update_user_ban (user_pk actor) id body in
  do* log_user_ban_audit req (user_pk actor) AuditAction.AdminUpdateUserBan ban in
  ret (ok_response ban).

Definition revoke_user_ban_route (req : ApiRequest) (id : Z) (revoke_note : option string)
  : AM (HttpResponse UserBanInfo) :=
  do* validated (optional_field revoke_note (note_rule "revoke_note")) in
  let* actor := current_user (web_of req) in
  let* ban := revoke_user_ban (user_pk actor) id revoke_note in
  do* log_user_ban_audit req (user_pk actor) AuditAction.AdminRevokeUserBan ban in
  ret (ok_response ban).

Definition list_user_ban_events_route (id : Z) : AM (HttpResponse (list user_ban_event)) :=
  let* events := list_user_ban_events id in
  ret (ok_response events).
End Routes.
