(* ===== verification/SiteRoutes.v ===== *)
(** * The site API of a signed-in user

    [api/routes/profiles.rs], [wardrobe.rs] and [texture_library.rs]: the
    handlers with which users manage their Minecraft profiles, the textures of
    their wardrobe and their contributions to the library.  The multipart
    uploads and the paged list of profiles are not modelled here. *)

From Stdlib Require Import ZArith List Bool Lia Ascii.
From stdpp Require Import base decidable list strings pretty.
From S2P Require Import Prelude Text Errors Types AuditLog World Logic Repos Bans Tokens Auth ForwardTextures Sessions ProfileTextures AuthConfig Accounts WebSessions YggdrasilConfig ObjectStorage TextureRepo TextureProcessing TextureService TextureWardrobe TextureLibrary Profiles ApiGuards AuthRoutes.

Local Open Scope Z_scope.
Local Open Scope aster_scope.

Definition TEXTURE_TAG_FILTER_LIMIT : nat := 16.
Definition DEFAULT_TEXTURE_TAG_PAGE_SIZE : Z := 30.

Class ForgeTagCursor : Type := {
  parse_sort_order_name_id_cursor :
    option Z -> option string -> option Z -> string -> outcome string (option (Z * string * Z))
}.

(** [dto/validation.rs] *)
Definition validate_unsigned_uuid (value : string) : outcome string unit :=
  if (str_len value =? 32)%nat && forallb is_ascii_hexdigit (bytes value) then Ok tt
  else Err "uuid must be a 32-character unsigned hexadecimal UUID"%string.

Definition ensure_uuid (u : string) : outcome AsterError.t unit :=
  match validate_unsigned_uuid u with
  | Err m => Err (AsterError.validation_error_code AsterErrorCode.MinecraftProfileUuidInvalid m)
  | _ => Ok tt
  end.

Definition profile_not_found (u : string) : AsterError.t :=
  AsterError.record_not_found_code AsterErrorCode.MinecraftProfileNotFound
    ("minecraft profile '" +:+ u +:+ "'").

Definition parse_profile_texture_type (value : string) : outcome AsterError.t MinecraftTextureType :=
  match parse_texture_type value with
  | Ok ty => Ok ty
  | Err _ => Err (AsterError.validation_error_code AsterErrorCode.MinecraftTextureInvalidType
                    "invalid texture type")
  | Panic m => Panic m
  end.

(** [texture_error_to_api_error]; the two files differ in the codes of a
    missing texture and of a conflict. *)
Definition texture_error_to_api_error (missing conflict : AsterErrorCode.t)
  (e : TextureErrors.TextureError) : AsterError.t :=
  let m := TextureErrors.protocol_message e in
  match TextureErrors.kind e with
  | TextureErrors.InvalidToken =>
      AsterError.public_error UNAUTHORIZED AsterErrorCode.AuthTokenInvalid m
  | TextureErrors.ForbiddenProfile => AsterError.AuthForbidden m
  | TextureErrors.UploadDisabled =>
      AsterError.auth_forbidden_code AsterErrorCode.MinecraftTextureUploadDisabled m
  | TextureErrors.UserBanForbidden =>
      AsterError.auth_forbidden_code AsterErrorCode.UserBanForbidden m
  | TextureErrors.NotFound => AsterError.record_not_found_code missing m
  | TextureErrors.Conflict => AsterError.public_error 409 conflict m
  | TextureErrors.Storage =>
      AsterError.public_error INTERNAL_SERVER_ERROR AsterErrorCode.MinecraftObjectStorageFailed m
  | TextureErrors.InvalidTextureType =>
      AsterError.validation_error_code AsterErrorCode.MinecraftTextureInvalidType m
  | TextureErrors.InvalidContentType =>
      AsterError.validation_error_code AsterErrorCode.MinecraftTextureUnsupportedMime m
  | TextureErrors.MissingFile | TextureErrors.InvalidPng =>
      AsterError.validation_error_code AsterErrorCode.MinecraftTextureInvalidPng m
  | TextureErrors.InvalidDimensions =>
      AsterError.validation_error_code AsterErrorCode.MinecraftTextureInvalidDimensions m
  end.

Definition profile_texture_error : TextureErrors.TextureError -> AsterError.t :=
  texture_error_to_api_error AsterErrorCode.MinecraftTextureNotFound
    AsterErrorCode.MinecraftTextureBindConflict.
Definition wardrobe_texture_error : TextureErrors.TextureError -> AsterError.t :=
  texture_error_to_api_error AsterErrorCode.WardrobeTextureNotFound
    AsterErrorCode.WardrobeTextureEditConflict.

(** [normalize_tag_filter_ids]: positive and without duplicates. *)
Fixpoint distinct_tag_ids (tag_ids normalized : list Z) : outcome AsterError.t (list Z) :=
  match tag_ids with
  | [] => Ok normalized
  | id :: tag_ids =>
      if id <=? 0
      then Err (AsterError.validation_error_code AsterErrorCode.ValidationFailed
                  "tag_ids must contain positive integers")
      else distinct_tag_ids tag_ids
             (if existsb (Z.eqb id) normalized then normalized else normalized ++ [id])
  end.

Definition normalize_tag_filter_ids (tag_ids : list Z) : outcome AsterError.t (list Z) :=
  if (TEXTURE_TAG_FILTER_LIMIT <? length tag_ids)%nat
  then Err (AsterError.validation_error_code AsterErrorCode.ValidationFailed
              "tag_ids must not contain more than 16 items")
  else distinct_tag_ids tag_ids [].

Definition trimmed_keyword (keyword : option string) : option string :=
  match trim <$> keyword with
  | Some k => if is_empty k then None else Some k
  | None => None
  end.

Definition tag_ids_rule (tag_ids : list Z) : list string :=
  if (16 <? length tag_ids)%nat then ["tag_ids must not contain more than 16 items"%string] else [].

Definition no_content : HttpResponse unit := mkResponse 204 [] [] None.

Section Routes.
Context `{EN : Env} `{CB : CacheBackend} `{TM : TxnManager} `{FC : ForgeCrypto} `{FA : ForgeApi}.
Context `{FN : ForgeNumbers} `{FG : ForgeSigned} `{TN : TextureNumbers} `{AE : !AccountExterns}.
Context `{CS : ChronoSeconds} `{JW : Jwt} `{CF : ForgeConfig} `{ST : ConfigStore}.
Context `{RC : RuntimeConfig} `{AC : AppConfig} `{YE : YggdrasilExterns} `{UC : Unicode}.
Context `{TX : TextureExterns} `{SE : SkinExterns} `{TS : TextSearch} `{PP : PreviewPolicy}.
Context `{IC : ImageCodec} `{FS : FileSystem} `{BE : BanExterns} {OS : ObjectStorage}.
Context `{PX : ProfileExterns} `{OT : OfficialTextures} `{SS : SessionServer}.
Context `{FP : ForgePages} `{FT : ForgeTagCursor}.

Abbreviation AM := (M AsterError.t).

(** ** [api/routes/profiles.rs] *)

(** The profile of a path, which must be the caller's. *)
Definition own_profile (user_id : Z) (u : string) : AM minecraft_profile :=
  let* found := ProfileRepo.find_by_uuid_for_user u user_id in
  lift (ok_or (profile_not_found u) found).

Definition log_profile_texture_audit (req : ApiRequest) (user_id : Z) (action : AuditAction.t)
  (stored : StoredTexture) : AM unit :=
  audit req user_id action MinecraftTexture
    (Some (binding_pk (ProfileTextureRepo.binding (stored_texture stored))))
    (Some (profile_name (stored_profile stored))).

(** The rule has no message of its own. *)
Definition bind_minecraft_profile_texture (req : ApiRequest) (u texture_type_raw : string)
  (texture_id : Z) : AM (HttpResponse MinecraftTextureMetadata) :=
  do* validated (if texture_id <? 1 then ["invalid field 'texture_id'"%string] else []) in
  do* lift (ensure_uuid u) in
  let* ty := lift (parse_profile_texture_type texture_type_raw) in
  let* caller := current_user (web_of req) in
  let* profile := own_profile (user_pk caller) u in
  let* stored := map_err profile_texture_error
    (bind_wardrobe_texture_to_profile (user_pk caller) profile texture_id ty) in
  do* log_profile_texture_audit req (user_pk caller) AuditAction.MinecraftTextureBind stored in
  ret (ok_response (texture_metadata (stored_profile stored) (stored_texture stored))).

Definition unbind_minecraft_profile_texture (req : ApiRequest) (u texture_type_raw : string)
  : AM (HttpResponse unit) :=
  do* lift (ensure_uuid u) in
  let* ty := lift (parse_profile_texture_type texture_type_raw) in
  let* caller := current_user (web_of req) in
  let* profile := own_profile (user_pk caller) u in
  let* deleted := map_err profile_texture_error (delete_texture_for_profile profile ty) in
  do* audit req (user_pk caller) AuditAction.MinecraftTextureDelete MinecraftTexture
        ((fun item => binding_pk (ProfileTextureRepo.binding (deleted_texture item))) <$> deleted)
        (Some (profile_name profile)) in
  ret no_content.

Definition create_minecraft_profile (req : ApiRequest) (name : string)
  : AM (HttpResponse YggdrasilProfile) :=
  do* validated (field_errors (validate_profile_name name)) in
  let* caller := current_user (web_of req) in
  let* profile := create_profile (user_pk caller) (role caller) name in
  do* audit req (user_pk caller) AuditAction.MinecraftProfileCreate MinecraftProfile
        (Some (profile_pk profile)) (Some (profile_name profile)) in
  ret (ok_response (project_profile_summary profile)).

Definition rename_minecraft_profile (req : ApiRequest) (u name : string)
  : AM (HttpResponse YggdrasilProfile) :=
  do* validated (field_errors (validate_profile_name name)) in
  do* lift (ensure_uuid u) in
  let* caller := current_user (web_of req) in
  let* found := rename_profile_for_user (user_pk caller) u name in
  let* renamed := lift (ok_or (profile_not_found u) found) in
  do* audit req (user_pk caller) AuditAction.MinecraftProfileRename MinecraftProfile
        (Some (profile_pk (rp_profile renamed)))
        (Some (profile_name (rp_profile renamed))) in
  ret (ok_response (project_profile_summary (rp_profile renamed))).

Definition list_minecraft_profile_textures (req : ApiRequest) (u : string)
  : AM (HttpResponse (list MinecraftTextureMetadata)) :=
  do* lift (ensure_uuid u) in
  let* caller := current_user (web_of req) in
  let* profile := own_profile (user_pk caller) u in
  let* textures := texture_metadata_for_profile profile in
  ret (ok_response textures).

Definition refresh_official_minecraft_profile_textures (req : ApiRequest) (u : string)
  : AM (HttpResponse (list MinecraftTextureMetadata)) :=
  do* lift (ensure_uuid u) in
  let* caller := current_user (web_of req) in
  let* profile := own_profile (user_pk caller) u in
  let* textures := refresh_official_profile_textures profile in
  ret (ok_response textures).

Definition apply_official_minecraft_profile_texture_source (req : ApiRequest) (u : string)
  : AM (HttpResponse (list MinecraftTextureMetadata)) :=
  do* lift (ensure_uuid u) in
  let* caller := current_user (web_of req) in
  let* profile := own_profile (user_pk caller) u in
  let* textures := apply_official_profile_textures profile in
  ret (ok_response textures).

Definition apply_local_minecraft_profile_texture_source (req : ApiRequest) (u : string)
  : AM (HttpResponse (list MinecraftTextureMetadata)) :=
  do* lift (ensure_uuid u) in
  let* caller := current_user (web_of req) in
  let* profile := own_profile (user_pk caller) u in
  let* textures := map_err profile_texture_error
    (apply_local_texture_presets_to_profile (user_pk caller) profile) in
  ret (ok_response textures).

Definition delete_minecraft_profile (req : ApiRequest) (u : string) : AM (HttpResponse unit) :=
  do* lift (ensure_uuid u) in
  let* caller := current_user (web_of req) in
  let* found := delete_profile_for_user (user_pk caller) u in
  let* deleted := lift (ok_or (profile_not_found u) found) in
  do* audit req (user_pk caller) AuditAction.MinecraftProfileDelete MinecraftProfile
        (Some (profile_pk (dp_profile deleted)))
        (Some (profile_name (dp_profile deleted))) in
  ret no_content.

(** ** [api/routes/wardrobe.rs] *)

Definition keyword_rule (keyword : option string) : list string :=
  optional_field keyword (fun k =>
    if 96 <? char_count k then ["keyword must not exceed 96 characters"%string] else []).

Definition texture_filter (keyword : option string) (ty : option MinecraftTextureType)
  (tag_ids : list Z) (how : TextureTagSearchMethod)
  : outcome AsterError.t TextureRepo.WardrobeTextureListFilter :=
  match normalize_tag_filter_ids tag_ids with
  | Ok ids => Ok (TextureRepo.mkWardrobeFilter ty ids how (trimmed_keyword keyword))
  | Err e => Err e
  | Panic m => Panic m
  end.

Definition list_wardrobe_textures_route (req : ApiRequest) (limit : option Z)
  (keyword : option string) (ty : option MinecraftTextureType) (tag_ids : list Z)
  (how : TextureTagSearchMethod) (after_updated_at : option DateTimeUtc) (after_id : option Z)
  : AM (HttpResponse (CursorPage MinecraftWardrobeTextureMetadata (DateTimeUtc * Z))) :=
  do* validated (keyword_rule keyword ++ tag_ids_rule tag_ids) in
  let* caller := current_user (web_of req) in
  let* cursor :=
    lift (api_result (parse_datetime_id_cursor after_updated_at after_id "wardrobe texture")) in
  let* filter := lift (texture_filter keyword ty tag_ids how) in
  let* page := list_wardrobe_textures_cursor (user_pk caller) (limit_or limit 50 100) cursor
                 filter in
  ret (ok_response page).

Definition get_wardrobe_texture_route (req : ApiRequest) (texture_id : Z)
  : AM (HttpResponse MinecraftWardrobeTextureMetadata) :=
  let* caller := current_user (web_of req) in
  let* texture := get_wardrobe_texture (user_pk caller) texture_id in
  ret (ok_response texture).

Definition list_tags_page (limit : option Z) (keyword : option string)
  (after_sort_order : option Z) (after_name : option string) (after_id : option Z)
  : AM (CursorPage MinecraftTextureTagInfo (Z * string * Z)) :=
  let* after := lift (api_result
    (parse_sort_order_name_id_cursor after_sort_order after_name after_id "texture tag")) in
  list_texture_library_tags_paginated (limit_or limit DEFAULT_TEXTURE_TAG_PAGE_SIZE 100) after
    (trimmed_keyword keyword).

Definition list_texture_library_tags_route (req : ApiRequest) (limit : option Z)
  (keyword : option string) (after_sort_order : option Z) (after_name : option string)
  (after_id : option Z)
  : AM (HttpResponse (CursorPage MinecraftTextureTagInfo (Z * string * Z))) :=
  do* validated (keyword_rule keyword) in
  let* _ := current_user (web_of req) in
  let* page := list_tags_page limit keyword after_sort_order after_name after_id in
  ret (ok_response page).

Definition update_wardrobe_texture (req : ApiRequest) (texture_id : Z)
  (display_name : option (NullablePatch string)) (model : option MinecraftTextureModel)
  (vis : option MinecraftTextureVisibility)
  : AM (HttpResponse MinecraftWardrobeTextureMetadata) :=
  do* validated [] in
  let* caller := current_user (web_of req) in
  let* texture := update_wardrobe_texture_metadata (user_pk caller) texture_id display_name model
                    vis in
  ret (ok_response texture).

Definition replace_wardrobe_texture_tags_route (req : ApiRequest) (texture_id : Z)
  (tag_ids : list Z) : AM (HttpResponse MinecraftWardrobeTextureMetadata) :=
  do* validated (tag_ids_rule tag_ids) in
  let* caller := current_user (web_of req) in
  let* texture := replace_wardrobe_texture_tags (user_pk caller) texture_id tag_ids in
  ret (ok_response texture).

Definition submit_texture_library_review_route (req : ApiRequest) (texture_id : Z)
  : AM (HttpResponse MinecraftWardrobeTextureMetadata) :=
  let* caller := current_user (web_of req) in
  let* texture := submit_texture_library_review (user_pk caller) texture_id in
  do* audit req (user_pk caller) AuditAction.MinecraftTextureLibrarySubmit MinecraftTexture
        (Some (tv_id (wm_view texture))) (Some (tv_name (wm_view texture))) in
  ret (ok_response texture).

Definition withdraw_texture_library_submission_route (req : ApiRequest) (texture_id : Z)
  : AM (HttpResponse MinecraftWardrobeTextureMetadata) :=
  let* caller := current_user (web_of req) in
  let* texture := withdraw_texture_library_submission (user_pk caller) texture_id in
  do* audit req (user_pk caller) AuditAction.MinecraftTextureLibraryWithdraw MinecraftTexture
        (Some (tv_id (wm_view texture))) (Some (tv_name (wm_view texture))) in
  ret (ok_response texture).

Definition delete_wardrobe_texture_route (req : ApiRequest) (texture_id : Z)
  : AM (HttpResponse unit) :=
  do* when_ok (texture_id <=? 0)
        (AsterError.validation_error_code AsterErrorCode.WardrobeTextureNotFound
           "invalid wardrobe texture id") in
  let* caller := current_user (web_of req) in
  let* deleted := map_err wardrobe_texture_error
    (delete_wardrobe_texture (user_pk caller) texture_id) in
  do* audit req (user_pk caller) AuditAction.MinecraftTextureDelete MinecraftTexture
        (Some (tex_pk deleted)) None in
  ret no_content.

(** ** [api/routes/texture_library.rs] *)

Definition list_public_texture_library_tags (limit : option Z) (keyword : option string)
  (after_sort_order : option Z) (after_name : option string) (after_id : option Z)
  : AM (HttpResponse (CursorPage MinecraftTextureTagInfo (Z * string * Z))) :=
  do* validated (keyword_rule keyword) in
  let* page := list_tags_page limit keyword after_sort_order after_name after_id in
  ret (ok_response page).

Definition list_public_textures (limit : option Z) (keyword : option string)
  (ty : option MinecraftTextureType) (tag_ids : list Z) (how : TextureTagSearchMethod)
  (after_updated_at : option DateTimeUtc) (after_id : option Z)
  : AM (HttpResponse (CursorPage PublicTextureLibraryTextureMetadata (DateTimeUtc * Z))) :=
  do* validated (keyword_rule keyword ++ tag_ids_rule tag_ids) in
  let* cursor :=
    lift (api_result (parse_datetime_id_cursor after_updated_at after_id "texture library")) in
  let* filter := lift (texture_filter keyword ty tag_ids how) in
  let* page := list_public_texture_library_cursor (limit_or limit 50 100) cursor filter in
  ret (ok_response page).

Definition get_public_texture (texture_id : Z)
  : AM (HttpResponse PublicTextureLibraryTextureMetadata) :=
  let* texture := get_public_texture_library_texture texture_id in
  ret (ok_response texture).

(** The body is optional: no bytes stand for no new name; [None] is a body
    [serde_json] does not read. *)
Definition copy_public_texture (req : ApiRequest) (texture_id : Z)
  (body : option (option (NullablePatch string)))
  : AM (HttpResponse MinecraftWardrobeTextureMetadata) :=
  let* caller := current_user (web_of req) in
  let* display_name := lift (ok_or
    (AsterError.validation_error_code AsterErrorCode.RequestMalformed
       "malformed copy texture request body") body) in
  do* validated [] in
  let* texture := copy_public_texture_to_wardrobe (user_pk caller) texture_id display_name in
  ret (ok_response texture).

Definition log_texture_report_audit (req : ApiRequest) (actor : Z) (action : AuditAction.t)
  (report : TextureReportInfo) : AM unit :=
  audit req actor action MinecraftTexture (Some (ri_texture_id report))
    ((fun t => tv_name (lm_view t)) <$> ri_texture report).

Definition create_texture_report (req : ApiRequest) (texture_id : Z)
  (reason : MinecraftTextureReportReason) (message : option string)
  : AM (HttpResponse TextureReportInfo) :=
  do* validated (optional_field message (fun m =>
        if 1000 <? char_count m then ["report message must not exceed 1000 characters"%string]
        else [])) in
  let* caller := current_user (web_of req) in
  let* report := create_texture_library_report (user_pk caller) texture_id reason message in
  do* log_texture_report_audit req (user_pk caller) AuditAction.MinecraftTextureReportCreate
        report in
  ret (ok_response report).
End Routes.
