(* ===== verification/ApiProofs.v ===== *)
(** * Theorems about the HTTP guards

    A request that cookies authenticate changes nothing without the CSRF
    token; a handler of the administrator API only ever runs for a caller who
    may use it. *)

From Stdlib Require Import ZArith List Bool Lia Ascii.
From stdpp Require Import base decidable list strings gmap pretty.
From S2P Require Import Prelude Text Errors Types AuditLog World Logic Repos Bans Tokens Auth Concrete ForwardTextures Sessions ProfileTextures AuthConfig Accounts WebSessions AccountFlows AccountSpec AccountOps AccountProofs AccountConcrete AccountSignIn Invitations ObjectStorage TextureRepo TextureProcessing TextureService TextureWardrobe TextureLibrary TextureInvariant BlobProofs Profiles ProfileProofs ProfileTheorems ExternalAuth UserProfiles Passkeys AdminUsers PasskeyProofs Captcha ApiGuards AuthRoutes AdminRoutes SiteRoutes.

Local Open Scope Z_scope.
Local Open Scope aster_scope.

(** ** Programs that refuse

    They fail and leave the tables, the cache and the audit log alone. *)
Class Refuses `{CB : CacheBackend} {E A} (c : M E A) : Prop :=
  refuses : forall w, is_ok (fst (c w)) = false /\ same w (snd (c w)).

Section Refuses.
Context `{EN : Env} `{CB : CacheBackend}.

Lemma refuses_head {E A B} (c : M E A) (k : A -> M E B) : Refuses c -> Refuses (bind c k).
Proof.
  intros Hc w. specialize (Hc w). unfold bind.
  by destruct (c w) as [[a|e|m] w']; destruct Hc as [Hf Hs].
Qed.

Lemma refuses_after {E A B} (c : M E A) (k : A -> M E B) :
  Reads c -> (forall a, Refuses (k a)) -> Refuses (bind c k).
Proof.
  intros Hc Hk w. specialize (Hc w). unfold bind.
  destruct (c w) as [[a|e|m] w']; cbn [fst snd] in *; [|done..].
  destruct (Hk a w') as [Hf Hs]. split; [done|by eapply same_trans].
Qed.

Lemma refuses_lift {E A} (o : outcome E A) : is_ok o = false -> Refuses (lift o).
Proof. intros H w. split; [done|apply same_refl]. Qed.

Lemma refuses_run {E A} (c : M E A) w r w' :
  Refuses c -> c w = (r, w') -> is_ok r = false /\ same w w'.
Proof. intros Hc E1. specialize (Hc w). by rewrite E1 in Hc. Qed.
End Refuses.

(** ** Cookies and the CSRF token *)

Section Csrf.
Context `{EN : Env} `{CB : CacheBackend} `{TM : TxnManager} `{FC : ForgeCrypto}.
Context `{FN : ForgeNumbers} `{FG : ForgeSigned} `{AE : !AccountExterns} `{CS : ChronoSeconds}.
Context `{JW : Jwt} `{CF : ForgeConfig} `{ST : ConfigStore} `{RC : RuntimeConfig}.
Context `{AC : AppConfig} `{FE : ForgeEmail} `{SE : !SetupExterns} `{FA : ForgeApi}.
Context `{BE : BanExterns} `{WA : Webauthn} `{IC : ImageCodec} `{FS : FileSystem}.
Context {OS : ObjectStorage} `{AI : AvatarImages} `{PX : ProfileExterns} `{CP : CaptchaLibrary}.
Context `{FP : ForgePages} `{CL : CsrfLibrary} `{CLL : !CsrfLaws CL} `{CT : CsrfStarted}.

(** The same token in the CSRF cookie and in the CSRF header. *)
Definition double_submitted (req : ApiRequest) : Prop :=
  exists token, token <> ""%string /\ cookie req (cookie_name token_names) = Some token /\
    header req (header_name token_names) = Some token.

#[global] Instance reads_write_guard req : Reads (ensure_cookie_write_allowed req).
Proof. unfold ensure_cookie_write_allowed. apply _. Qed.
#[global] Instance reads_validated messages : Reads (validated messages).
Proof. unfold validated. apply _. Qed.
#[global] Instance reads_current_user req : Reads (current_user req).
Proof. unfold current_user. apply reads_bind; [apply _|]. intros token.
  apply reads_bind; [apply _|]. intros [u c]. apply _. Qed.

Lemma write_guard_ok req w u w' :
  ensure_cookie_write_allowed req w = (Ok u, w') -> double_submitted req /\ w' = w.
Proof.
  unfold ensure_cookie_write_allowed. intros H. inv_ok H.
  match goal with E : ensure_double_submit_token _ = Ok _ |- _ =>
    unfold ensure_double_submit_token, csrf_result in E end.
  destruct (double_submit req token_names) as [[]| |] eqn:E; [|done..].
  by apply double_submit_spec in E.
Qed.

Lemma write_guard_refuses req :
  ~ double_submitted req -> Refuses (ensure_cookie_write_allowed req).
Proof.
  intros Hd w. destruct (ensure_cookie_write_allowed req w) as [r w'] eqn:E. cbn [fst snd].
  split; [|by eapply reads_run; [|exact E]; apply _].
  destruct r as [u| |]; [|done..]. by apply write_guard_ok in E as [? _].
Qed.

(** *** The writes cookies authenticate *)

Inductive CookieWrite : Type :=
| CwChangePassword (current_password new_password : string)
| CwSetLocalPassword (new_password : string)
| CwRefresh (body : option string)
| CwLogout (body : option string)
| CwRequestEmailChange (new_email : string)
| CwResendEmailChange
| CwPatchProfile (display_name : option string)
| CwUploadAvatar (payload : list (outcome string MultipartField))
| CwPutAvatarSource (source : AvatarSource)
| CwDeleteOtherSessions
| CwDeleteSession (sid : string)
| CwFinishPasskeyRegistration (flow_id credential : string) (name : option string)
| CwRenamePasskey (id : Z) (name : string)
| CwDeletePasskey (id : Z).

Definition outcome_only {A} (c : M AsterError.t (HttpResponse A)) : M AsterError.t unit :=
  let* _ := c in ret tt.

Definition serve_write (q : CookieWrite) (req : ApiRequest) : M AsterError.t unit :=
  match q with
  | CwChangePassword cur new => outcome_only (change_password_route req cur new)
  | CwSetLocalPassword new => outcome_only (set_local_password_route req new)
  | CwRefresh body => outcome_only (refresh_route req body)
  | CwLogout body => outcome_only (logout_route req body)
  | CwRequestEmailChange address => outcome_only (request_email_change_route req address)
  | CwResendEmailChange => outcome_only (resend_email_change_route req)
  | CwPatchProfile name => outcome_only (patch_profile req name)
  | CwUploadAvatar payload => outcome_only (upload_avatar_route req payload)
  | CwPutAvatarSource source => outcome_only (put_avatar_source req source)
  | CwDeleteOtherSessions => outcome_only (delete_other_sessions req)
  | CwDeleteSession sid => outcome_only (delete_session req sid)
  | CwFinishPasskeyRegistration flow c name =>
      outcome_only (finish_passkey_registration req flow c name)
  | CwRenamePasskey id name => outcome_only (rename_passkey_route req id name)
  | CwDeletePasskey id => outcome_only (delete_passkey_route req id)
  end.

(** What the browser would authenticate the request with on its own. *)
Definition ambient_credential (q : CookieWrite) (req : ApiRequest) : bool :=
  match q with
  | CwRefresh _ => is_some (refresh_cookie req)
  | CwLogout _ => is_some (access_cookie_token req) || is_some (refresh_cookie req)
  | _ => is_some (access_cookie_token req)
  end.

(** C7: No page of another site can make a browser write through the account
    API ([api/routes/auth.rs]).  A write to an account that the browser's cookies authenticate, by the access cookie or,
    for a refresh or a logout, by the refresh cookie, is refused unless the
    request carries the CSRF token twice, in its cookie and in the header
    another site cannot set; whatever else it holds, the refused request
    leaves the tables, the cache and the audit log as they were. *)
Theorem cookie_writes_need_csrf q req w r w' :
  ambient_credential q req = true -> ~ double_submitted req ->
  serve_write q req w = (r, w') -> is_ok r = false /\ same w w'.
Proof.
  intros Ha Hd. apply write_guard_refuses in Hd. apply refuses_run.
  assert (Hg : is_some (access_cookie_token req) = true -> Refuses (guard_access_cookie req)).
  { unfold guard_access_cookie. by intros ->. }
  destruct q; cbn [serve_write ambient_credential] in *; apply refuses_head;
    repeat first [ apply refuses_head; first [by apply Hg | rewrite Ha; exact Hd | exact Hd]
                 | apply refuses_after; [apply _|intros ?] ].
Qed.
End Csrf.

(** ** Who a handler of the administrator API runs for *)

Lemma strip_segments_some prefix path rest :
  strip_segments prefix path = Some rest -> path = (prefix ++ rest)%list.
Proof.
  revert path. induction prefix as [|p prefix IH]; intros path; cbn; [by intros [= ->]|].
  destruct path as [|s path]; [done|]. destruct (eqb p s) eqn:E; [|done].
  rewrite eqb_true in E. subst s. by intros ->%IH.
Qed.

Lemma find_scope_some path l s rest :
  find_scope path l = Some (s, rest) ->
  In s l /\ path = (segments (scope_path s) ++ rest)%list.
Proof.
  induction l as [|s' l IH]; [done|]. cbn. destruct (strip_segments _ path) as [r|] eqn:E.
  - intros [= <- <-]. split; [by left|]. by apply strip_segments_some.
  - intros [? ?]%IH. split; [by right|done].
Qed.

Section AdminGate.
Context `{EN : Env} `{CB : CacheBackend} `{FC : ForgeCrypto} `{FN : ForgeNumbers}.
Context `{FG : ForgeSigned} `{AE : !AccountExterns} `{CS : ChronoSeconds} `{JW : Jwt}.
Context `{CF : ForgeConfig} `{ST : ConfigStore} `{RC : RuntimeConfig} `{AC : AppConfig}.
Context `{CL : CsrfLibrary} `{CLL : !CsrfLaws CL} `{CT : CsrfStarted}.

(** The stored, active user a request's access token was issued to. *)
Definition caller (req : ApiRequest) (w : World) (u : user) : Prop :=
  exists token c,
    request_access_token (web_of req) = Some token /\
    jwt_decode jwt_secret (clock (step w)) token = inl c /\ token_type c = AccessToken /\
    In u (rows (users (db w))) /\ user_pk u = claims_user_id c /\ user_status u = UserActive /\
    session_version u = claims_session_version c.

(** An administrator, or an operator with a row for the scope. *)
Definition may_administer (scope : OperatorScope) (w : World) (u : user) : Prop :=
  role u = Admin \/
  (role u = Operator /\ exists s, In s (rows (operator_scopes (accounts (db w)))) /\
     os_user_id s = user_pk u /\ os_scope s = scope).

#[global] Instance reads_request_user u : Reads (auth_request_user_info u).
Proof.
  unfold auth_request_user_info, auth_user_operator_scopes, list_operator_scopes_for_user.
  apply reads_bind; [destruct (negb _); apply _|apply _].
Qed.

Lemma request_user_ok u w info w' :
  auth_request_user_info u w = (Ok info, w') ->
  same w w' /\ au_id info = user_pk u /\
  forall scope, scope_allows scope info = true -> may_administer scope w u.
Proof.
  intros H. assert (Hs : same w w') by (by eapply reads_run; [|exact H]; apply _).
  unfold auth_request_user_info in H. apply bind_ok in H as (scopes & w1 & Hl & [= <- <-]).
  split_and!; [done..|]. unfold scope_allows, may_administer. cbn. intros scope.
  intros [Ha|Ha]%orb_true_iff; [left; by destruct (role u)|right].
  apply andb_true_iff in Ha as [Hr He]. rewrite eqb_true in Hr. split; [done|].
  unfold auth_user_operator_scopes in Hl. rewrite Hr in Hl. cbn in Hl.
  apply db_query_ok in Hl as (-> & _). apply existsb_exists in He as (x & Hx & Ex).
  rewrite eqb_true in Ex. subst x. apply in_map_iff in Hx as (s & <- & Hx%in_sort_by).
  apply in_rows_where in Hx as [Hin Hid%Z.eqb_eq]. by exists s.
Qed.

(** What the middleware lets through. *)
Lemma jwt_auth_cases {A} (svc : Service A) req w r w' :
  jwt_auth svc req w = (r, w') ->
  (is_ok r = false /\ same w w') \/
  exists u info w1,
    caller req w u /\ au_id info = user_pk u /\
    (forall scope, scope_allows scope info = true -> may_administer scope w u) /\
    (is_some (access_cookie_token req) = true -> is_unsafe_method (ar_method req) = true ->
     double_submitted req) /\
    same w w1 /\ svc (with_user info req) w1 = (r, w').
Proof.
  unfold jwt_auth. set (guard := if _ : bool then _ else _). intros H.
  assert (Hg : Reads guard) by (unfold guard; destruct (_ && _); apply _).
  unfold bind at 1 in H. destruct (guard w) as [[[]|e|m] w0] eqn:E0;
    [|left; injection H as <- <-; split; [done|by eapply reads_run]..].
  assert (Hd : w0 = w /\ (is_some (access_cookie_token req) = true ->
    is_unsafe_method (ar_method req) = true -> double_submitted req)).
  { unfold guard in E0. destruct (is_some _), (is_unsafe_method _); cbn in E0;
      try (injection E0 as <-; done). by apply write_guard_ok in E0 as [? ->]. }
  destruct Hd as [-> Hd]. unfold bind at 1 in H.
  destruct (current_user (web_of req) w) as [[u|e|m] w1] eqn:E1;
    [|left; injection H as <- <-; split; [done|by eapply reads_run; [|exact E1]; apply _]..].
  apply current_user_ok in E1 as (token & c & ? & ? & ? & Hin & ? & ? & ? & _ & _ & Hs1).
  unfold bind at 1 in H. destruct (auth_request_user_info u w1) as [[info|e|m] w2] eqn:E2.
  - apply request_user_ok in E2 as (Hs2 & Hi & Ha). right. exists u, info, w2.
    split_and!; [exists token, c; done|done| |done|by eapply same_trans|done].
    intros scope Hsc. specialize (Ha scope Hsc). unfold may_administer in *.
    by rewrite <- (same_db _ _ Hs1).
  - left. injection H as <- <-. split; [done|]. eapply same_trans; [exact Hs1|].
    eapply reads_run; [|exact E2]; apply _.
  - left. injection H as <- <-. split; [done|]. eapply same_trans; [exact Hs1|].
    eapply reads_run; [|exact E2]; apply _.
Qed.

(** C6: The administrator API is closed to everyone but those it is for.
    Whatever the handlers behind it do, a request either is answered without
    one, by an error or an empty 404, and then nothing was written; or the
    handler of a registered route ran, for a path that is one of its scope's,
    and then the caller's access token names a stored, active user who is an
    administrator or an operator with a row for the scope the route asks for,
    the handler is told that user's id, and a write the access cookie
    authenticates carried the CSRF token.  Until the handler starts nothing is
    written. *)
Theorem admin_routes_guarded {A} (handle : string -> string * string -> Service A) req w r w' :
  admin_routes handle req w = (r, w') ->
  (same w w' /\ forall response, r = Ok response -> response = not_found_response) \/
  exists s route rest u info w1,
    In s admin_scopes /\ In route (scope_routes s) /\ fst route = ar_method req /\
    segments (ar_path req) = (segments API_PREFIX ++ segments (scope_path s) ++ rest)%list /\
    segments_match (segments (snd route)) rest = true /\
    caller req w u /\ may_administer (scope_required s) w u /\ au_id info = user_pk u /\
    (is_some (access_cookie_token req) = true ->
     In (ar_method req) ["POST"; "PUT"; "PATCH"; "DELETE"]%string -> double_submitted req) /\
    same w w1 /\ handle (scope_path s) route (with_user info req) w1 = (r, w').
Proof.
  unfold admin_routes. destruct (strip_segments _ _) as [path|] eqn:Ep.
  2: { intros [= <- <-]. left. split; [apply same_refl|by intros ? [= <-]]. }
  apply strip_segments_some in Ep.
  intros [[Hf Hs]|(u & info & w1 & Hc & Hi & Ha & Hd & Hs & H)]%jwt_auth_cases.
  { left. split; [done|]. intros ? ->. done. }
  destruct (find_scope path admin_scopes) as [[s rest]|] eqn:Ef.
  2: { injection H as <- <-. left. split; [done|by intros ? [= <-]]. }
  apply find_scope_some in Ef as [Hin ->]. unfold admin_scope, require_admin_or_scope in H.
  cbn [with_user ar_user ar_method] in H. destruct (scope_allows _ info) eqn:Eall.
  2: { injection H as <- <-. left. split; [done|by intros ?]. }
  destruct (find _ (scope_routes s)) as [route|] eqn:Er.
  2: { injection H as <- <-. left. split; [done|by intros ? [= <-]]. }
  apply find_some in Er as [Hroute Hm]. apply andb_true_iff in Hm as [Hm Hp].
  rewrite eqb_true in Hm. right. exists s, route, rest, u, info, w1.
  split_and!; try done; [by apply Ha|]. intros. apply Hd; [done|]. by apply writes_unsafe.
Qed.
End AdminGate.

(** ** What the caller may do to an account *)

Section Callers.
Context `{EN : Env} `{CB : CacheBackend} `{TM : TxnManager} `{FC : ForgeCrypto} `{FA : ForgeApi}.
Context `{FN : ForgeNumbers} `{FG : ForgeSigned} `{TN : TextureNumbers} `{AE : !AccountExterns}.
Context `{CF : ForgeConfig} `{ST : ConfigStore} `{RC : RuntimeConfig} `{FE : ForgeEmail}.
Context `{TX : TextureExterns} `{SE : SkinExterns} `{TS : TextSearch} `{PP : PreviewPolicy}.
Context `{IC : ImageCodec} `{FS : FileSystem} `{BE : BanExterns} {OS : ObjectStorage}.
Context `{PX : ProfileExterns} `{VD : Validator}.

Lemma audit_by_run req action entity id name w :
  is_some (ar_user req) = true ->
  exists w', audit_by req action entity id name w = (Ok tt, w') /\ db w' = db w.
Proof.
  unfold audit_by, audit, current_admin_user_id, AuditService.log_with_details.
  destruct (ar_user req) as [u|]; [|done]. intros _. unfold bind, lift. cbn [fmap option_fmap option_map ok_or].
  destruct (should_record _ _); eexists; (split; [reflexivity|done]).
Qed.

(** Which accounts an administrator or operator can change, and how, does
    not depend on who they are: behind the guard of the users scope, the same
    update has the same answer and leaves the same tables for any two callers.
    Only the audit log tells them apart.  So an operator who was given the
    users scope can make any account but the first an administrator, their own
    included. *)
Theorem user_updates_ignore_caller req1 req2 id body w :
  is_some (ar_user req1) = true -> is_some (ar_user req2) = true ->
  fst (update_user_route req1 id body w) = fst (update_user_route req2 id body w) /\
  db (snd (update_user_route req1 id body w)) = db (snd (update_user_route req2 id body w)).
Proof.
  intros H1 H2. unfold update_user_route, bind, ret.
  destruct (validated _ w) as [[[]|e|m] w1]; [|done..].
  destruct (update_user id body w1) as [[u|e|m] w2]; [|done..].
  set (action := if _ : bool then _ else _).
  destruct (audit_by_run req1 action UserEntity (Some (ui_id u)) (Some (ui_username u)) w2 H1)
    as (wa & -> & Ha).
  destruct (audit_by_run req2 action UserEntity (Some (ui_id u)) (Some (ui_username u)) w2 H2)
    as (wb & -> & Hb).
  cbn. by rewrite Ha, Hb.
Qed.
End Callers.

(** ** Witnesses

    Alice is signed in; Olga is an operator with the users scope, signed in
    with her cookies, and makes herself an administrator. *)

#[local] Instance csrf1 : CsrfLibrary := {|
  new_token_names := fun c h => Ok (mkTokenNames c h);
  forge_token_names := mkTokenNames "csrf" "x-csrf";
  is_unsafe_method := fun m =>
    negb (existsb (fun safe => eqb safe m) ["GET"; "HEAD"; "OPTIONS"; "TRACE"]%string);
  double_submit := fun req names =>
    match cookie req (cookie_name names), header req (header_name names) with
    | None, _ => Err (mkCsrfError CookieMissing "missing CSRF cookie")
    | _, None => Err (mkCsrfError HeaderMissing "missing CSRF header")
    | Some c, Some h =>
        if negb (is_empty c) && eqb c h then Ok tt
        else Err (mkCsrfError TokenInvalid "invalid CSRF token")
    end;
  source_allowed := fun _ _ _ => Ok tt;
  build_csrf_token := fun n => ("csrf-" +:+ pretty n)
|}.
#[local] Instance csrf1_laws : CsrfLaws csrf1.
Proof.
  split; cbn.
  - intros m Hm. repeat destruct Hm as [<-|Hm]; done.
  - intros req names. destruct (cookie _ _) as [c|], (header _ _) as [h|];
      try (split; [done|intros (t & ? & ? & ?); done]).
    destruct (is_empty c) eqn:Ec; cbn.
    + apply is_empty_true in Ec as ->. split; [done|]. intros (t & ? & [= <-] & ?). done.
    + destruct (eqb c h) eqn:E; [rewrite eqb_true in E|rewrite eqb_false in E].
      * subst h. split; [intros _; exists c|done]. split_and!; try done. by intros ->.
      * split; [done|]. intros (t & ? & [= <-] & [= <-]). done.
  - intros req names m. destruct (cookie req (cookie_name names)), (header req (header_name names)); try done.
    by destruct (_ && _).
Qed.
#[local] Instance csrf_started1 : CsrfStarted := {| csrf_lock := None |}.
#[local] Instance pages1 : ForgePages := {|
  limit_or := fun l d m => Z.min (default d l) m;
  parse_datetime_id_cursor := fun t id _ =>
    match t, id with Some t, Some id => Ok (Some (t, id)) | _, _ => Ok None end;
  parse_datetime_string_cursor := fun t id _ =>
    match t, id with Some t, Some id => Ok (Some (t, id)) | _, _ => Ok None end
|}.
#[local] Instance validator1 : Validator := {| valid_email := contains_char "@"%char |}.
#[local] Instance avatars1 : AvatarImages := {|
  avatar_image := string;
  guess_format := fun _ => None;
  decode_limited := fun _ s => Ok s;
  decode_default := fun s => Ok s;
  image_dimensions := fun _ => (1, 1);
  crop_imm := fun i _ _ _ _ => i;
  resize_exact := fun i _ _ => i;
  write_webp := fun i => Ok i
|}.
#[local] Existing Instance profile_externs1.
#[local] Existing Instance config0.
#[local] Existing Instance Captcha.captcha_library0.
#[local] Existing Instance PasskeyProofs.webauthn1.

Definition alice_request : ApiRequest :=
  mkApiRequest request0 "PUT" "/api/v1/auth/password"
    [(ACCESS_COOKIE, access_token (fst signed_in)); ("aster_yggdrasil_csrf", "abc")]%string [] None.

Definition refused_change : outcome AsterError.t unit * World :=
  serve_write (CwChangePassword "secret" "password2") alice_request (snd signed_in).

Lemma cookie_writes_need_csrf_witness :
  is_ok (fst refused_change) = false /\ db (snd refused_change) = db (snd signed_in).
Proof.
  destruct (cookie_writes_need_csrf (CwChangePassword "secret" "password2") alice_request
    (snd signed_in) (fst refused_change) (snd refused_change)) as [H Hs].
  - vm_compute. reflexivity.
  - intros (t & _ & _ & H). vm_compute in H. discriminate.
  - apply surjective_pairing.
  - split; [exact H|symmetry; apply (same_db _ _ Hs)].
Defined.

Definition olga : user :=
  mkUser 2 "olga-uuid" "olga" (Some "olga@example.org"%string) "secret" Operator Types.UserActive
    false 1 (Some 0) None 0 0.
Definition olga_world : World :=
  set_db (set_operator_scopes (mkTable [mkOperatorScope 1 2 ScopeUsers 0] 2)
            (set_users (mkTable [alice; olga] 3) db0)) world0.
Definition olga_signed_in : AuthTokenBundle * World :=
  run_of no_bundle (login "olga" "secret" request0 olga_world).

Definition promotion : AdminUpdateUserInput := mkAdminUpdate None None None (Some Admin) None None None.

Definition olga_request : ApiRequest :=
  mkApiRequest request0 "PATCH" "/api/v1/admin/users/2"
    [(ACCESS_COOKIE, access_token (fst olga_signed_in)); ("aster_yggdrasil_csrf", "abc")]%string
    [("x-aster-yggdrasil-csrf", "abc")]%string None.

(** The routes of one account, on Olga's. *)
Definition handle1 (scope : string) (r : string * string) : Service AdminUserInfo := fun req =>
  if eqb r ("PATCH", "/{id}")%string then update_user_route req 2 promotion
  else if eqb r ("GET", "/{id}")%string then get_user_route 2
  else throw (AsterError.InternalError "not served").

Definition promoted : outcome AsterError.t (HttpResponse AdminUserInfo) * World :=
  admin_routes handle1 olga_request (snd olga_signed_in).

Lemma admin_routes_guarded_witness :
  (exists info, fst promoted = Ok (ok_response info) /\ ui_id info = 2 /\ ui_role info = Admin) /\
  (exists s u, caller olga_request (snd olga_signed_in) u /\
     may_administer (scope_required s) (snd olga_signed_in) u).
Proof.
  assert (H : exists info, fst promoted = Ok (ok_response info) /\ ui_id info = 2 /\
                ui_role info = Admin) by (vm_compute; eexists; split_and!; reflexivity).
  split; [exact H|]. destruct H as (info & Hp & _).
  assert (E : admin_routes handle1 olga_request (snd olga_signed_in) = (fst promoted, snd promoted))
    by (unfold promoted; apply surjective_pairing).
  apply admin_routes_guarded in E as [[_ Hn]|(s & rt & rest & u & i & w1 & H)].
  - specialize (Hn _ Hp). discriminate Hn.
  - exists s, u. split; apply H.
Defined.

(** An administrator, and Olga, the operator. *)
Definition admin1 : user :=
  mkUser 1 "admin-uuid" "ada" (Some "ada@example.org"%string) "secret" Admin Types.UserActive
    false 1 (Some 0) None 0 0.
Definition by_caller (u : user) (scopes : list OperatorScope) : ApiRequest :=
  with_user (mkAuthUser (user_pk u) (username u) (email u) true None (role u) scopes
               (user_status u) false default_user_profile_info) olga_request.

Lemma user_updates_ignore_caller_witness :
  is_ok (fst (update_user_route (by_caller olga [ScopeUsers]) 2 promotion olga_world)) = true /\
  fst (update_user_route (by_caller admin1 []) 2 promotion olga_world) =
    fst (update_user_route (by_caller olga [ScopeUsers]) 2 promotion olga_world).
Proof.
  split; [vm_compute; reflexivity|].
  by apply (user_updates_ignore_caller (by_caller admin1 []) (by_caller olga [ScopeUsers])).
Defined.

(** ** The site's own writes

    The handlers of a user's profiles, wardrobe and library contributions only
    ask who is signed in: an access cookie is enough to delete a profile, with
    no CSRF token, while the account's and the administrator's writes demand
    one. *)

Definition site_request : ApiRequest :=
  mkApiRequest request0 "DELETE" ("/api/v1/profiles/minecraft/" +:+ uuid alex)
    [(ACCESS_COOKIE, access_token (fst signed_in))] [] None.

Theorem profile_deleted_without_csrf :
  ~ double_submitted site_request /\
  fst (delete_minecraft_profile site_request (uuid alex) (snd signed_in)) = Ok no_content /\
  rows (profiles (db (snd signed_in))) = [alex] /\
  rows (profiles (db (snd (delete_minecraft_profile site_request (uuid alex) (snd signed_in))))) = [].
Proof.
  split; [|vm_compute; repeat split].
  intros (t & _ & H & _). vm_compute in H. discriminate.
Qed.
